(* ===== verification/_CoqProject ===== *)
-Q . S2P
Prelude.v
BitOps.v
Crc.v
HdlcFrame.v
HdlcRx.v
HdlcDecode.v
HdlcTx.v
HdlcLink.v
Ring.v
Queue.v
Bitstream.v
Async.v
T38Core.v
T38Link.v
NonEcm.v
NonEcmImage.v
DataStream.v
Dle.v
EngineBase.v
PmHdlc.v
PmHdlcTx.v
PmHdlcRx.v
PmHdlcLink.v
T30.v
PmHdlcTotal.v
ModStream.v
T38Engine.v
T38EngineSafe.v
T38EngineCalls.v
T38Signal.v
T38Send.v
T38Receive.v
T38Reader.v
T38Call.v
T38Loss.v
V42bis.v
V42bisDict.v
V42bisNodes.v
V42bisTx.v
V42bisRx.v
V42bisLink.v
V42bisTrip.v
V42bisSafe.v
T4Tables.v
T4Base.v
T4Tx.v
T4Rx.v
T4Spec.v
T4Changes.v
T4Out.v
T4Modes.v
T4Rows.v
T4Page.v
T4Words.v
T4Line.v
T4Pixels.v
T4Row.v
T4Codes.v
T4TwoD.v
T4Lines.v
T4PageRx.v
T4Trip.v
T4Format.v
Profile.v
AtText.v
G711.v
ModemBase.v
ModemCalls.v
AtBase.v
AtClass.v
AtDial.v
AtCmd.v
ModemData.v
ModemCheck.v
ModemSpec.v
ModemSafe.v
AtSafe.v
ModemSystem.v
AtRegs.v
DataSend.v
