(* ===== verification/Prelude.v ===== *)
(** * A verification library for t38modem and its fax library spandsp

    t38modem (src/t38modem/) shows fax programs a class 1 fax modem on a pseudo
    terminal and carries what the modem says over T.38, the fax protocol of IP
    networks.  src/spandsp-0.0.6/ is the fax and telephony library that it is built
    with, for faxes over G.711; src/opal/ and src/ptlib/ are the call control and
    the portability libraries below it.

    This library has Rocq definitions translated from the sources, operation by
    operation, executable, and theorems about them.

    ** The parts and how they meet

    A fax program writes octets and AT commands to the modem, whose body
    (pmodeme.cxx, class ModemEngineBody) is the [Modem*] and [At*] files: its state
    with the [Profile] of S-registers, its handlers, which the program's thread, the
    endpoint of the calls, the engines and the timers run against one mutex, and
    their interleaving.  Fax data have DLE characters shielded (dle.cxx, [Dle]), voice
    data are companded (g711.c, [G711]); they go into data streams (pmutils.cxx,
    [DataStream]) that the T.38 engine (t38engine.cxx, [T38Engine]) empties
    into T.38 packets, as octets, as HDLC frames, or through the packer of the
    modem (hdlc.cxx, [PmHdlc]) as raw bits of a modulation.  Packets that come in
    fill one [ModStream] per signal (t38engine.cxx, [ModStream]), frame by frame,
    from which the modem reads.  [T30] watches the control frames for the mode of
    the image data.  [EngineBase] has the types all of them share.

    In spandsp: the check sequences ([Crc], [BitOps]); HDLC at the line ([HdlcRx],
    [HdlcTx], with the line format in [HdlcFrame]); start and stop bits ([Async]);
    queues ([Queue], on rings, [Ring]) and bit fields ([Bitstream]); the packets of
    T.38 ([T38Core]) and the buffer of a gateway for image data ([NonEcm]); the
    V.42bis compressor and decompressor ([V42bis]); the coding of fax images of T.4
    and T.6 ([T4Tx], [T4Rx]), with the rows of pixels on one side and on the other
    the octets that HDLC or the non-ECM signals carry.

    The handlers of the modem's body are programs over its state that call the
    engines, the endpoint and the clock ([ModemBase]): a theorem about them is for
    any answers to these calls, and those about the whole modem for any handlers of
    its other threads wherever the mutex is released.  [T38Engine] has what the calls
    to the T.38 engine do.

    ** Files

    Each component has a file with its state as a record (the fields of the C
    structure or C++ class), its operations under their names in the source, and
    the lemmas about one operation.  Larger theorems have files of their own:

    - BitOps, Crc: src/bit_operations.c, src/crc.c.  The table driven checks equal
      their bitwise definition; appending and checking agree exactly; bursts are
      detected.
    - HdlcFrame (line format), HdlcRx, HdlcTx: src/hdlc.c.  HdlcDecode: the
      receiver on a well-formed line.  HdlcLink: framer and receiver end to end.
    - Ring, Queue: src/queue.c refines lists of octets and of messages.
    - Bitstream, Async: src/bitstream.c, src/async.c, with round trips.
    - T38Core: src/t38_core.c, safety on any packet, the sequence number rules.
      T38Link: packets from the encoder to the decoder.
    - NonEcm, NonEcmImage: src/t38_non_ecm_buffer.c, a list view and the image
      that arrives, up to fill.
    - DataStream, Dle: t38modem/pmutils.*, t38modem/dle.*.  A chunked stream on a
      heap is a queue ([pipe]); the interface that Dle and the engine use.
    - EngineBase, T30: t38modem/enginebase.h, t30.cxx.
    - PmHdlc, PmHdlcTx, PmHdlcRx, PmHdlcTotal: t38modem/hdlc.cxx, fcs.cxx: the
      frame sent, the frame found, termination of the loops.  PmHdlcLink: against
      itself and against the HDLC receiver of spandsp.
    - ModStream: the streams of a received signal, and what their operations keep.
    - T38Engine: t38engine.cxx and enginebase.cxx, every call under the engine's
      mutex a step.  T38EngineSafe, T38EngineCalls: no call in any order uses a
      deleted stream, divides by zero or loses a stream.
    - T38Signal, T38Send, T38Receive, T38Reader, T38Call, T38Loss: two engines and
      the packets between them; a V.21 signal (the control frames of a fax) read
      by one modem is what the other handed over, and with packets lost, each
      frame read is one handed over or is marked as bad.
    - V42bis with V42bisDict, V42bisNodes (the dictionary as a table), V42bisTx
      (with the bit buffers), V42bisRx, V42bisLink, V42bisTrip: src/v42bis.c, both
      directions, in step, up to the round trip.  The round trip is for
      dictionaries of a power of two and one flush at the end, and in the dynamic
      mode for at most 2000 octets.  V42bisSafe: with such a dictionary
      v42bis_compress and v42bis_compression_control, in any sequence, never leave
      the arrays, whatever the data; and where the code goes wrong outside the
      conditions of these theorems.
    - T4Tables: the code tables, the states of the decoder and the font of the
      header (src/t4_tx.c, t4_t6_decode_states.h, faxfont.h); T4Base: arrays.  T4Tx:
      src/t4_tx.c; T4Rx: src/t4_rx.c.  T4Spec: the format of T.4 and T.6, from the
      recommendations.  T4Changes, T4Out, T4Modes, T4Rows, T4Page: the encoder from
      the runs of a row to the line of a page.  T4Words: no code word, nor two in a
      row, looks like an EOL.  T4Line: the steps of the decoder do not depend on how
      the bits come in.  T4Pixels, T4Row, T4Codes, T4TwoD, T4Lines,
      T4PageRx: the decoder from runs to pixels, words, rows of one and two
      dimensions, the EOLs between rows and the page.  T4Trip: the round trip, and
      what is lost outside its conditions; T4Format: each half against the format.
    - Profile, AtText: the S-registers, and the text of commands (pmodeme.cxx);
      G711: t38modem/g711.c, with the error of the companding.  ModemBase: the state
      of class ModemEngineBody, the monad of its handlers, the members they all
      use, and runs of one handler by itself.  ModemCalls: engines, the hook,
      requests, callbacks, answering.  AtBase, AtClass, AtDial, AtCmd: HandleCmd and
      the AT commands.  ModemData: HandleData.  ModemCheck: CheckState,
      CheckStatePost and the thread's loop.
    - ModemSpec: the table at enum CallState as a relation, what the shared state
      keeps, and the proof rule for a handler among others.  ModemSafe, AtSafe:
      every handler of calls and every command against it.  ModemSystem: those of
      data and of the states, and the threads interleaved; the table is kept, no
      command leaves its text, the invariants.
    - AtDial also has what a dial string means.  AtRegs: a line that sets and reads a
      register, from its text to the answer.  DataSend: the user's data, from the
      shielded octets to the engine.

    ** Conventions

    A [w]-bit unsigned integer is a [Z] in [[0, 2^w)], with [wrap w] where C wraps;
    a signed one is a [Z] with [swrap w] for the cast.  An octet is such a [Z].
    Arrays are lists; out of range accesses are [None] or are proved not to occur.
    Callbacks are parameters over a user's state, or the events an operation
    returns in order.  The members of the T.38 engine take its mutex, so that each
    is one step; between the parts of a member that releases it, a parameter stands
    for what other threads do.  A handler of the modem's body is a tree of calls,
    with the state at each of them; where a call releases the mutex (Mutex.Signal,
    the beginning of a scope with a lock, an unlocked read of the state) it resumes
    with any state that the other handlers may leave.  A lock that is taken again
    within one counts as such a point too, which only adds interleavings.

    Loops whose bound is not structural run on fuel.  The fuel given is computed
    from the state (bits left, dictionary size, octets asked for, rows held) and
    there is a theorem for each that it is enough: [extend_row_ends] in NonEcmImage,
    the totality lemmas of PmHdlcTotal, [engine_safe], and
    [v42bis_compress_well_formed] and [t4_roundtrip], in which running out of fuel
    would be [None].  The loops on a command line have as many turns as there are
    characters, and [never_faults] says that they need no more.  The loops of the
    modem that only their environment ends (an engine that is still in its callback,
    an engine that always has data, the thread's own loop) ask the environment for a
    number of turns; the theorems on interleavings are for every number, and
    [fax_data_sent] is for any that exceeds the octets.

    ** Not modelled

    - src/t38modem: the drivers of pseudo terminals and virtual serial ports, the
      threads that move octets between them and the modem's body, the audio codec
      channel, the tone generator and detector, the endpoints that connect the
      engines to OPAL and OpenH323, the main process: input and output, threads, and
      calls of libraries.
    - src/spandsp-0.0.6: the modems, tone detectors and echo cancellers, which are
      floating point signal processing; the speech codecs; the T.30 and T.31
      state machines, the T.38 terminal and gateway, which drive the former; TIFF
      files as the source or the destination of images (a library's), and the text
      of the header of a page (the time and the idents).
    - src/opal, src/ptlib: third-party libraries, for the most part generated from
      ASN.1 or for other platforms; t38modem only calls them.
*)
From Stdlib Require Export ZArith Lia Bool.
From stdpp Require Export base numbers list option.
From stdpp Require Import tactics.

#[global] Open Scope Z_scope.

(** ** Machine integers

    A [w]-bit unsigned C integer is a [Z] in [[0, 2^w)]; the cast
    [(uintw_t) x] is [wrap w x].  A signed [w]-bit integer is a [Z] in
    [[-2^(w-1), 2^(w-1))]; the (two's complement) cast is [swrap w x]. *)

Definition wrap (w x : Z) : Z := x mod 2 ^ w.
Definition swrap (w x : Z) : Z := (x + 2 ^ (w - 1)) mod 2 ^ w - 2 ^ (w - 1).

Declare Scope c_scope.
Delimit Scope c_scope with C.
Notation "'u8' x" := (wrap 8 x) (at level 9, x at level 9) : c_scope.
Notation "'u16' x" := (wrap 16 x) (at level 9, x at level 9) : c_scope.
Notation "'u32' x" := (wrap 32 x) (at level 9, x at level 9) : c_scope.
Notation "'s16' x" := (swrap 16 x) (at level 9, x at level 9) : c_scope.
Notation "a .& b" := (Z.land a b) (at level 40, left associativity) : c_scope.
Notation "a .| b" := (Z.lor a b) (at level 50, left associativity) : c_scope.
Notation "a .^ b" := (Z.lxor a b) (at level 50, left associativity) : c_scope.
Notation "a .<< n" := (Z.shiftl a n) (at level 37, left associativity) : c_scope.
Notation "a .>> n" := (Z.shiftr a n) (at level 37, left associativity) : c_scope.
#[global] Open Scope c_scope.

(** ** Octets *)

Definition is_byte (b : Z) : Prop := 0 <= b < 256.
Abbreviation bytes := (Forall is_byte).

#[global] Instance is_byte_dec b : Decision (is_byte b).
Proof. unfold is_byte. apply _. Defined.

(** Proves a decidable closed proposition by evaluation. *)
Ltac by_decide := apply (bool_decide_unpack _); vm_compute; exact I.

Create HintDb bits discriminated.

(** ** Bits of the machine operations *)

Lemma testbit_wrap w x i : 0 <= w -> 0 <= i ->
  Z.testbit (wrap w x) i = (i <? w) && Z.testbit x i.
Proof.
  intros Hw Hi. unfold wrap. destruct (Z.ltb_spec i w).
  - by rewrite Z.mod_pow2_bits_low by lia.
  - by rewrite Z.mod_pow2_bits_high by lia.
Qed.

Lemma testbit_shiftr x n i : 0 <= i -> Z.testbit (x .>> n) i = Z.testbit x (i + n).
Proof. apply Z.shiftr_spec. Qed.

Lemma testbit_shiftl x n i : 0 <= i ->
  Z.testbit (x .<< n) i = (n <=? i) && Z.testbit x (i - n).
Proof.
  intros Hi. rewrite Z.shiftl_spec by done. destruct (Z.leb_spec n i); [done|].
  by rewrite Z.testbit_neg_r by lia.
Qed.

Lemma testbit_ones n i : 0 <= n -> Z.testbit (Z.ones n) i = (0 <=? i) && (i <? n).
Proof.
  intros Hn. destruct (Z.leb_spec 0 i); [|by rewrite Z.testbit_neg_r by lia].
  destruct (Z.ltb_spec i n).
  - by rewrite Z.ones_spec_low by lia.
  - by rewrite Z.ones_spec_high by lia.
Qed.

(** A number below [2^w] has no bit at [w] or above. *)
Lemma testbit_high w x i : 0 <= x < 2 ^ w -> w <= i -> Z.testbit x i = false.
Proof.
  intros Hx Hi. destruct (decide (w < 0)).
  { rewrite Z.pow_neg_r in Hx by done. lia. }
  rewrite <- (Z.mod_small x (2 ^ w)) by done. apply Z.mod_pow2_bits_high; lia.
Qed.

(** Rewrites the bit of every machine operation at a non-negative index. *)
Ltac bit_specs :=
  repeat first
    [ rewrite Z.lxor_spec | rewrite Z.land_spec | rewrite Z.lor_spec
    | rewrite Z.lnot_spec by lia | rewrite testbit_shiftr by lia
    | rewrite testbit_shiftl by lia | rewrite testbit_wrap by lia
    | rewrite testbit_ones by lia | rewrite Z.bits_0 ].

(** Equality of two integers, bit by bit. *)
Ltac bitwise i :=
  apply Z.bits_inj'; let Hi := fresh "Hi" in intros i Hi; bit_specs.

Lemma wrap_id w x : 0 <= x < 2 ^ w -> wrap w x = x.
Proof. apply Z.mod_small. Qed.

Lemma wrap_range w x : 0 <= w -> 0 <= wrap w x < 2 ^ w.
Proof. intros. apply Z.mod_pos_bound. by apply Z.pow_pos_nonneg. Qed.

Lemma wrap_land w x : 0 <= w -> wrap w x = x .& Z.ones w.
Proof. intros. symmetry. by apply Z.land_ones. Qed.

Lemma land_255 x : x .& 0xFF = wrap 8 x.
Proof. by rewrite wrap_land. Qed.

Lemma wrap_wrap v w x : 0 <= v <= w -> wrap v (wrap w x) = wrap v x.
Proof.
  intros. bitwise i. destruct (Z.ltb_spec i v), (Z.ltb_spec i w); auto; lia.
Qed.

Lemma swrap_id w x : 0 < w -> - 2 ^ (w - 1) <= x < 2 ^ (w - 1) -> swrap w x = x.
Proof.
  intros Hw Hx. unfold swrap.
  assert (2 ^ w = 2 * 2 ^ (w - 1)) as ->.
  { rewrite <- Z.pow_succ_r by lia. f_equal. lia. }
  rewrite Z.mod_small; lia.
Qed.

Lemma swrap_range w x : 0 < w -> - 2 ^ (w - 1) <= swrap w x < 2 ^ (w - 1).
Proof.
  intros Hw. unfold swrap.
  assert (2 ^ w = 2 * 2 ^ (w - 1)) as E.
  { rewrite <- Z.pow_succ_r by lia. f_equal. lia. }
  pose proof (Z.mod_pos_bound (x + 2 ^ (w - 1)) (2 ^ w)).
  assert (0 < 2 ^ (w - 1)) by (apply Z.pow_pos_nonneg; lia). lia.
Qed.

(** Any [w]-bit mask keeps a value inside [w] bits. *)
Lemma land_range w x m : 0 <= w -> 0 <= m < 2 ^ w -> 0 <= x .& m < 2 ^ w.
Proof.
  intros Hw Hm. assert (x .& m = wrap w (x .& m)) as ->; [|by apply wrap_range].
  bitwise i. destruct (Z.ltb_spec i w); [done|].
  by rewrite (testbit_high w m), andb_false_r by lia.
Qed.

Lemma lxor_range w x y : 0 <= w -> 0 <= x < 2 ^ w -> 0 <= y < 2 ^ w ->
  0 <= x .^ y < 2 ^ w.
Proof.
  intros Hw Hx Hy. assert (x .^ y = wrap w (x .^ y)) as ->; [|by apply wrap_range].
  bitwise i. destruct (Z.ltb_spec i w); [done|].
  by rewrite (testbit_high w x), (testbit_high w y) by lia.
Qed.

Lemma lor_range w x y : 0 <= w -> 0 <= x < 2 ^ w -> 0 <= y < 2 ^ w ->
  0 <= x .| y < 2 ^ w.
Proof.
  intros Hw Hx Hy. assert (x .| y = wrap w (x .| y)) as ->; [|by apply wrap_range].
  bitwise i. destruct (Z.ltb_spec i w); [done|].
  by rewrite (testbit_high w x), (testbit_high w y) by lia.
Qed.

Lemma shiftr_range w x n : 0 <= n -> 0 <= x < 2 ^ w -> 0 <= x .>> n < 2 ^ w.
Proof.
  intros Hn Hx. rewrite Z.shiftr_div_pow2 by done.
  assert (0 < 2 ^ n) by (by apply Z.pow_pos_nonneg). split.
  - apply Z.div_pos; lia.
  - apply Z.le_lt_trans with x; [|lia]. apply Z.div_le_upper_bound; nia.
Qed.

Lemma shiftr_small w x n : 0 <= n -> 0 <= x < 2 ^ (w + n) -> 0 <= w -> 0 <= x .>> n < 2 ^ w.
Proof.
  intros Hn Hx Hw. rewrite Z.shiftr_div_pow2 by done.
  assert (0 < 2 ^ n) by (by apply Z.pow_pos_nonneg).
  rewrite Z.pow_add_r in Hx by done. split.
  - apply Z.div_pos; lia.
  - apply Z.div_lt_upper_bound; lia.
Qed.

(** A test of one bit with a mask. *)
Lemma land_pow2_eqb x k : 0 <= k -> (x .& 2 ^ k =? 0) = negb (Z.testbit x k).
Proof.
  intros Hk. destruct (Z.testbit x k) eqn:E; cbn [negb].
  - apply Z.eqb_neq. intros H. apply (f_equal (fun y => Z.testbit y k)) in H.
    by rewrite Z.land_spec, E, Z.pow2_bits_true, Z.bits_0 in H.
  - apply Z.eqb_eq. bitwise i. rewrite Z.pow2_bits_eqb by done.
    destruct (Z.eqb_spec k i) as [<-|]; [by rewrite E|by rewrite andb_false_r].
Qed.

(** A number with no bit at [w] or above is below [2^w]. *)
Lemma range_of_bits w x : 0 <= w -> (forall i, w <= i -> Z.testbit x i = false) -> 0 <= x < 2 ^ w.
Proof.
  intros Hw H. assert (x = wrap w x) as ->; [|by apply wrap_range].
  bitwise i. destruct (Z.ltb_spec i w); [done|]. by apply H.
Qed.

Lemma is_byte_u8 x : is_byte (u8 x).
Proof. unfold is_byte. change 256 with (2 ^ 8). by apply wrap_range. Qed.

#[export] Hint Resolve wrap_range land_range lxor_range lor_range is_byte_u8 : bits.

(** ** C arrays

    An array is the list of its elements.  [aget] and [aset] are the C
    accesses at an index; a theorem on each component says that the indices
    it uses are inside the array (outside, C leaves the access undefined). *)

Definition aget (a : list Z) (i : Z) : Z := nth (Z.to_nat i) a 0.
Definition aset (a : list Z) (i v : Z) : list Z := <[Z.to_nat i := v]> a.

(** [memcpy (dst + i, src, length src)]. *)
Fixpoint memcpy (dst : list Z) (i : Z) (src : list Z) : list Z :=
  match src with
  | [] => dst
  | v :: src => memcpy (aset dst i v) (i + 1) src
  end.

(** The [n] octets at [a + i]. *)
Definition slice (a : list Z) (i n : Z) : list Z := take (Z.to_nat n) (drop (Z.to_nat i) a).
Abbreviation zlen l := (Z.of_nat (length l)).

Lemma length_aset a i v : length (aset a i v) = length a.
Proof. apply length_insert. Qed.

Lemma aget_aset a i j v : 0 <= i < zlen a -> 0 <= j ->
  aget (aset a i v) j = if i =? j then v else aget a j.
Proof.
  intros Hi Hj. unfold aget, aset. rewrite !nth_lookup.
  destruct (Z.eqb_spec i j) as [->|].
  - by rewrite list_lookup_insert_eq by lia.
  - by rewrite list_lookup_insert_ne by lia.
Qed.

Lemma bytes_aset a i v : bytes a -> is_byte v -> bytes (aset a i v).
Proof. intros Ha Hv. unfold aset. by apply Forall_insert. Qed.

Lemma bytes_aget a i : bytes a -> is_byte (aget a i).
Proof.
  intros Ha. unfold aget. rewrite nth_lookup.
  destruct (a !! Z.to_nat i) eqn:E; simpl; [|unfold is_byte; lia].
  by eapply Forall_lookup_1 in E.
Qed.

Lemma length_memcpy dst i src : length (memcpy dst i src) = length dst.
Proof.
  revert dst i. induction src as [|v src IH]; intros dst i; simpl; [done|].
  by rewrite IH, length_aset.
Qed.

Lemma bytes_memcpy dst i src : bytes dst -> bytes src -> bytes (memcpy dst i src).
Proof.
  intros Hd Hs. revert dst i Hd. induction Hs; intros; simpl; [done|].
  apply IHHs. by apply bytes_aset.
Qed.

(** Reading parts of an array. *)
Lemma length_slice a i n : 0 <= i -> 0 <= n -> i + n <= zlen a -> zlen (slice a i n) = n.
Proof. intros. unfold slice. rewrite length_take, length_drop. lia. Qed.

Lemma bytes_slice a i n : bytes a -> bytes (slice a i n).
Proof. intros. unfold slice. by apply Forall_take, Forall_drop. Qed.

Lemma aget_app_l a b i : 0 <= i < zlen a -> aget (a ++ b) i = aget a i.
Proof. intros. unfold aget. apply app_nth1. lia. Qed.

Lemma slice_app_l a b i n : 0 <= i -> 0 <= n -> i + n <= zlen a -> slice (a ++ b) i n = slice a i n.
Proof.
  intros. unfold slice. rewrite drop_app_le by lia. apply take_app_le. rewrite length_drop. lia.
Qed.

Lemma aget_mid pre l post i : 0 <= i < zlen l -> aget (pre ++ l ++ post) (zlen pre + i) = aget l i.
Proof.
  intros. unfold aget. replace (Z.to_nat (zlen pre + i)) with (length pre + Z.to_nat i)%nat by lia.
  rewrite app_nth2_plus. apply app_nth1. lia.
Qed.

Lemma aget_0 x l : aget (x :: l) 0 = x.
Proof. done. Qed.

Lemma aget_1 x y l : aget (x :: y :: l) 1 = y.
Proof. done. Qed.

Lemma slice_mid pre l post : slice (pre ++ l ++ post) (zlen pre) (zlen l) = l.
Proof. unfold slice. by rewrite !Nat2Z.id, drop_app_length, take_app_length. Qed.

(** A [memcpy] that stays inside the destination replaces that part of it. *)
Lemma memcpy_spec dst i src : 0 <= i -> i + zlen src <= zlen dst ->
  memcpy dst i src = take (Z.to_nat i) dst ++ src ++ drop (Z.to_nat (i + zlen src)) dst.
Proof.
  revert dst i. induction src as [|v src IH]; intros dst i Hi Hlen; simpl.
  - replace (i + Z.of_nat 0) with i by lia. by rewrite take_drop.
  - simpl in Hlen. rewrite IH by (rewrite ?length_aset; lia).
    unfold aset. replace (Z.to_nat (i + 1)) with (S (Z.to_nat i)) by lia.
    erewrite (take_S_r _ _ v) by (apply list_lookup_insert_eq; lia).
    rewrite take_insert_ge by lia. rewrite drop_insert_lt by lia.
    rewrite <- app_assoc. simpl. do 4 f_equal. lia.
Qed.

(** ** Record update

    [s <| f := v |>] is [s] with the field [f] changed to [v] (the C
    assignment [s->f = v]).  A record opts in with an instance of [Eta], which
    rebuilds it from its fields; the setters are derived from it. *)

Class Eta (R : Type) := eta : R -> R.
Class Setter {R T : Type} (f : R -> T) := update : (T -> T) -> R -> R.
#[global] Hint Mode Setter - - + : typeclass_instances.

Ltac derive_setter :=
  match goal with
  | |- @Setter ?R ?T ?f =>
      let body := constr:(fun (g : T -> T) (r : R) =>
        ltac:(let e := eval cbv beta delta [eta] in (@eta R _ r) in
              let e := eval hnf in e in
              match (eval pattern (f r) in e) with
              | ?h _ => let e' := eval cbv beta in (h (g (f r))) in exact e'
              end)) in
      exact body
  end.
#[global] Hint Extern 0 (Setter _) => derive_setter : typeclass_instances.

#[warnings="-postfix-notation-not-level-1"]
Notation "s <| f := v |>" := (update (f := f) (fun _ => v) s)
  (at level 12, f at level 9, v at level 200, left associativity,
   format "s  <| f  :=  v |>").

(** ** Bit sequences

    Serial lines carry one bit at a time.  [lsb_bits n x] is the low [n] bits
    of [x], least significant first, [msb_bits n x] the same, most significant
    first; [of_lsb] reads a least-significant-first sequence back. *)

Fixpoint lsb_bits (n : nat) (x : Z) : list bool :=
  match n with
  | O => []
  | S n => Z.odd x :: lsb_bits n (Z.div2 x)
  end.

Fixpoint msb_bits (n : nat) (x : Z) : list bool :=
  match n with
  | O => []
  | S n => Z.testbit x (Z.of_nat n) :: msb_bits n x
  end.

Fixpoint of_lsb (l : list bool) : Z :=
  match l with
  | [] => 0
  | b :: l => Z.b2z b + 2 * of_lsb l
  end.

Lemma length_lsb_bits n x : length (lsb_bits n x) = n.
Proof. revert x. induction n; intros; simpl; auto. Qed.

Lemma length_msb_bits n x : length (msb_bits n x) = n.
Proof. induction n; simpl; auto. Qed.

Lemma of_lsb_bits n x : of_lsb (lsb_bits n x) = wrap (Z.of_nat n) x.
Proof.
  revert x. induction n as [|n IH]; intros x.
  - simpl. unfold wrap. by rewrite Z.mod_1_r.
  - cbn [lsb_bits of_lsb]. rewrite IH. unfold wrap.
    rewrite Nat2Z.inj_succ, Z.pow_succ_r by lia.
    rewrite (Z.rem_mul_r x 2 (2 ^ Z.of_nat n)) by (try apply Z.pow_pos_nonneg; lia).
    rewrite Z.div2_div. f_equal. rewrite Zmod_odd. by destruct (Z.odd x).
Qed.

Lemma of_lsb_byte b : is_byte b -> of_lsb (lsb_bits 8 b) = b.
Proof. intros. rewrite of_lsb_bits. by apply wrap_id. Qed.

Lemma of_lsb_range l : 0 <= of_lsb l < 2 ^ zlen l.
Proof.
  induction l as [|b l IH]; [done|].
  cbn [of_lsb length]. rewrite Nat2Z.inj_succ, Z.pow_succ_r by lia.
  destruct b; simpl Z.b2z; lia.
Qed.

Lemma testbit_of_lsb l i : 0 <= i ->
  Z.testbit (of_lsb l) i = nth (Z.to_nat i) l false.
Proof.
  revert i. induction l as [|b l IH]; intros i Hi; cbn [of_lsb].
  - rewrite Z.bits_0. by destruct (Z.to_nat i).
  - rewrite Z.add_comm. destruct (decide (i = 0)) as [->|].
    + by rewrite Z.testbit_0_r.
    + replace i with (Z.succ (i - 1)) at 1 by lia.
      rewrite Z.testbit_succ_r by lia. rewrite IH by lia.
      replace (Z.to_nat i) with (S (Z.to_nat (i - 1))) by lia. done.
Qed.

Lemma lookup_lsb_bits n x i : (i < n)%nat ->
  nth i (lsb_bits n x) false = Z.testbit x (Z.of_nat i).
Proof.
  revert x i. induction n as [|n IH]; intros x i Hi; [lia|].
  destruct i as [|i]; cbn [lsb_bits nth].
  - by rewrite Z.bit0_odd.
  - rewrite IH by lia. rewrite Z.div2_spec.
    rewrite Z.shiftr_spec by lia. f_equal. lia.
Qed.

(** ** Little-endian words

    [le_combine bs] is the word whose octets, least significant first, are
    [bs]; [le_split n x] the low [n] octets of [x]. *)

Fixpoint le_combine (l : list Z) : Z :=
  match l with
  | [] => 0
  | b :: l => b .| (le_combine l .<< 8)
  end.

Fixpoint le_split (n : nat) (x : Z) : list Z :=
  match n with
  | O => []
  | S n => u8 x :: le_split n (x .>> 8)
  end.

Lemma length_le_split n x : length (le_split n x) = n.
Proof. revert x. induction n; intros; simpl; auto. Qed.

Lemma bytes_le_split n x : bytes (le_split n x).
Proof. revert x. induction n; intros; simpl; constructor; auto with bits. Qed.

Lemma testbit_le_combine l i : bytes l -> 0 <= i ->
  Z.testbit (le_combine l) i = Z.testbit (nth (Z.to_nat (i / 8)) l 0) (i mod 8).
Proof.
  intros Hl. revert i. induction Hl as [|b l Hb Hl IH]; intros i Hi; cbn [le_combine].
  - rewrite Z.bits_0. destruct (Z.to_nat _); by rewrite Z.bits_0.
  - bit_specs. destruct (Z.leb_spec 8 i).
    + rewrite (testbit_high 8 b) by (try done; lia). rewrite IH by lia.
      replace (i / 8) with (Z.succ ((i - 8) / 8)).
      * rewrite Z2Nat.inj_succ by (apply Z.div_pos; lia). simpl. f_equal.
        replace i with (i - 8 + 1 * 8) at 2 by lia. by rewrite Z_mod_plus_full.
      * replace i with (i - 8 + 1 * 8) at 2 by lia. rewrite Z.div_add by lia. lia.
    + rewrite Z.div_small, Z.mod_small by lia. simpl. by rewrite orb_false_r.
Qed.

Lemma le_combine_range l : bytes l -> 0 <= le_combine l < 2 ^ (8 * zlen l).
Proof.
  induction 1 as [|b l Hb Hl IH]; [done|]. cbn [le_combine length].
  rewrite Nat2Z.inj_succ. apply lor_range; [lia| |].
  - unfold is_byte in Hb. split; [lia|]. apply Z.lt_le_trans with (2 ^ 8); [lia|].
    apply Z.pow_le_mono_r; lia.
  - rewrite Z.shiftl_mul_pow2 by lia.
    replace (8 * Z.succ (zlen l)) with (8 * zlen l + 8) by lia.
    rewrite Z.pow_add_r by lia. nia.
Qed.

Lemma le_split_combine l : bytes l -> le_split (length l) (le_combine l) = l.
Proof.
  induction 1 as [|b l Hb Hl IH]; [done|]. cbn [le_combine length le_split].
  assert (0 <= b < 2 ^ 8) as Hb' by done. f_equal.
  - bitwise i. destruct (Z.ltb_spec i 8); simpl.
    + destruct (Z.leb_spec 8 i); [lia|]. by rewrite orb_false_r.
    + by rewrite (testbit_high 8) by lia.
  - etransitivity; [|exact IH]. f_equal. bitwise i.
    rewrite (testbit_high 8 b) by lia. destruct (Z.leb_spec 8 (i + 8)); [|lia].
    simpl. f_equal. lia.
Qed.

Lemma le_combine_split n x : le_combine (le_split n x) = wrap (8 * Z.of_nat n) x.
Proof.
  revert x. induction n as [|n IH]; intros x; cbn [le_split le_combine].
  - unfold wrap. by rewrite Z.mod_1_r.
  - rewrite IH. bitwise i. destruct (Z.leb_spec 8 i), (Z.ltb_spec i 8); try lia; simpl.
    + bit_specs. replace (i - 8 + 8) with i by lia. f_equal.
      destruct (Z.ltb_spec (i - 8) (8 * Z.of_nat n)), (Z.ltb_spec i (8 * Z.of_nat (S n)));
        try done; lia.
    + bit_specs. rewrite orb_false_r.
      destruct (Z.ltb_spec i (8 * Z.of_nat (S n))); [done|lia].
Qed.

(** ** Exhaustive checks over a range of integers *)

Definition all_below (n : nat) (P : Z -> bool) : bool :=
  forallb (fun k => P (Z.of_nat k)) (seq 0 n).

Lemma all_below_spec n P : all_below n P = true ->
  forall x, 0 <= x < Z.of_nat n -> P x = true.
Proof.
  unfold all_below. rewrite forallb_forall. intros H x Hx.
  rewrite <- (Z2Nat.id x) by lia. apply H. apply in_seq. lia.
Qed.

(** [by_cases_below P] proves [P x = true] for an [x] in [0, n) by evaluation. *)
Ltac by_evaluation n P x :=
  let H := fresh in
  assert (all_below n P = true) as H by (vm_compute; reflexivity);
  apply (all_below_spec n P H x).

Lemma le_split_ext n x y :
  (forall i, 0 <= i < 8 * Z.of_nat n -> Z.testbit x i = Z.testbit y i) ->
  le_split n x = le_split n y.
Proof.
  revert x y. induction n as [|n IH]; intros x y H; [done|]. simpl. f_equal.
  - bitwise i. destruct (Z.ltb_spec i 8); [|done]. rewrite H by lia. done.
  - apply IH. intros i Hi. bit_specs. apply H. lia.
Qed.

(** Or-ing a value above [w] bits into a [w]-bit one is an addition. *)
Lemma lor_shiftl_add w x y : 0 <= w -> 0 <= x < 2 ^ w -> x .| (y .<< w) = x + y * 2 ^ w.
Proof.
  intros Hw Hx. assert (x .& (y .<< w) = 0) as E.
  { bitwise i. destruct (Z.leb_spec w i); simpl; [|by rewrite andb_false_r].
    by rewrite (testbit_high w x) by lia. }
  rewrite <- (Z.lxor_lor _ _ E), <- (Z.add_nocarry_lxor _ _ E).
  by rewrite Z.shiftl_mul_pow2.
Qed.

Lemma le_combine_cons b l : bytes (b :: l) -> le_combine (b :: l) = b + 256 * le_combine l.
Proof.
  intros [Hb Hl]%Forall_cons_1. cbn [le_combine]. rewrite lor_shiftl_add by done. lia.
Qed.

Lemma lsb_bits_app m n x : lsb_bits (m + n) x = lsb_bits m x ++ lsb_bits n (x .>> Z.of_nat m).
Proof.
  revert x. induction m as [|m IH]; intros x.
  - simpl. by rewrite Z.shiftr_0_r.
  - cbn [lsb_bits Nat.add]. rewrite IH. simpl. do 3 f_equal.
    rewrite Z.div2_spec.
    rewrite Z.shiftr_shiftr by lia. f_equal. lia.
Qed.

Lemma msb_bits_ext n x y : (forall i, 0 <= i < Z.of_nat n -> Z.testbit x i = Z.testbit y i) ->
  msb_bits n x = msb_bits n y.
Proof.
  induction n as [|n IH]; intros H; [done|]. cbn [msb_bits]. f_equal.
  - apply H. lia.
  - apply IH. intros. apply H. lia.
Qed.

Lemma msb_bits_app m n x : msb_bits (m + n) x = msb_bits m (x .>> Z.of_nat n) ++ msb_bits n x.
Proof.
  induction m as [|m IH]; [done|]. cbn [Nat.add msb_bits app]. rewrite IH. f_equal.
  bit_specs. f_equal. lia.
Qed.

(** Taking the eight oldest of [8 + n] bits. *)
Lemma take_octet o n : msb_bits (8 + n) o = msb_bits 8 ((o .>> Z.of_nat n) .& 0xFF) ++ msb_bits n o.
Proof.
  rewrite msb_bits_app. f_equal. apply msb_bits_ext. intros i Hi. change 0xFF with (Z.ones 8).
  bit_specs. destruct (Z.leb_spec 0 i), (Z.ltb_spec i 8); try lia. by rewrite !andb_true_r.
Qed.

Lemma lsb_bits_ext n x y : (forall i, 0 <= i < Z.of_nat n -> Z.testbit x i = Z.testbit y i) ->
  lsb_bits n x = lsb_bits n y.
Proof.
  revert x y. induction n as [|n IH]; intros x y H; [done|]. cbn [lsb_bits]. f_equal.
  - rewrite <- !Z.bit0_odd. apply H. lia.
  - apply IH. intros i Hi. rewrite !Z.div2_spec. bit_specs. apply H. lia.
Qed.

Lemma lsb_bits_testbit n x i : 0 <= i < Z.of_nat n ->
  Z.testbit x i = nth (Z.to_nat i) (lsb_bits n x) false.
Proof. intros Hi. rewrite lookup_lsb_bits by lia. f_equal. lia. Qed.

Lemma nth_msb_bits n x i : 0 <= i < Z.of_nat n ->
  nth (n - 1 - Z.to_nat i) (msb_bits n x) false = Z.testbit x i.
Proof.
  induction n as [|n IH]; intros Hi; [lia|]. cbn [msb_bits].
  destruct (decide (i = Z.of_nat n)) as [->|].
  - replace (S n - 1 - Z.to_nat (Z.of_nat n))%nat with 0%nat by lia. done.
  - replace (S n - 1 - Z.to_nat i)%nat with (S (n - 1 - Z.to_nat i)) by lia.
    cbn [nth]. apply IH. lia.
Qed.

Lemma nth_msb n x k : (k < n)%nat -> nth k (msb_bits n x) false = Z.testbit x (Z.of_nat n - 1 - Z.of_nat k).
Proof.
  intros Hk. rewrite <- (nth_msb_bits n) by lia. f_equal. lia.
Qed.

(** Within [n] bits the sequences determine the number. *)
Lemma bits_of_range_inj n x y : 0 <= x < 2 ^ Z.of_nat n -> 0 <= y < 2 ^ Z.of_nat n ->
  (forall i, 0 <= i < Z.of_nat n -> Z.testbit x i = Z.testbit y i) -> x = y.
Proof.
  intros Hx Hy H. apply Z.bits_inj'. intros i Hi. destruct (Z_lt_le_dec i (Z.of_nat n)); [by apply H|].
  by rewrite (testbit_high (Z.of_nat n) x), (testbit_high (Z.of_nat n) y) by lia.
Qed.
