(* ===== verification/BitOps.v ===== *)
(** * Bit operations (src/spandsp-0.0.6/src/bit_operations.c and
      spandsp/bit_operations.h)

    The words are unsigned C integers; where the header has an inline assembly
    version of a routine for one processor, the portable C version is the one
    translated ([top_bit], [bottom_bit]). *)
From S2P Require Import Prelude.

(** ** Definitions *)

(** [x] in [[0, 2^32)]; -1 when no bit is set. *)
Definition top_bit (bits : Z) : Z :=
  if bits =? 0 then -1 else
  let step mask k '(bits, res) :=
    if (bits .& mask) =? 0 then (bits, res) else (bits .& mask, res + k) in
  snd (step 0xAAAAAAAA 1 (step 0xCCCCCCCC 2 (step 0xF0F0F0F0 4
      (step 0xFF00FF00 8 (step 0xFFFF0000 16 (bits, 0)))))).

Definition bottom_bit (bits : Z) : Z :=
  if bits =? 0 then -1 else
  let step mask k '(bits, res) :=
    if (bits .& mask) =? 0 then (bits, res) else (bits .& mask, res - k) in
  snd (step 0x55555555 1 (step 0x33333333 2 (step 0x0F0F0F0F 4
      (step 0x00FF00FF 8 (step 0x0000FFFF 16 (bits, 31)))))).

(** The multiply version, in 32 bit unsigned arithmetic. *)
Definition bit_reverse8 (x : Z) : Z :=
  u8 (u32 (((x * 0x0802 .& 0x22110) .| (x * 0x8020 .& 0x88440)) * 0x10101) .>> 16).

Definition bit_reverse16 (x : Z) : Z :=
  let x := u16 ((x .>> 8) .| (x .<< 8)) in
  let x := ((x .& 0xF0F0) .>> 4) .| ((x .& 0x0F0F) .<< 4) in
  let x := ((x .& 0xCCCC) .>> 2) .| ((x .& 0x3333) .<< 2) in
  ((x .& 0xAAAA) .>> 1) .| ((x .& 0x5555) .<< 1).

Definition bit_reverse32 (x : Z) : Z :=
  let x := u32 ((x .>> 16) .| (x .<< 16)) in
  let x := ((x .& 0xFF00FF00) .>> 8) .| ((x .& 0x00FF00FF) .<< 8) in
  let x := ((x .& 0xF0F0F0F0) .>> 4) .| ((x .& 0x0F0F0F0F) .<< 4) in
  let x := ((x .& 0xCCCCCCCC) .>> 2) .| ((x .& 0x33333333) .<< 2) in
  ((x .& 0xAAAAAAAA) .>> 1) .| ((x .& 0x55555555) .<< 1).

Definition bit_reverse_4bytes (x : Z) : Z :=
  let x := ((x .& 0xF0F0F0F0) .>> 4) .| ((x .& 0x0F0F0F0F) .<< 4) in
  let x := ((x .& 0xCCCCCCCC) .>> 2) .| ((x .& 0x33333333) .<< 2) in
  ((x .& 0xAAAAAAAA) .>> 1) .| ((x .& 0x55555555) .<< 1).

Definition bit_reverse_8bytes (x : Z) : Z :=
  let x := ((x .& 0xF0F0F0F0F0F0F0F0) .>> 4) .| ((x .& 0x0F0F0F0F0F0F0F0F) .<< 4) in
  let x := ((x .& 0xCCCCCCCCCCCCCCCC) .>> 2) .| ((x .& 0x3333333333333333) .<< 2) in
  ((x .& 0xAAAAAAAAAAAAAAAA) .>> 1) .| ((x .& 0x5555555555555555) .<< 1).

(** The buffer version (x86_64): 64 bit words first, then 32 bit words, then
    octets; the words are read and written in little-endian order.  [fuel]
    bounds each loop: the length of the buffer is always enough. *)
Fixpoint bit_reverse_words (k : nat) (rev : Z -> Z) (fuel : nat) (from : list Z)
    : list Z * list Z :=
  match fuel with
  | O => ([], from)
  | S fuel =>
      if (k <=? length from)%nat then
        let '(to, rest) := bit_reverse_words k rev fuel (drop k from) in
        (le_split k (rev (le_combine (take k from))) ++ to, rest)
      else ([], from)
  end.

Definition bit_reverse (from : list Z) : list Z :=
  let '(to8, from4) := bit_reverse_words 8 bit_reverse_8bytes (length from) from in
  let '(to4, from1) := bit_reverse_words 4 bit_reverse_4bytes (length from4) from4 in
  to8 ++ to4 ++ map bit_reverse8 from1.

Definition one_bits32 (x : Z) : Z :=
  let x := u32 (x - ((x .>> 1) .& 0x55555555)) in
  let x := u32 ((x .& 0x33333333) + ((x .>> 2) .& 0x33333333)) in
  let x := u32 (x + (x .>> 4)) .& 0x0F0F0F0F in
  u32 (x * 0x01010101) .>> 24.

Definition make_mask32 (x : Z) : Z :=
  let x := x .| (x .>> 1) in
  let x := x .| (x .>> 2) in
  let x := x .| (x .>> 4) in
  let x := x .| (x .>> 8) in
  x .| (x .>> 16).

Definition make_mask16 (x : Z) : Z :=
  let x := x .| (x .>> 1) in
  let x := x .| (x .>> 2) in
  let x := x .| (x .>> 4) in
  x .| (x .>> 8).

(** [x & (-(int32_t) x)], in 32 bits. *)
Definition least_significant_one32 (x : Z) : Z := x .& u32 (- x).

Definition parity8 (x : Z) : Z :=
  let x := (x .^ (x .>> 4)) .& 0x0F in
  (0x6996 .>> x) .& 1.

(** ** The swap steps of the reversals

    A step [((x & hi) >> n) | ((x & lo) << n)] exchanges the bits whose
    indices differ in bit [n]: bit [i] of the result is bit [i xor n] of [x].
    [swap_ok] checks the two masks. *)

Definition swap_ok (w n hi lo : Z) : bool :=
  all_below (Z.to_nat w) (fun i =>
    if Z.testbit i (Z.log2 n) then
      (n <=? i) && Z.testbit lo (i - n) && negb (Z.testbit hi (i + n)) && (i .^ n =? i - n)
    else
      Z.testbit hi (i + n) && negb ((n <=? i) && Z.testbit lo (i - n)) && (i .^ n =? i + n)).

Lemma testbit_swap w n hi lo x i : swap_ok w n hi lo = true -> 0 <= n -> 0 <= i < w ->
  Z.testbit (((x .& hi) .>> n) .| ((x .& lo) .<< n)) i = Z.testbit x (i .^ n).
Proof.
  intros Hok Hn Hi. unfold swap_ok in Hok.
  pose proof (all_below_spec _ _ Hok i ltac:(lia)) as H. cbn beta in H.
  bit_specs. destruct (Z.testbit i (Z.log2 n)).
  - apply andb_prop in H as [[[H1 H2]%andb_prop H3%negb_true_iff]%andb_prop H4%Z.eqb_eq].
    rewrite H1, H2, H3, H4. by rewrite andb_false_r, andb_true_r.
  - apply andb_prop in H as [[H1 H2%negb_true_iff]%andb_prop H3%Z.eqb_eq].
    rewrite H1, H3, andb_true_r. destruct (n <=? i); [|by rewrite orb_false_r].
    simpl in H2 |- *. by rewrite H2, andb_false_r, orb_false_r.
Qed.

Lemma lxor_index w k i : 0 <= k -> 0 <= i < 2 ^ w -> 0 <= k < 2 ^ w -> 0 <= i .^ k < 2 ^ w.
Proof. intros. apply lxor_range; try lia. destruct (decide (w < 0)); [|lia].
  rewrite Z.pow_neg_r in * by done. lia. Qed.

(** The three last steps, common to all the reversals. *)
Lemma testbit_swap_4_2_1 w hi4 lo4 hi2 lo2 hi1 lo1 x i :
  swap_ok (2 ^ w) 4 hi4 lo4 = true -> swap_ok (2 ^ w) 2 hi2 lo2 = true ->
  swap_ok (2 ^ w) 1 hi1 lo1 = true -> 3 <= w -> 0 <= i < 2 ^ w ->
  Z.testbit
    (let x := ((x .& hi4) .>> 4) .| ((x .& lo4) .<< 4) in
     let x := ((x .& hi2) .>> 2) .| ((x .& lo2) .<< 2) in
     ((x .& hi1) .>> 1) .| ((x .& lo1) .<< 1)) i = Z.testbit x (i .^ 7).
Proof.
  intros H4 H2 H1 Hw Hi. cbv zeta.
  assert (8 <= 2 ^ w) by (change 8 with (2 ^ 3); apply Z.pow_le_mono_r; lia).
  rewrite (testbit_swap _ _ _ _ _ _ H1) by lia.
  rewrite (testbit_swap _ _ _ _ _ _ H2) by (try lia; apply lxor_index; lia).
  rewrite (testbit_swap _ _ _ _ _ _ H4) by (try lia; repeat apply lxor_index; lia).
  by rewrite !Z.lxor_assoc.
Qed.

Lemma bit_reverse8_bits x i : is_byte x -> 0 <= i < 8 ->
  Z.testbit (bit_reverse8 x) i = Z.testbit x (7 - i).
Proof.
  intros Hx Hi. apply eqb_prop.
  assert (all_below 8 (fun i => eqb (Z.testbit (bit_reverse8 x) i) (Z.testbit x (7 - i)))
          = true) as H; [|exact (all_below_spec 8 _ H i Hi)].
  by_evaluation 256%nat (fun x => all_below 8 (fun i =>
    eqb (Z.testbit (bit_reverse8 x) i) (Z.testbit x (7 - i)))) x.
  exact Hx.
Qed.

Lemma is_byte_bit_reverse8 x : is_byte (bit_reverse8 x).
Proof. apply is_byte_u8. Qed.

Lemma bit_reverse_4bytes_bits x i : 0 <= i < 32 ->
  Z.testbit (bit_reverse_4bytes x) i = Z.testbit x (i .^ 7).
Proof. intros. unfold bit_reverse_4bytes. by rewrite (testbit_swap_4_2_1 5) by done. Qed.

Lemma bit_reverse_8bytes_bits x i : 0 <= i < 64 ->
  Z.testbit (bit_reverse_8bytes x) i = Z.testbit x (i .^ 7).
Proof. intros. unfold bit_reverse_8bytes. by rewrite (testbit_swap_4_2_1 6) by done. Qed.

(** [(x >> h) | (x << h)] on [2h] bits exchanges the halves. *)
Lemma testbit_rotate_half h x i :
  all_below (Z.to_nat (2 * h)) (fun i => i .^ h =? if h <=? i then i - h else i + h) = true ->
  0 <= h -> 0 <= x < 2 ^ (2 * h) -> 0 <= i < 2 * h ->
  Z.testbit (wrap (2 * h) ((x .>> h) .| (x .<< h))) i = Z.testbit x (i .^ h).
Proof.
  intros Hok Hh Hx Hi.
  pose proof (all_below_spec _ _ Hok i ltac:(lia)) as ->%Z.eqb_eq.
  bit_specs. destruct (Z.ltb_spec i (2 * h)); [|lia]. simpl.
  destruct (Z.leb_spec h i); simpl; [|by rewrite orb_false_r].
  by rewrite (testbit_high (2 * h) x) by lia.
Qed.

Lemma bit_reverse16_bits x i : 0 <= x < 2 ^ 16 -> 0 <= i < 16 ->
  Z.testbit (bit_reverse16 x) i = Z.testbit x (15 - i).
Proof.
  intros Hx Hi. unfold bit_reverse16.
  rewrite (testbit_swap_4_2_1 4) by done.
  rewrite (testbit_rotate_half 8) by (try done; apply (lxor_index 4); lia).
  f_equal. rewrite Z.lxor_assoc. apply Z.eqb_eq.
  by_evaluation 16%nat (fun i => i .^ (7 .^ 8) =? 15 - i) i. lia.
Qed.

Lemma bit_reverse32_bits x i : 0 <= x < 2 ^ 32 -> 0 <= i < 32 ->
  Z.testbit (bit_reverse32 x) i = Z.testbit x (31 - i).
Proof.
  intros Hx Hi. unfold bit_reverse32.
  rewrite (testbit_swap_4_2_1 5) by done.
  rewrite (testbit_swap 32 8) by (try done; apply (lxor_index 5); lia).
  rewrite (testbit_rotate_half 16) by (try done; repeat apply (lxor_index 5); lia).
  f_equal. rewrite !Z.lxor_assoc. apply Z.eqb_eq.
  by_evaluation 32%nat (fun i => i .^ (7 .^ (8 .^ 16)) =? 31 - i) i. lia.
Qed.

(** ** Reversal of a buffer *)

Lemma words_reversed k rev c : bytes c -> length c = k -> (k <= 8)%nat ->
  (forall x i, 0 <= i < 8 * Z.of_nat k -> Z.testbit (rev x) i = Z.testbit x (i .^ 7)) ->
  le_split k (rev (le_combine c)) = map bit_reverse8 c.
Proof.
  intros Hc Hlen Hk Hrev.
  assert (bytes (map bit_reverse8 c)) as Hm.
  { apply Forall_map, Forall_forall. intros. apply is_byte_bit_reverse8. }
  transitivity (le_split k (le_combine (map bit_reverse8 c))).
  - apply le_split_ext. intros i Hi. rewrite Hrev by lia.
    assert (0 <= i .^ 7 < 2 ^ 6) by (apply (lxor_index 6); lia).
    rewrite !testbit_le_combine by (done || lia).
    assert (all_below 64 (fun i => ((i .^ 7) / 8 =? i / 8) && ((i .^ 7) mod 8 =? 7 - i mod 8))
            = true) as Hidx by done.
    pose proof (all_below_spec _ _ Hidx i ltac:(lia))
      as [->%Z.eqb_eq ->%Z.eqb_eq]%andb_prop.
    change 0 with (bit_reverse8 0) at 2. rewrite map_nth, bit_reverse8_bits; [done| |].
    + rewrite <- (Nat2Z.id (Z.to_nat (i / 8))). by apply bytes_aget.
    + apply Z.mod_pos_bound. lia.
  - rewrite <- Hlen, <- (length_map bit_reverse8). by apply le_split_combine.
Qed.

Lemma bit_reverse_words_spec k rev fuel from : bytes from -> (0 < k <= 8)%nat ->
  (forall x i, 0 <= i < 8 * Z.of_nat k -> Z.testbit (rev x) i = Z.testbit x (i .^ 7)) ->
  exists n, bit_reverse_words k rev fuel from = (map bit_reverse8 (take n from), drop n from).
Proof.
  intros Hf Hk Hrev. revert from Hf. induction fuel as [|fuel IH]; intros from Hf; simpl.
  - by exists O.
  - destruct (Nat.leb_spec k (length from)); [|by exists O].
    destruct (IH (drop k from) ltac:(by apply Forall_drop)) as [n ->].
    exists (k + n)%nat. rewrite drop_drop.
    rewrite words_reversed; try done; [| by apply Forall_take | rewrite length_take; lia | lia].
    rewrite <- map_app, take_take_drop. done.
Qed.

(** The buffer is reversed octet by octet: the 64 and 32 bit word loops do
    what the octet loop does. *)
Lemma bit_reverse_spec from : bytes from -> bit_reverse from = map bit_reverse8 from.
Proof.
  intros Hf. unfold bit_reverse.
  destruct (bit_reverse_words_spec 8 bit_reverse_8bytes (length from) from Hf ltac:(lia)
              bit_reverse_8bytes_bits) as [n ->].
  destruct (bit_reverse_words_spec 4 bit_reverse_4bytes (length (drop n from)) (drop n from)
              ltac:(by apply Forall_drop) ltac:(lia) bit_reverse_4bytes_bits) as [m ->].
  rewrite <- !map_app, take_drop, take_drop. done.
Qed.

(** ** Searching for the highest and the lowest bit *)

Lemma nonzero_testbit x p : Z.testbit x p = true -> x <> 0.
Proof. intros H ->. by rewrite Z.bits_0 in H. Qed.

Lemma zero_testbit x : 0 <= x -> (forall p, 0 <= p -> Z.testbit x p = false) -> x = 0.
Proof. intros Hx H. bitwise p. by apply H. Qed.

(** Among the positions set in [bits], [n] is one, and the positions agree
    with it above bit [k]: what the binary search keeps. *)
Definition search_inv (k n bits : Z) : Prop :=
  0 <= bits /\ Z.testbit bits n = true /\
  forall p, 0 <= p -> Z.testbit bits p = true -> 0 <= p < 32 /\ p .>> k = n .>> k.

Lemma shiftr_split n k : 0 <= k -> n .>> k = 2 * (n .>> (k + 1)) + Z.b2z (Z.testbit n k).
Proof.
  intros. rewrite <- Z.shiftr_shiftr by lia. rewrite <- (Z.div2_spec (n .>> k)).
  replace (Z.testbit n k) with (Z.testbit (n .>> k) 0) by (bit_specs; f_equal; lia).
  rewrite Z.bit0_odd. by rewrite <- Z.div2_odd.
Qed.

Lemma shiftl_split n k : 0 <= k ->
  (n .>> k) .<< k = ((n .>> (k + 1)) .<< (k + 1)) + Z.b2z (Z.testbit n k) * 2 ^ k.
Proof.
  intros. rewrite (shiftr_split n k) by done. rewrite !Z.shiftl_mul_pow2 by lia.
  rewrite Z.pow_add_r by lia. lia.
Qed.

(** One step of [top_bit]: if the mask keeps anything it keeps the positions
    with bit [k], and [n], the highest position, is among them exactly when it
    has bit [k]. *)
Lemma search_step (want : bool) k n mask bits :
  0 <= k -> 0 <= n < 32 ->
  (forall p, 0 <= p < 32 -> Z.testbit mask p = eqb (Z.testbit p k) want) ->
  (* [n] wins the comparison with every other candidate *)
  (forall p, 0 <= p -> Z.testbit bits p = true -> p .>> (k + 1) = n .>> (k + 1) ->
     Z.testbit p k = want -> Z.testbit n k = want) ->
  search_inv (k + 1) n bits ->
  if (bits .& mask) =? 0 then Z.testbit n k = negb want /\ search_inv k n bits
  else Z.testbit n k = want /\ search_inv k n (bits .& mask).
Proof.
  intros Hk Hn Hmask Hwin (Hpos & Hset & Hall).
  destruct (Z.eqb_spec (bits .& mask) 0) as [E|E].
  - assert (Z.testbit n k = negb want) as Hnk.
    { assert (Z.testbit (bits .& mask) n = false) as H by (by rewrite E, Z.bits_0).
      rewrite Z.land_spec, Hset, Hmask in H by lia.
      by destruct (Z.testbit n k), want. }
    split; [done|]. split_and!; [done..|]. intros p Hp Hbp.
    destruct (Hall p Hp Hbp) as [Hr Heq]. split; [done|].
    rewrite (shiftr_split p), (shiftr_split n), Heq by done. do 2 f_equal.
    assert (Z.testbit (bits .& mask) p = false) as H by (by rewrite E, Z.bits_0).
    rewrite Z.land_spec, Hbp, Hmask in H by lia.
    rewrite Hnk. by destruct (Z.testbit p k), want.
  - assert (Z.testbit n k = want) as Hnk.
    { destruct (Z.testbit n k) eqn:Hnk, want; try done; exfalso; apply E;
      apply zero_testbit; try (apply Z.land_nonneg; by left); intros p Hp;
      rewrite Z.land_spec; destruct (Z.testbit bits p) eqn:Hbp; try done; simpl;
      destruct (Hall p Hp Hbp) as [Hr Heq]; rewrite Hmask by lia;
      destruct (Z.testbit p k) eqn:Hpk; try done;
      by specialize (Hwin p Hp Hbp Heq Hpk). }
    split; [done|]. split_and!.
    + apply Z.land_nonneg. by left.
    + rewrite Z.land_spec, Hset, Hmask, Hnk by lia. by destruct want.
    + intros p Hp Hb. rewrite Z.land_spec in Hb. apply andb_prop in Hb as [Hbp Hmp].
      destruct (Hall p Hp Hbp) as [Hr Heq]. split; [done|].
      rewrite (shiftr_split p), (shiftr_split n), Heq by done. do 2 f_equal.
      rewrite Hmask in Hmp by lia. rewrite Hnk. by destruct (Z.testbit p k), want.
Qed.

(** The five masks test bit [k] of a position, for one outcome or the other. *)
Lemma search_mask mask k want :
  all_below 32 (fun p => eqb (Z.testbit mask p) (eqb (Z.testbit p k) want)) = true ->
  forall p, 0 <= p < 32 -> Z.testbit mask p = eqb (Z.testbit p k) want.
Proof. intros H p Hp. apply eqb_prop. exact (all_below_spec 32 _ H p Hp). Qed.

(** Two positions that agree above bit [k] are ordered by bit [k] first. *)
Lemma position_order p q k : 0 <= k -> p .>> (k + 1) = q .>> (k + 1) ->
  Z.testbit p k = true -> Z.testbit q k = false -> q < p.
Proof.
  intros Hk Heq Hp Hq.
  assert (q .>> k < p .>> k) as H.
  { rewrite (shiftr_split p), (shiftr_split q), Heq, Hp, Hq by done. simpl. lia. }
  destruct (Z_lt_le_dec q p) as [|Hle]; [done|]. exfalso.
  rewrite !Z.shiftr_div_pow2 in H by done.
  assert (p / 2 ^ k <= q / 2 ^ k) by (apply Z.div_le_mono; [apply Z.pow_pos_nonneg|]; lia).
  lia.
Qed.

Lemma search_inv_start x n : 0 <= x < 2 ^ 32 -> Z.testbit x n = true -> 0 <= n ->
  search_inv 5 n x.
Proof.
  intros Hx Hn Hn0. split_and!; [lia|done|]. intros p Hp Hxp.
  assert (forall q, 0 <= q -> Z.testbit x q = true -> q < 32) as Hlt.
  { intros q Hq Hxq. destruct (Z_lt_le_dec q 32); [done|].
    by rewrite (testbit_high 32 x) in Hxq. }
  split; [auto with lia|].
  pose proof (shiftr_small 0 p 5). pose proof (shiftr_small 0 n 5).
  pose proof (Hlt p Hp Hxp). pose proof (Hlt n Hn0 Hn).
  change (2 ^ (0 + 5)) with 32 in *. change (2 ^ 0) with 1 in *. lia.
Qed.

Section search.
Context (x n : Z) (want : bool) (masks : Z -> Z).
Hypothesis n_pos : 0 <= n < 32.
Hypothesis n_best : forall p, 0 <= p -> Z.testbit x p = true ->
  if want then p <= n else n <= p.
Hypothesis masks_ok : forall k, 0 <= k < 5 ->
  forall p, 0 <= p < 32 -> Z.testbit (masks k) p = eqb (Z.testbit p k) want.

(** Positions only disappear. *)
Definition sub_bits (bits : Z) : Prop :=
  forall p, 0 <= p -> Z.testbit bits p = true -> Z.testbit x p = true.

Lemma search_round k bits : 0 <= k < 5 -> sub_bits bits -> search_inv (k + 1) n bits ->
  sub_bits (if (bits .& masks k) =? 0 then bits else bits .& masks k) /\
  search_inv k n (if (bits .& masks k) =? 0 then bits else bits .& masks k) /\
  ((bits .& masks k) =? 0) = negb (eqb (Z.testbit n k) want).
Proof using n_best n_pos masks_ok.
  intros Hk Hsub Hinv.
  assert (forall p, 0 <= p -> Z.testbit bits p = true -> p .>> (k + 1) = n .>> (k + 1) ->
            Z.testbit p k = want -> Z.testbit n k = want) as Hwin.
  { intros p Hp Hbp Hag Hpk. specialize (n_best p Hp (Hsub p Hp Hbp)).
    pose proof (position_order p n k ltac:(lia) Hag) as O1.
    pose proof (position_order n p k ltac:(lia) (eq_sym Hag)) as O2.
    destruct want, (Z.testbit n k); try done; exfalso.
    - specialize (O1 Hpk eq_refl). lia.
    - specialize (O2 eq_refl Hpk). lia. }
  pose proof (search_step want k n (masks k) bits ltac:(lia) n_pos
                (masks_ok k Hk) Hwin Hinv) as Hstep.
  destruct (Z.eqb_spec (bits .& masks k) 0) as [E|E]; destruct Hstep as [Hnk Hinv'];
    (split; [|split; [exact Hinv'|]]).
  - exact Hsub.
  - rewrite Hnk. by destruct want.
  - intros p Hp Hb. rewrite Z.land_spec in Hb. apply andb_prop in Hb as [Hb _]. by apply Hsub.
  - rewrite Hnk. by destruct want.
Qed.
End search.

Lemma bits_sum n : 0 <= n < 32 ->
  n = 16 * Z.b2z (Z.testbit n 4) + 8 * Z.b2z (Z.testbit n 3) + 4 * Z.b2z (Z.testbit n 2)
      + 2 * Z.b2z (Z.testbit n 1) + Z.b2z (Z.testbit n 0).
Proof.
  intros Hn. apply Z.eqb_eq. by_evaluation 32%nat (fun n =>
    n =? 16 * Z.b2z (Z.testbit n 4) + 8 * Z.b2z (Z.testbit n 3) + 4 * Z.b2z (Z.testbit n 2)
      + 2 * Z.b2z (Z.testbit n 1) + Z.b2z (Z.testbit n 0)) n. lia.
Qed.

Lemma if_pair {A B} (c : bool) (a a' : A) (b b' : B) :
  (if c then (a, b) else (a', b')) = (if c then a else a', if c then b else b').
Proof. by destruct c. Qed.

Lemma log2_best x p : 0 < x -> 0 <= p -> Z.testbit x p = true -> p <= Z.log2 x.
Proof.
  intros Hx Hp Hb. destruct (Z_le_gt_dec p (Z.log2 x)); [done|].
  rewrite Z.bits_above_log2 in Hb by lia. done.
Qed.

(** [top_bit] is the binary logarithm; -1 for zero. *)
Lemma top_bit_spec x : 0 <= x < 2 ^ 32 -> top_bit x = if x =? 0 then -1 else Z.log2 x.
Proof.
  intros Hx. unfold top_bit. destruct (Z.eqb_spec x 0); [done|].
  assert (0 <= Z.log2 x < 32) as Hn.
  { split; [apply Z.log2_nonneg|]. apply Z.log2_lt_pow2; lia. }
  pose proof (search_inv_start x _ Hx (Z.bit_log2 x ltac:(lia)) ltac:(lia)) as H0.
  set (masks := fun k => if k =? 4 then 0xFFFF0000 else if k =? 3 then 0xFF00FF00 else
    if k =? 2 then 0xF0F0F0F0 else if k =? 1 then 0xCCCCCCCC else 0xAAAAAAAA).
  assert (forall k, 0 <= k < 5 -> forall p, 0 <= p < 32 ->
    Z.testbit (masks k) p = eqb (Z.testbit p k) true) as Hm.
  { intros k Hk. apply search_mask.
    by_evaluation 5%nat (fun k => all_below 32 (fun p =>
      eqb (Z.testbit (masks k) p) (eqb (Z.testbit p k) true))) k. exact Hk. }
  pose proof (search_round x (Z.log2 x) true masks Hn
                ltac:(intros; apply log2_best; lia || done) Hm) as Hround.
  destruct (Hround 4 x) as (S1 & I1 & E1); [lia|by intros ?|done|].
  destruct (Hround 3 _ ltac:(lia) S1 I1) as (S2 & I2 & E2).
  destruct (Hround 2 _ ltac:(lia) S2 I2) as (S3 & I3 & E3).
  destruct (Hround 1 _ ltac:(lia) S3 I3) as (S4 & I4 & E4).
  destruct (Hround 0 _ ltac:(lia) S4 I4) as (_ & _ & E5).
  change 0xFFFF0000 with (masks 4). change 0xFF00FF00 with (masks 3).
  change 0xF0F0F0F0 with (masks 2). change 0xCCCCCCCC with (masks 1).
  change 0xAAAAAAAA with (masks 0). clearbody masks.
  rewrite !if_pair. cbn [snd]. rewrite E5, E4, E3, E2, E1.
  transitivity (16 * Z.b2z (Z.testbit (Z.log2 x) 4) + 8 * Z.b2z (Z.testbit (Z.log2 x) 3)
    + 4 * Z.b2z (Z.testbit (Z.log2 x) 2) + 2 * Z.b2z (Z.testbit (Z.log2 x) 1)
    + Z.b2z (Z.testbit (Z.log2 x) 0)); [|symmetry; by apply bits_sum].
  clear. repeat (destruct (Z.testbit _ _)); reflexivity.
Qed.

Lemma least_bit x (m : nat) :
  (forall i, 0 <= i < Z.of_nat m -> Z.testbit x i = false) \/
  exists n, 0 <= n < Z.of_nat m /\ Z.testbit x n = true /\
    forall i, 0 <= i < n -> Z.testbit x i = false.
Proof.
  induction m as [|m [IH|(n & Hn & Hs & Hl)]].
  - left. lia.
  - destruct (Z.testbit x (Z.of_nat m)) eqn:E.
    + right. exists (Z.of_nat m). split_and!; [lia|lia|done|done].
    + left. intros i Hi. destruct (decide (i = Z.of_nat m)) as [->|]; [done|]. apply IH. lia.
  - right. exists n. split_and!; try done; lia.
Qed.

(** [bottom_bit] is the index of the lowest bit set; -1 for zero. *)
Lemma bottom_bit_spec x : 0 < x < 2 ^ 32 ->
  0 <= bottom_bit x < 32 /\ Z.testbit x (bottom_bit x) = true /\
  forall i, 0 <= i < bottom_bit x -> Z.testbit x i = false.
Proof.
  intros Hx.
  destruct (least_bit x 32) as [H|(n & Hn & Hs & Hleast)].
  { exfalso. enough (x = 0) by lia. apply zero_testbit; [lia|]. intros p Hp.
    destruct (Z_lt_le_dec p 32); [apply H; lia|]. by apply (testbit_high 32); [lia|]. }
  enough (bottom_bit x = n) as -> by done.
  unfold bottom_bit. destruct (Z.eqb_spec x 0); [lia|].
  pose proof (search_inv_start x n ltac:(lia) Hs ltac:(lia)) as H0.
  set (masks := fun k => if k =? 4 then 0x0000FFFF else if k =? 3 then 0x00FF00FF else
    if k =? 2 then 0x0F0F0F0F else if k =? 1 then 0x33333333 else 0x55555555).
  assert (forall k, 0 <= k < 5 -> forall p, 0 <= p < 32 ->
    Z.testbit (masks k) p = eqb (Z.testbit p k) false) as Hm.
  { intros k Hk. apply search_mask.
    by_evaluation 5%nat (fun k => all_below 32 (fun p =>
      eqb (Z.testbit (masks k) p) (eqb (Z.testbit p k) false))) k. exact Hk. }
  assert (forall p, 0 <= p -> Z.testbit x p = true -> n <= p) as Hbest.
  { intros p Hp Hb. destruct (Z_lt_le_dec p n); [|done]. rewrite Hleast in Hb by lia. done. }
  pose proof (search_round x n false masks Hn Hbest Hm) as Hround.
  destruct (Hround 4 x) as (S1 & I1 & E1); [lia|by intros ?|done|].
  destruct (Hround 3 _ ltac:(lia) S1 I1) as (S2 & I2 & E2).
  destruct (Hround 2 _ ltac:(lia) S2 I2) as (S3 & I3 & E3).
  destruct (Hround 1 _ ltac:(lia) S3 I3) as (S4 & I4 & E4).
  destruct (Hround 0 _ ltac:(lia) S4 I4) as (_ & _ & E5).
  change 0x0000FFFF with (masks 4). change 0x00FF00FF with (masks 3).
  change 0x0F0F0F0F with (masks 2). change 0x33333333 with (masks 1).
  change 0x55555555 with (masks 0). clearbody masks.
  rewrite !if_pair. cbn [snd]. rewrite E5, E4, E3, E2, E1.
  transitivity (16 * Z.b2z (Z.testbit n 4) + 8 * Z.b2z (Z.testbit n 3)
    + 4 * Z.b2z (Z.testbit n 2) + 2 * Z.b2z (Z.testbit n 1)
    + Z.b2z (Z.testbit n 0)); [|symmetry; by apply bits_sum].
  clear. repeat (destruct (Z.testbit _ _)); reflexivity.
Qed.

(** ** Population count *)

(** The number of bits set among the low [n]. *)
Fixpoint popcount (n : nat) (x : Z) : Z :=
  match n with
  | O => 0
  | S n => Z.b2z (Z.odd x) + popcount n (Z.div2 x)
  end.

Lemma popcount_app m n x : popcount (m + n) x = popcount m x + popcount n (x .>> Z.of_nat m).
Proof.
  revert x. induction m as [|m IH]; intros x.
  - simpl. by rewrite Z.shiftr_0_r.
  - cbn [popcount Nat.add]. rewrite IH, Z.div2_spec, Z.shiftr_shiftr by lia.
    replace (1 + Z.of_nat m) with (Z.of_nat (S m)) by lia. lia.
Qed.

Lemma popcount_ext n x y : (forall i, 0 <= i < Z.of_nat n -> Z.testbit x i = Z.testbit y i) ->
  popcount n x = popcount n y.
Proof.
  revert x y. induction n as [|n IH]; intros x y H; [done|]. cbn [popcount].
  rewrite <- !Z.bit0_odd, (H 0) by lia. f_equal. apply IH. intros i Hi.
  rewrite !Z.div2_spec. bit_specs. apply H. lia.
Qed.

(** A masked shift that keeps inside the octets works octet by octet. *)
Lemma masked_shift l s m : bytes l -> 0 <= s < 8 -> 0 <= m < 2 ^ (8 - s) ->
  (le_combine l .>> s) .& le_combine (repeat m (length l)) =
  le_combine (map (fun d => (d .>> s) .& m) l).
Proof.
  intros Hl Hs Hm.
  assert (0 <= m < 256).
  { assert (2 ^ (8 - s) <= 2 ^ 8) by (apply Z.pow_le_mono_r; lia). lia. }
  assert (bytes (repeat m (length l))) as Hr
    by (clear Hl; induction (length l); simpl; by constructor).
  assert (bytes (map (fun d => (d .>> s) .& m) l)) as Hm'.
  { apply Forall_map, Forall_forall. intros d _. apply (land_range 8); [done|]. done. }
  bitwise i. rewrite !testbit_le_combine by (done || lia).
  pose proof (Z.mod_pos_bound i 8 ltac:(lia)) as Hmod. pose proof (Z.div_mod i 8 ltac:(lia)) as Hdm.
  destruct (Nat.lt_ge_cases (Z.to_nat (i / 8)) (length l)) as [Hin|Hout].
  - rewrite (nth_indep (map _ l) 0 ((0 .>> s) .& m)) by (by rewrite length_map).
    rewrite (map_nth (fun d => (d .>> s) .& m)), (nth_repeat_lt m) by done. bit_specs.
    destruct (Z_lt_le_dec (i mod 8 + s) 8).
    + replace ((i + s) / 8) with (i / 8) by (Z.div_mod_to_equations; lia).
      replace ((i + s) mod 8) with (i mod 8 + s) by (Z.div_mod_to_equations; lia). done.
    + by rewrite (testbit_high (8 - s) m), !andb_false_r by lia.
  - rewrite (nth_overflow (repeat _ _)), (nth_overflow (map _ _))
      by (rewrite ?repeat_length, ?length_map; lia).
    by rewrite !Z.bits_0, andb_false_r.
Qed.

(** One octet of the first two stages of [one_bits32]. *)
Definition count_pairs (d : Z) : Z := d - ((d .>> 1) .& 0x55).
Definition count_nibbles (d : Z) : Z := ((d .>> 0) .& 0x33) + ((d .>> 2) .& 0x33).

Definition in_byte (b : Z) : bool := (0 <=? b) && (b <? 256).

(** What the stages do to every octet, by evaluation: no borrow, no carry,
    and nibble counts of at most four. *)
Lemma count_stages x : is_byte x ->
  let y := count_pairs x in
  let z := count_nibbles y in
  is_byte ((x .>> 1) .& 0x55) /\ is_byte y /\
  is_byte ((y .>> 0) .& 0x33) /\ is_byte ((y .>> 2) .& 0x33) /\ is_byte z /\
  z / 16 <= 4 /\ z mod 16 <= 4 /\ z / 16 + z mod 16 = popcount 8 x.
Proof.
  intros Hx. cbv zeta.
  assert (let y := count_pairs x in let z := count_nibbles y in
    in_byte ((x .>> 1) .& 0x55) && in_byte y && in_byte ((y .>> 0) .& 0x33) &&
    in_byte ((y .>> 2) .& 0x33) && in_byte z && (z / 16 <=? 4) && (z mod 16 <=? 4) &&
    (z / 16 + z mod 16 =? popcount 8 x) = true) as H.
  { by_evaluation 256%nat (fun x => let y := count_pairs x in let z := count_nibbles y in
      in_byte ((x .>> 1) .& 0x55) && in_byte y && in_byte ((y .>> 0) .& 0x33) &&
      in_byte ((y .>> 2) .& 0x33) && in_byte z && (z / 16 <=? 4) && (z mod 16 <=? 4) &&
      (z / 16 + z mod 16 =? popcount 8 x)) x. exact Hx. }
  cbv zeta in H. unfold in_byte, is_byte in *. lia.
Qed.

Lemma le_combine4 a b c d : bytes [a; b; c; d] ->
  le_combine [a; b; c; d] = a + 256 * b + 65536 * c + 16777216 * d.
Proof.
  intros H. pose proof H as [_ H1]%Forall_cons_1. pose proof H1 as [_ H2]%Forall_cons_1.
  pose proof H2 as [_ H3]%Forall_cons_1.
  rewrite !le_combine_cons by done. cbn [le_combine]. lia.
Qed.

Lemma bytes4 a b c d : is_byte a -> is_byte b -> is_byte c -> is_byte d -> bytes [a; b; c; d].
Proof. intros. do 4 (apply Forall_cons_2; [done|]). apply Forall_nil_2. Qed.

Lemma bytes4_inv a b c d : bytes [a; b; c; d] ->
  is_byte a /\ is_byte b /\ is_byte c /\ is_byte d.
Proof. intros H. do 4 (apply Forall_cons_1 in H as [? H]). done. Qed.

(** The nibble sums and the multiplication that adds the four octets. *)
Lemma sum_nibbles ha la hb lb hc lc hd ld :
  0 <= ha <= 4 -> 0 <= la <= 4 -> 0 <= hb <= 4 -> 0 <= lb <= 4 ->
  0 <= hc <= 4 -> 0 <= lc <= 4 -> 0 <= hd <= 4 -> 0 <= ld <= 4 ->
  let x := le_combine [16 * ha + la; 16 * hb + lb; 16 * hc + lc; 16 * hd + ld] in
  u32 ((u32 (x + (x .>> 4)) .& 0x0F0F0F0F) * 0x01010101) .>> 24 =
  (ha + la) + (hb + lb) + (hc + lc) + (hd + ld).
Proof.
  intros ? ? ? ? ? ? ? ? x.
  set (l := [la + ha + (ha + lb) * 16; lb + hb + (hb + lc) * 16;
             lc + hc + (hc + ld) * 16; ld + hd + hd * 16]).
  assert (bytes l) as Hl by (apply bytes4; unfold is_byte; lia).
  assert (x + (x .>> 4) = le_combine l) as ->.
  { subst x l. rewrite !le_combine4 by (apply bytes4; unfold is_byte; lia).
    rewrite Z.shiftr_div_pow2 by lia.
    erewrite <- (Z.div_unique _ (2 ^ 4) (ha + 16 * (16 * hb + lb) + 4096 * (16 * hc + lc)
                                          + 1048576 * (16 * hd + ld)) la); lia. }
  rewrite (wrap_id 32 (le_combine l)) by (by apply (le_combine_range l)).
  rewrite <- (Z.shiftr_0_r (le_combine l)).
  change 0x0F0F0F0F with (le_combine (repeat 0x0F (length l))).
  rewrite masked_shift by (done || lia). subst l. cbn [map]. rewrite !Z.shiftr_0_r.
  change 0x0F with (Z.ones 4). rewrite !Z.land_ones by lia. change (2 ^ 4) with 16.
  rewrite !Z_mod_plus_full, !(Z.mod_small _ 16) by lia.
  rewrite le_combine4 by (apply bytes4; unfold is_byte; lia). unfold wrap.
  set (s1 := la + ha). set (s2 := lb + hb). set (s3 := lc + hc). set (s4 := ld + hd).
  rewrite <- (Z.mod_unique _ (2 ^ 32) (s2 + s3 + s4 + 256 * (s3 + s4) + 65536 * s4)
    (s1 + 256 * (s1 + s2) + 65536 * (s1 + s2 + s3) + 16777216 * (s1 + s2 + s3 + s4))) by lia.
  rewrite Z.shiftr_div_pow2 by lia.
  rewrite <- (Z.div_unique _ (2 ^ 24) (s1 + s2 + s3 + s4)
    (s1 + 256 * (s1 + s2) + 65536 * (s1 + s2 + s3))) by lia. lia.
Qed.

(** [one_bits32] counts the bits set. *)
Lemma one_bits32_spec x : 0 <= x < 2 ^ 32 -> one_bits32 x = popcount 32 x.
Proof.
  intros Hx.
  pose proof (le_combine_split 4 x) as E. rewrite wrap_id in E by done.
  pose proof (bytes_le_split 4 x) as Hb. cbn [le_split] in E, Hb.
  revert E Hb. generalize (u8 x), (u8 (x .>> 8)), (u8 (x .>> 8 .>> 8)), (u8 (x .>> 8 .>> 8 .>> 8)).
  intros a b c d <- Hb. clear Hx. pose proof (bytes4_inv _ _ _ _ Hb) as (Ha & Hb' & Hc & Hd).
  pose proof (count_stages a Ha) as (A1 & A2 & A3 & A4 & A5 & A6 & A7 & A8).
  pose proof (count_stages b Hb') as (B1 & B2 & B3 & B4 & B5 & B6 & B7 & B8).
  pose proof (count_stages c Hc) as (C1 & C2 & C3 & C4 & C5 & C6 & C7 & C8).
  pose proof (count_stages d Hd) as (D1 & D2 & D3 & D4 & D5 & D6 & D7 & D8).
  transitivity (popcount 8 a + popcount 8 b + popcount 8 c + popcount 8 d).
  - unfold one_bits32. cbv zeta.
    assert (u32 (le_combine [a; b; c; d] - ((le_combine [a; b; c; d] .>> 1) .& 0x55555555)) =
            le_combine [count_pairs a; count_pairs b; count_pairs c; count_pairs d]) as ->.
    { change 0x55555555 with (le_combine (repeat 0x55 (length [a; b; c; d]))).
      rewrite masked_shift by (done || lia). cbn [map].
      rewrite <- (wrap_id 32 (le_combine [count_pairs a; _; _; _]))
        by (by apply (le_combine_range [_; _; _; _]), bytes4). f_equal.
      rewrite !le_combine4 by by apply bytes4. unfold count_pairs. lia. }
    set (y := [count_pairs a; _; _; _]).
    assert (u32 ((le_combine y .& 0x33333333) + ((le_combine y .>> 2) .& 0x33333333)) =
            le_combine (map count_nibbles y)) as ->.
    { rewrite <- (Z.shiftr_0_r (le_combine y)) at 1.
      change 0x33333333 with (le_combine (repeat 0x33 (length y))).
      rewrite !masked_shift by (try lia; by apply bytes4). cbn [map y].
      rewrite <- (wrap_id 32 (le_combine [count_nibbles _; _; _; _]))
        by (by apply (le_combine_range [_; _; _; _]), bytes4). f_equal.
      rewrite !le_combine4 by by apply bytes4. unfold count_nibbles. lia. }
    subst y. cbn [map].
    rewrite (Z.div_mod (count_nibbles (count_pairs a)) 16), (Z.div_mod (count_nibbles (count_pairs b)) 16),
      (Z.div_mod (count_nibbles (count_pairs c)) 16), (Z.div_mod (count_nibbles (count_pairs d)) 16) by lia.
    rewrite sum_nibbles; [lia|..]; (split; [|done]);
      first [apply Z.mod_pos_bound; lia | apply Z.div_pos; [unfold is_byte in *; lia|lia]].
  - change 32%nat with (8 + (8 + (8 + 8)))%nat. rewrite !popcount_app.
    rewrite !Z.shiftr_shiftr by lia.
    rewrite <- !Z.add_assoc.
    assert (forall k y, 0 <= k < 4 -> y = nth (Z.to_nat k) [a; b; c; d] 0 ->
      popcount 8 y = popcount 8 (le_combine [a; b; c; d] .>> (8 * k))) as Hoct.
    { intros k y Hk ->. apply popcount_ext. intros i Hi. bit_specs.
      rewrite testbit_le_combine by (done || lia).
      replace ((i + 8 * k) / 8) with k by (Z.div_mod_to_equations; lia).
      replace ((i + 8 * k) mod 8) with i by (Z.div_mod_to_equations; lia). done. }
    rewrite (Hoct 0 a), (Hoct 1 b), (Hoct 2 c), (Hoct 3 d) by (done || lia).
    by rewrite Z.shiftr_0_r.
Qed.

(** ** Masks *)

(** Some bit of [x] is set in the window of [n] positions from [i]. *)
Definition window (x : Z) (n : nat) (i : Z) : bool :=
  existsb (fun j => Z.testbit x (i + Z.of_nat j)) (seq 0 n).

Lemma window_app x m n i : window x (m + n) i = window x m i || window x n (i + Z.of_nat m).
Proof.
  unfold window. rewrite seq_app, existsb_app. f_equal. cbn [Nat.add].
  assert (forall k, existsb (fun j => Z.testbit x (i + Z.of_nat j)) (seq (m + k) n) =
    existsb (fun j => Z.testbit x (i + Z.of_nat m + Z.of_nat j)) (seq k n)) as H.
  { induction n as [|n IH]; intros k; [done|]. cbn [seq existsb].
    replace (S (m + k)) with (m + S k)%nat by lia. rewrite IH.
    by replace (i + Z.of_nat (m + k)) with (i + Z.of_nat m + Z.of_nat k) by lia. }
  specialize (H 0%nat). by rewrite Nat.add_0_r in H.
Qed.

Lemma smear_step x y n : (forall i, 0 <= i -> Z.testbit y i = window x n i) ->
  forall i, 0 <= i -> Z.testbit (y .| (y .>> Z.of_nat n)) i = window x (n + n) i.
Proof. intros H i Hi. bit_specs. rewrite window_app, !H by lia. done. Qed.

Lemma window_log2 w x i : 0 < x < 2 ^ Z.of_nat w -> 0 <= i ->
  window x w i = (i <=? Z.log2 x).
Proof.
  intros Hx Hi. apply eq_true_iff_eq. unfold window. rewrite existsb_exists, Z.leb_le. split.
  - intros (j & _ & Hj). pose proof (log2_best x (i + Z.of_nat j) ltac:(lia) ltac:(lia) Hj). lia.
  - intros Hle. exists (Z.to_nat (Z.log2 x - i)). split.
    + apply in_seq. pose proof (proj1 (Z.log2_lt_pow2 x (Z.of_nat w) ltac:(lia))). lia.
    + replace (i + Z.of_nat (Z.to_nat (Z.log2 x - i))) with (Z.log2 x) by lia.
      apply Z.bit_log2. lia.
Qed.

Lemma window_1 x i : 0 <= i -> Z.testbit x i = window x 1 i.
Proof. intros. unfold window. simpl. by rewrite Z.add_0_r, orb_false_r. Qed.

(** The mask covers exactly the width of the number. *)
Lemma make_mask32_spec x : 0 < x < 2 ^ 32 -> make_mask32 x = Z.ones (Z.log2 x + 1).
Proof.
  intros Hx. apply Z.bits_inj'. intros i Hi. unfold make_mask32. cbv zeta.
  rewrite (smear_step x _ 16); [| |done].
  - rewrite (window_log2 32) by done. rewrite testbit_ones by (pose proof (Z.log2_nonneg x); lia).
    pose proof (Z.log2_nonneg x). lia.
  - apply (smear_step x _ 8), (smear_step x _ 4), (smear_step x _ 2), (smear_step x _ 1).
    apply window_1.
Qed.

Lemma make_mask16_spec x : 0 < x < 2 ^ 16 -> make_mask16 x = Z.ones (Z.log2 x + 1).
Proof.
  intros Hx. apply Z.bits_inj'. intros i Hi. unfold make_mask16. cbv zeta.
  rewrite (smear_step x _ 8); [| |done].
  - rewrite (window_log2 16) by done. rewrite testbit_ones by (pose proof (Z.log2_nonneg x); lia).
    pose proof (Z.log2_nonneg x). lia.
  - apply (smear_step x _ 4), (smear_step x _ 2), (smear_step x _ 1), window_1.
Qed.

Lemma parity8_spec x : is_byte x -> parity8 x = popcount 8 x mod 2.
Proof.
  intros Hx. apply Z.eqb_eq. by_evaluation 256%nat (fun x => parity8 x =? popcount 8 x mod 2) x.
  exact Hx.
Qed.
