(* ===== verification/Crc.v ===== *)
(** * Cyclic redundancy checks (src/spandsp-0.0.6/src/crc.c)

    The CRC-16 and CRC-32 of ITU-T, by table.  The first section proves what
    both share for any table with the properties the two tables have: one octet
    step is a bijection of the register, appending then checking succeeds, and
    a change confined to as many octets as the register has is always seen. *)
From S2P Require Import Prelude.

#[local] Set Default Proof Using "All".

(** ** Definitions *)

Definition crc_itu32_table : list Z := [
    0x00000000; 0x77073096; 0xEE0E612C; 0x990951BA; 0x076DC419; 0x706AF48F;
    0xE963A535; 0x9E6495A3; 0x0EDB8832; 0x79DCB8A4; 0xE0D5E91E; 0x97D2D988;
    0x09B64C2B; 0x7EB17CBD; 0xE7B82D07; 0x90BF1D91; 0x1DB71064; 0x6AB020F2;
    0xF3B97148; 0x84BE41DE; 0x1ADAD47D; 0x6DDDE4EB; 0xF4D4B551; 0x83D385C7;
    0x136C9856; 0x646BA8C0; 0xFD62F97A; 0x8A65C9EC; 0x14015C4F; 0x63066CD9;
    0xFA0F3D63; 0x8D080DF5; 0x3B6E20C8; 0x4C69105E; 0xD56041E4; 0xA2677172;
    0x3C03E4D1; 0x4B04D447; 0xD20D85FD; 0xA50AB56B; 0x35B5A8FA; 0x42B2986C;
    0xDBBBC9D6; 0xACBCF940; 0x32D86CE3; 0x45DF5C75; 0xDCD60DCF; 0xABD13D59;
    0x26D930AC; 0x51DE003A; 0xC8D75180; 0xBFD06116; 0x21B4F4B5; 0x56B3C423;
    0xCFBA9599; 0xB8BDA50F; 0x2802B89E; 0x5F058808; 0xC60CD9B2; 0xB10BE924;
    0x2F6F7C87; 0x58684C11; 0xC1611DAB; 0xB6662D3D; 0x76DC4190; 0x01DB7106;
    0x98D220BC; 0xEFD5102A; 0x71B18589; 0x06B6B51F; 0x9FBFE4A5; 0xE8B8D433;
    0x7807C9A2; 0x0F00F934; 0x9609A88E; 0xE10E9818; 0x7F6A0DBB; 0x086D3D2D;
    0x91646C97; 0xE6635C01; 0x6B6B51F4; 0x1C6C6162; 0x856530D8; 0xF262004E;
    0x6C0695ED; 0x1B01A57B; 0x8208F4C1; 0xF50FC457; 0x65B0D9C6; 0x12B7E950;
    0x8BBEB8EA; 0xFCB9887C; 0x62DD1DDF; 0x15DA2D49; 0x8CD37CF3; 0xFBD44C65;
    0x4DB26158; 0x3AB551CE; 0xA3BC0074; 0xD4BB30E2; 0x4ADFA541; 0x3DD895D7;
    0xA4D1C46D; 0xD3D6F4FB; 0x4369E96A; 0x346ED9FC; 0xAD678846; 0xDA60B8D0;
    0x44042D73; 0x33031DE5; 0xAA0A4C5F; 0xDD0D7CC9; 0x5005713C; 0x270241AA;
    0xBE0B1010; 0xC90C2086; 0x5768B525; 0x206F85B3; 0xB966D409; 0xCE61E49F;
    0x5EDEF90E; 0x29D9C998; 0xB0D09822; 0xC7D7A8B4; 0x59B33D17; 0x2EB40D81;
    0xB7BD5C3B; 0xC0BA6CAD; 0xEDB88320; 0x9ABFB3B6; 0x03B6E20C; 0x74B1D29A;
    0xEAD54739; 0x9DD277AF; 0x04DB2615; 0x73DC1683; 0xE3630B12; 0x94643B84;
    0x0D6D6A3E; 0x7A6A5AA8; 0xE40ECF0B; 0x9309FF9D; 0x0A00AE27; 0x7D079EB1;
    0xF00F9344; 0x8708A3D2; 0x1E01F268; 0x6906C2FE; 0xF762575D; 0x806567CB;
    0x196C3671; 0x6E6B06E7; 0xFED41B76; 0x89D32BE0; 0x10DA7A5A; 0x67DD4ACC;
    0xF9B9DF6F; 0x8EBEEFF9; 0x17B7BE43; 0x60B08ED5; 0xD6D6A3E8; 0xA1D1937E;
    0x38D8C2C4; 0x4FDFF252; 0xD1BB67F1; 0xA6BC5767; 0x3FB506DD; 0x48B2364B;
    0xD80D2BDA; 0xAF0A1B4C; 0x36034AF6; 0x41047A60; 0xDF60EFC3; 0xA867DF55;
    0x316E8EEF; 0x4669BE79; 0xCB61B38C; 0xBC66831A; 0x256FD2A0; 0x5268E236;
    0xCC0C7795; 0xBB0B4703; 0x220216B9; 0x5505262F; 0xC5BA3BBE; 0xB2BD0B28;
    0x2BB45A92; 0x5CB36A04; 0xC2D7FFA7; 0xB5D0CF31; 0x2CD99E8B; 0x5BDEAE1D;
    0x9B64C2B0; 0xEC63F226; 0x756AA39C; 0x026D930A; 0x9C0906A9; 0xEB0E363F;
    0x72076785; 0x05005713; 0x95BF4A82; 0xE2B87A14; 0x7BB12BAE; 0x0CB61B38;
    0x92D28E9B; 0xE5D5BE0D; 0x7CDCEFB7; 0x0BDBDF21; 0x86D3D2D4; 0xF1D4E242;
    0x68DDB3F8; 0x1FDA836E; 0x81BE16CD; 0xF6B9265B; 0x6FB077E1; 0x18B74777;
    0x88085AE6; 0xFF0F6A70; 0x66063BCA; 0x11010B5C; 0x8F659EFF; 0xF862AE69;
    0x616BFFD3; 0x166CCF45; 0xA00AE278; 0xD70DD2EE; 0x4E048354; 0x3903B3C2;
    0xA7672661; 0xD06016F7; 0x4969474D; 0x3E6E77DB; 0xAED16A4A; 0xD9D65ADC;
    0x40DF0B66; 0x37D83BF0; 0xA9BCAE53; 0xDEBB9EC5; 0x47B2CF7F; 0x30B5FFE9;
    0xBDBDF21C; 0xCABAC28A; 0x53B39330; 0x24B4A3A6; 0xBAD03605; 0xCDD70693;
    0x54DE5729; 0x23D967BF; 0xB3667A2E; 0xC4614AB8; 0x5D681B02; 0x2A6F2B94;
    0xB40BBE37; 0xC30C8EA1; 0x5A05DF1B; 0x2D02EF8D
].

Definition crc_itu16_table : list Z := [
    0x0000; 0x1189; 0x2312; 0x329B; 0x4624; 0x57AD; 0x6536; 0x74BF; 0x8C48; 0x9DC1;
    0xAF5A; 0xBED3; 0xCA6C; 0xDBE5; 0xE97E; 0xF8F7; 0x1081; 0x0108; 0x3393; 0x221A;
    0x56A5; 0x472C; 0x75B7; 0x643E; 0x9CC9; 0x8D40; 0xBFDB; 0xAE52; 0xDAED; 0xCB64;
    0xF9FF; 0xE876; 0x2102; 0x308B; 0x0210; 0x1399; 0x6726; 0x76AF; 0x4434; 0x55BD;
    0xAD4A; 0xBCC3; 0x8E58; 0x9FD1; 0xEB6E; 0xFAE7; 0xC87C; 0xD9F5; 0x3183; 0x200A;
    0x1291; 0x0318; 0x77A7; 0x662E; 0x54B5; 0x453C; 0xBDCB; 0xAC42; 0x9ED9; 0x8F50;
    0xFBEF; 0xEA66; 0xD8FD; 0xC974; 0x4204; 0x538D; 0x6116; 0x709F; 0x0420; 0x15A9;
    0x2732; 0x36BB; 0xCE4C; 0xDFC5; 0xED5E; 0xFCD7; 0x8868; 0x99E1; 0xAB7A; 0xBAF3;
    0x5285; 0x430C; 0x7197; 0x601E; 0x14A1; 0x0528; 0x37B3; 0x263A; 0xDECD; 0xCF44;
    0xFDDF; 0xEC56; 0x98E9; 0x8960; 0xBBFB; 0xAA72; 0x6306; 0x728F; 0x4014; 0x519D;
    0x2522; 0x34AB; 0x0630; 0x17B9; 0xEF4E; 0xFEC7; 0xCC5C; 0xDDD5; 0xA96A; 0xB8E3;
    0x8A78; 0x9BF1; 0x7387; 0x620E; 0x5095; 0x411C; 0x35A3; 0x242A; 0x16B1; 0x0738;
    0xFFCF; 0xEE46; 0xDCDD; 0xCD54; 0xB9EB; 0xA862; 0x9AF9; 0x8B70; 0x8408; 0x9581;
    0xA71A; 0xB693; 0xC22C; 0xD3A5; 0xE13E; 0xF0B7; 0x0840; 0x19C9; 0x2B52; 0x3ADB;
    0x4E64; 0x5FED; 0x6D76; 0x7CFF; 0x9489; 0x8500; 0xB79B; 0xA612; 0xD2AD; 0xC324;
    0xF1BF; 0xE036; 0x18C1; 0x0948; 0x3BD3; 0x2A5A; 0x5EE5; 0x4F6C; 0x7DF7; 0x6C7E;
    0xA50A; 0xB483; 0x8618; 0x9791; 0xE32E; 0xF2A7; 0xC03C; 0xD1B5; 0x2942; 0x38CB;
    0x0A50; 0x1BD9; 0x6F66; 0x7EEF; 0x4C74; 0x5DFD; 0xB58B; 0xA402; 0x9699; 0x8710;
    0xF3AF; 0xE226; 0xD0BD; 0xC134; 0x39C3; 0x284A; 0x1AD1; 0x0B58; 0x7FE7; 0x6E6E;
    0x5CF5; 0x4D7C; 0xC60C; 0xD785; 0xE51E; 0xF497; 0x8028; 0x91A1; 0xA33A; 0xB2B3;
    0x4A44; 0x5BCD; 0x6956; 0x78DF; 0x0C60; 0x1DE9; 0x2F72; 0x3EFB; 0xD68D; 0xC704;
    0xF59F; 0xE416; 0x90A9; 0x8120; 0xB3BB; 0xA232; 0x5AC5; 0x4B4C; 0x79D7; 0x685E;
    0x1CE1; 0x0D68; 0x3FF3; 0x2E7A; 0xE70E; 0xF687; 0xC41C; 0xD595; 0xA12A; 0xB0A3;
    0x8238; 0x93B1; 0x6B46; 0x7ACF; 0x4854; 0x59DD; 0x2D62; 0x3CEB; 0x0E70; 0x1FF9;
    0xF78F; 0xE606; 0xD49D; 0xC514; 0xB1AB; 0xA022; 0x92B9; 0x8330; 0x7BC7; 0x6A4E;
    0x58D5; 0x495C; 0x3DE3; 0x2C6A; 0x1EF1; 0x0F78
].

(** One turn of the loop of the CRC-32 routines. *)
Definition crc_itu32_octet (crc b : Z) : Z :=
  ((crc .>> 8) .& 0x00FFFFFF) .^ aget crc_itu32_table ((crc .^ b) .& 0xFF).

Definition crc_itu32_calc (buf : list Z) (crc : Z) : Z := fold_left crc_itu32_octet buf crc.

(** The buffer with its four CRC octets, and its new length. *)
Definition crc_itu32_append (buf : list Z) : list Z * Z :=
  let crc := fold_left crc_itu32_octet buf 0xFFFFFFFF .^ 0xFFFFFFFF in
  (buf ++ [u8 crc; u8 (crc .>> 8); u8 (crc .>> 16); u8 (crc .>> 24)], zlen buf + 4).

Definition crc_itu32_check (buf : list Z) : bool :=
  fold_left crc_itu32_octet buf 0xFFFFFFFF =? 0xDEBB20E3.

(** One turn of the loop of the CRC-16 routines. *)
Definition crc_itu16_octet (crc b : Z) : Z :=
  (crc .>> 8) .^ aget crc_itu16_table ((crc .^ b) .& 0xFF).

Definition crc_itu16_calc (buf : list Z) (crc : Z) : Z := fold_left crc_itu16_octet buf crc.

Definition crc_itu16_append (buf : list Z) : list Z * Z :=
  let crc := fold_left crc_itu16_octet buf 0xFFFF .^ 0xFFFF in
  (buf ++ [u8 crc; u8 (crc .>> 8)], zlen buf + 2).

Definition crc_itu16_check (buf : list Z) : bool :=
  (fold_left crc_itu16_octet buf 0xFFFF .& 0xFFFF) =? 0xF0B8.

(** ** The reference: one bit at a time *)

(** A shift register with the (reflected) generator polynomial [poly]: the
    bit shifted out, combined with the data bit, feeds the taps back. *)
Definition crc_bit (poly crc : Z) (b : bool) : Z :=
  let x := crc .^ Z.b2z b in
  (x .>> 1) .^ (if Z.odd x then poly else 0).

Definition crc_bitwise (poly : Z) (buf : list Z) (crc : Z) : Z :=
  fold_left (crc_bit poly) (concat (map (lsb_bits 8) buf)) crc.

Definition crc_shift (poly x : Z) : Z := (x .>> 1) .^ (if Z.odd x then poly else 0).

(** ** What the two checks share *)

(** The octet step on the register alone, the data octet already in it. *)
Definition crc_turn (table : list Z) (x : Z) : Z := (x .>> 8) .^ aget table (x .& 0xFF).
Definition crc_octet (table : list Z) (crc b : Z) : Z :=
  (crc .>> 8) .^ aget table ((crc .^ b) .& 0xFF).

(** The facts about a table of an [n]-octet CRC the proofs rest on, all
    decidable: entries in range, told apart by their high octets, equal to
    eight shifts of the generator polynomial; and no message shorter than the
    check sequence leaves the residue. *)
Class CrcTable (n : nat) (table : list Z) (poly : Z) : Prop := {
  n_pos : (0 < n)%nat;
  table_range : all_below 256 (fun i =>
    (0 <=? aget table i) && (aget table i <? 2 ^ (8 * Z.of_nat n))) = true;
  table_high : exists inverse, all_below 256 (fun i =>
    aget inverse (aget table i .>> (8 * Z.of_nat n - 8)) =? i) = true;
  table_bitwise : all_below 256 (fun i =>
    aget table i =? Nat.iter 8 (crc_shift poly) i) = true;
  short_ok : forallb (fun j =>
    negb (Nat.iter j (crc_turn table) (Z.ones (8 * Z.of_nat n))
            .>> (8 * Z.of_nat n - 8 * Z.of_nat j) =? Z.ones (8 * Z.of_nat j)))
    (seq 1 n) = true
}.

(** For each high octet, the index of the entry that has it. *)
Definition invert_table (n : Z) (table : list Z) : list Z :=
  fold_left (fun inverse i => aset inverse (aget table i .>> (8 * n - 8)) i)
    (map Z.of_nat (seq 0 256)) (repeat 0 256).

Definition crc_itu16_inverse := Eval vm_compute in invert_table 2 crc_itu16_table.
Definition crc_itu32_inverse := Eval vm_compute in invert_table 4 crc_itu32_table.

#[export] Instance crc_itu16_facts : CrcTable 2 crc_itu16_table 0x8408.
Proof.
  split; [lia|vm_compute; reflexivity| |vm_compute; reflexivity..].
  exists crc_itu16_inverse. vm_compute. reflexivity.
Qed.

#[export] Instance crc_itu32_facts : CrcTable 4 crc_itu32_table 0xEDB88320.
Proof.
  split; [lia|vm_compute; reflexivity| |vm_compute; reflexivity..].
  exists crc_itu32_inverse. vm_compute. reflexivity.
Qed.

Section crc.
Context (n : nat) (table : list Z) (poly : Z) {facts : CrcTable n table poly}.
Abbreviation w := (8 * Z.of_nat n).
Abbreviation crc_turn := (crc_turn table).
Abbreviation crc_octet := (crc_octet table).
Local Definition n_pos' : (0 < n)%nat := n_pos.
Local Definition table_range' := table_range.
Local Definition table_high' := table_high.
Local Definition table_bitwise' := table_bitwise.
Local Definition short_ok' := short_ok.

Local Ltac nlia := pose proof n_pos'; lia.

Lemma table_entry i : 0 <= i < 256 -> 0 <= aget table i < 2 ^ w.
Proof.
  intros Hi. pose proof (all_below_spec _ _ table_range' i Hi) as H. cbn beta in H. nlia.
Qed.

Lemma low_octet x : 0 <= x .& 0xFF < 256.
Proof. apply (land_range 8); done. Qed.

Lemma crc_turn_range x : 0 <= x < 2 ^ w -> 0 <= crc_turn x < 2 ^ w.
Proof.
  intros Hx. apply lxor_range; [nlia| |apply table_entry, low_octet].
  by apply shiftr_range.
Qed.

Lemma crc_octet_turn crc b : is_byte b -> crc_octet crc b = crc_turn (crc .^ b).
Proof.
  intros Hb. unfold crc_octet, crc_turn. f_equal. rewrite Z.shiftr_lxor.
  assert (b .>> 8 = 0) as ->; [|by rewrite Z.lxor_0_r].
  bitwise i. apply (testbit_high 8); [exact Hb|nlia].
Qed.

(** Data above the octet being shifted out comes down unchanged. *)
Lemma crc_turn_shift x y : crc_turn (x .^ (y .<< 8)) = crc_turn x .^ y.
Proof.
  unfold crc_turn.
  assert ((x .^ (y .<< 8)) .& 0xFF = x .& 0xFF) as ->.
  { change 0xFF with (Z.ones 8). bitwise i.
    destruct (Z.leb_spec 8 i), (Z.ltb_spec i 8), (Z.leb_spec 0 i); try nlia; simpl;
      by rewrite ?andb_false_r, ?xorb_false_r. }
  assert ((x .^ (y .<< 8)) .>> 8 = (x .>> 8) .^ y) as ->.
  { bitwise i. destruct (Z.leb_spec 8 (i + 8)); [|nlia]. simpl.
    by replace (i + 8 - 8) with i by nlia. }
  rewrite !Z.lxor_assoc. f_equal. apply Z.lxor_comm.
Qed.

Lemma crc_turn_inj x y : 0 <= x < 2 ^ w -> 0 <= y < 2 ^ w ->
  crc_turn x = crc_turn y -> x = y.
Proof.
  intros Hx Hy Heq. unfold crc_turn in Heq.
  assert (forall z, 0 <= z < 2 ^ w -> (z .>> 8) .>> (w - 8) = 0) as Hz.
  { intros z Hz. rewrite Z.shiftr_shiftr by nlia. bitwise i. apply (testbit_high w); nlia. }
  assert (x .& 0xFF = y .& 0xFF) as Hlow.
  { destruct table_high' as [inverse Hinv].
    pose proof (all_below_spec _ _ Hinv _ (low_octet x)) as H1%Z.eqb_eq.
    pose proof (all_below_spec _ _ Hinv _ (low_octet y)) as H2%Z.eqb_eq.
    apply (f_equal (fun z => z .>> (w - 8))) in Heq.
    rewrite !Z.shiftr_lxor, !Hz, !Z.lxor_0_l in Heq by done.
    by rewrite <- H1, <- H2, Heq. }
  rewrite Hlow in Heq. apply (f_equal (fun z => z .^ aget table (y .& 0xFF))) in Heq.
  rewrite !Z.lxor_assoc, Z.lxor_nilpotent, !Z.lxor_0_r in Heq.
  apply Z.bits_inj'. intros i Hi. destruct (Z_lt_le_dec i 8).
  - change 0xFF with (Z.ones 8) in Hlow.
    apply (f_equal (fun z => Z.testbit z i)) in Hlow. revert Hlow. bit_specs.
    destruct (Z.leb_spec 0 i), (Z.ltb_spec i 8); try nlia. by rewrite !andb_true_r.
  - apply (f_equal (fun z => Z.testbit z (i - 8))) in Heq. revert Heq. bit_specs.
    by replace (i - 8 + 8) with i by nlia.
Qed.

Lemma crc_turns_range k x : 0 <= x < 2 ^ w -> 0 <= Nat.iter k crc_turn x < 2 ^ w.
Proof. intros. induction k; [done|]. by apply crc_turn_range. Qed.

Lemma crc_turns_inj k x y : 0 <= x < 2 ^ w -> 0 <= y < 2 ^ w ->
  Nat.iter k crc_turn x = Nat.iter k crc_turn y -> x = y.
Proof.
  intros Hx Hy. induction k as [|k IH]; [done|]. simpl. intros Heq. apply IH.
  apply crc_turn_inj; try done; by apply crc_turns_range.
Qed.

(** The octets of a short message all enter the register at once. *)
Lemma crc_octets_turns l crc : bytes l ->
  fold_left crc_octet l crc = Nat.iter (length l) crc_turn (crc .^ le_combine l).
Proof.
  intros Hl. revert crc. induction Hl as [|b l Hb Hl IH]; intros crc.
  - by rewrite Z.lxor_0_r.
  - cbn [fold_left length le_combine]. rewrite IH, crc_octet_turn by done.
    assert (b .| (le_combine l .<< 8) = b .^ (le_combine l .<< 8)) as ->.
    { symmetry. apply Z.lxor_lor. bitwise i.
      destruct (Z.leb_spec 8 i); simpl; [|by rewrite andb_false_r].
      by rewrite (testbit_high 8 b) by (done || nlia). }
    rewrite <- crc_turn_shift, <- Nat.iter_succ_r, Z.lxor_assoc. done.
Qed.

Lemma crc_range l crc : bytes l -> 0 <= crc < 2 ^ w ->
  0 <= fold_left crc_octet l crc < 2 ^ w.
Proof.
  intros Hl. revert crc. induction Hl as [|b l Hb Hl IH]; intros crc Hc; [done|].
  cbn [fold_left]. apply IH. rewrite crc_octet_turn by done. apply crc_turn_range.
  apply lxor_range; [nlia|done|]. split; [apply Hb|].
  apply Z.lt_le_trans with (2 ^ 8); [apply Hb|]. apply Z.pow_le_mono_r; nlia.
Qed.

Lemma le_combine_in l : bytes l -> (length l <= n)%nat -> 0 <= le_combine l < 2 ^ w.
Proof.
  intros Hl Hn. pose proof (le_combine_range l Hl).
  assert (2 ^ (8 * zlen l) <= 2 ^ w) by (apply Z.pow_le_mono_r; nlia). nlia.
Qed.

(** Different registers stay different. *)
Lemma crc_state_inj l c1 c2 : bytes l -> 0 <= c1 < 2 ^ w -> 0 <= c2 < 2 ^ w ->
  fold_left crc_octet l c1 = fold_left crc_octet l c2 -> c1 = c2.
Proof.
  intros Hl. revert c1 c2. induction Hl as [|b l Hb Hl IH]; intros c1 c2 H1 H2 Heq; [done|].
  cbn [fold_left] in Heq.
  pose proof (crc_range [b] c1 ltac:(by constructor) H1) as R1.
  pose proof (crc_range [b] c2 ltac:(by constructor) H2) as R2. cbn [fold_left] in R1, R2.
  specialize (IH _ _ R1 R2 Heq). rewrite !crc_octet_turn in IH by done.
  assert (0 <= b < 2 ^ w).
  { split; [apply Hb|]. apply Z.lt_le_trans with (2 ^ 8); [apply Hb|].
    apply Z.pow_le_mono_r; nlia. }
  apply crc_turn_inj in IH; [|apply lxor_range; nlia..].
  apply (f_equal (fun z => z .^ b)) in IH.
  by rewrite !Z.lxor_assoc, !Z.lxor_nilpotent, !Z.lxor_0_r in IH.
Qed.

(** Different data, no longer than the register, give different registers. *)
Lemma crc_data_inj l1 l2 crc : bytes l1 -> bytes l2 -> length l1 = length l2 ->
  (length l1 <= n)%nat -> 0 <= crc < 2 ^ w ->
  fold_left crc_octet l1 crc = fold_left crc_octet l2 crc -> l1 = l2.
Proof.
  intros H1 H2 Hlen Hn Hc Heq. rewrite !crc_octets_turns, Hlen in Heq by done.
  pose proof (le_combine_in l1 H1 Hn). pose proof (le_combine_in l2 H2 ltac:(nlia)).
  apply crc_turns_inj in Heq; [|apply lxor_range; nlia..].
  apply (f_equal (fun z => crc .^ z)) in Heq.
  rewrite <- !Z.lxor_assoc, !Z.lxor_nilpotent, !Z.lxor_0_l in Heq.
  by rewrite <- (le_split_combine l1), <- (le_split_combine l2), Heq, Hlen by done.
Qed.

(** The register after a message followed by its own complement. *)
Lemma crc_residue crc : 0 <= crc < 2 ^ w ->
  fold_left crc_octet (le_split n (crc .^ Z.ones w)) crc = Nat.iter n crc_turn (Z.ones w).
Proof.
  intros Hc. rewrite crc_octets_turns by apply bytes_le_split.
  rewrite length_le_split, le_combine_split. f_equal.
  bitwise i. destruct (Z.ltb_spec i w), (Z.leb_spec 0 i); try nlia; simpl.
  - by destruct (Z.testbit crc i).
  - by rewrite (testbit_high w crc) by nlia.
Qed.

(** *** The table against the polynomial *)

Lemma crc_shift_lxor x y : crc_shift poly (x .^ y) = crc_shift poly x .^ crc_shift poly y.
Proof.
  unfold crc_shift. rewrite Z.shiftr_lxor, <- !Z.bit0_odd, Z.lxor_spec.
  destruct (Z.testbit x 0), (Z.testbit y 0); simpl; bitwise i;
    destruct (Z.testbit x (i + 1)), (Z.testbit y (i + 1)), (Z.testbit poly i); done.
Qed.

Lemma crc_shifts_lxor k x y : Nat.iter k (crc_shift poly) (x .^ y) =
  Nat.iter k (crc_shift poly) x .^ Nat.iter k (crc_shift poly) y.
Proof. induction k as [|k IH]; [done|]. simpl. by rewrite IH, crc_shift_lxor. Qed.

Lemma crc_shift_even x : crc_shift poly (x .<< 1) = x.
Proof.
  unfold crc_shift. rewrite <- Z.bit0_odd. bit_specs. simpl.
  rewrite Z.lxor_0_r. rewrite Z.shiftr_shiftl_l by nlia. by rewrite Z.shiftl_0_r.
Qed.

Lemma crc_shifts_high k x : Nat.iter k (crc_shift poly) (x .<< Z.of_nat k) = x.
Proof.
  induction k as [|k IH]; [by rewrite Z.shiftl_0_r|]. rewrite Nat.iter_succ_r.
  replace (x .<< Z.of_nat (S k)) with ((x .<< Z.of_nat k) .<< 1).
  - by rewrite crc_shift_even.
  - rewrite Z.shiftl_shiftl by nlia. f_equal. nlia.
Qed.

Lemma split_low_high x k : 0 <= k -> x = ((x .>> k) .<< k) .^ (x .& Z.ones k).
Proof.
  intros Hk. bitwise i. destruct (Z.leb_spec k i), (Z.leb_spec 0 i), (Z.ltb_spec i k);
    try nlia; simpl; rewrite ?andb_true_r, ?andb_false_r, ?xorb_false_r; try done.
  rewrite testbit_shiftr by nlia. f_equal. nlia.
Qed.

(** The table does in one turn what eight shifts of the register do. *)
Lemma crc_turn_bits x : crc_turn x = Nat.iter 8 (crc_shift poly) x.
Proof.
  rewrite (split_low_high x 8) at 2 by nlia. rewrite crc_shifts_lxor.
  rewrite (crc_shifts_high 8). unfold crc_turn. f_equal. change (Z.ones 8) with 0xFF.
  apply Z.eqb_eq. exact (all_below_spec _ _ table_bitwise' _ (low_octet x)).
Qed.

Lemma crc_bits_shifts k y crc : fold_left (crc_bit poly) (lsb_bits k y) crc =
  Nat.iter k (crc_shift poly) (crc .^ wrap (Z.of_nat k) y).
Proof.
  revert y crc. induction k as [|k IH]; intros y crc.
  - simpl. unfold wrap. by rewrite Z.mod_1_r, Z.lxor_0_r.
  - cbn [lsb_bits fold_left]. rewrite IH, Nat.iter_succ_r. f_equal.
    change (crc_bit poly crc (Z.odd y)) with (crc_shift poly (crc .^ Z.b2z (Z.odd y))).
    rewrite <- (crc_shift_even (wrap (Z.of_nat k) (Z.div2 y))), <- crc_shift_lxor. f_equal.
    rewrite Z.lxor_assoc. f_equal. rewrite Z.div2_spec, <- Z.bit0_odd.
    bitwise i. destruct (decide (i = 0)) as [->|].
    + rewrite Z.b2z_bit0. destruct (Z.leb_spec 1 0); [nlia|]. cbn [andb].
      rewrite xorb_false_r. bit_specs. by destruct (Z.ltb_spec 0 (Z.of_nat (S k))); [|nlia].
    + rewrite (testbit_high 1 (Z.b2z _)) by (destruct (Z.testbit y 0); simpl; nlia).
      destruct (Z.leb_spec 1 i); [|nlia]. cbn [andb xorb]. bit_specs.
      replace (i - 1 + 1) with i by nlia.
      by destruct (Z.ltb_spec (i - 1) (Z.of_nat k)), (Z.ltb_spec i (Z.of_nat (S k))); try nlia.
Qed.

(** The table-driven CRC is the CRC of the generator polynomial. *)
Lemma crc_octets_bitwise l crc : bytes l ->
  fold_left crc_octet l crc = crc_bitwise poly l crc.
Proof.
  unfold crc_bitwise. intros Hl. revert crc. induction Hl as [|b l Hb Hl IH]; intros crc; [done|].
  cbn [fold_left map concat]. rewrite fold_left_app, IH, crc_bits_shifts.
  rewrite crc_octet_turn, crc_turn_bits, wrap_id by done. done.
Qed.

(** *** Checking a message *)

Abbreviation residue := (Nat.iter n crc_turn (Z.ones w)).
Abbreviation fcs c := (le_split n (c .^ Z.ones w)).

Lemma ones_range : 0 <= Z.ones w < 2 ^ w.
Proof. rewrite Z.ones_equiv. pose proof (Z.pow_pos_nonneg 2 w). nlia. Qed.

(** A message shorter than the check sequence cannot leave the residue. *)
Lemma crc_short l : bytes l -> (length l < n)%nat ->
  fold_left crc_octet l (Z.ones w) <> residue.
Proof.
  intros Hl Hlen Heq. rewrite crc_octets_turns in Heq by done.
  assert (residue = Nat.iter (length l) crc_turn
            (Nat.iter (n - length l) crc_turn (Z.ones w))) as E
    by (rewrite <- Nat.iter_add; f_equal; nlia).
  rewrite E in Heq. pose proof ones_range. pose proof (le_combine_in l Hl ltac:(nlia)).
  apply crc_turns_inj in Heq; [|apply lxor_range; nlia|by apply crc_turns_range].
  pose proof short_ok' as Hshort. rewrite forallb_forall in Hshort.
  specialize (Hshort (n - length l)%nat ltac:(apply in_seq; nlia)).
  apply negb_true_iff, Z.eqb_neq in Hshort. apply Hshort. rewrite <- Heq.
  replace (w - 8 * Z.of_nat (n - length l)) with (8 * zlen l) by nlia.
  bitwise i. rewrite (testbit_high (8 * zlen l) (le_combine l))
    by (try apply le_combine_range; done || nlia).
  destruct (Z.leb_spec 0 (i + 8 * zlen l)), (Z.leb_spec 0 i),
    (Z.ltb_spec (i + 8 * zlen l) w), (Z.ltb_spec i (8 * Z.of_nat (n - length l))); done || nlia.
Qed.

(** A message leaves the residue exactly when it ends with its own check
    sequence. *)
Lemma crc_check_iff l : bytes l ->
  fold_left crc_octet l (Z.ones w) = residue <->
  exists p, bytes p /\ l = p ++ fcs (fold_left crc_octet p (Z.ones w)).
Proof.
  intros Hl. split.
  - intros Heq. destruct (Nat.lt_ge_cases (length l) n) as [Hlt|Hge].
    { by apply crc_short in Heq. }
    rewrite <- (take_drop (length l - n) l) in Heq, Hl |- *.
    apply Forall_app in Hl as [Hp Ht]. eexists. split; [exact Hp|]. f_equal.
    rewrite fold_left_app in Heq.
    pose proof (crc_range _ _ Hp ones_range) as Hc. rewrite <- (crc_residue _ Hc) in Heq.
    apply crc_data_inj in Heq; [exact Heq|exact Ht|apply bytes_le_split| | |exact Hc];
      rewrite ?length_le_split, length_drop; nlia.
  - intros (p & Hp & ->). rewrite fold_left_app. apply crc_residue.
    by apply crc_range, ones_range.
Qed.

(** Changing up to [n] consecutive octets is always detected. *)
Lemma crc_burst p m1 m2 s : bytes p -> bytes m1 -> bytes m2 -> bytes s ->
  length m1 = length m2 -> (length m1 <= n)%nat -> m1 <> m2 ->
  fold_left crc_octet (p ++ m1 ++ s) (Z.ones w) <> fold_left crc_octet (p ++ m2 ++ s) (Z.ones w).
Proof.
  intros Hp H1 H2 Hs Hlen Hn Hne Heq. apply Hne. rewrite !fold_left_app in Heq.
  pose proof (crc_range _ _ Hp ones_range) as Hc.
  apply crc_state_inj in Heq; [|done|by apply crc_range..].
  by apply crc_data_inj in Heq.
Qed.
End crc.

(** ** The two instances *)

Lemma crc_itu16_octet_eq : crc_itu16_octet = crc_octet crc_itu16_table.
Proof. reflexivity. Qed.

Lemma crc_itu32_octet_eq crc b : 0 <= crc < 2 ^ 32 ->
  crc_itu32_octet crc b = crc_octet crc_itu32_table crc b.
Proof.
  intros Hc. unfold crc_itu32_octet, crc_octet. f_equal. change 0x00FFFFFF with (Z.ones 24).
  bitwise i. destruct (Z.leb_spec 0 i), (Z.ltb_spec i 24); try lia; simpl;
    rewrite ?andb_true_r; [done|]. by rewrite (testbit_high 32 crc) by lia.
Qed.

Lemma crc_itu16_range buf crc : bytes buf -> 0 <= crc < 2 ^ 16 ->
  0 <= crc_itu16_calc buf crc < 2 ^ 16.
Proof. apply (crc_range 2 _ 0x8408). Qed.

Lemma crc_itu32_fold buf crc : bytes buf -> 0 <= crc < 2 ^ 32 ->
  fold_left crc_itu32_octet buf crc = fold_left (crc_octet crc_itu32_table) buf crc.
Proof.
  intros Hb. revert crc. induction Hb as [|b buf Hb Hbuf IH]; intros crc Hc; [done|].
  cbn [fold_left]. rewrite crc_itu32_octet_eq by done. apply IH.
  apply (crc_range 4 _ 0xEDB88320 [b]); [by constructor|done].
Qed.

Lemma crc_itu32_range buf crc : bytes buf -> 0 <= crc < 2 ^ 32 ->
  0 <= crc_itu32_calc buf crc < 2 ^ 32.
Proof.
  intros Hb Hc. unfold crc_itu32_calc. rewrite crc_itu32_fold by done.
  by apply (crc_range 4 _ 0xEDB88320).
Qed.

(** ** The properties of the routines *)

(** C30: the table-driven CRC-16 and CRC-32 compute, octet by octet, the cyclic
    redundancy check of the ITU generator polynomials (reflected 0x8408 and
    0xEDB88320), fed one bit at a time, least significant bit first. *)
Theorem crc_itu_bitwise (buf : list Z) (crc16 crc32 : Z) :
  bytes buf -> 0 <= crc32 < 2 ^ 32 ->
  crc_itu16_calc buf crc16 = crc_bitwise 0x8408 buf crc16 /\
  crc_itu32_calc buf crc32 = crc_bitwise 0xEDB88320 buf crc32.
Proof.
  intros Hb Hc. split.
  - exact (crc_octets_bitwise 2 crc_itu16_table 0x8408 buf crc16 Hb).
  - unfold crc_itu32_calc. rewrite crc_itu32_fold by done.
    exact (crc_octets_bitwise 4 crc_itu32_table 0xEDB88320 buf crc32 Hb).
Qed.

Lemma crc_itu_bitwise_witness :
  crc_itu16_calc [0x31; 0x32; 0x33] 0xFFFF = crc_bitwise 0x8408 [0x31; 0x32; 0x33] 0xFFFF /\
  crc_itu32_calc [0x31; 0x32; 0x33] 0xFFFFFFFF
    = crc_bitwise 0xEDB88320 [0x31; 0x32; 0x33] 0xFFFFFFFF.
Proof.
  apply (crc_itu_bitwise [0x31; 0x32; 0x33] 0xFFFF 0xFFFFFFFF).
  - by_decide.
  - by split.
Defined.

Lemma crc_itu16_append_split buf : bytes buf ->
  crc_itu16_append buf =
  (buf ++ le_split 2 (crc_itu16_calc buf 0xFFFF .^ 0xFFFF), zlen buf + 2).
Proof. reflexivity. Qed.

Lemma crc_itu32_append_split buf :
  crc_itu32_append buf =
  (buf ++ le_split 4 (crc_itu32_calc buf 0xFFFFFFFF .^ 0xFFFFFFFF), zlen buf + 4).
Proof. unfold crc_itu32_append. cbn [le_split]. by rewrite !Z.shiftr_shiftr by lia. Qed.

Lemma crc_itu16_check_fold buf : bytes buf ->
  crc_itu16_check buf = true <->
  fold_left (crc_octet crc_itu16_table) buf 0xFFFF = Nat.iter 2 (crc_turn crc_itu16_table) 0xFFFF.
Proof.
  intros Hb. unfold crc_itu16_check. rewrite Z.eqb_eq.
  change 0xFFFF with (Z.ones 16) at 2. rewrite Z.land_ones by lia.
  rewrite Z.mod_small by (by apply crc_itu16_range). reflexivity.
Qed.

Lemma crc_itu32_check_fold buf : bytes buf ->
  crc_itu32_check buf = true <->
  fold_left (crc_octet crc_itu32_table) buf 0xFFFFFFFF
    = Nat.iter 4 (crc_turn crc_itu32_table) 0xFFFFFFFF.
Proof.
  intros Hb. unfold crc_itu32_check. rewrite Z.eqb_eq, crc_itu32_fold by done. reflexivity.
Qed.

Lemma crc_itu16_check_iff buf : bytes buf -> crc_itu16_check buf = true <->
  exists p, bytes p /\ buf = p ++ le_split 2 (crc_itu16_calc p 0xFFFF .^ 0xFFFF).
Proof.
  intros Hb. rewrite crc_itu16_check_fold by done. by rewrite (crc_check_iff 2 _ 0x8408) by done.
Qed.

Lemma crc_itu32_check_iff buf : bytes buf -> crc_itu32_check buf = true <->
  exists p, bytes p /\ buf = p ++ le_split 4 (crc_itu32_calc p 0xFFFFFFFF .^ 0xFFFFFFFF).
Proof.
  intros Hb. rewrite crc_itu32_check_fold by done. rewrite (crc_check_iff 4 _ 0xEDB88320) by done.
  unfold crc_itu32_calc.
  split; intros (p & Hp & ->); exists p; (split; [done|]); by rewrite crc_itu32_fold.
Qed.

(** C28: [crc_itu16_check] and [crc_itu32_check] accept a buffer exactly when it
    is some message followed by the check octets their [append] writes: what is
    appended always checks, and nothing else does. *)
Theorem crc_itu_check_iff (buf : list Z) : bytes buf ->
  (crc_itu16_check buf = true <->
     exists p, bytes p /\ buf = fst (crc_itu16_append p)) /\
  (crc_itu32_check buf = true <->
     exists p, bytes p /\ buf = fst (crc_itu32_append p)).
Proof.
  intros Hb. split.
  - by rewrite crc_itu16_check_iff.
  - rewrite crc_itu32_check_iff by done.
    split; intros (p & Hp & E); exists p; (split; [done|]); by rewrite E, crc_itu32_append_split.
Qed.

Lemma crc_itu_check_iff_witness :
  bytes [0x31; 0x72; 0xD0] /\
  ((crc_itu16_check [0x31; 0x72; 0xD0] = true <->
     exists p, bytes p /\ [0x31; 0x72; 0xD0] = fst (crc_itu16_append p)) /\
  (crc_itu32_check [0x31; 0x72; 0xD0] = true <->
     exists p, bytes p /\ [0x31; 0x72; 0xD0] = fst (crc_itu32_append p))).
Proof.
  assert (bytes [0x31; 0x72; 0xD0]) as H by (by_decide).
  split; [exact H|]. exact (crc_itu_check_iff [0x31; 0x72; 0xD0] H).
Defined.

(** C29: the checks detect every change confined to two consecutive octets
    (CRC-16), and to four (CRC-32), of a message that checks. *)
Theorem crc_itu_detects_burst (p m1 m2 s : list Z) :
  bytes p -> bytes m1 -> bytes m2 -> bytes s -> length m1 = length m2 -> m1 <> m2 ->
  ((length m1 <= 2)%nat ->
     crc_itu16_check (p ++ m1 ++ s) = true -> crc_itu16_check (p ++ m2 ++ s) = false) /\
  ((length m1 <= 4)%nat ->
     crc_itu32_check (p ++ m1 ++ s) = true -> crc_itu32_check (p ++ m2 ++ s) = false).
Proof.
  intros Hp H1 H2 Hs Hlen Hne.
  assert (bytes (p ++ m1 ++ s)) by (by repeat apply Forall_app_2).
  assert (bytes (p ++ m2 ++ s)) by (by repeat apply Forall_app_2).
  split; intros Hn Hok; apply not_true_is_false; intros Hok'.
  - apply crc_itu16_check_fold in Hok, Hok'; [|done..].
    exact (crc_burst 2 _ 0x8408 p m1 m2 s Hp H1 H2 Hs Hlen Hn Hne (eq_trans Hok (eq_sym Hok'))).
  - apply crc_itu32_check_fold in Hok, Hok'; [|done..].
    exact (crc_burst 4 _ 0xEDB88320 p m1 m2 s Hp H1 H2 Hs Hlen Hn Hne (eq_trans Hok (eq_sym Hok'))).
Qed.

Lemma crc_itu_detects_burst_witness :
  crc_itu16_check [0x41; 0x42; 0x43; 0x2F; 0x9F] = true /\
  crc_itu16_check ([0x41] ++ [0x43; 0x42] ++ [0x2F; 0x9F]) = false.
Proof.
  split; [vm_compute; reflexivity|].
  refine (proj1 (crc_itu_detects_burst [0x41] [0x42; 0x43] [0x43; 0x42] [0x2F; 0x9F]
            _ _ _ _ _ _) _ _);
    first [by_decide | reflexivity | discriminate].
Defined.

(** ** The frame check sequence, as the HDLC framer sees it *)

(** What the framer needs of a check sequence: its octets, the register it
    starts from, the update over data, and the test of a received frame. *)
Class FrameCheck := {
  fc_octets : nat;
  fc_init : Z;
  fc_calc : list Z -> Z -> Z;
  fc_check : list Z -> bool;
}.

(** The octets sent after a message whose register is [crc]: its complement,
    least significant octet first. *)
Definition fc_sequence `{FrameCheck} (crc : Z) : list Z :=
  le_split fc_octets (crc .^ 0xFFFFFFFF).

Class FrameCheckLaws (F : FrameCheck) : Prop := {
  fc_octets_le : (1 <= fc_octets <= 4)%nat;
  fc_calc_app : forall a b crc, fc_calc (a ++ b) crc = fc_calc b (fc_calc a crc);
  fc_check_iff : forall buf, bytes buf -> fc_check buf = true <->
    exists p, bytes p /\ buf = p ++ fc_sequence (fc_calc p fc_init);
}.

Definition fc_crc16 : FrameCheck :=
  {| fc_octets := 2; fc_init := 0xFFFF; fc_calc := crc_itu16_calc; fc_check := crc_itu16_check |}.
Definition fc_crc32 : FrameCheck :=
  {| fc_octets := 4; fc_init := 0xFFFFFFFF; fc_calc := crc_itu32_calc;
     fc_check := crc_itu32_check |}.

Lemma fc_sequence_16 crc : @fc_sequence fc_crc16 crc = le_split 2 (crc .^ 0xFFFF).
Proof.
  apply le_split_ext. intros i Hi. change 0xFFFFFFFF with (Z.ones 32).
  change 0xFFFF with (Z.ones 16). bit_specs. f_equal. simpl in Hi.
  destruct (Z.leb_spec 0 i), (Z.ltb_spec i 32), (Z.ltb_spec i 16); done || lia.
Qed.

#[export] Instance fc_crc16_laws : FrameCheckLaws fc_crc16.
Proof.
  split; [simpl; lia| |].
  - intros. apply fold_left_app.
  - intros buf Hb. cbn [fc_check fc_calc fc_init fc_crc16]. rewrite crc_itu16_check_iff by done.
    split; intros (p & Hp & ->); exists p; (split; [done|]); by rewrite fc_sequence_16.
Qed.

#[export] Instance fc_crc32_laws : FrameCheckLaws fc_crc32.
Proof.
  split; [simpl; lia| |].
  - intros. apply fold_left_app.
  - intros buf Hb. by apply crc_itu32_check_iff.
Qed.
