(* ===== verification/HdlcFrame.v ===== *)
(** * The HDLC bit stream

    What the framer (HdlcTx) and the receiver (HdlcRx) are specified against:
    the flag, zero insertion after five ones, its inverse, and the bits of a
    frame.  Nothing here is code of the library; it is the line format. *)
From S2P Require Import Prelude.

(** The octets of a frame go out least significant bit first. *)
Definition octet_bits (octets : list Z) : list bool := concat (map (lsb_bits 8) octets).

(** An octet of the line, as the modems take it: its first bit is the most
    significant one. *)
Definition line_bits (octets : list Z) : list bool := concat (map (msb_bits 8) octets).

(** 0x7E *)
Definition flag : list bool := [false; true; true; true; true; true; true; false].

(** Zero insertion, [ones] consecutive ones having gone out before. *)
Fixpoint stuff (ones : nat) (l : list bool) : list bool :=
  match l with
  | [] => []
  | true :: l =>
      if (ones =? 4)%nat then true :: false :: stuff 0 l else true :: stuff (S ones) l
  | false :: l => false :: stuff 0 l
  end.

(** The consecutive ones gone out after that. *)
Fixpoint ones_after (ones : nat) (l : list bool) : nat :=
  match l with
  | [] => ones
  | true :: l => ones_after (if (ones =? 4)%nat then 0%nat else S ones) l
  | false :: l => ones_after 0 l
  end.

(** Zero deletion; [None] at six consecutive ones (a flag or an abort). *)
Fixpoint unstuff (ones : nat) (l : list bool) : option (list bool) :=
  match l with
  | [] => Some []
  | true :: l =>
      if (ones =? 5)%nat then None else (cons true) <$> unstuff (S ones) l
  | false :: l =>
      if (ones =? 5)%nat then unstuff 0 l else (cons false) <$> unstuff 0 l
  end.

(** A frame between flags: its octets, stuffed, and the closing flag. *)
Definition frame_bits (octets : list Z) : list bool := stuff 0 (octet_bits octets) ++ flag.

Lemma octet_bits_app a b : octet_bits (a ++ b) = octet_bits a ++ octet_bits b.
Proof. unfold octet_bits. by rewrite map_app, concat_app. Qed.

Lemma length_octet_bits a : length (octet_bits a) = (8 * length a)%nat.
Proof.
  induction a as [|x a IH]; [done|]. unfold octet_bits in *. cbn [map concat].
  rewrite length_app, length_lsb_bits, IH. simpl. lia.
Qed.

Lemma line_bits_app a b : line_bits (a ++ b) = line_bits a ++ line_bits b.
Proof. unfold line_bits. by rewrite map_app, concat_app. Qed.

Lemma length_line_bits a : length (line_bits a) = (8 * length a)%nat.
Proof.
  induction a as [|x a IH]; [done|]. unfold line_bits in *. cbn [map concat].
  rewrite length_app, length_msb_bits, IH. simpl. lia.
Qed.

Lemma stuff_app ones a b : stuff ones (a ++ b) = stuff ones a ++ stuff (ones_after ones a) b.
Proof.
  revert ones. induction a as [|x a IH]; intros ones; [done|].
  destruct x; cbn [app stuff ones_after]; [|by rewrite IH].
  destruct (ones =? 4)%nat; by rewrite IH.
Qed.

Lemma ones_after_app ones a b : ones_after ones (a ++ b) = ones_after (ones_after ones a) b.
Proof. revert ones. induction a as [|[] a IH]; intros ones; cbn; auto. Qed.

Lemma ones_after_le ones l : (ones <= 4)%nat -> (ones_after ones l <= 4)%nat.
Proof.
  revert ones. induction l as [|[] l IH]; intros ones H; cbn; [done| |apply IH; lia].
  apply IH. destruct (Nat.eqb_spec ones 4); lia.
Qed.

(** Zero deletion undoes zero insertion; so stuffed data never has six ones in
    a row. *)
Lemma unstuff_stuff ones l : (ones <= 4)%nat -> unstuff ones (stuff ones l) = Some l.
Proof.
  revert ones. induction l as [|[] l IH]; intros ones H; [done| |].
  - cbn [stuff]. destruct (Nat.eqb_spec ones 4) as [->|]; cbn [unstuff Nat.eqb].
    + by rewrite IH by lia.
    + destruct (Nat.eqb_spec ones 5); [lia|]. by rewrite IH by lia.
  - cbn [stuff unstuff]. destruct (Nat.eqb_spec ones 5); [lia|]. by rewrite IH by lia.
Qed.

(** Zero insertion adds at most one bit in five. *)
Lemma length_stuff ones l : (ones <= 4)%nat ->
  (length l <= length (stuff ones l) /\
   5 * length (stuff ones l) <= 6 * length l + ones)%nat.
Proof.
  revert ones. induction l as [|[] l IH]; intros ones H; [simpl; lia| |].
  - cbn [stuff]. destruct (Nat.eqb_spec ones 4) as [->|]; cbn [length].
    + specialize (IH 0%nat). lia.
    + specialize (IH (S ones)). lia.
  - cbn [stuff length]. specialize (IH 0%nat). lia.
Qed.
