(* ===== verification/HdlcRx.v ===== *)
(** * The HDLC receiver (src/spandsp-0.0.6/src/hdlc.c, [hdlc_rx_*])

    The receiver is a record, the C struct field by field; the calls it makes
    to its status and frame handlers are the events an operation returns, in
    order.  The handlers are taken not to call the receiver back.  Then: what
    any input leaves true ([rx_wf]), what a reported frame satisfies, and what
    the receiver does with a well-formed bit stream, frame by frame. *)
From S2P Require Import Prelude.
From S2P Require Import Crc.
From S2P Require Import HdlcFrame.

(** ** Definitions *)

Definition HDLC_MAXFRAME_LEN : Z := 400.
(** [sizeof(s->buffer)]. *)
Definition sizeof_buffer : Z := HDLC_MAXFRAME_LEN + 4.

Definition SIG_STATUS_CARRIER_DOWN : Z := -1.
Definition SIG_STATUS_CARRIER_UP : Z := -2.
Definition SIG_STATUS_TRAINING_IN_PROGRESS : Z := -3.
Definition SIG_STATUS_TRAINING_SUCCEEDED : Z := -4.
Definition SIG_STATUS_TRAINING_FAILED : Z := -5.
Definition SIG_STATUS_FRAMING_OK : Z := -6.
Definition SIG_STATUS_END_OF_DATA : Z := -7.
Definition SIG_STATUS_ABORT : Z := -8.
Definition SIG_STATUS_OCTET_REPORT : Z := -11.

(** The handlers themselves belong to the user of the receiver: the record
    says whether they are set ([!= NULL]).  The signed counters [num_bits],
    [octet_count] and [flags_seen] are mathematical integers (their C overflow,
    after 2^31 bits without a flag, is undefined). *)
Record hdlc_rx_state_t := {
  crc_bytes : Z;
  max_frame_len : Z;
  frame_handler : bool;
  status_handler : bool;
  report_bad_frames : bool;
  framing_ok_threshold : Z;
  framing_ok_announced : bool;
  flags_seen : Z;
  raw_bit_stream : Z;
  byte_in_progress : Z;
  num_bits : Z;
  octet_counting_mode : bool;
  octet_count : Z;
  octet_count_report_interval : Z;
  buffer : list Z;
  len : Z;
  rx_bytes : Z;
  rx_frames : Z;
  rx_crc_errors : Z;
  rx_length_errors : Z;
  rx_aborts : Z;
}.

#[export] Instance eta_rx : Eta hdlc_rx_state_t := fun s =>
  Build_hdlc_rx_state_t (crc_bytes s) (max_frame_len s) (frame_handler s) (status_handler s)
    (report_bad_frames s) (framing_ok_threshold s) (framing_ok_announced s) (flags_seen s)
    (raw_bit_stream s) (byte_in_progress s) (num_bits s) (octet_counting_mode s)
    (octet_count s) (octet_count_report_interval s) (buffer s) (len s) (rx_bytes s)
    (rx_frames s) (rx_crc_errors s) (rx_length_errors s) (rx_aborts s).

(** A call of a handler: [s->status_handler(status)],
    [s->frame_handler(NULL, status, TRUE)], or [s->frame_handler(data, len, ok)]
    where [data] is the part of the buffer the handler may read. *)
Inductive rx_event :=
  | Status (status : Z)
  | FrameStatus (status : Z)
  | Frame (data : list Z) (flen : Z) (ok : bool).

Definition report_status_change (s : hdlc_rx_state_t) (status : Z) : list rx_event :=
  if status_handler s then [Status status]
  else if frame_handler s then [FrameStatus status]
  else [].

(** [s->frame_handler(s->frame_user_data, s->buffer, s->len, ok)]. *)
Definition report_frame (s : hdlc_rx_state_t) (ok : bool) : list rx_event :=
  [Frame (slice (buffer s) 0 (len s)) (len s) ok].

Definition rx_special_condition (s : hdlc_rx_state_t) (status : Z)
    : hdlc_rx_state_t * list rx_event :=
  let reset := s <| raw_bit_stream := 0 |> <| len := 0 |> <| num_bits := 0 |>
                 <| flags_seen := 0 |> <| framing_ok_announced := false |> in
  if (status =? SIG_STATUS_CARRIER_UP) || (status =? SIG_STATUS_TRAINING_SUCCEEDED) then
    (reset, report_status_change reset status)
  else if (status =? SIG_STATUS_TRAINING_IN_PROGRESS) || (status =? SIG_STATUS_TRAINING_FAILED)
       || (status =? SIG_STATUS_CARRIER_DOWN) || (status =? SIG_STATUS_END_OF_DATA) then
    (s, report_status_change s status)
  else (s, []).

(** The body of both octet counting routines once counting has begun. *)
Definition octet_tick (s : hdlc_rx_state_t) : hdlc_rx_state_t * list rx_event :=
  let s := s <| octet_count := octet_count s - 1 |> in
  if octet_count s <=? 0 then
    let s := s <| octet_count := octet_count_report_interval s |> in
    (s, report_status_change s SIG_STATUS_OCTET_REPORT)
  else (s, []).

Definition octet_set_and_count (s : hdlc_rx_state_t) : hdlc_rx_state_t * list rx_event :=
  if octet_count_report_interval s =? 0 then (s, [])
  else if octet_counting_mode s then octet_tick s
  else (s <| octet_counting_mode := true |>
          <| octet_count := octet_count_report_interval s |>, []).

(** The C function [octet_count]. *)
Definition count_octet (s : hdlc_rx_state_t) : hdlc_rx_state_t * list rx_event :=
  if octet_count_report_interval s =? 0 then (s, [])
  else if octet_counting_mode s then octet_tick s
  else (s, []).

(** "If we have not yet seen enough flags, restart the count.  If we are beyond
    that point, just back off one step." *)
Definition back_off (s : hdlc_rx_state_t) : hdlc_rx_state_t :=
  if flags_seen s <? framing_ok_threshold s - 1 then s <| flags_seen := 0 |>
  else s <| flags_seen := framing_ok_threshold s - 1 |>.

(** The frame the closing flag ends. *)
Definition rx_frame_end (s : hdlc_rx_state_t) : hdlc_rx_state_t * list rx_event :=
  if (num_bits s =? 7) && (crc_bytes s <=? len s) && (len s <=? max_frame_len s) then
    let octets := slice (buffer s) 0 (len s) in
    if ((crc_bytes s =? 2) && crc_itu16_check octets)
       || (negb (crc_bytes s =? 2) && crc_itu32_check octets) then
      let s := s <| rx_frames := wrap 64 (rx_frames s + 1) |>
                 <| rx_bytes := wrap 64 (rx_bytes s + (len s - crc_bytes s)) |> in
      let s := s <| len := len s - crc_bytes s |> in
      (s, report_frame s true)
    else
      let s := s <| rx_crc_errors := wrap 64 (rx_crc_errors s + 1) |> in
      if report_bad_frames s then
        let s := s <| len := len s - crc_bytes s |> in
        (s, report_frame s false)
      else (s, [])
  else
    let '(s, ev) :=
      if report_bad_frames s then
        let s := if crc_bytes s <=? len s then s <| len := len s - crc_bytes s |>
                 else s <| len := 0 |> in
        (s, report_frame s false)
      else (s, []) in
    (s <| rx_length_errors := wrap 64 (rx_length_errors s + 1) |>, ev).

Definition rx_flag_or_abort (s : hdlc_rx_state_t) : hdlc_rx_state_t * list rx_event :=
  let '(s, ev) :=
    if negb (raw_bit_stream s .& 0x8000 =? 0) then
      let s := s <| rx_aborts := wrap 64 (rx_aborts s + 1) |> in
      let ev1 := report_status_change s SIG_STATUS_ABORT in
      let '(s, ev2) := octet_set_and_count (back_off s) in
      (s, ev1 ++ ev2)
    else
      let s := s <| octet_counting_mode := false |> in
      if framing_ok_threshold s <=? flags_seen s then
        if negb (len s =? 0) then rx_frame_end s else (s, [])
      else
        let s := if negb (num_bits s =? 7) then back_off s else s in
        let s := s <| flags_seen := flags_seen s + 1 |> in
        if (framing_ok_threshold s <=? flags_seen s) && negb (framing_ok_announced s) then
          let ev := report_status_change s SIG_STATUS_FRAMING_OK in
          (s <| framing_ok_announced := true |>, ev)
        else (s, [])
  in (s <| len := 0 |> <| num_bits := 0 |>, ev).

(** A destuffed octet is complete. *)
Definition rx_store_octet (s : hdlc_rx_state_t) : hdlc_rx_state_t * list rx_event :=
  let '(s, ev) :=
    if len s <? max_frame_len s then
      (s <| buffer := aset (buffer s) (len s) (u8 (byte_in_progress s)) |>
         <| len := len s + 1 |>, [])
    else
      octet_set_and_count
        (s <| len := sizeof_buffer + 1 |> <| flags_seen := framing_ok_threshold s - 1 |>)
  in (s <| num_bits := 0 |>, ev).

Definition hdlc_rx_put_bit_core (s : hdlc_rx_state_t) : hdlc_rx_state_t * list rx_event :=
  if raw_bit_stream s .& 0x3F00 =? 0x3E00 then
    if negb (raw_bit_stream s .& 0x4000 =? 0) then rx_flag_or_abort s else (s, [])
  else
    let s := s <| num_bits := num_bits s + 1 |> in
    if flags_seen s <? framing_ok_threshold s then
      if num_bits s .& 7 =? 0 then count_octet s else (s, [])
    else
      let s := s <| byte_in_progress :=
                      (byte_in_progress s .| (raw_bit_stream s .& 0x100)) .>> 1 |> in
      if num_bits s =? 8 then rx_store_octet s else (s, []).

Definition hdlc_rx_put_bit (s : hdlc_rx_state_t) (new_bit : Z)
    : hdlc_rx_state_t * list rx_event :=
  if new_bit <? 0 then rx_special_condition s new_bit
  else hdlc_rx_put_bit_core
         (s <| raw_bit_stream :=
                u32 ((raw_bit_stream s .<< 1) .| ((new_bit .<< 8) .& 0x100)) |>).

(** [for (i = 0;  i < n;  i++) { raw <<= 1;  hdlc_rx_put_bit_core(s); }] *)
Fixpoint rx_shift_bits (n : nat) (s : hdlc_rx_state_t) : hdlc_rx_state_t * list rx_event :=
  match n with
  | O => (s, [])
  | S n =>
      let '(s, ev1) :=
        hdlc_rx_put_bit_core (s <| raw_bit_stream := u32 (raw_bit_stream s .<< 1) |>) in
      let '(s, ev2) := rx_shift_bits n s in
      (s, ev1 ++ ev2)
  end.

Definition hdlc_rx_put_byte (s : hdlc_rx_state_t) (new_byte : Z)
    : hdlc_rx_state_t * list rx_event :=
  if new_byte <? 0 then rx_special_condition s new_byte
  else rx_shift_bits 8 (s <| raw_bit_stream := raw_bit_stream s .| new_byte |>).

(** Feeds the elements of a list, in order, with the events of each. *)
Fixpoint rx_feed (put : hdlc_rx_state_t -> Z -> hdlc_rx_state_t * list rx_event)
    (s : hdlc_rx_state_t) (l : list Z) : hdlc_rx_state_t * list rx_event :=
  match l with
  | [] => (s, [])
  | x :: l =>
      let '(s, ev1) := put s x in
      let '(s, ev2) := rx_feed put s l in
      (s, ev1 ++ ev2)
  end.

Definition hdlc_rx_put (s : hdlc_rx_state_t) (buf : list Z) : hdlc_rx_state_t * list rx_event :=
  rx_feed hdlc_rx_put_byte s buf.

Definition hdlc_rx_set_max_frame_len (s : hdlc_rx_state_t) (max_len : Z) : hdlc_rx_state_t :=
  let max_len := wrap 64 (max_len + crc_bytes s) in
  s <| max_frame_len := if max_len <=? sizeof_buffer then max_len else sizeof_buffer |>.

Definition hdlc_rx_set_octet_counting_report_interval (s : hdlc_rx_state_t) (interval : Z)
    : hdlc_rx_state_t :=
  s <| octet_count_report_interval := interval |>.

(** [handler] tells whether a frame handler is given. *)
Definition hdlc_rx_init (crc32 report_bad : bool) (threshold : Z) (handler : bool)
    : hdlc_rx_state_t :=
  {| crc_bytes := if crc32 then 4 else 2;
     max_frame_len := sizeof_buffer;
     frame_handler := handler;
     status_handler := false;
     report_bad_frames := report_bad;
     framing_ok_threshold := if threshold <? 1 then 1 else threshold;
     framing_ok_announced := false;
     flags_seen := 0;
     raw_bit_stream := 0;
     byte_in_progress := 0;
     num_bits := 0;
     octet_counting_mode := false;
     octet_count := 0;
     octet_count_report_interval := 0;
     buffer := repeat 0 (Z.to_nat sizeof_buffer);
     len := 0;
     rx_bytes := 0;
     rx_frames := 0;
     rx_crc_errors := 0;
     rx_length_errors := 0;
     rx_aborts := 0 |}.

Definition hdlc_rx_set_frame_handler (s : hdlc_rx_state_t) (handler : bool) : hdlc_rx_state_t :=
  s <| frame_handler := handler |>.

Definition hdlc_rx_set_status_handler (s : hdlc_rx_state_t) (handler : bool) : hdlc_rx_state_t :=
  s <| status_handler := handler |>.

Record hdlc_rx_stats_t := {
  bytes_received : Z;
  good_frames : Z;
  crc_errors : Z;
  length_errors : Z;
  aborts : Z;
}.

Definition hdlc_rx_get_stats (s : hdlc_rx_state_t) : hdlc_rx_stats_t :=
  {| bytes_received := rx_bytes s; good_frames := rx_frames s; crc_errors := rx_crc_errors s;
     length_errors := rx_length_errors s; aborts := rx_aborts s |}.

(** ** The invariant *)

Record rx_wf (s : hdlc_rx_state_t) : Prop := {
  wf_crc : crc_bytes s = 2 \/ crc_bytes s = 4;
  wf_max : 0 <= max_frame_len s <= sizeof_buffer;
  wf_buffer : zlen (buffer s) = sizeof_buffer;
  wf_octets : bytes (buffer s);
  wf_threshold : 1 <= framing_ok_threshold s;
  wf_flags : 0 <= flags_seen s <= framing_ok_threshold s;
  wf_len : 0 <= len s <= sizeof_buffer \/
           len s = sizeof_buffer + 1 /\ flags_seen s < framing_ok_threshold s;
  wf_raw : 0 <= raw_bit_stream s < 2 ^ 32;
  wf_byte : is_byte (byte_in_progress s);
  wf_bits : 0 <= num_bits s /\ (framing_ok_threshold s <= flags_seen s -> num_bits s < 8);
}.

(** Between calls the octet below the sampling point is clear too. *)
Definition rx_ready (s : hdlc_rx_state_t) : Prop :=
  rx_wf s /\ raw_bit_stream s .& 0xFF = 0.

(** What a receiver in state [s] may report: a handler is only given data
    inside the buffer, a bad frame only when asked for; a good frame fits, and
    is what the buffer holds less its check octets, which are the right ones. *)
Definition rx_event_ok (s : hdlc_rx_state_t) (e : rx_event) : Prop :=
  match e with
  | Frame data flen true =>
      zlen data = flen /\ 0 <= flen /\ flen + crc_bytes s <= max_frame_len s /\
      slice (buffer s) 0 (len s) =
        fst (if crc_bytes s =? 2 then crc_itu16_append data else crc_itu32_append data)
  | Frame data flen false =>
      zlen data = flen /\ 0 <= flen <= sizeof_buffer /\ report_bad_frames s = true
  | _ => True
  end.

Lemma length_slice0 a n : 0 <= n <= zlen a -> zlen (slice a 0 n) = n.
Proof. intros. unfold slice. simpl. rewrite drop_0, length_take. lia. Qed.

Lemma slice0_sub a n k : 0 <= k <= n -> slice a 0 k = take (Z.to_nat k) (slice a 0 n).
Proof. intros. unfold slice. simpl. rewrite !drop_0, take_take. f_equal. lia. Qed.

Ltac rx_wf_tac :=
  repeat match goal with H : rx_wf _ |- _ => destruct H end;
  constructor; unfold sizeof_buffer, HDLC_MAXFRAME_LEN in *; cbn in *;
  first [assumption | lia | idtac].

Lemma report_status_ok r s status : Forall (rx_event_ok r) (report_status_change s status).
Proof. unfold report_status_change. repeat case_match; repeat constructor. Qed.

Lemma octet_tick_wf r s : rx_wf s ->
  rx_wf (fst (octet_tick s)) /\ Forall (rx_event_ok r) (snd (octet_tick s)).
Proof.
  intros W. unfold octet_tick. case_match; simpl; split;
    try apply report_status_ok; try done; rx_wf_tac.
Qed.

Lemma octet_set_and_count_wf r s : rx_wf s ->
  rx_wf (fst (octet_set_and_count s)) /\ Forall (rx_event_ok r) (snd (octet_set_and_count s)).
Proof.
  intros W. unfold octet_set_and_count. repeat case_match; try by apply octet_tick_wf.
  - by split; simpl.
  - split; simpl; [rx_wf_tac|done].
Qed.

Lemma count_octet_wf r s : rx_wf s ->
  rx_wf (fst (count_octet s)) /\ Forall (rx_event_ok r) (snd (count_octet s)).
Proof.
  intros W. unfold count_octet. repeat case_match; first [by apply octet_tick_wf | by split].
Qed.

Lemma back_off_wf s : rx_wf s -> rx_wf (back_off s).
Proof. intros W. unfold back_off. case_match; rx_wf_tac. Qed.

Lemma rx_special_condition_wf r s status : rx_wf s ->
  rx_wf (fst (rx_special_condition s status)) /\
  Forall (rx_event_ok r) (snd (rx_special_condition s status)).
Proof.
  intros W. unfold rx_special_condition. repeat case_match; simpl; split;
    try apply report_status_ok; try done. rx_wf_tac.
Qed.

(** A buffer that checks is its own message with the check octets appended. *)
Lemma check_append s octets : bytes octets ->
  ((crc_bytes s =? 2) && crc_itu16_check octets)
    || (negb (crc_bytes s =? 2) && crc_itu32_check octets) = true ->
  crc_bytes s = 2 \/ crc_bytes s = 4 ->
  octets = fst (if crc_bytes s =? 2
                then crc_itu16_append (take (length octets - Z.to_nat (crc_bytes s)) octets)
                else crc_itu32_append (take (length octets - Z.to_nat (crc_bytes s)) octets)).
Proof.
  intros Hb Hc Hs.
  assert (forall (p q : list Z) n, length q = n -> octets = p ++ q ->
            take (length octets - n) octets = p) as Htake.
  { intros p q n <- ->. rewrite length_app, Nat.add_sub. by rewrite take_app_length. }
  destruct (Z.eqb_spec (crc_bytes s) 2) as [->|]; simpl in Hc; rewrite ?orb_false_r in Hc.
  - change (Z.to_nat 2) with 2%nat. apply crc_itu16_check_iff in Hc as (p & Hp & E); [|done].
    rewrite (Htake _ _ _ ltac:(apply length_le_split) E). by rewrite crc_itu16_append_split.
  - destruct Hs as [?|Hs]; [lia|]. rewrite Hs. change (Z.to_nat 4) with 4%nat.
    apply crc_itu32_check_iff in Hc as (p & Hp & E); [|done].
    rewrite (Htake _ _ _ ltac:(apply length_le_split) E). by rewrite crc_itu32_append_split.
Qed.

Lemma rx_frame_end_ok s : rx_wf s -> framing_ok_threshold s <= flags_seen s ->
  rx_wf (fst (rx_frame_end s)) /\ Forall (rx_event_ok s) (snd (rx_frame_end s)).
Proof.
  intros W Hf. pose proof W as []. unfold sizeof_buffer, HDLC_MAXFRAME_LEN in *.
  assert (0 <= len s <= 404) as Hlen by lia. unfold rx_frame_end.
  destruct ((num_bits s =? 7) && (crc_bytes s <=? len s) && (len s <=? max_frame_len s)) eqn:E1.
  - apply andb_prop in E1 as [[_ E1]%andb_prop E2].
    destruct (_ || _) eqn:Ec.
    + apply check_append in Ec; [|by apply bytes_slice|done].
      simpl. split; [rx_wf_tac|]. repeat constructor; cbn.
      * apply length_slice0. lia.
      * lia.
      * lia.
      * rewrite Ec at 1. rewrite (slice0_sub _ (len s) (len s - crc_bytes s)) by lia.
        assert (length (slice (buffer s) 0 (len s)) - Z.to_nat (crc_bytes s)
                = Z.to_nat (len s - crc_bytes s))%nat as ->; [|done].
        pose proof (length_slice0 (buffer s) (len s)). lia.
    + cbn. destruct (report_bad_frames s) eqn:Eb; simpl; (split; [rx_wf_tac|]); [|done].
      (apply Forall_cons_2; [|done]); cbn; rewrite length_slice0 by lia;
        unfold sizeof_buffer, HDLC_MAXFRAME_LEN; repeat split; done || lia.
  - destruct (report_bad_frames s) eqn:Eb; simpl; [|split; [rx_wf_tac|done]].
    destruct (Z.leb_spec (crc_bytes s) (len s)); simpl; (split; [rx_wf_tac|]);
      (apply Forall_cons_2; [|done]); cbn; rewrite length_slice0 by lia;
        unfold sizeof_buffer, HDLC_MAXFRAME_LEN; repeat split; done || lia.
Qed.

Lemma rx_flag_or_abort_ok s : rx_wf s ->
  rx_wf (fst (rx_flag_or_abort s)) /\ Forall (rx_event_ok s) (snd (rx_flag_or_abort s)).
Proof.
  intros W.
  assert (forall s', rx_wf s' -> rx_wf (s' <| len := 0 |> <| num_bits := 0 |>)) as Hreset.
  { intros s' W'. rx_wf_tac. }
  unfold rx_flag_or_abort. destruct (negb _).
  - pose proof (octet_set_and_count_wf s (back_off (s <| rx_aborts := wrap 64 (rx_aborts s + 1) |>)))
      as [H1 H2]; [apply back_off_wf; rx_wf_tac|].
    destruct (octet_set_and_count _) as [s' ev]. simpl in *. split; [by apply Hreset|].
    apply Forall_app_2; [apply report_status_ok|done].
  - set (s1 := s <| octet_counting_mode := false |>).
    assert (rx_wf s1) as W1 by rx_wf_tac.
    destruct (Z.leb_spec (framing_ok_threshold s1) (flags_seen s1)) as [Hf|Hf].
    + destruct (negb _); [|by split; simpl; [apply Hreset|]].
      pose proof (rx_frame_end_ok s1 W1 Hf) as [H1 H2].
      destruct (rx_frame_end s1). split; [by apply Hreset|done].
    + set (s2 := if negb (num_bits s1 =? 7) then _ else _).
      assert (rx_wf s2 /\ flags_seen s2 < framing_ok_threshold s2) as [W2 Hf2].
      { subst s2. pose proof W1 as []. destruct (negb _); [|done].
        split; [by apply back_off_wf|]. unfold back_off. case_match; cbn in *; lia. }
      assert (rx_wf (s2 <| flags_seen := flags_seen s2 + 1 |> <| len := 0 |> <| num_bits := 0 |>))
        as W3 by rx_wf_tac.
      destruct (_ && _); cbn; split; try apply report_status_ok; try done.
      clear - W3. rx_wf_tac.
Qed.

Lemma rx_store_octet_ok s r : rx_wf (s <| num_bits := 0 |>) -> framing_ok_threshold s <= flags_seen s ->
  rx_wf (fst (rx_store_octet s)) /\ Forall (rx_event_ok r) (snd (rx_store_octet s)).
Proof.
  intros W Hf. unfold rx_store_octet. destruct (Z.ltb_spec (len s) (max_frame_len s)) as [Hl|Hl].
  - cbn [fst snd]. split; [|done].
    destruct W. constructor; cbn in *; try done; unfold sizeof_buffer, HDLC_MAXFRAME_LEN in *.
    + by rewrite length_aset.
    + apply bytes_aset; auto with bits.
    + lia.
  - pose proof (octet_set_and_count_wf r (s <| num_bits := 0 |>
       <| len := sizeof_buffer + 1 |> <| flags_seen := framing_ok_threshold s - 1 |>)) as [H1 H2].
    { destruct W. constructor; cbn in *; try done; lia. }
    unfold octet_set_and_count, octet_tick in *. cbn in *.
    repeat case_match; simplify_eq; cbn in *; (split; [|done]); (rx_wf_tac).
Qed.

Lemma land_bit x i : 0 <= i -> (x .& 2 ^ i =? 0) = negb (Z.testbit x i).
Proof.
  intros Hi. destruct (Z.testbit x i) eqn:E; simpl.
  - apply Z.eqb_neq. intros H. apply (f_equal (fun z => Z.testbit z i)) in H.
    rewrite Z.land_spec, Z.pow2_bits_true, E, Z.bits_0 in H by done. done.
  - apply Z.eqb_eq. bitwise j. destruct (decide (i = j)) as [->|].
    + by rewrite E.
    + rewrite Z.pow2_bits_false by done. by rewrite andb_false_r.
Qed.

Lemma byte_step_range b x : is_byte b -> is_byte ((b .| (x .& 0x100)) .>> 1).
Proof.
  intros Hb. unfold is_byte in *. change 256 with (2 ^ 8). apply shiftr_small; [lia| |lia].
  simpl (8 + 1). apply lor_range; [lia|lia|]. apply land_range; lia.
Qed.

Lemma hdlc_rx_put_bit_core_ok s : rx_wf s ->
  rx_wf (fst (hdlc_rx_put_bit_core s)) /\ Forall (rx_event_ok s) (snd (hdlc_rx_put_bit_core s)).
Proof.
  intros W. unfold hdlc_rx_put_bit_core. destruct (_ =? 0x3E00).
  - destruct (negb _); [by apply rx_flag_or_abort_ok|by split].
  - pose proof W as []. set (s1 := s <| num_bits := num_bits s + 1 |>).
    destruct (Z.ltb_spec (flags_seen s1) (framing_ok_threshold s1)) as [Hf|Hf]; cbn in Hf.
    + assert (rx_wf s1) by rx_wf_tac. destruct (_ =? 0); [by apply count_octet_wf|by split].
    + set (s2 := s1 <| byte_in_progress := _ |>).
      assert (is_byte (byte_in_progress s2)) by (apply byte_step_range, W).
      destruct (Z.eqb_spec (num_bits s2) 8) as [E|E]; cbn in E.
      * apply rx_store_octet_ok; [|done]. constructor; cbn in *; auto. lia.
      * split; [|done]. constructor; cbn in *; auto. lia.
Qed.

(** ** What the bit step reads of the raw stream *)

(** The bits of the raw stream the step looks at: the newest (bit 8) and the
    seven before it. *)
Definition sampled (r : Z) : list bool := map (fun i => Z.testbit r (8 + Z.of_nat i)) (seq 0 8).

Lemma sampled_bit r r' i : sampled r = sampled r' -> 8 <= i < 16 ->
  Z.testbit r i = Z.testbit r' i.
Proof.
  intros H Hi. unfold sampled in H. simpl in H. injection H as H0 H1 H2 H3 H4 H5 H6 H7.
  assert (i = 8 \/ i = 9 \/ i = 10 \/ i = 11 \/ i = 12 \/ i = 13 \/ i = 14 \/ i = 15) as HH by lia.
  by repeat destruct HH as [->|HH]; subst.
Qed.

(** A mask inside bits 8 to 15 only sees the sampled bits. *)
Lemma sampled_land r r' m : sampled r = sampled r' ->
  m = (m .& 0xFF00) -> r .& m = r' .& m.
Proof.
  intros H Hm. rewrite Hm. change 0xFF00 with (Z.ones 8 .<< 8). bitwise i.
  destruct (Z.leb_spec 8 i); simpl; [|by rewrite !andb_false_r].
  bit_specs. destruct (Z.leb_spec 0 (i - 8)), (Z.ltb_spec (i - 8) 8); simpl;
    rewrite ?andb_false_r; try done. by rewrite (sampled_bit r r') by (done || lia).
Qed.

(** The step reads nothing else of the raw stream, and does not change it. *)
Lemma hdlc_rx_put_bit_core_sampled s r r' : sampled r = sampled r' ->
  hdlc_rx_put_bit_core (s <| raw_bit_stream := r' |>) =
  (fst (hdlc_rx_put_bit_core (s <| raw_bit_stream := r |>)) <| raw_bit_stream := r' |>,
   snd (hdlc_rx_put_bit_core (s <| raw_bit_stream := r |>))).
Proof.
  intros H.
  pose proof (sampled_land r r' 0x3F00 H eq_refl) as E1.
  pose proof (sampled_land r r' 0x4000 H eq_refl) as E2.
  pose proof (sampled_land r r' 0x8000 H eq_refl) as E3.
  pose proof (sampled_land r r' 0x100 H eq_refl) as E4.
  unfold hdlc_rx_put_bit_core, rx_flag_or_abort, rx_store_octet, octet_set_and_count,
    count_octet, octet_tick, rx_frame_end, back_off. cbn -[Z.land].
  rewrite E1, E2, E3, E4. clear E1 E2 E3 E4 H.
  repeat (case_match; cbn -[Z.land] in *; simplify_eq; try reflexivity).
Qed.

Lemma hdlc_rx_put_bit_core_raw s :
  raw_bit_stream (fst (hdlc_rx_put_bit_core s)) = raw_bit_stream s.
Proof.
  unfold hdlc_rx_put_bit_core, rx_flag_or_abort, rx_store_octet, octet_set_and_count,
    count_octet, octet_tick, rx_frame_end, back_off. cbn -[Z.land].
  repeat (case_match; cbn -[Z.land] in *; simplify_eq; try reflexivity).
Qed.

(** ** Octets are eight bits, most significant first *)

Lemma update_raw_id s r : r = raw_bit_stream s -> s <| raw_bit_stream := r |> = s.
Proof. intros ->. by destruct s. Qed.

(** The octet loop with [n] bits of [b] still below the sampling point, against
    the bit routine on the raw stream [rb] without them. *)
Definition loop_rel (n : Z) (b ra rb : Z) : Prop :=
  0 <= ra < 2 ^ 32 /\ 0 <= rb < 2 ^ 32 /\
  (forall i, 8 <= i -> Z.testbit ra i = Z.testbit rb i) /\
  (forall i, 0 <= i < 8 -> Z.testbit rb i = false) /\
  (forall i, 0 <= i < 8 - n -> Z.testbit ra i = false) /\
  (forall i, 0 <= i < n -> Z.testbit ra (8 - n + i) = Z.testbit b i).

Lemma put_bit_raw_bit r c i : 0 <= i -> (c = 0 \/ c = 1) ->
  Z.testbit (u32 ((r .<< 1) .| ((c .<< 8) .& 0x100))) i =
  (i <? 32) && ((1 <=? i) && Z.testbit r (i - 1) || (i =? 8) && (c =? 1)).
Proof.
  intros Hi Hc. bit_specs. f_equal. f_equal. change 0x100 with (2 ^ 8).
  destruct (Z.eqb_spec i 8) as [->|].
  - rewrite Z.pow2_bits_true by done. change (8 - 8) with 0. by destruct Hc as [-> | ->].
  - rewrite Z.pow2_bits_false by lia. by rewrite !andb_false_r.
Qed.

Lemma loop_rel_step n b ra rb : 1 <= n <= 8 -> loop_rel n b ra rb ->
  loop_rel (n - 1) b (u32 (ra .<< 1))
    (u32 ((rb .<< 1) .| ((Z.b2z (Z.testbit b (n - 1)) .<< 8) .& 0x100))).
Proof.
  intros Hn (Ha & Hb & Hhigh & Hlow & Hz & Hrest).
  set (c := Z.b2z _). assert (c = 0 \/ c = 1) as Hc by (subst c; destruct Z.testbit; auto).
  pose proof (put_bit_raw_bit rb c) as Hrb.
  repeat split; try by apply wrap_range.
  - intros i Hi. rewrite Hrb by lia. bit_specs. f_equal.
    destruct (Z.leb_spec 1 i); [|lia]. cbn [andb].
    destruct (Z.eqb_spec i 8) as [->|].
    + rewrite (Hlow (8 - 1)) by lia. pose proof (Hrest (n - 1) ltac:(lia)) as H7.
      replace (8 - n + (n - 1)) with (8 - 1) in H7 by lia. rewrite H7.
      subst c. by destruct (Z.testbit b (n - 1)).
    + rewrite orb_false_r. apply Hhigh. lia.
  - intros i Hi. rewrite Hrb by lia. destruct (Z.eqb_spec i 8); [lia|].
    rewrite orb_false_r. destruct (Z.leb_spec 1 i); [|by rewrite andb_false_r].
    rewrite Hlow by lia. by rewrite !andb_false_r.
  - intros i Hi. bit_specs. destruct (Z.leb_spec 1 i); [|by rewrite andb_false_r].
    rewrite Hz by lia. by rewrite !andb_false_r.
  - intros i Hi. bit_specs. destruct (Z.leb_spec 1 (8 - (n - 1) + i)); [|lia].
    destruct (Z.ltb_spec (8 - (n - 1) + i) 32); [|lia]. cbn [andb].
    rewrite <- (Hrest i) by lia. f_equal. lia.
Qed.

Lemma loop_rel_sampled n b ra rb : loop_rel n b ra rb -> sampled ra = sampled rb.
Proof.
  intros (_ & _ & H & _). unfold sampled. apply map_ext_in. intros i _. apply H. lia.
Qed.

Lemma loop_rel_done b ra rb : loop_rel 0 b ra rb -> ra = rb.
Proof.
  intros (_ & _ & H8 & Hb & Ha & _). apply Z.bits_inj'. intros i Hi.
  destruct (Z_lt_le_dec i 8); [|by apply H8]. by rewrite Ha, Hb by lia.
Qed.

Lemma rx_shift_bits_put n s b rb : (n <= 8)%nat ->
  loop_rel (Z.of_nat n) b (raw_bit_stream s) rb ->
  rx_shift_bits n s =
  rx_feed hdlc_rx_put_bit (s <| raw_bit_stream := rb |>) (map Z.b2z (msb_bits n b)).
Proof.
  revert s rb. induction n as [|n IH]; intros s rb Hn Hrel.
  - simpl. rewrite update_raw_id; [done|]. symmetry. by eapply loop_rel_done.
  - cbn [rx_shift_bits rx_feed msb_bits map].
    apply loop_rel_step in Hrel; [|lia]. replace (Z.of_nat (S n) - 1) with (Z.of_nat n) in Hrel by lia.
    unfold hdlc_rx_put_bit at 1.
    destruct (Z.ltb_spec (Z.b2z (Z.testbit b (Z.of_nat n))) 0); [by destruct Z.testbit; simpl in *; lia|].
    set (ra' := u32 (raw_bit_stream s .<< 1)) in *. set (rb' := u32 _) in Hrel.
    change ((s <| raw_bit_stream := rb |>) <| raw_bit_stream :=
              u32 ((raw_bit_stream (s <| raw_bit_stream := rb |>) .<< 1)
                   .| ((Z.b2z (Z.testbit b (Z.of_nat n)) .<< 8) .& 0x100)) |>)
      with (s <| raw_bit_stream := rb' |>).
    rewrite (hdlc_rx_put_bit_core_sampled s ra' rb' (loop_rel_sampled _ _ _ _ Hrel)).
    pose proof (hdlc_rx_put_bit_core_raw (s <| raw_bit_stream := ra' |>)) as Hr.
    destruct (hdlc_rx_put_bit_core _) as [t ev]. cbn [fst snd] in *.
    rewrite (IH t rb'); [done|lia|]. by rewrite Hr.
Qed.

Lemma raw_low_bit r i : r .& 0xFF = 0 -> 0 <= i < 8 -> Z.testbit r i = false.
Proof.
  intros H Hi. apply (f_equal (fun z => Z.testbit z i)) in H. change 0xFF with (Z.ones 8) in H.
  revert H. bit_specs. destruct (Z.leb_spec 0 i), (Z.ltb_spec i 8); try lia.
  by rewrite andb_true_r.
Qed.

Lemma put_byte_bits s b : rx_ready s -> is_byte b ->
  hdlc_rx_put_byte s b = rx_feed hdlc_rx_put_bit s (map Z.b2z (msb_bits 8 b)).
Proof.
  intros [W Hlow] Hb. unfold hdlc_rx_put_byte.
  destruct (Z.ltb_spec b 0); [unfold is_byte in Hb; lia|].
  rewrite (rx_shift_bits_put 8 _ b (raw_bit_stream s)); [|lia|].
  { change (s <| raw_bit_stream := raw_bit_stream s .| b |> <| raw_bit_stream := raw_bit_stream s |>)
      with (s <| raw_bit_stream := raw_bit_stream s |>). by rewrite update_raw_id. }
  pose proof (wf_raw _ W). cbn [raw_bit_stream update eta_rx].
  assert (forall i, 8 <= i -> Z.testbit b i = false) as Hbi by (intros; by apply (testbit_high 8)).
  refine (conj _ (conj _ (conj _ (conj _ (conj _ _))))).
  - change (raw_bit_stream (update _ s)) with (raw_bit_stream s .| b).
    apply lor_range; unfold is_byte in Hb; lia.
  - done.
  - intros i Hi. change (Z.testbit (raw_bit_stream s .| b) i = Z.testbit (raw_bit_stream s) i).
    bit_specs. by rewrite Hbi, orb_false_r by lia.
  - intros i Hi. by apply raw_low_bit.
  - intros i Hi. lia.
  - intros i Hi. change (Z.testbit (raw_bit_stream s .| b) (8 - Z.of_nat 8 + i) = Z.testbit b i).
    bit_specs. replace (8 - Z.of_nat 8 + i) with i by lia. by rewrite raw_low_bit.
Qed.

Lemma put_bit_ready s new_bit : rx_ready s ->
  rx_ready (fst (hdlc_rx_put_bit s new_bit)) /\
  Forall (rx_event_ok s) (snd (hdlc_rx_put_bit s new_bit)).
Proof.
  intros [W Hlow]. unfold hdlc_rx_put_bit. destruct (Z.ltb_spec new_bit 0) as [Hn|Hn].
  - pose proof (rx_special_condition_wf s s new_bit W) as [H1 H2]. split; [split|]; try done.
    unfold rx_special_condition. repeat case_match; done.
  - set (r := u32 _). set (s1 := s <| raw_bit_stream := r |>).
    assert (rx_wf s1) as W1.
    { destruct W; constructor; auto; cbn. by apply wrap_range. }
    pose proof (hdlc_rx_put_bit_core_ok s1 W1) as [H1 H2]. split; [split|]; try done.
    rewrite hdlc_rx_put_bit_core_raw. cbn. subst r. change 0xFF with (Z.ones 8).
    bitwise i. change 0x100 with (2 ^ 8).
    destruct (Z.leb_spec 0 i), (Z.ltb_spec i 8); try lia; rewrite ?andb_true_r, ?andb_false_r; try done.
    rewrite Z.pow2_bits_false by lia. rewrite andb_false_r, orb_false_r.
    destruct (Z.leb_spec 1 i); [|by rewrite andb_false_r]. cbn [andb].
    rewrite raw_low_bit by (done || lia). by rewrite andb_false_r.
Qed.

Lemma feed_bits_ready s l : rx_ready s -> rx_ready (fst (rx_feed hdlc_rx_put_bit s l)).
Proof.
  revert s. induction l as [|x l IH]; intros s Hs; [done|]. cbn [rx_feed].
  pose proof (put_bit_ready s x Hs) as [H1 _]. destruct (hdlc_rx_put_bit s x) as [s1 e1].
  specialize (IH s1 H1). by destruct (rx_feed hdlc_rx_put_bit s1 l).
Qed.

(** What a bit stream does not change. *)
Definition same_settings (s s' : hdlc_rx_state_t) : Prop :=
  crc_bytes s' = crc_bytes s /\ max_frame_len s' = max_frame_len s /\
  frame_handler s' = frame_handler s /\ status_handler s' = status_handler s /\
  report_bad_frames s' = report_bad_frames s /\
  framing_ok_threshold s' = framing_ok_threshold s.

#[export] Instance same_settings_preorder : PreOrder same_settings.
Proof. unfold same_settings. split; [intros s|intros s t u]; intuition congruence. Qed.

Lemma hdlc_rx_init_ready crc32 bad threshold handler :
  rx_ready (hdlc_rx_init crc32 bad threshold handler).
Proof.
  split; [|done]. split; cbn -[repeat Z.to_nat]; unfold is_byte; try done; try lia.
  - destruct crc32; lia.
  - by apply (bool_decide_unpack _); vm_compute.
  - case_match; lia.
  - case_match; lia.
  - left. unfold sizeof_buffer, HDLC_MAXFRAME_LEN. lia.
Qed.

(** *** The counters *)

Definition is_good (e : rx_event) : bool := match e with Frame _ _ ok => ok | _ => false end.
Definition is_bad (e : rx_event) : bool := match e with Frame _ _ ok => negb ok | _ => false end.
Definition octets_of (e : rx_event) : Z := match e with Frame _ n true => n | _ => 0 end.
Definition sum_events (f : rx_event -> Z) (ev : list rx_event) : Z := foldr (fun e n => f e + n) 0 ev.

(** The counters of [s'], against those of [s] and the events in between. *)
Definition counted (s s' : hdlc_rx_state_t) (ev : list rx_event) : Prop :=
  wrap 64 (rx_frames s') = wrap 64 (rx_frames s + sum_events (fun e => Z.b2z (is_good e)) ev) /\
  wrap 64 (rx_bytes s') = wrap 64 (rx_bytes s + sum_events octets_of ev) /\
  (report_bad_frames s = true ->
   wrap 64 (rx_crc_errors s' + rx_length_errors s') =
   wrap 64 (rx_crc_errors s + rx_length_errors s + sum_events (fun e => Z.b2z (is_bad e)) ev)).

Lemma wrap_add_l w x y : wrap w (wrap w x + y) = wrap w (x + y).
Proof. unfold wrap. by rewrite Zplus_mod_idemp_l. Qed.

Lemma wrap_add_r w x y : wrap w (x + wrap w y) = wrap w (x + y).
Proof. unfold wrap. by rewrite Zplus_mod_idemp_r. Qed.

Ltac counting :=
  rewrite ?wrap_add_l, ?wrap_add_r, ?wrap_wrap by lia; first [done | f_equal; lia].

Lemma sum_events_app f a b : sum_events f (a ++ b) = sum_events f a + sum_events f b.
Proof. induction a; simpl in *; lia. Qed.

Lemma special_condition_counted s x :
  counted s (fst (rx_special_condition s x)) (snd (rx_special_condition s x)).
Proof.
  unfold rx_special_condition, report_status_change, counted.
  repeat case_match; cbn; split_and!; intros; counting.
Qed.

Lemma put_bit_core_counted s :
  counted s (fst (hdlc_rx_put_bit_core s)) (snd (hdlc_rx_put_bit_core s)).
Proof.
  unfold hdlc_rx_put_bit_core, rx_flag_or_abort, rx_store_octet, octet_set_and_count,
    count_octet, octet_tick, rx_frame_end, back_off, report_status_change, counted.
  cbn -[Z.land].
  repeat (case_match; cbn -[Z.land] in *; simplify_eq).
  all: split_and!; intros; try discriminate; cbn; counting.
Qed.

Lemma put_bit_counted s x : counted s (fst (hdlc_rx_put_bit s x)) (snd (hdlc_rx_put_bit s x)).
Proof.
  unfold hdlc_rx_put_bit. destruct (x <? 0); [apply special_condition_counted|].
  pose proof (put_bit_core_counted
           (s <| raw_bit_stream := u32 ((raw_bit_stream s .<< 1) .| ((x .<< 8) .& 0x100)) |>)) as H.
  exact H.
Qed.

Lemma special_condition_settings s x : same_settings s (fst (rx_special_condition s x)).
Proof. unfold rx_special_condition. by repeat case_match. Qed.

Lemma put_bit_settings s x : same_settings s (fst (hdlc_rx_put_bit s x)).
Proof.
  unfold hdlc_rx_put_bit. destruct (x <? 0); [apply special_condition_settings|].
  unfold hdlc_rx_put_bit_core, rx_flag_or_abort, rx_store_octet, octet_set_and_count,
    count_octet, octet_tick, rx_frame_end, back_off. cbn -[Z.land].
  repeat (case_match; cbn -[Z.land] in *; simplify_eq; try done).
Qed.

(** ** The properties *)

(** Whatever it is fed (bits, status codes), the receiver stays well
    formed - no index it uses leaves the 404-octet buffer - and what it reports
    is sound: a handler only sees data inside the buffer, bad frames are only
    reported on request, and a frame reported good fits the length limit and is
    followed in the buffer by exactly the check octets of its data. *)
Theorem hdlc_rx_put_bit_safe (s : hdlc_rx_state_t) (new_bit : Z) : rx_ready s ->
  rx_ready (fst (hdlc_rx_put_bit s new_bit)) /\
  same_settings s (fst (hdlc_rx_put_bit s new_bit)) /\
  Forall (rx_event_ok s) (snd (hdlc_rx_put_bit s new_bit)).
Proof.
  intros H. destruct (put_bit_ready s new_bit H). split; [done|]. split; [|done].
  apply put_bit_settings.
Qed.

Lemma hdlc_rx_put_bit_safe_witness :
  rx_ready (fst (hdlc_rx_put_bit (hdlc_rx_init false true 5 true) 1)).
Proof.
  apply (proj1 (hdlc_rx_put_bit_safe (hdlc_rx_init false true 5 true) 1
                  (hdlc_rx_init_ready false true 5 true))).
Defined.

(** An octet given to [hdlc_rx_put_byte] is its eight bits given to
    [hdlc_rx_put_bit], most significant first: same state, same reports.  (The
    byte routine ors the octet below the sampling point and shifts; the bit
    routine inserts each bit at it.) *)
Theorem hdlc_rx_put_byte_bits (s : hdlc_rx_state_t) (b : Z) : rx_ready s -> is_byte b ->
  hdlc_rx_put_byte s b = rx_feed hdlc_rx_put_bit s (map Z.b2z (msb_bits 8 b)).
Proof. apply put_byte_bits. Qed.

Lemma hdlc_rx_put_byte_bits_witness :
  hdlc_rx_put_byte (hdlc_rx_init false true 1 true) 0x7E =
  rx_feed hdlc_rx_put_bit (hdlc_rx_init false true 1 true) (map Z.b2z (msb_bits 8 0x7E)).
Proof.
  apply (hdlc_rx_put_byte_bits (hdlc_rx_init false true 1 true) 0x7E
           (hdlc_rx_init_ready false true 1 true)).
  by_decide.
Defined.

(** The receiver's statistics count what it reported: good frames and their
    octets, and - when bad frames are reported - CRC and length errors together
    are the bad frames reported (all modulo the counters' 64 bits). *)
Theorem hdlc_rx_get_stats_counts (s : hdlc_rx_state_t) (l : list Z) :
  let s' := fst (rx_feed hdlc_rx_put_bit s l) in
  let ev := snd (rx_feed hdlc_rx_put_bit s l) in
  let t := hdlc_rx_get_stats s in
  let t' := hdlc_rx_get_stats s' in
  wrap 64 (good_frames t') =
    wrap 64 (good_frames t + sum_events (fun e => Z.b2z (is_good e)) ev) /\
  wrap 64 (bytes_received t') = wrap 64 (bytes_received t + sum_events octets_of ev) /\
  (report_bad_frames s = true ->
   wrap 64 (crc_errors t' + length_errors t') =
   wrap 64 (crc_errors t + length_errors t + sum_events (fun e => Z.b2z (is_bad e)) ev)).
Proof.
  cbn [hdlc_rx_get_stats good_frames bytes_received crc_errors length_errors].
  revert s. induction l as [|x l IH]; intros s.
  { cbn. rewrite !Z.add_0_r. done. }
  cbn [rx_feed]. pose proof (put_bit_counted s x) as (H1 & H2 & H3).
  pose proof (put_bit_settings s x) as (_ & _ & _ & _ & Hs & _).
  destruct (hdlc_rx_put_bit s x) as [s1 e1]. specialize (IH s1).
  destruct (rx_feed hdlc_rx_put_bit s1 l) as [s2 e2]. cbn [fst snd] in *.
  destruct IH as (I1 & I2 & I3). rewrite !sum_events_app.
  assert (forall a b c d : Z, wrap 64 a = wrap 64 (b + c) ->
            wrap 64 (a + d) = wrap 64 (b + (c + d))) as Hadd.
  { intros a b c d E. rewrite <- (wrap_add_l 64 a), E, wrap_add_l. f_equal. lia. }
  split; [by rewrite I1, (Hadd _ _ _ _ H1)|]. split; [by rewrite I2, (Hadd _ _ _ _ H2)|].
  intros Hbad. by rewrite I3, (Hadd _ _ _ _ (H3 Hbad)) by congruence.
Qed.

Lemma hdlc_rx_get_stats_counts_witness :
  let s := hdlc_rx_init false true 1 true in
  let r := rx_feed hdlc_rx_put_bit s (map Z.b2z (flag ++ frame_bits [1; 2; 3])) in
  wrap 64 (crc_errors (hdlc_rx_get_stats (fst r)) + length_errors (hdlc_rx_get_stats (fst r))) =
  wrap 64 (0 + 0 + sum_events (fun e => Z.b2z (is_bad e)) (snd r)).
Proof.
  exact (proj2 (proj2 (hdlc_rx_get_stats_counts (hdlc_rx_init false true 1 true)
                         (map Z.b2z (flag ++ frame_bits [1; 2; 3])))) eq_refl).
Defined.

