(* ===== verification/HdlcDecode.v ===== *)
(** * What the HDLC receiver decodes

    The receiver (HdlcRx) on a well-formed bit stream: flags, then frames with
    their zero insertion (HdlcFrame).  [hunting] and [collecting] say what the
    receiver holds while it looks for its preamble and inside a frame; each bit
    moves one to the next. *)
From S2P Require Import Prelude.
From S2P Require Import Crc.
From S2P Require Import HdlcFrame.
From S2P Require Import HdlcRx.

(** ** Receiving a well-formed bit stream *)

#[local] Arguments Z.testbit : simpl never.

(** The newest bits sampled are [k] ones after a zero. *)
Definition run (k r : Z) : Prop :=
  (forall i, 0 <= i < k -> Z.testbit r (8 + i) = true) /\ Z.testbit r (8 + k) = false.

Definition raw_push (r : Z) (b : bool) : Z :=
  u32 ((r .<< 1) .| ((Z.b2z b .<< 8) .& 0x100)).

Lemma raw_push_bit r b i : 8 <= i < 32 ->
  Z.testbit (raw_push r b) i = if i =? 8 then Z.testbit r 7 || b else Z.testbit r (i - 1).
Proof.
  intros Hi. unfold raw_push. rewrite put_bit_raw_bit by (destruct b; simpl; lia).
  destruct (Z.ltb_spec i 32), (Z.leb_spec 1 i); try lia. cbn [andb].
  destruct (Z.eqb_spec i 8) as [->|]; [by destruct b|]. by rewrite orb_false_r.
Qed.

Lemma run_push_one k r : 0 <= k <= 6 -> run k r -> run (k + 1) (raw_push r true).
Proof.
  intros Hk [H1 H2]. split.
  - intros i Hi. rewrite raw_push_bit by lia. destruct (Z.eqb_spec (8 + i) 8); [apply orb_true_r|].
    replace (8 + i - 1) with (8 + (i - 1)) by lia. apply H1. lia.
  - rewrite raw_push_bit by lia. destruct (Z.eqb_spec (8 + (k + 1)) 8); [lia|].
    by replace (8 + (k + 1) - 1) with (8 + k) by lia.
Qed.

Lemma run_push_zero r : r .& 0xFF = 0 -> run 0 (raw_push r false).
Proof.
  intros H. split; [lia|]. rewrite raw_push_bit by lia. simpl. by rewrite raw_low_bit by (done || lia).
Qed.

(** The test for a stuffed zero, flag or abort. *)
Lemma special_test r : (r .& 0x3F00 =? 0x3E00) =
  negb (Z.testbit r 8) && Z.testbit r 9 && Z.testbit r 10 && Z.testbit r 11
    && Z.testbit r 12 && Z.testbit r 13.
Proof.
  assert (r .& 0x3F00 = of_lsb (repeat false 8 ++ map (Z.testbit r) [8; 9; 10; 11; 12; 13])) as ->.
  { assert (0x3F00 = of_lsb (repeat false 8 ++ repeat true 6)) as -> by reflexivity.
    apply Z.bits_inj'. intros i Hi. rewrite Z.land_spec, !testbit_of_lsb by done.
    rewrite <- (Z2Nat.id i) at 1 by done. generalize (Z.to_nat i) as n. intros n.
    do 14 (destruct n as [|n]; [cbn; by rewrite ?andb_true_r, ?andb_false_r|]).
    destruct n; cbn; by rewrite andb_false_r. }
  cbn -[Z.add Z.mul].
  by destruct (Z.testbit r 8), (Z.testbit r 9), (Z.testbit r 10), (Z.testbit r 11),
    (Z.testbit r 12), (Z.testbit r 13).
Qed.

#[local] Ltac literal H := cbv [Z.add Pos.add Pos.succ Pos.add_carry] in H.

Lemma special_test_data k r b : 0 <= k -> k < 5 \/ b = true -> run k r ->
  (raw_push r b .& 0x3F00 =? 0x3E00) = false.
Proof.
  intros Hk Hb [_ Hr]. rewrite special_test. destruct Hb as [Hb| ->].
  - assert (Z.testbit (raw_push r b) (9 + k) = false) as E.
    { rewrite raw_push_bit by lia. destruct (Z.eqb_spec (9 + k) 8); [lia|].
      by replace (9 + k - 1) with (8 + k) by lia. }
    assert (k = 0 \/ k = 1 \/ k = 2 \/ k = 3 \/ k = 4) as HH by lia.
    repeat destruct HH as [->|HH]; subst; literal E; rewrite E; by rewrite ?andb_false_r.
  - rewrite (raw_push_bit _ _ 8) by lia. simpl. by rewrite orb_true_r.
Qed.

Lemma special_test_zero k r : 5 <= k <= 6 -> r .& 0xFF = 0 -> run k r ->
  (raw_push r false .& 0x3F00 =? 0x3E00) = true /\
  (raw_push r false .& 0x4000 =? 0) = (k =? 5) /\
  (k = 6 -> (raw_push r false .& 0x8000 =? 0) = true).
Proof.
  intros Hk Hl [Hr Hz].
  assert (forall i, 0 <= i < k -> Z.testbit (raw_push r false) (9 + i) = true) as H1.
  { intros i Hi. rewrite raw_push_bit by lia. destruct (Z.eqb_spec (9 + i) 8); [lia|].
    replace (9 + i - 1) with (8 + i) by lia. auto. }
  assert (Z.testbit (raw_push r false) (9 + k) = false) as H2.
  { rewrite raw_push_bit by lia. destruct (Z.eqb_spec (9 + k) 8); [lia|].
    by replace (9 + k - 1) with (8 + k) by lia. }
  split; [|split].
  - rewrite special_test, raw_push_bit by lia. simpl. rewrite raw_low_bit by (done || lia). simpl.
    pose proof (H1 0 ltac:(lia)) as B0. pose proof (H1 1 ltac:(lia)) as B1.
    pose proof (H1 2 ltac:(lia)) as B2. pose proof (H1 3 ltac:(lia)) as B3.
    pose proof (H1 4 ltac:(lia)) as B4. literal B0. literal B1. literal B2. literal B3. literal B4.
    by rewrite B0, B1, B2, B3, B4.
  - rewrite (land_bit _ 14) by lia. assert (k = 5 \/ k = 6) as [->| ->] by lia.
    + literal H2. by rewrite H2.
    + pose proof (H1 5 ltac:(lia)) as B5. literal B5. by rewrite B5.
  - intros ->. rewrite (land_bit _ 15) by lia. literal H2. by rewrite H2.
Qed.

Definition put_bits (s : hdlc_rx_state_t) (l : list bool) : hdlc_rx_state_t * list rx_event :=
  rx_feed hdlc_rx_put_bit s (map Z.b2z l).

Lemma put_bits_cons s b l s1 e1 s2 e2 :
  hdlc_rx_put_bit s (Z.b2z b) = (s1, e1) -> put_bits s1 l = (s2, e2) ->
  put_bits s (b :: l) = (s2, e1 ++ e2).
Proof. unfold put_bits. cbn [map rx_feed]. by intros -> ->. Qed.

Lemma put_bits_silent s b l s1 s2 e2 :
  hdlc_rx_put_bit s (Z.b2z b) = (s1, []) -> put_bits s1 l = (s2, e2) ->
  put_bits s (b :: l) = (s2, e2).
Proof. intros H1 H2. apply (put_bits_cons _ _ _ _ _ _ _ H1 H2). Qed.

Lemma put_bits_app s l1 l2 s1 e1 s2 e2 :
  put_bits s l1 = (s1, e1) -> put_bits s1 l2 = (s2, e2) -> put_bits s (l1 ++ l2) = (s2, e1 ++ e2).
Proof.
  revert s e1. induction l1 as [|b l1 IH]; intros s e1 H1 H2.
  - unfold put_bits in H1. simpl in H1. by simplify_eq.
  - unfold put_bits in H1. cbn [map rx_feed] in H1.
    destruct (hdlc_rx_put_bit s (Z.b2z b)) as [s' e'] eqn:E.
    destruct (rx_feed _ s' _) as [s'' e''] eqn:E'. simplify_eq. rewrite <- app_assoc.
    eapply put_bits_cons; [exact E|]. by eapply IH.
Qed.

(** The receiver is in frame: it has stored the octets [done] and holds the
    bits [cur] of the next; the last [k] bits sampled were ones. *)
Record collecting (s : hdlc_rx_state_t) (k : Z) (done : list Z) (cur : list bool) : Prop := {
  col_ready : rx_ready s;
  col_flags : flags_seen s = framing_ok_threshold s;
  col_announced : framing_ok_announced s = true;
  col_run : run k (raw_bit_stream s);
  col_len : len s = zlen done;
  col_done : slice (buffer s) 0 (len s) = done;
  col_bits : num_bits s = zlen cur;
  col_cur : forall i, 0 <= i < zlen cur ->
    Z.testbit (byte_in_progress s) (8 - zlen cur + i) = nth (Z.to_nat i) cur false;
}.

Lemma put_bit_push s b :
  hdlc_rx_put_bit s (Z.b2z b) =
  hdlc_rx_put_bit_core (s <| raw_bit_stream := raw_push (raw_bit_stream s) b |>).
Proof. by destruct b. Qed.

Lemma byte_step_bit (byte r : Z) (b : bool) i : is_byte byte -> r .& 0xFF = 0 -> 0 <= i ->
  Z.testbit ((byte .| (raw_push r b .& 0x100)) .>> 1) i =
  if i =? 7 then b else (i <? 7) && Z.testbit byte (i + 1).
Proof.
  intros Hb Hr Hi. change 0x100 with (2 ^ 8). bit_specs.
  destruct (Z.eqb_spec i 7) as [->|].
  - change (7 + 1) with 8. rewrite (testbit_high 8 byte) by (done || lia).
    rewrite raw_push_bit, Z.pow2_bits_true by lia.
    rewrite raw_low_bit by (done || lia). cbn. by rewrite andb_true_r.
  - rewrite Z.pow2_bits_false by lia. rewrite andb_false_r, orb_false_r.
    destruct (Z.ltb_spec i 7); [done|]. by rewrite (testbit_high 8 byte) by (done || lia).
Qed.

Lemma slice0_snoc a n v : 0 <= n < zlen a -> slice (aset a n v) 0 (n + 1) = slice a 0 n ++ [v].
Proof.
  intros Hn. unfold slice, aset. change (Z.to_nat 0) with 0%nat. rewrite !drop_0.
  replace (Z.to_nat (n + 1)) with (S (Z.to_nat n)) by lia.
  erewrite take_S_r by (apply list_lookup_insert_eq; lia).
  by rewrite take_insert_ge by lia.
Qed.

Lemma octet_of_bits byte cur : is_byte byte -> length cur = 8%nat ->
  (forall i, 0 <= i < 8 -> Z.testbit byte i = nth (Z.to_nat i) cur false) ->
  u8 byte = of_lsb cur.
Proof.
  intros Hb Hl H. rewrite wrap_id by done. apply Z.bits_inj'. intros i Hi.
  rewrite testbit_of_lsb by done. destruct (Z_lt_le_dec i 8); [by apply H|].
  rewrite (testbit_high 8) by done. symmetry. apply nth_overflow. lia.
Qed.

(** One data bit: it joins the octet in progress, which is stored when full. *)
Lemma data_step s k dn cur b : collecting s k dn cur -> 0 <= k <= 6 -> k < 5 \/ b = true ->
  (length cur = 7%nat -> zlen dn < max_frame_len s) ->
  exists s', hdlc_rx_put_bit s (Z.b2z b) = (s', []) /\ same_settings s s' /\
    collecting s' (if b then k + 1 else 0)
      (if (length cur =? 7)%nat then dn ++ [of_lsb (cur ++ [b])] else dn)
      (if (length cur =? 7)%nat then [] else cur ++ [b]).
Proof.
  intros [Hready Hflags Hann Hrun Hlen Hdone Hbits Hcur] Hk Hb Hmax.
  pose proof Hready as [W Hlow]. pose proof (wf_byte _ W) as Hbyte. pose proof W as [].
  assert (run (if b then k + 1 else 0) (raw_push (raw_bit_stream s) b)) as Hrun'.
  { destruct b; [by apply run_push_one|by apply run_push_zero]. }
  pose proof (put_bit_ready s (Z.b2z b) Hready) as [Hready' _].
  rewrite put_bit_push in *. set (r' := raw_push _ b) in *.
  pose proof (special_test_data k (raw_bit_stream s) b ltac:(lia) Hb Hrun) as Htest. fold r' in Htest.
  unfold hdlc_rx_put_bit_core in *. cbn -[Z.land] in *. rewrite Htest in *.
  rewrite Hflags in *. rewrite Z.ltb_irrefl in *.
  pose proof (fun i => byte_step_bit _ _ b i Hbyte Hlow) as Hstep. fold r' in Hstep.
  set (byte' := (_ .>> 1)) in *.
  assert (zlen cur < 8) by lia.
  assert (forall i, 0 <= i <= zlen cur ->
            Z.testbit byte' (8 - (zlen cur + 1) + i) = nth (Z.to_nat i) (cur ++ [b]) false) as Hcur'.
  { intros i Hi. rewrite Hstep by lia. destruct (Z.eqb_spec (8 - (zlen cur + 1) + i) 7).
    - rewrite app_nth2 by lia. by replace (Z.to_nat i - length cur)%nat with 0%nat by lia.
    - destruct (Z.ltb_spec (8 - (zlen cur + 1) + i) 7); [|lia]. cbn [andb].
      rewrite app_nth1 by lia. rewrite <- Hcur by lia. f_equal. lia. }
  destruct (Nat.eqb_spec (length cur) 7) as [E7|E7]; destruct (Z.eqb_spec (num_bits s + 1) 8); try lia.
  - unfold rx_store_octet in *. cbn -[Z.land] in *. specialize (Hmax E7).
    destruct (Z.ltb_spec (len s) (max_frame_len s)); [|lia]. cbn -[Z.land] in *.
    eexists. split; [done|]. split; [done|].
    split; cbn -[Z.land]; try done.
    + rewrite length_app. simpl. lia.
    + rewrite slice0_snoc by (unfold sizeof_buffer in *; lia). rewrite Hdone. f_equal. f_equal.
      apply octet_of_bits; [by apply byte_step_range|rewrite length_app; simpl; lia|].
      intros i Hi. rewrite <- Hcur' by lia. f_equal. lia.
    + simpl. lia.
  - eexists. split; [done|]. split; [done|].
    split; cbn -[Z.land]; try done.
    + rewrite length_app. simpl. lia.
    + intros i. rewrite length_app. cbn [length]. intros Hi.
      rewrite <- Hcur' by lia. f_equal. lia.
Qed.

(** The zero after five ones is dropped. *)
Lemma skip_step s dn cur : collecting s 5 dn cur ->
  exists s', hdlc_rx_put_bit s 0 = (s', []) /\ same_settings s s' /\ collecting s' 0 dn cur.
Proof.
  intros [Hready Hflags Hann Hrun Hlen Hdone Hbits Hcur].
  pose proof (put_bit_ready s (Z.b2z false) Hready) as [Hready' _].
  change 0 with (Z.b2z false). rewrite put_bit_push in *.
  pose proof (special_test_zero 5 (raw_bit_stream s) ltac:(lia) (proj2 Hready) Hrun)
    as (E1 & E2 & _).
  assert (run 0 (raw_push (raw_bit_stream s) false)) by (by apply run_push_zero, Hready).
  set (r' := raw_push _ false) in *.
  unfold hdlc_rx_put_bit_core in *. cbn -[Z.land] in *. rewrite E1, E2 in *. cbn [negb] in *.
  eexists. split; [done|]. split; [done|]. by split.
Qed.

(** A flag ends the frame in progress, if there is one. *)
Lemma flag_step s dn cur : collecting s 6 dn cur ->
  exists s' e, hdlc_rx_put_bit s 0 = (s', e) /\ same_settings s s' /\ collecting s' 0 [] [] /\
    e = (if len s =? 0 then []
         else snd (rx_frame_end (s <| raw_bit_stream := raw_push (raw_bit_stream s) false |>
                                   <| octet_counting_mode := false |>))).
Proof.
  intros [Hready Hflags Hann Hrun Hlen Hdone Hbits Hcur].
  pose proof (put_bit_ready s (Z.b2z false) Hready) as [Hready' _].
  change (hdlc_rx_put_bit s 0) with (hdlc_rx_put_bit s (Z.b2z false)).
  rewrite put_bit_push in *.
  pose proof (special_test_zero 6 (raw_bit_stream s) ltac:(lia) (proj2 Hready) Hrun)
    as (E1 & E2 & E3).
  assert (run 0 (raw_push (raw_bit_stream s) false)) by (by apply run_push_zero, Hready).
  set (r' := raw_push _ false) in *. specialize (E3 eq_refl).
  unfold hdlc_rx_put_bit_core, rx_flag_or_abort in *. cbn -[Z.land rx_frame_end] in *.
  rewrite E1, E2, E3, Hflags, Z.leb_refl in *. cbn -[Z.land rx_frame_end] in *.
  destruct (len s =? 0); cbn -[Z.land rx_frame_end] in *.
  - do 2 eexists. split; [done|]. split; [done|]. split; [|done].
    split; cbn; done || lia.
  - set (s2 := s <| raw_bit_stream := r' |> <| octet_counting_mode := false |>) in *.
    assert (same_settings s (fst (rx_frame_end s2)) /\
            flags_seen (fst (rx_frame_end s2)) = flags_seen s /\
            framing_ok_announced (fst (rx_frame_end s2)) = framing_ok_announced s /\
            raw_bit_stream (fst (rx_frame_end s2)) = r') as (S1 & S2 & S3 & S4).
    { unfold rx_frame_end. cbn -[Z.land]. repeat (case_match; simplify_eq; try done). }
    destruct (rx_frame_end s2) as [s3 e]. cbn [fst snd] in *.
    do 2 eexists. split; [done|]. split; [exact S1|]. split; [|done].
    split; cbn; try done; try congruence; try lia.
    + rewrite S2, Hflags. symmetry. apply S1.
Qed.

Definition push_cur (dn : list Z) (cur : list bool) (b : bool) : list Z * list bool :=
  if (length cur =? 7)%nat then (dn ++ [of_lsb (cur ++ [b])], []) else (dn, cur ++ [b]).

(** Any number of data bits, stuffed: they join what the receiver holds. *)
Lemma data_bits l s k dn cur dn' cur' : collecting s (Z.of_nat k) dn cur -> (k <= 4)%nat ->
  fold_left (fun p b => push_cur (fst p) (snd p) b) l (dn, cur) = (dn', cur') ->
  zlen dn' <= max_frame_len s ->
  exists s', put_bits s (stuff k l) = (s', []) /\ same_settings s s' /\
    collecting s' (Z.of_nat (ones_after k l)) dn' cur'.
Proof.
  assert (forall l dn cur, (length dn <= length (fst (fold_left
            (fun p b => push_cur (fst p) (snd p) b) l (dn, cur))))%nat) as Hmono.
  { intros m. induction m as [|b m IH]; intros dn0 cur0; [done|]. cbn [fold_left fst snd].
    unfold push_cur at 2. case_match; [|apply IH]. rewrite <- IH, length_app. lia. }
  revert s k dn cur. induction l as [|b l IH]; intros s k dn cur Hcol Hk Hfold Hmax.
  { exists s. cbn in Hfold |- *. simplify_eq. by split. }
  cbn [fold_left fst snd] in Hfold.
  destruct (data_step s (Z.of_nat k) dn cur b Hcol) as (s1 & E1 & S1 & C1); [lia|lia| |].
  { intros E. specialize (Hmono l (dn ++ [of_lsb (cur ++ [b])]) []).
    unfold push_cur at 2 in Hfold. rewrite E in Hfold. cbn [Nat.eqb] in Hfold.
    rewrite Hfold, length_app in Hmono. simpl in Hmono. lia. }
  assert (zlen dn' <= max_frame_len s1) as Hmax1 by (destruct S1 as (_ & -> & _); lia).
  unfold push_cur in Hfold at 2. destruct b; cbn [stuff ones_after].
  - destruct (Nat.eqb_spec k 4) as [->|].
    + change (Z.of_nat 4 + 1) with 5 in C1. destruct (skip_step _ _ _ C1) as (s2 & E2 & S2 & C2).
      assert (zlen dn' <= max_frame_len s2) as Hmax2 by (destruct S2 as (_ & -> & _); lia).
      destruct (IH s2 0%nat _ _ C2) as (s3 & E3 & S3 & C3); [lia|by case_match|done|].
      exists s3. split; [|split; [by do 2 (etransitivity; [eassumption|])|done]].
      eapply put_bits_silent; [exact E1|]. by eapply (put_bits_silent _ false); [exact E2|].
    + replace (Z.of_nat k + 1) with (Z.of_nat (S k)) in C1 by lia.
      destruct (IH s1 (S k) _ _ C1) as (s3 & E3 & S3 & C3); [lia|by case_match|done|].
      exists s3. split; [by eapply put_bits_silent; [exact E1|]|]. split; [by etransitivity|done].
  - destruct (IH s1 0%nat _ _ C1) as (s3 & E3 & S3 & C3); [lia|by case_match|done|].
    exists s3. split; [by eapply (put_bits_silent _ false); [exact E1|]|].
    split; [by etransitivity|done].
Qed.

Lemma push_octets octets dn : bytes octets ->
  fold_left (fun p b => push_cur (fst p) (snd p) b) (octet_bits octets) (dn, []) =
  (dn ++ octets, []).
Proof.
  intros H. revert dn. induction H as [|b octets Hb Hoct IH]; intros dn.
  { cbn. by rewrite app_nil_r. }
  unfold octet_bits in *. cbn [map concat]. rewrite fold_left_app.
  assert (fold_left (fun p b => push_cur (fst p) (snd p) b) (lsb_bits 8 b) (dn, []) =
          (dn ++ [of_lsb (lsb_bits 8 b)], [])) as -> by reflexivity.
  rewrite of_lsb_byte, IH by done. by rewrite <- app_assoc.
Qed.

Lemma zero_or_one_step s k dn cur b : collecting s k dn cur -> 0 <= k <= 5 -> k < 5 \/ b = true ->
  (length cur < 7)%nat ->
  exists s', hdlc_rx_put_bit s (Z.b2z b) = (s', []) /\ same_settings s s' /\
    collecting s' (if b then k + 1 else 0) dn (cur ++ [b]).
Proof.
  intros Hcol Hk Hb Hc.
  destruct (data_step s k dn cur b Hcol) as (s' & E & S & C); [lia|done|lia|].
  exists s'. split; [done|]. split; [done|].
  destruct (Nat.eqb_spec (length cur) 7); [lia|]. done.
Qed.

(** The flag's first seven bits are taken for data; they fill an aligned octet
    but for one bit. *)
Lemma flag_bits s k dn : collecting s k dn [] -> 0 <= k <= 4 ->
  exists s1 s' e, put_bits s flag = (s', e) /\ same_settings s s' /\
    collecting s1 6 dn [false; true; true; true; true; true; true] /\ same_settings s s1 /\
    hdlc_rx_put_bit s1 0 = (s', e).
Proof.
  intros C0 Hk.
  destruct (zero_or_one_step s k dn [] false C0) as (s1 & E1 & S1 & C1); [lia|lia|simpl; lia|].
  destruct (zero_or_one_step s1 0 dn _ true C1) as (s2 & E2 & S2 & C2); [lia|lia|simpl; lia|].
  destruct (zero_or_one_step s2 1 dn _ true C2) as (s3 & E3 & S3 & C3); [lia|lia|simpl; lia|].
  destruct (zero_or_one_step s3 2 dn _ true C3) as (s4 & E4 & S4 & C4); [lia|lia|simpl; lia|].
  destruct (zero_or_one_step s4 3 dn _ true C4) as (s5 & E5 & S5 & C5); [lia|lia|simpl; lia|].
  destruct (zero_or_one_step s5 4 dn _ true C5) as (s6 & E6 & S6 & C6); [lia|lia|simpl; lia|].
  destruct (zero_or_one_step s6 5 dn _ true C6) as (s7 & E7 & S7 & C7); [lia|auto|simpl; lia|].
  assert (same_settings s s7) by (by repeat (etransitivity; [eassumption|])).
  destruct (flag_step s7 dn _ C7) as (s8 & e & E8 & S8 & C8 & He).
  exists s7, s8, e. split; [|split; [by etransitivity|by split]].
  unfold flag, put_bits. cbn [map rx_feed].
  change (Z.b2z false) with 0 in *. change (Z.b2z true) with 1 in *.
  by rewrite E1, E2, E3, E4, E5, E6, E7, E8; cbn [app]; rewrite app_nil_r.
Qed.

(** What the receiver reports when a flag ends the octets [body]. *)
Definition frame_report (s : hdlc_rx_state_t) (body : list Z) : list rx_event :=
  let n := zlen body in
  if n =? 0 then []
  else if crc_bytes s <=? n then
    let data := take (Z.to_nat (n - crc_bytes s)) body in
    if (if crc_bytes s =? 2 then crc_itu16_check body else crc_itu32_check body)
    then [Frame data (n - crc_bytes s) true]
    else if report_bad_frames s then [Frame data (n - crc_bytes s) false] else []
  else if report_bad_frames s then [Frame [] 0 false] else [].

Lemma frame_end_report s dn : 0 <= crc_bytes s -> num_bits s = 7 -> len s = zlen dn ->
  slice (buffer s) 0 (len s) = dn -> zlen dn <= max_frame_len s -> len s <> 0 ->
  snd (rx_frame_end s) = frame_report s dn.
Proof.
  intros Hcrc Hbits Hlen Hdone Hmax Hz.
  unfold rx_frame_end, frame_report. rewrite Hbits, <- Hlen.
  destruct (Z.eqb_spec (len s) 0); [done|]. destruct (Z.leb_spec (len s) (max_frame_len s)); [|lia].
  cbn [Z.eqb Pos.eqb andb]. rewrite andb_true_r.
  destruct (Z.leb_spec (crc_bytes s) (len s)).
  - rewrite Hdone. unfold report_frame.
    assert (slice (buffer s) 0 (len s - crc_bytes s) = take (Z.to_nat (len s - crc_bytes s)) dn) as Hd.
    { rewrite (slice0_sub _ (len s)) by lia. by rewrite Hdone. }
    destruct (crc_bytes s =? 2); cbn -[Z.land crc_itu16_check crc_itu32_check];
      rewrite ?orb_false_r; repeat case_match; cbn; by rewrite ?Hd.
  - by destruct (report_bad_frames s).
Qed.

(** A whole frame, good or bad, within the length limit, and the flag after it. *)
Lemma receive_frame s k body : collecting s (Z.of_nat k) [] [] -> (k <= 4)%nat -> bytes body ->
  zlen body <= max_frame_len s ->
  exists s', put_bits s (stuff k (octet_bits body) ++ flag) = (s', frame_report s body) /\
    same_settings s s' /\ collecting s' 0 [] [].
Proof.
  intros C0 Hk Hb Hmax.
  destruct (data_bits _ _ _ _ _ _ _ C0 Hk (push_octets body [] Hb)) as (s1 & E1 & S1 & C1);
    [done|]. cbn [app] in C1. pose proof (ones_after_le k (octet_bits body) Hk).
  destruct (flag_bits s1 _ body C1) as (s2 & s3 & e & E2 & S3 & C2 & S2 & E3); [lia|].
  destruct (flag_step s2 _ _ C2) as (s3' & e' & E3' & S3' & C3 & He).
  rewrite E3 in E3'. simplify_eq.
  exists s3'. split; [|split; [by etransitivity|done]].
  rewrite (put_bits_app s _ flag s1 [] s3' _ E1 E2). cbn [app]. f_equal.
  destruct C2 as [[W2 Hlow2] Hf2 Ha2 Hr2 Hl2 Hd2 Hn2 Hc2].
  assert (same_settings s s2) as (X1 & X2 & X3 & X4 & X5 & X6) by (by etransitivity).
  destruct (Z.eqb_spec (len s2) 0) as [E|E].
  - rewrite Hl2 in E. unfold frame_report. by rewrite E.
  - set (s4 := s2 <| raw_bit_stream := _ |> <| octet_counting_mode := false |>).
    rewrite (frame_end_report s4 body); try done.
    + unfold frame_report. cbn. by rewrite X1, X5.
    + destruct W2. cbn. lia.
    + cbn. by rewrite X2.
Qed.

(** *** The preamble *)

(** The receiver has just seen the [j]-th back-to-back flag, too few to be in
    frame. *)
Record hunting (s : hdlc_rx_state_t) (j : Z) : Prop := {
  hunt_ready : rx_ready s;
  hunt_flags : flags_seen s = j /\ j < framing_ok_threshold s;
  hunt_announced : framing_ok_announced s = false;
  hunt_run : run 0 (raw_bit_stream s);
  hunt_bits : num_bits s = 0;
  hunt_len : len s = 0;
}.

(** The same within the flag: [n] bits counted, the last [k] of them ones. *)
Record in_flag (s : hdlc_rx_state_t) (j n k : Z) : Prop := {
  inf_ready : rx_ready s;
  inf_flags : flags_seen s = j /\ j < framing_ok_threshold s;
  inf_announced : framing_ok_announced s = false;
  inf_run : run k (raw_bit_stream s);
  inf_bits : num_bits s = n;
  inf_len : len s = 0;
}.

Lemma in_flag_step s j n k b : in_flag s j n k -> 0 <= n < 7 -> 0 <= k <= 5 -> k < 5 \/ b = true ->
  exists s', hdlc_rx_put_bit s (Z.b2z b) = (s', []) /\ same_settings s s' /\
    in_flag s' j (n + 1) (if b then k + 1 else 0).
Proof.
  intros [Hready [Hf Hj] Hann Hrun Hn Hl] Hr Hk Hb.
  assert (run (if b then k + 1 else 0) (raw_push (raw_bit_stream s) b)) as Hrun'.
  { destruct b; [apply run_push_one; done || lia|by apply run_push_zero, Hready]. }
  pose proof (put_bit_ready s (Z.b2z b) Hready) as [Hready' _].
  rewrite put_bit_push in *.
  pose proof (special_test_data k (raw_bit_stream s) b ltac:(lia) Hb Hrun) as Htest.
  set (r' := raw_push _ b) in *. unfold hdlc_rx_put_bit_core in *. cbn -[Z.land] in *.
  rewrite Htest, Hn in *. destruct (Z.ltb_spec (flags_seen s) (framing_ok_threshold s)); [|lia].
  assert (((n + 1) .& 7 =? 0) = false) as Hland.
  { clear - Hr. assert (n = 0 \/ n = 1 \/ n = 2 \/ n = 3 \/ n = 4 \/ n = 5 \/ n = 6) as HH by lia.
    by repeat destruct HH as [-> |HH]; [..|rewrite HH]. }
  rewrite Hland in *. cbn [fst snd] in *. eexists. split; [done|]. split; [done|]. by split.
Qed.

(** Reported when the flag count reaches the threshold. *)
Definition flag_report (s : hdlc_rx_state_t) (j : Z) : list rx_event :=
  if framing_ok_threshold s <=? j then report_status_change s SIG_STATUS_FRAMING_OK else [].

Lemma in_flag_end s j : in_flag s j 7 6 -> 0 <= j ->
  exists s' e, hdlc_rx_put_bit s 0 = (s', e) /\ same_settings s s' /\ e = flag_report s (j + 1) /\
    (j + 1 < framing_ok_threshold s -> hunting s' (j + 1)) /\
    (framing_ok_threshold s <= j + 1 -> collecting s' 0 [] []).
Proof.
  intros [Hready [Hf Hj] Hann Hrun Hn Hl] Hj0.
  assert (run 0 (raw_push (raw_bit_stream s) false)) by (by apply run_push_zero, Hready).
  pose proof (put_bit_ready s (Z.b2z false) Hready) as [Hready' _].
  change (hdlc_rx_put_bit s 0) with (hdlc_rx_put_bit s (Z.b2z false)).
  rewrite put_bit_push in *.
  pose proof (special_test_zero 6 (raw_bit_stream s) ltac:(lia) (proj2 Hready) Hrun)
    as (E1 & E2 & E3). specialize (E3 eq_refl).
  set (r' := raw_push _ false) in *.
  revert Hready'. unfold hdlc_rx_put_bit_core, rx_flag_or_abort, flag_report. cbn -[Z.land].
  rewrite !E1, !E2, !E3, !Hn, !Hf. cbn -[Z.land].
  destruct (Z.leb_spec (framing_ok_threshold s) j); [lia|]. cbn -[Z.land].
  rewrite !Hann, ?Hf, ?andb_true_r.
  destruct (Z.leb_spec (framing_ok_threshold s) (j + 1)) as [Ht|Ht]; cbn -[Z.land];
    intros Hready'; (do 2 eexists; split; [done|]; split; [done|]; split; [done|]; split; intros).
  all: try lia; split; cbn; try done; lia.
Qed.

Lemma hunt_flag s j : hunting s j -> 0 <= j ->
  exists s', put_bits s flag = (s', flag_report s (j + 1)) /\ same_settings s s' /\
    (j + 1 < framing_ok_threshold s -> hunting s' (j + 1)) /\
    (framing_ok_threshold s <= j + 1 -> collecting s' 0 [] []).
Proof.
  intros [H1 H2 H3 H4 H5 H6] Hj. assert (in_flag s j 0 0) as F0 by done.
  destruct (in_flag_step s j 0 0 false F0) as (s1 & E1 & S1 & F1); [lia..|].
  destruct (in_flag_step s1 j 1 0 true F1) as (s2 & E2 & S2 & F2); [lia..|].
  destruct (in_flag_step s2 j 2 1 true F2) as (s3 & E3 & S3 & F3); [lia..|].
  destruct (in_flag_step s3 j 3 2 true F3) as (s4 & E4 & S4 & F4); [lia..|].
  destruct (in_flag_step s4 j 4 3 true F4) as (s5 & E5 & S5 & F5); [lia..|].
  destruct (in_flag_step s5 j 5 4 true F5) as (s6 & E6 & S6 & F6); [lia..|].
  destruct (in_flag_step s6 j 6 5 true F6) as (s7 & E7 & S7 & F7); [lia|lia|by right|].
  assert (same_settings s s7) as (X1 & X2 & X3 & X4 & X5 & X6)
    by (by repeat (etransitivity; [eassumption|])).
  destruct (in_flag_end s7 j F7 Hj) as (s8 & e & E8 & S8 & -> & HA & HB).
  exists s8. rewrite X6 in HA, HB. split; [|split; [|done]].
  - unfold flag, put_bits. cbn [map rx_feed].
    change (Z.b2z false) with 0 in *. change (Z.b2z true) with 1 in *.
    rewrite E1, E2, E3, E4, E5, E6, E7, E8. cbn [app]. rewrite app_nil_r.
    unfold flag_report, report_status_change. by rewrite X3, X4, X6.
  - etransitivity; [|exact S8]. done.
Qed.

Lemma idle_flag s : collecting s 0 [] [] ->
  exists s', put_bits s flag = (s', []) /\ same_settings s s' /\ collecting s' 0 [] [].
Proof.
  intros C. pose proof (col_ready _ _ _ _ C) as [[] _].
  destruct (receive_frame s 0 [] C) as (s' & E & S & C'); [lia|done|cbn; lia|].
  by exists s'.
Qed.

Lemma idle_flags n s : collecting s 0 [] [] ->
  exists s', put_bits s (concat (repeat flag n)) = (s', []) /\ same_settings s s' /\
    collecting s' 0 [] [].
Proof.
  revert s. induction n as [|n IH]; intros s C; [by exists s|]. cbn [repeat concat].
  destruct (idle_flag s C) as (s1 & E1 & S1 & C1). destruct (IH s1 C1) as (s2 & E2 & S2 & C2).
  exists s2. split; [exact (put_bits_app _ _ _ _ _ _ _ E1 E2)|]. split; [by etransitivity|done].
Qed.

(** [n] flags from a receiver that has seen [j]: framing is announced on the
    flag that reaches the threshold, once. *)
Lemma preamble n s j : hunting s j -> 0 <= j -> framing_ok_threshold s <= j + Z.of_nat n ->
  exists s', put_bits s (concat (repeat flag n)) = (s', report_status_change s SIG_STATUS_FRAMING_OK)
    /\ same_settings s s' /\ collecting s' 0 [] [].
Proof.
  revert s j. induction n as [|n IH]; intros s j H Hj Hn; [destruct H; lia|]. cbn [repeat concat].
  destruct (hunt_flag s j H Hj) as (s1 & E1 & S1 & HA & HB). unfold flag_report in E1.
  assert (framing_ok_threshold s1 = framing_ok_threshold s) as Et by apply S1.
  destruct (Z.leb_spec (framing_ok_threshold s) (j + 1)) as [Ht|Ht].
  - destruct (idle_flags n s1 (HB Ht)) as (s2 & E2 & S2 & C2). exists s2.
    split; [rewrite <- (app_nil_r (report_status_change _ _)); by eapply put_bits_app|].
    split; [by etransitivity|done].
  - destruct (IH s1 (j + 1) (HA Ht)) as (s2 & E2 & S2 & C2); [lia|lia|]. exists s2.
    replace (report_status_change s SIG_STATUS_FRAMING_OK)
      with ([] ++ report_status_change s1 SIG_STATUS_FRAMING_OK).
    2:{ destruct S1 as (X1 & X2 & X3 & X4 & X5 & X6). cbn. unfold report_status_change.
        by rewrite X3, X4. }
    split; [by eapply put_bits_app|]. split; [by etransitivity|done].
Qed.

Lemma hdlc_rx_init_hunting crc32 bad threshold handler :
  hunting (hdlc_rx_init crc32 bad threshold handler) 0.
Proof.
  split; try done; [apply hdlc_rx_init_ready| |split; [lia|done]].
  cbn. destruct (Z.ltb_spec threshold 1); lia.
Qed.

(** Frame after frame. *)
Lemma receive_frames bodies s : collecting s 0 [] [] ->
  Forall (fun body => bytes body /\ zlen body <= max_frame_len s) bodies ->
  exists s', put_bits s (concat (map frame_bits bodies)) =
               (s', concat (map (frame_report s) bodies)) /\
    same_settings s s' /\ collecting s' 0 [] [].
Proof.
  revert s. induction bodies as [|body bodies IH]; intros s C Hb; [by exists s|].
  apply Forall_cons_1 in Hb as [[Hb Hl] Hbs]. cbn [map concat].
  destruct (receive_frame s 0 body C) as (s1 & E1 & S1 & C1); [lia|done|done|].
  destruct (IH s1 C1) as (s2 & E2 & S2 & C2).
  { by destruct S1 as (_ & -> & _). }
  exists s2. split; [|split; [by etransitivity|done]].
  replace (concat (map (frame_report s) bodies)) with (concat (map (frame_report s1) bodies)).
  - by eapply put_bits_app.
  - f_equal. apply map_ext. intros b. unfold frame_report.
    destruct S1 as (-> & _ & _ & _ & -> & _). done.
Qed.

(** ** The property *)

(** C22: from its initial state the receiver decodes any well-formed stream: flags
    up to the threshold bring exactly one "framing OK", then every frame, good,
    with a CRC error, or too short for its check sequence, brings exactly the
    report [frame_report] gives for its octets - the data without the check
    octets when they check. *)
Theorem hdlc_rx_decodes (crc32 bad : bool) (threshold : Z) (n : nat) (bodies : list (list Z)) :
  Z.max 1 threshold <= Z.of_nat n ->
  Forall (fun body => bytes body /\ zlen body <= sizeof_buffer) bodies ->
  let s := hdlc_rx_init crc32 bad threshold true in
  snd (put_bits s (concat (repeat flag n) ++ concat (map frame_bits bodies))) =
  FrameStatus SIG_STATUS_FRAMING_OK :: concat (map (frame_report s) bodies).
Proof.
  intros Hn Hb s.
  destruct (preamble n s 0) as (s1 & E1 & S1 & C1); [apply hdlc_rx_init_hunting|done| |].
  { cbn. destruct (Z.ltb_spec threshold 1); lia. }
  destruct (receive_frames bodies s1 C1) as (s2 & E2 & _ & _).
  { by destruct S1 as (_ & -> & _). }
  rewrite (put_bits_app _ _ _ _ _ _ _ E1 E2). cbn [snd app report_status_change]. f_equal.
  f_equal. apply map_ext. intros b. unfold frame_report.
  destruct S1 as (-> & _ & _ & _ & -> & _). done.
Qed.

Lemma hdlc_rx_decodes_witness :
  Z.max 1 2 <= Z.of_nat 2 /\
  snd (put_bits (hdlc_rx_init false true 2 true)
         (concat (repeat flag 2) ++ concat (map frame_bits [[0x31; 0x72; 0xD0]; [1; 2; 3]; [9]]))) =
  [FrameStatus SIG_STATUS_FRAMING_OK; Frame [0x31] 1 true; Frame [1] 1 false; Frame [] 0 false].
Proof.
  split; [lia|].
  refine (hdlc_rx_decodes false true 2 2 [[0x31; 0x72; 0xD0]; [1; 2; 3]; [9]] _ _); [lia|].
  apply (bool_decide_unpack _). vm_compute. exact I.
Defined.

(** A frame over the length limit is dropped without trace: with at most four
    octets accepted, six octets between flags are neither reported nor counted
    as a length error. *)
Lemma overlong_frame_uncounted :
  let s := hdlc_rx_set_max_frame_len (hdlc_rx_init false true 1 true) 2 in
  let r := put_bits s (flag ++ frame_bits [1; 2; 3; 4; 5; 6]) in
  snd r = [FrameStatus SIG_STATUS_FRAMING_OK] /\ rx_length_errors (fst r) = 0.
Proof. vm_compute. done. Qed.
