(* ===== verification/HdlcTx.v ===== *)
(** * The HDLC framer (src/spandsp-0.0.6/src/hdlc.c, [hdlc_tx_*])

    The transmitter is a record, the C struct field by field.  Its underflow
    handler is a parameter: a function of the user's state and the transmitter,
    which it may change (it usually calls [hdlc_tx_frame] or [hdlc_tx_flags]).
    Then: the invariant, and the bit stream the framer puts out, against the
    line format of HdlcFrame. *)
From S2P Require Import Prelude.
From S2P Require Import BitOps.
From S2P Require Import Crc.
From S2P Require Import HdlcFrame.

(** ** Definitions *)

Definition HDLC_MAXFRAME_LEN : Z := 400.
Definition SIG_STATUS_END_OF_DATA : Z := -7.

(** [idle_octet], [flag_octets], [abort_octets], [num_bits] are C ints, kept as
    mathematical integers (they stay small: [tx_wf]). *)
Record hdlc_tx_state_t := {
  crc_bytes : Z;
  inter_frame_flags : Z;
  progressive : bool;
  max_frame_len : Z;
  octets_in_progress : Z;
  num_bits : Z;
  idle_octet : Z;
  flag_octets : Z;
  abort_octets : Z;
  report_flag_underflow : bool;
  buffer : list Z;
  len : Z;
  pos : Z;
  crc : Z;
  byte : Z;
  bits : Z;
  tx_end : bool;
}.

#[export] Instance eta_tx : Eta hdlc_tx_state_t := fun s =>
  Build_hdlc_tx_state_t (crc_bytes s) (inter_frame_flags s) (progressive s) (max_frame_len s)
    (octets_in_progress s) (num_bits s) (idle_octet s) (flag_octets s) (abort_octets s)
    (report_flag_underflow s) (buffer s) (len s) (pos s) (crc s) (byte s) (bits s) (tx_end s).

(** Whether the call is accepted (0) or refused (-1), and the new state. *)
Definition hdlc_tx_frame (s : hdlc_tx_state_t) (frame : list Z) : Z * hdlc_tx_state_t :=
  let n := zlen frame in
  if n <=? 0 then (0, s <| tx_end := true |>)
  else if max_frame_len s <? len s + n then (-1, s)
  else if (if progressive s then HDLC_MAXFRAME_LEN <=? pos s else negb (len s =? 0)) then (-1, s)
  else
    let s := s <| buffer := memcpy (buffer s) (len s) frame |> in
    let s := s <| crc := if crc_bytes s =? 2 then crc_itu16_calc frame (u16 (crc s))
                         else crc_itu32_calc frame (crc s) |> in
    let s := s <| len := if progressive s then len s + n else n |> in
    (0, s <| tx_end := false |>).

Definition hdlc_tx_flags (s : hdlc_tx_state_t) (n : Z) : Z * hdlc_tx_state_t :=
  if negb (pos s =? 0) then (-1, s)
  else
    let s := s <| flag_octets := if n <? 0 then flag_octets s + - n else n |> in
    (0, s <| report_flag_underflow := true |> <| tx_end := false |>).

Definition hdlc_tx_abort (s : hdlc_tx_state_t) : Z * hdlc_tx_state_t :=
  (-1, s <| flag_octets := flag_octets s + 1 |> <| abort_octets := abort_octets s + 1 |>).

Definition hdlc_tx_corrupt_frame (s : hdlc_tx_state_t) : Z * hdlc_tx_state_t :=
  if len s <=? 0 then (-1, s)
  else
    let flip b i := aset b i (aget b i .^ 0xFF) in
    let b := buffer s in
    let b := flip b HDLC_MAXFRAME_LEN in
    let b := flip b (HDLC_MAXFRAME_LEN + 1) in
    let b := flip b (HDLC_MAXFRAME_LEN + 2) in
    let b := flip b (HDLC_MAXFRAME_LEN + 3) in
    (0, s <| crc := crc s .^ 0xFFFF |> <| buffer := b |>).

(** One turn of the stuffing loop: the octets in progress, their number of
    bits, and the rest of the byte. *)
Definition stuff_turn (p : Z * Z * Z) : Z * Z * Z :=
  let '(octets, nbits, b) := p in
  let octets := u32 ((octets .<< 1) .| (b .& 1)) in
  let b := b .>> 1 in
  if octets .& 0x1F =? 0x1F then (u32 (octets .<< 1), nbits + 1, b) else (octets, nbits, b).

(** The stuffing of one octet: zeros at its bottom are shifted in at once. *)
Definition stuff_octet (octets nbits b : Z) : Z * Z :=
  let i := bottom_bit (b .| 0x100) in
  let '(octets, nbits, _) :=
    Nat.iter (Z.to_nat (8 - i)) stuff_turn (u32 (octets .<< i), nbits, b .>> i) in
  (octets, nbits).

(** The CRC octets are put after the longest frame. *)
Definition tx_append_crc (s : hdlc_tx_state_t) : hdlc_tx_state_t :=
  let s := s <| crc := crc s .^ 0xFFFFFFFF |> in
  let b := aset (buffer s) HDLC_MAXFRAME_LEN (u8 (crc s)) in
  let b := aset b (HDLC_MAXFRAME_LEN + 1) (u8 (crc s .>> 8)) in
  let b := if crc_bytes s =? 4 then
             aset (aset b (HDLC_MAXFRAME_LEN + 2) (u8 (crc s .>> 16)))
               (HDLC_MAXFRAME_LEN + 3) (u8 (crc s .>> 24))
           else b in
  s <| buffer := b |> <| pos := HDLC_MAXFRAME_LEN |>.

(** The next octet of the frame or of its check sequence. *)
Definition tx_data_octet (s : hdlc_tx_state_t) : Z * hdlc_tx_state_t :=
  let b := aget (buffer s) (pos s) in
  let s := s <| pos := pos s + 1 |> in
  let '(octets, nbits) := stuff_octet (octets_in_progress s) (num_bits s) b in
  let s := s <| octets_in_progress := octets |> <| num_bits := nbits |> in
  ((octets_in_progress s .>> num_bits s) .& 0xFF, s).

Section tx.
Context {U : Type}.
(** [s->underflow_handler(s->user_data)], if there is one. *)
Variable underflow_handler : option (U -> hdlc_tx_state_t -> U * hdlc_tx_state_t).

Definition call_underflow (u : U) (s : hdlc_tx_state_t) : U * hdlc_tx_state_t :=
  match underflow_handler with Some h => h u s | None => (u, s) end.

(** The frame is over: the octet that ends it with flag bits. *)
Definition tx_end_frame (u : U) (s : hdlc_tx_state_t) : Z * (U * hdlc_tx_state_t) :=
  let txbyte := u8 ((octets_in_progress s .<< (8 - num_bits s)) .| (0x7E .>> num_bits s)) in
  let s := s <| idle_octet := (0x7E7E .>> num_bits s) .& 0xFF |> in
  let s := s <| octets_in_progress := idle_octet s .>> (8 - num_bits s) |> in
  let s := s <| flag_octets := inter_frame_flags s - 1 |> <| len := 0 |> <| pos := 0 |> in
  let s := s <| crc := if crc_bytes s =? 2 then 0xFFFF else 0xFFFFFFFF |> in
  let s := s <| report_flag_underflow := false |> in
  let '(u, s) := call_underflow u s in
  let s := if (len s =? 0) && (flag_octets s <? 2) then s <| flag_octets := 2 |> else s in
  (txbyte, (u, s)).

Definition hdlc_tx_get_byte (u : U) (s : hdlc_tx_state_t) : Z * (U * hdlc_tx_state_t) :=
  if 0 <? flag_octets s then
    let s := s <| flag_octets := flag_octets s - 1 |> in
    let '(u, s) :=
      if (flag_octets s <=? 0) && report_flag_underflow s then
        let s := s <| report_flag_underflow := false |> in
        if len s =? 0 then call_underflow u s else (u, s)
      else (u, s) in
    if negb (abort_octets s =? 0) then (0x7F, (u, s <| abort_octets := 0 |>))
    else (idle_octet s, (u, s))
  else if negb (len s =? 0) then
    if 8 <=? num_bits s then
      let s := s <| num_bits := num_bits s - 8 |> in
      ((octets_in_progress s .>> num_bits s) .& 0xFF, (u, s))
    else if len s <=? pos s then
      if pos s =? len s then
        let '(b, s) := tx_data_octet (tx_append_crc s) in (b, (u, s))
      else if pos s =? HDLC_MAXFRAME_LEN + crc_bytes s then tx_end_frame u s
      else let '(b, s) := tx_data_octet s in (b, (u, s))
    else let '(b, s) := tx_data_octet s in (b, (u, s))
  else if tx_end s then (SIG_STATUS_END_OF_DATA, (u, s <| tx_end := false |>))
  else (idle_octet s, (u, s)).

Definition hdlc_tx_get_bit (u : U) (s : hdlc_tx_state_t) : Z * (U * hdlc_tx_state_t) :=
  let send u s :=
    let s := s <| bits := bits s - 1 |> in
    ((byte s .>> bits s) .& 1, (u, s)) in
  if bits s =? 0 then
    let '(b, (u, s)) := hdlc_tx_get_byte u s in
    let s := s <| byte := b |> in
    if byte s <? 0 then (byte s, (u, s)) else send u (s <| bits := 8 |>)
  else send u s.

(** The octets written to [buf] (at most [max_len]); their number is the C
    return value. *)
Fixpoint hdlc_tx_get (u : U) (s : hdlc_tx_state_t) (max_len : nat) : list Z * (U * hdlc_tx_state_t) :=
  match max_len with
  | O => ([], (u, s))
  | S n =>
      let '(x, (u, s)) := hdlc_tx_get_byte u s in
      if x =? SIG_STATUS_END_OF_DATA then ([], (u, s))
      else let '(l, us) := hdlc_tx_get u s n in (u8 x :: l, us)
  end.

End tx.

Definition hdlc_tx_set_max_frame_len (s : hdlc_tx_state_t) (max_len : Z) : hdlc_tx_state_t :=
  s <| max_frame_len := if max_len <=? HDLC_MAXFRAME_LEN then max_len else HDLC_MAXFRAME_LEN |>.

Definition hdlc_tx_init (crc32 : bool) (inter_flags : Z) (prog : bool) : hdlc_tx_state_t :=
  {| crc_bytes := if crc32 then 4 else 2;
     inter_frame_flags := if inter_flags <? 1 then 1 else inter_flags;
     progressive := prog;
     max_frame_len := HDLC_MAXFRAME_LEN;
     octets_in_progress := 0;
     num_bits := 0;
     idle_octet := 0x7E;
     flag_octets := 0;
     abort_octets := 0;
     report_flag_underflow := false;
     buffer := repeat 0 (Z.to_nat (HDLC_MAXFRAME_LEN + 4));
     len := 0;
     pos := 0;
     crc := if crc32 then 0xFFFFFFFF else 0xFFFF;
     byte := 0;
     bits := 0;
     tx_end := false |}.

(** ** Bits of the words *)

#[local] Arguments Z.testbit : simpl never.

Lemma msb_bits_shiftl n i x : (n + i <= 32)%nat ->
  msb_bits (n + i) (u32 (x .<< Z.of_nat i)) = msb_bits n x ++ repeat false i.
Proof.
  intros H. rewrite msb_bits_app. f_equal.
  - apply msb_bits_ext. intros j Hj. bit_specs.
    destruct (Z.ltb_spec (j + Z.of_nat i) 32), (Z.leb_spec (Z.of_nat i) (j + Z.of_nat i)); try lia.
    cbn [andb]. f_equal. lia.
  - revert H. induction i as [|i IH] in n |- *; intros H; [done|]. cbn [msb_bits repeat]. f_equal.
    + bit_specs. destruct (Z.leb_spec (Z.of_nat (S i)) (Z.of_nat i)); [lia|].
      by rewrite andb_false_r.
    + rewrite <- (IH n) by lia. apply msb_bits_ext. intros j Hj. bit_specs.
      destruct (Z.leb_spec (Z.of_nat (S i)) j), (Z.leb_spec (Z.of_nat i) j); lia.
Qed.

Definition push (o : Z) (c : bool) : Z := u32 ((o .<< 1) .| Z.b2z c).

Lemma push_bit o c i : 0 <= i < 32 ->
  Z.testbit (push o c) i = if i =? 0 then c else Z.testbit o (i - 1).
Proof.
  intros Hi. unfold push. bit_specs. destruct (Z.ltb_spec i 32); [|lia]. cbn [andb].
  destruct (Z.eqb_spec i 0) as [->|].
  - destruct (Z.leb_spec 1 0); [lia|]. cbn [andb orb]. apply Z.b2z_bit0.
  - destruct (Z.leb_spec 1 i); [|lia]. cbn [andb]. rewrite (testbit_high 1 (Z.b2z c)).
    + by rewrite orb_false_r.
    + destruct c; simpl; lia.
    + lia.
Qed.

Lemma msb_bits_push n o c : (n < 32)%nat -> msb_bits (S n) (push o c) = msb_bits n o ++ [c].
Proof.
  intros Hn. replace (S n) with (n + 1)%nat by lia. rewrite msb_bits_app. f_equal.
  - apply msb_bits_ext. intros i Hi. bit_specs. rewrite push_bit by lia.
    destruct (Z.eqb_spec (i + Z.of_nat 1) 0); [lia|]. f_equal. lia.
  - cbn [msb_bits]. f_equal. by rewrite push_bit by lia.
Qed.

(** The last bits put in are [k] ones after a zero. *)
Definition tail_run (k : nat) (o : Z) : Prop :=
  (forall i, 0 <= i < Z.of_nat k -> Z.testbit o i = true) /\ Z.testbit o (Z.of_nat k) = false.

Lemma tail_run_one k o : (k <= 4)%nat -> tail_run k o -> tail_run (S k) (push o true).
Proof.
  intros Hk [H1 H2]. split.
  - intros i Hi. rewrite push_bit by lia. destruct (Z.eqb_spec i 0); [done|]. apply H1. lia.
  - rewrite push_bit by lia. destruct (Z.eqb_spec (Z.of_nat (S k)) 0); [lia|].
    by replace (Z.of_nat (S k) - 1) with (Z.of_nat k) by lia.
Qed.

Lemma tail_run_zero o : tail_run 0 (push o false).
Proof. split; [lia|]. by rewrite push_bit by lia. Qed.

(** The stuffing test: five ones. *)
Lemma five_ones k o c : (k <= 4)%nat -> tail_run k o ->
  (push o c .& 0x1F =? 0x1F) = c && (k =? 4)%nat.
Proof.
  intros Hk [H1 H2]. change 0x1F with (Z.ones 5). destruct c; cbn [andb].
  - destruct (Nat.eqb_spec k 4) as [->|].
    + apply Z.eqb_eq. bitwise i. destruct (Z.leb_spec 0 i), (Z.ltb_spec i 5); try lia;
        rewrite ?andb_false_r; try done. cbn [andb]. rewrite andb_true_r, push_bit by lia.
      destruct (Z.eqb_spec i 0); [done|]. apply H1. lia.
    + apply Z.eqb_neq. intros E. apply (f_equal (fun z => Z.testbit z (Z.of_nat (S k)))) in E.
      revert E. bit_specs. destruct (Z.leb_spec 0 (Z.of_nat (S k))), (Z.ltb_spec (Z.of_nat (S k)) 5);
        try lia. rewrite push_bit by lia. destruct (Z.eqb_spec (Z.of_nat (S k)) 0); [lia|].
      replace (Z.of_nat (S k) - 1) with (Z.of_nat k) by lia. by rewrite H2.
  - apply Z.eqb_neq. intros E. apply (f_equal (fun z => Z.testbit z 0)) in E.
    revert E. bit_specs. by rewrite push_bit by lia.
Qed.

Lemma push_range o c : 0 <= push o c < 2 ^ 32.
Proof. by apply wrap_range. Qed.

(** One turn of the loop sends one data bit, with the zero stuffed after it. *)
Lemma stuff_turn_spec o nbits b k tot : tail_run k o -> (k <= 4)%nat -> (tot <= 30)%nat ->
  let c := Z.odd b in
  exists o' nbits', stuff_turn (o, nbits, b) = (o', nbits', Z.div2 b) /\
    0 <= o' < 2 ^ 32 /\ tail_run (ones_after k [c]) o' /\
    nbits' = nbits + Z.of_nat (length (stuff k [c])) - 1 /\
    msb_bits (tot + length (stuff k [c])) o' = msb_bits tot o ++ stuff k [c].
Proof.
  intros Hr Hk Htot c.
  assert (u32 ((o .<< 1) .| (b .& 1)) = push o c) as Ep.
  { unfold push. f_equal. f_equal. subst c. change 1 with (Z.ones 1). rewrite Z.land_ones by lia.
    change (2 ^ 1) with 2. rewrite Zmod_odd. by destruct (Z.odd b). }
  unfold stuff_turn. rewrite Ep, (five_ones k o c Hk Hr).
  assert (b .>> 1 = Z.div2 b) as -> by (by rewrite Z.div2_spec).
  pose proof (msb_bits_push tot o c ltac:(lia)) as Hm.
  destruct c; cbn [andb].
  - destruct (Nat.eqb_spec k 4) as [->|].
    + do 2 eexists. split; [done|]. cbn [stuff Nat.eqb ones_after length].
      assert (u32 (push o true .<< 1) = push (push o true) false) as ->.
      { unfold push at 2. by rewrite Z.lor_0_r. }
      split; [apply push_range|]. split; [apply tail_run_zero|]. split; [lia|].
      replace (tot + 2)%nat with (S (S tot)) by lia. rewrite msb_bits_push by lia.
      by rewrite Hm, <- app_assoc.
    + do 2 eexists. split; [done|]. cbn [stuff ones_after].
      destruct (Nat.eqb_spec k 4); [done|]. cbn [length].
      split; [apply push_range|]. split; [by apply tail_run_one|]. split; [lia|].
      by replace (tot + 1)%nat with (S tot) by lia.
  - do 2 eexists. split; [done|]. cbn [stuff ones_after length].
    split; [apply push_range|]. split; [apply tail_run_zero|]. split; [lia|].
    by replace (tot + 1)%nat with (S tot) by lia.
Qed.

Lemma stuff_turns_spec m o nbits b k tot : tail_run k o -> (k <= 4)%nat -> 0 <= o < 2 ^ 32 ->
  (tot + 2 * m <= 32)%nat ->
  let l := lsb_bits m b in
  exists o' nbits' b', Nat.iter m stuff_turn (o, nbits, b) = (o', nbits', b') /\
    0 <= o' < 2 ^ 32 /\ tail_run (ones_after k l) o' /\
    nbits' = nbits + Z.of_nat (length (stuff k l)) - Z.of_nat m /\
    msb_bits (tot + length (stuff k l)) o' = msb_bits tot o ++ stuff k l.
Proof.
  revert o nbits b k tot. induction m as [|m IH]; intros o nbits b k tot Hr Hk Ho Htot l.
  { subst l. cbn. do 3 eexists. split; [done|]. rewrite Nat.add_0_r, app_nil_r.
    split_and!; done || lia. }
  rewrite Nat.iter_succ_r.
  destruct (stuff_turn_spec o nbits b k tot Hr Hk) as (o1 & n1 & E1 & H1 & R1 & N1 & M1); [lia|].
  rewrite E1.
  assert (length (stuff k [Z.odd b]) <= 2)%nat.
  { destruct (Z.odd b); cbn; [|lia]. destruct (k =? 4)%nat; simpl; lia. }
  destruct (IH o1 n1 (Z.div2 b) (ones_after k [Z.odd b]) (tot + length (stuff k [Z.odd b]))%nat R1)
    as (o2 & n2 & b2 & E2 & H2 & R2 & N2 & M2); [by apply ones_after_le|done|lia|].
  subst l. cbn [lsb_bits].
  change (Z.odd b :: lsb_bits m (Z.div2 b)) with ([Z.odd b] ++ lsb_bits m (Z.div2 b)).
  rewrite stuff_app, ones_after_app, length_app.
  do 3 eexists. split; [exact E2|]. split; [done|]. split; [done|]. split; [lia|].
  by rewrite Nat.add_assoc, M2, M1, <- app_assoc.
Qed.

Lemma stuff_zeros i k l : stuff k (repeat false (S i) ++ l) = repeat false (S i) ++ stuff 0 l.
Proof. cbn [repeat app stuff]. f_equal. induction i as [|i IH]; [done|]. cbn. by rewrite IH. Qed.

Lemma ones_after_zeros i k l : ones_after k (repeat false (S i) ++ l) = ones_after 0 l.
Proof. cbn [repeat app ones_after]. induction i as [|i IH]; [done|]. cbn. by rewrite IH. Qed.

Lemma lsb_bits_zeros i x : (forall j, 0 <= j < Z.of_nat i -> Z.testbit x j = false) ->
  lsb_bits i x = repeat false i.
Proof.
  revert x. induction i as [|i IH]; intros x H; [done|]. cbn [lsb_bits repeat]. f_equal.
  - rewrite <- Z.bit0_odd. apply H. lia.
  - apply IH. intros j Hj. rewrite Z.div2_spec. bit_specs. apply H. lia.
Qed.

(** The zeros at the bottom of the octet, shifted in at once. *)
Lemma leading_zeros_spec o n i k : tail_run k o -> 0 <= o < 2 ^ 32 -> (n + i <= 32)%nat -> (i <= 8)%nat ->
  let o' := u32 (o .<< Z.of_nat i) in
  tail_run (if (i =? 0)%nat then k else 0%nat) o' /\ 0 <= o' < 2 ^ 32 /\
  msb_bits (n + i) o' = msb_bits n o ++ repeat false i.
Proof.
  intros Hr Ho Hn Hi o'. split; [|split; [by apply wrap_range|by apply msb_bits_shiftl]].
  destruct i as [|i]; cbn [Nat.eqb].
  - subst o'. change (Z.of_nat 0) with 0. rewrite Z.shiftl_0_r, wrap_id by done. done.
  - split; [lia|]. subst o'. bit_specs.
    destruct (Z.leb_spec (Z.of_nat (S i)) (Z.of_nat 0)); [lia|]. by rewrite andb_false_r.
Qed.

Lemma stuff_octet_spec o n b k : tail_run k o -> (k <= 4)%nat -> 0 <= o < 2 ^ 32 -> is_byte b ->
  (n <= 7)%nat ->
  let l := lsb_bits 8 b in
  exists o' n', stuff_octet o (Z.of_nat n) b = (o', Z.of_nat n') /\ 0 <= o' < 2 ^ 32 /\
    tail_run (ones_after k l) o' /\ (8 + n' = n + length (stuff k l))%nat /\
    msb_bits (8 + n') o' = msb_bits n o ++ stuff k l.
Proof.
  intros Hr Hk Ho Hb Hn l. unfold stuff_octet.
  assert (0 < b .| 0x100 < 2 ^ 32) as Hb9.
  { rewrite Z.lor_comm. assert (0 <= 0x100 .| b < 2 ^ 32) by (apply lor_range; unfold is_byte in Hb; lia).
    assert (0x100 .| b <> 0); [|lia]. intros E. by apply Z.lor_eq_0_l in E. }
  destruct (bottom_bit_spec _ Hb9) as (Hi1 & Hi2 & Hi3). set (i := bottom_bit (b .| 0x100)) in *.
  assert (forall j, 0 <= j < 8 -> Z.testbit (b .| 0x100) j = Z.testbit b j) as Hbj.
  { intros j Hj. change 0x100 with (2 ^ 8). bit_specs. rewrite Z.pow2_bits_false by lia.
    apply orb_false_r. }
  assert (i <= 8).
  { destruct (Z_lt_le_dec 8 i); [|lia]. specialize (Hi3 8 ltac:(lia)). revert Hi3. bit_specs.
    change 0x100 with (2 ^ 8). rewrite Z.pow2_bits_true by lia. by rewrite orb_true_r. }
  replace i with (Z.of_nat (Z.to_nat i)) by lia. set (j := Z.to_nat i).
  destruct (leading_zeros_spec o n j k Hr Ho) as (R1 & H1 & M1); [lia..|].
  set (o1 := u32 _) in *. set (k1 := if (j =? 0)%nat then k else 0%nat) in *.
  replace (Z.to_nat (8 - Z.of_nat j)) with (8 - j)%nat by lia.
  destruct (stuff_turns_spec (8 - j) o1 (Z.of_nat n) (b .>> Z.of_nat j) k1 (n + j) R1)
    as (o2 & n2 & b2 & E2 & H2 & R2 & N2 & M2); [subst k1; case_match; lia|done|lia|].
  rewrite E2. set (l2 := lsb_bits (8 - j) (b .>> Z.of_nat j)) in *.
  assert (l = repeat false j ++ l2) as Hl.
  { subst l l2. replace 8%nat with (j + (8 - j))%nat at 1 by lia. rewrite lsb_bits_app. f_equal.
    apply lsb_bits_zeros. intros m Hm. rewrite <- Hbj by lia. apply Hi3. lia. }
  assert (stuff k l = repeat false j ++ stuff k1 l2 /\ ones_after k l = ones_after k1 l2) as [Hs Hx].
  { rewrite Hl. subst k1. destruct j as [|j]; [done|]. cbn [Nat.eqb].
    by rewrite stuff_zeros, ones_after_zeros. }
  pose proof (length_stuff k l Hk) as [Hlen _]. subst l. rewrite length_lsb_bits in Hlen.
  rewrite Hs in Hlen |- *. rewrite Hx. rewrite length_app, repeat_length in Hlen |- *.
  exists o2, (n + length (stuff k1 l2) + j - 8)%nat.
  split; [f_equal; lia|]. split; [done|]. split; [done|]. split; [lia|].
  replace (8 + _)%nat with (n + j + length (stuff k1 l2))%nat by lia.
  rewrite M2, M1, <- app_assoc. done.
Qed.

(** ** The invariant *)

Record tx_shape (s : hdlc_tx_state_t) : Prop := {
  shape_crc : crc_bytes s = 2 \/ crc_bytes s = 4;
  shape_flags : 1 <= inter_frame_flags s;
  shape_max : 0 <= max_frame_len s <= HDLC_MAXFRAME_LEN;
  shape_buffer : zlen (buffer s) = HDLC_MAXFRAME_LEN + 4 /\ bytes (buffer s);
  shape_len : 0 <= len s <= HDLC_MAXFRAME_LEN;
  shape_octets : 0 <= octets_in_progress s < 2 ^ 32;
  shape_run : exists k, (k <= 4)%nat /\ tail_run k (octets_in_progress s);
  shape_bits : 0 <= num_bits s <= 9;
  shape_idle : is_byte (idle_octet s);
  shape_crc_reg : 0 <= crc s < 2 ^ 32;
}.

(** The send position is in the frame, or in the check octets of a frame. *)
Definition pos_ok (s : hdlc_tx_state_t) : Prop :=
  0 <= pos s <= len s \/
  0 < len s /\ HDLC_MAXFRAME_LEN < pos s <= HDLC_MAXFRAME_LEN + crc_bytes s.

Definition tx_wf (s : hdlc_tx_state_t) : Prop := tx_shape s /\ pos_ok s.

Ltac tx_shape_tac :=
  repeat match goal with H : tx_shape _ |- _ => destruct H end;
  constructor; unfold HDLC_MAXFRAME_LEN in *; cbn in *; try assumption; try lia.

Lemma crc_byte_bound v n : is_byte (u8 (v .>> n)).
Proof. auto with bits. Qed.

Lemma tx_data_octet_shape s : tx_shape s -> num_bits s <= 7 ->
  tx_shape (snd (tx_data_octet s)) /\ is_byte (fst (tx_data_octet s)) /\
  pos (snd (tx_data_octet s)) = pos s + 1 /\ len (snd (tx_data_octet s)) = len s /\
  crc_bytes (snd (tx_data_octet s)) = crc_bytes s.
Proof.
  intros W Hn. pose proof W as []. destruct shape_run0 as (k & Hk & Hr).
  unfold tx_data_octet. cbn [octets_in_progress num_bits buffer pos update eta_tx].
  destruct (stuff_octet_spec (octets_in_progress s) (Z.to_nat (num_bits s))
              (aget (buffer s) (pos s)) k Hr Hk) as (o' & n' & E & Ho & Hr' & Hn' & _);
    [done|apply bytes_aget, (proj2 (shape_buffer s W))|lia|].
  rewrite Z2Nat.id in E by lia.
  change (stuff_octet (octets_in_progress (s <| pos := pos s + 1 |>))
            (num_bits (s <| pos := pos s + 1 |>)) (aget (buffer s) (pos s)))
    with (stuff_octet (octets_in_progress s) (num_bits s) (aget (buffer s) (pos s))).
  rewrite E. cbn [fst snd].
  pose proof (ones_after_le k (lsb_bits 8 (aget (buffer s) (pos s))) Hk).
  pose proof (length_stuff k (lsb_bits 8 (aget (buffer s) (pos s))) Hk) as [_ Hlen].
  rewrite length_lsb_bits in Hlen.
  split; [|split; [by apply (land_range 8)|done]].
  constructor; cbn; try done; try lia. eexists. eauto.
Qed.

Lemma hdlc_tx_frame_wf s frame : tx_wf s -> bytes frame -> tx_wf (snd (hdlc_tx_frame s frame)).
Proof.
  intros [W P] Hb. unfold hdlc_tx_frame.
  destruct (Z.leb_spec (zlen frame) 0); [by split; [tx_shape_tac|]|].
  destruct (Z.ltb_spec (max_frame_len s) (len s + zlen frame)); [done|].
  destruct (if progressive s then _ else _) eqn:E; [done|].
  pose proof W as [].
  assert (0 <= pos s <= len s) as Hp.
  { destruct P as [|P]; [done|]. destruct (progressive s).
    - apply Z.leb_gt in E. lia.
    - apply negb_false_iff, Z.eqb_eq in E. lia. }
  assert (progressive s = false -> len s = 0) as Hl.
  { intros Ep. rewrite Ep in E. by apply negb_false_iff, Z.eqb_eq in E. }
  cbn [snd]. split.
  - constructor; unfold HDLC_MAXFRAME_LEN in *; cbn; try done.
    + destruct shape_buffer0. split; [by rewrite length_memcpy|by apply bytes_memcpy].
    + destruct (progressive s); lia.
    + destruct (crc_bytes s =? 2).
      * pose proof (crc_itu16_range frame (u16 (crc s)) Hb ltac:(by apply wrap_range)). lia.
      * by apply crc_itu32_range.
  - left. cbn. destruct (progressive s); [lia|]. specialize (Hl eq_refl). lia.
Qed.

Lemma hdlc_tx_flags_wf s n : tx_wf s -> tx_wf (snd (hdlc_tx_flags s n)).
Proof.
  intros [W P]. unfold hdlc_tx_flags. destruct (negb _); [done|]. cbn [snd].
  split; [tx_shape_tac|done].
Qed.

Lemma hdlc_tx_abort_wf s : tx_wf s -> tx_wf (snd (hdlc_tx_abort s)).
Proof. intros [W P]. unfold hdlc_tx_abort. cbn [snd]. split; [tx_shape_tac|done]. Qed.

Lemma tx_append_crc_shape s : tx_shape s -> len s <= pos s ->
  tx_shape (tx_append_crc s) /\ num_bits (tx_append_crc s) = num_bits s.
Proof.
  intros W Hp. split; [|done]. pose proof W as [].
  assert (0 <= crc s .^ 0xFFFFFFFF < 2 ^ 32) by (apply lxor_range; lia).
  destruct shape_buffer0 as [Hl Hb].
  constructor; try done; cbn; unfold HDLC_MAXFRAME_LEN in *.
  - destruct (_ =? 4); rewrite ?length_aset; (split; [lia|]);
      repeat apply bytes_aset; auto with bits.
Qed.

(** *** Flags, rotated *)

(** After a frame whose stuffed bits leave [n] bits over, flags go out from
    their bit [8 - n]: [flag_head n] completes an octet, [flag_tail n] starts
    the next. *)
Definition flag_head (n : nat) : list bool := take (8 - n) flag.
Definition flag_tail (n : nat) : list bool := drop (8 - n) flag.
Definition idle_of (n : nat) : Z := (0x7E7E .>> Z.of_nat n) .& 0xFF.

Lemma flag_split n : flag_head n ++ flag_tail n = flag.
Proof. apply take_drop. Qed.

Lemma idle_facts n : (n < 8)%nat ->
  msb_bits 8 (idle_of n) = flag_tail n ++ flag_head n /\
  msb_bits n (idle_of n .>> (8 - Z.of_nat n)) = flag_tail n /\
  Z.testbit (idle_of n .>> (8 - Z.of_nat n)) 0 = false /\ is_byte (idle_of n) /\
  0 <= idle_of n .>> (8 - Z.of_nat n) < 2 ^ 32.
Proof. intros Hn. do 8 (destruct n as [|n]; [by vm_compute; repeat split|]). lia. Qed.

Lemma end_octet n o : (n < 8)%nat ->
  msb_bits 8 (u8 ((o .<< (8 - Z.of_nat n)) .| (0x7E .>> Z.of_nat n))) = msb_bits n o ++ flag_head n.
Proof.
  intros Hn. replace 8%nat with (n + (8 - n))%nat at 1 by lia. rewrite msb_bits_app.
  assert (msb_bits (8 - n) (0x7E .>> Z.of_nat n) = flag_head n /\
          forall i, 8 - Z.of_nat n <= i -> Z.testbit (0x7E .>> Z.of_nat n) i = false) as [H1 H2].
  { split; [by do 8 (destruct n as [|n]; [done|]); lia|].
    intros i Hi. bit_specs. apply (testbit_high 8); lia. }
  rewrite <- H1. clear H1. revert H2. generalize (0x7E .>> Z.of_nat n) as x. intros x H2. f_equal.
  - apply msb_bits_ext. intros i Hi. bit_specs. rewrite H2, orb_false_r by lia.
    destruct (Z.ltb_spec (i + Z.of_nat (8 - n)) 8), (Z.leb_spec (8 - Z.of_nat n) (i + Z.of_nat (8 - n)));
      try lia. cbn [andb]. f_equal. lia.
  - apply msb_bits_ext. intros i Hi. bit_specs.
    destruct (Z.ltb_spec i 8), (Z.leb_spec (8 - Z.of_nat n) i); try lia. done.
Qed.

Lemma tx_append_crc_pos s : pos (tx_append_crc s) = HDLC_MAXFRAME_LEN.
Proof. done. Qed.

Section tx_safe.
Context {U : Type} (h : option (U -> hdlc_tx_state_t -> U * hdlc_tx_state_t)).
(** An underflow handler that uses the transmitter through its interface. *)
Hypothesis handler_wf : forall u s f, h = Some f -> tx_wf s -> tx_wf (snd (f u s)).

Lemma call_underflow_wf u s : tx_wf s -> tx_wf (snd (call_underflow h u s)).
Proof. intros W. unfold call_underflow. destruct h eqn:E; [by eapply handler_wf|done]. Qed.

Lemma tx_end_frame_wf u s : tx_shape s -> num_bits s <= 7 ->
  tx_wf (snd (snd (tx_end_frame h u s))) /\ is_byte (fst (tx_end_frame h u s)).
Proof.
  intros W Hn. pose proof W as [].
  destruct (idle_facts (Z.to_nat (num_bits s)) ltac:(lia)) as (_ & _ & F1 & F2 & F3).
  unfold idle_of in *. rewrite !Z2Nat.id in * by lia.
  unfold tx_end_frame. cbn [fst snd]. set (s1 := update _ _).
  assert (tx_wf s1) as W1.
  { subst s1. split; [|left; cbn; lia]. constructor; unfold HDLC_MAXFRAME_LEN in *; cbn; try done; try lia.
    - exists 0%nat. split; [lia|]. split; [lia|]. exact F1.
    - destruct (crc_bytes s =? 2); lia. }
  pose proof (call_underflow_wf u s1 W1) as W2.
  destruct (call_underflow h u s1) as [u' s2]. cbn [fst snd] in *.
  split; [|auto with bits]. destruct (_ && _); [|done].
  destruct W2 as [W2 P2]. split; [tx_shape_tac|done].
Qed.

Lemma get_byte_wf u s : tx_wf s ->
  tx_wf (snd (snd (hdlc_tx_get_byte h u s))) /\
  (is_byte (fst (hdlc_tx_get_byte h u s)) \/ fst (hdlc_tx_get_byte h u s) = SIG_STATUS_END_OF_DATA).
Proof.
  intros [W P]. unfold hdlc_tx_get_byte. destruct (Z.ltb_spec 0 (flag_octets s)) as [Hf|Hf].
  - set (s1 := s <| flag_octets := _ |>). assert (tx_wf s1) as W1 by (split; [tx_shape_tac|done]).
    set (r := if (flag_octets s1 <=? 0) && report_flag_underflow s1 then _ else _).
    assert (tx_wf (snd r)) as W2.
    { subst r. destruct (_ && _); [|done].
      assert (tx_wf (s1 <| report_flag_underflow := false |>)) by (split; [tx_shape_tac|done]).
      destruct (_ =? 0); [by apply call_underflow_wf|done]. }
    destruct r as [u2 s2]. cbn [snd] in W2. destruct W2 as [W2 P2].
    destruct (negb _); cbn [fst snd].
    + split; [split; [tx_shape_tac|done]|]. left. unfold is_byte. lia.
    + split; [done|]. left. apply W2.
  - destruct (Z.eqb_spec (len s) 0) as [Hl|Hl]; cbn [negb].
    { destruct (tx_end s); cbn [fst snd].
      - split; [split; [tx_shape_tac|done]|]. by right.
      - split; [done|]. left. apply W. }
    destruct (Z.leb_spec 8 (num_bits s)) as [Hn|Hn]; cbn [fst snd].
    { split; [split; [|done]|left; by apply (land_range 8)]. tx_shape_tac. }
    assert (forall s', tx_shape s' -> num_bits s' <= 7 -> len s' = len s -> crc_bytes s' = crc_bytes s ->
              0 <= pos s' < len s' \/ HDLC_MAXFRAME_LEN <= pos s' < HDLC_MAXFRAME_LEN + crc_bytes s' ->
              tx_wf (snd (tx_data_octet s')) /\ is_byte (fst (tx_data_octet s'))) as Hdata.
    { intros s' W' Hn' Hl' Hc' Hp'.
      destruct (tx_data_octet_shape s' W' Hn') as (W2 & Hb & Hpos & Hlen & Hcrc).
      split; [|done]. split; [done|]. unfold pos_ok. rewrite Hpos, Hlen, Hcrc.
      destruct W, W'. unfold HDLC_MAXFRAME_LEN in *. lia. }
    pose proof W as []. unfold pos_ok, HDLC_MAXFRAME_LEN in *.
    destruct (Z.leb_spec (len s) (pos s)); [destruct (Z.eqb_spec (pos s) (len s)) as [E|E]|].
    + destruct (tx_append_crc_shape s W) as [W1 N1]; [lia|].
      destruct (Hdata (tx_append_crc s)) as [H1 H2]; try done; [lia|cbn; unfold HDLC_MAXFRAME_LEN; lia|].
      destruct (tx_data_octet _). by split; [|left].
    + destruct (Z.eqb_spec (pos s) (400 + crc_bytes s)).
      * destruct (tx_end_frame_wf u s W) as [H1 H2]; [lia|]. by split; [|left].
      * destruct (Hdata s) as [H1 H2]; try done; [lia..|].
        destruct (tx_data_octet _). by split; [|left].
    + destruct (Hdata s) as [H1 H2]; try done; [lia..|].
      destruct (tx_data_octet _). by split; [|left].
Qed.
End tx_safe.

Lemma hdlc_tx_init_wf crc32 inter prog : tx_wf (hdlc_tx_init crc32 inter prog).
Proof.
  split; [|left; cbn; lia]. constructor; cbn -[repeat Z.to_nat]; unfold is_byte, HDLC_MAXFRAME_LEN; try lia.
  - destruct crc32; lia.
  - case_match; lia.
  - split; [done|]. by_decide.
  - exists 0%nat. split; [lia|]. split; [lia|done].
  - destruct crc32; lia.
Qed.

(** ** The bit stream *)

(** The bits made but not yet sent. *)
Definition pending (s : hdlc_tx_state_t) : list bool :=
  msb_bits (Z.to_nat (num_bits s)) (octets_in_progress s).

(** The octets still to send of the frame: the rest of the data and the check
    octets, from wherever the framer stands. *)
Definition tx_rest (s : hdlc_tx_state_t) : list Z :=
  if pos s <=? len s then
    slice (buffer s) (pos s) (len s - pos s)
      ++ le_split (Z.to_nat (crc_bytes s)) (crc s .^ 0xFFFFFFFF)
  else slice (buffer s) (pos s) (HDLC_MAXFRAME_LEN + crc_bytes s - pos s).

(** What sending the octets of a frame leaves alone. *)
Definition tx_others (s : hdlc_tx_state_t) :=
  (crc_bytes s, inter_frame_flags s, progressive s, max_frame_len s, idle_octet s, flag_octets s,
   abort_octets s, report_flag_underflow s, (len s, tx_end s)).

(** The framer is inside a frame; the last [k] data bits sent were ones. *)
Record sending (s : hdlc_tx_state_t) (k : nat) : Prop := {
  send_wf : tx_wf s;
  send_flags : flag_octets s <= 0;
  send_len : 0 < len s;
  send_ones : (k <= 4)%nat;
  send_run : tail_run k (octets_in_progress s);
}.

Lemma slice_cons a i n : 0 <= i < zlen a -> 0 < n ->
  slice a i n = aget a i :: slice a (i + 1) (n - 1).
Proof.
  intros Hi Hn. unfold slice, aget. rewrite nth_lookup.
  destruct (lookup_lt_is_Some_2 a (Z.to_nat i)) as [x Hx]; [lia|]. rewrite Hx.
  rewrite (drop_S a x (Z.to_nat i)) by done.
  replace (Z.to_nat n) with (S (Z.to_nat (n - 1))) by lia.
  by replace (Z.to_nat (i + 1)) with (S (Z.to_nat i)) by lia.
Qed.

Lemma slice_nil a i n : n <= 0 -> slice a i n = [].
Proof. intros. unfold slice. by replace (Z.to_nat n) with 0%nat by lia. Qed.

Lemma append_crc_slice s : tx_shape s ->
  slice (buffer (tx_append_crc s)) HDLC_MAXFRAME_LEN (crc_bytes s) =
  le_split (Z.to_nat (crc_bytes s)) (crc s .^ 0xFFFFFFFF).
Proof.
  intros W. pose proof W as []. destruct shape_buffer0 as [Hl Hb].
  unfold HDLC_MAXFRAME_LEN in *. unfold tx_append_crc, HDLC_MAXFRAME_LEN.
  cbn [buffer crc crc_bytes update eta_tx].
  change (crc_bytes (s <| crc := crc s .^ 0xFFFFFFFF |>)) with (crc_bytes s).
  change (crc (s <| crc := crc s .^ 0xFFFFFFFF |>)) with (crc s .^ 0xFFFFFFFF).
  change (buffer (s <| crc := crc s .^ 0xFFFFFFFF |>)) with (buffer s).
  generalize (crc s .^ 0xFFFFFFFF) as c. intros c.
  destruct shape_crc0 as [->| ->]; cbn [Z.eqb Pos.eqb].
  - rewrite 2 (slice_cons _ _ _) by (rewrite ?length_aset; lia). rewrite slice_nil by lia.
    rewrite !aget_aset by (rewrite ?length_aset; lia). done.
  - rewrite 4 (slice_cons _ _ _) by (rewrite ?length_aset; lia). rewrite slice_nil by lia.
    rewrite !aget_aset by (rewrite ?length_aset; lia).
    change (Z.to_nat 4) with 4%nat. cbn [le_split]. by rewrite !Z.shiftr_shiftr by lia.
Qed.

(** The octet at the send position goes out stuffed. *)
Lemma data_octet_bits s k x s' : tx_shape s -> (k <= 4)%nat -> tail_run k (octets_in_progress s) ->
  num_bits s <= 7 -> tx_data_octet s = (x, s') ->
  let l := lsb_bits 8 (aget (buffer s) (pos s)) in
  msb_bits 8 x ++ pending s' = pending s ++ stuff k l /\
  tail_run (ones_after k l) (octets_in_progress s') /\
  buffer s' = buffer s /\ pos s' = pos s + 1 /\ crc s' = crc s /\ tx_others s' = tx_others s.
Proof.
  intros W Hk Hr Hn E l. pose proof W as []. unfold tx_data_octet in E.
  destruct (stuff_octet_spec (octets_in_progress s) (Z.to_nat (num_bits s))
              (aget (buffer s) (pos s)) k Hr Hk) as (o' & n' & E' & Ho & Hr' & Hn' & Hm);
    [done|apply bytes_aget, shape_buffer0|lia|].
  rewrite Z2Nat.id in E' by lia.
  change (stuff_octet (octets_in_progress (s <| pos := pos s + 1 |>))
            (num_bits (s <| pos := pos s + 1 |>)) (aget (buffer s) (pos s)))
    with (stuff_octet (octets_in_progress s) (num_bits s) (aget (buffer s) (pos s))) in E.
  rewrite E' in E. simplify_eq. split; [|done].
  unfold pending. cbn -[msb_bits].
  rewrite Nat2Z.id. rewrite <- take_octet. exact Hm.
Qed.

Section tx_stream.
Context {U : Type} (h : option (U -> hdlc_tx_state_t -> U * hdlc_tx_state_t)).

(** What the framer does next in a frame: drain a whole octet, ... *)
Lemma send_drain u s k : sending s k -> 8 <= num_bits s ->
  exists x s', hdlc_tx_get_byte h u s = (x, (u, s')) /\ is_byte x /\ sending s' k /\
    tx_rest s' = tx_rest s /\ tx_others s' = tx_others s /\ num_bits s' <= 1 /\
    msb_bits 8 x ++ pending s' = pending s.
Proof.
  intros [[W P] Hf Hl Hk Hr] Hn. pose proof W as []. unfold hdlc_tx_get_byte.
  destruct (Z.ltb_spec 0 (flag_octets s)); [lia|]. destruct (Z.eqb_spec (len s) 0); [lia|].
  destruct (Z.leb_spec 8 (num_bits s)); [|lia]. cbn [negb].
  do 2 eexists. split; [done|]. split; [by apply (land_range 8)|].
  split; [|split; [done|split; [done|split; [cbn; lia|]]]].
  - split; try done. split; [|done]. tx_shape_tac.
  - unfold pending. cbn -[msb_bits]. replace (Z.to_nat (num_bits s)) with (8 + Z.to_nat (num_bits s - 8))%nat by lia.
    rewrite take_octet, Z2Nat.id by lia. done.
Qed.

(** ... send the next octet, stuffed, ... *)
Lemma send_octet u s k b r : sending s k -> num_bits s < 8 -> tx_rest s = b :: r ->
  exists x s', hdlc_tx_get_byte h u s = (x, (u, s')) /\ is_byte x /\
    sending s' (ones_after k (lsb_bits 8 b)) /\ tx_rest s' = r /\ tx_others s' = tx_others s /\
    msb_bits 8 x ++ pending s' = pending s ++ stuff k (lsb_bits 8 b).
Proof.
  intros [[W P] Hf Hl Hk Hr] Hn Hrest. pose proof W as []. destruct shape_buffer0 as [Hbl Hbb].
  set (s0 := if (len s <=? pos s) && (pos s =? len s) then tx_append_crc s else s).
  assert (tx_shape s0 /\ num_bits s0 = num_bits s /\ octets_in_progress s0 = octets_in_progress s /\
          tx_others s0 = tx_others s /\
          tx_rest s = aget (buffer s0) (pos s0) :: r /\
          (0 <= pos s0 < len s0 /\ r = slice (buffer s0) (pos s0 + 1) (len s0 - (pos s0 + 1))
              ++ le_split (Z.to_nat (crc_bytes s0)) (crc s0 .^ 0xFFFFFFFF) \/
           400 <= pos s0 < 400 + crc_bytes s0 /\
           r = slice (buffer s0) (pos s0 + 1) (400 + crc_bytes s0 - (pos s0 + 1))) /\
          hdlc_tx_get_byte h u s = (let '(b, s) := tx_data_octet s0 in (b, (u, s))))
    as (W0 & N0 & O0 & X0 & R0 & C0 & G0).
  { unfold hdlc_tx_get_byte. destruct (Z.ltb_spec 0 (flag_octets s)); [lia|].
    destruct (Z.eqb_spec (len s) 0); [lia|]. cbn [negb].
    destruct (Z.leb_spec 8 (num_bits s)); [lia|]. unfold HDLC_MAXFRAME_LEN in *.
    unfold pos_ok, HDLC_MAXFRAME_LEN in *. subst s0.
    destruct (Z.leb_spec (len s) (pos s)); [destruct (Z.eqb_spec (pos s) (len s)) as [E|E]|]; cbn [andb].
    - pose proof (append_crc_slice s W) as Hs. unfold HDLC_MAXFRAME_LEN in Hs.
      destruct (tx_append_crc_shape s W) as [W1 N1]; [lia|].
      destruct (shape_buffer _ W1) as [Hl1 _]. unfold HDLC_MAXFRAME_LEN in *.
      assert (tx_rest s = aget (buffer (tx_append_crc s)) 400
                :: slice (buffer (tx_append_crc s)) 401 (400 + crc_bytes s - 401)) as Et.
      { unfold tx_rest. rewrite E, Z.leb_refl, slice_nil, <- Hs by lia. cbn [app].
        rewrite slice_cons by lia. do 2 f_equal. lia. }
      rewrite Et in Hrest |- *. injection Hrest as _ <-.
      split_and!; try done. right. split; [change (400 <= 400 < 400 + crc_bytes s); lia|done].
    - destruct (Z.eqb_spec (pos s) (400 + crc_bytes s)) as [E'|E'].
      { unfold tx_rest in Hrest. destruct (Z.leb_spec (pos s) (len s)); [lia|].
        rewrite slice_nil in Hrest by (unfold HDLC_MAXFRAME_LEN; lia). done. }
      assert (tx_rest s = aget (buffer s) (pos s)
                :: slice (buffer s) (pos s + 1) (400 + crc_bytes s - (pos s + 1))) as Et.
      { unfold tx_rest. destruct (Z.leb_spec (pos s) (len s)); [lia|].
        rewrite slice_cons by (unfold HDLC_MAXFRAME_LEN; lia). do 2 f_equal.
        unfold HDLC_MAXFRAME_LEN. lia. }
      rewrite Et in Hrest |- *. injection Hrest as _ <-.
      split_and!; try done. right. split; [lia|done].
    - assert (tx_rest s = aget (buffer s) (pos s)
                :: slice (buffer s) (pos s + 1) (len s - (pos s + 1))
                   ++ le_split (Z.to_nat (crc_bytes s)) (crc s .^ 0xFFFFFFFF)) as Et.
      { unfold tx_rest. destruct (Z.leb_spec (pos s) (len s)); [|lia].
        rewrite slice_cons by lia. cbn [app]. do 3 f_equal. lia. }
      rewrite Et in Hrest |- *. injection Hrest as _ <-.
      split_and!; try done. left. split; [lia|done]. }
  destruct (tx_data_octet_shape s0 W0) as (W1 & Hx & Hp1 & Hl1 & Hc1); [lia|].
  destruct (tx_data_octet s0) as [x s'] eqn:Ed. cbn [fst snd] in *.
  destruct (data_octet_bits s0 k x s' W0 Hk) as (B1 & B2 & B3 & B4 & B5 & B6); [congruence|lia|done|].
  assert (aget (buffer s0) (pos s0) = b) as Eb by congruence. rewrite Eb in *.
  assert (tx_others s' = tx_others s) as X1 by congruence.
  assert (len s' = len s /\ flag_octets s' = flag_octets s /\ crc_bytes s' = crc_bytes s) as (L1 & L2 & L3)
    by (unfold tx_others in X1; by simplify_eq).
  exists x, s'. split; [done|]. split; [done|]. split; [|split; [|split; [done|]]].
  - split; [|lia|lia|by apply ones_after_le|done]. split; [done|].
    unfold pos_ok, HDLC_MAXFRAME_LEN in *. lia.
  - unfold tx_rest, HDLC_MAXFRAME_LEN. rewrite B3, B4, B5, Hc1, Hl1.
    destruct C0 as [[C1 ->]|[C1 ->]].
    + destruct (Z.leb_spec (pos s0 + 1) (len s0)); [done|lia].
    + destruct (Z.leb_spec (pos s0 + 1) (len s0)); [|done].
      unfold HDLC_MAXFRAME_LEN in *. lia.
  - rewrite B1. unfold pending. by rewrite N0, O0.
Qed.

(** ... or end the frame. *)
Lemma send_close u s k : sending s k -> num_bits s < 8 -> tx_rest s = [] ->
  hdlc_tx_get_byte h u s = tx_end_frame h u s.
Proof.
  intros [[W P] Hf Hl Hk Hr] Hn Hrest. pose proof W as []. unfold hdlc_tx_get_byte.
  unfold tx_rest, pos_ok, HDLC_MAXFRAME_LEN in *.
  destruct (Z.ltb_spec 0 (flag_octets s)); [lia|]. destruct (Z.eqb_spec (len s) 0); [lia|].
  destruct (Z.leb_spec 8 (num_bits s)); [lia|]. cbn [negb].
  destruct (Z.leb_spec (pos s) (len s)).
  { apply app_eq_nil in Hrest as [_ Hc].
    assert (length (le_split (Z.to_nat (crc_bytes s)) (crc s .^ 0xFFFFFFFF)) = 0%nat) as E by by rewrite Hc.
    rewrite length_le_split in E. lia. }
  destruct (Z.leb_spec (len s) (pos s)); [|lia]. destruct (Z.eqb_spec (pos s) (len s)); [lia|].
  destruct (Z.eqb_spec (pos s) (400 + crc_bytes s)); [done|].
  rewrite slice_cons in Hrest by (destruct shape_buffer0; lia). done.
Qed.

(** *** Runs of calls *)

(** [hdlc_tx_get] returns all of [out] (no end of data). *)
Definition sends (us : U * hdlc_tx_state_t) (out : list Z) (us' : U * hdlc_tx_state_t) : Prop :=
  bytes out /\ hdlc_tx_get h (fst us) (snd us) (length out) = (out, us').

Lemma sends_nil us : sends us [] us.
Proof. split; [done|]. by destruct us. Qed.

Lemma sends_cons u s x us1 out us' : hdlc_tx_get_byte h u s = (x, us1) -> is_byte x ->
  sends us1 out us' -> sends (u, s) (x :: out) us'.
Proof.
  intros E Hx [Hb H]. split; [by apply Forall_cons_2|]. cbn [fst snd length hdlc_tx_get].
  rewrite E. destruct us1 as [u1 s1]. cbn [fst snd] in H.
  destruct (Z.eqb_spec x SIG_STATUS_END_OF_DATA) as [->|]; [by destruct Hx|].
  rewrite H. by rewrite wrap_id.
Qed.

Lemma sends_one u s x us1 : hdlc_tx_get_byte h u s = (x, us1) -> is_byte x -> sends (u, s) [x] us1.
Proof. intros E Hx. eapply sends_cons; [done..|apply sends_nil]. Qed.

Lemma sends_app us out1 us1 out2 us2 : sends us out1 us1 -> sends us1 out2 us2 ->
  sends us (out1 ++ out2) us2.
Proof.
  revert us. induction out1 as [|x out1 IH]; intros [u s] [Hb H] H2.
  { cbn in H. by simplify_eq. }
  apply Forall_cons_1 in Hb as [Hx Hb]. cbn [fst snd length hdlc_tx_get] in H.
  destruct (hdlc_tx_get_byte h u s) as [y [u1 s1]] eqn:E.
  destruct (y =? SIG_STATUS_END_OF_DATA) eqn:Ey; [done|].
  destruct (hdlc_tx_get h u1 s1 (length out1)) as [l us'] eqn:E'.
  injection H as Hy Hl Hus. subst.
  destruct (IH (u1, s1)) as [Hb' H']; [by split|done|].
  split; [by apply Forall_cons_2|]. cbn [app fst snd length hdlc_tx_get] in *.
  by rewrite E, Ey, H'.
Qed.

Lemma line_bits_one x : line_bits [x] = msb_bits 8 x.
Proof. unfold line_bits. cbn [map concat]. by rewrite app_nil_r. Qed.

Lemma send_drained u s k : sending s k ->
  exists out s', sends (u, s) out (u, s') /\ sending s' k /\ num_bits s' < 8 /\
    tx_rest s' = tx_rest s /\ tx_others s' = tx_others s /\
    line_bits out ++ pending s' = pending s.
Proof.
  intros S. destruct (Z_lt_le_dec (num_bits s) 8) as [Hn|Hn].
  - exists [], s. split; [apply sends_nil|]. by split_and!.
  - destruct (send_drain u s k S Hn) as (x & s' & E & Hx & S' & Hr & Ho & Hn' & Hm).
    exists [x], s'. split; [by apply sends_one|]. rewrite line_bits_one. split_and!; done || lia.
Qed.

(** The rest of the frame goes out, stuffed. *)
Lemma send_rest r u s k : sending s k -> tx_rest s = r ->
  exists out s' k', sends (u, s) out (u, s') /\ sending s' k' /\ num_bits s' < 8 /\
    tx_rest s' = [] /\ tx_others s' = tx_others s /\
    line_bits out ++ pending s' = pending s ++ stuff k (octet_bits r).
Proof.
  revert s k. induction r as [|b r IH]; intros s k S Hr.
  - destruct (send_drained u s k S) as (out & s' & E & S' & Hn & Hr' & Ho & Hm).
    exists out, s', k. rewrite Hm. cbn. rewrite app_nil_r. split_and!; done || congruence.
  - destruct (send_drained u s k S) as (out1 & s1 & E1 & S1 & Hn1 & Hr1 & Ho1 & Hm1).
    rewrite Hr in Hr1.
    destruct (send_octet u s1 k b r S1 Hn1 Hr1) as (x & s2 & E2 & Hx & S2 & Hr2 & Ho2 & Hm2).
    destruct (IH s2 _ S2 Hr2) as (out3 & s3 & k3 & E3 & S3 & Hn3 & Hr3 & Ho3 & Hm3).
    exists (out1 ++ x :: out3), s3, k3.
    split; [eapply sends_app; [exact E1|]; by eapply sends_cons|].
    split; [done|]. split; [done|]. split; [done|]. split; [congruence|].
    change (octet_bits (b :: r)) with (lsb_bits 8 b ++ octet_bits r).
    change (x :: out3) with ([x] ++ out3).
    rewrite !line_bits_app, line_bits_one, stuff_app, <- !app_assoc, Hm3.
    rewrite (app_assoc (msb_bits 8 x)), Hm2, <- Hm1, <- !app_assoc. done.
Qed.

(** *** Between frames *)

(** The framer is sending flags, [n] bits behind the octet boundary. *)
Record between (s : hdlc_tx_state_t) (n : nat) : Prop := {
  btw_wf : tx_wf s;
  btw_n : (n < 8)%nat;
  btw_bits : num_bits s = Z.of_nat n;
  btw_idle : idle_octet s = idle_of n;
  btw_octets : octets_in_progress s = idle_of n .>> (8 - Z.of_nat n);
  btw_pos : pos s = 0;
  btw_abort : abort_octets s = 0;
}.

Lemma between_pending s n : between s n -> pending s = flag_tail n.
Proof.
  intros [_ Hn Hb _ Ho _ _]. unfold pending. rewrite Hb, Ho, Nat2Z.id. by apply idle_facts.
Qed.

(** One flag, timed, that is not the one whose end is reported. *)
Lemma between_flag u s n : between s n -> 0 < flag_octets s ->
  flag_octets s <> 1 \/ report_flag_underflow s = false ->
  hdlc_tx_get_byte h u s = (idle_of n, (u, s <| flag_octets := flag_octets s - 1 |>)) /\
  between (s <| flag_octets := flag_octets s - 1 |>) n.
Proof.
  intros [[W P] Hn Hb Hi Ho Hp Ha] Hf Hr. split.
  - unfold hdlc_tx_get_byte. destruct (Z.ltb_spec 0 (flag_octets s)); [|lia]. cbn.
    replace ((flag_octets s - 1 <=? 0) && report_flag_underflow s) with false.
    + cbn. by rewrite Ha, Hi.
    + destruct Hr as [Hr| ->]; [|by rewrite andb_false_r].
      destruct (Z.leb_spec (flag_octets s - 1) 0); [lia|done].
  - split; try done. split; [tx_shape_tac|done].
Qed.

(** Idling: a flag, and nothing changes. *)
Lemma between_idle u s n : between s n -> flag_octets s <= 0 -> len s = 0 -> tx_end s = false ->
  hdlc_tx_get_byte h u s = (idle_of n, (u, s)).
Proof.
  intros [[W P] Hn Hb Hi Ho Hp Ha] Hf Hl He. unfold hdlc_tx_get_byte.
  destruct (Z.ltb_spec 0 (flag_octets s)); [lia|]. rewrite Hl, He, Hi. done.
Qed.

Lemma flag_line n m out : out = repeat (idle_of n) m -> (n < 8)%nat ->
  line_bits out ++ flag_tail n = flag_tail n ++ concat (repeat flag m).
Proof.
  intros -> Hn. destruct (idle_facts n Hn) as (E & _). induction m as [|m IH].
  - cbn [repeat concat]. by rewrite app_nil_r.
  - cbn [repeat concat]. change (idle_of n :: repeat (idle_of n) m) with ([idle_of n] ++ repeat (idle_of n) m).
    rewrite line_bits_app, line_bits_one, E, <- !app_assoc, IH, !app_assoc.
    by rewrite <- (app_assoc (flag_tail n)), flag_split.
Qed.

Lemma idle_of_byte n : (n < 8)%nat -> is_byte (idle_of n).
Proof. intros H. apply (idle_facts n H). Qed.

(** [m] timed flags. *)
Lemma send_flags_timed m u s n : between s n -> Z.of_nat m <= flag_octets s ->
  Z.of_nat m < flag_octets s \/ report_flag_underflow s = false ->
  sends (u, s) (repeat (idle_of n) m) (u, s <| flag_octets := flag_octets s - Z.of_nat m |>) /\
  between (s <| flag_octets := flag_octets s - Z.of_nat m |>) n.
Proof.
  revert s. induction m as [|m IH]; intros s B Hm Hr.
  - assert (s <| flag_octets := flag_octets s - Z.of_nat 0 |> = s) as ->.
    { rewrite Z.sub_0_r. by destruct s. }
    split; [apply sends_nil|done].
  - destruct (between_flag u s n B) as [E B1]; [lia|destruct Hr; [left; lia|by right]|].
    set (s1 := s <| flag_octets := flag_octets s - 1 |>) in *.
    destruct (IH s1 B1) as [E2 B2].
    { subst s1. cbn. lia. } { subst s1. cbn. destruct Hr; [left; lia|by right]. }
    replace (s1 <| flag_octets := flag_octets s1 - Z.of_nat m |>)
      with (s <| flag_octets := flag_octets s - Z.of_nat (S m) |>) in *.
    2:{ change (s1 <| flag_octets := flag_octets s1 - Z.of_nat m |>)
          with (s <| flag_octets := flag_octets s - 1 - Z.of_nat m |>).
        by replace (flag_octets s - 1 - Z.of_nat m) with (flag_octets s - Z.of_nat (S m)) by lia. }
    split; [|done]. cbn [repeat]. eapply sends_cons; [done|by apply idle_of_byte, B|done].
Qed.

(** Idling goes on for ever. *)
Lemma send_idle m u s n : between s n -> flag_octets s <= 0 -> len s = 0 -> tx_end s = false ->
  sends (u, s) (repeat (idle_of n) m) (u, s).
Proof.
  intros B Hf Hl He. induction m as [|m IH]; [apply sends_nil|]. cbn [repeat].
  eapply sends_cons; [by eapply between_idle|by apply idle_of_byte, B|done].
Qed.
End tx_stream.

(** *** Frame boundaries *)

Definition crc_init (s : hdlc_tx_state_t) : Z := if crc_bytes s =? 2 then 0xFFFF else 0xFFFFFFFF.

(** A frame with its check octets. *)
Definition with_check (crc_octets : Z) (frame : list Z) : list Z :=
  fst (if crc_octets =? 2 then crc_itu16_append frame else crc_itu32_append frame).

Lemma between_sending s n : between s n -> flag_octets s <= 0 -> 0 < len s -> sending s 0.
Proof.
  intros [W Hn Hb Hi Ho Hp Ha] Hf Hl. split; try done; [lia|].
  rewrite Ho. split; [lia|]. apply idle_facts, Hn.
Qed.

(** A frame handed over between frames is accepted and is what will be sent. *)
Lemma frame_loaded s n f : between s n -> len s = 0 -> crc s = crc_init s -> bytes f ->
  0 < zlen f <= max_frame_len s ->
  fst (hdlc_tx_frame s f) = 0 /\
  let s' := snd (hdlc_tx_frame s f) in
  between s' n /\ len s' = zlen f /\ tx_rest s' = with_check (crc_bytes s) f /\
  tx_end s' = false /\ flag_octets s' = flag_octets s /\ crc_bytes s' = crc_bytes s /\
  max_frame_len s' = max_frame_len s /\ inter_frame_flags s' = inter_frame_flags s /\
  report_flag_underflow s' = report_flag_underflow s.
Proof.
  intros [W Hn Hb Hi Ho Hp Ha] Hl Hc Hf Hlen.
  pose proof (hdlc_tx_frame_wf s f W Hf) as W'. revert W'.
  pose proof W as [[] _]. unfold hdlc_tx_frame. rewrite Hl, Hp, Z.add_0_l.
  destruct (Z.leb_spec (zlen f) 0); [lia|].
  destruct (Z.ltb_spec (max_frame_len s) (zlen f)); [lia|].
  assert ((if progressive s then HDLC_MAXFRAME_LEN <=? 0 else negb (0 =? 0)) = false) as ->
    by by destruct (progressive s).
  cbn [fst snd]. intros W'. split; [done|]. cbv zeta. split; [split; assumption|].
  assert ((if progressive s then len s + zlen f else zlen f) = zlen f) as El
    by (rewrite Hl; by destruct (progressive s)).
  split; [exact El|]. split; [|done].
  unfold tx_rest, with_check. cbn -[crc_itu16_append crc_itu32_append memcpy le_split].
  rewrite Hl, Hp in *. rewrite El. destruct (Z.leb_spec 0 (zlen f)); [|lia].
  unfold HDLC_MAXFRAME_LEN in *.
  assert (slice (memcpy (buffer s) 0 f) 0 (zlen f - 0) = f) as ->.
  { rewrite memcpy_spec by lia. unfold slice. change (Z.to_nat 0) with 0%nat.
    rewrite drop_0, take_0. cbn [app].
    rewrite Z.sub_0_r, Nat2Z.id. by rewrite take_app_length. }
  unfold crc_init in Hc. destruct shape_crc0 as [E|E]; rewrite E in *; cbn [Z.eqb Pos.eqb] in *.
  - rewrite crc_itu16_append_split by done. cbn [fst]. f_equal. rewrite Hc.
    exact (fc_sequence_16 (crc_itu16_calc f 0xFFFF)).
  - rewrite crc_itu32_append_split. cbn [fst]. by rewrite Hc.
Qed.

Section tx_close.
Context {U : Type} (h : option (U -> hdlc_tx_state_t -> U * hdlc_tx_state_t)).

(** The end of a frame: the state the underflow handler is called in. *)
Lemma end_frame_between u s k : sending s k -> num_bits s < 8 -> abort_octets s = 0 ->
  exists x s1 n, tx_end_frame h u s =
      (x, (fst (call_underflow h u s1),
           let s' := snd (call_underflow h u s1) in
           if (len s' =? 0) && (flag_octets s' <? 2) then s' <| flag_octets := 2 |> else s')) /\
    is_byte x /\ between s1 n /\ msb_bits 8 x ++ flag_tail n = pending s ++ flag /\
    len s1 = 0 /\ crc s1 = crc_init s1 /\ flag_octets s1 = inter_frame_flags s - 1 /\
    report_flag_underflow s1 = false /\ tx_end s1 = tx_end s /\ crc_bytes s1 = crc_bytes s /\
    max_frame_len s1 = max_frame_len s /\ inter_frame_flags s1 = inter_frame_flags s.
Proof.
  intros [[W P] Hf Hl Hk Hr] Hn Ha. pose proof W as [].
  assert (Z.to_nat (num_bits s) < 8)%nat as Hn' by lia.
  destruct (idle_facts (Z.to_nat (num_bits s)) Hn') as (F0 & F & F1 & F2 & F3).
  unfold tx_end_frame.
  set (s1 := update (f := report_flag_underflow) _ _).
  set (x := u8 _).
  exists x, s1, (Z.to_nat (num_bits s)).
  split; [by destruct (call_underflow h u s1)|]. split; [subst x; auto with bits|].
  unfold idle_of in *. rewrite !Z2Nat.id in * by lia.
  split; [|split; [|subst s1; split_and!; done]].
  - subst s1. split; try done.
    + split; [|left; cbn; lia]. constructor; unfold HDLC_MAXFRAME_LEN in *; cbn; try done; try lia.
      * exists 0%nat. split; [lia|]. split; [lia|]. exact F1.
      * destruct (crc_bytes s =? 2); lia.
    + cbn. lia.
    + cbn. unfold idle_of. by rewrite Z2Nat.id by lia.
    + cbn. unfold idle_of. by rewrite Z2Nat.id by lia.
  - pose proof (end_octet (Z.to_nat (num_bits s)) (octets_in_progress s) Hn') as He.
    rewrite Z2Nat.id in He by lia. subst x. rewrite He, <- app_assoc, flag_split. done.
Qed.
End tx_close.

(** ** The properties *)

(** Whatever the state of its user, as long as the underflow handler only uses
    the transmitter's interface, [hdlc_tx_get_byte] keeps the transmitter well
    formed - send position and lengths inside the 404-octet buffer, at most nine
    bits pending, so that the 32-bit shift register never loses one - and returns
    an octet or "end of data". *)
Theorem hdlc_tx_get_byte_safe {U : Type} (h : option (U -> hdlc_tx_state_t -> U * hdlc_tx_state_t))
    (u : U) (s : hdlc_tx_state_t) :
  (forall u s f, h = Some f -> tx_wf s -> tx_wf (snd (f u s))) -> tx_wf s ->
  tx_wf (snd (snd (hdlc_tx_get_byte h u s))) /\
  (is_byte (fst (hdlc_tx_get_byte h u s)) \/
   fst (hdlc_tx_get_byte h u s) = SIG_STATUS_END_OF_DATA).
Proof. intros Hh W. by apply get_byte_wf. Qed.

Lemma hdlc_tx_get_byte_safe_witness :
  tx_wf (snd (snd (hdlc_tx_get_byte (Some (fun (u : unit) s => (u, snd (hdlc_tx_flags s 2)))) tt
                     (hdlc_tx_init true 3 false)))).
Proof.
  refine (proj1 (hdlc_tx_get_byte_safe _ tt (hdlc_tx_init true 3 false) _
                   (hdlc_tx_init_wf true 3 false))).
  intros u s f [= <-] W. apply (hdlc_tx_flags_wf s 2 W).
Defined.

(** [n] calls of [hdlc_tx_get_bit]. *)
Fixpoint get_bits {U : Type} (h : option (U -> hdlc_tx_state_t -> U * hdlc_tx_state_t))
    (n : nat) (u : U) (s : hdlc_tx_state_t) : list Z * (U * hdlc_tx_state_t) :=
  match n with
  | O => ([], (u, s))
  | S n =>
      let '(b, (u, s)) := hdlc_tx_get_bit h u s in
      let '(l, us) := get_bits h n u s in (b :: l, us)
  end.

Lemma one_bit x n : 0 <= n -> (x .>> n) .& 1 = Z.b2z (Z.testbit x n).
Proof.
  intros Hn. change 1 with (Z.ones 1). bitwise i. destruct (Z.leb_spec 0 i), (Z.ltb_spec i 1); try lia.
  - replace i with 0 by lia. rewrite Z.add_0_l, andb_true_r. by rewrite Z.b2z_bit0.
  - rewrite !andb_false_r. symmetry. apply (testbit_high 1); [destruct Z.testbit; simpl; lia|lia].
Qed.

Lemma get_bits_rest {U : Type} h n (u : U) s : bits s = Z.of_nat n -> 0 <= byte s ->
  get_bits h n u s = (map Z.b2z (msb_bits n (byte s)), (u, s <| bits := 0 |>)).
Proof.
  revert s. induction n as [|n IH]; intros s Hb Hx.
  - cbn. f_equal. f_equal. destruct s. cbn in *. by subst.
  - cbn [get_bits]. unfold hdlc_tx_get_bit. destruct (Z.eqb_spec (bits s) 0); [lia|].
    rewrite IH; [|cbn; lia|done]. cbn [byte update eta_tx msb_bits map]. f_equal.
    f_equal. cbn. replace (bits s - 1) with (Z.of_nat n) by lia. apply one_bit. lia.
Qed.

(** Eight calls of [hdlc_tx_get_bit] from an octet boundary give the bits of
    the octet [hdlc_tx_get_byte] would, most significant first, and leave the
    transmitter where it would. *)
Theorem hdlc_tx_get_bit_byte {U : Type} (h : option (U -> hdlc_tx_state_t -> U * hdlc_tx_state_t))
    (u u' : U) (s s' : hdlc_tx_state_t) (x : Z) :
  bits s = 0 -> hdlc_tx_get_byte h u s = (x, (u', s')) -> is_byte x ->
  get_bits h 8 u s = (map Z.b2z (msb_bits 8 x), (u', s' <| byte := x |> <| bits := 0 |>)).
Proof.
  intros Hb E Hx. pose proof (get_bits_rest h 7 u' (s' <| byte := x |> <| bits := 7 |>)) as H7.
  cbn [byte bits update eta_tx] in H7.
  change (get_bits h 8 u s) with
    (let '(b, (u, s)) := hdlc_tx_get_bit h u s in
     let '(l, us) := get_bits h 7 u s in (b :: l, us)).
  unfold hdlc_tx_get_bit. rewrite Hb, E. cbn [Z.eqb].
  change (byte (s' <| byte := x |>)) with x.
  destruct (Z.ltb_spec x 0); [unfold is_byte in Hx; lia|].
  change (s' <| byte := x |> <| bits := 8 |> <| bits := _ |>)
    with (s' <| byte := x |> <| bits := 7 |>).
  rewrite H7 by (done || apply Hx). f_equal. cbn [msb_bits map]. f_equal. apply (one_bit x 7). lia.
Qed.

Lemma hdlc_tx_get_bit_byte_witness :
  get_bits (U := unit) None 8 tt (hdlc_tx_init false 1 false) =
  (map Z.b2z (msb_bits 8 0x7E), (tt, hdlc_tx_init false 1 false <| byte := 0x7E |> <| bits := 0 |>)).
Proof.
  apply (hdlc_tx_get_bit_byte (U := unit) None tt tt (hdlc_tx_init false 1 false)
           (hdlc_tx_init false 1 false) 0x7E); [reflexivity|reflexivity|by_decide].
Defined.
