(* ===== verification/HdlcLink.v ===== *)
(** * The framer and the receiver, end to end

    The framer fed by an underflow handler with a queue of frames puts out
    flags, then every frame with its check octets, stuffed, with the flags
    asked for in between ([tx_stream]); the receiver, given those octets,
    delivers exactly the frames ([hdlc_link]). *)
From S2P Require Import Prelude.
From S2P Require Import Crc.
From S2P Require Import HdlcFrame.
From S2P Require Import HdlcRx.
From S2P Require Import HdlcDecode.
From S2P Require Import HdlcTx.

(** An underflow handler that sends the next frame of a queue, as the users of
    the framer do. *)
Definition send_next (q : list (list Z)) (s : hdlc_tx_state_t) : list (list Z) * hdlc_tx_state_t :=
  match q with
  | [] => ([], s)
  | f :: q => (q, snd (hdlc_tx_frame s f))
  end.

Abbreviation sends := (HdlcTx.sends (Some send_next)).

(** The bits of [n] flags. *)
Definition flags (n : nat) : list bool := concat (repeat flag n).

Lemma flags_app m n : flags (m + n) = flags m ++ flags n.
Proof. unfold flags. by rewrite repeat_app, concat_app. Qed.

(** The stream for a queue: [gap] more flags after the one that ends a frame. *)
Definition frames_line (crc_octets : Z) (gap : nat) (q : list (list Z)) : list bool :=
  concat (map (fun f => flags gap ++ frame_bits (with_check crc_octets f)) q).

(** The whole queue, after the preamble. *)
Definition queue_line (crc_octets : Z) (gap : nat) (q : list (list Z)) : list bool :=
  match q with
  | [] => []
  | f :: q => frame_bits (with_check crc_octets f) ++ frames_line crc_octets gap q
  end.

(** What stays the same from frame to frame. *)
Record link_tx (co gap mx : Z) (s : hdlc_tx_state_t) : Prop := {
  link_crc : HdlcTx.crc_bytes s = co;
  link_gap : inter_frame_flags s = gap + 1;
  link_max : HdlcTx.max_frame_len s = mx;
  link_gap_pos : 0 <= gap;
  link_end : tx_end s = false;
}.

Definition fits (mx : Z) (f : list Z) : Prop := bytes f /\ 0 < zlen f <= mx.

(** Idle, with nothing left to send. *)
Definition idle (s : hdlc_tx_state_t) (n : nat) : Prop :=
  between s n /\ flag_octets s <= 0 /\ HdlcTx.len s = 0 /\ tx_end s = false.

(** The rest of a frame, and all that is queued after it. *)
Lemma frames_sent q s k co gap mx r : sending s k -> tx_rest s = r -> link_tx co gap mx s ->
  abort_octets s = 0 -> Forall (fits mx) q ->
  exists out s' n, sends (q, s) out ([], s') /\ idle s' n /\
    line_bits out ++ flag_tail n =
    pending s ++ stuff k (octet_bits r) ++ flag ++ frames_line co (Z.to_nat gap) q
      ++ flags (Z.to_nat (Z.max 2 gap)).
Proof.
  revert s k r. induction q as [|f q IH]; intros s k r S Hr L Ha Hq.
  - destruct (send_rest (Some send_next) r [] s k S Hr) as (o1 & s1 & k1 & E1 & S1 & N1 & R1 & O1 & M1).
    unfold tx_others in O1. simplify_eq.
    destruct (end_frame_between (Some send_next) [] s1 k1 S1 N1) as
      (x & s2 & n & E2 & Hx & B2 & M2 & L2 & C2 & F2 & U2 & T2 & _); [congruence|].
    rewrite <- (send_close (Some send_next) [] s1 k1 S1 N1 R1) in E2.
    cbn [call_underflow send_next fst snd] in E2. rewrite L2 in E2. cbn [Z.eqb andb] in E2.
    set (s3 := if flag_octets s2 <? 2 then s2 <| flag_octets := 2 |> else s2) in E2.
    destruct L. rewrite link_gap0 in *.
    assert (between s3 n /\ HdlcTx.len s3 = 0 /\ tx_end s3 = false /\ report_flag_underflow s3 = false /\
            flag_octets s3 = Z.max 2 gap) as (B3 & L3 & T3 & U3 & F3).
    { subst s3. destruct (Z.ltb_spec (flag_octets s2) 2); [|split_and!; try done; congruence || lia].
      destruct B2 as [[W P] ? ? ? ? ? ?]. split_and!; try done; [|cbn; congruence|cbn; lia].
      split; try done. split; [tx_shape_tac|done]. }
    destruct (send_flags_timed (Some send_next) (Z.to_nat (Z.max 2 gap)) [] s3 n B3) as [E3 B4];
      [lia|by right|].
    exists (o1 ++ [x] ++ repeat (idle_of n) (Z.to_nat (Z.max 2 gap))).
    eexists _, n. split; [eapply sends_app; [exact E1|]; by eapply sends_cons|].
    split; [split; [exact B4|split; [cbn; lia|done]]|].
    rewrite !line_bits_app, line_bits_one, <- !app_assoc.
    rewrite (flag_line n (Z.to_nat (Z.max 2 gap))) by (done || apply B3).
    rewrite (app_assoc (msb_bits 8 x)), M2, <- app_assoc, app_assoc, M1, <- !app_assoc. done.
  - destruct (send_rest (Some send_next) r (f :: q) s k S Hr) as (o1 & s1 & k1 & E1 & S1 & N1 & R1 & O1 & M1).
    unfold tx_others in O1. simplify_eq.
    destruct (end_frame_between (Some send_next) (f :: q) s1 k1 S1 N1) as
      (x & s2 & n & E2 & Hx & B2 & M2 & L2 & C2 & F2 & U2 & T2 & X2 & Y2 & Z2); [congruence|].
    rewrite <- (send_close (Some send_next) (f :: q) s1 k1 S1 N1 R1) in E2.
    cbn [call_underflow send_next fst snd] in E2.
    apply Forall_cons_1 in Hq as [[Hf Hfl] Hq].
    destruct L. 
    destruct (frame_loaded s2 n f B2 L2 C2 Hf) as (_ & B3 & L3 & R3 & T3 & F3 & X3 & Y3 & Z3 & U3);
      [lia|]. cbv zeta in *. set (s3 := snd (hdlc_tx_frame s2 f)) in *.
    destruct (Z.eqb_spec (HdlcTx.len s3) 0); [lia|]. cbn [andb] in E2.
    destruct (send_flags_timed (Some send_next) (Z.to_nat gap) q s3 n B3) as [E4 B4];
      [lia|right; congruence|].
    set (s4 := s3 <| flag_octets := flag_octets s3 - Z.of_nat (Z.to_nat gap) |>) in *.
    assert (sending s4 0) as S4.
    { eapply between_sending; [exact B4|subst s4; cbn; lia|]. subst s4; cbn. lia. }
    destruct (IH s4 0%nat (with_check (HdlcTx.crc_bytes s2) f) S4) as (o5 & s5 & n5 & E5 & I5 & M5).
    { exact R3. }
    { split; try done; subst s4; cbn; congruence || lia. }
    { apply B4. } { done. }
    exists (o1 ++ [x] ++ repeat (idle_of n) (Z.to_nat gap) ++ o5), s5, n5.
    split; [|split; [done|]].
    { eapply sends_app; [exact E1|]. eapply sends_cons; [exact E2|done|]. by eapply sends_app. }
    rewrite (between_pending s4 n B4) in M5.
    rewrite !line_bits_app, line_bits_one, <- !app_assoc, M5.
    rewrite (app_assoc (line_bits (repeat _ _))), (flag_line n (Z.to_nat gap)) by (done || apply B3).
    rewrite !app_assoc, <- (app_assoc (line_bits o1)), M2, app_assoc, M1.
    replace (HdlcTx.crc_bytes s2) with co by congruence.
    unfold frames_line, frame_bits, flags. cbn [map concat]. by rewrite <- !app_assoc.
Qed.

(** From a fresh transmitter with [p] preamble flags to the end of the queue. *)
Lemma stream_sent crc32 inter prog p q :
  1 <= p -> Forall (fits HdlcTx.HDLC_MAXFRAME_LEN) q ->
  let s := snd (hdlc_tx_flags (hdlc_tx_init crc32 inter prog) p) in
  let co := if crc32 then 4 else 2 in
  exists gap last out s' n, gap = Z.to_nat (Z.max 1 inter - 1) /\ sends (q, s) out ([], s') /\
    idle s' n /\
    line_bits out ++ flag_tail n =
    flags (Z.to_nat p) ++
    queue_line co gap q ++ flags last.
Proof.
  intros Hp Hq s co.
  assert (between s 0 /\ flag_octets s = p /\ HdlcTx.len s = 0 /\ HdlcTx.crc s = crc_init s /\
          report_flag_underflow s = true /\ link_tx co (Z.max 1 inter - 1) HdlcTx.HDLC_MAXFRAME_LEN s)
    as (B & F & L & C & R & K).
  { subst s co. cbn [hdlc_tx_flags hdlc_tx_init HdlcTx.pos Z.eqb negb snd].
    split_and!; try done.
    - split; try done; [|lia]. apply (hdlc_tx_flags_wf _ p (hdlc_tx_init_wf crc32 inter prog)).
    - cbn. destruct (Z.ltb_spec p 0); [lia|done].
    - by destruct crc32.
    - split; try done; [|lia]. cbn. destruct (Z.ltb_spec inter 1); lia. }
  destruct K as [K1 K2 K3 K4 K5]. clearbody s co.
  destruct (send_flags_timed (Some send_next) (Z.to_nat (p - 1)) q s 0 B) as [E1 B1]; [lia|left; lia|].
  set (s1 := s <| flag_octets := flag_octets s - Z.of_nat (Z.to_nat (p - 1)) |>) in *.
  assert (flag_octets s1 = 1) as F1 by (subst s1; cbn; lia).
  set (s2 := s1 <| flag_octets := 0 |> <| report_flag_underflow := false |>).
  assert (hdlc_tx_get_byte (Some send_next) q s1 = (idle_of 0, send_next q s2)) as E2.
  { unfold hdlc_tx_get_byte. rewrite F1. cbn [Z.ltb Z.compare].
    change (flag_octets (s1 <| flag_octets := 1 - 1 |>)) with 0.
    change (report_flag_underflow (s1 <| flag_octets := 1 - 1 |>)) with (report_flag_underflow s).
    rewrite R. cbn [Z.leb Z.compare andb].
    change (HdlcTx.len (s1 <| flag_octets := 1 - 1 |> <| report_flag_underflow := false |>))
      with (HdlcTx.len s).
    rewrite L. cbn [Z.eqb call_underflow].
    change (s1 <| flag_octets := 1 - 1 |> <| report_flag_underflow := false |>) with s2.
    assert (abort_octets (snd (send_next q s2)) = 0 /\ idle_octet (snd (send_next q s2)) = idle_of 0)
      as [A I].
    { destruct B1. destruct q as [|f q]; [done|]. cbn [send_next snd]. unfold hdlc_tx_frame.
      by repeat case_match. }
    destruct (send_next q s2) as [q' s3]. cbn [fst snd] in *. by rewrite A, I. }
  assert (between s2 0) as B2.
  { destruct B1 as [[W P] ? ? ? ? ? ?]. split; try done. split; [tx_shape_tac|done]. }
  assert (forall out, flags (Z.to_nat p) ++ out =
            line_bits (repeat (idle_of 0) (Z.to_nat (p - 1)) ++ [idle_of 0]) ++ out) as Hpre.
  { intros out. f_equal. rewrite <- (app_nil_r (line_bits _)).
    change (@nil bool) with (flag_tail 0). rewrite (flag_line 0 (Z.to_nat p)); [done| |lia].
    change [idle_of 0] with (repeat (idle_of 0) 1). rewrite <- repeat_app. f_equal. lia. }
  destruct q as [|f q].
  - exists (Z.to_nat (Z.max 1 inter - 1)), 0%nat, (repeat (idle_of 0) (Z.to_nat (p - 1)) ++ [idle_of 0]), s2, 0%nat.
    split; [done|]. split; [by eapply sends_app; [exact E1|apply sends_one]|].
    split; [by split_and!|]. rewrite Hpre. by rewrite !app_nil_r.
  - apply Forall_cons_1 in Hq as [[Hf Hfl] Hq].
    destruct (frame_loaded s2 0 f B2 L C Hf) as (_ & B3 & L3 & R3 & T3 & F3 & X3 & Y3 & Z3 & U3).
    { change (HdlcTx.max_frame_len s2) with (HdlcTx.max_frame_len s). lia. }
    cbv zeta in *. cbn [send_next] in E2. set (s3 := snd (hdlc_tx_frame s2 f)) in *.
    change (flag_octets s2) with 0 in F3.
    assert (sending s3 0) as S3 by (eapply between_sending; [exact B3|lia|lia]).
    destruct (frames_sent q s3 0 co (Z.max 1 inter - 1) HdlcTx.HDLC_MAXFRAME_LEN _ S3 R3)
      as (o & s' & n & E & I & M); [|apply B3|done|].
    { split; [by rewrite X3|by rewrite Z3|by rewrite Y3|done|done]. }
    change (HdlcTx.crc_bytes s2) with (HdlcTx.crc_bytes s) in M. rewrite K1 in M.
    rewrite (between_pending s3 0 B3) in M. cbn [flag_tail app] in M.
    eexists _, _, ((repeat (idle_of 0) (Z.to_nat (p - 1)) ++ [idle_of 0]) ++ o), s', n.
    split; [done|]. split.
    { eapply sends_app; [|exact E]. eapply sends_app; [exact E1|]. by apply sends_one. }
    split; [done|]. rewrite Hpre, line_bits_app, <- app_assoc, M. f_equal.
    unfold queue_line, frame_bits. by rewrite <- !app_assoc.
Qed.

(** ** At the receiver *)

Lemma rx_put_line s out : rx_ready s -> bytes out -> hdlc_rx_put s out = put_bits s (line_bits out).
Proof.
  intros Hs Hb. revert s Hs. induction Hb as [|x out Hx Hb IH]; intros s Hs; [done|].
  unfold hdlc_rx_put in *. cbn [rx_feed]. change (x :: out) with ([x] ++ out).
  rewrite line_bits_app, line_bits_one, put_byte_bits by done.
  pose proof (feed_bits_ready s (map Z.b2z (msb_bits 8 x)) Hs) as H1.
  destruct (rx_feed hdlc_rx_put_bit s _) as [s1 e1] eqn:E1. cbn [fst] in H1.
  rewrite IH by done. destruct (put_bits s1 (line_bits out)) as [s2 e2] eqn:E2.
  symmetry. by apply (put_bits_app s (msb_bits 8 x) _ s1 e1).
Qed.

Lemma with_check_good co f : bytes f -> co = 2 \/ co = 4 ->
  bytes (with_check co f) /\ zlen (with_check co f) = zlen f + co /\
  take (length f) (with_check co f) = f /\
  (if co =? 2 then crc_itu16_check (with_check co f) else crc_itu32_check (with_check co f)) = true.
Proof.
  intros Hb Hco. unfold with_check. destruct Hco as [->| ->]; cbn [Z.eqb Pos.eqb].
  - rewrite crc_itu16_append_split by done. cbn [fst].
    assert (bytes (f ++ le_split 2 (crc_itu16_calc f 0xFFFF .^ 0xFFFF))) as Hbs
      by (apply Forall_app_2; [done|apply bytes_le_split]).
    split; [done|]. split; [rewrite length_app, length_le_split; lia|].
    split; [by rewrite take_app_length|]. apply crc_itu16_check_iff; [done|]. by exists f.
  - rewrite crc_itu32_append_split. cbn [fst].
    assert (bytes (f ++ le_split 4 (crc_itu32_calc f 0xFFFFFFFF .^ 0xFFFFFFFF))) as Hbs
      by (apply Forall_app_2; [done|apply bytes_le_split]).
    split; [done|]. split; [rewrite length_app, length_le_split; lia|].
    split; [by rewrite take_app_length|]. apply crc_itu32_check_iff; [done|]. by exists f.
Qed.

Lemma frame_report_good s f : HdlcRx.crc_bytes s = 2 \/ HdlcRx.crc_bytes s = 4 -> bytes f -> 0 < zlen f ->
  frame_report s (with_check (HdlcRx.crc_bytes s) f) = [Frame f (zlen f) true].
Proof.
  intros Hc Hb Hf. destruct (with_check_good _ f Hb Hc) as (_ & Hl & Ht & Hok).
  unfold frame_report. rewrite Hl, Hok. destruct (Z.eqb_spec (zlen f + HdlcRx.crc_bytes s) 0); [lia|].
  destruct (Z.leb_spec (HdlcRx.crc_bytes s) (zlen f + HdlcRx.crc_bytes s)); [|lia].
  replace (zlen f + HdlcRx.crc_bytes s - HdlcRx.crc_bytes s) with (zlen f) by lia.
  by rewrite Nat2Z.id, Ht.
Qed.

Definition good_frames_report (q : list (list Z)) : list rx_event :=
  map (fun f => Frame f (zlen f) true) q.

(** A frame, in frame: the gap's flags, the frame. *)
Lemma receive_good s gap f : collecting s 0 [] [] -> HdlcRx.max_frame_len s = sizeof_buffer ->
  fits HdlcTx.HDLC_MAXFRAME_LEN f ->
  exists s', put_bits s (flags gap ++ frame_bits (with_check (HdlcRx.crc_bytes s) f)) =
               (s', [Frame f (zlen f) true]) /\ same_settings s s' /\ collecting s' 0 [] [].
Proof.
  intros C Hm [Hb Hl]. pose proof (wf_crc _ (proj1 (col_ready _ _ _ _ C))) as Hc.
  destruct (idle_flags gap s C) as (s1 & E1 & S1 & C1).
  destruct (with_check_good _ f Hb Hc) as (Hb' & Hl' & _).
  destruct (receive_frame s1 0 (with_check (HdlcRx.crc_bytes s) f) C1) as (s2 & E2 & S2 & C2);
    [lia|done| |].
  { destruct S1 as (_ & -> & _). rewrite Hm, Hl'. unfold sizeof_buffer, HdlcRx.HDLC_MAXFRAME_LEN,
      HdlcTx.HDLC_MAXFRAME_LEN in *. lia. }
  exists s2. split; [|split; [by etransitivity|done]].
  rewrite <- (app_nil_l [Frame f (zlen f) true]). eapply put_bits_app; [exact E1|].
  unfold frame_bits. rewrite E2. f_equal.
  replace (HdlcRx.crc_bytes s) with (HdlcRx.crc_bytes s1) by (destruct S1; congruence).
  apply frame_report_good; [|done|lia]. by destruct S1 as (-> & _).
Qed.

Lemma receive_line s gap q : collecting s 0 [] [] -> HdlcRx.max_frame_len s = sizeof_buffer ->
  Forall (fits HdlcTx.HDLC_MAXFRAME_LEN) q ->
  exists s', put_bits s (frames_line (HdlcRx.crc_bytes s) gap q) = (s', good_frames_report q) /\
    same_settings s s' /\ collecting s' 0 [] [].
Proof.
  revert s. induction q as [|f q IH]; intros s C Hm Hq; [by exists s|].
  apply Forall_cons_1 in Hq as [Hf Hq].
  destruct (receive_good s gap f C Hm Hf) as (s1 & E1 & S1 & C1).
  destruct (IH s1 C1) as (s2 & E2 & S2 & C2); [by destruct S1 as (_ & -> & _)|done|].
  exists s2. split; [|split; [by etransitivity|done]].
  change (good_frames_report (f :: q)) with ([Frame f (zlen f) true] ++ good_frames_report q).
  unfold frames_line in *. cbn [map concat].
  replace (HdlcRx.crc_bytes s1) with (HdlcRx.crc_bytes s) in E2 by (destruct S1; congruence).
  eapply put_bits_app; [exact E1|exact E2].
Qed.

(** The whole stream, and any number of flags after it. *)
Lemma receive_stream (crc32 bad : bool) threshold p gap tail (q : list (list Z)) :
  Z.max 1 threshold <= Z.of_nat p -> Forall (fits HdlcTx.HDLC_MAXFRAME_LEN) q ->
  let co := if crc32 then 4 else 2 in
  exists s', put_bits (hdlc_rx_init crc32 bad threshold true)
    (flags p ++ queue_line co gap q ++ flags tail) =
    (s', FrameStatus SIG_STATUS_FRAMING_OK :: good_frames_report q) /\ collecting s' 0 [] [].
Proof.
  intros Hp Hq co. set (s := hdlc_rx_init crc32 bad threshold true).
  destruct (preamble p s 0) as (s1 & E1 & S1 & C1); [apply hdlc_rx_init_hunting|done| |].
  { cbn. destruct (Z.ltb_spec threshold 1); lia. }
  assert (HdlcRx.crc_bytes s1 = co /\ HdlcRx.max_frame_len s1 = sizeof_buffer) as [Hc Hm].
  { destruct S1 as (-> & -> & _). by destruct crc32. }
  change (FrameStatus SIG_STATUS_FRAMING_OK :: good_frames_report q)
    with (report_status_change s SIG_STATUS_FRAMING_OK ++ good_frames_report q).
  assert (exists s', put_bits s1 (queue_line co gap q ++ flags tail) =
             (s', good_frames_report q ++ []) /\ collecting s' 0 [] [])
    as (s' & E' & C').
  2:{ exists s'. split; [|done]. rewrite app_nil_r in E'. by eapply put_bits_app. }
  destruct q as [|f q].
  - destruct (idle_flags tail s1 C1) as (s2 & E2 & _ & C2). by exists s2.
  - apply Forall_cons_1 in Hq as [Hf Hq].
    destruct (receive_good s1 0 f C1 Hm Hf) as (s2 & E2 & S2 & C2).
    destruct (receive_line s2 gap q C2) as (s3 & E3 & S3 & C3); [by destruct S2 as (_ & -> & _)|done|].
    destruct (idle_flags tail s3 C3) as (s4 & E4 & _ & C4). exists s4. split; [|done].
    replace (HdlcRx.crc_bytes s2) with co in E3 by (destruct S2; congruence).
    rewrite Hc in E2. eapply put_bits_app; [|exact E4].
    change (good_frames_report (f :: q)) with ([Frame f (zlen f) true] ++ good_frames_report q).
    eapply put_bits_app; [exact E2|exact E3].
Qed.

(** ** The properties *)

(** C23: the framer's output, read as bits, is the preamble's flags, then each
    frame of the queue with the check octets [append] gives it and its zero
    insertion, closed by a flag and separated by [inter_frame_flags - 1] more,
    then flags for as long as it is read; at most seven bits (the tail of a flag)
    are held back at an octet boundary.  It never runs dry or stops short. *)
Theorem hdlc_tx_stream (crc32 : bool) (inter : Z) (prog : bool) (p : Z) (q : list (list Z)) :
  1 <= p -> Forall (fits HdlcTx.HDLC_MAXFRAME_LEN) q ->
  let s := snd (hdlc_tx_flags (hdlc_tx_init crc32 inter prog) p) in
  exists n0 last held, (held < 8)%nat /\ forall m,
    let out := fst (hdlc_tx_get (Some send_next) q s (n0 + m)) in
    length out = (n0 + m)%nat /\
    line_bits out ++ flag_tail held =
    flags (Z.to_nat p) ++
    queue_line (if crc32 then 4 else 2) (Z.to_nat (Z.max 1 inter - 1)) q ++ flags (last + m).
Proof.
  intros Hp Hq s.
  destruct (stream_sent crc32 inter prog p q Hp Hq)
    as (gap & last & out & s' & n & -> & E & (B & F & L & T) & M).
  exists (length out), last, n. split; [apply B|]. intros m.
  pose proof (sends_app _ _ _ _ _ _ E (send_idle (Some send_next) m [] s' n B F L T)) as [_ E'].
  cbn [fst snd] in E'. rewrite length_app, repeat_length in E'. fold s in E'.
  rewrite E'. cbn [fst]. split; [by rewrite length_app, repeat_length|].
  rewrite line_bits_app, <- app_assoc, (flag_line n m) by (done || apply B).
  fold (flags m). rewrite app_assoc, M, flags_app, <- !app_assoc. done.
Qed.

Lemma hdlc_tx_stream_witness :
  exists n0 last held, (held < 8)%nat /\ forall m,
    let out := fst (hdlc_tx_get (Some send_next) [[0xFF; 0x3F]; [1]]
                      (snd (hdlc_tx_flags (hdlc_tx_init false 2 false) 3)) (n0 + m)) in
    length out = (n0 + m)%nat /\
    line_bits out ++ flag_tail held = flags 3 ++ queue_line 2 1 [[0xFF; 0x3F]; [1]] ++ flags (last + m).
Proof.
  apply (hdlc_tx_stream false 2 false 3 [[0xFF; 0x3F]; [1]]); [lia|].
  apply (bool_decide_unpack _). vm_compute. exact I.
Defined.

(** C3: what the framer sends, the receiver delivers: with at least as many
    preamble flags as the receiver's threshold, and frames of 1 to 400 octets,
    the receiver fed the framer's octets reports "framing OK" once and then
    exactly the frames queued, in order and good, for either CRC, any flags
    between frames and either framing mode - and nothing else, however long the
    line then idles. *)
Theorem hdlc_link (crc32 : bool) (inter : Z) (prog bad : bool) (threshold p : Z) (q : list (list Z)) :
  Z.max 1 threshold <= p -> Forall (fits HdlcTx.HDLC_MAXFRAME_LEN) q ->
  let s := snd (hdlc_tx_flags (hdlc_tx_init crc32 inter prog) p) in
  exists n0, forall m,
    snd (hdlc_rx_put (hdlc_rx_init crc32 bad threshold true)
           (fst (hdlc_tx_get (Some send_next) q s (n0 + m)))) =
    FrameStatus SIG_STATUS_FRAMING_OK :: good_frames_report q.
Proof.
  intros Hp Hq s.
  destruct (stream_sent crc32 inter prog p q ltac:(lia) Hq)
    as (gap & last & out & s' & n & Hgap & E & (B & F & L & T) & M).
  exists (length out + 1)%nat. intros m.
  pose proof (sends_app _ _ _ _ _ _ E (send_idle (Some send_next) (1 + m) [] s' n B F L T)) as [Hb E'].
  cbn [fst snd] in E'. rewrite length_app, repeat_length, Nat.add_assoc in E'. fold s in E'.
  rewrite E'. cbn [fst]. set (whole := out ++ _) in *.
  rewrite rx_put_line; [|apply hdlc_rx_init_ready|done].
  assert (line_bits whole ++ flag_tail n =
          flags (Z.to_nat p) ++ queue_line (if crc32 then 4 else 2) gap q ++ flags (last + m) ++ flag) as Hw.
  { subst whole. rewrite line_bits_app, <- app_assoc, (flag_line n (1 + m)) by (done || apply B).
    rewrite app_assoc, M, flags_app, <- !app_assoc. do 3 f_equal.
    fold (flags (1 + m)). rewrite Nat.add_comm, flags_app. f_equal. }
  rewrite <- (flag_split n) in Hw. rewrite !app_assoc in Hw. apply app_inv_tail in Hw.
  destruct (receive_stream crc32 bad threshold (Z.to_nat p) gap (last + m) q) as (s1 & E1 & C1);
    [lia|done|].
  destruct (idle_flag s1 C1) as (s2 & E2 & _).
  destruct (put_bits s1 (flag_head n)) as [s3 e3] eqn:E3.
  assert (e3 = []) as ->.
  { destruct (put_bits s3 (flag_tail n)) as [s4 e4] eqn:E4.
    pose proof (put_bits_app _ _ _ _ _ _ _ E3 E4) as E5. rewrite flag_split, E2 in E5.
    injection E5 as _ E5. symmetry in E5. by apply app_eq_nil in E5 as [? _]. }
  replace (line_bits whole) with ((flags (Z.to_nat p) ++ queue_line (if crc32 then 4 else 2) gap q
    ++ flags (last + m)) ++ flag_head n) by (rewrite Hw; by rewrite !app_assoc).
  rewrite (put_bits_app _ _ _ _ _ _ _ E1 E3). cbn [snd]. by rewrite app_nil_r.
Qed.

Lemma hdlc_link_witness :
  exists n0, forall m,
    snd (hdlc_rx_put (hdlc_rx_init true true 2 true)
           (fst (hdlc_tx_get (Some send_next) [[0xFF; 0x3F]; [1; 2; 3]]
                   (snd (hdlc_tx_flags (hdlc_tx_init true 1 false) 2)) (n0 + m)))) =
    [FrameStatus SIG_STATUS_FRAMING_OK; Frame [0xFF; 0x3F] 2 true; Frame [1; 2; 3] 3 true].
Proof.
  apply (hdlc_link true 1 false true 2 2 [[0xFF; 0x3F]; [1; 2; 3]]); [lia|].
  apply (bool_decide_unpack _). vm_compute. exact I.
Defined.
