(* ===== verification/Ring.v ===== *)
(** * Rings of octets

    Arrays used round the end, as the octet queue and the T.38 image buffer use
    them: the place [k] after [i], the octets read from a place on, and what a
    write leaves.  No code of its own; [Queue] and [NonEcm] use it. *)
From S2P Require Import Prelude.

(** [k] places after [i], in a ring of [m]. *)
Definition ridx (m i k : Z) : Z := if i + k <? m then i + k else i + k - m.

(** Decides every comparison of places in the ring, innermost first. *)
Ltac ring_cases :=
  unfold ridx in *; cbv zeta;
  repeat (match goal with
          | |- context [Z.ltb ?a ?b] =>
              lazymatch constr:((a, b)) with context [if _ then _ else _] => fail | _ => destruct (Z.ltb_spec a b) end
          | |- context [Z.leb ?a ?b] =>
              lazymatch constr:((a, b)) with context [if _ then _ else _] => fail | _ => destruct (Z.leb_spec a b) end
          end; cbn [andb orb negb]; try lia); try done; try (f_equal; lia).

(** The [n] octets from [i] on. *)
Definition cells (d : list Z) (i n : Z) : list Z :=
  map (fun k => aget d (ridx (zlen d) i (Z.of_nat k))) (seq 0 (Z.to_nat n)).

(** [d'] is [d] with [l] written at [i], round the ring. *)
Definition ring_put (d : list Z) (i : Z) (l d' : list Z) : Prop :=
  zlen d' = zlen d /\
  forall j, 0 <= j < zlen d ->
    aget d' j =
    let k := if i <=? j then j - i else j - i + zlen d in
    if k <? zlen l then aget l k else aget d j.

Lemma aget_memcpy src d i j : 0 <= i -> i + zlen src <= zlen d -> 0 <= j ->
  aget (memcpy d i src) j = if (i <=? j) && (j <? i + zlen src) then aget src (j - i) else aget d j.
Proof.
  revert d i. induction src as [|v src IH]; intros d i Hi Hl Hj; cbn [memcpy].
  { destruct (Z.leb_spec i j), (Z.ltb_spec j (i + zlen (@nil Z))); try done; simpl in *; lia. }
  cbn [length] in *. rewrite IH by (rewrite ?length_aset; lia).
  rewrite aget_aset by lia.
  destruct (Z.leb_spec (i + 1) j), (Z.ltb_spec j (i + 1 + zlen src)), (Z.leb_spec i j),
    (Z.ltb_spec j (i + Z.of_nat (S (length src)))), (Z.eqb_spec i j); cbn [andb]; try lia; try done.
  - unfold aget. replace (Z.to_nat (j - i)) with (S (Z.to_nat (j - (i + 1)))) by lia. done.
  - subst. unfold aget. by rewrite Z.sub_diag.
Qed.

Lemma aget_slice d i n k : 0 <= i -> 0 <= k < n -> aget (slice d i n) k = aget d (i + k).
Proof.
  intros Hi Hk. unfold aget, slice. rewrite !nth_lookup, lookup_take.
  rewrite decide_True by lia. rewrite lookup_drop. do 2 f_equal. lia.
Qed.

Lemma aget_app l1 l2 k : 0 <= k ->
  aget (l1 ++ l2) k = if k <? zlen l1 then aget l1 k else aget l2 (k - zlen l1).
Proof.
  intros Hk. unfold aget. destruct (Z.ltb_spec k (zlen l1)).
  - by rewrite app_nth1 by lia.
  - rewrite app_nth2 by lia. f_equal. lia.
Qed.

Lemma length_cells d i n : 0 <= n -> zlen (cells d i n) = n.
Proof. intros. unfold cells. rewrite length_map, length_seq. lia. Qed.

Lemma cells_ext d d' i i' n :
  (forall k, 0 <= k < n -> aget d (ridx (zlen d) i k) = aget d' (ridx (zlen d') i' k)) ->
  cells d i n = cells d' i' n.
Proof.
  intros H. unfold cells. apply map_ext_in. intros k Hk%in_seq. apply H. lia.
Qed.

Lemma cells_app d i a b : 0 <= i < zlen d -> 0 <= a <= zlen d -> 0 <= b -> a + b <= zlen d ->
  cells d i (a + b) = cells d i a ++ cells d (ridx (zlen d) i a) b.
Proof.
  intros Hi Ha Hb Hab. unfold cells.
  rewrite Z2Nat.inj_add, seq_app, map_app by lia. f_equal.
  rewrite <- (Nat.add_0_r (0 + Z.to_nat a)), <- fmap_add_seq.
  rewrite map_map. apply map_ext_in. intros k Hk%in_seq. f_equal. ring_cases.
Qed.

Lemma cells_one d i : 0 <= i < zlen d -> cells d i 1 = [aget d i].
Proof.
  intros Hi. unfold cells. change (seq 0 (Z.to_nat 1)) with [0%nat]. cbn [map].
  change (Z.of_nat 0) with 0. f_equal. f_equal. ring_cases.
Qed.

Lemma list_as_cells (l : list Z) : l = map (fun k => aget l (Z.of_nat k)) (seq 0 (length l)).
Proof.
  apply list_eq. intros k. rewrite list_lookup_fmap.
  destruct (decide (k < length l)%nat) as [Hk|Hk].
  - rewrite lookup_seq_lt by done. simpl. unfold aget. rewrite Nat2Z.id, nth_lookup.
    destruct (lookup_lt_is_Some_2 l k Hk) as [x ->]. done.
  - rewrite lookup_seq_ge by lia. apply lookup_ge_None_2. lia.
Qed.

(** A slice that does not cross the end is a run of cells. *)
Lemma slice_cells d i n : 0 <= i -> 0 <= n -> i + n <= zlen d -> slice d i n = cells d i n.
Proof.
  intros Hi Hn Hl. rewrite (list_as_cells (slice d i n)). unfold cells.
  assert (length (slice d i n) = Z.to_nat n) as -> by (pose proof (length_slice d i n); lia).
  apply map_ext_in. intros k Hk%in_seq. rewrite aget_slice by lia. f_equal. unfold ridx.
  destruct (Z.ltb_spec (i + Z.of_nat k) (zlen d)); lia.
Qed.

(** After writing [l] at [i], it is there... *)
Lemma ring_put_cells d i l d' : ring_put d i l d' -> 0 <= i < zlen d -> zlen l <= zlen d ->
  cells d' i (zlen l) = l.
Proof.
  intros [Hl H] Hi Hll. rewrite (list_as_cells l) at 2. unfold cells. rewrite Nat2Z.id.
  apply map_ext_in. intros k Hk%in_seq. rewrite Hl, H; ring_cases.
Qed.

(** ... and what came before it is unchanged. *)
Lemma ring_put_other d o n l d' : ring_put d (ridx (zlen d) o n) l d' -> 0 <= o < zlen d -> 0 <= n ->
  n + zlen l <= zlen d -> cells d' o n = cells d o n.
Proof.
  intros [Hl H] Ho Hn Hnl. apply cells_ext. intros k Hk. rewrite Hl, H; ring_cases.
Qed.

Lemma ring_put_memcpy d i l : 0 <= i -> i + zlen l <= zlen d -> ring_put d i l (memcpy d i l).
Proof.
  intros Hi Hl. split; [by rewrite length_memcpy|]. intros j Hj. rewrite aget_memcpy by lia. ring_cases.
Qed.

(** Two writes, one after the other round the ring. *)
Lemma ring_put_app d i l1 l2 d1 d2 : ring_put d i l1 d1 -> ring_put d1 (ridx (zlen d) i (zlen l1)) l2 d2 ->
  0 <= i < zlen d -> zlen l1 + zlen l2 <= zlen d -> ring_put d i (l1 ++ l2) d2.
Proof.
  intros [L1 H1] [L2 H2] Hi Hl. split; [lia|]. intros j Hj. rewrite H2 by lia. cbv zeta.
  rewrite aget_app by (destruct (Z.leb_spec i j); lia). rewrite length_app, Nat2Z.inj_add, L1, H1 by lia.
  ring_cases.
Qed.

Lemma cells_take d i k n : 0 <= i < zlen d -> 0 <= k <= n -> n <= zlen d ->
  take (Z.to_nat k) (cells d i n) = cells d i k /\
  drop (Z.to_nat k) (cells d i n) = cells d (ridx (zlen d) i k) (n - k).
Proof.
  intros Hi Hk Hn. replace n with (k + (n - k)) at 1 2 by lia.
  rewrite cells_app by lia.
  assert (length (cells d i k) = Z.to_nat k) as Hl by (pose proof (length_cells d i k); lia).
  rewrite <- Hl. by rewrite take_app_length, drop_app_length.
Qed.
