(* ===== verification/Queue.v ===== *)
(** * Byte and message queues (src/spandsp-0.0.6/src/queue.c)

    A ring buffer with one slot kept free.  The abstract queue is the list of
    octets between the output and the input pointer ([contents]); every
    operation is shown to be the list operation it stands for.  A transfer to
    the caller's buffer is the list of octets copied ([[]] where the caller
    passes NULL); lengths given by the caller are not negative. *)
From S2P Require Import Prelude Ring.

(** ** Definitions *)

Definition QUEUE_READ_ATOMIC : Z := 0x0001.
Definition QUEUE_WRITE_ATOMIC : Z := 0x0002.

Record queue_state_t := {
  flags : Z;
  len : Z;
  iptr : Z;
  optr : Z;
  data : list Z;
}.

#[export] Instance eta_queue : Eta queue_state_t := fun s =>
  Build_queue_state_t (flags s) (len s) (iptr s) (optr s) (data s).

Definition queue_empty (s : queue_state_t) : bool := iptr s =? optr s.

Definition queue_free_space (s : queue_state_t) : Z :=
  let n := optr s - iptr s - 1 in
  if n <? 0 then n + len s else n.

Definition queue_contents (s : queue_state_t) : Z :=
  let n := iptr s - optr s in
  if n <? 0 then n + len s else n.

Definition queue_flush (s : queue_state_t) : queue_state_t := s <| optr := iptr s |>.

(** How many octets a read of [n] gives; [None] where it is refused. *)
Definition read_len (s : queue_state_t) (n : Z) : option Z :=
  let real_len := iptr s - optr s in
  let real_len := if real_len <? 0 then real_len + len s else real_len in
  if real_len <? n then
    if negb (flags s .& QUEUE_READ_ATOMIC =? 0) then None else Some real_len
  else Some n.

(** The copy out of the ring, in one step or two. *)
Definition copy_out (s : queue_state_t) (real_len : Z) : list Z :=
  let to_end := len s - optr s in
  if (iptr s <? optr s) && (to_end <? real_len) then
    slice (data s) (optr s) to_end ++ slice (data s) 0 (real_len - to_end)
  else slice (data s) (optr s) real_len.

Definition queue_view (s : queue_state_t) (buf : bool) (n : Z) : Z * list Z :=
  match read_len s n with
  | None => (-1, [])
  | Some real_len =>
      if real_len =? 0 then (0, [])
      else (real_len, if buf then copy_out s real_len else [])
  end.

Definition queue_read (s : queue_state_t) (buf : bool) (n : Z) : Z * list Z * queue_state_t :=
  match read_len s n with
  | None => (-1, [], s)
  | Some real_len =>
      if real_len =? 0 then (0, [], s)
      else
        let to_end := len s - optr s in
        let new_optr :=
          if (iptr s <? optr s) && (to_end <? real_len) then real_len - to_end
          else
            let new_optr := optr s + real_len in
            if len s <=? new_optr then 0 else new_optr in
        (real_len, if buf then copy_out s real_len else [], s <| optr := new_optr |>)
  end.

Definition queue_read_byte (s : queue_state_t) : Z * queue_state_t :=
  let real_len := iptr s - optr s in
  let real_len := if real_len <? 0 then real_len + len s else real_len in
  if real_len <? 1 then (-1, s)
  else
    let byte := aget (data s) (optr s) in
    let optr' := optr s + 1 in
    (byte, s <| optr := if len s <=? optr' then 0 else optr' |>).

Definition queue_write (s : queue_state_t) (buf : list Z) : Z * queue_state_t :=
  let n := zlen buf in
  let real_len := optr s - iptr s - 1 in
  let real_len := if real_len <? 0 then real_len + len s else real_len in
  if (real_len <? n) && negb (flags s .& QUEUE_WRITE_ATOMIC =? 0) then (-1, s)
  else
    let real_len := if real_len <? n then real_len else n in
    if real_len =? 0 then (0, s)
    else
      let to_end := len s - iptr s in
      let '(data', new_iptr) :=
        if (iptr s <? optr s) || (real_len <=? to_end) then
          let new_iptr := iptr s + real_len in
          (memcpy (data s) (iptr s) (slice buf 0 real_len),
           if len s <=? new_iptr then 0 else new_iptr)
        else
          (memcpy (memcpy (data s) (iptr s) (slice buf 0 to_end)) 0
             (slice buf to_end (real_len - to_end)),
           real_len - to_end) in
      (real_len, s <| data := data' |> <| iptr := new_iptr |>).

Definition queue_write_byte (s : queue_state_t) (byte : Z) : Z * queue_state_t :=
  let real_len := optr s - iptr s - 1 in
  let real_len := if real_len <? 0 then real_len + len s else real_len in
  if real_len <? 1 then
    if negb (flags s .& QUEUE_WRITE_ATOMIC =? 0) then (-1, s) else (0, s)
  else
    let iptr' := iptr s + 1 in
    (1, s <| data := aset (data s) (iptr s) byte |>
          <| iptr := if len s <=? iptr' then 0 else iptr' |>).

(** The octets of a [uint16_t] in memory (little endian). *)
Definition u16_octets (x : Z) : list Z := le_split 2 x.
Definition u16_value (l : list Z) : Z := le_combine l.

Definition queue_state_test_msg (s : queue_state_t) : Z :=
  let '(n, l) := queue_view s true 2 in
  if negb (n =? 2) then -1 else u16_value l.

Definition queue_read_msg (s : queue_state_t) (buf : bool) (n : Z) : Z * list Z * queue_state_t :=
  let '(k, l, s) := queue_read s true 2 in
  if negb (k =? 2) then (-1, [], s)
  else
    let lenx := u16_value l in
    if lenx =? 0 then (0, [], s)
    else if n <? lenx then
      let '(n, l, s) := queue_read s buf n in
      let '(_, _, s) := queue_read s false (lenx - n) in
      (n, l, s)
    else queue_read s buf lenx.

Definition queue_write_msg (s : queue_state_t) (buf : list Z) : Z * queue_state_t :=
  let n := zlen buf in
  let real_len := optr s - iptr s - 1 in
  let real_len := if real_len <? 0 then real_len + len s else real_len in
  if real_len <? n + 2 then (-1, s)
  else
    let real_len := n + 2 in
    let to_end := len s - iptr s in
    let lenx := u16_octets (u16 n) in
    let '(data', new_iptr) :=
      if (iptr s <? optr s) || (real_len <=? to_end) then
        let d := memcpy (data s) (iptr s) lenx in
        let d := memcpy d (iptr s + 2) buf in
        let new_iptr := iptr s + real_len in
        (d, if len s <=? new_iptr then 0 else new_iptr)
      else
        let d :=
          if 2 <=? to_end then
            let d := memcpy (data s) (iptr s) lenx in
            let d := memcpy d (iptr s + 2) (slice buf 0 (to_end - 2)) in
            memcpy d 0 (slice buf (to_end - 2) (real_len - to_end))
          else
            let d := memcpy (data s) (iptr s) (slice lenx 0 to_end) in
            let d := memcpy d 0 (slice lenx to_end (2 - to_end)) in
            memcpy d (2 - to_end) buf in
        (d, real_len - to_end) in
    (n, s <| data := data' |> <| iptr := new_iptr |>).

(** [mem] is what the allocation of the [n + 1] octets holds. *)
Definition queue_init (n flags : Z) (mem : list Z) : queue_state_t :=
  {| flags := flags; len := n + 1; iptr := 0; optr := 0; data := mem |}.

(** ** The ring *)

Record queue_wf (s : queue_state_t) : Prop := {
  wf_iptr : 0 <= iptr s < len s;
  wf_optr : 0 <= optr s < len s;
  wf_data : zlen (data s) = len s;
  wf_bytes : bytes (data s);
}.

(** The octets queued, oldest first. *)
Definition contents (s : queue_state_t) : list Z := cells (data s) (optr s) (queue_contents s).

(** ** The operations on the list *)

Lemma contents_cases s :
  optr s <= iptr s /\ queue_contents s = iptr s - optr s \/
  iptr s < optr s /\ queue_contents s = iptr s - optr s + len s.
Proof. unfold queue_contents. ring_cases. Qed.

Lemma free_cases s :
  iptr s < optr s /\ queue_free_space s = optr s - iptr s - 1 \/
  optr s <= iptr s /\ queue_free_space s = optr s - iptr s - 1 + len s.
Proof. unfold queue_free_space. ring_cases. Qed.

Lemma contents_facts s : queue_wf s ->
  0 <= queue_contents s < len s /\ iptr s = ridx (len s) (optr s) (queue_contents s) /\
  queue_free_space s = len s - 1 - queue_contents s /\ zlen (contents s) = queue_contents s.
Proof.
  intros []. pose proof (contents_cases s). pose proof (free_cases s).
  split; [lia|split; [ring_cases|split; [lia|]]]. apply length_cells. lia.
Qed.

(** What a refused or granted read of [n] from [l] gives. *)
Definition spec_len (atomic : bool) (available n : Z) : option Z :=
  if available <? n then if atomic then None else Some available else Some n.

Definition read_atomic (s : queue_state_t) : bool := negb (flags s .& QUEUE_READ_ATOMIC =? 0).
Definition write_atomic (s : queue_state_t) : bool := negb (flags s .& QUEUE_WRITE_ATOMIC =? 0).

Lemma read_len_spec s n : read_len s n = spec_len (read_atomic s) (queue_contents s) n.
Proof.
  unfold read_len, spec_len, read_atomic, queue_contents. by destruct (negb _).
Qed.

Lemma copy_out_cells s k : queue_wf s -> 0 <= k <= queue_contents s ->
  copy_out s k = cells (data s) (optr s) k.
Proof.
  intros W Hk. pose proof W as [Hi Ho Hd _]. pose proof (contents_facts s W) as (Hc & Hx & _).
  pose proof (contents_cases s). unfold copy_out. destruct (Z.ltb_spec (iptr s) (optr s)), (Z.ltb_spec (len s - optr s) k); cbn [andb].
  2,3,4: apply slice_cells; ring_cases.
  rewrite (slice_cells _ (optr s)), (slice_cells _ 0) by (ring_cases).
  replace k with ((len s - optr s) + (k - (len s - optr s))) at 2 by lia.
  rewrite cells_app by (ring_cases). do 2 f_equal. ring_cases.
Qed.

(** A read that is granted: the oldest octets, which leave the queue. *)
Definition taken (s : queue_state_t) (k : Z) : queue_state_t :=
  s <| optr := ridx (len s) (optr s) k |>.

Lemma taken_wf s k : queue_wf s -> 0 <= k <= queue_contents s ->
  queue_wf (taken s k) /\ contents (taken s k) = drop (Z.to_nat k) (contents s) /\
  queue_contents (taken s k) = queue_contents s - k.
Proof.
  intros W Hk. pose proof W as [Hi Ho Hd Hb]. pose proof (contents_facts s W) as (Hc & Hx & _).
  assert (queue_contents (taken s k) = queue_contents s - k) as E
    by (pose proof (contents_cases s); unfold queue_contents at 1; cbn; ring_cases).
  split; [|split; [|done]].
  - split; cbn; try done; [ring_cases].
  - unfold contents. rewrite E. unfold taken. cbn [optr data update eta_queue].
    rewrite (proj2 (cells_take (data s) (optr s) k (queue_contents s) ltac:(lia) Hk ltac:(lia))). f_equal. by rewrite Hd.
Qed.

Lemma copy_out_take s k : queue_wf s -> 0 <= k <= queue_contents s ->
  copy_out s k = take (Z.to_nat k) (contents s).
Proof.
  intros W Hk. pose proof W as [Hi Ho Hd Hb]. pose proof (contents_facts s W) as (Hc & _).
  rewrite copy_out_cells by done. unfold contents.
  by rewrite (proj1 (cells_take (data s) (optr s) k (queue_contents s) ltac:(lia) Hk ltac:(lia))).
Qed.

Lemma spec_len_range atomic available n k : spec_len atomic available n = Some k -> 0 <= n ->
  0 <= available -> 0 <= k <= available.
Proof.
  unfold spec_len. intros E Hn Ha.
  destruct (Z.ltb_spec available n), atomic; simplify_eq; lia.
Qed.

Lemma queue_read_eq s buf n : queue_wf s -> 0 <= n ->
  queue_read s buf n =
  match spec_len (read_atomic s) (queue_contents s) n with
  | None => (-1, [], s)
  | Some k => (k, if buf then take (Z.to_nat k) (contents s) else [], taken s k)
  end.
Proof.
  intros W Hn. unfold queue_read. rewrite read_len_spec.
  pose proof W as [Hi Ho Hd Hb]. pose proof (contents_facts s W) as (Hc & Hx & _).
  destruct (spec_len _ _ _) as [k|] eqn:E; [|done].
  pose proof (spec_len_range _ _ _ _ E Hn ltac:(lia)) as Hk.
  destruct (Z.eqb_spec k 0) as [->|].
  - assert (taken s 0 = s) as ->; [|by destruct buf].
    unfold taken. replace (ridx (len s) (optr s) 0) with (optr s) by ring_cases. by destruct s.
  - rewrite copy_out_take by done.
    replace (if (iptr s <? optr s) && (len s - optr s <? k) then k - (len s - optr s)
             else if len s <=? optr s + k then 0 else optr s + k)
      with (ridx (len s) (optr s) k); [done|].
    pose proof (contents_cases s). ring_cases.
Qed.

Lemma queue_view_eq s buf n : queue_wf s -> 0 <= n ->
  queue_view s buf n =
  match spec_len (read_atomic s) (queue_contents s) n with
  | None => (-1, [])
  | Some k => (k, if buf then take (Z.to_nat k) (contents s) else [])
  end.
Proof.
  intros W Hn. unfold queue_view. rewrite read_len_spec.
  destruct (spec_len _ _ _) as [k|] eqn:E; [|done].
  apply spec_len_range in E; [|done|by apply (contents_facts s W)].
  destruct (Z.eqb_spec k 0) as [->|]; [by destruct buf|]. by rewrite copy_out_take.
Qed.

Lemma queue_read_byte_eq s : queue_wf s ->
  queue_read_byte s =
  match contents s with
  | [] => (-1, s)
  | b :: _ => (b, taken s 1)
  end.
Proof.
  intros W. pose proof W as [Hi Ho Hd Hb]. pose proof (contents_facts s W) as (Hc & Hx & _ & Hl).
  unfold queue_read_byte. fold (queue_contents s).
  change (if iptr s - optr s <? 0 then iptr s - optr s + len s else iptr s - optr s)
    with (queue_contents s).
  destruct (Z.ltb_spec (queue_contents s) 1).
  - destruct (contents s); [done|cbn in Hl; lia].
  - unfold contents. replace (queue_contents s) with (1 + (queue_contents s - 1)) by lia.
    rewrite cells_app, cells_one by lia. cbn [app]. f_equal. unfold taken.
    replace (if len s <=? optr s + 1 then 0 else optr s + 1) with (ridx (len s) (optr s) 1); [done|].
    ring_cases.
Qed.

(** *** Writing *)

(** [l] written at the input pointer, which moves past it. *)
Definition written (s : queue_state_t) (d : list Z) (k : Z) : queue_state_t :=
  s <| data := d |> <| iptr := ridx (len s) (iptr s) k |>.

Lemma written_wf s d l : queue_wf s -> bytes d -> ring_put (data s) (iptr s) l d ->
  zlen l <= queue_free_space s ->
  queue_wf (written s d (zlen l)) /\ contents (written s d (zlen l)) = contents s ++ l /\
  queue_contents (written s d (zlen l)) = queue_contents s + zlen l.
Proof.
  intros W Hdb P Hl. pose proof W as [Hi Ho Hd Hb]. pose proof (contents_facts s W) as (Hc & Hx & Hf & _).
  assert (queue_contents (written s d (zlen l)) = queue_contents s + zlen l) as E
    by (pose proof (contents_cases s); unfold queue_contents at 1; cbn; ring_cases).
  pose proof P as [Hld _].
  split; [|split; [|done]].
  - split; cbn; try done; [ring_cases|lia].
  - unfold contents. rewrite E. unfold written. cbn [optr data update eta_queue].
    rewrite cells_app by lia. f_equal.
    + rewrite Hx, <- Hd in P. apply (ring_put_other _ _ _ _ _ P); lia.
    + rewrite Hld, Hd, <- Hx. by apply (ring_put_cells (data s)); [|lia..].
Qed.

Lemma slice_split l a n : 0 <= a -> 0 <= n -> a + n <= zlen l -> slice l 0 a ++ slice l a n = slice l 0 (a + n).
Proof.
  intros. unfold slice. change (Z.to_nat 0) with 0%nat. rewrite !drop_0.
  rewrite (Z2Nat.inj_add a n) by lia. by rewrite take_take_drop.
Qed.

Lemma ring_put_nil d i : 0 <= i < zlen d -> ring_put d i [] d.
Proof. intros Hi. split; [done|]. intros j Hj. change (zlen (@nil Z)) with 0. ring_cases. Qed.

Lemma queue_write_ok s buf : queue_wf s -> bytes buf ->
  match spec_len (write_atomic s) (queue_free_space s) (zlen buf) with
  | None => queue_write s buf = (-1, s)
  | Some k => exists d, queue_write s buf = (k, written s d k) /\
      zlen (slice buf 0 k) = k /\ bytes d /\ ring_put (data s) (iptr s) (slice buf 0 k) d
  end.
Proof.
  intros W Hbb. pose proof W as [Hi Ho Hd Hb]. pose proof (contents_facts s W) as (Hc & Hx & Hf & _).
  unfold queue_write, spec_len, write_atomic.
  change (if optr s - iptr s - 1 <? 0 then optr s - iptr s - 1 + len s else optr s - iptr s - 1)
    with (queue_free_space s).
  set (k := if queue_free_space s <? zlen buf then queue_free_space s else zlen buf).
  assert (0 <= k <= queue_free_space s /\ k <= zlen buf) as [Hk Hkb] by (subst k; ring_cases).
  assert (exists d,
    (if k =? 0 then (0, s)
     else
       let '(data', new_iptr) :=
         if (iptr s <? optr s) || (k <=? len s - iptr s) then
           (memcpy (data s) (iptr s) (slice buf 0 k),
            if len s <=? iptr s + k then 0 else iptr s + k)
         else
           (memcpy (memcpy (data s) (iptr s) (slice buf 0 (len s - iptr s))) 0
              (slice buf (len s - iptr s) (k - (len s - iptr s))), k - (len s - iptr s)) in
       (k, s <| data := data' |> <| iptr := new_iptr |>)) = (k, written s d k) /\
      zlen (slice buf 0 k) = k /\ bytes d /\ ring_put (data s) (iptr s) (slice buf 0 k) d) as Hgo.
  { clearbody k. assert (zlen (slice buf 0 k) = k) as Hkl by (apply length_slice; lia).
    destruct (Z.eqb_spec k 0) as [->|Hk0].
    - exists (data s). split; [|split; [done|split; [done|apply ring_put_nil; lia]]].
      f_equal. unfold written. replace (ridx (len s) (iptr s) 0) with (iptr s) by ring_cases.
      by destruct s.
    - destruct ((iptr s <? optr s) || (k <=? len s - iptr s)) eqn:E.
      + exists (memcpy (data s) (iptr s) (slice buf 0 k)).
        assert (iptr s + k <= len s).
        { pose proof (free_cases s). revert E. ring_cases. }
        split; [|split; [done|split]].
        * by replace (if len s <=? iptr s + k then 0 else iptr s + k)
            with (ridx (len s) (iptr s) k) by ring_cases.
        * apply bytes_memcpy; [done|by apply bytes_slice].
        * apply ring_put_memcpy; lia.
      + apply orb_false_iff in E as [E1%Z.ltb_ge E2%Z.leb_gt].
        set (e := len s - iptr s) in *.
        exists (memcpy (memcpy (data s) (iptr s) (slice buf 0 e)) 0 (slice buf e (k - e))).
        assert (zlen (slice buf 0 e) = e /\ zlen (slice buf e (k - e)) = k - e) as [Hl1 Hl2]
          by (split; apply length_slice; lia).
        split; [|split; [done|split]].
        * unfold written. by replace (ridx (len s) (iptr s) k) with (k - e) by (subst e; ring_cases).
        * repeat apply bytes_memcpy; try done; by apply bytes_slice.
        * replace k with (e + (k - e)) at 1 by lia. rewrite <- slice_split by lia.
          eapply ring_put_app; [apply ring_put_memcpy; lia| |lia|lia].
          replace (ridx (zlen (data s)) (iptr s) (zlen (slice buf 0 e))) with 0 by ring_cases.
          apply ring_put_memcpy; [lia|]. rewrite length_memcpy. pose proof (free_cases s). lia. }
  destruct (Z.ltb_spec (queue_free_space s) (zlen buf)), (negb (flags s .& QUEUE_WRITE_ATOMIC =? 0));
    cbn [andb]; try done; exact Hgo.
Qed.

Lemma ring_put_memcpy' d i l : 0 <= i -> i + zlen l <= zlen d -> 0 < zlen d ->
  ring_put d (if i <? zlen d then i else 0) l (memcpy d i l).
Proof.
  intros Hi Hl Hd. destruct (Z.ltb_spec i (zlen d)); [by apply ring_put_memcpy|].
  destruct l as [|x l]; [by apply ring_put_nil|]. cbn [length] in Hl. lia.
Qed.

(** What a copy of [l1] at [i], then of [l2] where it ends, puts in the ring. *)
Lemma ring_put_next d i l1 d1 j l2 : ring_put d i l1 d1 -> 0 <= i < zlen d ->
  0 <= j -> j + zlen l2 <= zlen d -> zlen l1 + zlen l2 <= zlen d ->
  (if j <? zlen d then j else 0) = ridx (zlen d) i (zlen l1) ->
  ring_put d i (l1 ++ l2) (memcpy d1 j l2).
Proof.
  intros P Hi Hj Hl Hll E. pose proof (proj1 P) as Hd1.
  eapply ring_put_app; [exact P| |done|done]. rewrite <- E, <- Hd1.
  apply ring_put_memcpy'; lia.
Qed.

Lemma queue_write_msg_ok s buf : queue_wf s -> bytes buf ->
  let msg := u16_octets (u16 (zlen buf)) ++ buf in
  if queue_free_space s <? zlen buf + 2 then queue_write_msg s buf = (-1, s)
  else exists d, queue_write_msg s buf = (zlen buf, written s d (zlen msg)) /\
         bytes d /\ ring_put (data s) (iptr s) msg d.
Proof.
  intros W Hbb msg. pose proof W as [Hi Ho Hd Hb]. pose proof (contents_facts s W) as (Hc & Hx & Hf & _).
  unfold queue_write_msg.
  change (if optr s - iptr s - 1 <? 0 then optr s - iptr s - 1 + len s else optr s - iptr s - 1)
    with (queue_free_space s).
  destruct (Z.ltb_spec (queue_free_space s) (zlen buf + 2)); [done|].
  set (lenx := u16_octets (u16 (zlen buf))) in *.
  assert (zlen lenx = 2) as Hlx by (unfold lenx, u16_octets; by rewrite length_le_split).
  assert (bytes lenx) as Hbx by apply bytes_le_split.
  assert (zlen msg = zlen buf + 2) as Hm by (subst msg; rewrite length_app; lia).
  set (e := len s - iptr s). pose proof (free_cases s) as Hfc.
  destruct ((iptr s <? optr s) || (zlen buf + 2 <=? e)) eqn:E.
  - eexists. split; [|split].
    + unfold written. rewrite Hm.
      by replace (ridx (len s) (iptr s) (zlen buf + 2))
        with (if len s <=? iptr s + (zlen buf + 2) then 0 else iptr s + (zlen buf + 2))
        by (subst e; revert E; ring_cases).
    + by repeat apply bytes_memcpy.
    + assert (iptr s + (zlen buf + 2) <= len s) by (subst e; revert E; ring_cases).
      eapply ring_put_next; [apply ring_put_memcpy; lia|lia..|]. rewrite Hlx. ring_cases.
  - apply orb_false_iff in E as [E1%Z.ltb_ge E2%Z.leb_gt].
    assert (0 < e) by (subst e; lia).
    destruct (Z.leb_spec 2 e).
    + pose proof (length_slice buf 0 (e - 2) ltac:(lia) ltac:(lia) ltac:(lia)) as L1.
      pose proof (length_slice buf (e - 2) (zlen buf + 2 - e) ltac:(lia) ltac:(lia) ltac:(lia)) as L2.
      eexists. split; [|split].
      * unfold written. rewrite Hm.
        by replace (ridx (len s) (iptr s) (zlen buf + 2)) with (zlen buf + 2 - e)
          by (subst e; ring_cases).
      * by repeat apply bytes_memcpy; try apply bytes_slice.
      * assert (msg = (lenx ++ slice buf 0 (e - 2)) ++ slice buf (e - 2) (zlen buf + 2 - e)) as ->.
        { subst msg. rewrite <- app_assoc, slice_split by lia. f_equal.
          replace (e - 2 + (zlen buf + 2 - e)) with (zlen buf) by lia.
          unfold slice. change (Z.to_nat 0) with 0%nat. by rewrite drop_0, Nat2Z.id, firstn_all. }
        assert (zlen (lenx ++ slice buf 0 (e - 2)) = e) as L3 by (rewrite length_app; lia).
        eapply ring_put_next; [eapply ring_put_next; [apply ring_put_memcpy; lia|lia..|]|lia..|].
        -- rewrite Hlx. subst e. ring_cases.
        -- rewrite L3. subst e. ring_cases.
    + pose proof (length_slice lenx 0 e ltac:(lia) ltac:(lia) ltac:(lia)) as L1.
      pose proof (length_slice lenx e (2 - e) ltac:(lia) ltac:(lia) ltac:(lia)) as L2.
      eexists. split; [|split].
      * unfold written. rewrite Hm.
        by replace (ridx (len s) (iptr s) (zlen buf + 2)) with (zlen buf + 2 - e)
          by (subst e; ring_cases).
      * by repeat apply bytes_memcpy; try apply bytes_slice.
      * assert (lenx = slice lenx 0 e ++ slice lenx e (2 - e)) as Hlenx.
        { rewrite slice_split by lia. replace (e + (2 - e)) with (zlen lenx) by lia.
          unfold slice. change (Z.to_nat 0) with 0%nat. by rewrite drop_0, Nat2Z.id, firstn_all. }
        subst msg. rewrite Hlenx at 1.
        assert (zlen (slice lenx 0 e ++ slice lenx e (2 - e)) = 2) as L3 by (rewrite length_app; lia).
        eapply ring_put_next; [eapply ring_put_next; [apply ring_put_memcpy; lia|lia..|]|lia..|].
        -- rewrite L1. subst e. ring_cases.
        -- rewrite L3. subst e. ring_cases.
Qed.

Lemma queue_write_byte_ok s b : queue_wf s -> is_byte b ->
  if queue_free_space s <? 1 then
    queue_write_byte s b = ((if write_atomic s then -1 else 0), s)
  else exists d, queue_write_byte s b = (1, written s d 1) /\ bytes d /\
         ring_put (data s) (iptr s) [b] d.
Proof.
  intros W Hbb. pose proof W as [Hi Ho Hd Hb]. unfold queue_write_byte, write_atomic.
  change (if optr s - iptr s - 1 <? 0 then optr s - iptr s - 1 + len s else optr s - iptr s - 1)
    with (queue_free_space s).
  destruct (Z.ltb_spec (queue_free_space s) 1); [by destruct (negb _)|].
  exists (aset (data s) (iptr s) b). split; [|split].
  - unfold written. by replace (ridx (len s) (iptr s) 1)
      with (if len s <=? iptr s + 1 then 0 else iptr s + 1) by ring_cases.
  - by apply bytes_aset.
  - apply (ring_put_memcpy (data s) (iptr s) [b]); simpl; lia.
Qed.

(** ** The abstract queue

    A list of octets, and how many more fit. *)

Definition abs_read (atomic : bool) (l : list Z) (buf : bool) (n : Z) : Z * list Z * list Z :=
  match spec_len atomic (zlen l) n with
  | None => (-1, [], l)
  | Some k => (k, if buf then take (Z.to_nat k) l else [], drop (Z.to_nat k) l)
  end.

Definition abs_write (atomic : bool) (space : Z) (l buf : list Z) : Z * list Z :=
  match spec_len atomic space (zlen buf) with
  | None => (-1, l)
  | Some k => (k, l ++ take (Z.to_nat k) buf)
  end.

(** A message with its length in front. *)
Definition encode_msg (m : list Z) : list Z := u16_octets (u16 (zlen m)) ++ m.

(** The queue holds exactly these messages. *)
Definition holds (s : queue_state_t) (msgs : list (list Z)) : Prop :=
  queue_wf s /\ contents s = concat (map encode_msg msgs) /\
  Forall (fun m => bytes m /\ zlen m < 2 ^ 16) msgs.

(** What stays the same under any operation. *)
Definition same_queue (s s' : queue_state_t) : Prop := flags s' = flags s /\ len s' = len s.

Lemma spec_len_enough atomic available n : n <= available -> spec_len atomic available n = Some n.
Proof. intros. unfold spec_len. by destruct (Z.ltb_spec available n); [lia|]. Qed.

Lemma slice_0_take l k : slice l 0 k = take (Z.to_nat k) l.
Proof. unfold slice. change (Z.to_nat 0) with 0%nat. by rewrite drop_0. Qed.

Lemma head_msg_length m l : bytes m -> zlen m < 2 ^ 16 ->
  take 2 (encode_msg m ++ l) = u16_octets (u16 (zlen m)) /\
  drop 2 (encode_msg m ++ l) = m ++ l /\ u16_value (u16_octets (u16 (zlen m))) = zlen m.
Proof.
  intros Hb Hl. unfold encode_msg, u16_value, u16_octets. rewrite <- app_assoc.
  split; [done|]. split; [done|]. rewrite le_combine_split. rewrite wrap_wrap by lia. apply wrap_id. lia.
Qed.

(** ** The properties *)

(** C19: reading is taking from the front of the queued octets: [queue_read] returns
    and removes the oldest ones, as many as asked for or as there are (none, with
    -1, when the queue reads atomically and has too few), wherever the ring
    wraps; [queue_view] returns the same and removes nothing; [queue_read_byte]
    takes one; the counts are those of the list. *)
Theorem queue_read_fifo (s : queue_state_t) (buf : bool) (n : Z) : queue_wf s -> 0 <= n ->
  let '(k, l, s') := queue_read s buf n in
  queue_wf s' /\ same_queue s s' /\
  (k, l, contents s') = abs_read (read_atomic s) (contents s) buf n /\
  queue_view s buf n = (k, l) /\
  queue_contents s = zlen (contents s) /\ queue_free_space s = len s - 1 - zlen (contents s) /\
  queue_empty s = bool_decide (contents s = []) /\
  match contents s with
  | [] => queue_read_byte s = (-1, s)
  | b :: rest => fst (queue_read_byte s) = b /\ contents (snd (queue_read_byte s)) = rest
  end.
Proof.
  intros W Hn. pose proof (contents_facts s W) as (Hc & _ & Hf & Hl).
  rewrite queue_read_eq, queue_view_eq, queue_read_byte_eq by done.
  assert (queue_empty s = bool_decide (contents s = [])) as He.
  { unfold queue_empty. pose proof (contents_cases s). destruct W.
    destruct (Z.eqb_spec (iptr s) (optr s)); symmetry.
    - apply bool_decide_eq_true. apply length_zero_iff_nil. lia.
    - apply bool_decide_eq_false. intros E. rewrite E in Hl. cbn in Hl. lia. }
  assert (match contents s with
          | [] => (match contents s with [] => (-1, s) | b :: _ => (b, taken s 1) end) = (-1, s)
          | b :: rest =>
              fst (match contents s with [] => (-1, s) | b :: _ => (b, taken s 1) end) = b /\
              contents (snd (match contents s with [] => (-1, s) | b :: _ => (b, taken s 1) end)) = rest
          end) as Hb.
  { destruct (contents s) as [|b rest] eqn:E; [done|]. cbn [fst snd]. split; [done|].
    rewrite (proj1 (proj2 (taken_wf s 1 W ltac:(cbn in Hl; lia)))), E. done. }
  unfold abs_read. rewrite Hl. destruct (spec_len _ _ _) as [k|] eqn:E.
  - apply spec_len_range in E; [|done|lia]. destruct (taken_wf s k W E) as (W' & Hd & _).
    split; [done|]. split; [done|]. rewrite Hd. split_and!; try done; lia.
  - split_and!; try done; lia.
Qed.

Lemma queue_read_fifo_witness :
  let s := {| flags := 0; len := 5; iptr := 1; optr := 3; data := [30; 0; 0; 10; 20] |} in
  queue_wf s /\ contents s = [10; 20; 30] /\
  let '(k, l, s') := queue_read s true 2 in
  queue_wf s' /\ same_queue s s' /\ (k, l, contents s') = abs_read (read_atomic s) (contents s) true 2 /\
  queue_view s true 2 = (k, l) /\
  queue_contents s = zlen (contents s) /\ queue_free_space s = len s - 1 - zlen (contents s) /\
  queue_empty s = bool_decide (contents s = []) /\
  match contents s with
  | [] => queue_read_byte s = (-1, s)
  | b :: rest => fst (queue_read_byte s) = b /\ contents (snd (queue_read_byte s)) = rest
  end.
Proof.
  intros s. assert (queue_wf s) as W by (split; cbn; try lia; by_decide).
  split; [exact W|]. split; [reflexivity|].
  exact (queue_read_fifo s true 2 W ltac:(lia)).
Defined.

(** Writing is appending to the queued octets: [queue_write] adds as many as
    fit (none, with -1, when the queue writes atomically and they do not all fit),
    [queue_write_byte] one; one slot of the ring is always kept free. *)
Theorem queue_write_fifo (s : queue_state_t) (buf : list Z) : queue_wf s -> bytes buf ->
  let '(k, s') := queue_write s buf in
  queue_wf s' /\ same_queue s s' /\ optr s' = optr s /\
  (k, contents s') = abs_write (write_atomic s) (queue_free_space s) (contents s) buf /\
  forall b, is_byte b ->
    let '(k1, s1) := queue_write_byte s b in
    queue_wf s1 /\ same_queue s s1 /\
    (k1, contents s1) = if queue_free_space s <? 1 then (if write_atomic s then -1 else 0, contents s)
                        else (1, contents s ++ [b]).
Proof.
  intros W Hb. pose proof (contents_facts s W) as (Hc & _ & Hf & Hl).
  assert (forall b, is_byte b -> let '(k1, s1) := queue_write_byte s b in
    queue_wf s1 /\ same_queue s s1 /\
    (k1, contents s1) = if queue_free_space s <? 1 then (if write_atomic s then -1 else 0, contents s)
                        else (1, contents s ++ [b])) as Hbyte.
  { intros b Hbb. pose proof (queue_write_byte_ok s b W Hbb) as H.
    destruct (Z.ltb_spec (queue_free_space s) 1); [by rewrite H|].
    destruct H as (d & -> & Hd & P).
    destruct (written_wf s d [b] W Hd P) as (W' & E & _); [cbn; lia|].
    split; [exact W'|]. split; [done|]. f_equal. exact E. }
  pose proof (queue_write_ok s buf W Hb) as H. unfold abs_write.
  destruct (spec_len _ _ _) as [k|] eqn:E; [|by rewrite H].
  destruct H as (d & -> & Hk & Hd & P). rewrite <- slice_0_take.
  apply spec_len_range in E; [|lia|lia].
  destruct (written_wf s d _ W Hd P) as (W' & Ec & _); [lia|]. rewrite Hk in W', Ec.
  split; [done|]. split; [done|]. split; [done|]. split; [by rewrite Ec|done].
Qed.

Lemma queue_write_fifo_witness :
  let s := {| flags := 0; len := 4; iptr := 3; optr := 1; data := [0; 7; 8; 0] |} in
  queue_wf s /\
  let '(k, s') := queue_write s [1; 2; 3] in
  queue_wf s' /\ same_queue s s' /\ optr s' = optr s /\
  (k, contents s') = abs_write (write_atomic s) (queue_free_space s) (contents s) [1; 2; 3] /\
  forall b, is_byte b ->
    let '(k1, s1) := queue_write_byte s b in
    queue_wf s1 /\ same_queue s s1 /\
    (k1, contents s1) = if queue_free_space s <? 1 then (if write_atomic s then -1 else 0, contents s)
                        else (1, contents s ++ [b]).
Proof.
  intros s. assert (queue_wf s) as W by (split; cbn; try lia; by_decide).
  split; [exact W|]. exact (queue_write_fifo s [1; 2; 3] W ltac:(by_decide)).
Defined.

Lemma read_front s buf n l1 l2 : queue_wf s -> contents s = l1 ++ l2 -> zlen l1 = n ->
  queue_read s buf n = (n, if buf then l1 else [], taken s n) /\
  queue_wf (taken s n) /\ contents (taken s n) = l2.
Proof.
  intros W E Hl. pose proof (contents_facts s W) as (Hc & _ & _ & Hn). rewrite E, length_app in Hn.
  rewrite queue_read_eq, spec_len_enough by (done || lia).
  destruct (taken_wf s n W) as (W' & Hd & _); [lia|].
  rewrite Hd, E. replace (Z.to_nat n) with (length l1) by lia.
  by rewrite take_app_length, drop_app_length.
Qed.

Lemma write_msg_fifo s msgs : holds s msgs -> forall m, bytes m -> zlen m < 2 ^ 16 ->
  let '(k, s') := queue_write_msg s m in
  if queue_free_space s <? zlen m + 2 then k = -1 /\ s' = s
  else k = zlen m /\ holds s' (msgs ++ [m]).
Proof.
  intros (W & Hc & Hm). pose proof (contents_facts s W) as (Hn & _ & Hf & Hl).
  intros m Hb Hlm. pose proof (queue_write_msg_ok s m W Hb) as H. cbv zeta in H.
  destruct (Z.ltb_spec (queue_free_space s) (zlen m + 2)); [by rewrite H|].
  destruct H as (d & -> & Hd & P). split; [done|].
  destruct (written_wf s d (encode_msg m) W Hd P) as (W' & E & _).
  { unfold encode_msg, u16_octets. rewrite length_app, length_le_split. lia. }
  split; [exact W'|]. split.
  + rewrite map_app, concat_app. cbn [map concat]. rewrite app_nil_r, <- Hc. exact E.
  + apply Forall_app_2; [done|]. by apply Forall_cons_2.
Qed.

Lemma read_msg_fifo s msgs : holds s msgs -> forall n, 0 <= n ->
  let '(k, l, s') := queue_read_msg s true n in
  match msgs with
  | [] => k = -1 /\ l = [] /\ s' = s
  | m :: msgs => k = Z.min n (zlen m) /\ l = take (Z.to_nat n) m /\ holds s' msgs
  end.
Proof.
  intros (W & Hc & Hm). pose proof (contents_facts s W) as (Hn & _ & Hf & Hl).
  intros n Hn0. destruct msgs as [|m msgs].
  { cbn in Hc. unfold queue_read_msg. rewrite queue_read_eq by (done || lia).
    rewrite Hc in Hl. cbn in Hl. rewrite <- Hl. unfold spec_len. cbn [Z.ltb Z.compare].
    destruct (read_atomic s); cbn [Z.eqb negb]; [done|]. split; [done|split; [done|]].
    change (Z.of_nat 0) with 0. unfold taken. destruct W. replace (ridx (len s) (optr s) 0) with (optr s) by ring_cases.
    by destruct s. }
  apply Forall_cons_1 in Hm as [[Hb Hlm] Hm]. cbn [map concat] in Hc.
  set (rest := concat (map encode_msg msgs)) in *.
  assert (contents s = u16_octets (u16 (zlen m)) ++ (m ++ rest)) as Hc1
    by (rewrite Hc; unfold encode_msg; by rewrite <- app_assoc).
  unfold queue_read_msg.
  destruct (read_front s true 2 _ _ W Hc1) as (-> & W1 & C1);
    [unfold u16_octets; by rewrite length_le_split|].
  cbn [Z.eqb Pos.eqb negb]. destruct (head_msg_length m rest Hb Hlm) as (_ & _ & ->).
  destruct (Z.eqb_spec (zlen m) 0) as [Hz|Hz].
  { assert (m = []) as -> by (apply length_zero_iff_nil; lia).
    split; [cbn; lia|]. split; [by rewrite take_nil|]. by split. }
  destruct (Z.ltb_spec n (zlen m)).
  + assert (contents (taken s 2) = take (Z.to_nat n) m ++ (drop (Z.to_nat n) m ++ rest)) as C1'
      by (rewrite C1, app_assoc, take_drop; done).
    destruct (read_front _ true n _ _ W1 C1') as (-> & W2 & C2); [rewrite length_take; lia|].
    destruct (read_front _ false (zlen m - n) _ _ W2 C2) as (-> & W3 & C3); [rewrite length_drop; lia|].
    split; [lia|]. split; [done|]. by split.
  + destruct (read_front _ true (zlen m) _ _ W1 C1) as (-> & W2 & C2); [done|].
    split; [lia|]. split; [by rewrite take_ge by lia|]. by split.
Qed.

Lemma test_msg_fifo s msgs : holds s msgs ->
  queue_state_test_msg s = match msgs with [] => -1 | m :: _ => zlen m end.
Proof.
  intros (W & Hc & Hm). pose proof (contents_facts s W) as (Hn & _ & Hf & Hl).
  unfold queue_state_test_msg. rewrite queue_view_eq by (done || lia). destruct msgs as [|m msgs].
  + cbn in Hc. rewrite Hc in Hl. cbn in Hl. rewrite <- Hl. unfold spec_len. cbn [Z.ltb Z.compare].
    by destruct (read_atomic s).
  + apply Forall_cons_1 in Hm as [[Hb Hlm] Hm]. cbn [map concat] in Hc.
    rewrite Hc in *. destruct (head_msg_length m (concat (map encode_msg msgs)) Hb Hlm) as (E & _ & V).
    rewrite spec_len_enough.
    * change (Z.to_nat 2) with 2%nat. rewrite E. cbn [Z.eqb Pos.eqb negb]. exact V.
    * unfold encode_msg, u16_octets in Hl. rewrite !length_app, length_le_split in Hl. lia.
Qed.

(** C20: messages go through the queue whole and in order.  A message of up to
    65535 octets is accepted exactly when it fits with its two octets of length,
    and goes behind those already queued; reading returns the oldest message, cut
    to the reader's buffer (the rest of it is dropped with it), [-1] when there is
    none; [queue_state_test_msg] tells its length. *)
Theorem queue_msg_fifo (s : queue_state_t) (msgs : list (list Z)) : holds s msgs ->
  (forall m, bytes m -> zlen m < 2 ^ 16 ->
     let '(k, s') := queue_write_msg s m in
     if queue_free_space s <? zlen m + 2 then k = -1 /\ s' = s
     else k = zlen m /\ holds s' (msgs ++ [m])) /\
  (forall n, 0 <= n ->
     let '(k, l, s') := queue_read_msg s true n in
     match msgs with
     | [] => k = -1 /\ l = [] /\ s' = s
     | m :: msgs => k = Z.min n (zlen m) /\ l = take (Z.to_nat n) m /\ holds s' msgs
     end) /\
  queue_state_test_msg s = match msgs with [] => -1 | m :: _ => zlen m end.
Proof.
  intros H. split; [by apply write_msg_fifo|]. split; [by apply read_msg_fifo|by apply test_msg_fifo].
Qed.

Lemma queue_msg_fifo_witness :
  let s := {| flags := 3; len := 10; iptr := 2; optr := 8; data := [5; 6; 0; 0; 0; 0; 0; 0; 2; 0] |} in
  holds s [[5; 6]] /\ queue_state_test_msg s = 2.
Proof.
  intros s. assert (holds s [[5; 6]]) as H.
  { split; [split; cbn; try lia; by_decide|]. split; [vm_compute; reflexivity|].
    apply (bool_decide_unpack _). vm_compute. exact I. }
  split; [exact H|]. exact (proj2 (proj2 (queue_msg_fifo s [[5; 6]] H))).
Defined.

(** A message longer than 65535 octets is accepted but its length is written
    modulo 2^16: what a reader then takes for the next message starts inside it. *)
Lemma long_msg_length s buf d : queue_wf s -> bytes buf -> zlen buf + 2 <= queue_free_space s ->
  queue_write_msg s buf = (zlen buf, d) -> contents d = contents s ++ u16_octets (u16 (zlen buf)) ++ buf.
Proof.
  intros W Hb Hf E. pose proof (queue_write_msg_ok s buf W Hb) as H. cbv zeta in H.
  destruct (Z.ltb_spec (queue_free_space s) (zlen buf + 2)); [lia|].
  destruct H as (d' & E' & Hd & P). rewrite E in E'. injection E' as ->.
  destruct (written_wf s d' (encode_msg buf) W Hd P) as (_ & Ec & _); [|exact Ec].
  unfold encode_msg, u16_octets. rewrite length_app, length_le_split. lia.
Qed.

(** A new queue is empty, and can hold [n] octets; flushing empties it. *)
Lemma queue_init_empty n fl mem : 0 <= n -> zlen mem = n + 1 -> bytes mem ->
  holds (queue_init n fl mem) [] /\ queue_free_space (queue_init n fl mem) = n.
Proof.
  intros Hn Hm Hb. split; [split; [|done]|].
  - split; cbn; done || lia.
  - unfold queue_free_space. cbn. ring_cases.
Qed.

Lemma queue_flush_empty s : queue_wf s -> queue_wf (queue_flush s) /\ contents (queue_flush s) = [].
Proof.
  intros W. assert (queue_wf (queue_flush s)) as W' by (destruct W; by split).
  split; [done|]. pose proof (contents_facts _ W') as (_ & _ & _ & Hl).
  apply length_zero_iff_nil. assert (queue_contents (queue_flush s) = 0); [|lia].
  unfold queue_contents. cbn. ring_cases.
Qed.
