(* ===== verification/Bitstream.v ===== *)
(** * Bit streams (src/spandsp-0.0.6/src/bitstream.c)

    Packing fields of some bits into octets and back, in either bit order.  The
    C writes and reads through a pointer it advances; here [put] and [flush]
    return the octets written, [get] takes the octets ahead and returns those
    left ([None] where C would read past them). *)
From S2P Require Import Prelude.

(** ** Definitions *)

Record bitstream_state_t := {
  bitstream : Z;
  residue : Z;
  lsb_first : bool;
}.

#[export] Instance eta_bitstream : Eta bitstream_state_t := fun s =>
  Build_bitstream_state_t (bitstream s) (residue s) (lsb_first s).

(** The [while (s->residue >= 8)] loop, least significant bit first.  At most 32
    bits are pending, so four turns are enough. *)
Fixpoint put_loop_lsb (fuel : nat) (s : bitstream_state_t) : list Z * bitstream_state_t :=
  match fuel with
  | O => ([], s)
  | S fuel =>
      if 8 <=? residue s then
        let s := s <| residue := residue s - 8 |> in
        let b := u8 (bitstream s .& 0xFF) in
        let s := s <| bitstream := bitstream s .>> 8 |> in
        let '(l, s) := put_loop_lsb fuel s in (b :: l, s)
      else ([], s)
  end.

Fixpoint put_loop_msb (fuel : nat) (s : bitstream_state_t) : list Z * bitstream_state_t :=
  match fuel with
  | O => ([], s)
  | S fuel =>
      if 8 <=? residue s then
        let s := s <| residue := residue s - 8 |> in
        let b := u8 ((bitstream s .>> residue s) .& 0xFF) in
        let '(l, s) := put_loop_msb fuel s in (b :: l, s)
      else ([], s)
  end.

Definition bitstream_put (s : bitstream_state_t) (value nbits : Z) : list Z * bitstream_state_t :=
  let value := value .& ((1 .<< nbits) - 1) in
  if lsb_first s then
    let s := if residue s + nbits <=? 32 then
               s <| bitstream := bitstream s .| u32 (value .<< residue s) |>
                 <| residue := residue s + nbits |>
             else s in
    put_loop_lsb 4 s
  else
    let s := if residue s + nbits <=? 32 then
               s <| bitstream := u32 (bitstream s .<< nbits) .| value |>
                 <| residue := residue s + nbits |>
             else s in
    put_loop_msb 4 s.

Definition bitstream_flush (s : bitstream_state_t) : list Z * bitstream_state_t :=
  let '(l, s) :=
    if 0 <? residue s then
      let s := s <| bitstream := bitstream s .& ((1 .<< residue s) - 1) |> in
      let b := if lsb_first s then u8 (bitstream s)
               else u8 (u32 (bitstream s .<< (8 - residue s))) in
      ([b], s <| residue := 0 |>)
    else ([], s) in
  (l, s <| bitstream := 0 |>).

(** The [while (s->residue < bits)] loops; four octets are enough for any
    number of bits up to 32. *)
Fixpoint get_loop (fuel : nat) (s : bitstream_state_t) (nbits : Z) (c : list Z)
    : option (bitstream_state_t * list Z) :=
  if residue s <? nbits then
    match fuel, c with
    | S fuel, b :: c =>
        let bs := if lsb_first s then bitstream s .| u32 (b .<< residue s)
                  else u32 (bitstream s .<< 8) .| b in
        get_loop fuel (s <| bitstream := bs |> <| residue := residue s + 8 |>) nbits c
    | _, _ => None
    end
  else Some (s, c).

(** The value, the octets left and the state. *)
Definition bitstream_get (s : bitstream_state_t) (c : list Z) (nbits : Z)
    : option (Z * list Z * bitstream_state_t) :=
  '(s, c) ← get_loop 4 s nbits c;
  let s := s <| residue := residue s - nbits |> in
  Some (if lsb_first s then
          (bitstream s .& ((1 .<< nbits) - 1), c, s <| bitstream := bitstream s .>> nbits |>)
        else ((bitstream s .>> residue s) .& ((1 .<< nbits) - 1), c, s)).

Definition bitstream_init (lsb : bool) : bitstream_state_t :=
  {| bitstream := 0; residue := 0; lsb_first := lsb |}.

(** A sequence of fields: what [put] writes for them, and what [get] reads. *)
Fixpoint put_fields (s : bitstream_state_t) (fields : list (Z * Z)) : list Z * bitstream_state_t :=
  match fields with
  | [] => ([], s)
  | (v, n) :: fields =>
      let '(l1, s) := bitstream_put s v n in
      let '(l2, s) := put_fields s fields in
      (l1 ++ l2, s)
  end.

Fixpoint get_fields (s : bitstream_state_t) (c : list Z) (widths : list Z) : option (list Z) :=
  match widths with
  | [] => Some []
  | n :: widths =>
      '(v, c, s) ← bitstream_get s c n;
      (cons v) <$> get_fields s c widths
  end.

(** ** The stream as bits *)

(** The low [n] bits of [x], in the order the stream sends them. *)
Definition order_bits (lsb : bool) (n : Z) (x : Z) : list bool :=
  if lsb then lsb_bits (Z.to_nat n) x else msb_bits (Z.to_nat n) x.

Definition stream_bits (lsb : bool) (octets : list Z) : list bool :=
  concat (map (order_bits lsb 8) octets).

Lemma length_order_bits lsb n x : length (order_bits lsb n x) = Z.to_nat n.
Proof. destruct lsb; [apply length_lsb_bits|apply length_msb_bits]. Qed.

Lemma order_bits_ext lsb n x y : (forall i, 0 <= i < n -> Z.testbit x i = Z.testbit y i) ->
  order_bits lsb n x = order_bits lsb n y.
Proof. intros H. destruct lsb; [apply lsb_bits_ext|apply msb_bits_ext]; intros i Hi; apply H; lia. Qed.

(** [m] bits and then [n], in either order. *)
Lemma order_bits_app (lsb : bool) m n x y z : 0 <= m -> 0 <= n ->
  (forall i, 0 <= i < m -> Z.testbit z (if lsb then i else i + n) = Z.testbit x i) ->
  (forall i, 0 <= i < n -> Z.testbit z (if lsb then i + m else i) = Z.testbit y i) ->
  order_bits lsb (m + n) z = order_bits lsb m x ++ order_bits lsb n y.
Proof.
  intros Hm Hn Hx Hy. unfold order_bits. rewrite Z2Nat.inj_add by done. destruct lsb.
  - rewrite lsb_bits_app. f_equal; apply lsb_bits_ext; intros i Hi; [apply Hx; lia|].
    bit_specs. rewrite Z2Nat.id by lia. apply Hy. lia.
  - rewrite msb_bits_app. f_equal; apply msb_bits_ext; intros i Hi; [|apply Hy; lia].
    bit_specs. rewrite Z2Nat.id by lia. apply Hx. lia.
Qed.

Lemma order_bits_inj lsb n x y : 0 <= n -> 0 <= x < 2 ^ n -> 0 <= y < 2 ^ n ->
  order_bits lsb n x = order_bits lsb n y -> x = y.
Proof.
  intros Hn Hx Hy H. apply (bits_of_range_inj (Z.to_nat n)); rewrite ?Z2Nat.id by lia; try done.
  intros i Hi. unfold order_bits in H. destruct lsb.
  - rewrite (lsb_bits_testbit (Z.to_nat n) x), (lsb_bits_testbit (Z.to_nat n) y) by lia. by rewrite H.
  - rewrite <- (nth_msb_bits (Z.to_nat n) x), <- (nth_msb_bits (Z.to_nat n) y) by lia. by rewrite H.
Qed.

Lemma mask_testbit x n i : 0 <= n -> 0 <= i ->
  Z.testbit (x .& ((1 .<< n) - 1)) i = (i <? n) && Z.testbit x i.
Proof.
  intros Hn Hi. rewrite Z.shiftl_1_l, Z.sub_1_r, <- Z.ones_equiv. bit_specs.
  destruct (Z.leb_spec 0 i); [|lia]. apply andb_comm.
Qed.

Lemma mask_range x n : 0 <= n -> 0 <= x .& ((1 .<< n) - 1) < 2 ^ n.
Proof.
  intros Hn. rewrite Z.shiftl_1_l, Z.sub_1_r, <- Z.ones_equiv, Z.land_ones by done.
  apply Z.mod_pos_bound. by apply Z.pow_pos_nonneg.
Qed.

(** ** Writing *)

(** Between calls: less than an octet is pending; first bits first. *)
Record bs_wf (s : bitstream_state_t) : Prop := {
  bs_residue : 0 <= residue s <= 32;
  bs_word : 0 <= bitstream s < 2 ^ 32;
  bs_clear : lsb_first s = true -> bitstream s < 2 ^ residue s;
}.

Definition pending (s : bitstream_state_t) : list bool :=
  order_bits (lsb_first s) (residue s) (bitstream s).

(** The octets leaving a loop are the oldest pending bits. *)
Lemma put_loop_spec fuel s : bs_wf s -> residue s < 8 * Z.of_nat fuel + 8 ->
  let '(l, s') := (if lsb_first s then put_loop_lsb fuel s else put_loop_msb fuel s) in
  bs_wf s' /\ residue s' < 8 /\ lsb_first s' = lsb_first s /\ bytes l /\
  stream_bits (lsb_first s) l ++ pending s' = pending s.
Proof.
  revert s. induction fuel as [|fuel IH]; intros s W Hf.
  - by destruct (lsb_first s) eqn:El; (split; [done|]); (split; [lia|]).
  - destruct (lsb_first s) eqn:El.
    + cbn [put_loop_lsb]. destruct (Z.leb_spec 8 (residue s)) as [H8|H8]; [|done].
      set (s1 := s <| residue := residue s - 8 |> <| bitstream := _ |>).
      pose proof W as [Hr Hw Hc]. specialize (Hc El).
      assert (bs_wf s1) as W1.
      { split; cbn; [lia|by apply shiftr_range|]. intros _.
        apply shiftr_small; [lia| |lia]. replace (residue s - 8 + 8) with (residue s) by lia. lia. }
      specialize (IH s1 W1). change (lsb_first s1) with (lsb_first s) in IH. rewrite El in IH.
      destruct (put_loop_lsb fuel s1) as [l s'].
      destruct IH as (W' & R' & L' & B' & P'); [cbn; lia|].
      split; [done|]. split; [done|]. split; [done|]. split; [apply Forall_cons_2; auto with bits|].
      unfold stream_bits in *. cbn [map concat]. rewrite <- app_assoc, P'.
      transitivity (order_bits true (8 + (residue s - 8)) (bitstream s));
        [|unfold pending; rewrite El; f_equal; lia].
      unfold pending. change (lsb_first s1) with (lsb_first s). rewrite El.
      change (residue s1) with (residue s - 8).
      symmetry. apply (order_bits_app true 8 (residue s - 8)); [lia|lia| |].
      * intros i Hi. change 0xFF with (Z.ones 8). bit_specs.
        change (bitstream (s <| residue := residue s - 8 |>)) with (bitstream s).
        destruct (Z.ltb_spec i 8), (Z.leb_spec 0 i); try lia. by rewrite andb_true_r.
      * intros i Hi. cbn. by bit_specs.
    + cbn [put_loop_msb]. destruct (Z.leb_spec 8 (residue s)) as [H8|H8]; [|done].
      set (s1 := s <| residue := residue s - 8 |>).
      pose proof W as [Hr Hw Hc].
      assert (bs_wf s1) as W1 by (split; cbn; [lia|done|by rewrite El]).
      specialize (IH s1 W1). change (lsb_first s1) with (lsb_first s) in IH. rewrite El in IH.
      destruct (put_loop_msb fuel s1) as [l s'].
      destruct IH as (W' & R' & L' & B' & P'); [cbn; lia|].
      split; [done|]. split; [done|]. split; [done|]. split; [apply Forall_cons_2; auto with bits|].
      unfold stream_bits in *. cbn [map concat]. rewrite <- app_assoc, P'.
      transitivity (order_bits false (8 + (residue s - 8)) (bitstream s));
        [|unfold pending; rewrite El; f_equal; lia].
      unfold pending. change (lsb_first s1) with (lsb_first s). rewrite El.
      change (residue s1) with (residue s - 8).
      symmetry. apply (order_bits_app false 8 (residue s - 8)); [lia|lia| |].
      * intros i Hi. change 0xFF with (Z.ones 8). bit_specs.
        change (bitstream s1) with (bitstream s). change (residue s1) with (residue s - 8).
        bit_specs. destruct (Z.ltb_spec i 8), (Z.leb_spec 0 i); try lia. by rewrite andb_true_r.
      * done.
Qed.

Lemma mask_id n v : 0 <= n -> 0 <= v < 2 ^ n -> v .& ((1 .<< n) - 1) = v.
Proof.
  intros Hn Hv. apply Z.bits_inj'. intros i Hi. rewrite mask_testbit by done.
  destruct (Z.ltb_spec i n); [done|]. by rewrite (testbit_high n) by lia.
Qed.

(** A field of up to 25 bits always fits behind what is pending. *)
Lemma put_spec s v n : bs_wf s -> residue s < 8 -> 0 <= n <= 25 ->
  let '(l, s') := bitstream_put s v n in
  bs_wf s' /\ residue s' < 8 /\ lsb_first s' = lsb_first s /\ bytes l /\
  stream_bits (lsb_first s) l ++ pending s' = pending s ++ order_bits (lsb_first s) n v.
Proof.
  intros W Hr Hn. pose proof W as [Hr0 Hw Hc]. unfold bitstream_put.
  set (m := v .& ((1 .<< n) - 1)). pose proof (mask_range v n ltac:(lia)) as Hm. fold m in Hm.
  assert (2 ^ n <= 2 ^ 25) by (apply Z.pow_le_mono_r; lia).
  destruct (Z.leb_spec (residue s + n) 32); [|lia].
  assert (forall x, bs_wf x -> residue x < 40 -> lsb_first x = lsb_first s ->
            pending x = pending s ++ order_bits (lsb_first s) n v ->
            let '(l, s') := (if lsb_first s then put_loop_lsb 4 x else put_loop_msb 4 x) in
            bs_wf s' /\ residue s' < 8 /\ lsb_first s' = lsb_first s /\ bytes l /\
            stream_bits (lsb_first s) l ++ pending s' = pending s ++ order_bits (lsb_first s) n v)
    as Hgo.
  { intros x Wx Hx Lx Px. pose proof (put_loop_spec 4 x Wx ltac:(lia)) as Hq. rewrite Lx, Px in Hq.
    exact Hq. }
  destruct (lsb_first s) eqn:El.
  - specialize (Hc eq_refl). set (x := s <| bitstream := _ |> <| residue := _ |>).
    assert (0 <= bitstream s < 2 ^ residue s) by lia.
    assert (0 <= m .<< residue s < 2 ^ (residue s + n)) as Hsh.
    { rewrite Z.shiftl_mul_pow2, Z.pow_add_r by lia. pose proof (Z.pow_pos_nonneg 2 (residue s)). nia. }
    assert (2 ^ (residue s + n) <= 2 ^ 32) by (apply Z.pow_le_mono_r; lia).
    assert (2 ^ residue s <= 2 ^ (residue s + n)) by (apply Z.pow_le_mono_r; lia).
    assert (0 <= bitstream s .| (m .<< residue s) < 2 ^ (residue s + n)) by (apply lor_range; lia).
    assert (bitstream x = bitstream s .| (m .<< residue s)) as Ex.
    { subst x. cbn. rewrite wrap_id by lia. done. }
    apply (Hgo x); [|cbn; lia|done|].
    + split; [cbn; lia|rewrite Ex; lia|]. intros _. rewrite Ex. cbn. lia.
    + unfold pending. change (lsb_first x) with (lsb_first s). rewrite El, Ex.
      change (residue x) with (residue s + n). apply (order_bits_app true); [lia|lia| |].
      * intros i Hi. bit_specs. destruct (Z.leb_spec (residue s) i); [lia|]. by rewrite orb_false_r.
      * intros i Hi. bit_specs. rewrite (testbit_high (residue s)) by lia.
        destruct (Z.leb_spec (residue s) (i + residue s)); [|lia]. cbn [orb andb].
        replace (i + residue s - residue s) with i by lia. subst m.
        rewrite mask_testbit by lia. by destruct (Z.ltb_spec i n); [|lia].
  - set (x := s <| bitstream := _ |> <| residue := _ |>).
    apply (Hgo x); [|cbn; lia|done|].
    + split; [cbn; lia| |by cbn; rewrite El]. cbn. apply lor_range; [lia|by apply wrap_range|lia].
    + unfold pending. change (lsb_first x) with (lsb_first s). rewrite El.
      change (residue x) with (residue s + n).
      change (bitstream x) with (u32 (bitstream s .<< n) .| m).
      apply (order_bits_app false); [lia|lia| |].
      * intros i Hi. bit_specs. rewrite (testbit_high n m) by lia. rewrite orb_false_r.
        destruct (Z.ltb_spec (i + n) 32), (Z.leb_spec n (i + n)); try lia. cbn [andb].
        f_equal. lia.
      * intros i Hi. bit_specs. destruct (Z.leb_spec n i); [lia|]. rewrite andb_false_r. cbn [orb andb].
        subst m. rewrite mask_testbit by lia. by destruct (Z.ltb_spec i n); [|lia].
Qed.

(** Flushing pads the last octet with zeros. *)
Lemma flush_spec s : bs_wf s -> residue s < 8 ->
  let '(l, s') := bitstream_flush s in
  bs_wf s' /\ residue s' = 0 /\ bitstream s' = 0 /\ lsb_first s' = lsb_first s /\ bytes l /\
  exists k, stream_bits (lsb_first s) l = pending s ++ repeat false k.
Proof.
  intros W Hr. pose proof W as [Hr0 Hw Hc]. unfold bitstream_flush.
  destruct (Z.ltb_spec 0 (residue s)).
  - set (s1 := s <| bitstream := _ |>). set (b := if lsb_first s1 then _ else _).
    assert (order_bits (lsb_first s) 8 b =
            pending s ++ order_bits (lsb_first s) (8 - residue s) 0) as E.
    { unfold pending. replace 8 with (residue s + (8 - residue s)) at 1 by lia. subst b.
      change (lsb_first s1) with (lsb_first s). change (residue s1) with (residue s).
      change (bitstream s1) with (bitstream s .& ((1 .<< residue s) - 1)).
      pose proof (fun i => mask_testbit (bitstream s) (residue s) i ltac:(lia)) as Hm.
      set (m := bitstream s .& ((1 .<< residue s) - 1)) in *. clearbody m.
      destruct (lsb_first s); (apply order_bits_app; [lia|lia| |]); intros i Hi; bit_specs;
        try rewrite Hm by lia.
      - destruct (Z.ltb_spec i 8), (Z.ltb_spec i (residue s)); done || lia.
      - destruct (Z.ltb_spec (i + residue s) (residue s)); [lia|]. by rewrite andb_false_r.
      - destruct (Z.ltb_spec (i + (8 - residue s)) 8), (Z.ltb_spec (i + (8 - residue s)) 32),
          (Z.leb_spec (8 - residue s) (i + (8 - residue s))); try lia. cbn [andb].
        replace (i + (8 - residue s) - (8 - residue s)) with i by lia.
        destruct (Z.ltb_spec i (residue s)); done || lia.
      - destruct (Z.leb_spec (8 - residue s) i); [lia|]. by rewrite !andb_false_r. }
    split; [by split; cbn; lia|]. split; [done|]. split; [done|]. split; [done|]. split.
    { apply Forall_cons_2; [|done]. subst b. destruct (lsb_first s1); auto with bits. }
    exists (Z.to_nat (8 - residue s)). unfold stream_bits. cbn [map concat]. rewrite app_nil_r, E. f_equal.
    unfold order_bits. generalize (Z.to_nat (8 - residue s)) as k. clear. intros k.
    destruct (lsb_first s); induction k as [|k IH]; cbn; try done; by rewrite ?Z.bits_0, IH.
  - split; [by split; cbn; lia|]. split; [cbn; lia|]. split; [done|]. split; [done|]. split; [done|].
    exists 0%nat. rewrite app_nil_r. unfold pending. replace (residue s) with 0 by lia.
    by destruct (lsb_first s).
Qed.

(** ** Reading *)

Lemma load_spec s b : bs_wf s -> is_byte b -> residue s <= 24 ->
  let bs := if lsb_first s then bitstream s .| u32 (b .<< residue s)
            else u32 (bitstream s .<< 8) .| b in
  let s' := s <| bitstream := bs |> <| residue := residue s + 8 |> in
  bs_wf s' /\ pending s' = pending s ++ order_bits (lsb_first s) 8 b.
Proof.
  intros W Hb Hr bs s'. pose proof W as [Hr0 Hw Hc].
  assert (0 <= b < 2 ^ 8) as Hb' by exact Hb.
  unfold pending. change (lsb_first s') with (lsb_first s). change (residue s') with (residue s + 8).
  change (bitstream s') with bs. destruct (lsb_first s) eqn:El.
  - specialize (Hc eq_refl).
    assert (0 <= b .<< residue s < 2 ^ (residue s + 8)) as Hsh.
    { rewrite Z.shiftl_mul_pow2, Z.pow_add_r by lia. pose proof (Z.pow_pos_nonneg 2 (residue s)). nia. }
    assert (2 ^ (residue s + 8) <= 2 ^ 32) by (apply Z.pow_le_mono_r; lia).
    assert (2 ^ residue s <= 2 ^ (residue s + 8)) by (apply Z.pow_le_mono_r; lia).
    assert (bs = bitstream s .| (b .<< residue s)) as Ebs by (subst bs; by rewrite wrap_id by lia).
    assert (0 <= bs < 2 ^ (residue s + 8)) by (rewrite Ebs; apply lor_range; lia).
    split.
    + split; [cbn; lia|cbn; fold bs; lia|]. intros _. cbn. fold bs. lia.
    + apply (order_bits_app true); [lia|lia| |]; intros i Hi; rewrite Ebs; bit_specs.
      * destruct (Z.leb_spec (residue s) i); [lia|]. by rewrite orb_false_r.
      * rewrite (testbit_high (residue s)) by lia.
        destruct (Z.leb_spec (residue s) (i + residue s)); [|lia]. cbn [orb andb]. f_equal. lia.
  - split.
    + split; [cbn; lia| |by cbn; rewrite El]. cbn. fold bs. subst bs.
      apply lor_range; [lia|by apply wrap_range|lia].
    + apply (order_bits_app false); [lia|lia| |]; intros i Hi; subst bs; bit_specs.
      * rewrite (testbit_high 8 b) by lia. rewrite orb_false_r.
        destruct (Z.ltb_spec (i + 8) 32), (Z.leb_spec 8 (i + 8)); try lia. cbn [andb]. f_equal. lia.
      * destruct (Z.leb_spec 8 i); [lia|]. by rewrite andb_false_r.
Qed.

Lemma get_loop_spec fuel s n c : bs_wf s -> bytes c -> 0 <= n <= 25 -> n <= residue s + 8 * Z.of_nat fuel ->
  n <= residue s + 8 * zlen c -> residue s <= 32 ->
  exists s' c', get_loop fuel s n c = Some (s', c') /\ bs_wf s' /\ n <= residue s' /\ bytes c' /\
    lsb_first s' = lsb_first s /\
    pending s' ++ stream_bits (lsb_first s) c' = pending s ++ stream_bits (lsb_first s) c.
Proof.
  revert s c. induction fuel as [|fuel IH]; intros s c W Hc Hn Hf Hl Hr; cbn [get_loop].
  - destruct (Z.ltb_spec (residue s) n); [lia|]. exists s, c. by split_and!.
  - destruct (Z.ltb_spec (residue s) n); [|exists s, c; by split_and!].
    destruct c as [|b c]; [cbn in Hl; lia|]. apply Forall_cons_1 in Hc as [Hb Hc].
    destruct (load_spec s b W Hb ltac:(lia)) as [W1 P1]. cbv zeta in *.
    set (s1 := s <| bitstream := _ |> <| residue := _ |>) in *.
    destruct (IH s1 c W1 Hc Hn) as (s' & c' & E & W' & R' & B' & L' & P');
      [cbn; lia|cbn in *; lia|cbn; lia|].
    exists s', c'. split; [exact E|]. split_and!; try done.
    change (lsb_first s1) with (lsb_first s) in P'. rewrite P', P1, <- app_assoc. done.
Qed.

Lemma get_spec s n c : bs_wf s -> bytes c -> 0 <= n <= 25 -> n <= residue s + 8 * zlen c ->
  exists x c' s', bitstream_get s c n = Some (x, c', s') /\ bs_wf s' /\ bytes c' /\
    lsb_first s' = lsb_first s /\ 0 <= x < 2 ^ n /\
    order_bits (lsb_first s) n x ++ pending s' ++ stream_bits (lsb_first s) c' =
    pending s ++ stream_bits (lsb_first s) c.
Proof.
  intros W Hc Hn Hl.
  destruct (get_loop_spec 4 s n c W Hc Hn) as (s1 & c1 & E & W1 & R1 & B1 & L1 & P1);
    [destruct W; lia|done|apply W|].
  unfold bitstream_get. rewrite E. cbn [mbind option_bind].
  pose proof W1 as [Hr1 Hw1 Hc1].
  change (lsb_first (s1 <| residue := residue s1 - n |>)) with (lsb_first s1).
  rewrite <- L1 in *. destruct (lsb_first s1) eqn:El.
  - specialize (Hc1 eq_refl). do 3 eexists. split; [done|].
    split; [|split; [done|split; [done|split; [by apply mask_range; lia|]]]].
    + split; cbn; [lia|by apply shiftr_range; lia|]. intros _. apply shiftr_small; [lia| |lia].
      replace (residue s1 - n + n) with (residue s1) by lia. lia.
    + rewrite <- P1. unfold pending. cbn [lsb_first residue bitstream].
      change (lsb_first (_ <| bitstream := _ |>)) with (lsb_first s1). rewrite El.
      rewrite app_assoc. f_equal. symmetry.
      replace (residue s1) with (n + (residue s1 - n)) at 1 by lia.
      apply (order_bits_app true); [lia|cbn; lia| |]; intros i Hi.
      * rewrite mask_testbit by lia. by destruct (Z.ltb_spec i n); [|lia].
      * cbn. bit_specs. done.
  - do 3 eexists. split; [done|].
    split; [|split; [done|split; [done|split; [by apply mask_range; lia|]]]].
    + split; cbn; [lia|done|by rewrite El].
    + rewrite <- P1. unfold pending.
      change (lsb_first (s1 <| residue := residue s1 - n |>)) with (lsb_first s1). rewrite El.
      rewrite app_assoc. f_equal. symmetry.
      replace (residue s1) with (n + (residue s1 - n)) at 1 by lia.
      apply (order_bits_app false); [lia|cbn; lia| |]; intros i Hi; [|done].
      rewrite mask_testbit by lia. destruct (Z.ltb_spec i n); [|lia]. cbn. bit_specs. done.
Qed.

(** ** Round trip *)

Definition field_bits (lsb : bool) (f : Z * Z) : list bool := order_bits lsb (snd f) (fst f).
Definition field_value (f : Z * Z) : Z := fst f mod 2 ^ snd f.
Definition field_ok (f : Z * Z) : Prop := 0 <= snd f <= 25.

Lemma stream_bits_app lsb a b : stream_bits lsb (a ++ b) = stream_bits lsb a ++ stream_bits lsb b.
Proof. unfold stream_bits. by rewrite map_app, concat_app. Qed.

Lemma length_stream_bits lsb a : length (stream_bits lsb a) = (8 * length a)%nat.
Proof.
  induction a as [|x a IH]; [done|]. unfold stream_bits in *. cbn [map concat].
  rewrite length_app, length_order_bits, IH. simpl. lia.
Qed.

Lemma put_fields_spec fields s : bs_wf s -> residue s < 8 -> Forall field_ok fields ->
  let '(l, s') := put_fields s fields in
  bs_wf s' /\ residue s' < 8 /\ lsb_first s' = lsb_first s /\ bytes l /\
  stream_bits (lsb_first s) l ++ pending s' =
  pending s ++ concat (map (field_bits (lsb_first s)) fields).
Proof.
  revert s. induction fields as [|[v n] fields IH]; intros s W Hr Hf; cbn [put_fields].
  { cbn. rewrite app_nil_r. done. }
  apply Forall_cons_1 in Hf as [Hn Hf]. pose proof (put_spec s v n W Hr Hn) as H1.
  destruct (bitstream_put s v n) as [l1 s1]. destruct H1 as (W1 & R1 & L1 & B1 & P1).
  specialize (IH s1 W1 R1 Hf). destruct (put_fields s1 fields) as [l2 s2].
  destruct IH as (W2 & R2 & L2 & B2 & P2). rewrite L1 in *.
  split; [done|]. split; [done|]. split; [done|]. split; [by apply Forall_app_2|].
  rewrite stream_bits_app, <- app_assoc, P2, app_assoc, P1, <- app_assoc. done.
Qed.

Lemma app_prefix_eq {A} (a1 a2 b1 b2 : list A) : length a1 = length a2 -> a1 ++ b1 = a2 ++ b2 ->
  a1 = a2 /\ b1 = b2.
Proof. intros Hl E. by apply app_inj_1 in E. Qed.

Lemma get_fields_spec fields s c tail : bs_wf s -> bytes c -> Forall field_ok fields ->
  pending s ++ stream_bits (lsb_first s) c = concat (map (field_bits (lsb_first s)) fields) ++ tail ->
  get_fields s c (map snd fields) = Some (map field_value fields).
Proof.
  revert s c. induction fields as [|[v n] fields IH]; intros s c W Hc Hf E; [done|].
  apply Forall_cons_1 in Hf as [Hn Hf]. cbn [map concat snd] in *. unfold field_ok in Hn. cbn in Hn.
  assert (n <= residue s + 8 * zlen c) as Hl.
  { apply (f_equal length) in E. rewrite !length_app, length_stream_bits in E.
    unfold pending, field_bits at 1 in E. rewrite !length_order_bits in E. cbn [snd] in E.
    pose proof (bs_residue s W). lia. }
  destruct (get_spec s n c W Hc Hn Hl) as (x & c1 & s1 & Eg & W1 & B1 & L1 & Hx & P1).
  cbn [get_fields]. rewrite Eg. cbn [mbind option_bind].
  rewrite E, <- app_assoc in P1. apply app_prefix_eq in P1 as [Px P1];
    [|unfold field_bits; by rewrite !length_order_bits].
  rewrite (IH s1 c1 W1 B1 Hf) by (by rewrite L1, P1). cbn [fmap option_fmap option_map].
  do 2 f_equal. unfold field_value, field_bits in *. cbn [fst snd] in *.
  apply (order_bits_inj (lsb_first s) n); [lia|done|by apply Z.mod_pos_bound, Z.pow_pos_nonneg; lia|].
  rewrite Px. apply order_bits_ext. intros i Hi. rewrite <- Z.land_ones by lia. bit_specs.
  destruct (Z.leb_spec 0 i), (Z.ltb_spec i n); try lia. by rewrite andb_true_r.
Qed.

(** C26: any sequence of fields of up to 25 bits, packed with [bitstream_put] and
    [bitstream_flush] and unpacked with [bitstream_get] at the same widths, comes
    back with the same values (modulo the field width), in either bit order. *)
Theorem bitstream_roundtrip (lsb : bool) (fields : list (Z * Z)) : Forall field_ok fields ->
  let '(l1, s) := put_fields (bitstream_init lsb) fields in
  let '(l2, _) := bitstream_flush s in
  bytes (l1 ++ l2) /\
  get_fields (bitstream_init lsb) (l1 ++ l2) (map snd fields) = Some (map field_value fields).
Proof.
  intros Hf. assert (bs_wf (bitstream_init lsb)) as W0 by (split; cbn; lia).
  pose proof (put_fields_spec fields _ W0 ltac:(done) Hf) as H1.
  destruct (put_fields _ fields) as [l1 s1]. destruct H1 as (W1 & R1 & L1 & B1 & P1).
  pose proof (flush_spec s1 W1 R1) as H2. destruct (bitstream_flush s1) as [l2 s2].
  destruct H2 as (_ & _ & _ & _ & B2 & k & P2).
  assert (bytes (l1 ++ l2)) as Hb by (by apply Forall_app_2). split; [done|].
  apply (get_fields_spec fields _ _ (repeat false k) W0 Hb Hf).
  rewrite L1 in P2. rewrite stream_bits_app, P2.
  assert (pending (bitstream_init lsb) = []) as E0 by by destruct lsb.
  rewrite E0 in *. cbn [app] in *. by rewrite app_assoc, P1.
Qed.

Lemma bitstream_roundtrip_witness :
  Forall field_ok [(5, 3); (1000, 7); (0x1ABCDEF, 25)] /\
  let '(l1, s) := put_fields (bitstream_init false) [(5, 3); (1000, 7); (0x1ABCDEF, 25)] in
  let '(l2, _) := bitstream_flush s in
  bytes (l1 ++ l2) /\
  get_fields (bitstream_init false) (l1 ++ l2) [3; 7; 25] = Some [5; 104; 0x1ABCDEF].
Proof.
  assert (Forall field_ok [(5, 3); (1000, 7); (0x1ABCDEF, 25)]) as H
    by (repeat apply Forall_cons_2; try done; unfold field_ok; cbn; lia).
  split; [exact H|]. exact (bitstream_roundtrip false _ H).
Defined.

(** A field that does not fit beside what is pending is dropped: nothing is
    written and the pending bits stay. *)
Lemma bitstream_put_dropped s v n : residue s < 8 -> 32 < residue s + n ->
  bitstream_put s v n = ([], s).
Proof.
  intros Hr Hn. unfold bitstream_put. destruct (Z.leb_spec (residue s + n) 32); [lia|].
  destruct (lsb_first s); cbn [put_loop_lsb put_loop_msb]; by destruct (Z.leb_spec 8 (residue s)); [lia|].
Qed.
