(* ===== verification/Async.v ===== *)
(** * Asynchronous serial characters (src/spandsp-0.0.6/src/async.c)

    Start/stop framing for the FSK modems: the receiver, bit by bit, with its
    calls of [put_byte] as the values returned, and the transmitter, whose
    [get_byte] is a parameter over the state of its source. *)
From Stdlib Require Import String.
From S2P Require Import Prelude.

(** ** Definitions *)

Definition SIG_STATUS_CARRIER_DOWN : Z := -1.
Definition SIG_STATUS_CARRIER_UP : Z := -2.
Definition SIG_STATUS_TRAINING_IN_PROGRESS : Z := -3.
Definition SIG_STATUS_TRAINING_SUCCEEDED : Z := -4.
Definition SIG_STATUS_TRAINING_FAILED : Z := -5.
Definition SIG_STATUS_END_OF_DATA : Z := -7.

Definition SIG_STATUS_FRAMING_OK : Z := -6.
Definition SIG_STATUS_ABORT : Z := -8.
Definition SIG_STATUS_BREAK : Z := -9.
Definition SIG_STATUS_SHUTDOWN_COMPLETE : Z := -10.
Definition SIG_STATUS_OCTET_REPORT : Z := -11.
Definition SIG_STATUS_POOR_SIGNAL_QUALITY : Z := -12.
Definition SIG_STATUS_MODEM_RETRAIN_OCCURRED : Z := -13.

Definition signal_status_to_str (status : Z) : string :=
  (if (status =? SIG_STATUS_CARRIER_DOWN)%Z then "Carrier down"
   else if (status =? SIG_STATUS_CARRIER_UP)%Z then "Carrier up"
   else if (status =? SIG_STATUS_TRAINING_IN_PROGRESS)%Z then "Training in progress"
   else if (status =? SIG_STATUS_TRAINING_SUCCEEDED)%Z then "Training succeeded"
   else if (status =? SIG_STATUS_TRAINING_FAILED)%Z then "Training failed"
   else if (status =? SIG_STATUS_FRAMING_OK)%Z then "Framing OK"
   else if (status =? SIG_STATUS_END_OF_DATA)%Z then "End of data"
   else if (status =? SIG_STATUS_ABORT)%Z then "Abort"
   else if (status =? SIG_STATUS_BREAK)%Z then "Break"
   else if (status =? SIG_STATUS_SHUTDOWN_COMPLETE)%Z then "Shutdown complete"
   else if (status =? SIG_STATUS_OCTET_REPORT)%Z then "Octet report"
   else if (status =? SIG_STATUS_POOR_SIGNAL_QUALITY)%Z then "Poor signal quality"
   else if (status =? SIG_STATUS_MODEM_RETRAIN_OCCURRED)%Z then "Modem retrain occurred"
   else "???")%string.

Definition ASYNC_PARITY_NONE : Z := 0.
Definition ASYNC_PARITY_EVEN : Z := 1.
Definition ASYNC_PARITY_ODD : Z := 2.

Record async_rx_state_t := {
  rx_data_bits : Z;
  rx_parity : Z;
  rx_stop_bits : Z;
  use_v14 : bool;
  rx_byte : Z;
  rx_bitpos : Z;
  rx_parity_bit : Z;
  parity_errors : Z;
  framing_errors : Z;
}.

#[export] Instance eta_async_rx : Eta async_rx_state_t := fun s =>
  Build_async_rx_state_t (rx_data_bits s) (rx_parity s) (rx_stop_bits s) (use_v14 s)
    (rx_byte s) (rx_bitpos s) (rx_parity_bit s) (parity_errors s) (framing_errors s).

Definition async_rx_init (data_bits parity stop_bits : Z) (v14 : bool) : async_rx_state_t :=
  {| rx_data_bits := data_bits; rx_parity := parity; rx_stop_bits := stop_bits; use_v14 := v14;
     rx_byte := 0; rx_bitpos := 0; rx_parity_bit := 0; parity_errors := 0; framing_errors := 0 |}.

(** "Align the received value." *)
Definition aligned (s : async_rx_state_t) : Z :=
  if rx_data_bits s <? 8 then rx_byte s .>> (8 - rx_data_bits s) else rx_byte s.

(** The new state and the values given to [put_byte]. *)
Definition async_rx_put_bit (s : async_rx_state_t) (bit : Z) : async_rx_state_t * list Z :=
  if bit <? 0 then
    if (bit =? SIG_STATUS_CARRIER_UP) || (bit =? SIG_STATUS_CARRIER_DOWN)
       || (bit =? SIG_STATUS_TRAINING_IN_PROGRESS) || (bit =? SIG_STATUS_TRAINING_SUCCEEDED)
       || (bit =? SIG_STATUS_TRAINING_FAILED) || (bit =? SIG_STATUS_END_OF_DATA) then
      (s <| rx_bitpos := 0 |> <| rx_byte := 0 |>, [bit])
    else (s, [])
  else if rx_bitpos s =? 0 then
    (s <| rx_bitpos := rx_bitpos s + (bit .^ 1) |> <| rx_parity_bit := 0 |> <| rx_byte := 0 |>, [])
  else if rx_bitpos s <=? rx_data_bits s then
    (s <| rx_byte := (rx_byte s .>> 1) .| (bit .<< 7) |>
       <| rx_parity_bit := rx_parity_bit s .^ bit |>
       <| rx_bitpos := rx_bitpos s + 1 |>, [])
  else if negb (rx_parity s =? 0) && (rx_bitpos s =? rx_data_bits s + 1) then
    let s := if rx_parity s =? ASYNC_PARITY_ODD
             then s <| rx_parity_bit := rx_parity_bit s .^ 1 |> else s in
    let s := if negb (rx_parity_bit s =? bit)
             then s <| parity_errors := parity_errors s + 1 |> else s in
    (s <| rx_bitpos := rx_bitpos s + 1 |>, [])
  else if bit =? 1 then
    let s := s <| rx_byte := aligned s |> in
    (s <| rx_bitpos := 0 |>, [rx_byte s])
  else if use_v14 s then
    let s := s <| rx_byte := aligned s |> in
    (s <| rx_bitpos := 1 |> <| rx_parity_bit := 0 |> <| rx_byte := 0 |>, [rx_byte s])
  else (s <| framing_errors := framing_errors s + 1 |> <| rx_bitpos := 0 |>, []).

Record async_tx_state_t := {
  tx_data_bits : Z;
  tx_parity : Z;
  tx_stop_bits : Z;
  tx_byte : Z;
  tx_bitpos : Z;
  tx_parity_bit : Z;
}.

#[export] Instance eta_async_tx : Eta async_tx_state_t := fun s =>
  Build_async_tx_state_t (tx_data_bits s) (tx_parity s) (tx_stop_bits s)
    (tx_byte s) (tx_bitpos s) (tx_parity_bit s).

Definition async_tx_init (data_bits parity stop_bits : Z) : async_tx_state_t :=
  {| tx_data_bits := data_bits; tx_parity := parity;
     tx_stop_bits := if negb (parity =? ASYNC_PARITY_NONE) then stop_bits + 1 else stop_bits;
     tx_byte := 0; tx_bitpos := 0; tx_parity_bit := 0 |}.

Section tx.
Context {U : Type}.
(** [s->get_byte(s->user_data)]: a character, or a negative value at the end. *)
Variable get_byte : U -> Z * U.

Definition async_tx_get_bit (u : U) (s : async_tx_state_t) : Z * (U * async_tx_state_t) :=
  if tx_bitpos s =? 0 then
    let '(b, u) := get_byte u in
    let s := s <| tx_byte := b |> in
    if tx_byte s <? 0 then (SIG_STATUS_END_OF_DATA, (u, s))
    else (0, (u, s <| tx_parity_bit := 0 |> <| tx_bitpos := tx_bitpos s + 1 |>))
  else if tx_bitpos s <=? tx_data_bits s then
    let bit := tx_byte s .& 1 in
    (bit, (u, s <| tx_byte := tx_byte s .>> 1 |> <| tx_parity_bit := tx_parity_bit s .^ bit |>
                <| tx_bitpos := tx_bitpos s + 1 |>))
  else if negb (tx_parity s =? 0) && (tx_bitpos s =? tx_data_bits s + 1) then
    let s := if tx_parity s =? ASYNC_PARITY_ODD
             then s <| tx_parity_bit := tx_parity_bit s .^ 1 |> else s in
    (tx_parity_bit s, (u, s <| tx_bitpos := tx_bitpos s + 1 |>))
  else
    let s := s <| tx_bitpos := tx_bitpos s + 1 |> in
    (1, (u, if tx_data_bits s + tx_stop_bits s <? tx_bitpos s then s <| tx_bitpos := 0 |> else s)).

(** [n] bits of the transmitter. *)
Fixpoint tx_bits (n : nat) (u : U) (s : async_tx_state_t) : list Z * (U * async_tx_state_t) :=
  match n with
  | O => ([], (u, s))
  | S n =>
      let '(b, (u, s)) := async_tx_get_bit u s in
      let '(l, us) := tx_bits n u s in (b :: l, us)
  end.
End tx.

Fixpoint rx_bits (s : async_rx_state_t) (l : list Z) : async_rx_state_t * list Z :=
  match l with
  | [] => (s, [])
  | b :: l =>
      let '(s, e1) := async_rx_put_bit s b in
      let '(s, e2) := rx_bits s l in (s, e1 ++ e2)
  end.

(** ** The line *)

(** The parity bit of a character, even or odd. *)
Definition parity_of (parity : Z) (l : list bool) : bool :=
  xorb (foldr xorb false l) (parity =? ASYNC_PARITY_ODD).

(** A character on the line: start bit, data least significant bit first, parity
    if any, and [stops] stop bits. *)
Definition char_bits (data_bits parity : Z) (x : Z) : list bool :=
  let l := lsb_bits (Z.to_nat data_bits) x in
  false :: l ++ (if parity =? 0 then [] else [parity_of parity l]).

Definition line_char (data_bits parity : Z) (c : Z * nat) : list bool :=
  char_bits data_bits parity (fst c) ++ repeat true (snd c).

Definition bits_Z (l : list bool) : list Z := map Z.b2z l.

Lemma of_lsb_snoc l b : of_lsb (l ++ [b]) = of_lsb l + Z.b2z b * 2 ^ zlen l.
Proof.
  induction l as [|a l IH]; cbn [app of_lsb length].
  - cbn. lia.
  - rewrite IH, Nat2Z.inj_succ, Z.pow_succ_r by lia. lia.
Qed.

Lemma lsb_bits_snoc n x : lsb_bits (S n) x = lsb_bits n x ++ [Z.testbit x (Z.of_nat n)].
Proof.
  replace (S n) with (n + 1)%nat by lia. rewrite lsb_bits_app. f_equal.
  cbn [lsb_bits]. by rewrite <- Z.bit0_odd, Z.shiftr_spec, Z.add_0_l by lia.
Qed.

Lemma b2z_xor a b : Z.b2z a .^ Z.b2z b = Z.b2z (xorb a b).
Proof. by destruct a, b. Qed.

Lemma foldr_xorb_snoc l b : foldr xorb false (l ++ [b]) = xorb (foldr xorb false l) b.
Proof. induction l as [|a l IH]; cbn; [by destruct b|]. by rewrite IH, xorb_assoc. Qed.

(** ** The receiver *)

Lemma rx_bits_app s l1 l2 s1 e1 s2 e2 : rx_bits s l1 = (s1, e1) -> rx_bits s1 l2 = (s2, e2) ->
  rx_bits s (l1 ++ l2) = (s2, e1 ++ e2).
Proof.
  revert s e1. induction l1 as [|b l1 IH]; intros s e1 H1 H2.
  - cbn in *. by simplify_eq.
  - cbn [rx_bits app] in *. destruct (async_rx_put_bit s b) as [s' e'].
    destruct (rx_bits s' l1) as [s'' e''] eqn:E. simplify_eq.
    rewrite (IH s' e'' E H2). by rewrite app_assoc.
Qed.

(** [l] of the data bits are in; the settings are [s0]'s. *)
Definition in_char (s0 s : async_rx_state_t) (l : list bool) : Prop :=
  s = s0 <| rx_byte := of_lsb l .<< (8 - zlen l) |> <| rx_bitpos := zlen l + 1 |>
         <| rx_parity_bit := Z.b2z (foldr xorb false l) |>.

Lemma rx_data s0 s l m : in_char s0 s l -> zlen l + zlen m <= rx_data_bits s0 <= 8 ->
  exists s', rx_bits s (bits_Z m) = (s', []) /\ in_char s0 s' (l ++ m).
Proof.
  revert s l. induction m as [|b m IH]; intros s l Hs Hl.
  { exists s. by rewrite app_nil_r. }
  cbn [length] in Hl. cbn [bits_Z map rx_bits].
  assert (async_rx_put_bit s (Z.b2z b) =
          (s0 <| rx_byte := of_lsb (l ++ [b]) .<< (8 - zlen (l ++ [b])) |>
              <| rx_bitpos := zlen (l ++ [b]) + 1 |>
              <| rx_parity_bit := Z.b2z (foldr xorb false (l ++ [b])) |>, [])) as E.
  { rewrite Hs. unfold async_rx_put_bit. cbn -[Z.shiftl Z.shiftr].
    destruct (Z.ltb_spec (Z.b2z b) 0); [destruct b; simpl in *; lia|].
    destruct (Z.eqb_spec (zlen l + 1) 0); [lia|].
    destruct (Z.leb_spec (zlen l + 1) (rx_data_bits s0)); [|lia].
    rewrite b2z_xor, foldr_xorb_snoc, of_lsb_snoc, length_app. cbn [length].
    assert ((of_lsb l .<< (8 - zlen l)) .>> 1 .| (Z.b2z b .<< 7) =
            (of_lsb l + Z.b2z b * 2 ^ zlen l) .<< (8 - Z.of_nat (length l + 1))) as ->.
    { pose proof (of_lsb_range l) as Hr.
      rewrite <- (lor_shiftl_add (zlen l)) by lia. rewrite Z.shiftl_lor, Z.shiftl_shiftl by lia.
      replace (zlen l + (8 - Z.of_nat (length l + 1))) with 7 by lia. f_equal.
      bitwise i. destruct (Z.leb_spec (8 - zlen l) (i + 1)),
        (Z.leb_spec (8 - Z.of_nat (length l + 1)) i); try lia; cbn [andb].
      f_equal. lia. }
    by replace (zlen l + 1 + 1) with (Z.of_nat (length l + 1) + 1) by lia. }
  rewrite E. set (s1 := s0 <| rx_byte := _ |> <| rx_bitpos := _ |> <| rx_parity_bit := _ |>).
  destruct (IH s1 (l ++ [b])) as (s' & E' & H'); [done|rewrite length_app; simpl; lia|].
  exists s'. unfold bits_Z in E'. rewrite E'. split; [done|]. by rewrite <- app_assoc in H'.
Qed.

(** The settings of a receiver, and its error counts, which a good stream leaves
    alone. *)
Definition rx_like (s0 s : async_rx_state_t) : Prop :=
  rx_data_bits s = rx_data_bits s0 /\ rx_parity s = rx_parity s0 /\ use_v14 s = use_v14 s0 /\
  parity_errors s = parity_errors s0 /\ framing_errors s = framing_errors s0.

(** After the start bit. *)
Definition started (s : async_rx_state_t) : Prop :=
  rx_bitpos s = 1 /\ rx_byte s = 0 /\ rx_parity_bit s = 0.

(** Before a stop bit, the character [x] complete. *)
Definition complete (s : async_rx_state_t) (x : Z) : Prop :=
  aligned s = x /\ rx_data_bits s < rx_bitpos s /\
  (rx_parity s <> 0 -> rx_data_bits s + 1 < rx_bitpos s).

Lemma rx_body s d p x : started s -> rx_data_bits s = d -> rx_parity s = p -> 0 <= d <= 8 ->
  0 <= x < 2 ^ d -> p = 0 \/ p = 1 \/ p = 2 ->
  exists s', rx_bits s (bits_Z (tail (char_bits d p x))) = (s', []) /\ rx_like s s' /\ complete s' x.
Proof.
  intros (Hpos & Hbyte & Hpar) Hd Hp Hd8 Hx Hparity. cbn [char_bits tail].
  set (l := lsb_bits (Z.to_nat d) x).
  assert (zlen l = d) as Hl by (unfold l; rewrite length_lsb_bits; lia).
  destruct (rx_data s s [] l) as (s1 & E1 & H1); [| |].
  { unfold in_char. cbn. rewrite Z.shiftl_0_l. destruct s. cbn in *. by rewrite Hpos, Hbyte, Hpar. }
  { cbn. lia. }
  cbn [app] in H1. unfold in_char in H1. rewrite Hl in H1.
  assert (of_lsb l = x) as Hval.
  { unfold l. rewrite of_lsb_bits, Z2Nat.id by lia. by apply wrap_id. }
  rewrite Hval in H1.
  assert (aligned s1 = x) as Hal.
  { unfold aligned. rewrite H1. cbn -[Z.shiftl Z.shiftr]. rewrite Hd. destruct (Z.ltb_spec d 8).
    - rewrite Z.shiftr_shiftl_l by lia. rewrite Z.sub_diag. apply Z.shiftl_0_r.
    - replace (8 - d) with 0 by lia. apply Z.shiftl_0_r. }
  assert (rx_like s s1) as L1 by (rewrite H1; done).
  destruct (Z.eqb_spec p 0) as [Hp0|Hp0].
  - exists s1. rewrite app_nil_r. split; [done|]. split; [done|]. split; [done|].
    rewrite H1. cbn. rewrite Hd, Hp. lia.
  - set (s2 := s1 <| rx_parity_bit := Z.b2z (parity_of p l) |> <| rx_bitpos := d + 2 |>).
    exists s2. split; [|split; [exact L1|]].
    + unfold bits_Z. rewrite map_app. apply (rx_bits_app _ _ _ s1 [] s2 []); [exact E1|]. cbn [map rx_bits]. unfold async_rx_put_bit.
      set (b := Z.b2z (parity_of p l)).
      assert (0 <= b) by (subst b; by destruct parity_of).
      destruct (Z.ltb_spec b 0); [lia|].
      assert (rx_bitpos s1 = d + 1 /\ rx_data_bits s1 = d /\ rx_parity s1 = p /\
              rx_parity_bit s1 = Z.b2z (foldr xorb false l)) as (P1 & P2 & P3 & P4)
        by (rewrite H1; done).
      rewrite P1, P2, P3. destruct (Z.eqb_spec (d + 1) 0); [lia|].
      destruct (Z.leb_spec (d + 1) d); [lia|]. destruct (Z.eqb_spec p 0); [done|].
      rewrite Z.eqb_refl. cbn [negb andb].
      assert ((if p =? ASYNC_PARITY_ODD then s1 <| rx_parity_bit := rx_parity_bit s1 .^ 1 |> else s1)
              = s1 <| rx_parity_bit := b |>) as ->.
      { subst b. unfold parity_of. destruct (p =? ASYNC_PARITY_ODD).
        - rewrite P4. change 1 with (Z.b2z true). by rewrite b2z_xor.
        - rewrite xorb_false_r, <- P4. by destruct s1. }
      change (rx_parity_bit (s1 <| rx_parity_bit := b |>)) with b. rewrite Z.eqb_refl. cbn [negb].
      change (rx_bitpos (s1 <| rx_parity_bit := b |>)) with (rx_bitpos s1).
      rewrite P1. subst s2. fold b. by replace (d + 1 + 1) with (d + 2) by lia.
    + split; [exact Hal|]. subst s2. cbn.
      assert (rx_data_bits s1 = d) as -> by (rewrite H1; done). lia.
Qed.

(** A stop bit, or, with V.14, the next start bit in its place. *)
Lemma rx_stop s x : complete s x -> 0 <= rx_data_bits s ->
  (exists s', async_rx_put_bit s 1 = (s', [x]) /\ rx_like s s' /\ rx_bitpos s' = 0) /\
  (use_v14 s = true ->
   exists s', async_rx_put_bit s 0 = (s', [x]) /\ rx_like s s' /\ started s').
Proof.
  intros (Ha & Hp & Hq) Hd. unfold async_rx_put_bit. cbn [Z.ltb Z.compare Z.eqb Pos.eqb].
  destruct (Z.eqb_spec (rx_bitpos s) 0); [lia|].
  destruct (Z.leb_spec (rx_bitpos s) (rx_data_bits s)); [lia|].
  replace (negb (rx_parity s =? 0) && (rx_bitpos s =? rx_data_bits s + 1)) with false.
  2:{ destruct (Z.eqb_spec (rx_parity s) 0); [done|]. cbn.
      by destruct (Z.eqb_spec (rx_bitpos s) (rx_data_bits s + 1)); [lia|]. }
  split.
  - eexists. split; [cbn; by rewrite Ha|]. by split.
  - intros ->. eexists. split; [cbn; by rewrite Ha|]. by split.
Qed.

Lemma rx_idle_ones s n : rx_bitpos s = 0 ->
  exists s', rx_bits s (bits_Z (repeat true n)) = (s', []) /\ rx_like s s' /\ rx_bitpos s' = 0.
Proof.
  revert s. induction n as [|n IH]; intros s H; [by exists s|].
  cbn [repeat bits_Z map rx_bits Z.b2z]. unfold async_rx_put_bit. rewrite H. cbn [Z.ltb Z.compare Z.eqb].
  set (s1 := s <| rx_bitpos := 0 + (1 .^ 1) |> <| rx_parity_bit := 0 |> <| rx_byte := 0 |>).
  destruct (IH s1 eq_refl) as (s' & E & L & P). unfold bits_Z in E. rewrite E. by exists s'.
Qed.

Lemma rx_like_trans s t u : rx_like s t -> rx_like t u -> rx_like s u.
Proof. unfold rx_like. intuition congruence. Qed.

(** Characters, each with its number of stop bits: none only before another
    character, under V.14. *)
Fixpoint stops_ok (v14 : bool) (l : list (Z * nat)) : Prop :=
  match l with
  | [] => True
  | c :: rest => (0 < snd c \/ snd c = 0 /\ v14 = true /\ rest <> [])%nat /\ stops_ok v14 rest
  end.

Lemma rx_start s : rx_bitpos s = 0 ->
  exists s', async_rx_put_bit s 0 = (s', []) /\ rx_like s s' /\ started s'.
Proof.
  intros H. unfold async_rx_put_bit. rewrite H. cbn [Z.ltb Z.compare Z.eqb].
  eexists. split; [done|]. by split.
Qed.

(** From just after a start bit. *)
Lemma rx_chars rest c s d p : started s -> rx_data_bits s = d -> rx_parity s = p -> 0 <= d <= 8 ->
  p = 0 \/ p = 1 \/ p = 2 -> stops_ok (use_v14 s) (c :: rest) ->
  Forall (fun c => 0 <= fst c < 2 ^ d) (c :: rest) ->
  exists s', rx_bits s (bits_Z (tail (concat (map (line_char d p) (c :: rest))))) =
               (s', map fst (c :: rest)) /\ rx_like s s' /\ rx_bitpos s' = 0.
Proof.
  revert c s. induction rest as [|c' rest IH]; intros [x n] s Hs Hd Hp Hd8 Hpar [Hn Hstops] Hx;
    apply Forall_cons_1 in Hx as [Hx Hrest]; cbn [fst snd] in *;
    destruct (rx_body s d p x Hs Hd Hp Hd8 Hx Hpar) as (s1 & E1 & L1 & C1);
    assert (0 <= rx_data_bits s1) as Hd1 by (destruct L1; lia);
    destruct (rx_stop s1 x C1 Hd1) as [Hone Hv14]; cbn [map concat fst].
  - destruct n as [|n]; [destruct Hn as [?|(_ & _ & ?)]; [lia|done]|].
    destruct Hone as (s2 & E2 & L2 & P2). destruct (rx_idle_ones s2 n P2) as (s3 & E3 & L3 & P3).
    exists s3. split; [|split; [by do 2 (eapply rx_like_trans; [eassumption|])|done]].
    rewrite app_nil_r. unfold line_char. cbn [fst snd]. change (tail (char_bits d p x ++ repeat true (S n)))
      with (tail (char_bits d p x) ++ repeat true (S n)). unfold bits_Z in *. rewrite map_app.
    apply (rx_bits_app _ _ _ s1 [] s3 [x]); [exact E1|].
    cbn [repeat map rx_bits]. change (Z.b2z true) with 1. by rewrite E2, E3.
  - set (others := concat (map (line_char d p) (c' :: rest))) in *.
    assert (others = false :: tail others) as Hoth by done.
    assert (exists s3, rx_bits s1 (bits_Z (repeat true n ++ [false])) = (s3, [x]) /\
              rx_like s1 s3 /\ started s3) as (s3 & E3 & L3 & S3).
    { destruct n as [|n].
      - destruct Hn as [?|(_ & Hv & _)]; [lia|].
        destruct Hv14 as (s2 & E2 & L2 & S2); [by destruct L1 as (_ & _ & -> & _)|].
        exists s2. split; [|done]. cbn [repeat app bits_Z map rx_bits Z.b2z]. by rewrite E2.
      - destruct Hone as (s2 & E2 & L2 & P2). destruct (rx_idle_ones s2 n P2) as (s3 & E3 & L3 & P3).
        destruct (rx_start s3 P3) as (s4 & E4 & L4 & S4). exists s4.
        split; [|split; [by do 2 (eapply rx_like_trans; [eassumption|])|done]].
        unfold bits_Z. rewrite map_app. cbn [repeat map].
        change (Z.b2z true :: map Z.b2z (repeat true n)) with ([1] ++ map Z.b2z (repeat true n)).
        rewrite <- app_assoc. apply (rx_bits_app _ _ _ s2 [x] s4 []); [cbn [rx_bits]; by rewrite E2|].
        apply (rx_bits_app _ _ _ s3 [] s4 []); [exact E3|]. cbn [rx_bits Z.b2z]. by rewrite E4. }
    destruct (IH c' s3 S3) as (s4 & E4 & L4 & P4); try done.
    + destruct L1, L3. lia. + destruct L1 as (_ & ? & _), L3 as (_ & ? & _). lia.
    + by destruct L1 as (_ & _ & ? & _), L3 as (_ & _ & -> & _); congruence.
    + exists s4. split; [|split; [by do 2 (eapply rx_like_trans; [eassumption|])|done]].
      match goal with |- rx_bits s (bits_Z ?l) = _ =>
        change l with ((tail (char_bits d p x) ++ repeat true n) ++ others) end.
      rewrite Hoth. change (false :: tail others) with ([false] ++ tail others).
      rewrite <- app_assoc, (app_assoc (repeat true n)). unfold bits_Z in *. rewrite map_app.
      apply (rx_bits_app _ _ _ s1 [] s4 (x :: map fst (c' :: rest))); [exact E1|]. rewrite map_app.
      apply (rx_bits_app _ _ _ s3 [x] s4 (map fst (c' :: rest))); [exact E3|exact E4].
Qed.

(** ** The transmitter *)

Section sending.
Context {U : Type} (get_byte : U -> Z * U).
Abbreviation tx_bits := (tx_bits get_byte).

Lemma tx_bits_S n u s :
  tx_bits (S n) u s =
  (let '(b, (u, s)) := async_tx_get_bit get_byte u s in
   let '(l, us) := tx_bits n u s in (b :: l, us)).
Proof. done. Qed.

Lemma tx_bits_app m n u s l1 u1 s1 l2 us2 : tx_bits m u s = (l1, (u1, s1)) -> tx_bits n u1 s1 = (l2, us2) ->
  tx_bits (m + n) u s = (l1 ++ l2, us2).
Proof.
  revert u s l1. induction m as [|m IH]; intros u s l1 H1 H2.
  - cbn in *. by simplify_eq.
  - cbn [Nat.add Async.tx_bits] in *. destruct (async_tx_get_bit get_byte u s) as [b [u' s']].
    destruct (tx_bits m u' s') as [l us] eqn:E. simplify_eq. by rewrite (IH u' s' l E H2).
Qed.

Lemma odd_bit x : x .& 1 = Z.b2z (Z.odd x).
Proof. change 1 with (Z.ones 1). rewrite Z.land_ones by lia. change (2 ^ 1) with 2. rewrite Zmod_odd. by destruct (Z.odd x). Qed.

(** The data bits; [q] is the parity of those already sent. *)
Lemma tx_data m u s q : 0 < tx_bitpos s -> tx_bitpos s + Z.of_nat m = tx_data_bits s + 1 ->
  tx_parity_bit s = Z.b2z q ->
  exists s', tx_bits m u s = (bits_Z (lsb_bits m (tx_byte s)), (u, s')) /\
    tx_bitpos s' = tx_data_bits s + 1 /\
    tx_parity_bit s' = Z.b2z (xorb q (foldr xorb false (lsb_bits m (tx_byte s)))) /\
    tx_data_bits s' = tx_data_bits s /\ tx_parity s' = tx_parity s /\ tx_stop_bits s' = tx_stop_bits s.
Proof.
  revert s q. induction m as [|m IH]; intros s q Hp Hm Hq.
  { exists s. cbn. rewrite xorb_false_r. split_and!; done || lia. }
  cbn [Async.tx_bits]. unfold async_tx_get_bit.
  destruct (Z.eqb_spec (tx_bitpos s) 0); [lia|].
  destruct (Z.leb_spec (tx_bitpos s) (tx_data_bits s)); [|lia].
  set (s1 := s <| tx_byte := _ |> <| tx_parity_bit := _ |> <| tx_bitpos := _ |>).
  destruct (IH s1 (xorb q (Z.odd (tx_byte s)))) as (s' & E & H1 & H2 & H3 & H4 & H5).
  - cbn. lia.
  - cbn. lia.
  - change (tx_parity_bit s .^ (tx_byte s .& 1) = Z.b2z (xorb q (Z.odd (tx_byte s)))).
    by rewrite Hq, odd_bit, b2z_xor.
  - exists s'. rewrite E. change (tx_byte s1) with (tx_byte s .>> 1).
    cbn [lsb_bits bits_Z map foldr]. rewrite odd_bit, Z.div2_spec in *. split; [done|].
    split; [done|]. split; [|done]. rewrite H2. change (tx_byte s1) with (tx_byte s .>> 1).
    by rewrite xorb_assoc.
Qed.

Lemma tx_stops m u s : tx_data_bits s + (if tx_parity s =? 0 then 0 else 1) < tx_bitpos s ->
  0 <= tx_data_bits s -> tx_bitpos s + Z.of_nat m = tx_data_bits s + tx_stop_bits s ->
  exists s', tx_bits (S m) u s = (bits_Z (repeat true (S m)), (u, s')) /\ tx_bitpos s' = 0 /\
    tx_data_bits s' = tx_data_bits s /\ tx_parity s' = tx_parity s /\ tx_stop_bits s' = tx_stop_bits s.
Proof.
  revert s. induction m as [|m IH]; intros s Hp Hd Hm.
  all: rewrite tx_bits_S; unfold async_tx_get_bit.
  all: assert (tx_data_bits s < tx_bitpos s /\
         negb (tx_parity s =? 0) && (tx_bitpos s =? tx_data_bits s + 1) = false) as [Hlt Hpar]
         by (destruct (Z.eqb_spec (tx_parity s) 0); cbn; [lia|];
             destruct (Z.eqb_spec (tx_bitpos s) (tx_data_bits s + 1)); [lia|]; split; [lia|done]).
  all: destruct (Z.eqb_spec (tx_bitpos s) 0); [lia|];
       destruct (Z.leb_spec (tx_bitpos s) (tx_data_bits s)); [lia|]; rewrite Hpar.
  all: change (tx_bitpos (s <| tx_bitpos := tx_bitpos s + 1 |>)) with (tx_bitpos s + 1);
       change (tx_data_bits (s <| tx_bitpos := tx_bitpos s + 1 |>)) with (tx_data_bits s);
       change (tx_stop_bits (s <| tx_bitpos := tx_bitpos s + 1 |>)) with (tx_stop_bits s).
  - destruct (Z.ltb_spec (tx_data_bits s + tx_stop_bits s) (tx_bitpos s + 1)); [|lia].
    eexists. by split.
  - destruct (Z.ltb_spec (tx_data_bits s + tx_stop_bits s) (tx_bitpos s + 1)); [lia|].
    destruct (IH (s <| tx_bitpos := tx_bitpos s + 1 |>)) as (s' & E & H');
      [cbn; lia|done|cbn; lia|].
    exists s'. rewrite E. by split.
Qed.

(** One character of the source, with [n] stop bits. *)
Lemma tx_char u s x u' n : tx_bitpos s = 0 -> get_byte u = (x, u') -> 0 <= x -> 0 <= tx_data_bits s ->
  (0 < n)%nat -> tx_stop_bits s = Z.of_nat n + (if tx_parity s =? 0 then 0 else 1) ->
  let bits := line_char (tx_data_bits s) (tx_parity s) (x, n) in
  exists s', tx_bits (length bits) u s = (bits_Z bits, (u', s')) /\ tx_bitpos s' = 0 /\
    tx_data_bits s' = tx_data_bits s /\ tx_parity s' = tx_parity s /\ tx_stop_bits s' = tx_stop_bits s.
Proof.
  intros Hpos Hget Hx Hd Hn Hs bits. set (d := tx_data_bits s) in *. set (p := tx_parity s) in *.
  set (l := lsb_bits (Z.to_nat d) x).
  set (s1 := s <| tx_byte := x |> <| tx_parity_bit := 0 |> <| tx_bitpos := 1 |>).
  assert (tx_bits 1 u s = ([0], (u', s1))) as E1.
  { cbn [Async.tx_bits]. unfold async_tx_get_bit. rewrite Hpos. cbn [Z.eqb]. rewrite Hget.
    change (tx_byte (s <| tx_byte := x |>)) with x. destruct (Z.ltb_spec x 0); [lia|].
    change (tx_bitpos (s <| tx_byte := x |>)) with (tx_bitpos s). by rewrite Hpos. }
  destruct (tx_data (Z.to_nat d) u' s1 false) as (s2 & E2 & P2 & Q2 & D2 & A2 & B2); [cbn; lia..|done|].
  change (tx_byte s1) with x in E2, Q2. fold l in E2, Q2. rewrite xorb_false_l in Q2.
  change (tx_data_bits s1) with d in *. change (tx_parity s1) with p in *.
  change (tx_stop_bits s1) with (tx_stop_bits s) in *.
  assert (exists s3, tx_bits (if p =? 0 then 0 else 1) u' s2 =
            (bits_Z (if p =? 0 then [] else [parity_of p l]), (u', s3)) /\
          tx_bitpos s3 = d + 1 + (if p =? 0 then 0 else 1) /\ tx_data_bits s3 = d /\ tx_parity s3 = p /\
          tx_stop_bits s3 = tx_stop_bits s) as (s3 & E3 & P3 & D3 & A3 & B3).
  { destruct (Z.eqb_spec p 0) as [Hp|Hp]; [exists s2; split_and!; done || lia|].
    cbn [Async.tx_bits]. unfold async_tx_get_bit. rewrite P2, D2, A2.
    destruct (Z.eqb_spec (d + 1) 0); [lia|]. destruct (Z.leb_spec (d + 1) d); [lia|].
    destruct (Z.eqb_spec p 0); [done|]. rewrite Z.eqb_refl. cbn [negb andb].
    eexists. split.
    - f_equal. cbn [bits_Z map]. f_equal. unfold parity_of. destruct (p =? ASYNC_PARITY_ODD).
      + cbn. rewrite Q2. change 1 with (Z.b2z true). by rewrite b2z_xor.
      + by rewrite Q2, xorb_false_r.
    - destruct (p =? ASYNC_PARITY_ODD); cbn; rewrite P2; split_and!; done || lia. }
  destruct n as [|n]; [lia|].
  destruct (tx_stops n u' s3) as (s4 & E4 & P4 & D4 & A4 & B4).
  { rewrite D3, A3, P3. lia. } { lia. } { rewrite P3, D3, B3, Hs. lia. }
  exists s4. split; [|split_and!; congruence].
  assert (length bits = 1 + (Z.to_nat d + ((if (p =? 0)%Z then 0 else 1) + S n)))%nat as ->.
  { subst bits. unfold line_char, char_bits. cbn [fst snd length].
    rewrite length_app. cbn [length]. rewrite length_app, length_lsb_bits, repeat_length.
    destruct (p =? 0); cbn [length]; lia. }
  assert (bits_Z bits = [0] ++ bits_Z l ++ bits_Z (if p =? 0 then [] else [parity_of p l])
            ++ bits_Z (repeat true (S n))) as ->.
  { subst bits. unfold line_char, char_bits, bits_Z. cbn [fst snd map].
    rewrite map_app. cbn [map]. rewrite map_app. cbn [app]. by rewrite <- app_assoc. }
  eapply tx_bits_app; [exact E1|]. eapply tx_bits_app; [exact E2|]. eapply tx_bits_app; [exact E3|exact E4].
Qed.
End sending.

(** A source of characters: the next of a list, -1 when there is none. *)
Definition next_char (q : list Z) : Z * list Z :=
  match q with [] => (-1, []) | x :: q => (x, q) end.

Lemma tx_chars q s d p n : tx_bitpos s = 0 -> tx_data_bits s = d -> tx_parity s = p -> 0 <= d ->
  (0 < n)%nat -> tx_stop_bits s = Z.of_nat n + (if p =? 0 then 0 else 1) ->
  Forall (fun x => 0 <= x) q ->
  let bits := concat (map (fun x => line_char d p (x, n)) q) in
  exists s', tx_bits next_char (length bits) q s = (bits_Z bits, ([], s')) /\ tx_bitpos s' = 0.
Proof.
  revert s. induction q as [|x q IH]; intros s Hpos Hd Hp Hd0 Hn Hs Hq; [by exists s|].
  apply Forall_cons_1 in Hq as [Hx Hq].
  destruct (tx_char next_char (x :: q) s x q n Hpos eq_refl Hx) as (s1 & E1 & P1 & D1 & A1 & B1);
    [lia|done|by rewrite Hp|].
  rewrite Hd, Hp in *. cbv zeta in *.
  destruct (IH s1) as (s2 & E2 & P2); try done; [by rewrite B1|].
  exists s2. split; [|done]. cbn [map concat]. rewrite length_app. unfold bits_Z in *. rewrite map_app.
  by eapply tx_bits_app.
Qed.

(** ** The properties *)

(** What character framing the library supports: up to eight data bits, any
    parity. *)
Definition framing_ok (d p : Z) : Prop := 0 <= d <= 8 /\ (p = 0 \/ p = 1 \/ p = 2).

Lemma rx_line d p stop v14 l :
  framing_ok d p -> stops_ok v14 l -> Forall (fun c => 0 <= fst c < 2 ^ d) l ->
  exists s, rx_bits (async_rx_init d p stop v14) (bits_Z (concat (map (line_char d p) l))) =
              (s, map fst l) /\ parity_errors s = 0 /\ framing_errors s = 0.
Proof.
  intros [Hd Hp] Hs Hx. destruct l as [|c l]; [by eexists|].
  set (s0 := async_rx_init d p stop v14).
  destruct (rx_start s0 eq_refl) as (s1 & E1 & L1 & S1).
  destruct (rx_chars l c s1 d p S1) as (s2 & E2 & L2 & P2); try done.
  - by destruct L1 as (-> & _).
  - by destruct L1 as (_ & -> & _).
  - by destruct L1 as (_ & _ & -> & _).
  - set (line := concat (map (line_char d p) (c :: l))) in *.
    assert (line = false :: tail line) as -> by done. cbn [bits_Z map rx_bits Z.b2z]. rewrite E1.
    unfold bits_Z in E2. rewrite E2. exists s2. split; [done|].
    destruct L1 as (_ & _ & _ & A1 & B1), L2 as (_ & _ & _ & A2 & B2). rewrite A2, B2, A1, B1. done.
Qed.

(** The receiver recovers every character of a correctly framed line, with
    any number of stop bits between characters - under V.14 also none, the next
    start bit standing in for the stop bit - delivers nothing else, and counts no
    error. *)
Theorem async_rx_decodes (d p stop : Z) (v14 : bool) (l : list (Z * nat)) :
  framing_ok d p -> stops_ok v14 l -> Forall (fun c => 0 <= fst c < 2 ^ d) l ->
  let '(s, chars) := rx_bits (async_rx_init d p stop v14) (bits_Z (concat (map (line_char d p) l))) in
  chars = map fst l /\ parity_errors s = 0 /\ framing_errors s = 0.
Proof.
  intros H Hs Hx. destruct (rx_line d p stop v14 l H Hs Hx) as (s & E & H1 & H2). by rewrite E.
Qed.

Lemma async_rx_decodes_witness :
  framing_ok 7 2 /\
  let l := [(0x41, 0%nat); (0x42, 3%nat); (0, 1%nat)] in
  let '(s, chars) := rx_bits (async_rx_init 7 2 1 true) (bits_Z (concat (map (line_char 7 2) l))) in
  chars = [0x41; 0x42; 0] /\ parity_errors s = 0 /\ framing_errors s = 0.
Proof.
  assert (framing_ok 7 2) as H by (split; lia). split; [exact H|].
  refine (async_rx_decodes 7 2 1 true [(0x41, 0%nat); (0x42, 3%nat); (0, 1%nat)] H _ _).
  - cbn. split; [right; repeat split; discriminate|]. split; [left; lia|]. split; [left; lia|exact I].
  - repeat apply Forall_cons_2; cbn; try lia. apply Forall_nil_2.
Defined.

(** C27: what the transmitter sends for a source of characters, the receiver with
    the same framing delivers, in order, without errors; and when the source ends
    the transmitter's "end of data" reaches the receiver's user too. *)
Theorem async_roundtrip (d p : Z) (stop : nat) (v14 : bool) (q : list Z) :
  framing_ok d p -> (0 < stop)%nat -> Forall (fun x => 0 <= x < 2 ^ d) q ->
  exists n,
    let line := fst (tx_bits next_char n q (async_tx_init d p (Z.of_nat stop))) in
    let '(s, chars) := rx_bits (async_rx_init d p (Z.of_nat stop) v14) line in
    chars = q ++ [SIG_STATUS_END_OF_DATA] /\ parity_errors s = 0 /\ framing_errors s = 0.
Proof.
  intros H Hstop Hq. pose proof H as [Hd Hp].
  set (l := map (fun x => (x, stop)) q).
  assert (concat (map (fun x => line_char d p (x, stop)) q) = concat (map (line_char d p) l)) as El
    by (subst l; by rewrite map_map).
  destruct (tx_chars q (async_tx_init d p (Z.of_nat stop)) d p stop) as (s' & E & P); try done; [lia| | |].
  { cbn. unfold ASYNC_PARITY_NONE. destruct (Z.eqb_spec p 0); cbn; lia. }
  { eapply Forall_impl; [|exact Hq]. cbn. lia. }
  cbv zeta in E. rewrite El in E. set (line := concat (map (line_char d p) l)) in *.
  exists (length line + 1)%nat.
  assert (tx_bits next_char 1 [] s' = ([SIG_STATUS_END_OF_DATA], ([], s' <| tx_byte := -1 |>))) as E1.
  { cbn [tx_bits]. unfold async_tx_get_bit. by rewrite P. }
  cbv zeta. rewrite (tx_bits_app _ _ _ _ _ _ _ _ _ _ E E1). cbn [fst].
  destruct (rx_line d p (Z.of_nat stop) v14 l H) as (s & Er & H1 & H2).
  { subst l. clear - Hstop. induction q as [|x q IH]; [done|]. cbn. split; [by left|exact IH]. }
  { subst l. apply Forall_map. exact Hq. }
  assert (map fst l = q) as Ef by (subst l; rewrite map_map; apply map_id). rewrite Ef in Er.
  fold line in Er.
  rewrite (rx_bits_app _ _ [SIG_STATUS_END_OF_DATA] s q
             (s <| rx_bitpos := 0 |> <| rx_byte := 0 |>) [SIG_STATUS_END_OF_DATA] Er eq_refl).
  done.
Qed.

Lemma async_roundtrip_witness :
  exists n,
    let line := fst (tx_bits next_char n [0x41; 0x7F; 0] (async_tx_init 7 1 2)) in
    let '(s, chars) := rx_bits (async_rx_init 7 1 2 false) line in
    chars = [0x41; 0x7F; 0] ++ [SIG_STATUS_END_OF_DATA] /\ parity_errors s = 0 /\ framing_errors s = 0.
Proof.
  refine (async_roundtrip 7 1 2 false [0x41; 0x7F; 0] _ _ _).
  - split; lia.
  - lia.
  - repeat apply Forall_cons_2; try lia. apply Forall_nil_2.
Defined.
