(* ===== verification/T38Core.v ===== *)
(** * The T.38 core (src/spandsp-0.0.6/src/t38_core.c)

    IFP packets: the encoders of indicator and data packets, the decoder with
    its sequence number rules, and the state both keep.  The callbacks in the
    C structure are the functions of the [t38_handlers] record, over a client
    state [U] (the C [user_data]); they see the core's state and do not change
    it.  A packet buffer is the list of its octets. *)
From Stdlib Require Import String.
From S2P Require Import Prelude.

(** ** Definitions *)

Definition T38_IND_V17_14400_LONG_TRAINING : Z := 15.
Definition T38_IND_V8_ANSAM : Z := 16.
Definition T38_IND_V33_14400_TRAINING : Z := 22.
Definition T38_DATA_V17_14400 : Z := 8.
Definition T38_DATA_V8 : Z := 9.
Definition T38_DATA_V33_14400 : Z := 14.
Definition T38_FIELD_T4_NON_ECM_SIG_END : Z := 7.
Definition T38_FIELD_CM_MESSAGE : Z := 8.
Definition T38_FIELD_V34RATE : Z := 11.
Definition T38_PACKET_CATEGORY_INDICATOR : Z := 0.
Definition T38_DATA_RATE_MANAGEMENT_TRANSFERRED_TCF : Z := 2.
Definition T38_TRANSPORT_UDPTL : Z := 0.
Definition ACCEPTABLE_SEQ_NO_OFFSET : Z := 2000.

Record t38_core_state_t := {
  data_rate_management_method : Z;
  data_transport_protocol : Z;
  fill_bit_removal : bool;
  mmr_transcoding : bool;
  jbig_transcoding : bool;
  max_buffer_size : Z;
  max_datagram_size : Z;
  t38_version : Z;
  allow_for_tep : bool;
  fastest_image_data_rate : Z;
  category_control : list Z;
  check_sequence_numbers : bool;
  tx_seq_no : Z;
  rx_expected_seq_no : Z;
  current_rx_indicator : Z;
  current_rx_data_type : Z;
  current_rx_field_type : Z;
  current_tx_indicator : Z;
  missing_packets : Z;
}.

#[export] Instance eta_t38_core : Eta t38_core_state_t := fun s =>
  Build_t38_core_state_t (data_rate_management_method s) (data_transport_protocol s)
    (fill_bit_removal s) (mmr_transcoding s) (jbig_transcoding s) (max_buffer_size s)
    (max_datagram_size s) (t38_version s) (allow_for_tep s) (fastest_image_data_rate s)
    (category_control s) (check_sequence_numbers s) (tx_seq_no s) (rx_expected_seq_no s)
    (current_rx_indicator s) (current_rx_data_type s) (current_rx_field_type s)
    (current_tx_indicator s) (missing_packets s).

(** The callbacks.  [rx_missing_handler] takes the C's two numbers in the order
    of the call; [rx_data_handler] the octets at the pointer and the length
    (none and 0 for the C's [NULL, 0]); [tx_packet_handler] the octets of the
    packet and the number of times to send it. *)
Record t38_handlers (U : Type) := {
  rx_indicator_handler : t38_core_state_t -> U -> Z -> U;
  rx_data_handler : t38_core_state_t -> U -> Z -> Z -> list Z -> Z -> U;
  rx_missing_handler : t38_core_state_t -> U -> Z -> Z -> U;
  tx_packet_handler : t38_core_state_t -> U -> list Z -> Z -> U;
}.
Arguments rx_indicator_handler {U}.
Arguments rx_data_handler {U}.
Arguments rx_missing_handler {U}.
Arguments tx_packet_handler {U}.

(** Start-up times in microseconds: the optional TEP, training, flags. *)
Definition modem_startup_time : list (Z * Z * Z) :=
  [ (0, 75000, 0); (0, 0, 0); (0, 3000000, 0); (0, 0, 1000000);
    (215000, 943000, 200000); (215000, 708000, 200000);
    (215000, 234000, 200000); (215000, 234000, 200000);
    (215000, 142000, 200000); (215000, 1393000, 200000);
    (215000, 142000, 200000); (215000, 1393000, 200000);
    (215000, 142000, 200000); (215000, 1393000, 200000);
    (215000, 142000, 200000); (215000, 1393000, 200000);
    (215000, 0, 0); (215000, 0, 0); (215000, 0, 0); (215000, 0, 0); (215000, 0, 0);
    (215000, 0, 0); (215000, 0, 0) ].

Definition startup (indicator : Z) : Z * Z * Z :=
  nth (Z.to_nat indicator) modem_startup_time (0, 0, 0).
Definition startup_tep (indicator : Z) : Z := (startup indicator).1.1.
Definition startup_training (indicator : Z) : Z := (startup indicator).1.2.
Definition startup_flags (indicator : Z) : Z := (startup indicator).2.

(** [switch (k) { case 0: return l[0]; ... } return "???"] *)
Definition name_of (l : list string) (k : Z) : string :=
  if k <? 0 then "???"%string else nth (Z.to_nat k) l "???"%string.

Definition t38_indicator_to_str (indicator : Z) : string :=
  name_of
    [ "no-signal"; "cng"; "ced"; "v21-preamble"; "v27-2400-training"; "v27-4800-training";
      "v29-7200-training"; "v29-9600-training"; "v17-7200-short-training";
      "v17-7200-long-training"; "v17-9600-short-training"; "v17-9600-long-training";
      "v17-12000-short-training"; "v17-12000-long-training"; "v17-14400-short-training";
      "v17-14400-long-training"; "v8-ansam"; "v8-signal"; "v34-cntl-channel-1200";
      "v34-pri-channel"; "v34-CC-retrain"; "v33-12000-training"; "v33-14400-training" ]%string
    indicator.

Definition t38_data_type_to_str (data_type : Z) : string :=
  name_of
    [ "v21"; "v27-2400"; "v27-4800"; "v29-7200"; "v29-9600"; "v17-7200"; "v17-9600";
      "v17-12000"; "v17-14400"; "v8"; "v34-pri-rate"; "v34-CC-1200"; "v34-pri-vh";
      "v33-12000"; "v33-14400" ]%string
    data_type.

Definition t38_field_type_to_str (field_type : Z) : string :=
  name_of
    [ "hdlc-data"; "hdlc-sig-end"; "hdlc-fcs-OK"; "hdlc-fcs-BAD"; "hdlc-fcs-OK-sig-end";
      "hdlc-fcs-BAD-sig-end"; "t4-non-ecm-data"; "t4-non-ecm-sig-end"; "cm-message";
      "jm-message"; "ci-message"; "v34rate" ]%string
    field_type.

(** The profiles are the characters '1' to '6'. *)
Definition t38_cm_profile_to_str (profile : Z) : string :=
  name_of
    [ "G3 FAX sending terminal"; "G3 FAX receiving terminal";
      "V.34 HDX and G3 FAX sending terminal"; "V.34 HDX and G3 FAX receiving terminal";
      "V.34 HDX-only FAX sending terminal"; "V.34 HDX-only FAX receiving terminal" ]%string
    (profile - 0x31).

(** 'A' is 0x41, 'N' 0x4E, '0' 0x30. *)
Definition t38_jm_to_str (data : list Z) (len : Z) : string :=
  (if (len <? 2)%Z then "???"
   else if (aget data 0 =? 0x41)%Z then
     if (aget data 1 =? 0x30)%Z then "ACK" else "???"
   else if (aget data 0 =? 0x4E)%Z then
     if (aget data 1 =? 0x30)%Z then "NACK: No compatible mode available"
     else if (aget data 1 =? 0x31)%Z then "NACK: No V.34 FAX, use G3 FAX"
     else if (aget data 1 =? 0x32)%Z then "NACK: V.34 only FAX."
     else "???"
   else "???")%string.

(** The loop over the three digits. *)
Fixpoint v34rate_loop (data : list Z) (i : Z) (n : nat) (rate : Z) : option Z :=
  match n with
  | O => Some rate
  | S n =>
      if (aget data i <? 0x30) || (0x39 <? aget data i) then None
      else v34rate_loop data (i + 1) n (rate * 10 + aget data i - 0x30)
  end.

Definition t38_v34rate_to_bps (data : list Z) (len : Z) : Z :=
  if len <? 3 then -1
  else match v34rate_loop data 0 3 0 with
       | None => -1
       | Some rate => rate * 100
       end.

Definition classify_seq_no_offset (expected actual : Z) : Z :=
  if actual <? expected then
    if actual + 0x10000 - ACCEPTABLE_SEQ_NO_OFFSET <? expected then 1
    else if expected <? actual + ACCEPTABLE_SEQ_NO_OFFSET then -1
    else 0
  else
    if actual <? expected + ACCEPTABLE_SEQ_NO_OFFSET then 1
    else if expected + 0x10000 - ACCEPTABLE_SEQ_NO_OFFSET <? actual then -1
    else 0.

(** *** Receiving *)

(** One field of a data packet: its type, whether it has data and where, from
    octet [ptr] on ([None] for the C's [return -1]). *)
Definition rx_field_type (version : Z) (buf : list Z) (len ptr : Z) (other_half : bool)
    : option (Z * bool * Z * bool) :=
  if len <=? ptr then None
  else if version =? 0 then
    let '(present, ft, ptr, other_half) :=
      if other_half then
        (Z.testbit (aget buf ptr) 3, aget buf ptr .& 0x7, ptr + 1, false)
      else
        let present := Z.testbit (aget buf ptr) 7 in
        (present, (aget buf ptr .>> 4) .& 0x7,
         if present then ptr + 1 else ptr, if present then false else true) in
    if T38_FIELD_T4_NON_ECM_SIG_END <? ft then None
    else Some (ft, present, ptr, other_half)
  else
    let present := Z.testbit (aget buf ptr) 7 in
    if Z.testbit (aget buf ptr) 6 then
      if len - 2 <? ptr then None
      else
        let ft := T38_FIELD_CM_MESSAGE +
                  (((aget buf ptr .<< 2) .& 0x3C) .| ((aget buf (ptr + 1) .>> 6) .& 0x3)) in
        if T38_FIELD_V34RATE <? ft then None
        else Some (ft, present, ptr + 2, other_half)
    else
      Some ((aget buf ptr .>> 3) .& 0x7, present, ptr + 1, other_half).

(** The field's data: the octets, their number, and the next [ptr]. *)
Definition rx_field_data (buf : list Z) (len ptr : Z) (present : bool) : option (list Z * Z * Z) :=
  if present then
    if len - 2 <? ptr then None
    else
      let numocts := ((aget buf ptr .<< 8) .| aget buf (ptr + 1)) + 1 in
      let msg := slice buf (ptr + 2) numocts in
      let ptr := ptr + (numocts + 2) in
      if len <? ptr then None else Some (msg, numocts, ptr)
  else
    if len <? ptr then None else Some ([], 0, ptr).

Section receive.
Context {U : Type} (h : t38_handlers U).

(** The loop over the [count] fields; the result carries the C's [return -1]
    ([false]), the client and core states, and the final position. *)
Fixpoint rx_fields (s : t38_core_state_t) (u : U) (buf : list Z) (len : Z) (t30_data : Z)
    (count : nat) (ptr : Z) (other_half : bool) : bool * t38_core_state_t * U * Z * bool :=
  match count with
  | O => (true, s, u, ptr, other_half)
  | S count =>
      match rx_field_type (t38_version s) buf len ptr other_half with
      | None => (false, s, u, ptr, other_half)
      | Some (ft, present, ptr', other_half') =>
          match rx_field_data buf len ptr' present with
          | None => (false, s, u, ptr, other_half)
          | Some (msg, numocts, ptr'') =>
              let u := rx_data_handler h s u t30_data ft msg numocts in
              let s := s <| current_rx_data_type := t30_data |>
                         <| current_rx_field_type := ft |> in
              rx_fields s u buf len t30_data count ptr'' other_half'
          end
      end
  end.

Definition rx_indicator (s : t38_core_state_t) (u : U) (buf : list Z) (len : Z)
    : Z * t38_core_state_t * U :=
  if Z.testbit (aget buf 0) 7 then (-1, s, u)
  else
    let s := s <| current_rx_data_type := -1 |> <| current_rx_field_type := -1 |> in
    let t30_indicator :=
      if Z.testbit (aget buf 0) 5 then
        if negb (len =? 2) then None
        else
          let t := T38_IND_V8_ANSAM +
                   (((aget buf 0 .<< 2) .& 0x3C) .| ((aget buf 1 .>> 6) .& 0x3)) in
          if T38_IND_V33_14400_TRAINING <? t then None else Some t
      else
        if negb (len =? 1) then None else Some ((aget buf 0 .>> 1) .& 0xF) in
    match t30_indicator with
    | None => (-1, s, u)
    | Some t =>
        let u := rx_indicator_handler h s u t in
        (0, s <| current_rx_indicator := t |>, u)
    end.

(** The type of data and where the fields start. *)
Definition rx_data_type (buf : list Z) (len : Z) : option (Z * Z) :=
  if Z.testbit (aget buf 0) 5 then
    if len <? 2 then None
    else
      let t := T38_DATA_V8 + (((aget buf 0 .<< 2) .& 0x3C) .| ((aget buf 1 .>> 6) .& 0x3)) in
      if T38_DATA_V33_14400 <? t then None else Some (t, 2)
  else
    let t := (aget buf 0 .>> 1) .& 0xF in
    if T38_DATA_V17_14400 <? t then None else Some (t, 1).

Definition rx_data (s : t38_core_state_t) (u : U) (buf : list Z) (len : Z)
    : Z * t38_core_state_t * U :=
  match rx_data_type buf len with
  | None => (-1, s, u)
  | Some (t30_data, ptr) =>
      if negb (Z.testbit (aget buf 0) 7) then
        if negb (ptr =? len) then (-1, s, u) else (0, s, u)
      else if len <=? ptr then (-1, s, u)
      else
        let count := aget buf ptr in
        let '(ok, s, u, ptr, other_half) :=
          rx_fields s u buf len t30_data (Z.to_nat count) (ptr + 1) false in
        if negb ok then (-1, s, u)
        else if negb (ptr =? len) &&
                (negb (t38_version s =? 0) || negb (ptr =? len - 1) || negb other_half)
        then (-1, s, u)
        else (0, s, u)
  end.

(** The sequence number rules; [None] drops the packet ([return 0]). *)
Definition rx_sequence (s : t38_core_state_t) (u : U) (seq_no : Z) : option (t38_core_state_t * U) :=
  if check_sequence_numbers s then
    if negb (seq_no =? rx_expected_seq_no s) then
      if negb (rx_expected_seq_no s =? -1) then
        if (seq_no + 1) .& 0xFFFF =? rx_expected_seq_no s then None
        else
          let c := classify_seq_no_offset (rx_expected_seq_no s) seq_no in
          if c =? -1 then None
          else if c =? 1 then
            let u := rx_missing_handler h s u (rx_expected_seq_no s) seq_no in
            let s := s <| missing_packets :=
                            missing_packets s + (seq_no - rx_expected_seq_no s) |> in
            Some (s <| rx_expected_seq_no := seq_no |>, u)
          else
            let u := rx_missing_handler h s u (-1) (-1) in
            let s := s <| missing_packets := missing_packets s + 1 |> in
            Some (s <| rx_expected_seq_no := seq_no |>, u)
      else Some (s <| rx_expected_seq_no := seq_no |>, u)
    else Some (s, u)
  else Some (s, u).

(** The message in an accepted packet. *)
Definition rx_message (s : t38_core_state_t) (u : U) (buf : list Z) (len : Z)
    : Z * t38_core_state_t * U :=
  if Z.testbit (aget buf 0) 6 then rx_data s u buf len else rx_indicator s u buf len.

(** The value returned, the state and the client's state. *)
Definition t38_core_rx_ifp_packet (s : t38_core_state_t) (u : U) (buf : list Z) (len seq_no : Z)
    : Z * t38_core_state_t * U :=
  if len <? 1 then (-1, s, u)
  else
    match rx_sequence s u (seq_no .& 0xFFFF) with
    | None => (0, s, u)
    | Some (s, u) =>
        let s := s <| rx_expected_seq_no := (rx_expected_seq_no s + 1) .& 0xFFFF |> in
        rx_message s u buf len
    end.

End receive.

(** *** Transmitting *)

Record t38_data_field_t := {
  field_type : Z;
  field : list Z;
  field_len : Z;
}.

(** What an encoder does: the octets written, the C's [return -1], or an access
    past the end of the [field] array. *)
Inductive encoded :=
  | Octets (buf : list Z)
  | Refused
  | Out_of_bounds.

Definition t38_encode_indicator (s : t38_core_state_t) (indicator : Z) : option (list Z) :=
  if indicator <=? T38_IND_V17_14400_LONG_TRAINING then Some [u8 (indicator .<< 1)]
  else if negb (t38_version s =? 0) && (indicator <=? T38_IND_V33_14400_TRAINING) then
    Some [u8 (0x20 .| (((indicator - T38_IND_V8_ANSAM) .& 0xF) .>> 2));
          u8 (((indicator - T38_IND_V8_ANSAM) .<< 6) .& 0xFF)]
  else None.

(** One element: the octets of its type, then its length and data. *)
Definition encode_element (version : Z) (q : t38_data_field_t) : option (list Z) :=
  let present := 0 <? field_len q in
  let bit7 := Z.b2z present .<< 7 in
  type_octets ←
    (if version =? 0 then
       if T38_FIELD_T4_NON_ECM_SIG_END <? field_type q then None
       else Some [u8 (bit7 .| (field_type q .<< 4))]
     else if field_type q <=? T38_FIELD_T4_NON_ECM_SIG_END then
       Some [u8 (bit7 .| (field_type q .<< 3))]
     else if field_type q <=? T38_FIELD_V34RATE then
       Some [u8 (bit7 .| 0x40 .| ((field_type q - T38_FIELD_CM_MESSAGE) .>> 2));
             u8 (((field_type q - T38_FIELD_CM_MESSAGE) .<< 6) .& 0xC0)]
     else None);
  if present then
    if (field_len q <? 1) || (65535 <? field_len q) then None
    else
      Some (type_octets ++
            [u8 (((field_len q - 1) .>> 8) .& 0xFF); u8 ((field_len q - 1) .& 0xFF)] ++
            slice (field q) 0 (field_len q))
  else Some type_octets.

(** The element loop, [n] turns from element [data_field_no] on. *)
Fixpoint encode_elements (version : Z) (fields : list t38_data_field_t) (n : nat)
    (data_field_no : nat) : encoded :=
  match n with
  | O => Octets []
  | S n =>
      match fields !! data_field_no with
      | None => Out_of_bounds
      | Some q =>
          match encode_element version q with
          | None => Refused
          | Some l =>
              match encode_elements version fields n (S data_field_no) with
              | Octets rest => Octets (l ++ rest)
              | e => e
              end
          end
      end
  end.

(** The number of elements announced: the octets and the value of [enclen]. *)
Definition encode_count (value : Z) : list Z * Z :=
  if value <? 0x80 then ([u8 value], value)
  else if value <? 0x4000 then
    ([u8 (0x80 .| ((value .>> 8) .& 0xFF)); u8 (value .& 0xFF)], value)
  else
    let multiplier := if value / 0x4000 <? 4 then value / 0x4000 else 4 in
    ([u8 (0xC0 .| multiplier)], 0x4000 * multiplier).

(** The [do ... while] over the fragments.  The C's inner loop makes
    [encoded_len] turns, the total so far, not [fragment_len]. *)
Fixpoint encode_fragments (fuel : nat) (version : Z) (fields : list t38_data_field_t)
    (encoded_len : Z) (data_field_no : nat) : encoded :=
  match fuel with
  | O => Out_of_bounds
  | S fuel =>
      let '(count, enclen) := encode_count (zlen fields - encoded_len) in
      let fragment_len := enclen in
      let encoded_len := encoded_len + fragment_len in
      match encode_elements version fields (Z.to_nat encoded_len) data_field_no with
      | Octets l =>
          if negb (zlen fields =? encoded_len) || (16384 <=? fragment_len) then
            match encode_fragments fuel version fields encoded_len
                    (data_field_no + Z.to_nat encoded_len) with
            | Octets rest => Octets (count ++ l ++ rest)
            | e => e
            end
          else Octets (count ++ l)
      | e => e
      end
  end.

(** Every turn but the last announces at least 16384 elements, so this many
    turns are enough ([encode_fragments_fuel] below). *)
Definition t38_encode_data (s : t38_core_state_t) (data_type : Z) (fields : list t38_data_field_t)
    : encoded :=
  match
    (if data_type <=? T38_DATA_V17_14400 then
       Some [u8 ((1 .<< 7) .| 0x40 .| (data_type .<< 1))]
     else if negb (t38_version s =? 0) && (data_type <=? T38_DATA_V33_14400) then
       Some [u8 ((1 .<< 7) .| 0x60 .| (((data_type - T38_DATA_V8) .& 0xF) .>> 2));
             u8 (((data_type - T38_DATA_V8) .<< 6) .& 0xFF)]
     else None)
  with
  | None => Refused
  | Some hd =>
      match encode_fragments (Z.to_nat (zlen fields / 16384 + 2)) (t38_version s) fields 0 0 with
      | Octets l => Octets (hd ++ l)
      | e => e
      end
  end.

Section transmit.
Context {U : Type} (h : t38_handlers U).

Definition t38_core_send_indicator (s : t38_core_state_t) (u : U) (indicator : Z)
    : Z * t38_core_state_t * U :=
  if negb (current_tx_indicator s =? indicator) then
    let category := aget (category_control s) T38_PACKET_CATEGORY_INDICATOR in
    if negb (category =? 0) then
      match t38_encode_indicator s indicator with
      | None => (-1, s, u)
      | Some buf =>
          let u := tx_packet_handler h s u buf category in
          let s := s <| tx_seq_no := (tx_seq_no s + 1) .& 0xFFFF |> in
          let delay := startup_training indicator in
          let delay := if allow_for_tep s then delay + startup_tep indicator else delay in
          (delay, s <| current_tx_indicator := indicator |>, u)
      end
    else (0, s <| current_tx_indicator := indicator |>, u)
  else (0, s, u).

Definition t38_core_send_flags_delay (s : t38_core_state_t) (indicator : Z) : Z :=
  startup_flags indicator.

(** [None] where the encoder leaves the [field] array or the 1000 octets of
    [buf], which C does not define. *)
Definition t38_core_send_data_multi_field (s : t38_core_state_t) (u : U) (data_type : Z)
    (fields : list t38_data_field_t) (category : Z) : option (Z * t38_core_state_t * U) :=
  match t38_encode_data s data_type fields with
  | Refused => Some (-1, s, u)
  | Out_of_bounds => None
  | Octets buf =>
      if 1000 <? zlen buf then None
      else
        let u := tx_packet_handler h s u buf (aget (category_control s) category) in
        Some (0, s <| tx_seq_no := (tx_seq_no s + 1) .& 0xFFFF |>, u)
  end.

Definition t38_core_send_data (s : t38_core_state_t) (u : U) (data_type ft : Z) (data : list Z)
    (len category : Z) : option (Z * t38_core_state_t * U) :=
  let field0 := {| field_type := ft; field := data; field_len := len |} in
  match t38_encode_data s data_type [field0] with
  | Refused => Some (-1, s, u)
  | Out_of_bounds => None
  | Octets buf =>
      if 1000 <? zlen buf then None
      else
        let u := tx_packet_handler h s u buf (aget (category_control s) category) in
        Some (0, s <| tx_seq_no := (tx_seq_no s + 1) .& 0xFFFF |>, u)
  end.

End transmit.

(** *** Options and creation *)

Definition t38_set_data_rate_management_method (s : t38_core_state_t) (method : Z) :=
  s <| data_rate_management_method := method |>.
Definition t38_set_data_transport_protocol (s : t38_core_state_t) (protocol : Z) :=
  s <| data_transport_protocol := protocol |>.
Definition t38_set_fill_bit_removal (s : t38_core_state_t) (v : bool) :=
  s <| fill_bit_removal := v |>.
Definition t38_set_mmr_transcoding (s : t38_core_state_t) (v : bool) :=
  s <| mmr_transcoding := v |>.
Definition t38_set_jbig_transcoding (s : t38_core_state_t) (v : bool) :=
  s <| jbig_transcoding := v |>.
Definition t38_set_max_buffer_size (s : t38_core_state_t) (size : Z) :=
  s <| max_buffer_size := size |>.
Definition t38_set_max_datagram_size (s : t38_core_state_t) (size : Z) :=
  s <| max_datagram_size := size |>.
Definition t38_set_t38_version (s : t38_core_state_t) (version : Z) :=
  s <| t38_version := version |>.
Definition t38_set_sequence_number_handling (s : t38_core_state_t) (check : bool) :=
  s <| check_sequence_numbers := check |>.
Definition t38_set_tep_handling (s : t38_core_state_t) (allow : bool) :=
  s <| allow_for_tep := allow |>.
Definition t38_set_redundancy_control (s : t38_core_state_t) (category setting : Z) :=
  s <| category_control := aset (category_control s) category setting |>.
Definition t38_set_fastest_image_data_rate (s : t38_core_state_t) (max_rate : Z) :=
  s <| fastest_image_data_rate := max_rate |>.
Definition t38_get_fastest_image_data_rate (s : t38_core_state_t) : Z :=
  fastest_image_data_rate s.

Definition t38_core_init : t38_core_state_t := {|
  data_rate_management_method := T38_DATA_RATE_MANAGEMENT_TRANSFERRED_TCF;
  data_transport_protocol := T38_TRANSPORT_UDPTL;
  fill_bit_removal := false;
  mmr_transcoding := false;
  jbig_transcoding := false;
  max_buffer_size := 400;
  max_datagram_size := 100;
  t38_version := 0;
  allow_for_tep := false;
  fastest_image_data_rate := 0;
  category_control := [1; 1; 1; 1; 1];
  check_sequence_numbers := true;
  tx_seq_no := 0;
  rx_expected_seq_no := -1;
  current_rx_indicator := -1;
  current_rx_data_type := -1;
  current_rx_field_type := -1;
  current_tx_indicator := -1;
  missing_packets := 0;
|}.

(** ** Sequence numbers *)

(** How far [actual] is ahead of [expected], modulo 2^16. *)
Definition seq_distance (expected actual : Z) : Z := (actual - expected) mod 0x10000.

Lemma seq_distance_cases e a : 0 <= e < 0x10000 -> 0 <= a < 0x10000 ->
  (e <= a /\ seq_distance e a = a - e) \/ (a < e /\ seq_distance e a = a - e + 0x10000).
Proof.
  intros. unfold seq_distance. destruct (Z_le_gt_dec e a).
  - left. split; [done|]. apply Z.mod_small. lia.
  - right. split; [lia|]. rewrite <- (Z_mod_plus_full (a - e) 1), Z.mod_small; lia.
Qed.

Lemma land_ffff x : x .& 0xFFFF = x mod 0x10000.
Proof. change 0xFFFF with (Z.ones 16). by rewrite Z.land_ones. Qed.

Lemma seq_repeat e a : 0 <= e < 0x10000 -> 0 <= a < 0x10000 ->
  ((a + 1) .& 0xFFFF =? e) = (seq_distance e a =? 0xFFFF).
Proof.
  intros He Ha. rewrite land_ffff. destruct (seq_distance_cases e a He Ha) as [[? ->]|[? ->]].
  - destruct (decide (a = 0xFFFF)) as [->|].
    + change ((0xFFFF + 1) mod 0x10000) with 0. lia.
    + rewrite Z.mod_small by lia. lia.
  - rewrite Z.mod_small by lia. lia.
Qed.

Lemma classify_spec e a : 0 <= e < 0x10000 -> 0 <= a < 0x10000 ->
  classify_seq_no_offset e a =
    (if seq_distance e a <? 2000 then 1 else if 63536 <? seq_distance e a then -1 else 0).
Proof.
  intros He Ha. unfold classify_seq_no_offset, ACCEPTABLE_SEQ_NO_OFFSET.
  destruct (seq_distance_cases e a He Ha) as [[? ->]|[? ->]];
    repeat case_match; lia.
Qed.

(** What the receiver decides for a packet, from its distance alone. *)
Inductive seq_verdict := In_sequence | Drop | Lost (n : Z) | Restart.

Definition seq_verdict_of (expected actual : Z) : seq_verdict :=
  let d := seq_distance expected actual in
  if d =? 0 then In_sequence
  else if d <? 2000 then Lost d
  else if 63536 <? d then Drop
  else Restart.

Definition seq_ok (s : t38_core_state_t) : Prop :=
  rx_expected_seq_no s = -1 \/ 0 <= rx_expected_seq_no s < 0x10000.

Section sequence.
Context {U : Type} (h : t38_handlers U).

Lemma rx_sequence_spec s (u : U) seq : check_sequence_numbers s = true ->
  0 <= rx_expected_seq_no s < 0x10000 -> 0 <= seq < 0x10000 ->
  rx_sequence h s u seq =
    match seq_verdict_of (rx_expected_seq_no s) seq with
    | In_sequence => Some (s, u)
    | Drop => None
    | Lost _ =>
        Some (s <| missing_packets := missing_packets s + (seq - rx_expected_seq_no s) |>
                <| rx_expected_seq_no := seq |>,
              rx_missing_handler h s u (rx_expected_seq_no s) seq)
    | Restart =>
        Some (s <| missing_packets := missing_packets s + 1 |> <| rx_expected_seq_no := seq |>,
              rx_missing_handler h s u (-1) (-1))
    end.
Proof.
  intros Hc He Hs. unfold rx_sequence. rewrite Hc. cbn [negb].
  replace (rx_expected_seq_no s =? -1) with false by lia. cbn [negb].
  rewrite seq_repeat, classify_spec by done. unfold seq_verdict_of.
  pose proof (seq_distance_cases _ _ He Hs) as Hd.
  assert ((seq =? rx_expected_seq_no s) = (seq_distance (rx_expected_seq_no s) seq =? 0)) as -> by lia.
  set (d := seq_distance _ _) in *.
  destruct (Z.eqb_spec d 0); cbn [negb]; [done|].
  destruct (Z.eqb_spec d 0xFFFF).
  { replace (d <? 2000) with false by lia. by replace (63536 <? d) with true by lia. }
  destruct (d <? 2000); [done|]. by destruct (63536 <? d).
Qed.

(** C34: with sequence number checking on, what the receiver does with a packet
    depends on how far its number is ahead of the expected one, modulo 2^16:
    the expected packet is decoded; one less than 2000 ahead is decoded after
    the missing handler heard of the gap; one up to 2000 behind (a repeat or a
    late packet) is dropped with no change at all; any other jump restarts the
    sequence.  In the three cases that decode, the next number is expected
    afterwards.  The count of missing packets grows by the size of the gap,
    less 2^16 when the gap spans the rollover of the numbers. *)
Theorem t38_rx_sequence s (u : U) buf len seq : 1 <= len -> check_sequence_numbers s = true ->
  0 <= rx_expected_seq_no s < 0x10000 -> 0 <= seq < 0x10000 ->
  let e := rx_expected_seq_no s in
  let next := (seq + 1) mod 0x10000 in
  t38_core_rx_ifp_packet h s u buf len seq =
    match seq_verdict_of e seq with
    | In_sequence => rx_message h (s <| rx_expected_seq_no := next |>) u buf len
    | Drop => (0, s, u)
    | Lost n =>
        rx_message h
          (s <| missing_packets := missing_packets s + (if e + n <? 0x10000 then n else n - 0x10000) |>
             <| rx_expected_seq_no := next |>)
          (rx_missing_handler h s u e seq) buf len
    | Restart =>
        rx_message h (s <| missing_packets := missing_packets s + 1 |>
                        <| rx_expected_seq_no := next |>)
          (rx_missing_handler h s u (-1) (-1)) buf len
    end.
Proof.
  intros Hl Hc He Hs e next. unfold t38_core_rx_ifp_packet.
  replace (len <? 1) with false by lia.
  rewrite (land_ffff seq), (Z.mod_small seq) by done.
  rewrite rx_sequence_spec by done. unfold seq_verdict_of.
  pose proof (seq_distance_cases e seq He Hs) as Hd. fold e.
  set (d := seq_distance e seq) in *. subst next.
  destruct (Z.eqb_spec d 0).
  { replace seq with e by lia. by rewrite <- land_ffff. }
  destruct (Z.ltb_spec d 2000).
  { rewrite <- land_ffff.
    replace (seq - e) with (if e + d <? 0x10000 then d else d - 0x10000) by (case_match; lia). done. }
  destruct (63536 <? d); [done|]. by rewrite <- land_ffff.
Qed.

End sequence.

(** A trace of the calls, as a client: used in the examples and in T38Link. *)
Inductive t38_event :=
  | Ev_indicator (indicator : Z)
  | Ev_data (data_type field_type : Z) (data : list Z)
  | Ev_missing (a b : Z)
  | Ev_packet (seq_no : Z) (buf : list Z) (count : Z).

Definition tracing : t38_handlers (list t38_event) := {|
  rx_indicator_handler := fun _ u t => u ++ [Ev_indicator t];
  rx_data_handler := fun _ u t ft l n => u ++ [Ev_data t ft l];
  rx_missing_handler := fun _ u a b => u ++ [Ev_missing a b];
  tx_packet_handler := fun s u buf n => u ++ [Ev_packet (tx_seq_no s) buf n];
|}.

(** Across the rollover the count goes down: 10 packets lost, -65526 counted. *)
Lemma t38_rx_sequence_witness :
  let s := t38_core_init <| rx_expected_seq_no := 65530 |> in
  t38_core_rx_ifp_packet tracing s [] [0x06] 1 4 =
    (0, s <| rx_expected_seq_no := 5 |> <| missing_packets := -65526 |>
          <| current_rx_indicator := 3 |>, [Ev_missing 65530 4; Ev_indicator 3]).
Proof.
  intros s. rewrite (t38_rx_sequence tracing s [] [0x06] 1 4); vm_compute; try done; by split.
Defined.

(** ** The decoder stays inside the packet *)

Lemma land_small x m w : 0 <= w -> 0 <= m < 2 ^ w -> 0 <= x .& m < 2 ^ w.
Proof. apply land_range. Qed.

(** A type extended over two octets: six bits above its base. *)
Lemma extended_nonneg a b : 0 <= ((a .<< 2) .& 0x3C) .| ((b .>> 6) .& 0x3).
Proof. apply (lor_range 6); [done| |]; apply land_range; lia. Qed.

Lemma rx_field_type_bounds v buf len ptr oh ft present ptr' oh' : 0 <= ptr ->
  rx_field_type v buf len ptr oh = Some (ft, present, ptr', oh') ->
  0 <= ft <= T38_FIELD_V34RATE /\ ptr <= ptr' /\ ptr < len.
Proof.
  intros Hp. unfold rx_field_type, T38_FIELD_T4_NON_ECM_SIG_END, T38_FIELD_CM_MESSAGE, T38_FIELD_V34RATE.
  destruct (Z.leb_spec len ptr); [done|].
  pose proof (land_range 3 (aget buf ptr) 7). pose proof (land_range 3 (aget buf ptr .>> 4) 7).
  pose proof (land_range 3 (aget buf ptr .>> 3) 7).
  pose proof (extended_nonneg (aget buf ptr) (aget buf (ptr + 1))).
  intros E. repeat case_match; simplify_eq; lia.
Qed.

Lemma rx_field_data_bounds buf len ptr present msg n ptr' : 0 <= ptr -> bytes buf -> len <= zlen buf ->
  rx_field_data buf len ptr present = Some (msg, n, ptr') ->
  n = zlen msg /\ bytes msg /\ ptr <= ptr' <= len.
Proof.
  intros Hp Hb Hl. unfold rx_field_data.
  assert (0 <= (aget buf ptr .<< 8) .| aget buf (ptr + 1)).
  { apply Z.lor_nonneg. split; [apply Z.shiftl_nonneg|]; by apply bytes_aget. }
  intros E. repeat case_match; simplify_eq; [|split; [done|]; split; [constructor|lia]].
  rewrite length_slice by lia. split; [done|]. split; [by apply bytes_slice|lia].
Qed.

Record rx_wf (s : t38_core_state_t) : Prop := {
  wf_seq : seq_ok s;
  wf_indicator : -1 <= current_rx_indicator s <= T38_IND_V33_14400_TRAINING;
  wf_data_type : -1 <= current_rx_data_type s <= T38_DATA_V33_14400;
  wf_field_type : -1 <= current_rx_field_type s <= T38_FIELD_V34RATE;
}.

Section safety.
Context {U : Type} (h : t38_handlers U) (I : U -> Prop).

(** The client copes with the arguments the header documents. *)
Definition client_ok : Prop :=
  (forall s u t, I u -> 0 <= t <= T38_IND_V33_14400_TRAINING -> I (rx_indicator_handler h s u t)) /\
  (forall s u t ft l n, I u -> 0 <= t <= T38_DATA_V33_14400 -> 0 <= ft <= T38_FIELD_V34RATE ->
     n = zlen l -> bytes l -> I (rx_data_handler h s u t ft l n)) /\
  (forall s u a b, I u -> I (rx_missing_handler h s u a b)).

Lemma rx_fields_safe (C : client_ok) buf len t : bytes buf -> len <= zlen buf ->
  0 <= t <= T38_DATA_V33_14400 ->
  forall count s u ptr oh ok s' u' ptr' oh', rx_wf s -> I u -> 0 <= ptr ->
  rx_fields h s u buf len t count ptr oh = (ok, s', u', ptr', oh') -> rx_wf s' /\ I u'.
Proof.
  intros Hb Hl Ht. induction count as [|count IH]; intros s u ptr oh ok s' u' ptr' oh' W Hu Hp E;
    cbn [rx_fields] in E; [by simplify_eq|].
  destruct (rx_field_type _ _ _ _ _) as [[[[ft present] ptr1] oh1]|] eqn:E1; [|by simplify_eq].
  destruct (rx_field_type_bounds _ _ _ _ _ _ _ _ _ Hp E1) as (Hft & Hp1 & _).
  destruct (rx_field_data _ _ _ _) as [[[msg n] ptr2]|] eqn:E2; [|by simplify_eq].
  assert (0 <= ptr1) as H1 by lia.
  destruct (rx_field_data_bounds _ _ _ _ _ _ _ H1 Hb Hl E2) as (Hn & Hmsg & Hp2).
  revert E. apply IH; [|by apply C|lia].
  destruct W. split; cbn; try done; unfold T38_DATA_V33_14400, T38_FIELD_V34RATE in *; lia.
Qed.

Lemma rx_data_type_bounds buf len t ptr : rx_data_type buf len = Some (t, ptr) ->
  0 <= t <= T38_DATA_V33_14400 /\ 1 <= ptr <= 2.
Proof.
  unfold rx_data_type, T38_DATA_V8, T38_DATA_V33_14400, T38_DATA_V17_14400.
  pose proof (extended_nonneg (aget buf 0) (aget buf 1)).
  pose proof (land_range 4 (aget buf 0 .>> 1) 0xF).
  intros E. repeat case_match; simplify_eq; lia.
Qed.

Lemma rx_message_safe (C : client_ok) buf len s u r s' u' : bytes buf -> len <= zlen buf ->
  rx_wf s -> I u -> rx_message h s u buf len = (r, s', u') ->
  rx_wf s' /\ I u' /\ (r = 0 \/ r = -1).
Proof.
  intros Hb Hl W Hu. unfold rx_message. destruct (Z.testbit _ 6).
  - unfold rx_data. destruct (rx_data_type buf len) as [[t ptr]|] eqn:E; [|intros; simplify_eq; auto].
    destruct (rx_data_type_bounds _ _ _ _ E) as [Ht Hp].
    destruct (rx_fields _ _ _ _ _ _ _ _ _) as [[[[ok s1] u1] ptr1] oh1] eqn:E1.
    apply rx_fields_safe in E1 as [W1 Hu1]; try done; [|lia].
    intros; repeat case_match; simplify_eq; auto.
  - unfold rx_indicator, T38_IND_V33_14400_TRAINING, T38_IND_V8_ANSAM.
    pose proof (extended_nonneg (aget buf 0) (aget buf 1)).
    pose proof (land_range 4 (aget buf 0 .>> 1) 0xF).
    destruct (Z.testbit _ 7); [intros; simplify_eq; auto|].
    set (s1 := s <| current_rx_data_type := -1 |> <| current_rx_field_type := -1 |>).
    assert (rx_wf s1) as W1 by (destruct W; split; cbn; try done; by vm_compute).
    destruct (if Z.testbit _ 5 then _ else _) as [t|] eqn:E; [|intros; simplify_eq; auto].
    change (2 ^ 4) with 16 in *.
    assert (0 <= t <= 22) by (repeat case_match; simplify_eq; lia).
    intros; simplify_eq. split; [|split; [by apply C|by left]].
    destruct W1; split; try done.
    change (-1 <= t <= 22). lia.
Qed.

Lemma rx_sequence_safe (C : client_ok) s u seq s' u' : rx_wf s -> I u -> 0 <= seq < 0x10000 ->
  rx_sequence h s u seq = Some (s', u') -> rx_wf s' /\ I u'.
Proof.
  intros W Hu Hs E. unfold rx_sequence in E.
  assert (forall m, rx_wf (s <| missing_packets := m |> <| rx_expected_seq_no := seq |>)) as W1.
  { intros. destruct W. split; try done. by right. }
  assert (rx_wf (s <| rx_expected_seq_no := seq |>)) as W2.
  { destruct W. split; try done. by right. }
  repeat case_match; simplify_eq; split; try done; by apply C.
Qed.

(** C40: whatever a packet holds, the receiver returns 0 or -1, hands its client
    only indicators 0 to 22, data types 0 to 14 and field types 0 to 11, and data
    whose announced length is the number of octets at the pointer: any property
    of the client that such calls preserve survives the packet.  The state stays
    well formed: the expected sequence number is -1 or 16 bits wide and the
    current indicator, data type and field type are -1 or a documented value. *)
Theorem t38_rx_safe (C : client_ok) s u buf len seq :
  bytes buf -> len <= zlen buf -> rx_wf s -> I u ->
  let '(r, s', u') := t38_core_rx_ifp_packet h s u buf len seq in
  rx_wf s' /\ I u' /\ (r = 0 \/ r = -1).
Proof.
  intros Hb Hl W Hu. unfold t38_core_rx_ifp_packet.
  destruct (len <? 1); [auto|].
  destruct (rx_sequence _ _ _ _) as [[s1 u1]|] eqn:E; [|auto].
  apply rx_sequence_safe in E as [W1 Hu1]; try done; [|rewrite land_ffff; by apply Z.mod_pos_bound].
  destruct (rx_message _ _ _ _ _) as [[r s2] u2] eqn:E2. revert E2.
  apply rx_message_safe; try done.
  destruct W1. split; try done. right. cbn. rewrite land_ffff. by apply Z.mod_pos_bound.
Qed.

End safety.

(** All the trace's data is octets. *)
Definition event_bytes (e : t38_event) : Prop :=
  match e with Ev_data _ _ l => bytes l | _ => True end.

Lemma t38_rx_safe_witness :
  let '(r, s', u') :=
    t38_core_rx_ifp_packet tracing t38_core_init [] [0xC0; 2; 0x80; 0; 1; 0xFF; 0xC8; 0x20] 8 7 in
  rx_wf s' /\ Forall event_bytes u' /\ (r = 0 \/ r = -1).
Proof.
  apply (t38_rx_safe tracing (Forall event_bytes)).
  - split; [|split]; intros; apply Forall_app_2; try done; by constructor.
  - by_decide.
  - by vm_compute.
  - split; try by vm_compute. by left.
  - constructor.
Defined.

(** The octets read all lie in the packet: what follows it in memory makes no
    difference. *)
Lemma rx_field_type_app v buf junk ptr oh : 0 <= ptr ->
  rx_field_type v (buf ++ junk) (zlen buf) ptr oh = rx_field_type v buf (zlen buf) ptr oh.
Proof.
  intros Hp. unfold rx_field_type. destruct (Z.leb_spec (zlen buf) ptr); [done|].
  rewrite aget_app_l by lia. destruct (Z.ltb_spec (zlen buf - 2) ptr); [done|].
  by rewrite (aget_app_l _ _ (ptr + 1)) by lia.
Qed.

Lemma rx_field_data_app buf junk ptr present : bytes buf -> 0 <= ptr ->
  rx_field_data (buf ++ junk) (zlen buf) ptr present = rx_field_data buf (zlen buf) ptr present.
Proof.
  intros Hb Hp. unfold rx_field_data. destruct present; [|done].
  destruct (Z.ltb_spec (zlen buf - 2) ptr); [done|]. rewrite !aget_app_l by lia.
  assert (0 <= (aget buf ptr .<< 8) .| aget buf (ptr + 1)).
  { apply Z.lor_nonneg. split; [apply Z.shiftl_nonneg|]; by apply bytes_aget. }
  set (n := (_ .| _) + 1) in *. destruct (Z.ltb_spec (zlen buf) (ptr + (n + 2))); [done|].
  by rewrite slice_app_l by lia.
Qed.

Section bounds.
Context {U : Type} (h : t38_handlers U).

Lemma rx_fields_app buf junk t : bytes buf -> forall count s u ptr oh, 0 <= ptr ->
  rx_fields h s u (buf ++ junk) (zlen buf) t count ptr oh =
  rx_fields h s u buf (zlen buf) t count ptr oh.
Proof.
  intros Hb. induction count as [|count IH]; intros s u ptr oh Hp; [done|]. cbn [rx_fields].
  rewrite rx_field_type_app by done.
  destruct (rx_field_type _ _ _ _ _) as [[[[ft present] ptr1] oh1]|] eqn:E1; [|done].
  destruct (rx_field_type_bounds _ _ _ _ _ _ _ _ _ Hp E1) as (_ & Hp1 & _).
  rewrite rx_field_data_app by (done || lia).
  destruct (rx_field_data _ _ _ _) as [[[msg n] ptr2]|] eqn:E2; [|done].
  apply rx_field_data_bounds in E2 as (_ & _ & ?); try done; [|lia]. apply IH. lia.
Qed.

Lemma rx_message_app s u buf junk : bytes buf -> 1 <= zlen buf ->
  rx_message h s u (buf ++ junk) (zlen buf) = rx_message h s u buf (zlen buf).
Proof.
  intros Hb Hl. unfold rx_message, rx_data, rx_indicator.
  assert (rx_data_type (buf ++ junk) (zlen buf) = rx_data_type buf (zlen buf)) as ->.
  { unfold rx_data_type. rewrite aget_app_l by lia. destruct (Z.ltb_spec (zlen buf) 2); [done|].
    by rewrite aget_app_l by lia. }
  rewrite !(aget_app_l _ _ 0) by lia. destruct (Z.testbit _ 6).
  - destruct (rx_data_type _ _) as [[t ptr]|] eqn:E; [|done]. apply rx_data_type_bounds in E as [_ Hp].
    destruct (Z.leb_spec (zlen buf) ptr); [done|].
    by rewrite aget_app_l, rx_fields_app by (done || lia).
  - destruct (Z.eqb_spec (zlen buf) 2); [|done]. by rewrite (aget_app_l _ _ 1) by lia.
Qed.

(** The decoder never reads past the packet: with any octets after it in
    memory, the result, the states and every call of the client are the same. *)
Theorem t38_rx_in_bounds s (u : U) buf junk seq : bytes buf ->
  t38_core_rx_ifp_packet h s u (buf ++ junk) (zlen buf) seq =
  t38_core_rx_ifp_packet h s u buf (zlen buf) seq.
Proof.
  intros Hb. unfold t38_core_rx_ifp_packet. destruct (Z.ltb_spec (zlen buf) 1); [done|].
  destruct (rx_sequence _ _ _ _) as [[s1 u1]|]; [|done]. by apply rx_message_app.
Qed.

End bounds.

Lemma t38_rx_in_bounds_witness :
  t38_core_rx_ifp_packet tracing t38_core_init [] ([0xC0; 1; 0x80; 0; 9; 1; 2] ++ [3; 4; 5]) 7 0 =
  (-1, t38_core_init <| rx_expected_seq_no := 1 |>, []).
Proof. by rewrite (t38_rx_in_bounds tracing t38_core_init [] [0xC0; 1; 0x80; 0; 9; 1; 2]) by by_decide. Defined.
