(* ===== verification/T38Link.v ===== *)
(** * T.38 packets from sender to receiver (src/spandsp-0.0.6/src/t38_core.c)

    The encoders of [T38Core] against its decoder: what a sender puts in a
    packet is what the receiver's client is called with, packet by packet with
    the sequence numbers in step. *)
From S2P Require Import Prelude T38Core.

(** ** One element *)

(** What the sender's caller owes: a type the version knows, the length of the
    data, no more than 65535 octets of it. *)
Definition field_ok (version : Z) (q : t38_data_field_t) : Prop :=
  0 <= field_type q <= (if version =? 0 then T38_FIELD_T4_NON_ECM_SIG_END else T38_FIELD_V34RATE) /\
  field_len q = zlen (field q) /\ field_len q <= 65535 /\ bytes (field q).

#[export] Instance field_ok_dec v q : Decision (field_ok v q).
Proof. unfold field_ok. apply _. Defined.

Definition type_octets (version : Z) (present : bool) (t : Z) : list Z :=
  let bit7 := Z.b2z present .<< 7 in
  if version =? 0 then [u8 (bit7 .| (t .<< 4))]
  else if t <=? 7 then [u8 (bit7 .| (t .<< 3))]
  else [u8 (bit7 .| 0x40 .| ((t - 8) .>> 2)); u8 (((t - 8) .<< 6) .& 0xC0)].

Definition length_octets (n : Z) : list Z :=
  [u8 (((n - 1) .>> 8) .& 0xFF); u8 ((n - 1) .& 0xFF)].

Definition element_octets (version : Z) (q : t38_data_field_t) : list Z :=
  type_octets version (0 <? field_len q) (field_type q) ++
  (if 0 <? field_len q then length_octets (field_len q) ++ field q else []).

Lemma encode_element_ok v q : field_ok v q -> encode_element v q = Some (element_octets v q).
Proof.
  intros (Ht & Hn & Hm & _). unfold encode_element, element_octets, type_octets, length_octets,
    T38_FIELD_T4_NON_ECM_SIG_END, T38_FIELD_V34RATE, T38_FIELD_CM_MESSAGE in *.
  assert (slice (field q) 0 (field_len q) = field q) as ->.
  { unfold slice. rewrite Hn, Nat2Z.id. apply firstn_all. }
  replace (65535 <? field_len q) with false by lia.
  destruct (Z.eqb_spec v 0).
  - replace (7 <? field_type q) with false by lia. simpl.
    destruct (Z.ltb_spec 0 (field_len q)); [|done]. by replace (field_len q <? 1) with false by lia.
  - destruct (field_type q <=? 7); simpl.
    + destruct (Z.ltb_spec 0 (field_len q)); [|done]. by replace (field_len q <? 1) with false by lia.
    + replace (field_type q <=? 11) with true by lia. simpl.
      destruct (Z.ltb_spec 0 (field_len q)); [|done]. by replace (field_len q <? 1) with false by lia.
Qed.

(** The octets of the types, decoded: by evaluation of all of them. *)
Definition low_type_decodes (present : bool) (t : Z) : bool :=
  let b0 := u8 ((Z.b2z present .<< 7) .| (t .<< 4)) in
  let b1 := u8 ((Z.b2z present .<< 7) .| (t .<< 3)) in
  eqb (Z.testbit b0 7) present && ((b0 .>> 4) .& 0x7 =? t) &&
  eqb (Z.testbit b1 7) present && negb (Z.testbit b1 6) && ((b1 .>> 3) .& 0x7 =? t).

Definition high_type_decodes (present : bool) (k : Z) : bool :=
  let a := u8 ((Z.b2z present .<< 7) .| 0x40 .| (k .>> 2)) in
  let b := u8 ((k .<< 6) .& 0xC0) in
  eqb (Z.testbit a 7) present && Z.testbit a 6 &&
  (((a .<< 2) .& 0x3C) .| ((b .>> 6) .& 0x3) =? k).

Lemma low_types present t : 0 <= t < 8 -> low_type_decodes present t = true.
Proof. destruct present; [by_evaluation 8%nat (low_type_decodes true) t|by_evaluation 8%nat (low_type_decodes false) t]. Qed.

Lemma high_types present k : 0 <= k < 4 -> high_type_decodes present k = true.
Proof. destruct present; [by_evaluation 4%nat (high_type_decodes true) k|by_evaluation 4%nat (high_type_decodes false) k]. Qed.

(** The decoder on the type of an element that is followed by the rest of a
    packet; version 0 moves on only when there is data. *)
Lemma rx_field_type_decodes v present t pre post : (if v =? 0 then present = true else True) ->
  0 <= t <= (if v =? 0 then 7 else 11) ->
  let l := type_octets v present t in
  rx_field_type v (pre ++ l ++ post) (zlen (pre ++ l ++ post)) (zlen pre) false =
    Some (t, present, zlen pre + zlen l, false).
Proof.
  intros Hp Ht. cbn zeta. remember (type_octets v present t) as l eqn:El. unfold rx_field_type.
  assert (1 <= zlen l) as Hl by (rewrite El; unfold type_octets; repeat case_match; simpl; lia).
  pose proof (aget_mid pre l post 0 ltac:(lia)) as H0. rewrite Z.add_0_r in H0. rewrite H0.
  assert (zlen (pre ++ l ++ post) = zlen pre + zlen l + zlen post) as -> by (rewrite !length_app; lia).
  rewrite (proj2 (Z.leb_gt _ (zlen pre))) by lia.
  unfold T38_FIELD_T4_NON_ECM_SIG_END, T38_FIELD_CM_MESSAGE, T38_FIELD_V34RATE.
  subst l. unfold type_octets in *. destruct (v =? 0); [|destruct (Z.leb_spec t 7)].
  - subst present. pose proof (low_types true t ltac:(lia)) as E. unfold low_type_decodes in E.
    rewrite !andb_true_iff in E. destruct E as [[[[E1%eqb_prop E2%Z.eqb_eq] _] _] _].
    rewrite !aget_0, E1, E2. by replace (7 <? t) with false by lia.
  - pose proof (low_types present t ltac:(lia)) as E. unfold low_type_decodes in E.
    rewrite !andb_true_iff in E. destruct E as [[[_ E1%eqb_prop] E2%negb_true_iff] E3%Z.eqb_eq].
    by rewrite !aget_0, E1, E2, E3.
  - rewrite (aget_mid pre _ post 1) by (simpl; lia).
    pose proof (high_types present (t - 8) ltac:(lia)) as E. unfold high_type_decodes in E.
    rewrite !andb_true_iff in E. destruct E as [[E1%eqb_prop E2] E3%Z.eqb_eq].
    rewrite !aget_0, aget_1, E1, E2, E3. cbn [length]. rewrite (proj2 (Z.ltb_ge _ (zlen pre))) by lia.
    replace (11 <? 8 + (t - 8)) with false by lia. by replace (8 + (t - 8)) with t by lia.
Qed.

Lemma length_octets_value n : 1 <= n <= 65536 ->
  ((aget (length_octets n) 0 .<< 8) .| aget (length_octets n) 1) + 1 = n.
Proof.
  intros Hn. unfold length_octets. rewrite aget_0, aget_1.
  assert (0 <= n - 1 < 2 ^ 16) as Hm by lia. set (m := n - 1) in *.
  assert ((u8 ((m .>> 8) .& 0xFF) .<< 8) .| u8 (m .& 0xFF) = m) as ->; [|lia].
  change 0xFF with (Z.ones 8). bitwise i.
  destruct (Z.leb_spec 8 i); simpl.
  - bit_specs. replace (i - 8 + 8) with i by lia.
    destruct (Z.ltb_spec (i - 8) 8), (Z.ltb_spec i 8); simpl; try lia;
      destruct (Z.leb_spec 0 (i - 8)); simpl; try lia; rewrite ?andb_true_r, ?orb_false_r; try done.
    by rewrite (testbit_high 16 m) by lia.
  - bit_specs. destruct (Z.ltb_spec i 8), (Z.leb_spec 0 i); simpl; try lia; by rewrite ?andb_true_r.
Qed.

Lemma rx_field_data_decodes (data : list Z) (present : bool) pre post :
  present = (0 <? zlen data) -> zlen data <= 65535 ->
  let l := if present then length_octets (zlen data) ++ data else [] in
  rx_field_data (pre ++ l ++ post) (zlen (pre ++ l ++ post)) (zlen pre) present =
    Some (data, zlen data, zlen pre + zlen l).
Proof.
  intros Hp Hm l. subst l. unfold rx_field_data. destruct (Z.ltb_spec 0 (zlen data)) as [H|H]; subst present.
  - pose proof (aget_mid pre (length_octets (zlen data) ++ data) post 0) as H0.
    pose proof (aget_mid pre (length_octets (zlen data) ++ data) post 1) as H1.
    rewrite Z.add_0_r in H0. rewrite H0, H1 by (rewrite length_app; simpl; lia).
    rewrite !(aget_app_l (length_octets _)) by (simpl; lia).
    rewrite length_octets_value by lia. rewrite !length_app. simpl (length (length_octets _)).
    rewrite (proj2 (Z.ltb_ge _ (zlen pre))) by lia. rewrite (proj2 (Z.ltb_ge _ (zlen pre + _))) by lia.
    do 3 f_equal; [|lia].
    etransitivity; [|apply (slice_mid (pre ++ length_octets (zlen data)) data post)].
    rewrite length_app, <- !app_assoc. f_equal. simpl (length (length_octets _)). lia.
  - destruct data; [|simpl in H; lia]. simpl. rewrite !length_app.
    rewrite (proj2 (Z.ltb_ge _ (zlen pre))) by lia. do 3 f_equal. lia.
Qed.

(** ** A whole data packet *)

Section packet.
Context {U : Type} (h : t38_handlers U).

(** The call for one field, and the state after it. *)
Definition deliver (t30_data : Z) (su : t38_core_state_t * U) (q : t38_data_field_t)
    : t38_core_state_t * U :=
  (su.1 <| current_rx_data_type := t30_data |> <| current_rx_field_type := field_type q |>,
   rx_data_handler h su.1 su.2 t30_data (field_type q) (field q) (field_len q)).

Definition deliver_all (t30_data : Z) (qs : list t38_data_field_t) (s : t38_core_state_t) (u : U) :=
  fold_left (deliver t30_data) qs (s, u).

Lemma rx_fields_step s u t q n pre post : field_ok (t38_version s) q ->
  (t38_version s = 0 -> 0 < field_len q) ->
  let buf := pre ++ element_octets (t38_version s) q ++ post in
  rx_fields h s u buf (zlen buf) t (S n) (zlen pre) false =
  rx_fields h (deliver t (s, u) q).1 (deliver t (s, u) q).2 buf (zlen buf) t n
    (zlen (pre ++ element_octets (t38_version s) q)) false.
Proof.
  intros (Ht & Hn & Hm & _) H0 buf. cbn [rx_fields].
  set (v := t38_version s) in *. set (ft := field_type q) in *.
  assert (buf = pre ++ type_octets v (0 <? field_len q) ft ++
            (if 0 <? field_len q then length_octets (field_len q) ++ field q else []) ++ post) as Eb.
  { unfold buf, element_octets. by rewrite <- !app_assoc. }
  assert (buf = (pre ++ type_octets v (0 <? field_len q) ft) ++
            (if 0 <? field_len q then length_octets (field_len q) ++ field q else []) ++ post) as Eb'.
  { rewrite Eb. by rewrite <- !app_assoc. }
  rewrite Eb at 1 2. rewrite rx_field_type_decodes.
  2: { destruct (Z.eqb_spec v 0); [|done]. apply Z.ltb_lt. auto. }
  2: { by destruct (v =? 0). }
  rewrite Eb' at 1 2.
  replace (zlen pre + zlen _) with (zlen (pre ++ type_octets v (0 <? field_len q) ft))
    by (rewrite length_app; lia).
  rewrite Hn. rewrite rx_field_data_decodes by (done || lia).
  unfold deliver, element_octets. cbn [fst snd]. rewrite Hn.
  replace (zlen (_ ++ _) + _) with (zlen (pre ++ type_octets v (0 <? zlen (field q)) ft ++
    (if 0 <? zlen (field q) then length_octets (zlen (field q)) ++ field q else [])))
    by (rewrite !length_app; lia).
  done.
Qed.

Lemma rx_fields_deliver t post : forall qs s u n pre,
  Forall (field_ok (t38_version s)) qs ->
  Forall (fun q => t38_version s = 0 -> 0 < field_len q) qs ->
  let l := concat (map (element_octets (t38_version s)) qs) in
  let buf := pre ++ l ++ post in
  let '(s', u') := deliver_all t qs s u in
  t38_version s' = t38_version s /\
  rx_fields h s u buf (zlen buf) t (length qs + n) (zlen pre) false =
  rx_fields h s' u' buf (zlen buf) t n (zlen (pre ++ l)) false.
Proof.
  induction qs as [|q qs IH]; intros s u n pre Hok Hp l buf.
  - unfold deliver_all. cbn [fold_left]. split; [done|].
    unfold l. cbn [map concat]. by rewrite app_nil_r.
  - apply Forall_cons_1 in Hok as [Hq Hok], Hp as [Hpq Hp].
    unfold deliver_all. cbn [fold_left].
    destruct (deliver t (s, u) q) as [s1 u1] eqn:E.
    assert (t38_version s1 = t38_version s) as Ev by (unfold deliver in E; by simplify_eq).
    pose proof (IH s1 u1 n (pre ++ element_octets (t38_version s) q)) as IH1.
    rewrite Ev in IH1. specialize (IH1 Hok Hp). unfold deliver_all in IH1.
    destruct (fold_left _ qs (s1, u1)) as [s2 u2]. destruct IH1 as [Ev2 IH1]. split; [done|].
    unfold buf, l in *. cbn [map concat length Nat.add] in *. rewrite <- !app_assoc in *.
    rewrite rx_fields_step by done. rewrite E. cbn [fst snd]. exact IH1.
Qed.

End packet.

Lemma rx_fields_last_bare {U} (h : t38_handlers U) s u t q pre : field_ok 0 q -> t38_version s = 0 ->
  field_len q = 0 ->
  let buf := pre ++ element_octets 0 q in
  rx_fields h s u buf (zlen buf) t 1 (zlen pre) false =
    (true, (deliver h t (s, u) q).1, (deliver h t (s, u) q).2, zlen pre, true) /\
  zlen buf = zlen pre + 1.
Proof.
  intros (Ht & Hn & _ & _) Hv H0 buf.
  assert (element_octets 0 q = [u8 (0 .| (field_type q .<< 4))]) as E.
  { unfold element_octets. by rewrite H0. }
  unfold buf. rewrite E. cbn [rx_fields]. rewrite Hv. unfold rx_field_type.
  change (0 <= field_type q <= 7) in Ht.
  pose proof (low_types false (field_type q) ltac:(lia)) as El. unfold low_type_decodes in El.
  rewrite !andb_true_iff in El. destruct El as [[[[E1%eqb_prop E2%Z.eqb_eq] _] _] _].
  assert (zlen (pre ++ [u8 (0 .| (field_type q .<< 4))]) = zlen pre + 1) as -> by (rewrite length_app; simpl; lia).
  rewrite (proj2 (Z.leb_gt _ (zlen pre))) by lia. split; [|done].
  pose proof (aget_mid pre [u8 (0 .| (field_type q .<< 4))] [] 0 ltac:(simpl; lia)) as Ea.
  rewrite Z.add_0_r, app_nil_r, aget_0 in Ea. rewrite Ea.
  change (Z.b2z false .<< 7) with 0 in E1, E2. cbn [Z.eqb]. rewrite E1, E2.
  unfold T38_FIELD_T4_NON_ECM_SIG_END. rewrite (proj2 (Z.ltb_ge _ (field_type q))) by lia.
  unfold rx_field_data. rewrite (proj2 (Z.ltb_ge _ (zlen pre))) by lia.
  unfold deliver. cbn [fst snd]. rewrite H0.
  assert (field q = []) as -> by (destruct (field q); [done|simpl in Hn; lia]). done.
Qed.

(** ** The encoder *)

Lemma encode_elements_ok v : forall qs pre, Forall (field_ok v) qs ->
  encode_elements v (pre ++ qs) (length qs) (length pre) =
    Octets (concat (map (element_octets v) qs)).
Proof.
  induction qs as [|q qs IH]; intros pre Hok; [done|].
  apply Forall_cons_1 in Hok as [Hq Hok]. cbn [length encode_elements].
  rewrite list_lookup_middle by done. rewrite encode_element_ok by done.
  specialize (IH (pre ++ [q]) Hok). rewrite length_app, Nat.add_1_r, <- app_assoc in IH.
  simpl in IH. by rewrite IH.
Qed.

(** A successful element loop stayed in the array. *)
Lemma encode_elements_bound v fields : forall n k l,
  encode_elements v fields n k = Octets l -> n = 0%nat \/ (k + n <= length fields)%nat.
Proof.
  induction n as [|n IH]; intros k l E; [by left|right]. cbn [encode_elements] in E.
  destruct (fields !! k) eqn:Ek; [|done]. apply lookup_lt_Some in Ek.
  destruct (encode_element _ _); [|done].
  destruct (encode_elements v fields n (S k)) eqn:En; [|done..].
  destruct (IH _ _ En); lia.
Qed.

Lemma encode_count_spec value : 0 <= value ->
  (encode_count value).2 = (if value <? 0x4000 then value else 0x4000 * Z.min 4 (value / 0x4000)).
Proof.
  intros. unfold encode_count. destruct (Z.ltb_spec value 0x80); [by replace (value <? 0x4000) with true by lia|].
  destruct (value <? 0x4000); [done|]. cbn [snd]. f_equal. destruct (Z.ltb_spec (value / 0x4000) 4); lia.
Qed.

(** The fuel of [t38_encode_data] is enough: more of it changes nothing. *)
Lemma encode_fragments_fuel v fields : forall f f' e k, 0 <= e <= zlen fields ->
  (Z.to_nat ((zlen fields - e) / 0x4000 + 2) <= f <= f')%nat ->
  encode_fragments f v fields e k = encode_fragments f' v fields e k.
Proof.
  induction f as [|f IH]; intros f' e k He Hf.
  { pose proof (Z.div_pos (zlen fields - e) 0x4000). lia. }
  destruct f' as [|f']; [lia|]. cbn [encode_fragments].
  pose proof (encode_count_spec (zlen fields - e) ltac:(lia)) as Ec.
  destruct (encode_count (zlen fields - e)) as [count enclen]. cbn [snd] in Ec.
  destruct (encode_elements _ _ _ _); [|done..].
  destruct (Z.ltb_spec (zlen fields - e) 0x4000) as [H|H].
  - subst enclen. replace (zlen fields =? e + _) with true by lia.
    by replace (16384 <=? zlen fields - e) with false by lia.
  - pose proof (Z.div_le_lower_bound (zlen fields - e) 0x4000 1 ltac:(lia) ltac:(lia)).
    pose proof (Z.mul_div_le (zlen fields - e) 0x4000 ltac:(lia)).
    assert (encode_fragments f v fields (e + enclen) (k + Z.to_nat (e + enclen)) =
            encode_fragments f' v fields (e + enclen) (k + Z.to_nat (e + enclen))) as E.
    { apply IH; [lia|]. split; [|lia].
      assert ((zlen fields - (e + enclen)) / 0x4000 <= (zlen fields - e) / 0x4000 - 1) as Hd.
      { replace (zlen fields - (e + enclen)) with
          (zlen fields - e + (- Z.min 4 ((zlen fields - e) / 0x4000)) * 0x4000) by lia.
        rewrite Z.div_add by lia. lia. }
      assert (0 <= (zlen fields - (e + enclen)) / 0x4000) by (apply Z.div_pos; lia). lia. }
    by rewrite E.
Qed.

(** Only one turn of the loop can succeed: a second one leaves the array. *)
Lemma encode_fragments_one v fields : forall f e k l, 0 <= e <= zlen fields -> e <= Z.of_nat k ->
  0 < Z.of_nat k -> 0 < zlen fields -> encode_fragments f v fields e k <> Octets l.
Proof.
  induction f as [|f IH]; intros e k l He Hk Hk0 Hl E; [done|]. cbn [encode_fragments] in E.
  pose proof (encode_count_spec (zlen fields - e) ltac:(lia)) as Ec.
  destruct (encode_count (zlen fields - e)) as [count enclen]. cbn [snd] in Ec.
  destruct (encode_elements _ _ _ _) as [l1| |] eqn:E1; [|done..].
  apply encode_elements_bound in E1.
  destruct (Z.ltb_spec (zlen fields - e) 0x4000); [subst enclen; lia|].
  pose proof (Z.mul_div_le (zlen fields - e) 0x4000 ltac:(lia)).
  pose proof (Z.div_le_lower_bound (zlen fields - e) 0x4000 1 ltac:(lia) ltac:(lia)).
  destruct (negb _ || _) eqn:Eb.
  - destruct (encode_fragments f v fields (e + enclen) _) as [l2| |] eqn:E2; [|done..].
    apply IH in E2; [done|lia..].
  - lia.
Qed.

(** The octets a data packet opens with. *)
Definition data_header (data_type : Z) : list Z :=
  if data_type <=? 8 then [u8 ((1 .<< 7) .| 0x40 .| (data_type .<< 1))]
  else [u8 ((1 .<< 7) .| 0x60 .| (((data_type - 9) .& 0xF) .>> 2)); u8 (((data_type - 9) .<< 6) .& 0xFF)].

Definition data_type_ok (version data_type : Z) : Prop :=
  0 <= data_type <= (if version =? 0 then T38_DATA_V17_14400 else T38_DATA_V33_14400).

Definition packet_octets (version data_type : Z) (qs : list t38_data_field_t) : list Z :=
  data_header data_type ++ (encode_count (zlen qs)).1 ++ concat (map (element_octets version) qs).

Lemma encode_header_ok s data_type : data_type_ok (t38_version s) data_type ->
  (if data_type <=? T38_DATA_V17_14400 then
     Some [u8 ((1 .<< 7) .| 0x40 .| (data_type .<< 1))]
   else if negb (t38_version s =? 0) && (data_type <=? T38_DATA_V33_14400) then
     Some [u8 ((1 .<< 7) .| 0x60 .| (((data_type - T38_DATA_V8) .& 0xF) .>> 2));
           u8 (((data_type - T38_DATA_V8) .<< 6) .& 0xFF)]
   else None) = Some (data_header data_type).
Proof.
  unfold data_type_ok, data_header, T38_DATA_V17_14400, T38_DATA_V33_14400, T38_DATA_V8. intros Ht.
  destruct (data_type <=? 8) eqn:E; [done|]. destruct (t38_version s =? 0); [lia|]. simpl.
  by replace (data_type <=? 14) with true by lia.
Qed.

Lemma encode_data_unfold s data_type qs : data_type_ok (t38_version s) data_type ->
  t38_encode_data s data_type qs =
  match encode_fragments (S (Z.to_nat (zlen qs / 16384 + 1))) (t38_version s) qs 0 0 with
  | Octets l => Octets (data_header data_type ++ l)
  | e => e
  end.
Proof.
  intros Ht. unfold t38_encode_data. rewrite encode_header_ok by done.
  by replace (Z.to_nat (zlen qs / 16384 + 2)) with (S (Z.to_nat (zlen qs / 16384 + 1)))
    by (pose proof (Z.div_pos (zlen qs) 16384); lia).
Qed.

Lemma encode_data_octets s data_type qs : data_type_ok (t38_version s) data_type ->
  Forall (field_ok (t38_version s)) qs -> zlen qs < 0x4000 ->
  t38_encode_data s data_type qs = Octets (packet_octets (t38_version s) data_type qs).
Proof.
  intros Ht Hok Hl. rewrite encode_data_unfold by done. cbn [encode_fragments]. rewrite Z.sub_0_r.
  pose proof (encode_count_spec (zlen qs) ltac:(lia)) as Ec. unfold packet_octets.
  destruct (encode_count (zlen qs)) as [count enclen]. rewrite !Z.add_0_l.
  simpl in Ec. replace (zlen qs <? 0x4000) with true in Ec by lia. subst enclen.
  rewrite Nat2Z.id. rewrite (encode_elements_ok _ qs []) by done.
  rewrite Z.eqb_refl. by replace (16384 <=? zlen qs) with false by lia.
Qed.

Lemma encode_data_too_many s data_type qs l : data_type_ok (t38_version s) data_type ->
  0x4000 <= zlen qs -> t38_encode_data s data_type qs <> Octets l.
Proof.
  intros Ht Hl. rewrite encode_data_unfold by done. cbn [encode_fragments]. rewrite Z.sub_0_r.
  pose proof (encode_count_spec (zlen qs) ltac:(lia)) as Ec.
  destruct (encode_count (zlen qs)) as [count enclen]. rewrite !Z.add_0_l.
  simpl in Ec. replace (zlen qs <? 0x4000) with false in Ec by lia.
  pose proof (Z.mul_div_le (zlen qs) 0x4000 ltac:(lia)).
  pose proof (Z.div_le_lower_bound (zlen qs) 0x4000 1 ltac:(lia) ltac:(lia)).
  destruct (encode_elements _ _ _ _); [|done..].
  replace (16384 <=? enclen) with true by lia. rewrite orb_true_r.
  destruct (encode_fragments _ _ _ _ _) as [l2| |] eqn:E2; [|done..].
  apply encode_fragments_one in E2; [done|lia..].
Qed.

(** The data packet the encoder builds from up to 16383 fields of types and
    lengths its version knows: the header, the count, the elements one after the
    other.  From 16384 fields on it never succeeds: the element loop runs over
    the total count again in the next fragment and leaves the array. *)
Theorem t38_encode_data_spec s data_type qs : data_type_ok (t38_version s) data_type ->
  (Forall (field_ok (t38_version s)) qs -> zlen qs < 0x4000 ->
   t38_encode_data s data_type qs = Octets (packet_octets (t38_version s) data_type qs)) /\
  (forall l, 0x4000 <= zlen qs -> t38_encode_data s data_type qs <> Octets l).
Proof. intros Ht. split; [by apply encode_data_octets|by intros; apply encode_data_too_many]. Qed.

Lemma t38_encode_data_spec_witness :
  t38_encode_data t38_core_init 0
    [{| field_type := 0; field := [0xFF; 0xC8]; field_len := 2 |};
     {| field_type := 2; field := []; field_len := 0 |}] =
  Octets [0xC0; 2; 0x80; 0; 1; 0xFF; 0xC8; 0x20].
Proof.
  rewrite (proj1 (t38_encode_data_spec t38_core_init 0 _ ltac:(by vm_compute))).
  - done.
  - by_decide.
  - done.
Defined.

(** ** Round trips *)

(** The header's bits, decoded: by evaluation of all the types. *)
Definition data_header_decodes (t : Z) : bool :=
  let l := data_header t in
  Z.testbit (aget l 0) 7 && Z.testbit (aget l 0) 6 &&
  (if Z.testbit (aget l 0) 5 then
     (9 <=? t) && (9 + (((aget l 0 .<< 2) .& 0x3C) .| ((aget l 1 .>> 6) .& 0x3)) =? t) &&
     (zlen l =? 2)
   else (t <=? 8) && ((aget l 0 .>> 1) .& 0xF =? t) && (zlen l =? 1)).

Lemma data_header_spec t : 0 <= t <= 14 -> data_header_decodes t = true.
Proof. intros. by_evaluation 15%nat data_header_decodes t. lia. Qed.

Lemma rx_data_type_decodes t rest : 0 <= t <= 14 ->
  let buf := data_header t ++ rest in
  rx_data_type buf (zlen buf) = Some (t, zlen (data_header t)) /\
  Z.testbit (aget buf 0) 7 = true /\ Z.testbit (aget buf 0) 6 = true.
Proof.
  intros Ht buf. pose proof (data_header_spec t Ht) as E. unfold data_header_decodes in E.
  unfold buf. assert (1 <= zlen (data_header t)) by (unfold data_header; destruct (t <=? 8); simpl; lia).
  rewrite aget_app_l by lia. rewrite !andb_true_iff in E. destruct E as [[E7 E6] E5].
  split; [|done]. unfold rx_data_type. rewrite aget_app_l by lia.
  unfold T38_DATA_V8, T38_DATA_V17_14400, T38_DATA_V33_14400. destruct (Z.testbit _ 5).
  - rewrite !andb_true_iff in E5. destruct E5 as [[H1 H2%Z.eqb_eq] H3%Z.eqb_eq].
    rewrite (aget_app_l _ _ 1) by lia. rewrite H2, H3.
    rewrite length_app. rewrite (proj2 (Z.ltb_ge _ 2)) by lia. by replace (14 <? t) with false by lia.
  - rewrite !andb_true_iff in E5. destruct E5 as [[H1 H2%Z.eqb_eq] H3%Z.eqb_eq].
    rewrite H2, H3. by replace (8 <? t) with false by lia.
Qed.

(** The version 0 receiver packs a field without data in half an octet: a
    sender's caller keeps such fields for the end of a packet. *)
Definition fields_ok (version : Z) (qs : list t38_data_field_t) : Prop :=
  Forall (field_ok version) qs /\ zlen qs < 0x80 /\
  (version = 0 -> Forall (fun q => 0 < field_len q) (removelast qs)).

Section roundtrip.
Context {U : Type} (h : t38_handlers U).

(** The rest of a data packet, once its header and count are read. *)
Lemma rx_data_count s u t qs : 0 <= t <= 14 -> zlen qs < 0x80 ->
  let buf := packet_octets (t38_version s) t qs in
  rx_message h s u buf (zlen buf) =
    let '(ok, s', u', ptr, other_half) :=
      rx_fields h s u buf (zlen buf) t (length qs) (zlen (data_header t ++ [zlen qs])) false in
    if negb ok then (-1, s', u')
    else if negb (ptr =? zlen buf) &&
            (negb (t38_version s' =? 0) || negb (ptr =? zlen buf - 1) || negb other_half)
    then (-1, s', u')
    else (0, s', u').
Proof.
  intros Ht Hl buf. unfold rx_message, rx_data.
  destruct (rx_data_type_decodes t ((encode_count (zlen qs)).1 ++
    concat (map (element_octets (t38_version s)) qs)) Ht) as (E1 & E2 & E3).
  fold (packet_octets (t38_version s) t qs) in E1, E2, E3. fold buf in E1, E2, E3.
  rewrite E3, E1, E2. cbn [negb].
  assert (buf = data_header t ++ [zlen qs] ++ concat (map (element_octets (t38_version s)) qs)) as Eb.
  { unfold buf, packet_octets, encode_count. rewrite (proj2 (Z.ltb_lt _ 0x80)) by done. cbn [fst].
    by rewrite wrap_id by lia. }
  assert (zlen (data_header t) < zlen buf) by (rewrite Eb, !length_app; simpl; lia).
  rewrite (proj2 (Z.leb_gt _ (zlen (data_header t)))) by lia.
  pose proof (aget_mid (data_header t) [zlen qs]
    (concat (map (element_octets (t38_version s)) qs)) 0) as Ea.
  rewrite Z.add_0_r, <- Eb in Ea. rewrite Ea by (simpl; lia).
  rewrite aget_0, Nat2Z.id, length_app. cbn [length].
  by replace (Z.of_nat (length (data_header t) + 1)) with (zlen (data_header t) + 1) by lia.
Qed.

(** A packet with data in every field (in any version but 0, without too). *)
Lemma rx_data_all s u t qs : data_type_ok (t38_version s) t ->
  Forall (field_ok (t38_version s)) qs -> zlen qs < 0x80 ->
  Forall (fun q => t38_version s = 0 -> 0 < field_len q) qs ->
  let buf := packet_octets (t38_version s) t qs in
  rx_message h s u buf (zlen buf) = (0, (deliver_all h t qs s u).1, (deliver_all h t qs s u).2).
Proof.
  intros Ht Hok Hl Hp buf. assert (0 <= t <= 14) as Ht'.
  { unfold data_type_ok, T38_DATA_V17_14400, T38_DATA_V33_14400 in Ht. case_match; lia. }
  unfold buf. rewrite rx_data_count by done.
  assert (packet_octets (t38_version s) t qs =
    (data_header t ++ [zlen qs]) ++ concat (map (element_octets (t38_version s)) qs) ++ []) as ->.
  { unfold packet_octets, encode_count. rewrite (proj2 (Z.ltb_lt _ 0x80)) by done. cbn [fst].
    rewrite wrap_id by lia. by rewrite app_nil_r, <- app_assoc. }
  pose proof (rx_fields_deliver h t [] qs s u 0 (data_header t ++ [zlen qs]) Hok Hp) as E.
  cbn zeta in E. rewrite Nat.add_0_r in E. destruct (deliver_all h t qs s u) as [s' u'].
  destruct E as [_ E]. rewrite E. cbn [rx_fields negb fst snd]. rewrite app_nil_r.
  by rewrite Z.eqb_refl.
Qed.

(** Version 0, with a last field that has no data: half an octet is left over. *)
Lemma rx_data_bare_last s u t qs q : t38_version s = 0 -> data_type_ok 0 t ->
  Forall (field_ok 0) qs -> field_ok 0 q -> zlen (qs ++ [q]) < 0x80 ->
  Forall (fun q => 0 < field_len q) qs -> field_len q = 0 ->
  let buf := packet_octets 0 t (qs ++ [q]) in
  rx_message h s u buf (zlen buf) =
    (0, (deliver_all h t (qs ++ [q]) s u).1, (deliver_all h t (qs ++ [q]) s u).2).
Proof.
  intros Hv Ht Hok Hq Hl Hp H0 buf. unfold data_type_ok, T38_DATA_V17_14400 in Ht. cbn in Ht.
  pose proof (rx_data_count s u t (qs ++ [q])) as E0. rewrite Hv in E0. unfold buf.
  rewrite E0 by (done || lia). clear E0.
  assert (packet_octets 0 t (qs ++ [q]) =
    (data_header t ++ [zlen (qs ++ [q])]) ++ concat (map (element_octets 0) qs) ++ element_octets 0 q) as ->.
  { unfold packet_octets, encode_count. rewrite (proj2 (Z.ltb_lt _ 0x80)) by done. cbn [fst].
    rewrite wrap_id by lia. rewrite map_app, concat_app. cbn [map concat].
    by rewrite app_nil_r, <- app_assoc. }
  remember (data_header t ++ [zlen (qs ++ [q])]) as hd eqn:Ehd. clear Ehd.
  rewrite (length_app qs). cbn [length].
  assert (Forall (field_ok (t38_version s)) qs) as Hok' by (by rewrite Hv).
  assert (Forall (fun q => t38_version s = 0 -> 0 < field_len q) qs) as Hp'
    by (eapply Forall_impl; [|exact Hp]; done).
  pose proof (rx_fields_deliver h t (element_octets 0 q) qs s u 1 hd Hok' Hp') as E.
  cbn zeta in E. rewrite Hv in E.
  assert (deliver_all h t (qs ++ [q]) s u = deliver h t (deliver_all h t qs s u) q) as ->.
  { unfold deliver_all. by rewrite fold_left_app. }
  destruct (deliver_all h t qs s u) as [s' u']. destruct E as [Ev E]. rewrite E.
  pose proof (rx_fields_last_bare h s' u' t q
    (hd ++ concat (map (element_octets 0) qs)) Hq ltac:(congruence) H0) as [E2 E3].
  rewrite <- !app_assoc in E2, E3. rewrite E2, E3. cbn [negb].
  unfold deliver. cbn [fst snd].
  match goal with |- context [t38_version ?x =? 0] => change (t38_version x) with (t38_version s') end.
  rewrite Ev, Z.add_simpl_r, !Z.eqb_refl. cbn [negb orb]. by rewrite andb_false_r.
Qed.

(** Every well-formed list of fields is one of the two. *)
Lemma rx_data_roundtrip s u t qs : data_type_ok (t38_version s) t -> fields_ok (t38_version s) qs ->
  let buf := packet_octets (t38_version s) t qs in
  rx_message h s u buf (zlen buf) = (0, (deliver_all h t qs s u).1, (deliver_all h t qs s u).2).
Proof.
  intros Ht (Hok & Hl & H0) buf. destruct (decide (t38_version s = 0)) as [Hv|Hv].
  - destruct qs as [|q0 qs0] using rev_ind; [by apply rx_data_all|].
    rewrite Hv in Ht, Hok. rewrite removelast_last in H0. specialize (H0 Hv).
    apply Forall_app in Hok as [Hok Hq%Forall_cons_1]. destruct Hq as [Hq _].
    destruct (decide (field_len q0 = 0)) as [Hz|Hz].
    + unfold buf. rewrite Hv. by apply rx_data_bare_last.
    + assert (0 < field_len q0) by (destruct Hq as (_ & Hn & _); lia).
      apply rx_data_all; rewrite ?Hv; try done.
      * apply Forall_app_2; [done|by apply Forall_singleton].
      * apply Forall_app_2; [|by apply Forall_singleton]. by eapply Forall_impl; [|exact H0].
  - apply rx_data_all; try done. apply Forall_forall. intros q _ ?. done.
Qed.

End roundtrip.

(** C35: data round trip: the packet the encoder builds for up to 127 fields (in
    version 0 only the last one may be without data) is accepted by the receiver
    of the same version, and its client is called with exactly those fields, in
    order, with their data and lengths; nothing is called besides. *)
Theorem t38_data_roundtrip {U} (h : t38_handlers U) tx rx (u : U) data_type qs :
  t38_version rx = t38_version tx -> data_type_ok (t38_version tx) data_type ->
  fields_ok (t38_version tx) qs ->
  exists buf, t38_encode_data tx data_type qs = Octets buf /\
    rx_message h rx u buf (zlen buf) =
      (0, (deliver_all h data_type qs rx u).1, (deliver_all h data_type qs rx u).2).
Proof.
  intros Hv Ht Hq. exists (packet_octets (t38_version tx) data_type qs). split.
  - destruct Hq as (Hok & Hl & _). apply encode_data_octets; try done. lia.
  - rewrite <- Hv in *. by apply rx_data_roundtrip.
Qed.

Definition cng_fields : list t38_data_field_t :=
  [{| field_type := 6; field := [1; 2; 3]; field_len := 3 |};
   {| field_type := 7; field := []; field_len := 0 |}].

Lemma t38_data_roundtrip_witness :
  exists buf, t38_encode_data t38_core_init 5 cng_fields = Octets buf /\
    rx_message tracing t38_core_init [] buf (zlen buf) =
      (0, t38_core_init <| current_rx_data_type := 5 |> <| current_rx_field_type := 7 |>,
       [Ev_data 5 6 [1; 2; 3]; Ev_data 5 7 []]).
Proof.
  apply (t38_data_roundtrip tracing t38_core_init t38_core_init [] 5 cng_fields); [done|by vm_compute|].
  split; [by_decide|]. split; [done|]. intros _. by_decide.
Defined.

(** ** A call, packet by packet *)

Definition indicator_ok (version i : Z) : Prop :=
  0 <= i <= (if version =? 0 then T38_IND_V17_14400_LONG_TRAINING else T38_IND_V33_14400_TRAINING).

Definition indicator_octets (i : Z) : list Z :=
  if i <=? 15 then [u8 (i .<< 1)]
  else [u8 (0x20 .| (((i - 16) .& 0xF) .>> 2)); u8 (((i - 16) .<< 6) .& 0xFF)].

Definition indicator_decodes (i : Z) : bool :=
  let l := indicator_octets i in
  negb (Z.testbit (aget l 0) 7) && negb (Z.testbit (aget l 0) 6) &&
  (if Z.testbit (aget l 0) 5 then
     (zlen l =? 2) && (16 + (((aget l 0 .<< 2) .& 0x3C) .| ((aget l 1 .>> 6) .& 0x3)) =? i)
   else (zlen l =? 1) && ((aget l 0 .>> 1) .& 0xF =? i)).

Lemma indicator_octets_spec i : 0 <= i <= 22 -> indicator_decodes i = true.
Proof. intros. by_evaluation 23%nat indicator_decodes i. lia. Qed.

Lemma encode_indicator_ok s i : indicator_ok (t38_version s) i ->
  t38_encode_indicator s i = Some (indicator_octets i).
Proof.
  unfold indicator_ok, t38_encode_indicator, indicator_octets, T38_IND_V17_14400_LONG_TRAINING,
    T38_IND_V33_14400_TRAINING, T38_IND_V8_ANSAM. intros Hi.
  destruct (Z.leb_spec i 15); [done|]. destruct (t38_version s =? 0); [lia|]. simpl.
  by replace (i <=? 22) with true by lia.
Qed.

Definition hear_indicator (s : t38_core_state_t) (i : Z) : t38_core_state_t :=
  s <| current_rx_data_type := -1 |> <| current_rx_field_type := -1 |> <| current_rx_indicator := i |>.

Lemma rx_indicator_decodes {U} (h : t38_handlers U) s u i : 0 <= i <= 22 ->
  let buf := indicator_octets i in
  rx_message h s u buf (zlen buf) =
    (0, hear_indicator s i,
     rx_indicator_handler h (s <| current_rx_data_type := -1 |> <| current_rx_field_type := -1 |>) u i).
Proof.
  intros Hi buf. pose proof (indicator_octets_spec i Hi) as E. unfold indicator_decodes in E.
  rewrite !andb_true_iff in E. destruct E as [[E7%negb_true_iff E6%negb_true_iff] E5].
  unfold rx_message, rx_indicator, buf. rewrite E6, E7.
  unfold T38_IND_V33_14400_TRAINING, T38_IND_V8_ANSAM. destruct (Z.testbit _ 5).
  - rewrite andb_true_iff in E5. destruct E5 as [-> ->%Z.eqb_eq]. cbn [negb].
    by replace (22 <? i) with false by lia.
  - rewrite andb_true_iff in E5. destruct E5 as [-> ->%Z.eqb_eq]. done.
Qed.

(** What the application asks of the sender. *)
Inductive request :=
  | Indicate (indicator : Z)
  | Send (data_type : Z) (fields : list t38_data_field_t) (category : Z).

Definition request_ok (version : Z) (r : request) : Prop :=
  match r with
  | Indicate i => indicator_ok version i
  | Send t qs category =>
      data_type_ok version t /\ fields_ok version qs /\ zlen (packet_octets version t qs) <= 1000 /\
      0 <= category < 5
  end.

(** One request, and all of them: the packets handed to the transport. *)
Definition perform (s : t38_core_state_t) (r : request) : option (t38_core_state_t * list t38_event) :=
  match r with
  | Indicate i => let '(_, s', ev) := t38_core_send_indicator tracing s [] i in Some (s', ev)
  | Send t qs category =>
      '(_, s', ev) ← t38_core_send_data_multi_field tracing s [] t qs category; Some (s', ev)
  end.

Fixpoint perform_all (s : t38_core_state_t) (rs : list request)
    : option (t38_core_state_t * list t38_event) :=
  match rs with
  | [] => Some (s, [])
  | r :: rs =>
      '(s, p) ← perform s r;
      '(s, ps) ← perform_all s rs;
      Some (s, p ++ ps)
  end.

(** The receiver, fed each packet with the number the transport saw. *)
Fixpoint receive_all (s : t38_core_state_t) (u : list t38_event) (packets : list t38_event)
    : list Z * t38_core_state_t * list t38_event :=
  match packets with
  | Ev_packet seq_no buf _ :: packets =>
      let '(r, s, u) := t38_core_rx_ifp_packet tracing s u buf (zlen buf) seq_no in
      let '(rs, s, u) := receive_all s u packets in (r :: rs, s, u)
  | _ => ([], s, u)
  end.

(** What the receiving application should be told: each change of indicator,
    and every field. *)
Fixpoint told (last : Z) (rs : list request) : list t38_event :=
  match rs with
  | [] => []
  | Indicate i :: rs => (if last =? i then [] else [Ev_indicator i]) ++ told i rs
  | Send t qs _ :: rs => map (fun q => Ev_data t (field_type q) (field q)) qs ++ told last rs
  end.

Record in_step (tx rx : t38_core_state_t) : Prop := {
  step_version : t38_version rx = t38_version tx;
  step_control : aget (category_control tx) 0 <> 0;
  step_tx : 0 <= tx_seq_no tx < 0x10000;
  step_rx : rx_expected_seq_no rx = -1 \/ rx_expected_seq_no rx = tx_seq_no tx;
}.

(** A packet with the number the receiver waits for, or its first. *)
Lemma rx_in_step {U} (h : t38_handlers U) tx rx u buf : in_step tx rx -> 1 <= zlen buf ->
  exists rx1, t38_core_rx_ifp_packet h rx u buf (zlen buf) (tx_seq_no tx) =
    rx_message h rx1 u buf (zlen buf) /\
  t38_version rx1 = t38_version rx /\ missing_packets rx1 = missing_packets rx /\
  (check_sequence_numbers rx = true ->
   rx_expected_seq_no rx1 = (tx_seq_no tx + 1) .& 0xFFFF) /\
  check_sequence_numbers rx1 = check_sequence_numbers rx.
Proof.
  intros [_ _ Ht Hr] Hl. unfold t38_core_rx_ifp_packet. replace (zlen buf <? 1) with false by lia.
  rewrite land_ffff, Z.mod_small by done. unfold rx_sequence.
  destruct (check_sequence_numbers rx) eqn:Ec; [|by eexists].
  destruct (Z.eqb_spec (tx_seq_no tx) (rx_expected_seq_no rx)) as [E|E]; cbn [negb].
  - eexists. split; [done|]. by rewrite E.
  - destruct Hr as [Hr|]; [|done]. rewrite Hr. cbn [Z.eqb negb Pos.eqb].
    by eexists.
Qed.

Lemma deliver_all_tracing t : forall qs s u, exists s',
  deliver_all tracing t qs s u = (s', u ++ map (fun q => Ev_data t (field_type q) (field q)) qs) /\
  t38_version s' = t38_version s /\ missing_packets s' = missing_packets s /\
  rx_expected_seq_no s' = rx_expected_seq_no s /\
  check_sequence_numbers s' = check_sequence_numbers s.
Proof.
  induction qs as [|q qs IH]; intros s u.
  - exists s. simpl. by rewrite app_nil_r.
  - destruct (IH (s <| current_rx_data_type := t |> <| current_rx_field_type := field_type q |>)
                (u ++ [Ev_data t (field_type q) (field q)])) as (s' & E & E').
    exists s'. split; [|exact E']. rewrite <- app_assoc in E. exact E.
Qed.

Lemma in_step_next tx rx tx' rx' : in_step tx rx -> t38_version rx' = t38_version tx' ->
  t38_version tx' = t38_version tx -> category_control tx' = category_control tx ->
  tx_seq_no tx' = (tx_seq_no tx + 1) .& 0xFFFF ->
  rx_expected_seq_no rx' = (tx_seq_no tx + 1) .& 0xFFFF -> in_step tx' rx'.
Proof.
  intros [Hv Hc Ht Hr] E1 E2 E3 E4 E5. split; [done|by rewrite E3| |].
  - rewrite E4, land_ffff. by apply Z.mod_pos_bound.
  - right. by rewrite E4, E5.
Qed.

(** One request over the link. *)
Lemma link_step tx rx r ev : in_step tx rx -> check_sequence_numbers rx = true ->
  request_ok (t38_version tx) r ->
  exists tx' packets rx' rets, perform tx r = Some (tx', packets) /\
    receive_all rx ev packets = (rets, rx', ev ++ told (current_tx_indicator tx) [r]) /\
    Forall (fun ret => ret = 0) rets /\ length rets = length packets /\ in_step tx' rx' /\
    check_sequence_numbers rx' = true /\ t38_version tx' = t38_version tx /\
    missing_packets rx' = missing_packets rx /\
    current_tx_indicator tx' =
      match r with Indicate i => i | Send _ _ _ => current_tx_indicator tx end.
Proof.
  intros Hs Hck Hr. destruct (Hs) as [Hv Hc Ht Hrx]. destruct r as [i|t qs category]; cbn [perform told].
  - unfold t38_core_send_indicator, T38_PACKET_CATEGORY_INDICATOR.
    destruct (Z.eqb_spec (current_tx_indicator tx) i) as [E|E]; cbn [negb].
    { exists tx, [], rx, []. cbn [receive_all app]. rewrite app_nil_r.
      split_and!; try done. }
    replace (aget (category_control tx) 0 =? 0) with false by lia. cbn [negb].
    rewrite encode_indicator_ok by done.
    assert (0 <= i <= 22) as Hi.
    { cbn in Hr. unfold indicator_ok, T38_IND_V17_14400_LONG_TRAINING, T38_IND_V33_14400_TRAINING in Hr.
      case_match; lia. }
    destruct (rx_in_step tracing tx rx ev (indicator_octets i) Hs) as (rx1 & E1 & Ev1 & Em1 & Ee1 & Ec1).
    { unfold indicator_octets. case_match; simpl; lia. }
    rewrite rx_indicator_decodes in E1 by done.
    eexists _, _, (hear_indicator rx1 i), [0]. split; [reflexivity|].
    cbn [tx_packet_handler tracing app receive_all]. rewrite E1.
    split; [done|]. split; [by constructor|]. rewrite Hck in *.
    split_and!; try done. apply (in_step_next tx rx); try done; [|by apply Ee1].
    change (t38_version rx1 = t38_version tx). congruence.
  - destruct Hr as (Hdt & Hq & Hlen & Hcat).
    unfold t38_core_send_data_multi_field. rewrite encode_data_octets by (try done; apply Hq || (destruct Hq as (_ & ? & _); lia)).
    rewrite (proj2 (Z.ltb_ge 1000 _)) by done. cbn [mbind option_bind].
    set (buf := packet_octets (t38_version tx) t qs) in *.
    destruct (rx_in_step tracing tx rx ev buf Hs) as (rx1 & E1 & Ev1 & Em1 & Ee1 & Ec1).
    { unfold buf, packet_octets, data_header. rewrite length_app. case_match; simpl length; lia. }
    assert (t38_version rx1 = t38_version tx) as Ev by congruence.
    pose proof (rx_data_roundtrip tracing rx1 ev t qs) as E2. rewrite Ev in E2.
    specialize (E2 Hdt Hq). cbn zeta in E2. fold buf in E2.
    destruct (deliver_all_tracing t qs rx1 ev) as (rx2 & E3 & Ev3 & Em3 & Ee3 & Ec3).
    rewrite E3 in E2. cbn [fst snd] in E2. rewrite E2 in E1.
    eexists _, _, rx2, [0]. split; [reflexivity|].
    cbn [tx_packet_handler tracing app receive_all]. rewrite E1.
    rewrite app_nil_r. split; [done|]. split; [by constructor|].
    split_and!; try done; try congruence.
    apply (in_step_next tx rx); try done; [|rewrite Ee3; by apply Ee1].
    change (t38_version rx2 = t38_version tx). congruence.
Qed.

Lemma receive_all_app : forall p1 p2 s u rets1 s1 u1,
  receive_all s u p1 = (rets1, s1, u1) -> length rets1 = length p1 ->
  receive_all s u (p1 ++ p2) =
    let '(rets2, s2, u2) := receive_all s1 u1 p2 in (rets1 ++ rets2, s2, u2).
Proof.
  induction p1 as [|p p1 IH]; intros p2 s u rets1 s1 u1 E Hl.
  - simpl in E. simplify_eq. simpl. by destruct (receive_all _ _ _) as [[? ?] ?].
  - simpl app. destruct p; simpl in E; try (simplify_eq; done). simpl.
    destruct (t38_core_rx_ifp_packet _ _ _ _ _ _) as [[r s'] u'].
    destruct (receive_all s' u' p1) as [[rs s2] u2] eqn:E2. simplify_eq.
    rewrite (IH p2 _ _ _ _ _ E2) by (simpl in Hl; lia).
    by destruct (receive_all s1 u1 p2) as [[? ?] ?].
Qed.

Lemma link_steps v : forall rs tx rx ev, t38_version tx = v -> in_step tx rx ->
  check_sequence_numbers rx = true -> Forall (request_ok v) rs ->
  exists tx' packets rx' rets, perform_all tx rs = Some (tx', packets) /\
    receive_all rx ev packets = (rets, rx', ev ++ told (current_tx_indicator tx) rs) /\
    Forall (fun ret => ret = 0) rets /\ length rets = length packets /\
    missing_packets rx' = missing_packets rx.
Proof.
  induction rs as [|r rs IH]; intros tx rx ev Hv Hs Hck Hok.
  { exists tx, [], rx, []. simpl. rewrite app_nil_r. split_and!; try done. }
  apply Forall_cons_1 in Hok as [Hr Hok]. rewrite <- Hv in Hr.
  destruct (link_step tx rx r ev Hs Hck Hr)
    as (tx1 & p1 & rx1 & rets1 & E1 & E2 & Hz1 & Hl1 & Hs1 & Hck1 & Hv1 & Hm1 & Hi1).
  destruct (IH tx1 rx1 (ev ++ told (current_tx_indicator tx) [r]) ltac:(congruence) Hs1 Hck1 Hok)
    as (tx2 & p2 & rx2 & rets2 & E3 & E4 & Hz2 & Hl2 & Hm2).
  exists tx2, (p1 ++ p2), rx2, (rets1 ++ rets2). cbn [perform_all]. rewrite E1. simpl. rewrite E3. simpl.
  split; [done|]. rewrite (receive_all_app _ _ _ _ _ _ _ E2 Hl1), E4.
  split; [|split; [by apply Forall_app_2|split; [rewrite !length_app; lia|congruence]]].
  f_equal. rewrite <- app_assoc, Hi1. f_equal. destruct r; cbn [told]; by rewrite app_nil_r, <- ?app_assoc.
Qed.

(** C7: over a channel that keeps packets in order, a receiver's client is told
    exactly what the sender was asked to send: each indicator that differs from
    the last one sent, and every field of every data packet in order, with no
    packet missed and none refused, across any rollover of the sequence numbers;
    repeated indicators send nothing. *)
Theorem t38_link v rs : Forall (request_ok v) rs ->
  let s0 := t38_core_init <| t38_version := v |> in
  exists tx packets rx rets, perform_all s0 rs = Some (tx, packets) /\
    receive_all s0 [] packets = (rets, rx, told (-1) rs) /\
    Forall (fun ret => ret = 0) rets /\ length rets = length packets /\ missing_packets rx = 0.
Proof.
  intros Hok s0. apply (link_steps v rs s0 s0 []); try done.
  split; [done|by vm_compute|by vm_compute|by left].
Qed.

Definition demo_requests : list request :=
  [Indicate 3; Send 0 [{| field_type := 0; field := [0xFF; 0x13]; field_len := 2 |};
                       {| field_type := 4; field := []; field_len := 0 |}] 1;
   Indicate 3; Indicate 0].

Lemma t38_link_witness :
  let s0 := t38_core_init <| t38_version := 0 |> in
  exists tx packets rx rets, perform_all s0 demo_requests = Some (tx, packets) /\
    receive_all s0 [] packets =
      (rets, rx, [Ev_indicator 3; Ev_data 0 0 [0xFF; 0x13]; Ev_data 0 4 []; Ev_indicator 0]) /\
    Forall (fun ret => ret = 0) rets /\ length rets = length packets /\ missing_packets rx = 0.
Proof.
  apply (t38_link 0 demo_requests). repeat constructor; try by_decide; try done; by vm_compute.
Defined.
