(* ===== verification/NonEcm.v ===== *)
(** * The T.38 non-ECM buffer (src/spandsp-0.0.6/src/t38_non_ecm_buffer.c)

    A gateway takes fax image data from T.38 packets in and feeds it, bit by bit,
    to a modem that must never run dry within a row: whole rows are held back,
    and fill is sent between them.  This file has the code, its invariant, and
    the list view of its ring: octets released to the line and octets held. *)
From S2P Require Import Prelude Ring BitOps Async.

(** ** Definitions *)

Definition T38_NON_ECM_TX_BUF_LEN : Z := 16384.
Definition TCF_AT_INITIAL_ALL_ONES : Z := 0.
Definition TCF_AT_ALL_ZEROS : Z := 1.
Definition IMAGE_WAITING_FOR_FIRST_EOL : Z := 2.
Definition IMAGE_IN_PROGRESS : Z := 3.

Record t38_non_ecm_buffer_state_t := {
  min_bits_per_row : Z;
  data : list Z;
  in_ptr : Z;
  out_ptr : Z;
  latest_eol_ptr : Z;
  row_bits : Z;
  bit_stream : Z;
  flow_control_fill_octet : Z;
  input_phase : Z;
  data_finished : bool;
  octet : Z;
  bit_no : Z;
  image_data_mode : bool;
  in_octets : Z;
  in_rows : Z;
  min_row_bits_fill_octets : Z;
  out_octets : Z;
  out_rows : Z;
  flow_control_fill_octets : Z;
}.

#[export] Instance eta_non_ecm : Eta t38_non_ecm_buffer_state_t := fun s =>
  Build_t38_non_ecm_buffer_state_t (min_bits_per_row s) (data s) (in_ptr s) (out_ptr s)
    (latest_eol_ptr s) (row_bits s) (bit_stream s) (flow_control_fill_octet s) (input_phase s)
    (data_finished s) (octet s) (bit_no s) (image_data_mode s) (in_octets s) (in_rows s)
    (min_row_bits_fill_octets s) (out_octets s) (out_rows s) (flow_control_fill_octets s).

Definition restart_buffer (s : t38_non_ecm_buffer_state_t) : t38_non_ecm_buffer_state_t :=
  s <| octet := 0xFF |>
    <| flow_control_fill_octet := 0xFF |>
    <| input_phase := if image_data_mode s then IMAGE_WAITING_FOR_FIRST_EOL
                      else TCF_AT_INITIAL_ALL_ONES |>
    <| bit_stream := 0xFFFF |>
    <| out_ptr := 0 |>
    <| in_ptr := 0 |>
    <| latest_eol_ptr := 0 |>
    <| data_finished := false |>.

Definition next_ptr (p : Z) : Z := (p + 1) .& (T38_NON_ECM_TX_BUF_LEN - 1).

(** The end of [get_bit]: the next bit of [octet]. *)
Definition shift_out (s : t38_non_ecm_buffer_state_t) : Z * t38_non_ecm_buffer_state_t :=
  let s := s <| bit_no := bit_no s - 1 |> in
  ((octet s .>> 7) .& 1, s <| octet := u32 (octet s .<< 1) |>).

Definition t38_non_ecm_buffer_get_bit (s : t38_non_ecm_buffer_state_t)
    : Z * t38_non_ecm_buffer_state_t :=
  if bit_no s <=? 0 then
    if negb (out_ptr s =? latest_eol_ptr s) then
      let s := s <| octet := aget (data s) (out_ptr s) |> <| out_ptr := next_ptr (out_ptr s) |> in
      shift_out (s <| out_octets := out_octets s + 1 |> <| bit_no := 8 |>)
    else if data_finished s then (SIG_STATUS_END_OF_DATA, restart_buffer s)
    else
      let s := s <| octet := flow_control_fill_octet s |>
                 <| flow_control_fill_octets := flow_control_fill_octets s + 1 |> in
      shift_out (s <| out_octets := out_octets s + 1 |> <| bit_no := 8 |>)
  else shift_out s.

Definition t38_non_ecm_buffer_push (s : t38_non_ecm_buffer_state_t) : t38_non_ecm_buffer_state_t :=
  s <| latest_eol_ptr := in_ptr s |> <| data_finished := true |>.

(** [s->data[s->in_ptr] = b], and on to the next place. *)
Definition put_octet (s : t38_non_ecm_buffer_state_t) (b : Z) : t38_non_ecm_buffer_state_t :=
  s <| data := aset (data s) (in_ptr s) b |> <| in_ptr := next_ptr (in_ptr s) |>.

(** *** TCF *)

(** The loop that drops the octets of ones; the octets left. *)
Fixpoint tcf_skip_ones (s : t38_non_ecm_buffer_state_t) (buf : list Z)
    : t38_non_ecm_buffer_state_t * list Z :=
  match buf with
  | [] => (s, [])
  | b :: rest =>
      if negb (b =? 0xFF) then
        (s <| input_phase := TCF_AT_ALL_ZEROS |> <| flow_control_fill_octet := 0x00 |>, buf)
      else tcf_skip_ones s rest
  end.

Fixpoint tcf_store (s : t38_non_ecm_buffer_state_t) (buf : list Z) : t38_non_ecm_buffer_state_t :=
  match buf with
  | [] => s
  | b :: buf =>
      let at_ := in_ptr s in
      let s := put_octet s b <| latest_eol_ptr := at_ |> in
      tcf_store (s <| in_octets := in_octets s + 1 |>) buf
  end.

(** *** Image data *)

(** Does an EOL end in this octet?  The test of both image loops. *)
Definition eol_in (stream b : Z) : bool :=
  negb (b =? 0) && (11 - 8 <? bottom_bit (stream .| 0x800) - top_bit b).

Definition shift_in (stream b : Z) : Z := u32 (stream .<< 8) .| b.

(** The loop that waits for the first EOL; the octets after it. *)
Fixpoint image_hunt (s : t38_non_ecm_buffer_state_t) (buf : list Z)
    : t38_non_ecm_buffer_state_t * list Z :=
  match buf with
  | [] => (s, [])
  | b :: buf =>
      if eol_in (bit_stream s) b then
        let s := s <| input_phase := IMAGE_IN_PROGRESS |>
                   <| row_bits := top_bit b - 8 |>
                   <| latest_eol_ptr := in_ptr s |>
                   <| flow_control_fill_octet := 0x00 |> in
        let s := put_octet (put_octet (put_octet s 0x00) 0x00) b in
        (s <| in_octets := in_octets s + 3 |> <| bit_stream := shift_in (bit_stream s) b |>, buf)
      else image_hunt (s <| bit_stream := shift_in (bit_stream s) b |>) buf
  end.

(** The loop that extends a short row, of at most [fuel] turns. *)
Fixpoint extend_row (fuel : nat) (s : t38_non_ecm_buffer_state_t) : t38_non_ecm_buffer_state_t :=
  match fuel with
  | O => s
  | S fuel =>
      if row_bits s <? min_bits_per_row s then
        let s := s <| min_row_bits_fill_octets := min_row_bits_fill_octets s + 1 |> in
        let s := put_octet s 0 in
        extend_row fuel (s <| row_bits := row_bits s + 8 |>)
      else s
  end.

(** Turns enough for the row to reach its minimum. *)
Definition row_fuel (s : t38_non_ecm_buffer_state_t) : nat :=
  Z.to_nat ((min_bits_per_row s - row_bits s) / 8 + 1).

(** The end of a row in octet [b]. *)
Definition image_eol (s : t38_non_ecm_buffer_state_t) (b : Z) : t38_non_ecm_buffer_state_t :=
  let lower := top_bit b in
  let s := s <| row_bits := row_bits s + (8 - lower) |> in
  let s :=
    if (row_bits s <? 12) || (13 <? row_bits s) then
      let s := extend_row (row_fuel s) s in
      s <| latest_eol_ptr := in_ptr s |>
    else s in
  s <| row_bits := lower - 8 |> <| in_rows := in_rows s + 1 |>.

Fixpoint image_store (s : t38_non_ecm_buffer_state_t) (buf : list Z) : t38_non_ecm_buffer_state_t :=
  match buf with
  | [] => s
  | b :: buf =>
      let s := if eol_in (bit_stream s) b then image_eol s b else s in
      let s := s <| bit_stream := shift_in (bit_stream s) b |> in
      let s := put_octet s b <| row_bits := row_bits s + 8 |> in
      image_store (s <| in_octets := in_octets s + 1 |>) buf
  end.

Definition t38_non_ecm_buffer_inject (s : t38_non_ecm_buffer_state_t) (buf : list Z)
    : t38_non_ecm_buffer_state_t :=
  if input_phase s =? TCF_AT_INITIAL_ALL_ONES then
    let '(s, buf) := tcf_skip_ones s buf in tcf_store s buf
  else if input_phase s =? TCF_AT_ALL_ZEROS then tcf_store s buf
  else if input_phase s =? IMAGE_WAITING_FOR_FIRST_EOL then
    let '(s, buf) := image_hunt s buf in image_store s buf
  else if input_phase s =? IMAGE_IN_PROGRESS then image_store s buf
  else s.

(** *** Reports, options and creation *)

(** What is logged: octets, fill octets and rows. *)
Definition t38_non_ecm_buffer_report_input_status (s : t38_non_ecm_buffer_state_t)
    : option (Z * Z * Z) * t38_non_ecm_buffer_state_t :=
  if negb (in_octets s =? 0) || negb (min_row_bits_fill_octets s =? 0) then
    (Some (in_octets s, min_row_bits_fill_octets s, in_rows s),
     s <| in_octets := 0 |> <| in_rows := 0 |> <| min_row_bits_fill_octets := 0 |>)
  else (None, s).

Definition t38_non_ecm_buffer_report_output_status (s : t38_non_ecm_buffer_state_t)
    : option (Z * Z * Z) * t38_non_ecm_buffer_state_t :=
  if negb (out_octets s =? 0) || negb (flow_control_fill_octets s =? 0) then
    (Some (out_octets s - flow_control_fill_octets s, flow_control_fill_octets s, out_rows s),
     s <| out_octets := 0 |> <| out_rows := 0 |> <| flow_control_fill_octets := 0 |>)
  else (None, s).

Definition t38_non_ecm_buffer_set_mode (s : t38_non_ecm_buffer_state_t) (mode : bool)
    (min_bits : Z) : t38_non_ecm_buffer_state_t :=
  s <| image_data_mode := mode |> <| min_bits_per_row := min_bits |>.

(** The [memset] of [init]. *)
Definition cleared : t38_non_ecm_buffer_state_t := {|
  min_bits_per_row := 0; data := repeat 0 (Z.to_nat T38_NON_ECM_TX_BUF_LEN);
  in_ptr := 0; out_ptr := 0; latest_eol_ptr := 0; row_bits := 0; bit_stream := 0;
  flow_control_fill_octet := 0; input_phase := 0; data_finished := false; octet := 0; bit_no := 0;
  image_data_mode := false; in_octets := 0; in_rows := 0; min_row_bits_fill_octets := 0;
  out_octets := 0; out_rows := 0; flow_control_fill_octets := 0 |}.

Definition t38_non_ecm_buffer_init (mode : bool) (min_bits : Z) : t38_non_ecm_buffer_state_t :=
  restart_buffer (cleared <| image_data_mode := mode |> <| min_bits_per_row := min_bits |>).

(** ** The list view

    [released] octets may be sent, [held] ones wait for the end of their row. *)

Record line_queue := {
  q_released : list Z;
  q_held : list Z;
  q_fill : Z;
  q_phase : Z;
  q_row_bits : Z;
  q_stream : Z;
  q_finished : bool;
}.

#[export] Instance eta_line_queue : Eta line_queue := fun a =>
  Build_line_queue (q_released a) (q_held a) (q_fill a) (q_phase a) (q_row_bits a) (q_stream a)
    (q_finished a).

Definition q_put (a : line_queue) (b : Z) : line_queue := a <| q_held := q_held a ++ [b] |>.
Definition q_release (a : line_queue) : line_queue :=
  a <| q_released := q_released a ++ q_held a |> <| q_held := [] |>.
Definition q_size (a : line_queue) : Z := zlen (q_released a) + zlen (q_held a).

Definition q_start (mode : bool) : line_queue := {|
  q_released := []; q_held := []; q_fill := 0xFF;
  q_phase := if mode then IMAGE_WAITING_FOR_FIRST_EOL else TCF_AT_INITIAL_ALL_ONES;
  q_row_bits := 0; q_stream := 0xFFFF; q_finished := false |}.

Fixpoint q_skip_ones (a : line_queue) (buf : list Z) : line_queue * list Z :=
  match buf with
  | [] => (a, [])
  | b :: rest =>
      if negb (b =? 0xFF) then (a <| q_phase := TCF_AT_ALL_ZEROS |> <| q_fill := 0 |>, buf)
      else q_skip_ones a rest
  end.

Fixpoint q_tcf (a : line_queue) (buf : list Z) : line_queue :=
  match buf with [] => a | b :: buf => q_tcf (q_put (q_release a) b) buf end.

Fixpoint q_hunt (a : line_queue) (buf : list Z) : line_queue * list Z :=
  match buf with
  | [] => (a, [])
  | b :: buf =>
      if eol_in (q_stream a) b then
        (q_put (q_put (q_put (q_release (a <| q_phase := IMAGE_IN_PROGRESS |> <| q_fill := 0 |>
            <| q_row_bits := top_bit b - 8 |>)) 0) 0) b <| q_stream := shift_in (q_stream a) b |>, buf)
      else q_hunt (a <| q_stream := shift_in (q_stream a) b |>) buf
  end.

(** Whole octets of fill that take a row of [bits] to [min]. *)
Definition row_fill (min bits : Z) : nat := Z.to_nat ((min - bits + 7) / 8).

Definition q_eol (min : Z) (a : line_queue) (b : Z) : line_queue :=
  let bits := q_row_bits a + (8 - top_bit b) in
  (if (bits <? 12) || (13 <? bits) then
     q_release (a <| q_held := q_held a ++ repeat 0 (row_fill min bits) |>)
   else a) <| q_row_bits := top_bit b - 8 |>.

Fixpoint q_image (min : Z) (a : line_queue) (buf : list Z) : line_queue :=
  match buf with
  | [] => a
  | b :: buf =>
      let a := if eol_in (q_stream a) b then q_eol min a b else a in
      q_image min (q_put a b <| q_stream := shift_in (q_stream a) b |>
                     <| q_row_bits := q_row_bits a + 8 |>) buf
  end.

Definition q_inject (min : Z) (a : line_queue) (buf : list Z) : line_queue :=
  if q_phase a =? TCF_AT_INITIAL_ALL_ONES then let '(a, buf) := q_skip_ones a buf in q_tcf a buf
  else if q_phase a =? TCF_AT_ALL_ZEROS then q_tcf a buf
  else if q_phase a =? IMAGE_WAITING_FOR_FIRST_EOL then
    let '(a, buf) := q_hunt a buf in q_image min a buf
  else if q_phase a =? IMAGE_IN_PROGRESS then q_image min a buf
  else a.

Definition q_push (a : line_queue) : line_queue := q_release a <| q_finished := true |>.

(** The next octet for the line; [None] at the end of the data. *)
Definition q_get (mode : bool) (a : line_queue) : option Z * line_queue :=
  match q_released a with
  | b :: l => (Some b, a <| q_released := l |>)
  | [] => if q_finished a then (None, q_start mode <| q_row_bits := q_row_bits a |>)
          else (Some (q_fill a), a)
  end.

(** ** The code implements the list view *)

Lemma cells_snoc d o n b : 0 <= o < zlen d -> 0 <= n -> n + 1 <= zlen d ->
  cells (aset d (ridx (zlen d) o n) b) o (n + 1) = cells d o n ++ [b].
Proof.
  intros Ho Hn Hl. assert (0 <= ridx (zlen d) o n < zlen d) as Hr by ring_cases.
  assert (ring_put d (ridx (zlen d) o n) [b] (aset d (ridx (zlen d) o n) b)) as P.
  { apply (ring_put_memcpy d _ [b]); simpl; lia. }
  rewrite cells_app by (rewrite ?length_aset; lia). rewrite length_aset. f_equal.
  - by apply (ring_put_other d o n [b]).
  - apply (ring_put_cells d _ [b]); simpl; [done|lia..].
Qed.

Lemma cells_cons d o n : 0 <= o < zlen d -> 0 <= n -> n + 1 <= zlen d ->
  cells d o (n + 1) = aget d o :: cells d (ridx (zlen d) o 1) n.
Proof.
  intros Ho Hn Hl. replace (n + 1) with (1 + n) by lia. rewrite cells_app by lia. by rewrite cells_one.
Qed.

Lemma next_ptr_ridx p : 0 <= p < T38_NON_ECM_TX_BUF_LEN -> next_ptr p = ridx T38_NON_ECM_TX_BUF_LEN p 1.
Proof.
  unfold next_ptr, ridx, T38_NON_ECM_TX_BUF_LEN. intros Hp. change (16384 - 1) with (Z.ones 14).
  rewrite Z.land_ones by done. destruct (Z.ltb_spec (p + 1) 16384).
  - rewrite Z.mod_small; lia.
  - by replace p with 16383 by lia.
Qed.

Record represents (s : t38_non_ecm_buffer_state_t) (a : line_queue) : Prop := {
  rep_out : 0 <= out_ptr s < T38_NON_ECM_TX_BUF_LEN;
  rep_data : zlen (data s) = T38_NON_ECM_TX_BUF_LEN;
  rep_bytes : bytes (data s);
  rep_latest : latest_eol_ptr s = ridx T38_NON_ECM_TX_BUF_LEN (out_ptr s) (zlen (q_released a));
  rep_in : in_ptr s = ridx T38_NON_ECM_TX_BUF_LEN (out_ptr s) (q_size a);
  rep_size : q_size a < T38_NON_ECM_TX_BUF_LEN;
  rep_cells : cells (data s) (out_ptr s) (q_size a) = q_released a ++ q_held a;
  rep_fill : flow_control_fill_octet s = q_fill a;
  rep_fill_byte : is_byte (q_fill a);
  rep_phase : input_phase s = q_phase a;
  rep_row_bits : row_bits s = q_row_bits a;
  rep_stream : bit_stream s = q_stream a;
  rep_finished : data_finished s = q_finished a;
}.

(** A change of the other fields keeps the representation. *)
Ltac rep_same R := destruct R; split; assumption.

Lemma represents_put s a b : represents s a -> is_byte b -> q_size a + 1 < T38_NON_ECM_TX_BUF_LEN ->
  represents (put_octet s b) (q_put a b).
Proof.
  intros R Hb Hs. destruct R. unfold put_octet, q_put.
  assert (q_size (a <| q_held := q_held a ++ [b] |>) = q_size a + 1) as E.
  { unfold q_size. cbn. rewrite length_app. simpl. lia. }
  assert (0 <= q_size a) by (unfold q_size; lia).
  split; try done; rewrite ?E.
  - cbn. by rewrite length_aset.
  - cbn. by apply bytes_aset.
  - change (next_ptr (in_ptr s) = ridx T38_NON_ECM_TX_BUF_LEN (out_ptr s) (q_size a + 1)).
    assert (0 <= in_ptr s < T38_NON_ECM_TX_BUF_LEN) by (rewrite rep_in0; ring_cases).
    rewrite next_ptr_ridx, rep_in0 by done. ring_cases.
  - done.
  - change (cells (aset (data s) (in_ptr s) b) (out_ptr s) (q_size a + 1) =
            q_released a ++ q_held a ++ [b]).
    rewrite rep_in0, <- rep_data0, cells_snoc by lia. by rewrite rep_cells0, app_assoc.
Qed.

Lemma represents_release s a : represents s a ->
  represents (s <| latest_eol_ptr := in_ptr s |>) (q_release a).
Proof.
  intros R. destruct R. unfold q_release.
  assert (q_size (a <| q_released := q_released a ++ q_held a |> <| q_held := [] |>) = q_size a) as E.
  { unfold q_size. cbn. rewrite length_app. lia. }
  split; try done; rewrite ?E; try done.
  - change (in_ptr s = ridx T38_NON_ECM_TX_BUF_LEN (out_ptr s) (zlen (q_released a ++ q_held a))).
    rewrite rep_in0. unfold q_size. rewrite length_app. f_equal. lia.
  - change (cells (data s) (out_ptr s) (q_size a) = (q_released a ++ q_held a) ++ []).
    by rewrite app_nil_r.
Qed.

(** The queue only grows while octets come in. *)
Lemma q_size_put a b : q_size (q_put a b) = q_size a + 1.
Proof. unfold q_size, q_put. cbn. rewrite length_app. simpl. lia. Qed.

Lemma q_size_release a : q_size (q_release a) = q_size a.
Proof. unfold q_size, q_release. cbn. rewrite length_app. lia. Qed.

(** *** Input *)

Lemma represents_skip_ones : forall buf s a, represents s a -> bytes buf ->
  let '(s', l) := tcf_skip_ones s buf in
  let '(a', l') := q_skip_ones a buf in
  l = l' /\ bytes l /\ represents s' a'.
Proof.
  induction buf as [|b buf IH]; intros s a R Hb; [done|]. cbn [tcf_skip_ones q_skip_ones].
  destruct (negb (b =? 0xFF)).
  - split; [done|]. split; [done|]. destruct R; split; try done; by vm_compute.
  - apply IH; [done|]. by apply Forall_cons_1 in Hb as [_ Hb].
Qed.

Lemma q_tcf_size a buf : q_size (q_tcf a buf) = q_size a + zlen buf.
Proof.
  revert a. induction buf as [|b buf IH]; intros a; cbn [q_tcf length]; [lia|].
  rewrite IH, q_size_put, q_size_release. lia.
Qed.

Lemma represents_tcf : forall buf s a, represents s a -> bytes buf ->
  q_size (q_tcf a buf) < T38_NON_ECM_TX_BUF_LEN -> represents (tcf_store s buf) (q_tcf a buf).
Proof.
  induction buf as [|b buf IH]; intros s a R Hb Hs; [done|]. cbn [tcf_store q_tcf] in *.
  apply Forall_cons_1 in Hb as [Hb Hbuf].
  rewrite q_tcf_size, q_size_put, q_size_release in Hs.
  apply IH; [|done|rewrite q_tcf_size, q_size_put, q_size_release; lia].
  pose proof (represents_put _ _ b (represents_release _ _ R) Hb) as R1.
  rewrite q_size_release in R1. specialize (R1 ltac:(lia)). destruct R1; by split.
Qed.

Lemma represents_hunt : forall buf s a, represents s a -> bytes buf ->
  q_size (q_hunt a buf).1 < T38_NON_ECM_TX_BUF_LEN ->
  let '(s', l) := image_hunt s buf in
  let '(a', l') := q_hunt a buf in
  l = l' /\ bytes l /\ represents s' a'.
Proof.
  induction buf as [|b buf IH]; intros s a R Hb Hs; [done|]. cbn [image_hunt q_hunt] in *.
  apply Forall_cons_1 in Hb as [Hb Hbuf]. rewrite (rep_stream _ _ R).
  destruct (eol_in (q_stream a) b).
  - split; [done|]. split; [done|]. cbn [fst] in Hs.
    set (a1 := a <| q_phase := IMAGE_IN_PROGRESS |> <| q_fill := 0 |> <| q_row_bits := top_bit b - 8 |>) in *.
    set (s1 := s <| input_phase := IMAGE_IN_PROGRESS |> <| row_bits := top_bit b - 8 |>
                 <| flow_control_fill_octet := 0 |>).
    assert (represents s1 a1) as R1 by (destruct R; split; try done; by vm_compute).
    pose proof (represents_release _ _ R1) as R2.
    change (q_size (q_put (q_put (q_put (q_release a1) 0) 0) b) < T38_NON_ECM_TX_BUF_LEN) in Hs.
    pose proof Hs as Hs'. rewrite !q_size_put, q_size_release in Hs'.
    assert (is_byte 0) as H0 by (by vm_compute).
    pose proof (represents_put _ _ 0 R2 H0 ltac:(rewrite q_size_release; lia)) as R3.
    pose proof (represents_put _ _ 0 R3 H0 ltac:(rewrite q_size_put, q_size_release; lia)) as R4.
    pose proof (represents_put _ _ b R4 Hb ltac:(rewrite !q_size_put, q_size_release; lia)) as R5.
    destruct R5; split; try done.
    change (shift_in (bit_stream s) b = shift_in (q_stream a) b). by rewrite (rep_stream _ _ R).
  - apply IH; [|done|done]. destruct R; by split.
Qed.

Lemma row_fill_step min bits : bits < min -> row_fill min bits = S (row_fill min (bits + 8)).
Proof.
  intros H. unfold row_fill. replace (min - bits + 7) with (min - (bits + 8) + 7 + 1 * 8) by lia.
  rewrite Z.div_add by lia.
  assert (0 <= (min - (bits + 8) + 7) / 8) by (apply Z.div_pos; lia). lia.
Qed.

Lemma row_fill_done min bits : min <= bits -> row_fill min bits = 0%nat.
Proof.
  intros H. unfold row_fill. assert ((min - bits + 7) / 8 < 1) by (apply Z.div_lt_upper_bound; lia). lia.
Qed.

(** The extended row, and no fewer bits than the minimum. *)
Lemma represents_extend min fuel : forall s a, represents s a -> min_bits_per_row s = min ->
  (row_fill min (row_bits s) <= fuel)%nat ->
  q_size a + Z.of_nat (row_fill min (row_bits s)) < T38_NON_ECM_TX_BUF_LEN ->
  let s' := extend_row fuel s in
  represents (s' <| row_bits := row_bits s |>)
    (a <| q_held := q_held a ++ repeat 0 (row_fill min (row_bits s)) |>) /\ min <= row_bits s'.
Proof.
  induction fuel as [|fuel IH]; intros s a R Hm Hf Hs.
  - cbn [extend_row]. replace (row_fill min (row_bits s)) with 0%nat by lia. cbn [repeat].
    rewrite app_nil_r. split; [destruct R; by split|].
    destruct (Z_lt_le_dec (row_bits s) min) as [H|H]; [|done].
    rewrite (row_fill_step _ _ H) in Hf. lia.
  - cbn [extend_row]. rewrite Hm. destruct (Z.ltb_spec (row_bits s) min) as [H|H].
    + rewrite (row_fill_step _ _ H) in *.
      set (s1 := put_octet (s <| min_row_bits_fill_octets := min_row_bits_fill_octets s + 1 |>) 0).
      assert (represents s1 (q_put a 0)) as R1.
      { apply represents_put; [destruct R; by split|by vm_compute|lia]. }
      set (s2 := s1 <| row_bits := row_bits s1 + 8 |>).
      assert (represents s2 (q_put a 0 <| q_row_bits := row_bits s + 8 |>)) as R2 by (destruct R1; by split).
      destruct (IH s2 _ R2 Hm) as [R3 H3].
      * change (row_fill min (row_bits s + 8) <= fuel)%nat. lia.
      * change (row_bits s2) with (row_bits s + 8).
        change (q_size (q_put a 0) + Z.of_nat (row_fill min (row_bits s + 8)) < T38_NON_ECM_TX_BUF_LEN).
        rewrite q_size_put. lia.
      * split; [|exact H3]. change (row_bits s2) with (row_bits s + 8) in R3.
        cbn [repeat]. replace (q_held a ++ 0 :: repeat 0 (row_fill min (row_bits s + 8)))
          with ((q_held a ++ [0]) ++ repeat 0 (row_fill min (row_bits s + 8))) by (by rewrite <- app_assoc).
        pose proof (rep_row_bits _ _ R). destruct R3; by split.
    + rewrite (row_fill_done _ _ H). cbn [repeat]. rewrite app_nil_r. split; [|done].
      destruct R; by split.
Qed.

Lemma extend_row_min fuel s : min_bits_per_row (extend_row fuel s) = min_bits_per_row s.
Proof.
  revert s. induction fuel as [|fuel IH]; intros s; [done|]. cbn [extend_row].
  destruct (_ <? _); [|done]. by rewrite IH.
Qed.

Lemma image_eol_min s b : min_bits_per_row (image_eol s b) = min_bits_per_row s.
Proof.
  unfold image_eol. cbv zeta. destruct (_ || _); [|done].
  match goal with |- context [extend_row ?f ?x] => change (min_bits_per_row (extend_row f x) = min_bits_per_row s) end.
  by rewrite extend_row_min.
Qed.

Lemma row_fuel_enough s : (row_fill (min_bits_per_row s) (row_bits s) <= row_fuel s)%nat.
Proof.
  unfold row_fill, row_fuel. set (x := min_bits_per_row s - row_bits s).
  assert ((x + 7) / 8 <= x / 8 + 1); [|lia].
  replace (x / 8 + 1) with ((x + 1 * 8) / 8) by (by rewrite Z.div_add).
  apply Z.div_le_mono; lia.
Qed.

Lemma q_size_pad a n : q_size (a <| q_held := q_held a ++ repeat 0 n |>) = q_size a + Z.of_nat n.
Proof. unfold q_size. cbn. rewrite length_app, repeat_length. lia. Qed.

Lemma represents_eol s a b : represents s a ->
  q_size (q_eol (min_bits_per_row s) a b) < T38_NON_ECM_TX_BUF_LEN ->
  represents (image_eol s b) (q_eol (min_bits_per_row s) a b).
Proof.
  intros R Hs. unfold image_eol, q_eol in *. cbv zeta in *.
  set (s1 := s <| row_bits := row_bits s + (8 - top_bit b) |>).
  set (bits := q_row_bits a + (8 - top_bit b)) in *.
  assert (row_bits s1 = bits) as Eb by (cbn; unfold bits; by rewrite (rep_row_bits _ _ R)).
  rewrite Eb. destruct ((bits <? 12) || (13 <? bits)).
  - assert (represents s1 (a <| q_row_bits := bits |>)) as R1 by (destruct R; by split).
    set (s2 := extend_row (row_fuel s1) s1).
    pose proof (represents_extend (min_bits_per_row s) (row_fuel s1) _ _ R1 eq_refl) as H.
    rewrite Eb in H. cbv zeta in H. destruct H as [R2 _].
    + rewrite <- Eb. exact (row_fuel_enough s1).
    + change (q_size (q_release (a <| q_held := q_held a ++ repeat 0 (row_fill (min_bits_per_row s) bits) |>))
        < T38_NON_ECM_TX_BUF_LEN) in Hs.
      rewrite q_size_release, q_size_pad in Hs. exact Hs.
    + fold s2 in R2. pose proof (represents_release _ _ R2) as R3. destruct R3; by split.
  - destruct R; by split.
Qed.

Lemma q_size_eol min a b : q_size a <= q_size (q_eol min a b).
Proof.
  unfold q_eol. destruct (_ || _); [|done].
  change (q_size a <= q_size (q_release (a <| q_held := q_held a ++
    repeat 0 (row_fill min (q_row_bits a + (8 - top_bit b))) |>))).
  rewrite q_size_release, q_size_pad. lia.
Qed.

Lemma q_size_image min a buf : q_size a + zlen buf <= q_size (q_image min a buf).
Proof.
  revert a. induction buf as [|b buf IH]; intros a; cbn [q_image length]; [lia|].
  pose proof (q_size_eol min a b).
  set (a1 := if eol_in (q_stream a) b then q_eol min a b else a).
  assert (q_size a <= q_size a1) by (unfold a1; case_match; lia).
  match goal with |- context [q_image min ?x buf] => pose proof (IH x) as E; change (q_size x) with (q_size (q_put a1 b)) in E end.
  rewrite q_size_put in E. lia.
Qed.

Lemma represents_image : forall buf s a, represents s a -> bytes buf ->
  q_size (q_image (min_bits_per_row s) a buf) < T38_NON_ECM_TX_BUF_LEN ->
  represents (image_store s buf) (q_image (min_bits_per_row s) a buf).
Proof.
  induction buf as [|b buf IH]; intros s a R Hb Hs; [done|].
  cbn [image_store q_image] in *. apply Forall_cons_1 in Hb as [Hb Hbuf].
  rewrite (rep_stream _ _ R).
  set (s1 := if eol_in (q_stream a) b then image_eol s b else s).
  set (a1 := if eol_in (q_stream a) b then q_eol (min_bits_per_row s) a b else a) in *.
  assert (min_bits_per_row s1 = min_bits_per_row s) as Em by (unfold s1; case_match; [apply image_eol_min|done]).
  match type of Hs with q_size (q_image _ ?x _) < _ => set (a2 := x) in * end.
  assert (q_size a2 = q_size a1 + 1) as E2 by (apply q_size_put).
  pose proof (q_size_image (min_bits_per_row s) a2 buf) as Hg.
  assert (represents s1 a1) as R1.
  { unfold s1, a1 in *. destruct (eol_in (q_stream a) b); [|done]. apply represents_eol; [done|lia]. }
  rewrite <- Em in *.
  match goal with |- represents (image_store ?x _) _ => set (s2 := x) end.
  change (min_bits_per_row s1) with (min_bits_per_row s2) in *.
  apply IH; [|done|done].
  pose proof (represents_put _ _ b R1 Hb ltac:(lia)) as R2.
  destruct R2; split; try done.
  - change (row_bits s1 + 8 = q_row_bits a1 + 8). by rewrite (rep_row_bits _ _ R1).
  - change (shift_in (bit_stream s1) b = shift_in (q_stream a1) b). by rewrite (rep_stream _ _ R1).
Qed.

Lemma represents_inject s a buf : represents s a -> bytes buf ->
  q_size (q_inject (min_bits_per_row s) a buf) < T38_NON_ECM_TX_BUF_LEN ->
  represents (t38_non_ecm_buffer_inject s buf) (q_inject (min_bits_per_row s) a buf).
Proof.
  intros R Hb Hs. unfold t38_non_ecm_buffer_inject, q_inject in *. rewrite (rep_phase _ _ R).
  destruct (q_phase a =? TCF_AT_INITIAL_ALL_ONES).
  { pose proof (represents_skip_ones buf s a R Hb) as H.
    destruct (tcf_skip_ones s buf) as [s1 l], (q_skip_ones a buf) as [a1 l1].
    destruct H as (<- & Hl & R1). by apply represents_tcf. }
  destruct (q_phase a =? TCF_AT_ALL_ZEROS); [by apply represents_tcf|].
  destruct (q_phase a =? IMAGE_WAITING_FOR_FIRST_EOL).
  { pose proof (represents_hunt buf s a R Hb) as H.
    assert (min_bits_per_row (image_hunt s buf).1 = min_bits_per_row s) as Em.
    { clear. revert s. induction buf as [|b buf IH]; intros s; [done|]. cbn [image_hunt].
      destruct (eol_in _ _); [done|]. by rewrite IH. }
    destruct (image_hunt s buf) as [s1 l], (q_hunt a buf) as [a1 l1]. cbn [fst] in *.
    rewrite <- Em in *. pose proof (q_size_image (min_bits_per_row s1) a1 l1).
    destruct H as (<- & Hl & R1); [lia|]. by apply represents_image. }
  destruct (q_phase a =? IMAGE_IN_PROGRESS); [by apply represents_image|done].
Qed.

Lemma represents_push s a : represents s a ->
  represents (t38_non_ecm_buffer_push s) (q_push a).
Proof. intros R. pose proof (represents_release _ _ R) as R1. destruct R1; by split. Qed.

Lemma represents_init mode min : represents (t38_non_ecm_buffer_init mode min) (q_start mode).
Proof. split; try by vm_compute. by_decide. Qed.

(** *** Output *)

(** [n] calls of [get_bit]. *)
Fixpoint get_bits (n : nat) (s : t38_non_ecm_buffer_state_t) : list Z * t38_non_ecm_buffer_state_t :=
  match n with
  | O => ([], s)
  | S n =>
      let '(b, s) := t38_non_ecm_buffer_get_bit s in
      let '(l, s) := get_bits n s in (b :: l, s)
  end.

Lemma shift_out_bits : forall n s, 0 <= Z.of_nat n <= 8 -> bit_no s = Z.of_nat n ->
  0 <= octet s < 2 ^ (16 - Z.of_nat n) ->
  let '(l, s') := get_bits n s in
  l = map Z.b2z (msb_bits n (octet s .>> (8 - Z.of_nat n))) /\ bit_no s' = 0 /\
  s' = s <| octet := octet s' |> <| bit_no := 0 |>.
Proof.
  induction n as [|n IH]; intros s Hn Hb Ho; cbn [get_bits].
  { split; [done|]. split; [done|]. destruct s. cbn in Hb. by subst. }
  unfold t38_non_ecm_buffer_get_bit at 1. replace (bit_no s <=? 0) with false by lia.
  unfold shift_out. cbv zeta.
  set (s1 := s <| bit_no := bit_no s - 1 |>). change (octet s1) with (octet s).
  set (s2 := s1 <| octet := u32 (octet s .<< 1) |>).
  assert (u32 (octet s .<< 1) = octet s .<< 1) as E.
  { apply wrap_id. rewrite Z.shiftl_mul_pow2 by done.
    assert (2 ^ (16 - Z.of_nat (S n)) <= 2 ^ 16) by (apply Z.pow_le_mono_r; lia). lia. }
  specialize (IH s2). destruct (get_bits n s2) as [l s'].
  destruct IH as (-> & Hb' & Es).
  - lia.
  - change (bit_no s - 1 = Z.of_nat n). lia.
  - change (octet s2) with (u32 (octet s .<< 1)). rewrite E, Z.shiftl_mul_pow2 by done.
    replace (16 - Z.of_nat n) with (Z.succ (16 - Z.of_nat (S n))) by lia.
    rewrite Z.pow_succ_r by lia. lia.
  - split; [|split; [done|by rewrite Es]].
    change (octet s2) with (u32 (octet s .<< 1)). rewrite E. cbn [msb_bits map]. f_equal.
    + rewrite (Z.land_ones _ 1), <- Z.bit0_mod by done. bit_specs. do 2 f_equal. lia.
    + f_equal. apply msb_bits_ext. intros i Hi. bit_specs.
      replace (1 <=? i + (8 - Z.of_nat n)) with true by lia. cbn [andb]. f_equal. lia.
Qed.

Lemma get_bits_S n s :
  get_bits (S n) s =
    let '(b, s) := t38_non_ecm_buffer_get_bit s in
    let '(l, s) := get_bits n s in (b :: l, s).
Proof. done. Qed.

(** The eight bits of an octet that has just been chosen. *)
Lemma represents_shift_out s s0 a x : represents s a -> is_byte x -> bit_no s = 8 -> octet s = x ->
  t38_non_ecm_buffer_get_bit s0 = shift_out s ->
  min_bits_per_row s = min_bits_per_row s0 -> image_data_mode s = image_data_mode s0 ->
  let '(l, s') := get_bits 8 s0 in
  l = map Z.b2z (msb_bits 8 x) /\ represents s' a /\ bit_no s' = 0 /\
  min_bits_per_row s' = min_bits_per_row s0 /\ image_data_mode s' = image_data_mode s0.
Proof.
  intros R Hx H8 Eo E0 <- <-.
  assert (get_bits 8 s0 = get_bits 8 s) as ->.
  { rewrite !(get_bits_S 7), E0. unfold t38_non_ecm_buffer_get_bit. by rewrite H8. }
  assert (0 <= octet s < 2 ^ (16 - Z.of_nat 8)) as Ho by (rewrite Eo; exact Hx).
  pose proof (shift_out_bits 8 s ltac:(lia) H8 Ho) as H.
  destruct (get_bits 8 s) as [l s']. destruct H as (-> & H0 & Es).
  change (8 - Z.of_nat 8) with 0. rewrite Z.shiftr_0_r, Eo. split; [done|].
  rewrite Es. split; [destruct R; by split|done].
Qed.

Lemma is_byte_aget_rep s a i : represents s a -> is_byte (aget (data s) i).
Proof. intros R. apply bytes_aget, R. Qed.

(** One octet for the line, from an octet boundary. *)
Lemma represents_get s a : represents s a -> bit_no s = 0 ->
  match q_get (image_data_mode s) a with
  | (Some x, a') =>
      let '(l, s') := get_bits 8 s in
      l = map Z.b2z (msb_bits 8 x) /\ represents s' a' /\ bit_no s' = 0 /\
      min_bits_per_row s' = min_bits_per_row s /\ image_data_mode s' = image_data_mode s
  | (None, a') =>
      let '(b, s') := t38_non_ecm_buffer_get_bit s in
      b = SIG_STATUS_END_OF_DATA /\ represents s' a' /\ bit_no s' = 0 /\
      min_bits_per_row s' = min_bits_per_row s /\ image_data_mode s' = image_data_mode s
  end.
Proof.
  intros R Hb.
  pose proof (rep_latest _ _ R) as El. pose proof (rep_out _ _ R) as Ho.
  pose proof (rep_size _ _ R) as Hz. unfold q_size in Hz.
  assert ((out_ptr s =? latest_eol_ptr s) = (zlen (q_released a) =? 0)) as Ee.
  { rewrite El. unfold ridx. case_match; lia. }
  unfold q_get. destruct (q_released a) as [|x l] eqn:Er.
  - change (zlen (@nil Z) =? 0) with true in Ee. destruct (q_finished a) eqn:Ef.
    + unfold t38_non_ecm_buffer_get_bit. rewrite Hb, Ee, (rep_finished _ _ R), Ef. cbn [Z.leb Z.compare negb].
      split; [done|]. split; [|done]. unfold restart_buffer.
      destruct R; split; try done; by vm_compute.
    + apply (represents_shift_out
        (s <| octet := flow_control_fill_octet s |>
           <| flow_control_fill_octets := flow_control_fill_octets s + 1 |>
           <| out_octets := out_octets s + 1 |> <| bit_no := 8 |>) s a (q_fill a)).
      * destruct R; by split.
      * apply R.
      * done.
      * apply R.
      * unfold t38_non_ecm_buffer_get_bit. rewrite Hb, Ee, (rep_finished _ _ R), Ef. done.
      * done.
      * done.
  - assert ((out_ptr s =? latest_eol_ptr s) = false) as Ee' by (rewrite Ee; simpl; lia).
    pose proof (rep_cells _ _ R) as Hc. unfold q_size in Hc. rewrite Er in Hc.
    replace (zlen (x :: l) + zlen (q_held a)) with (zlen l + zlen (q_held a) + 1) in Hc by (simpl length; lia).
    simpl length in Hz. rewrite <- (rep_data _ _ R) in Ho, Hz.
    rewrite cells_cons in Hc by lia. injection Hc as Hx Hc.
    apply (represents_shift_out
      (s <| octet := aget (data s) (out_ptr s) |> <| out_ptr := next_ptr (out_ptr s) |>
         <| out_octets := out_octets s + 1 |> <| bit_no := 8 |>) s (a <| q_released := l |>) x).
    + rewrite (rep_data _ _ R) in Ho, Hz, Hc.
      pose proof (next_ptr_ridx (out_ptr s) Ho) as En.
      assert (q_size (a <| q_released := l |>) = zlen l + zlen (q_held a)) as Eq by done.
      assert (0 <= ridx T38_NON_ECM_TX_BUF_LEN (out_ptr s) 1 < T38_NON_ECM_TX_BUF_LEN) as Hr by ring_cases.
      pose proof (rep_in _ _ R) as Ei. unfold q_size in Ei. rewrite Er in Ei.
      simpl length in El, Ei.
      destruct R; split; try done; rewrite ?Eq; try lia.
      * cbn. by rewrite En.
      * change (latest_eol_ptr s = ridx T38_NON_ECM_TX_BUF_LEN (next_ptr (out_ptr s)) (zlen l)).
        rewrite En, El. ring_cases.
      * change (in_ptr s = ridx T38_NON_ECM_TX_BUF_LEN (next_ptr (out_ptr s)) (zlen l + zlen (q_held a))).
        rewrite En, Ei. ring_cases.
      * change (cells (data s) (next_ptr (out_ptr s)) (zlen l + zlen (q_held a)) = l ++ q_held a).
        by rewrite En.
    + rewrite <- Hx. by eapply is_byte_aget_rep.
    + done.
    + done.
    + unfold t38_non_ecm_buffer_get_bit. rewrite Hb, Ee'. done.
    + done.
    + done.
Qed.

(** ** Any order of calls *)

(** What the two ends of the buffer ask of it.  [Take] is the modem asking for
    the next octet, a bit at a time, or finding the end of the data. *)
Inductive action := Inject (buf : list Z) | Take | Push.

Definition take_line (s : t38_non_ecm_buffer_state_t) : list Z * t38_non_ecm_buffer_state_t :=
  let '(b, s) := t38_non_ecm_buffer_get_bit s in
  if b =? SIG_STATUS_END_OF_DATA then ([b], s)
  else let '(l, s) := get_bits 7 s in (b :: l, s).

Fixpoint run (s : t38_non_ecm_buffer_state_t) (acts : list action)
    : list (list Z) * t38_non_ecm_buffer_state_t :=
  match acts with
  | [] => ([], s)
  | Inject buf :: acts => run (t38_non_ecm_buffer_inject s buf) acts
  | Push :: acts => run (t38_non_ecm_buffer_push s) acts
  | Take :: acts =>
      let '(l, s) := take_line s in
      let '(ls, s) := run s acts in (l :: ls, s)
  end.

(** The same on the lists: each octet sent, [None] for the end of the data. *)
Fixpoint q_run (mode : bool) (min : Z) (a : line_queue) (acts : list action)
    : list (option Z) * line_queue :=
  match acts with
  | [] => ([], a)
  | Inject buf :: acts => q_run mode min (q_inject min a buf) acts
  | Push :: acts => q_run mode min (q_push a) acts
  | Take :: acts =>
      let '(x, a) := q_get mode a in
      let '(xs, a) := q_run mode min a acts in (x :: xs, a)
  end.

(** The data of every call is octets, and never fills the ring. *)
Fixpoint fits (mode : bool) (min : Z) (a : line_queue) (acts : list action) : Prop :=
  match acts with
  | [] => True
  | Inject buf :: acts =>
      bytes buf /\ q_size (q_inject min a buf) < T38_NON_ECM_TX_BUF_LEN /\
      fits mode min (q_inject min a buf) acts
  | Push :: acts => fits mode min (q_push a) acts
  | Take :: acts => fits mode min (q_get mode a).2 acts
  end.

#[export] Instance fits_dec mode min a acts : Decision (fits mode min a acts).
Proof. revert a. induction acts as [|[buf| |] acts IH]; intros a; cbn [fits]; apply _. Defined.

Definition line_bits (x : option Z) : list Z :=
  match x with
  | Some x => map Z.b2z (msb_bits 8 x)
  | None => [SIG_STATUS_END_OF_DATA]
  end.

Lemma inject_fields s buf :
  min_bits_per_row (t38_non_ecm_buffer_inject s buf) = min_bits_per_row s /\
  image_data_mode (t38_non_ecm_buffer_inject s buf) = image_data_mode s /\
  bit_no (t38_non_ecm_buffer_inject s buf) = bit_no s.
Proof.
  set (same := fun s s' => min_bits_per_row s' = min_bits_per_row s /\
    image_data_mode s' = image_data_mode s /\ bit_no s' = bit_no s).
  assert (forall s1 s2 s3, same s1 s2 -> same s2 s3 -> same s1 s3) as T.
  { unfold same. intuition congruence. }
  assert (forall f s, same s (extend_row f s)) as He.
  { induction f as [|f IH]; intros s0; [done|]. cbn [extend_row]. destruct (_ <? _); [|done].
    eapply T; [|apply IH]. done. }
  assert (forall s b, same s (image_eol s b)) as Hl.
  { intros s0 b. unfold image_eol. cbv zeta. destruct (_ || _); [|done].
    match goal with |- context [extend_row ?f ?x] => pose proof (He f x) as H end. exact H. }
  assert (forall buf s, same s (tcf_skip_ones s buf).1) as Hk.
  { induction buf0 as [|b l IH]; intros s0; [done|]. cbn [tcf_skip_ones]. destruct (negb _); [done|apply IH]. }
  assert (forall buf s, same s (tcf_store s buf)) as Ht.
  { induction buf0 as [|b l IH]; intros s0; [done|]. cbn [tcf_store]. eapply T; [|apply IH]. done. }
  assert (forall buf s, same s (image_hunt s buf).1) as Hh.
  { induction buf0 as [|b l IH]; intros s0; [done|]. cbn [image_hunt]. destruct (eol_in _ _); [done|].
    eapply T; [|apply IH]. done. }
  assert (forall buf s, same s (image_store s buf)) as Hi.
  { induction buf0 as [|b l IH]; intros s0; [done|]. cbn [image_store]. cbv zeta.
    eapply T; [|apply IH]. destruct (eol_in _ _); [|done]. eapply T; [apply Hl|]. done. }
  change (same s (t38_non_ecm_buffer_inject s buf)). unfold t38_non_ecm_buffer_inject.
  destruct (_ =? _); [|destruct (_ =? _); [apply Ht|destruct (_ =? _); [|destruct (_ =? _); [apply Hi|done]]]].
  - pose proof (Hk buf s). destruct (tcf_skip_ones s buf). by eapply T; [|apply Ht].
  - pose proof (Hh buf s). destruct (image_hunt s buf). by eapply T; [|apply Hi].
Qed.

Lemma take_line_get s a : represents s a -> bit_no s = 0 ->
  let '(x, a') := q_get (image_data_mode s) a in
  let '(l, s') := take_line s in
  l = line_bits x /\ represents s' a' /\ bit_no s' = 0 /\
  min_bits_per_row s' = min_bits_per_row s /\ image_data_mode s' = image_data_mode s.
Proof.
  intros R Hb. pose proof (represents_get s a R Hb) as H. unfold take_line.
  destruct (q_get _ a) as [[x|] a'].
  - rewrite (get_bits_S 7) in H. destruct (t38_non_ecm_buffer_get_bit s) as [b s1].
    destruct (get_bits 7 s1) as [l s2]. destruct H as [H0 H]. unfold line_bits.
    destruct (msb_bits 8 x) as [|h m]; [done|]. cbn [map] in *. injection H0 as -> ->.
    by destruct h.
  - destruct (t38_non_ecm_buffer_get_bit s) as [b s1]. by destruct H as [-> H].
Qed.

Lemma run_refines acts : forall s a, represents s a -> bit_no s = 0 ->
  fits (image_data_mode s) (min_bits_per_row s) a acts ->
  let '(ls, s') := run s acts in
  let '(xs, a') := q_run (image_data_mode s) (min_bits_per_row s) a acts in
  ls = map line_bits xs /\ represents s' a' /\ bit_no s' = 0.
Proof.
  induction acts as [|[buf| |] acts IH]; intros s a R Hb Hf; cbn [run q_run fits] in *.
  - done.
  - destruct Hf as (Hbuf & Hs & Hf). destruct (inject_fields s buf) as (E1 & E2 & E3).
    pose proof (IH _ _ (represents_inject s a buf R Hbuf Hs)) as H. rewrite E1, E2, E3 in H. by apply H.
  - pose proof (take_line_get s a R Hb) as H. destruct (q_get _ a) as [x a1]. cbn [snd] in Hf.
    destruct (take_line s) as [l s1]. destruct H as (-> & R1 & Hb1 & E1 & E2).
    rewrite <- E1, <- E2 in Hf. specialize (IH s1 a1 R1 Hb1 Hf). rewrite E1, E2 in IH.
    destruct (run s1 acts) as [ls s2]. destruct (q_run _ _ a1 acts) as [xs a2].
    by destruct IH as (-> & IH).
  - pose proof (represents_push s a R) as R1.
    exact (IH (t38_non_ecm_buffer_push s) (q_push a) R1 Hb Hf).
Qed.

(** C31: the buffer is two lists.  Whatever the order in which octets come in, the
    line takes octets (bit by bit, most significant first) and the end is pushed,
    as long as the octets waiting never reach the size of the ring: the line gets
    the octets released, in order; fill octets when none are released and the end
    has not been pushed; then the end of data.  (Beyond that size the code lets
    the new data overwrite the old.) *)
Theorem non_ecm_refines acts : forall s a, represents s a -> bit_no s = 0 ->
  fits (image_data_mode s) (min_bits_per_row s) a acts ->
  let '(ls, s') := run s acts in
  let '(xs, a') := q_run (image_data_mode s) (min_bits_per_row s) a acts in
  ls = map line_bits xs /\ represents s' a' /\ bit_no s' = 0.
Proof. apply run_refines. Qed.

Definition demo_calls : list action :=
  [Take; Inject [0xFF; 0x00; 0x08; 0x55]; Take; Inject [0x00; 0x01; 0x7F]; Take; Take; Take; Take; Take;
   Take; Push; Take; Take; Take].

Lemma non_ecm_refines_witness :
  let '(ls, s') := run (t38_non_ecm_buffer_init true 40) demo_calls in
  let '(xs, a') := q_run true 40 (q_start true) demo_calls in
  ls = map line_bits xs /\ represents s' a' /\ bit_no s' = 0.
Proof.
  apply (non_ecm_refines demo_calls (t38_non_ecm_buffer_init true 40) (q_start true)).
  - apply represents_init.
  - done.
  - by_decide.
Defined.
