(* ===== verification/NonEcmImage.v ===== *)
(** * Fax images through the non-ECM buffer (src/spandsp-0.0.6/src/t38_non_ecm_buffer.c)

    What the buffer promises for image data, on top of its list view in
    [NonEcm]: the T.4 line the modem sends is the one that came in, up to fill.
    A T.4 receiver takes any number of zeros from eleven on, before a one, as the
    same end of line (EOL); [t4_line] is a line with every such run cut to
    eleven. *)
From S2P Require Import Prelude Ring BitOps Async NonEcm.

(** ** T.4 lines up to fill *)

(** One more bit, after [z] zeros (11 stands for 11 or more). *)
Definition zeros_step (z : nat) (b : bool) : nat := if b then 0%nat else Nat.min (S z) 11.

Fixpoint zeros_after (z : nat) (l : list bool) : nat :=
  match l with
  | [] => z
  | b :: l => zeros_after (zeros_step z b) l
  end.

Fixpoint t4_line (z : nat) (l : list bool) : list bool :=
  match l with
  | [] => []
  | false :: l => t4_line (zeros_step z false) l
  | true :: l => repeat false z ++ true :: t4_line 0 l
  end.

(** The line of a sequence of octets. *)
Definition octets_line (l : list Z) : list bool := concat (map (msb_bits 8) l).

#[local] Arguments octets_line : simpl never.

Lemma zeros_after_app z l1 l2 : zeros_after z (l1 ++ l2) = zeros_after (zeros_after z l1) l2.
Proof. revert z. induction l1 as [|b l1 IH]; intros z; [done|]. apply IH. Qed.

Lemma t4_line_app z l1 l2 : t4_line z (l1 ++ l2) = t4_line z l1 ++ t4_line (zeros_after z l1) l2.
Proof.
  revert z. induction l1 as [|[] l1 IH]; intros z; cbn [app t4_line zeros_after]; [done| |apply IH].
  rewrite IH. by rewrite <- app_assoc.
Qed.

Lemma zeros_after_zeros z n : (z <= 11)%nat -> zeros_after z (repeat false n) = Nat.min (z + n) 11.
Proof.
  revert z. induction n as [|n IH]; intros z Hz; cbn [repeat zeros_after]; [lia|].
  rewrite IH by (unfold zeros_step; lia). unfold zeros_step. lia.
Qed.

Lemma zeros_after_le z l : (z <= 11)%nat -> (zeros_after z l <= 11)%nat.
Proof.
  revert z. induction l as [|b l IH]; intros z Hz; [done|]. cbn [zeros_after]. apply IH.
  unfold zeros_step. destruct b; lia.
Qed.

(** After a one, it does not matter what came before. *)
Lemma zeros_after_one z z' k l :
  zeros_after z (repeat false k ++ true :: l) = zeros_after z' (repeat false k ++ true :: l).
Proof. rewrite !zeros_after_app. done. Qed.

Lemma t4_line_zeros z n : t4_line z (repeat false n) = [].
Proof. revert z. induction n as [|n IH]; intros z; [done|]. apply IH. Qed.

(** A place where fill makes no difference: an EOL ends right after it. *)
Definition opens_eol (z : nat) (l : list bool) : Prop :=
  exists k r, l = repeat false k ++ true :: r /\ (11 <= z + k)%nat.

#[local] Arguments opens_eol : simpl never.

Lemma opens_eol_app z l l' : opens_eol z l -> opens_eol z (l ++ l').
Proof. intros (k & r & -> & H). exists k, (r ++ l'). by rewrite <- app_assoc. Qed.

Lemma opens_eol_le z z' l : (z <= z')%nat -> opens_eol z l -> opens_eol z' l.
Proof. intros Hz (k & r & -> & H). exists k, r. split; [done|lia]. Qed.

Lemma opens_eol_fill z n l : (z <= 11)%nat -> opens_eol z l ->
  t4_line z (repeat false n ++ l) = t4_line z l.
Proof.
  intros Hz (k & r & -> & H). rewrite app_assoc, <- repeat_app, !t4_line_app, !t4_line_zeros.
  rewrite !zeros_after_zeros by done. cbn [t4_line app]. do 2 f_equal. lia.
Qed.

Lemma opens_eol_after z n l : opens_eol z l -> zeros_after z (repeat false n ++ l) = zeros_after z l.
Proof.
  intros (k & r & -> & _). rewrite zeros_after_app. apply zeros_after_one.
Qed.

(** Ones need no fill and open nothing. *)
Lemma t4_line_ones n l : t4_line 0 (repeat true n ++ l) = repeat true n ++ t4_line 0 l.
Proof. induction n as [|n IH]; [done|]. cbn [repeat app t4_line]. by rewrite IH. Qed.

Lemma octets_line_app l1 l2 : octets_line (l1 ++ l2) = octets_line l1 ++ octets_line l2.
Proof. unfold octets_line. by rewrite map_app, concat_app. Qed.

Lemma octets_line_zeros n : octets_line (repeat 0 n) = repeat false (8 * n).
Proof.
  induction n as [|n IH]; [done|]. replace (8 * S n)%nat with (8 + 8 * n)%nat by lia.
  rewrite repeat_app, <- IH. done.
Qed.

Lemma octets_line_ones n : octets_line (repeat 0xFF n) = repeat true (8 * n).
Proof.
  induction n as [|n IH]; [done|]. replace (8 * S n)%nat with (8 + 8 * n)%nat by lia.
  rewrite repeat_app, <- IH. done.
Qed.

Lemma octets_line_one b : octets_line [b] = msb_bits 8 b.
Proof. unfold octets_line. simpl. by rewrite ?app_nil_r. Qed.

(** ** The EOL detector *)

(** The zeros at the end of the stream so far, as the code measures them. *)
Definition stream_zeros (stream : Z) : nat := Z.to_nat (bottom_bit (stream .| 0x800)).

Lemma lor_800_pos s : 0 <= s < 2 ^ 32 -> 0 < s .| 0x800 < 2 ^ 32.
Proof.
  intros Hs. pose proof (lor_range 32 s 0x800 ltac:(lia) Hs ltac:(lia)).
  assert (s .| 0x800 <> 0); [|lia]. intros E. apply Z.lor_eq_0_iff in E. lia.
Qed.

(** It is the place of the lowest bit. *)
Lemma bottom_bit_unique x n : 0 < x < 2 ^ 32 -> 0 <= n -> Z.testbit x n = true ->
  (forall i, 0 <= i < n -> Z.testbit x i = false) -> bottom_bit x = n.
Proof.
  intros Hx Hn Ht Hl. destruct (bottom_bit_spec x Hx) as (Hr & Hb & Hlow).
  destruct (Z.lt_trichotomy (bottom_bit x) n) as [H|[H|H]]; [|done|].
  - rewrite Hl in Hb by lia. done.
  - rewrite Hlow in Ht by lia. done.
Qed.

Lemma stream_zeros_range s : 0 <= s < 2 ^ 32 -> (stream_zeros s <= 11)%nat /\
  bottom_bit (s .| 0x800) = Z.of_nat (stream_zeros s).
Proof.
  intros Hs. destruct (bottom_bit_spec _ (lor_800_pos s Hs)) as (Hr & Hb & Hlow).
  unfold stream_zeros. destruct (Z_le_gt_dec (bottom_bit (s .| 0x800)) 11); [lia|].
  specialize (Hlow 11 ltac:(lia)). rewrite Z.lor_spec in Hlow.
  change (Z.testbit 0x800 11) with true in Hlow. by rewrite orb_true_r in Hlow.
Qed.

Lemma testbit_800 i : 0 <= i -> Z.testbit 0x800 i = (i =? 11).
Proof. intros. change 0x800 with (2 ^ 11). rewrite Z.pow2_bits_eqb by done. apply Z.eqb_sym. Qed.

Lemma shift_in_range s b : is_byte b -> 0 <= shift_in s b < 2 ^ 32.
Proof.
  intros Hb. unfold shift_in. unfold is_byte in Hb. apply lor_range; [done| |lia].
  by apply wrap_range.
Qed.

Lemma testbit_shift_in s b i : is_byte b -> 0 <= i < 32 ->
  Z.testbit (shift_in s b) i = if i <? 8 then Z.testbit b i else Z.testbit s (i - 8).
Proof.
  intros Hb Hi. unfold shift_in. bit_specs. replace (i <? 32) with true by lia. cbn [andb].
  destruct (Z.ltb_spec i 8).
  - by replace (8 <=? i) with false by lia.
  - replace (8 <=? i) with true by lia. by rewrite (testbit_high 8 b), orb_false_r by (done || lia).
Qed.

(** By evaluation: the zeros at the end of an octet, and before its first one. *)
Definition octet_facts (b : Z) : bool :=
  let bits := msb_bits 8 b in
  (b =? 0) ||
  (let k := Z.to_nat (7 - top_bit b) in
   (0 <=? top_bit b) && (top_bit b <=? 7) &&
   bool_decide (bits = repeat false k ++ true :: drop (S k) bits) &&
   (let n := zeros_after 0 bits in
    (n <=? 7)%nat && Z.testbit b (Z.of_nat n) &&
    forallb (fun i => negb (Z.testbit b (Z.of_nat i))) (seq 0 n))).

Lemma octet_facts_spec b : is_byte b -> octet_facts b = true.
Proof. intros Hb. by_evaluation 256%nat octet_facts b. exact Hb. Qed.

(** The stream's zeros are those of the line. *)
Lemma stream_zeros_shift_in s b : 0 <= s < 2 ^ 32 -> is_byte b ->
  stream_zeros (shift_in s b) = zeros_after (stream_zeros s) (msb_bits 8 b).
Proof.
  intros Hs Hb. pose proof (shift_in_range s b Hb) as Hr.
  pose proof (stream_zeros_range s Hs) as [Hz Ez].
  destruct (decide (b = 0)) as [->|Hn].
  - change (msb_bits 8 0) with (repeat false 8). rewrite zeros_after_zeros by done.
    enough (bottom_bit (shift_in s 0 .| 0x800) = Z.min (Z.of_nat (stream_zeros s) + 8) 11) as E
      by (unfold stream_zeros at 1; rewrite E; lia).
    destruct (bottom_bit_spec _ (lor_800_pos s Hs)) as (_ & Hb1 & Hlow). rewrite Ez in Hb1, Hlow.
    apply bottom_bit_unique; [by apply lor_800_pos|lia| |].
    + rewrite Z.lor_spec, testbit_800, testbit_shift_in by (done || lia).
      destruct (Z.leb_spec (Z.of_nat (stream_zeros s) + 8) 11).
      * rewrite Z.min_l by lia. replace (_ + 8 <? 8) with false by lia.
        rewrite Z.lor_spec, testbit_800 in Hb1 by lia. rewrite Z.add_simpl_r.
        replace (Z.of_nat (stream_zeros s) =? 11) with false in Hb1 by lia.
        rewrite orb_false_r in Hb1. by rewrite Hb1.
      * rewrite Z.min_r by lia. by rewrite orb_true_r.
    + intros i Hi. rewrite Z.lor_spec, testbit_800, testbit_shift_in by (done || lia).
      replace (i =? 11) with false by lia. rewrite orb_false_r.
      destruct (Z.ltb_spec i 8); [apply Z.bits_0|].
      specialize (Hlow (i - 8) ltac:(lia)). rewrite Z.lor_spec in Hlow.
      by apply orb_false_elim in Hlow as [-> _].
  - pose proof (octet_facts_spec b Hb) as H. unfold octet_facts in H.
    replace (b =? 0) with false in H by lia. cbn [orb] in H.
    rewrite !andb_true_iff in H. destruct H as [[[_ _] Hk%bool_decide_eq_true] [[Hn7 Hbit] Hlow]].
    rewrite forallb_forall in Hlow. set (n := zeros_after 0 (msb_bits 8 b)) in *.
    assert (zeros_after (stream_zeros s) (msb_bits 8 b) = n) as ->.
    { unfold n. rewrite Hk. apply zeros_after_one. }
    enough (bottom_bit (shift_in s b .| 0x800) = Z.of_nat n) as E
      by (unfold stream_zeros; rewrite E; lia).
    apply Nat.leb_le in Hn7. apply bottom_bit_unique; [by apply lor_800_pos|lia| |].
    + rewrite Z.lor_spec, testbit_shift_in by (done || lia). replace (_ <? 8) with true by lia.
      by rewrite Hbit.
    + intros i Hi. rewrite Z.lor_spec, testbit_800, testbit_shift_in by (done || lia).
      replace (i <? 8) with true by lia. replace (i =? 11) with false by lia.
      specialize (Hlow (Z.to_nat i)). rewrite in_seq, Z2Nat.id in Hlow by lia.
      apply negb_true_iff in Hlow; [by rewrite Hlow|lia].
Qed.

(** The test is exact: eleven zeros or more, counted across the octets, and the
    first one after them is in this octet. *)
Lemma eol_in_spec s b : 0 <= s < 2 ^ 32 -> is_byte b ->
  eol_in s b = true <-> opens_eol (stream_zeros s) (msb_bits 8 b).
Proof.
  intros Hs Hb. pose proof (stream_zeros_range s Hs) as [Hz Ez]. unfold eol_in. rewrite Ez.
  destruct (decide (b = 0)) as [->|Hn].
  { split; [done|]. intros (k & r & E & _). change (msb_bits 8 0) with (repeat false 8) in E.
    assert (In true (repeat false 8)) as Hin by (rewrite E; apply in_or_app; right; by left).
    by apply repeat_spec in Hin. }
  replace (b =? 0) with false by lia. cbn [negb andb].
  pose proof (octet_facts_spec b Hb) as H. unfold octet_facts in H.
  replace (b =? 0) with false in H by lia. cbn [orb] in H. rewrite !andb_true_iff in H.
  destruct H as [[[H0 H7] Hk%bool_decide_eq_true] _].
  assert (forall k k' r r', repeat false k ++ true :: r = repeat false k' ++ true :: r' -> k = k') as Hinj.
  { induction k as [|k IH]; intros [|k'] r r' E; try done. injection E as E. f_equal. by eapply IH. }
  split.
  - intros E. exists (Z.to_nat (7 - top_bit b)), (drop (S (Z.to_nat (7 - top_bit b))) (msb_bits 8 b)).
    split; [exact Hk|lia].
  - intros (k & r & E & Hzk). rewrite Hk in E. apply Hinj in E. lia.
Qed.

(** ** What goes in and what comes out *)

(** The image in a sequence of octets: from its first EOL on, which gets two
    octets of zeros in front. *)
Fixpoint image_of (stream : Z) (l : list Z) : list Z :=
  match l with
  | [] => []
  | b :: l => if eol_in stream b then 0 :: 0 :: b :: l else image_of (shift_in stream b) l
  end.

Fixpoint injected (acts : list action) : list Z :=
  match acts with
  | [] => []
  | Inject buf :: acts => buf ++ injected acts
  | _ :: acts => injected acts
  end.

(** Still waiting for the first EOL: nothing but ones sent. *)
Record hunting (a : line_queue) (sent inp : list Z) : Prop := {
  hunt_phase : q_phase a = IMAGE_WAITING_FOR_FIRST_EOL;
  hunt_fill : q_fill a = 0xFF;
  hunt_empty : q_released a = [] /\ q_held a = [];
  hunt_open : q_finished a = false;
  hunt_stream : 0 <= q_stream a < 2 ^ 32;
  hunt_sent : sent = repeat 0xFF (length sent);
  hunt_image : forall rest, image_of 0xFFFF (inp ++ rest) = image_of (q_stream a) rest;
}.

(** The line sent and still to send is that of some ones and the image so far;
    fill may go where the held octets begin. *)
Record in_image (a : line_queue) (sent inp : list Z) : Prop := {
  im_phase : q_phase a = IMAGE_IN_PROGRESS;
  im_fill : q_fill a = 0;
  im_open : q_finished a = false;
  im_stream : 0 <= q_stream a < 2 ^ 32;
  im_image : exists img j, (forall rest, image_of 0xFFFF (inp ++ rest) = img ++ rest) /\
    t4_line 0 (octets_line (sent ++ q_released a ++ q_held a)) =
    repeat true (8 * j) ++ t4_line 0 (octets_line img) /\
    zeros_after 0 (octets_line img) = stream_zeros (q_stream a);
  im_zeros : zeros_after 0 (octets_line (sent ++ q_released a ++ q_held a)) = stream_zeros (q_stream a);
  im_gap : opens_eol (zeros_after 0 (octets_line (sent ++ q_released a))) (octets_line (q_held a));
}.

Lemma octets_line_cons b l : octets_line (b :: l) = msb_bits 8 b ++ octets_line l.
Proof. done. Qed.

(** One more octet of the image, after [n] octets of fill that are allowed only
    where an EOL ends in it. *)
Lemma line_extend pre img j z n b : (z <= 11)%nat ->
  t4_line 0 (octets_line pre) = repeat true (8 * j) ++ t4_line 0 (octets_line img) ->
  zeros_after 0 (octets_line pre) = z -> zeros_after 0 (octets_line img) = z ->
  (n = 0%nat \/ opens_eol z (msb_bits 8 b)) ->
  t4_line 0 (octets_line (pre ++ repeat 0 n ++ [b])) =
    repeat true (8 * j) ++ t4_line 0 (octets_line (img ++ [b])) /\
  zeros_after 0 (octets_line (pre ++ repeat 0 n ++ [b])) = zeros_after z (msb_bits 8 b).
Proof.
  intros Hz Hl Hp Hi Hn. rewrite !octets_line_app, octets_line_zeros, octets_line_one.
  rewrite t4_line_app, (t4_line_app _ (octets_line img)), zeros_after_app, Hl, Hp, Hi, <- app_assoc.
  destruct Hn as [->|Ho].
  - done.
  - by rewrite opens_eol_fill, opens_eol_after by done.
Qed.

Lemma in_image_put a sent inp b : in_image a sent inp -> is_byte b ->
  in_image (q_put a b <| q_stream := shift_in (q_stream a) b |> <| q_row_bits := q_row_bits a + 8 |>)
    sent (inp ++ [b]).
Proof.
  intros [H1 H2 H3 H4 (img & j & Hi & Hl & Hzi) Hz Hg] Hb.
  pose proof (stream_zeros_range _ H4) as [Hz11 _].
  destruct (line_extend _ img j _ 0 b Hz11 Hl Hz Hzi ltac:(by left)) as [El Ez].
  cbn [repeat app] in El, Ez. rewrite <- !app_assoc in El, Ez.
  split; try done.
  - by apply shift_in_range.
  - exists (img ++ [b]), j. split; [|split].
    + intros rest. rewrite <- !app_assoc. apply Hi.
    + exact El.
    + rewrite octets_line_app, zeros_after_app, Hzi, octets_line_one. by rewrite <- stream_zeros_shift_in.
  - cbn. rewrite stream_zeros_shift_in by done. exact Ez.
  - cbn. rewrite (octets_line_app (q_held a)). by apply opens_eol_app.
Qed.

(** The end of a row: fill, then everything is released. *)
Lemma in_image_eol a sent inp b n : in_image a sent inp -> is_byte b ->
  eol_in (q_stream a) b = true ->
  in_image (q_put (q_release (a <| q_held := q_held a ++ repeat 0 n |>)) b
              <| q_stream := shift_in (q_stream a) b |>) sent (inp ++ [b]).
Proof.
  intros [H1 H2 H3 H4 (img & j & Hi & Hl & Hzi) Hz Hg] Hb He.
  pose proof (stream_zeros_range _ H4) as [Hz11 _]. apply eol_in_spec in He; try done.
  destruct (line_extend _ img j _ n b Hz11 Hl Hz Hzi ltac:(by right)) as [El Ez].
  rewrite <- !app_assoc in El, Ez.
  split; try done.
  - by apply shift_in_range.
  - exists (img ++ [b]), j. split; [|split].
    + intros rest. rewrite <- !app_assoc. apply Hi.
    + cbn. rewrite <- !app_assoc. exact El.
    + rewrite octets_line_app, zeros_after_app, Hzi, octets_line_one. by rewrite <- stream_zeros_shift_in.
  - cbn. rewrite <- !app_assoc. rewrite stream_zeros_shift_in by done. exact Ez.
  - cbn. rewrite octets_line_one. eapply opens_eol_le; [|exact He].
    assert (sent ++ q_released a ++ q_held a ++ repeat 0 n =
            (sent ++ q_released a ++ q_held a) ++ repeat 0 n) as -> by (by rewrite <- !app_assoc).
    rewrite octets_line_app, zeros_after_app, Hz, octets_line_zeros, zeros_after_zeros by done. lia.
Qed.

Lemma in_image_row_bits a sent inp r : in_image a sent inp -> in_image (a <| q_row_bits := r |>) sent inp.
Proof. intros []. by split. Qed.

Lemma in_image_step min a sent inp b : in_image a sent inp -> is_byte b ->
  let a1 := if eol_in (q_stream a) b then q_eol min a b else a in
  in_image (q_put a1 b <| q_stream := shift_in (q_stream a1) b |> <| q_row_bits := q_row_bits a1 + 8 |>)
    sent (inp ++ [b]).
Proof.
  intros H Hb. cbv zeta. destruct (eol_in (q_stream a) b) eqn:E; [|by apply in_image_put].
  unfold q_eol. destruct (_ || _).
  - apply in_image_row_bits. exact (in_image_row_bits _ _ _ _ (in_image_eol a sent inp b _ H Hb E)).
  - exact (in_image_put _ _ _ b (in_image_row_bits _ _ _ _ H) Hb).
Qed.

Lemma in_image_buf min : forall buf a sent inp, in_image a sent inp -> bytes buf ->
  in_image (q_image min a buf) sent (inp ++ buf).
Proof.
  induction buf as [|b buf IH]; intros a sent inp H Hb; [by rewrite app_nil_r|].
  apply Forall_cons_1 in Hb as [Hb Hbuf]. cbn [q_image].
  replace (inp ++ b :: buf) with ((inp ++ [b]) ++ buf) by (by rewrite <- app_assoc).
  apply IH; [|done]. exact (in_image_step min a sent inp b H Hb).
Qed.

(** The first EOL: two octets of zeros make sure it is one. *)
Lemma first_eol a sent inp b : hunting a sent inp -> is_byte b -> eol_in (q_stream a) b = true ->
  in_image (q_put (q_put (q_put (q_release (a <| q_phase := IMAGE_IN_PROGRESS |> <| q_fill := 0 |>
      <| q_row_bits := top_bit b - 8 |>)) 0) 0) b <| q_stream := shift_in (q_stream a) b |>)
    sent (inp ++ [b]).
Proof.
  intros [H1 H2 [Hr Hh] H4 H5 H6 H7] Hb He.
  pose proof (proj1 (eol_in_spec _ _ H5 Hb) He) as (k & r & Ek & _).
  assert (zeros_after 0 (octets_line [0; 0; b]) = stream_zeros (shift_in (q_stream a) b)) as Ez.
  { rewrite stream_zeros_shift_in by done. rewrite !octets_line_cons, zeros_after_app, zeros_after_app.
    change (octets_line []) with (@nil bool). rewrite app_nil_r, Ek. apply zeros_after_one. }
  assert (octets_line sent = repeat true (8 * length sent)) as Es.
  { rewrite H6 at 1. apply octets_line_ones. }
  split; try done.
  - by apply shift_in_range.
  - exists [0; 0; b], (length sent). split; [|split; [|exact Ez]].
    + intros rest. rewrite <- app_assoc. rewrite H7. cbn [app image_of]. by rewrite He.
    + cbn. rewrite Hr, Hh. cbn [app]. rewrite octets_line_app, Es. by rewrite t4_line_ones.
  - cbn. rewrite Hr, Hh. cbn [app]. rewrite octets_line_app, zeros_after_app, Es.
    replace (zeros_after 0 (repeat true (8 * length sent))) with 0%nat; [exact Ez|].
    clear. induction (8 * length sent)%nat as [|n IH]; [done|exact IH].
  - cbn. rewrite Hr, Hh. cbn [app]. rewrite !octets_line_cons, Ek.
    exists (16 + k)%nat, r. split; [|lia]. change (octets_line []) with (@nil bool).
    rewrite app_nil_r, repeat_app, <- app_assoc. done.
Qed.

Lemma hunt_buf min : forall buf a sent inp, hunting a sent inp -> bytes buf ->
  let '(a', rest) := q_hunt a buf in
  let a'' := q_image min a' rest in
  hunting a'' sent (inp ++ buf) \/ in_image a'' sent (inp ++ buf).
Proof.
  induction buf as [|b buf IH]; intros a sent inp H Hb; cbn [q_hunt].
  { left. by rewrite app_nil_r. }
  apply Forall_cons_1 in Hb as [Hb Hbuf].
  replace (inp ++ b :: buf) with ((inp ++ [b]) ++ buf) by (by rewrite <- app_assoc).
  destruct (eol_in (q_stream a) b) eqn:E.
  - right. apply in_image_buf; [|done]. by apply first_eol.
  - apply IH; [|done]. destruct H as [H1 H2 H3 H4 H5 H6 H7]. split; try done.
    + by apply shift_in_range.
    + intros rest. rewrite <- app_assoc, H7. cbn [app image_of]. by rewrite E.
Qed.

(** Either of the two. *)
Definition going (a : line_queue) (sent inp : list Z) : Prop := hunting a sent inp \/ in_image a sent inp.

Lemma going_inject min a sent inp buf : going a sent inp -> bytes buf ->
  going (q_inject min a buf) sent (inp ++ buf).
Proof.
  intros [H|H] Hb; unfold q_inject.
  - rewrite (hunt_phase _ _ _ H). cbn [Z.eqb Pos.eqb TCF_AT_INITIAL_ALL_ONES TCF_AT_ALL_ZEROS
      IMAGE_WAITING_FOR_FIRST_EOL].
    pose proof (hunt_buf min buf a sent inp H Hb) as H1. by destruct (q_hunt a buf).
  - rewrite (im_phase _ _ _ H). right. by apply in_image_buf.
Qed.

(** What is sent next is fill, where it makes no difference, or the next octet. *)
Lemma going_take a sent inp : going a sent inp ->
  exists b a', q_get true a = (Some b, a') /\ going a' (sent ++ [b]) inp.
Proof.
  intros [H|H].
  - exists 0xFF, a. destruct H as [H1 H2 [Hr Hh] H4 H5 H6 H7]. split.
    + unfold q_get. by rewrite Hr, H4, H2.
    + left. split; try done. rewrite length_app, repeat_app, <- H6. done.
  - destruct H as [H1 H2 H3 H4 (img & j & Hi & Hl & Hzi) Hz Hg]. unfold q_get.
    destruct (q_released a) as [|b l] eqn:Er.
    + exists 0, a. rewrite H3, H2. split; [done|]. right.
      rewrite app_nil_r in Hg. cbn [app] in Hl, Hz.
      set (z := zeros_after 0 (octets_line sent)) in *.
      assert (z <= 11)%nat as Hz11 by (apply zeros_after_le; lia).
      split; try done; rewrite ?Er.
      * exists img, j. split; [done|]. split; [|done].
        rewrite <- Hl. cbn [app]. rewrite <- app_assoc.
        rewrite !octets_line_app, !(t4_line_app _ (octets_line sent)). f_equal.
        by apply (opens_eol_fill z 8).
      * rewrite <- Hz. cbn [app]. rewrite <- app_assoc.
        rewrite !octets_line_app, !(zeros_after_app _ (octets_line sent)).
        by apply (opens_eol_after z 8).
      * rewrite app_nil_r, octets_line_app, zeros_after_app. eapply opens_eol_le; [|exact Hg].
        fold z. change (octets_line [0]) with (repeat false 8). rewrite zeros_after_zeros by done. lia.
    + exists b, (a <| q_released := l |>). split; [done|]. right. split; try done.
      * exists img, j. split; [done|]. split; [|done]. cbn. by rewrite <- app_assoc.
      * cbn. by rewrite <- app_assoc.
      * cbn. by rewrite <- app_assoc.
Qed.

(** Data in and octets out, in any order. *)
Lemma going_run min : forall acts a sent inp, going a sent inp -> Forall (fun x => x <> Push) acts ->
  fits true min a acts ->
  exists octs a', q_run true min a acts = (map Some octs, a') /\
    going a' (sent ++ octs) (inp ++ injected acts).
Proof.
  induction acts as [|[buf| |] acts IH]; intros a sent inp H Hp Hf; cbn [q_run injected fits] in *.
  - exists [], a. by rewrite !app_nil_r.
  - apply Forall_cons_1 in Hp as [_ Hp]. destruct Hf as (Hb & _ & Hf).
    destruct (IH _ _ _ (going_inject min a sent inp buf H Hb) Hp Hf) as (octs & a' & E & G).
    exists octs, a'. rewrite <- app_assoc in G. by split.
  - apply Forall_cons_1 in Hp as [_ Hp]. destruct (going_take a sent inp H) as (b & a1 & E & G).
    rewrite E in Hf |- *. destruct (IH _ _ _ G Hp Hf) as (octs & a' & E' & G').
    exists (b :: octs), a'. rewrite E'. split; [done|]. by rewrite <- app_assoc in G'.
  - by apply Forall_cons_1 in Hp as [? _].
Qed.

Lemma q_run_app mode min acts1 acts2 : forall a, q_run mode min a (acts1 ++ acts2) =
  let '(xs1, a) := q_run mode min a acts1 in
  let '(xs2, a) := q_run mode min a acts2 in (xs1 ++ xs2, a).
Proof.
  induction acts1 as [|[buf| |] acts1 IH]; intros a; cbn [app q_run].
  - by destruct (q_run mode min a acts2).
  - apply IH.
  - destruct (q_get mode a) as [x a1]. rewrite IH. destruct (q_run mode min a1 acts1) as [xs1 a2].
    by destruct (q_run mode min a2 acts2).
  - apply IH.
Qed.

Lemma fits_app mode min acts1 acts2 : forall a, fits mode min a acts1 ->
  (forall a, fits mode min a acts2) -> fits mode min a (acts1 ++ acts2).
Proof.
  induction acts1 as [|[buf| |] acts1 IH]; intros a H1 H2; cbn [app fits] in *; auto.
  destruct H1 as (Hb & Hs & H1). auto.
Qed.

Lemma fits_takes mode min n : forall a, fits mode min a (repeat Take n).
Proof. induction n as [|n IH]; intros a; cbn [repeat fits]; auto. Qed.

(** After the push the queue drains, then reports the end. *)
Lemma q_drain mode min : forall l a, q_released a = l -> q_finished a = true ->
  exists a', q_run mode min a (repeat Take (length l + 1)) = (map Some l ++ [None], a').
Proof.
  induction l as [|b l IH]; intros a Hl Hf; cbn [length Nat.add repeat q_run]; unfold q_get; rewrite Hl.
  - rewrite Hf. eexists. done.
  - set (a1 := a <| q_released := l |>).
    assert (q_released a1 = l) as H1 by done. assert (q_finished a1 = true) as H2 by done.
    destruct (IH a1 H1 H2) as [a' E]. rewrite E. by eexists.
Qed.

Lemma hunting_line a sent inp : hunting a sent inp ->
  t4_line 0 (octets_line sent) = repeat true (8 * length sent) ++ t4_line 0 (octets_line (image_of 0xFFFF inp)).
Proof.
  intros H. pose proof (hunt_image _ _ _ H []) as E. rewrite app_nil_r in E. rewrite E. cbn [image_of].
  rewrite (hunt_sent _ _ _ H) at 1. rewrite octets_line_ones.
  pose proof (t4_line_ones (8 * length sent) []) as P. by rewrite app_nil_r in P.
Qed.

(** C17: image data through the buffer: in whatever order octets come in and the
    modem takes them (with room left in the ring), once the end is pushed the
    modem gets everything that is left and then the end of data, and the line it
    sent is the image that came in, up to fill: some ones, and then the line from
    the first EOL on, with the same bits in the same order except for the length
    of the runs of eleven zeros or more before a one.  No fill ever lands inside
    a row, whether added to reach the minimum row length or to keep the modem
    fed. *)
Theorem non_ecm_image min acts : Forall (fun x => x <> Push) acts ->
  fits true min (q_start true) acts ->
  exists n octs s',
    run (t38_non_ecm_buffer_init true min) (acts ++ Push :: repeat Take n) =
      (map (fun b => line_bits (Some b)) octs ++ [[SIG_STATUS_END_OF_DATA]], s') /\
    exists j, t4_line 0 (octets_line octs) =
      repeat true (8 * j) ++ t4_line 0 (octets_line (image_of 0xFFFF (injected acts))).
Proof.
  intros Hp Hf.
  assert (going (q_start true) [] []) as G0 by (left; split; try done; by split).
  destruct (going_run min acts _ _ _ G0 Hp Hf) as (sent & a1 & E1 & G1). cbn [app] in G1.
  set (rest := q_released a1 ++ q_held a1).
  assert (q_released (q_push a1) = rest) as P1 by done.
  assert (q_finished (q_push a1) = true) as P2 by done.
  destruct (q_drain true min rest (q_push a1) P1 P2) as [a2 E2].
  exists (length rest + 1)%nat, (sent ++ rest).
  pose proof (run_refines (acts ++ Push :: repeat Take (length rest + 1))
    (t38_non_ecm_buffer_init true min) (q_start true) (represents_init true min) eq_refl) as R.
  change (image_data_mode (t38_non_ecm_buffer_init true min)) with true in R.
  change (min_bits_per_row (t38_non_ecm_buffer_init true min)) with min in R.
  specialize (R ltac:(apply fits_app; [done|intros; apply fits_takes])).
  rewrite q_run_app, E1 in R. cbn [q_run] in R. rewrite E2 in R.
  destruct (run _ _) as [ls s']. destruct R as (-> & _ & _). exists s'. split.
  - by rewrite app_assoc, <- map_app, map_app, map_map.
  - destruct G1 as [H|H].
    + exists (length sent). unfold rest. destruct (hunt_empty _ _ _ H) as [-> ->].
      rewrite app_nil_r. by eapply hunting_line.
    + destruct H as [_ _ _ _ (img & j & Hi & Hl & _) _ _]. exists j. unfold rest. rewrite Hl.
      specialize (Hi []). rewrite !app_nil_r in Hi. by rewrite Hi.
Qed.

Definition demo_image : list action :=
  [Take; Inject [0xFF; 0x00; 0x08; 0x55]; Take; Inject [0x00; 0x01; 0x7F]; Take; Take; Take; Take; Take; Take].

Lemma non_ecm_image_witness : exists n octs s',
  run (t38_non_ecm_buffer_init true 40) (demo_image ++ Push :: repeat Take n) =
    (map (fun b => line_bits (Some b)) octs ++ [[SIG_STATUS_END_OF_DATA]], s') /\
  exists j, t4_line 0 (octets_line octs) =
    repeat true (8 * j) ++ t4_line 0 (octets_line [0; 0; 0x08; 0x55; 0x00; 0x01; 0x7F]).
Proof. apply (non_ecm_image 40 demo_image); [repeat constructor; discriminate|by_decide]. Defined.

(** ** Rows *)

(** C39: the loop that extends a short row ends, with the fuel of the model and
    with any more of it: the row then has at least the minimum number of bits,
    fewer than eight beyond it if it was extended at all, each turn adding one
    octet of zeros, counted as fill. *)
Theorem extend_row_ends s fuel : (row_fuel s <= fuel)%nat ->
  let s' := extend_row fuel s in
  let n := Z.of_nat (row_fill (min_bits_per_row s) (row_bits s)) in
  s' = extend_row (row_fuel s) s /\
  row_bits s' = row_bits s + 8 * n /\ min_bits_per_row s <= row_bits s' /\
  (n = 0 \/ row_bits s' < min_bits_per_row s + 8) /\
  min_row_bits_fill_octets s' = min_row_bits_fill_octets s + n.
Proof.
  assert (forall fuel s, (row_fill (min_bits_per_row s) (row_bits s) <= fuel)%nat ->
    extend_row fuel s = extend_row (row_fill (min_bits_per_row s) (row_bits s)) s /\
    row_bits (extend_row fuel s) = row_bits s + 8 * Z.of_nat (row_fill (min_bits_per_row s) (row_bits s)) /\
    min_row_bits_fill_octets (extend_row fuel s) =
      min_row_bits_fill_octets s + Z.of_nat (row_fill (min_bits_per_row s) (row_bits s))) as H.
  { clear s fuel. induction fuel as [|fuel IH]; intros s Hf.
    - assert (row_fill (min_bits_per_row s) (row_bits s) = 0)%nat as -> by lia. cbn [extend_row]. split; [done|lia].
    - cbn [extend_row]. destruct (Z.ltb_spec (row_bits s) (min_bits_per_row s)) as [Hr|Hr].
      + rewrite (row_fill_step _ _ Hr) in *. cbn [extend_row].
        rewrite (proj2 (Z.ltb_lt _ _) Hr).
        match goal with |- context [extend_row fuel ?x] => destruct (IH x) as (E1 & E2 & E3) end.
        { change (row_fill (min_bits_per_row s) (row_bits s + 8) <= fuel)%nat. lia. }
        rewrite E2, E3. split; [exact E1|]. cbn. lia.
      + rewrite (row_fill_done _ _ Hr). cbn [extend_row]. split; [done|lia]. }
  intros Hf s' n. pose proof (row_fuel_enough s) as Hr.
  destruct (H fuel s ltac:(lia)) as (E1 & E2 & E3).
  destruct (H (row_fuel s) s Hr) as (E1' & _ & _).
  split; [by unfold s'; rewrite E1, E1'|]. fold s' n in E2, E3. rewrite E2, E3.
  assert (min_bits_per_row s <= row_bits s + 8 * n /\ (n = 0 \/ row_bits s + 8 * n < min_bits_per_row s + 8)) as [Ha Hb].
  { unfold n, row_fill. set (x := min_bits_per_row s - row_bits s).
    pose proof (Z.div_mod (x + 7) 8 ltac:(lia)). pose proof (Z.mod_pos_bound (x + 7) 8 ltac:(lia)). lia. }
  done.
Qed.

Lemma extend_row_ends_witness :
  let s := t38_non_ecm_buffer_init true 40 <| row_bits := 20 |> in
  row_bits (extend_row 4 s) = 44 /\ min_row_bits_fill_octets (extend_row 4 s) = 3.
Proof.
  intros s. destruct (extend_row_ends s 4) as (_ & E2 & _ & _ & E5); [apply Nat.leb_le; by vm_compute|].
  rewrite E2, E5. by vm_compute.
Defined.

(** The count of bits of the first row starts eight short: after the octet that
    ends the first EOL it is -1 where the same octet later gives 7. *)
Example first_row_count :
  let s := t38_non_ecm_buffer_inject (t38_non_ecm_buffer_init true 0) [0; 0; 0x80] in
  let s' := t38_non_ecm_buffer_inject s [0; 0; 0x80] in
  row_bits s = -1 /\ row_bits s' = 7 /\ bit_stream s .& 0xFF = bit_stream s' .& 0xFF.
Proof. by vm_compute. Qed.
