(* ===== verification/DataStream.v ===== *)
(** * Data streams (src/t38modem/pmutils.h, src/t38modem/pmutils.cxx)

    The byte pipes between the modem's engines: a [DataStream] is a queue of
    chunks of 256 octets, with a pointer to the chunk being read and one to the
    chunk being written, which may be the same chunk.  The chunks live in a heap,
    so that the sharing, and the freeing of chunks, are the code's. *)
From stdpp Require Import gmap.
From S2P Require Import Prelude.

(** ** Definitions *)

Definition CHUNK_SIZE : Z := 256.

(** The array, and the places where reading and writing go on. *)
Record ChunkStream := {
  chunk_data : list Z;
  first : Z;
  last : Z;
}.

#[export] Instance eta_chunk : Eta ChunkStream := fun c =>
  Build_ChunkStream (chunk_data c) (first c) (last c).

(** [mem] is what the array holds when the chunk is allocated. *)
Definition new_chunk (mem : list Z) : ChunkStream := {| chunk_data := mem; first := 0; last := 0 |}.

(** The octets taken, [None] for the C++'s [-1] (the chunk is full). *)
Definition chunk_write (c : ChunkStream) (buf : list Z) : option Z * ChunkStream :=
  let len := CHUNK_SIZE - last c in
  if len =? 0 then (None, c)
  else
    let len := if zlen buf <? len then zlen buf else len in
    (Some len, c <| chunk_data := memcpy (chunk_data c) (last c) (take (Z.to_nat len) buf) |>
                 <| last := last c + len |>).

(** The octets read, [None] for [-1] (the chunk is read to its end). *)
Definition chunk_read (c : ChunkStream) (count : Z) : option (list Z) * ChunkStream :=
  if CHUNK_SIZE =? first c then (None, c)
  else
    let len := last c - first c in
    let len := if count <? len then count else len in
    (Some (slice (chunk_data c) (first c) len), c <| first := first c + len |>).

Abbreviation chunk_id := positive.

(** [heap] holds the chunks allocated and not yet deleted; [next_id] is what
    the next [new] returns. *)
Record DataStream := {
  firstBuf : option chunk_id;
  bufQ : list chunk_id;
  lastBuf : option chunk_id;
  busy : Z;
  threshold : Z;
  eof : bool;
  diag : Z;
  heap : gmap chunk_id ChunkStream;
  next_id : chunk_id;
}.

#[export] Instance eta_stream : Eta DataStream := fun s =>
  Build_DataStream (firstBuf s) (bufQ s) (lastBuf s) (busy s) (threshold s) (eof s) (diag s)
    (heap s) (next_id s).

Definition DataStream_new (threshold : Z) : DataStream :=
  {| firstBuf := None; bufQ := []; lastBuf := None; busy := 0; threshold := threshold;
     eof := false; diag := 0; heap := ∅; next_id := 1%positive |}.

(** The allocator: what a new chunk's array holds. *)
Section stream.
Context (fresh_mem : list Z).

(** [if (!lastBuf) ...]: a new chunk at the end of the queue. *)
Definition ensure_last (s : DataStream) : DataStream :=
  match lastBuf s with
  | Some _ => s
  | None =>
      s <| lastBuf := Some (next_id s) |>
        <| bufQ := bufQ s ++ [next_id s] |>
        <| heap := <[next_id s := new_chunk fresh_mem]> (heap s) |>
        <| next_id := Pos.succ (next_id s) |>
  end.

(** The rest of a turn of the loop of [PutData], which goes on with [loop];
    [None] stands for an access to a deleted chunk. *)
Definition write_turn (loop : DataStream -> list Z -> Z -> option (Z * DataStream)) (s : DataStream)
    (buf : list Z) (done_ : Z) : option (Z * DataStream) :=
  id ← lastBuf s;
  c ← heap s !! id;
  let '(len, c) := chunk_write c buf in
  let s := s <| heap := <[id := c]> (heap s) |> in
  match len with
  | None => loop (s <| lastBuf := None |>) buf done_
  | Some len => loop s (drop (Z.to_nat len) buf) (done_ + len)
  end.

(** A turn either writes an octet at least, or leaves a full chunk. *)
Fixpoint put_loop (fuel : nat) (s : DataStream) (buf : list Z) (done_ : Z) : option (Z * DataStream) :=
  match buf, fuel with
  | [], _ => Some (done_, s)
  | _, O => None
  | _, S fuel => write_turn (put_loop fuel) (ensure_last s) buf done_
  end.

(** Two turns are enough for each octet. *)
Definition PutData (s : DataStream) (buf : list Z) : option (Z * DataStream) :=
  if eof s then Some (-1, s)
  else
    '(done_, s) ← put_loop (2 * length buf) s buf 0;
    Some (done_, s <| busy := busy s + done_ |>).

(** [if (!firstBuf) firstBuf = bufQ.Dequeue()] *)
Definition ensure_first (s : DataStream) : DataStream :=
  match firstBuf s, bufQ s with
  | None, id :: q => s <| firstBuf := Some id |> <| bufQ := q |>
  | _, _ => s
  end.

(** The rest of a turn of the loop of [GetData], which goes on with [loop]; it
    ends with the octets read. *)
Definition read_turn (loop : DataStream -> Z -> option (list Z * DataStream)) (s : DataStream)
    (count : Z) : option (list Z * DataStream) :=
  match firstBuf s with
  | None => Some ([], s <| lastBuf := None |>)
  | Some id =>
      c ← heap s !! id;
      let '(out, c) := chunk_read c count in
      match out with
      | None => loop (s <| heap := base.delete id (heap s) |> <| firstBuf := None |>) count
      | Some l =>
          let s := s <| heap := <[id := c]> (heap s) |> in
          if zlen l =? 0 then Some ([], s)
          else
            '(rest, s) ← loop s (count - zlen l);
            Some (l ++ rest, s)
      end
  end.

(** A turn reads an octet at least, or deletes a chunk, or is the last one. *)
Fixpoint get_loop (fuel : nat) (s : DataStream) (count : Z) : option (list Z * DataStream) :=
  if count =? 0 then Some ([], s)
  else
    match fuel with
    | O => None
    | S fuel => read_turn (get_loop fuel) (ensure_first s) count
    end.

(** The value returned ([-1] at the end) and the octets. *)
Definition GetData (s : DataStream) (count : Z) : option (Z * list Z * DataStream) :=
  if busy s =? 0 then Some (if eof s then -1 else 0, [], s)
  else
    '(l, s) ← get_loop (Z.to_nat count + length (bufQ s) + 2) s count;
    Some (zlen l, l, s <| busy := busy s - zlen l |>).

End stream.

Definition PutEof (s : DataStream) : DataStream := s <| eof := true |>.
Definition GetDiag (s : DataStream) : Z := diag s.
Definition SetDiag (s : DataStream) (d : Z) : DataStream := s <| diag := d |>.
Definition isFull (s : DataStream) : bool := negb (threshold s =? 0) && (threshold s <? busy s).

(** Deletes the chunks queued and the one being read. *)
Definition Clean (s : DataStream) : DataStream :=
  let h := foldr base.delete (heap s) (bufQ s) in
  let h := match firstBuf s with Some id => base.delete id h | None => h end in
  s <| heap := h |> <| bufQ := [] |> <| firstBuf := None |> <| lastBuf := None |>
    <| busy := 0 |> <| eof := false |> <| diag := 0 |>.

(** ** The pipe as a list *)

Definition unread (c : ChunkStream) : list Z := slice (chunk_data c) (first c) (last c - first c).

Record chunk_wf (c : ChunkStream) : Prop := {
  wf_len : zlen (chunk_data c) = CHUNK_SIZE;
  wf_order : 0 <= first c <= last c /\ last c <= CHUNK_SIZE;
}.

Definition full (c : ChunkStream) : Prop := last c = CHUNK_SIZE.

Abbreviation chunks := (list (chunk_id * ChunkStream)).

(** The octets not yet read, oldest first. *)
Definition pending (ps : chunks) : list Z := concat (map (fun p => unread p.2) ps).

(** The chunks [ps], in the order they are read: nothing else is allocated, all
    but the last are full, and [lastBuf], if it is set, is the last. *)
Record shape (s : DataStream) (ps : chunks) : Prop := {
  sh_ids : option_list (firstBuf s) ++ bufQ s = ps.*1;
  sh_heap : heap s = list_to_map ps;
  sh_nodup : NoDup ps.*1;
  sh_fresh : Forall (fun id => (id < next_id s)%positive) ps.*1;
  sh_wf : Forall chunk_wf ps.*2;
  sh_last : match lastBuf s with
            | Some id => exists init c, ps = init ++ [(id, c)] /\ Forall full init.*2
            | None => Forall full ps.*2
            end;
}.

Lemma length_unread c : chunk_wf c -> zlen (unread c) = last c - first c.
Proof. intros [Hl Ho]. unfold unread. rewrite length_slice; lia. Qed.

Lemma pending_app a b : pending (a ++ b) = pending a ++ pending b.
Proof. unfold pending. by rewrite map_app, concat_app. Qed.

Lemma pending_one p : pending [p] = unread p.2.
Proof. unfold pending. simpl. by rewrite app_nil_r. Qed.

Lemma take_slice a i m n : 0 <= m <= n -> take (Z.to_nat m) (slice a i n) = slice a i m.
Proof. intros. unfold slice. rewrite take_take. f_equal. lia. Qed.

Lemma drop_slice a i m n : 0 <= i -> 0 <= m <= n -> drop (Z.to_nat m) (slice a i n) = slice a (i + m) (n - m).
Proof.
  intros. unfold slice. rewrite skipn_firstn_comm, drop_drop.
  replace (Z.to_nat n - Z.to_nat m)%nat with (Z.to_nat (n - m)) by lia.
  by replace (Z.to_nat i + Z.to_nat m)%nat with (Z.to_nat (i + m)) by lia.
Qed.

(** Writing appends; reading takes from the front. *)
Lemma chunk_write_spec c buf : chunk_wf c -> last c < CHUNK_SIZE -> buf <> [] ->
  exists n c', chunk_write c buf = (Some n, c') /\ 1 <= n <= zlen buf /\ chunk_wf c' /\
    unread c' = unread c ++ take (Z.to_nat n) buf.
Proof.
  intros W Hl Hb. destruct (W) as [Wl Wo]. unfold chunk_write.
  replace (CHUNK_SIZE - last c =? 0) with false by lia.
  assert (1 <= zlen buf) as Hb1 by (destruct buf; [done|simpl; lia]).
  set (n := if zlen buf <? CHUNK_SIZE - last c then zlen buf else CHUNK_SIZE - last c).
  assert (1 <= n <= zlen buf /\ n <= CHUNK_SIZE - last c) as [Hn Hn'] by (unfold n; case_match; lia).
  assert (zlen (take (Z.to_nat n) buf) = n) as Ht by (rewrite length_take; lia).
  eexists n, _. split; [done|]. split; [done|]. split.
  { split; cbn; [by rewrite length_memcpy|lia]. }
  unfold unread. cbn. rewrite memcpy_spec by lia. rewrite Ht.
  unfold slice. rewrite app_assoc, drop_app_le by (rewrite length_app, !length_take; lia).
  rewrite take_app_le by (rewrite length_drop, length_app, !length_take; lia).
  rewrite drop_app_le by (rewrite length_take; lia).
  replace (Z.to_nat (last c + n - first c)) with (length (drop (Z.to_nat (first c)) (take (Z.to_nat (last c)) (chunk_data c))) + Z.to_nat n)%nat
    by (rewrite length_drop, length_take; lia).
  rewrite take_app_add, (take_ge (take _ buf)) by lia. f_equal.
  rewrite skipn_firstn_comm. f_equal. lia.
Qed.

Lemma chunk_read_spec c count : chunk_wf c -> first c < CHUNK_SIZE -> 0 <= count ->
  exists c', chunk_read c count = (Some (take (Z.to_nat count) (unread c)), c') /\ chunk_wf c' /\
    unread c' = drop (Z.to_nat count) (unread c) /\ last c' = last c.
Proof.
  intros W Hf Hc. destruct (W) as [Wl Wo]. unfold chunk_read.
  replace (CHUNK_SIZE =? first c) with false by lia.
  set (n := if count <? last c - first c then count else last c - first c).
  assert (0 <= n <= last c - first c) as Hn by (unfold n; case_match; lia).
  assert (take (Z.to_nat count) (unread c) = slice (chunk_data c) (first c) n) as ->.
  { unfold unread, n. pose proof (length_unread c W) as Hu. unfold unread in Hu.
    destruct (Z.ltb_spec count (last c - first c)); [by rewrite take_slice by lia|].
    apply take_ge. lia. }
  eexists. split; [done|]. split; [split; cbn; [done|lia]|]. split; [|done].
  unfold unread. cbn. unfold n. destruct (Z.ltb_spec count (last c - first c)).
  - rewrite drop_slice by lia. f_equal. lia.
  - rewrite drop_ge by (pose proof (length_unread c W) as Hu; unfold unread in Hu; lia).
    unfold slice. replace (last c - (first c + (last c - first c))) with 0 by lia. done.
Qed.

(** *** Steps on the shape *)

Lemma shape_last s init id c c' : shape s (init ++ [(id, c)]) -> Forall full init.*2 -> chunk_wf c' ->
  lastBuf s = Some id ->
  heap s !! id = Some c /\
  shape (s <| heap := <[id := c']> (heap s) |>) (init ++ [(id, c')]).
Proof.
  intros [H1 H2 H3 H4 H5 H6] Hf Hw Hl.
  rewrite fmap_app in H1, H3, H4. rewrite fmap_app in H5. cbn [fmap list_fmap fst snd] in H1, H3, H4, H5.
  assert (id ∉ init.*1) as Hn.
  { apply list.NoDup_app in H3 as (_ & H3 & _). intros Hin. apply (H3 id Hin). by left. }
  assert (heap s = <[id := c]> (list_to_map init)) as E by (rewrite H2; by apply list_to_map_snoc).
  split; [by rewrite E, lookup_insert_eq|].
  split; rewrite ?fmap_app; cbn [fmap list_fmap fst snd]; try done.
  - cbn. rewrite E, insert_insert_eq. symmetry. by apply list_to_map_snoc.
  - apply Forall_app in H5 as [H5 _]. apply Forall_app_2; [done|]. by constructor.
  - change (lastBuf (s <| heap := <[id:=c']> (heap s) |>)) with (lastBuf s). rewrite Hl.
    by exists init, c'.
Qed.

Lemma shape_new s ps mem : shape s ps -> lastBuf s = None -> zlen mem = CHUNK_SIZE ->
  shape (s <| lastBuf := Some (next_id s) |>
           <| bufQ := bufQ s ++ [next_id s] |>
           <| heap := <[next_id s := new_chunk mem]> (heap s) |>
           <| next_id := Pos.succ (next_id s) |>) (ps ++ [(next_id s, new_chunk mem)]).
Proof.
  intros [H1 H2 H3 H4 H5 H6] Hl Hm. rewrite Hl in H6.
  assert (next_id s ∉ ps.*1) as Hn.
  { intros Hin. rewrite list.Forall_forall in H4. specialize (H4 _ Hin). cbn in H4. lia. }
  split; rewrite ?fmap_app; cbn [fmap list_fmap fst snd].
  - cbn. by rewrite app_assoc, H1.
  - cbn. rewrite H2. symmetry. by apply list_to_map_snoc.
  - apply list.NoDup_app. split; [done|]. split; [|apply list.NoDup_singleton].
    intros x Hx Hx'. apply list_elem_of_singleton in Hx'. by subst.
  - cbn. apply Forall_app_2; [|constructor; [lia|done]].
    eapply Forall_impl; [|exact H4]. cbn. intros. lia.
  - apply Forall_app_2; [done|]. constructor; [|done]. split; cbn; [done|unfold CHUNK_SIZE; lia].
  - by exists ps, (new_chunk mem).
Qed.

Lemma shape_close s init id c : shape s (init ++ [(id, c)]) -> Forall full init.*2 -> full c ->
  shape (s <| lastBuf := None |>) (init ++ [(id, c)]).
Proof.
  intros [H1 H2 H3 H4 H5 H6] Hf Hc. split; try done.
  cbn. rewrite fmap_app. apply Forall_app_2; [done|by constructor].
Qed.

(** Same stream, but for the chunks. *)
Definition same_but_chunks (s s' : DataStream) : Prop :=
  busy s' = busy s /\ threshold s' = threshold s /\ eof s' = eof s /\ diag s' = diag s.

Lemma same_trans s1 s2 s3 : same_but_chunks s1 s2 -> same_but_chunks s2 s3 -> same_but_chunks s1 s3.
Proof. unfold same_but_chunks. intuition congruence. Qed.

(** One write into the chunk [lastBuf] points to. *)
Lemma put_write s init id c buf : shape s (init ++ [(id, c)]) -> Forall full init.*2 ->
  lastBuf s = Some id -> buf <> [] ->
  let '(len, c') := chunk_write c buf in
  let s' := s <| heap := <[id := c']> (heap s) |> in
  shape s' (init ++ [(id, c')]) /\ heap s !! id = Some c /\
  match len with
  | None => full c' /\ c' = c
  | Some n => 1 <= n <= zlen buf /\
      pending (init ++ [(id, c')]) = pending (init ++ [(id, c)]) ++ take (Z.to_nat n) buf
  end.
Proof.
  intros S Hf Hl Hb.
  assert (chunk_wf c) as W.
  { destruct S as [_ _ _ _ H5 _]. rewrite fmap_app in H5. apply list.Forall_app in H5 as [_ H5].
    by apply Forall_cons_1 in H5 as [H5 _]. }
  destruct (W) as [Wl Wo]. destruct (decide (last c = CHUNK_SIZE)) as [Hfull|Hfull].
  - unfold chunk_write. rewrite Hfull. cbn [Z.eqb Z.sub Z.add Z.opp Z.pos_sub].
    destruct (shape_last s init id c c S Hf W Hl) as [E S']. replace (CHUNK_SIZE - CHUNK_SIZE =? 0) with true by lia. done.
  - destruct (chunk_write_spec c buf W ltac:(lia) Hb) as (n & c' & -> & Hn & W' & Hu).
    destruct (shape_last s init id c c' S Hf W' Hl) as [E S'].
    split; [done|]. split; [done|]. split; [done|].
    by rewrite !pending_app, !pending_one; cbn [snd]; rewrite Hu, app_assoc.
Qed.

Lemma write_chunks_spec mem : zlen mem = CHUNK_SIZE -> forall fuel s ps buf d, shape s ps ->
  (match lastBuf s with None => 2 * length buf <= fuel + 1 | Some _ => 2 * length buf <= fuel end)%nat ->
  exists s' ps', put_loop mem fuel s buf d = Some (d + zlen buf, s') /\ shape s' ps' /\
    pending ps' = pending ps ++ buf /\ same_but_chunks s s'.
Proof.
  intros Hm. induction fuel as [|fuel IH]; intros s ps buf d Sh Hf.
  { destruct buf as [|b buf]; [|destruct (lastBuf s); simpl in Hf; lia].
    exists s, ps. cbn. rewrite app_nil_r, Z.add_0_r. done. }
  destruct buf as [|b buf]; [exists s, ps; cbn; rewrite app_nil_r, Z.add_0_r; done|].
  remember (b :: buf) as l eqn:El. assert (l <> []) as Hne by (by rewrite El).
  assert (put_loop mem (S fuel) s l d = write_turn (put_loop mem fuel) (ensure_last mem s) l d) as -> by (by rewrite El).
  clear El b buf.
  (* the turn once [lastBuf] is set *)
  assert (forall s ps id, lastBuf s = Some id -> shape s ps -> (2 * length l <= S fuel + 1)%nat ->
    ((2 * length l <= S fuel)%nat \/ forall init c, ps = init ++ [(id, c)] -> last c < CHUNK_SIZE) ->
    exists s' ps', write_turn (put_loop mem fuel) s l d = Some (d + zlen l, s') /\ shape s' ps' /\
      pending ps' = pending ps ++ l /\ same_but_chunks s s') as Hw.
  { clear s ps Sh Hf. intros s ps id Hl Sh Hf Hroom. pose proof (sh_last _ _ Sh) as H6. rewrite Hl in H6.
    destruct H6 as (init & c & -> & Hfull). pose proof (put_write s init id c l Sh Hfull Hl Hne) as H.
    assert (heap s !! id = Some c) as Hlk by (destruct (chunk_write c l); apply H).
    unfold write_turn. rewrite Hl. cbn [mbind option_bind]. rewrite Hlk. cbn [mbind option_bind].
    destruct (chunk_write c l) as [[n|] c']; destruct H as (S' & _ & H).
    - destruct H as [Hn Hp]. destruct (IH (s <| heap := <[id:=c']> (heap s) |>) _ (drop (Z.to_nat n) l) (d + n) S') as (s2 & ps2 & E & S2 & P2 & B2).
      { cbn. rewrite Hl. rewrite length_drop. lia. }
      exists s2, ps2. rewrite E. split; [f_equal; f_equal; rewrite length_drop; lia|].
      split; [done|]. split; [|by eapply same_trans; [|exact B2]].
      by rewrite P2, Hp, <- app_assoc, take_drop.
    - destruct H as [Hc ->]. pose proof (shape_close _ _ _ _ S' Hfull Hc) as S1.
      destruct (IH (s <| heap := <[id:=c]> (heap s) |> <| lastBuf := None |>) _ l d S1) as (s2 & ps2 & E & S2 & P2 & B2).
      { cbn. destruct Hroom as [Hr|Hr]; [lia|]. specialize (Hr init c eq_refl). unfold full in Hc. lia. }
      exists s2, ps2. split; [done|]. split; [done|]. split; [done|]. by eapply same_trans; [|exact B2]. }
  unfold ensure_last. destruct (lastBuf s) as [id|] eqn:Hl.
  - apply (Hw s ps id); try done; [lia|by left].
  - pose proof (shape_new s ps mem Sh Hl Hm) as Sn.
    match type of Sn with shape ?x _ => destruct (Hw x _ (next_id s) (eq_refl (Some (next_id s))) Sn) as (s' & ps' & E & S' & P & B) end.
    { lia. }
    { right. intros init c E. apply app_inj_tail in E as [_ E]. injection E as <-. cbn. unfold CHUNK_SIZE. lia. }
    exists s', ps'. split; [exact E|]. split; [done|]. split; [|done].
    rewrite P, pending_app, pending_one. by rewrite app_nil_r.
Qed.

Lemma shape_first s ps : shape s ps ->
  shape (ensure_first s) ps /\ same_but_chunks s (ensure_first s) /\
  match ps with
  | [] => firstBuf (ensure_first s) = None
  | (id, _) :: _ => firstBuf (ensure_first s) = Some id
  end.
Proof.
  intros [H1 H2 H3 H4 H5 H6]. unfold ensure_first.
  destruct (firstBuf s) as [id|] eqn:E1; [|destruct (bufQ s) as [|id q] eqn:E2].
  - split; [split; try done; by rewrite E1|]. split; [done|].
    destruct ps as [|[id' c] ps]; [done|]. cbn in H1. injection H1 as <-. by rewrite E1.
  - split; [split; try done; by rewrite E1, E2|]. split; [done|]. destruct ps as [|[id' c] ps]; [done|].
    by cbn in H1.
  - split; [split; done|]. split; [done|]. destruct ps as [|[id' c] ps]; [done|].
    cbn in H1. injection H1 as <-. done.
Qed.

(** What is at the head of the chunks: its cell, and the shape when it changes
    or goes. *)
Lemma shape_head s id c ps : shape s ((id, c) :: ps) ->
  heap s !! id = Some c /\ chunk_wf c /\
  (forall c', chunk_wf c' -> last c' = last c ->
     shape (s <| heap := <[id := c']> (heap s) |>) ((id, c') :: ps)) /\
  (ps <> [] -> firstBuf s = Some id ->
     shape (s <| heap := base.delete id (heap s) |> <| firstBuf := None |>) ps).
Proof.
  intros [H1 H2 H3 H4 H5 H6]. cbn [fmap list_fmap fst snd list_to_map foldr] in *.
  apply Forall_cons_1 in H5 as [Hc H5]. pose proof H3 as [Hn H3']%list.NoDup_cons.
  assert (heap s = <[id := c]> (list_to_map ps)) as E by done.
  assert (list_to_map (M := gmap chunk_id ChunkStream) ps !! id = None) as Hno by (by apply not_elem_of_list_to_map_1).
  split; [by rewrite E, lookup_insert_eq|]. split; [done|]. split.
  - intros c' W' Hl. split; cbn [fmap list_fmap fst snd]; try done.
    + cbn. rewrite E, insert_insert_eq. done.
    + by constructor.
    + change (lastBuf (s <| heap := <[id:=c']> (heap s) |>)) with (lastBuf s).
      destruct (lastBuf s) as [id'|].
      * destruct H6 as ([|p init] & c0 & Ei & Hf).
        -- cbn in Ei. injection Ei as -> -> ->. by exists [], c'.
        -- cbn in Ei. injection Ei as <- ->. exists ((id, c') :: init), c0. split; [done|].
           cbn in Hf |- *. apply Forall_cons_1 in Hf as [Hf1 Hf]. constructor; [|done].
           unfold full in *. congruence.
      * apply Forall_cons_1 in H6 as [Hf1 H6]. constructor; [|done]. unfold full in *. congruence.
  - intros Hps Hf1. split; try done.
    + cbn. rewrite Hf1 in H1. cbn in H1. by injection H1.
    + cbn. rewrite E. by rewrite delete_insert_id.
    + by apply Forall_cons_1 in H4 as [_ H4].
    + change (lastBuf (s <| heap := base.delete id (heap s) |> <| firstBuf := None |>)) with (lastBuf s).
      destruct (lastBuf s) as [id'|]; [|by apply Forall_cons_1 in H6 as [_ H6]].
      destruct H6 as ([|p init] & c0 & Ei & Hf).
      * cbn in Ei. by injection Ei as _ _ ->.
      * cbn in Ei. injection Ei as <- ->. exists init, c0. split; [done|].
        by apply Forall_cons_1 in Hf as [_ Hf].
Qed.

Lemma pending_cons p ps : pending (p :: ps) = unread p.2 ++ pending ps.
Proof. done. Qed.

Lemma read_all_unfull c : chunk_wf c -> first c = last c -> unread c = [].
Proof. intros W E. unfold unread. rewrite E, Z.sub_diag. done. Qed.

(** Reading a first part, then the rest of the same count. *)
Lemma take_rest n (a b : list Z) :
  take n a ++ take (n - length (take n a)) (drop n a ++ b) = take n (a ++ b).
Proof.
  rewrite length_take. destruct (le_gt_dec n (length a)).
  - replace (n - Nat.min n (length a))%nat with 0%nat by lia. rewrite take_0, app_nil_r.
    by rewrite take_app_le.
  - rewrite (drop_ge a n), (take_ge a n), (take_app_ge a b n) by lia. cbn [app]. do 2 f_equal. lia.
Qed.

Lemma drop_rest n (a b : list Z) :
  drop (n - length (take n a)) (drop n a ++ b) = drop n (a ++ b).
Proof.
  rewrite length_take. destruct (le_gt_dec n (length a)).
  - replace (n - Nat.min n (length a))%nat with 0%nat by lia. by rewrite drop_0, drop_app_le.
  - rewrite (drop_ge a n), (drop_app_ge a b n) by lia. cbn [app]. f_equal. lia.
Qed.

Lemma read_chunks_spec : forall fuel s ps count, shape s ps -> 0 <= count ->
  (Z.to_nat count + length ps + 1 <= fuel)%nat ->
  exists s' ps', get_loop fuel s count = Some (take (Z.to_nat count) (pending ps), s') /\
    shape s' ps' /\ pending ps' = drop (Z.to_nat count) (pending ps) /\ same_but_chunks s s'.
Proof.
  induction fuel as [|fuel IH]; intros s ps count Sh Hc Hf; [lia|]. cbn [get_loop].
  destruct (Z.eqb_spec count 0) as [->|Hn].
  { exists s, ps. done. }
  destruct (shape_first s ps Sh) as (Sh1 & B1 & Hfst). set (s1 := ensure_first s) in *. clearbody s1.
  unfold read_turn. destruct ps as [|[id c] ps].
  { rewrite Hfst. exists (s1 <| lastBuf := None |>), []. change (pending []) with (@nil Z). rewrite take_nil, drop_nil.
    split; [done|]. split; [|done]. destruct Sh1. split; try done; constructor. }
  destruct (shape_head s1 id c ps Sh1) as (Hlk & W & Hupd & Hdel).
  rewrite Hfst, Hlk. cbn [mbind option_bind]. destruct (decide (first c = CHUNK_SIZE)) as [He|He].
  - (* the chunk is finished: delete it *)
    assert (unread c = []) as Hu by (apply read_all_unfull; [done|destruct W; lia]).
    rewrite pending_cons. cbn [snd]. rewrite Hu. cbn [app].
    assert (chunk_read c count = (None, c)) as ->.
    { unfold chunk_read. by replace (CHUNK_SIZE =? first c) with true by lia. }
    cbn [length] in Hf. destruct ps as [|p ps].
    + (* it was the only one: the next turn finds the queue empty *)
      set (s2 := s1 <| heap := base.delete id (heap s1) |> <| firstBuf := None |>).
      destruct Sh1 as [H1 H2 H3 H4 H5 H6]. rewrite Hfst in H1. cbn in H1. injection H1 as Hq.
      assert (get_loop fuel s2 count = Some ([], s2 <| lastBuf := None |>)) as ->.
      { destruct fuel as [|fuel']; [simpl in Hf; lia|]. cbn [get_loop].
        replace (count =? 0) with false by lia. unfold ensure_first.
        change (firstBuf s2) with (@None chunk_id). change (bufQ s2) with (bufQ s1).
        rewrite Hq. done. }
      exists (s2 <| lastBuf := None |>), []. change (pending []) with (@nil Z). rewrite take_nil, drop_nil.
      split; [done|]. split; [|done]. split; try done; try constructor.
      cbn. rewrite H2. cbn. apply delete_insert_id. apply lookup_empty.
    + destruct (IH _ (p :: ps) count (Hdel ltac:(done) Hfst) Hc) as (s2 & ps2 & E & S2 & P2 & B2).
      { simpl in *. lia. }
      exists s2, ps2. split; [done|]. split; [done|]. split; [done|].
      eapply same_trans; [exact B1|]. by eapply same_trans; [|exact B2].
  - destruct (chunk_read_spec c count W ltac:(destruct W; lia) Hc) as (c' & -> & W' & Hu' & Hl').
    pose proof (Hupd c' W' Hl') as Sh2. rewrite pending_cons. cbn [snd].
    pose proof (length_unread c W) as Hlu.
    destruct (Z.eqb_spec (zlen (take (Z.to_nat count) (unread c))) 0) as [Hz|Hz].
    + (* nothing left anywhere: this is the chunk being written *)
      assert (zlen (unread c) = 0) as Hlz by (rewrite length_take in Hz; lia).
      assert (unread c = []) as Hu by (apply length_zero_iff_nil; lia).
      assert (ps = []) as ->.
      { destruct ps as [|p ps]; [done|]. exfalso. pose proof (sh_last _ _ Sh1) as H6.
        assert (full c) as Hfc; [|unfold full in Hfc; destruct W; lia].
        destruct (lastBuf s1) as [id'|].
        - destruct H6 as ([|p0 init] & c0 & Ei & Hfi); [done|]. injection Ei as <- _.
          by apply Forall_cons_1 in Hfi as [Hfi _].
        - by apply Forall_cons_1 in H6 as [H6 _]. }
      rewrite Hu. exists (s1 <| heap := <[id:=c']> (heap s1) |>), [(id, c')].
      change ([] ++ pending []) with (@nil Z). rewrite take_nil, drop_nil. split; [done|]. split; [done|].
      split; [|done]. rewrite pending_one. cbn [snd]. by rewrite Hu', Hu, drop_nil.
    + set (l := take (Z.to_nat count) (unread c)) in *.
      assert (zlen l = Z.min count (zlen (unread c))) as Hll by (unfold l; rewrite length_take; lia).
      destruct (IH _ ((id, c') :: ps) (count - zlen l) Sh2) as (s2 & ps2 & E & S2 & P2 & B2).
      { lia. } { simpl length in *. lia. }
      exists s2, ps2. rewrite E. cbn [mbind option_bind]. rewrite pending_cons in E, P2. cbn [snd] in E, P2.
      rewrite pending_cons. cbn [snd].
      replace (Z.to_nat (count - zlen l)) with (Z.to_nat count - length l)%nat in * by lia.
      split; [|split; [done|split]].
      * do 2 f_equal. rewrite Hu'. apply take_rest.
      * rewrite P2, Hu'. apply drop_rest.
      * eapply same_trans; [exact B1|]. by eapply same_trans; [|exact B2].
Qed.

(** ** The interface

    What a stream is to its clients: a list of octets, an end mark and a
    diagnosis.  The engines are modelled against this; the theorem below says
    that the class implements it. *)

Record pipe := {
  p_octets : list Z;
  p_eof : bool;
  p_diag : Z;
  p_threshold : Z;
}.

#[export] Instance eta_pipe : Eta pipe := fun p =>
  Build_pipe (p_octets p) (p_eof p) (p_diag p) (p_threshold p).

Definition pipe_new (threshold : Z) : pipe :=
  {| p_octets := []; p_eof := false; p_diag := 0; p_threshold := threshold |}.

Definition pipe_put (p : pipe) (buf : list Z) : Z * pipe :=
  if p_eof p then (-1, p) else (zlen buf, p <| p_octets := p_octets p ++ buf |>).

Definition pipe_get (p : pipe) (count : Z) : Z * list Z * pipe :=
  match p_octets p with
  | [] => (if p_eof p then -1 else 0, [], p)
  | l => (zlen (take (Z.to_nat count) l), take (Z.to_nat count) l,
          p <| p_octets := drop (Z.to_nat count) l |>)
  end.

Definition pipe_put_eof (p : pipe) : pipe := p <| p_eof := true |>.
Definition pipe_set_diag (p : pipe) (d : Z) : pipe := p <| p_diag := d |>.
Definition pipe_full (p : pipe) : bool :=
  negb (p_threshold p =? 0) && (p_threshold p <? zlen (p_octets p)).
Definition pipe_clean (p : pipe) : pipe := pipe_new (p_threshold p).

Record implements (s : DataStream) (p : pipe) : Prop := {
  imp_shape : exists ps, shape s ps /\ pending ps = p_octets p;
  imp_busy : busy s = zlen (p_octets p);
  imp_eof : eof s = p_eof p;
  imp_diag : diag s = p_diag p;
  imp_threshold : threshold s = p_threshold p;
}.

Lemma implements_put s p mem buf : implements s p -> zlen mem = CHUNK_SIZE ->
  exists s', PutData mem s buf = Some ((pipe_put p buf).1, s') /\ implements s' (pipe_put p buf).2.
Proof.
  intros R Hm. destruct (R) as [(ps & Sh & Hp) Hb He Hd Ht]. unfold PutData, pipe_put. rewrite He.
  destruct (p_eof p) eqn:E; [by exists s|].
  destruct (write_chunks_spec mem Hm (2 * length buf) s ps buf 0 Sh) as (s' & ps' & E1 & S' & P' & B1 & B2 & B3 & B4).
  { destruct (lastBuf s); lia. }
  rewrite E1. cbn [mbind option_bind]. rewrite Z.add_0_l. eexists. split; [done|].
  split; cbn.
  - exists ps'. split; [destruct S'; by split|]. by rewrite P', Hp.
  - rewrite length_app, B1, Hb. lia.
  - by rewrite B3, He.
  - by rewrite B4.
  - by rewrite B2.
Qed.

Lemma implements_get s p count : implements s p -> 0 <= count ->
  exists s', GetData s count = Some ((pipe_get p count).1, s') /\ implements s' (pipe_get p count).2.
Proof.
  intros R Hc. destruct (R) as [(ps & Sh & Hp) Hb He Hd Ht]. unfold GetData, pipe_get. rewrite Hb.
  destruct (p_octets p) as [|b l] eqn:Eo.
  { exists s. by rewrite He. }
  rewrite <- Eo in *. replace (zlen (p_octets p) =? 0) with false by (rewrite Eo; simpl; lia).
  destruct (read_chunks_spec (Z.to_nat count + length (bufQ s) + 2) s ps count Sh Hc) as (s' & ps' & E1 & S' & P' & B1 & B2 & B3 & B4).
  { pose proof (f_equal length (sh_ids _ _ Sh)) as H. rewrite length_app, length_fmap in H.
    destruct (firstBuf s); simpl in H; lia. }
  rewrite E1. cbn [mbind option_bind]. rewrite Hp. eexists. split; [done|].
  split; cbn.
  - exists ps'. split; [destruct S'; by split|]. by rewrite P', Hp.
  - rewrite B1, Hb, length_take, length_drop. lia.
  - by rewrite B3, He.
  - by rewrite B4.
  - by rewrite B2.
Qed.

(** All the chunks are deleted. *)
Lemma delete_all (l : chunks) : NoDup l.*1 ->
  foldr base.delete (list_to_map (M := gmap chunk_id ChunkStream) l) l.*1 = ∅.
Proof.
  intros _. apply map_empty. intros k.
  destruct (decide (k ∈ l.*1)) as [Hin|Hin].
  - apply lookup_foldr_delete. done.
  - rewrite lookup_foldr_delete_not_elem_of by done. by apply not_elem_of_list_to_map_1.
Qed.

Lemma implements_clean s p : implements s p -> implements (Clean s) (pipe_clean p) /\ heap (Clean s) = ∅.
Proof.
  intros [(ps & Sh & Hp) Hb He Hd Ht]. pose proof (delete_all ps (sh_nodup _ _ Sh)) as Hdel.
  assert (heap (Clean s) = ∅) as Hh.
  { rewrite <- (sh_ids _ _ Sh), <- (sh_heap _ _ Sh) in Hdel. unfold Clean. cbn.
    destruct (firstBuf s); exact Hdel. }
  split; [|done]. split; try done. exists []. split; [|done]. split; try done; constructor.
Qed.

(** C18: a [DataStream] is a pipe: from a fresh one on, under any sequence of
    puts, gets, end marks and cleans, no chunk is used after it is deleted (every
    operation returns), the octets come out once each and in the order they went
    in, in spite of the chunk that is read and written at the same time; the end
    is reported only when all of them are out; and a cleaned stream has deleted
    every chunk it allocated. *)
Theorem data_stream_implements mem s p : zlen mem = CHUNK_SIZE -> implements s p ->
  (forall buf, exists s', PutData mem s buf = Some ((pipe_put p buf).1, s') /\
     implements s' (pipe_put p buf).2) /\
  (forall count, 0 <= count ->
     exists s', GetData s count = Some ((pipe_get p count).1, s') /\
     implements s' (pipe_get p count).2) /\
  implements (PutEof s) (pipe_put_eof p) /\
  (forall d, implements (SetDiag s d) (pipe_set_diag p d)) /\
  isFull s = pipe_full p /\
  implements (Clean s) (pipe_clean p) /\ heap (Clean s) = ∅ /\
  (forall t, implements (DataStream_new t) (pipe_new t)).
Proof.
  intros Hm R. split; [intros; by apply implements_put|]. split; [intros; by apply implements_get|].
  destruct (implements_clean s p R) as [Rc Hc].
  destruct R as [(ps & Sh & Hp) Hb He Hd Ht].
  split; [split; try done; exists ps; split; [destruct Sh; by split|done]|].
  split; [intros d; split; try done; exists ps; split; [destruct Sh; by split|done]|].
  split; [unfold isFull, pipe_full; by rewrite Hb, Ht|]. split; [done|]. split; [done|].
  intros t. split; try done. exists []. split; [|done]. split; try done; constructor.
Qed.

Lemma data_stream_implements_witness :
  exists s', PutData (repeat 0 256) (DataStream_new 0) (repeat 7 300) = Some (300, s') /\
    implements s' (pipe_put (pipe_new 0) (repeat 7 300)).2.
Proof.
  apply (data_stream_implements (repeat 0 256) (DataStream_new 0) (pipe_new 0) eq_refl).
  split; try done. exists []. split; [|done]. split; try done; constructor.
Defined.
