(* ===== verification/Dle.v ===== *)
(** * DLE shielding (src/t38modem/dle.h, src/t38modem/dle.cxx)

    The fax data of a class 1 modem on its serial line: octets with DLE (0x10)
    doubled, and DLE ETX at the end; bits reversed on demand.  [DLEData] is a
    data stream with this coding on its serial side; the stream is the [pipe]
    that [DataStream] implements. *)
From S2P Require Import Prelude DataStream.

(** ** Definitions *)

Definition ETX : Z := 0x03.
Definition DLE : Z := 0x10.

(** One entry of the table: eight turns that move the lowest bit of [in_] to
    [out]. *)
Fixpoint bit_rev_loop (n : nat) (in_ out : Z) : Z :=
  match n with
  | O => out
  | S n => bit_rev_loop n (in_ .>> 1) ((out .<< 1) + (in_ .& 1))
  end.

Definition initBitRevTable : list Z :=
  map (fun i => u8 (bit_rev_loop 8 (Z.of_nat i) 0)) (seq 0 256).

Definition BitRevTable := Eval vm_compute in initBitRevTable.

Record DLEData := {
  stream : pipe;
  dle : bool;
  recvEtx : bool;
  bitRev : bool;
}.

#[export] Instance eta_dle : Eta DLEData := fun d =>
  Build_DLEData (stream d) (dle d) (recvEtx d) (bitRev d).

Definition DLEData_new : DLEData :=
  {| stream := pipe_new 0; dle := false; recvEtx := false; bitRev := false |}.

Definition BitRev (d : DLEData) (r : bool) : DLEData := d <| bitRev := r |>.

Definition Clean_dle (d : DLEData) : DLEData :=
  d <| stream := pipe_clean (stream d) |> <| dle := false |> <| recvEtx := false |>.

(** [memchr (l, DLE, length l)]: how far the first DLE is. *)
Fixpoint find_dle (l : list Z) : option nat :=
  match l with
  | [] => None
  | b :: l => if b =? DLE then Some O else S <$> find_dle l
  end.

(** The [while (cPut)] loop of the reversing branch: blocks of at most 1024
    octets, each taken from [p], which the loop does not advance. *)
Fixpoint put_reversed (fuel : nat) (s : pipe) (p : list Z) (cPut : nat) : pipe :=
  match fuel, cPut with
  | _, O => s
  | O, _ => s
  | S fuel, _ =>
      let cTmp := if (1024 <? cPut)%nat then 1024%nat else cPut in
      let tmp := map (aget BitRevTable) (take cTmp p) in
      put_reversed fuel (pipe_put s tmp).2 p (cPut - cTmp)
  end.

Definition put_run (d : DLEData) (p : list Z) (cPut : nat) : DLEData :=
  if (cPut =? 0)%nat then d
  else if bitRev d then d <| stream := put_reversed cPut (stream d) p cPut |>
  else d <| stream := (pipe_put (stream d) (take cPut p)).2 |>.

(** The [while (cRest > 0)] loop on the octets left; returns how many are left
    when it ends.  Every turn takes an octet at least. *)
Fixpoint put_dle_loop (fuel : nat) (d : DLEData) (p : list Z) : DLEData * nat :=
  match fuel, p with
  | _, [] => (d, O)
  | O, _ => (d, length p)
  | S fuel, b :: rest =>
      if dle d && negb (b =? DLE) && (b =? ETX) then
        (d <| dle := false |> <| stream := pipe_put_eof (stream d) |>, length rest)
      else
        (* [p] and how far the scan for the next DLE starts beyond it *)
        let '(p, skip) :=
          if dle d then (if negb (b =? DLE) then (rest, 0%nat) else (p, 1%nat)) else (p, 0%nat) in
        let d := d <| dle := false |> in
        match find_dle (drop skip p) with
        | Some k =>
            let d := d <| dle := true |> in
            let cPut := (skip + k)%nat in
            put_dle_loop fuel (put_run d p cPut) (drop (cPut + 1) p)
        | None => put_dle_loop fuel (put_run d p (length p)) []
        end
  end.

Definition PutDleData (d : DLEData) (buf : list Z) : Z * DLEData :=
  if (pipe_put (stream d) []).1 <? 0 then (-1, d)
  else
    let '(d, cRest) := put_dle_loop (length buf) d buf in
    (zlen buf - Z.of_nat cRest, d).

(** What [GetDleData] writes for the octets it got. *)
Fixpoint shield (rev : bool) (tmp : list Z) : list Z :=
  match tmp with
  | [] => []
  | t :: tmp =>
      let b := if rev then aget BitRevTable t else t in
      (if b =? DLE then [DLE] else []) ++ b :: shield rev tmp
  end.

(** The [for] loop: the octets written and the state; each turn that goes on has
    written one at least. *)
Fixpoint get_dle_loop (fuel : nat) (d : DLEData) (count done_ : Z) : list Z * DLEData :=
  match fuel with
  | O => ([], d)
  | S fuel =>
      if 4 <=? count - done_ then
        let cGet := Z.quot (count - done_ - 2) 2 in
        let cGet := if 1024 <? cGet then 1024 else cGet in
        let '(r, tmp, s) := pipe_get (stream d) cGet in
        let d := d <| stream := s |> in
        if r =? -1 then ([DLE; ETX], d <| recvEtx := true |>)
        else if r =? 0 then ([], d)
        else
          let out := shield (bitRev d) tmp in
          let '(rest, d) := get_dle_loop fuel d count (done_ + zlen out) in
          (out ++ rest, d)
      else ([], d)
  end.

Definition GetDleData (d : DLEData) (count : Z) : Z * list Z * DLEData :=
  if recvEtx d then (-1, [], d)
  else
    let '(out, d) := get_dle_loop (Z.to_nat count) d count 0 in
    (zlen out, out, d).

(** ** Receiving: the decoder, octet by octet *)

(** The octets decoded, whether a DLE is pending, and what follows a DLE ETX. *)
Fixpoint unshield (pending_dle : bool) (l : list Z) : list Z * bool * option (list Z) :=
  match l with
  | [] => ([], pending_dle, None)
  | b :: l =>
      if pending_dle then
        if b =? DLE then let '(out, q, e) := unshield false l in (b :: out, q, e)
        else if b =? ETX then ([], false, Some l)
        else unshield false l
      else
        if b =? DLE then unshield true l
        else let '(out, q, e) := unshield false l in (b :: out, q, e)
  end.

(** The octets as they go into the stream. *)
Definition rev_octet (rev : bool) (b : Z) : Z := if rev then aget BitRevTable b else b.

Definition with_octets (s : pipe) (l : list Z) : pipe := s <| p_octets := p_octets s ++ l |>.

Lemma with_octets_nil s : with_octets s [] = s.
Proof. unfold with_octets. destruct s as [o e g t]. cbn. by rewrite app_nil_r. Qed.

Lemma with_octets_app s l1 l2 : with_octets (with_octets s l1) l2 = with_octets s (l1 ++ l2).
Proof. unfold with_octets. destruct s as [o e g t]. cbn. by rewrite app_assoc. Qed.

Lemma find_dle_spec l :
  match find_dle l with
  | Some k => (k < length l)%nat /\ l = take k l ++ DLE :: drop (S k) l /\ Forall (fun b => b <> DLE) (take k l)
  | None => Forall (fun b => b <> DLE) l
  end.
Proof.
  induction l as [|b l IH]; cbn [find_dle]; [done|].
  destruct (Z.eqb_spec b DLE) as [->|Hb]; [cbn; split; [lia|by split]|].
  destruct (find_dle l) as [k|]; cbn [fmap option_fmap option_map].
  - destruct IH as (Hk & E & Hf). cbn [length take drop app]. split; [lia|].
    split; [by f_equal|by constructor].
  - by constructor.
Qed.

Lemma unshield_plain l1 l2 : Forall (fun b => b <> DLE) l1 ->
  unshield false (l1 ++ l2) = let '(out, q, e) := unshield false l2 in (l1 ++ out, q, e).
Proof.
  induction 1 as [|b l1 Hb Hl IH]; cbn [app unshield]; [by destruct (unshield false l2) as [[? ?] ?]|].
  rewrite (proj2 (Z.eqb_neq b DLE)) by done. rewrite IH. by destruct (unshield false l2) as [[? ?] ?].
Qed.

Lemma unshield_plain_end l : Forall (fun b => b <> DLE) l -> unshield false l = (l, false, None).
Proof.
  intros H. pose proof (unshield_plain l [] H) as E. rewrite app_nil_r in E. rewrite E. cbn.
  by rewrite app_nil_r.
Qed.

(** One block at most: the loop that does not advance does not matter. *)
Lemma put_run_spec d p n : p_eof (stream d) = false -> (n <= length p)%nat ->
  (bitRev d = false \/ (n <= 1024)%nat) ->
  put_run d p n = d <| stream := with_octets (stream d) (map (rev_octet (bitRev d)) (take n p)) |>.
Proof.
  intros He Hn Hc. unfold put_run. destruct (Nat.eqb_spec n 0) as [->|H0].
  { cbn. rewrite with_octets_nil. by destruct d. }
  destruct (bitRev d) eqn:Er.
  - destruct Hc as [|Hc]; [done|]. destruct n as [|n]; [done|]. cbn [put_reversed].
    rewrite (proj2 (Nat.ltb_ge 1024 (S n))) by done. rewrite Nat.sub_diag.
    unfold pipe_put. rewrite He. cbn [snd]. by destruct n.
  - unfold pipe_put. rewrite He. cbn [snd]. unfold with_octets, rev_octet. by rewrite map_id.
Qed.

Lemma unshield_left_le q l : match (unshield q l).2 with Some r => (length r < length l)%nat | None => True end.
Proof.
  revert q. induction l as [|b l IH]; intros q; cbn [unshield]; [done|].
  pose proof (IH true) as I1. pose proof (IH false) as I0.
  destruct (unshield true l) as [[o1 q1] [e1|]], (unshield false l) as [[o0 q0] [e0|]];
    destruct q, (b =? DLE), (b =? ETX); cbn in *; lia.
Qed.

(** The state after a decoded run. *)
Definition received (d : DLEData) (out : list Z) (q : bool) (ended : bool) : DLEData :=
  let s := with_octets (stream d) (map (rev_octet (bitRev d)) out) in
  d <| dle := q |> <| stream := if ended then pipe_put_eof s else s |>.

Lemma put_dle_loop_spec : forall fuel d p, (length p <= fuel)%nat -> p_eof (stream d) = false ->
  (bitRev d = false \/ (length p <= 1024)%nat) ->
  put_dle_loop fuel d p =
    let '(out, q, e) := unshield (dle d) p in
    (received d out q (match e with Some _ => true | None => false end),
     match e with Some l => length l | None => 0%nat end).
Proof.
  induction fuel as [|fuel IH]; intros d p Hl He Hr.
  { destruct p; [|simpl in Hl; lia]. cbn. unfold received. cbn. rewrite with_octets_nil. by destruct d. }
  destruct p as [|b rest].
  { cbn. unfold received. cbn. rewrite with_octets_nil. by destruct d. }
  (* the scan from [p], its first [skip] octets being data *)
  assert (forall p skip, (skip <= length p)%nat -> (length p <= S fuel)%nat ->
    (bitRev d = false \/ (length p <= 1024)%nat) ->
    match find_dle (drop skip p) with
    | Some k => put_dle_loop fuel (put_run (d <| dle := false |> <| dle := true |>) p (skip + k)) (drop (skip + k + 1) p)
    | None => put_dle_loop fuel (put_run (d <| dle := false |>) p (length p)) []
    end =
    let '(out, q, e) := unshield false (drop skip p) in
    (received d (take skip p ++ out) q (match e with Some _ => true | None => false end),
     match e with Some l => length l | None => 0%nat end)) as Hscan.
  { clear Hl Hr. intros p skip Hs Hl Hr. pose proof (find_dle_spec (drop skip p)) as Hf.
    destruct (find_dle (drop skip p)) as [k|].
    - destruct Hf as (Hk & E & Hf). rewrite length_drop in Hk.
      rewrite put_run_spec; [|done|lia|destruct Hr; [by left|right; lia]].
      set (d1 := (d <| dle := false |> <| dle := true |>) <| stream := _ |>).
      rewrite IH; [|rewrite length_drop; lia|done|destruct Hr; [by left|right; rewrite length_drop; lia]].
      change (dle d1) with true. change (bitRev d1) with (bitRev d).
      assert (unshield false (drop skip p) = let '(out, q, e) := unshield true (drop (S k) (drop skip p)) in
        (take k (drop skip p) ++ out, q, e)) as ->.
      { rewrite E at 1. rewrite unshield_plain by done. done. }
      rewrite drop_drop. replace (skip + k + 1)%nat with (skip + S k)%nat by lia.
      destruct (unshield true (drop (skip + S k) p)) as [[out q] e]. f_equal.
      unfold received. change (bitRev d1) with (bitRev d).
      change (stream d1) with (with_octets (stream d) (map (rev_octet (bitRev d)) (take (skip + k) p))).
      rewrite with_octets_app, <- map_app.
      assert (take (skip + k) p ++ out = take skip p ++ take k (drop skip p) ++ out) as ->.
      { rewrite app_assoc. f_equal. rewrite <- (take_drop skip p) at 1.
        rewrite take_app_ge by (rewrite length_take; lia). f_equal. f_equal. rewrite length_take. lia. }
      done.
    - rewrite put_run_spec; [|done|lia|destruct Hr; [by left|right; lia]].
      rewrite unshield_plain_end by done. rewrite take_drop, firstn_all. destruct fuel; done. }
  cbn [put_dle_loop unshield]. destruct (dle d) eqn:Ed; cbn [andb].
  - destruct (Z.eqb_spec b DLE) as [->|Hb]; cbn [negb andb].
    + rewrite (Hscan (DLE :: rest) 1%nat) by (done || simpl; lia). cbn [drop take app]. rewrite ?drop_0, ?take_0.
      by destruct (unshield false rest) as [[out q] e].
    + destruct (Z.eqb_spec b ETX) as [->|Hx].
      * unfold received. cbn [map]. rewrite with_octets_nil. done.
      * rewrite (Hscan rest 0%nat) by (simpl in *; lia || (destruct Hr; [by left|right; lia])).
        cbn [drop take app]. rewrite ?drop_0, ?take_0. done.
  - rewrite (Hscan (b :: rest) 0%nat) by (done || lia). cbn [drop take app unshield]. rewrite ?drop_0, ?take_0. cbn [unshield app].
    by destruct (b =? DLE).
Qed.

(** ** Sending: the octets shielded *)

Lemma length_shield_bounds r l : zlen l <= zlen (shield r l) <= 2 * zlen l.
Proof.
  induction l as [|t l IH]; cbn [shield]; [simpl; lia|]. rewrite length_app. cbn [length].
  destruct (_ =? DLE); simpl length; lia.
Qed.

Lemma shield_app r a b : shield r (a ++ b) = shield r a ++ shield r b.
Proof. induction a as [|t a IH]; cbn [app shield]; [done|]. by rewrite IH, <- app_assoc. Qed.

(** What a call leaves: [k] octets gone out, and then the end or the rest. *)
Record dle_sent (d : DLEData) (room : Z) (out : list Z) (d' : DLEData) : Prop := {
  sent_rest : exists k, let l := p_octets (stream d) in
    (k <= length l)%nat /\
    ((d' = d <| stream := stream d <| p_octets := [] |> |> <| recvEtx := true |> /\
      p_eof (stream d) = true /\ out = shield (bitRev d) l ++ [DLE; ETX]) \/
     (d' = d <| stream := stream d <| p_octets := drop k l |> |> /\ out = shield (bitRev d) (take k l) /\
      (room - zlen out < 4 \/ (k = length l /\ p_eof (stream d) = false))));
  sent_room : zlen out <= room;
}.

Lemma stream_id d : d <| stream := stream d <| p_octets := p_octets (stream d) |> |> = d.
Proof. destruct d as [[? ? ? ?] ? ? ?]. done. Qed.

Lemma get_dle_loop_spec : forall fuel d count done_, 0 <= done_ <= count ->
  count - done_ <= Z.of_nat fuel -> 
  let '(out, d') := get_dle_loop fuel d count done_ in dle_sent d (count - done_) out d'.
Proof.
  induction fuel as [|fuel IH]; intros d count dn Hd Hf; cbn [get_dle_loop].
  { split; [|simpl; lia]. exists 0%nat. cbv zeta. rewrite drop_0, take_0, stream_id.
    split; [lia|right; split; [done|split; [done|left; simpl; lia]]]. }
  destruct (Z.leb_spec 4 (count - dn)) as [H4|H4].
  2: { split; [|simpl; lia]. exists 0%nat. cbv zeta. rewrite drop_0, take_0, stream_id.
       split; [lia|right; split; [done|split; [done|left; simpl; lia]]]. }
  rewrite Z.quot_div_nonneg by lia.
  set (q := (count - dn - 2) / 2).
  assert (1 <= q /\ 2 * q <= count - dn - 2) as [Hq1 Hq2].
  { unfold q. split; [apply Z.div_le_lower_bound; lia|apply Z.mul_div_le; lia]. }
  set (g := if 1024 <? q then 1024 else q). assert (1 <= g <= q) as Hg by (unfold g; case_match; lia).
  unfold pipe_get. destruct (p_octets (stream d)) as [|b l] eqn:El.
  - destruct (p_eof (stream d)) eqn:Ee.
    + cbn [Z.eqb Pos.eqb]. split; [|simpl; lia]. exists 0%nat. rewrite El. cbv zeta. split; [lia|]. left.
      split; [|by rewrite Ee]. destruct d as [[? ? ? ?] ? ? ?]. cbn in El |- *. by subst.
    + cbn [Z.eqb]. split; [|simpl; lia]. exists 0%nat. rewrite El. cbv zeta. split; [lia|]. right.
      split; [|split; [done|right; by rewrite Ee]].
      destruct d as [[? ? ? ?] ? ? ?]. cbn in El |- *. by subst.
  - rewrite <- El. set (L := p_octets (stream d)) in *.
    assert (1 <= zlen L) as HL by (rewrite El; simpl; lia).
    set (tmp := take (Z.to_nat g) L). assert (1 <= zlen tmp <= g) as Ht by (unfold tmp; rewrite length_take; lia).
    replace (zlen tmp =? -1) with false by lia. replace (zlen tmp =? 0) with false by lia.
    change (bitRev (d <| stream := _ |>)) with (bitRev d). set (out := shield (bitRev d) tmp).
    pose proof (length_shield_bounds (bitRev d) tmp) as Hb. fold out in Hb.
    set (d1 := d <| stream := stream d <| p_octets := drop (Z.to_nat g) L |> |>).
    specialize (IH d1 count (dn + zlen out) ltac:(lia) ltac:(lia)).
    destruct (get_dle_loop fuel d1 count (dn + zlen out)) as [rest d2].
    destruct IH as [(k & Hk & HR) Hroom]. split; [|rewrite length_app; lia].
    change (p_octets (stream d1)) with (drop (Z.to_nat g) L) in *. rewrite length_drop in Hk.
    change (bitRev d1) with (bitRev d) in *. change (p_eof (stream d1)) with (p_eof (stream d)) in *.
    exists (Nat.min (Z.to_nat g) (length L) + k)%nat. cbv zeta. fold L. split; [lia|].
    destruct HR as [(-> & He & ->)|(-> & -> & Hend)].
    + left. split; [done|]. split; [done|]. unfold out, tmp.
      by rewrite app_assoc, <- shield_app, take_drop.
    + right. assert (drop k (drop (Z.to_nat g) L) = drop (Nat.min (Z.to_nat g) (length L) + k) L) as Ed.
      { rewrite drop_drop. destruct (Nat.le_ge_cases (Z.to_nat g) (length L)).
        - f_equal. lia.
        - rewrite !drop_ge by lia. done. }
      assert (take (Z.to_nat g) L ++ take k (drop (Z.to_nat g) L) = take (Nat.min (Z.to_nat g) (length L) + k) L) as Et.
      { destruct (Nat.le_ge_cases (Z.to_nat g) (length L)).
        - rewrite take_take_drop. f_equal. lia.
        - rewrite (drop_ge L), take_nil, app_nil_r, !take_ge by lia. done. }
      split; [|split].
      * unfold d1. rewrite <- Ed. done.
      * unfold out, tmp. by rewrite <- shield_app, Et.
      * rewrite length_app. destruct Hend as [Hend|[Hend He]]; [left; lia|right]. split; [|done].
        rewrite length_drop in Hend. lia.
Qed.

Lemma get_dle_spec d count : 0 <= count -> recvEtx d = false ->
  let '(r, out, d') := GetDleData d count in r = zlen out /\ dle_sent d count out d'.
Proof.
  intros Hc He. unfold GetDleData. rewrite He.
  pose proof (get_dle_loop_spec (Z.to_nat count) d count 0 ltac:(lia) ltac:(lia)) as H.
  destruct (get_dle_loop (Z.to_nat count) d count 0) as [out d']. by rewrite Z.sub_0_r in H.
Qed.

(** ** Both together *)

Fixpoint gets (d : DLEData) (counts : list Z) : list Z * DLEData :=
  match counts with
  | [] => ([], d)
  | c :: counts =>
      let '(_, out, d) := GetDleData d c in
      let '(rest, d) := gets d counts in (out ++ rest, d)
  end.

Fixpoint puts (d : DLEData) (bufs : list (list Z)) : DLEData :=
  match bufs with
  | [] => d
  | b :: bufs => puts (PutDleData d b).2 bufs
  end.

Lemma gets_done d counts : recvEtx d = true -> gets d counts = ([], d).
Proof.
  intros H. induction counts as [|c counts IH]; [done|]. cbn [gets]. unfold GetDleData. by rewrite H, IH.
Qed.

(** Enough calls, with room for four octets each, get everything out. *)
Lemma gets_all : forall counts d, Forall (fun c => 4 <= c) counts -> recvEtx d = false ->
  p_eof (stream d) = true -> (length (p_octets (stream d)) < length counts)%nat ->
  let '(out, d') := gets d counts in
  out = shield (bitRev d) (p_octets (stream d)) ++ [DLE; ETX] /\ recvEtx d' = true.
Proof.
  induction counts as [|c counts IH]; intros d Hc He Hf Hl; [simpl in Hl; lia|].
  apply Forall_cons_1 in Hc as [Hc Hcs]. cbn [gets length] in *.
  pose proof (get_dle_spec d c ltac:(lia) He) as H.
  destruct (GetDleData d c) as [[r out] d1]. destruct H as [_ [(k & Hk & HR) Hroom]].
  set (L := p_octets (stream d)) in *.
  destruct HR as [(-> & _ & ->)|(-> & -> & Hend)].
  - rewrite gets_done by done. by rewrite app_nil_r.
  - destruct Hend as [Hend|[_ Hno]]; [|congruence].
    set (d1 := d <| stream := stream d <| p_octets := drop k L |> |>).
    pose proof (length_shield_bounds (bitRev d) (take k L)) as Hb. rewrite length_take in Hb.
    assert (1 <= k)%nat by lia.
    specialize (IH d1 Hcs He Hf). change (p_octets (stream d1)) with (drop k L) in IH.
    specialize (IH ltac:(rewrite length_drop; lia)). destruct (gets d1 counts) as [rest d2].
    destruct IH as [-> E2]. split; [|done]. change (bitRev d1) with (bitRev d).
    by rewrite app_assoc, <- shield_app, take_drop.
Qed.

Lemma unshield_app q a b :
  unshield q (a ++ b) =
    let '(out, q', e) := unshield q a in
    match e with
    | Some l => (out, q', Some (l ++ b))
    | None => let '(out2, q2, e2) := unshield q' b in (out ++ out2, q2, e2)
    end.
Proof.
  revert q. induction a as [|x a IH]; intros q; cbn [app unshield].
  { by destruct (unshield q b) as [[? ?] ?]. }
  destruct q, (x =? DLE), (x =? ETX); rewrite ?IH; try done;
    try (destruct (unshield false a) as [[o1 q1] [e1|]]; try done;
         destruct (unshield q1 b) as [[o2 q2] e2]; done).
Qed.

Lemma put_dle_spec d buf : p_eof (stream d) = false -> (bitRev d = false \/ (length buf <= 1024)%nat) ->
  PutDleData d buf =
    let '(out, q, e) := unshield (dle d) buf in
    (zlen buf - match e with Some l => zlen l | None => 0 end,
     received d out q (match e with Some _ => true | None => false end)).
Proof.
  intros He Hr. unfold PutDleData.
  assert (((pipe_put (stream d) []).1 <? 0) = false) as -> by (unfold pipe_put; by rewrite He).
  rewrite put_dle_loop_spec by done. by destruct (unshield (dle d) buf) as [[out q] [e|]].
Qed.

(** Data in several pieces, up to the end mark. *)
Lemma puts_all : forall bufs d l, p_eof (stream d) = false ->
  (bitRev d = false \/ Forall (fun b => (length b <= 1024)%nat) bufs) ->
  unshield (dle d) (concat bufs) = (l, false, Some []) -> p_octets (stream (puts d bufs)) =
    p_octets (stream d) ++ map (rev_octet (bitRev d)) l /\ p_eof (stream (puts d bufs)) = true.
Proof.
  induction bufs as [|b bufs IH]; intros d l He Hr Hu; cbn [puts concat] in *; [done|].
  assert (bitRev d = false \/ (length b <= 1024)%nat) as Hrb.
  { destruct Hr as [Hr|Hr]; [by left|right]. by apply Forall_cons_1 in Hr as [Hr _]. }
  assert (bitRev d = false \/ Forall (fun b => (length b <= 1024)%nat) bufs) as Hrs.
  { destruct Hr as [Hr|Hr]; [by left|right]. by apply Forall_cons_1 in Hr as [_ Hr]. }
  rewrite put_dle_spec by done. rewrite unshield_app in Hu.
  destruct (unshield (dle d) b) as [[out q] [e|]].
  - injection Hu as -> -> Ee. apply app_eq_nil in Ee as [-> Eb]. cbn [snd].
    set (d1 := received d l false true).
    assert (puts d1 bufs = d1) as ->.
    { assert (p_eof (stream d1) = true) as Hd1 by done. clearbody d1. clear - Eb Hd1.
      induction bufs as [|b bufs IH]; [done|]. cbn [concat] in Eb. apply app_eq_nil in Eb as [-> Eb].
      cbn [puts]. unfold PutDleData, pipe_put. rewrite Hd1. cbn [fst Z.ltb Z.compare snd]. by apply IH. }
    done.
  - cbn [snd]. set (d1 := received d out q false).
    destruct (unshield q (concat bufs)) as [[out2 q2] e2] eqn:E2. injection Hu as <- -> ->.
    destruct (IH d1 out2 He Hrs E2) as [H1 H2]. rewrite H1, H2. split; [|done].
    change (bitRev d1) with (bitRev d).
    change (p_octets (stream d1)) with (p_octets (stream d) ++ map (rev_octet (bitRev d)) out).
    by rewrite map_app, app_assoc.
Qed.

Lemma unshield_shield r l : unshield false (shield r l ++ [DLE; ETX]) = (map (rev_octet r) l, false, Some []).
Proof.
  induction l as [|t l IH]; [done|]. cbn [shield map]. fold (rev_octet r t).
  change (if r then aget BitRevTable t else t) with (rev_octet r t). rewrite <- !app_assoc. cbn [app].
  destruct (Z.eqb_spec (rev_octet r t) DLE) as [->|H]; cbn [app unshield].
  - change (DLE =? DLE) with true. by rewrite IH.
  - rewrite (proj2 (Z.eqb_neq _ DLE)) by done. by rewrite IH.
Qed.

Lemma rev_octet_twice r b : is_byte b -> rev_octet r (rev_octet r b) = b.
Proof.
  intros Hb. destruct r; [|done]. unfold rev_octet.
  enough ((aget BitRevTable (aget BitRevTable b) =? b) = true) by lia.
  by_evaluation 256%nat (fun b => aget BitRevTable (aget BitRevTable b) =? b) b. exact Hb.
Qed.

Lemma sent_put bufs d l : bytes l -> concat bufs = shield (bitRev d) l ++ [DLE; ETX] -> dle d = false ->
  p_eof (stream d) = false -> p_octets (stream d) = [] ->
  (bitRev d = false \/ Forall (fun b => (length b <= 1024)%nat) bufs) ->
  p_octets (stream (puts d bufs)) = l /\ p_eof (stream (puts d bufs)) = true.
Proof.
  intros Hl Hb Hd He Ho Hr. pose proof (unshield_shield (bitRev d) l) as Hu. rewrite <- Hb, <- Hd in Hu.
  destruct (puts_all bufs d (map (rev_octet (bitRev d)) l) He Hr) as [H1 H2].
  { by rewrite Hu, Hd. }
  rewrite H1, H2, Ho, map_map. split; [|done]. cbn [app]. rewrite <- (map_id l) at 2.
  apply map_ext_in. intros b Hin. apply rev_octet_twice. by apply (proj1 (List.Forall_forall _ l) Hl).
Qed.

(** ** Properties *)

(** C24: whatever octets the modem's stream holds when its end is marked, a
    reader that asks for four octets at least each time, and more often than
    there are octets, draws from [GetDleData] a coding that ends in DLE ETX,
    never more than it asked for; and however that coding is then cut into
    pieces, [PutDleData] on the other side decodes it to the same octets with
    the end marked, provided that with reversed bits no piece is longer than
    the 1024 octets of the temporary buffer. *)
Theorem dle_roundtrip tx rx counts bufs : bytes (p_octets (stream tx)) ->
  p_eof (stream tx) = true -> recvEtx tx = false ->
  Forall (fun c => 4 <= c) counts -> (length (p_octets (stream tx)) < length counts)%nat ->
  bitRev rx = bitRev tx -> dle rx = false -> stream rx = pipe_new 0 ->
  concat bufs = (gets tx counts).1 ->
  (bitRev rx = false \/ Forall (fun b => (length b <= 1024)%nat) bufs) ->
  p_octets (stream (puts rx bufs)) = p_octets (stream tx) /\ p_eof (stream (puts rx bufs)) = true /\
  recvEtx (gets tx counts).2 = true.
Proof.
  intros Hl He Hx Hc Hn Hr Hd Hs Hb Hp. pose proof (gets_all counts tx Hc Hx He Hn) as HG.
  destruct (gets tx counts) as [out d]. destruct HG as [-> HG]. cbn [fst snd] in *.
  rewrite <- Hr in Hb. edestruct (sent_put bufs rx _ Hl Hb) as [-> ->]; rewrite ?Hs; by try done.
Qed.

Definition sample_stream : DLEData := DLEData_new <| bitRev := true |>
  <| stream := {| p_octets := [0x08; 0xC0; 0x10; 0x55]; p_eof := true; p_diag := 0; p_threshold := 0 |} |>.

Lemma dle_roundtrip_witness :
  gets sample_stream [4; 4; 4; 4; 4; 4] =
    ([0x10; 0x10; 0x03; 0x08; 0xAA; 0x10; 0x03], sample_stream <| stream := pipe_put_eof (pipe_new 0) |> <| recvEtx := true |>) /\
  p_octets (stream (puts (BitRev DLEData_new true) [[0x10]; [0x10; 0x03; 0x08]; [0xAA; 0x10]; [0x03]])) =
    [0x08; 0xC0; 0x10; 0x55].
Proof.
  split; [vm_compute; reflexivity|].
  refine (proj1 (dle_roundtrip sample_stream (BitRev DLEData_new true) [4; 4; 4; 4; 4; 4] _ _ _ _ _ _ _ _ _ _ _));
    try (vm_compute; reflexivity); try (repeat constructor; by vm_compute).
Defined.

(** One call of [GetDleData] with a [count] of any size returns the octets
    it wrote, never more than [count]; it takes octets off the head of the
    stream, writes exactly their coding, and adds DLE ETX only when the stream
    is then empty with its end marked; it stops only when fewer than four
    octets of room are left or the stream has nothing to give. *)
Theorem get_dle_data_spec d count : 0 <= count -> recvEtx d = false ->
  let '(r, out, d') := GetDleData d count in r = zlen out /\ dle_sent d count out d'.
Proof. apply get_dle_spec. Qed.

Lemma get_dle_data_spec_witness :
  let '(r, out, d') := GetDleData sample_stream 9 in r = zlen out /\ dle_sent sample_stream 9 out d'.
Proof. apply (get_dle_data_spec sample_stream 9); [lia|reflexivity]. Defined.

(** A run longer than the temporary buffer. *)
Definition long_run : list Z := repeat 0x80 1024 ++ [0x01].

(** In the reversing branch a run of 1025 octets is decoded as its first
    1024 octets followed by the first one again, where the same run without
    reversal arrives whole; the last octet is lost. *)
Theorem put_dle_long_run :
  p_octets (stream (PutDleData DLEData_new long_run).2) = long_run /\
  p_octets (stream (PutDleData (BitRev DLEData_new true) long_run).2) = repeat 0x01 1025 /\
  map (rev_octet true) long_run = repeat 0x01 1024 ++ [0x80].
Proof. by vm_compute. Qed.
