(* ===== verification/EngineBase.v ===== *)
(** * What the engines share (src/t38modem/enginebase.h)

    The data types a modem asks an engine for, the diagnostics of a received
    frame, the classes of a modem, and the parameters of the modem's callback. *)
From S2P Require Import Prelude.

Inductive DataType := dtNone | dtRing | dtBusy | dtCed | dtCng | dtSilence | dtHdlc | dtRaw.

#[export] Instance DataType_eq_dec : EqDecision DataType.
Proof. solve_decision. Defined.

Inductive ModemClass := mcUndefined | mcAudio | mcFax.

#[export] Instance ModemClass_eq_dec : EqDecision ModemClass.
Proof. solve_decision. Defined.

Definition diagNoCarrier : Z := 0x0001.
Definition diagOutOfOrder : Z := 0x0100.
Definition diagDiffSig : Z := 0x0400.
Definition diagBadFcs : Z := 0x0800.
Definition diagError : Z := 0x8000.
Definition diagErrorMask : Z := 0xFF00.

Definition cbpUserDataMask : Z := 0xFF.
Definition cbpOutBufNoFull : Z := 256.
Definition cbpUpdateState : Z := 257.
Definition cbpReset : Z := -1.
Definition cbpOutBufEmpty : Z := -2.
Definition cbpUserInput : Z := -3.
