(* ===== verification/PmHdlc.v ===== *)
(** * HDLC in the modem (src/t38modem/fcs.h, fcs.cxx, hdlc.h, hdlc.cxx)

    The class between the fax application's data and T.38: it turns frames into
    the raw bit stream of a modulation, with frame check sequence, zero insertion
    and flags, and finds frames in a raw stream.  Octets go most significant bit
    first.  [inData] points to a stream of the engine, which the operations take
    and give back as the [pipe] that DataStream implements. *)
From S2P Require Import Prelude DataStream EngineBase.

(** ** Definitions *)

(** *** FCS *)

(** One turn of the inner loop: the octet is [c], its bit [m]. *)
Definition fcs_bit (c fcs m : Z) : Z :=
  let fcs := u32 (fcs .<< 1) in
  let fcs := if c .& m =? 0 then fcs else fcs .^ 0x10000 in
  if fcs .& 0x10000 =? 0 then fcs else fcs .^ 0x11021.

Definition fcs_octet (fcs c : Z) : Z :=
  fold_left (fcs_bit c) [0x80; 0x40; 0x20; 0x10; 0x08; 0x04; 0x02; 0x01] fcs.

Definition FCS_new : Z := 0xFFFF.
Definition build (fcs : Z) (buf : list Z) : Z := fold_left fcs_octet buf fcs.

(** [operator WORD] *)
Definition fcs_word (fcs : Z) : Z := u16 (Z.lnot fcs).

(** *** The state *)

Inductive HdlcState := stEof | stSync | stSkipFlags | stData.

Record HDLC := {
  inDataType : DataType;
  outDataType : DataType;
  inData : option positive;
  outData : pipe;
  fcs : Z;
  lastChar : Z;
  rawCount : Z;
  rawByte : Z;
  rawByteLen : Z;
  rawOnes : Z;
  hdlcChunk : Z;
  hdlcChunkLen : Z;
  hdlcState : HdlcState;
}.

#[export] Instance eta_pm_hdlc : Eta HDLC := fun h =>
  Build_HDLC (inDataType h) (outDataType h) (inData h) (outData h) (fcs h) (lastChar h) (rawCount h)
    (rawByte h) (rawByteLen h) (rawOnes h) (hdlcChunk h) (hdlcChunkLen h) (hdlcState h).

(** The constructor leaves the last octet and the last bits unset: [byte0],
    [chunk0], [len0] are what the memory holds. *)
Definition HDLC_new (byte0 chunk0 len0 : Z) : HDLC := {|
  inDataType := dtNone; outDataType := dtNone; inData := None; outData := pipe_new 0;
  fcs := FCS_new; lastChar := -1; rawCount := 0; rawByte := byte0; rawByteLen := 0; rawOnes := 0;
  hdlcChunk := chunk0; hdlcChunkLen := len0; hdlcState := stEof |}.

(** *** Packing *)

(** [if (++rawByteLen == 8) ...] *)
Definition pack_count (h : HDLC) (w : Z) : HDLC :=
  let h := h <| rawByteLen := rawByteLen h + 1 |> in
  if rawByteLen h =? 8 then
    h <| rawByte := u8 (w .>> 8) |>
      <| outData := (pipe_put (outData h) [u8 (w .>> 8)]).2 |>
      <| rawByteLen := 0 |>
  else h.

(** One turn of the loop on the bits of an octet. *)
Definition pack_bit (flag : bool) (hw : HDLC * Z) : HDLC * Z :=
  let '(h, w) := hw in
  let w := u16 (w .<< 1) in
  let h := pack_count h w in
  if flag then (h, w)
  else if w .& 0x100 =? 0 then (h <| rawOnes := 0 |>, w)
  else
    let h := h <| rawOnes := rawOnes h + 1 |> in
    if rawOnes h =? 5 then
      let w := u16 (((w .& 0xFF00) .<< 1) .| (w .& 0xFF)) in
      let h := pack_count h w in
      (h <| rawOnes := 0 |>, w)
    else (h, w).

Definition pack_octet (flag : bool) (hw : HDLC * Z) (b : Z) : HDLC * Z :=
  let '(h, w) := hw in
  Nat.iter 8 (pack_bit flag) (h, w .| (b .& 0xFF)).

Definition pack (h : HDLC) (buf : list Z) (flag : bool) : HDLC :=
  let w := u16 (rawByte h .<< 8) in
  let '(h, w) := fold_left (pack_octet flag) buf (h, w) in
  let h := h <| rawByte := u8 (w .>> 8) |> in
  if flag then h <| rawOnes := 0 |> else h.

(** *** Unpacking *)

(** [rawByte] and [b] side by side, the bits already looked at shifted out. *)
Definition window (h : HDLC) (b : Z) : Z :=
  u16 (u16 ((rawByte h .<< 8) .| (b .& 0xFF)) .<< (8 - rawByteLen h)).

(** The loop of [sync]: [n] turns are left, [j] from [9 - n] to 8. *)
Fixpoint sync_loop (n : nat) (h : HDLC) (w : Z) : bool * HDLC :=
  let j := 9 - Z.of_nat n in
  match n with
  | O => (false, h <| rawByte := u8 (w .>> j) |> <| rawByteLen := 7 |>)
  | S n =>
      if w .>> 8 =? 0x7E then
        (true, h <| rawByte := u8 (w .>> j) |> <| rawByteLen := 8 - j |>)
      else sync_loop n h (u16 (w .<< 1))
  end.

Definition sync (h : HDLC) (b : Z) : bool * HDLC :=
  sync_loop (Z.to_nat (rawByteLen h + 1)) h (window h b).

Definition skipFlag (h : HDLC) (b : Z) : bool * HDLC :=
  let w := window h b in
  if w .>> 8 =? 0x7E then (true, h <| rawByte := u8 (w .>> (8 - rawByteLen h)) |>)
  else (false, h).

(** The bit at the head of the window goes into the chunk, unless it is a
    stuffed zero; a chunk of 24 bits gives up its oldest octet. *)
Definition unpack_bit (h : HDLC) (w : Z) : HDLC :=
  let h :=
    if w .& 0x8000 =? 0 then
      let h := if rawOnes h =? 5 then h
               else h <| hdlcChunk := u32 (hdlcChunk h .<< 1) |>
                      <| hdlcChunkLen := hdlcChunkLen h + 1 |> in
      h <| rawOnes := 0 |>
    else
      h <| hdlcChunk := u32 (hdlcChunk h .<< 1) .| 1 |>
        <| hdlcChunkLen := hdlcChunkLen h + 1 |>
        <| rawOnes := rawOnes h + 1 |> in
  if hdlcChunkLen h =? 24 then
    h <| outData := (pipe_put (outData h) [u8 (hdlcChunk h .>> 16)]).2 |>
      <| hdlcChunkLen := 16 |>
  else h.

Fixpoint unpack_loop (n : nat) (h : HDLC) (w : Z) : bool * HDLC :=
  let j := 9 - Z.of_nat n in
  match n with
  | O => (true, h <| rawByte := u8 (w .>> j) |> <| rawByteLen := 7 |>)
  | S n =>
      if w .>> 8 =? 0x7E then
        (false, h <| rawByte := u8 (w .>> j) |> <| rawByteLen := 8 - j |>)
      else unpack_loop n (unpack_bit h w) (u16 (w .<< 1))
  end.

Definition unpack (h : HDLC) (b : Z) : bool * HDLC :=
  unpack_loop (Z.to_nat (rawByteLen h + 1)) h (window h b).

(** *** Getting data: a result, the octets written, the state and the stream *)

Definition GetInData (h : HDLC) (s : pipe) (count : Z) : Z * list Z * HDLC * pipe :=
  match inData h with
  | None => (-1, [], h, s)
  | Some _ =>
      let '(len, out, s) := pipe_get s count in
      if 0 <? len then
        (len, out, h <| rawCount := rawCount h + len |> <| lastChar := aget out (len - 1) |>, s)
      else if len <? 0 then (-1, [], h <| inData := None |>, s)
      else (len, out, h, s)
  end.

(** [if (inData) ...] in the loop of [GetRawData]; [None] for its [break]. *)
Definition raw_refill (h : HDLC) (s : pipe) : option (HDLC * pipe) :=
  match inData h with
  | None => Some (h, s)
  | Some _ =>
      let '(inLen, Buf, s) := pipe_get s 256 in
      if inLen <? 0 then
        let w := fcs_word (fcs h) in
        let b0 := u8 (w .>> 8) in
        let b1 := u8 (w .& 0xFF) in
        let b0 := if p_diag s .& diagErrorMask =? 0 then b0 else u8 (b0 + 1) in
        let h := pack h [b0; b1] false in
        let h := pack h [0x7E; 0x7E] true in
        Some (h <| outData := pipe_put_eof (outData h) |> <| inData := None |>, s)
      else if 0 <? inLen then
        let h := h <| lastChar := aget Buf (inLen - 1) |> <| fcs := build (fcs h) Buf |> in
        Some (pack h Buf false, s)
      else None
  end.

(** The [do ... while (count)] loop, [len] octets having been written before:
    whether it is left by [return -1], and the octets.  [None] when the fuel is
    out. *)
Fixpoint raw_loop (fuel : nat) (h : HDLC) (s : pipe) (count len : Z) :
    option (bool * list Z * HDLC * pipe) :=
  match fuel with
  | O => None
  | S fuel =>
      match raw_refill h s with
      | None => Some (false, [], h, s)
      | Some (h, s) =>
          let '(outLen, out, o) := pipe_get (outData h) count in
          let h := h <| outData := o |> in
          if outLen <? 0 then Some (negb (0 <? len), [], h, s)
          else
            let count := count - outLen in
            let len := len + outLen in
            if count =? 0 then Some (false, out, h, s)
            else
              '(r, rest, h, s) ← raw_loop fuel h s count len;
              Some (r, out ++ rest, h, s)
      end
  end.

(** A turn that goes on has taken an octet of the stream, or its end, or has
    written an octet. *)
Definition raw_fuel (s : pipe) (count : Z) : nat :=
  (length (p_octets s) + Z.to_nat count + 3)%nat.

Definition GetRawData (h : HDLC) (s : pipe) (count : Z) : option (Z * list Z * HDLC * pipe) :=
  match inDataType h with
  | dtRaw => Some (GetInData h s count)
  | dtHdlc =>
      let '(outLen, out, o) := pipe_get (outData h) count in
      let h := h <| outData := o |> in
      if outLen <? 0 then Some (-1, [], h, s)
      else
        '(r, rest, h, s) ← raw_loop (raw_fuel s count) h s (count - outLen) outLen;
        if (r : bool) then Some (-1, [], h, s)
        else
          let out := out ++ rest in
          let len := zlen out in
          let h := if 0 <? len then h <| rawCount := rawCount h + len |> else h in
          Some (len, out, h, s)
  | _ => Some (0, [], h, s)
  end.

(** The state machine on an octet of the raw stream. *)
Definition hdlc_octet (h : HDLC) (b : Z) : HDLC :=
  let h := h <| lastChar := b |> <| rawCount := rawCount h + 1 |> in
  let data h :=
    let '(more, h) := unpack h b in
    if (more : bool) then h
    else h <| outData := pipe_put_eof (outData h) |> <| hdlcState := stEof |> in
  match hdlcState h with
  | stSync =>
      let '(found, h) := sync h b in
      if (found : bool) then h <| hdlcState := stSkipFlags |> else h
  | stSkipFlags =>
      let '(flag, h) := skipFlag h b in
      if (flag : bool) then h else data (h <| hdlcState := stData |>)
  | stData => data h
  | stEof => h
  end.

Definition is_stEof (h : HDLC) : bool := match hdlcState h with stEof => true | _ => false end.
Definition is_stData (h : HDLC) : bool := match hdlcState h with stData => true | _ => false end.

(** The loop on the octets of the raw stream, [len] octets having been written
    before: whether it is left by [return -1], and the octets. *)
Fixpoint hdlc_loop (fuel : nat) (h : HDLC) (s : pipe) (count len : Z) :
    option (bool * list Z * HDLC * pipe) :=
  match fuel with
  | O => None
  | S fuel =>
      let '(res, bs, s) := pipe_get s 1 in
      if res =? 0 then Some (false, [], h, s)
      else
        let h :=
          if res <? 0 then
            h <| outData := pipe_put_eof (outData h) |> <| inData := None |> <| hdlcState := stEof |>
          else hdlc_octet h (aget bs 0) in
        if is_stEof h || is_stData h then
          let '(outLen, out, o) := pipe_get (outData h) count in
          let h := h <| outData := o |> in
          if outLen <? 0 then Some (negb (0 <? len), [], h, s)
          else
            let h := if 0 <? outLen then h <| fcs := build (fcs h) out |> else h in
            let count := count - outLen in
            let len := len + outLen in
            if (count =? 0) || is_stEof h then Some (false, out, h, s)
            else
              '(r, rest, h, s) ← hdlc_loop fuel h s count len;
              Some (r, out ++ rest, h, s)
        else hdlc_loop fuel h s count len
  end.

Definition GetHdlcData (h : HDLC) (s : pipe) (count : Z) : option (Z * list Z * HDLC * pipe) :=
  match inDataType h with
  | dtHdlc =>
      let '(len, out, h, s) := GetInData h s count in
      let h := if 0 <? len then h <| fcs := build (fcs h) out |> else h in
      Some (len, out, h, s)
  | dtRaw =>
      if negb (bool_decide (is_Some (inData h))) || is_stEof h then
        let '(len, out, o) := pipe_get (outData h) count in
        let h := h <| outData := o |> in
        let h := if 0 <? len then h <| fcs := build (fcs h) out |> else h in
        Some (len, out, h, s)
      else if (count =? 0) && is_stData h then
        let '(r1, _, _) := pipe_get (outData h) 0 in
        let '(r2, _, _) := pipe_get s 0 in
        Some (if (r1 <? 0) || (r2 <? 0) then -1 else 0, [], h, s)
      else
        '(r, out, h, s) ← hdlc_loop (length (p_octets s) + 2) h s count 0;
        Some (if (r : bool) then -1 else zlen out, out, h, s)
  | _ => Some (0, [], h, s)
  end.

Definition PutRawData (h : HDLC) (id : option positive) : HDLC :=
  h <| inDataType := dtRaw |> <| inData := id |> <| lastChar := -1 |>.
Definition PutHdlcData (h : HDLC) (id : option positive) : HDLC :=
  h <| inDataType := dtHdlc |> <| inData := id |> <| lastChar := -1 |>.

Definition GetRawStart (h : HDLC) (flags : nat) : HDLC :=
  let h := h <| outDataType := dtRaw |> <| outData := pipe_clean (outData h) |> <| fcs := FCS_new |> in
  match inDataType h with
  | dtHdlc => Nat.iter flags (fun h => pack h [0x7E] true) h
  | _ => h
  end.

Definition GetHdlcStart (h : HDLC) (sync : bool) : HDLC :=
  let h := h <| outDataType := dtHdlc |> <| outData := pipe_clean (outData h) |> <| fcs := FCS_new |> in
  match inDataType h with
  | dtRaw =>
      h <| hdlcChunkLen := 0 |> <| rawOnes := 0 |>
        <| hdlcState := if sync then stSync else stSkipFlags |>
  | _ => if sync then h else h <| rawCount := rawCount h + 4 |>
  end.

Definition GetData (h : HDLC) (s : pipe) (count : Z) : option (Z * list Z * HDLC * pipe) :=
  match outDataType h with
  | dtHdlc => GetHdlcData h s count
  | dtRaw => GetRawData h s count
  | _ => Some (-1, [], h, s)
  end.

Definition isFcsOK (h : HDLC) : bool :=
  if negb (hdlcChunkLen h =? 16) then false
  else u16 (hdlcChunk h) =? fcs_word (fcs h).

Definition getLastChar (h : HDLC) : Z := lastChar h.
Definition getRawCount (h : HDLC) : Z := rawCount h.
Definition resetRawCount (h : HDLC) : HDLC := h <| rawCount := 0 |>.
