(* ===== verification/PmHdlcTx.v ===== *)
(** * Frames into a raw stream (src/t38modem/hdlc.cxx, fcs.cxx)

    What [PmHdlc] sends for a frame: the frame check sequence is the CRC-16 of
    the octets taken most significant bit first, and the bits are those of the
    frame with zeros inserted, between flags. *)
From S2P Require Import Prelude Crc HdlcFrame DataStream EngineBase Dle PmHdlc.

(** ** Bits, most significant first *)

Lemma line_bits_cons b l : line_bits (b :: l) = msb_bits 8 b ++ line_bits l.
Proof. done. Qed.

Lemma msb_bits_snoc n x : msb_bits (S n) x = msb_bits n (x .>> 1) ++ [Z.testbit x 0].
Proof. replace (S n) with (n + 1)%nat by lia. rewrite msb_bits_app. done. Qed.

(** ** The frame check sequence *)

(** [fcs] has the bits of the (reflected) register [crc] in the reverse order. *)
Definition mirrors (fcs crc : Z) : Prop :=
  0 <= fcs < 2 ^ 16 /\ 0 <= crc < 2 ^ 16 /\
  forall i, 0 <= i < 16 -> Z.testbit fcs i = Z.testbit crc (15 - i).


Lemma poly_mirror i : 0 <= i < 16 -> Z.testbit 0x11021 i = Z.testbit 0x8408 (15 - i).
Proof.
  intros Hi. enough (eqb (Z.testbit 0x11021 i) (Z.testbit 0x8408 (15 - i)) = true) by by apply eqb_prop.
  by_evaluation 16%nat (fun i => eqb (Z.testbit 0x11021 i) (Z.testbit 0x8408 (15 - i))) i. exact Hi.
Qed.

(** The bit fed back. *)
Lemma testbit_fcs_bit c fcs k i : 0 <= fcs < 2 ^ 16 -> 0 <= k -> 0 <= i ->
  Z.testbit (fcs_bit c fcs (2 ^ k)) i =
    xorb (if i =? 16 then Z.testbit c k else false)
      (xorb ((1 <=? i) && Z.testbit fcs (i - 1))
         (xorb (Z.testbit fcs 15) (Z.testbit c k) && Z.testbit 0x11021 i)).
Proof.
  intros Hf Hk Hi. unfold fcs_bit. cbv zeta.
  rewrite (wrap_id 32) by (rewrite Z.shiftl_mul_pow2 by lia; change (2 ^ 1) with 2; lia).
  rewrite land_pow2_eqb by done. change 0x10000 with (2 ^ 16). rewrite land_pow2_eqb by done.
  set (y := Z.testbit c k). clearbody y.
  assert (forall j, 0 <= j -> Z.testbit (if negb y then fcs .<< 1 else fcs .<< 1 .^ 2 ^ 16) j =
    xorb (if j =? 16 then y else false) ((1 <=? j) && Z.testbit fcs (j - 1))) as Ht.
  { intros j Hj. destruct y; cbn [negb]; bit_specs.
    - rewrite Z.pow2_bits_eqb by done. rewrite xorb_comm. f_equal. rewrite Z.eqb_sym. by destruct (j =? 16).
    - by destruct (j =? 16). }
  rewrite Ht by done. cbn [Z.eqb Pos.eqb Z.leb Z.compare Pos.compare Pos.compare_cont andb].
  change (16 - 1) with 15. rewrite (xorb_comm y).
  destruct (xorb (Z.testbit fcs 15) y); cbn [negb andb]; bit_specs; rewrite Ht by done.
  - by rewrite xorb_assoc.
  - by rewrite xorb_false_r.
Qed.

Lemma fcs_bit_mirrors c fcs crc k : mirrors fcs crc -> 0 <= k ->
  mirrors (fcs_bit c fcs (2 ^ k)) (crc_bit 0x8408 crc (Z.testbit c k)).
Proof.
  intros (Hf & Hc & Hm) Hk. unfold crc_bit. set (y := Z.testbit c k).
  assert (Z.odd (crc .^ Z.b2z y) = xorb (Z.testbit fcs 15) y) as ->.
  { rewrite <- Z.bit0_odd. bit_specs. rewrite Hm by lia. f_equal. by destruct y. }
  set (q := xorb (Z.testbit fcs 15) y). split; [|split].
  - apply range_of_bits; [lia|]. intros i Hi. rewrite testbit_fcs_bit by lia. fold y. fold q.
    destruct (Z.eqb_spec i 16) as [->|].
    + change (Z.testbit 0x11021 16) with true. change (16 - 1) with 15. change (1 <=? 16) with true.
      unfold q. by destruct y, (Z.testbit fcs 15).
    + rewrite (testbit_high 16 fcs) by lia. rewrite (testbit_high 17 0x11021) by lia.
      by rewrite !andb_false_r.
  - apply lxor_range; [lia| |destruct q; lia]. apply shiftr_range; [lia|].
    apply lxor_range; [lia|done|destruct y; simpl; lia].
  - intros i Hi. rewrite testbit_fcs_bit by lia. fold y. fold q.
    rewrite (proj2 (Z.eqb_neq i 16)) by lia. rewrite xorb_false_l. bit_specs. f_equal.
    + assert (Z.testbit (Z.b2z y) (15 - i + 1) = false) as ->.
      { apply (testbit_high 1); [destruct y; simpl; lia|lia]. }
      rewrite xorb_false_r. destruct (Z.leb_spec 1 i); cbn [andb].
      * rewrite Hm by lia. f_equal. lia.
      * symmetry. apply (testbit_high 16); lia.
    + destruct q; cbn [andb]; [by apply poly_mirror|by rewrite Z.bits_0].
Qed.

Lemma fcs_octet_mirrors c fcs crc : mirrors fcs crc ->
  mirrors (fcs_octet fcs c) (fold_left (crc_bit 0x8408) (msb_bits 8 c) crc).
Proof.
  intros H. unfold fcs_octet. cbn [fold_left msb_bits].
  change 0x80 with (2 ^ Z.of_nat 7). change 0x40 with (2 ^ Z.of_nat 6).
  change 0x20 with (2 ^ Z.of_nat 5). change 0x10 with (2 ^ Z.of_nat 4).
  change 0x08 with (2 ^ Z.of_nat 3). change 0x04 with (2 ^ Z.of_nat 2).
  change 0x02 with (2 ^ Z.of_nat 1). change 0x01 with (2 ^ Z.of_nat 0).
  by repeat (apply fcs_bit_mirrors; [|apply Nat2Z.is_nonneg]).
Qed.

Lemma build_mirrors buf fcs crc : mirrors fcs crc ->
  mirrors (build fcs buf) (fold_left (crc_bit 0x8408) (line_bits buf) crc).
Proof.
  revert fcs crc. induction buf as [|c buf IH]; intros fcs crc H; [done|].
  rewrite line_bits_cons, fold_left_app. apply IH. by apply fcs_octet_mirrors.
Qed.

(** The octets that follow the data of a frame, as [GetRawData] makes them. *)
Definition fcs_octets (l : list Z) : list Z :=
  let w := fcs_word (build FCS_new l) in [u8 (w .>> 8); u8 (w .& 0xFF)].

(** An octet read the other way round. *)
Definition reversed (l : list Z) : list Z := map (aget BitRevTable) l.

Lemma msb_reversed b : is_byte b -> lsb_bits 8 (aget BitRevTable b) = msb_bits 8 b.
Proof.
  intros Hb. apply (bool_decide_unpack _).
  enough (bool_decide (lsb_bits 8 (aget BitRevTable b) = msb_bits 8 b) = true) as -> by exact I.
  by_evaluation 256%nat (fun b => bool_decide (lsb_bits 8 (aget BitRevTable b) = msb_bits 8 b)) b. exact Hb.
Qed.

Lemma octet_bits_reversed l : bytes l -> octet_bits (reversed l) = line_bits l.
Proof.
  induction 1 as [|b l Hb Hl IH]; [done|]. unfold octet_bits, reversed, line_bits in *. cbn [map concat].
  by rewrite IH, msb_reversed.
Qed.

Lemma bytes_reversed l : bytes (reversed l).
Proof.
  induction l as [|b l IH]; constructor; [|done]. apply bytes_aget.
  apply (bool_decide_unpack _). by vm_compute.
Qed.

Lemma mirror_bits fcs crc : mirrors fcs crc ->
  line_bits [u8 (fcs_word fcs .>> 8); u8 (fcs_word fcs .& 0xFF)] =
  octet_bits (le_split 2 (crc .^ 0xFFFF)).
Proof.
  intros (Hf & Hc & Hm). change 0xFFFF with (Z.ones 16).
  enough (forall x y, (forall i, 0 <= i < 16 -> Z.testbit x i = Z.testbit y (15 - i)) ->
    line_bits [u8 (x .>> 8); u8 (x .& 0xFF)] = octet_bits (le_split 2 y)) as H.
  { apply H. intros i Hi. unfold fcs_word. bit_specs.
    rewrite (proj2 (Z.ltb_lt i 16)), (proj2 (Z.leb_le 0 (15 - i))), (proj2 (Z.ltb_lt (15 - i) 16)) by lia.
    rewrite Hm by lia. cbn [andb]. by rewrite xorb_true_r. }
  intros x y H. unfold line_bits, octet_bits. cbn [map concat le_split msb_bits lsb_bits app].
  rewrite <- !Z.bit0_odd, !Z.div2_spec. rewrite !Z.shiftr_shiftr by lia.
  change 0xFF with (Z.ones 8). bit_specs. cbn.
  repeat match goal with |- context [Z.testbit x ?i] => rewrite (H i) by lia end.
  simpl. by rewrite !andb_true_r.
Qed.

Lemma build_crc_itu16 l : bytes l -> mirrors (build FCS_new l) (crc_itu16_calc (reversed l) 0xFFFF).
Proof.
  intros Hl. unfold crc_itu16_calc. change crc_itu16_octet with (crc_octet crc_itu16_table).
  rewrite (crc_octets_bitwise 2 crc_itu16_table 0x8408) by apply bytes_reversed.
  unfold crc_bitwise. fold (octet_bits (reversed l)). rewrite octet_bits_reversed by done.
  apply build_mirrors. split; [by vm_compute|split; [by vm_compute|]]. intros i Hi.
  change FCS_new with (Z.ones 16). change 0xFFFF with (Z.ones 16). bit_specs. lia.
Qed.

Lemma fcs_octets_bits l : bytes l ->
  line_bits (fcs_octets l) = octet_bits (@fc_sequence fc_crc16 (crc_itu16_calc (reversed l) 0xFFFF)).
Proof. intros Hl. rewrite fc_sequence_16. by apply mirror_bits, build_crc_itu16. Qed.

(** ** Packing, bit by bit *)

(** What has gone out and is not yet taken: whole octets, and the bits of the
    next one. *)
Definition line (h : HDLC) : list bool :=
  line_bits (p_octets (outData h)) ++ msb_bits (Z.to_nat (rawByteLen h)) (rawByte h).

(** The same while [pack] holds the register [w]. *)
Definition line_at (hw : HDLC * Z) : list bool :=
  line_bits (p_octets (outData hw.1)) ++ msb_bits (Z.to_nat (rawByteLen hw.1)) (hw.2 .>> 8).

(** Only the packer's own fields change. *)
Definition same_frame (h h' : HDLC) : Prop :=
  h' = h <| outData := outData h' |> <| rawByte := rawByte h' |> <| rawByteLen := rawByteLen h' |>
         <| rawOnes := rawOnes h' |> /\
  p_eof (outData h') = p_eof (outData h).

Lemma same_frame_refl h : same_frame h h.
Proof. by destruct h. Qed.

Lemma same_frame_trans a b c : same_frame a b -> same_frame b c -> same_frame a c.
Proof. intros [-> H1] [-> H2]. split; [done|]. by rewrite H2. Qed.

Lemma same_frame_fields h h' : same_frame h h' ->
  inDataType h' = inDataType h /\ outDataType h' = outDataType h /\ inData h' = inData h /\ fcs h' = fcs h.
Proof. intros [E _]. by rewrite E. Qed.

Record packer (h : HDLC) : Prop := {
  packer_len : 0 <= rawByteLen h < 8;
  packer_ones : 0 <= rawOnes h <= 4;
  packer_open : p_eof (outData h) = false;
}.

Lemma pack_count_spec h w : 0 <= rawByteLen h < 8 -> p_eof (outData h) = false ->
  line_at (pack_count h w, w) =
    line_bits (p_octets (outData h)) ++ msb_bits (S (Z.to_nat (rawByteLen h))) (w .>> 8) /\
  0 <= rawByteLen (pack_count h w) < 8 /\ rawOnes (pack_count h w) = rawOnes h /\
  same_frame h (pack_count h w).
Proof.
  destruct h as [i o d od f lc rc rb rl ro hc hl hs]. destruct od as [oc oe og ot].
  cbn [rawByteLen outData p_eof p_octets]. intros Hl ->. unfold pack_count, line_at, same_frame.
  cbn -[Z.add Z.shiftr wrap Z.to_nat msb_bits line_bits Z.eqb Z.lt Z.le].
  destruct (Z.eqb_spec (rl + 1) 8) as [E|E];
    cbn -[Z.add Z.shiftr wrap Z.to_nat msb_bits line_bits Z.eqb Z.lt Z.le].
  - split; [|done]. change (Z.to_nat 0) with 0%nat. replace (Z.to_nat rl) with 7%nat by lia.
    change (msb_bits 0 (w .>> 8)) with (@nil bool). rewrite line_bits_app, app_nil_r. f_equal.
    unfold line_bits. cbn [map concat]. rewrite app_nil_r. apply msb_bits_ext. intros k Hk. bit_specs.
    by rewrite (proj2 (Z.ltb_lt k 8)) by lia.
  - split; [|split; [lia|done]].
    by replace (Z.to_nat (rl + 1)) with (S (Z.to_nat rl)) by lia.
Qed.

(** What [l] looks like on the line, and the count of ones after it. *)
Definition sent_bits (flag : bool) (ones : nat) (l : list bool) : list bool :=
  if flag then l else stuff ones l.
Definition sent_ones (flag : bool) (ones : nat) (l : list bool) : nat :=
  if flag then ones else ones_after ones l.

Lemma sent_bits_app flag ones a b :
  sent_bits flag ones (a ++ b) = sent_bits flag ones a ++ sent_bits flag (sent_ones flag ones a) b.
Proof. destruct flag; [done|apply stuff_app]. Qed.

Lemma sent_ones_app flag ones a b : sent_ones flag ones (a ++ b) = sent_ones flag (sent_ones flag ones a) b.
Proof. destruct flag; [done|apply ones_after_app]. Qed.

(** The register moves on by one bit; a stuffed zero moves its high half only. *)
Lemma shifted_bits n w : (n <= 7)%nat ->
  msb_bits (S n) (u16 (w .<< 1) .>> 8) = msb_bits n (w .>> 8) ++ [Z.testbit w 7].
Proof.
  intros Hn. rewrite msb_bits_snoc. f_equal.
  - apply msb_bits_ext. intros i Hi. bit_specs.
    rewrite (proj2 (Z.ltb_lt _ 16)), (proj2 (Z.leb_le 1 _)) by lia. cbn [andb]. f_equal. lia.
  - f_equal. bit_specs. done.
Qed.

Lemma stuffed_bits n w : (n <= 7)%nat ->
  msb_bits (S n) (u16 (((w .& 0xFF00) .<< 1) .| (w .& 0xFF)) .>> 8) = msb_bits n (w .>> 8) ++ [false].
Proof.
  intros Hn. change 0xFF00 with (Z.ones 8 .<< 8). change 0xFF with (Z.ones 8).
  rewrite msb_bits_snoc. f_equal.
  - apply msb_bits_ext. intros i Hi. bit_specs.
    rewrite (proj2 (Z.ltb_lt _ 16)), (proj2 (Z.leb_le 1 _)), (proj2 (Z.leb_le 8 (i + 1 + 8 - 1))),
      (proj2 (Z.leb_le 0 _)), (proj2 (Z.ltb_lt _ 8)), (proj2 (Z.ltb_ge (i + 1 + 8) 8)) by lia.
    cbn [andb]. rewrite andb_true_r, !andb_false_r, orb_false_r. f_equal. lia.
  - f_equal. bit_specs. cbn. by rewrite !andb_false_r.
Qed.

Lemma stuffed_low w i : 0 <= i < 8 ->
  Z.testbit (u16 (((w .& 0xFF00) .<< 1) .| (w .& 0xFF))) i = Z.testbit w i.
Proof.
  intros Hi. change 0xFF00 with (Z.ones 8 .<< 8). change 0xFF with (Z.ones 8). bit_specs.
  rewrite (proj2 (Z.ltb_lt i 16)), (proj2 (Z.ltb_lt i 8)), (proj2 (Z.leb_le 0 i)) by lia. cbn [andb].
  rewrite andb_true_r. destruct (Z.leb_spec 1 i); cbn [andb orb]; [|done].
  bit_specs. rewrite (proj2 (Z.leb_gt 8 (i - 1))) by lia. by rewrite andb_false_r.
Qed.

Lemma pack_count_bit h w w' b : 0 <= rawByteLen h < 8 -> p_eof (outData h) = false ->
  (forall n, (n <= 7)%nat -> msb_bits (S n) (w' .>> 8) = msb_bits n (w .>> 8) ++ [b]) ->
  line_at (pack_count h w', w') = line_at (h, w) ++ [b] /\
  0 <= rawByteLen (pack_count h w') < 8 /\ rawOnes (pack_count h w') = rawOnes h /\
  same_frame h (pack_count h w').
Proof.
  intros Hl He Hw. destruct (pack_count_spec h w' Hl He) as [-> H]. split; [|done].
  rewrite Hw by lia. by rewrite app_assoc.
Qed.

Lemma line_at_ones h v w : line_at (h <| rawOnes := v |>, w) = line_at (h, w).
Proof. done. Qed.

Lemma same_frame_ones h h' v : same_frame h h' -> same_frame h (h' <| rawOnes := v |>).
Proof. by intros [-> ?]. Qed.

Lemma packer_set h h' v : 0 <= rawByteLen h' < 8 -> same_frame h h' -> p_eof (outData h) = false ->
  0 <= v <= 4 -> packer (h' <| rawOnes := v |>).
Proof. intros Hl [_ He] Ho Hv. split; [done|done|]. by rewrite <- Ho, <- He. Qed.

Lemma pack_bit_spec flag h w : packer h ->
  let hw := pack_bit flag (h, w) in
  line_at hw = line_at (h, w) ++ sent_bits flag (Z.to_nat (rawOnes h)) [Z.testbit w 7] /\
  packer hw.1 /\ same_frame h hw.1 /\
  Z.to_nat (rawOnes hw.1) = sent_ones flag (Z.to_nat (rawOnes h)) [Z.testbit w 7] /\
  forall i, 0 <= i < 8 -> Z.testbit hw.2 i = (1 <=? i) && Z.testbit w (i - 1).
Proof.
  intros [Hl Ho He]. unfold pack_bit.
  destruct (pack_count_bit h w (u16 (w .<< 1)) (Z.testbit w 7) Hl He) as (E & L & O & S).
  { intros n Hn. by apply shifted_bits. }
  set (w1 := u16 (w .<< 1)) in *. set (h1 := pack_count h w1) in *.
  assert (forall i, 0 <= i < 8 -> Z.testbit w1 i = (1 <=? i) && Z.testbit w (i - 1)) as Hlow.
  { intros i Hi. unfold w1. bit_specs. by rewrite (proj2 (Z.ltb_lt i 16)) by lia. }
  destruct flag; cbn [sent_bits sent_ones fst snd].
  { rewrite E. split; [done|]. split; [|split; [done|split; [by rewrite O|done]]].
    split; [done|by rewrite O|]. destruct S as [_ ->]. done. }
  change 0x100 with (2 ^ 8). rewrite land_pow2_eqb by lia.
  assert (Z.testbit w1 8 = Z.testbit w 7) as -> by (unfold w1; bit_specs; done).
  destruct (Z.testbit w 7) eqn:E7; cbn [negb].
  - change (rawOnes (h1 <| rawOnes := rawOnes h1 + 1 |>)) with (rawOnes h1 + 1). rewrite O.
    destruct (Z.eqb_spec (rawOnes h + 1) 5) as [E5|E5].
    + replace (Z.to_nat (rawOnes h)) with 4%nat by lia. cbn [stuff ones_after Nat.eqb].
      set (h2 := h1 <| rawOnes := rawOnes h + 1 |>). 
      destruct (pack_count_bit h2 w1 (u16 (((w1 .& 0xFF00) .<< 1) .| (w1 .& 0xFF))) false) as (E' & L' & O' & S').
      { done. } { change (outData h2) with (outData h1). by destruct S as [_ ->]. } { intros n Hn. by apply stuffed_bits. }
      assert (same_frame h h2) as S2 by by apply same_frame_ones.
      set (w2 := u16 _) in *. cbn [fst snd]. rewrite line_at_ones, E'.
      change (line_at (h2, w1)) with (line_at (h1, w1)). rewrite E, <- app_assoc.
      pose proof (same_frame_trans _ _ _ S2 S') as S3.
      split; [done|]. split; [by eapply packer_set|]. split; [by apply same_frame_ones|]. split; [done|].
      intros i Hi. unfold w2. rewrite stuffed_low by done. by apply Hlow.
    + cbn [stuff ones_after fst snd]. rewrite (proj2 (Nat.eqb_neq (Z.to_nat (rawOnes h)) 4)) by lia.
      rewrite line_at_ones, E. split; [done|]. split; [eapply packer_set; try done; lia|].
      split; [by apply same_frame_ones|]. split; [|done]. cbn. lia.
  - cbn [fst snd stuff ones_after]. rewrite line_at_ones, E. split; [done|]. split; [by eapply packer_set|].
    split; [by apply same_frame_ones|]. by split.
Qed.

(** What a piece of packing keeps and adds. *)
Record packed (flag : bool) (l : list bool) (h h' : HDLC) : Prop := {
  packed_packer : packer h';
  packed_frame : same_frame h h';
  packed_ones : Z.to_nat (rawOnes h') = sent_ones flag (Z.to_nat (rawOnes h)) l;
}.

Lemma packed_nil flag h : packer h -> packed flag [] h h.
Proof. intros P. split; [done|apply same_frame_refl|]. by destruct flag. Qed.

Lemma packed_app flag a b h h' h'' : packed flag a h h' -> packed flag b h' h'' -> packed flag (a ++ b) h h''.
Proof.
  intros [P1 F1 O1] [P2 F2 O2]. split; [done|by eapply same_frame_trans|]. by rewrite O2, O1, sent_ones_app.
Qed.

Lemma lookup_msb_octet w n : (n < 8)%nat -> msb_bits 8 w !! n = Some (Z.testbit w (7 - Z.of_nat n)).
Proof. intros Hn. do 8 (destruct n as [|n]; [done|]). lia. Qed.

Lemma pack_iter_spec flag h w n : packer h -> (n <= 8)%nat ->
  let hw := Nat.iter n (pack_bit flag) (h, w) in
  line_at hw = line_at (h, w) ++ sent_bits flag (Z.to_nat (rawOnes h)) (take n (msb_bits 8 w)) /\
  packed flag (take n (msb_bits 8 w)) h hw.1 /\
  forall i, 0 <= i < 8 -> Z.testbit hw.2 i = (Z.of_nat n <=? i) && Z.testbit w (i - Z.of_nat n).
Proof.
  intros P. induction n as [|n IH]; intros Hn.
  { cbn [Nat.iter take]. split; [destruct flag; by rewrite app_nil_r|]. split; [by apply packed_nil|].
    intros i Hi. rewrite (proj2 (Z.leb_le _ i)) by lia. cbn [andb snd]. f_equal. lia. }
  destruct (IH ltac:(lia)) as (E & K & Lo). cbn [Nat.iter nat_rect].
  change (nat_rect _ _ _ n) with (Nat.iter n (pack_bit flag) (h, w)).
  destruct (Nat.iter n (pack_bit flag) (h, w)) as [h1 w1]. cbn [fst snd] in K, Lo.
  destruct (pack_bit_spec flag h1 w1 (packed_packer _ _ _ _ K)) as (E' & P' & F' & O' & Lo').
  rewrite (take_S_r _ _ _ (lookup_msb_octet w n Hn)).
  assert (Z.testbit w1 7 = Z.testbit w (7 - Z.of_nat n)) as Eb.
  { rewrite Lo by lia. by rewrite (proj2 (Z.leb_le _ 7)) by lia. }
  rewrite Eb in E', O'. split; [|split].
  - rewrite E', E, sent_bits_app, <- app_assoc. by rewrite (packed_ones _ _ _ _ K).
  - eapply packed_app; [exact K|by split].
  - intros i Hi. rewrite Lo' by done. destruct (Z.leb_spec 1 i); cbn [andb].
    + rewrite Lo by lia. destruct (Z.leb_spec (Z.of_nat n) (i - 1)), (Z.leb_spec (Z.of_nat (S n)) i);
        cbn [andb]; try lia; try done. f_equal. lia.
    + by rewrite (proj2 (Z.leb_gt _ i)) by lia.
Qed.

Lemma pack_octet_spec flag h w b : packer h -> (forall i, 0 <= i < 8 -> Z.testbit w i = false) ->
  let hw := pack_octet flag (h, w) b in
  line_at hw = line_at (h, w) ++ sent_bits flag (Z.to_nat (rawOnes h)) (msb_bits 8 b) /\
  packed flag (msb_bits 8 b) h hw.1 /\ (forall i, 0 <= i < 8 -> Z.testbit hw.2 i = false).
Proof.
  intros P Hw. unfold pack_octet. change 0xFF with (Z.ones 8).
  assert (msb_bits 8 (w .| (b .& Z.ones 8)) = msb_bits 8 b) as Eb.
  { apply msb_bits_ext. intros i Hi. bit_specs. rewrite Hw by lia.
    rewrite (proj2 (Z.leb_le 0 i)), (proj2 (Z.ltb_lt i 8)) by lia. by rewrite andb_true_r. }
  destruct (pack_iter_spec flag h (w .| (b .& Z.ones 8)) 8 P ltac:(lia)) as (E & K & Lo).
  rewrite (firstn_all2 (n := 8)), Eb in E by (by rewrite length_msb_bits).
  rewrite (firstn_all2 (n := 8)), Eb in K by (by rewrite length_msb_bits).
  split; [|split; [exact K|]].
  - rewrite E. f_equal. unfold line_at. cbn [fst snd]. f_equal. apply msb_bits_ext. intros i Hi. bit_specs.
    rewrite (proj2 (Z.ltb_ge (i + 8) 8)) by lia. by rewrite !andb_false_r, orb_false_r.
  - intros i Hi. rewrite Lo by done. by rewrite (proj2 (Z.leb_gt _ i)) by lia.
Qed.

Lemma pack_octets_spec flag buf : forall h w, packer h -> (forall i, 0 <= i < 8 -> Z.testbit w i = false) ->
  let hw := fold_left (pack_octet flag) buf (h, w) in
  line_at hw = line_at (h, w) ++ sent_bits flag (Z.to_nat (rawOnes h)) (line_bits buf) /\
  packed flag (line_bits buf) h hw.1.
Proof.
  induction buf as [|b buf IH]; intros h w P Hw.
  { split; [destruct flag; by rewrite app_nil_r|by apply packed_nil]. }
  destruct (pack_octet_spec flag h w b P Hw) as (E & K & Lo). cbn [fold_left].
  destruct (pack_octet flag (h, w) b) as [h1 w1]. cbn [fst snd] in K, Lo.
  destruct (IH h1 w1 (packed_packer _ _ _ _ K) Lo) as (E' & K').
  rewrite line_bits_cons. split; [|by eapply packed_app].
  rewrite E', E, sent_bits_app, <- app_assoc. by rewrite (packed_ones _ _ _ _ K).
Qed.

Lemma pack_spec h buf flag : packer h ->
  line (pack h buf flag) = line h ++ sent_bits flag (Z.to_nat (rawOnes h)) (line_bits buf) /\
  packer (pack h buf flag) /\ same_frame h (pack h buf flag) /\
  rawOnes (pack h buf flag) =
    if flag then 0 else Z.of_nat (ones_after (Z.to_nat (rawOnes h)) (line_bits buf)).
Proof.
  intros P. unfold pack.
  destruct (pack_octets_spec flag buf h (u16 (rawByte h .<< 8)) P) as (E & [P' F' O']).
  { intros i Hi. bit_specs. rewrite (proj2 (Z.leb_gt 8 i)) by lia. by rewrite andb_false_r. }
  destruct (fold_left _ buf _) as [h1 w1]. cbn [fst snd] in *.
  assert (line_at (h, u16 (rawByte h .<< 8)) = line h) as El.
  { unfold line_at, line. cbn [fst snd]. f_equal. apply msb_bits_ext. intros i Hi.
    destruct P as [Hl _ _]. bit_specs. rewrite (proj2 (Z.ltb_lt _ 16)), (proj2 (Z.leb_le 8 _)) by lia.
    cbn [andb]. f_equal. lia. }
  rewrite El in E.
  assert (line (h1 <| rawByte := u8 (w1 .>> 8) |>) = line_at (h1, w1)) as E1.
  { unfold line, line_at. cbn [fst snd]. f_equal. apply msb_bits_ext. intros i Hi.
    destruct P' as [Hl _ _]. change (rawByteLen _) with (rawByteLen h1) in Hi.
    change (rawByte _) with (u8 (w1 .>> 8)). bit_specs.
    by rewrite (proj2 (Z.ltb_lt i 8)) by lia. }
  destruct P' as [Hl Ho He]. destruct F' as [F1 F2].
  destruct flag.
  - split; [by rewrite <- E, <- E1|]. split; [by split|]. split; [|done]. split; [|done].
    rewrite F1 at 1. done.
  - split; [by rewrite <- E, <- E1|]. split; [by split|]. split; [split; [|done]; rewrite F1 at 1; done|].
    change (rawOnes _) with (rawOnes h1) at 1. unfold sent_ones in O'. rewrite <- O'. lia.
Qed.

(** ** A frame sent *)

(** The check octets sent after a frame received with diagnostics [d]: a wrong
    first octet when it had an error. *)
Definition fcs_sent (d : Z) (l : list Z) : list Z :=
  let w := fcs_word (build FCS_new l) in
  [if d .& diagErrorMask =? 0 then u8 (w .>> 8) else u8 (u8 (w .>> 8) + 1); u8 (w .& 0xFF)].

Definition frame_line (pre : list bool) (l : list Z) (d : Z) : list bool :=
  pre ++ stuff 0 (line_bits (l ++ fcs_sent d l)) ++ flag ++ flag.

Lemma frame_line_good pre l d : bytes l -> d .& diagErrorMask = 0 ->
  frame_line pre l d =
    pre ++ frame_bits (reversed l ++ @fc_sequence fc_crc16 (crc_itu16_calc (reversed l) 0xFFFF)) ++ flag.
Proof.
  intros Hl Hd. unfold frame_line, frame_bits, fcs_sent. rewrite Hd. fold (fcs_octets l).
  rewrite octet_bits_app, octet_bits_reversed, <- fcs_octets_bits, <- line_bits_app by done.
  by rewrite <- app_assoc.
Qed.

(** [sent] has gone out, [fed] has been taken from the stream [s]. *)
Record sending (pre : list bool) (sent fed : list Z) (s : pipe) (h : HDLC) : Prop := {
  sending_types : inDataType h = dtHdlc /\ outDataType h = dtRaw;
  sending_len : 0 <= rawByteLen h < 8;
  sending_state :
    match inData h with
    | Some _ => p_eof (outData h) = false /\ fcs h = build FCS_new fed /\
        rawOnes h = Z.of_nat (ones_after 0 (line_bits fed)) /\
        line_bits sent ++ line h = pre ++ stuff 0 (line_bits fed)
    | None => p_eof (outData h) = true /\ p_octets s = [] /\ p_eof s = true /\ rawOnes h = 0 /\
        line_bits sent ++ line h = frame_line pre fed (p_diag s)
    end;
}.

Lemma sending_packer pre sent fed s h id : sending pre sent fed s h -> inData h = Some id -> packer h.
Proof.
  intros [_ Hl Hs] E. rewrite E in Hs. destruct Hs as (He & _ & Ho & _). split; [done| |done].
  rewrite Ho. pose proof (ones_after_le 0 (line_bits fed)). lia.
Qed.

(** Octets taken from the output. *)
Lemma sending_take pre sent fed s h count : sending pre sent fed s h -> 0 <= count ->
  let '(r, out, o) := pipe_get (outData h) count in
  let h' := h <| outData := o |> in
  sending pre (sent ++ out) fed s h' /\
  ((r = -1 /\ out = [] /\ inData h = None /\ p_octets (outData h') = []) \/
   (r = zlen out /\ r <= count /\
    (r = 0 -> 0 < count -> p_octets (outData h) = [] /\ p_eof (outData h) = false))).
Proof.
  intros [Ht Hl Hs] Hc. unfold pipe_get. destruct (p_octets (outData h)) as [|b l] eqn:Eo.
  - set (h' := h <| outData := outData h |>). assert (h' = h) as -> by (unfold h'; by destruct h).
    rewrite app_nil_r. split; [by split|].
    destruct (p_eof (outData h)) eqn:Ee; [left|right; split; [done|split; [done|done]]].
    split; [done|]. split; [done|]. split; [|done].
    destruct (inData h); [|done]. by destruct Hs as [? _].
  - set (n := Z.to_nat count). set (h' := h <| outData := _ |>).
    assert (line_bits (sent ++ take n (b :: l)) ++ line h' = line_bits sent ++ line h) as El.
    { unfold line. change (p_octets (outData h')) with (drop n (b :: l)). rewrite Eo.
      change (rawByteLen h') with (rawByteLen h). change (rawByte h') with (rawByte h).
      by rewrite line_bits_app, <- app_assoc, (app_assoc (line_bits (take _ _))), <- line_bits_app, take_drop. }
    split.
    + split; [done|done|]. rewrite El. exact Hs.
    + right. split; [done|]. rewrite length_take. split; [lia|]. intros H0 H1. simpl in H0. lia.
Qed.

Lemma refill_data pre sent fed s h id : sending pre sent fed s h -> inData h = Some id ->
  p_octets s <> [] ->
  exists h' s' Buf, raw_refill h s = Some (h', s') /\ p_octets s = Buf ++ p_octets s' /\
    s' = s <| p_octets := p_octets s' |> /\ Buf <> [] /\
    sending pre sent (fed ++ Buf) s' h' /\ inData h' = inData h.
Proof.
  intros S Ei Hs. pose proof (sending_packer _ _ _ _ _ _ S Ei) as P.
  destruct S as [Ht Hl Hst]. rewrite Ei in Hst. destruct Hst as (He & Hf & Ho & El).
  unfold raw_refill. rewrite Ei. unfold pipe_get. destruct (p_octets s) as [|b l] eqn:Es; [done|].
  set (Buf := take (Z.to_nat 256) (b :: l)). assert (1 <= zlen Buf) as Hb by (unfold Buf; rewrite length_take; simpl; lia).
  rewrite (proj2 (Z.ltb_ge (zlen Buf) 0)), (proj2 (Z.ltb_lt 0 (zlen Buf))) by lia.
  set (h1 := h <| lastChar := _ |> <| fcs := _ |>).
  assert (packer h1) as P1 by (destruct P; by split).
  destruct (pack_spec h1 Buf false P1) as (E & P2 & F & O).
  pose proof (same_frame_fields _ _ F) as (F1 & F2 & F3 & F4). destruct F as [_ Fe].
  change (rawOnes h1) with (rawOnes h) in E, O. change (inDataType h1) with (inDataType h) in F1.
  change (outDataType h1) with (outDataType h) in F2. change (inData h1) with (inData h) in F3.
  change (fcs h1) with (build (fcs h) Buf) in F4. change (line h1) with (line h) in E.
  change (outData h1) with (outData h) in Fe.
  set (h2 := pack h1 Buf false) in *. clearbody h2 h1. eexists _, _, Buf. split; [done|]. split; [by rewrite <- (take_drop (Z.to_nat 256) (b :: l)) at 1|].
  split; [done|]. split; [intros ->; simpl in Hb; lia|].
  rewrite F3, Ei. split; [|done]. split; [by rewrite F1, F2|by destruct P2|]. rewrite F3, Ei.
  split; [by rewrite Fe|]. split; [rewrite F4, Hf; unfold build; by rewrite fold_left_app|].
  rewrite Ho, Nat2Z.id in E, O. cbn [sent_bits] in E.
  rewrite O, line_bits_app, ones_after_app. split; [done|].
  rewrite E, app_assoc, El, stuff_app. by rewrite app_assoc.
Qed.

(** The check octets and the two flags. *)
Lemma pack_frame_end h F : packer h -> exists h2, pack (pack h F false) [0x7E; 0x7E] true = h2 /\
  line h2 = line h ++ stuff (Z.to_nat (rawOnes h)) (line_bits F) ++ flag ++ flag /\
  0 <= rawByteLen h2 < 8 /\ rawOnes h2 = 0 /\ inDataType h2 = inDataType h /\ outDataType h2 = outDataType h.
Proof.
  intros P. destruct (pack_spec h F false P) as (E1 & P1 & F1 & O1).
  destruct (pack_spec (pack h F false) [0x7E; 0x7E] true P1) as (E2 & P2 & F2 & O2).
  pose proof (same_frame_fields _ _ (same_frame_trans _ _ _ F1 F2)) as (G1 & G2 & _).
  eexists. split; [reflexivity|]. rewrite E2, E1, <- app_assoc.
  split; [done|]. split; [by destruct P2|]. by split.
Qed.

(** How [raw_refill] ends a frame. *)
Lemma raw_refill_end h s id : inData h = Some id -> p_octets s = [] -> p_eof s = true ->
  raw_refill h s =
    let h2 := pack (pack h (let w := fcs_word (fcs h) in
      [if p_diag s .& diagErrorMask =? 0 then u8 (w .>> 8) else u8 (u8 (w .>> 8) + 1); u8 (w .& 0xFF)]) false)
      [0x7E; 0x7E] true in
    Some (h2 <| outData := pipe_put_eof (outData h2) |> <| inData := None |>, s).
Proof. intros Ei Hs Hse. unfold raw_refill, pipe_get. by rewrite Ei, Hs, Hse. Qed.

Lemma refill_end pre sent fed s h id : sending pre sent fed s h -> inData h = Some id ->
  p_octets s = [] -> p_eof s = true ->
  exists h', raw_refill h s = Some (h', s) /\ sending pre sent fed s h' /\ inData h' = None.
Proof.
  intros S Ei Hs Hse. pose proof (sending_packer _ _ _ _ _ _ S Ei) as P.
  destruct S as [[T1 T2] Hl Hst]. rewrite Ei in Hst. destruct Hst as (He & Hf & Ho & El).
  rewrite (raw_refill_end _ _ _ Ei Hs Hse), Hf.
  destruct (pack_frame_end h (fcs_sent (p_diag s) fed) P) as (h2 & Eh & E2 & L2 & O2 & G1 & G2).
  rewrite Ho, Nat2Z.id in E2. rewrite T1 in G1. rewrite T2 in G2. clear - Hs Hse Eh E2 L2 O2 G1 G2 El.
  exists (h2 <| outData := pipe_put_eof (outData h2) |> <| inData := None |>).
  split; [rewrite <- Eh; reflexivity|]. split; [|done]. split; [done|done|]. split; [done|]. split; [done|]. split; [done|]. split; [done|].
  set (h3 := h2 <| outData := _ |> <| inData := _ |>). change (line h3) with (line h2).
  rewrite E2, app_assoc, El. unfold frame_line. by rewrite line_bits_app, stuff_app, <- !app_assoc.
Qed.

Lemma refill_starved h s id : inData h = Some id -> p_octets s = [] -> p_eof s = false ->
  raw_refill h s = None.
Proof. intros Ei Hs He. unfold raw_refill, pipe_get. by rewrite Ei, Hs, He. Qed.

(** What a call leaves: the octets [out] written, others taken from [s]. *)
Definition sending_on (pre : list bool) (sent fed : list Z) (s : pipe) (out : list Z) (s' : pipe) (h' : HDLC) : Prop :=
  exists taken, p_octets s = taken ++ p_octets s' /\ s' = s <| p_octets := p_octets s' |> /\
    sending pre (sent ++ out) (fed ++ taken) s' h'.

Definition finished (h : HDLC) : Prop := inData h = None /\ p_octets (outData h) = [].

Lemma pipe_same (s : pipe) : s = s <| p_octets := p_octets s |>.
Proof. by destruct s. Qed.

Lemma sending_on_0 pre sent fed s out h' : sending pre (sent ++ out) fed s h' ->
  sending_on pre sent fed s out s h'.
Proof. intros S. exists []. split; [done|]. split; [apply pipe_same|]. by rewrite app_nil_r. Qed.

Lemma sending_on_refill pre sent fed s Buf out s1 s' h' :
  p_octets s = Buf ++ p_octets s1 -> s1 = s <| p_octets := p_octets s1 |> ->
  sending_on pre sent (fed ++ Buf) s1 out s' h' -> sending_on pre sent fed s out s' h'.
Proof.
  intros E E1 (t & E2 & E3 & S). exists (Buf ++ t).
  split; [by rewrite E, E2, app_assoc|]. split; [by rewrite E3, E1|]. by rewrite app_assoc.
Qed.

Lemma sending_on_more pre sent fed s out1 out2 s' h' :
  sending_on pre (sent ++ out1) fed s out2 s' h' -> sending_on pre sent fed s (out1 ++ out2) s' h'.
Proof. intros (t & E2 & E3 & S). exists t. by rewrite app_assoc. Qed.

(** How the loop ends. *)
Record loop_end (count len : Z) (r : bool) (out : list Z) (s' : pipe) (h' : HDLC) : Prop := {
  loop_room : zlen out <= count;
  loop_finished : r = true -> len <= 0 /\ out = [] /\ finished h';
  loop_starved : r = false -> 0 < count -> len + zlen out = 0 -> p_octets s' = [] /\ p_eof s' = false;
}.

Definition turns (h : HDLC) (s : pipe) (count : Z) : nat :=
  length (p_octets s) + Z.to_nat count + (match inData h with Some _ => 1 | None => 0 end).

Lemma raw_loop_spec pre : forall fuel h s count len sent fed, sending pre sent fed s h -> 0 <= count -> 0 <= len ->
  (turns h s count < fuel)%nat ->
  exists r out h' s', raw_loop fuel h s count len = Some (r, out, h', s') /\
    sending_on pre sent fed s out s' h' /\ loop_end count len r out s' h'.
Proof.
  induction fuel as [|fuel IH]; intros h s count len sent fed S Hc Hlen Hf; [lia|].
  (* the rest of a turn, after [raw_refill] *)
  assert (forall h1 s1 fed1, sending pre sent fed1 s1 h1 ->
    (turns h1 s1 count < fuel)%nat \/ (inData h1 = None /\ (turns h1 s1 count < Datatypes.S fuel)%nat) ->
    exists r out h' s',
      (let '(outLen, out, o) := pipe_get (outData h1) count in
       let h2 := h1 <| outData := o |> in
       if outLen <? 0 then Some (negb (0 <? len), [], h2, s1)
       else
         if count - outLen =? 0 then Some (false, out, h2, s1)
         else '(r, rest, h3, s2) ← raw_loop fuel h2 s1 (count - outLen) (len + outLen);
              Some (r, out ++ rest, h3, s2)) = Some (r, out, h', s') /\
      sending_on pre sent fed1 s1 out s' h' /\ loop_end count len r out s' h') as Hrest.
  { clear S Hf h s fed. intros h s fed S Hf. pose proof (sending_take _ _ _ _ _ count S Hc) as T.
    destruct (pipe_get (outData h) count) as [[r out] o]. destruct T as [S' [(-> & -> & Ei & Eo)|(-> & Hr & Hz)]].
    - change (-1 <? 0) with true. cbv iota. eexists _, [], _, s. split; [reflexivity|].
      split; [by apply sending_on_0|]. split; [simpl; lia| |].
      + intros Hl. destruct (Z.ltb_spec 0 len); [done|]. by split.
      + destruct (Z.ltb_spec 0 len); cbn [negb]; [simpl; lia|done].
    - rewrite (proj2 (Z.ltb_ge (zlen out) 0)) by lia. cbv zeta. set (h2 := h <| outData := o |>) in *.
      destruct (Z.eqb_spec (count - zlen out) 0) as [E0|E0].
      + eexists _, out, _, s. split; [reflexivity|]. split; [by apply sending_on_0|]. split; [lia|done|lia].
      + destruct (IH h2 s (count - zlen out) (len + zlen out) (sent ++ out) fed S')
          as (r & rest & h' & s' & -> & S2 & [L1 L2 L3]); [lia|lia| |].
        { change (turns h2 s (count - zlen out)) with (turns h s (count - zlen out)). unfold turns in *.
          destruct Hf as [Hf|[Hf1 Hf]]; [lia|]. destruct out as [|x out]; [|simpl length in *; lia].
          destruct (Hz eq_refl) as [_ Hz']; [simpl in E0; lia|]. destruct S as [_ _ S]. rewrite Hf1 in S.
          by destruct S as [S _]; rewrite S in Hz'. }
        eexists _, (out ++ rest), h', s'. split; [reflexivity|]. split; [by apply sending_on_more|].
        split; rewrite ?length_app; [lia| |].
        * intros Hr'. destruct (L2 Hr') as (Hl0 & -> & Hfin). rewrite app_nil_r.
          split; [lia|]. split; [|done]. destruct out; [done|simpl in Hl0; lia].
        * intros Hr' _ E. apply L3; [done|lia|lia]. }
  cbn [raw_loop]. destruct (inData h) as [id|] eqn:Ei.
  - destruct (p_octets s) as [|b l] eqn:Es; [destruct (p_eof s) eqn:Ee|].
    + destruct (refill_end _ _ _ _ _ _ S Ei Es Ee) as (h1 & -> & S1 & Ei1).
      apply (Hrest h1 s fed S1). left. unfold turns in *. rewrite Ei1. rewrite Ei in Hf. lia.
    + rewrite (refill_starved _ _ _ Ei Es Ee). eexists _, [], h, s. split; [reflexivity|].
      split; [apply sending_on_0; by rewrite app_nil_r|]. split; [simpl; lia|done|done].
    + destruct (refill_data _ _ _ _ _ _ S Ei) as (h1 & s1 & Buf & -> & E1 & E2 & Hb & S1 & Ei1); [by rewrite Es|].
      destruct (Hrest h1 s1 (fed ++ Buf) S1) as (r & out & h' & s' & E & So & L).
      { left. unfold turns in *. rewrite Ei1, Ei in *. rewrite E1, length_app in Hf.
        destruct Buf; [done|]. simpl in Hf. lia. }
      exists r, out, h', s'. split; [exact E|]. split; [by eapply sending_on_refill|done].
  - unfold raw_refill. rewrite Ei. apply (Hrest h s fed S). by right.
Qed.

Lemma sending_on_count pre sent fed s out s' h' v : sending_on pre sent fed s out s' h' ->
  sending_on pre sent fed s out s' (h' <| rawCount := v |>).
Proof. intros (t & E1 & E2 & [T L S]). exists t. split; [done|]. split; [done|]. by split. Qed.

Lemma GetRawData_spec pre sent fed s h count : sending pre sent fed s h -> 0 <= count ->
  exists r out h' s', GetRawData h s count = Some (r, out, h', s') /\
    sending_on pre sent fed s out s' h' /\ zlen out <= count /\
    ((r = -1 /\ out = [] /\ finished h') \/
     (r = zlen out /\ (0 < count -> r = 0 -> p_octets s' = [] /\ p_eof s' = false))).
Proof.
  intros S Hc. pose proof (sending_take _ _ _ _ _ count S Hc) as T. pose proof S as [[T1 _] _ _].
  unfold GetRawData. rewrite T1. destruct (pipe_get (outData h) count) as [[r out] o].
  destruct T as [S' [(-> & -> & Ei & Eo)|(-> & Hr & Hz)]].
  - change (-1 <? 0) with true. cbv iota. eexists _, [], _, s. split; [reflexivity|].
    split; [by apply sending_on_0|]. split; [simpl; lia|]. by left.
  - rewrite (proj2 (Z.ltb_ge (zlen out) 0)) by lia. cbv zeta. set (h2 := h <| outData := o |>) in *.
    destruct (raw_loop_spec pre (raw_fuel s count) h2 s (count - zlen out) (zlen out) (sent ++ out) fed S')
      as (r & rest & h' & s' & -> & S2 & [L1 L2 L3]); [lia|lia| |].
    { unfold turns, raw_fuel. destruct (inData h2); lia. }
    cbn [mbind option_bind]. pose proof (sending_on_more _ _ _ _ _ _ _ _ S2) as S3. destruct r.
    + destruct (L2 eq_refl) as (Hl0 & -> & Hfin). destruct out; [|simpl in Hl0; lia].
      eexists _, [], h', s'. split; [reflexivity|]. split; [exact S3|]. split; [simpl; lia|]. by left.
    + eexists _, (out ++ rest), _, s'. split; [reflexivity|].
      split; [destruct (0 <? _); [by apply sending_on_count|done]|].
      rewrite length_app. split; [lia|right; split; [lia|]]. intros Hc0 H0. apply L3; [done| |lia].
      assert (zlen out = 0) by lia. lia.
Qed.

(** ** A frame from beginning to end *)

(** What the two sides of the stream do: the application feeds it, T.38 reads. *)
Inductive feeding := Feed (l : list Z) | Read (count : Z).

Fixpoint fed_data (evs : list feeding) : list Z :=
  match evs with
  | [] => []
  | Feed l :: evs => l ++ fed_data evs
  | Read _ :: evs => fed_data evs
  end.

Fixpoint transfer (h : HDLC) (s : pipe) (evs : list feeding) : option (list Z * HDLC * pipe) :=
  match evs with
  | [] => Some ([], h, s)
  | Feed l :: evs => transfer h (pipe_put s l).2 evs
  | Read count :: evs =>
      '(_, out, h, s) ← GetData h s count;
      '(rest, h, s) ← transfer h s evs;
      Some (out ++ rest, h, s)
  end.

Definition valid_read (e : feeding) : Prop := match e with Feed _ => True | Read count => 0 <= count end.

(** The bits of the octet in the making. *)
Definition held (h : HDLC) : list bool := msb_bits (Z.to_nat (rawByteLen h)) (rawByte h).

Lemma sending_feed pre sent fed s h l : sending pre sent fed s h -> sending pre sent fed (pipe_put s l).2 h.
Proof.
  intros W. unfold pipe_put. destruct (p_eof s) eqn:E; [exact W|]. destruct W as [T L S]. split; [done|done|].
  cbn [snd]. destruct (inData h); [done|]. destruct S as (_ & _ & S & _). congruence.
Qed.

Lemma transfer_spec pre : forall evs sent fed s h, sending pre sent fed s h -> p_eof s = false ->
  Forall valid_read evs ->
  exists out h' s' fed', transfer h s evs = Some (out, h', s') /\ sending pre (sent ++ out) fed' s' h' /\
    p_eof s' = false /\ p_diag s' = p_diag s /\ fed' ++ p_octets s' = fed ++ p_octets s ++ fed_data evs.
Proof.
  induction evs as [|e evs IH]; intros sent fed s h S He Hv.
  { exists [], h, s, fed. cbn [fed_data]. by rewrite !app_nil_r. }
  apply Forall_cons_1 in Hv as [Hv Hvs]. destruct e as [l|count].
  - destruct (IH sent fed (pipe_put s l).2 h) as (out & h' & s' & fed' & E & S' & He' & Ed & Ef);
      [by apply sending_feed|unfold pipe_put; by rewrite He|done|].
    exists out, h', s', fed'. split; [exact E|]. split; [done|]. split; [done|].
    rewrite Ed, Ef. unfold pipe_put. rewrite He. split; [done|]. cbn [snd fed_data].
    change (p_octets (s <| p_octets := _ |>)) with (p_octets s ++ l). by rewrite <- app_assoc.
  - cbn [transfer fed_data]. unfold GetData. pose proof S as [[_ ->] _ _].
    destruct (GetRawData_spec _ _ _ _ _ count S Hv) as (r & out & h1 & s1 & -> & (t & E1 & E2 & S1) & _ & _).
    destruct (IH _ _ _ _ S1) as (out2 & h' & s' & fed' & E & S' & He' & Ed & Ef); [by rewrite E2|done|].
    cbn [mbind option_bind]. rewrite E. eexists _, h', s', fed'. split; [reflexivity|].
    rewrite app_assoc. split; [done|]. split; [done|]. split; [by rewrite Ed, E2|].
    by rewrite Ef, E1, <- !app_assoc.
Qed.

(** No more has gone out than there is. *)
Definition frame_bound (pre : list bool) (l : list Z) : nat := (length pre + 16 * length l + 48)%nat.

Lemma sending_bound pre sent fed s h : sending pre sent fed s h ->
  (8 * length sent <= frame_bound pre (fed ++ p_octets s))%nat.
Proof.
  intros [_ _ S]. unfold frame_bound.
  assert (8 * length sent = length (line_bits sent))%nat as -> by by rewrite length_line_bits.
  rewrite length_app. destruct (inData h).
  - destruct S as (_ & _ & _ & S). apply (f_equal length) in S. rewrite !length_app in S.
    pose proof (length_stuff 0 (line_bits fed)) as L. rewrite length_line_bits in L. lia.
  - destruct S as (_ & _ & _ & _ & S). apply (f_equal length) in S. unfold frame_line in S.
    rewrite !length_app in S. pose proof (length_stuff 0 (line_bits (fed ++ fcs_sent (p_diag s) fed))) as L.
    rewrite length_line_bits, length_app in L. simpl length in *. lia.
Qed.

Lemma finished_read pre sent fed s h count : sending pre sent fed s h -> finished h -> 0 <= count ->
  GetData h s count = Some (-1, [], h, s).
Proof.
  intros [[T1 T2] _ S] [F1 F2] Hc. unfold GetData, GetRawData, pipe_get. rewrite T1, T2, F2.
  rewrite F1 in S. destruct S as [-> _]. change (-1 <? 0) with true. cbv iota. by destruct h.
Qed.

Lemma transfer_end pre : forall counts sent fed s h, sending pre sent fed s h -> p_eof s = true ->
  Forall (fun c => 1 <= c) counts ->
  (finished h \/ (frame_bound pre (fed ++ p_octets s) < 8 * (length sent + length counts))%nat) ->
  exists out h' s', transfer h s (map Read counts) = Some (out, h', s') /\
    sending pre (sent ++ out) (fed ++ p_octets s) s' h' /\ finished h' /\ p_diag s' = p_diag s.
Proof.
  induction counts as [|c counts IH]; intros sent fed s h S He Hc Hb.
  { destruct Hb as [Hb|Hb]; [|pose proof (sending_bound _ _ _ _ _ S); simpl in Hb; lia].
    exists [], h, s. rewrite app_nil_r. split; [done|]. split; [|done].
    pose proof S as [_ _ S1]. destruct Hb as [Hb _]. rewrite Hb in S1. destruct S1 as (_ & E & _).
    by rewrite E, app_nil_r. }
  apply Forall_cons_1 in Hc as [Hc Hcs]. cbn [map transfer].
  assert (exists r out h1 s1, GetData h s c = Some (r, out, h1, s1) /\ sending_on pre sent fed s out s1 h1 /\
    (finished h1 \/
      (frame_bound pre (fed ++ p_octets s) < 8 * (length sent + length (c :: counts)))%nat /\ 1 <= zlen out)) as (r & out & h1 & s1 & -> & (t & E1 & E2 & S1) & Hp).
  { destruct Hb as [Hb|Hb].
    { exists (-1), [], h, s. rewrite (finished_read _ _ _ _ _ c S Hb) by lia. split; [done|].
      split; [apply sending_on_0; by rewrite app_nil_r|by left]. }
    unfold GetData. pose proof S as [[_ ->] _ _].
    destruct (GetRawData_spec _ _ _ _ _ c S ltac:(lia)) as (r & out & h1 & s1 & -> & So & _ & Hr).
    exists r, out, h1, s1. split; [done|]. split; [done|]. destruct Hr as [(_ & _ & Hf)|(-> & Hz)]; [by left|right].
    split; [done|]. destruct out; [|simpl; lia]. destruct (Hz ltac:(lia) eq_refl) as [_ H].
    destruct So as (t & _ & E & _). rewrite E in H. cbn in H. congruence. }
  assert (p_eof s1 = true) as He1 by by rewrite E2.
  destruct (IH (sent ++ out) (fed ++ t) s1 h1 S1 He1 Hcs) as (out2 & h' & s' & E & S' & F' & D').
  { rewrite <- app_assoc, <- E1. destruct Hp as [Hp|[Hb' Hp]]; [by left|right].
    rewrite length_app. simpl in Hb'. lia. }
  cbn [mbind option_bind]. rewrite E. eexists _, h', s'. split; [reflexivity|].
  rewrite app_assoc, E1, (app_assoc fed). split; [done|]. split; [done|]. rewrite D', E2. done.
Qed.

Lemma preamble_packed h n : packer h -> rawOnes h = 0 ->
  let h' := Nat.iter n (fun h => pack h [0x7E] true) h in
  line h' = line h ++ concat (repeat flag n) /\ packer h' /\ same_frame h h' /\ rawOnes h' = 0.
Proof.
  intros P O. induction n as [|n IH].
  { cbn. rewrite app_nil_r. split; [done|]. split; [done|]. split; [apply same_frame_refl|done]. }
  change (Nat.iter (S n) _ h) with (pack (Nat.iter n (fun h => pack h [0x7E] true) h) [0x7E] true).
  destruct IH as (E & P1 & F & O1). set (h1 := Nat.iter n _ h) in *.
  destruct (pack_spec h1 [0x7E] true P1) as (E' & P' & F' & O').
  split; [|split; [done|split; [by eapply same_frame_trans|done]]].
  rewrite E', E. cbn [sent_bits]. replace (repeat flag (S n)) with (repeat flag n ++ [flag]).
  - by rewrite concat_app, app_assoc.
  - clear. induction n as [|n IH]; [done|]. cbn [repeat app]. by rewrite IH.
Qed.

Lemma sending_start h0 id n s : 0 <= rawByteLen h0 < 8 -> rawOnes h0 = 0 ->
  sending (held h0 ++ concat (repeat flag n)) [] [] s (GetRawStart (PutHdlcData h0 (Some id)) n).
Proof.
  intros L O. unfold GetRawStart. cbv zeta. change (inDataType _) with dtHdlc at 1. cbv iota.
  set (h1 := _ <| fcs := FCS_new |>).
  destruct (preamble_packed h1 n) as (E & P & F & O1); [by split; [|rewrite ?O; cbn; lia|]|done|].
  pose proof (same_frame_fields _ _ F) as (G1 & G2 & G3 & G4). set (h2 := Nat.iter n _ h1) in *. clearbody h2.
  split; [by rewrite G1, G2|by destruct P|]. rewrite G3. change (inData h1) with (Some id). cbv iota.
  split; [by destruct P|]. split; [by rewrite G4|]. split; [by rewrite O1|].
  cbn [line_bits map concat app stuff]. rewrite app_nil_r, E. done.
Qed.

(** The property below, for use elsewhere; [transfer] leaves the diagnostics. *)
Lemma frame_sent (h0 : HDLC) (id : positive) (flags : nat) (threshold diag : Z) (evs : list feeding) :
  0 <= rawByteLen h0 < 8 -> rawOnes h0 = 0 -> Forall valid_read evs ->
  exists out1 h1 s1,
    transfer (GetRawStart (PutHdlcData h0 (Some id)) flags) (pipe_new threshold) evs = Some (out1, h1, s1) /\ p_diag s1 = 0 /\
    exists enough, forall counts, Forall (fun c => 1 <= c) counts -> (enough <= length counts)%nat ->
    exists out2 h2 s2,
      transfer h1 (pipe_set_diag (pipe_put_eof s1) diag) (map Read counts) = Some (out2, h2, s2) /\
      line_bits (out1 ++ out2) ++ held h2 =
        frame_line (held h0 ++ concat (repeat flag flags)) (fed_data evs) diag /\
      0 <= rawByteLen h2 < 8 /\ rawOnes h2 = 0 /\
      forall c, 0 <= c -> GetData h2 s2 c = Some (-1, [], h2, s2).
Proof.
  intros L O Hv. pose proof (sending_start h0 id flags (pipe_new threshold) L O) as S.
  set (pre := held h0 ++ _) in *.
  destruct (transfer_spec pre evs [] [] _ _ S eq_refl Hv) as (out1 & h1 & s1 & fed1 & -> & S1 & He & Hd & Ef).
  exists out1, h1, s1. split; [done|]. split; [done|]. exists (frame_bound pre (fed_data evs) + 1)%nat. intros counts Hc Hn.
  set (s1e := pipe_set_diag (pipe_put_eof s1) diag). change (p_octets s1) with (p_octets s1e) in Ef.
  assert (sending pre out1 fed1 s1e h1) as S1e.
  { destruct S1 as [T1 L1 X]. split; [done|done|]. destruct (inData h1); [done|]. destruct X as (_ & _ & X & _). congruence. }
  assert (fed1 ++ p_octets s1e = fed_data evs) as Ef' by by rewrite Ef.
  destruct (transfer_end pre counts out1 fed1 s1e h1 S1e eq_refl Hc) as (out2 & h2 & s2 & -> & S2 & F2 & D2).
  { right. rewrite Ef'. lia. }
  exists out2, h2, s2. split; [done|]. rewrite Ef' in S2.
  assert (forall c, 0 <= c -> GetData h2 s2 c = Some (-1, [], h2, s2)) as Hg.
  { intros c Hc'. by eapply finished_read. }
  destruct S2 as [_ L2 X]. destruct F2 as [F1 F2]. rewrite F1 in X. destruct X as (_ & _ & _ & O2 & X).
  unfold line in X. rewrite F2 in X. rewrite D2 in X. done.
Qed.

(** C37: whatever the packer still holds from before (fewer than eight bits), for
    a frame of any octets, fed in any portions between reads of any size, with
    its end marked and then enough reads of one octet at least, the octets read
    are, most significant bit first, the held bits, the flags asked for, the
    octets and their check sequence with zeros inserted, and two flags, up to
    fewer than eight bits that are held again; the last read reports the end. *)
Theorem hdlc_frame_sent (h0 : HDLC) (id : positive) (flags : nat) (threshold diag : Z) (evs : list feeding) :
  0 <= rawByteLen h0 < 8 -> rawOnes h0 = 0 -> Forall valid_read evs ->
  exists out1 h1 s1,
    transfer (GetRawStart (PutHdlcData h0 (Some id)) flags) (pipe_new threshold) evs = Some (out1, h1, s1) /\
    exists enough, forall counts, Forall (fun c => 1 <= c) counts -> (enough <= length counts)%nat ->
    exists out2 h2 s2,
      transfer h1 (pipe_set_diag (pipe_put_eof s1) diag) (map Read counts) = Some (out2, h2, s2) /\
      line_bits (out1 ++ out2) ++ held h2 =
        frame_line (held h0 ++ concat (repeat flag flags)) (fed_data evs) diag /\
      0 <= rawByteLen h2 < 8 /\ rawOnes h2 = 0 /\
      forall c, 0 <= c -> GetData h2 s2 c = Some (-1, [], h2, s2).
Proof.
  intros L O Hv. destruct (frame_sent h0 id flags threshold diag evs L O Hv) as (out1 & h1 & s1 & E & _ & H).
  by exists out1, h1, s1.
Qed.

Lemma hdlc_frame_sent_witness : exists out1 h1 s1,
  transfer (GetRawStart (PutHdlcData (HDLC_new 0xAB 0 0) (Some 1%positive)) 2) (pipe_new 0)
    [Feed [0xFF; 0x03]; Read 5; Feed [0x7E]] = Some (out1, h1, s1) /\
  exists enough, forall counts, Forall (fun c => 1 <= c) counts -> (enough <= length counts)%nat ->
  exists out2 h2 s2,
    transfer h1 (pipe_set_diag (pipe_put_eof s1) 0) (map Read counts) = Some (out2, h2, s2) /\
    line_bits (out1 ++ out2) ++ held h2 =
      frame_line (held (HDLC_new 0xAB 0 0) ++ concat (repeat flag 2)) [0xFF; 0x03; 0x7E] 0 /\
    0 <= rawByteLen h2 < 8 /\ rawOnes h2 = 0 /\
    forall c, 0 <= c -> GetData h2 s2 c = Some (-1, [], h2, s2).
Proof.
  apply (hdlc_frame_sent (HDLC_new 0xAB 0 0) 1%positive 2 0 0 [Feed [0xFF; 0x03]; Read 5; Feed [0x7E]]).
  - cbn. lia.
  - reflexivity.
  - repeat constructor. cbn. lia.
Defined.

(** The check octets of [FCS::build], sent most significant bit first, are
    the bits that the library's table-driven CRC-16 sends, least significant bit
    first, for the same data with the bits of each octet reversed; so a good
    frame goes out as the standard frame of the reversed octets, and the sum
    itself is the mirror image of the CRC-16 register after the same bits. *)
Theorem fcs_crc_itu16 (pre : list bool) (l : list Z) (diag : Z) :
  bytes l -> diag .& diagErrorMask = 0 ->
  frame_line pre l diag =
    pre ++ frame_bits (reversed l ++ @fc_sequence fc_crc16 (crc_itu16_calc (reversed l) 0xFFFF)) ++ flag /\
  mirrors (build FCS_new l) (crc_itu16_calc (reversed l) 0xFFFF).
Proof. intros Hl Hd. split; [by apply frame_line_good|by apply build_crc_itu16]. Qed.

Lemma fcs_crc_itu16_witness :
  frame_line [] [0x80; 0xC0] 0x0001 = [] ++ frame_bits ([0x01; 0x03] ++ [4; 36]) ++ flag.
Proof.
  refine (proj1 (fcs_crc_itu16 [] [0x80; 0xC0] 0x0001 _ _)); [|reflexivity].
  apply (bool_decide_unpack _). vm_compute. exact I.
Defined.
