(* ===== verification/PmHdlcRx.v ===== *)
(** * Frames out of a raw stream (src/t38modem/hdlc.cxx)

    What [PmHdlc] finds in a raw bit stream: it looks for a flag at any bit,
    takes the bits that follow the last flag, without the stuffed zeros, up to
    the next flag, and holds back the last sixteen, the check sequence. *)
From S2P Require Import Prelude HdlcFrame DataStream EngineBase PmHdlc PmHdlcTx.

(** ** The window: the first bits of a list, at the top of 16 *)

Definition window_of (w : Z) (q : list bool) : Prop :=
  (length q <= 16)%nat /\ 0 <= w < 2 ^ 16 /\
  forall i, 0 <= i < 16 -> Z.testbit w (15 - i) = nth (Z.to_nat i) q false.

Lemma window_head w b q : window_of w (b :: q) -> Z.testbit w 15 = b.
Proof. intros (_ & _ & H). apply (H 0). lia. Qed.

Lemma window_next w b q : window_of w (b :: q) -> window_of (u16 (w .<< 1)) q.
Proof.
  intros (Hl & Hr & H). simpl in Hl. split; [lia|]. split; [by apply wrap_range|]. intros i Hi. bit_specs.
  rewrite (proj2 (Z.ltb_lt (15 - i) 16)) by lia. cbn [andb].
  destruct (Z.leb_spec 1 (15 - i)); cbn [andb].
  - specialize (H (i + 1) ltac:(lia)). replace (15 - (i + 1)) with (15 - i - 1) in H by lia. rewrite H.
    by replace (Z.to_nat (i + 1)) with (S (Z.to_nat i)) by lia.
  - symmetry. apply nth_overflow. lia.
Qed.

(** The last [n] bits are the low bits of the shifted window. *)
Lemma window_last w q n : window_of w q -> (n <= 8)%nat -> (n <= length q)%nat ->
  msb_bits n (u8 (w .>> (16 - zlen q))) = drop (length q - n) q.
Proof.
  intros (Hl & Hr & H) Hn Hq. induction n as [|n IH].
  { rewrite Nat.sub_0_r, drop_ge by lia. done. }
  cbn [msb_bits]. rewrite IH by lia.
  assert (Z.testbit (u8 (w .>> (16 - zlen q))) (Z.of_nat n) = nth (length q - S n) q false) as ->.
  { bit_specs. rewrite (proj2 (Z.ltb_lt _ 8)) by lia. cbn [andb].
    specialize (H (zlen q - 1 - Z.of_nat n) ltac:(lia)).
    replace (15 - (zlen q - 1 - Z.of_nat n)) with (Z.of_nat n + (16 - zlen q)) in H by lia. rewrite H.
    f_equal. lia. }
  destruct (nth_lookup_or_length q (length q - S n) false) as [E|E]; [|lia].
  rewrite (drop_S _ _ _ E). do 2 f_equal. lia.
Qed.

(** [rawByte] with its bits, and the next octet. *)
Lemma window_start h b : 0 <= rawByteLen h < 8 -> window_of (window h b) (held h ++ msb_bits 8 b).
Proof.
  intros Hl. unfold window_of, held. rewrite length_app, !length_msb_bits. split; [lia|].
  split; [by apply wrap_range|]. intros i Hi. unfold window. change 0xFF with (Z.ones 8). bit_specs.
  rewrite (proj2 (Z.ltb_lt (15 - i) 16)) by lia. cbn [andb].
  destruct (Z.leb_spec (8 - rawByteLen h) (15 - i)) as [H1|H1]; cbn [andb].
  2: { symmetry. apply nth_overflow. rewrite length_app, !length_msb_bits. lia. }
  bit_specs. rewrite (proj2 (Z.ltb_lt _ 16)), (proj2 (Z.leb_le 0 _)) by lia. cbn [andb].
  destruct (Z.leb_spec 8 (15 - i - (8 - rawByteLen h))) as [H2|H2]; cbn [andb orb].
  - rewrite app_nth1 by (rewrite length_msb_bits; lia). rewrite nth_msb by lia.
    rewrite (proj2 (Z.ltb_ge _ 8)) by lia. rewrite andb_false_r, orb_false_r. bit_specs. f_equal. lia.
  - rewrite app_nth2 by (rewrite length_msb_bits; lia). rewrite length_msb_bits, nth_msb by lia.
    rewrite (proj2 (Z.ltb_lt _ 8)) by lia. rewrite andb_true_r. f_equal. lia.
Qed.

Definition at_flag (q : list bool) : bool := bool_decide (take 8 q = flag).

Lemma window_flag w q : window_of w q -> (8 <= length q)%nat -> (w .>> 8 =? 0x7E) = at_flag q.
Proof.
  intros (Hl & Hr & H) Hq.
  assert (msb_bits 8 (w .>> 8) = take 8 q) as E.
  { assert (forall k, 0 <= k < 8 -> Z.testbit (w .>> 8) (7 - k) = nth (Z.to_nat k) q false) as Hk.
    { intros k Hk. rewrite <- H by lia. bit_specs. f_equal. lia. }
    do 8 (destruct q as [|? q]; [simpl in Hq; lia|]). cbn [take msb_bits].
    rewrite take_0. repeat f_equal; [apply (Hk 0)|apply (Hk 1)|apply (Hk 2)|apply (Hk 3)|apply (Hk 4)|apply (Hk 5)|apply (Hk 6)|apply (Hk 7)]; lia. }
  unfold at_flag. rewrite <- E. destruct (Z.eqb_spec (w .>> 8) 0x7E) as [->|Hn].
  - symmetry. by apply bool_decide_eq_true_2.
  - symmetry. apply bool_decide_eq_false_2. intros Ef. apply Hn.
    apply (bits_of_range_inj 8); [apply shiftr_small; [lia|exact Hr|lia]|lia|].
    intros i Hi. change flag with (msb_bits 8 0x7E) in Ef.
    by rewrite <- (nth_msb_bits 8) by done; rewrite Ef, nth_msb_bits by done.
Qed.

(** ** The reference: bit by bit *)

(** Whether there is a flag, and the bits after the first one; or the seven
    bits left. *)
Fixpoint hunt (q : list bool) : bool * list bool :=
  match q with
  | [] => (false, [])
  | _ :: q' =>
      if (length q <? 8)%nat then (false, q)
      else if at_flag q then (true, drop 8 q) else hunt q'
  end.

(** What the receiver knows of a frame: the last bits, how many, and the ones
    in a row. *)
Record chunk := { c_bits : Z; c_len : Z; c_ones : Z }.

Definition chunk_of (h : HDLC) : chunk :=
  {| c_bits := hdlcChunk h; c_len := hdlcChunkLen h; c_ones := rawOnes h |}.

(** A bit of data: it may push an octet out. *)
Definition push (c : chunk) (b : bool) (ones : Z) : chunk * list Z :=
  let v := if b then u32 (c_bits c .<< 1) .| 1 else u32 (c_bits c .<< 1) in
  if c_len c + 1 =? 24 then
    ({| c_bits := v; c_len := 16; c_ones := ones |}, [u8 (v .>> 16)])
  else ({| c_bits := v; c_len := c_len c + 1; c_ones := ones |}, []).

(** A bit of the line. *)
Definition chunk_bit (c : chunk) (b : bool) : chunk * list Z :=
  if b then push c true (c_ones c + 1)
  else if c_ones c =? 5 then
    ({| c_bits := c_bits c; c_len := c_len c; c_ones := 0 |}, [])
  else push c false 0.

(** The data up to a flag: whether the bits go on, the octets, the bits left. *)
Fixpoint scan (c : chunk) (q : list bool) : bool * chunk * list Z * list bool :=
  match q with
  | [] => (true, c, [], [])
  | b :: q' =>
      if (length q <? 8)%nat then (true, c, [], q)
      else if at_flag q then (false, c, [], drop 8 q)
      else
        let '(c, o1) := chunk_bit c b in
        let '(more, c, o2, r) := scan c q' in
        (more, c, o1 ++ o2, r)
  end.

Lemma hunt_short q : (length q < 8)%nat -> hunt q = (false, q).
Proof. destruct q; [done|]. intros H. cbn [hunt]. by rewrite (proj2 (Nat.ltb_lt _ 8)) by done. Qed.

Lemma hunt_step b q : (8 <= length (b :: q))%nat ->
  hunt (b :: q) = if at_flag (b :: q) then (true, drop 8 (b :: q)) else hunt q.
Proof. intros H. cbn [hunt]. by rewrite (proj2 (Nat.ltb_ge _ 8)) by done. Qed.

Lemma scan_short c q : (length q < 8)%nat -> scan c q = (true, c, [], q).
Proof. destruct q; [done|]. intros H. cbn [scan]. by rewrite (proj2 (Nat.ltb_lt _ 8)) by done. Qed.

Lemma scan_step c b q : (8 <= length (b :: q))%nat ->
  scan c (b :: q) = if at_flag (b :: q) then (false, c, [], drop 8 (b :: q))
    else let '(c, o1) := chunk_bit c b in let '(more, c, o2, r) := scan c q in (more, c, o1 ++ o2, r).
Proof. intros H. cbn [scan]. by rewrite (proj2 (Nat.ltb_ge _ 8)) by done. Qed.

Lemma at_flag_app q t : (8 <= length q)%nat -> at_flag (q ++ t) = at_flag q.
Proof. intros H. unfold at_flag. by rewrite take_app_le by lia. Qed.

Lemma hunt_app q t : hunt (q ++ t) =
  let '(found, r) := hunt q in if found then (true, r ++ t) else hunt (r ++ t).
Proof.
  induction q as [|b q IH]; [done|]. destruct (Nat.ltb_spec (length (b :: q)) 8) as [H|H].
  { by rewrite (hunt_short (b :: q)). }
  rewrite (hunt_step b q) by done. cbn [app]. rewrite hunt_step by (cbn [length] in *; rewrite length_app; lia).
  change (b :: q ++ t) with ((b :: q) ++ t). rewrite at_flag_app by done.
  destruct (at_flag (b :: q)); [by rewrite drop_app_le|exact IH].
Qed.

Lemma scan_app c q t : scan c (q ++ t) =
  let '(more, c, o, r) := scan c q in
  if more then let '(more, c, o2, r) := scan c (r ++ t) in (more, c, o ++ o2, r) else (false, c, o, r ++ t).
Proof.
  revert c. induction q as [|b q IH]; intros c.
  { cbn [app scan]. by destruct (scan c t) as [[[? ?] ?] ?]. }
  destruct (Nat.ltb_spec (length (b :: q)) 8) as [H|H].
  { rewrite (scan_short c (b :: q)) by done. by destruct (scan c ((b :: q) ++ t)) as [[[? ?] ?] ?]. }
  rewrite (scan_step c b q) by done. cbn [app]. rewrite scan_step by (cbn [length] in *; rewrite length_app; lia).
  change (b :: q ++ t) with ((b :: q) ++ t). rewrite at_flag_app by done.
  destruct (at_flag (b :: q)); [by rewrite drop_app_le|].
  destruct (chunk_bit c b) as [c1 o1]. rewrite IH. destruct (scan c1 q) as [[[m c2] o2] r].
  destruct m; [|done]. destruct (scan c2 (r ++ t)) as [[[? ?] ?] ?]. by rewrite app_assoc.
Qed.

(** ** The code against it *)

(** What is kept of the window when no turn is left, and at a flag. *)
Lemma window_done h w q : window_of w q -> length q = 7%nat ->
  held (h <| rawByte := u8 (w .>> (9 - Z.of_nat 0)) |> <| rawByteLen := 7 |>) = q.
Proof.
  intros W Hq. pose proof (window_last w q 7 W) as H. rewrite Hq in H.
  change (16 - Z.of_nat 7) with (9 - Z.of_nat 0) in H. unfold held.
  change (msb_bits 7 (u8 (w .>> (9 - Z.of_nat 0))) = q). by rewrite H by lia.
Qed.

Lemma window_flagged h w q n : window_of w q -> length q = (8 + n)%nat -> (n <= 8)%nat ->
  held (h <| rawByte := u8 (w .>> (9 - Z.of_nat (S n))) |> <| rawByteLen := 8 - (9 - Z.of_nat (S n)) |>) = drop 8 q.
Proof.
  intros W Hq Hn. pose proof (window_last w q n W) as H. rewrite Hq in H.
  replace (16 - Z.of_nat (8 + n)) with (9 - Z.of_nat (S n)) in H by lia. unfold held.
  change (msb_bits (Z.to_nat (8 - (9 - Z.of_nat (S n)))) (u8 (w .>> (9 - Z.of_nat (S n)))) = drop 8 q).
  replace (Z.to_nat (8 - (9 - Z.of_nat (S n)))) with n by lia. rewrite H by lia. f_equal. lia.
Qed.

Lemma sync_spec h b : 0 <= rawByteLen h < 8 ->
  let '(found, h') := sync h b in
  hunt (held h ++ msb_bits 8 b) = (found, held h') /\ 0 <= rawByteLen h' < 8 /\
  h' = h <| rawByte := rawByte h' |> <| rawByteLen := rawByteLen h' |>.
Proof.
  intros Hl. unfold sync. pose proof (window_start h b Hl) as W. revert W.
  assert (length (held h ++ msb_bits 8 b) = 7 + Z.to_nat (rawByteLen h + 1))%nat as Hq.
  { unfold held. rewrite length_app, !length_msb_bits. lia. }
  revert Hq. generalize (held h ++ msb_bits 8 b) as q, (window h b) as w.
  assert (Z.to_nat (rawByteLen h + 1) <= 8)%nat as Hn by lia. revert Hn.
  generalize (Z.to_nat (rawByteLen h + 1)) as n. clear Hl. intros n. induction n as [|n IH]; intros Hn q w Hq W.
  - cbn [sync_loop]. rewrite hunt_short by lia. split; [|split; [cbn; lia|by destruct h]].
    by rewrite (window_done h w q).
  - destruct q as [|x q]; [simpl in Hq; lia|]. cbn [sync_loop].
    rewrite hunt_step by lia. rewrite (window_flag w (x :: q)) by (done || lia).
    destruct (at_flag (x :: q)).
    + split; [|split; [cbn; lia|by destruct h]]. by rewrite (window_flagged h w (x :: q) n) by (done || lia).
    + apply IH; [lia|simpl in Hq; lia|]. by eapply window_next.
Qed.

Lemma skipFlag_spec h b : 0 <= rawByteLen h < 8 ->
  let '(f, h') := skipFlag h b in
  f = at_flag (held h ++ msb_bits 8 b) /\
  (if f then held h' = drop 8 (held h ++ msb_bits 8 b) /\ h' = h <| rawByte := rawByte h' |> else h' = h).
Proof.
  intros Hl. unfold skipFlag. pose proof (window_start h b Hl) as W.
  assert (length (held h ++ msb_bits 8 b) = 8 + Z.to_nat (rawByteLen h))%nat as Hq.
  { unfold held. rewrite length_app, !length_msb_bits. lia. }
  rewrite (window_flag _ _ W) by lia. destruct (at_flag _); [|done]. split; [done|]. split; [|by destruct h].
  pose proof (window_last _ _ (Z.to_nat (rawByteLen h)) W) as H. rewrite Hq in H.
  unfold held at 1. change (rawByteLen (h <| rawByte := _ |>)) with (rawByteLen h).
  change (rawByte (h <| rawByte := u8 (window h b .>> (8 - rawByteLen h)) |>)) with (u8 (window h b .>> (8 - rawByteLen h))).
  replace (16 - Z.of_nat (8 + Z.to_nat (rawByteLen h))) with (8 - rawByteLen h) in H by lia.
  rewrite H by lia. f_equal. lia.
Qed.

(** [unpack] leaves the rest alone. *)
Definition same_rx (h h' : HDLC) : Prop :=
  h' = h <| outData := outData h' |> <| rawByte := rawByte h' |> <| rawByteLen := rawByteLen h' |>
         <| rawOnes := rawOnes h' |> <| hdlcChunk := hdlcChunk h' |> <| hdlcChunkLen := hdlcChunkLen h' |> /\
  p_eof (outData h') = p_eof (outData h).

Lemma same_rx_trans a b c : same_rx a b -> same_rx b c -> same_rx a c.
Proof. intros [-> H1] [-> H2]. split; [done|]. by rewrite H2. Qed.

Lemma unpack_bit_spec h w b q : window_of w (b :: q) -> p_eof (outData h) = false ->
  hdlcChunkLen h < 24 ->
  let '(c, o) := chunk_bit (chunk_of h) b in
  let h' := unpack_bit h w in
  chunk_of h' = c /\ p_octets (outData h') = p_octets (outData h) ++ o /\ same_rx h h' /\
  rawByteLen h' = rawByteLen h /\ hdlcChunkLen h' < 24.
Proof.
  intros W. unfold unpack_bit. change 0x8000 with (2 ^ 15). rewrite land_pow2_eqb by lia.
  rewrite (window_head _ _ _ W). clear W. destruct h as [i o d od f lc rc rb rl ro hc hl hs].
  destruct od as [oc oe og ot]. cbn [outData p_eof hdlcChunkLen]. intros -> Hl.
  unfold chunk_bit, push, chunk_of, same_rx.
  assert (forall v, v = hl + 1 -> (v =? 24) = false -> v < 24) as Hv by lia.
  destruct b; cbn -[Z.add Z.shiftl Z.lor wrap Z.eqb Z.shiftr Z.lt];
    [|destruct (ro =? 5); cbn -[Z.add Z.shiftl Z.lor wrap Z.eqb Z.shiftr Z.lt]].
  2: { rewrite (proj2 (Z.eqb_neq hl 24)) by lia.
       cbn -[Z.add Z.shiftl Z.lor wrap Z.shiftr Z.lt]. by rewrite app_nil_r. }
  all: destruct (hl + 1 =? 24) eqn:E; cbn -[Z.add Z.shiftl Z.lor wrap Z.shiftr Z.lt];
    rewrite ?app_nil_r; repeat split; try lia; by apply Hv.
Qed.

Lemma unpack_loop_spec : forall n h w q, (n <= 8)%nat -> length q = (7 + n)%nat -> window_of w q ->
  p_eof (outData h) = false -> hdlcChunkLen h < 24 ->
  let '(more, c, o, r) := scan (chunk_of h) q in
  let '(more', h') := unpack_loop n h w in
  more' = more /\ chunk_of h' = c /\ p_octets (outData h') = p_octets (outData h) ++ o /\ held h' = r /\
  same_rx h h' /\ 0 <= rawByteLen h' < 8 /\ hdlcChunkLen h' < 24.
Proof.
  intros n. induction n as [|n IH]; intros h w q Hn Hq W He Hl.
  - rewrite scan_short by lia. cbn [unpack_loop]. split; [done|]. split; [done|].
    split; [by rewrite app_nil_r|]. split; [by apply window_done|]. split; [by split; [destruct h|]|].
    split; [cbn; lia|done].
  - destruct q as [|b q]; [simpl in Hq; lia|]. rewrite scan_step by lia. cbn [unpack_loop].
    rewrite (window_flag w (b :: q)) by (done || lia). destruct (at_flag (b :: q)).
    { split; [done|]. split; [done|]. split; [by rewrite app_nil_r|].
      split; [by rewrite (window_flagged h w (b :: q) n) by (done || lia)|]. split; [by split; [destruct h|]|].
      split; [cbn; lia|done]. }
    pose proof (unpack_bit_spec h w b q W He Hl) as U.
    destruct (chunk_bit (chunk_of h) b) as [c1 o1]. destruct U as (U1 & U2 & U3 & U4 & U5).
    specialize (IH (unpack_bit h w) (u16 (w .<< 1)) q ltac:(lia) ltac:(simpl in Hq; lia) (window_next _ _ _ W)).
    rewrite U1 in IH. specialize (IH ltac:(by destruct U3 as [_ ->]) U5).
    destruct (scan c1 q) as [[[m c2] o2] r]. destruct (unpack_loop n (unpack_bit h w) _) as [m' h'].
    destruct IH as (-> & -> & E3 & -> & E5 & E6). split; [done|]. split; [done|].
    split; [by rewrite E3, U2, app_assoc|]. split; [done|]. split; [by eapply same_rx_trans|done].
Qed.

Lemma unpack_spec h b : 0 <= rawByteLen h < 8 -> p_eof (outData h) = false -> hdlcChunkLen h < 24 ->
  let '(more, c, o, r) := scan (chunk_of h) (held h ++ msb_bits 8 b) in
  let '(more', h') := unpack h b in
  more' = more /\ chunk_of h' = c /\ p_octets (outData h') = p_octets (outData h) ++ o /\ held h' = r /\
  same_rx h h' /\ 0 <= rawByteLen h' < 8 /\ hdlcChunkLen h' < 24.
Proof.
  intros Hl He Hc. unfold unpack. apply unpack_loop_spec; [lia| |by apply window_start|done|done].
  unfold held. rewrite length_app, !length_msb_bits. lia.
Qed.

(** ** A stuffed frame, scanned *)

(** The data bits alone; after five ones the stuffed zero resets the count. *)
Fixpoint stuffed_all (c : chunk) (l : list bool) : chunk * list Z :=
  match l with
  | [] => (c, [])
  | b :: l =>
      let '(c, o1) := push c b (if b then c_ones c + 1 else 0) in
      let c := if c_ones c =? 5 then {| c_bits := c_bits c; c_len := c_len c; c_ones := 0 |} else c in
      let '(c, o2) := stuffed_all c l in
      (c, o1 ++ o2)
  end.

(** No flag begins inside stuffed data. *)
Lemma no_flag_true q : at_flag (true :: q) = false.
Proof. apply bool_decide_eq_false_2. by cbn [take]. Qed.

Lemma no_flag_false D t : at_flag (false :: stuff 0 D ++ flag ++ t) = false.
Proof.
  apply bool_decide_eq_false_2. intros H. injection H as H. revert H.
  do 5 (destruct D as [|[] D]; [done| |done]). cbn. congruence.
Qed.

Lemma at_flag_flag t : at_flag (flag ++ t) = true.
Proof. by apply bool_decide_eq_true_2. Qed.

Lemma flag_length t q : (8 <= length (q ++ flag ++ t))%nat.
Proof. rewrite !length_app. simpl. lia. Qed.

Lemma scan_flag c t : scan c (flag ++ t) = (false, c, [], t).
Proof.
  pose proof (at_flag_flag t) as H. cbn [flag app] in *. rewrite scan_step by (simpl; lia). by rewrite H.
Qed.

Lemma push_ones c b o : c_ones (push c b o).1 = o.
Proof. unfold push. by destruct (c_len c + 1 =? 24). Qed.

Lemma scan_stuffed t : forall D c k, c_ones c = Z.of_nat k -> (k <= 4)%nat ->
  scan c (stuff k D ++ flag ++ t) = let '(c, o) := stuffed_all c D in (false, c, o, t).
Proof.
  induction D as [|b D IH]; intros c k Hk Hle; [apply scan_flag|]. cbn [stuffed_all stuff].
  pose proof (push_ones c b (if b then c_ones c + 1 else 0)) as Ho.
  destruct b.
  - assert (forall q, (7 <= length q)%nat -> scan c (true :: q) =
      let '(c, o1) := push c true (c_ones c + 1) in let '(m, c, o2, r) := scan c q in (m, c, o1 ++ o2, r)) as Hs.
    { intros q Hq. rewrite scan_step by (simpl; lia). by rewrite no_flag_true. }
    destruct (push c true (c_ones c + 1)) as [c1 o1]. cbn [fst] in Ho.
    destruct (Nat.eqb_spec k 4) as [->|Hk4]; cbn [app].
    + rewrite Hs by (pose proof (flag_length t (stuff 0 D)); cbn [length]; lia).
      rewrite scan_step by (pose proof (flag_length t (stuff 0 D)); cbn [length]; lia). rewrite no_flag_false.
      unfold chunk_bit. rewrite (proj2 (Z.eqb_eq (c_ones c1) 5)) by lia.
      rewrite (IH _ 0%nat) by (done || lia). destruct (stuffed_all _ D) as [c2 o2]. by rewrite app_nil_l.
    + rewrite Hs by (pose proof (flag_length t (stuff (S k) D)); lia).
      rewrite (proj2 (Z.eqb_neq (c_ones c1) 5)) by lia. rewrite (IH c1 (S k)) by lia.
      by destruct (stuffed_all c1 D) as [c2 o2].
  - cbn [app]. rewrite scan_step by (pose proof (flag_length t (stuff 0 D)); cbn [length]; lia). rewrite no_flag_false.
    unfold chunk_bit. rewrite (proj2 (Z.eqb_neq (c_ones c) 5)) by lia.
    destruct (push c false 0) as [c1 o1]. cbn [fst] in Ho.
    rewrite (proj2 (Z.eqb_neq (c_ones c1) 5)) by lia. rewrite (IH c1 0%nat) by lia.
    by destruct (stuffed_all c1 D) as [c2 o2].
Qed.

(** The last bits of the data are in the chunk, the others gone out as octets. *)
Record chunked (D : list bool) (c : chunk) (out : list Z) : Prop := {
  chunked_bits : line_bits out ++ msb_bits (Z.to_nat (c_len c)) (c_bits c) = D;
  chunked_len : 0 <= c_len c < 24;
  chunked_out : out <> [] -> 16 <= c_len c;
  chunked_bytes : bytes out;
}.

Lemma push_chunked D c out b o : chunked D c out ->
  chunked (D ++ [b]) (push c b o).1 (out ++ (push c b o).2).
Proof.
  intros [Hb Hl Ho Hy]. unfold push. set (v := if b then _ else _).
  assert (forall n, (n <= 23)%nat -> msb_bits (S n) v = msb_bits n (c_bits c) ++ [b]) as Hv.
  { intros n Hn. rewrite msb_bits_snoc. f_equal.
    - apply msb_bits_ext. intros i Hi. unfold v. destruct b; bit_specs;
        rewrite (proj2 (Z.ltb_lt _ 32)), (proj2 (Z.leb_le 1 _)) by lia; cbn [andb];
        replace (i + 1 - 1) with i by lia; [|done].
      rewrite (testbit_high 1 1) by lia. apply orb_false_r.
    - f_equal. unfold v. destruct b; bit_specs; done. }
  destruct (Z.eqb_spec (c_len c + 1) 24) as [E|E]; cbn [fst snd c_len c_bits].
  - split; cbn [c_len c_bits]; [|lia|lia|apply Forall_app_2; [done|]; constructor; [apply is_byte_u8|constructor]].
    rewrite line_bits_app, <- Hb, <- !app_assoc. f_equal.
    replace (Z.to_nat (c_len c)) with 23%nat by lia. rewrite <- (Hv 23%nat) by lia.
    change (24%nat) with (8 + 16)%nat. rewrite msb_bits_app. f_equal. unfold line_bits. cbn [map concat].
    rewrite app_nil_r. apply msb_bits_ext. intros i Hi. bit_specs. by rewrite (proj2 (Z.ltb_lt i 8)) by lia.
  - rewrite app_nil_r. split; cbn [c_len c_bits]; [|lia|intros H; specialize (Ho H); lia|done].
    replace (Z.to_nat (c_len c + 1)) with (S (Z.to_nat (c_len c))) by lia.
    rewrite Hv by lia. by rewrite app_assoc, Hb.
Qed.

Lemma stuffed_chunked : forall l D c out, chunked D c out ->
  let '(c', o) := stuffed_all c l in chunked (D ++ l) c' (out ++ o).
Proof.
  induction l as [|b l IH]; intros D c out H; cbn [stuffed_all]; [by rewrite !app_nil_r|].
  pose proof (push_chunked D c out b (if b then c_ones c + 1 else 0) H) as H1.
  destruct (push c b _) as [c1 o1]. cbn [fst snd] in H1.
  set (c2 := if c_ones c1 =? 5 then _ else c1).
  assert (chunked (D ++ [b]) c2 (out ++ o1)) as H2.
  { unfold c2. destruct (c_ones c1 =? 5); [destruct H1; by split|done]. }
  specialize (IH _ _ _ H2). destruct (stuffed_all c2 l) as [c3 o3]. by rewrite <- !app_assoc in IH.
Qed.

Lemma msb_bits_inj n x y : 0 <= x < 2 ^ Z.of_nat n -> 0 <= y < 2 ^ Z.of_nat n -> msb_bits n x = msb_bits n y -> x = y.
Proof.
  intros Hx Hy E. apply (bits_of_range_inj n); [done|done|]. intros i Hi.
  by rewrite <- (nth_msb_bits n), E, nth_msb_bits by done.
Qed.

Lemma line_bits_inj x y : bytes x -> bytes y -> line_bits x = line_bits y -> x = y.
Proof.
  intros Hx. revert y. induction Hx as [|a x Ha Hx IH]; intros y Hy E.
  - destruct y; [done|]. apply (f_equal length) in E. by rewrite length_line_bits in E.
  - destruct y as [|b y]; [apply (f_equal length) in E; by rewrite length_line_bits in E|].
    apply Forall_cons_1 in Hy as [Hb Hy]. rewrite !line_bits_cons in E.
    apply app_inj_1 in E as [E1 E2]; [|done]. f_equal; [by apply (msb_bits_inj 8)|by apply IH].
Qed.

Lemma word_bits a b : is_byte a -> is_byte b -> msb_bits 16 (a * 256 + b) = line_bits [a; b].
Proof.
  intros Ha Hb. replace (a * 256 + b) with (b .| (a .<< 8)) by (rewrite lor_shiftl_add by done; lia).
  change 16%nat with (8 + 8)%nat. rewrite msb_bits_app. unfold line_bits. cbn [map concat]. rewrite app_nil_r.
  f_equal; apply msb_bits_ext; intros i Hi; bit_specs.
  - rewrite (testbit_high 8 b) by (done || lia). rewrite (proj2 (Z.leb_le 8 _)) by lia. cbn [andb orb]. f_equal. lia.
  - rewrite (proj2 (Z.leb_gt 8 _)) by lia. by rewrite orb_false_r.
Qed.

(** A whole frame: its octets come out, and the chunk keeps the check octets. *)
Lemma frame_chunked c0 X a b : c_len c0 = 0 -> bytes X -> is_byte a -> is_byte b ->
  let '(c, o) := stuffed_all c0 (line_bits (X ++ [a; b])) in
  o = X /\ c_len c = 16 /\ u16 (c_bits c) = a * 256 + b.
Proof.
  intros H0 HX Ha Hb.
  assert (chunked [] c0 []) as C0 by (split; [by rewrite H0|lia|done|constructor]).
  pose proof (stuffed_chunked (line_bits (X ++ [a; b])) [] c0 [] C0) as C.
  destruct (stuffed_all c0 _) as [c o]. cbn [app] in C. destruct C as [E Hl Ho Hy].
  assert (8 * length o + Z.to_nat (c_len c) = 8 * length X + 16)%nat as El.
  { apply (f_equal length) in E. rewrite length_app, !length_line_bits, length_msb_bits, length_app in E.
    simpl in E. lia. }
  assert (c_len c = 16) as E16.
  { destruct o as [|x o]; [simpl in El; lia|]. specialize (Ho ltac:(done)). lia. }
  rewrite E16 in *. rewrite line_bits_app in E.
  apply app_inj_1 in E as [E1 E2]; [|rewrite !length_line_bits; lia].
  split; [by apply line_bits_inj|]. split; [done|].
  apply (msb_bits_inj 16); [by apply wrap_range|unfold is_byte in *; lia|].
  rewrite word_bits by done. rewrite <- E2. apply msb_bits_ext. intros i Hi. bit_specs.
  by rewrite (proj2 (Z.ltb_lt i 16)) by lia.
Qed.

(** ** Receiving *)

Section receiving.
Context (X : list Z) (a b : Z) (rest : list bool).
Context (HX : bytes X) (Ha : is_byte a) (Hb : is_byte b).

Definition body : list bool := stuff 0 (line_bits (X ++ [a; b])) ++ flag ++ rest.

(** The bits [I] are still to come, the octets [got] have been given out. *)
Record receiving (got : list Z) (I : list bool) (h : HDLC) : Prop := {
  rcv_types : inDataType h = dtRaw /\ outDataType h = dtHdlc;
  rcv_len : 0 <= rawByteLen h < 8;
  rcv_fcs : fcs h = build FCS_new got;
  rcv_chunk : hdlcChunkLen h < 24;
  rcv_state :
    match hdlcState h with
    | stSync => is_Some (inData h) /\ outData h = pipe_new (p_threshold (outData h)) /\ got = [] /\
        hdlcChunkLen h = 0 /\ rawOnes h = 0 /\
        exists k, hunt I = (true, concat (repeat flag k) ++ body)
    | stSkipFlags => is_Some (inData h) /\ outData h = pipe_new (p_threshold (outData h)) /\ got = [] /\
        hdlcChunkLen h = 0 /\ rawOnes h = 0 /\ exists k, I = concat (repeat flag k) ++ body
    | stData => is_Some (inData h) /\ p_eof (outData h) = false /\ exists c o,
        scan (chunk_of h) I = (false, c, o, rest) /\ got ++ p_octets (outData h) ++ o = X /\
        c_len c = 16 /\ u16 (c_bits c) = a * 256 + b
    | stEof => is_Some (inData h) /\ p_eof (outData h) = true /\ I = rest /\ got ++ p_octets (outData h) = X /\
        hdlcChunkLen h = 16 /\ u16 (hdlcChunk h) = a * 256 + b
    end;
}.

(** An octet of data. *)
Definition rcv_data (h : HDLC) (x : Z) : HDLC :=
  let '(more, h) := unpack h x in
  if (more : bool) then h
  else h <| outData := pipe_put_eof (outData h) |> <| hdlcState := stEof |>.

Lemma rcv_data_spec got h x I : receiving got (held h ++ msb_bits 8 x ++ I) h -> hdlcState h = stData ->
  receiving got (held (rcv_data h x) ++ I) (rcv_data h x) /\
  (hdlcState (rcv_data h x) = stData \/ hdlcState (rcv_data h x) = stEof).
Proof.
  intros [[T1 T2] L F C S] Es. rewrite Es in S. destruct S as (Hi & He & c & o & E & EX & Ec & Eb).
  unfold rcv_data. pose proof (unpack_spec h x L He C) as U. rewrite app_assoc, scan_app in E.
  destruct (scan (chunk_of h) (held h ++ msb_bits 8 x)) as [[[m c1] o1] r1].
  destruct (unpack h x) as [m' h1]. destruct U as (-> & U1 & U2 & U3 & [U4 U5] & U6 & U7).
  assert (inDataType h1 = inDataType h /\ outDataType h1 = outDataType h /\ fcs h1 = fcs h /\
    inData h1 = inData h /\ hdlcState h1 = hdlcState h) as (V1 & V2 & V3 & V4 & V5) by (rewrite U4; done).
  clear U4. rewrite <- U3 in E. destruct m.
  - split; [|left; by rewrite V5]. split; [by rewrite V1, V2|done|by rewrite V3|done|]. rewrite V5, Es, V4.
    split; [done|]. split; [by rewrite U5|]. rewrite U1.
    destruct (scan c1 (held h1 ++ I)) as [[[m2 c2] o2] r2]. injection E as <- <- <- <-.
    exists c2, o2. split; [done|]. split; [by rewrite U2, <- app_assoc|done].
  - injection E as <- <- Er. split; [|by right].
    set (h2 := h1 <| outData := pipe_put_eof (outData h1) |> <| hdlcState := stEof |>).
    split; [exact (conj (eq_trans V1 T1) (eq_trans V2 T2))|exact U6|exact (eq_trans V3 F)|exact U7|].
    change (hdlcState h2) with stEof. cbv iota. split; [exact (eq_ind_r is_Some Hi V4)|].
    split; [done|]. split; [exact Er|].
    rewrite <- U1 in Ec, Eb. split; [|by split]. change (got ++ p_octets (outData h1) = X). by rewrite U2.
Qed.

Lemma at_flag_body : at_flag body = false.
Proof.
  unfold body. destruct (line_bits (X ++ [a; b])) as [|[] D] eqn:E.
  - apply (f_equal length) in E. rewrite length_line_bits, length_app in E. simpl in E. lia.
  - cbn [stuff Nat.eqb app]. apply no_flag_true.
  - apply no_flag_false.
Qed.

Lemma length_body : (8 <= length body)%nat.
Proof. unfold body. apply flag_length. Qed.

(** The first octet that is no flag. *)
Lemma receiving_data h : hdlcChunkLen h = 0 -> rawOnes h = 0 ->
  exists c, scan (chunk_of h) body = (false, c, X, rest) /\ c_len c = 16 /\ u16 (c_bits c) = a * 256 + b.
Proof.
  intros H0 H1. unfold body. rewrite (scan_stuffed rest _ _ 0%nat) by (done || lia).
  pose proof (frame_chunked (chunk_of h) X a b H0 HX Ha Hb) as Hf.
  destruct (stuffed_all _ _) as [c o]. destruct Hf as (-> & Hf). by exists c.
Qed.

(** Outside the data only the bits kept change. *)
Definition same_but_bits (h h' : HDLC) : Prop :=
  h' = h <| rawByte := rawByte h' |> <| rawByteLen := rawByteLen h' |>.

Lemma same_but_bits_fields h h' : same_but_bits h h' ->
  inDataType h' = inDataType h /\ outDataType h' = outDataType h /\ fcs h' = fcs h /\
  hdlcChunkLen h' = hdlcChunkLen h /\ hdlcState h' = hdlcState h /\ inData h' = inData h /\
  outData h' = outData h /\ rawOnes h' = rawOnes h.
Proof. intros ->. done. Qed.

(** Before the data. *)
Definition waiting (got : list Z) (h : HDLC) : Prop :=
  (inDataType h = dtRaw /\ outDataType h = dtHdlc) /\ fcs h = build FCS_new got /\ is_Some (inData h) /\
  outData h = pipe_new (p_threshold (outData h)) /\ got = [] /\ hdlcChunkLen h = 0 /\ rawOnes h = 0.

Lemma waiting_bits got h h' : waiting got h -> same_but_bits h h' -> waiting got h'.
Proof.
  intros W S. destruct (same_but_bits_fields _ _ S) as (E1 & E2 & E3 & E4 & E5 & E6 & E7 & E8).
  unfold waiting. by rewrite E1, E2, E3, E4, E6, E7, E8.
Qed.

Lemma waiting_sync got I h : waiting got h -> 0 <= rawByteLen h < 8 -> hdlcState h = stSync ->
  (exists k, hunt I = (true, concat (repeat flag k) ++ body)) -> receiving got I h.
Proof.
  intros (T & F & Hi & Ho & Hg & Hl & Hr) L E Hk. split; [done|done|done|lia|]. by rewrite E.
Qed.

Lemma waiting_flags got I h : waiting got h -> 0 <= rawByteLen h < 8 -> hdlcState h = stSkipFlags ->
  (exists k, I = concat (repeat flag k) ++ body) -> receiving got I h.
Proof.
  intros (T & F & Hi & Ho & Hg & Hl & Hr) L E Hk. split; [done|done|done|lia|]. by rewrite E.
Qed.

Lemma hdlc_octet_spec got h x I : receiving got (held h ++ msb_bits 8 x ++ I) h -> hdlcState h <> stEof ->
  receiving got (held (hdlc_octet h x) ++ I) (hdlc_octet h x).
Proof.
  intros R Hn. unfold hdlc_octet. cbv zeta. fold (rcv_data).
  set (h1 := h <| lastChar := x |> <| rawCount := _ |>).
  assert (receiving got (held h1 ++ msb_bits 8 x ++ I) h1) as [[T1 T2] L F C S] by (destruct R; by split).
  change (hdlcState h1) with (hdlcState h) in *. clear R.
  assert (length (held h1 ++ msb_bits 8 x) = 8 + Z.to_nat (rawByteLen h1))%nat as Hq.
  { unfold held. rewrite length_app, !length_msb_bits. lia. }
  destruct (hdlcState h) eqn:Es; [done| | |].
  - destruct S as (Hi & Ho & Hg & Hl & Hr & k & Hk). rewrite app_assoc, hunt_app in Hk.
    pose proof (sync_spec h1 x L) as Y. destruct (hunt (held h1 ++ msb_bits 8 x)) as [f r].
    destruct (sync h1 x) as [f' h2]. destruct Y as (Y1 & Y2 & Y3). injection Y1 as -> ->.
    assert (waiting got h2) as W by (eapply waiting_bits; [|exact Y3]; by repeat split).
    destruct f'.
    + injection Hk as Hk. apply waiting_flags; [done|done|done|]. by exists k.
    + apply waiting_sync; [done|done| |by exists k].
      destruct (same_but_bits_fields _ _ Y3) as (_ & _ & _ & _ & E & _). by rewrite E.
  - destruct S as (Hi & Ho & Hg & Hl & Hr & k & Hk).
    pose proof (skipFlag_spec h1 x L) as Y. destruct (skipFlag h1 x) as [f h2]. destruct Y as [-> Y].
    rewrite app_assoc in Hk. rewrite <- (at_flag_app _ I), Hk in * by lia.
    destruct k as [|k]; cbn [repeat concat app] in Hk, Y |- *.
    + rewrite at_flag_body in *. subst h2. apply rcv_data_spec; [|done].
      split; [done|done|done|done|]. cbv iota. split; [done|]. split; [exact (f_equal p_eof Ho)|].
      rewrite app_assoc. change (held (h1 <| hdlcState := stData |>)) with (held h1). rewrite Hk. destruct (receiving_data h1 Hl Hr) as (c & E & Ec). exists c, X.
      split; [exact E|]. split; [|done]. rewrite Hg.
      change (outData (h1 <| hdlcState := stData |>)) with (outData h1). by rewrite Ho.
    + rewrite <- app_assoc, at_flag_flag in *. destruct Y as [Y1 Y2].
      assert (same_but_bits h1 h2) as Y3.
      { unfold same_but_bits. rewrite (f_equal rawByteLen Y2 : rawByteLen h2 = rawByteLen h1). exact Y2. }
      destruct (same_but_bits_fields _ _ Y3) as (_ & _ & _ & _ & E & _).
      apply waiting_flags; [eapply waiting_bits; [|exact Y3]; by repeat split| |by rewrite E|].
      * rewrite (f_equal rawByteLen Y2 : rawByteLen h2 = rawByteLen h1). done.
      * exists k. rewrite Y1, <- drop_app_le, <- app_assoc, Hk, <- app_assoc by lia. done.
  - destruct S as (Hi & He & S). apply rcv_data_spec; [|done]. split; [done|done|done|done|].
    change (hdlcState h1) with (hdlcState h). by rewrite Es.
Qed.

(** Octets still to come are at least one, before the end of the frame. *)
Lemma receiving_more got I h : receiving got I h -> hdlcState h <> stEof -> (8 <= length I)%nat.
Proof.
  intros [_ _ _ _ S] Hn. destruct (Nat.ltb_spec (length I) 8) as [H|H]; [|done]. exfalso.
  destruct (hdlcState h); [done| | |].
  - destruct S as (_ & _ & _ & _ & _ & k & S). by rewrite hunt_short in S.
  - destruct S as (_ & _ & _ & _ & _ & k & ->). pose proof length_body. rewrite length_app in H. lia.
  - destruct S as (_ & _ & c & o & S & _). by rewrite scan_short in S.
Qed.

Definition got_octets (h : HDLC) (r : Z) (out : list Z) : HDLC :=
  if 0 <? r then h <| fcs := build (fcs h) out |> else h.

Lemma receiving_set got I h o out : receiving got I h -> hdlcState h = stData \/ hdlcState h = stEof ->
  p_octets (outData h) = out ++ p_octets o -> p_eof o = p_eof (outData h) ->
  receiving (got ++ out) I (got_octets (h <| outData := o |>) (zlen out) out).
Proof.
  intros [T L F C S] Hs Eo Ee. set (h2 := h <| outData := o |>).
  assert (got_octets h2 (zlen out) out = h2 <| fcs := build FCS_new (got ++ out) |>) as ->.
  { unfold got_octets, build. rewrite fold_left_app. fold (build FCS_new got). rewrite <- F.
    destruct (Z.ltb_spec 0 (zlen out)); [done|]. destruct out; [by destruct h|simpl in *; lia]. }
  split; [done|done|done|done|]. change (hdlcState (h2 <| fcs := _ |>)) with (hdlcState h).
  destruct Hs as [Es|Es]; rewrite Es in *.
  - destruct S as (Hi & He & c & o' & E & EX & Ec). split; [done|]. split; [by rewrite <- He, <- Ee|].
    exists c, o'. split; [exact E|]. split; [|done]. rewrite <- EX, Eo, <- !app_assoc. done.
  - destruct S as (Hi & He & E & EX & Ec). split; [done|]. split; [by rewrite <- He, <- Ee|].
    split; [exact E|]. split; [|done].
    rewrite <- EX, Eo, <- !app_assoc. done.
Qed.

Lemma receiving_take got I h count : receiving got I h -> hdlcState h = stData \/ hdlcState h = stEof -> 0 <= count ->
  let '(r, out, o) := pipe_get (outData h) count in
  let h' := got_octets (h <| outData := o |>) r out in
  receiving (got ++ out) I h' /\ hdlcState h' = hdlcState h /\
  ((r = -1 /\ out = [] /\ h' = h <| outData := o |> /\ hdlcState h = stEof /\ p_octets o = [] /\ p_eof o = true) \/
   (r = zlen out /\ r <= count /\ (r = 0 -> 0 < count -> p_eof (outData h) = false))).
Proof.
  intros R Hs Hc. unfold pipe_get. destruct (p_octets (outData h)) as [|x l] eqn:Eo.
  - assert (forall r, r <= 0 -> got_octets (h <| outData := outData h |>) r [] = h) as Eg.
    { intros r Hr. unfold got_octets. rewrite (proj2 (Z.ltb_ge 0 r)) by done. by destruct h. }
    rewrite Eg by (destruct (p_eof _); lia). rewrite app_nil_r. split; [done|]. split; [done|].
    destruct (p_eof (outData h)) eqn:Ee; [left|by right].
    split; [done|]. split; [done|]. split; [by destruct h|]. split; [|done].
    destruct Hs as [Es|Es]; [|done]. destruct R as [_ _ _ _ S]. rewrite Es in S. destruct S as (_ & S & _). congruence.
  - set (o := outData h <| p_octets := _ |>). split; [|split; [by unfold got_octets; destruct (0 <? _)|]].
    + apply receiving_set; [done|done| |done]. rewrite Eo. symmetry. apply take_drop.
    + right. split; [done|]. rewrite length_take. split; [lia|]. intros H0 H1. simpl in H0. lia.
Qed.

(** How the loop on the raw octets ends. *)
Record found (count len : Z) (r : bool) (got out : list Z) (fut : list Z) (s s' : pipe) (h' : HDLC) : Prop := {
  found_rcv : receiving (got ++ out) (held h' ++ line_bits (p_octets s' ++ fut)) h';
  found_eof : p_eof s' = p_eof s;
  found_room : zlen out <= count;
  found_end : r = true -> len <= 0 /\ out = [] /\ hdlcState h' = stEof /\ p_octets (outData h') = [];
  found_starved : r = false -> 0 < count -> len + zlen out = 0 -> p_octets s' = [] /\ hdlcState h' <> stEof;
}.

Lemma hdlc_loop_spec fut : forall fuel h s count len got,
  receiving got (held h ++ line_bits (p_octets s ++ fut)) h -> hdlcState h <> stEof ->
  (p_eof s = true -> fut = []) -> 0 <= count -> 0 <= len -> (length (p_octets s) < fuel)%nat ->
  exists r out h' s', hdlc_loop fuel h s count len = Some (r, out, h', s') /\
    found count len r got out fut s s' h'.
Proof.
  induction fuel as [|fuel IH]; intros h s count len got R Hn Hfut Hc Hlen Hf; [lia|].
  cbn [hdlc_loop]. unfold pipe_get at 1. destruct (p_octets s) as [|x l] eqn:Es.
  { destruct (p_eof s) eqn:Ee.
    - exfalso. pose proof (receiving_more _ _ _ R Hn) as H. rewrite Hfut in H by done.
      destruct R as [_ L _ _ _]. cbn in H. unfold held in H. rewrite app_nil_r, length_msb_bits in H. lia.
    - change (0 =? 0) with true. cbv iota. exists false, [], h, s. split; [done|].
      split; [by rewrite app_nil_r, Es|done|simpl; lia|done|done]. }
  change (Z.to_nat 1) with 1%nat. cbn [take drop]. rewrite take_0, drop_0. change (zlen [x] =? 0) with false.
  change (zlen [x] <? 0) with false. cbv iota zeta. change (aget [x] 0) with x. set (s1 := s <| p_octets := l |>).
  assert (receiving got (held (hdlc_octet h x) ++ line_bits (p_octets s1 ++ fut)) (hdlc_octet h x)) as R1.
  { apply hdlc_octet_spec; [|done]. change (p_octets s1) with l. by rewrite <- line_bits_cons. }
  set (h1 := hdlc_octet h x) in *. clearbody h1.
  destruct (is_stEof h1 || is_stData h1) eqn:Eb.
  2: { destruct (IH h1 s1 count len got R1) as (r & out & h' & s' & E & H);
         [unfold is_stEof in Eb; by destruct (hdlcState h1)|done|done|done|simpl in Hf |- *; lia|].
       exists r, out, h', s'. split; [exact E|]. destruct H; by split. }
  assert (hdlcState h1 = stData \/ hdlcState h1 = stEof) as Hs1.
  { unfold is_stEof, is_stData in Eb. destruct (hdlcState h1); try done; [by right|by left]. }
  pose proof (receiving_take _ _ _ count R1 Hs1 Hc) as T.
  destruct (pipe_get (outData h1) count) as [[r out] o]. unfold got_octets in T.
  destruct T as (R2 & E2 & [(-> & -> & E3 & E4 & E5 & E6)|(-> & Hr & Hz)]).
  - change (-1 <? 0) with true. cbv iota. eexists _, [], _, s1. split; [reflexivity|]. rewrite E3 in R2.
    split; [exact R2|done|simpl; lia| |].
    + intros Hl. destruct (Z.ltb_spec 0 len); [done|]. repeat split; try done; lia.
    + destruct (Z.ltb_spec 0 len); cbn [negb]; [simpl; lia|done].
  - rewrite (proj2 (Z.ltb_ge (zlen out) 0)) by lia. set (h2 := if 0 <? zlen out then _ else _) in *.
    assert (held h2 = held h1) as Eh by (unfold h2; by destruct (0 <? zlen out)). rewrite <- Eh in R2.
    clearbody h2. unfold is_stEof. rewrite E2.
    destruct ((count - zlen out =? 0) || match hdlcState h1 with stEof => true | _ => false end) eqn:Ex.
    + eexists _, out, _, s1. split; [reflexivity|]. split; [exact R2|done|lia|done|].
      intros _ Hc0 H0. exfalso. assert (zlen out = 0) as Ho by lia. specialize (Hz Ho Hc0).
      destruct Hs1 as [Es1|Es1]; rewrite Es1 in Ex; [|].
      * rewrite (proj2 (Z.eqb_neq _ 0)) in Ex by lia. done.
      * destruct R1 as [_ _ _ _ S]. rewrite Es1 in S. destruct S as (_ & S & _). congruence.
    + destruct (IH h2 s1 (count - zlen out) (len + zlen out) (got ++ out) R2) as (r & rest' & h' & s' & -> & [H1 H2 H3 H4 H5]);
        [rewrite E2; intros E; rewrite E in Ex; by rewrite orb_true_r in Ex|done|lia|lia|simpl in Hf |- *; lia|].
      eexists _, (out ++ rest'), h', s'. split; [reflexivity|]. rewrite <- app_assoc in H1.
      split; [exact H1|done|rewrite length_app; lia| |].
      * intros Hr'. destruct (H4 Hr') as (Hl0 & -> & Hfin). rewrite app_nil_r.
        split; [lia|]. split; [|done]. destruct out; [done|simpl in Hl0; lia].
      * intros Hr' _ E. rewrite length_app in E. apply H5; [done|lia|lia].
Qed.

Definition delivered (h : HDLC) : Prop := hdlcState h = stEof /\ p_octets (outData h) = [].

Lemma GetHdlcData_spec fut h s count got :
  receiving got (held h ++ line_bits (p_octets s ++ fut)) h -> (p_eof s = true -> fut = []) -> 0 <= count ->
  exists r out h' s', GetData h s count = Some (r, out, h', s') /\
    receiving (got ++ out) (held h' ++ line_bits (p_octets s' ++ fut)) h' /\ p_eof s' = p_eof s /\
    ((r = -1 /\ out = [] /\ delivered h') \/
     (r = zlen out /\ (0 < count -> r = 0 -> p_octets s' = [] /\ hdlcState h' <> stEof))).
Proof.
  intros R Hfut Hc. pose proof R as [[T1 T2] L F C S]. unfold GetData, GetHdlcData. rewrite T1, T2.
  assert (is_Some (inData h)) as Hi by (by destruct (hdlcState h); destruct S).
  rewrite bool_decide_eq_true_2 by done. cbn [negb orb]. destruct (is_stEof h) eqn:Ee.
  - assert (hdlcState h = stEof) as Es by (unfold is_stEof in Ee; by destruct (hdlcState h)).
    pose proof (receiving_take _ _ _ count R (or_intror Es) Hc) as T.
    destruct (pipe_get (outData h) count) as [[r out] o]. unfold got_octets in T.
    destruct T as (R2 & E2 & T). set (h2 := if 0 <? r then _ else _) in *.
    eexists r, out, h2, s. split; [reflexivity|].
    assert (held h2 = held h) as Eh by (unfold h2; by destruct (0 <? r)). rewrite Eh. split; [exact R2|].
    split; [done|]. destruct T as [(-> & -> & E3 & _ & E5 & _)|(-> & _ & Hz)].
    + left. split; [done|]. split; [done|]. by split; [rewrite E2|rewrite E3].
    + right. split; [done|]. intros H0 H1. specialize (Hz H1 H0). rewrite Es in S. destruct S as (_ & S & _). congruence.
  - assert (hdlcState h <> stEof) as Hn by (unfold is_stEof in Ee; by destruct (hdlcState h)).
    destruct ((count =? 0) && is_stData h) eqn:E0.
    + apply andb_true_iff in E0 as [E0 Ed]. apply Z.eqb_eq in E0 as ->.
      assert (hdlcState h = stData) as Es by (unfold is_stData in Ed; by destruct (hdlcState h)).
      pose proof (receiving_more _ _ _ R Hn) as Hm. rewrite Es in S. destruct S as (_ & S & _).
      eexists _, [], h, s. split; [|rewrite app_nil_r; split; [exact R|split; [done|right; split; [reflexivity|lia]]]].
      unfold pipe_get.
      assert ((p_octets s <> []) \/ p_eof s = false) as Hs.
      { destruct (p_octets s) eqn:Eo; [right|by left]. destruct (p_eof s) eqn:Ef; [|done]. rewrite Hfut in Hm by done.
        cbn in Hm. unfold held in Hm. rewrite app_nil_r, length_msb_bits in Hm. lia. }
      rewrite S. destruct Hs as [Hs|Hs]; destruct (p_octets (outData h)), (p_octets s), (p_eof s); done.
    + destruct (hdlc_loop_spec fut (length (p_octets s) + 2) h s count 0 got R Hn Hfut Hc)
        as (r & out & h' & s' & -> & [H1 H2 H3 H4 H5]); [lia|lia|].
      cbn [mbind option_bind]. eexists _, out, h', s'. split; [reflexivity|]. split; [exact H1|]. split; [done|].
      destruct r; [left|right].
      * destruct (H4 eq_refl) as (_ & -> & H6). by split.
      * split; [done|]. intros Hc0 H0. apply H5; [done|done|lia].
Qed.

Lemma delivered_read got I h s count : receiving got I h -> delivered h ->
  GetData h s count = Some (-1, [], h, s).
Proof.
  intros [[T1 T2] _ _ _ S] [Es Eo]. unfold GetData, GetHdlcData, is_stEof, pipe_get.
  rewrite T1, T2, Es, Eo in *. destruct S as (_ & -> & _). rewrite orb_true_r. cbn. by destruct h.
Qed.

Lemma receiving_transfer : forall evs h s got,
  receiving got (held h ++ line_bits (p_octets s ++ fed_data evs)) h ->
  (p_eof s = true -> fed_data evs = []) -> Forall valid_read evs ->
  exists out h' s', transfer h s evs = Some (out, h', s') /\
    receiving (got ++ out) (held h' ++ line_bits (p_octets s')) h'.
Proof.
  induction evs as [|e evs IH]; intros h s got R He Hv.
  { exists [], h, s. split; [done|]. cbn [fed_data] in R. by rewrite !app_nil_r in *. }
  apply Forall_cons_1 in Hv as [Hv Hvs]. destruct e as [l|count]; cbn [fed_data] in *.
  - apply (IH h (pipe_put s l).2 got); [| |done].
    + unfold pipe_put. destruct (p_eof s); cbn [snd].
      * specialize (He eq_refl). rewrite He in R. apply app_eq_nil in He as [_ ->]. exact R.
      * change (p_octets (s <| p_octets := _ |>)) with (p_octets s ++ l). by rewrite <- app_assoc.
    + unfold pipe_put. destruct (p_eof s) eqn:Ep; cbn [snd]; intros H.
      * by apply app_eq_nil in He as [_ ?].
      * change (p_eof s = true) in H. congruence.
  - destruct (GetHdlcData_spec (fed_data evs) h s count got R He Hv) as (r & out & h1 & s1 & E & R1 & E1 & _).
    destruct (IH h1 s1 (got ++ out) R1) as (out2 & h' & s' & E' & R'); [by rewrite E1|done|].
    cbn [transfer]. rewrite E. cbn [mbind option_bind]. rewrite E'. eexists _, h', s'. split; [reflexivity|].
    by rewrite app_assoc.
Qed.

Lemma receiving_length got I h : receiving got I h -> (length got <= length X)%nat.
Proof.
  intros [_ _ _ _ S]. destruct (hdlcState h).
  - destruct S as (_ & _ & _ & E & _). rewrite <- E, length_app. lia.
  - destruct S as (_ & _ & -> & _). simpl. lia.
  - destruct S as (_ & _ & -> & _). simpl. lia.
  - destruct S as (_ & _ & c & o & _ & E & _). rewrite <- E, length_app. lia.
Qed.

Lemma receiving_reads : forall counts h s got, receiving got (held h ++ line_bits (p_octets s)) h ->
  Forall (fun c => 1 <= c) counts ->
  (delivered h \/ (length X < length got + length counts)%nat) ->
  exists out h' s', transfer h s (map Read counts) = Some (out, h', s') /\
    receiving (got ++ out) (held h' ++ line_bits (p_octets s')) h' /\ delivered h'.
Proof.
  induction counts as [|c counts IH]; intros h s got R Hc Hd.
  { destruct Hd as [Hd|Hd]; [|pose proof (receiving_length _ _ _ R); simpl in Hd; lia].
    exists [], h, s. by rewrite app_nil_r. }
  apply Forall_cons_1 in Hc as [Hc Hcs]. rewrite <- (app_nil_r (p_octets s)) in R.
  destruct (GetHdlcData_spec [] h s c got R) as (r & out & h1 & s1 & E & R1 & E1 & Hr); [done|lia|].
  rewrite app_nil_r in R1.
  destruct (IH h1 s1 (got ++ out) R1 Hcs) as (out2 & h' & s' & E' & R' & D').
  { destruct Hr as [(_ & _ & Hr)|(-> & Hz)]; [by left|]. destruct Hd as [Hd|Hd].
    - left. rewrite (delivered_read _ _ _ _ c R Hd) in E. injection E as _ _ <- _. exact Hd.
    - right. rewrite length_app. simpl in Hd. destruct out; [|simpl; lia].
      destruct (Hz ltac:(lia) eq_refl) as [Hs Hn]. pose proof (receiving_more _ _ _ R1 Hn) as Hm.
      destruct R1 as [_ L _ _ _]. rewrite Hs in Hm. cbn in Hm. unfold held in Hm.
      rewrite app_nil_r, length_msb_bits in Hm. lia. }
  cbn [map transfer]. rewrite E. cbn [mbind option_bind]. rewrite E'. eexists _, h', s'. split; [reflexivity|].
  by rewrite app_assoc.
Qed.

Lemma receiving_start h0 (sync : bool) k I : inDataType h0 = dtRaw -> is_Some (inData h0) -> 0 <= rawByteLen h0 < 8 ->
  (if sync then hunt I = (true, concat (repeat flag k) ++ body) else I = concat (repeat flag k) ++ body) ->
  receiving [] I (GetHdlcStart h0 sync).
Proof.
  intros T Hi L HI. unfold GetHdlcStart. cbv zeta. change (inDataType (h0 <| outDataType := _ |> <| outData := _ |> <| fcs := _ |>)) with (inDataType h0).
  rewrite T. destruct sync.
  - apply waiting_sync; [by repeat split|done|done|by exists k].
  - apply waiting_flags; [by repeat split|done|done|by exists k].
Qed.

Lemma delivered_end I h : forall got, receiving got I h -> delivered h ->
  got = X /\ I = rest /\ isFcsOK h = (a * 256 + b =? fcs_word (build FCS_new X)).
Proof.
  intros got [_ _ F _ S] [Es Eo]. rewrite Es in S. destruct S as (_ & _ & EI & EX & El & Ec).
  rewrite Eo, app_nil_r in EX. split; [done|]. split; [done|]. unfold isFcsOK. by rewrite El, Ec, F, EX.
Qed.
End receiving.

(** The property below, for use elsewhere. *)
Lemma frame_found (h0 : HDLC) (s0 : pipe) (sync : bool) (k : nat) (X : list Z) (a b : Z)
    (rest : list bool) (evs : list feeding) (counts : list Z) :
  inDataType h0 = dtRaw -> is_Some (inData h0) -> 0 <= rawByteLen h0 < 8 ->
  bytes X -> is_byte a -> is_byte b ->
  let line := held h0 ++ line_bits (p_octets s0 ++ fed_data evs) in
  let frame := concat (repeat flag k) ++ stuff 0 (line_bits (X ++ [a; b])) ++ flag ++ rest in
  (if sync then hunt line = (true, frame) else line = frame) ->
  (p_eof s0 = true -> fed_data evs = []) -> Forall valid_read evs ->
  Forall (fun c => 1 <= c) counts -> (length X < length counts)%nat ->
  exists out1 h1 s1 out2 h2 s2,
    transfer (GetHdlcStart h0 sync) s0 evs = Some (out1, h1, s1) /\
    transfer h1 s1 (map Read counts) = Some (out2, h2, s2) /\
    out1 ++ out2 = X /\ (forall c, GetData h2 s2 c = Some (-1, [], h2, s2)) /\
    isFcsOK h2 = (a * 256 + b =? fcs_word (build FCS_new X)) /\
    held h2 ++ line_bits (p_octets s2) = rest.
Proof.
  intros T Hi L HX Ha Hb line frame HI He Hv Hc Hn.
  pose proof (receiving_start X a b rest h0 sync k line T Hi L HI) as R.
  assert (held (GetHdlcStart h0 sync) = held h0) as Eh.
  { unfold GetHdlcStart. cbv zeta. change (inDataType (h0 <| outDataType := _ |> <| outData := _ |> <| fcs := _ |>)) with (inDataType h0).
    by rewrite T. }
  unfold line in R. rewrite <- Eh in R.
  destruct (receiving_transfer X a b rest HX Ha Hb evs _ s0 [] R He Hv) as (out1 & h1 & s1 & E1 & R1).
  destruct (receiving_reads X a b rest HX Ha Hb counts h1 s1 out1 R1 Hc) as (out2 & h2 & s2 & E2 & R2 & D2);
    [right; lia|].
  exists out1, h1, s1, out2, h2, s2. split; [done|]. split; [done|].
  destruct (delivered_end X a b rest _ _ _ R2 D2) as (EX & EI & EF).
  split; [done|]. split; [|done]. intros c. by eapply delivered_read.
Qed.

(** C36: in a raw stream that begins, at any bit, with bits without a flag and at
    least one flag - or, after an earlier frame, with no or more flags at once -
    and goes on with octets and two check octets, zeros inserted, and a flag, the
    receiver gives out exactly the octets, however the stream arrives and
    whatever the sizes of the reads; then it reports the end, says whether the
    check octets are right, and has the bits after the flag left for the next
    frame. *)
Theorem hdlc_frame_found (h0 : HDLC) (s0 : pipe) (sync : bool) (k : nat) (X : list Z) (a b : Z)
    (rest : list bool) (evs : list feeding) (counts : list Z) :
  inDataType h0 = dtRaw -> is_Some (inData h0) -> 0 <= rawByteLen h0 < 8 ->
  bytes X -> is_byte a -> is_byte b ->
  let line := held h0 ++ line_bits (p_octets s0 ++ fed_data evs) in
  let frame := concat (repeat flag k) ++ stuff 0 (line_bits (X ++ [a; b])) ++ flag ++ rest in
  (if sync then hunt line = (true, frame) else line = frame) ->
  (p_eof s0 = true -> fed_data evs = []) -> Forall valid_read evs ->
  Forall (fun c => 1 <= c) counts -> (length X < length counts)%nat ->
  exists out1 h1 s1 out2 h2 s2,
    transfer (GetHdlcStart h0 sync) s0 evs = Some (out1, h1, s1) /\
    transfer h1 s1 (map Read counts) = Some (out2, h2, s2) /\
    out1 ++ out2 = X /\ (forall c, GetData h2 s2 c = Some (-1, [], h2, s2)) /\
    isFcsOK h2 = (a * 256 + b =? fcs_word (build FCS_new X)) /\
    held h2 ++ line_bits (p_octets s2) = rest.
Proof. apply frame_found. Qed.

Definition sample_rx : HDLC := PutRawData (HDLC_new 0xAB 7 9) (Some 1%positive).

Lemma hdlc_frame_found_witness :
  let X := [0xFF; 0xFF; 0x7E] in
  exists out1 h1 s1 out2 h2 s2,
    transfer (GetHdlcStart sample_rx true) (pipe_new 0)
      [Feed [0; 126; 126; 251]; Read 2; Feed [239; 175; 166; 10; 103; 231]] = Some (out1, h1, s1) /\
    transfer h1 s1 (map Read [1; 5; 5; 5]) = Some (out2, h2, s2) /\
    out1 ++ out2 = X /\ (forall c, GetData h2 s2 c = Some (-1, [], h2, s2)) /\
    isFcsOK h2 = (96 * 256 + 166 =? fcs_word (build FCS_new X)) /\
    held h2 ++ line_bits (p_octets s2) = [false; true; true; true].
Proof.
  apply (hdlc_frame_found sample_rx (pipe_new 0) true 1 [0xFF; 0xFF; 0x7E] 96 166 [false; true; true; true]
    [Feed [0; 126; 126; 251]; Read 2; Feed [239; 175; 166; 10; 103; 231]] [1; 5; 5; 5]);
    try (vm_compute; reflexivity); try (apply (bool_decide_unpack _); vm_compute; exact I); try done.
  repeat constructor. cbn. lia.
Defined.
