(* ===== verification/PmHdlcLink.v ===== *)
(** * The modem's frames, received by the library's HDLC receiver

    Two independent implementations of the line: [HDLC] of the modem
    (src/t38modem/hdlc.cxx) packs a frame, [hdlc_rx] of spandsp (src/hdlc.c)
    unpacks the bits. *)
From S2P Require Import Prelude Crc HdlcFrame HdlcRx HdlcDecode HdlcTx HdlcLink DataStream EngineBase Dle PmHdlc PmHdlcTx PmHdlcRx.

(** Fewer than eight bits of the last flag may still be held. *)
Lemma receive_held threshold n l bits tail : Z.max 1 threshold <= Z.of_nat n ->
  fits HdlcTx.HDLC_MAXFRAME_LEN (reversed l) -> bytes l -> (length tail < 8)%nat ->
  bits ++ tail = frame_line (concat (repeat flag n)) l 0 ->
  (put_bits (hdlc_rx_init false true threshold true) bits).2 =
    [FrameStatus SIG_STATUS_FRAMING_OK; Frame (reversed l) (zlen l) true].
Proof.
  intros Hn Hf Hl Ht E. rewrite frame_line_good in E by done.
  set (f := reversed l) in *.
  assert (concat (repeat flag n) ++ frame_bits (f ++ @fc_sequence fc_crc16 (crc_itu16_calc f 0xFFFF)) ++ flag =
    (flags n ++ queue_line 2 0 [f] ++ flags 0) ++ flag) as Ea.
  { cbn [queue_line frames_line map concat]. rewrite !app_nil_r, fc_sequence_16, <- !app_assoc.
    unfold with_check. cbn [Z.eqb Pos.eqb]. by rewrite crc_itu16_append_split by apply bytes_reversed. }
  rewrite Ea in E. destruct (receive_stream false true threshold n 0 0 [f] Hn) as (s1 & E1 & C1); [by constructor|].
  cbn beta iota zeta in E1. set (line := flags n ++ queue_line 2 0 [f] ++ flags 0) in *.
  apply app_eq_inv in E as [(x & Eb & Ex)|(x & Eb & Ex)].
  2: { apply (f_equal length) in Ex. rewrite length_app in Ex. simpl in Ex. lia. }
  destruct (idle_flag s1 C1) as (s2 & E2 & _). destruct (put_bits s1 x) as [s3 e3] eqn:E3.
  assert (e3 = []) as ->.
  { destruct (put_bits s3 tail) as [s4 e4] eqn:E4.
    pose proof (put_bits_app _ _ _ _ _ _ _ E3 E4) as E5. rewrite <- Ex, E2 in E5.
    injection E5 as _ E5. symmetry in E5. by apply app_eq_nil in E5 as [? _]. }
  rewrite Eb, (put_bits_app _ _ _ _ _ _ _ E1 E3). cbn [snd]. rewrite app_nil_r.
  cbn [good_frames_report map]. unfold f, reversed. by rewrite length_map.
Qed.

(** C15: a frame of 1 to 400 octets that the modem packs, with at least as many
    flags before it as the receiver wants, is delivered by spandsp's receiver
    from the bits the modem gives out: framing is reported once, then exactly
    this frame, good, with the bits of its octets reversed - whatever the
    portions in which the frame is fed and the raw octets are read, and though
    the modem holds back the last bits. *)
Theorem pm_hdlc_link (h0 : HDLC) (id : positive) (n : nat) (threshold limit : Z) (evs : list feeding) :
  rawByteLen h0 = 0 -> rawOnes h0 = 0 -> Forall valid_read evs -> Z.max 1 threshold <= Z.of_nat n ->
  bytes (fed_data evs) -> 0 < zlen (fed_data evs) <= HdlcTx.HDLC_MAXFRAME_LEN ->
  exists out1 h1 s1,
    transfer (GetRawStart (PutHdlcData h0 (Some id)) n) (pipe_new limit) evs = Some (out1, h1, s1) /\
    exists enough, forall counts, Forall (fun c => 1 <= c) counts -> (enough <= length counts)%nat ->
    exists out2 h2 s2,
      transfer h1 (pipe_put_eof s1) (map Read counts) = Some (out2, h2, s2) /\
      (put_bits (hdlc_rx_init false true threshold true) (line_bits (out1 ++ out2))).2 =
        [FrameStatus SIG_STATUS_FRAMING_OK; Frame (reversed (fed_data evs)) (zlen (fed_data evs)) true].
Proof.
  intros L O Hv Hn Hb Hl.
  destruct (frame_sent h0 id n limit 0 evs) as (out1 & h1 & s1 & E1 & D1 & enough & H); [lia|done|done|].
  exists out1, h1, s1. split; [done|]. exists enough. intros counts Hc He.
  destruct (H counts Hc He) as (out2 & h2 & s2 & E2 & El & L2 & _). exists out2, h2, s2.
  assert (pipe_set_diag (pipe_put_eof s1) 0 = pipe_put_eof s1) as Es.
  { unfold pipe_set_diag, pipe_put_eof. destruct s1 as [o e g t]. cbn in D1 |- *. by subst. }
  rewrite Es in E2. split; [done|]. 
  apply (receive_held threshold n (fed_data evs) _ (held h2)); [done|split; [apply bytes_reversed|]|done| |].
  - unfold reversed. by rewrite length_map.
  - unfold held. rewrite length_msb_bits. lia.
  - rewrite El. unfold held at 1. by rewrite L.
Qed.

Lemma pm_hdlc_link_witness : exists out1 h1 s1,
  transfer (GetRawStart (PutHdlcData (HDLC_new 0 0 0) (Some 1%positive)) 10) (pipe_new 0)
    [Feed [0xFF]; Read 100; Feed [0xC0; 0x7E]] = Some (out1, h1, s1) /\
  exists enough, forall counts, Forall (fun c => 1 <= c) counts -> (enough <= length counts)%nat ->
  exists out2 h2 s2,
    transfer h1 (pipe_put_eof s1) (map Read counts) = Some (out2, h2, s2) /\
    (put_bits (hdlc_rx_init false true 5 true) (line_bits (out1 ++ out2))).2 =
      [FrameStatus SIG_STATUS_FRAMING_OK; Frame (reversed [0xFF; 0xC0; 0x7E]) 3 true].
Proof.
  refine (pm_hdlc_link (HDLC_new 0 0 0) 1%positive 10 5 0 [Feed [0xFF]; Read 100; Feed [0xC0; 0x7E]] _ _ _ _ _ _).
  - reflexivity.
  - reflexivity.
  - repeat constructor. cbn. lia.
  - cbn. lia.
  - apply (bool_decide_unpack _). vm_compute. exact I.
  - split; reflexivity || (vm_compute; discriminate).
Defined.

(** ** Packed, and found again *)

Lemma hunt_flags k t : hunt (concat (repeat flag (S k)) ++ t) = (true, concat (repeat flag k) ++ t).
Proof.
  cbn [repeat concat]. rewrite <- app_assoc. set (q := concat (repeat flag k) ++ t).
  pose proof (at_flag_flag q) as H. cbn [flag app] in *. rewrite hunt_step by (simpl; lia). by rewrite H.
Qed.

Lemma fcs_sent_check l d : exists a b, fcs_sent d l = [a; b] /\ is_byte a /\ is_byte b /\
  (a * 256 + b =? fcs_word (build FCS_new l)) = (d .& diagErrorMask =? 0).
Proof.
  unfold fcs_sent. set (w := fcs_word (build FCS_new l)).
  assert (0 <= w < 2 ^ 16) as Hw by by apply wrap_range. clearbody w.
  eexists _, _. split; [reflexivity|]. 
  assert (u8 (w .& 0xFF) = w mod 256) as -> by (rewrite land_255; by rewrite wrap_wrap).
  assert (u8 (w .>> 8) = w / 256) as ->.
  { rewrite Z.shiftr_div_pow2 by lia. apply wrap_id. split; [apply Z.div_pos; lia|apply Z.div_lt_upper_bound; lia]. }
  pose proof (Z.div_mod w 256). pose proof (Z.mod_pos_bound w 256).
  assert (0 <= w / 256 < 256) by (split; [apply Z.div_pos; lia|apply Z.div_lt_upper_bound; lia]).
  split; [destruct (_ =? 0); [done|apply is_byte_u8]|]. split; [unfold is_byte; lia|].
  destruct (d .& diagErrorMask =? 0); [lia|]. apply Z.eqb_neq. unfold wrap. change (2 ^ 8) with 256.
  destruct (decide (w / 256 = 255)) as [E|]; [rewrite E in *; change ((255 + 1) mod 256) with 0; lia|].
  rewrite Z.mod_small by lia. lia.
Qed.

(** C16: what one side packs the other finds: for a frame of any octets, with at
    least one flag before it, sent and received in any portions, the receiver
    gives out the octets and says that the check octets are right exactly when
    the sender's stream had no error marked; it is then ready for the next
    frame, only bits of the last flag being left. *)
Theorem pm_hdlc_roundtrip (tx rx : HDLC) (id id' : positive) (n : nat) (limit limit' diag : Z) (evs : list feeding) :
  rawByteLen tx = 0 -> rawOnes tx = 0 -> rawByteLen rx = 0 -> Forall valid_read evs -> bytes (fed_data evs) ->
  exists out1 h1 s1,
    transfer (GetRawStart (PutHdlcData tx (Some id)) (S n)) (pipe_new limit) evs = Some (out1, h1, s1) /\
    exists enough, forall counts, Forall (fun c => 1 <= c) counts -> (enough <= length counts)%nat ->
    exists out2 h2 s2,
      transfer h1 (pipe_set_diag (pipe_put_eof s1) diag) (map Read counts) = Some (out2, h2, s2) /\
      forall evs' counts', Forall valid_read evs' -> fed_data evs' = out1 ++ out2 ->
        Forall (fun c => 1 <= c) counts' -> (length (fed_data evs) < length counts')%nat ->
        exists in1 h3 s3 in2 h4 s4,
          transfer (GetHdlcStart (PutRawData rx (Some id')) true) (pipe_new limit') evs' = Some (in1, h3, s3) /\
          transfer h3 s3 (map Read counts') = Some (in2, h4, s4) /\
          in1 ++ in2 = fed_data evs /\ isFcsOK h4 = (diag .& diagErrorMask =? 0) /\
          exists x, held h4 ++ line_bits (p_octets s4) ++ x = flag.
Proof.
  intros L O L' Hv Hb.
  destruct (frame_sent tx id (S n) limit diag evs) as (out1 & h1 & s1 & E1 & _ & enough & H); [lia|done|done|].
  exists out1, h1, s1. split; [done|]. exists enough. intros counts Hc He.
  destruct (H counts Hc He) as (out2 & h2 & s2 & E2 & El & L2 & _). exists out2, h2, s2. split; [done|].
  intros evs' counts' Hv' Ef Hc' Hn'.
  destruct (fcs_sent_check (fed_data evs) diag) as (a & b & Eab & Ha & Hbb & Hab).
  unfold frame_line in El. rewrite Eab in El. unfold held in El at 2. rewrite L in El. cbn [Z.to_nat msb_bits app] in El.
  rewrite !(app_assoc _ flag flag), !(app_assoc _ _ flag) in El.
  apply app_eq_inv in El as [(x & Eb & Ex)|(x & Eb & Ex)].
  2: { apply (f_equal length) in Ex. unfold held in Ex. rewrite length_app, length_msb_bits in Ex. simpl in Ex. lia. }
  destruct (frame_found (PutRawData rx (Some id')) (pipe_new limit') true n (fed_data evs) a b x evs' counts')
    as (in1 & h3 & s3 & in2 & h4 & s4 & F1 & F2 & F3 & _ & F5 & F6); try done; [cbn; lia| |].
  { rewrite Ef. unfold held. change (rawByteLen (PutRawData _ _)) with (rawByteLen rx). rewrite L'.
    cbn [Z.to_nat msb_bits app pipe_new p_octets]. rewrite Eb, <- !app_assoc. apply hunt_flags. }
  exists in1, h3, s3, in2, h4, s4. split; [done|]. split; [done|]. split; [done|]. split; [by rewrite F5|].
  exists (held h2). by rewrite app_assoc, F6.
Qed.

Lemma pm_hdlc_roundtrip_witness : exists out1 h1 s1,
  transfer (GetRawStart (PutHdlcData (HDLC_new 1 2 3) (Some 1%positive)) 3) (pipe_new 0) [Feed [0xFF; 0x13; 0x7E]] = Some (out1, h1, s1) /\
  exists enough, forall counts, Forall (fun c => 1 <= c) counts -> (enough <= length counts)%nat ->
  exists out2 h2 s2,
    transfer h1 (pipe_set_diag (pipe_put_eof s1) diagBadFcs) (map Read counts) = Some (out2, h2, s2) /\
    forall evs' counts', Forall valid_read evs' -> fed_data evs' = out1 ++ out2 ->
      Forall (fun c => 1 <= c) counts' -> (3 < length counts')%nat ->
      exists in1 h3 s3 in2 h4 s4,
        transfer (GetHdlcStart (PutRawData (HDLC_new 1 2 3) (Some 2%positive)) true) (pipe_new 0) evs' = Some (in1, h3, s3) /\
        transfer h3 s3 (map Read counts') = Some (in2, h4, s4) /\
        in1 ++ in2 = [0xFF; 0x13; 0x7E] /\ isFcsOK h4 = false /\
        exists x, held h4 ++ line_bits (p_octets s4) ++ x = flag.
Proof.
  refine (pm_hdlc_roundtrip (HDLC_new 1 2 3) (HDLC_new 1 2 3) 1%positive 2%positive 2 0 0 diagBadFcs
    [Feed [0xFF; 0x13; 0x7E]] _ _ _ _ _); try reflexivity.
  - repeat constructor.
  - apply (bool_decide_unpack _). vm_compute. exact I.
Defined.
