(* ===== verification/T30.v ===== *)
(** * What the engine reads off the V.21 frames (src/t38modem/t30.h, t30.cxx)

    The engine watches the control frames in both directions to know when the
    image data will be HDLC frames (error correction mode) and not raw data. *)
From S2P Require Import Prelude.

(** ** Definitions *)

Record T30 := {
  v21frame : list Z;
  cfr : bool;
  ecm : bool;
}.

#[export] Instance eta_t30 : Eta T30 := fun t => Build_T30 (v21frame t) (cfr t) (ecm t).

Definition T30_new : T30 := {| v21frame := []; cfr := false; ecm := false |}.

Definition v21Begin (t : T30) : T30 := t <| v21frame := [] |>.
Definition v21Data (t : T30) (buf : list Z) : T30 := t <| v21frame := v21frame t ++ buf |>.

(** The cases of the third octet. *)
Definition is_DCS (b : Z) : bool := (b =? 0x41) || (b =? 0x41 .| 0x80).
Definition is_CFR (b : Z) : bool := (b =? 0x21) || (b =? 0x21 .| 0x80).

(** The test for the bit of the error correction mode. *)
Definition dcs_ecm (f : list Z) : bool :=
  (3 + 3 <? zlen f) && negb (aget f (3 + 2) .& 1 =? 0) && negb (aget f (3 + 3) .& 0x20 =? 0).

Definition v21End (t : T30) : T30 :=
  let f := v21frame t in
  if zlen f <? 3 then t
  else if negb (aget f 0 =? 0xFF) then t
  else if negb (aget f 1 .& 0xF7 =? 0xC0) then t
  else if is_DCS (aget f 2) then t <| ecm := dcs_ecm f |> <| cfr := false |>
  else if is_CFR (aget f 2) then t <| cfr := true |>
  else t.

Definition hdlcOnly (t : T30) : bool := cfr t && ecm t.

(** ** Frame after frame *)

(** A frame seen in pieces. *)
Definition see_frame (t : T30) (pieces : list (list Z)) : T30 :=
  v21End (fold_left v21Data pieces (v21Begin t)).

Inductive control := DCS (with_ecm : bool) | CFR | Other.

(** *** What a frame is by ITU-T T.30 (5.3, and table 2 for the bits of a DCS)

    The bits of a frame in the order in which they are sent: an octet's first bit is
    its most significant one here. *)
Definition frame_bits (f : list Z) : list bool := concat (map (msb_bits 8) f).

(** A field as T.30 writes it, 0, 1 or X for a bit that may be either. *)
Inductive field_bit := b0 | b1 | bX.

Definition bit_is (p : field_bit) (b : bool) : bool :=
  match p with b0 => negb b | b1 => b | bX => true end.

Fixpoint field (pattern : list field_bit) (bits : list bool) : bool :=
  match pattern, bits with
  | [], _ => true
  | p :: pattern, b :: bits => bit_is p b && field pattern bits
  | _ :: _, [] => false
  end.

Definition address_field : list field_bit := [b1; b1; b1; b1; b1; b1; b1; b1].
Definition control_field : list field_bit := [b1; b1; b0; b0; bX; b0; b0; b0].
Definition fcf_DCS : list field_bit := [bX; b1; b0; b0; b0; b0; b0; b1].
Definition fcf_CFR : list field_bit := [bX; b0; b1; b0; b0; b0; b0; b1].

(** Bit [n] of the facsimile information field, which follows these three octets; the
    bits of a DCS are numbered from 1, and those that are not sent count as 0. *)
Definition fif_bit (n : nat) (f : list Z) : bool := nth (24 + pred n) (frame_bits f) false.

(** Bit 24: the field goes on after its third octet; bit 27: error correction mode. *)
Definition asks_ecm (f : list Z) : bool := fif_bit 24 f && fif_bit 27 f.

Definition control_of (f : list Z) : control :=
  if field (address_field ++ control_field ++ fcf_DCS) (frame_bits f) then DCS (asks_ecm f)
  else if field (address_field ++ control_field ++ fcf_CFR) (frame_bits f) then CFR
  else Other.

(** The last command counts, and only a confirmation after it. *)
Fixpoint confirmed_ecm (now : bool * bool) (frames : list control) : bool :=
  match frames with
  | [] => now.1 && now.2
  | DCS e :: frames => confirmed_ecm (false, e) frames
  | CFR :: frames => confirmed_ecm (true, now.2) frames
  | Other :: frames => confirmed_ecm now frames
  end.

Lemma v21Data_all pieces t : fold_left v21Data pieces t = t <| v21frame := v21frame t ++ concat pieces |>.
Proof.
  revert t. induction pieces as [|p pieces IH]; intros t; cbn [fold_left concat].
  - rewrite app_nil_r. by destruct t.
  - rewrite IH. unfold v21Data. destruct t. cbn. by rewrite app_assoc.
Qed.

(** One octet of a frame against a field of eight bits. *)
Lemma field_octet p q b f : length p = 8%nat ->
  field (p ++ q) (frame_bits (b :: f)) = field p (msb_bits 8 b) && field q (frame_bits f).
Proof.
  intros Hp. do 8 (destruct p as [|? p]; [discriminate|]). destruct p; [|discriminate].
  unfold frame_bits. cbn [map concat msb_bits app field]. by rewrite !andb_true_r, <- !andb_assoc.
Qed.

Lemma field_short p bits : (length bits < length p)%nat -> field p bits = false.
Proof.
  revert bits. induction p as [|x p IH]; intros [|b bits] H; cbn in *; try lia.
  rewrite IH by lia. apply andb_false_r.
Qed.

(** A frame without a third octet is none that is looked at. *)
Lemma short_frame f : zlen f < 3 -> control_of f = Other.
Proof.
  intros H. unfold control_of. assert (length (frame_bits f) <= 16)%nat.
  { destruct f as [|a [|c [|]]]; cbn -[msb_bits] in *; rewrite ?length_app, ?length_msb_bits; cbn; lia. }
  by rewrite !field_short by (cbn; lia).
Qed.

(** The tests of the code on an octet are those of its field. *)
Lemma octet_tests b : is_byte b ->
  (b =? 0xFF) = field address_field (msb_bits 8 b) /\ (b .& 0xF7 =? 0xC0) = field control_field (msb_bits 8 b) /\
  is_DCS b = field fcf_DCS (msb_bits 8 b) /\ is_CFR b = field fcf_CFR (msb_bits 8 b) /\
  negb (b .& 1 =? 0) = nth 7 (msb_bits 8 b) false /\ negb (b .& 0x20 =? 0) = nth 2 (msb_bits 8 b) false.
Proof.
  intros Hb. split_and!; apply eqb_prop; revert Hb; pattern b.
  all: match goal with |- (fun x => _ -> eqb (@?l x) (@?r x) = true) _ =>
    intros Hb; by_evaluation 256%nat (fun x => eqb (l x) (r x)) b; exact Hb end.
Qed.

(** The test for the error correction mode is that of its bits in the field. *)
Lemma dcs_ecm_bits a c fcf f : bytes f -> dcs_ecm (a :: c :: fcf :: f) = asks_ecm (a :: c :: fcf :: f).
Proof.
  intros Hf. destruct f as [|o1 [|o2 [|o3 [|o4 f]]]].
  1-4: symmetry; apply andb_false_r.
  unfold dcs_ecm, asks_ecm, fif_bit, frame_bits.
  do 3 apply Forall_cons_1 in Hf as [? Hf]. apply Forall_cons_1 in Hf as [? Hf].
  rewrite (proj2 (Z.ltb_lt _ (zlen _))) by (cbn [length]; lia).
  change (aget _ (3 + 2)) with o3. change (aget _ (3 + 3)) with o4.
  destruct (octet_tests o3) as (_ & _ & _ & _ & -> & _); [done|].
  destruct (octet_tests o4) as (_ & _ & _ & _ & _ & ->); [done|]. reflexivity.
Qed.

Lemma v21End_spec t : bytes (v21frame t) ->
  v21End t = match control_of (v21frame t) with
             | DCS e => t <| ecm := e |> <| cfr := false |>
             | CFR => t <| cfr := true |>
             | Other => t
             end.
Proof.
  intros H. unfold v21End. destruct (zlen (v21frame t) <? 3) eqn:E; [by rewrite short_frame by lia|].
  unfold control_of. destruct (v21frame t) as [|a [|c [|fcf f]]]; [done..|].
  apply Forall_cons_1 in H as [Ha H]. apply Forall_cons_1 in H as [Hc H]. apply Forall_cons_1 in H as [Hf H].
  change (aget _ 0) with a. change (aget _ 1) with c. change (aget (a :: c :: fcf :: f) 2) with fcf.
  destruct (octet_tests a Ha) as (-> & _), (octet_tests c Hc) as (_ & -> & _).
  destruct (octet_tests fcf Hf) as (_ & _ & -> & -> & _). rewrite dcs_ecm_bits by done.
  rewrite !field_octet, <- (app_nil_r fcf_DCS), <- (app_nil_r fcf_CFR), !field_octet by done.
  cbn [field]. rewrite !app_nil_r, !andb_true_r.
  destruct (field address_field _); cbn [negb andb]; [|done].
  destruct (field control_field _); cbn [negb andb]; [|done].
  destruct (field fcf_DCS _); [done|]. by destruct (field fcf_CFR _).
Qed.

Lemma see_frame_spec t pieces : bytes (concat pieces) ->
  (cfr (see_frame t pieces), ecm (see_frame t pieces)) =
    match control_of (concat pieces) with
    | DCS e => (false, e)
    | CFR => (true, ecm t)
    | Other => (cfr t, ecm t)
    end.
Proof.
  intros H. unfold see_frame. rewrite v21Data_all. set (t1 := v21Begin t <| v21frame := _ |>).
  assert (v21frame t1 = concat pieces) as E by done. rewrite v21End_spec, E by (by rewrite E).
  by destruct (control_of (concat pieces)).
Qed.

(** C38: over any sequence of V.21 frames, sent or received, each handed over in
    any pieces, the engine takes the image data for HDLC exactly when the last
    command (DCS) asked for the error correction mode and a confirmation (CFR)
    has come after it.  What a frame is, and whether a DCS asks for that mode, are
    read off the bits of the frame as T.30 numbers them: bit 27 of the information
    field, if bit 24 says that there is a fourth octet and the frame has it.  Frames
    that are too short or no fax frames change nothing. *)
Theorem t30_hdlc_only (t : T30) (frames : list (list (list Z))) :
  Forall (fun pieces => bytes (concat pieces)) frames ->
  hdlcOnly (fold_left see_frame frames t) =
    confirmed_ecm (cfr t, ecm t) (map (fun pieces => control_of (concat pieces)) frames).
Proof.
  intros H. revert t. induction H as [|p frames Hp H IH]; intros t; [done|].
  cbn [fold_left map confirmed_ecm]. rewrite IH. pose proof (see_frame_spec t p Hp) as E.
  destruct (control_of (concat p)); injection E as -> ->; done.
Qed.

Lemma t30_hdlc_only_witness :
  hdlcOnly (fold_left see_frame
    [[[0xFF; 0xC8]; [0xC1; 0x00]]; [[0xFF; 0xC8; 0xC1; 0x00; 0x46; 0x1F]; [0x20; 0x00]]; [[0xFF; 0xC8; 0x21]]] T30_new) = true.
Proof.
  rewrite (t30_hdlc_only T30_new); [reflexivity|]. apply (bool_decide_unpack _). vm_compute. exact I.
Defined.
