(* ===== verification/PmHdlcTotal.v ===== *)
(** * The modem's HDLC always returns

    The loops of [GetRawData] and [GetHdlcData] end whatever the bits held, the
    stream and the portion asked for: what the engine, which calls them with its
    mutex held, relies on.  The one condition is that a packer without a stream
    has ended its output, which its operations keep true. *)
From S2P Require Import Prelude DataStream EngineBase PmHdlc.

(** Between which streams, and of what kind, the data goes. *)
Definition same_route (h h' : HDLC) : Prop :=
  inDataType h' = inDataType h /\ outDataType h' = outDataType h /\ inData h' = inData h.

#[export] Instance same_route_preorder : PreOrder same_route.
Proof.
  split; [done|]. intros a b c (A & B & C) (A' & B' & C'). unfold same_route. by rewrite A', B', C'.
Qed.

Lemma pack_count_route h w : same_route h (pack_count h w).
Proof. unfold pack_count. cbn. by destruct (_ =? 8). Qed.

Lemma pack_bit_route flag hw : same_route hw.1 (pack_bit flag hw).1.
Proof.
  destruct hw as [h w]. unfold pack_bit. set (h1 := pack_count h _). pose proof (pack_count_route h (u16 (w .<< 1)) : same_route h h1) as R1.
  destruct flag; [done|]. destruct (_ =? 0); [done|]. cbn zeta.
  destruct (rawOnes _ =? 5); [|done]. cbn [fst].
  etrans; [exact R1|]. exact (pack_count_route (h1 <| rawOnes := rawOnes h1 + 1 |>) _).
Qed.

Lemma pack_octet_route flag hw b : same_route hw.1 (pack_octet flag hw b).1.
Proof.
  destruct hw as [h w]. unfold pack_octet. generalize (w .| (b .& 0xFF)). intros w'.
  assert (forall n hw, same_route hw.1 (Nat.iter n (pack_bit flag) hw).1) as H; [|exact (H 8%nat (h, w'))].
  induction n as [|n IH]; intros hw; [done|]. cbn [Nat.iter nat_rect]. etrans; [apply IH|]. apply pack_bit_route.
Qed.

Lemma pack_route h buf flag : same_route h (pack h buf flag).
Proof.
  unfold pack. set (w := u16 _). assert (forall hw, same_route hw.1 (fold_left (pack_octet flag) buf hw).1) as H.
  { induction buf as [|b buf IH]; intros hw; [done|]. cbn [fold_left]. etrans; [apply pack_octet_route|apply IH]. }
  specialize (H (h, w)). destruct (fold_left _ buf (h, w)) as [h' w']. by destruct flag.
Qed.

Lemma pack2_route h a x b y : same_route h (pack (pack h a x) b y).
Proof. etrans; [exact (pack_route h a x)|]. exact (pack_route (pack h a x) b y). Qed.

(** ** Frames to raw data *)

(** The packer is on the stream [id], or at its end. *)
Record raw_route (id : positive) (h : HDLC) : Prop := {
  route_in : inDataType h = dtHdlc;
  route_out : outDataType h = dtRaw;
  route_stream : inData h = Some id \/ inData h = None /\ p_eof (outData h) = true;
}.

Lemma raw_route_same id h h' : inData h = Some id -> raw_route id h -> same_route h h' -> raw_route id h'.
Proof. intros E [A B _] (E1 & E2 & E3). split; [by rewrite E1|by rewrite E2|left; by rewrite E3]. Qed.

Lemma pipe_get_eof s count r out s' : pipe_get s count = (r, out, s') -> p_eof s' = p_eof s.
Proof. unfold pipe_get. by destruct (p_octets s); intros [= _ _ <-]. Qed.

(** Octets got are nonnegative in number, and of the stream; none or the end
    only when it is empty. *)
Lemma pipe_get_cases s count r out s' : pipe_get s count = (r, out, s') -> 0 <= count ->
  r = -1 /\ p_octets s = [] /\ s' = s /\ p_eof s = true \/
  r = 0 /\ p_octets s = [] /\ s' = s /\ p_eof s = false \/
  r = 0 /\ count = 0 /\ p_octets s' = p_octets s \/
  0 < r <= count /\ zlen (p_octets s') = zlen (p_octets s) - r.
Proof.
  intros E Hc. unfold pipe_get in E. destruct (p_octets s) as [|b l] eqn:Eo.
  - injection E as <- <- <-. destruct (p_eof s); [left|right; left]; done.
  - injection E as <- <- <-. destruct (decide (count = 0)) as [->|Hn].
    + right. right. left. cbn. auto.
    + right. right. right. set (c := Z.to_nat count). cbn. rewrite length_take, length_drop. cbn [length]. lia.
Qed.

Lemma raw_route_get id h count r out o : raw_route id h -> pipe_get (outData h) count = (r, out, o) ->
  raw_route id (h <| outData := o |>).
Proof.
  intros [A B C] E. split; [done|done|]. destruct C as [C|[C D]]; [by left|right]. split; [done|].
  cbn. by rewrite (pipe_get_eof _ _ _ _ _ E).
Qed.

(** How far the loop is from its end. *)
Definition raw_measure (h : HDLC) (s : pipe) (count : Z) : nat :=
  (length (p_octets s) + Z.to_nat count + match inData h with Some _ => 1 | None => 0 end)%nat.

Lemma raw_refill_route id h s h' s' : raw_route id h -> raw_refill h s = Some (h', s') ->
  raw_route id h' /\ p_eof s' = p_eof s /\
  ((raw_measure h' s' 0 < raw_measure h s 0)%nat \/ inData h = None /\ h' = h /\ s' = s).
Proof.
  intros R. unfold raw_refill, raw_measure. destruct (inData h) as [id'|] eqn:Ei.
  2: { intros [= <- <-]. split; [done|]. split; [done|]. by right. }
  assert (id' = id) as -> by (destruct (route_stream _ _ R) as [E|[E _]]; congruence).
  destruct (pipe_get s 256) as [[inLen Buf] s1] eqn:Eg. pose proof (pipe_get_eof _ _ _ _ _ Eg) as He.
  destruct (pipe_get_cases _ _ _ _ _ Eg ltac:(lia)) as [(-> & E1 & -> & E2)|[(-> & E1 & -> & E2)|[(_ & H & _)|(Hr & Hl)]]]; [| done | done |].
  - cbn [Z.ltb Z.compare]. match goal with |- context [pack (pack h ?a ?x) ?b ?y] =>
      pose proof (pack2_route h a x b y) as (A & B & C); generalize dependent (pack (pack h a x) b y) end.
    intros h1 A B C [= <- <-].
    destruct R as [R1 R2 _]. split; [|split; [done|left; cbn; lia]].
    split; cbn; [by rewrite A|by rewrite B|by right].
  - rewrite (proj2 (Z.ltb_ge _ _)), (proj2 (Z.ltb_lt _ _)) by lia. set (h1 := h <| lastChar := _ |> <| fcs := _ |>).
    intros [= <- <-]. pose proof (pack_route h1 Buf false) as Hp. split; [|split; [done|]].
    + apply (raw_route_same id h1); [done| |done]. destruct R as [R1 R2 R3]. by split.
    + left. destruct Hp as (_ & _ & ->). change (inData h1) with (inData h). rewrite Ei. lia.
Qed.

Lemma raw_loop_total id : forall fuel h s count len, raw_route id h -> 0 <= count ->
  (raw_measure h s count < fuel)%nat ->
  exists r out h' s', raw_loop fuel h s count len = Some (r, out, h', s') /\ raw_route id h' /\ p_eof s' = p_eof s.
Proof.
  induction fuel as [|fuel IH]; intros h s count len R Hc Hf; [lia|]. cbn [raw_loop].
  destruct (raw_refill h s) as [[h1 s1]|] eqn:Er; [|by exists false, [], h, s].
  destruct (raw_refill_route _ _ _ _ _ R Er) as (R1 & E1 & Hm).
  destruct (pipe_get (outData h1) count) as [[outLen out] o] eqn:Eg.
  pose proof (raw_route_get _ _ _ _ _ _ R1 Eg) as R2. cbn zeta.
  destruct (outLen <? 0) eqn:El; [by exists (negb (0 <? len)), [], (h1 <| outData := o |>), s1|].
  destruct (count - outLen =? 0) eqn:Ec; [by exists false, out, (h1 <| outData := o |>), s1|].
  apply Z.ltb_ge in El. apply Z.eqb_neq in Ec.
  assert (0 <= count - outLen) as Hc' by (destruct (pipe_get_cases _ _ _ _ _ Eg Hc) as [H|[H|[H|H]]]; lia).
  destruct (IH (h1 <| outData := o |>) s1 (count - outLen) (len + outLen) R2 Hc') as (r & rest & h' & s' & -> & R' & E').
  - unfold raw_measure in *. cbn [inData]. change (inData (h1 <| outData := o |>)) with (inData h1).
    destruct Hm as [Hm|(Hi & -> & ->)]; [lia|]. rewrite Hi in *.
    destruct (route_stream _ _ R) as [H|[_ He]]; [by rewrite Hi in H|].
    destruct (pipe_get_cases _ _ _ _ _ Eg Hc) as [(H & _)|[(_ & _ & _ & H)|[(_ & H & _)|H]]]; [lia|congruence|lia|lia].
  - exists r, (out ++ rest), h', s'. split; [done|]. split; [done|]. by rewrite E'.
Qed.

Lemma GetRawData_total id h s count : raw_route id h -> 0 <= count ->
  exists r out h' s', PmHdlc.GetData h s count = Some (r, out, h', s') /\ raw_route id h' /\ p_eof s' = p_eof s.
Proof.
  intros R Hc. unfold GetData, GetRawData. rewrite (route_out _ _ R), (route_in _ _ R).
  destruct (pipe_get (outData h) count) as [[outLen out] o] eqn:Eg. cbn zeta.
  pose proof (raw_route_get _ _ _ _ _ _ R Eg) as R1.
  destruct (outLen <? 0) eqn:El; [by exists (-1), [], (h <| outData := o |>), s|]. apply Z.ltb_ge in El.
  assert (0 <= outLen <= count) as Ho by (destruct (pipe_get_cases _ _ _ _ _ Eg Hc) as [H|[H|[H|H]]]; lia).
  destruct (raw_loop_total id (raw_fuel s count) (h <| outData := o |>) s (count - outLen) outLen R1) as (r & rest & h' & s' & E & R' & E'); [lia| |].
  { unfold raw_measure, raw_fuel. destruct (inData _); lia. }
  exists (if r then -1 else zlen (out ++ rest)).
  destruct r; [by exists [], h', s'; rewrite E|].
  exists (out ++ rest). eexists _, s'. rewrite E. cbn [mbind option_bind]. split; [reflexivity|]. split; [|done].
  destruct (0 <? _); [|done]. destruct R' as [A B C]. by split.
Qed.

(** ** Raw data to frames *)

Definition same_types (h h' : HDLC) : Prop := inDataType h' = inDataType h /\ outDataType h' = outDataType h.

#[export] Instance same_types_preorder : PreOrder same_types.
Proof. split; [done|]. intros a b c (A & B) (A' & B'). unfold same_types. by rewrite A', B'. Qed.

Lemma sync_loop_types n h w : same_types h (sync_loop n h w).2.
Proof.
  revert w. induction n as [|n IH]; intros w; [done|]. cbn [sync_loop]. by destruct (_ =? 0x7E); [|apply IH].
Qed.

Lemma unpack_bit_types h w : same_types h (unpack_bit h w).
Proof.
  unfold unpack_bit. set (h1 := if w .& 0x8000 =? 0 then _ else _). assert (same_types h h1) as H.
  { unfold h1. destruct (_ =? 0); [|done]. by destruct (_ =? 5). }
  clearbody h1. by destruct (_ =? 24).
Qed.

Lemma unpack_loop_types n h w : same_types h (unpack_loop n h w).2.
Proof.
  revert h w. induction n as [|n IH]; intros h w; [done|]. cbn [unpack_loop].
  destruct (_ =? 0x7E); [done|]. etrans; [apply (unpack_bit_types h w)|]. apply IH.
Qed.

Lemma hdlc_data_types h h1 (b : Z) : same_types h h1 ->
  same_types h (let '(more, h) := unpack h1 b in
                if (more : bool) then h else h <| outData := pipe_put_eof (outData h) |> <| hdlcState := stEof |>).
Proof.
  intros H. pose proof (unpack_loop_types (Z.to_nat (rawByteLen h1 + 1)) h1 (window h1 b)) as U.
  unfold unpack. destruct (unpack_loop _ h1 _) as [more h2]. etrans; [exact H|]. by destruct more.
Qed.

Lemma hdlc_octet_types h b : same_types h (hdlc_octet h b).
Proof.
  unfold hdlc_octet. set (h1 := h <| lastChar := b |> <| rawCount := _ |>).
  assert (same_types h h1) as H1 by done. cbn zeta. change (hdlcState h1) with (hdlcState h).
  destruct (hdlcState h); [done| | |by apply hdlc_data_types].
  - pose proof (sync_loop_types (Z.to_nat (rawByteLen h1 + 1)) h1 (window h1 b)) as U. unfold sync.
    destruct (sync_loop _ h1 _) as [[] h2]; etrans; [exact H1|exact U|exact H1|exact U].
  - unfold skipFlag. destruct (_ =? 0x7E); [done|]. by apply hdlc_data_types.
Qed.

Lemma hdlc_loop_total : forall fuel h s count len, (length (p_octets s) < fuel)%nat ->
  exists r out h' s', hdlc_loop fuel h s count len = Some (r, out, h', s') /\ same_types h h' /\ p_eof s' = p_eof s.
Proof.
  induction fuel as [|fuel IH]; intros h s count len Hf; [lia|]. cbn [hdlc_loop].
  destruct (pipe_get s 1) as [[res bs] s1] eqn:Eg. pose proof (pipe_get_eof _ _ _ _ _ Eg) as He.
  destruct (res =? 0) eqn:E0; [by exists false, [], h, s1|]. apply Z.eqb_neq in E0. cbn zeta.
  set (h1 := if res <? 0 then _ else _). assert (same_types h h1) as H1.
  { unfold h1. destruct (res <? 0); [done|apply hdlc_octet_types]. }
  assert (is_stEof h1 = true \/ (length (p_octets s1) < fuel)%nat) as Hn.
  { destruct (pipe_get_cases _ _ _ _ _ Eg ltac:(lia)) as [(-> & _)|[(? & _)|[(? & _)|(? & ?)]]]; [by left|lia|lia|right; lia]. }
  clearbody h1. destruct (is_stEof h1) eqn:Es; cbn [orb].
  - destruct (pipe_get (outData h1) count) as [[outLen out] o].
    destruct (outLen <? 0); [by exists (negb (0 <? len)), [], (h1 <| outData := o |>), s1|].
    eexists false, out, _, s1.
    set (h2 := if 0 <? outLen then _ else _).
    assert (is_stEof h2 = true /\ same_types h1 h2) as [-> H2] by (unfold h2; by destruct (0 <? outLen)).
    rewrite orb_true_r. split; [reflexivity|]. split; [by etrans|done].
  - destruct Hn as [Hn|Hn]; [done|].
    destruct (is_stData h1); [|destruct (IH h1 s1 count len Hn) as (r & out & h' & s' & E & H' & E');
      exists r, out, h', s'; split; [done|]; split; [by etrans|by rewrite E']].
    destruct (pipe_get (outData h1) count) as [[outLen out] o].
    destruct (outLen <? 0); [by exists (negb (0 <? len)), [], (h1 <| outData := o |>), s1|].
    set (h2 := if 0 <? outLen then _ else _).
    assert (same_types h1 h2) as H2 by (unfold h2; by destruct (0 <? outLen)).
    clearbody h2. destruct (_ || _); [exists false, out, h2, s1; split; [done|]; split; [by etrans|done]|].
    destruct (IH h2 s1 (count - outLen) (len + outLen) Hn) as (r & rest & h' & s' & -> & H' & E').
    exists r, (out ++ rest), h', s'. split; [done|]. split; [by do 2 (etrans; [eassumption|])|by rewrite E'].
Qed.

Lemma GetInData_types h s count r out h' s' : GetInData h s count = (r, out, h', s') ->
  same_types h h' /\ p_eof s' = p_eof s.
Proof.
  unfold GetInData. destruct (inData h); [|by intros [= _ _ <- <-]].
  destruct (pipe_get s count) as [[len o] s1] eqn:Eg. pose proof (pipe_get_eof _ _ _ _ _ Eg) as He.
  destruct (0 <? len); [by intros [= _ _ <- <-]|]. by destruct (len <? 0); intros [= _ _ <- <-].
Qed.

(** What the sender of the engine uses: everything but frames to raw data. *)
Lemma GetData_total h s count : (inDataType h = dtHdlc -> outDataType h <> dtRaw) ->
  exists r out h' s', PmHdlc.GetData h s count = Some (r, out, h', s') /\ same_types h h' /\ p_eof s' = p_eof s.
Proof.
  intros Hx. unfold GetData, GetRawData, GetHdlcData. destruct (outDataType h) eqn:Eo; try by eexists _, _, h, s.
  - destruct (inDataType h) eqn:Ei; try by eexists _, _, h, s.
    + destruct (GetInData h s count) as [[[len out] h1] s1] eqn:Eg. apply GetInData_types in Eg as [A B].
      eexists _, _, _, s1. split; [reflexivity|]. split; [|done]. by destruct (0 <? len).
    + destruct (_ || _).
      { destruct (pipe_get (outData h) count) as [[len out] o]. eexists _, _, _, s. split; [reflexivity|]. split; [|done].
        by destruct (0 <? len). }
      destruct (_ && _).
      { destruct (pipe_get (outData h) 0) as [[? ?] ?]. destruct (pipe_get s 0) as [[? ?] ?]. by eexists _, _, h, s. }
      destruct (hdlc_loop_total (length (p_octets s) + 2) h s count 0 ltac:(lia)) as (r & out & h' & s' & -> & H & E).
      by eexists _, out, h', s'.
  - destruct (inDataType h) eqn:Ei; try by eexists _, _, h, s.
    + by destruct (Hx eq_refl).
    + destruct (GetInData h s count) as [[[len out] h1] s1] eqn:Eg. apply GetInData_types in Eg as [A B].
      by eexists _, _, h1, s1.
Qed.
