(* ===== verification/ModStream.v ===== *)
(** * Signals received, frame by frame (src/t38modem/t38engine.h, t38engine.cxx)

    A [ModStream] holds what one T.38 signal brings: a data stream for each frame,
    those the modem has not begun to read in a queue, the one being read at
    [firstBuf], the one being written at [lastBuf], which is in the queue or is
    the first one.  The streams are shared between the pointers, so they live in
    a heap, each a [pipe] (the queue DataStream implements); [None] stands for an
    access to a stream that has been deleted. *)
From stdpp Require Import gmap.
From S2P Require Import Prelude DataStream EngineBase PmHdlc PmHdlcTotal.

(** ** Modulations *)

Record MODPARS := {
  dataType : DataType;
  dataTypeT38 : DataType;
  val : Z;
  ind : Z;
  lenInd : Z;
  msgType : Z;
  br : Z;
}.

#[export] Instance eta_modpars : Eta MODPARS := fun m =>
  Build_MODPARS (dataType m) (dataTypeT38 m) (val m) (ind m) (lenInd m) (msgType m) (br m).

Definition MODPARS_new (_val _ind _lenInd _msgType _br : Z) : MODPARS :=
  {| dataType := dtNone; dataTypeT38 := dtNone; val := _val; ind := _ind; lenInd := _lenInd;
     msgType := _msgType; br := _br |}.

(** The default arguments, [unsigned(-1)] among them. *)
Definition invalidMods : MODPARS := MODPARS_new (-1) 0xFFFFFFFF (-1) 0xFFFFFFFF (-1).

Definition IsModValid (m : MODPARS) : bool := 0 <=? val m.
Definition IsEqual (m m' : MODPARS) : bool := msgType m =? msgType m'.

(** The T.38 indicators (src/opal/include/asn/t38.h). *)
Definition e_no_signal : Z := 0.
Definition e_cng : Z := 1.
Definition e_ced : Z := 2.
Definition e_v21_preamble : Z := 3.
Definition e_v17_14400_long_training : Z := 15.

(** The T.38 data type of V.21. *)
Definition e_v21 : Z := 0.

Definition mods : list MODPARS := [
  MODPARS_new 3 3 900 0 300;
  MODPARS_new 24 4 1100 1 2400;
  MODPARS_new 48 5 900 2 4800;
  MODPARS_new 72 6 300 3 7200;
  MODPARS_new 73 9 1500 5 7200;
  MODPARS_new 74 8 300 5 7200;
  MODPARS_new 96 7 300 4 9600;
  MODPARS_new 97 11 1500 6 9600;
  MODPARS_new 98 10 300 6 9600;
  MODPARS_new 121 13 1500 7 12000;
  MODPARS_new 122 12 300 7 12000;
  MODPARS_new 145 15 1500 8 14400;
  MODPARS_new 146 14 300 8 14400
].

Inductive GetModParsBy := by_val | by_ind.

Definition GetModPars (key : Z) (by_ : GetModParsBy) : MODPARS :=
  match find (fun m => match by_ with by_val => val m =? key | by_ind => ind m =? key end) mods with
  | Some m => m
  | None => invalidMods
  end.

(** ** The streams of a signal *)

Record streams := {
  pipes : gmap positive pipe;
  next : positive;
}.

#[export] Instance eta_streams : Eta streams := fun h => Build_streams (pipes h) (next h).

Definition no_streams : streams := {| pipes := ∅; next := 1%positive |}.

Record ModStream := {
  firstBuf : option positive;
  bufQ : list positive;
  lastBuf : option positive;
  ModPars : MODPARS;
  hdlc : HDLC;
}.

#[export] Instance eta_modstream : Eta ModStream := fun m =>
  Build_ModStream (firstBuf m) (bufQ m) (lastBuf m) (ModPars m) (hdlc m).

(** What the memory of a new [HDLC] holds in the fields its constructor skips. *)
Section unset.
Context (byte0 chunk0 len0 : Z).

Definition ModStream_new (p : MODPARS) : ModStream :=
  {| firstBuf := None; bufQ := []; lastBuf := None; ModPars := p; hdlc := HDLC_new byte0 chunk0 len0 |}.

Definition delete_stream (h : streams) (id : positive) : option streams :=
  _ ← pipes h !! id;
  Some (h <| pipes := base.delete id (pipes h) |>).

(** The destructors: of the stream being read, and of the queue. *)
Definition ModStream_delete (h : streams) (m : ModStream) : option streams :=
  h ← match firstBuf m with Some id => delete_stream h id | None => Some h end;
  foldl (fun h id => h ← h; delete_stream h id) (Some h) (bufQ m).

Definition PushBuf (h : streams) (m : ModStream) : streams * ModStream :=
  (h <| pipes := <[next h := pipe_new 0]> (pipes h) |> <| next := Pos.succ (next h) |>,
   m <| lastBuf := Some (next h) |> <| bufQ := bufQ m ++ [next h] |>).

Definition DeleteFirstBuf (h : streams) (m : ModStream) : option (bool * streams * ModStream) :=
  match firstBuf m with
  | None => Some (false, h, m)
  | Some id =>
      let m := if bool_decide (lastBuf m = firstBuf m) then m <| lastBuf := None |> else m in
      h ← delete_stream h id;
      Some (true, h, m <| firstBuf := None |>)
  end.

(** HDLC frames of the signal read as raw data. *)
Definition raw_of_hdlc (p : MODPARS) : bool :=
  bool_decide (dataType p = dtRaw) && bool_decide (dataTypeT38 p = dtHdlc).

Definition PopBuf (h : streams) (m : ModStream) : option (bool * streams * ModStream) :=
  '(_, h, m) ← DeleteFirstBuf h m;
  match bufQ m with
  | [] => Some (false, h, m <| firstBuf := None |>)
  | id :: q =>
      let m := m <| firstBuf := Some id |> <| bufQ := q |> in
      let m :=
        if raw_of_hdlc (ModPars m) then
          m <| hdlc := GetRawStart (PutHdlcData (HDLC_new byte0 chunk0 len0) (firstBuf m)) 10 |>
        else m in
      Some (true, h, m)
  end.

(** [hdlc.GetData], which reads the stream [inData] points to. *)
Definition hdlc_GetData (h : streams) (d : HDLC) (count : Z) : option (Z * list Z * HDLC * streams) :=
  match inData d with
  | None =>
      '(r, out, d, _) ← PmHdlc.GetData d (pipe_new 0) count;
      Some (r, out, d, h)
  | Some id =>
      s ← pipes h !! id;
      '(r, out, d, s) ← PmHdlc.GetData d s count;
      Some (r, out, d, h <| pipes := <[id := s]> (pipes h) |>)
  end.

(** The [while] loop of the frames read as raw data; a turn takes a stream off
    the queue [q]. *)
Fixpoint GetData_raw (q : list positive) (h : streams) (m : ModStream) (count : Z) :
    option (Z * list Z * streams * ModStream) :=
  '(len, out, d, h) ← hdlc_GetData h (hdlc m) count;
  let m := m <| hdlc := d |> in
  if len <? 0 then
    match q with
    | id :: q =>
        '(_, h, m) ← DeleteFirstBuf h (m <| bufQ := q |>);
        let m := m <| firstBuf := Some id |> in
        let m := m <| hdlc := GetRawStart (PutHdlcData (hdlc m) (firstBuf m)) 0 |> in
        GetData_raw q h m count
    | [] =>
        first ← firstBuf m;
        s ← pipes h !! first;
        if p_diag s .& diagNoCarrier =? 0 then
          '(_, h, m) ← DeleteFirstBuf h m;
          Some (0, [], h, m)
        else Some (-1, [], h, m)
    end
  else Some (len, out, h, m).

Definition GetData (h : streams) (m : ModStream) (count : Z) : option (Z * list Z * streams * ModStream) :=
  match firstBuf m with
  | None => Some (-1, [], h, m)
  | Some id =>
      if raw_of_hdlc (ModPars m) then GetData_raw (bufQ m) h m count
      else if negb (bool_decide (dataTypeT38 (ModPars m) = dataType (ModPars m))) then Some (-1, [], h, m)
      else
        s ← pipes h !! id;
        let '(r, out, s) := pipe_get s count in
        Some (r, out, h <| pipes := <[id := s]> (pipes h) |>, m)
  end.

Definition PutData (h : streams) (m : ModStream) (buf : list Z) : option (Z * streams) :=
  match lastBuf m with
  | None => Some (-1, h)
  | Some id =>
      s ← pipes h !! id;
      let '(r, s) := pipe_put s buf in
      Some (r, h <| pipes := <[id := s]> (pipes h) |>)
  end.

Definition SetDiag (h : streams) (m : ModStream) (diag : Z) : option (bool * streams) :=
  match lastBuf m with
  | None => Some (false, h)
  | Some id =>
      s ← pipes h !! id;
      Some (true, h <| pipes := <[id := pipe_set_diag s (p_diag s .| diag)]> (pipes h) |>)
  end.

Definition PutEof (h : streams) (m : ModStream) (diag : Z) : option (bool * streams * ModStream) :=
  match lastBuf m with
  | None => Some (false, h, m)
  | Some id =>
      s ← pipes h !! id;
      let s := pipe_put_eof (pipe_set_diag s (p_diag s .| diag)) in
      Some (true, h <| pipes := <[id := s]> (pipes h) |>, m <| lastBuf := None |>)
  end.

(** The streams of [from] go over to [m]: the state of both. *)
Definition Move (m from : ModStream) : ModStream * ModStream :=
  let q := match firstBuf from with Some id => [id] | None => [] end ++ bufQ from in
  (m <| bufQ := bufQ m ++ q |> <| lastBuf := lastBuf from |>,
   from <| firstBuf := None |> <| bufQ := [] |> <| lastBuf := None |>).
End unset.

(** ** Laws of the streams *)

(** ** The heap *)

Abbreviation owned := (list (positive * pipe)).

Record owns (h : streams) (l : owned) : Prop := {
  owns_nodup : base.NoDup l.*1;
  owns_pipes : pipes h = list_to_map l;
  owns_fresh : Forall (fun id => (id < next h)%positive) l.*1;
}.

#[export] Instance owns_proper h : Proper (Permutation ==> iff) (owns h).
Proof.
  assert (forall l l', Permutation l l' -> owns h l -> owns h l') as H.
  { intros l l' P [N E F]. split.
    - by rewrite <- P.
    - rewrite E. by apply list_to_map_proper.
    - by rewrite <- P. }
  intros l l' P. split; apply H; [done|by symmetry].
Qed.

Lemma owns_lookup h id p R : owns h ((id, p) :: R) -> pipes h !! id = Some p.
Proof. intros [N -> F]. cbn. apply lookup_insert_eq. Qed.

Lemma owns_update h id p p' R : owns h ((id, p) :: R) ->
  owns (h <| pipes := <[id := p']> (pipes h) |>) ((id, p') :: R).
Proof. intros [N E F]. split; [done| |done]. cbn. rewrite E. cbn. by rewrite insert_insert_eq. Qed.

Lemma owns_delete h id p R : owns h ((id, p) :: R) ->
  exists h', delete_stream h id = Some h' /\ owns h' R /\ next h' = next h.
Proof.
  intros S. pose proof (owns_lookup _ _ _ _ S) as L. destruct S as [N E F]. unfold delete_stream. rewrite L.
  eexists. split; [reflexivity|]. split; [|done]. cbn in N, F. apply list.NoDup_cons in N as [N1 N2].
  apply Forall_cons_1 in F as [_ F]. split; [done| |done]. cbn. rewrite E. cbn. apply delete_insert_id.
  by apply not_elem_of_list_to_map_1.
Qed.

Lemma owns_new h R : owns h R ->
  owns (h <| pipes := <[next h := pipe_new 0]> (pipes h) |> <| next := Pos.succ (next h) |>)
    ((next h, pipe_new 0) :: R).
Proof.
  intros [N E F]. split.
  - cbn. apply list.NoDup_cons. split; [|done]. intros H. rewrite list.Forall_forall in F. apply F in H. lia.
  - cbn. by rewrite E.
  - cbn. constructor; [lia|]. eapply list.Forall_impl; [exact F|]. intros id H. cbn in H. lia.
Qed.

(** ** A signal *)

Definition ids_of (m : ModStream) : list positive :=
  match firstBuf m with Some id => [id] | None => [] end ++ bufQ m.

(** The streams of [m], in order; the one being written is the last, and open;
    frames read as raw data come from the stream being read. *)
Record holds (m : ModStream) (l : owned) : Prop := {
  holds_ids : ids_of m = l.*1;
  holds_last : forall id, lastBuf m = Some id -> exists l' p, l = l' ++ [(id, p)] /\ p_eof p = false;
  holds_raw : raw_of_hdlc (ModPars m) = true -> forall id, firstBuf m = Some id -> raw_route id (hdlc m);
}.

Lemma holds_nil p byte0 chunk0 len0 : holds (ModStream_new byte0 chunk0 len0 p) [].
Proof. by split. Qed.

Lemma owns_mid h l x R : owns h ((l ++ [x]) ++ R) <-> owns h (x :: l ++ R).
Proof.
  apply owns_proper. rewrite <- app_assoc. symmetry. apply (Permutation_middle l R x).
Qed.

Lemma PushBuf_spec h m l R : owns h (l ++ R) -> holds m l -> 
  let '(h', m') := PushBuf h m in
  owns h' ((l ++ [(next h, pipe_new 0)]) ++ R) /\ holds m' (l ++ [(next h, pipe_new 0)]) /\
  m' = m <| lastBuf := Some (next h) |> <| bufQ := bufQ m ++ [next h] |>.
Proof.
  intros S [I L W]. unfold PushBuf. split; [|split; [|done]].
  - apply owns_mid. by apply owns_new.
  - split.
    + unfold ids_of in *. cbn. rewrite app_assoc, I. by rewrite fmap_app.
    + cbn. intros id [= <-]. by exists l, (pipe_new 0).
    + exact W.
Qed.

(** The stream at the end changed: [PutData], [SetDiag], [PutEof]. *)
Lemma holds_set_last m l id p p' : holds m (l ++ [(id, p)]) -> p_eof p' = false -> holds m (l ++ [(id, p')]).
Proof.
  intros [I L W] He. split; [by rewrite I, !fmap_app| |exact W]. intros id' H. destruct (L id' H) as (l' & q & E & _).
  apply app_inj_2 in E as [-> [= <- <-]]; [|done]. by exists l', p'.
Qed.

Lemma PutData_spec h m l id p R buf : owns h ((l ++ [(id, p)]) ++ R) -> holds m (l ++ [(id, p)]) -> lastBuf m = Some id ->
  exists h', PutData h m buf = Some (zlen buf, h') /\
    owns h' ((l ++ [(id, (pipe_put p buf).2)]) ++ R) /\ holds m (l ++ [(id, (pipe_put p buf).2)]).
Proof.
  intros S H E. unfold PutData. rewrite E. apply owns_mid in S. rewrite (owns_lookup _ _ _ _ S).
  cbn [mbind option_bind]. pose proof H as [_ L _]. destruct (L id E) as (l' & q & El & Eq).
  apply app_inj_2 in El as [-> [= <-]]; [|done]. unfold pipe_put. rewrite Eq.
  eexists. split; [reflexivity|]. split; [apply owns_mid; by eapply owns_update|by eapply holds_set_last].
Qed.

Lemma SetDiag_spec h m l id p R d : owns h ((l ++ [(id, p)]) ++ R) -> holds m (l ++ [(id, p)]) -> lastBuf m = Some id ->
  exists h', SetDiag h m d = Some (true, h') /\
    owns h' ((l ++ [(id, pipe_set_diag p (p_diag p .| d))]) ++ R) /\
    holds m (l ++ [(id, pipe_set_diag p (p_diag p .| d))]).
Proof.
  intros S H E. unfold SetDiag. rewrite E. apply owns_mid in S. rewrite (owns_lookup _ _ _ _ S).
  pose proof H as [_ L _]. destruct (L id E) as (l' & q & El & Eq). apply app_inj_2 in El as [-> [= <-]]; [|done].
  eexists. split; [reflexivity|]. split; [apply owns_mid; by eapply owns_update|by eapply holds_set_last].
Qed.

Definition ended (p : pipe) (d : Z) : pipe := pipe_put_eof (pipe_set_diag p (p_diag p .| d)).

Lemma PutEof_spec h m l id p R d : owns h ((l ++ [(id, p)]) ++ R) -> holds m (l ++ [(id, p)]) -> lastBuf m = Some id ->
  exists h', PutEof h m d = Some (true, h', m <| lastBuf := None |>) /\
    owns h' ((l ++ [(id, ended p d)]) ++ R) /\ holds (m <| lastBuf := None |>) (l ++ [(id, ended p d)]).
Proof.
  intros S [I L W] E. unfold PutEof. rewrite E. apply owns_mid in S. rewrite (owns_lookup _ _ _ _ S).
  eexists. split; [reflexivity|]. split; [apply owns_mid; by eapply owns_update|].
  split; [|done|exact W]. change (ids_of m = (l ++ [(id, ended p d)]).*1). by rewrite I, !fmap_app.
Qed.

(** The stream being read is the first one, if there is one. *)
Lemma holds_first m l id : holds m l -> firstBuf m = Some id -> exists p l', l = (id, p) :: l' /\ bufQ m = l'.*1.
Proof.
  intros [I _ _] E. unfold ids_of in I. rewrite E in I. destruct l as [|[id' p] l]; [done|].
  cbn in I. injection I as -> I. by exists p, l.
Qed.

Lemma DeleteFirstBuf_spec h m l R : owns h (l ++ R) -> holds m l ->
  exists b h' m' l', DeleteFirstBuf h m = Some (b, h', m') /\ owns h' (l' ++ R) /\ holds m' l' /\
    firstBuf m' = None /\ bufQ m' = bufQ m /\ ModPars m' = ModPars m /\ hdlc m' = hdlc m /\ next h' = next h /\
    l' = match firstBuf m with Some _ => tail l | None => l end.
Proof.
  intros S H. unfold DeleteFirstBuf. destruct (firstBuf m) as [id|] eqn:E.
  2: { exists false, h, m, l. done. }
  destruct (holds_first _ _ _ H E) as (p & l' & -> & Eq).
  destruct (owns_delete _ _ _ _ S) as (h' & -> & S' & Hn). cbn [mbind option_bind].
  set (m1 := if bool_decide _ then _ else m).
  assert (bufQ m1 = bufQ m /\ ModPars m1 = ModPars m /\ hdlc m1 = hdlc m) as (E1 & E2 & E3).
  { unfold m1. by destruct (bool_decide _). }
  eexists _, h', _, l'. split; [reflexivity|]. split; [done|].
  split; [|by repeat split]. split.
  - unfold ids_of. cbn. by rewrite E1.
  - cbn. intros id' El. unfold m1 in El. destruct (bool_decide (lastBuf m = Some id)) eqn:Eb; [done|].
    apply bool_decide_eq_false in Eb. destruct H as [_ L _]. destruct (L id' El) as (l2 & q & Ex & Hq).
    destruct l2 as [|x l2]; cbn in Ex.
    + exfalso. apply Eb. rewrite El. by simplify_eq.
    + injection Ex as _ ->. by exists l2, q.
  - done.
Qed.

Lemma start_route h id n : raw_route id (GetRawStart (PutHdlcData h (Some id)) n).
Proof.
  unfold GetRawStart, PutHdlcData. cbn [inDataType]. set (h1 := _ <| fcs := FCS_new |>).
  assert (raw_route id h1) as R1 by (split; [done|done|by left]).
  assert (inData h1 = Some id) as E by done. change (inDataType h1) with dtHdlc. cbn match. clearbody h1.
  assert (same_route h1 (Nat.iter n (fun h => pack h [0x7E] true) h1)) as H; [|by eapply raw_route_same].
  induction n as [|n IH]; [done|]. cbn [Nat.iter nat_rect]. etrans; [exact IH|]. apply pack_route.
Qed.

Lemma holds_set_first m l id p p' : holds m ((id, p) :: l) -> p_eof p' = p_eof p -> holds m ((id, p') :: l).
Proof.
  intros [I L W] He. split; [exact I| |exact W]. intros id' H. destruct (L id' H) as (l' & q & E & Hq).
  destruct l' as [|x l']; cbn in E; simplify_eq.
  - exists [], p'. by rewrite He.
  - by exists ((id, p') :: l'), q.
Qed.

Lemma holds_set_hdlc m l d : holds m l -> (forall id, firstBuf m = Some id -> raw_route id d) -> holds (m <| hdlc := d |>) l.
Proof. intros [I L W] R. split; [exact I|exact L|]. intros _. exact R. Qed.

(** The next stream of the queue becomes the one being read. *)
Lemma holds_advance m id q l : holds m l -> firstBuf m = None -> bufQ m = id :: q ->
  (forall d, (raw_of_hdlc (ModPars m) = true -> raw_route id d) ->
     holds (m <| firstBuf := Some id |> <| bufQ := q |> <| hdlc := d |>) l).
Proof.
  intros [I L W] E1 E2 d Hd. split.
  - unfold ids_of in *. cbn. rewrite E1, E2 in I. exact I.
  - exact L.
  - cbn. intros Hr id' [= <-]. by apply Hd.
Qed.

Lemma PopBuf_spec byte0 chunk0 len0 h m l R : owns h (l ++ R) -> holds m l ->
  exists b h' m' l', PopBuf byte0 chunk0 len0 h m = Some (b, h', m') /\ owns h' (l' ++ R) /\ holds m' l' /\
    ModPars m' = ModPars m /\
    l' = match firstBuf m with Some _ => tail l | None => l end /\
    b = bool_decide (bufQ m <> []) /\
    (b = true -> firstBuf m' = head (bufQ m) /\ bufQ m' = tail (bufQ m)).
Proof.
  intros S H. unfold PopBuf.
  destruct (DeleteFirstBuf_spec h m l R S H) as (b & h' & m1 & l' & -> & S' & H' & E1 & E2 & E3 & E4 & _ & El).
  cbn [mbind option_bind]. rewrite <- E2. destruct (bufQ m1) as [|id q] eqn:Eq.
  - eexists false, h', _, l'. split; [reflexivity|]. split; [done|]. split; [|by split_and!].
    destruct H' as [I L W]. split; [|exact L|done]. unfold ids_of in *. cbn. by rewrite E1 in I.
  - eexists true, h', _, l'. split; [reflexivity|]. split; [done|].
    set (m2 := m1 <| firstBuf := _ |> <| bufQ := _ |>). change (ModPars m2) with (ModPars m1). change (firstBuf m2) with (Some id).
    pose proof (holds_advance m1 id q l' H' E1 Eq) as HA.
    destruct (raw_of_hdlc (ModPars m1)) eqn:Er.
    + split; [|by split_and!]. apply HA. intros _. apply start_route.
    + split; [|by split_and!]. specialize (HA (hdlc m1)). destruct m1. apply HA. done.
Qed.

Lemma hdlc_GetData_spec h m id p l R count : owns h (((id, p) :: l) ++ R) -> holds m ((id, p) :: l) ->
  firstBuf m = Some id -> raw_of_hdlc (ModPars m) = true -> 0 <= count ->
  exists len out d h' p', hdlc_GetData h (hdlc m) count = Some (len, out, d, h') /\
    owns h' (((id, p') :: l) ++ R) /\ holds (m <| hdlc := d |>) ((id, p') :: l).
Proof.
  intros S H E Hr Hc. pose proof (holds_raw _ _ H Hr id E) as W. unfold hdlc_GetData.
  assert (forall d p', raw_route id d -> p_eof p' = p_eof p -> holds (m <| hdlc := d |>) ((id, p') :: l)) as HH.
  { intros d p' Wd He. apply holds_set_hdlc; [by eapply holds_set_first|]. intros id'. rewrite E. by intros [= <-]. }
  destruct (route_stream _ _ W) as [->|[-> Ho]].
  - rewrite (owns_lookup _ _ _ _ S). cbn [mbind option_bind].
    destruct (GetRawData_total id (hdlc m) p count W Hc) as (r & out & d & p' & -> & Wd & He).
    exists r, out, d. eexists _, p'. split; [reflexivity|]. split; [by eapply owns_update|by apply HH].
  - destruct (GetRawData_total id (hdlc m) (pipe_new 0) count W Hc) as (r & out & d & p' & -> & Wd & He).
    exists r, out, d, h, p. split; [done|]. split; [done|by apply HH].
Qed.

Lemma DeleteFirstBuf_queue h m q b h' m' : DeleteFirstBuf h m = Some (b, h', m') ->
  DeleteFirstBuf h (m <| bufQ := q |>) = Some (b, h', m' <| bufQ := q |>).
Proof.
  unfold DeleteFirstBuf. change (firstBuf (m <| bufQ := q |>)) with (firstBuf m). destruct (firstBuf m) as [id|].
  - change (lastBuf (m <| bufQ := q |>)) with (lastBuf m). destruct (delete_stream h id) as [h1|]; [|done].
    cbn [mbind option_bind]. intros [= <- <- <-]. by destruct (bool_decide _).
  - by intros [= <- <- <-].
Qed.

Lemma GetData_raw_spec : forall q h m l R count, owns h (l ++ R) -> holds m l -> bufQ m = q ->
  firstBuf m <> None -> raw_of_hdlc (ModPars m) = true -> 0 <= count ->
  exists len out h' m' l', GetData_raw q h m count = Some (len, out, h', m') /\ owns h' (l' ++ R) /\ holds m' l' /\
    ModPars m' = ModPars m.
Proof.
  induction q as [|id2 q IH]; intros h m l R count S H Eq E Hr Hc; cbn [GetData_raw].
  all: destruct (firstBuf m) as [id|] eqn:E1; [clear E|done].
  all: destruct (holds_first _ _ _ H E1) as (p & l' & -> & El).
  all: destruct (hdlc_GetData_spec h m id p l' R count S H E1 Hr Hc) as (len & out & d & h' & p' & -> & S' & H').
  all: cbn [mbind option_bind]; set (m1 := m <| hdlc := d |>) in *.
  all: destruct (len <? 0); [|by eexists len, out, h', m1, _].
  all: destruct (DeleteFirstBuf_spec h' m1 _ R S' H') as (b & h2 & m2 & l2 & E' & S2 & H2 & E2 & E3 & E4 & E5 & _).
  - change (firstBuf m1) with (firstBuf m). rewrite E1. cbn [mbind option_bind]. rewrite (owns_lookup _ _ _ _ S').
    cbn [mbind option_bind]. destruct (_ =? 0); [|by eexists (-1), [], h', m1, _].
    rewrite E'. by eexists 0, [], h2, m2, l2.
  - rewrite (DeleteFirstBuf_queue _ _ q _ _ _ E'). cbn [mbind option_bind]. 
    set (m3 := m2 <| bufQ := q |> <| firstBuf := Some id2 |>). set (d2 := GetRawStart _ 0).
    assert (holds (m3 <| hdlc := d2 |>) l2) as H3.
    { apply (holds_advance m2 id2 q l2 H2 E2); [by rewrite E3|]. intros _. apply start_route. }
    destruct (IH h2 (m3 <| hdlc := d2 |>) l2 R count S2 H3) as (len' & out' & h3 & m4 & l4 & E6 & S4 & H4 & EM);
      [done|done| |done|].
    { change (ModPars (m3 <| hdlc := d2 |>)) with (ModPars m2). rewrite E4. exact Hr. }
    exists len', out', h3, m4, l4. split; [exact E6|]. split; [done|]. split; [done|].
    etrans; [exact EM|exact E4].
Qed.

Lemma GetData_spec h m l R count : owns h (l ++ R) -> holds m l -> 0 <= count ->
  exists len out h' m' l', GetData h m count = Some (len, out, h', m') /\ owns h' (l' ++ R) /\ holds m' l' /\
    ModPars m' = ModPars m.
Proof.
  intros S H Hc. unfold GetData. destruct (firstBuf m) as [id|] eqn:E1; [|by eexists (-1), [], h, m, l].
  destruct (raw_of_hdlc (ModPars m)) eqn:Er; [apply (GetData_raw_spec (bufQ m) h m l R count); try done; by rewrite E1|].
  destruct (negb _); [by eexists (-1), [], h, m, l|].
  destruct (holds_first _ _ _ H E1) as (p & l' & -> & El). rewrite (owns_lookup _ _ _ _ S). cbn [mbind option_bind].
  destruct (pipe_get p count) as [[r out] p'] eqn:Eg. eexists r, out, _, m, ((id, p') :: l'). split; [reflexivity|].
  split; [by eapply owns_update|]. split; [|done]. eapply holds_set_first; [exact H|]. by eapply pipe_get_eof.
Qed.

(** Streams that are dropped together. *)
Lemma delete_streams_spec : forall l h R, owns h (l ++ R) ->
  exists h', foldl (fun h id => h ← h; delete_stream h id) (Some h) l.*1 = Some h' /\ owns h' R.
Proof.
  induction l as [|[id p] l IH]; intros h R S; [by exists h|].
  destruct (owns_delete _ _ _ _ S) as (h1 & E & S1 & _). cbn [fmap list_fmap foldl fst]. cbn [mbind option_bind].
  rewrite E. by apply IH.
Qed.

Lemma ModStream_delete_spec h m l R : owns h (l ++ R) -> holds m l ->
  exists h', ModStream_delete h m = Some h' /\ owns h' R.
Proof.
  intros S [I _ _]. unfold ModStream_delete, ids_of in *. destruct (firstBuf m) as [id|].
  - destruct l as [|[id' p] l]; [done|]. injection I as -> I. destruct (owns_delete _ _ _ _ S) as (h1 & -> & S1 & _).
    cbn [mbind option_bind]. rewrite I. by apply delete_streams_spec.
  - cbn [mbind option_bind]. cbn [app] in I. rewrite I. by apply delete_streams_spec.
Qed.

Lemma Move_spec m from l1 l2 : holds m l1 -> holds from l2 ->
  holds (Move m from).1 (l1 ++ l2) /\ holds (Move m from).2 [] /\
  ModPars (Move m from).1 = ModPars m /\ firstBuf (Move m from).1 = firstBuf m.
Proof.
  intros [I1 L1 W1] [I2 L2 W2]. split_and!; [|by split|done|done]. split.
  - unfold ids_of in *. cbn. rewrite app_assoc, I1, fmap_app. by rewrite I2.
  - cbn. intros id H. destruct (L2 id H) as (l & p & -> & Hp). exists (l1 ++ l), p. by rewrite app_assoc.
  - exact W1.
Qed.
