(* ===== verification/T38Engine.v ===== *)
(** * The T.38 engine (src/t38modem/t38engine.h, t38engine.cxx, enginebase.cxx)

    Between the modem's AT commands and the T.38 packets.  The members the modem
    calls ([SendStart], [Send], ..., [RecvWait], [Recv], ...) and those the call
    does ([PreparePacket], [HandlePacket], ...) work on one state, each under the
    engine's mutex, so that each is a step here.  The engine calls the modem back
    with the mutex released; [modem] is what the modem, and any other thread, does
    to the state meanwhile: the theorems hold for all of them.  A result [None]
    stands for an access to a deleted stream. *)
From stdpp Require Import gmap.
From S2P Require Import Prelude DataStream EngineBase PmHdlc T30 ModStream.

(** ** The state *)

Inductive StateOut :=
  stOutIdle | stOutCedWait | stOutSilenceWait | stOutIndWait | stOutData | stOutHdlcFcs |
  stOutDataNoSig | stOutNoSig.

Inductive StateModem :=
  stmIdle | stmOutMoreData | stmOutNoMoreData | stmInWaitSilence | stmInWaitData | stmInReadyData |
  stmInRecvData.

#[export] Instance StateOut_eq_dec : EqDecision StateOut.
Proof. solve_decision. Defined.
#[export] Instance StateModem_eq_dec : EqDecision StateModem.
Proof. solve_decision. Defined.

Definition isStateModemOut (st : StateModem) : bool :=
  match st with stmOutMoreData | stmOutNoMoreData => true | _ => false end.
Definition isStateModemIn (st : StateModem) : bool :=
  match st with stmInWaitData | stmInReadyData | stmInRecvData => true | _ => false end.

(** The members of both classes; [modemCallback] and the owners
    are numbers of their handles, times are in milliseconds. *)
Record T38Engine := {
  recvUserInput : option pipe;
  modemClass : ModemClass;
  hOwnerIn : option Z;
  hOwnerOut : option Z;
  firstIn : bool;
  firstOut : bool;
  isFakeOwnerIn : bool;
  isFakeOwnerOut : bool;
  isEnableFakeIn : bool;
  isEnableFakeOut : bool;
  modemCallback : option Z;
  bufOut : pipe;
  preparePacketTimeout : Z;
  preparePacketPeriod : Z;
  stateOut : StateOut;
  onIdleOut : DataType;
  callbackParamOut : Z;
  ModParsOut : MODPARS;
  delaySignalOut : bool;
  startedTimeOutBufEmpty : bool;
  timeOutBufEmpty : Z;
  timeDelayEndOut : Z;
  timeBeginOut : Z;
  countOut : Z;
  moreFramesOut : bool;
  hdlcOut : HDLC;
  callbackParamIn : Z;
  isCarrierIn : Z;
  countIn : Z;
  t30 : T30;
  modStreamIn : option ModStream;
  modStreamInSaved : option ModStream;
  stateModem : StateModem;
  heap : streams;
}.

#[export] Instance eta_engine : Eta T38Engine := fun e =>
  Build_T38Engine (recvUserInput e) (modemClass e) (hOwnerIn e) (hOwnerOut e) (firstIn e) (firstOut e)
    (isFakeOwnerIn e) (isFakeOwnerOut e) (isEnableFakeIn e) (isEnableFakeOut e) (modemCallback e)
    (bufOut e) (preparePacketTimeout e) (preparePacketPeriod e) (stateOut e) (onIdleOut e) (callbackParamOut e) (ModParsOut e) (delaySignalOut e)
    (startedTimeOutBufEmpty e) (timeOutBufEmpty e) (timeDelayEndOut e) (timeBeginOut e) (countOut e)
    (moreFramesOut e) (hdlcOut e) (callbackParamIn e) (isCarrierIn e) (countIn e) (t30 e)
    (modStreamIn e) (modStreamInSaved e) (stateModem e) (heap e).

(** ** Packets *)

(** A data field: its type (numbered as in src/opal/include/asn/t38.h) and its
    octets, if it has any. *)
Record data_field := { field_type : Z; field_data : option (list Z) }.

Definition e_hdlc_data : Z := 0.
Definition e_hdlc_sig_end : Z := 1.
Definition e_hdlc_fcs_OK : Z := 2.
Definition e_hdlc_fcs_BAD : Z := 3.
Definition e_hdlc_fcs_OK_sig_end : Z := 4.
Definition e_hdlc_fcs_BAD_sig_end : Z := 5.
Definition e_t4_non_ecm_data : Z := 6.
Definition e_t4_non_ecm_sig_end : Z := 7.

Inductive ifp := Indicator (type_of_msg : Z) | Data (type_of_msg : Z) (fields : option (list data_field)).

Section engine.
(** What the memory of a new [HDLC] holds, and the modem. *)
Context (byte0 chunk0 len0 : Z) (modem : Z -> T38Engine -> T38Engine).

Abbreviation new_hdlc := (HDLC_new byte0 chunk0 len0).

Definition T38Engine_new (now : Z) : T38Engine := {|
  recvUserInput := None; modemClass := mcUndefined; hOwnerIn := None; hOwnerOut := None;
  firstIn := true; firstOut := true; isFakeOwnerIn := false; isFakeOwnerOut := false;
  isEnableFakeIn := false; isEnableFakeOut := false; modemCallback := None;
  bufOut := pipe_new 2048; preparePacketTimeout := -1; preparePacketPeriod := -1; stateOut := stOutNoSig; onIdleOut := dtNone; callbackParamOut := cbpReset;
  ModParsOut := invalidMods; delaySignalOut := false; startedTimeOutBufEmpty := false;
  timeOutBufEmpty := now; timeDelayEndOut := now; timeBeginOut := now; countOut := 0;
  moreFramesOut := false; hdlcOut := new_hdlc; callbackParamIn := cbpReset; isCarrierIn := 0;
  countIn := 0; t30 := T30_new; modStreamIn := None; modStreamInSaved := None;
  stateModem := stmIdle; heap := no_streams |}.

(** [ModemCallbackWithUnlock]: the mutex is free while the modem runs. *)
Definition callback (param : Z) (e : T38Engine) : T38Engine :=
  match modemCallback e with Some _ => modem param e | None => e end.

Definition IsModemOpen (e : T38Engine) : bool := bool_decide (is_Some (modemCallback e)).

(** [hOwnerIn != hOwner || !IsModemOpen()] *)
Definition closed_in (hOwner : Z) (e : T38Engine) : bool :=
  negb (bool_decide (hOwnerIn e = Some hOwner)) || negb (IsModemOpen e).
Definition closed_out (hOwner : Z) (e : T38Engine) : bool :=
  negb (bool_decide (hOwnerOut e = Some hOwner)) || negb (IsModemOpen e).

(** [delete modStreamIn; modStreamIn = NULL;] *)
Definition delete_in (e : T38Engine) : option T38Engine :=
  match modStreamIn e with
  | None => Some e
  | Some m => h ← ModStream_delete (heap e) m; Some (e <| heap := h |> <| modStreamIn := None |>)
  end.

Definition delete_saved (e : T38Engine) : option T38Engine :=
  match modStreamInSaved e with
  | None => Some e
  | Some m => h ← ModStream_delete (heap e) m; Some (e <| heap := h |> <| modStreamInSaved := None |>)
  end.

(** The destructor: the streams left. *)
Definition T38Engine_delete (e : T38Engine) : option streams :=
  h ← match modStreamIn e with Some m => ModStream_delete (heap e) m | None => Some (heap e) end;
  match modStreamInSaved e with Some m => ModStream_delete h m | None => Some h end.

(** [modStreamIn != NULL && modStreamIn->lastBuf != NULL] *)
Definition writing (m : option ModStream) : bool :=
  match m with Some m => bool_decide (is_Some (lastBuf m)) | None => false end.

(** [modStreamIn->PutEof (diag)] *)
Definition in_PutEof (diag : Z) (e : T38Engine) : option T38Engine :=
  match modStreamIn e with
  | None => None
  | Some m => '(_, h, m) ← PutEof (heap e) m diag; Some (e <| heap := h |> <| modStreamIn := Some m |>)
  end.

(** ** Sending, the modem's side *)

Definition SendOnIdle (e : T38Engine) (_dataType : DataType) : T38Engine := e <| onIdleOut := _dataType |>.

(** How the data of a modulation goes over T.38. *)
Definition type_of_data (e : T38Engine) (p : MODPARS) : DataType :=
  if (msgType p =? e_v21) || hdlcOnly (t30 e) then dtHdlc else dtRaw.

Definition SendStart (e : T38Engine) (_dataType : DataType) (param : Z) : option (bool * T38Engine) :=
  if negb (IsModemOpen e) then Some (false, e)
  else if negb (bool_decide (stateModem e = stmIdle)) then Some (false, e)
  else
    e ← delete_in e;
    e ← (if negb (bool_decide (_dataType = dtSilence)) then delete_saved e else Some e);
    let e := e <| ModParsOut := invalidMods |> in
    let start (p : MODPARS) :=
      Some (true, e <| ModParsOut := p |> <| bufOut := pipe_clean (bufOut e) |> <| stateModem := stmOutMoreData |>) in
    match _dataType with
    | dtCed => start (invalidMods <| dataTypeT38 := dtCed |> <| dataType := dtCed |> <| ind := e_ced |> <| lenInd := param |>)
    | dtSilence =>
        start (invalidMods <| dataTypeT38 := dtSilence |> <| dataType := dtSilence |> <| ind := e_no_signal |> <| lenInd := param |>)
    | dtHdlc | dtRaw =>
        let p := GetModPars param by_val in
        let p := p <| dataType := _dataType |> <| dataTypeT38 := type_of_data e p |> in
        if IsModValid p then start p else Some (false, e <| ModParsOut := p |>)
    | _ => Some (false, e)
    end.

Definition Send (e : T38Engine) (buf : list Z) : Z * T38Engine :=
  if negb (IsModemOpen e) then (-1, e)
  else if negb (bool_decide (stateModem e = stmOutMoreData)) then (-1, e)
  else let '(res, s) := pipe_put (bufOut e) buf in (res, e <| bufOut := s |>).

Definition SendStop (e : T38Engine) (moreFrames : bool) (_callbackParam : Z) : bool * T38Engine :=
  if negb (IsModemOpen e) then (false, e)
  else if negb (bool_decide (stateModem e = stmOutMoreData)) then (false, e)
  else (true, e <| bufOut := pipe_put_eof (bufOut e) |> <| stateModem := stmOutNoMoreData |>
                <| moreFramesOut := moreFrames |> <| callbackParamOut := _callbackParam |>).

Definition isOutBufFull (e : T38Engine) : bool := pipe_full (bufOut e).

Definition SendingNotCompleted (now : Z) (e : T38Engine) : bool :=
  match hOwnerOut e with
  | None => false
  | Some _ =>
      if negb (bool_decide (stateOut e = stOutIdle)) then true
      else delaySignalOut e && (now <? timeBeginOut e)
  end.

(** ** Receiving, the modem's side *)

(** The parameters of a signal to receive. *)
Definition receive_as (e : T38Engine) (_dataType : DataType) (m : ModStream) : ModStream :=
  m <| ModPars := ModPars m <| dataType := _dataType |> <| dataTypeT38 := type_of_data e (ModPars m) |> |>.

(** The first buffer is dropped; whether the stream then serves the call. *)
Definition reuse_in (e : T38Engine) (p : MODPARS) : option (bool * T38Engine) :=
  match modStreamIn e with
  | None => Some (false, e)
  | Some m =>
      '(_, h, m) ← DeleteFirstBuf (heap e) m;
      let e := e <| heap := h |> <| modStreamIn := Some m |> in
      if (0 <? zlen (bufQ m)) && IsEqual p (ModPars m) then Some (true, e)
      else
        e ← delete_in e;
        Some (false, e)
  end.

(** The new stream [m] for the modem takes over the signal that came before, if
    it is the right one. *)
Definition take_saved (e : T38Engine) (m saved : ModStream) : option T38Engine :=
  if IsEqual (ModPars m) (ModPars saved) then
    let '(m, saved) := Move m saved in
    delete_saved (e <| modStreamIn := Some m |> <| modStreamInSaved := Some saved |>)
  else
    let '(h, m) := PushBuf (heap e) m in
    '(_, h, m) ← PutEof h m diagDiffSig;
    Some (e <| heap := h |> <| modStreamIn := Some m |>).

(** The result, and whether the reference [done] was set; the part after the
    switch first. *)
Definition wait_signal (e : T38Engine) (_dataType : DataType) (param _callbackParam : Z) :
    option (bool * bool * T38Engine) :=
  let p := GetModPars param by_val in
  if negb (IsModValid p) then Some (false, false, e)
  else
    let e := e <| callbackParamIn := _callbackParam |> in
    '(reused, e) ← reuse_in e p;
    if (reused : bool) then
      m ← modStreamIn e;
      Some (true, true, e <| modStreamIn := Some (receive_as e _dataType m) |> <| stateModem := stmInReadyData |>)
    else
      let m := receive_as e _dataType (ModStream_new byte0 chunk0 len0 p) in
      match modStreamInSaved e with
      | None =>
          Some (true, false, e <| modStreamIn := Some m |> <| stateModem := stmInWaitData |>)
      | Some saved =>
          e ← take_saved e m saved;
          Some (true, true, e <| stateModem := stmInReadyData |>)
      end.

Definition RecvWait (e : T38Engine) (_dataType : DataType) (param _callbackParam : Z) :
    option (bool * bool * T38Engine) :=
  if negb (IsModemOpen e) then Some (false, false, e)
  else if negb (bool_decide (stateModem e = stmIdle)) then Some (false, false, e)
  else
    match _dataType with
    | dtSilence =>
        match modStreamIn e with
        | None => Some (true, true, e)
        | Some _ =>
            e ← delete_in e;
            if negb (isCarrierIn e =? 0) && bool_decide (modStreamInSaved e = None) then
              Some (true, false, e <| callbackParamIn := _callbackParam |> <| stateModem := stmInWaitSilence |>)
            else Some (true, true, e)
        end
    | dtHdlc | dtRaw => wait_signal e _dataType param _callbackParam
    | _ => Some (false, false, e)
    end.

Definition RecvStart (e : T38Engine) (_callbackParam : Z) : option (bool * T38Engine) :=
  if negb (IsModemOpen e) then Some (false, e)
  else if negb (bool_decide (stateModem e = stmInReadyData)) then Some (false, e)
  else
    let e := e <| callbackParamIn := _callbackParam |> in
    match modStreamIn e with
    | None => Some (false, e <| stateModem := stmIdle |>)
    | Some m =>
        '(popped, h, m) ← PopBuf byte0 chunk0 len0 (heap e) m;
        let e := e <| heap := h |> <| modStreamIn := Some m |> in
        if (popped : bool) then
          let e := if msgType (ModPars m) =? e_v21 then e <| t30 := v21Begin (t30 e) |> else e in
          Some (true, e <| stateModem := stmInRecvData |>)
        else
          e ← delete_in e;
          Some (false, e <| stateModem := stmIdle |>)
    end.

Definition Recv (e : T38Engine) (count : Z) : option (Z * list Z * T38Engine) :=
  if negb (IsModemOpen e) then Some (-1, [], e)
  else if negb (bool_decide (stateModem e = stmInRecvData)) then Some (-1, [], e)
  else
    match modStreamIn e with
    | None => Some (-1, [], e)
    | Some m =>
        '(len, out, h, m) ← GetData (heap e) m count;
        let e := e <| heap := h |> <| modStreamIn := Some m |> in
        let t :=
          if msgType (ModPars m) =? e_v21 then
            if 0 <? len then v21Data (t30 e) out
            else if len <? 0 then v21End (t30 e)
            else t30 e
          else t30 e in
        Some (len, out, e <| t30 := t |>)
    end.

Definition RecvDiag (e : T38Engine) : option Z :=
  match modStreamIn e with
  | None => Some diagError
  | Some m =>
      match firstBuf m with
      | None => Some diagError
      | Some id => s ← pipes (heap e) !! id; Some (p_diag s)
      end
  end.

Definition RecvStop (e : T38Engine) : option T38Engine :=
  if negb (IsModemOpen e) then Some e
  else if negb (isStateModemIn (stateModem e)) then Some e
  else
    e ← match modStreamIn e with
        | None => Some e
        | Some m => '(_, h, m) ← DeleteFirstBuf (heap e) m; Some (e <| heap := h |> <| modStreamIn := Some m |>)
        end;
    Some (e <| stateModem := stmIdle |>).

(** ** Receiving, the packets *)

(** The steps of [HandlePacket] may return early, with [false]. *)
Definition step := T38Engine -> option (bool * T38Engine).

Definition go : step := fun e => Some (true, e).

(** [s1; s2] *)
Definition then_ (s1 s2 : step) : step := fun e =>
  '(on, e) ← s1 e;
  if (on : bool) then s2 e else Some (false, e).

(** The callback, and the return when it has closed the engine. *)
Definition call_back (hOwner : Z) (param : T38Engine -> Z) : step := fun e =>
  let e := callback (param e) e in
  Some (negb (closed_in hOwner e), e).

(** [if (stateModem == stmInWaitSilence) ...] *)
Definition end_silence (hOwner : Z) : step := fun e =>
  if bool_decide (stateModem e = stmInWaitSilence) then
    call_back hOwner callbackParamIn (e <| stateModem := stmIdle |>)
  else Some (true, e).

(** [if (stateModem == stmInRecvData) ...] *)
Definition data_callback (hOwner : Z) : step := fun e =>
  if bool_decide (stateModem e = stmInRecvData) then call_back hOwner callbackParamIn e else Some (true, e).

Definition OnUserInput (value : list Z) (e : T38Engine) : T38Engine :=
  match recvUserInput e with
  | Some s =>
      if pipe_full s then e
      else callback cbpUserInput (e <| recvUserInput := Some (pipe_put s value).2 |>)
  | None => e
  end.

(** A repeated indicator. *)
Definition repeated (type_of_msg : Z) (m : option ModStream) : bool :=
  writing m && match m with Some m => ind (ModPars m) =? type_of_msg | None => false end.

(** A signal begins: [case T38I(e_v21_preamble)] and those after it. *)
Definition begin_signal (hOwner type_of_msg : Z) : step := fun e =>
  let e := e <| isCarrierIn := 1 |> in
  let '(h, saved) := PushBuf (heap e) (ModStream_new byte0 chunk0 len0 (GetModPars type_of_msg by_ind)) in
  let e := e <| heap := h |> <| modStreamInSaved := Some saved |> <| countIn := 0 |> in
  if bool_decide (stateModem e = stmInWaitSilence) then end_silence hOwner e
  else if bool_decide (stateModem e = stmInWaitData) then
    e ← match modStreamIn e with
        | None => Some e
        | Some m => take_saved e m saved
        end;
    call_back hOwner callbackParamIn (e <| stateModem := stmInReadyData |>)
  else Some (true, e).

(** A signal cut off by an indicator. *)
Definition out_of_order (hOwner : Z) : step := fun e =>
  if writing (modStreamIn e) then
    e ← in_PutEof (diagOutOfOrder .| diagNoCarrier) e;
    data_callback hOwner e
  else Some (true, e).

(** What the indicator says: [switch (type_of_msg)]. *)
Definition indicated (hOwner type_of_msg : Z) : step := fun e =>
  if type_of_msg =? e_no_signal then end_silence hOwner (e <| isCarrierIn := 0 |>)
  else if type_of_msg =? e_ced then end_silence hOwner (OnUserInput [0x61] e <| isCarrierIn := 0 |>)
  else if type_of_msg =? e_cng then end_silence hOwner (OnUserInput [0x63] e <| isCarrierIn := 0 |>)
  else if (e_v21_preamble <=? type_of_msg) && (type_of_msg <=? e_v17_14400_long_training) then
    begin_signal hOwner type_of_msg e
  else Some (true, e).

Definition handle_indicator (hOwner type_of_msg : Z) : step := fun e =>
  if repeated type_of_msg (modStreamIn e) || repeated type_of_msg (modStreamInSaved e) then Some (true, e)
  else if writing (modStreamIn e) && firstIn e && (countIn e =? 0) && (type_of_msg =? e_no_signal) then Some (true, e)
  else
    then_ (out_of_order hOwner)
      (then_ (fun e => e ← delete_saved e; Some (true, e)) (indicated hOwner type_of_msg)) e.

(** Which stream the data goes to: the local variable [modStream]. *)
Inductive target := ToIn | ToSaved | Nowhere.

Definition target_stream (e : T38Engine) (t : target) : option ModStream :=
  match t with ToIn => modStreamIn e | ToSaved => modStreamInSaved e | Nowhere => None end.

Definition set_target (e : T38Engine) (t : target) (m : ModStream) : T38Engine :=
  match t with
  | ToIn => e <| modStreamIn := Some m |>
  | ToSaved => e <| modStreamInSaved := Some m |>
  | Nowhere => e
  end.

Definition data_target (e : T38Engine) : target :=
  if writing (modStreamIn e) then ToIn else if writing (modStreamInSaved e) then ToSaved else Nowhere.

(** [if (modStream != NULL) modStream->f (...)] *)
Definition on_target (t : target) (f : streams -> ModStream -> option (streams * ModStream)) (e : T38Engine) :
    option T38Engine :=
  match target_stream e t with
  | None => Some e
  | Some m => '(h, m) ← f (heap e) m; Some (set_target (e <| heap := h |>) t m)
  end.

Definition target_PutEof (t : target) (diag : Z) : T38Engine -> option T38Engine :=
  on_target t (fun h m => '(_, h, m) ← PutEof h m diag; Some (h, m)).
Definition target_SetDiag (t : target) (diag : Z) : T38Engine -> option T38Engine :=
  on_target t (fun h m => '(_, h) ← SetDiag h m diag; Some (h, m)).
Definition target_PutData (t : target) (buf : list Z) : T38Engine -> option T38Engine :=
  on_target t (fun h m => '(_, h) ← PutData h m buf; Some (h, m)).
Definition target_PushBuf (t : target) : T38Engine -> option T38Engine :=
  on_target t (fun h m => Some (PushBuf h m)).

Definition one_of (x : Z) (l : list Z) : bool := existsb (Z.eqb x) l.

(** The octets of a field: "Handle data". *)
Definition field_octets (t : target) (f : data_field) (e : T38Engine) : option T38Engine :=
  if (e_hdlc_data <=? field_type f) && (field_type f <=? e_t4_non_ecm_sig_end) then
    match field_data f with
    | None => Some e
    | Some buf =>
        e ← target_PutData t buf e;
        Some (e <| countIn := countIn e + zlen buf |>)
    end
  else Some e.

(** "Handle fcs" *)
Definition field_fcs (t : target) (f : data_field) (e : T38Engine) : option T38Engine :=
  e ← (if one_of (field_type f) [e_hdlc_fcs_BAD; e_hdlc_fcs_BAD_sig_end] then target_SetDiag t diagBadFcs e else Some e);
  if one_of (field_type f) [e_hdlc_fcs_BAD; e_hdlc_fcs_BAD_sig_end; e_hdlc_fcs_OK; e_hdlc_fcs_OK_sig_end] then
    e ← target_PutEof t 0 e;
    target_PushBuf t e
  else Some e.

(** "Handle sig_end"; returns what [modStream] is then. *)
Definition field_sig_end (hOwner : Z) (t : target) (f : data_field) (e : T38Engine) :
    option (bool * target * T38Engine) :=
  if one_of (field_type f) [e_t4_non_ecm_sig_end; e_hdlc_fcs_OK_sig_end; e_hdlc_fcs_BAD_sig_end; e_hdlc_sig_end] then
    e ← target_PutEof t diagNoCarrier e;
    '(on, e) ← end_silence hOwner (e <| isCarrierIn := 0 |>);
    Some (on, Nowhere, e)
  else Some (true, t, e).

Fixpoint handle_fields (hOwner : Z) (t : target) (fields : list data_field) (e : T38Engine) : option (bool * T38Engine) :=
  match fields with
  | [] => Some (true, e)
  | f :: fields =>
      e ← field_octets t f e;
      e ← field_fcs t f e;
      '(on, t, e) ← field_sig_end hOwner t f e;
      if (on : bool) then handle_fields hOwner t fields e else Some (false, e)
  end.

Definition handle_data (hOwner type_of_msg : Z) (fields : option (list data_field)) : step := fun e =>
  let t := data_target e in
  '(t, e) ← match target_stream e t with
            | Some m =>
                if negb (msgType (ModPars m) =? type_of_msg) then
                  e ← target_PutEof t (diagOutOfOrder .| diagNoCarrier) e;
                  Some (Nowhere, e)
                else Some (t, e)
            | None => Some (Nowhere, e)
            end;
  then_ (handle_fields hOwner t (default [] fields)) (data_callback hOwner) e.

Definition HandlePacket (hOwner : Z) (p : ifp) : step := fun e =>
  if closed_in hOwner e then Some (false, e)
  else
    then_ (match p with
           | Indicator type_of_msg => handle_indicator hOwner type_of_msg
           | Data type_of_msg fields => handle_data hOwner type_of_msg fields
           end)
      (fun e =>
         if negb (firstIn e) then call_back hOwner (fun _ => cbpUpdateState) (e <| firstIn := false |>)
         else Some (true, e)) e.

Definition HandlePacketLost (hOwner : Z) : step := fun e =>
  if closed_in hOwner e then Some (false, e)
  else
    let t := data_target e in
    e ← match target_stream e t with
        | Some m => if msgType (ModPars m) =? e_v21 then target_SetDiag t diagBadFcs e else Some e
        | None => Some e
        end;
    Some (true, e).

(** ** Sending, the packets *)

Definition msPerOut : Z := 30.

(** How a turn of [PreparePacket] ends: by a return, or with a packet or
    without, and then another turn ([redo]), a wait for data, or the return. *)
Inductive turn := TReturn (r : Z) | TGo (packet : option ifp) (redo waitData doDelay : bool).

Definition turns := option (turn * T38Engine).

(** The callback, the return when it has closed the engine, or [k]. *)
Definition out_callback (hOwner : Z) (param : Z) (e : T38Engine) (k : T38Engine -> turns) : turns :=
  let e := callback param e in
  if closed_out hOwner e then Some (TReturn 0, e) else k e.

Definition redo (e : T38Engine) : turns := Some (TGo None true false true, e).
Definition packet (p : ifp) (e : T38Engine) : turns := Some (TGo (Some p) false false true, e).
Definition wait_data (e : T38Engine) : turns := Some (TGo None false true true, e).
Definition bad (e : T38Engine) : turns := Some (TReturn 0, e).

(** [t38data] without octets, and with. *)
Definition t38data (type_ field_type : Z) : ifp := Data type_ (Some [{| field_type := field_type; field_data := None |}]).
Definition t38data_octets (type_ field_type : Z) (buf : list Z) : ifp :=
  Data type_ (Some [{| field_type := field_type; field_data := if 0 <? zlen buf then Some buf else None |}]).

(** The end of [case stOutIdle]. *)
Definition out_begin (e : T38Engine) : turns :=
  match dataTypeT38 (ModParsOut e) with
  | dtHdlc | dtRaw => packet (Indicator (ind (ModParsOut e))) (e <| stateOut := stOutIndWait |>)
  | dtCed => packet (Indicator (ind (ModParsOut e))) (e <| stateOut := stOutCedWait |>)
  | dtSilence => redo (e <| stateOut := stOutSilenceWait |>)
  | _ => bad e
  end.

(** How long a carrier of the other side holds the sending up. *)
Definition carrier_wait (d : DataType) : Z :=
  match d with dtHdlc => 500 | dtRaw => 2000 | _ => 0 end.

Definition out_idle (now : Z) (e : T38Engine) : turns :=
  if delaySignalOut e && negb (bool_decide (dataType (ModParsOut e) = dtSilence)) && (now <? timeBeginOut e) then redo e
  else
    let e := e <| delaySignalOut := false |> in
    let waitms := carrier_wait (dataType (ModParsOut e)) in
    if negb (isCarrierIn e =? 0) && negb (waitms =? 0) then
      if isCarrierIn e =? 1 then redo (e <| isCarrierIn := 2 |> <| timeBeginOut := now + waitms |>)
      else if now <? timeBeginOut e then redo e
      else out_begin (e <| isCarrierIn := 0 |>)
    else out_begin e.

(** [case stOutIndWait]; [hdlcOut.inData] points to [bufOut]. *)
Definition out_start (now : Z) (e : T38Engine) : turns :=
  let e := e <| stateOut := stOutData |> <| countOut := 0 |> <| startedTimeOutBufEmpty := false |>
             <| timeBeginOut := now |> <| hdlcOut := new_hdlc |> in
  let e := if msgType (ModParsOut e) =? e_v21 then e <| t30 := v21Begin (t30 e) |> else e in
  let bufOut_ptr := Some 1%positive in
  match dataType (ModParsOut e) with
  | dtHdlc | dtRaw =>
      let e := e <| hdlcOut := match dataType (ModParsOut e) with
                               | dtHdlc => PutHdlcData (hdlcOut e) bufOut_ptr
                               | _ => PutRawData (hdlcOut e) bufOut_ptr
                               end |> in
      match dataTypeT38 (ModParsOut e) with
      | dtHdlc => redo (e <| hdlcOut := GetHdlcStart (hdlcOut e) true |>)
      | dtRaw =>
          if bool_decide (dataType (ModParsOut e) = dtHdlc) then bad e
          else redo (e <| hdlcOut := GetRawStart (hdlcOut e) 0 |>)
      | _ => bad e
      end
  | _ => bad e
  end.

(** The size of a data packet. *)
Definition out_len (p : MODPARS) : Z :=
  let len := Z.quot (msPerOut * br p) (8 * 1000) in
  let size := Z.quot (msPerOut * 14400) (8 * 1000) in
  if size <? len then size else len.

(** [case 0] of the octets got. *)
Definition out_empty (hOwner now : Z) (e : T38Engine) : turns :=
  let last := getLastChar (hdlcOut e) in
  if negb (last =? -1) && (bool_decide (dataType (ModParsOut e) = dtHdlc) || negb (last =? 0)) then
    out_callback hOwner cbpOutBufEmpty e wait_data
  else if negb (startedTimeOutBufEmpty e) then
    wait_data (e <| timeOutBufEmpty := now + 5000 |> <| startedTimeOutBufEmpty := true |>)
  else if timeOutBufEmpty e <=? now then out_callback hOwner cbpOutBufEmpty e wait_data
  else wait_data e.

(** The octets got: [switch (count)]. *)
Definition out_octets (hOwner now : Z) (count : Z) (b : list Z) (e : T38Engine) : turns :=
  if count =? -1 then
    let e := e <| startedTimeOutBufEmpty := false |> in
    match dataTypeT38 (ModParsOut e) with
    | dtHdlc => redo (e <| stateOut := stOutHdlcFcs |>)
    | dtRaw => redo (e <| stateOut := stOutDataNoSig |>)
    | _ => bad e
    end
  else if count =? 0 then out_empty hOwner now e
  else
    let e := e <| startedTimeOutBufEmpty := false |> in
    let msg := msgType (ModParsOut e) in
    match dataTypeT38 (ModParsOut e) with
    | dtHdlc =>
        let e := if msg =? e_v21 then e <| t30 := v21Data (t30 e) b |> else e in
        packet (t38data_octets msg e_hdlc_data b) (e <| countOut := countOut e + count |>)
    | dtRaw => packet (t38data_octets msg e_t4_non_ecm_data b) (e <| countOut := countOut e + count |>)
    | _ => bad e
    end.

(** [if (wasFull && !bufOut.isFull()) ...], then [k]. *)
Definition no_more_full (hOwner : Z) (wasFull : bool) (e : T38Engine) (k : T38Engine -> turns) : turns :=
  if wasFull && negb (pipe_full (bufOut e)) then out_callback hOwner cbpOutBufNoFull e k else k e.

Definition out_data (hOwner now : Z) (e : T38Engine) : turns :=
  let wasFull := pipe_full (bufOut e) in
  '(count, b, h, s) ← PmHdlc.GetData (hdlcOut e) (bufOut e) (out_len (ModParsOut e));
  no_more_full hOwner wasFull (e <| hdlcOut := h |> <| bufOut := s |>) (out_octets hOwner now count b).

(** [case stOutHdlcFcs] *)
Definition out_fcs (hOwner : Z) (e : T38Engine) : turns :=
  let msg := msgType (ModParsOut e) in
  let e := if msg =? e_v21 then e <| t30 := v21Begin (v21End (t30 e)) |> else e in
  let emit (type_ : Z) := if negb (countOut e =? 0) then packet (t38data msg type_) else redo in
  match dataType (ModParsOut e) with
  | dtRaw =>
      let wasFull := pipe_full (bufOut e) in
      let emit := emit (if isFcsOK (hdlcOut e) then e_hdlc_fcs_OK else e_hdlc_fcs_BAD) in
      let h := GetHdlcStart (hdlcOut e) false in
      '(r, _, h, s) ← PmHdlc.GetData h (bufOut e) 0;
      let e := e <| countOut := 0 |> <| hdlcOut := h |> <| bufOut := s |>
                 <| stateOut := if negb (r =? -1) then stOutData else stOutDataNoSig |> in
      no_more_full hOwner wasFull e emit
  | _ =>
      if negb (bool_decide (stateModem e = stmOutNoMoreData)) then bad e
      else
        let emit := emit e_hdlc_fcs_OK in
        let e := e <| countOut := 0 |> <| bufOut := pipe_clean (bufOut e) |>
                   <| hdlcOut := GetHdlcStart (PutHdlcData (hdlcOut e) (Some 1%positive)) false |> in
        if moreFramesOut e then
          out_callback hOwner (callbackParamOut e) (e <| stateOut := stOutData |> <| stateModem := stmOutMoreData |>) emit
        else emit (e <| stateOut := stOutDataNoSig |>)
  end.

(** [case stOutDataNoSig] *)
Definition out_end (hOwner : Z) (e : T38Engine) : turns :=
  if negb (bool_decide (stateModem e = stmOutNoMoreData)) then bad e
  else
    let finish type_ :=
      out_callback hOwner (callbackParamOut e) (e <| stateOut := stOutNoSig |> <| stateModem := stmIdle |>)
        (packet (t38data (msgType (ModParsOut e)) type_)) in
    match dataTypeT38 (ModParsOut e) with
    | dtHdlc => finish e_hdlc_sig_end
    | dtRaw => finish e_t4_non_ecm_sig_end
    | _ => bad e
    end.

(** The switch on the state. *)
Definition out_turn (hOwner now : Z) (e : T38Engine) : turns :=
  if closed_out hOwner e then Some (TReturn 0, e)
  else if isStateModemOut (stateModem e) || negb (bool_decide (stateOut e = stOutIdle)) then
    match stateOut e with
    | stOutIdle => out_idle now e
    | stOutCedWait =>
        out_callback hOwner (callbackParamOut e) (e <| stateOut := stOutNoSig |> <| stateModem := stmIdle |>) redo
    | stOutSilenceWait =>
        out_callback hOwner (callbackParamOut e) (e <| stateOut := stOutIdle |> <| stateModem := stmIdle |>)
          (fun e => Some (TGo None true false false, e))
    | stOutIndWait => out_start now e
    | stOutData => out_data hOwner now e
    | stOutHdlcFcs => out_fcs hOwner e
    | stOutDataNoSig => out_end hOwner e
    | stOutNoSig =>
        packet (Indicator e_no_signal) (e <| stateOut := stOutIdle |> <| delaySignalOut := true |> <| timeBeginOut := now + 75 |>)
    end
  else
    let e' := e <| onIdleOut := dtNone |> in
    match onIdleOut e with
    | dtCng => packet (Indicator e_cng) e'
    | _ => wait_data e'
    end.

(** When the next turn is due: the switch after the inner loop; [None] for a
    division by zero. *)
Definition next_due (now : Z) (e : T38Engine) : option Z :=
  match stateOut e with
  | stOutIdle | stOutDataNoSig | stOutNoSig => Some (now + msPerOut)
  | stOutCedWait | stOutSilenceWait | stOutIndWait => Some (now + lenInd (ModParsOut e))
  | stOutData | stOutHdlcFcs =>
      if br (ModParsOut e) =? 0 then None
      else Some (timeBeginOut e + Z.quot (getRawCount (hdlcOut e) * 8 * 1000) (br (ModParsOut e)) + msPerOut)
  end.

(** Woken up with more data. *)
Definition after_wait (now : Z) (e : T38Engine) : T38Engine :=
  if bool_decide (stateOut e = stOutData) then
    e <| hdlcOut := resetRawCount (hdlcOut e) |> <| timeBeginOut := now - msPerOut |>
  else e.

(** The [assert] on the arguments apart. *)
Definition SetPreparePacketTimeout (e : T38Engine) (hOwner timeout period : Z) : T38Engine :=
  if negb (bool_decide (hOwnerOut e = Some hOwner)) then e
  else e <| preparePacketTimeout := timeout |> <| preparePacketPeriod := period |>.

(** A moment at which the thread of [PreparePacket] looks, woken from its sleep or
    its wait for data: the time, what the other threads have done to the state
    since, and whether a wait ended by the signal. *)
Record moment := {
  time : Z;
  others : T38Engine -> T38Engine;
  signalled : bool;
}.

(** What the thread is doing: about to sleep until the next turn is due, back
    from a part of that sleep, ready, or back from the wait for data, which may
    have had a timeout. *)
Inductive resting := Sleep | Slept | Ready | Woken (timed doDelay : bool).

Inductive prepared := Waiting | Returned (r : Z) (p : option ifp).

(** [preparePacketTimeout >= 0] and what follows: [-1] is returned. *)
Definition expired (now end_ : Z) (e : T38Engine) : bool :=
  (0 <=? preparePacketTimeout e) && ((preparePacketTimeout e =? 0) || (end_ <=? now)).

(** The loop of [PreparePacket], as far as the moments go. *)
Fixpoint prepare (clock : list moment) (hOwner end_ : Z) (at_ : resting) (e : T38Engine) : option (prepared * T38Engine) :=
  match clock with
  | [] => Some (Waiting, e)
  | m :: clock =>
      let now := time m in
      let e := others m e in
      if match at_ with Slept => closed_out hOwner e | _ => false end then Some (Returned 0 None, e)
      else if match at_ with Sleep | Slept => now <? timeDelayEndOut e | _ => false end then
        if expired now end_ e then Some (Returned (-1) None, e)
        else prepare clock hOwner end_ Slept e
      else if match at_ with Woken timed _ => timed && negb (signalled m) | _ => false end then
        Some (Returned (-1) None, e)
      else if closed_out hOwner e then Some (Returned 0 None, e)
      else
        let '(e, doDelay) :=
          match at_ with
          | Woken _ d => (after_wait now e, d && negb (bool_decide (stateOut e = stOutData)))
          | _ => (e, true)
          end in
        '(t, e) ← out_turn hOwner now e;
        match t with
        | TReturn r => Some (Returned r None, e)
        | TGo p redo waitData d =>
            let doDelay := doDelay && d in
            if (waitData : bool) then
              if expired now end_ e then Some (Returned (-1) None, e)
              else prepare clock hOwner end_ (Woken (0 <=? preparePacketTimeout e) doDelay) e
            else
              due ← next_due now e;
              let e := e <| timeDelayEndOut := due |> in
              if (redo : bool) then prepare clock hOwner end_ (if doDelay then Sleep else Ready) e
              else Some (Returned 1 p, e)
        end
  end.

(** [start] is the time of the call; the delay of a period takes the first moment. *)
Definition PreparePacket (start : Z) (clock : list moment) (hOwner : Z) (e : T38Engine) : option (prepared * T38Engine) :=
  if closed_out hOwner e then Some (Returned 0 None, e)
  else
    let e := if firstOut e then callback cbpUpdateState (e <| firstOut := false |>) else e in
    if closed_out hOwner e then Some (Returned 0 None, e)
    else
      let end_ := if 0 <? preparePacketTimeout e then start + preparePacketTimeout e else 0 in
      if 0 <? preparePacketPeriod e then
        match clock with
        | [] => Some (Waiting, e)
        | m :: clock =>
            let e := others m e in
            if closed_out hOwner e then Some (Returned 0 None, e) else prepare clock hOwner end_ Sleep e
        end
      else prepare clock hOwner end_ Sleep e.

(** ** Owners, and the modem attached (enginebase.cxx) *)

Definition OnResetModemState (e : T38Engine) : option T38Engine :=
  e ← match modStreamIn e with
      | None => Some e
      | Some m => '(_, h, m) ← DeleteFirstBuf (heap e) m; Some (e <| heap := h |> <| modStreamIn := Some m |>)
      end;
  let e := e <| bufOut := pipe_put_eof (bufOut e) |> in
  let e := if isStateModemOut (stateModem e) then e else e <| stateModem := stmIdle |> in
  Some (e <| onIdleOut := dtNone |> <| callbackParamIn := cbpReset |> <| callbackParamOut := cbpReset |>).

Definition Attach (e : T38Engine) (cb : Z) : option (bool * T38Engine) :=
  match modemCallback e with
  | Some _ => Some (false, e)
  | None =>
      e ← OnResetModemState (e <| modemCallback := Some cb |>);
      Some (true, e)
  end.

Definition OnChangeModemClass (e : T38Engine) : T38Engine :=
  match modemClass e with
  | mcAudio => match recvUserInput e with None => e <| recvUserInput := Some (pipe_new 64) |> | Some _ => e end
  | _ => e <| recvUserInput := None |>
  end.

Definition Detach (e : T38Engine) (cb : Z) : option T38Engine :=
  if negb (bool_decide (modemCallback e = Some cb)) then Some e
  else OnResetModemState (OnChangeModemClass (e <| modemCallback := None |> <| modemClass := mcUndefined |>)).

Definition ResetModemState (e : T38Engine) : option T38Engine := OnResetModemState e.

Definition ChangeModemClass (e : T38Engine) (c : ModemClass) : T38Engine :=
  if bool_decide (modemClass e = c) then e else OnChangeModemClass (e <| modemClass := c |>).

Definition WriteUserInput (e : T38Engine) (value : list Z) : T38Engine := OnUserInput value e.

Definition RecvUserInput (e : T38Engine) (count : Z) : Z * list Z * T38Engine :=
  match recvUserInput e with
  | None => (-1, [], e)
  | Some s => let '(r, out, s) := pipe_get s count in (r, out, e <| recvUserInput := Some s |>)
  end.

(** The loops close whoever has opened, [fuel] times at most: the callback could
    open again and again. *)
Fixpoint OpenIn (fuel : nat) (e : T38Engine) (hOwner : Z) (fake : bool) : option T38Engine :=
  match hOwnerIn e with
  | None => Some (callback cbpUpdateState (e <| hOwnerIn := Some hOwner |> <| isFakeOwnerIn := fake |> <| firstIn := true |>))
  | Some o =>
      if o =? hOwner then Some e
      else if fake then Some e
      else
        match fuel with
        | O => None
        | S fuel => OpenIn fuel (callback cbpUpdateState (e <| hOwnerIn := None |>)) hOwner fake
        end
  end.

Fixpoint OpenOut (fuel : nat) (e : T38Engine) (hOwner : Z) (fake : bool) : option T38Engine :=
  match hOwnerOut e with
  | None => Some (callback cbpUpdateState (e <| hOwnerOut := Some hOwner |> <| isFakeOwnerOut := fake |> <| firstOut := true |>))
  | Some o =>
      if o =? hOwner then Some e
      else if fake then Some e
      else
        match fuel with
        | O => None
        | S fuel => OpenOut fuel (callback cbpUpdateState (e <| hOwnerOut := None |>)) hOwner fake
        end
  end.

Definition CloseIn (e : T38Engine) (hOwner : Z) : T38Engine :=
  if bool_decide (hOwnerIn e = Some hOwner) then
    let e := if negb (isFakeOwnerIn e) then e <| isEnableFakeIn := false |> else e in
    callback cbpUpdateState (e <| hOwnerIn := None |>)
  else e.

Definition CloseOut (e : T38Engine) (hOwner : Z) : T38Engine :=
  if bool_decide (hOwnerOut e = Some hOwner) then
    let e := if negb (isFakeOwnerOut e) then e <| isEnableFakeOut := false |> else e in
    callback cbpUpdateState (e <| hOwnerOut := None |>)
  else e.

(** The part of [OnChangeEnableFakeIn] in the base class. *)
Definition close_fake_in (e : T38Engine) : T38Engine :=
  if negb (isEnableFakeIn e) && bool_decide (is_Some (hOwnerIn e)) && isFakeOwnerIn e then
    callback cbpUpdateState (e <| hOwnerIn := None |>)
  else e.

(** [IsOpenIn() || !isEnableFakeIn] *)
Definition not_fake_in (e : T38Engine) : bool := bool_decide (is_Some (hOwnerIn e)) || negb (isEnableFakeIn e).

Definition OnChangeEnableFakeIn (e : T38Engine) : option T38Engine :=
  let e := close_fake_in e in
  if not_fake_in e then Some e
  else
    e ← delete_saved (e <| isCarrierIn := 0 |>);
    '(on, e) ← (if writing (modStreamIn e) then
                  e ← in_PutEof ((if countIn e =? 0 then 0 else diagOutOfOrder) .| diagNoCarrier) e;
                  if bool_decide (stateModem e = stmInRecvData) then
                    let e := callback (callbackParamIn e) e in Some (negb (not_fake_in e), e)
                  else Some (true, e)
                else Some (true, e));
    if negb (on : bool) then Some e
    else if bool_decide (stateModem e = stmInWaitSilence) then
      let e := e <| stateModem := stmIdle |> in Some (callback (callbackParamIn e) e)
    else Some e.

Definition EnableFakeIn (e : T38Engine) (enable : bool) : option T38Engine :=
  if eqb (isEnableFakeIn e) enable then Some e
  else OnChangeEnableFakeIn (e <| isEnableFakeIn := enable |>).

(** Whether a thread that prepares packets for nobody is started. *)
Definition OnChangeEnableFakeOut (e : T38Engine) : bool * T38Engine :=
  let e :=
    if negb (isEnableFakeOut e) && bool_decide (is_Some (hOwnerOut e)) && isFakeOwnerOut e then
      callback cbpUpdateState (e <| hOwnerOut := None |>)
    else e in
  if bool_decide (is_Some (hOwnerOut e)) || negb (isEnableFakeOut e) then (false, e)
  else (isStateModemOut (stateModem e), e).

(** The thread: packets for nobody until [PreparePacket] returns 0; [calls] are
    the times and moments of its calls. *)
Fixpoint fake_loop (calls : list (Z * list moment)) (hOwner : Z) (e : T38Engine) : option T38Engine :=
  match calls with
  | [] => Some e
  | (start, clock) :: calls =>
      '(r, e) ← PreparePacket start clock hOwner e;
      match r with
      | Returned r _ => if r =? 0 then Some (CloseOut e hOwner) else fake_loop calls hOwner e
      | Waiting => Some e
      end
  end.

Definition FakePreparePacketThread_Main (fuel : nat) (calls : list (Z * list moment)) (hOwner : Z) (e : T38Engine) :
    option T38Engine :=
  e ← OpenOut fuel e hOwner true;
  fake_loop calls hOwner (SetPreparePacketTimeout e hOwner (-1) (-1)).

Definition EnableFakeOut (e : T38Engine) (enable : bool) : bool * T38Engine :=
  if eqb (isEnableFakeOut e) enable then (false, e)
  else OnChangeEnableFakeOut (e <| isEnableFakeOut := enable |>).
End engine.
