(* ===== verification/T38EngineSafe.v ===== *)
(** * The T.38 engine never uses a deleted stream and never loses one

    Every call of the engine, on a state that is sound, returns and leaves it
    sound: the streams in the heap are exactly those of the two signals, the
    sender's state agrees with the modem's, and the rate the sender divides by is
    not zero.  The modem's callback and the other threads are assumed to do the
    same, and to leave the sender's state to [PreparePacket]; every other call does,
    so that the assumption holds for a modem that calls the engine. *)
From stdpp Require Import gmap.
From S2P Require Import Prelude DataStream EngineBase PmHdlc T30 PmHdlcTotal ModStream T38Engine.

(** ** Results *)

Definition returns {A} (P : A -> Prop) (r : option A) : Prop := exists a, r = Some a /\ P a.

Lemma returns_some {A} (P : A -> Prop) a : P a -> returns P (Some a).
Proof. by exists a. Qed.

Lemma returns_bind {A B} (P : A -> Prop) (Q : B -> Prop) r k :
  returns P r -> (forall a, P a -> returns Q (k a)) -> returns Q (r ≫= k).
Proof. intros (a & -> & H) K. by apply K. Qed.

Lemma returns_impl {A} (P Q : A -> Prop) r : returns P r -> (forall a, P a -> Q a) -> returns Q r.
Proof. intros (a & -> & H) K. exists a. auto. Qed.

(** ** Sound states *)

Definition has (m : option ModStream) (l : owned) : Prop :=
  match m with None => l = [] | Some m => holds m l end.

(** The heap holds the streams of the two signals, and nothing else. *)
Definition streams_ok (h : streams) (m saved : option ModStream) : Prop :=
  exists l1 l2, owns h (l1 ++ l2) /\ has m l1 /\ has saved l2.

Definition at_rest (st : StateOut) : bool := match st with stOutIdle | stOutNoSig => true | _ => false end.
Definition waits (st : StateOut) : bool := match st with stOutCedWait | stOutSilenceWait => true | _ => false end.

Definition over_t38 (p : MODPARS) : bool := match dataTypeT38 p with dtHdlc | dtRaw => true | _ => false end.

Record sending_ok (st : StateOut) (sm : StateModem) (p : MODPARS) (h : HDLC) : Prop := {
  ok_hdlc : inDataType h = dtHdlc -> outDataType h <> dtRaw;
  ok_modem : at_rest st = false -> isStateModemOut sm = true;
  ok_rate : isStateModemOut sm = true -> over_t38 p = true -> 0 < br p;
  ok_type : at_rest st = false -> waits st = false -> over_t38 p = true;
}.

Record engine_ok (e : T38Engine) : Prop := {
  ok_streams : streams_ok (heap e) (modStreamIn e) (modStreamInSaved e);
  ok_sending : sending_ok (stateOut e) (stateModem e) (ModParsOut e) (hdlcOut e);
}.

(** Sound, with the sender where it was. *)
Definition good (st : StateOut) (e : T38Engine) : Prop := engine_ok e /\ stateOut e = st.

(** The same streams and the same sender. *)
Lemma good_core st e e' : good st e ->
  heap e' = heap e -> modStreamIn e' = modStreamIn e -> modStreamInSaved e' = modStreamInSaved e ->
  stateOut e' = stateOut e -> stateModem e' = stateModem e -> ModParsOut e' = ModParsOut e -> hdlcOut e' = hdlcOut e ->
  good st e'.
Proof.
  intros [[A B] C] E1 E2 E3 E4 E5 E6 E7. split; [|by rewrite E4]. split; [by rewrite E1, E2, E3|].
  by rewrite E4, E5, E6, E7.
Qed.

Ltac same_core := eapply good_core; [eassumption|reflexivity..].

(** While the modem is not sending it may start to, or do something else. *)
Lemma sending_ok_idle st sm sm' p p' h : sending_ok st sm p h -> isStateModemOut sm = false ->
  (isStateModemOut sm' = true -> over_t38 p' = true -> 0 < br p') -> sending_ok st sm' p' h.
Proof.
  intros [A B C D] E K. assert (at_rest st = true) as R.
  { destruct (at_rest st); [done|]. by rewrite B in E. }
  split; [done| |done|]; rewrite R; done.
Qed.

Lemma streams_ok_new : streams_ok no_streams None None.
Proof. exists [], []. split; [|done]. by split; [constructor| |constructor]. Qed.

Section engine.
Context (byte0 chunk0 len0 : Z) (modem : Z -> T38Engine -> T38Engine).

Lemma engine_ok_new now : engine_ok (T38Engine_new byte0 chunk0 len0 now).
Proof. split; [exact streams_ok_new|]. by split. Qed.

(** What the modem and the other threads may do. *)
Hypothesis modem_ok : forall p e, engine_ok e -> engine_ok (modem p e) /\ stateOut (modem p e) = stateOut e.

Lemma callback_good st p e : good st e -> good st (callback modem p e).
Proof.
  intros [H E]. unfold callback. destruct (modemCallback e); [|done].
  destruct (modem_ok p e H) as [A B]. split; [done|by rewrite B].
Qed.

(** ** Signals of a state *)

Lemma streams_ok_swap h m saved : streams_ok h m saved -> streams_ok h saved m.
Proof. intros (l1 & l2 & S & A & B). exists l2, l1. split; [|done]. by rewrite (Permutation_app_comm l2 l1). Qed.

Lemma delete_ok h m saved : streams_ok h (Some m) saved ->
  returns (fun h' => streams_ok h' None saved) (ModStream_delete h m).
Proof.
  intros (l1 & l2 & S & A & B). destruct (ModStream_delete_spec h m l1 l2 S A) as (h' & -> & S').
  apply returns_some. exists [], l2. done.
Qed.

Lemma PushBuf_ok h m saved : streams_ok h (Some m) saved ->
  streams_ok (PushBuf h m).1 (Some (PushBuf h m).2) saved.
Proof.
  intros (l1 & l2 & S & A & B). pose proof (PushBuf_spec h m l1 l2 S A) as H. destruct (PushBuf h m) as [h' m'].
  destruct H as (S' & H' & _). by exists (l1 ++ [(next h, pipe_new 0)]), l2.
Qed.

Lemma PutEof_ok h m saved d : streams_ok h (Some m) saved ->
  returns (fun '(_, h', m') => streams_ok h' (Some m') saved) (PutEof h m d).
Proof.
  intros (l1 & l2 & S & A & B). destruct (lastBuf m) as [id|] eqn:E.
  - destruct (holds_last _ _ A id E) as (l & p & -> & _).
    destruct (PutEof_spec h m l id p l2 d S A E) as (h' & -> & S' & A'). apply returns_some. by eexists _, l2.
  - unfold PutEof. rewrite E. apply returns_some. by exists l1, l2.
Qed.

Lemma SetDiag_ok h m saved d : streams_ok h (Some m) saved ->
  returns (fun '(_, h') => streams_ok h' (Some m) saved) (SetDiag h m d).
Proof.
  intros (l1 & l2 & S & A & B). destruct (lastBuf m) as [id|] eqn:E.
  - destruct (holds_last _ _ A id E) as (l & p & -> & _).
    destruct (SetDiag_spec h m l id p l2 d S A E) as (h' & -> & S' & A'). apply returns_some. by eexists _, l2.
  - unfold SetDiag. rewrite E. apply returns_some. by exists l1, l2.
Qed.

Lemma PutData_ok h m saved buf : streams_ok h (Some m) saved ->
  returns (fun '(_, h') => streams_ok h' (Some m) saved) (PutData h m buf).
Proof.
  intros (l1 & l2 & S & A & B). destruct (lastBuf m) as [id|] eqn:E.
  - destruct (holds_last _ _ A id E) as (l & p & -> & _).
    destruct (PutData_spec h m l id p l2 buf S A E) as (h' & -> & S' & A'). apply returns_some. by eexists _, l2.
  - unfold PutData. rewrite E. apply returns_some. by exists l1, l2.
Qed.

Lemma DeleteFirstBuf_ok h m saved : streams_ok h (Some m) saved ->
  returns (fun '(_, h', m') => streams_ok h' (Some m') saved /\ firstBuf m' = None) (DeleteFirstBuf h m).
Proof.
  intros (l1 & l2 & S & A & B).
  destruct (DeleteFirstBuf_spec h m l1 l2 S A) as (b & h' & m' & l' & -> & S' & A' & E & _).
  apply returns_some. split; [by exists l', l2|done].
Qed.

Lemma PopBuf_ok h m saved : streams_ok h (Some m) saved ->
  returns (fun '(_, h', m') => streams_ok h' (Some m') saved) (PopBuf byte0 chunk0 len0 h m).
Proof.
  intros (l1 & l2 & S & A & B).
  destruct (PopBuf_spec byte0 chunk0 len0 h m l1 l2 S A) as (b & h' & m' & l' & -> & S' & A' & _).
  apply returns_some. by exists l', l2.
Qed.

Lemma GetData_ok h m saved count : streams_ok h (Some m) saved -> 0 <= count ->
  returns (fun '(_, _, h', m') => streams_ok h' (Some m') saved) (ModStream.GetData h m count).
Proof.
  intros (l1 & l2 & S & A & B) Hc.
  destruct (GetData_spec h m l1 l2 count S A Hc) as (len & out & h' & m' & l' & -> & S' & A' & _).
  apply returns_some. by exists l', l2.
Qed.

Lemma Move_ok h m saved : streams_ok h (Some m) (Some saved) ->
  streams_ok h (Some (Move m saved).1) (Some (Move m saved).2).
Proof.
  intros (l1 & l2 & S & A & B). destruct (Move_spec m saved l1 l2 A B) as (A' & B' & _).
  exists (l1 ++ l2), []. split; [|done]. by rewrite app_nil_r.
Qed.

Lemma new_ok h saved p : streams_ok h None saved -> streams_ok h (Some (ModStream_new byte0 chunk0 len0 p)) saved.
Proof. intros (l1 & l2 & S & -> & B). exists [], l2. split; [done|]. split; [apply holds_nil|done]. Qed.

(** Only the streams change. *)
Record quiet (e e' : T38Engine) : Prop := {
  quiet_streams : streams_ok (heap e') (modStreamIn e') (modStreamInSaved e');
  quiet_out : stateOut e' = stateOut e;
  quiet_modem : stateModem e' = stateModem e;
  quiet_mods : ModParsOut e' = ModParsOut e;
  quiet_hdlc : hdlcOut e' = hdlcOut e;
}.

Lemma quiet_good st e e' : good st e -> quiet e e' -> good st e'.
Proof. intros [[A B] C] [Q E1 E2 E3 E4]. split; [|by rewrite E1]. split; [done|]. by rewrite E1, E2, E3, E4. Qed.

Lemma quiet_refl st e : good st e -> quiet e e.
Proof. by intros [[A _] _]. Qed.

Lemma delete_in_quiet st e : good st e -> returns (fun e' => quiet e e' /\ modStreamIn e' = None) (delete_in e).
Proof.
  intros G. pose proof G as [[A _] _]. unfold delete_in. destruct (modStreamIn e) as [m|] eqn:E.
  - eapply returns_bind; [by apply delete_ok|]. intros h H. apply returns_some. done.
  - apply returns_some. split; [by apply (quiet_refl st)|done].
Qed.

Lemma delete_saved_quiet st e : good st e -> returns (fun e' => quiet e e' /\ modStreamInSaved e' = None /\ modStreamIn e' = modStreamIn e) (delete_saved e).
Proof.
  intros G. pose proof G as [[A _] _]. unfold delete_saved. destruct (modStreamInSaved e) as [m|] eqn:E.
  - eapply returns_bind; [apply delete_ok; by apply streams_ok_swap|]. intros h H. apply returns_some.
    split; [|done]. split; try done. by apply streams_ok_swap.
  - apply returns_some. split; [by apply (quiet_refl st)|done].
Qed.

Lemma destructor_empties e : engine_ok e -> returns (fun h => pipes h = ∅) (T38Engine_delete e).
Proof.
  intros [S _]. unfold T38Engine_delete.
  eapply (returns_bind (fun h => streams_ok h None (modStreamInSaved e))).
  - destruct (modStreamIn e); [by apply delete_ok|by apply returns_some].
  - intros h S'. apply streams_ok_swap in S'. eapply (returns_impl (fun h => streams_ok h None None)).
    + destruct (modStreamInSaved e); [by apply delete_ok|by apply returns_some].
    + intros h' (l1 & l2 & [_ E _] & -> & ->). exact E.
Qed.

(** An operation on the stream of the modem. *)
Lemma on_in_quiet {A} st e m (f : streams -> ModStream -> option (A * streams * ModStream)) :
  good st e -> modStreamIn e = Some m ->
  (streams_ok (heap e) (Some m) (modStreamInSaved e) ->
     returns (fun '(_, h, m') => streams_ok h (Some m') (modStreamInSaved e)) (f (heap e) m)) ->
  returns (fun '(_, h, m') => quiet e (e <| heap := h |> <| modStreamIn := Some m' |>)) (f (heap e) m).
Proof.
  intros [[S _] _] E K. rewrite E in S. eapply returns_impl; [by apply K|]. by intros [[a h] m'] H.
Qed.

Lemma GetModPars_rate key b : IsModValid (GetModPars key b) = true -> 0 < br (GetModPars key b).
Proof.
  unfold GetModPars. destruct (find _ mods) as [m|] eqn:E; [|done]. intros _. apply find_some in E as [E _].
  revert m E. apply List.Forall_forall. by_decide.
Qed.

(** ** The modem's calls *)

Lemma SendStart_good st e d param : good st e -> returns (fun x => good st x.2) (SendStart e d param).
Proof.
  intros G. unfold SendStart. destruct (negb (IsModemOpen e)); [by apply returns_some|].
  destruct (bool_decide (stateModem e = stmIdle)) eqn:Ei; cbn [negb]; [|by apply returns_some].
  apply bool_decide_eq_true in Ei.
  eapply returns_bind; [by eapply delete_in_quiet|]. intros e1 [Q1 _]. pose proof (quiet_good _ _ _ G Q1) as G1.
  eapply (returns_bind (fun e2 => quiet e1 e2)).
  { destruct (negb _); [|apply returns_some; by eapply quiet_refl].
    eapply returns_impl; [by eapply delete_saved_quiet|]. by intros e2 [H _]. }
  intros e2 Q2. pose proof (quiet_good _ _ _ G1 Q2) as [[A B] C].
  assert (stateModem e2 = stmIdle) as Em by (by rewrite (quiet_modem _ _ Q2), (quiet_modem _ _ Q1)).
  rewrite Em in B. clear Q2 Q1 G1 G Ei e1 e.
  assert (forall sm p, (isStateModemOut sm = true -> over_t38 p = true -> 0 < br p) ->
    sending_ok (stateOut e2) sm p (hdlcOut e2)) as K by (intros; by eapply sending_ok_idle).
  set (e3 := e2 <| ModParsOut := invalidMods |>).
  assert (engine_ok e3) as A3 by (split; [exact A|]; apply (K (stateModem e2)); by rewrite Em).
  assert (forall p b, (over_t38 p = true -> 0 < br p) -> returns (fun x => good st x.2)
    (Some (b : bool, e3 <| ModParsOut := p |> <| bufOut := pipe_clean (bufOut e3) |> <| stateModem := stmOutMoreData |>))) as K'.
  { intros p b H. apply returns_some. split; [|exact C]. split; [exact A|]. by apply (K stmOutMoreData). }
  destruct d; try (apply returns_some; split; [exact A3|exact C]); try (apply K'; done).
  - set (p := GetModPars param by_val). destruct (IsModValid _) eqn:Ev.
    + apply K'. intros _. exact (GetModPars_rate _ _ Ev).
    + apply returns_some. split; [|exact C]. split; [exact A|]. apply (K (stateModem e2)). by rewrite Em.
  - set (p := GetModPars param by_val). destruct (IsModValid _) eqn:Ev.
    + apply K'. intros _. exact (GetModPars_rate _ _ Ev).
    + apply returns_some. split; [|exact C]. split; [exact A|]. apply (K (stateModem e2)). by rewrite Em.
Qed.

Lemma Send_good st e buf : good st e -> good st (Send e buf).2.
Proof.
  intros G. unfold Send. destruct (negb _); [done|]. destruct (negb _); [done|].
  destruct (pipe_put (bufOut e) buf) as [res s]. same_core.
Qed.

Lemma SendStop_good st e more param : good st e -> good st (SendStop e more param).2.
Proof.
  intros G. unfold SendStop. destruct (negb _); [done|].
  destruct (bool_decide (stateModem e = stmOutMoreData)) eqn:E; cbn [negb]; [|done]. apply bool_decide_eq_true in E.
  destruct G as [[A [B1 B2 B3 B4]] C]. split; [|exact C]. split; [exact A|]. rewrite E in *. by split.
Qed.

(** The modem stops sending or starts to receive; its streams are what they are. *)
Lemma good_set_modem st e sm : good st e -> isStateModemOut (stateModem e) = false -> isStateModemOut sm = false ->
  good st (e <| stateModem := sm |>).
Proof.
  intros [[A B] C] E1 E2. split; [|exact C]. split; [exact A|].
  apply (sending_ok_idle _ _ sm _ (ModParsOut e) _ B E1). by rewrite E2.
Qed.

Lemma good_set_in st e h m : good st e -> streams_ok h m (modStreamInSaved e) ->
  good st (e <| heap := h |> <| modStreamIn := m |>).
Proof. intros [[A B] C] S. split; [|exact C]. by split. Qed.

Lemma good_set_saved st e h m : good st e -> streams_ok h (modStreamIn e) m ->
  good st (e <| heap := h |> <| modStreamInSaved := m |>).
Proof. intros [[A B] C] S. split; [|exact C]. by split. Qed.

(** A new type of data, as long as no stream is being read. *)
Lemma receive_as_ok e d h m saved : streams_ok h (Some m) saved -> firstBuf m = None ->
  streams_ok h (Some (receive_as e d m)) saved.
Proof.
  intros (l1 & l2 & S & [I L W] & B) E. exists l1, l2. split; [exact S|]. split; [|exact B]. split; [exact I|exact L|].
  intros _ id H. by change (firstBuf m = Some id) in H; rewrite E in H.
Qed.

Lemma reuse_in_good st e p : good st e ->
  returns (fun '(b, e') => quiet e e' /\
    if (b : bool) then exists m, modStreamIn e' = Some m /\ firstBuf m = None else modStreamIn e' = None) (reuse_in e p).
Proof.
  intros G. unfold reuse_in. destruct (modStreamIn e) as [m|] eqn:E.
  2: { apply returns_some. split; [by apply (quiet_refl st)|done]. }
  pose proof G as [[S _] _]. rewrite E in S.
  eapply returns_bind; [by apply DeleteFirstBuf_ok|]. intros [[b h] m'] [S' Ef].
  set (e1 := e <| heap := h |> <| modStreamIn := Some m' |>). assert (quiet e e1) as Q1 by done.
  destruct (_ && _); [apply returns_some; split; [done|by exists m']|].
  eapply returns_bind; [exact (delete_in_quiet st e1 (quiet_good _ _ _ G Q1))|]. intros e2 [Q2 E2]. apply returns_some.
  split; [|done]. destruct Q2 as [A B C D F]. by split.
Qed.

(** The signal that came before the modem waited for one, into the new stream [m]. *)
Lemma take_saved_good st e m saved : good st e -> modStreamIn e = None -> modStreamInSaved e = Some saved ->
  firstBuf m = None -> bufQ m = [] -> lastBuf m = None -> returns (fun e' => quiet e e') (take_saved e m saved).
Proof. unfold take_saved.
  intros G E1 E2 F1 F2 F3. pose proof G as [[S B] C]. rewrite E1, E2 in S.
  assert (streams_ok (heap e) (Some m) (Some saved)) as S1.
  { destruct S as (l1 & l2 & H & -> & H2). exists [], l2. split; [done|]. split; [|done].
    split; [by unfold ids_of; rewrite F1, F2|by rewrite F3|by rewrite F1]. }
  destruct (IsEqual _ _).
  - pose proof (Move_ok _ _ _ S1) as S2. destruct (Move m saved) as [m2 saved2].
    set (e1 := e <| modStreamIn := Some m2 |> <| modStreamInSaved := Some saved2 |>).
    eapply returns_impl; [apply (delete_saved_quiet st e1)|].
    + split; [by split|exact C].
    + intros e2 [[Q1 Q2 Q3 Q4 Q5] _]. by split.
  - pose proof (PushBuf_ok _ _ _ S1) as S2. destruct (PushBuf (heap e) m) as [h m2].
    eapply returns_bind; [by apply PutEof_ok|]. intros [[b h'] m'] S3. apply returns_some. split; try done. cbn.
    by rewrite E2.
Qed.

Lemma idle_not_out e : stateModem e = stmIdle -> isStateModemOut (stateModem e) = false.
Proof. by intros ->. Qed.

Lemma wait_signal_good st e d param cb : good st e -> stateModem e = stmIdle ->
  returns (fun x => good st x.2) (wait_signal byte0 chunk0 len0 e d param cb).
Proof.
  intros G Ei. unfold wait_signal. destruct (negb _); [by apply returns_some|].
  set (e0 := e <| callbackParamIn := cb |>). assert (good st e0) as G0 by same_core.
  eapply returns_bind; [by apply (reuse_in_good st)|]. intros [reused e1] [Q1 H1].
  pose proof (quiet_good _ _ _ G0 Q1) as G1.
  assert (stateModem e1 = stmIdle) as E1 by (by rewrite (quiet_modem _ _ Q1)).
  pose proof G1 as [[S1 B1] C1]. destruct reused.
  - destruct H1 as (m & Em & Ef). rewrite Em in *. cbn [mbind option_bind]. apply returns_some.
    apply (good_set_modem st (e1 <| modStreamIn := Some (receive_as e1 d m) |>)); [|by apply idle_not_out|done].
    apply (good_set_in st e1 (heap e1) (Some (receive_as e1 d m)) G1). by apply receive_as_ok.
  - set (m := receive_as e1 d _). destruct (modStreamInSaved e1) as [saved|] eqn:Es.
    + eapply returns_bind; [by apply (take_saved_good st e1 m saved)|]. intros e2 Q2. apply returns_some.
      apply good_set_modem; [by eapply quiet_good| |done]. apply idle_not_out. by rewrite (quiet_modem _ _ Q2).
    + apply returns_some. apply (good_set_modem st (e1 <| modStreamIn := Some m |>)); [|by apply idle_not_out|done].
      apply (good_set_in st e1 (heap e1) (Some m) G1). rewrite H1 in S1. rewrite Es.
      apply receive_as_ok; [by apply new_ok|done].
Qed.

Lemma RecvWait_good st e d param cb : good st e -> returns (fun x => good st x.2) (RecvWait byte0 chunk0 len0 e d param cb).
Proof.
  intros G. unfold RecvWait. destruct (negb (IsModemOpen e)); [by apply returns_some|].
  destruct (bool_decide (stateModem e = stmIdle)) eqn:Ei; cbn [negb]; [|by apply returns_some].
  apply bool_decide_eq_true in Ei. destruct d; try by apply returns_some.
  - destruct (modStreamIn e) as [m|]; [|by apply returns_some].
    eapply returns_bind; [by eapply delete_in_quiet|]. intros e1 [Q1 _]. pose proof (quiet_good _ _ _ G Q1) as G1.
    destruct (_ && _); [|by apply returns_some]. apply returns_some.
    apply (good_set_modem st (e1 <| callbackParamIn := cb |>)); [same_core| |done].
    apply idle_not_out. etrans; [exact (quiet_modem _ _ Q1)|exact Ei].
  - by apply wait_signal_good.
  - by apply wait_signal_good.
Qed.

Lemma RecvStart_good st e cb : good st e -> returns (fun x => good st x.2) (RecvStart byte0 chunk0 len0 e cb).
Proof.
  intros G. unfold RecvStart. destruct (negb (IsModemOpen e)); [by apply returns_some|].
  destruct (bool_decide (stateModem e = stmInReadyData)) eqn:Ei; cbn [negb]; [|by apply returns_some].
  apply bool_decide_eq_true in Ei.
  set (e0 := e <| callbackParamIn := cb |>). assert (good st e0) as G0 by same_core.
  assert (stateModem e0 = stmInReadyData) as E0 by done. clearbody e0. clear G Ei e.
  assert (isStateModemOut (stateModem e0) = false) as Eo by (by rewrite E0).
  pose proof G0 as [[S B] C]. destruct (modStreamIn e0) as [m|] eqn:Em.
  2: { apply returns_some. by apply good_set_modem. }
  eapply returns_bind; [by apply PopBuf_ok|]. intros [[b h] m'] S'.
  set (e1 := e0 <| heap := h |> <| modStreamIn := Some m' |>).
  assert (good st e1) as G1 by (by apply good_set_in). destruct b.
  - apply returns_some.
    set (e2 := if msgType (ModPars m') =? e_v21 then e1 <| t30 := v21Begin (t30 e1) |> else e1). assert (good st e2 /\ stateModem e2 = stateModem e0) as [G2 E2].
    { unfold e2. destruct (_ =? _); [|done]. split; [same_core|done]. }
    apply good_set_modem; [done|by rewrite E2|done].
  - eapply returns_bind; [by eapply delete_in_quiet|]. intros e2 [Q2 _]. apply returns_some.
    apply good_set_modem; [by eapply quiet_good| |done]. by rewrite (quiet_modem _ _ Q2).
Qed.

Lemma Recv_good st e count : good st e -> 0 <= count -> returns (fun x => good st x.2) (Recv e count).
Proof.
  intros G Hc. unfold Recv. destruct (negb (IsModemOpen e)); [by apply returns_some|].
  destruct (negb _); [by apply returns_some|]. pose proof G as [[S B] C].
  destruct (modStreamIn e) as [m|]; [|by apply returns_some].
  eapply returns_bind; [by apply GetData_ok|]. intros [[[len out] h] m'] S'. apply returns_some.
  assert (good st (e <| heap := h |> <| modStreamIn := Some m' |>)) as G1 by (by apply good_set_in). same_core.
Qed.

Lemma RecvDiag_returns st e : good st e -> returns (fun _ => True) (RecvDiag e).
Proof.
  intros [[(l1 & l2 & S & A & _) _] _]. unfold RecvDiag. destruct (modStreamIn e) as [m|]; [|by apply returns_some].
  destruct (firstBuf m) as [id|] eqn:E; [|by apply returns_some].
  destruct (holds_first _ _ _ A E) as (p & l' & -> & _). rewrite (owns_lookup _ _ _ _ S). by apply returns_some.
Qed.

Lemma drop_first_quiet st e : good st e ->
  returns (fun e' => quiet e e')
    match modStreamIn e with
    | None => Some e
    | Some m => '(_, h, m) ← DeleteFirstBuf (heap e) m; Some (e <| heap := h |> <| modStreamIn := Some m |>)
    end.
Proof.
  intros G. pose proof G as [[S B] C]. destruct (modStreamIn e) as [m|] eqn:E.
  - eapply returns_bind; [by apply DeleteFirstBuf_ok|]. intros [[b h] m'] [S' _]. by apply returns_some.
  - apply returns_some. by eapply quiet_refl.
Qed.

Lemma RecvStop_good st e : good st e -> returns (good st) (RecvStop e).
Proof.
  intros G. unfold RecvStop. destruct (negb (IsModemOpen e)); [by apply returns_some|].
  destruct (isStateModemIn (stateModem e)) eqn:Ei; cbn [negb]; [|by apply returns_some].
  eapply returns_bind; [by eapply drop_first_quiet|]. intros e1 Q1. apply returns_some.
  apply good_set_modem; [by eapply quiet_good| |done]. rewrite (quiet_modem _ _ Q1). by destruct (stateModem e).
Qed.

(** ** The packets that come *)

Definition safe_step (st : StateOut) (s : step) : Prop := forall e, good st e -> returns (fun x => good st x.2) (s e).

Lemma then_safe st s1 s2 : safe_step st s1 -> safe_step st s2 -> safe_step st (then_ s1 s2).
Proof.
  intros H1 H2 e G. unfold then_. eapply returns_bind; [by apply H1|]. intros [[] e1] G1; [by apply H2|].
  by apply returns_some.
Qed.

Lemma call_back_safe st o f : safe_step st (call_back modem o f).
Proof. intros e G. unfold call_back. apply returns_some. by apply callback_good. Qed.

Lemma end_silence_safe st o : safe_step st (end_silence modem o).
Proof.
  intros e G. unfold end_silence. destruct (bool_decide _) eqn:E; [|by apply returns_some].
  apply bool_decide_eq_true in E. apply call_back_safe. apply good_set_modem; [done|by rewrite E|done].
Qed.

Lemma data_callback_safe st o : safe_step st (data_callback modem o).
Proof. intros e G. unfold data_callback. destruct (bool_decide _); [by apply call_back_safe|by apply returns_some]. Qed.

Lemma OnUserInput_good st v e : good st e -> good st (OnUserInput modem v e).
Proof.
  intros G. unfold OnUserInput. destruct (recvUserInput e); [|done]. destruct (pipe_full p); [done|].
  apply callback_good. same_core.
Qed.

Lemma in_PutEof_good st e d : good st e -> modStreamIn e <> None -> returns (good st) (in_PutEof d e).
Proof.
  intros G H. pose proof G as [[S B] C]. unfold in_PutEof. destruct (modStreamIn e) as [m|] eqn:E; [|done].
  eapply returns_bind; [by apply PutEof_ok|]. intros [[b h] m'] S'. apply returns_some. by apply good_set_in.
Qed.

Lemma out_of_order_safe st o : safe_step st (out_of_order modem o).
Proof.
  intros e G. unfold out_of_order. destruct (writing (modStreamIn e)) eqn:E; [|by apply returns_some].
  eapply returns_bind; [apply (in_PutEof_good st); [done|by intros H; rewrite H in E]|].
  intros e1 G1. by apply data_callback_safe.
Qed.

(** The signal that has begun is the modem's: [m] takes it. *)
Lemma begin_wait_good st e saved : good st e -> modStreamInSaved e = Some saved ->
  returns (fun e' => quiet e e')
    match modStreamIn e with
    | None => Some e
    | Some m => take_saved e m saved
    end.
Proof.
  intros G Es. pose proof G as [[S B] C]. destruct (modStreamIn e) as [m|] eqn:Em; [|apply returns_some; by apply (quiet_refl st)].
  rewrite Es in S. unfold take_saved. destruct (IsEqual _ _).
  - pose proof (Move_ok _ _ _ S) as S2. destruct (Move m saved) as [m2 saved2].
    set (e1 := e <| modStreamIn := Some m2 |> <| modStreamInSaved := Some saved2 |>).
    assert (good st e1) as G1 by (split; [by split|exact C]).
    eapply returns_impl; [by apply (delete_saved_quiet st e1)|]. intros e2 [[Q1 Q2 Q3 Q4 Q5] _]. by split.
  - pose proof (PushBuf_ok _ _ _ S) as S2. destruct (PushBuf (heap e) m) as [h m2].
    eapply returns_bind; [by apply PutEof_ok|]. intros [[b h'] m'] S3. apply returns_some. split; try done. cbn.
    by rewrite Es.
Qed.

(** A new signal in the place of none. *)
Lemma push_new_good st e p : good st e -> modStreamInSaved e = None ->
  let '(h, saved) := PushBuf (heap e) (ModStream_new byte0 chunk0 len0 p) in
  good st (e <| heap := h |> <| modStreamInSaved := Some saved |>).
Proof.
  intros G E. pose proof G as [[S B] C]. rewrite E in S. apply streams_ok_swap in S.
  pose proof (PushBuf_ok _ _ _ (new_ok _ _ p S)) as S2.
  destruct (PushBuf (heap e) _) as [h saved]. apply good_set_saved; [done|]. by apply streams_ok_swap.
Qed.

Lemma begin_signal_good st o t e : good st e -> modStreamInSaved e = None ->
  returns (fun x => good st x.2) (begin_signal byte0 chunk0 len0 modem o t e).
Proof.
  intros G E. unfold begin_signal.
  assert (good st (e <| isCarrierIn := 1 |>)) as G1 by same_core.
  pose proof (push_new_good st (e <| isCarrierIn := 1 |>) (GetModPars t by_ind) G1 E) as G2.
  destruct (PushBuf (heap _) _) as [h saved].
  set (e2 := e <| isCarrierIn := 1 |> <| heap := h |> <| modStreamInSaved := Some saved |>) in G2.
  change (e <| isCarrierIn := 1 |> <| heap := h |> <| modStreamInSaved := Some saved |> <| countIn := 0 |>)
    with (e2 <| countIn := 0 |>). assert (modStreamInSaved e2 = Some saved) as Es by done. clearbody e2.
  set (e3 := e2 <| countIn := 0 |>). assert (good st e3) as G3 by same_core.
  assert (modStreamInSaved e3 = Some saved) as Es3 by done. clearbody e3.
  destruct (bool_decide (stateModem e3 = stmInWaitSilence)); [by apply end_silence_safe|].
  destruct (bool_decide (stateModem e3 = stmInWaitData)) eqn:Ew; [|by apply returns_some].
  apply bool_decide_eq_true in Ew.
  eapply returns_bind; [by apply (begin_wait_good st)|]. intros e4 Q4. apply call_back_safe.
  apply good_set_modem; [by eapply quiet_good| |done]. by rewrite (quiet_modem _ _ Q4), Ew.
Qed.

Lemma indicated_good st o t e : good st e -> modStreamInSaved e = None ->
  returns (fun x => good st x.2) (indicated byte0 chunk0 len0 modem o t e).
Proof.
  intros G E. unfold indicated. destruct (_ =? _); [apply end_silence_safe; same_core|].
  assert (forall v, good st (OnUserInput modem v e <| isCarrierIn := 0 |>)) as K.
  { intros v. pose proof (OnUserInput_good st v e G) as G1. same_core. }
  destruct (_ =? _); [by apply end_silence_safe|]. destruct (_ =? _); [by apply end_silence_safe|].
  destruct (_ && _); [by apply begin_signal_good|by apply returns_some].
Qed.

Lemma handle_indicator_safe st o t : safe_step st (handle_indicator byte0 chunk0 len0 modem o t).
Proof.
  intros e G. unfold handle_indicator. destruct (_ || _); [by apply returns_some|].
  destruct (_ && _); [by apply returns_some|].
  revert e G. apply then_safe; [apply out_of_order_safe|]. intros e G. unfold then_.
  eapply (returns_bind (fun x : bool * T38Engine => x.1 = true /\ good st x.2 /\ modStreamInSaved x.2 = None)).
  - eapply returns_bind; [by apply (delete_saved_quiet st)|]. intros e1 (Q & E & _). apply returns_some.
    split; [done|]. split; [by eapply quiet_good|done].
  - intros [b e1] (Hb & G1 & E). cbn in Hb. subst b. by apply indicated_good.
Qed.

(** Data goes to a stream there is. *)
Lemma on_target_good st t f e : good st e ->
  (forall h m saved, streams_ok h (Some m) saved -> returns (fun '(h', m') => streams_ok h' (Some m') saved) (f h m)) ->
  returns (good st) (on_target t f e).
Proof.
  intros G K. unfold on_target. destruct (target_stream e t) as [m|] eqn:E; [|by apply returns_some].
  pose proof G as [[S B] C]. destruct t; cbn in E; [| |done]; rewrite E in S.
  - eapply returns_bind; [by eapply K|]. intros [h m'] S'. apply returns_some. by apply good_set_in.
  - apply streams_ok_swap in S. eapply returns_bind; [by eapply K|]. intros [h m'] S'. apply returns_some.
    apply good_set_saved; [done|]. by apply streams_ok_swap.
Qed.

Lemma target_PutEof_good st t d e : good st e -> returns (good st) (target_PutEof t d e).
Proof.
  intros G. apply on_target_good; [done|]. intros h m saved S. eapply returns_bind; [by apply PutEof_ok|].
  intros [[b h'] m'] S'. by apply returns_some.
Qed.

Lemma target_SetDiag_good st t d e : good st e -> returns (good st) (target_SetDiag t d e).
Proof.
  intros G. apply on_target_good; [done|]. intros h m saved S. eapply returns_bind; [by apply SetDiag_ok|].
  intros [b h'] S'. by apply returns_some.
Qed.

Lemma target_PutData_good st t buf e : good st e -> returns (good st) (target_PutData t buf e).
Proof.
  intros G. apply on_target_good; [done|]. intros h m saved S. eapply returns_bind; [by apply PutData_ok|].
  intros [b h'] S'. by apply returns_some.
Qed.

Lemma target_PushBuf_good st t e : good st e -> returns (good st) (target_PushBuf t e).
Proof.
  intros G. apply on_target_good; [done|]. intros h m saved S. apply returns_some. pose proof (PushBuf_ok _ _ _ S) as H.
  by destruct (PushBuf h m).
Qed.

Lemma field_octets_good st t f e : good st e -> returns (good st) (field_octets t f e).
Proof.
  intros G. unfold field_octets. destruct (_ && _); [|by apply returns_some].
  destruct (field_data f) as [buf|]; [|by apply returns_some].
  eapply returns_bind; [by apply target_PutData_good|]. intros e1 G1. apply returns_some. same_core.
Qed.

Lemma field_fcs_good st t f e : good st e -> returns (good st) (field_fcs t f e).
Proof.
  intros G. unfold field_fcs. eapply (returns_bind (good st)).
  - destruct (one_of _ _); [by apply target_SetDiag_good|by apply returns_some].
  - intros e1 G1. destruct (one_of _ _); [|by apply returns_some].
    eapply returns_bind; [by apply target_PutEof_good|]. intros e2 G2. by apply target_PushBuf_good.
Qed.

Lemma field_sig_end_good st o t f e : good st e -> returns (fun x => good st x.2) (field_sig_end modem o t f e).
Proof.
  intros G. unfold field_sig_end. destruct (one_of _ _); [|by apply returns_some].
  eapply returns_bind; [by apply (target_PutEof_good st)|]. intros e1 G1.
  eapply returns_bind; [apply (end_silence_safe st); same_core|]. intros [on e2] G2. by apply returns_some.
Qed.

Lemma handle_fields_safe st o fields : forall t, safe_step st (handle_fields modem o t fields).
Proof.
  induction fields as [|f fields IH]; intros t e G; cbn [handle_fields]; [by apply returns_some|].
  eapply returns_bind; [by apply (field_octets_good st)|]. intros e1 G1.
  eapply returns_bind; [by apply (field_fcs_good st)|]. intros e2 G2.
  eapply returns_bind; [by apply (field_sig_end_good st)|]. intros [[on t'] e3] G3.
  destruct on; [by apply IH|by apply returns_some].
Qed.

Lemma handle_data_safe st o t fields : safe_step st (handle_data modem o t fields).
Proof.
  intros e G. unfold handle_data.
  eapply (returns_bind (fun x : target * T38Engine => good st x.2)).
  - destruct (target_stream e _) as [m|]; [|by apply returns_some]. destruct (negb _); [|by apply returns_some].
    eapply returns_bind; [by apply (target_PutEof_good st)|]. intros e1 G1. by apply returns_some.
  - intros [t' e1] G1. revert e1 G1. apply then_safe; [apply handle_fields_safe|apply data_callback_safe].
Qed.

Lemma HandlePacket_safe st o p : safe_step st (HandlePacket byte0 chunk0 len0 modem o p).
Proof.
  intros e G. unfold HandlePacket. destruct (closed_in o e); [by apply returns_some|].
  revert e G. apply then_safe; [destruct p; [apply handle_indicator_safe|apply handle_data_safe]|].
  intros e G. destruct (negb _); [|by apply returns_some]. apply call_back_safe. same_core.
Qed.

Lemma HandlePacketLost_safe st o : safe_step st (HandlePacketLost o).
Proof.
  intros e G. unfold HandlePacketLost. destruct (closed_in o e); [by apply returns_some|].
  eapply (returns_bind (good st)); [|intros e1 G1; by apply returns_some].
  destruct (target_stream e _) as [m|]; [|by apply returns_some].
  destruct (_ =? _); [by apply target_SetDiag_good|by apply returns_some].
Qed.

(** ** The packets that go *)

Definition turn_ok (r : turns) : Prop := returns (fun x => engine_ok x.2) r.

Lemma out_callback_ok o p e k : engine_ok e ->
  (forall e', engine_ok e' -> stateOut e' = stateOut e -> turn_ok (k e')) -> turn_ok (out_callback modem o p e k).
Proof.
  intros G K. unfold out_callback. destruct (callback_good (stateOut e) p e) as [A B]; [done|].
  destruct (closed_out o _); [by apply returns_some|by apply K].
Qed.

(** The sender goes on to another state, with another HDLC coder. *)
Lemma engine_ok_out e e' : engine_ok e -> isStateModemOut (stateModem e) = true -> over_t38 (ModParsOut e) = true ->
  heap e' = heap e -> modStreamIn e' = modStreamIn e -> modStreamInSaved e' = modStreamInSaved e ->
  ModParsOut e' = ModParsOut e -> isStateModemOut (stateModem e') = true ->
  (inDataType (hdlcOut e') = dtHdlc -> outDataType (hdlcOut e') <> dtRaw) -> engine_ok e'.
Proof.
  intros [A [B1 B2 B3 B4]] Hm Hp E1 E2 E3 E5 E4 Hh. split; [by rewrite E1, E2, E3|]. rewrite E5. split; try done.
  intros _. by apply B3.
Qed.

Lemma types_ok h h' : same_types h h' -> (inDataType h = dtHdlc -> outDataType h <> dtRaw) ->
  inDataType h' = dtHdlc -> outDataType h' <> dtRaw.
Proof. by intros [-> ->]. Qed.

Lemma GetHdlcStart_types h b : outDataType (GetHdlcStart h b) = dtHdlc.
Proof. unfold GetHdlcStart. cbn zeta. destruct (inDataType _); by destruct b. Qed.

(** Where the sender is busy. *)
Lemma busy_ok e : engine_ok e -> at_rest (stateOut e) = false -> waits (stateOut e) = false ->
  isStateModemOut (stateModem e) = true /\ over_t38 (ModParsOut e) = true.
Proof. intros [_ [_ B2 _ B4]] H1 H2. split; auto. Qed.

Ltac out_step := eapply engine_ok_out; [eassumption|eassumption|eassumption|reflexivity..| |].

Lemma out_begin_ok e : engine_ok e -> isStateModemOut (stateModem e) = true -> turn_ok (out_begin e).
Proof.
  intros [A [B1 B2 B3 B4]] Hm. unfold out_begin. destruct (dataTypeT38 (ModParsOut e)) eqn:E; apply returns_some.
  all: split; [exact A|]; split; try done.
  all: assert (over_t38 (ModParsOut e) = true) as Hp by (unfold over_t38; by rewrite E).
  all: intros _ _; exact Hp.
Qed.

Lemma out_idle_ok now e : engine_ok e -> isStateModemOut (stateModem e) = true -> turn_ok (out_idle now e).
Proof.
  intros G Hm. unfold out_idle. destruct (_ && _ && _); [by apply returns_some|]. cbn zeta.
  set (e1 := e <| delaySignalOut := false |>). assert (engine_ok e1) as G1 by by destruct G; split.
  assert (isStateModemOut (stateModem e1) = true) as Hm1 by done. clearbody e1.
  destruct (_ && _); [|by apply out_begin_ok]. destruct (_ =? 1); [apply returns_some; by destruct G1; split|].
  destruct (_ <? _); [by apply returns_some|]. apply out_begin_ok; [by destruct G1; split|done].
Qed.

Lemma out_start_ok now e : engine_ok e -> stateOut e = stOutIndWait -> turn_ok (out_start byte0 chunk0 len0 now e).
Proof.
  intros G Es. destruct (busy_ok e G) as [Hm Hp]; [by rewrite Es|by rewrite Es|]. unfold out_start. cbn zeta.
  set (e1 := if msgType _ =? e_v21 then _ else _).
  assert (engine_ok e1 /\ isStateModemOut (stateModem e1) = true /\ over_t38 (ModParsOut e1) = true /\
    outDataType (hdlcOut e1) = dtNone) as (G1 & Hm1 & Hp1 & Eo).
  { unfold e1. destruct (_ =? _); (split; [out_step; [exact Hm|done]|exact (conj Hm (conj Hp eq_refl))]). }
  clearbody e1.
  assert (forall h, (inDataType h = dtHdlc -> outDataType h <> dtRaw) -> engine_ok (e1 <| hdlcOut := h |>)) as K.
  { intros h Hh. out_step; [exact Hm1|exact Hh]. }
  destruct (dataType (ModParsOut e1)) eqn:Ed; try (by apply returns_some); cbn zeta.
  - set (h1 := PutHdlcData _ _). assert (outDataType h1 = dtNone) as Eh by exact Eo. clearbody h1.
    destruct (dataTypeT38 _); try (apply returns_some; apply K; by rewrite Eh).
    + apply returns_some. apply (K (GetHdlcStart h1 true)). by rewrite GetHdlcStart_types.
    + destruct (bool_decide _) eqn:Eb; [apply returns_some; apply K; by rewrite Eh|].
      apply bool_decide_eq_false in Eb. by destruct Eb.
  - set (h1 := PutRawData _ _). assert (inDataType h1 = dtRaw) as Eh by done. clearbody h1.
    destruct (dataTypeT38 _); try (apply returns_some; apply K; by rewrite Eh).
    + apply returns_some. apply (K (GetHdlcStart h1 true)). by rewrite GetHdlcStart_types.
    + destruct (bool_decide _); [apply returns_some; apply K; by rewrite Eh|].
      apply returns_some. apply (K (GetRawStart h1 0)). assert (inDataType (GetRawStart h1 0) = dtRaw) as ->; [|done].
      unfold GetRawStart. cbn zeta. set (h2 := _ <| fcs := _ |>). assert (inDataType h2 = dtRaw) as E2 by exact Eh.
      by rewrite E2.
Qed.

Lemma out_empty_ok o now e : engine_ok e -> turn_ok (out_empty modem o now e).
Proof.
  intros G. assert (turn_ok (wait_data e)) as K by (by apply returns_some).
  assert (forall e', engine_ok e' -> stateOut e' = stateOut e -> turn_ok (wait_data e')) as K' by (intros; by apply returns_some).
  unfold out_empty. cbn zeta. destruct (_ && _); [by apply out_callback_ok|].
  destruct (negb _); [apply returns_some; by destruct G; split|].
  destruct (_ <=? _); [by apply out_callback_ok|done].
Qed.

Lemma out_octets_ok o now count b e : engine_ok e -> stateOut e = stOutData -> turn_ok (out_octets modem o now count b e).
Proof.
  intros G Es. destruct (busy_ok e G) as [Hm Hp]; [by rewrite Es|by rewrite Es|].
  pose proof (ok_hdlc _ _ _ _ (ok_sending _ G)) as Hh. unfold out_octets. cbn zeta.
  destruct (count =? -1).
  { destruct (dataTypeT38 _); apply returns_some; out_step; (exact Hm || exact Hh). }
  destruct (count =? 0); [by apply out_empty_ok|].
  destruct (dataTypeT38 _); try (apply returns_some; out_step; (exact Hm || exact Hh)).
  destruct (_ =? e_v21); apply returns_some; out_step; (exact Hm || exact Hh).
Qed.

Lemma no_more_full_ok o w e k : engine_ok e ->
  (forall e', engine_ok e' -> stateOut e' = stateOut e -> turn_ok (k e')) -> turn_ok (no_more_full modem o w e k).
Proof. intros G K. unfold no_more_full. destruct (_ && _); [by apply out_callback_ok|by apply K]. Qed.

Lemma out_data_ok o now e : engine_ok e -> stateOut e = stOutData -> turn_ok (out_data modem o now e).
Proof.
  intros G Es. destruct (busy_ok e G) as [Hm Hp]; [by rewrite Es|by rewrite Es|].
  pose proof (ok_hdlc _ _ _ _ (ok_sending _ G)) as Hh. unfold out_data.
  destruct (GetData_total (hdlcOut e) (bufOut e) (out_len (ModParsOut e)) Hh) as (count & b & h & s & -> & T & _).
  cbn [mbind option_bind]. apply no_more_full_ok.
  - out_step; [exact Hm|]. exact (types_ok _ _ T Hh).
  - intros e' G' E'. apply out_octets_ok; [done|]. rewrite E'. exact Es.
Qed.

Lemma out_fcs_ok o e : engine_ok e -> stateOut e = stOutHdlcFcs -> turn_ok (out_fcs modem o e).
Proof.
  intros G0 Es. destruct (busy_ok e G0) as [Hm0 Hp0]; [by rewrite Es|by rewrite Es|].
  pose proof (ok_hdlc _ _ _ _ (ok_sending _ G0)) as Hh0. unfold out_fcs. cbn zeta.
  set (e1 := if msgType _ =? e_v21 then _ else _).
  assert (engine_ok e1 /\ isStateModemOut (stateModem e1) = true /\ over_t38 (ModParsOut e1) = true /\
    (inDataType (hdlcOut e1) = dtHdlc -> outDataType (hdlcOut e1) <> dtRaw)) as (G & Hm & Hp & Hh).
  { unfold e1. destruct (_ =? e_v21); [|done]. split; [out_step; [exact Hm0|exact Hh0]|exact (conj Hm0 (conj Hp0 Hh0))]. }
  clearbody e1. clear G0 Es Hm0 Hp0 Hh0. generalize (msgType (ModParsOut e)). intros msg. clear e.
  assert (forall b p e', engine_ok e' -> turn_ok ((if b : bool then packet p else redo) e')) as K.
  { intros [] p e' G'; by apply returns_some. }
  destruct (dataType (ModParsOut e1)) eqn:Ed.
  8: { set (h1 := GetHdlcStart (hdlcOut e1) false).
    destruct (GetData_total h1 (bufOut e1) 0) as (r & b & h & s & -> & T & _).
    { intros _. unfold h1. by rewrite GetHdlcStart_types. }
    assert (inDataType h = dtHdlc -> outDataType h <> dtRaw) as Hh2.
    { apply (types_ok h1 h T). intros _. unfold h1. by rewrite GetHdlcStart_types. }
    cbn [mbind option_bind]. apply no_more_full_ok.
    - out_step; [exact Hm|exact Hh2].
    - intros e' G' _. by apply K. }
  all: destruct (negb _); [by apply returns_some|].
  all: assert (outDataType (GetHdlcStart (PutHdlcData (hdlcOut e1) (Some 1%positive)) false) <> dtRaw) as E
    by (by rewrite GetHdlcStart_types).
  all: destruct (moreFramesOut _).
  all: try (apply out_callback_ok; [out_step; [reflexivity|exact (fun _ => E)]|intros e' G' _; by apply K]).
  all: apply K; out_step; [exact Hm|exact (fun _ => E)].
Qed.

(** The sender comes to rest and the modem is idle. *)
Lemma engine_ok_rest e st : engine_ok e -> at_rest st = true ->
  engine_ok (e <| stateOut := st |> <| stateModem := stmIdle |>).
Proof. intros [A [B1 B2 B3 B4]] H. split; [exact A|]. split; try done; cbn; by rewrite H. Qed.

Lemma out_end_ok o e : engine_ok e -> turn_ok (out_end modem o e).
Proof.
  intros G. unfold out_end. destruct (negb _); [by apply returns_some|]. cbn zeta.
  destruct (dataTypeT38 _); try (by apply returns_some).
  all: apply out_callback_ok; [by apply engine_ok_rest|intros; by apply returns_some].
Qed.

Lemma out_turn_ok o now e : engine_ok e -> turn_ok (out_turn byte0 chunk0 len0 modem o now e).
Proof.
  intros G. unfold out_turn. destruct (closed_out o e); [by apply returns_some|].
  destruct (isStateModemOut (stateModem e)) eqn:Em; cbn [orb].
  2: destruct (bool_decide (stateOut e = stOutIdle)) eqn:Ei; cbn [negb].
  2: { cbn zeta. by destruct (onIdleOut e); apply returns_some; destruct G; split. }
  all: destruct (stateOut e) eqn:Es.
  all: try (apply out_callback_ok; [by apply engine_ok_rest|intros; by apply returns_some]).
  all: try (by apply out_start_ok); try (by apply out_data_ok); try (by apply out_fcs_ok); try (by apply out_end_ok).
  all: try (by apply out_idle_ok).
  all: try (apply returns_some; destruct G as [A [B1 B2 B3 B4]]; by split).
Qed.

Lemma next_due_returns now e : engine_ok e -> returns (fun _ => True) (next_due now e).
Proof.
  intros G. unfold next_due. destruct (stateOut e) eqn:Es; try (by apply returns_some).
  all: destruct (busy_ok e G) as [Hm Hp]; [by rewrite Es|by rewrite Es|].
  all: pose proof (ok_rate _ _ _ _ (ok_sending _ G) Hm Hp) as H.
  all: rewrite (proj2 (Z.eqb_neq _ _)) by lia; by apply returns_some.
Qed.

(** What the others do while the thread rests. *)
Definition moments_ok (clock : list moment) : Prop := Forall (fun m => forall e, engine_ok e -> engine_ok (others m e)) clock.

Lemma prepare_ok o end_ clock : moments_ok clock -> forall at_ e, engine_ok e ->
  returns (fun x => engine_ok x.2) (prepare byte0 chunk0 len0 modem clock o end_ at_ e).
Proof.
  induction 1 as [|m clock Hx _ IH]; intros at_ e G0; cbn [prepare]; [by apply returns_some|].
  cbn zeta. assert (engine_ok (others m e)) as G by (by apply Hx). clear G0. generalize dependent (others m e). clear e. intros e G.
  destruct (match at_ with Slept => _ | _ => false end); [by apply returns_some|].
  destruct (match at_ with Sleep | Slept => _ | _ => false end).
  { destruct (expired _ _ _); [by apply returns_some|by apply IH]. }
  destruct (match at_ with Woken _ _ => _ | _ => false end); [by apply returns_some|].
  destruct (closed_out o e); [by apply returns_some|].
  set (x := match at_ with Woken _ d => _ | _ => _ end). assert (engine_ok x.1) as Gx.
  { unfold x. destruct at_; [done|done|done|]. unfold after_wait. cbn [fst].
    destruct (bool_decide _); [|done]. by destruct G as [A [B1 B2 B3 B4]]. }
  destruct x as [e1 d]. eapply returns_bind; [by apply out_turn_ok|]. intros [t e2] G2. cbn [snd] in G2.
  destruct t as [r|p again wait d']; [by apply returns_some|]. cbn zeta.
  destruct wait; [destruct (expired _ _ _); [by apply returns_some|by apply IH]|].
  eapply returns_bind; [by apply next_due_returns|]. intros due _.
  set (e3 := e2 <| timeDelayEndOut := due |>). assert (engine_ok e3) as G3 by (by destruct G2; split).
  destruct again; [by apply IH|by apply returns_some].
Qed.

Lemma PreparePacket_ok o start clock e : moments_ok clock -> engine_ok e ->
  returns (fun x => engine_ok x.2) (PreparePacket byte0 chunk0 len0 modem start clock o e).
Proof.
  intros Hc G. unfold PreparePacket. destruct (closed_out o e); [by apply returns_some|]. cbn zeta.
  assert (engine_ok (if firstOut e then callback modem cbpUpdateState (e <| firstOut := false |>) else e)) as G1.
  { destruct (firstOut e); [|done]. apply (callback_good (stateOut e)). split; [|done]. by destruct G; split. }
  generalize dependent (if firstOut e then callback modem cbpUpdateState (e <| firstOut := false |>) else e).
  clear e G. intros e G. destruct (closed_out o e); [by apply returns_some|].
  destruct (_ <? preparePacketPeriod e); [|by apply prepare_ok].
  destruct Hc as [|m clock Hm Hc]; [by apply returns_some|].
  destruct (closed_out o _); [apply returns_some; by apply Hm|]. apply prepare_ok; [done|by apply Hm].
Qed.

(** ** Owners and the modem *)

Lemma OnResetModemState_good st e : good st e -> returns (good st) (OnResetModemState e).
Proof.
  intros G. unfold OnResetModemState. eapply returns_bind; [by apply (drop_first_quiet st)|]. intros e1 Q1.
  pose proof (quiet_good _ _ _ G Q1) as G1. cbn zeta. apply returns_some.
  set (e2 := e1 <| bufOut := _ |>). assert (good st e2) as G2 by same_core. clearbody e2.
  assert (good st (if isStateModemOut (stateModem e2) then e2 else e2 <| stateModem := stmIdle |>)) as G3.
  { destruct (isStateModemOut (stateModem e2)) eqn:E; [done|]. by apply good_set_modem. }
  same_core.
Qed.

Lemma OnChangeModemClass_good st e : good st e -> good st (OnChangeModemClass e).
Proof.
  intros G. unfold OnChangeModemClass. destruct (modemClass e); [same_core| |same_core].
  destruct (recvUserInput e); [done|same_core].
Qed.

Lemma Attach_good st e cb : good st e -> returns (fun x => good st x.2) (Attach e cb).
Proof.
  intros G. unfold Attach. destruct (modemCallback e); [by apply returns_some|].
  eapply returns_bind; [apply (OnResetModemState_good st); same_core|]. intros e1 G1. by apply returns_some.
Qed.

Lemma Detach_good st e cb : good st e -> returns (good st) (Detach e cb).
Proof.
  intros G. unfold Detach. destruct (negb _); [by apply returns_some|].
  apply OnResetModemState_good, OnChangeModemClass_good. same_core.
Qed.

Lemma ChangeModemClass_good st e c : good st e -> good st (ChangeModemClass e c).
Proof. intros G. unfold ChangeModemClass. destruct (bool_decide _); [done|]. apply OnChangeModemClass_good. same_core. Qed.

Lemma RecvUserInput_good st e count : good st e -> good st (RecvUserInput e count).2.
Proof.
  intros G. unfold RecvUserInput. destruct (recvUserInput e) as [s|]; [|done].
  destruct (pipe_get s count) as [[r out] s']. same_core.
Qed.

Lemma CloseIn_good st e o : good st e -> good st (CloseIn modem e o).
Proof.
  intros G. unfold CloseIn. destruct (bool_decide _); [|done]. cbn zeta. apply callback_good.
  destruct (negb _); same_core.
Qed.

Lemma CloseOut_good st e o : good st e -> good st (CloseOut modem e o).
Proof.
  intros G. unfold CloseOut. destruct (bool_decide _); [|done]. cbn zeta. apply callback_good.
  destruct (negb _); same_core.
Qed.

Lemma OnChangeEnableFakeIn_good st e : good st e -> returns (good st) (OnChangeEnableFakeIn modem e).
Proof.
  intros G. unfold OnChangeEnableFakeIn. cbn zeta. assert (good st (close_fake_in modem e)) as G0.
  { unfold close_fake_in. destruct (_ && _ && _); [|done]. apply callback_good. same_core. }
  destruct (not_fake_in _); [by apply returns_some|].
  eapply returns_bind; [apply (delete_saved_quiet st); same_core|]. intros e1 (Q1 & _).
  assert (good st e1) as G1 by (eapply quiet_good; [|exact Q1]; same_core).
  eapply (returns_bind (fun x : bool * T38Engine => good st x.2)).
  - destruct (writing (modStreamIn e1)) eqn:Ew; [|by apply returns_some].
    eapply returns_bind; [apply (in_PutEof_good st); [done|by intros H; rewrite H in Ew]|]. intros e2 G2.
    destruct (bool_decide _); [|by apply returns_some]. apply returns_some. by apply callback_good.
  - intros [on e2] G2. cbn [snd] in G2. destruct (negb on); [by apply returns_some|].
    destruct (bool_decide _) eqn:E; [|by apply returns_some]. apply bool_decide_eq_true in E.
    apply returns_some. apply callback_good. apply good_set_modem; [done|by rewrite E|done].
Qed.

Lemma EnableFakeIn_good st e b : good st e -> returns (good st) (EnableFakeIn modem e b).
Proof.
  intros G. unfold EnableFakeIn. destruct (eqb _ _); [by apply returns_some|]. apply OnChangeEnableFakeIn_good. same_core.
Qed.

Lemma EnableFakeOut_good st e b : good st e -> good st (EnableFakeOut modem e b).2.
Proof.
  intros G. unfold EnableFakeOut. destruct (eqb _ _); [done|]. unfold OnChangeEnableFakeOut. cbn zeta.
  set (e0 := e <| isEnableFakeOut := b |>). assert (good st e0) as G0 by same_core. clearbody e0.
  match goal with |- context [if ?b then callback ?m ?p ?e' else e0] =>
    assert (good st (if b then callback m p e' else e0)) as G1 end.
  { destruct (_ && _ && _); [|done]. apply callback_good. same_core. }
  by destruct (_ || _).
Qed.

(** The channels are opened, if at all, on a sound state. *)
Lemma OpenIn_good st o fake fuel : forall e e', good st e -> OpenIn modem fuel e o fake = Some e' -> good st e'.
Proof.
  induction fuel as [|fuel IH]; intros e e' G; cbn [OpenIn].
  all: destruct (hOwnerIn e) as [o'|].
  all: try (by intros [= <-]; apply callback_good; same_core).
  all: destruct (o' =? o); [by intros [= <-]|]; destruct fake; [by intros [= <-]|]; try done.
  apply IH. apply callback_good. same_core.
Qed.

Lemma OpenOut_good st o fake fuel : forall e e', good st e -> OpenOut modem fuel e o fake = Some e' -> good st e'.
Proof.
  induction fuel as [|fuel IH]; intros e e' G; cbn [OpenOut].
  all: destruct (hOwnerOut e) as [o'|].
  all: try (by intros [= <-]; apply callback_good; same_core).
  all: destruct (o' =? o); [by intros [= <-]|]; destruct fake; [by intros [= <-]|]; try done.
  apply IH. apply callback_good. same_core.
Qed.

Lemma SetPreparePacketTimeout_good st e o timeout period : good st e -> good st (SetPreparePacketTimeout e o timeout period).
Proof. intros G. unfold SetPreparePacketTimeout. destruct (negb _); [done|same_core]. Qed.

Lemma fake_loop_ok o calls : Forall (fun c => moments_ok c.2) calls -> forall e, engine_ok e ->
  returns engine_ok (fake_loop byte0 chunk0 len0 modem calls o e).
Proof.
  induction 1 as [|[start clock] calls Hc _ IH]; intros e G; cbn [fake_loop]; [by apply returns_some|].
  eapply returns_bind; [by apply (PreparePacket_ok o start clock)|]. intros [r e1] G1. cbn [snd] in G1.
  destruct r as [|r p]; [by apply returns_some|]. destruct (r =? 0); [|by apply IH].
  apply returns_some. by apply (CloseOut_good (stateOut e1)).
Qed.
End engine.
