(* ===== verification/T38EngineCalls.v ===== *)
(** * Any sequence of calls of the T.38 engine

    The calls as data, the states they lead to, and what holds in all of them. *)
From S2P Require Import Prelude DataStream EngineBase PmHdlc T30 ModStream T38Engine T38EngineSafe.

(** ** Calls *)

Inductive call :=
| CallSendOnIdle (d : DataType)
| CallSendStart (d : DataType) (param : Z)
| CallSend (buf : list Z)
| CallSendStop (moreFrames : bool) (param : Z)
| CallRecvWait (d : DataType) (param cb : Z)
| CallRecvStart (cb : Z)
| CallRecv (count : Z)
| CallRecvStop
| CallRecvUserInput (count : Z)
| CallWriteUserInput (value : list Z)
| CallAttach (cb : Z)
| CallDetach (cb : Z)
| CallResetModemState
| CallChangeModemClass (c : ModemClass)
| CallEnableFakeIn (enable : bool)
| CallEnableFakeOut (enable : bool)
| CallOpenIn (turns : nat) (hOwner : Z) (fake : bool)
| CallOpenOut (turns : nat) (hOwner : Z) (fake : bool)
| CallCloseIn (hOwner : Z)
| CallCloseOut (hOwner : Z)
| CallHandlePacket (hOwner : Z) (p : ifp)
| CallHandlePacketLost (hOwner : Z)
| CallSetPreparePacketTimeout (hOwner timeout period : Z)
| CallPreparePacket (start : Z) (clock : list moment) (hOwner : Z)
| CallFakeThread (calls : list (Z * list moment)) (hOwner : Z).

Definition is_prepare (c : call) : bool := match c with CallPreparePacket _ _ _ | CallFakeThread _ _ => true | _ => false end.
Definition is_open (c : call) : bool := match c with CallOpenIn _ _ _ | CallOpenOut _ _ _ => true | _ => false end.

(** A portion to read has a size; what others do keeps the state sound. *)
Definition valid_call (c : call) : Prop :=
  match c with
  | CallRecv count => 0 <= count
  | CallPreparePacket _ clock _ => moments_ok clock
  | CallFakeThread calls _ => Forall (fun c => moments_ok c.2) calls
  | _ => True
  end.

Section engine.
Context (byte0 chunk0 len0 : Z) (modem : Z -> T38Engine -> T38Engine).

(** The state a call leaves. *)
Definition run (c : call) (e : T38Engine) : option T38Engine :=
  match c with
  | CallSendOnIdle d => Some (SendOnIdle e d)
  | CallSendStart d param => snd <$> SendStart e d param
  | CallSend buf => Some (Send e buf).2
  | CallSendStop more param => Some (SendStop e more param).2
  | CallRecvWait d param cb => snd <$> RecvWait byte0 chunk0 len0 e d param cb
  | CallRecvStart cb => snd <$> RecvStart byte0 chunk0 len0 e cb
  | CallRecv count => snd <$> Recv e count
  | CallRecvStop => RecvStop e
  | CallRecvUserInput count => Some (RecvUserInput e count).2
  | CallWriteUserInput value => Some (WriteUserInput modem e value)
  | CallAttach cb => snd <$> Attach e cb
  | CallDetach cb => Detach e cb
  | CallResetModemState => ResetModemState e
  | CallChangeModemClass c => Some (ChangeModemClass e c)
  | CallEnableFakeIn b => EnableFakeIn modem e b
  | CallEnableFakeOut b => Some (EnableFakeOut modem e b).2
  | CallOpenIn n o fake => OpenIn modem n e o fake
  | CallOpenOut n o fake => OpenOut modem n e o fake
  | CallCloseIn o => Some (CloseIn modem e o)
  | CallCloseOut o => Some (CloseOut modem e o)
  | CallHandlePacket o p => snd <$> HandlePacket byte0 chunk0 len0 modem o p e
  | CallHandlePacketLost o => snd <$> HandlePacketLost o e
  | CallSetPreparePacketTimeout o timeout period => Some (SetPreparePacketTimeout e o timeout period)
  | CallPreparePacket start clock o => snd <$> PreparePacket byte0 chunk0 len0 modem start clock o e
  | CallFakeThread calls o => FakePreparePacketThread_Main byte0 chunk0 len0 modem 0 calls o e
  end.

(** The states of an engine that was made at some time. *)
Inductive reachable : T38Engine -> Prop :=
| reach_new now : reachable (T38Engine_new byte0 chunk0 len0 now)
| reach_call e c e' : reachable e -> valid_call c -> run c e = Some e' -> reachable e'.

(** What the modem's callback, and the other threads meanwhile, may do. *)
Definition modem_ok : Prop :=
  forall p e, engine_ok e -> engine_ok (modem p e) /\ stateOut (modem p e) = stateOut e.

Lemma returns_snd {A} (P : T38Engine -> Prop) (r : option (A * T38Engine)) :
  returns (fun x => P x.2) r -> returns P (snd <$> r).
Proof. intros ([a e] & -> & H). by exists e. Qed.

Hypothesis ok : modem_ok.

(** Every call but [PreparePacket], the openings apart, returns. *)
Lemma run_good st c e : is_prepare c = false -> is_open c = false -> valid_call c -> good st e ->
  returns (good st) (run c e).
Proof.
  intros Hp Ho Hv G. destruct c; try done; cbn [run]; try apply returns_snd; try apply returns_some.
  - same_core.
  - by apply SendStart_good.
  - by apply Send_good.
  - by apply SendStop_good.
  - by apply RecvWait_good.
  - by apply RecvStart_good.
  - by apply Recv_good.
  - by apply RecvStop_good.
  - by apply RecvUserInput_good.
  - by apply OnUserInput_good.
  - by apply Attach_good.
  - by apply Detach_good.
  - by apply OnResetModemState_good.
  - by apply ChangeModemClass_good.
  - by apply EnableFakeIn_good.
  - by apply EnableFakeOut_good.
  - by apply CloseIn_good.
  - by apply CloseOut_good.
  - by apply HandlePacket_safe.
  - by apply HandlePacketLost_safe.
  - by apply SetPreparePacketTimeout_good.
Qed.

(** A fake owner never takes a channel from another. *)
Lemma fake_open_good st e o : good st e -> returns (good st) (OpenOut modem 0 e o true).
Proof.
  intros G. cbn [OpenOut]. destruct (hOwnerOut e) as [o'|].
  - destruct (o' =? o); by apply returns_some.
  - apply returns_some. apply (callback_good modem ok). same_core.
Qed.

(** The calls that prepare packets. *)
Lemma run_prepare c e : is_prepare c = true -> valid_call c -> engine_ok e -> returns engine_ok (run c e).
Proof.
  intros Hp Hv G. destruct c; try done; cbn [run].
  - apply returns_snd. by apply PreparePacket_ok.
  - unfold FakePreparePacketThread_Main. eapply returns_bind; [by apply (fake_open_good (stateOut e))|].
    intros e1 G1. apply fake_loop_ok; [done|done|]. by apply (SetPreparePacketTimeout_good (stateOut e)).
Qed.

Lemma run_ok c e e' : engine_ok e -> valid_call c -> run c e = Some e' ->
  engine_ok e' /\ (is_prepare c = false -> stateOut e' = stateOut e).
Proof.
  intros G Hv E. assert (good (stateOut e) e) as G' by done.
  destruct (is_prepare c) eqn:Ep.
  - destruct (run_prepare c e Ep Hv G) as (x & E' & Gx). rewrite E' in E. by injection E as <-.
  - destruct (is_open c) eqn:Eo.
    + destruct c; try done; cbn [run] in E.
      * by destruct (OpenIn_good modem ok _ _ _ _ _ _ G' E).
      * by destruct (OpenOut_good modem ok _ _ _ _ _ _ G' E).
    + destruct (run_good _ c e Ep Eo Hv G') as (x & E' & [Gx Ex]). rewrite E' in E. injection E as <-. done.
Qed.

Lemma reachable_ok e : reachable e -> engine_ok e.
Proof.
  induction 1 as [now|e c e' R IH Hv E]; [apply engine_ok_new|]. by eapply run_ok.
Qed.
End engine.

(** ** A modem that calls the engine back *)

(** On a callback with [p] the modem makes the calls [script p]; the callbacks of
    those are left to [inner]. *)
Section script.
Context (byte0 chunk0 len0 : Z) (script : Z -> list call) (inner : Z -> T38Engine -> T38Engine).

Fixpoint run_all (modem : Z -> T38Engine -> T38Engine) (cs : list call) (e : T38Engine) : option T38Engine :=
  match cs with
  | [] => Some e
  | c :: cs => e ← run byte0 chunk0 len0 modem c e; run_all modem cs e
  end.

Definition scripted (p : Z) (e : T38Engine) : T38Engine := default e (run_all inner (script p) e).

Definition plain (c : call) : Prop := valid_call c /\ is_prepare c = false /\ is_open c = false.

Lemma run_all_good modem st : modem_ok modem -> forall cs e, Forall plain cs -> good st e ->
  returns (good st) (run_all modem cs e).
Proof.
  intros ok cs e H. revert e. induction H as [|c cs (Hv & Hp & Ho) H IH]; intros e G; [by apply returns_some|].
  cbn [run_all]. eapply returns_bind; [by apply (run_good byte0 chunk0 len0 modem ok st)|]. apply IH.
Qed.

Lemma scripted_ok : modem_ok inner -> (forall p, Forall plain (script p)) -> modem_ok scripted.
Proof.
  intros ok H p e G. unfold scripted.
  destruct (run_all_good inner (stateOut e) ok (script p) e (H p)) as (e' & -> & G'); [done|]. exact G'.
Qed.

Lemma reach_all modem cs : forall e e', reachable byte0 chunk0 len0 modem e -> Forall valid_call cs ->
  run_all modem cs e = Some e' -> reachable byte0 chunk0 len0 modem e'.
Proof.
  induction cs as [|c cs IH]; intros e e' R H; cbn [run_all]; [by intros [= <-]|].
  apply Forall_cons_1 in H as [Hc H]. destruct (run _ _ _ modem c e) as [e1|] eqn:E; [|done].
  intros E'. apply (IH e1 e'); [by eapply reach_call|done|done].
Qed.
End script.

Lemma silent_ok : modem_ok (fun _ e => e).
Proof. by intros p e G. Qed.

(** An opening ends at once when nobody opens the channel meanwhile. *)
Lemma open_ends modem n e o fake : (forall p e, hOwnerIn (modem p e) = hOwnerIn e /\ hOwnerOut (modem p e) = hOwnerOut e) ->
  (0 < n)%nat -> is_Some (OpenIn modem n e o fake) /\ is_Some (OpenOut modem n e o fake).
Proof.
  intros H Hn. destruct n as [|n]; [lia|].
  assert (forall p e, hOwnerIn (callback modem p e) = hOwnerIn e /\ hOwnerOut (callback modem p e) = hOwnerOut e) as K.
  { intros p e'. unfold callback. by destruct (modemCallback e'). }
  split; cbn [OpenIn OpenOut].
  - destruct (hOwnerIn e); [|done]. destruct (_ =? o); [done|]. destruct fake; [done|]. set (e1 := e <| hOwnerIn := None |>).
    assert (hOwnerIn (callback modem cbpUpdateState e1) = None) as E by apply K.
    destruct n; cbn [OpenIn]; by rewrite E.
  - destruct (hOwnerOut e); [|done]. destruct (_ =? o); [done|]. destruct fake; [done|]. set (e1 := e <| hOwnerOut := None |>).
    assert (hOwnerOut (callback modem cbpUpdateState e1) = None) as E by apply K.
    destruct n; cbn [OpenOut]; by rewrite E.
Qed.

(** C8: in every state that calls of the modem, of the call and of the owner can
    lead to, in any order, the heap holds exactly the streams of the two signals,
    in order; no call touches a deleted stream, dereferences a null one, divides
    by a zero rate or loops for ever (each returns, an opening that others keep
    taking over apart), and no stream is lost: the destructor leaves none.  The modem may do anything from its
    callbacks, and other threads meanwhile, that keeps the state sound and leaves
    the sender's state to [PreparePacket]; all the other calls do. *)
Theorem engine_safe byte0 chunk0 len0 (modem : Z -> T38Engine -> T38Engine) (e : T38Engine) :
  modem_ok modem -> reachable byte0 chunk0 len0 modem e ->
  (exists l1 l2, owns (heap e) (l1 ++ l2) /\ has (modStreamIn e) l1 /\ has (modStreamInSaved e) l2) /\
  is_Some (RecvDiag e) /\
  (exists h, T38Engine_delete e = Some h /\ pipes h = ∅) /\
  forall c, valid_call c ->
    (is_open c = false -> is_Some (run byte0 chunk0 len0 modem c e)) /\
    (forall e', run byte0 chunk0 len0 modem c e = Some e' -> is_prepare c = false -> stateOut e' = stateOut e).
Proof.
  intros ok R. pose proof (reachable_ok _ _ _ _ ok e R) as G. split; [exact (ok_streams _ G)|]. split.
  - destruct (RecvDiag_returns (stateOut e) e) as (d & -> & _); [done|by exists d].
  - split; [exact (destructor_empties e G)|].
    intros c Hv. split; [|intros e' E; by apply (run_ok byte0 chunk0 len0 modem ok c e e' G Hv E)].
    intros Ho. destruct (is_prepare c) eqn:Ep.
    + destruct (run_prepare byte0 chunk0 len0 modem ok c e Ep Hv G) as (x & -> & _). by exists x.
    + destruct (run_good byte0 chunk0 len0 modem ok (stateOut e) c e Ep Ho Hv) as (e' & -> & _); [done|by exists e'].
Qed.

(** A modem that starts to read when told of a signal and reads when told of
    data; two frames come, the first one cut in two. *)
Definition example_script (p : Z) : list call :=
  if p =? 10 then [CallRecvStart 11; CallRecv 100] else if p =? 11 then [CallRecv 100] else [].

Definition example_calls : list call := [
  CallAttach 1; CallOpenIn 1 7 false; CallRecvWait dtHdlc 3 10;
  CallHandlePacket 7 (Indicator e_v21_preamble);
  CallHandlePacket 7 (Data e_v21 (Some [{| field_type := e_hdlc_data; field_data := Some [255; 200] |}]));
  CallHandlePacket 7 (Data e_v21 (Some [{| field_type := e_hdlc_data; field_data := Some [33] |};
                                        {| field_type := e_hdlc_fcs_OK; field_data := None |};
                                        {| field_type := e_hdlc_data; field_data := Some [255; 192; 2] |}]));
  CallRecv 100 ].

Lemma engine_safe_witness : exists e,
  reachable 0 0 0 (scripted 0 0 0 example_script (fun _ e => e)) e /\ stateModem e = stmInRecvData /\
  size (pipes (heap e)) = 2%nat /\ is_Some (run 0 0 0 (scripted 0 0 0 example_script (fun _ e => e)) CallRecvStop e).
Proof.
  set (modem := scripted 0 0 0 example_script (fun _ e => e)).
  assert (modem_ok modem) as ok.
  { apply scripted_ok; [exact silent_ok|]. intros p. unfold example_script.
    destruct (p =? 10); [|destruct (p =? 11)]; repeat (constructor; [split; [cbn; first [exact I|lia]|done]|]); constructor. }
  destruct (run_all 0 0 0 modem example_calls (T38Engine_new 0 0 0 0)) as [e|] eqn:E; [|by vm_compute in E].
  assert (reachable 0 0 0 modem e) as R.
  { apply (reach_all 0 0 0 modem example_calls _ e (reach_new 0 0 0 modem 0)); [|exact E].
    unfold example_calls. repeat (constructor; [cbn; first [exact I|lia]|]). constructor. }
  exists e. split; [exact R|]. destruct (engine_safe 0 0 0 modem e ok R) as (_ & _ & _ & H).
  vm_compute in E. injection E as <-. split; [reflexivity|]. split; [reflexivity|]. by apply (H CallRecvStop).
Defined.
