(* ===== verification/T38Signal.v ===== *)
(** * What a V.21 signal says

    The common ground of the two engines of a call: a signal is a preamble, the
    octets of its frames, each frame with its end, the end of the carrier and
    silence.  The modem that sends has a log of what it has handed over, the
    packets and the frames read have the items they carry, and the order of the
    items is that of a small automaton. *)
From S2P Require Import Prelude DataStream EngineBase PmHdlc T30 ModStream T38Engine.

Inductive item := Pre | Oct (b : Z) | Ends (diag : Z) | NoSig.

(** ** What the sending modem has handed over *)

Record log := {
  finished : list (list Z);
  current : list Z;
  ended : bool;
}.

#[export] Instance eta_log : Eta log := fun g => Build_log (finished g) (current g) (ended g).

Definition log_new : log := {| finished := []; current := []; ended := false |}.

(** A frame without octets is not sent. *)
Definition frame_items (f : list Z) : list item :=
  match f with [] => [] | _ => map Oct f ++ [Ends 0] end.

(** The frames, and at the end an empty one that says that the carrier is lost. *)
Definition data_items (g : log) : list item :=
  flat_map frame_items (finished g) ++ map Oct (current g) ++ (if ended g then [Ends diagNoCarrier] else []).

Definition signal_items (g : log) : list item :=
  Pre :: data_items g ++ (if ended g then [NoSig] else []).

Definition log_send (g : log) (buf : list Z) : log := g <| current := current g ++ buf |>.
Definition log_stop (g : log) (more : bool) : log :=
  {| finished := finished g ++ [current g]; current := []; ended := negb more |}.

Lemma signal_items_send g buf : ended g = false -> signal_items (log_send g buf) = signal_items g ++ map Oct buf.
Proof.
  intros E. unfold signal_items, data_items, log_send. cbn. rewrite E, !app_nil_r, map_app. by rewrite app_assoc.
Qed.

Lemma flat_map_snoc {A B} (f : A -> list B) l x : flat_map f (l ++ [x]) = flat_map f l ++ f x.
Proof. rewrite flat_map_app. cbn. by rewrite app_nil_r. Qed.

Lemma signal_items_stop g more : ended g = false ->
  signal_items (log_stop g more) =
    signal_items g ++ (match current g with [] => [] | _ => [Ends 0] end) ++ (if more then [] else [Ends diagNoCarrier; NoSig]).
Proof.
  intros E. unfold signal_items, data_items, log_stop. cbn [finished current ended map app].
  rewrite E, !app_nil_r, flat_map_snoc. cbn [app]. f_equal.
  destruct more; cbn [negb]; rewrite ?app_nil_r, <- ?app_assoc; f_equal; destruct (current g); cbn [frame_items map app];
    rewrite <- ?app_assoc; done.
Qed.

(** ** Packets *)

Definition field_items (f : data_field) : list item :=
  (if field_type f =? e_hdlc_data then map Oct (default [] (field_data f)) else []) ++
  (if field_type f =? e_hdlc_fcs_OK then [Ends 0] else []) ++
  (if field_type f =? e_hdlc_sig_end then [Ends diagNoCarrier] else []).

Definition packet_items (p : ifp) : list item :=
  match p with
  | Indicator i => if i =? e_no_signal then [NoSig] else [Pre]
  | Data _ fields => flat_map field_items (default [] fields)
  end.

(** The packets of a V.21 signal: those the sender makes. *)
Inductive v21_packet : ifp -> Prop :=
| v21_preamble : v21_packet (Indicator e_v21_preamble)
| v21_silence : v21_packet (Indicator e_no_signal)
| v21_octets b l : v21_packet (Data e_v21 (Some [{| field_type := e_hdlc_data; field_data := Some (b :: l) |}]))
| v21_fcs : v21_packet (t38data e_v21 e_hdlc_fcs_OK)
| v21_sig_end : v21_packet (t38data e_v21 e_hdlc_sig_end).

(** The parameters of a V.21 signal, either way. *)
Definition v21_mods : MODPARS := GetModPars 3 by_val <| dataType := dtHdlc |> <| dataTypeT38 := dtHdlc |>.

Lemma octets_items t out : packet_items (Data t (Some [{| field_type := e_hdlc_data; field_data := Some out |}])) = map Oct out.
Proof.
  change (flat_map field_items [{| field_type := e_hdlc_data; field_data := Some out |}] = map Oct out).
  cbn [flat_map]. rewrite app_nil_r. change ((map Oct out ++ []) = map Oct out). by rewrite app_nil_r.
Qed.

(** ** The order of the items *)

Inductive stage := before | during | after | over.

Definition stage_item (q : stage) (i : item) : option stage :=
  match q, i with
  | before, Pre => Some during
  | during, Oct _ => Some during
  | during, Ends d => Some (if d =? 0 then during else after)
  | after, NoSig => Some over
  | _, _ => None
  end.

Fixpoint stages (q : stage) (l : list item) : option stage :=
  match l with
  | [] => Some q
  | i :: l => q ← stage_item q i; stages q l
  end.

Lemma stages_app q a b : stages q (a ++ b) = (q ← stages q a; stages q b).
Proof.
  revert q. induction a as [|i a IH]; intros q; [done|]. cbn [app stages]. destruct (stage_item q i); [|done].
  cbn [mbind option_bind]. apply IH.
Qed.

Lemma stages_octets l : stages during (map Oct l) = Some during.
Proof. induction l as [|b l IH]; [done|]. exact IH. Qed.

Lemma stages_frames fs : stages during (flat_map frame_items fs) = Some during.
Proof.
  induction fs as [|f fs IH]; [done|]. cbn [flat_map]. rewrite stages_app.
  destruct f as [|b f]; [exact IH|]. unfold frame_items. rewrite stages_app, stages_octets. exact IH.
Qed.

Lemma signal_stages g : is_Some (stages before (signal_items g)).
Proof.
  unfold signal_items, data_items. cbn [stages stage_item mbind option_bind]. rewrite <- !app_assoc, stages_app, stages_frames.
  cbn [mbind option_bind]. rewrite stages_app, stages_octets. cbn [mbind option_bind]. by destruct (ended g).
Qed.

(** The data of a sequence of items. *)
Definition is_data (i : item) : bool := match i with Oct _ | Ends _ => true | _ => false end.

Lemma filter_octets l : List.filter is_data (map Oct l) = map Oct l.
Proof. induction l as [|b l IH]; [done|]. cbn. by rewrite IH. Qed.

Lemma filter_frames fs : List.filter is_data (flat_map frame_items fs) = flat_map frame_items fs.
Proof.
  induction fs as [|f fs IH]; [done|]. cbn [flat_map]. rewrite List.filter_app, IH. f_equal.
  destruct f as [|b f]; [done|]. unfold frame_items. by rewrite List.filter_app, filter_octets.
Qed.

Lemma signal_data g : List.filter is_data (signal_items g) = data_items g.
Proof.
  unfold signal_items, data_items. cbn [List.filter is_data]. rewrite !List.filter_app, filter_frames, filter_octets.
  
  destruct (ended g); cbn [List.filter is_data]; by rewrite !app_nil_r.
Qed.

(** A modem whose callbacks only wake its own threads. *)
Definition silent : Z -> T38Engine -> T38Engine := fun _ e => e.

Lemma callback_silent p e : callback silent p e = e.
Proof. unfold callback. by destruct (modemCallback e). Qed.

(** What a reading of a stream gives. *)
Lemma pipe_get_split s count r out s' : pipe_get s count = (r, out, s') -> 0 < count ->
  r = -1 /\ out = [] /\ s' = s /\ p_octets s = [] /\ p_eof s = true \/
  r = 0 /\ out = [] /\ s' = s /\ p_octets s = [] /\ p_eof s = false \/
  0 < r /\ r = zlen out /\ p_octets s = out ++ p_octets s' /\ p_eof s' = p_eof s /\ p_diag s' = p_diag s.
Proof.
  intros E Hc. unfold pipe_get in E. destruct (p_octets s) as [|b l] eqn:Eo.
  - injection E as <- <- <-. destruct (p_eof s); [left|right; left]; done.
  - injection E as <- <- <-. right. right. rewrite length_take. cbn [length].
    split; [lia|]. split; [done|]. split; [|done]. cbn [p_octets]. symmetry. apply take_drop.
Qed.
