(* ===== verification/T38Send.v ===== *)
(** * Sending a V.21 signal

    While the modem hands over frames, at any time and in any portions, and
    [PreparePacket] takes its turns, the packets made so far and what the engine
    still holds are together the log of the modem. *)
From S2P Require Import Prelude DataStream EngineBase PmHdlc T30 ModStream T38Engine T38Signal.

(** ** The state *)

(** The octets of the frame that are in packets. *)
Definition in_packets (e : T38Engine) : Z :=
  match stateOut e with stOutData | stOutHdlcFcs => countOut e | _ => 0 end.

Definition nothing (c : Z) (l : list Z) : bool := (c =? 0) && match l with [] => true | _ => false end.

(** What the engine holds of the frame. *)
Definition frame_pending (e : T38Engine) : list item :=
  map Oct (p_octets (bufOut e)) ++
  (if p_eof (bufOut e) then
     (if nothing (in_packets e) (p_octets (bufOut e)) then [] else [Ends 0]) ++
     (if moreFramesOut e then [] else [Ends diagNoCarrier; NoSig])
   else []).

Definition pending (e : T38Engine) : list item :=
  if isStateModemOut (stateModem e) then
    match stateOut e with
    | stOutIdle => Pre :: frame_pending e
    | stOutDataNoSig => [Ends diagNoCarrier; NoSig]
    | _ => frame_pending e
    end
  else match stateOut e with stOutNoSig => [NoSig] | _ => [] end.

(** Where the modem and the sender are. *)
Definition phase (g : log) (e : T38Engine) : Prop :=
  match stateModem e with
  | stmOutMoreData =>
      ended g = false /\ p_eof (bufOut e) = false /\
      match stateOut e with
      | stOutIdle | stOutIndWait | stOutData =>
          0 <= in_packets e /\ in_packets e + zlen (p_octets (bufOut e)) = zlen (current g)
      | _ => False
      end
  | stmOutNoMoreData =>
      ended g = negb (moreFramesOut e) /\ current g = [] /\
      match stateOut e with
      | stOutIdle | stOutIndWait | stOutData => p_eof (bufOut e) = true /\ 0 <= in_packets e
      | stOutHdlcFcs => p_eof (bufOut e) = true /\ 0 <= in_packets e /\ p_octets (bufOut e) = []
      | stOutDataNoSig => ended g = true
      | _ => False
      end
  | stmIdle => ended g = true /\ current g = [] /\ match stateOut e with stOutIdle | stOutNoSig => True | _ => False end
  | _ => False
  end.

Record sends (o : Z) (g : log) (made : list item) (e : T38Engine) : Prop := {
  sends_owner : hOwnerOut e = Some o;
  sends_modem : IsModemOpen e = true;
  sends_quiet : onIdleOut e = dtNone;
  sends_mods : isStateModemOut (stateModem e) = true -> ModParsOut e = v21_mods;
  sends_hdlc : stateOut e = stOutData ->
    inDataType (hdlcOut e) = dtHdlc /\ outDataType (hdlcOut e) = dtHdlc /\ is_Some (inData (hdlcOut e));
  sends_phase : phase g e;
  sends_items : made ++ pending e = signal_items g;
}.

Lemma sends_open o g made e : sends o g made e -> closed_out o e = false.
Proof. intros [A B _ _ _ _ _]. unfold closed_out. rewrite B, A. by rewrite bool_decide_eq_true_2. Qed.

Lemma sends_log o g made e : sends o g made e -> ended g = true -> current g = [].
Proof.
  intros [_ _ _ _ _ H _]. unfold phase in H. destruct (stateModem e); try done; [by destruct H as (_ & ? & _)|..].
  - destruct H as [-> _]. done.
  - by destruct H as (_ & ? & _).
Qed.

(** ** The modem's side *)

Lemma SendStart_sends o e : hOwnerOut e = Some o -> IsModemOpen e = true -> onIdleOut e = dtNone ->
  stateModem e = stmIdle -> stateOut e = stOutIdle -> modStreamIn e = None -> modStreamInSaved e = None ->
  exists e', SendStart e dtHdlc 3 = Some (true, e') /\ sends o log_new [] e'.
Proof.
  intros H1 H2 H3 H4 H5 H6 H7. unfold SendStart, delete_in, delete_saved. rewrite H2, H4, H6. cbn [negb bool_decide].
  rewrite bool_decide_eq_true_2 by done. cbn [negb mbind option_bind]. rewrite bool_decide_eq_false_2 by done.
  cbn [negb]. rewrite H7. cbn [mbind option_bind].
  eexists. split; [reflexivity|]. split; try done; try exact H2.
  - intros H. cbn in H. by rewrite H5 in H.
  - unfold phase, in_packets. cbn. rewrite H5. split; [done|]. split; [done|]. split; [lia|done].
  - unfold pending. cbn. by rewrite H5.
Qed.

Lemma Send_sends o g made e buf : sends o g made e ->
  let '(r, e') := Send e buf in
  sends o (if r <? 0 then g else log_send g buf) made e'.
Proof.
  intros S. unfold Send. rewrite (sends_modem _ _ _ _ S). cbn [negb].
  destruct (bool_decide (stateModem e = stmOutMoreData)) eqn:Em; cbn [negb]; [|done].
  apply bool_decide_eq_true in Em. destruct S as [H1 H2 H3 H4 H5 H6 H7]. unfold phase in H6. rewrite Em in H6.
  destruct H6 as (E1 & E2 & H6). unfold pipe_put. rewrite E2. rewrite (proj2 (Z.ltb_ge _ 0)) by lia.
  set (e' := e <| bufOut := _ |>).
  assert (in_packets e' = in_packets e) as Ec by done. assert (stateOut e' = stateOut e) as Es by done.
  split; try done.
  - unfold phase. change (stateModem e') with (stateModem e). rewrite Em, Es, Ec. split; [done|]. split; [done|].
    change (p_octets (bufOut e')) with (p_octets (bufOut e) ++ buf). change (current (log_send g buf)) with (current g ++ buf).
    rewrite !length_app. destruct (stateOut e); try done; lia.
  - rewrite signal_items_send, <- H7 by done. rewrite <- app_assoc. f_equal.
    assert (frame_pending e' = frame_pending e ++ map Oct buf) as Hf.
    { unfold frame_pending. change (p_eof (bufOut e')) with (p_eof (bufOut e)). rewrite E2, !app_nil_r.
      change (p_octets (bufOut e')) with (p_octets (bufOut e) ++ buf). by rewrite map_app. }
    unfold pending. rewrite Es, Hf. change (stateModem e') with (stateModem e). rewrite Em. cbn [isStateModemOut].
    by destruct (stateOut e).
Qed.

Lemma nothing_frame c (l f : list Z) : 0 <= c -> c + zlen l = zlen f ->
  (if nothing c l then [] else [Ends 0]) = match f with [] => [] | _ => [Ends 0] end.
Proof.
  intros H1 H2. unfold nothing. destruct l as [|x l], f as [|y f]; cbn [length] in H2; rewrite ?andb_false_r; try done; try lia.
  - by rewrite (proj2 (Z.eqb_eq _ _)) by lia.
  - by rewrite (proj2 (Z.eqb_neq _ _)) by lia.
Qed.

Lemma SendStop_sends o g made e more cb : sends o g made e ->
  let '(r, e') := SendStop e more cb in
  sends o (if (r : bool) then log_stop g more else g) made e'.
Proof.
  intros S. unfold SendStop. rewrite (sends_modem _ _ _ _ S). cbn [negb].
  destruct (bool_decide (stateModem e = stmOutMoreData)) eqn:Em; cbn [negb]; [|done].
  apply bool_decide_eq_true in Em. destruct S as [H1 H2 H3 H4 H5 H6 H7]. unfold phase in H6. rewrite Em in H6.
  destruct H6 as (E1 & E2 & H6). set (e' := e <| bufOut := _ |> <| stateModem := _ |> <| moreFramesOut := _ |> <| callbackParamOut := _ |>).
  assert (in_packets e' = in_packets e) as Ec by done. assert (stateOut e' = stateOut e) as Es by done.
  split; try done.
  - intros _. apply H4. by rewrite Em.
  - unfold phase. change (stateModem e') with stmOutNoMoreData. cbn match. rewrite Es, Ec. split; [done|]. split; [done|].
    destruct (stateOut e); try done; by destruct H6.
  - rewrite signal_items_stop, <- H7 by done. rewrite <- !app_assoc. f_equal.
    assert (frame_pending e' = frame_pending e ++ (match current g with [] => [] | _ => [Ends 0] end) ++
      (if more then [] else [Ends diagNoCarrier; NoSig])) as Hf.
    { unfold frame_pending. rewrite Ec, E2, app_nil_r. change (p_eof (bufOut e')) with true. cbn match.
      change (p_octets (bufOut e')) with (p_octets (bufOut e)). change (moreFramesOut e') with more. f_equal. f_equal.
      apply nothing_frame; destruct (stateOut e); try done; apply H6. }
    unfold pending. rewrite Es, Hf. change (stateModem e') with stmOutNoMoreData. rewrite Em. cbn [isStateModemOut].
    by destruct (stateOut e).
Qed.

(** ** The turns of [PreparePacket] *)

Section turns.
Context (byte0 chunk0 len0 : Z).

Lemma sends_same o g made e e' : sends o g made e ->
  hOwnerOut e' = hOwnerOut e -> modemCallback e' = modemCallback e -> onIdleOut e' = onIdleOut e ->
  stateModem e' = stateModem e -> stateOut e' = stateOut e -> ModParsOut e' = ModParsOut e ->
  hdlcOut e' = hdlcOut e -> bufOut e' = bufOut e -> moreFramesOut e' = moreFramesOut e -> countOut e' = countOut e ->
  sends o g made e'.
Proof.
  intros [H1 H2 H3 H4 H5 H6 H7] E1 E2 E3 E4 E5 E6 E7 E8 E9 E10.
  assert (in_packets e' = in_packets e) as Ec by (unfold in_packets; by rewrite E5, E10).
  split.
  - by rewrite E1.
  - unfold IsModemOpen in *. by rewrite E2.
  - by rewrite E3.
  - by rewrite E4, E6.
  - by rewrite E5, E7.
  - unfold phase in *. by rewrite E4, E5, E8, E9, Ec.
  - unfold pending, frame_pending in *. by rewrite E4, E5, E8, E9, Ec.
Qed.

(** A turn that makes the packet [p] or none, and goes on. *)
Definition made_items (p : option ifp) : list item := default [] (packet_items <$> p).

Definition goes (o : Z) (g : log) (made : list item) (r : turns) : Prop :=
  exists p again wait d e', r = Some (TGo p again wait d, e') /\ sends o g (made ++ made_items p) e' /\
    match p with Some p => v21_packet p /\ again = false /\ wait = false | None => again || wait = true end.

Lemma goes_none o g made again wait d e : sends o g made e -> again || wait = true ->
  goes o g made (Some (TGo None again wait d, e)).
Proof. intros S H. exists None, again, wait, d, e. split; [done|]. split; [|done]. by rewrite app_nil_r. Qed.

Lemma goes_packet o g made p e : v21_packet p -> sends o g (made ++ packet_items p) e -> goes o g made (packet p e).
Proof. intros V S. by exists (Some p), false, false, true, e. Qed.

Lemma out_callback_silent o p e k : closed_out o e = false -> out_callback silent o p e k = k e.
Proof. intros H. unfold out_callback. by rewrite callback_silent, H. Qed.

Lemma no_more_full_silent o w e k : closed_out o e = false -> no_more_full silent o w e k = k e.
Proof. intros H. unfold no_more_full. destruct (_ && _); [by apply out_callback_silent|done]. Qed.

Lemma begin_goes o g made e : sends o g made e -> isStateModemOut (stateModem e) = true -> stateOut e = stOutIdle ->
  goes o g made (out_begin e).
Proof.
  intros [H1 H2 H3 H4 H5 H6 H7] Hm Hs. unfold out_begin. rewrite (H4 Hm). cbn [dataTypeT38 v21_mods].
  change (ind v21_mods) with e_v21_preamble. apply goes_packet; [constructor|]. split; try done.
  - unfold phase in *. change (stateModem (e <| stateOut := _ |>)) with (stateModem e).
    change (in_packets (e <| stateOut := stOutIndWait |>)) with 0. unfold in_packets in H6. rewrite Hs in H6. by destruct (stateModem e); try done; exact H6.
  - rewrite <- H7, <- app_assoc. f_equal. unfold pending. change (stateModem (e <| stateOut := _ |>)) with (stateModem e).
    rewrite Hm, Hs. cbn [stateOut packet_items]. f_equal. unfold frame_pending, in_packets. by rewrite Hs.
Qed.

Lemma idle_goes o g made now e : sends o g made e -> isStateModemOut (stateModem e) = true -> stateOut e = stOutIdle ->
  goes o g made (out_idle now e).
Proof.
  intros S Hm Hs. unfold out_idle. destruct (_ && _ && _); [by apply (goes_none _ _ _ true false)|]. cbn zeta.
  set (e1 := e <| delaySignalOut := false |>). assert (sends o g made e1) as S1 by (by eapply sends_same).
  assert (isStateModemOut (stateModem e1) = true /\ stateOut e1 = stOutIdle) as [Hm1 Hs1] by done. clearbody e1.
  destruct (_ && _); [|by apply begin_goes].
  destruct (_ =? 1); [apply goes_none; [by eapply sends_same|done]|].
  destruct (_ <? _); [by apply (goes_none _ _ _ true false)|]. apply begin_goes; [by eapply sends_same|done|done].
Qed.

Lemma start_goes o g made now e : sends o g made e -> isStateModemOut (stateModem e) = true -> stateOut e = stOutIndWait ->
  goes o g made (out_start byte0 chunk0 len0 now e).
Proof.
  intros [H1 H2 H3 H4 H5 H6 H7] Hm Hs. unfold out_start. cbn zeta.
  set (e1 := if msgType _ =? e_v21 then _ else _).
  assert (ModParsOut e1 = v21_mods /\ stateOut e1 = stOutData /\ countOut e1 = 0 /\ stateModem e1 = stateModem e /\
    bufOut e1 = bufOut e /\ moreFramesOut e1 = moreFramesOut e /\ hOwnerOut e1 = Some o /\ IsModemOpen e1 = true /\ onIdleOut e1 = dtNone)
    as (A1 & A2 & A3 & A4 & A5 & A6 & A7 & A8 & A9).
  { unfold e1. destruct (_ =? _); (split; [exact (H4 Hm)|done]). }
  clearbody e1. rewrite A1. cbn [dataType v21_mods].
  set (e2 := e1 <| hdlcOut := _ |>). change (ModParsOut e2) with (ModParsOut e1). rewrite A1. cbn [dataTypeT38 v21_mods].
  apply goes_none; [|done]. set (e3 := e2 <| hdlcOut := _ |>).
  assert (in_packets e3 = 0) as Ec by (unfold in_packets; change (stateOut e3) with (stateOut e1); by rewrite A2).
  assert (in_packets e = 0) as Ec' by (unfold in_packets; by rewrite Hs).
  split; try done.
  - unfold phase in *. change (stateModem e3) with (stateModem e1). change (bufOut e3) with (bufOut e1).
    change (stateOut e3) with (stateOut e1). change (moreFramesOut e3) with (moreFramesOut e1).
    rewrite A2, A4, A5, A6, Ec. rewrite Ec', Hs in H6. by destruct (stateModem e).
  - rewrite <- H7. f_equal. unfold pending, frame_pending. rewrite Ec, Ec', Hs.
    change (stateModem e3) with (stateModem e1). change (bufOut e3) with (bufOut e1).
    change (stateOut e3) with (stateOut e1). change (moreFramesOut e3) with (moreFramesOut e1).
    by rewrite A2, A4, A5, A6, Hm.
Qed.

(** The octets of a frame go through unchanged. *)
Lemma hdlc_get h s n r out s' : inDataType h = dtHdlc -> outDataType h = dtHdlc -> is_Some (inData h) ->
  pipe_get s n = (r, out, s') ->
  exists h', PmHdlc.GetData h s n = Some (r, out, h', s') /\
    (0 <= r -> inDataType h' = dtHdlc /\ outDataType h' = dtHdlc /\ is_Some (inData h')).
Proof.
  intros E1 E2 [i E3] Eg. unfold PmHdlc.GetData, GetHdlcData, GetInData. rewrite E2, E1, E3, Eg. cbn zeta.
  assert (r < 0 -> r = -1 /\ out = []) as Hr.
  { unfold pipe_get in Eg. destruct (p_octets s); injection Eg as <- <- <-; [destruct (p_eof s)|]; done || lia. }
  destruct (0 <? r) eqn:Er.
  - rewrite Er. eexists. split; [reflexivity|]. intros _. split; [exact E1|]. split; [exact E2|]. by exists i.
  - destruct (r <? 0) eqn:Er'.
    + apply Z.ltb_lt in Er'. destruct (Hr Er') as [-> ->]. eexists. split; [reflexivity|]. lia.
    + rewrite Er. eexists. split; [reflexivity|]. intros _. split; [exact E1|]. split; [exact E2|]. by exists i.
Qed.

Lemma out_len_v21 : out_len v21_mods = 1.
Proof. reflexivity. Qed.

(** The end of the octets: the frame check sequence is next. *)
Lemma octets_end o g made now h e : sends o g made e -> stateOut e = stOutData -> isStateModemOut (stateModem e) = true ->
  p_octets (bufOut e) = [] -> p_eof (bufOut e) = true ->
  goes o g made (out_octets silent o now (-1) [] (e <| hdlcOut := h |>)).
Proof.
  intros [H1 H2 H3 H4 H5 H6 H7] Hs Hm Eb Ee. unfold out_octets. cbn [Z.eqb Pos.eqb].
  set (e1 := e <| hdlcOut := h |> <| startedTimeOutBufEmpty := false |>).
  change (ModParsOut e1) with (ModParsOut e). rewrite (H4 Hm). cbn [dataTypeT38 v21_mods]. apply goes_none; [|done].
  assert (in_packets (e1 <| stateOut := stOutHdlcFcs |>) = in_packets e) as Ec by (unfold in_packets; rewrite Hs; done).
  split; try done.
  - unfold phase in *. rewrite Ec. change (stateModem (_ <| stateOut := _ |>)) with (stateModem e).
    rewrite Hs in H6. destruct (stateModem e); try done; [by destruct H6 as (_ & H & _); rewrite Ee in H|].
    destruct H6 as (A & B & C & D). split; [exact A|]. split; [exact B|]. split; [exact C|]. split; [exact D|exact Eb].
  - rewrite <- H7. f_equal. unfold pending, frame_pending. rewrite Ec, Hs.
    change (stateModem (_ <| stateOut := _ |>)) with (stateModem e). by rewrite Hm.
Qed.

(** Nothing to send yet. *)
Lemma octets_none o g made now e : sends o g made e -> stateOut e = stOutData -> isStateModemOut (stateModem e) = true ->
  goes o g made (out_octets silent o now 0 [] e).
Proof.
  intros S Hs Hm. pose proof (sends_open _ _ _ _ S) as Ho. unfold out_octets, out_empty. cbn [Z.eqb]. cbn zeta.
  assert (goes o g made (wait_data e)) as K by by apply goes_none.
  destruct (_ && _); [by rewrite out_callback_silent|]. destruct (negb _); [apply goes_none; [by eapply sends_same|done]|].
  destruct (_ <=? _); [by rewrite out_callback_silent|done].
Qed.

(** Octets go into a packet. *)
Lemma octets_some o g made now h s out e : sends o g made e -> stateOut e = stOutData -> isStateModemOut (stateModem e) = true ->
  inDataType h = dtHdlc /\ outDataType h = dtHdlc /\ is_Some (inData h) ->
  0 < zlen out -> p_octets (bufOut e) = out ++ p_octets s -> p_eof s = p_eof (bufOut e) ->
  goes o g made (out_octets silent o now (zlen out) out (e <| hdlcOut := h |> <| bufOut := s |>)).
Proof.
  intros [H1 H2 H3 H4 H5 H6 H7] Hs Hm Hh Hl Eb Ee. unfold out_octets.
  rewrite (proj2 (Z.eqb_neq _ _)), (proj2 (Z.eqb_neq _ _)) by lia. cbn zeta.
  set (e1 := e <| hdlcOut := h |> <| bufOut := s |> <| startedTimeOutBufEmpty := false |>).
  change (ModParsOut e1) with (ModParsOut e). rewrite (H4 Hm). cbn [dataTypeT38 v21_mods].
  change (msgType v21_mods =? e_v21) with true. cbn match. unfold t38data_octets. rewrite (proj2 (Z.ltb_lt _ _)) by exact Hl.
  change (msgType v21_mods) with e_v21. set (e2 := e1 <| t30 := _ |> <| countOut := _ |>).
  assert (in_packets e = countOut e) as Ec by (unfold in_packets; by rewrite Hs).
  assert (in_packets e2 = countOut e + zlen out) as Ec2.
  { unfold in_packets. change (stateOut e2) with (stateOut e). rewrite Hs. reflexivity. }
  assert (nothing (in_packets e) (p_octets (bufOut e)) = nothing (in_packets e2) (p_octets s)) as En.
  { unfold nothing. rewrite Eb. destruct out as [|x out]; [done|]. cbn [app]. rewrite andb_false_r, Ec2.
    rewrite (proj2 (Z.eqb_neq _ _)); [done|]. rewrite <- Ec. unfold phase in H6. rewrite Hs in H6. cbn [length].
    destruct (stateModem e); try done; lia. }
  apply goes_packet; [destruct out; [done|constructor]|]. split; try done.
  - unfold phase in *. rewrite Ec2. change (stateModem e2) with (stateModem e). change (stateOut e2) with (stateOut e).
    rewrite Hs in *. change (bufOut e2) with s. rewrite Ee. destruct (stateModem e); try done.
    + destruct H6 as (A & B & C & D). rewrite Eb, length_app in D. rewrite Ec in *. split; [done|]. split; [done|]. lia.
    + destruct H6 as (A & B & C & D). rewrite Ec in *. split; [done|]. split; [done|]. split; [done|]. lia.
  - rewrite <- H7, <- app_assoc. f_equal. unfold pending, frame_pending.
    change (stateModem e2) with (stateModem e). change (stateOut e2) with (stateOut e). rewrite Hm, Hs, En, Eb, map_app.
    change (bufOut e2) with s. change (moreFramesOut e2) with (moreFramesOut e). rewrite Ee.
    rewrite octets_items. by rewrite <- app_assoc.
Qed.

(** The state after an octet, the end or nothing was got. *)
Lemma data_goes o g made now e : sends o g made e -> isStateModemOut (stateModem e) = true -> stateOut e = stOutData ->
  goes o g made (out_data silent o now e).
Proof.
  intros S Hm Hs. pose proof (sends_open _ _ _ _ S) as Ho. pose proof S as [H1 H2 H3 H4 H5 H6 H7].
  unfold out_data. rewrite (H4 Hm), out_len_v21. destruct (H5 Hs) as (D1 & D2 & D3).
  destruct (pipe_get (bufOut e) 1) as [[r out] s] eqn:Eg.
  destruct (hdlc_get _ _ _ _ _ _ D1 D2 D3 Eg) as (h & -> & Hh). cbn [mbind option_bind].
  rewrite no_more_full_silent by exact Ho.
  destruct (pipe_get_split _ _ _ _ _ Eg ltac:(lia)) as [(-> & -> & -> & E1 & E2)|[(-> & -> & -> & E1 & E2)|(Hr & -> & E1 & E2 & E3)]].
  - change (e <| hdlcOut := h |> <| bufOut := bufOut e |>) with (e <| hdlcOut := h |>). by apply octets_end.
  - apply octets_none; [|done|done]. split; try done. intros _. by apply Hh.
  - apply octets_some; try done. apply Hh. lia.
Qed.

(** The end of a frame goes into a packet if the frame has octets. *)
Lemma emit_goes o g made e (b : bool) : sends o g (made ++ (if b then [Ends 0] else [])) e ->
  goes o g made ((if b : bool then packet (t38data e_v21 e_hdlc_fcs_OK) else redo) e).
Proof.
  destruct b; intros S.
  - apply goes_packet; [constructor|exact S].
  - rewrite app_nil_r in S. by apply goes_none.
Qed.

Lemma fcs_goes o g made e : sends o g made e -> isStateModemOut (stateModem e) = true -> stateOut e = stOutHdlcFcs ->
  goes o g made (out_fcs silent o e).
Proof.
  intros S Hm Hs. pose proof (sends_open _ _ _ _ S) as Ho. destruct S as [H1 H2 H3 H4 H5 H6 H7].
  unfold out_fcs. rewrite (H4 Hm). change (msgType v21_mods) with e_v21. cbn [Z.eqb e_v21]. cbn zeta.
  set (e1 := e <| t30 := v21Begin (v21End (t30 e)) |>). change (ModParsOut e1) with (ModParsOut e). rewrite (H4 Hm). change (dataType v21_mods) with dtHdlc. cbn match.
  change (stateModem e1) with (stateModem e). unfold phase in H6. rewrite Hs in H6.
  destruct (stateModem e) eqn:Em; try done; [by destruct H6 as (_ & _ & [])|].
  destruct H6 as (G1 & G2 & G3 & G4 & G5). rewrite bool_decide_eq_true_2 by done. cbn [negb].
  set (e2 := e1 <| countOut := 0 |> <| bufOut := pipe_clean (bufOut e1) |>
    <| hdlcOut := GetHdlcStart (PutHdlcData (hdlcOut e1) (Some 1%positive)) false |>).
  change (moreFramesOut e2) with (moreFramesOut e). change (callbackParamOut e2) with (callbackParamOut e).
  change (countOut e1) with (countOut e).
  unfold pending, frame_pending in H7. rewrite Em, Hs, G3, G5 in H7. cbn [isStateModemOut map app] in H7.
  assert (nothing (in_packets e) [] = (countOut e =? 0)) as En by (unfold nothing, in_packets; by rewrite Hs, andb_true_r).
  rewrite En in H7.
  assert (made ++ (if negb (countOut e =? 0) then [Ends 0] else []) ++ (if moreFramesOut e then [] else [Ends diagNoCarrier; NoSig]) =
    signal_items g) as HI by (rewrite <- H7; by destruct (countOut e =? 0)).
  destruct (moreFramesOut e) eqn:Ef.
  - rewrite out_callback_silent by exact Ho. apply emit_goes. split; try done.
    + unfold phase. cbn [stateModem stateOut]. split; [exact G1|]. split; [done|]. rewrite G2. done.
    + rewrite <- HI, <- app_assoc. f_equal.
  - apply emit_goes. set (e3 := e2 <| stateOut := stOutDataNoSig |>).
    assert (stateModem e3 = stmOutNoMoreData) as Em3 by exact Em. split; try done.
    + intros _. exact (H4 eq_refl).
    + unfold phase. rewrite Em3. change (stateOut e3) with stOutDataNoSig. change (moreFramesOut e3) with (moreFramesOut e).
      rewrite Ef. by split.
    + rewrite <- HI, <- app_assoc. f_equal. unfold pending. by rewrite Em3.
Qed.

Lemma end_goes o g made e : sends o g made e -> isStateModemOut (stateModem e) = true -> stateOut e = stOutDataNoSig ->
  goes o g made (out_end silent o e).
Proof.
  intros S Hm Hs. pose proof (sends_open _ _ _ _ S) as Ho. destruct S as [H1 H2 H3 H4 H5 H6 H7].
  unfold out_end. unfold phase in H6. rewrite Hs in H6.
  destruct (stateModem e) eqn:Em; try done; [by destruct H6 as (_ & _ & [])|].
  rewrite bool_decide_eq_true_2 by done. cbn [negb]. cbn zeta. rewrite (H4 eq_refl). cbn [dataTypeT38 v21_mods].
  rewrite out_callback_silent by exact Ho. change (msgType v21_mods) with e_v21.
  apply goes_packet; [constructor|].
  split; try done.
  - split; [apply H6|]. split; [apply H6|done].
  - rewrite <- H7, <- app_assoc. f_equal. unfold pending. by rewrite Em, Hs.
Qed.

(** Every turn goes on, and what it makes comes off what is pending. *)
Lemma turn_goes o g made now e : sends o g made e -> goes o g made (out_turn byte0 chunk0 len0 silent o now e).
Proof.
  intros S. pose proof (sends_open _ _ _ _ S) as Ho. unfold out_turn. rewrite Ho. pose proof S as [H1 H2 H3 H4 H5 H6 H7].
  destruct (isStateModemOut (stateModem e)) eqn:Hm; cbn [orb].
  - destruct (stateOut e) eqn:Hs.
    + by apply idle_goes.
    + exfalso. unfold phase in H6. rewrite Hs in H6. by destruct (stateModem e); try done; destruct H6 as (_ & _ & []).
    + exfalso. unfold phase in H6. rewrite Hs in H6. by destruct (stateModem e); try done; destruct H6 as (_ & _ & []).
    + by apply start_goes.
    + by apply data_goes.
    + by apply fcs_goes.
    + by apply end_goes.
    + exfalso. unfold phase in H6. rewrite Hs in H6. by destruct (stateModem e); try done; destruct H6 as (_ & _ & []).
  - unfold phase in H6. destruct (stateModem e) eqn:Em; try done. destruct H6 as (G1 & G0 & G2).
    destruct (stateOut e) eqn:Hs; try done.
    + rewrite bool_decide_eq_true_2 by done. cbn [negb]. cbn zeta. rewrite H3. apply goes_none; [by eapply sends_same|done].
    + rewrite bool_decide_eq_false_2 by done. cbn [negb]. apply goes_packet; [constructor|]. split; try done.
      * intros H. cbn in H. by rewrite Em in H.
      * unfold phase. cbn. by rewrite Em.
      * rewrite <- H7, <- app_assoc. f_equal. unfold pending. cbn. by rewrite Em, Hs.
Qed.

(** ** Whole calls of [PreparePacket] *)

(** A call that made no packet, or one. *)
Definition prepared_ok (o : Z) (g : log) (made : list item) (r : prepared) (e : T38Engine) : Prop :=
  match r with
  | Waiting => sends o g made e
  | Returned r None => r = -1 /\ sends o g made e
  | Returned r (Some p) => r = 1 /\ v21_packet p /\ sends o g (made ++ packet_items p) e
  end.

(** Nobody does anything meanwhile. *)
Definition alone (clock : list moment) : Prop := Forall (fun m => forall e, others m e = e) clock.

Lemma next_due_sends o g made now e : sends o g made e -> is_Some (next_due now e).
Proof.
  intros [H1 H2 H3 H4 H5 H6 H7]. unfold next_due. destruct (stateOut e) eqn:Es; try done.
  all: assert (isStateModemOut (stateModem e) = true) as Hm by
    (unfold phase in H6; rewrite Es in H6; destruct (stateModem e); try done; by destruct H6 as (_ & _ & [])).
  all: by rewrite (H4 Hm).
Qed.

Lemma after_wait_sends o g made now e : sends o g made e -> sends o g made (after_wait now e).
Proof.
  intros S. unfold after_wait. destruct (bool_decide _); [|done]. destruct S as [H1 H2 H3 H4 H5 H6 H7]. by split.
Qed.

Lemma prepare_sends o g made end_ clock : alone clock -> forall at_ e, sends o g made e ->
  exists r e', prepare byte0 chunk0 len0 silent clock o end_ at_ e = Some (r, e') /\ prepared_ok o g made r e'.
Proof.
  induction 1 as [|m clock Hm _ IH]; intros at_ e S; cbn [prepare]; [by exists Waiting, e|]. cbn zeta. rewrite Hm.
  pose proof (sends_open _ _ _ _ S) as Ho. rewrite Ho.
  assert (forall b : bool, exists r e', (if b then Some (Returned (-1) None, e) else
    prepare byte0 chunk0 len0 silent clock o end_ Slept e) = Some (r, e') /\ prepared_ok o g made r e') as K1.
  { intros []; [by exists (Returned (-1) None), e|by apply IH]. }
  assert ((match at_ with Slept => false | _ => false end) = false) as -> by by destruct at_.
  destruct (match at_ with Sleep | Slept => _ | _ => false end); [apply K1|].
  destruct (match at_ with Woken _ _ => _ | _ => false end); [by exists (Returned (-1) None), e|].
  set (x := match at_ with Woken _ d => _ | _ => _ end). assert (sends o g made x.1) as Sx.
  { unfold x. destruct at_; try done. by apply after_wait_sends. }
  destruct x as [e1 d]. cbn [fst] in Sx.
  destruct (turn_goes o g made (time m) e1 Sx) as (p & again & wait & d' & e2 & -> & S2 & Hp). cbn [mbind option_bind].
  destruct (next_due_sends o g _ (time m) e2 S2) as [due Ed]. destruct p as [p|]; unfold made_items in S2; cbn [default fmap option_fmap option_map] in S2.
  - destruct Hp as (Hv & -> & ->). rewrite Ed. cbn [mbind option_bind]. eexists _, _. split; [reflexivity|].
    split; [done|]. split; [done|]. by eapply sends_same.
  - change (default [] (packet_items <$> None)) with ([] : list item) in S2. rewrite app_nil_r in S2. destruct wait.
    + destruct (expired _ _ _); [by exists (Returned (-1) None), e2|by apply IH].
    + rewrite Ed. cbn [mbind option_bind]. destruct again; [|done]. apply IH. by eapply sends_same.
Qed.

Lemma PreparePacket_sends o g made start clock e : alone clock -> sends o g made e ->
  exists r e', PreparePacket byte0 chunk0 len0 silent start clock o e = Some (r, e') /\ prepared_ok o g made r e'.
Proof.
  intros Hc S. unfold PreparePacket. rewrite (sends_open _ _ _ _ S). cbn zeta. rewrite callback_silent.
  assert (sends o g made (if firstOut e then e <| firstOut := false |> else e)) as S1.
  { destruct (firstOut e); [by eapply sends_same|done]. }
  generalize dependent (if firstOut e then e <| firstOut := false |> else e). clear e S. intros e S.
  rewrite (sends_open _ _ _ _ S). destruct (_ <? preparePacketPeriod e); [|by apply prepare_sends].
  destruct Hc as [|m clock Hm Hc]; [by exists Waiting, e|]. rewrite Hm, (sends_open _ _ _ _ S). by apply prepare_sends.
Qed.
End turns.
