(* ===== verification/T38Receive.v ===== *)
(** * Receiving a V.21 signal

    While the packets of a signal come and the modem reads, in any portions and
    whenever it likes, what it has read and what its streams still hold are
    together what the packets said. *)
From stdpp Require Import gmap.
From S2P Require Import Prelude DataStream EngineBase PmHdlc T30 PmHdlcTotal ModStream T38Engine T38EngineSafe.
From S2P Require Import T38Signal.

(** ** The state *)

Definition stream_items (x : positive * pipe) : list item :=
  map Oct (p_octets x.2) ++ (if p_eof x.2 then [Ends (p_diag x.2)] else []).

Definition unread (l : owned) : list item := flat_map stream_items l.

(** A stream with a frame that has ended, and the carrier has not. *)
Definition whole (x : positive * pipe) : Prop := p_eof x.2 = true /\ p_diag x.2 .& diagNoCarrier = 0.

(** [dg] are the diagnostics of the frame that is being received. *)
Definition streams_at (q : stage) (dg : Z) (m : ModStream) (l : owned) : Prop :=
  match q with
  | before => l = [] /\ firstBuf m = None /\ lastBuf m = None
  | during => exists l0 id p, l = l0 ++ [(id, p)] /\ Forall whole l0 /\ p_eof p = false /\ p_diag p = dg /\ lastBuf m = Some id
  | _ => lastBuf m = None /\
         (l = [] \/ exists l0 id p, l = l0 ++ [(id, p)] /\ Forall whole l0 /\ p_eof p = true /\ p_diag p .& diagNoCarrier <> 0)
  end.

Definition modem_at (q : stage) (sm : StateModem) (m : ModStream) (l : owned) : Prop :=
  match sm with
  | stmInWaitData => q = before
  | stmInReadyData => q <> before /\ firstBuf m = None /\ l <> []
  | stmInRecvData => q <> before /\ firstBuf m <> None
  | stmIdle => match q with after | over => l = [] | _ => False end
  | _ => False
  end.

Record receives (o : Z) (q : stage) (dg : Z) (got read : list item) (e : T38Engine) : Prop := {
  receives_owner : hOwnerIn e = Some o;
  receives_modem : IsModemOpen e = true;
  receives_saved : modStreamInSaved e = None;
  receives_stream : exists m l, modStreamIn e = Some m /\ ModPars m = v21_mods /\ owns (heap e) l /\ holds m l /\
    streams_at q dg m l /\ modem_at q (stateModem e) m l /\ read ++ unread l = got;
}.

Lemma receives_open o q dg got read e : receives o q dg got read e -> closed_in o e = false.
Proof. intros [A B _ _]. unfold closed_in. rewrite B, A. by rewrite bool_decide_eq_true_2. Qed.

Lemma receives_same o q dg got read e e' : receives o q dg got read e ->
  hOwnerIn e' = hOwnerIn e -> modemCallback e' = modemCallback e -> modStreamInSaved e' = modStreamInSaved e ->
  modStreamIn e' = modStreamIn e -> heap e' = heap e -> stateModem e' = stateModem e -> receives o q dg got read e'.
Proof.
  intros [A B C D] E1 E2 E3 E4 E5 E6. split; [by rewrite E1|unfold IsModemOpen in *; by rewrite E2|by rewrite E3|].
  by rewrite E4, E5, E6.
Qed.

Lemma unread_app a b : unread (a ++ b) = unread a ++ unread b.
Proof. apply flat_map_app. Qed.

Lemma modem_at_over sm m l : modem_at after sm m l -> modem_at over sm m l.
Proof. destruct sm; cbn; try done; by intros [_ H]. Qed.

Lemma unread_one x : unread [x] = stream_items x.
Proof. unfold unread. cbn [flat_map]. by rewrite app_nil_r. Qed.

Section engine.
Context (byte0 chunk0 len0 : Z).

Abbreviation handle := (HandlePacket byte0 chunk0 len0 silent).

(** ** The steps of [HandlePacket] *)

Lemma call_back_silent o f e : closed_in o e = false -> call_back silent o f e = Some (true, e).
Proof. intros H. unfold call_back. by rewrite callback_silent, H. Qed.

Lemma data_callback_silent o e : closed_in o e = false -> data_callback silent o e = Some (true, e).
Proof. intros H. unfold data_callback. destruct (bool_decide _); [by apply call_back_silent|done]. Qed.

Lemma end_silence_no o e : stateModem e <> stmInWaitSilence -> end_silence silent o e = Some (true, e).
Proof. intros H. unfold end_silence. by rewrite bool_decide_eq_false_2. Qed.

Definition receives_next (o : Z) (q : stage) (dg : Z) (got read : list item) (r : option (bool * T38Engine)) : Prop :=
  exists e', r = Some (true, e') /\ receives o q dg got read e'.

(** The last words of [HandlePacket]. *)
Lemma handle_end o q dg got read (s : step) e : closed_in o e = false -> receives_next o q dg got read (s e) ->
  receives_next o q dg got read
    (then_ s (fun e => if negb (firstIn e) then call_back silent o (fun _ => cbpUpdateState) (e <| firstIn := false |>)
                       else Some (true, e)) e).
Proof.
  intros Ho (e1 & E & R). unfold then_. rewrite E. cbn [mbind option_bind]. destruct (negb (firstIn e1)).
  - rewrite call_back_silent by exact (receives_open _ _ _ _ _ _ R). eexists. split; [reflexivity|]. by eapply receives_same.
  - by exists e1.
Qed.

Lemma not_writing o q dg got read e : receives o q dg got read e -> q <> during -> writing (modStreamIn e) = false.
Proof.
  intros [_ _ _ (m & l & -> & _ & _ & _ & S & _)] Hq. cbn. apply bool_decide_eq_false_2.
  destruct q; [destruct S as (_ & _ & ->)|done|destruct S as [-> _]|destruct S as [-> _]]; by intros [].
Qed.

Lemma not_wait_silence o q dg got read e : receives o q dg got read e -> stateModem e <> stmInWaitSilence.
Proof. intros [_ _ _ (m & l & _ & _ & _ & _ & _ & M & _)] E. by rewrite E in M. Qed.

(** What an indicator meets: nothing is being written, nothing was saved. *)
Lemma indicator_plain o q dg got read e i : receives o q dg got read e -> q <> during ->
  handle_indicator byte0 chunk0 len0 silent o i e = indicated byte0 chunk0 len0 silent o i e.
Proof.
  intros R Hq. unfold handle_indicator, repeated, out_of_order, then_, delete_saved. rewrite (not_writing _ _ _ _ _ _ R Hq).
  cbn [andb orb]. rewrite (receives_saved _ _ _ _ _ _ R). cbn [writing andb orb]. cbn [mbind option_bind].
  by rewrite (receives_saved _ _ _ _ _ _ R).
Qed.

Lemma silence_received o dg got read e : receives o after dg got read e ->
  receives_next o over dg got read (handle_indicator byte0 chunk0 len0 silent o e_no_signal e).
Proof.
  intros R. rewrite (indicator_plain o after dg got read) by done. unfold indicated. cbn [Z.eqb e_no_signal].
  rewrite end_silence_no by exact (not_wait_silence _ _ _ _ _ _ R). eexists. split; [reflexivity|].
  destruct R as [A B C (m & l & H1 & H2 & H3 & H4 & H5 & H6 & H7)]. split; [done|done|done|].
  exists m, l. split_and!; [exact H1|exact H2|exact H3|exact H4|exact H5| |exact H7].
  change (stateModem (e <| isCarrierIn := 0 |>)) with (stateModem e).
  by apply modem_at_over.
Qed.

Lemma delete_saved_of e m h : modStreamInSaved e = Some m -> ModStream_delete (heap e) m = Some h ->
  delete_saved e = Some (e <| heap := h |> <| modStreamInSaved := None |>).
Proof. intros E1 E2. unfold delete_saved. by rewrite E1, E2. Qed.

Lemma preamble_received o e dg got read : receives o before dg got read e ->
  receives_next o during 0 got read (handle_indicator byte0 chunk0 len0 silent o e_v21_preamble e).
Proof.
  intros R. pose proof (receives_open _ _ _ _ _ _ R) as Ho. rewrite (indicator_plain o before dg got read) by done.
  destruct R as [A B C (m & l & H1 & H2 & H3 & H4 & (-> & F & La) & H6 & H7)].
  change (indicated byte0 chunk0 len0 silent o e_v21_preamble e) with (begin_signal byte0 chunk0 len0 silent o e_v21_preamble e).
  unfold begin_signal. cbn zeta. change (heap (e <| isCarrierIn := 1 |>)) with (heap e).
  set (new := ModStream_new byte0 chunk0 len0 _).
  pose proof (PushBuf_spec (heap e) new [] [] H3 (holds_nil _ _ _ _)) as P.
  destruct (PushBuf (heap e) new) as [h saved] eqn:EP. destruct P as (S1 & P1 & Es).
  assert (stateModem e = stmInWaitData) as Em by (destruct (stateModem e); try done; by destruct H6).
  rewrite bool_decide_eq_false_2 by (change (stateModem e <> stmInWaitSilence); by rewrite Em).
  rewrite bool_decide_eq_true_2 by exact Em.
  set (e1 := e <| isCarrierIn := 1 |> <| heap := h |> <| modStreamInSaved := Some saved |> <| countIn := 0 |>).
  change (modStreamIn e1) with (modStreamIn e). rewrite H1. unfold take_saved.
  assert (IsEqual (ModPars m) (ModPars saved) = true) as -> by (rewrite H2, Es; reflexivity).
  destruct (Move_spec m saved _ _ H4 P1) as (M1 & M2 & M3 & M4). destruct (Move m saved) as [m2 saved2] eqn:EM.
  cbn [fst snd] in M1, M2, M3, M4.
  destruct (ModStream_delete_spec h saved2 [] ([] ++ [(next (heap e), pipe_new 0)]) ltac:(by rewrite app_nil_r in S1) M2)
    as (h2 & E2 & S2).
  rewrite (delete_saved_of _ saved2 h2); [|reflexivity|exact E2].
  cbn [mbind option_bind].
  rewrite call_back_silent by exact Ho. eexists. split; [reflexivity|]. split; [done|done|done|].
  exists m2, [(next (heap e), pipe_new 0)]. split_and!; try done.
  - by rewrite M3.
  - eexists [], _, _. split; [reflexivity|]. split; [constructor|]. split_and!; try done.
    assert (lastBuf m2 = lastBuf saved) as -> by (unfold Move in EM; by injection EM as <- _). by rewrite Es.
  - cbn. rewrite M4. done.
Qed.

(** Data meets the stream that is being written. *)
Lemma data_plain o dg got read e f : receives o during dg got read e ->
  handle_data silent o e_v21 (Some [f]) e = then_ (handle_fields silent o ToIn [f]) (data_callback silent o) e.
Proof.
  intros [A B C (m & l & H1 & H2 & H3 & H4 & (l0 & id & p & -> & W & E1 & E2 & E3) & H6 & H7)].
  unfold handle_data, data_target. rewrite H1. cbn [writing]. rewrite E3, bool_decide_eq_true_2 by done.
  cbn [target_stream]. rewrite H1, H2. reflexivity.
Qed.

(** The state when the last stream, the one being written, is [p]. *)
Definition writes_to (o : Z) (got read : list item) (e : T38Engine) (m : ModStream) (l0 : owned) (id : positive) (p : pipe) : Prop :=
  hOwnerIn e = Some o /\ IsModemOpen e = true /\ modStreamInSaved e = None /\ modStreamIn e = Some m /\ ModPars m = v21_mods /\
  owns (heap e) ((l0 ++ [(id, p)]) ++ []) /\ holds m (l0 ++ [(id, p)]) /\ Forall whole l0 /\ p_eof p = false /\ lastBuf m = Some id /\
  modem_at during (stateModem e) m (l0 ++ [(id, p)]) /\ read ++ unread l0 ++ map Oct (p_octets p) = got.

Lemma stream_items_open id p : p_eof p = false -> stream_items (id, p) = map Oct (p_octets p).
Proof. intros E. unfold stream_items. cbn. by rewrite E, app_nil_r. Qed.

Lemma receives_during o dg got read e : receives o during dg got read e <->
  exists m l0 id p, writes_to o got read e m l0 id p /\ p_diag p = dg.
Proof.
  split.
  - intros [A B C (m & l & H1 & H2 & H3 & H4 & (l0 & id & p & -> & W & E1 & E2 & E3) & H6 & H7)].
    exists m, l0, id, p. split; [|done]. split_and!; try done; [by rewrite app_nil_r|].
    by rewrite <- H7, unread_app, unread_one, stream_items_open.
  - intros (m & l0 & id & p & (A & B & C & H1 & H2 & H3 & H4 & W & E1 & E3 & H6 & H7) & E2). split; [done|done|done|].
    exists m, (l0 ++ [(id, p)]). rewrite app_nil_r in H3. split_and!; try done; [by exists l0, id, p|].
    by rewrite <- H7, unread_app, unread_one, stream_items_open.
Qed.

Lemma modem_at_during sm m m' l l' : modem_at during sm m l -> firstBuf m' = firstBuf m -> (l <> [] -> l' <> []) ->
  modem_at during sm m' l'.
Proof.
  destruct sm; cbn; try done; intros H E K; rewrite E; [|done]. destruct H as (X & Y & Z). auto.
Qed.

Lemma snoc_nonnil {A} (l : list A) x : l ++ [x] <> [].
Proof. by destruct l. Qed.

Lemma put_data_to o got read e m l0 id p buf : writes_to o got read e m l0 id p ->
  exists e', target_PutData ToIn buf e = Some e' /\ firstIn e' = firstIn e /\
    writes_to o (got ++ map Oct buf) read e' m l0 id (pipe_put p buf).2 /\ p_diag (pipe_put p buf).2 = p_diag p.
Proof.
  intros (A & B & C & H1 & H2 & H3 & H4 & W & E1 & E3 & H6 & H7).
  unfold target_PutData, on_target. cbn [target_stream]. rewrite H1.
  destruct (PutData_spec _ _ _ _ _ _ buf H3 H4 E3) as (h' & -> & S' & H'). cbn [mbind option_bind set_target].
  eexists. split; [reflexivity|]. split; [done|].
  assert (p_eof (pipe_put p buf).2 = false /\ p_octets (pipe_put p buf).2 = p_octets p ++ buf /\ p_diag (pipe_put p buf).2 = p_diag p)
    as (X & Y & Z) by (unfold pipe_put; by rewrite E1).
  split; [|exact Z]. split_and!; try done.
  - change (modem_at during (stateModem e) m (l0 ++ [(id, (pipe_put p buf).2)])).
    eapply modem_at_during; [exact H6|done|]. intros _. apply snoc_nonnil.
  - rewrite <- H7, Y, map_app. by rewrite <- !app_assoc.
Qed.

Lemma set_diag_to o got read e m l0 id p d : writes_to o got read e m l0 id p ->
  exists e', target_SetDiag ToIn d e = Some e' /\ firstIn e' = firstIn e /\
    writes_to o got read e' m l0 id (pipe_set_diag p (p_diag p .| d)).
Proof.
  intros (A & B & C & H1 & H2 & H3 & H4 & W & E1 & E3 & H6 & H7).
  unfold target_SetDiag, on_target. cbn [target_stream]. rewrite H1.
  destruct (SetDiag_spec _ _ _ _ _ _ d H3 H4 E3) as (h' & -> & S' & H'). cbn [mbind option_bind set_target].
  eexists. split; [reflexivity|]. split; [done|]. split_and!; try done.
  change (modem_at during (stateModem e) m (l0 ++ [(id, pipe_set_diag p (p_diag p .| d))])).
  eapply modem_at_during; [exact H6|done|]. intros _. apply snoc_nonnil.
Qed.

(** The stream that was being written has ended with the diagnostics [d] as well. *)
Definition ended_with (o : Z) (got read : list item) (e : T38Engine) (m : ModStream) (l0 : owned) (id : positive) (p : pipe) (d : Z) : Prop :=
  hOwnerIn e = Some o /\ IsModemOpen e = true /\ modStreamInSaved e = None /\ modStreamIn e = Some m /\ ModPars m = v21_mods /\
  owns (heap e) ((l0 ++ [(id, ModStream.ended p d)]) ++ []) /\ holds m (l0 ++ [(id, ModStream.ended p d)]) /\ Forall whole l0 /\
  lastBuf m = None /\ modem_at during (stateModem e) m (l0 ++ [(id, ModStream.ended p d)]) /\
  read ++ unread (l0 ++ [(id, ModStream.ended p d)]) = got ++ [Ends (p_diag p .| d)].

Lemma put_eof_to o got read e m l0 id p d : writes_to o got read e m l0 id p ->
  exists m' e', target_PutEof ToIn d e = Some e' /\ in_PutEof d e = Some e' /\ firstIn e' = firstIn e /\
    stateModem e' = stateModem e /\ ended_with o got read e' m' l0 id p d.
Proof.
  intros (A & B & C & H1 & H2 & H3 & H4 & W & E1 & E3 & H6 & H7).
  unfold target_PutEof, on_target, in_PutEof. cbn [target_stream]. rewrite H1.
  destruct (PutEof_spec _ _ _ _ _ _ d H3 H4 E3) as (h' & -> & S' & H'). cbn [mbind option_bind set_target].
  exists (m <| lastBuf := None |>). eexists. split; [reflexivity|]. split; [done|]. split; [done|]. split; [done|].
  split_and!; try done.
  - change (modem_at during (stateModem e) (m <| lastBuf := None |>) (l0 ++ [(id, ModStream.ended p d)])).
    eapply modem_at_during; [exact H6|done|]. intros _. apply snoc_nonnil.
  - rewrite <- H7, unread_app, unread_one. rewrite <- !app_assoc. f_equal.
Qed.

(** The end of the carrier. *)
Lemma ended_receives o got read e m l0 id p d : ended_with o got read e m l0 id p d -> d .& diagNoCarrier <> 0 ->
  receives o after 0 (got ++ [Ends (p_diag p .| d)]) read e.
Proof.
  intros (A & B & C & H1 & H2 & H3 & H4 & W & E3 & H6 & H7) Hd. split; [done|done|done|].
  exists m, (l0 ++ [(id, ModStream.ended p d)]). rewrite app_nil_r in H3. split_and!; try done.
  - split; [done|]. right. exists l0, id, (ModStream.ended p d). split_and!; try done.
    change ((p_diag p .| d) .& diagNoCarrier <> 0). intros H. apply Hd. unfold diagNoCarrier in *.
    rewrite Z.land_lor_distr_l in H. by apply Z.lor_eq_0_iff in H as [_ H].
  - destruct (stateModem e); try done; cbn in *; [destruct H6 as (X & Y & Z)|destruct H6 as (X & Z)]; split; try done.
Qed.

(** Another frame begins. *)
Lemma push_buf_to o got read e m l0 id p d : ended_with o got read e m l0 id p d -> (p_diag p .| d) .& diagNoCarrier = 0 ->
  exists e', target_PushBuf ToIn e = Some e' /\ firstIn e' = firstIn e /\
    receives o during 0 (got ++ [Ends (p_diag p .| d)]) read e'.
Proof.
  intros (A & B & C & H1 & H2 & H3 & H4 & W & E3 & H6 & H7) Hd.
  unfold target_PushBuf, on_target. cbn [target_stream]. rewrite H1.
  pose proof (PushBuf_spec _ _ _ _ H3 H4) as P. destruct (PushBuf (heap e) m) as [h' m'] eqn:EP. destruct P as (S' & H' & Em).
  cbn [mbind option_bind set_target]. eexists. split; [reflexivity|]. split; [done|].
  apply receives_during. exists m', (l0 ++ [(id, ModStream.ended p d)]), (next (heap e)), (pipe_new 0).
  split; [|done]. split_and!; try done.
  - by rewrite Em.
  - apply Forall_app_2; [done|]. constructor; [|constructor]. split; [done|exact Hd].
  - by rewrite Em.
  - change (modem_at during (stateModem e) m' ((l0 ++ [(id, ModStream.ended p d)]) ++ [(next (heap e), pipe_new 0)])).
    eapply modem_at_during; [exact H6|by rewrite Em|]. intros _. apply snoc_nonnil.
  - cbn [p_octets pipe_new map]. by rewrite app_nil_r.
Qed.

(** ** What a packet does *)

Definition inbox : Type := stage * Z * list item.

(** [early] is whether no data has come yet, and a no-signal indicator is ignored. *)
Definition accept (early : bool) (p : ifp) (x : inbox) : inbox :=
  let '(q, dg, got) := x in
  match p, q with
  | Indicator i, before => if i =? e_no_signal then x else (during, 0, got)
  | Indicator i, during =>
      if (i =? e_no_signal) && negb early then (after, 0, got ++ [Ends (dg .| (diagOutOfOrder .| diagNoCarrier))]) else x
  | Indicator _, _ => (over, dg, got)
  | Data _ (Some [f]), during =>
      if field_type f =? e_hdlc_data then (during, dg, got ++ map Oct (default [] (field_data f)))
      else if field_type f =? e_hdlc_fcs_OK then (during, 0, got ++ [Ends dg])
      else (after, 0, got ++ [Ends (dg .| diagNoCarrier)])
  | _, _ => x
  end.

Definition in_state (o : Z) (x : inbox) (read : list item) (e : T38Engine) : Prop :=
  let '(q, dg, got) := x in receives o q dg got read e.

Definition in_next (o : Z) (x : inbox) (read : list item) (r : option (bool * T38Engine)) : Prop :=
  exists e', r = Some (true, e') /\ in_state o x read e'.

Lemma data_callback_next o x read e : in_state o x read e -> in_next o x read (data_callback silent o e).
Proof.
  destruct x as [[q dg] got]. intros R. rewrite data_callback_silent by exact (receives_open _ _ _ _ _ _ R). by exists e.
Qed.

Lemma octets_received o dg got read e b l : receives o during dg got read e ->
  in_next o (during, dg, got ++ map Oct (b :: l)) read
    (handle_data silent o e_v21 (Some [{| field_type := e_hdlc_data; field_data := Some (b :: l) |}]) e).
Proof.
  intros R. rewrite (data_plain o dg got read) by done. unfold then_. cbn [handle_fields].
  apply receives_during in R as (m & l0 & id & p & W & Ed). change (field_octets _ _ e) with
    (e ← target_PutData ToIn (b :: l) e; Some (e <| countIn := countIn e + zlen (b :: l) |>)).
  destruct (put_data_to o got read e m l0 id p (b :: l) W) as (e1 & -> & _ & W1 & Ed1). cbn [mbind option_bind].
  set (e2 := e1 <| countIn := _ |>). change (field_fcs ToIn _ e2) with (Some e2). cbn [mbind option_bind].
  change (field_sig_end silent o ToIn _ e2) with (Some (true, ToIn, e2)). cbn [mbind option_bind].
  apply data_callback_next. cbn [in_state]. apply receives_during. exists m, l0, id, (pipe_put p (b :: l)).2.
  split; [exact W1|by rewrite Ed1].
Qed.

Lemma fcs_received o dg got read e : receives o during dg got read e -> dg .& diagNoCarrier = 0 ->
  in_next o (during, 0, got ++ [Ends dg]) read
    (handle_data silent o e_v21 (Some [{| field_type := e_hdlc_fcs_OK; field_data := None |}]) e).
Proof.
  intros R Hd. rewrite (data_plain o dg got read) by done. unfold then_. cbn [handle_fields].
  apply receives_during in R as (m & l0 & id & p & W & Ed). change (field_octets _ _ e) with (Some e). cbn [mbind option_bind].
  change (field_fcs ToIn _ e) with (e ← target_PutEof ToIn 0 e; target_PushBuf ToIn e).
  destruct (put_eof_to o got read e m l0 id p 0 W) as (m' & e1 & -> & _ & _ & _ & W1). cbn [mbind option_bind].
  destruct (push_buf_to o got read e1 m' l0 id p 0 W1) as (e2 & -> & _ & R2); [by rewrite Z.lor_0_r, Ed|]. cbn [mbind option_bind].
  change (field_sig_end silent o ToIn _ e2) with (Some (true, ToIn, e2)). cbn [mbind option_bind].
  apply data_callback_next. cbn [in_state]. by rewrite Z.lor_0_r, Ed in R2.
Qed.

Lemma sig_end_received o dg got read e : receives o during dg got read e ->
  in_next o (after, 0, got ++ [Ends (dg .| diagNoCarrier)]) read
    (handle_data silent o e_v21 (Some [{| field_type := e_hdlc_sig_end; field_data := None |}]) e).
Proof.
  intros R. rewrite (data_plain o dg got read) by done. unfold then_. cbn [handle_fields].
  apply receives_during in R as (m & l0 & id & p & W & Ed). change (field_octets _ _ e) with (Some e). cbn [mbind option_bind].
  change (field_fcs ToIn _ e) with (Some e). cbn [mbind option_bind].
  change (field_sig_end silent o ToIn _ e) with
    (e ← target_PutEof ToIn diagNoCarrier e; '(on, e) ← end_silence silent o (e <| isCarrierIn := 0 |>); Some (on, Nowhere, e)).
  destruct (put_eof_to o got read e m l0 id p diagNoCarrier W) as (m' & e1 & -> & _ & _ & _ & W1). cbn [mbind option_bind].
  assert (receives o after 0 (got ++ [Ends (dg .| diagNoCarrier)]) read e1) as R1.
  { rewrite <- Ed. by eapply ended_receives. }
  rewrite end_silence_no by exact (not_wait_silence _ _ _ _ _ _ R1). cbn [mbind option_bind].
  apply data_callback_next. cbn [in_state]. by eapply receives_same.
Qed.

(** Data for nobody. *)
Lemma data_nowhere o q dg got read e f : receives o q dg got read e -> q <> during ->
  in_next o (q, dg, got) read (handle_data silent o e_v21 (Some [f]) e).
Proof.
  intros R Hq. unfold handle_data, data_target. rewrite (not_writing _ _ _ _ _ _ R Hq), (receives_saved _ _ _ _ _ _ R).
  cbn [writing target_stream mbind option_bind]. unfold then_. change (default [] (Some [f])) with [f]. cbn [handle_fields].
  assert (exists e1, field_octets Nowhere f e = Some e1 /\ receives o q dg got read e1) as (e1 & -> & R1).
  { unfold field_octets. destruct (_ && _); [|by exists e]. destruct (field_data f); [|by exists e].
    eexists. split; [reflexivity|]. by eapply receives_same. }
  cbn [mbind option_bind]. assert (field_fcs Nowhere f e1 = Some e1) as ->.
  { unfold field_fcs. destruct (one_of _ _); cbn [mbind option_bind]; by destruct (one_of _ _). }
  cbn [mbind option_bind]. unfold field_sig_end. destruct (one_of _ _).
  - change (target_PutEof Nowhere diagNoCarrier e1) with (Some e1). cbn [mbind option_bind].
    rewrite end_silence_no by exact (not_wait_silence _ _ _ _ _ _ R1). cbn [mbind option_bind].
    apply data_callback_next. cbn [in_state]. by eapply receives_same.
  - cbn [mbind option_bind]. by apply data_callback_next.
Qed.

(** Silence while the signal has not ended, and nothing said so. *)
Lemma cut_off o dg got read e : receives o during dg got read e -> exists early,
  in_next o (if (early : bool) then (during, dg, got)
             else (after, 0, got ++ [Ends (dg .| (diagOutOfOrder .| diagNoCarrier))])) read
    (handle_indicator byte0 chunk0 len0 silent o e_no_signal e).
Proof.
  intros R. pose proof R as R'. apply receives_during in R as (m & l0 & id & p & W & Ed).
  pose proof W as (A & B & C & H1 & H2 & H3 & H4 & Wh & E1 & E3 & H6 & H7).
  assert (writing (modStreamIn e) = true) as Ew by (rewrite H1; cbn; rewrite E3; by apply bool_decide_eq_true_2).
  unfold handle_indicator, repeated. rewrite Ew, C, H1, H2. cbn [andb writing orb].
  change (ind v21_mods =? e_no_signal) with false. cbn [orb].
  destruct (firstIn e && (countIn e =? 0) && (e_no_signal =? e_no_signal)).
  { exists true, e. split; [done|exact R']. }
  exists false. unfold then_, out_of_order. rewrite Ew.
  destruct (put_eof_to o got read e m l0 id p (diagOutOfOrder .| diagNoCarrier) W) as (m' & e1 & _ & -> & _ & _ & W1).
  cbn [mbind option_bind].
  assert (receives o after 0 (got ++ [Ends (dg .| (diagOutOfOrder .| diagNoCarrier))]) read e1) as R1.
  { rewrite <- Ed. by eapply ended_receives. }
  rewrite data_callback_silent by exact (receives_open _ _ _ _ _ _ R1). cbn [mbind option_bind].
  unfold delete_saved. rewrite (receives_saved _ _ _ _ _ _ R1). cbn [mbind option_bind]. unfold indicated.
  cbn [Z.eqb e_no_signal]. rewrite end_silence_no by exact (not_wait_silence _ _ _ _ _ _ R1).
  eexists. split; [reflexivity|]. cbn [in_state]. by eapply receives_same.
Qed.

Lemma silence_ignored o q dg got read e : receives o q dg got read e -> q = before \/ q = over ->
  in_next o (q, dg, got) read (handle_indicator byte0 chunk0 len0 silent o e_no_signal e).
Proof.
  intros R Hq. rewrite (indicator_plain o q dg got read) by (done || by destruct Hq as [-> | ->]). unfold indicated.
  cbn [Z.eqb e_no_signal]. rewrite end_silence_no by exact (not_wait_silence _ _ _ _ _ _ R).
  eexists. split; [reflexivity|]. cbn [in_state]. by eapply receives_same.
Qed.

Lemma preamble_repeated o dg got read e : receives o during dg got read e ->
  handle_indicator byte0 chunk0 len0 silent o e_v21_preamble e = Some (true, e).
Proof.
  intros R. apply receives_during in R as (m & l0 & id & p & (A & B & C & H1 & H2 & H3 & H4 & Wh & E1 & E3 & _) & _).
  unfold handle_indicator, repeated. rewrite H1, H2. cbn [writing]. rewrite E3, bool_decide_eq_true_2 by done. done.
Qed.

Lemma indicator_received o q dg got read e i : receives o q dg got read e -> i = e_v21_preamble \/ i = e_no_signal ->
  (i = e_v21_preamble -> q = before \/ q = during) ->
  exists early, in_next o (accept early (Indicator i) (q, dg, got)) read (handle_indicator byte0 chunk0 len0 silent o i e).
Proof.
  intros R [-> | ->] Hi; unfold accept; cbn [Z.eqb e_no_signal e_v21_preamble andb].
  - destruct (Hi eq_refl) as [-> | ->]; exists true.
    + by apply (preamble_received o e dg).
    + rewrite (preamble_repeated o dg got read e) by done. by exists e.
  - destruct q.
    + exists true. apply silence_ignored; [done|by left].
    + destruct (cut_off o dg got read e R) as [[] H]; [by exists true|by exists false].
    + exists true. by apply silence_received.
    + exists true. apply silence_ignored; [done|by right].
Qed.

Lemma packet_received o x read e p : in_state o x read e -> v21_packet p -> x.1.2 .& diagNoCarrier = 0 ->
  (packet_items p = [Pre] -> x.1.1 = before \/ x.1.1 = during) ->
  exists early, in_next o (accept early p x) read (handle o p e).
Proof.
  destruct x as [[q dg] got]. cbn [in_state fst snd]. intros R V Hd Hp. unfold HandlePacket.
  pose proof (receives_open _ _ _ _ _ _ R) as Ho. rewrite Ho.
  assert (forall early s, in_next o (accept early p (q, dg, got)) read (s e) -> in_next o (accept early p (q, dg, got)) read
    (then_ s (fun e => if negb (firstIn e) then call_back silent o (fun _ => cbpUpdateState) (e <| firstIn := false |>)
                       else Some (true, e)) e)) as K.
  { intros early s. destruct (accept early p (q, dg, got)) as [[q' dg'] got']. by apply handle_end. }
  destruct V.
  - destruct (indicator_received o q dg got read e e_v21_preamble R) as [early H]; [by left|by intros _; apply Hp|].
    exists early. by apply K.
  - destruct (indicator_received o q dg got read e e_no_signal R) as [early H]; [by right|done|]. exists early. by apply K.
  - exists true. apply K. destruct q; try (by apply data_nowhere). by apply octets_received.
  - exists true. apply K. destruct q; try (by apply data_nowhere). by apply fcs_received.
  - exists true. apply K. destruct q; try (by apply data_nowhere). by apply sig_end_received.
Qed.

(** A packet that is lost marks the frame. *)
Definition lose (x : inbox) : inbox :=
  let '(q, dg, got) := x in match q with during => (during, dg .| diagBadFcs, got) | _ => x end.

Lemma lost_received o x read e : in_state o x read e -> in_next o (lose x) read (HandlePacketLost o e).
Proof.
  destruct x as [[q dg] got]. cbn [in_state]. intros R. unfold HandlePacketLost. rewrite (receives_open _ _ _ _ _ _ R).
  unfold data_target. destruct q.
  2: { apply receives_during in R as (m & l0 & id & p & W & Ed).
    pose proof W as (A & B & C & H1 & H2 & H3 & H4 & Wh & E1 & E3 & H6 & H7).
    rewrite H1. cbn [writing]. rewrite E3, bool_decide_eq_true_2 by done. cbn [target_stream]. rewrite H1, H2.
    change (msgType v21_mods =? e_v21) with true. cbn match.
    destruct (set_diag_to o got read e m l0 id p diagBadFcs W) as (e1 & -> & _ & W1). cbn [mbind option_bind].
    exists e1. split; [done|]. cbn [lose in_state]. apply receives_during. exists m, l0, id, (pipe_set_diag p (p_diag p .| diagBadFcs)).
    split; [done|]. cbn. by rewrite Ed. }
  all: rewrite (not_writing _ _ _ _ _ _ R ltac:(done)), (receives_saved _ _ _ _ _ _ R); by exists e.
Qed.
End engine.
