(* ===== verification/T38Reader.v ===== *)
(** * The modem that reads a V.21 signal

    The modem starts to read when told that there is data, reads portions until a
    frame ends, asks what the frame was like, and waits for the next one until the
    carrier is lost. *)
From stdpp Require Import gmap.
From S2P Require Import Prelude DataStream EngineBase PmHdlc T30 PmHdlcTotal ModStream T38Engine T38Signal.
From S2P Require Import T38Receive.

Section engine.
Context (byte0 chunk0 len0 : Z).

(** What the modem does next, and what it gets. *)
Definition read_step (cb count : Z) (e : T38Engine) : option (list item * T38Engine) :=
  match stateModem e with
  | stmInReadyData => '(_, e) ← RecvStart byte0 chunk0 len0 e cb; Some ([], e)
  | stmInRecvData =>
      '(r, out, e) ← Recv e count;
      if r <? 0 then
        d ← RecvDiag e;
        e ← RecvStop e;
        if d .& diagNoCarrier =? 0 then
          '(_, _, e) ← RecvWait byte0 chunk0 len0 e dtHdlc 3 cb;
          Some ([Ends d], e)
        else Some ([Ends d], e)
      else Some (map Oct out, e)
  | _ => Some ([], e)
  end.

Definition reads (o : Z) (q : stage) (dg : Z) (got read : list item) (r : option (list item * T38Engine)) : Prop :=
  exists l e', r = Some (l, e') /\ receives o q dg got (read ++ l) e'.

Lemma v21_not_raw m : ModPars m = v21_mods -> raw_of_hdlc (ModPars m) = false.
Proof. by intros ->. Qed.

Lemma ready_reads o q dg got read e cb : receives o q dg got read e -> stateModem e = stmInReadyData ->
  exists e', RecvStart byte0 chunk0 len0 e cb = Some (true, e') /\ receives o q dg got read e'.
Proof.
  intros [A B C (m & l & H1 & H2 & H3 & H4 & H5 & H6 & H7)] Em. rewrite Em in H6. destruct H6 as (Hq & Ef & Hl).
  unfold RecvStart. rewrite B, Em. rewrite bool_decide_eq_true_2 by done. cbn [negb].
  change (modStreamIn (e <| callbackParamIn := cb |>)) with (modStreamIn e). rewrite H1.
  pose proof (holds_ids _ _ H4) as Hi. unfold ids_of in Hi. rewrite Ef in Hi. cbn [app] in Hi.
  destruct (bufQ m) as [|id qu] eqn:Eq; [by destruct l|].
  unfold PopBuf, DeleteFirstBuf. rewrite Ef. cbn [mbind option_bind]. rewrite Eq.
  set (m1 := m <| firstBuf := Some id |> <| bufQ := qu |>). change (ModPars m1) with (ModPars m).
  rewrite (v21_not_raw m H2). cbn [mbind option_bind]. change (ModPars m1) with (ModPars m). rewrite H2. change (msgType v21_mods =? e_v21) with true. cbn match.
  eexists. split; [reflexivity|]. split; [done|done|done|]. exists m1, l.
  split_and!; [reflexivity|exact H2|exact H3| |by destruct q|by split|exact H7].
  pose proof (holds_advance m id qu l H4 Ef Eq (hdlc m)) as HA.
  assert (m1 = m <| firstBuf := Some id |> <| bufQ := qu |> <| hdlc := hdlc m |>) as -> by by destruct m.
  apply HA. by rewrite (v21_not_raw m H2).
Qed.

(** Octets are taken off the first stream. *)
Lemma streams_at_first q dg m id p p' l : streams_at q dg m ((id, p) :: l) -> p_eof p' = p_eof p -> p_diag p' = p_diag p ->
  streams_at q dg m ((id, p') :: l).
Proof.
  intros H E1 E2. assert (forall l0 i s, (id, p) :: l = l0 ++ [(i, s)] -> Forall whole l0 -> exists l0' s',
    (id, p') :: l = l0' ++ [(i, s')] /\ Forall whole l0' /\ p_eof s' = p_eof s /\ p_diag s' = p_diag s) as K.
  { intros l0 i s E W. destruct l0 as [|x l0]; cbn in E; simplify_eq.
    - by exists [], p'.
    - exists ((id, p') :: l0), s. split; [done|]. split; [|done]. apply Forall_cons_1 in W as [[W1 W2] W].
      constructor; [|done]. split; cbn in *; [by rewrite E1|by rewrite E2]. }
  destruct q; [by destruct H| | |].
  - destruct H as (l0 & i & s & E & W & X & Y & Z). destruct (K _ _ _ E W) as (l0' & s' & E' & W' & X' & Y').
    exists l0', i, s'. rewrite X', Y'. done.
  - destruct H as [H [|(l0 & i & s & E & W & X & Y)]]; [done|]. destruct (K _ _ _ E W) as (l0' & s' & E' & W' & X' & Y').
    split; [done|]. right. exists l0', i, s'. rewrite X', Y'. done.
  - destruct H as [H [|(l0 & i & s & E & W & X & Y)]]; [done|]. destruct (K _ _ _ E W) as (l0' & s' & E' & W' & X' & Y').
    split; [done|]. right. exists l0', i, s'. rewrite X', Y'. done.
Qed.

(** What [Recv] gives: the octets of the first stream. *)
Lemma recv_gets o q dg got read e count : receives o q dg got read e -> stateModem e = stmInRecvData -> 0 < count ->
  exists m id p l r out p' e', modStreamIn e = Some m /\ firstBuf m = Some id /\ pipe_get p count = (r, out, p') /\
    Recv e count = Some (r, out, e') /\ stateModem e' = stmInRecvData /\ modStreamIn e' = Some m /\ ModPars m = v21_mods /\
    hOwnerIn e' = Some o /\ IsModemOpen e' = true /\ modStreamInSaved e' = None /\
    owns (heap e') ((id, p') :: l) /\ holds m ((id, p') :: l) /\ streams_at q dg m ((id, p') :: l) /\ q <> before /\
    read ++ stream_items (id, p) ++ unread l = got.
Proof.
  intros [A B C (m & l & H1 & H2 & H3 & H4 & H5 & H6 & H7)] Em Hc. rewrite Em in H6. destruct H6 as (Hq & Ef).
  unfold Recv. rewrite B, Em. rewrite bool_decide_eq_true_2 by done. cbn [negb]. rewrite H1.
  destruct (firstBuf m) as [id|] eqn:E1; [|done]. destruct (holds_first _ _ _ H4 E1) as (p & l' & -> & El).
  unfold GetData. rewrite E1, (v21_not_raw m H2), H2. change (negb (bool_decide (dataTypeT38 v21_mods = dataType v21_mods))) with false.
  cbn match. rewrite (owns_lookup _ _ _ _ H3). cbn [mbind option_bind].
  destruct (pipe_get p count) as [[r out] p'] eqn:Eg. cbn [mbind option_bind].
  destruct (pipe_get_split _ _ _ _ _ Eg Hc) as [(-> & -> & -> & X1 & X2)|[(-> & -> & -> & X1 & X2)|(X1 & X2 & X3 & X4 & X5)]].
  all: eexists m, id, p, l', _, _, _, _; split_and!; [done|done|exact Eg|reflexivity|exact Em|reflexivity|exact H2|exact A|exact B|exact C
    |by eapply owns_update|eapply holds_set_first; [exact H4|done]|eapply streams_at_first; [exact H5|done|done]|exact Hq|exact H7].
Qed.

Lemma DeleteFirstBuf_lastBuf h m b h' m' : DeleteFirstBuf h m = Some (b, h', m') -> lastBuf m <> firstBuf m \/ lastBuf m = None ->
  lastBuf m' = lastBuf m.
Proof.
  unfold DeleteFirstBuf. intros E H. destruct (firstBuf m) as [id|] eqn:Ef; [|by injection E as <- <- <-].
  destruct (delete_stream h id) as [h1|]; [|done]. cbn [mbind option_bind] in E. injection E as <- <- <-.
  destruct H as [H|H].
  - by rewrite bool_decide_eq_false_2.
  - by destruct (bool_decide _).
Qed.

(** The frame that was read is dropped. *)
Lemma streams_at_tail q dg m m' id p l : streams_at q dg m ((id, p) :: l) -> p_eof p = true -> firstBuf m' = None ->
  lastBuf m' = lastBuf m -> q <> before -> streams_at q dg m' l /\ (p_diag p .& diagNoCarrier = 0 <-> l <> []) /\ (l = [] -> q = after \/ q = over).
Proof.
  intros H He Ef El Hq.
  assert (forall l0 i s, (id, p) :: l = l0 ++ [(i, s)] -> Forall whole l0 -> l0 = [] /\ l = [] /\ s = p \/
    exists l1, l0 = (id, p) :: l1 /\ l = l1 ++ [(i, s)] /\ Forall whole l1 /\ p_diag p .& diagNoCarrier = 0) as K.
  { intros l0 i s E W. destruct l0 as [|x l0]; cbn in E; simplify_eq; [by left|right]. exists l0.
    apply Forall_cons_1 in W as [[_ W1] W]. done. }
  assert (forall (l1 : owned) x, l1 ++ [x] <> []) as Hn by (by intros []).
  destruct q; [done| | |].
  - destruct H as (l0 & i & s & E & W & X & Y & Z). destruct (K _ _ _ E W) as [(_ & _ & ->)|(l1 & _ & -> & W1 & Hd)].
    + by rewrite He in X.
    + split; [exists l1, i, s; by rewrite El|]. split; [by split|]. intros H. by destruct (Hn l1 (i, s)).
  - destruct H as [H [|(l0 & i & s & E & W & X & Y)]]; [done|].
    destruct (K _ _ _ E W) as [(_ & -> & ->)|(l1 & _ & -> & W1 & Hd)].
    + split; [split; [by rewrite El|by left]|]. split; [by split|by left].
    + split; [split; [by rewrite El|right; by exists l1, i, s]|]. split; [by split|by left].
  - destruct H as [H [|(l0 & i & s & E & W & X & Y)]]; [done|].
    destruct (K _ _ _ E W) as [(_ & -> & ->)|(l1 & _ & -> & W1 & Hd)].
    + split; [split; [by rewrite El|by left]|]. split; [by split|by right].
    + split; [split; [by rewrite El|right; by exists l1, i, s]|]. split; [by split|by right].
Qed.

(** The first stream, that has ended, is not the one being written. *)
Lemma not_last q dg m id p l : streams_at q dg m ((id, p) :: l) -> base.NoDup ((id, p) :: l).*1 -> p_eof p = true -> q <> before ->
  lastBuf m <> Some id \/ lastBuf m = None.
Proof.
  intros H N He Hq. destruct q; [done| |right; by destruct H|right; by destruct H].
  destruct H as (l0 & i & s & E & W & X & Y & Z). left. rewrite Z. intros [= ->].
  destruct l0 as [|x l0]; cbn in E; simplify_eq; [by rewrite He in X|].
  cbn in N. apply list.NoDup_cons in N as [N _]. apply N. rewrite fmap_app. apply elem_of_app. right. by left.
Qed.

Lemma stop_reads o q dg got read e m id p l cb : stateModem e = stmInRecvData -> modStreamIn e = Some m -> firstBuf m = Some id ->
  ModPars m = v21_mods -> hOwnerIn e = Some o -> IsModemOpen e = true -> modStreamInSaved e = None ->
  owns (heap e) ((id, p) :: l) -> holds m ((id, p) :: l) -> streams_at q dg m ((id, p) :: l) -> q <> before ->
  p_eof p = true -> read ++ unread l = got ->
  exists e1, RecvStop e = Some e1 /\
    if p_diag p .& diagNoCarrier =? 0 then
      exists b d e2, RecvWait byte0 chunk0 len0 e1 dtHdlc 3 cb = Some (b, d, e2) /\ receives o q dg got read e2
    else receives o q dg got read e1.
Proof.
  intros Em H1 E1 H2 A B C H3 H4 H5 Hq He H7. unfold RecvStop. rewrite B, Em, H1. cbn [negb isStateModemIn].
  pose proof (owns_nodup _ _ H3) as N.
  assert (owns (heap e) (((id, p) :: l) ++ [])) as H3' by (by rewrite app_nil_r).
  destruct (DeleteFirstBuf_spec _ _ _ _ H3' H4) as (b & h & m' & l' & E & S' & H' & F1 & F2 & F3 & F4 & F5 & El).
  rewrite E1 in El. cbn [tail] in El. subst l'. rewrite app_nil_r in S'.
  assert (lastBuf m' = lastBuf m) as FL.
  { eapply DeleteFirstBuf_lastBuf; [exact E|]. rewrite E1. by eapply not_last. }
  destruct (streams_at_tail q dg m m' id p l H5 He F1 FL Hq) as (T1 & T2 & T3).
  rewrite E. cbn [mbind option_bind]. eexists. split; [reflexivity|].
  set (e1 := e <| heap := h |> <| modStreamIn := Some m' |> <| stateModem := stmIdle |>).
  destruct (p_diag p .& diagNoCarrier =? 0) eqn:Ed.
  - apply Z.eqb_eq, T2 in Ed. unfold RecvWait. change (IsModemOpen e1) with (IsModemOpen e). rewrite B.
    change (bool_decide (stateModem e1 = stmIdle)) with true. cbn [negb]. unfold wait_signal.
    change (negb (IsModValid (GetModPars 3 by_val))) with false. cbn match. unfold reuse_in.
    change (modStreamIn (e1 <| callbackParamIn := cb |>)) with (Some m'). unfold DeleteFirstBuf. rewrite F1. cbn [mbind option_bind].
    pose proof (holds_ids _ _ H') as Hi. unfold ids_of in Hi. rewrite F1 in Hi. cbn [app] in Hi.
    rewrite Hi, length_fmap, (proj2 (Z.ltb_lt _ _)) by (destruct l; [done|cbn [length]; lia]).
    assert (IsEqual (GetModPars 3 by_val) (ModPars m') = true) as -> by (rewrite F3, H2; reflexivity).
    cbn [andb mbind option_bind]. eexists _, _, _. split; [reflexivity|]. split; [exact A|exact B|exact C|].
    eexists _, l. split; [reflexivity|]. split; [cbn; by rewrite F3, H2|]. split; [exact S'|].
    split; [destruct H' as [I L W]; split; [exact I|exact L|]; intros _ id' H; change (firstBuf m' = Some id') in H; by rewrite F1 in H|].
    split; [by destruct q|]. split; [by split|exact H7].
  - split; [exact A|exact B|exact C|]. exists m', l. rewrite F3.
    assert (l = []) as -> by (destruct l as [|x l]; [done|]; apply Z.eqb_neq in Ed; by destruct Ed; apply T2).
    split_and!; try done. change (modem_at q stmIdle m' []). by destruct (T3 eq_refl) as [-> | ->].
Qed.

(** A step of the reader moves what it gets from what is unread to what is read. *)
Lemma read_step_reads o q dg got read e cb count : receives o q dg got read e -> 0 < count ->
  reads o q dg got read (read_step cb count e).
Proof.
  intros R Hc. unfold read_step. destruct (stateModem e) eqn:Em; try (exists [], e; by rewrite app_nil_r).
  - destruct (ready_reads o q dg got read e cb R Em) as (e1 & -> & R1). exists [], e1. by rewrite app_nil_r.
  - destruct (recv_gets o q dg got read e count R Em Hc)
      as (m & id & p & l & r & out & p' & e1 & H1 & E1 & Eg & -> & Em1 & M1 & H2 & A & B & C & H3 & H4 & H5 & Hq & H7).
    cbn [mbind option_bind].
    destruct (pipe_get_split _ _ _ _ _ Eg Hc) as [(-> & -> & -> & X1 & X2)|[(-> & -> & -> & X1 & X2)|(X1 & -> & X3 & X4 & X5)]].
    + cbn [Z.ltb Z.compare]. unfold RecvDiag. rewrite M1, E1, (owns_lookup _ _ _ _ H3). cbn [mbind option_bind].
      assert ((read ++ [Ends (p_diag p)]) ++ unread l = got) as H7'.
      { rewrite <- H7. unfold stream_items. cbn [fst snd]. rewrite X1, X2. by rewrite <- !app_assoc. }
      destruct (stop_reads o q dg got (read ++ [Ends (p_diag p)]) e1 m id p l cb) as (e2 & -> & K); try done.
      cbn [mbind option_bind]. destruct (_ =? 0).
      * destruct K as (b & d & e3 & -> & R3). by exists [Ends (p_diag p)], e3.
      * by exists [Ends (p_diag p)], e2.
    + cbn [Z.ltb Z.compare]. exists [], e1. split; [done|]. rewrite app_nil_r. split; [done|done|done|].
      exists m, ((id, p) :: l). split_and!; try done. rewrite Em1. split; [done|by rewrite E1].
    + rewrite (proj2 (Z.ltb_ge _ _)) by lia. exists (map Oct out), e1. split; [done|]. split; [done|done|done|].
      exists m, ((id, p') :: l). split_and!; try done; [rewrite Em1; split; [done|by rewrite E1]|].
      rewrite <- H7. unfold unread at 1. cbn [flat_map]. unfold stream_items. cbn [fst snd].
      rewrite X3, X4, X5, map_app. by rewrite <- !app_assoc.
Qed.
End engine.
