(* ===== verification/T38Call.v ===== *)
(** * A V.21 signal from modem to modem

    Two engines, the packets between them in order, the modem of one handing over
    frames and the modem of the other reading them; everything at any time.  What
    is read is what was handed over. *)
From S2P Require Import Prelude DataStream EngineBase PmHdlc T30 ModStream T38Engine T38EngineCalls T38Signal T38Send T38Receive T38Reader.

(** ** The system *)

Record fax_call := {
  sender : T38Engine;
  handed : log;
  net : list ifp;
  receiver : T38Engine;
  was_read : list item;
}.

#[export] Instance eta_fax_call : Eta fax_call := fun c =>
  Build_fax_call (sender c) (handed c) (net c) (receiver c) (was_read c).

Inductive event :=
| Hand (buf : list Z)
| Finish (more : bool) (cb : Z)
| Turn (now : Z)
| Prepare (start : Z) (clock : list (Z * bool))
| Deliver
| Lose
| Read (count : Z).

(** The moments of a call of [PreparePacket] in which nobody else acts: the modem
    acts between the calls, or between the turns of one that waits. *)
Definition moments (clock : list (Z * bool)) : list moment :=
  map (fun x => {| time := x.1; others := fun e => e; signalled := x.2 |}) clock.

Section call.
Context (byte0 chunk0 len0 : Z) (o o' cb : Z).

Definition fax_event (v : event) (c : fax_call) : option fax_call :=
  match v with
  | Hand buf =>
      let '(r, e) := Send (sender c) buf in
      Some (c <| sender := e |> <| handed := if r <? 0 then handed c else log_send (handed c) buf |>)
  | Finish more p =>
      let '(r, e) := SendStop (sender c) more p in
      Some (c <| sender := e |> <| handed := if (r : bool) then log_stop (handed c) more else handed c |>)
  | Turn now =>
      '(t, e) ← out_turn byte0 chunk0 len0 silent o now (sender c);
      Some (c <| sender := e |> <| net := net c ++ match t with TGo (Some p) _ _ _ => [p] | _ => [] end |>)
  | Prepare start clock =>
      '(r, e) ← PreparePacket byte0 chunk0 len0 silent start (moments clock) o (sender c);
      Some (c <| sender := e |> <| net := net c ++ match r with Returned 1 (Some p) => [p] | _ => [] end |>)
  | Deliver =>
      match net c with
      | [] => Some c
      | p :: n =>
          '(_, e) ← HandlePacket byte0 chunk0 len0 silent o' p (receiver c);
          Some (c <| receiver := e |> <| net := n |>)
      end
  | Lose =>
      match net c with
      | [] => Some c
      | p :: n =>
          '(_, e) ← HandlePacketLost o' (receiver c);
          Some (c <| receiver := e |> <| net := n |>)
      end
  | Read count =>
      '(l, e) ← read_step byte0 chunk0 len0 cb count (receiver c);
      Some (c <| receiver := e |> <| was_read := was_read c ++ l |>)
  end.

Fixpoint fax_events (vs : list event) (c : fax_call) : option fax_call :=
  match vs with
  | [] => Some c
  | v :: vs => c ← fax_event v c; fax_events vs c
  end.

Definition valid_event (v : event) : Prop := match v with Read count => 0 < count | _ => True end.
Definition lossless (v : event) : Prop := match v with Lose => False | _ => True end.

#[export] Instance valid_event_dec v : Decision (valid_event v).
Proof. destruct v; cbn; apply _. Defined.
#[export] Instance lossless_dec v : Decision (lossless v).
Proof. destruct v; cbn; apply _. Defined.

(** ** The sending side *)

(** [gone] are the items of the packets that are no longer in the net. *)
Definition sends_gone (gone : list item) (c : fax_call) : Prop :=
  sends o (handed c) (gone ++ flat_map packet_items (net c)) (sender c) /\ Forall v21_packet (net c).

Lemma sends_gone_all gone c : sends_gone gone c -> exists rest,
  gone ++ flat_map packet_items (net c) ++ rest = signal_items (handed c).
Proof. intros [S _]. exists (pending (sender c)). rewrite <- (sends_items _ _ _ _ S). by rewrite <- app_assoc. Qed.

Lemma sends_gone_stage gone c p n : sends_gone gone c -> net c = p :: n ->
  exists q q', stages before gone = Some q /\ stages q (packet_items p) = Some q'.
Proof.
  intros S E. destruct (sends_gone_all _ _ S) as [rest H]. rewrite E in H. cbn [flat_map] in H.
  destruct (signal_stages (handed c)) as [q2 Hq]. rewrite <- H, stages_app in Hq.
  destruct (stages before gone) as [q|]; [|done]. cbn [mbind option_bind] in Hq. rewrite <- app_assoc, stages_app in Hq.
  exists q. destruct (stages q (packet_items p)) as [q'|]; [|done]. by exists q'.
Qed.

Lemma sends_gone_add gone c e l : sends o (handed c) ((gone ++ flat_map packet_items (net c)) ++ flat_map packet_items l) e ->
  Forall v21_packet (net c) -> Forall v21_packet l -> sends_gone gone (c <| sender := e |> <| net := net c ++ l |>).
Proof.
  intros S V V'. split; [|by apply Forall_app_2].
  change (sends o (handed c) (gone ++ flat_map packet_items (net c ++ l)) e). by rewrite flat_map_app, app_assoc.
Qed.

(** The events of the sending side leave the rest of the call alone. *)
Lemma sender_event gone c v : sends_gone gone c -> match v with Hand _ | Finish _ _ | Turn _ | Prepare _ _ => True | _ => False end ->
  exists c', fax_event v c = Some c' /\ sends_gone gone c' /\ receiver c' = receiver c /\ was_read c' = was_read c.
Proof.
  intros [S V] Hv.
  destruct v; try done; cbn [fax_event].
  - pose proof (Send_sends _ _ _ _ buf S) as S'. destruct (Send (sender c) buf) as [r e].
    eexists. split; [reflexivity|]. split; [by split|done].
  - pose proof (SendStop_sends _ _ _ _ more cb0 S) as S'. destruct (SendStop (sender c) more cb0) as [r e].
    eexists. split; [reflexivity|]. split; [by split|done].
  - destruct (turn_goes byte0 chunk0 len0 _ _ _ now _ S) as (p & again & wait & d & e & -> & S' & Hp).
    cbn [mbind option_bind]. eexists. split; [reflexivity|]. split; [|done]. apply sends_gone_add; [|done|].
    + destruct p as [p|]; [|exact S']. change (flat_map packet_items [p]) with (packet_items p ++ []). by rewrite app_nil_r.
    + destruct p; [by repeat constructor; apply Hp|constructor].
  - assert (alone (moments clock)) as Ha by (unfold alone, moments; by apply list.Forall_fmap, list.Forall_true).
    destruct (PreparePacket_sends byte0 chunk0 len0 o (handed c) _ start (moments clock) (sender c) Ha S) as (r & e & -> & S').
    cbn [mbind option_bind]. eexists. split; [reflexivity|]. split; [|done].
    destruct r as [|r [p|]]; cbn [prepared_ok] in S'; [|destruct S' as (-> & V' & S')|destruct S' as (-> & S')].
    + apply sends_gone_add; [by rewrite app_nil_r|done|constructor].
    + apply sends_gone_add; [|done|by repeat constructor].
      change (flat_map packet_items [p]) with (packet_items p ++ []). by rewrite app_nil_r.
    + apply sends_gone_add; [by rewrite app_nil_r|done|constructor].
Qed.

(** ** The receiving side *)

Lemma sends_gone_next gone c p n e : sends_gone gone c -> net c = p :: n ->
  sends_gone (gone ++ packet_items p) (c <| receiver := e |> <| net := n |>) /\ v21_packet p.
Proof.
  intros [S V] E. rewrite E in *. apply Forall_cons_1 in V as [Vp V]. split; [|done]. split; [|done].
  change (sends o (handed c) ((gone ++ packet_items p) ++ flat_map packet_items n) (sender c)).
  rewrite <- app_assoc. exact S.
Qed.

Lemma deliver_event gone c x p n : sends_gone gone c -> net c = p :: n ->
  in_state o' x (was_read c) (receiver c) -> x.1.2 .& diagNoCarrier = 0 ->
  (packet_items p = [Pre] -> x.1.1 = before \/ x.1.1 = during) ->
  exists early e, fax_event Deliver c = Some (c <| receiver := e |> <| net := n |>) /\
    in_state o' (accept early p x) (was_read c) e.
Proof.
  intros S E R Hd Hp. destruct (sends_gone_next _ _ _ _ (receiver c) S E) as [_ V].
  destruct (packet_received byte0 chunk0 len0 o' x (was_read c) (receiver c) p R V Hd Hp) as (early & e & Eh & R').
  exists early, e. cbn [fax_event]. rewrite E, Eh. done.
Qed.

Lemma lose_event c x p n : net c = p :: n -> in_state o' x (was_read c) (receiver c) ->
  exists e, fax_event Lose c = Some (c <| receiver := e |> <| net := n |>) /\ in_state o' (lose x) (was_read c) e.
Proof.
  intros E R. destruct (lost_received o' x (was_read c) (receiver c) R) as (e & Eh & R'). exists e.
  cbn [fax_event]. rewrite E, Eh. done.
Qed.

Lemma read_event c x count : in_state o' x (was_read c) (receiver c) -> 0 < count ->
  exists e l, fax_event (Read count) c = Some (c <| receiver := e |> <| was_read := was_read c ++ l |>) /\
    in_state o' x (was_read c ++ l) e.
Proof.
  destruct x as [[q dg] got]. cbn [in_state]. intros R Hc.
  destruct (read_step_reads byte0 chunk0 len0 o' q dg got (was_read c) (receiver c) cb count R Hc) as (l & e & E & R').
  exists e, l. cbn [fax_event]. rewrite E. done.
Qed.

(** ** Nothing is lost *)

(** A packet in its place does what its items say. *)
Lemma accept_stage early p q q' got : v21_packet p -> stages q (packet_items p) = Some q' ->
  accept early p (q, 0, got) = (q', 0, got ++ List.filter is_data (packet_items p)).
Proof.
  intros V. destruct V.
  - destruct q; intros [= <-]. cbn. by rewrite app_nil_r.
  - destruct q; intros [= <-]. cbn. by rewrite app_nil_r.
  - rewrite octets_items. destruct q; try done. rewrite stages_octets. intros [= <-]. rewrite filter_octets. reflexivity.
  - destruct q; intros [= <-]. reflexivity.
  - destruct q; intros [= <-]. reflexivity.
Qed.

Definition linked (c : fax_call) : Prop := exists gone q, sends_gone gone c /\ stages before gone = Some q /\
  receives o' q 0 (List.filter is_data gone) (was_read c) (receiver c).

Lemma linked_event c v : linked c -> valid_event v -> lossless v -> exists c', fax_event v c = Some c' /\ linked c'.
Proof.
  intros (gone & q & S & Hq & R) Hv Hl.
  destruct v as [buf|more p|now|start clock| | |count].
  1-4: match goal with |- context [fax_event ?v ?c] => destruct (sender_event gone c v S I) as (c' & -> & S' & E1 & E2) end;
    exists c'; split; [done|]; exists gone, q; by rewrite E1, E2.
  - destruct (net c) as [|p n] eqn:En; [exists c; cbn [fax_event]; rewrite En; split; [done|]; by exists gone, q|].
    destruct (sends_gone_stage _ _ _ _ S En) as (q1 & q' & Hq1 & Hp). assert (q1 = q) as -> by congruence.
    destruct (deliver_event gone c (q, 0, List.filter is_data gone) p n S En R eq_refl) as (early & e & -> & R').
    { intros E. rewrite E in Hp. destruct q; try done. by left. }
    destruct (sends_gone_next _ _ _ _ e S En) as [S' V]. rewrite (accept_stage early p q q') in R' by done.
    eexists. split; [reflexivity|]. exists (gone ++ packet_items p), q'. split; [exact S'|].
    rewrite stages_app, Hq. split; [exact Hp|]. rewrite List.filter_app. exact R'.
  - done.
  - destruct (read_event c (q, 0, List.filter is_data gone) count R Hv) as (e & l & -> & R').
    eexists. split; [reflexivity|]. by exists gone, q.
Qed.

Lemma linked_events vs : forall c, linked c -> Forall valid_event vs -> Forall lossless vs ->
  exists c', fax_events vs c = Some c' /\ linked c'.
Proof.
  induction vs as [|v vs IH]; intros c L Hv Hl; [by exists c|]. apply Forall_cons_1 in Hv as [Hv Hvs], Hl as [Hl Hls].
  destruct (linked_event c v L Hv Hl) as (c1 & E1 & L1). cbn [fax_events]. rewrite E1. cbn [mbind option_bind]. by apply IH.
Qed.

(** After the end there is only silence. *)
Lemma stages_late q l : q = after \/ q = over -> is_Some (stages q l) -> List.filter is_data l = [].
Proof.
  intros Hq [q' H]. destruct Hq as [-> | ->]; destruct l as [|[] l]; try done. destruct l as [|[] l]; try done.
Qed.

Lemma stages_signal g : stages before (signal_items g) = Some (if ended g then over else during).
Proof.
  unfold signal_items, data_items. cbn [stages stage_item mbind option_bind]. rewrite <- !app_assoc, stages_app, stages_frames.
  cbn [mbind option_bind]. rewrite stages_app, stages_octets. cbn [mbind option_bind]. by destruct (ended g).
Qed.

Lemma linked_prefix c : linked c -> was_read c `prefix_of` data_items (handed c) /\
  (stateModem (receiver c) = stmIdle -> was_read c = data_items (handed c) /\ ended (handed c) = true).
Proof.
  intros (gone & q & S & Hq & R). destruct (sends_gone_all _ _ S) as [rest H].
  set (rest' := flat_map packet_items (net c) ++ rest) in H.
  assert (data_items (handed c) = List.filter is_data gone ++ List.filter is_data rest') as E
    by (by rewrite <- signal_data, <- H, List.filter_app).
  assert (stages q rest' = Some (if ended (handed c) then over else during)) as Hr
    by (rewrite <- stages_signal, <- H, stages_app, Hq; done).
  destruct R as [_ _ _ (m & l & _ & _ & _ & _ & _ & M & E7)]. rewrite E, <- E7. split.
  - rewrite <- app_assoc. by eexists.
  - intros Ei. rewrite Ei in M. assert (l = [] /\ (q = after \/ q = over)) as [-> Hq'] by (destruct q; try done; auto).
    rewrite (stages_late q rest') by (done || by eexists). rewrite !app_nil_r. split; [done|].
    destruct (ended (handed c)); [done|]. by destruct Hq' as [-> | ->]; destruct rest' as [|[] [|[] ?]].
Qed.

(** ** The beginning *)

Record ready_to_send (e : T38Engine) : Prop := {
  rs_owner : hOwnerOut e = Some o;
  rs_modem : IsModemOpen e = true;
  rs_quiet : onIdleOut e = dtNone;
  rs_state : stateModem e = stmIdle;
  rs_out : stateOut e = stOutIdle;
  rs_in : modStreamIn e = None;
  rs_saved : modStreamInSaved e = None;
}.

Record ready_to_receive (e : T38Engine) : Prop := {
  rr_owner : hOwnerIn e = Some o';
  rr_modem : IsModemOpen e = true;
  rr_state : stateModem e = stmIdle;
  rr_in : modStreamIn e = None;
  rr_saved : modStreamInSaved e = None;
  rr_heap : pipes (heap e) = ∅;
}.

Definition call_start (es er : T38Engine) : option fax_call :=
  '(_, es) ← SendStart es dtHdlc 3;
  '(_, _, er) ← RecvWait byte0 chunk0 len0 er dtHdlc 3 cb;
  Some {| sender := es; handed := log_new; net := []; receiver := er; was_read := [] |}.

Lemma RecvWait_receives e : ready_to_receive e ->
  exists e', RecvWait byte0 chunk0 len0 e dtHdlc 3 cb = Some (true, false, e') /\ receives o' before 0 [] [] e'.
Proof.
  intros [A B C D E F]. unfold RecvWait. rewrite B, C. change (bool_decide (stmIdle = stmIdle)) with true. cbn [negb].
  unfold wait_signal. change (negb (IsModValid (GetModPars 3 by_val))) with false. cbn match. unfold reuse_in.
  change (modStreamIn (e <| callbackParamIn := cb |>)) with (modStreamIn e). rewrite D. cbn [mbind option_bind].
  change (modStreamInSaved (e <| callbackParamIn := cb |>)) with (modStreamInSaved e). rewrite E.
  eexists. split; [reflexivity|]. split; [done|done|done|]. eexists _, []. split; [reflexivity|]. split; [done|].
  split; [split; [constructor|exact F|constructor]|]. split; [split; [done|done|done]|]. done.
Qed.

Lemma call_start_begins es er : ready_to_send es -> ready_to_receive er -> exists c, call_start es er = Some c /\
  sends_gone [] c /\ was_read c = [] /\ receives o' before 0 [] [] (receiver c).
Proof.
  intros Hs Hr. destruct Hs as [H1 H2 H3 H4 H5 H6 H7]. unfold call_start.
  destruct (SendStart_sends o es H1 H2 H3 H4 H5 H6 H7) as (e1 & -> & S). cbn [mbind option_bind].
  destruct (RecvWait_receives er Hr) as (e2 & -> & R). cbn [mbind option_bind]. eexists. split; [reflexivity|].
  split; [split; [exact S|constructor]|done].
Qed.

Lemma begins_linked c : sends_gone [] c -> was_read c = [] -> receives o' before 0 [] [] (receiver c) -> linked c.
Proof. intros S E R. exists [], before. rewrite E. done. Qed.
End call.

(** C1: one modem hands frames over to its engine, and another one reads from its
    own what comes of them through the packets, which stay in order; when each of
    them acts, in what portions they write and read, when the packets are made and
    how long the calls that make them wait, is arbitrary.  No step fails, and what
    has been read is always the beginning of what has been handed over: the octets
    of each frame and its end without errors, and at the end of the signal the
    loss of the carrier; when the reader has come to rest it is all of it. *)
Theorem t38_fax_link byte0 chunk0 len0 o o' cb (es er : T38Engine) (vs : list event) :
  ready_to_send o es -> ready_to_receive o' er -> Forall valid_event vs -> Forall lossless vs ->
  exists c, (c0 ← call_start byte0 chunk0 len0 cb es er; fax_events byte0 chunk0 len0 o o' cb vs c0) = Some c /\
    was_read c `prefix_of` data_items (handed c) /\
    (stateModem (receiver c) = stmIdle -> was_read c = data_items (handed c) /\ ended (handed c) = true).
Proof.
  intros Hs Hr Hv Hl. destruct (call_start_begins byte0 chunk0 len0 o o' cb es er Hs Hr) as (c0 & -> & S0 & E0 & R0).
  pose proof (begins_linked o o' c0 S0 E0 R0) as L0.
  cbn [mbind option_bind]. destruct (linked_events byte0 chunk0 len0 o o' cb vs c0 L0 Hv Hl) as (c & E & L).
  exists c. split; [exact E|]. by apply (linked_prefix o o').
Qed.

(** Two engines as calls make them: one open for sending, which has said that
    there is no signal, and one open for receiving. *)
Definition example_sender : T38Engine :=
  default (T38Engine_new 0 0 0 0)
    (run_all 0 0 0 silent [CallAttach 1; CallOpenOut 1 5 false; CallPreparePacket 0 (moments [(1, true)]) 5] (T38Engine_new 0 0 0 0)).

Definition example_receiver : T38Engine :=
  default (T38Engine_new 0 0 0 0) (run_all 0 0 0 silent [CallAttach 2; CallOpenIn 1 6 false] (T38Engine_new 0 0 0 0)).

(** Two frames, the second one handed over while the first one is being sent. *)
Definition example_events : list event :=
  [Hand [255; 192]; Prepare 100 [(200, true)]; Hand [2]; Deliver; Finish true 7; Turn 2000; Read 5; Turn 2010; Turn 2020; Deliver; Read 1] ++
  repeat (Turn 3000) 4 ++ [Hand [255; 200; 65]; Finish false 8] ++ repeat (Turn 3000) 9 ++ repeat Deliver 12 ++ repeat (Read 2) 14.

Lemma t38_fax_link_witness :
  exists c, (c0 ← call_start 0 0 0 9 example_sender example_receiver; fax_events 0 0 0 5 6 9 example_events c0) = Some c /\
    was_read c = [Oct 255; Oct 192; Oct 2; Ends 0; Oct 255; Oct 200; Oct 65; Ends 0; Ends 1].
Proof.
  destruct (t38_fax_link 0 0 0 5 6 9 example_sender example_receiver example_events) as (c & E & _ & F).
  - split; reflexivity.
  - split; reflexivity.
  - apply (bool_decide_unpack (Forall valid_event example_events)). vm_compute. exact I.
  - apply (bool_decide_unpack (Forall lossless example_events)). vm_compute. exact I.
  - exists c. split; [exact E|].
    assert (match (c0 ← call_start 0 0 0 9 example_sender example_receiver; fax_events 0 0 0 5 6 9 example_events c0) with
            | Some c => bool_decide (stateModem (receiver c) = stmIdle) = true /\
                        data_items (handed c) = [Oct 255; Oct 192; Oct 2; Ends 0; Oct 255; Oct 200; Oct 65; Ends 0; Ends 1]
            | None => False
            end) as H by (vm_compute; split; reflexivity).
    rewrite E in H. destruct H as [H1 <-]. apply F. by apply bool_decide_eq_true in H1.
Defined.
