(* ===== verification/T38Loss.v ===== *)
(** * When packets are lost

    The engine is told of lost packets, and marks the frame it is receiving.  The
    reader of a call that loses any packets gets no frame without an error mark
    but frames that were handed over, in their order. *)
From S2P Require Import Prelude DataStream EngineBase PmHdlc T30 ModStream T38Engine T38EngineCalls T38Signal T38Send T38Receive T38Reader T38Call.

(** ** Frames *)

(** The frames of a sequence of items, with their diagnostics, and the octets
    after the last one. *)
Fixpoint frames_in (cur : list Z) (l : list item) : list (list Z * Z) :=
  match l with
  | [] => []
  | Oct b :: l => frames_in (cur ++ [b]) l
  | Ends d :: l => (cur, d) :: frames_in [] l
  | _ :: l => frames_in cur l
  end.

Fixpoint rest_in (cur : list Z) (l : list item) : list Z :=
  match l with
  | [] => cur
  | Oct b :: l => rest_in (cur ++ [b]) l
  | Ends _ :: l => rest_in [] l
  | _ :: l => rest_in cur l
  end.

Definition sound (f : list Z * Z) : bool :=
  (f.2 .& diagErrorMask =? 0) && match f.1 with [] => false | _ => true end.

(** The frames with octets and without an error. *)
Definition good (l : list item) : list (list Z) := map fst (List.filter sound (frames_in [] l)).

Definition nonempty (l : list Z) : bool := match l with [] => false | _ => true end.

Lemma frames_in_app a b cur : frames_in cur (a ++ b) = frames_in cur a ++ frames_in (rest_in cur a) b.
Proof. revert cur. induction a as [|[] a IH]; intros cur; [done|..]; cbn [app frames_in rest_in]; by rewrite IH. Qed.

Lemma rest_in_app a b cur : rest_in cur (a ++ b) = rest_in (rest_in cur a) b.
Proof. revert cur. induction a as [|[] a IH]; intros cur; [done|..]; cbn [app rest_in]; by rewrite IH. Qed.

Lemma octets_in l cur : frames_in cur (map Oct l) = [] /\ rest_in cur (map Oct l) = cur ++ l.
Proof.
  revert cur. induction l as [|b l IH]; intros cur; [by rewrite app_nil_r|]. cbn [map frames_in rest_in].
  destruct (IH (cur ++ [b])) as [-> ->]. by rewrite <- app_assoc.
Qed.

Lemma good_app a b : good (a ++ b) = good a ++ map fst (List.filter sound (frames_in (rest_in [] a) b)).
Proof. unfold good. by rewrite frames_in_app, List.filter_app, map_app. Qed.

Lemma good_octets a l : good (a ++ map Oct l) = good a.
Proof. rewrite good_app. destruct (octets_in l (rest_in [] a)) as [-> _]. by rewrite app_nil_r. Qed.

Lemma good_end a d : good (a ++ [Ends d]) = good a ++ (if sound (rest_in [] a, d) then [rest_in [] a] else []).
Proof. rewrite good_app. cbn [frames_in List.filter]. by destruct (sound _). Qed.

Lemma frames_handed fs : frames_in [] (flat_map frame_items fs) = map (fun f => (f, 0)) (List.filter nonempty fs) /\
  rest_in [] (flat_map frame_items fs) = [].
Proof.
  induction fs as [|f fs [IH1 IH2]]; [done|]. cbn [flat_map]. destruct f as [|b f]; [done|].
  change (frame_items (b :: f)) with (map Oct (b :: f) ++ [Ends 0]).
  rewrite <- app_assoc, !frames_in_app, !rest_in_app.
  destruct (octets_in (b :: f) []) as [-> ->]. cbn [frames_in rest_in app]. by rewrite IH1, IH2.
Qed.

(** What the whole signal has. *)
Lemma good_signal g : (ended g = true -> current g = []) -> good (signal_items g) = List.filter nonempty (finished g).
Proof.
  intros H. unfold signal_items, data_items. change (Pre :: ?l) with ([Pre] ++ l). rewrite good_app. cbn [rest_in good frames_in List.filter map app].
  rewrite <- !app_assoc. rewrite !frames_in_app. destruct (frames_handed (finished g)) as [-> ->].
  destruct (octets_in (current g) []) as [-> ->]. cbn [app].
  assert (List.filter sound (frames_in (current g) (if ended g then [Ends diagNoCarrier] else []) ++
    frames_in (rest_in (current g) (if ended g then [Ends diagNoCarrier] else [])) (if ended g then [NoSig] else [])) = []) as E.
  { destruct (ended g); [by rewrite H|done]. }
  rewrite List.filter_app, E, app_nil_r. induction (finished g) as [|[|b f] fs IH]; [done|done|].
  cbn [List.filter nonempty map]. change (sound (b :: f, 0)) with true. cbn match. cbn [map fst]. by f_equal.
Qed.

Lemma good_prefix a b : a `prefix_of` b -> good a `sublist_of` good b.
Proof. intros [l ->]. rewrite good_app. by apply sublist_inserts_r. Qed.

(** ** The end of the signal *)

Lemma stages_during q l : stages q l = Some during -> forall d, In (Ends d) l -> d = 0.
Proof.
  revert q. induction l as [|i l IH]; intros q H d Hd; [done|]. cbn [stages] in H.
  destruct (stage_item q i) as [q'|] eqn:Ei; [|done]. cbn [mbind option_bind] in H. destruct Hd as [-> |Hd]; [|by eapply IH].
  destruct q; try done. cbn in Ei. destruct (d =? 0) eqn:E; [by apply Z.eqb_eq in E|]. injection Ei as <-.
  by destruct l as [|[] [|[] ?]].
Qed.

Lemma stages_left l : forall q, q <> before -> stages q l <> Some before.
Proof.
  induction l as [|i l IH]; intros q Hq H; [cbn in H; congruence|]. cbn [stages] in H.
  destruct (stage_item q i) as [q'|] eqn:Ei; [|done]. apply (IH q'); [|exact H]. intros ->.
  destruct q, i; try done. cbn in Ei. by destruct (_ =? 0).
Qed.

Lemma stages_begin l : stages before l = Some before -> l = [].
Proof. destruct l as [|[] l]; try done. intros H. by destruct (stages_left l during ltac:(done) H). Qed.

(** Before the end of the carrier all the frames have ended. *)
Lemma rest_at_end g gone rest : (ended g = true -> current g = []) -> stages before gone = Some during ->
  gone ++ Ends diagNoCarrier :: rest = signal_items g -> rest_in [] gone = [].
Proof.
  intros Hg Hs H. pose proof (stages_during _ _ Hs) as Hn.
  set (A := Pre :: flat_map frame_items (finished g) ++ map Oct (current g)).
  assert (stages before A = Some during) as HA.
  { unfold A. cbn [stages stage_item mbind option_bind]. rewrite stages_app, stages_frames. cbn [mbind option_bind]. apply stages_octets. }
  pose proof (stages_during _ _ HA) as Hm.
  assert (signal_items g = A ++ if ended g then [Ends diagNoCarrier; NoSig] else []) as E.
  { unfold A, signal_items, data_items. cbn [app]. rewrite <- !app_assoc. by destruct (ended g). }
  rewrite E in H.
  assert (forall a b x y, (forall d, In (Ends d) a -> d = 0) -> (forall d, In (Ends d) b -> d = 0) ->
    a ++ Ends diagNoCarrier :: x = b ++ Ends diagNoCarrier :: y -> a = b) as U.
  { induction a as [|i a IHa]; intros [|j b] x y Ha Hb Hx; cbn [app] in Hx; [done| | |].
    - injection Hx as <- _. by specialize (Hb diagNoCarrier (or_introl eq_refl)).
    - injection Hx as -> _. by specialize (Ha diagNoCarrier (or_introl eq_refl)).
    - injection Hx as -> Hx. f_equal. eapply IHa; [intros; apply Ha; by right|intros; apply Hb; by right|exact Hx]. }
  destruct (ended g) eqn:Eg.
  - assert (gone = A) as -> by (eapply U; [exact Hn|exact Hm|exact H]). unfold A. rewrite Hg by done. rewrite app_nil_r.
    cbn [rest_in]. apply frames_handed.
  - rewrite app_nil_r in H. assert (In (Ends diagNoCarrier) A) as Hin by (rewrite <- H; apply in_or_app; right; by left).
    by specialize (Hm _ Hin).
Qed.

(** ** The reader's frames are among those that have gone out *)

Record among (gone : list item) (x : inbox) : Prop := {
  among_diag : x.1.2 = 0 \/ x.1.2 = diagBadFcs;
  among_good : good x.2 `sublist_of` good gone;
  among_begin : gone = [] -> x.1.1 = before;
  among_before : x.1.1 = before -> x.2 = [];
  among_rest : x.1.1 = during -> x.1.2 = 0 -> rest_in [] x.2 = rest_in [] gone;
}.

Lemma good_grows gone l : good gone `sublist_of` good (gone ++ l).
Proof. apply good_prefix. by exists l. Qed.

Lemma app_nonnil {A} (l l' : list A) : l' <> [] -> l ++ l' <> [].
Proof. by destruct l. Qed.

(** Something else has gone, and nothing has come of it. *)
Lemma among_ignored gone q dg got l : among gone (q, dg, got) -> l <> [] -> q <> during -> among (gone ++ l) (q, dg, got).
Proof.
  intros [A B C D E] Hl Hq. split; cbn [fst snd] in *; try done.
  - etrans; [exact B|apply good_grows].
  - intros H. by destruct (app_nonnil gone l Hl).
Qed.

Lemma among_octets gone dg got l : among gone (during, dg, got) -> l <> [] ->
  among (gone ++ map Oct l) (during, dg, got ++ map Oct l).
Proof.
  intros [A B C D E] Hl. split; cbn [fst snd] in *; try done.
  - by rewrite !good_octets.
  - intros H. destruct (app_nonnil gone (map Oct l)); [by destruct l|exact H].
  - intros _ Hd. rewrite !rest_in_app. destruct (octets_in l (rest_in [] got)) as [_ ->], (octets_in l (rest_in [] gone)) as [_ ->].
    by rewrite E.
Qed.

Lemma sound_bad f d : sound (f, diagBadFcs .| d) = false.
Proof.
  unfold sound. cbn [fst snd]. apply andb_false_iff. left. apply Z.eqb_neq. intros H.
  assert (Z.testbit ((diagBadFcs .| d) .& diagErrorMask) 11 = false) as Hb by (rewrite H; apply Z.bits_0).
  by rewrite Z.land_spec, Z.lor_spec in Hb.
Qed.

Lemma among_fcs gone dg got : among gone (during, dg, got) -> among (gone ++ [Ends 0]) (during, 0, got ++ [Ends dg]).
Proof.
  intros [A B C D E]. split; cbn [fst snd] in *; [by left| |by intros H; destruct (app_nonnil gone [Ends 0])|done|].
  - rewrite !good_end. destruct A as [-> | ->].
    + rewrite E by done. by apply sublist_app.
    + change diagBadFcs with (diagBadFcs .| 0). rewrite sound_bad, app_nil_r. by apply sublist_inserts_r.
  - intros _ _. by rewrite !rest_in_app.
Qed.

Lemma among_sig_end gone dg got : among gone (during, dg, got) -> rest_in [] gone = [] ->
  among (gone ++ [Ends diagNoCarrier]) (after, 0, got ++ [Ends (dg .| diagNoCarrier)]).
Proof.
  intros [A B C D E] Hr. split; cbn [fst snd] in *; [by left| |by intros H; destruct (app_nonnil gone [Ends diagNoCarrier])|done|done].
  rewrite (good_end got). destruct A as [-> | ->].
  - rewrite E, Hr by done. cbn match. rewrite app_nil_r. etrans; [exact B|apply good_grows].
  - rewrite sound_bad, app_nil_r. etrans; [exact B|apply good_grows].
Qed.

Lemma among_cut gone dg got : among gone (during, dg, got) ->
  among (gone ++ [NoSig]) (after, 0, got ++ [Ends (dg .| (diagOutOfOrder .| diagNoCarrier))]).
Proof.
  intros [A B C D E]. split; cbn [fst snd] in *; [by left| |by intros H; destruct (app_nonnil gone [NoSig])|done|done].
  rewrite (good_end got).
  assert (sound (rest_in [] got, dg .| (diagOutOfOrder .| diagNoCarrier)) = false) as ->.
  { destruct A as [-> | ->]; [by destruct (rest_in [] got)|apply sound_bad]. }
  rewrite app_nil_r. etrans; [exact B|apply good_grows].
Qed.

Lemma among_silence gone q dg got : among gone (q, dg, got) -> among (gone ++ [NoSig]) (q, dg, got).
Proof.
  intros [A B C D E]. split; cbn [fst snd] in *; [done| |by intros H; destruct (app_nonnil gone [NoSig])|done|].
  - etrans; [exact B|apply good_grows].
  - intros H1 H2. rewrite rest_in_app. by apply E.
Qed.

Lemma among_accept early p gone x : among gone x -> v21_packet p ->
  (packet_items p = [Pre] -> gone = []) -> (packet_items p = [Ends diagNoCarrier] -> rest_in [] gone = []) ->
  among (gone ++ packet_items p) (accept early p x).
Proof.
  destruct x as [[q dg] got]. intros H V H1 H2. destruct V.
  - specialize (H1 eq_refl). subst gone. pose proof (among_begin _ _ H eq_refl) as E. cbn [fst snd] in E. subst q.
    pose proof (among_before _ _ H eq_refl) as E. cbn [snd] in E. subst got. cbn. split; cbn [fst snd]; try done. by left.
  - cbn [accept Z.eqb e_no_signal andb]. destruct q.
    + by apply among_silence.
    + destruct early; cbn [negb]; [by apply among_silence|by apply among_cut].
    + apply among_silence in H. destruct H as [A B C D E]. split; try done; intros H'; by specialize (C H').
    + apply among_silence in H. destruct H as [A B C D E]. split; try done; intros H'; by specialize (C H').
  - rewrite octets_items. destruct q; try by apply among_ignored. by apply (among_octets gone dg got (b :: l)).
  - destruct q; try by apply among_ignored. by apply among_fcs.
  - destruct q; try by apply among_ignored. apply among_sig_end; [done|by apply H2].
Qed.

Lemma packet_items_some p : v21_packet p -> packet_items p <> [].
Proof. intros []; try done; by rewrite octets_items. Qed.

Lemma among_lose p gone x : among gone x -> v21_packet p -> among (gone ++ packet_items p) (lose x).
Proof.
  destruct x as [[q dg] got]. intros H V. pose proof (packet_items_some p V) as Hn.
  destruct q; cbn [lose]; try by apply among_ignored.
  destruct H as [A B C D E]. cbn [fst snd] in *. assert (dg .| diagBadFcs = diagBadFcs) as -> by (by destruct A as [-> | ->]).
  split; cbn [fst snd]; [by right| |by intros H; destruct (app_nonnil gone _ Hn)|done|done].
  etrans; [exact B|apply good_grows].
Qed.

(** ** The call *)

Section call.
Context (byte0 chunk0 len0 : Z) (o o' cb : Z).

Definition lossy (c : fax_call) : Prop := exists gone x, sends_gone o gone c /\
  in_state o' x (was_read c) (receiver c) /\ among gone x.

Lemma among_no_carrier gone x : among gone x -> x.1.2 .& diagNoCarrier = 0.
Proof. by intros [[-> | ->] _ _ _ _]. Qed.

Lemma gone_head gone c p n : sends_gone o gone c -> net c = p :: n ->
  (packet_items p = [Pre] -> gone = []) /\ (packet_items p = [Ends diagNoCarrier] -> rest_in [] gone = []).
Proof.
  intros S E. destruct (sends_gone_stage o _ _ _ _ S E) as (q & q' & Hq & Hp). split; intros Ei; rewrite Ei in Hp.
  - destruct q; try done. by apply stages_begin.
  - destruct (sends_gone_all o _ _ S) as [rest H]. rewrite E in H. cbn [flat_map] in H. rewrite Ei in H.
    eapply (rest_at_end (handed c)); [|destruct q; done|exact H]. destruct S as [S _]. by apply (sends_log _ _ _ _ S).
Qed.

Lemma lossy_event c v : lossy c -> valid_event v -> exists c', fax_event byte0 chunk0 len0 o o' cb v c = Some c' /\ lossy c'.
Proof.
  intros (gone & x & S & R & A) Hv.
  destruct v as [buf|more p|now|start clock| | |count].
  1-4: match goal with |- context [fax_event _ _ _ _ _ _ ?v ?c] =>
      destruct (sender_event byte0 chunk0 len0 o o' cb gone c v S I) as (c' & -> & S' & E1 & E2) end;
    exists c'; split; [done|]; exists gone, x; by rewrite E1, E2.
  - destruct (net c) as [|p n] eqn:En; [exists c; cbn [fax_event]; rewrite En; split; [done|]; by exists gone, x|].
    destruct (gone_head _ _ _ _ S En) as [G1 G2].
    destruct (deliver_event byte0 chunk0 len0 o o' cb gone c x p n S En R (among_no_carrier _ _ A)) as (early & e & -> & R').
    { intros E. left. apply (among_begin _ _ A). by apply G1. }
    destruct (sends_gone_next o _ _ _ _ e S En) as [S' V]. eexists. split; [reflexivity|].
    exists (gone ++ packet_items p), (accept early p x). split; [exact S'|]. split; [exact R'|by apply among_accept].
  - destruct (net c) as [|p n] eqn:En; [exists c; cbn [fax_event]; rewrite En; split; [done|]; by exists gone, x|].
    destruct (lose_event byte0 chunk0 len0 o o' cb c x p n En R) as (e & -> & R').
    destruct (sends_gone_next o _ _ _ _ e S En) as [S' V]. eexists. split; [reflexivity|].
    exists (gone ++ packet_items p), (lose x). split; [exact S'|]. split; [exact R'|by apply among_lose].
  - destruct (read_event byte0 chunk0 len0 o o' cb c x count R Hv) as (e & l & -> & R'). eexists. split; [reflexivity|].
    by exists gone, x.
Qed.

Lemma lossy_events vs : forall c, lossy c -> Forall valid_event vs ->
  exists c', fax_events byte0 chunk0 len0 o o' cb vs c = Some c' /\ lossy c'.
Proof.
  induction vs as [|v vs IH]; intros c L Hv; [by exists c|]. apply Forall_cons_1 in Hv as [Hv Hvs].
  destruct (lossy_event c v L Hv) as (c1 & E1 & L1). cbn [fax_events]. rewrite E1. cbn [mbind option_bind]. by apply IH.
Qed.

Lemma begins_lossy c : sends_gone o [] c -> was_read c = [] -> receives o' before 0 [] [] (receiver c) -> lossy c.
Proof.
  intros S E R. exists [], (before, 0, []). rewrite E. split; [exact S|]. split; [exact R|].
  split; cbn [fst snd]; try done. by left.
Qed.

Lemma lossy_good c : lossy c -> good (was_read c) `sublist_of` List.filter nonempty (finished (handed c)).
Proof.
  intros (gone & [[q dg] got] & S & R & A). rewrite <- (good_signal (handed c)).
  2: { destruct S as [S _]. by apply (sends_log _ _ _ _ S). }
  destruct (sends_gone_all o _ _ S) as [rest H]. rewrite <- H.
  etrans; [|apply good_grows]. etrans; [|exact (among_good _ _ A)]. apply good_prefix.
  destruct R as [_ _ _ (m & l & _ & _ & _ & _ & _ & _ & <-)]. by eexists.
Qed.
End call.

(** C10: the same call, in which any of the packets are lost and the receiving
    engine is told of the loss: whatever is lost, no step fails, and the frames
    that the reader gets with octets and without an error mark are frames that the
    sender has handed over whole, in their order; what is damaged or run together
    by the loss is marked. *)
Theorem t38_loss_marked byte0 chunk0 len0 o o' cb (es er : T38Engine) (vs : list event) :
  ready_to_send o es -> ready_to_receive o' er -> Forall valid_event vs ->
  exists c, (c0 ← call_start byte0 chunk0 len0 cb es er; fax_events byte0 chunk0 len0 o o' cb vs c0) = Some c /\
    good (was_read c) `sublist_of` List.filter nonempty (finished (handed c)).
Proof.
  intros Hs Hr Hv. destruct (call_start_begins byte0 chunk0 len0 o o' cb es er Hs Hr) as (c0 & -> & S0 & E0 & R0).
  pose proof (begins_lossy o o' c0 S0 E0 R0) as L0.
  cbn [mbind option_bind]. destruct (lossy_events byte0 chunk0 len0 o o' cb vs c0 L0 Hv) as (c & E & L).
  exists c. split; [exact E|]. by apply (lossy_good o o').
Qed.

(** Four frames; the packet with an octet of the first one is lost, and the one
    that ends the second one, so that the second and the third run together. *)
Definition example_losses : list event :=
  flat_map (fun f => [Hand f; Finish true 7; Turn 2000; Turn 2000; Turn 2000; Turn 2000; Turn 2000; Turn 2000])
    [[255; 1]; [255; 2]; [255; 3]; [255; 4]] ++
  [Deliver; Lose; Deliver; Deliver; Deliver; Deliver; Lose] ++ repeat Deliver 6 ++ repeat (Read 9) 9.

Lemma t38_loss_marked_witness :
  exists c, (c0 ← call_start 0 0 0 9 example_sender example_receiver; fax_events 0 0 0 5 6 9 example_losses c0) = Some c /\
    good (was_read c) `sublist_of` List.filter nonempty (finished (handed c)) /\ good (was_read c) = [[255; 4]].
Proof.
  destruct (t38_loss_marked 0 0 0 5 6 9 example_sender example_receiver example_losses) as (c & E & H).
  - split; reflexivity.
  - split; reflexivity.
  - apply (bool_decide_unpack (Forall valid_event example_losses)). vm_compute. exact I.
  - exists c. split; [exact E|]. split; [exact H|].
    assert (match (c0 ← call_start 0 0 0 9 example_sender example_receiver; fax_events 0 0 0 5 6 9 example_losses c0) with
            | Some c => good (was_read c) = [[255; 4]] | None => False end) as G by (vm_compute; reflexivity).
    by rewrite E in G.
Defined.
