(* ===== verification/V42bis.v ===== *)
(** * V.42bis compression (src/spandsp-0.0.6/src/v42bis.c)

    The two halves of a [v42bis_state_t], with every operation of the file.  The
    dictionary is the array of nodes, indexed by code; the octets in [output_buf]
    are the list of the first [output_octet_count] of them; the calls of a handler
    are logged, each with the octets it is given.  [None] is what C leaves
    undefined: an access outside an array, a shift by more than the width, and a
    loop that does not end. *)
From stdpp Require Import gmap.
From S2P Require Import Prelude BitOps.

(** ** Parameters *)

Definition V42BIS_MAX_CODEWORDS : Z := 4096.
Definition V42BIS_MAX_STRING_SIZE : Z := 250.
Definition V42BIS_N3 : Z := 8.
Definition V42BIS_N4 : Z := 256.
Definition V42BIS_N6 : Z := 3.
Definition V42BIS_N5 : Z := V42BIS_N4 + V42BIS_N6.
Definition V42BIS_ETM : Z := 0.
Definition V42BIS_FLUSH : Z := 1.
Definition V42BIS_STEPUP : Z := 2.
Definition V42BIS_ECM : Z := 0.
Definition V42BIS_EID : Z := 1.
Definition V42BIS_RESET : Z := 2.
Definition V42BIS_COMPRESSION_MODE_DYNAMIC : Z := 0.
Definition V42BIS_COMPRESSION_MODE_ALWAYS : Z := 1.
Definition V42BIS_COMPRESSION_MODE_NEVER : Z := 2.

(** The size of [output_buf]. *)
Definition BUF_LEN : Z := 1024.

(** No code. *)
Definition no_code : Z := 0xFFFFFFFF.
Definition no_parent : Z := 0xFFFF.

(** ** Dictionary nodes *)

Record node := {
  parent_code : Z;
  leaves : Z;
  node_octet : Z;
  children : list Z;
}.

#[export] Instance eta_node : Eta node := fun n =>
  Build_node (parent_code n) (leaves n) (node_octet n) (children n).

Abbreviation dict := (gmap Z node).

(** The bit of an octet in the map of the children. *)
Definition has_child (n : node) (octet : Z) : bool :=
  negb (aget (children n) (octet .>> 5) .& (1 .<< (octet .& 0x1F)) =? 0).
Definition set_child (n : node) (octet : Z) : node :=
  n <| children := aset (children n) (octet .>> 5) (aget (children n) (octet .>> 5) .| (1 .<< (octet .& 0x1F))) |>.
Definition clear_child (n : node) (octet : Z) : node :=
  n <| children := aset (children n) (octet .>> 5)
                     (u32 (aget (children n) (octet .>> 5) .& Z.lnot (1 .<< (octet .& 0x1F)))) |>.

Definition modify (d : dict) (code : Z) (f : node -> node) : option dict :=
  n ← d !! code; Some (<[code := f n]> d).

Definition more_leaves (n : node) : node := n <| leaves := swrap 16 (leaves n + 1) |>.
Definition less_leaves (n : node) : node := n <| leaves := swrap 16 (leaves n - 1) |>.

(** The dictionary entry of a string one octet longer than that of [parent]. *)
Definition leaf_of (parent octet : Z) (n : node) : node :=
  n <| parent_code := u16 parent |> <| leaves := 0 |> <| node_octet := u8 octet |>.

(** ** Compression *)

Record v42bis_compress_state_t := {
  compression_mode : Z;
  frames : list (list Z);
  comp_max_len : Z;
  string_code : Z;
  latest_code : Z;
  string_length : Z;
  output_bit_buffer : Z;
  output_bit_count : Z;
  comp_output : list Z;
  comp_dict : dict;
  comp_transparent : bool;
  change_transparency : Z;
  compressibility_filter : Z;
  compressibility_persistence : Z;
  comp_c1 : Z;
  comp_c2 : Z;
  comp_c3 : Z;
  comp_first : bool;
  comp_escape_code : Z;
}.

#[export] Instance eta_compress : Eta v42bis_compress_state_t := fun s =>
  Build_v42bis_compress_state_t (compression_mode s) (frames s) (comp_max_len s) (string_code s) (latest_code s)
    (string_length s) (output_bit_buffer s) (output_bit_count s) (comp_output s) (comp_dict s) (comp_transparent s)
    (change_transparency s) (compressibility_filter s) (compressibility_persistence s) (comp_c1 s) (comp_c2 s)
    (comp_c3 s) (comp_first s) (comp_escape_code s).

Definition push_compressed_raw_octet (ss : v42bis_compress_state_t) (octet : Z) : option v42bis_compress_state_t :=
  if BUF_LEN <=? zlen (comp_output ss) then None
  else
    let ss := ss <| comp_output := comp_output ss ++ [u8 octet] |> in
    Some (if comp_max_len ss <=? zlen (comp_output ss)
          then ss <| frames := frames ss ++ [comp_output ss] |> <| comp_output := [] |>
          else ss).

(** Sends the octets of the bit buffer, while more than [least] bits are there. *)
Fixpoint push_octets (fuel : nat) (least : Z) (ss : v42bis_compress_state_t) : option v42bis_compress_state_t :=
  if output_bit_count ss <=? least then Some ss
  else
    match fuel with
    | O => None
    | S fuel =>
        ss ← push_compressed_raw_octet ss (output_bit_buffer ss .>> 24);
        push_octets fuel least (ss <| output_bit_buffer := u32 (output_bit_buffer ss .<< 8) |>
                                   <| output_bit_count := output_bit_count ss - 8 |>)
    end.

(** Or-s [width] bits into the bit buffer. *)
Definition push_bits (ss : v42bis_compress_state_t) (width code : Z) : option v42bis_compress_state_t :=
  let n := 32 - width - output_bit_count ss in
  if (n <? 0) || (32 <=? n) then None
  else
    let ss := ss <| output_bit_buffer := output_bit_buffer ss .| u32 (code .<< n) |>
                 <| output_bit_count := output_bit_count ss + width |> in
    push_octets (Z.to_nat (output_bit_count ss)) 7 ss.

Definition push_compressed_code (ss : v42bis_compress_state_t) (code : Z) : option v42bis_compress_state_t :=
  push_bits ss (comp_c2 ss) code.
Definition push_compressed_octet (ss : v42bis_compress_state_t) (code : Z) : option v42bis_compress_state_t :=
  push_bits ss 8 code.

(** The search of the table for the entry of a leaf; the limit when there is
    none. *)
Fixpoint find_leaf (n : nat) (d : dict) (parent octet code : Z) : option Z :=
  match n with
  | O => Some code
  | S n =>
      e ← d !! code;
      if (parent_code e =? parent) && (node_octet e =? octet) then Some code
      else find_leaf n d parent octet (code + 1)
  end.

Definition match_octet (n2 : Z) (ss : v42bis_compress_state_t) (octet : Z) : option Z :=
  e ← comp_dict ss !! string_code ss;
  if has_child e octet then find_leaf (Z.to_nat (comp_c3 ss)) (comp_dict ss) (string_code ss) octet 0
  else Some n2.

(** Node recovery: the next entry without leaves, detached from its parent. *)
Definition next_entry (n2 c1 : Z) : Z :=
  let c1 := u32 (c1 + 1) in if n2 <=? c1 then V42BIS_N5 else c1.

Fixpoint comp_recover (fuel : nat) (n2 c1 : Z) (d : dict) : option (Z * dict) :=
  match fuel with
  | O => None
  | S fuel =>
      let c1 := next_entry n2 c1 in
      e ← d !! c1;
      if negb (leaves e =? 0) then comp_recover fuel n2 c1 d
      else if parent_code e =? no_parent then Some (c1, d)
      else
        d ← modify d (parent_code e) less_leaves;
        d ← modify d (parent_code e) (fun p => clear_child p (node_octet e));
        d ← modify d c1 (fun e => e <| parent_code := no_parent |>);
        Some (c1, d)
  end.

Definition comp_add (n2 : Z) (ss : v42bis_compress_state_t) (octet : Z) : option v42bis_compress_state_t :=
  let ss := ss <| latest_code := comp_c1 ss |> in
  d ← modify (comp_dict ss) (string_code ss) more_leaves;
  d ← modify d (string_code ss) (fun n => set_child n octet);
  d ← modify d (comp_c1 ss) (leaf_of (string_code ss) octet);
  '(c1, d) ← comp_recover (Z.to_nat n2) n2 (comp_c1 ss) d;
  Some (ss <| comp_c1 := c1 |> <| comp_dict := d |>).

Fixpoint step_up (fuel : nat) (n2 : Z) (ss : v42bis_compress_state_t) : option v42bis_compress_state_t :=
  if (comp_c3 ss <=? comp_c1 ss) && (comp_c3 ss <=? n2) then
    match fuel with
    | O => None
    | S fuel =>
        ss ← push_compressed_code ss V42BIS_STEPUP;
        step_up fuel n2 (ss <| comp_c2 := comp_c2 ss + 1 |> <| comp_c3 := u32 (comp_c3 ss .<< 1) |>)
    end
  else Some ss.

(** Data compressibility test: what is to be done about the transparency. *)
Definition persist (ss : v42bis_compress_state_t) (good : bool) (change : Z) : v42bis_compress_state_t :=
  if good then
    let ss := ss <| compressibility_persistence := compressibility_persistence ss + 1 |> in
    if 1000 <? compressibility_persistence ss
    then ss <| change_transparency := change |> <| compressibility_persistence := 0 |>
    else ss
  else ss <| compressibility_persistence := 0 |>.

Definition compressibility (ss : v42bis_compress_state_t) : v42bis_compress_state_t :=
  let ss := ss <| compressibility_filter :=
    swrap 32 (compressibility_filter ss +
              ((((8 * string_length ss - comp_c2 ss) .<< 20) - compressibility_filter ss) .>> 10)) |> in
  if compression_mode ss =? V42BIS_COMPRESSION_MODE_DYNAMIC then
    if comp_transparent ss then persist ss (0 <? compressibility_filter ss) (-1)
    else persist ss (compressibility_filter ss <? 0) 1
  else ss.

(** An octet in transparent mode. *)
Definition push_transparent (ss : v42bis_compress_state_t) (octet : Z) : option v42bis_compress_state_t :=
  if octet =? comp_escape_code ss then
    ss ← push_compressed_octet ss (comp_escape_code ss);
    push_compressed_octet (ss <| comp_escape_code := u8 (comp_escape_code ss + 1) |>) V42BIS_EID
  else push_compressed_octet ss octet.

Definition transition (ss : v42bis_compress_state_t) (octet : Z) : option v42bis_compress_state_t :=
  if change_transparency ss =? 0 then Some ss
  else
    ss ← (if change_transparency ss <? 0 then
            if comp_transparent ss then
              ss ← push_transparent ss octet;
              ss ← push_compressed_octet ss (comp_escape_code ss);
              ss ← push_compressed_octet (ss <| comp_escape_code := u8 (comp_escape_code ss + 1) |>) V42BIS_ECM;
              Some (ss <| comp_transparent := false |>)
            else Some ss
          else if negb (comp_transparent ss) then
            ss ← push_compressed_code ss V42BIS_ETM;
            Some (ss <| comp_transparent := true |>)
          else Some ss);
    Some (ss <| change_transparency := 0 |>).

(** The string ends before the octet. *)
Definition string_ends (n2 n7 code : Z) (ss : v42bis_compress_state_t) (octet : Z) : option v42bis_compress_state_t :=
  ss ← (if negb (comp_transparent ss) then
          ss ← step_up (Z.to_nat n2) n2 ss;
          push_compressed_code ss (string_code ss)
        else Some ss);
  ss ← (if negb (code =? latest_code ss) && (string_length ss <? n7) then comp_add n2 ss octet
        else Some (ss <| latest_code := no_code |>));
  ss ← transition (compressibility ss) octet;
  Some (ss <| string_code := octet + V42BIS_N6 |> <| string_length := 1 |>).

Definition compress_octet (n2 n7 : Z) (ss : v42bis_compress_state_t) (octet : Z) : option v42bis_compress_state_t :=
  code ← match_octet n2 ss octet;
  ss ← (if (code <? comp_c3 ss) && negb (code =? latest_code ss)
        then Some (ss <| string_code := code |> <| string_length := string_length ss + 1 |>)
        else string_ends n2 n7 code ss octet);
  if comp_transparent ss then push_transparent ss octet else Some ss.

Fixpoint compress_octets (n2 n7 : Z) (ss : v42bis_compress_state_t) (buf : list Z) : option v42bis_compress_state_t :=
  match buf with
  | [] => Some ss
  | octet :: buf => ss ← compress_octet n2 n7 ss octet; compress_octets n2 n7 ss buf
  end.

(** Data that is passed on as it is, in pieces of at most [max_len]. *)
Fixpoint pieces (fuel : nat) (max_len : Z) (buf : list Z) : option (list (list Z)) :=
  match fuel with
  | O => None
  | S fuel =>
      if max_len <? zlen buf then
        l ← pieces fuel max_len (drop (Z.to_nat max_len) buf);
        Some (take (Z.to_nat max_len) buf :: l)
      else Some (match buf with [] => [] | _ => [buf] end)
  end.

(** ** Decompression *)

Record v42bis_decompress_state_t := {
  data : list (list Z);
  dec_max_len : Z;
  old_code : Z;
  last_old_code : Z;
  input_bit_buffer : Z;
  input_bit_count : Z;
  dec_octet : Z;
  last_length : Z;
  dec_output : list Z;
  dec_dict : dict;
  dec_transparent : bool;
  last_extra_octet : Z;
  dec_c1 : Z;
  dec_c2 : Z;
  dec_c3 : Z;
  dec_first : bool;
  dec_escape_code : Z;
  escaped : bool;
}.

#[export] Instance eta_decompress : Eta v42bis_decompress_state_t := fun s =>
  Build_v42bis_decompress_state_t (data s) (dec_max_len s) (old_code s) (last_old_code s) (input_bit_buffer s)
    (input_bit_count s) (dec_octet s) (last_length s) (dec_output s) (dec_dict s) (dec_transparent s)
    (last_extra_octet s) (dec_c1 s) (dec_c2 s) (dec_c3 s) (dec_first s) (dec_escape_code s) (escaped s).

(** What is ready goes to the handler. *)
Definition hand_over (ss : v42bis_decompress_state_t) : v42bis_decompress_state_t :=
  match dec_output ss with
  | [] => ss
  | l => ss <| data := data ss ++ [l] |> <| dec_output := [] |>
  end.

(** Octets go to the output buffer, and the buffer to the handler when there is
    no room for another string. *)
Definition put_output (n7 : Z) (ss : v42bis_decompress_state_t) (l : list Z) : option v42bis_decompress_state_t :=
  if BUF_LEN <? zlen (dec_output ss ++ l) then None
  else
    let ss := ss <| dec_output := dec_output ss ++ l |> in
    Some (if dec_max_len ss - n7 <=? zlen (dec_output ss)
          then ss <| data := data ss ++ [dec_output ss] |> <| dec_output := [] |>
          else ss).

(** Fills the bit buffer. *)
Fixpoint fill (ss : v42bis_decompress_state_t) (buf : list Z) : v42bis_decompress_state_t * list Z :=
  match buf with
  | [] => (ss, [])
  | b :: rest =>
      if input_bit_count ss <? 32 - 8 then
        fill (ss <| input_bit_count := input_bit_count ss + 8 |>
                 <| input_bit_buffer := input_bit_buffer ss .| u32 (b .<< (32 - (input_bit_count ss + 8))) |>) rest
      else (ss, buf)
  end.

(** The octets of the string of a code, found from its end; the room for them is
    [V42BIS_MAX_STRING_SIZE]. *)
Fixpoint trace_back (fuel : nat) (d : dict) (code : Z) (string : list Z) : option (list Z) :=
  match fuel with
  | O => None
  | S fuel =>
      if V42BIS_MAX_STRING_SIZE <=? zlen string then None
      else if V42BIS_N5 <=? code then
        e ← d !! code;
        trace_back fuel d (parent_code e) (node_octet e :: string)
      else Some (u8 (code - V42BIS_N6) :: string)
  end.

Fixpoint dec_recover (fuel : nat) (n2 c1 : Z) (d : dict) : option (Z * dict) :=
  match fuel with
  | O => None
  | S fuel =>
      let c1 := next_entry n2 c1 in
      e ← d !! c1;
      if negb (leaves e =? 0) then dec_recover fuel n2 c1 d
      else
        d ← (if negb (parent_code e =? no_parent) then modify d (parent_code e) less_leaves else Some d);
        d ← modify d c1 (fun e => e <| parent_code := no_parent |>);
        Some (c1, d)
  end.

Definition dec_add (n2 : Z) (ss : v42bis_decompress_state_t) (octet : Z) : option v42bis_decompress_state_t :=
  d ← modify (dec_dict ss) (old_code ss) more_leaves;
  d ← modify d (dec_c1 ss) (leaf_of (old_code ss) octet);
  '(c1, d) ← dec_recover (Z.to_nat n2) n2 (dec_c1 ss) d;
  Some (ss <| dec_c1 := c1 |> <| dec_dict := d |>).

(** What becomes of one code: on with another one of this length, or the return
    value. *)
Inductive decoded :=
| Continue (code_len : Z)
| Return (r : Z).

Definition decode_transparent (n7 : Z) (ss : v42bis_decompress_state_t) (code : Z) :
    option (Z * v42bis_decompress_state_t) :=
  if escaped ss then
    let ss := ss <| escaped := false |> in
    if code =? V42BIS_ECM then Some (dec_c2 ss, ss <| dec_transparent := false |>)
    else if code =? V42BIS_EID then
      ss ← put_output n7 ss [u8 (dec_escape_code ss - 1)];
      Some (8, ss)
    else Some (8, ss)
  else if code =? dec_escape_code ss then
    Some (8, ss <| dec_escape_code := u8 (dec_escape_code ss + 1) |> <| escaped := true |>)
  else
    ss ← put_output n7 ss [u8 code];
    Some (8, ss).

Definition decode_control (n2 : Z) (ss : v42bis_decompress_state_t) (code_len code : Z) :
    decoded * v42bis_decompress_state_t :=
  if code =? V42BIS_ETM then (Continue 8, ss <| dec_transparent := true |>)
  else if code =? V42BIS_FLUSH then (Continue code_len, hand_over ss)
  else if n2 <=? dec_c3 ss then (Return (-1), ss)
  else
    let ss := ss <| dec_c2 := dec_c2 ss + 1 |> in
    (Continue (dec_c2 ss), ss <| dec_c3 := u32 (dec_c3 ss .<< 1) |>).

Definition decode_first (n7 : Z) (ss : v42bis_decompress_state_t) (code : Z) : option v42bis_decompress_state_t :=
  let ss := ss <| dec_first := false |> <| dec_octet := code - V42BIS_N6 |> <| dec_output := [] |> in
  ss ← put_output n7 ss [u8 (dec_octet ss)];
  Some (ss <| old_code := code |>).

(** The update of the dictionary after a string that begins with [octet]. *)
Definition dec_update (n2 n7 : Z) (ss : v42bis_decompress_state_t) (octet : Z) : option v42bis_decompress_state_t :=
  if (last_length ss <? n7) && (negb (last_old_code ss =? old_code ss) || negb (last_extra_octet ss =? octet))
  then dec_add n2 ss (dec_octet ss)
  else Some ss.

Definition decode_string (n2 n7 : Z) (ss : v42bis_decompress_state_t) (code : Z) : option (decoded * v42bis_decompress_state_t) :=
  e ← dec_dict ss !! code;
  if parent_code e =? no_parent then Some (Return (-1), ss)
  else
    string ← trace_back (Z.to_nat V42BIS_MAX_STRING_SIZE + 1) (dec_dict ss) code [];
    ss ← put_output n7 (ss <| dec_octet := aget string 0 |>) string;
    ss ← dec_update n2 n7 ss (aget string 0);
    Some (Continue 0, ss <| last_old_code := old_code ss |> <| last_extra_octet := aget string 0 |>
                         <| old_code := code |> <| last_length := zlen string |>).

Definition decode_code (n2 n7 : Z) (ss : v42bis_decompress_state_t) (code_len new_code : Z) :
    option (decoded * v42bis_decompress_state_t) :=
  if dec_transparent ss then
    '(code_len, ss) ← decode_transparent n7 ss new_code;
    Some (Continue code_len, ss)
  else if new_code <? V42BIS_N6 then Some (decode_control n2 ss code_len new_code)
  else if dec_first ss then
    ss ← decode_first n7 ss new_code;
    Some (Continue code_len, ss)
  else
    '(r, ss) ← decode_string n2 n7 ss new_code;
    Some (match r with Continue _ => Continue code_len | r => r end, ss).

Fixpoint decode_loop (fuel : nat) (n2 n7 : Z) (ss : v42bis_decompress_state_t) (code_len : Z) (buf : list Z) :
    option (Z * v42bis_decompress_state_t) :=
  match fuel with
  | O => None
  | S fuel =>
      let '(ss, buf) := fill ss buf in
      if input_bit_count ss <? code_len then Some (0, ss)
      else
        let new_code := input_bit_buffer ss .>> (32 - code_len) in
        let ss := ss <| input_bit_count := input_bit_count ss - code_len |>
                     <| input_bit_buffer := u32 (input_bit_buffer ss .<< code_len) |> in
        '(r, ss) ← decode_code n2 n7 ss code_len new_code;
        match r with
        | Continue code_len => decode_loop fuel n2 n7 ss code_len buf
        | Return r => Some (r, ss)
        end
  end.

(** ** The descriptor and its operations *)

Record v42bis_state_t := {
  parm_p0 : Z;
  compress : v42bis_compress_state_t;
  decompress : v42bis_decompress_state_t;
  parm_n1 : Z;
  parm_n2 : Z;
  parm_n7 : Z;
}.

#[export] Instance eta_v42bis : Eta v42bis_state_t := fun s =>
  Build_v42bis_state_t (parm_p0 s) (compress s) (decompress s) (parm_n1 s) (parm_n2 s) (parm_n7 s).

Definition v42bis_compress (s : v42bis_state_t) (buf : list Z) : option v42bis_state_t :=
  let ss := compress s in
  if parm_p0 s .& 2 =? 0 then
    l ← pieces (length buf + 1) (comp_max_len ss) buf;
    Some (s <| compress := ss <| frames := frames ss ++ l |> |>)
  else
    '(ss, buf) ←
      match buf with
      | octet :: rest =>
          if comp_first ss then
            let ss := ss <| string_code := octet + V42BIS_N6 |> in
            ss ← (if comp_transparent ss then push_compressed_octet ss octet else Some ss);
            Some (ss <| comp_first := false |>, rest)
          else Some (ss, buf)
      | [] => Some (ss, buf)
      end;
    ss ← compress_octets (parm_n2 s) (parm_n7 s) ss buf;
    Some (s <| compress := ss |>).

Definition compress_flush (ss : v42bis_compress_state_t) : option v42bis_compress_state_t :=
  ss ← (if negb (comp_transparent ss) then
          ss ← push_compressed_code ss (string_code ss);
          push_compressed_code ss V42BIS_FLUSH
        else Some ss);
  ss ← push_octets (Z.to_nat (output_bit_count ss)) 0 ss;
  Some (match comp_output ss with
        | [] => ss
        | l => ss <| frames := frames ss ++ [l] |> <| comp_output := [] |>
        end).

Definition v42bis_compress_flush (s : v42bis_state_t) : option v42bis_state_t :=
  ss ← compress_flush (compress s);
  Some (s <| compress := ss |>).

Definition v42bis_decompress (s : v42bis_state_t) (buf : list Z) : option (Z * v42bis_state_t) :=
  let ss := decompress s in
  if parm_p0 s .& 1 =? 0 then
    l ← pieces (length buf + 1) (dec_max_len ss) buf;
    Some (0, s <| decompress := ss <| data := data ss ++ l |> |>)
  else
    let code_len := if dec_transparent ss then 8 else dec_c2 ss in
    '(r, ss) ← decode_loop (Z.to_nat (input_bit_count ss + 8 * zlen buf + 1)) (parm_n2 s) (parm_n7 s) ss code_len buf;
    Some (r, s <| decompress := ss |>).

Definition v42bis_decompress_flush (s : v42bis_state_t) : v42bis_state_t :=
  s <| decompress := hand_over (decompress s) |>.

Definition v42bis_compression_control (s : v42bis_state_t) (mode : Z) : v42bis_state_t :=
  let ss := compress s <| compression_mode := mode |> in
  let ss := if mode =? V42BIS_COMPRESSION_MODE_ALWAYS then ss <| change_transparency := -1 |>
            else if mode =? V42BIS_COMPRESSION_MODE_NEVER then ss <| change_transparency := 1 |>
            else ss in
  s <| compress := ss |>.

(** The nodes after [v42bis_init]. *)
Definition new_node (parent : Z) : node :=
  {| parent_code := parent; leaves := 0; node_octet := 0; children := replicate 8 0 |}.

Definition new_dict (parent : Z -> Z) : dict :=
  list_to_map (map (fun i => (i, new_node (parent i))) (seqZ 0 V42BIS_MAX_CODEWORDS)).

Definition compress_init (max_frame_len : Z) : v42bis_compress_state_t := {|
  compression_mode := V42BIS_COMPRESSION_MODE_DYNAMIC; frames := [];
  comp_max_len := if max_frame_len <? 1024 then max_frame_len else 1024;
  string_code := no_code; latest_code := no_code; string_length := 0; output_bit_buffer := 0; output_bit_count := 0;
  comp_output := []; comp_dict := new_dict (fun _ => no_parent); comp_transparent := false; change_transparency := 0;
  compressibility_filter := 0; compressibility_persistence := 0; comp_c1 := V42BIS_N5; comp_c2 := V42BIS_N3 + 1;
  comp_c3 := 2 * V42BIS_N4; comp_first := true; comp_escape_code := 0;
|}.

Definition decompress_init (max_data_len : Z) : v42bis_decompress_state_t := {|
  data := []; dec_max_len := if max_data_len <? 1024 then max_data_len else 1024;
  old_code := 0; last_old_code := no_code; input_bit_buffer := 0; input_bit_count := 0; dec_octet := 0;
  last_length := 0; dec_output := []; dec_dict := new_dict (fun i => if i <? V42BIS_N5 then i else no_parent);
  dec_transparent := false; last_extra_octet := -1; dec_c1 := V42BIS_N5; dec_c2 := V42BIS_N3 + 1;
  dec_c3 := 2 * V42BIS_N4; dec_first := true; dec_escape_code := 0; escaped := false;
|}.

Definition v42bis_init (p0 p1 p2 max_frame_len max_data_len : Z) : option v42bis_state_t :=
  if (p1 <? 512) || (65535 <? p1) then None
  else if (p2 <? 6) || (V42BIS_MAX_STRING_SIZE <? p2) then None
  else Some {|
    parm_p0 := p0; compress := compress_init max_frame_len; decompress := decompress_init max_data_len;
    parm_n1 := top_bit (p1 - 1) + 1; parm_n2 := p1; parm_n7 := p2;
  |}.
