(* ===== verification/V42bisDict.v ===== *)
(** * The dictionary of V.42bis as a table

    A table has the entries of the dictionary: the code of a string, with the code
    of the string without its last octet, and that octet.  The arrays of nodes of
    both directions represent tables, and node recovery is the same in both. *)
From stdpp Require Import gmap sets.
From S2P Require Import Prelude BitOps V42bis.

Abbreviation table := (gmap Z (Z * Z)).

(** ** Leaves *)

Definition kids (T : table) (p : Z) : Z := Z.of_nat (size (filter (fun x : Z * (Z * Z) => x.2.1 = p) T)).

Lemma kids_nonneg T p : 0 <= kids T p.
Proof. unfold kids. lia. Qed.

Lemma kids_size T p : kids T p <= Z.of_nat (size T).
Proof. unfold kids. apply Nat2Z.inj_le. apply map_subseteq_size, map_filter_subseteq. Qed.

Lemma kids_insert T c p o q : T !! c = None ->
  kids (<[c := (p, o)]> T) q = kids T q + (if p =? q then 1 else 0).
Proof.
  intros Hc. unfold kids. destruct (Z.eqb_spec p q) as [<-|Hpq].
  - rewrite map_filter_insert_True by done. rewrite map_size_insert_None; [lia|].
    apply map_lookup_filter_None. by left.
  - rewrite map_filter_insert_False by done. rewrite delete_id by done. lia.
Qed.

Lemma kids_delete T c p o q : T !! c = Some (p, o) ->
  kids (base.delete c T) q = kids T q - (if p =? q then 1 else 0).
Proof.
  intros Hc. rewrite <- (insert_delete_id T c (p, o) Hc) at 2.
  rewrite kids_insert by apply lookup_delete_eq. lia.
Qed.

Lemma kids_none T p c o : kids T p = 0 -> T !! c <> Some (p, o).
Proof.
  unfold kids. intros H Hc.
  assert (filter (fun x : Z * (Z * Z) => x.2.1 = p) T = ∅) as E by (apply map_size_empty_inv; lia).
  assert (filter (fun x : Z * (Z * Z) => x.2.1 = p) T !! c = Some (p, o)) as F by (by apply map_lookup_filter_Some).
  by rewrite E, lookup_empty in F.
Qed.

Lemma kids_some T p : kids T p <> 0 -> exists c o, T !! c = Some (p, o).
Proof.
  unfold kids. intros H. destruct (map_choose (filter (fun x : Z * (Z * Z) => x.2.1 = p) T)) as (c & [q o] & F).
  { intros E. rewrite E, map_size_empty in H. lia. }
  apply map_lookup_filter_Some in F as [F E]. cbn [snd fst] in E. subst q. by exists c, o.
Qed.

Lemma kids_empty p : kids ∅ p = 0.
Proof. unfold kids. by rewrite map_filter_empty, map_size_empty. Qed.

(** ** Strings *)

Definition is_root (c : Z) : Prop := V42BIS_N6 <= c < V42BIS_N5.

Inductive spells (T : table) : Z -> list Z -> Prop :=
| spells_root c : is_root c -> spells T c [c - V42BIS_N6]
| spells_entry c p o s : T !! c = Some (p, o) -> ~ is_root c -> spells T p s -> spells T c (s ++ [o]).

Lemma spells_nonempty T c s : spells T c s -> (0 < length s)%nat.
Proof. intros []; [simpl; lia|rewrite length_app; simpl; lia]. Qed.

Lemma spells_det T c s1 s2 : spells T c s1 -> spells T c s2 -> s1 = s2.
Proof.
  intros H. revert s2. induction H as [c Hc|c p o s Hc Hr H IH]; intros s2 H2; inversion H2; subst; try done.
  rewrite Hc in *. simplify_eq. by rewrite (IH s0).
Qed.

(** The string of a code is there as long as the codes on the way are. *)
Lemma spells_insert T c1 x c s : T !! c1 = None -> spells T c s -> spells (<[c1 := x]> T) c s.
Proof.
  intros Hn. induction 1 as [c Hc|c p o s Hc Hr H IH]; [by constructor|]. econstructor; [|done|exact IH].
  rewrite lookup_insert_ne; [done|]. intros ->. by rewrite Hn in Hc.
Qed.

Lemma spells_delete T c1 c s : (forall d o, T !! d <> Some (c1, o)) -> c <> c1 -> spells T c s -> spells (base.delete c1 T) c s.
Proof.
  intros Hk Hc H. induction H as [c Hr|c p o s Hl Hr H IH]; [by constructor|]. econstructor; [|done|].
  - by rewrite lookup_delete_ne by done.
  - apply IH. intros ->. by apply (Hk c o).
Qed.

(** The codes on the way to the root. *)
Inductive chain (T : table) : Z -> list Z -> Prop :=
| chain_root c : is_root c -> chain T c []
| chain_entry c p o l : T !! c = Some (p, o) -> ~ is_root c -> chain T p l -> chain T c (c :: l).

Lemma spells_chain T c s : spells T c s -> exists l, chain T c l /\ length s = S (length l).
Proof.
  induction 1 as [c Hc|c p o s Hc Hr H (l & Hl & E)]; [exists []; by split; [constructor|]|].
  exists (c :: l). split; [by econstructor|]. rewrite length_app. cbn [length]. lia.
Qed.

Lemma chain_closed T c l x p o : chain T c l -> In x l -> T !! x = Some (p, o) -> ~ is_root p -> In p l.
Proof.
  induction 1 as [|c q o' l Hc Hr H IH]; intros Hx Hp Hn; [done|]. destruct Hx as [-> |Hx].
  - rewrite Hc in Hp. simplify_eq. right. inversion H; subst; [done|by left].
  - right. by apply IH.
Qed.

(** ** Well-formed tables *)

Section dict.
Context (n2 n7 : Z).

Definition entry (c : Z) : Prop := V42BIS_N5 <= c < n2.

Definition spelled (T : table) : Prop := forall c p o, T !! c = Some (p, o) ->
  entry c /\ is_byte o /\ exists s, spells T c s /\ zlen s <= n7.

Record limits : Prop := {
  limits_n2 : 512 <= n2 <= V42BIS_MAX_CODEWORDS;
  limits_n7 : 6 <= n7 <= V42BIS_MAX_STRING_SIZE;
}.

Lemma entry_not_root c : entry c -> ~ is_root c.
Proof. unfold entry, is_root, V42BIS_N5, V42BIS_N4, V42BIS_N6. lia. Qed.

Lemma spells_parent T c p o s : T !! c = Some (p, o) -> entry c -> spells T c s -> exists s', spells T p s' /\ s = s' ++ [o].
Proof.
  intros Hc He H. inversion H as [? Hr|? p' o' s' Hc' Hr H']; subst; [by destruct (entry_not_root c He)|].
  rewrite Hc in Hc'. simplify_eq. by eexists.
Qed.

Lemma spells_code T c s : spelled T -> spells T c s -> is_root c \/ entry c /\ exists p o, T !! c = Some (p, o).
Proof. intros HT H. inversion H; subst; [by left|right]. split; [by apply (HT c p o)|by eexists _, _]. Qed.

(** Nothing is below a code that has no string. *)
Lemma free_no_kids T c : spelled T -> T !! c = None -> entry c -> kids T c = 0.
Proof.
  intros HT Hc He. destruct (decide (kids T c = 0)) as [|Hk]; [done|exfalso].
  destruct (kids_some T c Hk) as (d & o & Hd). destruct (HT d c o Hd) as (Hde & _ & s & Hs & _).
  destruct (spells_parent T d c o s Hd Hde Hs) as (s' & Hs' & _).
  destruct (spells_code T c s' HT Hs') as [Hr|(_ & p & o' & E)]; [by destruct (entry_not_root c He)|by rewrite Hc in E].
Qed.

(** Strings are shorter than a dictionary in which every entry is on the way to
    one of them: so there always is a leaf to recover that is not the last one. *)
Lemma leaf_elsewhere T c x : limits -> spelled T -> T !! c = Some x ->
  exists c', entry c' /\ c' <> c /\ kids T c' = 0.
Proof.
  intros [L1 L2] HT Hc. unfold V42BIS_MAX_CODEWORDS, V42BIS_MAX_STRING_SIZE in *.
  destruct (decide (Exists (fun c' => c' <> c /\ kids T c' = 0) (seqZ V42BIS_N5 (n2 - V42BIS_N5)))) as [H|H].
  { apply list.Exists_exists in H as (c' & Hin & Hne & Hk). apply elem_of_seqZ in Hin. exists c'. unfold entry. split; [lia|done]. }
  exfalso. destruct x as [p o]. destruct (HT c p o Hc) as (He & _ & s & Hs & Hlen).
  destruct (spells_chain T c s Hs) as (l & Hl & El).
  assert (forall k j sj, entry j -> spells T j sj -> (Z.to_nat n7 - length sj < k)%nat -> In j l) as Hall.
  { induction k as [|k IH]; intros j sj Hj Hsj Hk; [lia|].
    destruct (decide (j = c)) as [->|Hjc].
    { inversion Hl; subst; [by destruct (entry_not_root c He)|by left]. }
    destruct (kids_some T j) as (d & o' & Hd).
    { intros E. apply H, list.Exists_exists. exists j. split; [apply elem_of_seqZ; unfold entry in Hj; lia|done]. }
    destruct (HT d j o' Hd) as (Hde & _ & sd & Hsd & Hld).
    apply (chain_closed T c l d j o' Hl); [|done|by apply entry_not_root]. apply (IH d sd); [done|done|].
    destruct (spells_parent T d j o' sd Hd Hde Hsd) as (sj' & Hsj' & ->). rewrite (spells_det _ _ _ _ Hsj' Hsj) in *.
    rewrite length_app in *. cbn [length] in *. lia. }
  assert (forall j, entry j -> In j l) as Hevery.
  { intros j Hj. destruct (decide (j = c)) as [->|Hjc].
    { inversion Hl; subst; [by destruct (entry_not_root c He)|by left]. }
    destruct (kids_some T j) as (d & o' & Hd).
    { intros E. apply H, list.Exists_exists. exists j. split; [apply elem_of_seqZ; unfold entry in Hj; lia|done]. }
    destruct (HT d j o' Hd) as (Hde & _ & sd & Hsd & _).
    destruct (spells_parent T d j o' sd Hd Hde Hsd) as (sj' & Hsj' & _). apply (Hall (S (Z.to_nat n7)) j sj' Hj Hsj'). lia. }
  assert (length (seqZ V42BIS_N5 (n2 - V42BIS_N5)) <= length l)%nat as Hle.
  { apply NoDup_incl_length.
    - apply NoDup_ListNoDup, NoDup_seqZ.
    - intros j Hj. apply list_elem_of_In, elem_of_seqZ in Hj. apply Hevery. unfold entry. lia. }
  rewrite length_seqZ in Hle. unfold V42BIS_N5, V42BIS_N4, V42BIS_N6 in Hle. lia.
Qed.

Lemma spelled_size T : limits -> spelled T -> Z.of_nat (size T) <= V42BIS_MAX_CODEWORDS.
Proof.
  intros [L1 _] HT. rewrite <- size_dom.
  assert (dom T ⊆ (list_to_set (seqZ V42BIS_N5 (n2 - V42BIS_N5)) : gset Z)) as Hs.
  { intros c Hc. apply elem_of_dom in Hc as [[p o] Hc]. destruct (HT c p o Hc) as (He & _).
    apply elem_of_list_to_set, elem_of_seqZ. unfold entry in He. lia. }
  apply subseteq_size in Hs. rewrite size_list_to_set in Hs by apply NoDup_seqZ. rewrite length_seqZ in Hs.
  unfold V42BIS_N5, V42BIS_N4, V42BIS_N6 in *. lia.
Qed.

(** ** Node recovery *)

Fixpoint recover (fuel : nat) (c1 : Z) (T : table) : option (Z * table) :=
  match fuel with
  | O => None
  | S fuel =>
      let c1 := next_entry n2 c1 in
      if kids T c1 =? 0 then Some (c1, base.delete c1 T) else recover fuel c1 T
  end.

(** The string of [p] with one more octet becomes the entry [c1]. *)
Definition grow (T : table) (c1 p o : Z) : option (Z * table) := recover (Z.to_nat n2) c1 (<[c1 := (p, o)]> T).

Hypothesis L : limits.

(** The entry that is looked at [k] steps after the next one. *)
Definition nth_next (c1 k : Z) : Z := V42BIS_N5 + (c1 - V42BIS_N5 + 1 + k) mod (n2 - V42BIS_N5).

Lemma limits_range : 512 <= n2 <= 4096 /\ 6 <= n7 <= 250.
Proof. destruct L as [A B]. unfold V42BIS_MAX_CODEWORDS, V42BIS_MAX_STRING_SIZE in *. lia. Qed.

Lemma N5_value : V42BIS_N5 = 259.
Proof. done. Qed.

Lemma nth_next_entry c1 k : entry (nth_next c1 k).
Proof.
  pose proof limits_range as R. unfold entry, nth_next. rewrite N5_value.
  pose proof (Z.mod_pos_bound (c1 - 259 + 1 + k) (n2 - 259)). lia.
Qed.

Lemma next_entry_nth c1 : entry c1 -> next_entry n2 c1 = nth_next c1 0.
Proof.
  pose proof limits_range as R. unfold entry, next_entry, nth_next. rewrite N5_value. intros He. rewrite wrap_id by lia.
  destruct (Z.leb_spec n2 (c1 + 1)).
  - replace (c1 - 259 + 1 + 0) with (n2 - 259) by lia. rewrite Z_mod_same_full. lia.
  - rewrite Z.mod_small by lia. lia.
Qed.

Lemma nth_next_next c1 k : nth_next (nth_next c1 0) k = nth_next c1 (k + 1).
Proof.
  pose proof limits_range as R. unfold nth_next. rewrite N5_value. f_equal.
  replace (259 + (c1 - 259 + 1 + 0) mod (n2 - 259) - 259 + 1 + k) with ((c1 - 259 + 1 + 0) mod (n2 - 259) + (1 + k)) by lia.
  rewrite Zplus_mod_idemp_l. f_equal. lia.
Qed.

Lemma recover_finds T (k : nat) : forall fuel c1, entry c1 -> (k < fuel)%nat -> kids T (nth_next c1 (Z.of_nat k)) = 0 ->
  exists k', (k' <= k)%nat /\ recover fuel c1 T = Some (nth_next c1 (Z.of_nat k'), base.delete (nth_next c1 (Z.of_nat k')) T) /\
    kids T (nth_next c1 (Z.of_nat k')) = 0.
Proof.
  induction k as [|k IH]; intros fuel c1 He Hf Hk; (destruct fuel as [|fuel]; [lia|]); cbn [recover];
    rewrite next_entry_nth by done; destruct (Z.eqb_spec (kids T (nth_next c1 0)) 0) as [E|E].
  - exists O. done.
  - done.
  - exists O. split; [lia|]. done.
  - destruct (IH fuel (nth_next c1 0)) as (k' & Hk' & H1 & H2); [apply nth_next_entry|lia| |].
    + rewrite nth_next_next. replace (Z.of_nat k + 1) with (Z.of_nat (S k)) by lia. done.
    + rewrite nth_next_next in H1, H2. exists (S k'). replace (Z.of_nat (S k')) with (Z.of_nat k' + 1) by lia. split; [lia|done].
Qed.

(** How far an entry is. *)
Lemma nth_next_dist c1 c : entry c1 -> entry c -> c <> c1 -> exists k : nat, Z.of_nat k < n2 - V42BIS_N5 - 1 /\ nth_next c1 (Z.of_nat k) = c.
Proof.
  pose proof limits_range as R. unfold entry. rewrite N5_value. intros H1 H Hne.
  exists (Z.to_nat ((c - c1 - 1) mod (n2 - 259))).
  pose proof (Z.mod_pos_bound (c - c1 - 1) (n2 - 259)) as B. rewrite Z2Nat.id by lia. split.
  - destruct (Z_lt_le_dec c (c1 + 1)).
    + assert ((c - c1 - 1) mod (n2 - 259) = c - c1 - 1 + (n2 - 259)) as E; [|lia].
      symmetry. apply (Z.mod_unique_pos _ _ (-1)); lia.
    + rewrite Z.mod_small by lia. lia.
  - unfold nth_next. rewrite N5_value. rewrite Zplus_mod_idemp_r. replace (c1 - 259 + 1 + (c - c1 - 1)) with (c - 259) by lia.
    rewrite Z.mod_small by lia. lia.
Qed.

Lemma nth_next_away c1 (k : nat) : entry c1 -> Z.of_nat k < n2 - V42BIS_N5 - 1 -> nth_next c1 (Z.of_nat k) <> c1.
Proof.
  pose proof limits_range as R. unfold entry, nth_next. rewrite N5_value. intros H1 Hk E.
  destruct (Z_lt_le_dec (c1 - 259 + 1 + Z.of_nat k) (n2 - 259)) as [D|D].
  - rewrite Z.mod_small in E by lia. lia.
  - assert ((c1 - 259 + 1 + Z.of_nat k) mod (n2 - 259) = c1 - 259 + 1 + Z.of_nat k - (n2 - 259)) as F; [|lia].
    symmetry. apply (Z.mod_unique_pos _ _ 1); lia.
Qed.

(** ** The dictionary grows *)

Record table_ok (T : table) (c1 : Z) : Prop := {
  table_spelled : spelled T;
  table_c1 : entry c1;
  table_free : T !! c1 = None;
}.

Lemma spelled_insert T c1 p o s : spelled T -> entry c1 -> T !! c1 = None -> spells T p s -> zlen s < n7 -> is_byte o ->
  spelled (<[c1 := (p, o)]> T).
Proof.
  intros HT He Hn Hp Hs Ho c q o' Hc. destruct (decide (c = c1)) as [->|Hne].
  - rewrite lookup_insert_eq in Hc. simplify_eq. split; [done|]. split; [done|]. exists (s ++ [o']). split.
    + econstructor; [apply lookup_insert_eq|by apply entry_not_root|by apply spells_insert].
    + rewrite length_app. cbn [length]. lia.
  - rewrite lookup_insert_ne in Hc by done. destruct (HT c q o' Hc) as (A & B & s' & C & D). split; [done|]. split; [done|].
    exists s'. split; [by apply spells_insert|done].
Qed.

Lemma spelled_delete T c1 : spelled T -> kids T c1 = 0 -> spelled (base.delete c1 T).
Proof.
  intros HT Hk c p o Hc. apply lookup_delete_Some in Hc as [Hne Hc]. destruct (HT c p o Hc) as (A & B & s & C & D).
  split; [done|]. split; [done|]. exists s. split; [|done]. apply spells_delete; [|done|done].
  intros d o'. by apply kids_none.
Qed.

Lemma spells_not_free T c1 p s : table_ok T c1 -> spells T p s -> p <> c1.
Proof.
  intros [A B C] H ->. destruct (spells_code T c1 s A H) as [Hr|(_ & q & o & E)]; [by apply entry_not_root in B|by rewrite C in E].
Qed.

Record grown (T : table) (c1 p o : Z) (c2 : Z) (T2 : table) : Prop := {
  grown_grow : grow T c1 p o = Some (c2, T2);
  grown_ok : table_ok T2 c2;
  grown_other : c2 <> c1;
  grown_new : T2 !! c1 = Some (p, o);
  grown_same : forall c, c <> c1 -> c <> c2 -> T2 !! c = T !! c;
  grown_spells : forall c s, spells T c s -> c <> c2 -> spells T2 c s;
}.

Lemma grow_spec T c1 p o s : table_ok T c1 -> spells T p s -> zlen s < n7 -> is_byte o ->
  exists c2 T2, grown T c1 p o c2 T2.
Proof.
  intros [A B C] Hp Hs Ho. pose proof limits_range as R. set (T1 := <[c1 := (p, o)]> T).
  assert (spelled T1) as A1 by (by apply (spelled_insert T c1 p o s)).
  destruct (leaf_elsewhere T1 c1 (p, o) L A1 (lookup_insert_eq _ _ _)) as (c' & He & Hne & Hk).
  destruct (nth_next_dist c1 c' B He Hne) as (k & Hkb & Ek). pose proof B as B'. unfold entry in B'. rewrite N5_value in *.
  destruct (recover_finds T1 k (Z.to_nat n2) c1 B ltac:(lia) ltac:(by rewrite Ek)) as (k' & Hk' & E & Hk2).
  exists (nth_next c1 (Z.of_nat k')), (base.delete (nth_next c1 (Z.of_nat k')) T1).
  pose proof (nth_next_away c1 k' B ltac:(rewrite N5_value; lia)) as Hc2. set (c2 := nth_next c1 (Z.of_nat k')) in *.
  split; [exact E| |done| | |].
  - split; [by apply spelled_delete|apply nth_next_entry|apply lookup_delete_eq].
  - rewrite lookup_delete_ne by done. apply lookup_insert_eq.
  - intros c H1 H2. rewrite lookup_delete_ne by done. by apply lookup_insert_ne.
  - intros c t Ht Hcc. apply spells_delete; [|done|by apply spells_insert]. intros d o'. by apply kids_none.
Qed.
End dict.
