(* ===== verification/V42bisNodes.v ===== *)
(** * The arrays of nodes of V.42bis

    The array of nodes of either direction represents a table: each node has the
    parent and the octet of its entry, and counts the entries below it.  Adding a
    string and recovering a node are, on the arrays, what they are on tables; on
    the compressing side the maps of children are right as long as no string is in
    the dictionary twice. *)
From stdpp Require Import gmap.
From S2P Require Import Prelude BitOps V42bis V42bisDict.

(** ** Maps of children *)

Lemma has_child_testbit n o : has_child n o = Z.testbit (aget (children n) (o .>> 5)) (o .& 0x1F).
Proof.
  unfold has_child. rewrite Z.shiftl_1_l, land_pow2_eqb; [by rewrite negb_involutive|]. by apply Z.land_nonneg; right.
Qed.

Lemma child_position o q : is_byte o -> is_byte q -> (o .>> 5 =? q .>> 5) && (o .& 0x1F =? q .& 0x1F) = (o =? q).
Proof.
  intros Ho Hq. unfold is_byte in *. assert (forall x, x .& 0x1F = x mod 32) as E by (intros x; apply (Z.land_ones x 5); lia).
  rewrite !E, !Z.shiftr_div_pow2 by lia. change (2 ^ 5) with 32.
  pose proof (Z.div_mod o 32). pose proof (Z.div_mod q 32).
  destruct (Z.eqb_spec o q) as [->|]; [by rewrite !Z.eqb_refl|].
  destruct (Z.eqb_spec (o / 32) (q / 32)), (Z.eqb_spec (o mod 32) (q mod 32)); try done. lia.
Qed.

Lemma child_word o : is_byte o -> 0 <= o .>> 5 < 8 /\ 0 <= o .& 0x1F < 32.
Proof. intros Ho. split; [apply (shiftr_small 3); unfold is_byte in *; lia|apply (land_range 5); lia]. Qed.

Lemma has_set_child n o q : length (children n) = 8%nat -> is_byte o -> is_byte q ->
  has_child (set_child n o) q = (o =? q) || has_child n q.
Proof.
  intros Hl Ho Hq. rewrite !has_child_testbit. unfold set_child.
  change (children (n <| children := ?c |>)) with c. rewrite <- (child_position o q) by done.
  destruct (child_word o Ho), (child_word q Hq). rewrite aget_aset by lia.
  destruct (Z.eqb_spec (o .>> 5) (q .>> 5)) as [->|]; [|done]. rewrite Z.lor_spec, Z.shiftl_1_l, Z.pow2_bits_eqb by lia.
  cbn [andb]. apply orb_comm.
Qed.

Lemma has_clear_child n o q : length (children n) = 8%nat -> is_byte o -> is_byte q ->
  has_child (clear_child n o) q = negb (o =? q) && has_child n q.
Proof.
  intros Hl Ho Hq. rewrite !has_child_testbit. unfold clear_child.
  change (children (n <| children := ?c |>)) with c. rewrite <- (child_position o q) by done.
  destruct (child_word o Ho), (child_word q Hq). rewrite aget_aset by lia.
  destruct (Z.eqb_spec (o .>> 5) (q .>> 5)) as [->|]; [|done].
  rewrite testbit_wrap, Z.land_spec, Z.lnot_spec, Z.shiftl_1_l, Z.pow2_bits_eqb by lia.
  rewrite (proj2 (Z.ltb_lt _ _)) by lia. cbn [andb]. apply andb_comm.
Qed.

Lemma length_set_child n o : length (children (set_child n o)) = length (children n).
Proof. apply length_insert. Qed.

Lemma length_clear_child n o : length (children (clear_child n o)) = length (children n).
Proof. apply length_insert. Qed.

(** ** Arrays that represent tables *)

Definition linked (e : node) (x : option (Z * Z)) : Prop :=
  match x with
  | Some (p, o) => parent_code e = p /\ node_octet e = o
  | None => parent_code e = no_parent
  end.

Section nodes.
Context (n2 n7 : Z) (L : limits n2 n7) (root : Z -> Z).

Record represents (d : dict) (T : table) : Prop := {
  rep_node : forall c, 0 <= c < V42BIS_MAX_CODEWORDS -> exists e, d !! c = Some e /\ length (children e) = 8%nat;
  rep_leaves : forall c e, 0 <= c < n2 -> d !! c = Some e -> leaves e = kids T c;
  rep_link : forall c e, entry n2 c -> d !! c = Some e -> linked e (T !! c);
  rep_root : forall c e, 0 <= c < V42BIS_N5 \/ n2 <= c -> d !! c = Some e -> parent_code e = root c;
}.

(** Each octet that has an entry below a code is in its map, and no other. *)
Definition mapped (d : dict) (T : table) : Prop := forall c e o, 0 <= c < n2 -> is_byte o -> d !! c = Some e ->
  (has_child e o = true <-> exists c', T !! c' = Some (c, o)).

Definition unique (T : table) : Prop := forall c c' x, T !! c = Some x -> T !! c' = Some x -> c = c'.

Lemma range : 512 <= n2 <= 4096 /\ 6 <= n7 <= 250.
Proof. exact (limits_range n2 n7 L). Qed.

Lemma code_range T p s : spelled n2 n7 T -> spells T p s -> V42BIS_N6 <= p < n2.
Proof.
  intros HT H. pose proof range as R. destruct (spells_code n2 n7 T p s HT H) as [Hr|[He _]].
  - unfold is_root in Hr. rewrite N5_value in Hr. lia.
  - unfold entry in He. rewrite N5_value in He. change V42BIS_N6 with 3. lia.
Qed.

Lemma represents_at d T c : represents d T -> 0 <= c < n2 -> exists e, d !! c = Some e /\ length (children e) = 8%nat.
Proof. intros H Hc. apply (rep_node _ _ H). pose proof range as R. unfold V42BIS_MAX_CODEWORDS. lia. Qed.

Lemma modify_at d c f (e : node) : d !! c = Some e -> modify d c f = Some (<[c := f e]> d).
Proof. intros E. unfold modify. by rewrite E. Qed.

Lemma kids_range T p : spelled n2 n7 T -> 0 <= kids T p <= 4096.
Proof.
  intros HT. pose proof (kids_nonneg T p). pose proof (kids_size T p). pose proof (spelled_size n2 n7 T L HT).
  unfold V42BIS_MAX_CODEWORDS in *. lia.
Qed.

Definition same_links (f : node -> node) : Prop := forall e,
  parent_code (f e) = parent_code e /\ leaves (f e) = leaves e /\ node_octet (f e) = node_octet e /\
  length (children (f e)) = length (children e).

Lemma set_child_links o : same_links (fun e => set_child e o).
Proof. intros e. split; [done|]. split; [done|]. split; [done|]. apply length_set_child. Qed.

Lemma clear_child_links o : same_links (fun e => clear_child e o).
Proof. intros e. split; [done|]. split; [done|]. split; [done|]. apply length_clear_child. Qed.

Lemma no_links : same_links (fun e => e).
Proof. by intros e. Qed.

(** A string is added. *)
Lemma represents_add d T c1 p o s e1 ep f : represents d T -> table_ok n2 n7 T c1 -> spells T p s -> is_byte o -> same_links f ->
  d !! c1 = Some e1 -> d !! p = Some ep ->
  represents (<[c1 := leaf_of p o e1]> (<[p := f (more_leaves ep)]> d)) (<[c1 := (p, o)]> T).
Proof.
  intros [R1 R2 R3 R4] Tk Hp Ho Hf E1 Ep. pose proof range as R. pose proof Tk as [A B C].
  pose proof (code_range T p s A Hp) as Hpr. change V42BIS_N6 with 3 in Hpr.
  assert (p <> c1) as Hne by (by apply (spells_not_free n2 n7 T c1 p s)).
  destruct (Hf (more_leaves ep)) as (F1 & F2 & F3 & F4). pose proof B as B'. unfold entry in B'. rewrite N5_value in B'.
  pose proof (kids_range T p A) as Kp.
  split.
  - intros c Hc. destruct (decide (c = c1)) as [->|]; [|rewrite lookup_insert_ne by done; destruct (decide (c = p)) as [->|]].
    + rewrite lookup_insert_eq. eexists. split; [done|]. by destruct (R1 c1 Hc) as (e & E & <-); simplify_eq.
    + rewrite lookup_insert_eq. eexists. split; [done|]. rewrite F4. by destruct (R1 p Hc) as (e & E & <-); simplify_eq.
    + rewrite lookup_insert_ne by done. by apply R1.
  - intros c e Hc He. rewrite kids_insert by done. destruct (decide (c = c1)) as [->|].
    + rewrite lookup_insert_eq in He. simplify_eq. rewrite (proj2 (Z.eqb_neq _ _)) by done.
      rewrite (free_no_kids n2 n7) by done. done.
    + rewrite lookup_insert_ne in He by done. destruct (Z.eqb_spec p c) as [<-|].
      * rewrite lookup_insert_eq in He. simplify_eq. rewrite F2. change (leaves (more_leaves ep)) with (swrap 16 (leaves ep + 1)).
        rewrite (R2 p ep) by done. apply swrap_id; lia.
      * rewrite lookup_insert_ne in He by done. rewrite (R2 c e) by done. lia.
  - intros c e Hc He. destruct (decide (c = c1)) as [->|].
    + rewrite lookup_insert_eq in He. rewrite lookup_insert_eq. simplify_eq. split; [|by apply wrap_id; unfold is_byte in Ho].
      change (u16 p = p). apply wrap_id. lia.
    + rewrite lookup_insert_ne in He by done. rewrite lookup_insert_ne by done. destruct (decide (c = p)) as [->|].
      * rewrite lookup_insert_eq in He. simplify_eq. pose proof (R3 p ep Hc Ep) as Lp. unfold linked in *. rewrite F1, F3. exact Lp.
      * rewrite lookup_insert_ne in He by done. by apply R3.
  - intros c e Hc He. pose proof Hc as Hc'. rewrite N5_value in Hc'. rewrite lookup_insert_ne in He by lia. destruct (decide (c = p)) as [->|].
    + rewrite lookup_insert_eq in He. simplify_eq. rewrite F1. exact (R4 p ep Hc Ep).
    + rewrite lookup_insert_ne in He by done. by apply R4.
Qed.

(** An entry without leaves is detached from its parent. *)
Lemma represents_detach d T c p o ec ep f : represents d T -> spelled n2 n7 T -> T !! c = Some (p, o) -> kids T c = 0 ->
  same_links f -> d !! c = Some ec -> d !! p = Some ep ->
  represents (<[c := ec <| parent_code := no_parent |>]> (<[p := f (less_leaves ep)]> d)) (base.delete c T).
Proof.
  intros [R1 R2 R3 R4] HT Hc Hk Hf Ec Ep. pose proof range as R. destruct (HT c p o Hc) as (He & Ho & s & Hs & _).
  destruct (spells_parent n2 T c p o s Hc He Hs) as (sp & Hsp & _).
  pose proof (code_range T p sp HT Hsp) as Hpr. change V42BIS_N6 with 3 in Hpr.
  assert (p <> c) as Hne by (intros ->; by apply (kids_none T c c o Hk)).
  destruct (Hf (less_leaves ep)) as (F1 & F2 & F3 & F4). pose proof He as B'. unfold entry in B'. rewrite N5_value in B'.
  pose proof (kids_range T p HT) as Kp. pose proof (kids_delete T c p o p Hc) as Kd. rewrite Z.eqb_refl in Kd.
  pose proof (kids_nonneg (base.delete c T) p) as Kn.
  split.
  - intros x Hx. destruct (decide (x = c)) as [->|]; [|rewrite lookup_insert_ne by done; destruct (decide (x = p)) as [->|]].
    + rewrite lookup_insert_eq. eexists. split; [done|]. by destruct (R1 c Hx) as (e & E & <-); simplify_eq.
    + rewrite lookup_insert_eq. eexists. split; [done|]. rewrite F4. by destruct (R1 p Hx) as (e & E & <-); simplify_eq.
    + rewrite lookup_insert_ne by done. by apply R1.
  - intros x e Hx Hxe. rewrite (kids_delete T c p o) by done. destruct (decide (x = c)) as [->|].
    + rewrite lookup_insert_eq in Hxe. simplify_eq. change (leaves ec = kids T c - (if p =? c then 1 else 0)).
      rewrite (R2 c ec), (proj2 (Z.eqb_neq _ _)) by done. lia.
    + rewrite lookup_insert_ne in Hxe by done. destruct (Z.eqb_spec p x) as [<-|].
      * rewrite lookup_insert_eq in Hxe. simplify_eq. rewrite F2. change (leaves (less_leaves ep)) with (swrap 16 (leaves ep - 1)).
        rewrite (R2 p ep) by done. apply swrap_id; lia.
      * rewrite lookup_insert_ne in Hxe by done. rewrite (R2 x e) by done. lia.
  - intros x e Hx Hxe. destruct (decide (x = c)) as [->|].
    + rewrite lookup_insert_eq in Hxe. rewrite lookup_delete_eq. by simplify_eq.
    + rewrite lookup_insert_ne in Hxe by done. rewrite lookup_delete_ne by done. destruct (decide (x = p)) as [->|].
      * rewrite lookup_insert_eq in Hxe. simplify_eq. pose proof (R3 p ep Hx Ep) as Lp. unfold linked in *. rewrite F1, F3. exact Lp.
      * rewrite lookup_insert_ne in Hxe by done. by apply R3.
  - intros x e Hx Hxe. pose proof Hx as Hx'. rewrite N5_value in Hx'. rewrite lookup_insert_ne in Hxe by lia. destruct (decide (x = p)) as [->|].
    + rewrite lookup_insert_eq in Hxe. simplify_eq. rewrite F1. exact (R4 p ep Hx Ep).
    + rewrite lookup_insert_ne in Hxe by done. by apply R4.
Qed.

(** ** Node recovery on the arrays *)

Lemma linked_parent d T c e : represents d T -> spelled n2 n7 T -> entry n2 c -> d !! c = Some e ->
  (T !! c = None /\ parent_code e = no_parent) \/
  (exists p o ep, T !! c = Some (p, o) /\ parent_code e = p /\ node_octet e = o /\ is_byte o /\ 0 <= p < n2 /\
    p <> no_parent /\ d !! p = Some ep /\ length (children ep) = 8%nat).
Proof.
  intros R HT He Hc. pose proof (rep_link _ _ R c e He Hc) as Hl. pose proof range as Rg.
  destruct (T !! c) as [[p o]|] eqn:E; [right|by left]. destruct Hl as [<- <-].
  destruct (HT c _ _ E) as (_ & Ho & s & Hs & _). destruct (spells_parent n2 T c _ _ s E He Hs) as (sp & Hsp & _).
  pose proof (code_range T _ sp HT Hsp) as Hp. change V42BIS_N6 with 3 in Hp.
  destruct (represents_at d T (parent_code e) R ltac:(lia)) as (ep & Ep & Lp). exists (parent_code e), (node_octet e), ep.
  split_and!; [done..|lia|lia|unfold no_parent; lia|done|done].
Qed.

Lemma represents_free d T c e : represents d T -> T !! c = None -> entry n2 c -> d !! c = Some e ->
  represents (<[c := e <| parent_code := no_parent |>]> d) T.
Proof.
  intros R Hn He Hc. pose proof (rep_link _ _ R c e He Hc) as Hl. rewrite Hn in Hl. unfold linked in Hl.
  assert (e <| parent_code := no_parent |> = e) as -> by (destruct e; cbn in *; by subst).
  by rewrite insert_id.
Qed.

Definition keeps_maps (d : dict) (T : table) (d2 : dict) (T2 : table) : Prop := mapped d T -> unique T -> mapped d2 T2.

Lemma unique_delete T c : unique T -> unique (base.delete c T).
Proof. intros U a b x Ha Hb. apply lookup_delete_Some in Ha as [_ Ha], Hb as [_ Hb]. by eapply U. Qed.

Lemma mapped_detach d T c p o ec ep : represents d T -> spelled n2 n7 T -> T !! c = Some (p, o) -> kids T c = 0 ->
  d !! c = Some ec -> d !! p = Some ep -> length (children ep) = 8%nat -> 0 <= p < n2 ->
  keeps_maps d T (<[c := ec <| parent_code := no_parent |>]> (<[p := clear_child (less_leaves ep) o]> d)) (base.delete c T).
Proof.
  intros R HT Hc Hk Ec Ep Lp Hp M U x e q Hx Hq He.
  destruct (HT c p o Hc) as (_ & Ho & _).
  assert (p <> c) as Hne by (intros ->; by apply (kids_none T c c o Hk)).
  destruct (decide (x = c)) as [->|].
  - rewrite lookup_insert_eq in He. simplify_eq. change (has_child _ q) with (has_child ec q). rewrite (M c ec q) by done.
    split; intros [c' Hc']; exfalso; [by apply (kids_none T c c' q Hk)|].
    apply lookup_delete_Some in Hc' as [_ Hc']. by apply (kids_none T c c' q Hk).
  - rewrite lookup_insert_ne in He by done. destruct (decide (x = p)) as [->|].
    + rewrite lookup_insert_eq in He. simplify_eq. rewrite has_clear_child by done.
      change (has_child (less_leaves ep) q) with (has_child ep q). destruct (Z.eqb_spec o q) as [<-|]; cbn [negb andb].
      * split; [done|]. intros [c' Hc']. apply lookup_delete_Some in Hc' as [Hcc Hc']. by destruct Hcc, (U c c' (p, o)).
      * rewrite (M p ep q) by done. split; intros [c' Hc']; exists c'.
        -- rewrite lookup_delete_ne; [done|]. intros <-. rewrite Hc in Hc'. by simplify_eq.
        -- by apply lookup_delete_Some in Hc' as [_ Hc'].
    + rewrite lookup_insert_ne in He by done. rewrite (M x e q) by done. split; intros [c' Hc']; exists c'.
      * rewrite lookup_delete_ne; [done|]. intros <-. rewrite Hc in Hc'. by simplify_eq.
      * by apply lookup_delete_Some in Hc' as [_ Hc'].
Qed.

Lemma comp_recover_spec fuel : forall d T c1 c2 T2, represents d T -> spelled n2 n7 T -> entry n2 c1 ->
  recover n2 fuel c1 T = Some (c2, T2) ->
  exists d2, comp_recover fuel n2 c1 d = Some (c2, d2) /\ represents d2 T2 /\ keeps_maps d T d2 T2.
Proof.
  induction fuel as [|fuel IH]; intros d T c1 c2 T2 R HT He H; [done|]. cbn [recover comp_recover] in *.
  rewrite (next_entry_nth n2 n7 L) in * by done. set (c := nth_next n2 c1 0) in *.
  assert (entry n2 c) as Hc by apply (nth_next_entry n2 n7 L). pose proof range as Rg. pose proof Hc as Hcr.
  unfold entry in Hcr. rewrite N5_value in Hcr.
  destruct (represents_at d T c R ltac:(lia)) as (e & Ee & Le). rewrite Ee. cbn [mbind option_bind].
  rewrite (rep_leaves _ _ R c e) by (done || lia). destruct (Z.eqb_spec (kids T c) 0) as [Hk|Hk]; cbn [negb]; [|by eapply IH].
  injection H as <- <-. destruct (linked_parent d T c e R HT Hc Ee) as [[Hn Hp]|(p & o & ep & Ht & E1 & E2 & Ho & Hp & Hnp & Ep & Lp)].
  - rewrite Hp, Z.eqb_refl. exists d. rewrite delete_id by done. split; [done|]. split; [done|]. by intros M _.
  - rewrite E1, (proj2 (Z.eqb_neq p no_parent)) by done. rewrite (modify_at d p _ ep Ep). cbn [mbind option_bind].
    rewrite (modify_at _ p _ (less_leaves ep)) by apply lookup_insert_eq. cbn [mbind option_bind]. rewrite insert_insert_eq, E2.
    assert (p <> c) as Hne by (intros ->; by apply (kids_none T c c o Hk)).
    rewrite (modify_at _ c _ e) by (by rewrite lookup_insert_ne). cbn [mbind option_bind]. eexists. split; [reflexivity|].
    split; [|by apply (mapped_detach d T c p o)].
    by apply (represents_detach d T c p o e ep (fun e => clear_child e o)); try done; apply clear_child_links.
Qed.

Lemma dec_recover_spec fuel : forall d T c1 c2 T2, represents d T -> spelled n2 n7 T -> entry n2 c1 ->
  recover n2 fuel c1 T = Some (c2, T2) -> exists d2, dec_recover fuel n2 c1 d = Some (c2, d2) /\ represents d2 T2.
Proof.
  induction fuel as [|fuel IH]; intros d T c1 c2 T2 R HT He H; [done|]. cbn [recover dec_recover] in *.
  rewrite (next_entry_nth n2 n7 L) in * by done. set (c := nth_next n2 c1 0) in *.
  assert (entry n2 c) as Hc by apply (nth_next_entry n2 n7 L). pose proof range as Rg. pose proof Hc as Hcr.
  unfold entry in Hcr. rewrite N5_value in Hcr.
  destruct (represents_at d T c R ltac:(lia)) as (e & Ee & Le). rewrite Ee. cbn [mbind option_bind].
  rewrite (rep_leaves _ _ R c e) by (done || lia). destruct (Z.eqb_spec (kids T c) 0) as [Hk|Hk]; cbn [negb]; [|by eapply IH].
  injection H as <- <-. destruct (linked_parent d T c e R HT Hc Ee) as [[Hn Hp]|(p & o & ep & Ht & E1 & E2 & Ho & Hp & Hnp & Ep & Lp)].
  - rewrite Hp, Z.eqb_refl. cbn [negb mbind option_bind]. rewrite (modify_at d c _ e Ee). cbn [mbind option_bind].
    eexists. split; [reflexivity|]. rewrite delete_id by done. by apply represents_free.
  - rewrite E1, (proj2 (Z.eqb_neq p no_parent)) by done. cbn [negb]. rewrite (modify_at d p _ ep Ep). cbn [mbind option_bind].
    assert (p <> c) as Hne by (intros ->; by apply (kids_none T c c o Hk)).
    rewrite (modify_at _ c _ e) by (by rewrite lookup_insert_ne). cbn [mbind option_bind]. eexists. split; [reflexivity|].
    by apply (represents_detach d T c p o e ep (fun e => e)); try done; apply no_links.
Qed.

(** ** Adding a string, in both directions *)

Lemma mapped_add d T c1 p o s e1 ep : represents d T -> table_ok n2 n7 T c1 -> spells T p s -> is_byte o ->
  d !! c1 = Some e1 -> d !! p = Some ep -> length (children ep) = 8%nat -> mapped d T ->
  mapped (<[c1 := leaf_of p o e1]> (<[p := set_child (more_leaves ep) o]> d)) (<[c1 := (p, o)]> T).
Proof.
  intros R Tk Hp Ho E1 Ep Lp M x e q Hx Hq He. pose proof Tk as [A B C].
  pose proof (code_range T p s A Hp) as Hpr. change V42BIS_N6 with 3 in Hpr.
  assert (p <> c1) as Hne by (by apply (spells_not_free n2 n7 T c1 p s)).
  assert (forall (y : Z) (k : Z * Z), (exists c', <[c1 := (p, o)]> T !! c' = Some k) <-> (p, o) = k \/ exists c', T !! c' = Some k) as Hins.
  { intros _ k. split.
    - intros [c' Hc']. destruct (decide (c' = c1)) as [->|]; [rewrite lookup_insert_eq in Hc'; left; congruence|].
      rewrite lookup_insert_ne in Hc' by done. right. by exists c'.
    - intros [<- |[c' Hc']]; [exists c1; apply lookup_insert_eq|]. exists c'. rewrite lookup_insert_ne; [done|].
      intros <-. by rewrite C in Hc'. }
  rewrite (Hins x). destruct (decide (x = c1)) as [->|].
  - rewrite lookup_insert_eq in He. simplify_eq. change (has_child _ q) with (has_child e1 q). rewrite (M c1 e1 q) by done.
    split; [by right|]. intros [[= ]|H]; [done|exact H].
  - rewrite lookup_insert_ne in He by done. destruct (decide (x = p)) as [->|].
    + rewrite lookup_insert_eq in He. simplify_eq. rewrite has_set_child by done.
      change (has_child (more_leaves ep) q) with (has_child ep q). rewrite orb_true_iff, Z.eqb_eq, (M p ep q) by done.
      split; [intros [-> |]; auto|]. intros [[= ->]|]; auto.
    + rewrite lookup_insert_ne in He by done. rewrite (M x e q) by done. split; [by right|]. intros [[= ]|H]; [by subst|exact H].
Qed.

Lemma unique_insert T c1 x : unique T -> (forall c, T !! c <> Some x) -> unique (<[c1 := x]> T).
Proof.
  intros U Hx a b y Ha Hb. destruct (decide (a = c1)) as [->|], (decide (b = c1)) as [->|];
    rewrite ?lookup_insert_eq, ?lookup_insert_ne in * by done; simplify_eq; [done|by destruct (Hx b)|by destruct (Hx a)|by eapply U].
Qed.

Lemma comp_add_dict d T c1 p o s c2 T2 : represents d T -> table_ok n2 n7 T c1 -> spells T p s -> zlen s < n7 -> is_byte o ->
  grow n2 T c1 p o = Some (c2, T2) ->
  exists d2, (d ← modify d p more_leaves; d ← modify d p (fun n => set_child n o); d ← modify d c1 (leaf_of p o);
              comp_recover (Z.to_nat n2) n2 c1 d) = Some (c2, d2) /\ represents d2 T2 /\
    (mapped d T -> unique T -> (forall c, T !! c <> Some (p, o)) -> mapped d2 T2 /\ unique T2).
Proof.
  intros R Tk Hp Hs Ho G. pose proof Tk as [A B C]. pose proof range as Rg.
  pose proof (code_range T p s A Hp) as Hpr. change V42BIS_N6 with 3 in Hpr.
  assert (p <> c1) as Hne by (by apply (spells_not_free n2 n7 T c1 p s)).
  pose proof B as B'. unfold entry in B'. rewrite N5_value in B'.
  destruct (represents_at d T p R ltac:(lia)) as (ep & Ep & Lp), (represents_at d T c1 R ltac:(lia)) as (e1 & E1 & L1).
  rewrite (modify_at d p _ ep Ep). cbn [mbind option_bind].
  rewrite (modify_at _ p _ (more_leaves ep)) by apply lookup_insert_eq. cbn [mbind option_bind]. rewrite insert_insert_eq.
  rewrite (modify_at _ c1 _ e1) by (by rewrite lookup_insert_ne). cbn [mbind option_bind].
  pose proof (represents_add d T c1 p o s e1 ep (fun n => set_child n o) R Tk Hp Ho (set_child_links o) E1 Ep) as R1.
  assert (spelled n2 n7 (<[c1 := (p, o)]> T)) as A1 by (by apply (spelled_insert n2 n7 T c1 p o s)).
  destruct (comp_recover_spec _ _ _ _ _ _ R1 A1 B G) as (d2 & -> & R2 & K). exists d2. split; [done|]. split; [done|].
  intros M U Hx. assert (unique (<[c1 := (p, o)]> T)) as U1 by (by apply unique_insert).
  split; [apply K; [by apply (mapped_add d T c1 p o s)|done]|].
  assert (forall fuel c T c2 T2, recover n2 fuel c T = Some (c2, T2) -> unique T -> unique T2) as Hu; [|by eapply Hu].
  induction fuel as [|fuel IH]; intros c T0 c0 T3 H0 U0; [done|]. cbn [recover] in H0.
  destruct (_ =? 0); [|by eapply IH]. simplify_eq. by apply unique_delete.
Qed.

Lemma dec_add_dict d T c1 p o s c2 T2 : represents d T -> table_ok n2 n7 T c1 -> spells T p s -> zlen s < n7 -> is_byte o ->
  grow n2 T c1 p o = Some (c2, T2) ->
  exists d2, (d ← modify d p more_leaves; d ← modify d c1 (leaf_of p o); dec_recover (Z.to_nat n2) n2 c1 d) = Some (c2, d2) /\
    represents d2 T2.
Proof.
  intros R Tk Hp Hs Ho G. pose proof Tk as [A B C]. pose proof range as Rg.
  pose proof (code_range T p s A Hp) as Hpr. change V42BIS_N6 with 3 in Hpr.
  assert (p <> c1) as Hne by (by apply (spells_not_free n2 n7 T c1 p s)).
  pose proof B as B'. unfold entry in B'. rewrite N5_value in B'.
  destruct (represents_at d T p R ltac:(lia)) as (ep & Ep & Lp), (represents_at d T c1 R ltac:(lia)) as (e1 & E1 & L1).
  rewrite (modify_at d p _ ep Ep). cbn [mbind option_bind].
  rewrite (modify_at _ c1 _ e1) by (by rewrite lookup_insert_ne). cbn [mbind option_bind].
  pose proof (represents_add d T c1 p o s e1 ep (fun n => n) R Tk Hp Ho no_links E1 Ep) as R1.
  assert (spelled n2 n7 (<[c1 := (p, o)]> T)) as A1 by (by apply (spelled_insert n2 n7 T c1 p o s)).
  exact (dec_recover_spec _ _ _ _ _ _ R1 A1 B G).
Qed.
End nodes.
