(* ===== verification/V42bisTx.v ===== *)
(** * The compressor of V.42bis

    What it sends are words of bits: code words of the current size, and octets.
    Whatever it is given to compress, in any mode, no operation fails and its
    dictionary stays well-formed. *)
From stdpp Require Import gmap.
From S2P Require Import Prelude HdlcFrame V42bis V42bisDict V42bisNodes.

(** The [n] bits [l] on top of the word [b], and nothing below. *)
Record on_top (b n : Z) (l : list bool) : Prop := {
  top_range : 0 <= b < 2 ^ 32;
  top_length : zlen l = n;
  top_room : n <= 32;
  top_bits : forall i, 0 <= i < 32 -> Z.testbit b (31 - i) = nth (Z.to_nat i) l false;
}.

Lemma on_top_nil : on_top 0 0 [].
Proof. split; [lia|done|lia|]. intros i _. rewrite Z.bits_0. by destruct (Z.to_nat i). Qed.

(** More bits below them. *)
Lemma on_top_put b n l w v : on_top b n l -> 0 <= w -> n + w <= 32 -> 0 <= v < 2 ^ w ->
  on_top (b .| u32 (v .<< (32 - w - n))) (n + w) (l ++ msb_bits (Z.to_nat w) v).
Proof.
  intros [H1 H2 H3 H4] Hw Hn Hv. split.
  - apply lor_range; [lia|done|]. by apply wrap_range.
  - rewrite length_app, length_msb_bits. lia.
  - done.
  - intros i Hi. bit_specs. rewrite H4 by done. rewrite (proj2 (Z.ltb_lt _ _)) by lia. cbn [andb].
    destruct (Z_lt_le_dec i n) as [Hin|Hin].
    + rewrite app_nth1 by lia. rewrite (testbit_high w v) by lia. by rewrite andb_false_r, orb_false_r.
    + rewrite (nth_overflow l) by lia. cbn [orb]. rewrite app_nth2 by lia.
      destruct (Z_lt_le_dec i (n + w)) as [Hiw|Hiw].
      * rewrite nth_msb by lia. rewrite (proj2 (Z.leb_le _ _)) by lia. cbn [andb]. f_equal. lia.
      * rewrite (nth_overflow (msb_bits _ _)) by (rewrite length_msb_bits; lia).
        rewrite (proj2 (Z.leb_gt _ _)) by lia. done.
Qed.

(** The first [w] of them are a number. *)
Lemma on_top_get b n w v r : on_top b n (msb_bits (Z.to_nat w) v ++ r) -> 0 <= w -> 0 <= v < 2 ^ w ->
  b .>> (32 - w) = v.
Proof.
  intros [H1 H2 H3 H4] Hw Hv. rewrite length_app, length_msb_bits in H2.
  apply Z.bits_inj'. intros i Hi. bit_specs. destruct (Z_lt_le_dec i w) as [Hiw|Hiw].
  - replace (i + (32 - w)) with (31 - (w - 1 - i)) by lia. rewrite H4 by lia.
    rewrite app_nth1 by (rewrite length_msb_bits; lia). rewrite nth_msb by lia. f_equal. lia.
  - by rewrite (testbit_high w v), (testbit_high 32 b) by lia.
Qed.

Lemma on_top_drop b n l r : on_top b n (l ++ r) -> on_top (u32 (b .<< zlen l)) (n - zlen l) r.
Proof.
  intros [H1 H2 H3 H4]. rewrite length_app in H2. split; [by apply wrap_range|lia|lia|].
  intros i Hi. bit_specs. rewrite (proj2 (Z.ltb_lt _ _)) by lia. cbn [andb].
  destruct (Z_lt_le_dec (i + zlen l) 32) as [Hil|Hil].
  - rewrite (proj2 (Z.leb_le _ _)) by lia. cbn [andb]. replace (31 - i - zlen l) with (31 - (i + zlen l)) by lia.
    rewrite H4 by lia. rewrite app_nth2 by lia. f_equal. lia.
  - rewrite (proj2 (Z.leb_gt _ _)) by lia. cbn [andb]. symmetry. apply nth_overflow. lia.
Qed.

(** The octet on top, when some of it is still missing. *)
Definition padded (n : nat) (l : list bool) : list bool := l ++ repeat false (n - length l).

Lemma on_top_octet b n l : on_top b n l -> msb_bits 8 (u8 (b .>> 24)) = take 8 (padded 8 l).
Proof.
  intros [H1 H2 H3 H4]. apply (nth_ext _ _ false false).
  - rewrite length_msb_bits, length_take. unfold padded. rewrite length_app, repeat_length. lia.
  - intros k Hk. rewrite length_msb_bits in Hk. rewrite nth_msb by done. bit_specs.
    rewrite (proj2 (Z.ltb_lt _ _)) by lia. cbn [andb].
    replace (Z.of_nat 8 - 1 - Z.of_nat k + 24) with (31 - Z.of_nat k) by lia. rewrite H4 by lia. rewrite Nat2Z.id.
    rewrite !nth_lookup, lookup_take_lt by done. unfold padded.
    destruct (decide (k < length l)%nat).
    + by rewrite lookup_app_l by done.
    + rewrite lookup_app_r by lia. rewrite (proj2 (lookup_ge_None l k)) by lia.
      change (default false None) with false. destruct (repeat false (8 - length l) !! (k - length l)%nat) as [x|] eqn:E; [|done].
      apply list_elem_of_lookup_2, list_elem_of_In, repeat_spec in E. by subst.
Qed.

Lemma padded_full n l : (n <= length l)%nat -> padded n l = l.
Proof. intros H. unfold padded. replace (n - length l)%nat with O by lia. apply app_nil_r. Qed.

(** ** The compressor *)

(** ** The line *)

(** A word is its width and its value. *)
Abbreviation word := (Z * Z)%type.

Definition word_ok (w : word) : Prop := 1 <= w.1 <= 24 /\ 0 <= w.2 < 2 ^ w.1.
Definition words_bits (ws : list word) : list bool := flat_map (fun w => msb_bits (Z.to_nat w.1) w.2) ws.

Lemma words_bits_app a b : words_bits (a ++ b) = words_bits a ++ words_bits b.
Proof. apply flat_map_app. Qed.

(** The octets that have been sent, or are ready. *)
Definition sent (ss : v42bis_compress_state_t) : list Z := concat (frames ss) ++ comp_output ss.

Record line_at (most : Z) (ss : v42bis_compress_state_t) (l : list bool) : Prop := {
  line_split : exists pend, on_top (output_bit_buffer ss) (output_bit_count ss) pend /\ l = line_bits (sent ss) ++ pend;
  line_count : output_bit_count ss <= most;
  line_bytes : bytes (sent ss);
  line_room : zlen (comp_output ss) < BUF_LEN;
  line_max : comp_max_len ss <= BUF_LEN;
}.

(** Only the line changes. *)
Definition on_line (ss : v42bis_compress_state_t) (f : list (list Z)) (o : list Z) (b n : Z) : v42bis_compress_state_t :=
  ss <| frames := f |> <| comp_output := o |> <| output_bit_buffer := b |> <| output_bit_count := n |>.

Definition line_only (ss ss' : v42bis_compress_state_t) : Prop := exists f o b n, ss' = on_line ss f o b n.

Lemma line_only_refl ss : line_only ss ss.
Proof. by exists (frames ss), (comp_output ss), (output_bit_buffer ss), (output_bit_count ss); destruct ss. Qed.

Lemma line_only_trans a b c : line_only a b -> line_only b c -> line_only a c.
Proof. intros (f & o & x & n & ->) (f' & o' & x' & n' & ->). by exists f', o', x', n'. Qed.

Lemma sent_push ss octet : zlen (comp_output ss) < BUF_LEN -> comp_max_len ss <= BUF_LEN -> exists ss',
  push_compressed_raw_octet ss octet = Some ss' /\ line_only ss ss' /\ sent ss' = sent ss ++ [u8 octet] /\
  zlen (comp_output ss') < BUF_LEN /\ output_bit_buffer ss' = output_bit_buffer ss /\ output_bit_count ss' = output_bit_count ss.
Proof.
  intros H1 H2. unfold push_compressed_raw_octet. rewrite (proj2 (Z.leb_gt _ _)) by done.
  change (comp_max_len (ss <| comp_output := ?l |>)) with (comp_max_len ss).
  set (l := comp_output ss ++ [u8 octet]). change (comp_output (ss <| comp_output := l |>)) with l.
  destruct (Z.leb_spec (comp_max_len ss) (zlen l)); eexists; (split; [reflexivity|]).
  - split; [by exists (frames ss ++ [l]), [], (output_bit_buffer ss), (output_bit_count ss)|].
    split; [|done]. change (concat (frames ss ++ [l]) ++ [] = sent ss ++ [u8 octet]). unfold l, sent.
    rewrite concat_app, app_nil_r. cbn [concat]. by rewrite app_nil_r, app_assoc.
  - split; [by exists (frames ss), l, (output_bit_buffer ss), (output_bit_count ss)|].
    split; [change (concat (frames ss) ++ l = sent ss ++ [u8 octet]); unfold l, sent; by rewrite app_assoc|].
    split; [change (zlen l < BUF_LEN); lia|done].
Qed.

Lemma push_octets_spec fuel : forall ss l, line_at 32 ss l -> output_bit_count ss <= 7 + 8 * Z.of_nat fuel ->
  exists ss', push_octets fuel 7 ss = Some ss' /\ line_only ss ss' /\ line_at 7 ss' l.
Proof.
  induction fuel as [|fuel IH]; intros ss l [(pend & P & ->) C B Rm M] Hf; cbn [push_octets].
  - rewrite (proj2 (Z.leb_le _ _)) by lia. exists ss. split; [done|]. split; [apply line_only_refl|].
    split; [by exists pend|lia|done..].
  - destruct (Z.leb_spec (output_bit_count ss) 7) as [Hc|Hc].
    { exists ss. split; [done|]. split; [apply line_only_refl|]. split; [by exists pend|lia|done..]. }
    destruct (sent_push ss (output_bit_buffer ss .>> 24) Rm M) as (s1 & -> & L1 & S1 & Rm1 & Eb & En). cbn [mbind option_bind].
    pose proof (on_top_octet _ _ _ P) as Ho. pose proof (top_length _ _ _ P) as Hl. rewrite padded_full in Ho by lia.
    set (s2 := s1 <| output_bit_buffer := u32 (output_bit_buffer s1 .<< 8) |> <| output_bit_count := output_bit_count s1 - 8 |>).
    assert (line_only ss s2) as L2.
    { destruct L1 as (f & o & b & n & ->). by eexists f, o, _, _. }
    destruct (IH s2 (line_bits (sent ss) ++ pend)) as (s3 & E3 & L3 & A3).
    + change (sent s2) with (sent s1) in *. split.
      * exists (drop 8 pend). split.
        -- change (on_top (u32 (output_bit_buffer s1 .<< 8)) (output_bit_count s1 - 8) (drop 8 pend)). rewrite Eb, En.
           pose proof (on_top_drop (output_bit_buffer ss) (output_bit_count ss) (take 8 pend) (drop 8 pend)) as D.
           rewrite take_drop, length_take in D. replace (Z.of_nat (8 `min` length pend)) with 8 in D by lia. by apply D.
        -- change (sent s2) with (sent s1). rewrite S1, line_bits_app.
           change (line_bits [?x]) with (msb_bits 8 x ++ []). rewrite app_nil_r, Ho. by rewrite <- app_assoc, take_drop.
      * change (output_bit_count s1 - 8 <= 32). lia.
      * change (sent s2) with (sent s1). rewrite S1. apply Forall_app_2; [done|]. repeat constructor; apply is_byte_u8.
      * exact Rm1.
      * destruct L1 as (f & o & b & n & ->). exact M.
    + change (output_bit_count s1 - 8 <= 7 + 8 * Z.of_nat fuel). lia.
    + exists s3. split; [exact E3|]. split; [by eapply line_only_trans|done].
Qed.

Lemma push_bits_spec ss l w v : line_at 7 ss l -> word_ok (w, v) ->
  exists ss', push_bits ss w v = Some ss' /\ line_only ss ss' /\ line_at 7 ss' (l ++ words_bits [(w, v)]).
Proof.
  intros [(pend & P & ->) C B Rm M] [Hw Hv]. cbn [fst snd] in *. unfold push_bits. pose proof (top_length _ _ _ P) as Hl.
  rewrite (proj2 (Z.ltb_ge _ _)) by lia. rewrite (proj2 (Z.leb_gt _ _)) by lia. cbn [orb].
  set (s1 := ss <| output_bit_buffer := _ |> <| output_bit_count := _ |>).
  assert ((line_bits (sent ss) ++ pend) ++ words_bits [(w, v)] = line_bits (sent ss) ++ (pend ++ msb_bits (Z.to_nat w) v)) as ->
    by (unfold words_bits; cbn [flat_map]; by rewrite app_nil_r, <- app_assoc).
  destruct (push_octets_spec (Z.to_nat (output_bit_count s1)) s1 (line_bits (sent ss) ++ (pend ++ msb_bits (Z.to_nat w) v)))
    as (s2 & E & L & A).
  - split; [|change (output_bit_count ss + w <= 32); lia|exact B|exact Rm|exact M].
    exists (pend ++ msb_bits (Z.to_nat w) v). split; [|done]. apply on_top_put; [done|lia|lia|exact Hv].
  - change (output_bit_count s1) with (output_bit_count ss + w). lia.
  - exists s2. split; [exact E|]. split; [|exact A].
    eapply line_only_trans; [|exact L]. by eexists (frames ss), (comp_output ss), _, _.
Qed.

(** Several words, with nothing else done between them. *)
Lemma push_code_spec ss l code : line_at 7 ss l -> 1 <= comp_c2 ss <= 24 -> 0 <= code < 2 ^ comp_c2 ss ->
  exists ss', push_compressed_code ss code = Some ss' /\ line_only ss ss' /\ line_at 7 ss' (l ++ words_bits [(comp_c2 ss, code)]).
Proof. intros H1 H2 H3. by apply push_bits_spec. Qed.

Lemma push_octet_spec ss l o : line_at 7 ss l -> is_byte o ->
  exists ss', push_compressed_octet ss o = Some ss' /\ line_only ss ss' /\ line_at 7 ss' (l ++ words_bits [(8, o)]).
Proof. intros H1 H2. apply push_bits_spec; [done|]. by split; cbn [fst snd]. Qed.

(** ** What is said, operation by operation *)

Definition on_the_line (ss : v42bis_compress_state_t) : Prop := exists l, line_at 7 ss l.

(** The line goes on with the words. *)
Definition says (ss : v42bis_compress_state_t) (ws : list word) (ss' : v42bis_compress_state_t) : Prop :=
  Forall word_ok ws /\ forall l, line_at 7 ss l -> line_at 7 ss' (l ++ words_bits ws).

Lemma says_nil ss : says ss [] ss.
Proof. split; [constructor|]. intros l H. unfold words_bits. cbn [flat_map]. by rewrite app_nil_r. Qed.

Lemma says_app a b c u v : says a u b -> says b v c -> says a (u ++ v) c.
Proof.
  intros [W1 H1] [W2 H2]. split; [by apply Forall_app_2|]. intros l H. rewrite words_bits_app, app_assoc. by apply H2, H1.
Qed.

Lemma says_on a ws b : on_the_line a -> says a ws b -> on_the_line b.
Proof. intros [l H] [_ S]. eexists. by apply S. Qed.

(** Nothing that the line is made of changes. *)
Definition same_line (a b : v42bis_compress_state_t) : Prop :=
  frames b = frames a /\ comp_output b = comp_output a /\ output_bit_buffer b = output_bit_buffer a /\
  output_bit_count b = output_bit_count a /\ comp_max_len b = comp_max_len a.

Lemma says_same a b ws c : same_line a b -> says b ws c -> says a ws c.
Proof.
  intros (E1 & E2 & E3 & E4 & E5) [W H]. split; [done|]. intros l [(pend & P & El) C B R M]. apply H. unfold sent in *.
  split; unfold sent; rewrite ?E1, ?E2, ?E3, ?E4, ?E5; [|done..]. by exists pend.
Qed.

Lemma same_line_says a b : same_line a b -> says a [] b.
Proof. intros H. eapply says_same; [exact H|]. apply says_nil. Qed.

Lemma says_then a ws b c : says a ws b -> same_line b c -> says a ws c.
Proof. intros S H. rewrite <- (app_nil_r ws). by apply (says_app _ b), same_line_says. Qed.

Lemma push_code_says ss code : on_the_line ss -> 1 <= comp_c2 ss <= 24 -> 0 <= code < 2 ^ comp_c2 ss ->
  exists ss', push_compressed_code ss code = Some ss' /\ line_only ss ss' /\ says ss [(comp_c2 ss, code)] ss'.
Proof.
  intros [l H] H1 H2. destruct (push_code_spec ss l code H H1 H2) as (s1 & E & L & _). exists s1. split; [done|]. split; [done|].
  split; [by constructor; [by split|]|]. intros l' H'. destruct (push_code_spec ss l' code H' H1 H2) as (s2 & E2 & _ & A). congruence.
Qed.

Lemma push_octet_says ss o : on_the_line ss -> is_byte o ->
  exists ss', push_compressed_octet ss o = Some ss' /\ line_only ss ss' /\ says ss [(8, o)] ss'.
Proof.
  intros [l H] Ho. destruct (push_octet_spec ss l o H Ho) as (s1 & E & L & _). exists s1. split; [done|]. split; [done|].
  split; [by constructor; [by split|]|]. intros l' H'. destruct (push_octet_spec ss l' o H' Ho) as (s2 & E2 & _ & A). congruence.
Qed.

(** The words that make the code words longer. *)
Definition stepups (a b : Z) : list word := map (fun w => (w, V42BIS_STEPUP)) (seqZ a (b - a)).

(** Only the line and the size of the code words change. *)
Definition sized (ss : v42bis_compress_state_t) (c : Z) (ss' : v42bis_compress_state_t) : Prop :=
  exists f o b n, ss' = on_line ss f o b n <| comp_c2 := c |> <| comp_c3 := 2 ^ c |>.

Lemma step_up_spec k fuel : forall ss, on_the_line ss -> 9 <= comp_c2 ss <= k -> k <= 12 -> comp_c3 ss = 2 ^ comp_c2 ss ->
  0 <= comp_c1 ss < 2 ^ k -> k - comp_c2 ss <= Z.of_nat fuel ->
  exists c ss', step_up fuel (2 ^ k) ss = Some ss' /\ sized ss c ss' /\ says ss (stepups (comp_c2 ss) c) ss' /\
    comp_c2 ss <= c <= k /\ comp_c1 ss < 2 ^ c.
Proof.
  induction fuel as [|fuel IH]; intros ss O Hc Hk E H1 Hf; cbn [step_up]; rewrite E.
  all: destruct (Z.leb_spec (2 ^ comp_c2 ss) (comp_c1 ss)) as [Hle|Hlt]; cbn [andb].
  2, 4: exists (comp_c2 ss), ss; split; [done|]; split;
        [by exists (frames ss), (comp_output ss), (output_bit_buffer ss), (output_bit_count ss); destruct ss; cbn in *; subst|];
        split; [unfold stepups; replace (comp_c2 ss - comp_c2 ss) with 0 by lia; apply says_nil|lia].
  - exfalso. assert (comp_c2 ss = k) as E2 by lia. rewrite E2 in *. lia.
  - rewrite (proj2 (Z.leb_le (2 ^ comp_c2 ss) (2 ^ k))) by (apply Z.pow_le_mono_r; lia).
    assert (comp_c2 ss < k) as Hlk by (destruct (Z.eq_dec (comp_c2 ss) k) as [E2|]; [rewrite E2 in *|]; lia).
    destruct (push_code_says ss V42BIS_STEPUP O) as (s1 & -> & (f & o & b & n & ->) & S1); [lia| |].
    { unfold V42BIS_STEPUP. split; [lia|]. change 2 with (2 ^ 1) at 1. apply Z.pow_lt_mono_r; lia. }
    cbn [mbind option_bind]. set (s1 := on_line ss f o b n) in *.
    set (s2 := s1 <| comp_c2 := _ |> <| comp_c3 := _ |>).
    assert (comp_c3 s2 = 2 ^ (comp_c2 ss + 1)) as E2.
    { change (u32 (comp_c3 ss .<< 1) = 2 ^ (comp_c2 ss + 1)). rewrite E, Z.shiftl_mul_pow2, <- Z.pow_add_r by lia.
      apply wrap_id. split; [lia|]. apply Z.pow_lt_mono_r; lia. }
    assert (says ss [(comp_c2 ss, V42BIS_STEPUP)] s2) as S2 by (split; [apply S1|]; intros l Hl; by apply S1 in Hl as [A B C D M]).
    destruct (IH s2) as (c & s3 & -> & (f' & o' & b' & n' & ->) & S3 & Hc3 & H3).
    + by apply (says_on ss [(comp_c2 ss, V42BIS_STEPUP)]).
    + change (comp_c2 s2) with (comp_c2 ss + 1). lia.
    + done.
    + exact E2.
    + exact H1.
    + change (comp_c2 s2) with (comp_c2 ss + 1). lia.
    + change (comp_c2 s2) with (comp_c2 ss + 1) in *. exists c. eexists. split; [reflexivity|]. split; [by exists f', o', b', n'|].
      split; [|split; [lia|exact H3]]. unfold stepups in *. rewrite (seqZ_cons (comp_c2 ss)) by lia. cbn [map].
      replace (Z.pred (c - comp_c2 ss)) with (c - (comp_c2 ss + 1)) by lia.
      change ((comp_c2 ss, V42BIS_STEPUP) :: ?l) with ([(comp_c2 ss, V42BIS_STEPUP)] ++ l). by eapply says_app.
Qed.

(** The escape code and the words of an octet that goes out as it is. *)
Definition bump_escape (esc o : Z) : Z := if o =? esc then u8 (esc + 1) else esc.
Definition plain_words (esc o : Z) : list word := if o =? esc then [(8, esc); (8, V42BIS_EID)] else [(8, o)].

Definition escaped_line (ss : v42bis_compress_state_t) (esc : Z) (ss' : v42bis_compress_state_t) : Prop :=
  exists f o b n, ss' = on_line ss f o b n <| comp_escape_code := esc |>.

Lemma line_only_escaped a b : line_only a b -> escaped_line a (comp_escape_code a) b.
Proof. intros (f & o & x & n & ->). exists f, o, x, n. by destruct a. Qed.

Lemma push_transparent_says ss o : on_the_line ss -> is_byte o -> is_byte (comp_escape_code ss) ->
  exists ss', push_transparent ss o = Some ss' /\ escaped_line ss (bump_escape (comp_escape_code ss) o) ss' /\
    says ss (plain_words (comp_escape_code ss) o) ss'.
Proof.
  intros O Ho He. unfold push_transparent, bump_escape, plain_words. destruct (Z.eqb_spec o (comp_escape_code ss)) as [->|].
  - destruct (push_octet_says ss (comp_escape_code ss) O He) as (s1 & -> & (f & p & b & n & ->) & S1). cbn [mbind option_bind].
    set (s1 := on_line ss f p b n) in *. set (s2 := s1 <| comp_escape_code := _ |>).
    assert (says ss [(8, comp_escape_code ss)] s2) as S2
      by (by apply (says_then _ _ _ _ S1)).
    destruct (push_octet_says s2 V42BIS_EID) as (s3 & -> & (f' & p' & b' & n' & ->) & S3); [by eapply says_on|by unfold V42BIS_EID|].
    eexists. split; [reflexivity|]. split; [by exists f', p', b', n'|]. exact (says_app _ _ _ _ _ S2 S3).
  - destruct (push_octet_says ss o O Ho) as (s1 & -> & L1 & S1). exists s1. split; [done|]. split; [by apply line_only_escaped|done].
Qed.

(** The compressibility test changes three variables. *)
Definition tested (ss ss' : v42bis_compress_state_t) : Prop := exists f p c,
  ss' = ss <| compressibility_filter := f |> <| compressibility_persistence := p |> <| change_transparency := c |>.

Lemma persist_tested ss b c : tested ss (persist ss b c).
Proof.
  unfold persist. destruct b; [destruct (1000 <? _)|].
  - by exists (compressibility_filter ss), 0, c.
  - by exists (compressibility_filter ss), (compressibility_persistence ss + 1), (change_transparency ss).
  - by exists (compressibility_filter ss), 0, (change_transparency ss).
Qed.

Lemma tested_trans a b c : tested a b -> tested b c -> tested a c.
Proof. intros (f & p & x & ->) (f' & p' & x' & ->). by exists f', p', x'. Qed.

Lemma compressibility_tested ss : tested ss (compressibility ss).
Proof.
  unfold compressibility. set (s1 := ss <| compressibility_filter := _ |>).
  assert (tested ss s1) as T1 by (by eexists _, (compressibility_persistence ss), (change_transparency ss)).
  destruct (_ =? _); [|done]. destruct (comp_transparent s1); (eapply tested_trans; [exact T1|apply persist_tested]).
Qed.

Lemma tested_says a b : tested a b -> says a [] b.
Proof. intros (f & p & c & ->). by apply same_line_says. Qed.

(** What a transition changes. *)
Definition moved (ss : v42bis_compress_state_t) (t : bool) (esc : Z) (ss' : v42bis_compress_state_t) : Prop :=
  exists f o b n, ss' = on_line ss f o b n <| comp_escape_code := esc |> <| comp_transparent := t |> <| change_transparency := 0 |>.

Definition transition_words (ss : v42bis_compress_state_t) (o : Z) : list word :=
  if (change_transparency ss <? 0) && comp_transparent ss then
    plain_words (comp_escape_code ss) o ++
      [(8, bump_escape (comp_escape_code ss) o); (8, V42BIS_ECM)]
  else if (0 <? change_transparency ss) && negb (comp_transparent ss) then [(comp_c2 ss, V42BIS_ETM)]
  else [].

Definition transparent_after (ss : v42bis_compress_state_t) : bool :=
  if change_transparency ss =? 0 then comp_transparent ss else 0 <? change_transparency ss.

Lemma bump_escape_byte e o : is_byte e -> is_byte (bump_escape e o).
Proof. intros H. unfold bump_escape. destruct (_ =? _); [apply is_byte_u8|done]. Qed.

Lemma transition_says ss o : on_the_line ss -> is_byte o -> is_byte (comp_escape_code ss) -> 1 <= comp_c2 ss <= 24 ->
  exists esc ss', transition ss o = Some ss' /\ moved ss (transparent_after ss) esc ss' /\ says ss (transition_words ss o) ss' /\
    is_byte esc /\ (comp_transparent ss = false \/ 0 <= change_transparency ss -> esc = comp_escape_code ss).
Proof.
  intros O Ho He Hc. unfold transition, transition_words, transparent_after.
  destruct (Z.eqb_spec (change_transparency ss) 0) as [E|E].
  { rewrite E. cbn [Z.ltb Z.compare andb]. exists (comp_escape_code ss), ss. split; [done|]. split; [|by split; [apply says_nil|]].
    exists (frames ss), (comp_output ss), (output_bit_buffer ss), (output_bit_count ss). destruct ss; cbn in *. by subst. }
  destruct (Z.ltb_spec (change_transparency ss) 0) as [N|N]; cbn [andb].
  - rewrite (proj2 (Z.ltb_ge _ _)) by lia. cbn [andb]. destruct (comp_transparent ss) eqn:Et.
    2: { cbn [mbind option_bind]. exists (comp_escape_code ss). eexists. split; [reflexivity|]. split; [|by split; [by apply same_line_says|]].
         exists (frames ss), (comp_output ss), (output_bit_buffer ss), (output_bit_count ss). by rewrite <- Et; destruct ss. }
    destruct (push_transparent_says ss o O Ho He) as (s1 & -> & (f & p & b & n & ->) & S1). cbn [mbind option_bind].
    set (esc := bump_escape (comp_escape_code ss) o) in *. set (s1 := on_line ss f p b n <| comp_escape_code := esc |>) in *.
    pose proof (bump_escape_byte _ o He : is_byte esc) as He1.
    destruct (push_octet_says s1 (comp_escape_code s1)) as (s2 & -> & (f2 & p2 & b2 & n2 & ->) & S2); [by eapply says_on|done|].
    cbn [mbind option_bind]. set (s2 := on_line s1 f2 p2 b2 n2) in *. set (s3 := s2 <| comp_escape_code := _ |>).
    assert (says s1 [(8, esc)] s3) as S3 by (by apply (says_then _ _ _ _ S2)).
    destruct (push_octet_says s3 V42BIS_ECM) as (s4 & -> & (f4 & p4 & b4 & n4 & ->) & S4);
      [eapply (says_on s1); [by eapply says_on|exact S3]|by unfold V42BIS_ECM|].
    cbn [mbind option_bind]. exists (u8 (esc + 1)). eexists. split; [reflexivity|]. split; [by exists f4, p4, b4, n4|].
    split; [|split; [apply is_byte_u8|by intros [|]; [|lia]]].
    eapply says_app; [exact S1|]. change [(8, esc); (8, V42BIS_ECM)] with ([(8, esc)] ++ [(8, V42BIS_ECM)]).
    eapply says_app; [exact S3|]. by apply (says_then _ _ _ _ S4).
  - rewrite (proj2 (Z.ltb_lt _ _)) by lia. cbn [andb]. destruct (comp_transparent ss) eqn:Et; cbn [negb].
    { cbn [mbind option_bind]. exists (comp_escape_code ss). eexists. split; [reflexivity|]. split; [|by split; [by apply same_line_says|]].
      exists (frames ss), (comp_output ss), (output_bit_buffer ss), (output_bit_count ss). by rewrite <- Et; destruct ss. }
    destruct (push_code_says ss V42BIS_ETM O Hc) as (s1 & -> & (f & p & b & n & ->) & S1);
      [unfold V42BIS_ETM; split; [lia|by apply Z.pow_pos_nonneg; lia]|].
    cbn [mbind option_bind]. exists (comp_escape_code ss). eexists. split; [reflexivity|].
    split; [by exists f, p, b, n; destruct ss|]. split; [|done].
    by apply (says_then _ _ _ _ S1).
Qed.

(** ** Matching *)

Lemma find_leaf_spec n d parent octet : forall code, 0 <= code -> code + Z.of_nat n <= V42BIS_MAX_CODEWORDS ->
  (forall c, 0 <= c < V42BIS_MAX_CODEWORDS -> exists e, d !! c = Some e) ->
  exists r, find_leaf n d parent octet code = Some r /\ code <= r <= code + Z.of_nat n /\
    (r < code + Z.of_nat n -> exists e, d !! r = Some e /\ parent_code e = parent /\ node_octet e = octet) /\
    (forall c e, code <= c < r -> d !! c = Some e -> ~ (parent_code e = parent /\ node_octet e = octet)).
Proof.
  induction n as [|n IH]; intros code H0 Hn Hd; cbn [find_leaf].
  - exists code. split; [done|]. split; [lia|]. split; [lia|]. intros; lia.
  - destruct (Hd code ltac:(lia)) as [e Ee]. rewrite Ee. cbn [mbind option_bind].
    destruct (Z.eqb_spec (parent_code e) parent) as [Ep|Ep], (Z.eqb_spec (node_octet e) octet) as [Eo|Eo]; cbn [andb].
    { exists code. split; [done|]. split; [lia|]. split; [by exists e|]. intros; lia. }
    all: destruct (IH (code + 1) ltac:(lia) ltac:(lia) Hd) as (r & Er & B & F & G); exists r; (split; [done|]); (split; [lia|]);
      (split; [intros; apply F; lia|]); intros c e' Hc Hce; destruct (Z.eq_dec c code) as [->|];
      [rewrite Ee in Hce; injection Hce as <-; by intros []|apply (G c e'); [lia|done]].
Qed.

Section compressor.
Context (k n7 : Z).

Abbreviation n2 := (2 ^ k).

Definition no_root (c : Z) : Z := no_parent.

(** The compressor with a dictionary. *)
Record comp_ok (T : table) (ss : v42bis_compress_state_t) : Prop := {
  ok_line : on_the_line ss;
  ok_size : 9 <= comp_c2 ss <= k /\ comp_c3 ss = 2 ^ comp_c2 ss;
  ok_dict : represents n2 no_root (comp_dict ss) T;
  ok_table : table_ok n2 n7 T (comp_c1 ss);
  ok_escape : is_byte (comp_escape_code ss);
}.

(** The string that is being matched. *)
Definition matching (T : table) (ss : v42bis_compress_state_t) (s : list Z) : Prop :=
  spells T (string_code ss) s /\ string_code ss < comp_c3 ss /\
  (string_length ss = zlen s \/ string_length ss = 0 /\ zlen s = 1 /\ T = ∅).

Hypothesis Hk : 9 <= k <= 12.
Hypothesis L : limits n2 n7.

Lemma size_room ss T : comp_ok T ss -> 512 <= comp_c3 ss <= n2 /\ n2 <= V42BIS_MAX_CODEWORDS.
Proof.
  intros [_ [H E] _ _ _]. rewrite E. split; [|unfold V42BIS_MAX_CODEWORDS; change 4096 with (2 ^ 12); apply Z.pow_le_mono_r; lia].
  split; [change 512 with (2 ^ 9)|]; apply Z.pow_le_mono_r; lia.
Qed.

Lemma match_octet_spec T ss s o : comp_ok T ss -> matching T ss s -> is_byte o ->
  exists code, match_octet n2 ss o = Some code /\ 0 <= code <= n2 /\
    (code < comp_c3 ss -> T !! code = Some (string_code ss, o)) /\
    (mapped n2 (comp_dict ss) T -> forall c, T !! c = Some (string_code ss, o) -> c < comp_c3 ss -> code < comp_c3 ss).
Proof.
  intros O (Hs & Hc & _) Ho. destruct (size_room ss T O) as [[R1 R2] R3]. destruct O as [_ _ R [A B C] _].
  pose proof (code_range n2 n7 L T _ s A Hs) as Hr. change V42BIS_N6 with 3 in Hr. unfold match_octet.
  destruct (represents_at n2 n7 L _ _ T (string_code ss) R ltac:(lia)) as (e & Ee & Le). rewrite Ee. cbn [mbind option_bind].
  destruct (has_child e o) eqn:Eh.
  2: { exists n2. split; [done|]. split; [lia|]. split; [lia|]. intros M c Hcc _. exfalso.
       assert (has_child e o = true) as F by (apply (M (string_code ss) e o); [lia|done|done|by exists c]). congruence. }
  destruct (find_leaf_spec (Z.to_nat (comp_c3 ss)) (comp_dict ss) (string_code ss) o 0) as (r & Er & Br & F & G); [lia|lia| |].
  { intros c Hcr. destruct (rep_node _ _ _ _ R c Hcr) as (e' & Ee' & _). by exists e'. }
  exists r. split; [done|]. split; [lia|]. split.
  - intros Hrc. destruct F as (e' & Ee' & E1 & E2); [lia|].
    assert (entry n2 r) as Hre.
    { destruct (Z_lt_le_dec r V42BIS_N5); [|unfold entry; lia]. exfalso.
      pose proof (rep_root _ _ _ _ R r e' ltac:(left; lia) Ee') as E. rewrite E1 in E. unfold no_root, no_parent, V42BIS_MAX_CODEWORDS in *. lia. }
    pose proof (rep_link _ _ _ _ R r e' Hre Ee') as Hl. unfold linked in Hl. destruct (T !! r) as [[p q]|].
    + destruct Hl as [<- <-]. by rewrite E1, E2.
    + rewrite E1 in Hl. unfold no_parent, V42BIS_MAX_CODEWORDS in *. lia.
  - intros M c Hcc Hc3. destruct (A c _ _ Hcc) as (Hce & _). unfold entry in Hce. change V42BIS_N5 with 259 in Hce.
    destruct (represents_at n2 n7 L _ _ T c R ltac:(lia)) as (e' & Ee' & _).
    pose proof (rep_link _ _ _ _ R c e' Hce Ee') as Hl. rewrite Hcc in Hl.
    destruct (Z_lt_le_dec r (comp_c3 ss)) as [|Hge]; [done|]. destruct (G c e' ltac:(lia) Ee' Hl).
Qed.

(** The octet goes on with the string. *)
Definition further (ss : v42bis_compress_state_t) (code : Z) : v42bis_compress_state_t :=
  ss <| string_code := code |> <| string_length := string_length ss + 1 |>.

Lemma comp_ok_same T ss ss' : comp_ok T ss -> on_the_line ss' -> comp_c1 ss' = comp_c1 ss -> comp_c2 ss' = comp_c2 ss ->
  comp_c3 ss' = comp_c3 ss -> comp_dict ss' = comp_dict ss -> is_byte (comp_escape_code ss') -> comp_ok T ss'.
Proof. intros [A B C D E] O E1 E2 E3 E4 E5. split; rewrite ?E1, ?E2, ?E3, ?E4; done. Qed.

Lemma further_ok T ss s code o : comp_ok T ss -> matching T ss s ->
  T !! code = Some (string_code ss, o) -> code < comp_c3 ss -> comp_ok T (further ss code) /\ matching T (further ss code) (s ++ [o]).
Proof.
  intros O (Hs & Hc & Hl) Ht Hlt. destruct Hl as [Hl|(_ & _ & ->)]; [|done]. split; [apply (comp_ok_same T ss); try done; [|apply O]|].
  - by apply (says_on ss []), same_line_says; [apply O|].
  - split; [|split; [exact Hlt|left; change (string_length ss + 1 = zlen (s ++ [o])); rewrite length_app; cbn [length]; lia]].
    econstructor; [exact Ht| |exact Hs]. apply (entry_not_root n2). by apply (table_spelled _ _ _ _ (ok_table _ _ O) _ _ _ Ht).
Qed.

(** ** The end of a string *)

Lemma comp_add_spec T ss s o : comp_ok T ss -> matching T ss s -> string_length ss < n7 -> is_byte o ->
  exists c2 T2 d2, comp_add n2 ss o = Some (ss <| latest_code := comp_c1 ss |> <| comp_c1 := c2 |> <| comp_dict := d2 |>) /\
    grown n2 n7 T (comp_c1 ss) (string_code ss) o c2 T2 /\ represents n2 no_root d2 T2 /\
    (mapped n2 (comp_dict ss) T -> unique T -> (forall c, T !! c <> Some (string_code ss, o)) -> mapped n2 d2 T2 /\ unique T2).
Proof.
  intros O (Hs & _ & Hl) Hn Ho. pose proof (limits_range n2 n7 L) as R. assert (zlen s < n7) as Hzs by (destruct Hl as [|(? & ? & _)]; lia).
  destruct O as [_ _ Rp Tk _].
  destruct (grow_spec n2 n7 L T (comp_c1 ss) (string_code ss) o s Tk Hs Hzs Ho) as (c2 & T2 & G).
  destruct (comp_add_dict n2 n7 L no_root (comp_dict ss) T (comp_c1 ss) (string_code ss) o s c2 T2 Rp Tk Hs Hzs Ho
              (grown_grow _ _ _ _ _ _ _ _ G)) as (d2 & E & R2 & K).
  exists c2, T2, d2. split; [|done]. unfold comp_add. change (comp_dict (ss <| latest_code := ?x |>)) with (comp_dict ss).
  change (string_code (ss <| latest_code := ?x |>)) with (string_code ss).
  change (comp_c1 (ss <| latest_code := ?x |>)) with (comp_c1 ss).
  destruct (modify (comp_dict ss) (string_code ss) more_leaves) as [da|]; cbn [mbind option_bind] in *; [|done].
  destruct (modify da (string_code ss) _) as [db|]; cbn [mbind option_bind] in *; [|done].
  destruct (modify db (comp_c1 ss) _) as [dc|]; cbn [mbind option_bind] in *; [|done]. by rewrite E.
Qed.

(** The words of the string. *)
Definition string_words (ss : v42bis_compress_state_t) (c : Z) : list word :=
  if comp_transparent ss then [] else stepups (comp_c2 ss) c ++ [(c, string_code ss)].

Lemma send_string T ss s : comp_ok T ss -> matching T ss s ->
  exists c ss', (if negb (comp_transparent ss) then
                   ss ← step_up (Z.to_nat n2) n2 ss; push_compressed_code ss (string_code ss)
                 else Some ss) = Some ss' /\ sized ss c ss' /\ says ss (string_words ss c) ss' /\ comp_c2 ss <= c <= k /\
    (comp_transparent ss = false -> comp_c1 ss < 2 ^ c).
Proof.
  intros O (Hs & Hc3 & _). pose proof (limits_range n2 n7 L) as R. pose proof O as [Ol [Hc E] Rp [A B C] He]. unfold string_words.
  destruct (comp_transparent ss); cbn [negb].
  { exists (comp_c2 ss), ss. split; [done|]. split; [|split; [apply says_nil|lia]].
    exists (frames ss), (comp_output ss), (output_bit_buffer ss), (output_bit_count ss). destruct ss; cbn in *; by subst. }
  pose proof B as B'. unfold entry in B'. change V42BIS_N5 with 259 in B'.
  destruct (step_up_spec k (Z.to_nat n2) ss Ol Hc ltac:(lia) E ltac:(lia) ltac:(lia)) as (c & s1 & -> & (f & o & b & n & ->) & S1 & Hcc & H1).
  cbn [mbind option_bind]. set (s1 := on_line ss f o b n <| comp_c2 := c |> <| comp_c3 := 2 ^ c |>) in *.
  pose proof (code_range n2 n7 L T _ s A Hs) as Hr. change V42BIS_N6 with 3 in Hr.
  assert (2 ^ comp_c2 ss <= 2 ^ c) by (apply Z.pow_le_mono_r; lia).
  destruct (push_code_says s1 (string_code s1)) as (s2 & E2 & (f2 & o2 & b2 & n2' & ->) & S2);
    [by eapply says_on|change (1 <= c <= 24); lia|change (0 <= string_code ss < 2 ^ c); lia|].
  exists c. eexists. split; [exact E2|]. split; [by exists f2, o2, b2, n2'|]. split; [exact (says_app _ _ _ _ _ S1 S2)|]. split; [lia|done].
Qed.

Definition adds (ss : v42bis_compress_state_t) (code : Z) : bool := negb (code =? latest_code ss) && (string_length ss <? n7).

(** The dictionary after a string has ended. *)
Definition updated (T : table) (ss : v42bis_compress_state_t) (code o : Z) (T' : table) (ss' : v42bis_compress_state_t) : Prop :=
  if adds ss code then grown n2 n7 T (comp_c1 ss) (string_code ss) o (comp_c1 ss') T' /\ latest_code ss' = comp_c1 ss
  else T' = T /\ comp_c1 ss' = comp_c1 ss /\ latest_code ss' = no_code.

Definition maps_kept (T : table) (ss : v42bis_compress_state_t) (code o : Z) (T' : table) (ss' : v42bis_compress_state_t) : Prop :=
  mapped n2 (comp_dict ss) T -> unique T -> (adds ss code = true -> forall c, T !! c <> Some (string_code ss, o)) ->
  mapped n2 (comp_dict ss') T' /\ unique T'.

(** What bears on the transparency. *)
Definition same_mode (a b : v42bis_compress_state_t) : Prop :=
  compression_mode b = compression_mode a /\ comp_transparent b = comp_transparent a /\
  change_transparency b = change_transparency a /\ compressibility_persistence b = compressibility_persistence a /\
  comp_escape_code b = comp_escape_code a.

Record resized (ss : v42bis_compress_state_t) (c : Z) (s1 : v42bis_compress_state_t) : Prop := {
  resized_c1 : comp_c1 s1 = comp_c1 ss;
  resized_c2 : comp_c2 s1 = c;
  resized_c3 : comp_c3 s1 = 2 ^ c;
  resized_dict : comp_dict s1 = comp_dict ss;
  resized_latest : latest_code s1 = latest_code ss;
  resized_string : string_code s1 = string_code ss /\ string_length s1 = string_length ss;
  resized_mode : same_mode ss s1;
  resized_first : comp_first s1 = comp_first ss;
}.

Lemma sized_resized ss c s1 : sized ss c s1 -> resized ss c s1.
Proof. by intros (f & p & b & n & ->). Qed.

Lemma update_dict T ss s c s1 code o : comp_ok T ss -> matching T ss s -> is_byte o -> resized ss c s1 -> on_the_line s1 ->
  comp_c2 ss <= c <= k ->
  exists T' s2, (if negb (code =? latest_code s1) && (string_length s1 <? n7) then comp_add n2 s1 o
                 else Some (s1 <| latest_code := no_code |>)) = Some s2 /\
    comp_ok T' s2 /\ updated T ss code o T' s2 /\ maps_kept T ss code o T' s2 /\ same_mode ss s2 /\ same_line s1 s2 /\
    comp_c2 s2 = c /\ comp_first s2 = comp_first ss.
Proof.
  intros O (Hs & Hc3 & Hl) Ho [Z1 Z2 Z3 Z4 Z5 [Z6 Z7] Z8 Z9] Ol Hc. unfold updated, maps_kept, adds. rewrite Z5, Z7.
  assert (2 ^ comp_c2 ss <= 2 ^ c) by (apply Z.pow_le_mono_r; [|lia]; destruct (ok_size _ _ O) as [? _]; lia).
  assert (is_byte (comp_escape_code s1)) as He by (destruct Z8 as (_ & _ & _ & _ & ->); apply O).
  assert (comp_ok T s1) as O1.
  { destruct O as [A [B B'] C D E]. split; rewrite ?Z1, ?Z2, ?Z3, ?Z4; [done|lia|done..]. }
  assert (matching T s1 s) as M1.
  { split; [by rewrite Z6|]. split; [|by rewrite Z7]. rewrite Z6, Z3. destruct (ok_size _ _ O) as [_ E]. lia. }
  destruct (negb (code =? latest_code ss) && (string_length ss <? n7)) eqn:Ea.
  - apply andb_true_iff in Ea as [_ Hn%Z.ltb_lt]. rewrite <- Z7 in Hn.
    destruct (comp_add_spec T s1 s o O1 M1 Hn Ho) as (c2 & T2 & d2 & E & G & R2 & K). exists T2. eexists. split; [exact E|].
    rewrite Z1, Z6 in G. rewrite Z4, Z6 in K. split; [|split; [split; [exact G|exact Z1]|split; [intros; apply K; auto|]]].
    + split; [|apply (ok_size _ _ O1)|exact R2|apply (grown_ok _ _ _ _ _ _ _ _ G)|exact He].
      by apply (says_on s1 [] _ Ol), same_line_says.
    + split; [exact Z8|]. split; [done|]. split; [exact Z2|exact Z9].
  - exists T. eexists. split; [reflexivity|]. split; [|split; [by split; [|split; [exact Z1|]]|split; [intros M U _; change (mapped n2 (comp_dict s1) T /\ unique T); by rewrite Z4|]]].
    + apply (comp_ok_same T s1 _ O1); [by apply (says_on s1 [] _ Ol), same_line_says|done..|exact He].
    + split; [exact Z8|]. split; [done|]. split; [exact Z2|exact Z9].
Qed.

(** Everything at the end of a string: [t] is the state after the test. *)
Record string_ended (T : table) (ss : v42bis_compress_state_t) (code o : Z) (T' : table) (ws : list word)
    (t ss' : v42bis_compress_state_t) : Prop := {
  ended_ok : comp_ok T' ss';
  ended_string : string_code ss' = o + V42BIS_N6 /\ string_length ss' = 1;
  ended_says : says ss ws ss';
  ended_words : exists c, ws = string_words ss c ++ transition_words t o /\ comp_c2 ss <= c <= k /\ comp_c2 ss' = c /\ comp_c2 t = c /\
    (comp_transparent ss = false -> comp_c1 ss < comp_c3 ss');
  ended_updated : updated T ss code o T' ss';
  ended_maps : maps_kept T ss code o T' ss';
  ended_test : exists s2, t = compressibility s2 /\ same_mode ss s2;
  ended_moved : comp_transparent ss' = transparent_after t /\ change_transparency ss' = 0 /\
    compressibility_persistence ss' = compressibility_persistence t /\ compression_mode ss' = compression_mode ss;
  ended_escape : comp_transparent t = false \/ 0 <= change_transparency t -> comp_escape_code ss' = comp_escape_code ss;
  ended_first : comp_first ss' = comp_first ss;
}.

(** The parts of the state that neither the line, nor the test, nor a transition
    touches. *)
Definition same_rest (a b : v42bis_compress_state_t) : Prop :=
  comp_c1 b = comp_c1 a /\ comp_c2 b = comp_c2 a /\ comp_c3 b = comp_c3 a /\ comp_dict b = comp_dict a /\
  latest_code b = latest_code a /\ compression_mode b = compression_mode a /\ comp_first b = comp_first a.

Lemma tested_rest a b : tested a b -> same_rest a b /\ comp_transparent b = comp_transparent a /\ comp_escape_code b = comp_escape_code a.
Proof. by intros (f & p & x & ->). Qed.

Lemma moved_rest a t esc b : moved a t esc b -> same_rest a b /\ comp_transparent b = t /\ comp_escape_code b = esc /\
  change_transparency b = 0 /\ compressibility_persistence b = compressibility_persistence a.
Proof. by intros (f & o & x & n & ->). Qed.

Lemma string_ends_spec T ss s o code : comp_ok T ss -> matching T ss s -> is_byte o ->
  exists T' ws t ss', string_ends n2 n7 code ss o = Some ss' /\ string_ended T ss code o T' ws t ss'.
Proof.
  intros O M Ho. unfold string_ends. destruct (send_string T ss s O M) as (c & s1 & -> & Z1 & S1 & Hc & H1). cbn [mbind option_bind].
  assert (on_the_line s1) as O1 by (eapply says_on; [apply O|exact S1]).
  destruct (update_dict T ss s c s1 code o O M Ho (sized_resized _ _ _ Z1) O1 Hc) as (T' & s2 & E2 & O2 & U2 & K2 & M2 & L2 & C2 & F2).
  rewrite E2. cbn [mbind option_bind]. pose proof (ok_size _ _ O2) as [Hc2 Ec3].
  pose proof (tested_says _ _ (compressibility_tested s2)) as St.
  destruct (tested_rest _ _ (compressibility_tested s2)) as ((T1 & T2 & T3 & T4 & T5 & T6 & T7) & T8 & T9).
  remember (compressibility s2) as t eqn:Et.
  assert (on_the_line t) as Ot by (eapply says_on; [apply O2|exact St]).
  destruct (transition_says t o) as (esc & s3 & -> & Mv & S3 & He & Hesc);
    [exact Ot|exact Ho|rewrite T9; exact (ok_escape _ _ O2)|rewrite T2; lia|].
  destruct (moved_rest _ _ _ _ Mv) as ((R1 & R2 & R3 & R4 & R5 & R6 & R7) & R8 & R9 & R10 & R11).
  cbn [mbind option_bind]. exists T', (string_words ss c ++ transition_words t o), t. eexists. split; [reflexivity|].
  set (s4 := s3 <| string_code := _ |> <| string_length := 1 |>).
  assert (says ss (string_words ss c ++ transition_words t o) s4) as S4.
  { apply (says_then _ _ s3); [|done]. eapply says_app; [|exact S3]. rewrite <- (app_nil_r (string_words ss c)).
    eapply says_app; [exact S1|]. apply (says_same _ s2); [exact L2|exact St]. }
  split.
  - apply (comp_ok_same T' s2 s4 O2); [eapply says_on; [apply O|exact S4]|..].
    + by transitivity (comp_c1 t).
    + by transitivity (comp_c2 t).
    + by transitivity (comp_c3 t).
    + by transitivity (comp_dict t).
    + change (is_byte (comp_escape_code s3)). by rewrite R9.
  - done.
  - exact S4.
  - exists c. split; [done|]. split; [done|]. change (comp_c2 s4) with (comp_c2 s3). change (comp_c3 s4) with (comp_c3 s3).
    rewrite R2, T2, R3, T3, Ec3, C2. done.
  - unfold updated in *. change (comp_c1 s4) with (comp_c1 s3). change (latest_code s4) with (latest_code s3). by rewrite R1, T1, R5, T5.
  - unfold maps_kept in *. change (comp_dict s4) with (comp_dict s3). by rewrite R4, T4.
  - by exists s2.
  - change (comp_transparent s3 = transparent_after t /\ change_transparency s3 = 0 /\
      compressibility_persistence s3 = compressibility_persistence t /\ compression_mode s3 = compression_mode ss).
    split; [done|]. split; [done|]. split; [done|]. rewrite R6, T6. apply M2.
  - intros H. change (comp_escape_code s3 = comp_escape_code ss). rewrite R9, Hesc, T9 by done. apply M2.
  - change (comp_first s3 = comp_first ss). by rewrite R7, T7, F2.
Qed.

Lemma ended_matching T ss code o T' ws t ss' : string_ended T ss code o T' ws t ss' -> is_byte o -> matching T' ss' [o].
Proof.
  intros [O [E1 E2] _ _ _ _ _ _ _ _] Ho. destruct (size_room ss' T' O) as [[R1 R2] R3]. unfold is_byte in Ho.
  split; [|split; [rewrite E1; change V42BIS_N6 with 3; lia|by left]]. rewrite E1.
  replace [o] with [o + V42BIS_N6 - V42BIS_N6] by (f_equal; lia). constructor.
  unfold is_root. change V42BIS_N6 with 3. change V42BIS_N5 with 259. lia.
Qed.

(** ** An octet *)

(** Whatever comes, the compressor goes on. *)
Definition able (ss : v42bis_compress_state_t) : Prop := exists T s, comp_ok T ss /\ matching T ss s.

Lemma compress_octet_able ss o : able ss -> is_byte o -> exists ss', compress_octet n2 n7 ss o = Some ss' /\ able ss' /\
  comp_first ss' = comp_first ss.
Proof.
  intros (T & s & O & M) Ho. unfold compress_octet. destruct (match_octet_spec T ss s o O M Ho) as (code & -> & B & F & _).
  cbn [mbind option_bind].
  assert (exists s1, (if (code <? comp_c3 ss) && negb (code =? latest_code ss) then Some (further ss code)
                      else string_ends n2 n7 code ss o) = Some s1 /\ comp_first s1 = comp_first ss /\
            exists T s, comp_ok T s1 /\ matching T s1 s) as (s1 & E & F1 & T1 & t1 & O1 & M1).
  { destruct ((code <? comp_c3 ss) && negb (code =? latest_code ss)) eqn:Ec.
    - apply andb_true_iff in Ec as [Hlt%Z.ltb_lt _]. eexists. split; [done|]. split; [done|]. exists T, (s ++ [o]). by apply further_ok; auto.
    - destruct (string_ends_spec T ss s o code O M Ho) as (T' & ws & t & s1 & E & S1). exists s1. split; [done|].
      split; [apply (ended_first _ _ _ _ _ _ _ _ S1)|]. exists T', [o]. split; [apply S1|by eapply ended_matching]. }
  unfold further in E. rewrite E. cbn [mbind option_bind]. destruct (comp_transparent s1); [|by exists s1; split; [|split; [exists T1, t1|]]].
  destruct (push_transparent_says s1 o) as (s2 & -> & (f & p & b & n & ->) & S2); [apply O1|done|apply O1|].
  eexists. split; [reflexivity|]. split; [|exact F1]. exists T1, t1. split; [|exact M1].
  apply (comp_ok_same T1 s1); try done; [by apply (says_on s1 _ _ (ok_line _ _ O1) S2)|]. apply bump_escape_byte, O1.
Qed.

Lemma compress_octets_able l : forall ss, able ss -> bytes l -> exists ss', compress_octets n2 n7 ss l = Some ss' /\ able ss' /\
  comp_first ss' = comp_first ss.
Proof.
  induction l as [|o l IH]; intros ss A Hl; [by exists ss|]. apply Forall_cons_1 in Hl as [Ho Hl]. cbn [compress_octets].
  destruct (compress_octet_able ss o A Ho) as (s1 & -> & A1 & <-). cbn [mbind option_bind]. by apply IH.
Qed.
End compressor.
