(* ===== verification/V42bisRx.v ===== *)
(** * The decompressor of V.42bis

    The bits of the octets it is given, in whatever portions, are taken word by
    word; what a word does is independent of the bit buffer.  The words of a
    string that the dictionary has are decoded to it. *)
From stdpp Require Import gmap.
From S2P Require Import Prelude HdlcFrame V42bis V42bisDict V42bisNodes V42bisTx.

(** ** The bit buffer *)

Definition with_bits (b n : Z) (dd : v42bis_decompress_state_t) : v42bis_decompress_state_t :=
  dd <| input_bit_buffer := b |> <| input_bit_count := n |>.

Definition carry (b n : Z) (r : option (decoded * v42bis_decompress_state_t)) : option (decoded * v42bis_decompress_state_t) :=
  '(r, dd) ← r; Some (r, with_bits b n dd).

Lemma put_output_bits n7 b n dd l : put_output n7 (with_bits b n dd) l = (dd ← put_output n7 dd l; Some (with_bits b n dd)).
Proof.
  unfold put_output. change (dec_output (with_bits b n dd)) with (dec_output dd). destruct (BUF_LEN <? _); [done|].
  cbn [mbind option_bind]. change (dec_max_len (with_bits b n dd <| dec_output := ?x |>)) with (dec_max_len dd).
  change (dec_max_len (dd <| dec_output := ?x |>)) with (dec_max_len dd).
  change (dec_output (with_bits b n dd <| dec_output := ?x |>)) with x. change (dec_output (dd <| dec_output := ?x |>)) with x.
  by destruct (_ <=? _).
Qed.

Lemma dec_add_bits n2 b n dd o : dec_add n2 (with_bits b n dd) o = (dd ← dec_add n2 dd o; Some (with_bits b n dd)).
Proof.
  unfold dec_add. change (dec_dict (with_bits b n dd)) with (dec_dict dd). change (old_code (with_bits b n dd)) with (old_code dd).
  change (dec_c1 (with_bits b n dd)) with (dec_c1 dd).
  destruct (modify (dec_dict dd) (old_code dd) more_leaves) as [d|]; [|done]. cbn [mbind option_bind].
  destruct (modify d (dec_c1 dd) _) as [d1|]; [|done]. cbn [mbind option_bind]. by destruct (dec_recover _ _ _ _) as [[c1 d2]|].
Qed.

Lemma dec_update_bits n2 n7 b n dd o : dec_update n2 n7 (with_bits b n dd) o = (dd ← dec_update n2 n7 dd o; Some (with_bits b n dd)).
Proof.
  unfold dec_update. change (last_length (with_bits b n dd)) with (last_length dd).
  change (last_old_code (with_bits b n dd)) with (last_old_code dd). change (old_code (with_bits b n dd)) with (old_code dd).
  change (last_extra_octet (with_bits b n dd)) with (last_extra_octet dd).
  change (dec_octet (with_bits b n dd)) with (dec_octet dd). destruct (_ && _); [apply dec_add_bits|done].
Qed.

Lemma decode_transparent_bits n7 b n dd code :
  decode_transparent n7 (with_bits b n dd) code = ('(w, dd) ← decode_transparent n7 dd code; Some (w, with_bits b n dd)).
Proof.
  unfold decode_transparent. change (escaped (with_bits b n dd)) with (escaped dd). destruct (escaped dd).
  - destruct (code =? V42BIS_ECM); [done|]. destruct (code =? V42BIS_EID); [|done].
    change (with_bits b n dd <| escaped := false |>) with (with_bits b n (dd <| escaped := false |>)).
    rewrite put_output_bits. change (dec_escape_code (with_bits b n ?x)) with (dec_escape_code x).
    by destruct (put_output n7 _ _).
  - change (dec_escape_code (with_bits b n dd)) with (dec_escape_code dd). destruct (code =? dec_escape_code dd); [done|].
    rewrite put_output_bits. by destruct (put_output n7 _ _).
Qed.

Lemma decode_control_bits n2 b n dd w code :
  decode_control n2 (with_bits b n dd) w code = (let '(r, dd) := decode_control n2 dd w code in (r, with_bits b n dd)).
Proof.
  unfold decode_control. destruct (code =? V42BIS_ETM); [done|]. destruct (code =? V42BIS_FLUSH).
  - unfold hand_over. change (dec_output (with_bits b n dd)) with (dec_output dd). by destruct (dec_output dd).
  - change (dec_c3 (with_bits b n dd)) with (dec_c3 dd). by destruct (n2 <=? dec_c3 dd).
Qed.

Lemma decode_string_bits n2 n7 b n dd code : decode_string n2 n7 (with_bits b n dd) code = carry b n (decode_string n2 n7 dd code).
Proof.
  unfold decode_string, carry. change (dec_dict (with_bits b n dd)) with (dec_dict dd).
  destruct (dec_dict dd !! code) as [e|]; [|done]. cbn [mbind option_bind]. destruct (_ =? no_parent); [done|].
  destruct (trace_back _ _ _ _) as [s|]; [|done]. cbn [mbind option_bind].
  change (with_bits b n dd <| dec_octet := aget s 0 |>) with (with_bits b n (dd <| dec_octet := aget s 0 |>)).
  rewrite put_output_bits. destruct (put_output n7 _ _) as [d1|]; [|done]. cbn [mbind option_bind].
  rewrite dec_update_bits. by destruct (dec_update n2 n7 d1 _) as [d2|].
Qed.

Lemma decode_code_bits n2 n7 b n dd w code : decode_code n2 n7 (with_bits b n dd) w code = carry b n (decode_code n2 n7 dd w code).
Proof.
  unfold decode_code. change (dec_transparent (with_bits b n dd)) with (dec_transparent dd).
  change (dec_first (with_bits b n dd)) with (dec_first dd). destruct (dec_transparent dd).
  { rewrite decode_transparent_bits. by destruct (decode_transparent n7 dd code) as [[? ?]|]. }
  destruct (code <? V42BIS_N6).
  { rewrite decode_control_bits. by destruct (decode_control n2 dd w code). }
  destruct (dec_first dd).
  - unfold decode_first. set (d1 := dd <| dec_first := false |> <| dec_octet := code - V42BIS_N6 |> <| dec_output := [] |>).
    change (with_bits b n dd <| dec_first := false |> <| dec_octet := code - V42BIS_N6 |> <| dec_output := [] |>) with (with_bits b n d1).
    rewrite put_output_bits. change (dec_octet (with_bits b n d1)) with (dec_octet d1). by destruct (put_output n7 d1 _).
  - rewrite decode_string_bits. unfold carry. by destruct (decode_string n2 n7 dd code) as [[[] ?]|].
Qed.

(** ** Words *)

Definition code_size (dd : v42bis_decompress_state_t) : Z := if dec_transparent dd then 8 else dec_c2 dd.

Fixpoint feed (n2 n7 : Z) (ws : list word) (dd : v42bis_decompress_state_t) : option v42bis_decompress_state_t :=
  match ws with
  | [] => Some dd
  | (w, v) :: ws =>
      if w =? code_size dd then
        match decode_code n2 n7 dd w v with
        | Some (Continue w, dd) => if w =? code_size dd then feed n2 n7 ws dd else None
        | _ => None
        end
      else None
  end.

Lemma feed_app n2 n7 a b dd : feed n2 n7 (a ++ b) dd = (dd ← feed n2 n7 a dd; feed n2 n7 b dd).
Proof.
  revert dd. induction a as [|[w v] a IH]; intros dd; [done|]. cbn [app feed]. destruct (w =? code_size dd); [|done].
  destruct (decode_code n2 n7 dd w v) as [[[w'|r] d1]|]; [|done..]. destruct (w' =? code_size d1); [apply IH|done].
Qed.

Lemma fill_spec buf : forall b n dd pend, on_top b n pend -> n <= 31 -> bytes buf ->
  exists b' n' pend' buf', fill (with_bits b n dd) buf = (with_bits b' n' dd, buf') /\ on_top b' n' pend' /\ n' <= 31 /\
    pend' ++ line_bits buf' = pend ++ line_bits buf /\ (buf' = [] \/ 24 <= n') /\ bytes buf' /\
    n' + 8 * zlen buf' = n + 8 * zlen buf.
Proof.
  induction buf as [|o buf IH]; intros b n dd pend P Hn Hb; cbn [fill].
  { exists b, n, pend, []. split; [done|]. split; [done|]. split; [done|]. split; [done|]. split; [by left|]. done. }
  change (input_bit_count (with_bits b n dd)) with n. change (input_bit_buffer (with_bits b n dd)) with b.
  pose proof (Forall_cons_1 _ _ _ Hb) as [Ho Hb']. destruct (Z.ltb_spec n (32 - 8)) as [Hlt|Hge].
  - destruct (IH (b .| u32 (o .<< (32 - 8 - n))) (n + 8) dd (pend ++ msb_bits 8 o)) as (b' & n' & p' & buf' & E & P' & Hn' & El & D & B & S).
    + by apply (on_top_put b n pend 8 o); [|lia|lia|].
    + lia.
    + done.
    + exists b', n', p', buf'. split.
      { rewrite <- E. f_equal. replace (32 - (n + 8)) with (32 - 8 - n) by lia. done. }
      split; [done|]. split; [done|]. split; [by rewrite El, <- app_assoc|]. split; [done|]. split; [done|].
      cbn [length]. lia.
  - exists b, n, pend, (o :: buf). split; [done|]. split; [done|]. split; [done|]. split; [done|]. split; [right; lia|]. done.
Qed.

Lemma length_words_bits_cons w v ws : 1 <= w -> zlen (words_bits ((w, v) :: ws)) = w + zlen (words_bits ws).
Proof. intros Hw. unfold words_bits. cbn [flat_map fst snd]. rewrite length_app, length_msb_bits. lia. Qed.

(** The beginning of a list of bits. *)
Lemma prefix_split {A} (a b c d : list A) : a ++ b = c ++ d -> (length c <= length a)%nat -> exists e, a = c ++ e /\ e ++ b = d.
Proof.
  intros E Hl. exists (drop (length c) a). assert (take (length c) a = c) as Et.
  { rewrite <- (take_app_le a b) by done. by rewrite E, take_app_length. }
  split; [by rewrite <- Et at 1; rewrite take_drop|]. rewrite <- (drop_app_le a b) by done. by rewrite E, drop_app_length.
Qed.

(** A call takes the words that are whole, and keeps the bits of the next one. *)
Lemma decode_loop_words n2 n7 dde pad fut fuel : forall b n dd pend buf ws, on_top b n pend -> n <= 31 -> bytes buf ->
  Forall word_ok ws -> pend ++ line_bits buf ++ fut = words_bits ws ++ pad -> feed n2 n7 ws dd = Some dde -> zlen pad < 8 ->
  8 <= code_size dde -> n + 8 * zlen buf < Z.of_nat fuel ->
  exists ws1 ws2 dd1 b' n' pend', ws = ws1 ++ ws2 /\
    decode_loop fuel n2 n7 (with_bits b n dd) (code_size dd) buf = Some (0, with_bits b' n' dd1) /\
    feed n2 n7 ws1 dd = Some dd1 /\ on_top b' n' pend' /\ n' <= 31 /\ pend' ++ fut = words_bits ws2 ++ pad /\ n' < code_size dd1.
Proof.
  induction fuel as [|fuel IH]; intros b n dd pend buf ws P Hn Hb Hw El Hf Hp Hc Hm.
  { pose proof (top_length _ _ _ P). lia. }
  cbn [decode_loop]. destruct (fill_spec buf b n dd pend P Hn Hb) as (b1 & n1 & p1 & buf1 & -> & P1 & Hn1 & E1 & D1 & B1 & S1).
  change (input_bit_count (with_bits b1 n1 dd)) with n1. change (input_bit_buffer (with_bits b1 n1 dd)) with b1.
  rewrite app_assoc, <- E1, <- app_assoc in El. pose proof (top_length _ _ _ P1) as Ln1.
  destruct (Z.ltb_spec n1 (code_size dd)) as [Hlt|Hge].
  { exists [], ws, dd, b1, n1, p1. split; [done|]. split; [done|]. split; [done|]. split; [done|]. split; [done|].
    destruct D1 as [-> |D1]; [by split|exfalso]. destruct ws as [|[w v] ws].
    - cbn [feed] in Hf. injection Hf as ->. apply (f_equal length) in El. cbn [words_bits flat_map app] in El.
      rewrite !length_app in El. lia.
    - cbn [feed] in Hf. destruct (Z.eqb_spec w (code_size dd)) as [->|]; [|done]. apply Forall_cons_1 in Hw as [[Hw _] _].
      cbn [fst] in Hw. lia. }
  destruct ws as [|[w v] ws].
  { cbn [feed] in Hf. injection Hf as ->. apply (f_equal length) in El. cbn [words_bits flat_map app] in El.
    rewrite !length_app in El. lia. }
  apply Forall_cons_1 in Hw as [[Hw1 Hw2] Hws]. cbn [fst snd] in Hw1, Hw2. cbn [feed] in Hf.
  destruct (Z.eqb_spec w (code_size dd)) as [Ew|]; [|done]. rewrite <- Ew in *.
  unfold words_bits in El. cbn [flat_map fst snd] in El. rewrite <- app_assoc in El.
  destruct (prefix_split _ _ _ _ El) as (p2 & -> & El2); [rewrite length_msb_bits; lia|].
  rewrite (on_top_get b1 n1 w v p2) by (done || lia).
  set (b2 := u32 (b1 .<< w)).
  change (with_bits b1 n1 dd <| input_bit_count := n1 - w |> <| input_bit_buffer := b2 |>) with (with_bits b2 (n1 - w) dd).
  rewrite decode_code_bits. destruct (decode_code n2 n7 dd w v) as [[[w'|r] dd2]|] eqn:Ed; [|done..].
  cbn [carry mbind option_bind]. destruct (Z.eqb_spec w' (code_size dd2)) as [->|]; [|done].
  assert (on_top b2 (n1 - w) p2) as P2.
  { pose proof (on_top_drop b1 n1 (msb_bits (Z.to_nat w) v) p2 P1) as D. rewrite length_msb_bits in D.
    by replace (Z.of_nat (Z.to_nat w)) with w in D by lia. }
  destruct (IH b2 (n1 - w) dd2 p2 buf1 ws P2) as (ws1 & ws2 & dd1 & b' & n' & p' & -> & E & F & P' & Hn' & Ep); try done; [lia|lia|].
  exists ((w, v) :: ws1), ws2, dd1, b', n', p'. split; [done|]. split; [exact E|]. split; [|done].
  cbn [feed]. by rewrite <- Ew, Z.eqb_refl, Ed, Z.eqb_refl.
Qed.

(** ** Strings *)

Section decompressor.
Context (k n7 : Z).

Abbreviation n2 := (2 ^ k).

Hypothesis Hk : 9 <= k <= 12.
Hypothesis L : limits n2 n7.

Definition own_root (c : Z) : Z := if c <? V42BIS_N5 then c else no_parent.

(** What the handler has been given, and what is ready for it. *)
Definition got (dd : v42bis_decompress_state_t) : list Z := concat (data dd) ++ dec_output dd.

Record dec_room (dd : v42bis_decompress_state_t) : Prop := {
  room_output : dec_output dd = [] \/ zlen (dec_output dd) < dec_max_len dd - n7;
  room_max : dec_max_len dd <= BUF_LEN;
}.

Definition with_output (dat : list (list Z)) (out : list Z) (dd : v42bis_decompress_state_t) : v42bis_decompress_state_t :=
  dd <| data := dat |> <| dec_output := out |>.

Lemma put_output_spec dd l : dec_room dd -> zlen l <= n7 ->
  exists dat out, put_output n7 dd l = Some (with_output dat out dd) /\ dec_room (with_output dat out dd) /\
    got (with_output dat out dd) = got dd ++ l.
Proof.
  intros [R M] Hl. pose proof (limits_range n2 n7 L) as Rg. unfold put_output, BUF_LEN in *. rewrite length_app.
  rewrite (proj2 (Z.ltb_ge _ _)) by (destruct R as [-> |R]; cbn [length] in *; lia).
  set (out := dec_output dd ++ l). change (dec_output (dd <| dec_output := out |>)) with out.
  change (dec_max_len (dd <| dec_output := out |>)) with (dec_max_len dd).
  change (data (dd <| dec_output := out |>)) with (data dd).
  destruct (Z.leb_spec (dec_max_len dd - n7) (zlen out)).
  - exists (data dd ++ [out]), []. split; [done|]. split; [split; [by left|exact M]|].
    unfold got. change (concat (data dd ++ [out]) ++ [] = (concat (data dd) ++ dec_output dd) ++ l). unfold out.
    rewrite concat_app, app_nil_r. cbn [concat]. by rewrite app_nil_r, app_assoc.
  - exists (data dd), out. split; [by destruct dd|]. split; [split; [by right|exact M]|].
    unfold got. change (concat (data dd) ++ out = (concat (data dd) ++ dec_output dd) ++ l). unfold out. by rewrite app_assoc.
Qed.

Lemma hand_over_got dd : got (hand_over dd) = got dd /\ (dec_room dd -> dec_room (hand_over dd)).
Proof.
  unfold hand_over. destruct (dec_output dd) as [|x l] eqn:E; [done|]. split.
  - unfold got. rewrite E. change (concat (data dd ++ [x :: l]) ++ [] = concat (data dd) ++ x :: l).
    rewrite concat_app, app_nil_r. cbn [concat]. by rewrite app_nil_r.
  - intros [_ M]. split; [by left|exact M].
Qed.

Lemma trace_back_spec d T c s : represents n2 own_root d T -> spelled n2 n7 T -> spells T c s ->
  forall fuel acc, (length s <= fuel)%nat -> zlen s + zlen acc <= V42BIS_MAX_STRING_SIZE -> trace_back fuel d c acc = Some (s ++ acc).
Proof.
  intros R HT. pose proof (limits_range n2 n7 L) as Rg.
  induction 1 as [c Hr|c p o s Hc Hr H IH]; intros fuel acc Hf Hl; rewrite ?length_app in *; cbn [length] in *;
    (destruct fuel as [|fuel]; [lia|]); cbn [trace_back]; rewrite (proj2 (Z.leb_gt _ _)) by lia.
  - unfold is_root in Hr. change V42BIS_N5 with 259 in *. change V42BIS_N6 with 3 in *.
    rewrite (proj2 (Z.leb_gt _ _)) by lia. cbn [app]. do 2 f_equal. apply wrap_id. lia.
  - destruct (HT c p o Hc) as (He & _). pose proof He as He'. unfold entry in He'. change V42BIS_N5 with 259 in *.
    rewrite (proj2 (Z.leb_le _ _)) by lia. destruct (represents_at n2 n7 L _ _ T c R ltac:(lia)) as (e & Ee & _). rewrite Ee.
    cbn [mbind option_bind]. pose proof (rep_link _ _ _ _ R c e He Ee) as Hl'. rewrite Hc in Hl'. destruct Hl' as [-> ->].
    rewrite IH by (cbn [length]; lia). by rewrite <- app_assoc.
Qed.

Lemma code_known d T c s : represents n2 own_root d T -> spelled n2 n7 T -> spells T c s ->
  exists e, d !! c = Some e /\ parent_code e <> no_parent.
Proof.
  intros R HT Hs. pose proof (limits_range n2 n7 L) as Rg. pose proof (code_range n2 n7 L T c s HT Hs) as Hc.
  change V42BIS_N6 with 3 in Hc. destruct (represents_at n2 n7 L _ _ T c R ltac:(lia)) as (e & Ee & _). exists e. split; [done|].
  destruct (spells_code n2 n7 T c s HT Hs) as [Hr|[He (p & o & Ht)]].
  - unfold is_root in Hr. rewrite (rep_root _ _ _ _ R c e) by (done || (left; lia)). unfold own_root, no_parent.
    rewrite (proj2 (Z.ltb_lt _ _)) by lia. change V42BIS_N5 with 259 in *. lia.
  - destruct (linked_parent n2 n7 L _ d T c e R HT He Ee) as [[E _]|(p' & o' & ep & E1 & E2 & _ & _ & _ & E3 & _)]; [congruence|].
    by rewrite E2.
Qed.
End decompressor.
