(* ===== verification/V42bisLink.v ===== *)
(** * From the compressor to the decompressor

    The decompressor is one string behind: its dictionary, with the addition that
    the next string will bring, is that of the compressor. *)
From stdpp Require Import gmap.
From S2P Require Import Prelude HdlcFrame V42bis V42bisDict V42bisNodes V42bisTx V42bisRx.

Section link.
Context (k n7 : Z).

Abbreviation n2 := (2 ^ k).

Hypothesis Hk : 9 <= k <= 12.
Hypothesis L : limits n2 n7.

Abbreviation feed := (feed n2 n7).

(** ** The decompressor and its dictionary *)

Record dec_ok (T : table) (dd : v42bis_decompress_state_t) : Prop := {
  dec_ok_dict : represents n2 own_root (dec_dict dd) T;
  dec_ok_table : table_ok n2 n7 T (dec_c1 dd);
  dec_ok_room : dec_room n7 dd;
}.

(** Whether the next string, which begins with [o], makes the last one an entry. *)
Definition will_add (dd : v42bis_decompress_state_t) (o : Z) : bool :=
  (last_length dd <? n7) && (negb (last_old_code dd =? old_code dd) || negb (last_extra_octet dd =? o)).

(** What the words of strings leave alone. *)
Definition same_coding (a b : v42bis_decompress_state_t) : Prop :=
  dec_transparent b = dec_transparent a /\ dec_c2 b = dec_c2 a /\ dec_c3 b = dec_c3 a /\
  dec_escape_code b = dec_escape_code a /\ escaped b = escaped a.

(** The string after the last one has come: the table is [T'] now. *)
Definition dec_next (T : table) (dd : v42bis_decompress_state_t) (o : Z) (c1 : Z) (T' : table) : Prop :=
  if will_add dd o then grown n2 n7 T (dec_c1 dd) (old_code dd) o c1 T' else T' = T /\ c1 = dec_c1 dd.

Lemma dec_update_spec T dd o so c1 T' : dec_ok T dd -> dec_octet dd = o -> is_byte o -> spells T (old_code dd) so -> zlen so < n7 \/ n7 <= last_length dd ->
  dec_next T dd o c1 T' ->
  exists dd', dec_update n2 n7 dd o = Some dd' /\ dec_ok T' dd' /\ dec_c1 dd' = c1 /\
    exists c d, dd' = dd <| dec_c1 := c |> <| dec_dict := d |>.
Proof.
  intros [R Tk Rm] Eo Ho Hs Hl N. unfold dec_next in N. unfold dec_update. change (last_length dd <? n7) with (last_length dd <? n7).
  fold (will_add dd o). destruct (will_add dd o) eqn:Ew.
  - apply andb_true_iff in Ew as [Hlt%Z.ltb_lt _]. destruct Hl as [Hl|]; [|lia]. unfold dec_add. rewrite Eo.
    destruct (dec_add_dict n2 n7 L own_root (dec_dict dd) T (dec_c1 dd) (old_code dd) o so c1 T' R Tk Hs Hl Ho
                (grown_grow _ _ _ _ _ _ _ _ N)) as (d2 & E & R2).
    destruct (modify (dec_dict dd) (old_code dd) more_leaves) as [da|]; cbn [mbind option_bind] in *; [|done].
    destruct (modify da (dec_c1 dd) _) as [db|]; cbn [mbind option_bind] in *; [|done]. rewrite E. cbn [mbind option_bind].
    eexists. split; [reflexivity|]. split; [|split; [done|by exists c1, d2]].
    split; [exact R2|exact (grown_ok _ _ _ _ _ _ _ _ N)|]. by destruct Rm.
  - destruct N as [-> ->]. exists dd. split; [done|]. split; [done|]. split; [done|]. exists (dec_c1 dd), (dec_dict dd). by destruct dd.
Qed.

Lemma with_output_ok T dat out dd : dec_ok T dd -> dec_room n7 (with_output dat out dd) -> dec_ok T (with_output dat out dd).
Proof. intros [A B _] R. by split. Qed.

Record decoded_to (T' : table) (dd : v42bis_decompress_state_t) (code : Z) (s : list Z) (c1 : Z) (dd' : v42bis_decompress_state_t) : Prop := {
  to_ok : dec_ok T' dd';
  to_c1 : dec_c1 dd' = c1;
  to_got : got dd' = got dd ++ s;
  to_old : old_code dd' = code;
  to_first : dec_first dd' = false;
  to_coding : same_coding dd dd';
}.

(** The word of a string that the dictionary has. *)
Lemma decode_string_spec T dd w code s so c1 T' : dec_ok T dd -> dec_transparent dd = false -> dec_first dd = false ->
  spells T code s -> zlen s <= n7 -> bytes s -> spells T (old_code dd) so -> zlen so < n7 \/ n7 <= last_length dd ->
  dec_next T dd (aget s 0) c1 T' ->
  exists dd', decode_code n2 n7 dd w code = Some (Continue w, dd') /\ decoded_to T' dd code s c1 dd' /\
    last_old_code dd' = old_code dd /\ last_extra_octet dd' = aget s 0 /\ last_length dd' = zlen s.
Proof.
  intros D Ht Hf Hs Hl Hb Hso Hlo N. pose proof (limits_range n2 n7 L) as Rg. pose proof D as [R Tk Rm].
  pose proof (code_range n2 n7 L T code s (table_spelled _ _ _ _ Tk) Hs) as Hc. change V42BIS_N6 with 3 in Hc.
  unfold decode_code. rewrite Ht, Hf. change V42BIS_N6 with 3. rewrite (proj2 (Z.ltb_ge _ _)) by lia. unfold decode_string.
  destruct (code_known k n7 Hk L (dec_dict dd) T code s R (table_spelled _ _ _ _ Tk) Hs) as (e & -> & Hp). cbn [mbind option_bind].
  rewrite (proj2 (Z.eqb_neq _ _)) by done.
  rewrite (trace_back_spec k n7 Hk L (dec_dict dd) T code s R (table_spelled _ _ _ _ Tk) Hs)
    by (unfold V42BIS_MAX_STRING_SIZE; cbn [length]; lia). rewrite app_nil_r. cbn [mbind option_bind].
  set (d0 := dd <| dec_octet := aget s 0 |>).
  assert (dec_room n7 d0) as Rm0 by (by destruct Rm).
  destruct (put_output_spec k n7 Hk L d0 s Rm0 Hl) as (dat & out & -> & Rm1 & G1). cbn [mbind option_bind].
  set (d1 := with_output dat out d0) in *. assert (dec_ok T d1) as D1 by (by split).
  destruct (dec_update_spec T d1 (aget s 0) so c1 T' D1 eq_refl (bytes_aget s 0 Hb) Hso Hlo N) as (d2 & -> & D2 & E2 & c & d & Ed2).
  cbn [mbind option_bind]. eexists. split; [reflexivity|].
  assert (last_old_code d2 = last_old_code dd /\ old_code d2 = old_code dd /\ same_coding dd d2 /\ dec_first d2 = false /\ got d2 = got dd ++ s)
    as (F1 & F2 & F3 & F4 & F5) by (rewrite Ed2; by split_and!; [..|exact G1]).
  clear Ed2. split; [|split; [exact F2|done]].
  split; [by destruct D2 as [? ? []]; split|exact E2|exact F5|done|exact F4|exact F3].
Qed.

Lemma decode_first_spec dd w code s : dec_ok ∅ dd -> dec_transparent dd = false -> dec_first dd = true -> dec_output dd = [] ->
  spells ∅ code s ->
  exists dd', decode_code n2 n7 dd w code = Some (Continue w, dd') /\ decoded_to ∅ dd code s (dec_c1 dd) dd' /\
    last_old_code dd' = last_old_code dd /\ last_extra_octet dd' = last_extra_octet dd /\ last_length dd' = last_length dd.
Proof.
  intros D Ht Hf Ho Hs. pose proof (limits_range n2 n7 L) as Rg. inversion Hs as [? Hr|]; subst; [|done]. unfold is_root in Hr.
  change V42BIS_N5 with 259 in Hr. change V42BIS_N6 with 3 in *. unfold decode_code. rewrite Ht, Hf.
  change V42BIS_N6 with 3. rewrite (proj2 (Z.ltb_ge _ _)) by lia. unfold decode_first. change V42BIS_N6 with 3.
  set (d0 := dd <| dec_first := false |> <| dec_octet := code - 3 |> <| dec_output := [] |>).
  assert (dec_room n7 d0) as Rm0 by (destruct D as [_ _ [_ M]]; split; [by left|exact M]).
  change (dec_octet d0) with (code - 3).
  destruct (put_output_spec k n7 Hk L d0 [u8 (code - 3)] Rm0 ltac:(cbn [length]; lia)) as (dat & out & -> & Rm1 & G1).
  cbn [mbind option_bind]. eexists. split; [reflexivity|]. split; [|done]. split; try done.
  - destruct D as [R Tk _]. split; [exact R|exact Tk|]. by destruct Rm1.
  - transitivity (got d0 ++ [u8 (code - 3)]); [exact G1|].
    assert (got d0 = got dd) as -> by (unfold got; rewrite Ho; done). do 2 f_equal. apply wrap_id. lia.
Qed.

(** ** In step, in compressed mode *)

Definition codes_below (T : table) (c3 : Z) : Prop := forall c x, T !! c = Some x -> c < c3.

(** No string has been sent yet. *)
Record first_phase (ss : v42bis_compress_state_t) (dd : v42bis_decompress_state_t) (Te Td : table) (s : list Z) : Prop := {
  first_dec : dec_first dd = true /\ dec_output dd = [] /\ last_old_code dd = no_code /\ last_length dd = 0;
  first_tables : Te = ∅ /\ Td = ∅ /\ comp_c1 ss = dec_c1 dd;
  first_string : string_length ss = 0;
  first_latest : latest_code ss = no_code;
}.

(** The table of the compressor is that of the decompressor after the next string. *)
Record later_phase (ss : v42bis_compress_state_t) (dd : v42bis_decompress_state_t) (Te Td : table) (s : list Z) : Prop := {
  later_dec : dec_first dd = false;
  later_string : string_length ss = zlen s;
  later_old : exists so, spells Td (old_code dd) so /\ (last_length dd = zlen so \/ last_length dd = 0 /\ zlen so = 1);
  later_next : dec_next Td dd (aget s 0) (comp_c1 ss) Te;
  later_latest : latest_code ss = if will_add dd (aget s 0) then dec_c1 dd else no_code;
  later_known : will_add dd (aget s 0) = false -> last_length dd < n7 -> exists c, Te !! c = Some (old_code dd, aget s 0);
}.

Record in_step (x : list Z) (ss : v42bis_compress_state_t) (dd : v42bis_decompress_state_t) (Te Td : table) (s : list Z) : Prop := {
  step_comp : comp_ok k n7 Te ss;
  step_maps : mapped n2 (comp_dict ss) Te /\ unique Te;
  step_below : codes_below Te (comp_c3 ss);
  step_match : matching Te ss s;
  step_dec : dec_ok Td dd;
  step_spells : spells Td (string_code ss) s;
  step_modes : comp_transparent ss = false /\ dec_transparent dd = false /\ dec_c2 dd = comp_c2 ss /\ dec_c3 dd = comp_c3 ss /\
    dec_escape_code dd = comp_escape_code ss /\ escaped dd = false;
  step_got : got dd ++ s = x;
  step_phase : first_phase ss dd Te Td s \/ later_phase ss dd Te Td s;
}.

Lemma spells_bytes T c s : spelled n2 n7 T -> spells T c s -> bytes s.
Proof.
  intros HT. induction 1 as [c Hc|c p o s Hc Hr H IH].
  - unfold is_root in Hc. change V42BIS_N5 with 259 in Hc. change V42BIS_N6 with 3 in *. constructor; [unfold is_byte; lia|constructor].
  - apply Forall_app_2; [done|]. constructor; [|constructor]. by apply (HT c p o).
Qed.

Lemma spells_short T c s : spelled n2 n7 T -> spells T c s -> zlen s <= n7.
Proof.
  intros HT H. pose proof (limits_range n2 n7 L) as Rg. destruct (spells_code n2 n7 T c s HT H) as [Hr|(_ & p & o & Hc)].
  - inversion H; subst; [cbn [length]; lia|done].
  - destruct (HT c p o Hc) as (_ & _ & s' & Hs' & Hl). by rewrite (spells_det T c s s').
Qed.

Lemma aget_head (s : list Z) o : (0 < length s)%nat -> aget (s ++ [o]) 0 = aget s 0.
Proof. by destruct s; [cbn [length]; lia|]. Qed.

(** The octet goes on with the string. *)
Lemma further_step x ss dd Te Td s code o : in_step x ss dd Te Td s -> Te !! code = Some (string_code ss, o) ->
  code < comp_c3 ss -> code <> latest_code ss -> in_step (x ++ [o]) (further ss code) dd Te Td (s ++ [o]).
Proof.
  intros [A B C D E F G H P] Ht Hlt Hne. destruct (further_ok k n7 Hk Te ss s code o A D Ht Hlt) as [A' D'].
  pose proof (spells_nonempty _ _ _ F) as Hn.
  assert (Td !! code = Some (string_code ss, o)) as Htd.
  { destruct P as [[_ (E1 & _ & _) _ _]|[_ _ _ N La _]]; [by subst Te|]. unfold dec_next in N.
    destruct (will_add dd (aget s 0)); [|destruct N as [<- _]; done].
    rewrite <- (grown_same _ _ _ _ _ _ _ _ N); [done|congruence|]. intros ->.
    pose proof (table_free _ _ _ _ (grown_ok _ _ _ _ _ _ _ _ N)) as Hfr. by rewrite Hfr in Ht. }
  destruct (table_spelled _ _ _ _ (ok_table _ _ _ _ A) _ _ _ Ht) as (He & _).
  split; [exact A'|exact B|exact C|exact D'|exact E| |exact G|by rewrite app_assoc, H|].
  - econstructor; [exact Htd|by apply (entry_not_root n2)|exact F].
  - destruct P as [[_ (E1 & _ & _) _ _]|[P1 P2 P3 P4 P5 P6]]; [by subst Te|right].
    split; rewrite ?(aget_head s o Hn); try done. change (string_length ss + 1 = zlen (s ++ [o])). rewrite length_app. cbn [length]. lia.
Qed.

(** ** The end of a string *)

Lemma feed_stepups c dd : dec_transparent dd = false -> dec_c3 dd = 2 ^ dec_c2 dd -> 9 <= dec_c2 dd <= c -> c <= k ->
  feed (stepups (dec_c2 dd) c) dd = Some (dd <| dec_c2 := c |> <| dec_c3 := 2 ^ c |>).
Proof.
  intros Ht E3 Hc Hck. remember (Z.to_nat (c - dec_c2 dd)) as m eqn:Em. revert dd Ht E3 Hc Em.
  induction m as [|m IH]; intros dd Ht E3 Hc Em; unfold stepups.
  - assert (dec_c2 dd = c) as E by lia. rewrite E, Z.sub_diag. cbn [map seqZ seq Z.to_nat]. rewrite <- E, <- E3. cbn. by destruct dd.
  - rewrite seqZ_cons by lia. cbn [map V42bisRx.feed]. unfold code_size at 1. rewrite Ht, Z.eqb_refl. unfold decode_code. rewrite Ht.
    change (V42BIS_STEPUP <? V42BIS_N6) with true. unfold decode_control.
    change (V42BIS_STEPUP =? V42BIS_ETM) with false. change (V42BIS_STEPUP =? V42BIS_FLUSH) with false. cbn match.
    assert (2 ^ dec_c2 dd < n2) by (apply Z.pow_lt_mono_r; lia). rewrite E3, (proj2 (Z.leb_gt _ _)) by done.
    set (d1 := dd <| dec_c2 := dec_c2 dd + 1 |>). change (dec_c2 d1) with (dec_c2 dd + 1). change (dec_c3 d1) with (dec_c3 dd).
    assert (u32 (dec_c3 dd .<< 1) = 2 ^ (dec_c2 dd + 1)) as E.
    { rewrite E3, Z.shiftl_mul_pow2, <- Z.pow_add_r by lia. apply wrap_id. split; [lia|]. apply Z.pow_lt_mono_r; lia. }
    rewrite E. set (d2 := d1 <| dec_c3 := 2 ^ (dec_c2 dd + 1) |>).
    assert (code_size d2 = dec_c2 dd + 1) as -> by (unfold code_size; change (dec_transparent d2) with (dec_transparent dd); by rewrite Ht).
    rewrite Z.eqb_refl. specialize (IH d2). change (dec_c2 d2) with (dec_c2 dd + 1) in IH. change (dec_c3 d2) with (2 ^ (dec_c2 dd + 1)) in IH.
    unfold stepups in IH. replace (Z.pred (c - dec_c2 dd)) with (c - (dec_c2 dd + 1)) by lia.
    change (Z.succ (dec_c2 dd)) with (dec_c2 dd + 1). rewrite IH by (done || lia). done.
Qed.

(** After the word of the string the decompressor has the table the compressor
    had, and they agree about the next entry. *)
Record caught_up (x : list Z) (ss : v42bis_compress_state_t) (Te : table) (s : list Z) (dd : v42bis_decompress_state_t) : Prop := {
  up_ok : dec_ok Te dd;
  up_c1 : dec_c1 dd = comp_c1 ss;
  up_got : got dd = x;
  up_old : old_code dd = string_code ss;
  up_first : dec_first dd = false;
  up_length : last_length dd = string_length ss;
  up_add : forall o code, is_byte o -> match_octet n2 ss o = Some code -> ~ (code < comp_c3 ss /\ code <> latest_code ss) ->
    will_add dd o = adds n7 ss code /\
    (adds n7 ss code = true -> forall c, Te !! c <> Some (string_code ss, o)) /\
    (adds n7 ss code = false -> string_length ss < n7 -> exists c, Te !! c = Some (string_code ss, o));
}.

(** Where the match ends the entry is either not there, or it is the last one. *)
Lemma match_ends x ss dd Te Td s o code : in_step x ss dd Te Td s -> is_byte o -> match_octet n2 ss o = Some code ->
  ~ (code < comp_c3 ss /\ code <> latest_code ss) ->
  code <= n2 /\ (code = latest_code ss -> code < comp_c3 ss -> Te !! code = Some (string_code ss, o)) /\
  (code <> latest_code ss -> forall c, Te !! c <> Some (string_code ss, o)).
Proof.
  intros [A [B _] C D _ _ _ _ _] Ho Em Hn. destruct (match_octet_spec k n7 Hk L Te ss s o A D Ho) as (code' & E & Bd & F & G).
  rewrite Em in E. injection E as <-. split; [lia|]. split; [intros _; exact F|]. intros Hne c Hc. apply Hn. split; [|done].
  exact (G B c Hc (C c _ Hc)).
Qed.

Lemma no_code_value : no_code = 4294967295.
Proof. done. Qed.

(** The two ways of seeing that the entry is there already. *)
Lemma first_agree x ss dd Te Td s o code : in_step x ss dd Te Td s -> first_phase ss dd Te Td s -> is_byte o ->
  match_octet n2 ss o = Some code -> ~ (code < comp_c3 ss /\ code <> latest_code ss) ->
  adds n7 ss code = true /\ forall c, Te !! c <> Some (string_code ss, o).
Proof.
  intros S [_ (-> & _ & _) F3 F4] Ho Em Hn. pose proof (limits_range n2 n7 L) as Rg.
  destruct (match_ends x ss dd ∅ Td s o code S Ho Em Hn) as (Hc & _ & _). split; [|done]. unfold adds. rewrite F3, F4, no_code_value.
  rewrite (proj2 (Z.eqb_neq _ _)) by lia. by rewrite (proj2 (Z.ltb_lt _ _)) by lia.
Qed.

Lemma later_agree x ss dd Te Td s o code : in_step x ss dd Te Td s -> later_phase ss dd Te Td s -> is_byte o ->
  match_octet n2 ss o = Some code -> ~ (code < comp_c3 ss /\ code <> latest_code ss) -> string_length ss < n7 ->
  (code = latest_code ss -> old_code dd = string_code ss /\ aget s 0 = o /\ Te !! code = Some (string_code ss, o)) /\
  (code <> latest_code ss -> ~ (old_code dd = string_code ss /\ aget s 0 = o)).
Proof.
  intros S [P1 P2 (so & P3 & P3') P4 P5 P6] Ho Em Hn Hl. pose proof (limits_range n2 n7 L) as Rg.
  destruct (match_ends x ss dd Te Td s o code S Ho Em Hn) as (Hc & M1 & M2). unfold dec_next in P4. split.
  - intros E. rewrite P5 in E. destruct (will_add dd (aget s 0)); [|rewrite no_code_value in E; lia].
    pose proof (grown_new _ _ _ _ _ _ _ _ P4) as G. rewrite <- E in G.
    assert (code < comp_c3 ss) as Hlt by exact (step_below _ _ _ _ _ _ S code _ G). rewrite <- P5 in E. specialize (M1 E Hlt).
    rewrite M1 in G. by simplify_eq.
  - intros Hne [E1 E2]. specialize (M2 Hne). destruct (will_add dd (aget s 0)) eqn:Ew.
    + apply (M2 (dec_c1 dd)). rewrite <- E1, <- E2. apply (grown_new _ _ _ _ _ _ _ _ P4).
    + destruct P6 as [c Hcc]; [done| |by apply (M2 c); rewrite <- E1, <- E2].
      rewrite E1 in P3. rewrite (spells_det _ _ _ _ P3 (step_spells _ _ _ _ _ _ S)) in P3'.
      pose proof (spells_nonempty _ _ _ P3). lia.
Qed.

Lemma later_add x ss dd Te Td s o code dd' : in_step x ss dd Te Td s -> later_phase ss dd Te Td s -> is_byte o ->
  match_octet n2 ss o = Some code -> ~ (code < comp_c3 ss /\ code <> latest_code ss) ->
  last_old_code dd' = old_code dd -> last_extra_octet dd' = aget s 0 -> old_code dd' = string_code ss -> last_length dd' = string_length ss ->
  will_add dd' o = adds n7 ss code /\ (adds n7 ss code = true -> forall c, Te !! c <> Some (string_code ss, o)) /\
  (adds n7 ss code = false -> string_length ss < n7 -> exists c, Te !! c = Some (string_code ss, o)).
Proof.
  intros S P Ho Em Hn E1 E2 E3 E4. unfold will_add, adds. rewrite E1, E2, E3, E4.
  destruct (Z.ltb_spec (string_length ss) n7) as [Hl|Hl]; [|rewrite andb_false_r; cbn [andb]; split; [done|split; [done|lia]]].
  destruct (later_agree x ss dd Te Td s o code S P Ho Em Hn Hl) as [A1 A2]. rewrite andb_true_r. cbn [andb].
  destruct (Z.eqb_spec code (latest_code ss)) as [E|E]; cbn [negb].
  - destruct (A1 E) as (-> & -> & F). rewrite !Z.eqb_refl. split; [done|]. split; [done|]. intros _ _. by exists code.
  - destruct (match_ends x ss dd Te Td s o code S Ho Em Hn) as (_ & _ & M2). split; [|split; [intros _; by apply M2|done]].
    specialize (A2 E). destruct (Z.eqb_spec (old_code dd) (string_code ss)), (Z.eqb_spec (aget s 0) o); cbn [negb orb]; try done.
    by destruct A2.
Qed.

Definition resize (c : Z) (dd : v42bis_decompress_state_t) : v42bis_decompress_state_t := dd <| dec_c2 := c |> <| dec_c3 := 2 ^ c |>.

Lemma string_caught_up x ss dd Te Td s c : in_step x ss dd Te Td s ->
  exists dd', decode_code n2 n7 (resize c dd) c (string_code ss) = Some (Continue c, dd') /\ caught_up x ss Te s dd' /\
    same_coding (resize c dd) dd'.
Proof.
  intros S. pose proof S as [A B C (Ds & Dc & Dl) E F (G1 & G2 & _) H P].
  assert (dec_ok Td (resize c dd)) as Er by (destruct E as [? ? []]; by split).
  pose proof (limits_range n2 n7 L) as Rg.
  pose proof (table_spelled _ _ _ _ (dec_ok_table _ _ E)) as Sd.
  destruct P as [P|P]; pose proof P as P'.
  - destruct P as [(P1 & P2 & P3 & P4) (P5 & P6 & P7) P8 P9]. subst Te Td.
    destruct (decode_first_spec (resize c dd) c (string_code ss) s Er G2 P1 P2 F) as (dd' & E1 & [D1 D2 D3 D4 D5 D6] & L1 & L2 & L3).
    exists dd'. split; [done|]. split; [|done]. split; try done; [by rewrite D2|by rewrite <- H|rewrite L3, P8; exact P4|].
    intros o code Ho Em Hn. destruct (first_agree x ss dd ∅ ∅ s o code S P' Ho Em Hn) as [-> K]. split; [|split; [done|done]].
    unfold will_add. rewrite L1, L3, D4. change (last_length (resize c dd)) with (last_length dd).
    change (last_old_code (resize c dd)) with (last_old_code dd). rewrite P3, P4. rewrite (proj2 (Z.ltb_lt _ _)) by lia.
    pose proof (code_range n2 n7 L ∅ _ s Sd F) as Hc. rewrite no_code_value, (proj2 (Z.eqb_neq _ _)) by lia. done.
  - destruct P as [P1 P2 (so & P3 & P3') P4 P5 P6].
    destruct (decode_string_spec Td (resize c dd) c (string_code ss) s so (comp_c1 ss) Te Er G2 P1 F) as (dd' & E1 & [D1 D2 D3 D4 D5 D6] & L1 & L2 & L3).
    + by apply (spells_short Td (string_code ss)).
    + by apply (spells_bytes Td (string_code ss)).
    + exact P3.
    + change (last_length (resize c dd)) with (last_length dd). lia.
    + exact P4.
    + exists dd'. split; [done|]. split; [|done]. split; try done; [by rewrite <- H|by rewrite L3|].
      intros o code Ho Em Hn. apply (later_add x ss dd Te Td s o code dd'); try done. by rewrite L3.
Qed.

Lemma root_spells T o : is_byte o -> spells T (o + V42BIS_N6) [o].
Proof.
  intros Ho. unfold is_byte in Ho. replace [o] with [o + V42BIS_N6 - V42BIS_N6] by (f_equal; lia). constructor.
  unfold is_root. change V42BIS_N6 with 3. change V42BIS_N5 with 259. lia.
Qed.

Lemma ended_test_mode T ss code o T' ws t ss' : string_ended k n7 T ss code o T' ws t ss' -> comp_transparent t = comp_transparent ss.
Proof.
  intros E. destruct (ended_test _ _ _ _ _ _ _ _ _ _ E) as (s2 & -> & M).
  destruct (tested_rest _ _ (compressibility_tested s2)) as (_ & -> & _). apply M.
Qed.

Lemma ended_below x ss dd Te Td s o code T' ws t ss' : in_step x ss dd Te Td s -> string_ended k n7 Te ss code o T' ws t ss' ->
  codes_below T' (comp_c3 ss').
Proof.
  intros S E c y Hc. destruct (ended_words _ _ _ _ _ _ _ _ _ _ E) as (c2 & _ & B & E2 & _ & H1).
  destruct (step_modes _ _ _ _ _ _ S) as (G1 & _). specialize (H1 G1).
  assert (comp_c3 ss <= comp_c3 ss') as Hle.
  { destruct (ok_size _ _ _ _ (step_comp _ _ _ _ _ _ S)) as [B1 ->], (ok_size _ _ _ _ (ended_ok _ _ _ _ _ _ _ _ _ _ E)) as [B2 ->].
    apply Z.pow_le_mono_r; lia. }
  pose proof (ended_updated _ _ _ _ _ _ _ _ _ _ E) as U. unfold updated in U. pose proof (step_below _ _ _ _ _ _ S) as Bl.
  destruct (adds n7 ss code); [destruct U as [U _]|destruct U as [-> _]; specialize (Bl c y Hc); lia].
  destruct (Z.eq_dec c (comp_c1 ss)) as [->|Hne]; [done|].
  assert (c <> comp_c1 ss') as Hne2.
  { intros ->. pose proof (table_free _ _ _ _ (grown_ok _ _ _ _ _ _ _ _ U)) as Hf. by rewrite Hf in Hc. }
  rewrite (grown_same _ _ _ _ _ _ _ _ U) in Hc by done. specialize (Bl c y Hc). lia.
Qed.

(** A new string begins. *)
Lemma next_in_step x ss dd Te Td s o code T' ws t ss' c dd' : in_step x ss dd Te Td s -> is_byte o -> match_octet n2 ss o = Some code ->
  ~ (code < comp_c3 ss /\ code <> latest_code ss) -> string_ended k n7 Te ss code o T' ws t ss' -> comp_c2 ss' = c ->
  caught_up x ss Te s dd' -> same_coding (resize c dd) dd' -> comp_transparent ss' = false -> in_step (x ++ [o]) ss' dd' T' Te [o].
Proof.
  intros S Ho Em Hn E Ec [U1 U2 U3 U4 U5 U6 U7] (K1 & K2 & K3 & K4 & K5) Ht.
  destruct (U7 o code Ho Em Hn) as (A1 & A2 & A3). pose proof (step_modes _ _ _ _ _ _ S) as (G1 & G2 & G3 & G4 & G5 & G6).
  pose proof (ended_updated _ _ _ _ _ _ _ _ _ _ E) as U. unfold updated in U.
  destruct (ended_string _ _ _ _ _ _ _ _ _ _ E) as [I1 I2].
  destruct (step_match _ _ _ _ _ _ S) as (M1 & _ & M3).
  split.
  - apply E.
  - destruct (step_maps _ _ _ _ _ _ S) as [M U']. by apply (ended_maps _ _ _ _ _ _ _ _ _ _ E).
  - by eapply ended_below.
  - by eapply ended_matching.
  - exact U1.
  - rewrite I1. by apply root_spells.
  - split; [done|]. split; [by rewrite K1|]. split; [by rewrite K2, Ec|].
    split; [rewrite K3; change (2 ^ c = comp_c3 ss'); rewrite <- Ec; symmetry; apply (ok_size _ _ _ _ (ended_ok _ _ _ _ _ _ _ _ _ _ E))|].
    rewrite K4, K5. split; [|exact G6]. change (dec_escape_code dd = comp_escape_code ss'). rewrite G5. symmetry.
    apply (ended_escape _ _ _ _ _ _ _ _ _ _ E). left. by rewrite (ended_test_mode _ _ _ _ _ _ _ _ E).
  - by rewrite U3.
  - right. change (aget [o] 0) with o. split; [exact U5|done| | | |]; change (aget [o] 0) with o.
    + exists s. rewrite U4, U6. split; [exact M1|]. destruct M3 as [|(? & ? & _)]; auto.
    + unfold dec_next. rewrite A1, U2, U4. destruct (adds n7 ss code); [apply U|]. destruct U as (-> & -> & _). done.
    + rewrite A1, U2. destruct (adds n7 ss code); apply U.
    + rewrite A1, U4, U6. intros Ha Hl. rewrite Ha in U. destruct U as (-> & _). by apply A3.
Qed.

(** ** Transparent mode *)

Record plain (x : list Z) (ss : v42bis_compress_state_t) (dd : v42bis_decompress_state_t) : Prop := {
  plain_able : able k n7 ss;
  plain_modes : comp_transparent ss = true /\ dec_transparent dd = true;
  plain_escape : dec_escape_code dd = comp_escape_code ss /\ escaped dd = false;
  plain_room : dec_room n7 dd;
  plain_got : got dd = x;
}.

Lemma able_escaped ss esc ss' : able k n7 ss -> escaped_line ss esc ss' -> on_the_line ss' -> is_byte esc -> able k n7 ss'.
Proof.
  intros (T & s & O & M) (f & p & b & n & ->) Ol He. exists T, s. split; [|exact M].
  by apply (comp_ok_same k n7 T ss).
Qed.

Lemma put_one dd o : dec_room n7 dd -> is_byte o -> exists dat out, put_output n7 dd [o] = Some (with_output dat out dd) /\
  dec_room n7 (with_output dat out dd) /\ got (with_output dat out dd) = got dd ++ [o].
Proof.
  intros R Ho. pose proof (limits_range n2 n7 L) as Rg. apply (put_output_spec k n7 Hk L dd [o] R). cbn [length]. lia.
Qed.

Lemma plain_push x ss dd o : plain x ss dd -> is_byte o ->
  exists ws ss' dd', push_transparent ss o = Some ss' /\ says ss ws ss' /\ feed ws dd = Some dd' /\ plain (x ++ [o]) ss' dd'.
Proof.
  intros [A (M1 & M2) (E1 & E2) R G] Ho. pose proof A as (T & s & O & M). pose proof (ok_escape _ _ _ _ O) as He.
  destruct (push_transparent_says ss o (ok_line _ _ _ _ O) Ho He) as (ss' & E & El & S).
  assert (on_the_line ss') as Ol by (by apply (says_on ss _ _ (ok_line _ _ _ _ O) S)).
  assert (able k n7 ss') as A' by (eapply able_escaped; [exact A|exact El|exact Ol|by apply bump_escape_byte]).
  destruct El as (f & p & b & n & Ess). exists (plain_words (comp_escape_code ss) o), ss'.
  assert (comp_transparent ss' = true /\ comp_escape_code ss' = bump_escape (comp_escape_code ss) o) as [M1' E1'] by (by rewrite Ess).
  clear Ess. unfold plain_words, bump_escape in *.
  destruct (Z.eqb_spec o (comp_escape_code ss)) as [->|Hne]; cbn [V42bisRx.feed]; unfold code_size at 1; rewrite M2; cbn [Z.eqb Pos.eqb];
    unfold decode_code at 1; rewrite M2; unfold decode_transparent at 1; rewrite E2, E1.
  - rewrite Z.eqb_refl. cbn [mbind option_bind]. set (d1 := dd <| dec_escape_code := _ |> <| escaped := true |>).
    change (code_size d1) with (code_size dd). unfold code_size at 1 2. rewrite M2. cbn [Z.eqb Pos.eqb].
    unfold decode_code. change (dec_transparent d1) with (dec_transparent dd). rewrite M2. unfold decode_transparent.
    change (escaped d1) with true. cbn match. change (V42BIS_EID =? V42BIS_ECM) with false. change (V42BIS_EID =? V42BIS_EID) with true.
    cbn match. set (d2 := d1 <| escaped := false |>). change (dec_escape_code d2) with (u8 (comp_escape_code ss + 1)).
    assert (u8 (u8 (comp_escape_code ss + 1) - 1) = comp_escape_code ss) as ->.
    { unfold wrap. rewrite Zminus_mod_idemp_l. replace (comp_escape_code ss + 1 - 1) with (comp_escape_code ss) by lia.
      apply Z.mod_small. exact Ho. }
    assert (dec_room n7 d2) as R2 by (by destruct R).
    destruct (put_one d2 (comp_escape_code ss) R2 Ho) as (dat & out & -> & R3 & G3). cbn [mbind option_bind].
    eexists. split; [exact E|]. split; [exact S|]. unfold code_size. change (dec_transparent (with_output dat out d2)) with (dec_transparent dd).
    rewrite M2. cbn [Z.eqb Pos.eqb]. split; [reflexivity|]. split; [exact A'|done|done|exact R3|].
    rewrite G3. by change (got d2) with (got dd); rewrite G.
  - rewrite (proj2 (Z.eqb_neq _ _)) by done. rewrite (wrap_id 8 o) by exact Ho.
    destruct (put_one dd o R Ho) as (dat & out & -> & R3 & G3). cbn [mbind option_bind].
    eexists. split; [exact E|]. split; [exact S|]. unfold code_size. change (dec_transparent (with_output dat out dd)) with (dec_transparent dd).
    rewrite M2. cbn [Z.eqb Pos.eqb]. split; [reflexivity|]. split; [exact A'|done|by rewrite E1'|exact R3|]. by rewrite G3, G.
Qed.

(** ** No return to compressed mode *)

(** Within [b] more octets the compressor does not go from transparent mode back
    to compressed mode: it changes when more than a thousand strings in succession
    ask for it. *)
Definition calm (b : Z) (ss : v42bis_compress_state_t) : Prop :=
  if compression_mode ss =? V42BIS_COMPRESSION_MODE_DYNAMIC then
    change_transparency ss = 0 /\ 0 <= compressibility_persistence ss /\
    compressibility_persistence ss + b <= (if comp_transparent ss then 999 else 2000)
  else comp_transparent ss = true -> change_transparency ss = 0.

Lemma calm_less a b ss : b <= a -> calm a ss -> calm b ss.
Proof. unfold calm. intros H. destruct (_ =? _); [intros (? & ? & ?); split_and!; [done|done|lia]|done]. Qed.

Lemma persist_result ss good c : change_transparency ss = 0 -> 0 <= compressibility_persistence ss ->
  (change_transparency (persist ss good c) = 0 /\ 0 <= compressibility_persistence (persist ss good c) <= compressibility_persistence ss + 1) \/
  (change_transparency (persist ss good c) = c /\ compressibility_persistence (persist ss good c) = 0 /\ 1000 <= compressibility_persistence ss).
Proof.
  intros H0 H1. unfold persist. destruct good; [|left; split; [exact H0|cbn; lia]].
  change (compressibility_persistence (ss <| compressibility_persistence := ?x |>)) with x.
  destruct (Z.ltb_spec 1000 (compressibility_persistence ss + 1)); [right|left]; (split; [done || exact H0|]); cbn; lia.
Qed.

Lemma compressibility_result ss : 
  if compression_mode ss =? V42BIS_COMPRESSION_MODE_DYNAMIC then
    change_transparency ss = 0 -> 0 <= compressibility_persistence ss ->
    (change_transparency (compressibility ss) = 0 /\
     0 <= compressibility_persistence (compressibility ss) <= compressibility_persistence ss + 1) \/
    (change_transparency (compressibility ss) = (if comp_transparent ss then -1 else 1) /\
     compressibility_persistence (compressibility ss) = 0 /\ 1000 <= compressibility_persistence ss)
  else change_transparency (compressibility ss) = change_transparency ss.
Proof.
  unfold compressibility. set (s1 := ss <| compressibility_filter := _ |>).
  change (compression_mode s1) with (compression_mode ss). change (comp_transparent s1) with (comp_transparent ss).
  destruct (compression_mode ss =? V42BIS_COMPRESSION_MODE_DYNAMIC); [|done].
  intros H0 H1. destruct (comp_transparent ss); by apply (persist_result s1).
Qed.

Lemma calm_ended b T ss code o T' ws t ss' : calm (b + 1) ss -> 0 <= b -> string_ended k n7 T ss code o T' ws t ss' ->
  calm b ss' /\ (comp_transparent ss = true -> transition_words t o = [] /\ comp_transparent ss' = true /\ comp_escape_code ss' = comp_escape_code ss) /\
  (comp_transparent ss = false -> (transition_words t o = [] /\ comp_transparent ss' = false) \/
    (transition_words t o = [(comp_c2 ss', V42BIS_ETM)] /\ comp_transparent ss' = true)).
Proof.
  intros C Hb E. pose proof (ended_test_mode _ _ _ _ _ _ _ _ E) as Et.
  destruct (ended_test _ _ _ _ _ _ _ _ _ _ E) as (s2 & E2 & (M1 & M2 & M3 & M4 & M5)).
  destruct (ended_moved _ _ _ _ _ _ _ _ _ _ E) as (V1 & V2 & V3 & V4). pose proof (ended_escape _ _ _ _ _ _ _ _ _ _ E) as Ve.
  destruct (ended_words _ _ _ _ _ _ _ _ _ _ E) as (c2 & _ & _ & W1 & W2 & _).
  pose proof (compressibility_result s2) as R. rewrite <- E2, M1, M2, M3, M4 in R. unfold calm in *. rewrite V4.
  unfold transition_words, transparent_after in *. rewrite Et, W2, W1 in *. rewrite V3, V2, V1.
  destruct (compression_mode ss =? V42BIS_COMPRESSION_MODE_DYNAMIC).
  - destruct C as (C1 & C2 & C3). destruct (R C1 C2) as [(R1 & R2)|(R1 & R2 & R3)]; rewrite R1 in *.
    + cbn [Z.eqb Z.ltb Z.compare andb]. destruct (comp_transparent ss); (split; [split_and!; [done|lia|lia]|]); split; try done; [|by left].
      intros _. split; [done|]. split; [done|]. apply Ve. by right.
    + destruct (comp_transparent ss); [lia|]. cbn [Z.eqb Z.ltb Z.compare andb negb]. split; [split_and!; [done|lia|lia]|]. split; [done|by right].
  - rewrite R in *. split; [done|]. destruct (comp_transparent ss).
    + rewrite C in * by done. cbn [Z.eqb Z.ltb Z.compare andb]. split; [|done]. intros _. split; [done|]. split; [done|]. apply Ve. by right.
    + split; [done|]. intros _. rewrite andb_false_r. cbn [negb]. rewrite andb_true_r.
      destruct (Z.eqb_spec (change_transparency ss) 0) as [->|]; [by left|].
      destruct (0 <? change_transparency ss); [by right|by left].
Qed.

(** ** An octet *)

(** The decompressor has what it can have of [x]. *)
Definition follows (x : list Z) (ss : v42bis_compress_state_t) (dd : v42bis_decompress_state_t) : Prop :=
  (exists Te Td s, in_step x ss dd Te Td s) \/ plain x ss dd.

Lemma feed_one dd v w dd' : w = code_size dd -> decode_code n2 n7 dd w v = Some (Continue w, dd') -> w = code_size dd' ->
  feed [(w, v)] dd = Some dd'.
Proof. intros E1 E2 E3. cbn [V42bisRx.feed]. by rewrite <- E1, Z.eqb_refl, E2, <- E3, Z.eqb_refl. Qed.

Lemma size_of c dd : dec_transparent dd = false -> dec_c2 dd = c -> c = code_size dd.
Proof. intros H1 H2. unfold code_size. by rewrite H1. Qed.

(** The words of the string itself. *)
Lemma feed_string x ss dd Te Td s c : in_step x ss dd Te Td s -> comp_c2 ss <= c <= k ->
  exists dd', feed (string_words ss c) dd = Some dd' /\ caught_up x ss Te s dd' /\ same_coding (resize c dd) dd'.
Proof.
  intros S Hc. pose proof (step_modes _ _ _ _ _ _ S) as (G1 & G2 & G3 & G4 & G5 & G6).
  destruct (ok_size _ _ _ _ (step_comp _ _ _ _ _ _ S)) as [B1 B2].
  destruct (string_caught_up x ss dd Te Td s c S) as (dd' & E & U & K). exists dd'. split; [|done]. unfold string_words. rewrite G1.
  rewrite feed_app, <- G3, feed_stepups by (done || lia || (rewrite G4, G3; exact B2)). cbn [mbind option_bind].
  pose proof K as (K1 & K2 & _). apply (feed_one (resize c dd)); [by apply size_of|exact E|].
  apply size_of; [by rewrite K1|by rewrite K2].
Qed.

Lemma feed_ETM dd c : dec_transparent dd = false -> dec_c2 dd = c -> feed [(c, V42BIS_ETM)] dd = Some (dd <| dec_transparent := true |>).
Proof.
  intros H1 H2. cbn [V42bisRx.feed]. rewrite <- (size_of c dd) by done. rewrite Z.eqb_refl. unfold decode_code. by rewrite H1.
Qed.

(** The state between the end of a string and the octet that goes out plainly. *)
Lemma ended_plain x ss dd Te Td s o code T' ws t ss' c dd' : in_step x ss dd Te Td s -> is_byte o ->
  string_ended k n7 Te ss code o T' ws t ss' -> caught_up x ss Te s dd' -> same_coding (resize c dd) dd' ->
  comp_transparent ss' = true -> plain x ss' (dd' <| dec_transparent := true |>).
Proof.
  intros S Ho E [U1 U2 U3 U4 U5 U6 U7] (K1 & K2 & K3 & K4 & K5) Ht. pose proof (step_modes _ _ _ _ _ _ S) as (G1 & G2 & G3 & G4 & G5 & G6).
  split.
  - exists T', [o]. split; [apply E|by eapply ended_matching].
  - done.
  - change (dec_escape_code dd' = comp_escape_code ss' /\ escaped dd' = false). rewrite K4, K5. split; [|exact G6].
    rewrite (ended_escape _ _ _ _ _ _ _ _ _ _ E) by (left; by rewrite (ended_test_mode _ _ _ _ _ _ _ _ E)). exact G5.
  - destruct U1 as [_ _ []]. by split.
  - exact U3.
Qed.

(** One octet: the words that it makes the compressor say keep the decompressor
    with it. *)
Definition octet_goes (b : Z) (x : list Z) (ss : v42bis_compress_state_t) (dd : v42bis_decompress_state_t)
    (r : option v42bis_compress_state_t) : Prop :=
  exists ws ss' dd', r = Some ss' /\ says ss ws ss' /\ feed ws dd = Some dd' /\ follows x ss' dd' /\ calm b ss' /\
    comp_first ss' = comp_first ss.

Lemma calm_same b ss ss' : calm b ss -> compression_mode ss' = compression_mode ss -> change_transparency ss' = change_transparency ss ->
  compressibility_persistence ss' = compressibility_persistence ss -> comp_transparent ss' = comp_transparent ss -> calm b ss'.
Proof. unfold calm. by intros ? -> -> -> ->. Qed.

Lemma escaped_calm b ss esc ss' : calm b ss -> escaped_line ss esc ss' -> calm b ss' /\ comp_first ss' = comp_first ss.
Proof. intros C (f & o & x & n & ->). split; [|done]. by apply (calm_same b ss). Qed.

(** In transparent mode the octet goes out. *)
Lemma plain_goes b x ss dd o : plain x ss dd -> is_byte o -> calm b ss -> octet_goes b (x ++ [o]) ss dd (push_transparent ss o).
Proof.
  intros P Ho C. destruct (plain_push x ss dd o P Ho) as (ws & ss' & dd' & E & S & F & P').
  destruct (plain_able _ _ _ P) as (T & s & O & M).
  destruct (push_transparent_says ss o (ok_line _ _ _ _ O) Ho (ok_escape _ _ _ _ O)) as (s2 & E2 & El & _).
  assert (s2 = ss') as -> by congruence. destruct (escaped_calm b _ _ _ C El) as [C' F'].
  exists ws, ss', dd'. split_and!; try done. by right.
Qed.

Lemma goes_then b x ss ss1 dd dd1 ws r : says ss ws ss1 -> feed ws dd = Some dd1 -> comp_first ss1 = comp_first ss ->
  octet_goes b x ss1 dd1 r -> octet_goes b x ss dd r.
Proof.
  intros S F E (ws' & ss' & dd' & -> & S' & F' & P & C & E'). exists (ws ++ ws'), ss', dd'. split; [done|].
  split; [by eapply says_app|]. split; [rewrite feed_app, F; exact F'|]. split; [done|]. split; [done|]. by rewrite E'.
Qed.

Lemma in_step_octet b x ss dd Te Td s o : in_step x ss dd Te Td s -> calm (b + 1) ss -> 0 <= b -> is_byte o ->
  octet_goes b (x ++ [o]) ss dd (compress_octet n2 n7 ss o).
Proof.
  intros S C Hb Ho. unfold compress_octet. pose proof (step_comp _ _ _ _ _ _ S) as O. pose proof (step_match _ _ _ _ _ _ S) as M.
  destruct (step_modes _ _ _ _ _ _ S) as (G1 & G2 & G3 & _).
  destruct (match_octet_spec k n7 Hk L Te ss s o O M Ho) as (code & Em & B & F & _). rewrite Em. cbn [mbind option_bind].
  destruct ((code <? comp_c3 ss) && negb (code =? latest_code ss)) eqn:Ec.
  - apply andb_true_iff in Ec as [Hlt%Z.ltb_lt Hne%negb_true_iff%Z.eqb_neq]. cbn [mbind option_bind].
    change (ss <| string_code := code |> <| string_length := string_length ss + 1 |>) with (further ss code).
    change (comp_transparent (further ss code)) with (comp_transparent ss). rewrite G1.
    exists [], (further ss code), dd. split; [done|]. split; [by apply same_line_says|]. split; [done|].
    split; [left; exists Te, Td, (s ++ [o]); apply further_step; auto|]. split; [|done].
    apply (calm_less (b + 1)); [lia|]. by apply (calm_same (b + 1) ss).
  - assert (~ (code < comp_c3 ss /\ code <> latest_code ss)) as Hn.
    { intros [H1 H2]. by rewrite (proj2 (Z.ltb_lt _ _)), (proj2 (Z.eqb_neq _ _)) in Ec by done. }
    destruct (string_ends_spec k n7 Hk L Te ss s o code O M Ho) as (T' & ws & t & s1 & -> & E). cbn [mbind option_bind].
    destruct (ended_words _ _ _ _ _ _ _ _ _ _ E) as (c & -> & Hc & W1 & W2 & W3).
    destruct (calm_ended b _ _ _ _ _ _ _ _ C Hb E) as (C1 & _ & C3). specialize (C3 G1).
    destruct (feed_string x ss dd Te Td s c S) as (d1 & F1 & U1 & K1).
    { destruct (ok_size _ _ _ _ (ended_ok _ _ _ _ _ _ _ _ _ _ E)). lia. }
    pose proof (ended_says _ _ _ _ _ _ _ _ _ _ E) as Sw. pose proof (ended_first _ _ _ _ _ _ _ _ _ _ E) as Ef.
    destruct C3 as [(Ew & Et)|(Ew & Et)]; rewrite Ew, Et in *.
    + rewrite app_nil_r in Sw. exists (string_words ss c), s1, d1. split_and!; try done. left. exists T', Te, [o].
      by apply (next_in_step x ss dd Te Td s o code T' _ t s1 c d1 S Ho Em Hn E).
    + eapply goes_then; [exact Sw| |exact Ef|].
      * rewrite feed_app, F1. cbn [mbind option_bind]. destruct K1 as (K1 & K2 & _). apply feed_ETM; [by rewrite K1|by rewrite K2, W1].
      * apply plain_goes; [|done|done]. exact (ended_plain x ss dd Te Td s o code T' _ t s1 c d1 S Ho E U1 K1 Et).
Qed.

Lemma plain_octet b x ss dd o : plain x ss dd -> calm (b + 1) ss -> 0 <= b -> is_byte o ->
  octet_goes b (x ++ [o]) ss dd (compress_octet n2 n7 ss o).
Proof.
  intros P C Hb Ho. pose proof P as [(T & s & O & M) (M1 & M2) (E1 & E2) R G]. unfold compress_octet.
  destruct (match_octet_spec k n7 Hk L T ss s o O M Ho) as (code & Em & B & F & _). rewrite Em. cbn [mbind option_bind].
  destruct ((code <? comp_c3 ss) && negb (code =? latest_code ss)) eqn:Ec.
  - apply andb_true_iff in Ec as [Hlt%Z.ltb_lt _]. cbn [mbind option_bind].
    change (ss <| string_code := code |> <| string_length := string_length ss + 1 |>) with (further ss code).
    change (comp_transparent (further ss code)) with (comp_transparent ss). rewrite M1.
    apply (goes_then b _ ss (further ss code) dd dd []); [by apply same_line_says|done|done|].
    apply plain_goes; [|done|apply (calm_less (b + 1)); [lia|]; by apply (calm_same (b + 1) ss)].
    split; try done. exists T, (s ++ [o]). apply further_ok; auto.
  - destruct (string_ends_spec k n7 Hk L T ss s o code O M Ho) as (T' & ws & t & s1 & -> & E). cbn [mbind option_bind].
    destruct (ended_words _ _ _ _ _ _ _ _ _ _ E) as (c & -> & _).
    destruct (calm_ended b _ _ _ _ _ _ _ _ C Hb E) as (C1 & C2 & _). destruct (C2 M1) as (Ew & Et & Ee). rewrite Et.
    pose proof (ended_says _ _ _ _ _ _ _ _ _ _ E) as Sw. rewrite Ew in Sw. unfold string_words in Sw. rewrite M1 in Sw.
    apply (goes_then b _ ss s1 dd dd []); [exact Sw|done|apply (ended_first _ _ _ _ _ _ _ _ _ _ E)|].
    apply plain_goes; [|done|done]. split; try done; [|by rewrite Ee].
    exists T', [o]. split; [apply E|by eapply ended_matching].
Qed.

Lemma octets_go l : forall b x ss dd, follows x ss dd -> calm (zlen l + b) ss -> 0 <= b -> bytes l ->
  octet_goes b (x ++ l) ss dd (compress_octets n2 n7 ss l).
Proof.
  induction l as [|o l IH]; intros b x ss dd F C Hb Hl.
  - rewrite app_nil_r. exists [], ss, dd. split_and!; try done. apply says_nil.
  - apply Forall_cons_1 in Hl as [Ho Hl]. cbn [compress_octets].
    assert (octet_goes (zlen l + b) (x ++ [o]) ss dd (compress_octet n2 n7 ss o)) as (ws & s1 & d1 & -> & S & Fd & F1 & C1 & E1).
    { assert (calm (zlen l + b + 1) ss) as C' by (apply (calm_less (zlen (o :: l) + b)); [cbn [length]; lia|exact C]).
      destruct F as [(Te & Td & s & F)|F]; [by apply (in_step_octet _ x ss dd Te Td s); [| |lia|]|by apply plain_octet; [| |lia|]]. }
    cbn [mbind option_bind]. eapply goes_then; [exact S|exact Fd|exact E1|].
    replace (x ++ o :: l) with ((x ++ [o]) ++ l) by (by rewrite <- app_assoc). by apply IH.
Qed.
End link.
