(* ===== verification/V42bisTrip.v ===== *)
(** * V.42bis round trips

    Data compressed by calls of any sizes, flushed once at the end and decompressed
    from pieces of any sizes, come out as they were: with a dictionary of a power of
    two, and in the dynamic mode up to 2000 octets. *)
From stdpp Require Import gmap.
From S2P Require Import Prelude HdlcFrame V42bis V42bisDict V42bisNodes V42bisTx V42bisRx V42bisLink.

(** ** New dictionaries *)

Lemma numbered_NoDup {A} (f : Z -> A) m n : base.NoDup ((map (fun i => (i, f i)) (seqZ m n)).*1).
Proof.
  assert ((map (fun i => (i, f i)) (seqZ m n)).*1 = seqZ m n) as ->; [|apply NoDup_seqZ].
  induction (seqZ m n) as [|i l IH]; [done|]. cbn. by f_equal.
Qed.

Lemma new_dict_lookup parent c : new_dict parent !! c =
  if (0 <=? c) && (c <? V42BIS_MAX_CODEWORDS) then Some (new_node (parent c)) else None.
Proof.
  unfold new_dict. pose proof (numbered_NoDup (fun i => new_node (parent i)) 0 V42BIS_MAX_CODEWORDS) as N.
  destruct ((0 <=? c) && (c <? V42BIS_MAX_CODEWORDS)) eqn:E.
  - apply andb_true_iff in E as [H1%Z.leb_le H2%Z.ltb_lt]. apply elem_of_list_to_map_1; [exact N|].
    apply list_elem_of_fmap. exists c. split; [done|]. apply elem_of_seqZ. lia.
  - apply not_elem_of_list_to_map_1. intros H. apply list_elem_of_fmap in H as ([c' e] & -> & H).
    apply list_elem_of_fmap in H as (i & [= -> ->] & H). apply elem_of_seqZ in H. cbn [fst] in E.
    rewrite (proj2 (Z.leb_le _ _)), (proj2 (Z.ltb_lt _ _)) in E by lia. done.
Qed.

Lemma new_dict_at parent c e : new_dict parent !! c = Some e -> e = new_node (parent c) /\ 0 <= c < V42BIS_MAX_CODEWORDS.
Proof.
  rewrite new_dict_lookup. destruct ((0 <=? c) && (c <? V42BIS_MAX_CODEWORDS)) eqn:E; [|done]. intros [= <-].
  apply andb_true_iff in E as [H1%Z.leb_le H2%Z.ltb_lt]. by split; [|lia].
Qed.

Section trip.
Context (k n7 : Z).

Abbreviation n2 := (2 ^ k).

Hypothesis Hk : 9 <= k <= 12.
Hypothesis Hn7 : 6 <= n7 <= V42BIS_MAX_STRING_SIZE.

Lemma size_limits : limits n2 n7.
Proof.
  split; [|done]. unfold V42BIS_MAX_CODEWORDS. change 512 with (2 ^ 9). change 4096 with (2 ^ 12).
  split; apply Z.pow_le_mono_r; lia.
Qed.

Lemma new_represents parent root : (forall c, V42BIS_N5 <= c -> parent c = no_parent) -> (forall c, 0 <= c < V42BIS_N5 \/ n2 <= c -> parent c = root c) ->
  represents n2 root (new_dict parent) ∅.
Proof.
  intros H1 H2. split.
  - intros c Hc. rewrite new_dict_lookup, (proj2 (Z.leb_le _ _)), (proj2 (Z.ltb_lt _ _)) by lia. eexists. split; [done|reflexivity].
  - intros c e _ E. apply new_dict_at in E as [-> _]. by rewrite kids_empty.
  - intros c e He E. apply new_dict_at in E as [-> _]. rewrite lookup_empty. apply H1. unfold entry in He. lia.
  - intros c e Hc E. apply new_dict_at in E as [-> _]. by apply H2.
Qed.

Lemma new_mapped parent : mapped n2 (new_dict parent) ∅.
Proof.
  intros c e o _ Ho E. apply new_dict_at in E as [-> _]. rewrite has_child_testbit. destruct (child_word o Ho) as [Hw _].
  assert (aget (children (new_node (parent c))) (o .>> 5) = 0) as ->.
  { unfold aget, new_node. cbn [children]. rewrite nth_lookup, lookup_replicate_2 by lia. done. }
  rewrite Z.bits_0. split; [done|]. by intros [c' Hc'].
Qed.

Lemma new_table : table_ok n2 n7 ∅ V42BIS_N5.
Proof.
  pose proof (limits_range n2 n7 size_limits). split; [by intros c p o Hc| |done]. unfold entry. change V42BIS_N5 with 259. lia.
Qed.

(** ** The first octet *)

(** The compressor that has had its first octet. *)
Definition started (ss : v42bis_compress_state_t) (o : Z) : v42bis_compress_state_t :=
  ss <| string_code := o + V42BIS_N6 |> <| comp_first := false |>.

Definition mode_set (mode : Z) (ss : v42bis_compress_state_t) : v42bis_compress_state_t :=
  compress (v42bis_compression_control {| parm_p0 := 0; compress := ss; decompress := decompress_init 0; parm_n1 := 0; parm_n2 := 0; parm_n7 := 0 |} mode).

Lemma mode_set_spec mode ss : exists c, mode_set mode ss = ss <| compression_mode := mode |> <| change_transparency := c |> /\
  (mode = V42BIS_COMPRESSION_MODE_DYNAMIC -> c = change_transparency ss).
Proof.
  unfold mode_set, v42bis_compression_control. cbn [compress].
  destruct (Z.eqb_spec mode V42BIS_COMPRESSION_MODE_ALWAYS) as [->|]; [by exists (-1)|].
  destruct (Z.eqb_spec mode V42BIS_COMPRESSION_MODE_NEVER) as [->|]; [by exists 1|]. exists (change_transparency ss). by destruct ss.
Qed.

Definition new_compressor (mode mf : Z) : v42bis_compress_state_t := mode_set mode (compress_init mf).

Lemma new_line mode mf o : line_at 7 (started (new_compressor mode mf) o) [].
Proof.
  unfold new_compressor. destruct (mode_set_spec mode (compress_init mf)) as (c & -> & _).
  split; [|done|constructor|done|].
  - exists []. split; [apply on_top_nil|done].
  - change ((if mf <? 1024 then mf else 1024) <= 1024). destruct (Z.ltb_spec mf 1024); lia.
Qed.

Lemma first_follows mode mf md o : is_byte o ->
  follows k n7 [o] (started (new_compressor mode mf) o) (decompress_init md).
Proof.
  intros Ho. pose proof (limits_range n2 n7 size_limits) as Rg. left. exists ∅, ∅, [o]. pose proof (new_line mode mf o) as Hl.
  unfold new_compressor in *. destruct (mode_set_spec mode (compress_init mf)) as (c & E & _). rewrite E in *. clear E.
  split.
  - split; [by eexists|split; [done || (change (9 <= 9 <= k); lia)|done]| |apply new_table|done].
    by apply new_represents.
  - split; [apply new_mapped|by intros ? ? ? ?].
  - by intros ? ?.
  - split; [by apply root_spells|]. split; [change (o + 3 < 512); unfold is_byte in Ho; lia|by right].
  - split; [|apply new_table|split; [by left|]].
    + apply new_represents; intros c' Hc'; [|done].
      change V42BIS_N5 with 259 in *. rewrite (proj2 (Z.ltb_ge _ _)) by lia. done.
    + change ((if md <? 1024 then md else 1024) <= 1024). destruct (Z.ltb_spec md 1024); lia.
  - by apply root_spells.
  - done.
  - done.
  - left. by split.
Qed.

Lemma first_calm mode mf o b : 0 <= b -> (mode = V42BIS_COMPRESSION_MODE_DYNAMIC -> b <= 2000) ->
  calm b (started (new_compressor mode mf) o).
Proof.
  intros Hb H. unfold new_compressor. destruct (mode_set_spec mode (compress_init mf)) as (c & -> & Hc). unfold calm, started.
  match goal with |- context [compression_mode ?s] => change (compression_mode s) with mode end. destruct (Z.eqb_spec mode V42BIS_COMPRESSION_MODE_DYNAMIC) as [E|]; [|done].
  rewrite (Hc E). specialize (H E). cbn. lia.
Qed.

(** ** The flush *)

Lemma push_rest ss l : line_at 7 ss l -> exists ss' pad, push_octets (Z.to_nat (output_bit_count ss)) 0 ss = Some ss' /\
  line_bits (sent ss') = l ++ pad /\ zlen pad < 8 /\ bytes (sent ss').
Proof.
  intros [(pend & P & ->) C B Rm M]. pose proof (top_length _ _ _ P) as Hl. pose proof (on_top_octet _ _ _ P) as Ho.
  destruct (Z.to_nat (output_bit_count ss)) as [|m] eqn:Em; cbn [push_octets].
  - rewrite (proj2 (Z.leb_le _ _)) by lia. assert (pend = []) as -> by (destruct pend; [done|cbn [length] in *; lia]).
    exists ss, []. split; [done|]. by rewrite !app_nil_r.
  - rewrite (proj2 (Z.leb_gt _ _)) by lia.
    destruct (sent_push ss (output_bit_buffer ss .>> 24) Rm M) as (s1 & -> & _ & S1 & _ & _ & En). cbn [mbind option_bind].
    exists (s1 <| output_bit_buffer := u32 (output_bit_buffer s1 .<< 8) |> <| output_bit_count := output_bit_count s1 - 8 |>),
      (repeat false (8 - length pend)). split.
    + destruct m; cbn [push_octets]; (rewrite (proj2 (Z.leb_le _ _)); [done|]);
        change (output_bit_count s1 - 8 <= 0); lia.
    + change (sent (s1 <| output_bit_buffer := _ |> <| output_bit_count := _ |>)) with (sent s1). rewrite S1, line_bits_app.
      change (line_bits [?x]) with (msb_bits 8 x ++ []). rewrite app_nil_r, Ho, take_ge
        by (unfold padded; rewrite length_app, repeat_length; lia).
      split; [unfold padded; by rewrite app_assoc|]. split; [rewrite repeat_length; lia|].
      apply Forall_app_2; [done|]. constructor; [apply is_byte_u8|constructor].
Qed.

Lemma feed_FLUSH c dd : dec_transparent dd = false -> dec_c2 dd = c ->
  V42bisRx.feed n2 n7 [(c, V42BIS_FLUSH)] dd = Some (hand_over dd) /\ code_size (hand_over dd) = c.
Proof.
  intros H1 H2. assert (c = code_size (hand_over dd)) as E.
  { unfold hand_over, code_size. destruct (dec_output dd); [by rewrite H1|]. change (dec_transparent _) with (dec_transparent dd) at 1. by rewrite H1. }
  split; [|done]. apply feed_one; [by apply size_of|by unfold decode_code; rewrite H1|done].
Qed.

(** The last words, after which the decompressor has everything. *)
Lemma v42_flush_spec x ss dd ws0 : follows k n7 x ss dd -> line_at 7 ss (words_bits ws0) -> Forall word_ok ws0 ->
  exists ss' ws dd' pad, compress_flush ss = Some ss' /\ Forall word_ok (ws0 ++ ws) /\
    line_bits (concat (frames ss')) = words_bits (ws0 ++ ws) ++ pad /\ zlen pad < 8 /\ bytes (concat (frames ss')) /\
    V42bisRx.feed n2 n7 ws dd = Some dd' /\ got dd' = x /\ 8 <= code_size dd'.
Proof.
  intros F Hl Hw. pose proof size_limits as L.
  assert (exists s1 ws dd', (if negb (comp_transparent ss) then
                               ss ← push_compressed_code ss (string_code ss); push_compressed_code ss V42BIS_FLUSH
                             else Some ss) = Some s1 /\ says ss ws s1 /\ V42bisRx.feed n2 n7 ws dd = Some dd' /\ got dd' = x /\
            8 <= code_size dd') as (s1 & ws & dd' & E1 & S1 & F1 & G1 & C1).
  { destruct F as [(Te & Td & s & S)|P].
    - pose proof (step_modes _ _ _ _ _ _ _ _ S) as (M1 & M2 & _). rewrite M1. cbn [negb].
      destruct (ok_size _ _ _ _ (step_comp _ _ _ _ _ _ _ _ S)) as [B1 B2]. destruct (step_match _ _ _ _ _ _ _ _ S) as (Hs & Hc & _).
      pose proof (code_range n2 n7 L Te _ s (table_spelled _ _ _ _ (ok_table _ _ _ _ (step_comp _ _ _ _ _ _ _ _ S))) Hs) as Hr.
      change V42BIS_N6 with 3 in Hr.
      destruct (feed_string k n7 Hk L x ss dd Te Td s (comp_c2 ss) S) as (d1 & Fd & U & (K1 & K2 & _)); [lia|].
      unfold string_words in Fd. rewrite M1 in Fd.
      assert (stepups (comp_c2 ss) (comp_c2 ss) = []) as Est by (unfold stepups; by rewrite Z.sub_diag). rewrite Est in Fd.
      destruct (push_code_says ss (string_code ss)) as (s1 & -> & (f & o & b & n & E) & S1); [by eexists|lia|lia|]. cbn [mbind option_bind].
      assert (comp_c2 s1 = comp_c2 ss) as Ec by (by rewrite E).
      destruct (push_code_says s1 V42BIS_FLUSH) as (s2 & -> & _ & S2);
        [by apply (says_on ss _ _ ltac:(by eexists) S1)|lia|rewrite Ec; split; [done|]; unfold V42BIS_FLUSH; change 1 with (2 ^ 0) at 1; apply Z.pow_lt_mono_r; lia|].
      rewrite Ec in S2. destruct (feed_FLUSH (comp_c2 ss) d1) as [F2 C2]; [by rewrite K1|by rewrite K2|].
      exists s2, ([(comp_c2 ss, string_code ss)] ++ [(comp_c2 ss, V42BIS_FLUSH)]), (hand_over d1). split; [done|].
      split; [by eapply says_app|]. split; [rewrite feed_app; change ([] ++ ?l) with l in Fd; rewrite Fd; exact F2|].
      split; [|lia]. destruct (hand_over_got n7 d1) as [-> _]. apply U.
    - destruct (plain_modes _ _ _ _ _ P) as [M1 M2]. rewrite M1. exists ss, [], dd. split; [done|]. split; [apply says_nil|].
      split; [done|]. split; [apply P|]. unfold code_size. by rewrite M2. }
  unfold compress_flush. rewrite E1. cbn [mbind option_bind]. destruct S1 as [W1 S1].
  destruct (push_rest s1 _ (S1 _ Hl)) as (s2 & pad & -> & E2 & Hp & Hb). cbn [mbind option_bind].
  rewrite <- words_bits_app in E2.
  eexists _, ws, dd', pad. split; [reflexivity|]. split; [by apply Forall_app_2|].
  assert (forall s, concat (frames (match comp_output s with [] => s | l => s <| frames := frames s ++ [l] |> <| comp_output := [] |> end)) = sent s) as Es.
  { intros t. unfold sent. destruct (comp_output t) as [|y l] eqn:E; [by rewrite app_nil_r|].
    change (concat (frames t ++ [y :: l]) = concat (frames t) ++ y :: l). rewrite concat_app. cbn [concat]. by rewrite app_nil_r. }
  rewrite Es. done.
Qed.

(** ** Calls *)

Fixpoint compress_calls (s : v42bis_state_t) (ds : list (list Z)) : option v42bis_state_t :=
  match ds with
  | [] => Some s
  | d :: ds => s ← v42bis_compress s d; compress_calls s ds
  end.

(** Calls that all return zero. *)
Fixpoint decompress_calls (s : v42bis_state_t) (bufs : list (list Z)) : option v42bis_state_t :=
  match bufs with
  | [] => Some s
  | buf :: bufs => '(r, s) ← v42bis_decompress s buf; if r =? 0 then decompress_calls s bufs else None
  end.

Context (mode mf md : Z).

(** The words that have been said, and the decompressor that has them. *)
Definition under_way (b : Z) (x : list Z) (ss : v42bis_compress_state_t) : Prop :=
  comp_first ss = false /\ exists ws dd, line_at 7 ss (words_bits ws) /\ Forall word_ok ws /\
    V42bisRx.feed n2 n7 ws (decompress_init md) = Some dd /\ follows k n7 x ss dd /\ calm b ss.

Definition sending (b : Z) (x : list Z) (s : v42bis_state_t) : Prop :=
  parm_p0 s .& 2 <> 0 /\ parm_n2 s = n2 /\ parm_n7 s = n7 /\
  ((x = [] /\ compress s = new_compressor mode mf) \/ under_way b x (compress s)).

Lemma under_way_octets b x ss l : under_way (zlen l + b) x ss -> 0 <= b -> bytes l ->
  exists ss', compress_octets n2 n7 ss l = Some ss' /\ under_way b (x ++ l) ss'.
Proof.
  intros (F & ws & dd & Hl & Hw & Fd & Fo & C) Hb Bl. pose proof size_limits as L.
  destruct (octets_go k n7 Hk L l b x ss dd Fo C Hb Bl) as (ws' & ss' & dd' & E & [W' S'] & Fd' & Fo' & C' & F').
  exists ss'. split; [done|]. split; [by rewrite F'|]. exists (ws ++ ws'), dd'. rewrite words_bits_app.
  split_and!; [by apply S'|by apply Forall_app_2|by rewrite feed_app, Fd|done|done].
Qed.

Lemma new_transparent : comp_first (new_compressor mode mf) = true /\ comp_transparent (new_compressor mode mf) = false.
Proof. unfold new_compressor. destruct (mode_set_spec mode (compress_init mf)) as (c & -> & _). done. Qed.

Lemma compress_call b x s d : sending (zlen d + b) x s -> 0 <= b -> bytes d ->
  (mode = V42BIS_COMPRESSION_MODE_DYNAMIC -> zlen d + b <= 2000) ->
  exists s', v42bis_compress s d = Some s' /\ sending b (x ++ d) s'.
Proof.
  intros (P1 & P2 & P3 & S) Hb Bd Hm. unfold v42bis_compress. rewrite (proj2 (Z.eqb_neq _ _)) by done.
  destruct S as [(-> & E)|U].
  - rewrite E. destruct new_transparent as [Hf Ht]. destruct d as [|o d]; [cbn [mbind option_bind compress_octets]; eexists; split; [reflexivity|]; split; [exact P1|]; split; [exact P2|]; split; [exact P3|]; by left|].
    rewrite Hf. change (comp_transparent (new_compressor mode mf <| string_code := ?c |>)) with (comp_transparent (new_compressor mode mf)).
    rewrite Ht. cbn [mbind option_bind]. apply Forall_cons_1 in Bd as [Ho Bd].
    change (new_compressor mode mf <| string_code := o + V42BIS_N6 |> <| comp_first := false |>) with (started (new_compressor mode mf) o).
    destruct (under_way_octets b [o] (started (new_compressor mode mf) o) d) as (ss' & E' & U'); [|done|done|].
    + split; [done|]. exists [], (decompress_init md). split; [apply new_line|]. split; [constructor|]. split; [done|].
      split; [by apply first_follows|]. apply first_calm; cbn [length] in *; [lia|]. intros H. specialize (Hm H). lia.
    + rewrite P2, P3, E'. cbn [mbind option_bind]. eexists. split; [reflexivity|]. split_and!; try done. right. exact U'.
  - destruct (under_way_octets b x (compress s) d U Hb Bd) as (ss' & E' & U').
    pose proof (proj1 U) as Uf. destruct d as [|o d]; [|rewrite Uf].
    all: cbn [mbind option_bind]; rewrite P2, P3, E'; cbn [mbind option_bind]; eexists; (split; [reflexivity|]); split_and!; try done; by right.
Qed.

Lemma compress_calls_spec ds : forall x s, sending (zlen (concat ds)) x s -> Forall bytes ds ->
  (mode = V42BIS_COMPRESSION_MODE_DYNAMIC -> zlen (concat ds) <= 2000) ->
  exists s', compress_calls s ds = Some s' /\ sending 0 (x ++ concat ds) s'.
Proof.
  induction ds as [|d ds IH]; intros x s S B Hm; [by exists s; rewrite app_nil_r|]. cbn [compress_calls concat] in *.
  apply Forall_cons_1 in B as [Bd B]. rewrite length_app, Nat2Z.inj_add in *.
  destruct (compress_call (zlen (concat ds)) x s d S ltac:(lia) Bd Hm) as (s1 & -> & S1). cbn [mbind option_bind].
  rewrite app_assoc. apply IH; [done|done|]. intros H. specialize (Hm H). lia.
Qed.

(** ** The receiving side *)

Definition receiving (s : v42bis_state_t) (b n : Z) (dd : v42bis_decompress_state_t) : Prop :=
  parm_p0 s .& 1 <> 0 /\ parm_n2 s = n2 /\ parm_n7 s = n7 /\ decompress s = with_bits b n dd.

Lemma decompress_calls_spec dde pad bufs : forall s b n dd pend ws, receiving s b n dd -> on_top b n pend -> n <= 31 ->
  Forall bytes bufs -> Forall word_ok ws -> pend ++ line_bits (concat bufs) = words_bits ws ++ pad -> n < code_size dd ->
  V42bisRx.feed n2 n7 ws dd = Some dde -> zlen pad < 8 -> 8 <= code_size dde ->
  exists s' b' n', decompress_calls s bufs = Some s' /\ receiving s' b' n' dde.
Proof.
  induction bufs as [|buf bufs IH]; intros s b n dd pend ws (P1 & P2 & P3 & Es) P Hn Hb Hw El Hlt Hf Hp Hc.
  - exists s, b, n. split; [done|]. rewrite app_nil_r in El. pose proof (top_length _ _ _ P) as Hl. destruct ws as [|[w v] ws].
    + cbn [V42bisRx.feed] in Hf. injection Hf as <-. done.
    + exfalso. cbn [V42bisRx.feed] in Hf. destruct (Z.eqb_spec w (code_size dd)) as [Ew|]; [|done].
      apply Forall_cons_1 in Hw as [[Hw _] _]. cbn [fst] in Hw. apply (f_equal length) in El. rewrite length_app in El.
      pose proof (length_words_bits_cons w v ws ltac:(lia)). lia.
  - apply Forall_cons_1 in Hb as [Hbuf Hb]. cbn [decompress_calls concat] in *. rewrite line_bits_app in El.
    unfold v42bis_decompress. rewrite (proj2 (Z.eqb_neq _ _)) by done. rewrite Es, P2, P3.
    change (if dec_transparent (with_bits b n dd) then 8 else dec_c2 (with_bits b n dd)) with (code_size dd).
    change (input_bit_count (with_bits b n dd)) with n. pose proof (top_length _ _ _ P) as Hl.
    destruct (decode_loop_words n2 n7 dde pad (line_bits (concat bufs)) (Z.to_nat (n + 8 * zlen buf + 1)) b n dd pend buf ws
                P Hn Hbuf Hw El Hf Hp Hc ltac:(lia)) as (ws1 & ws2 & dd1 & b1 & n1 & p1 & -> & E & F1 & P1' & Hn1 & El1 & Hlt1).
    rewrite E. cbn [mbind option_bind]. rewrite feed_app, F1 in Hf. cbn [mbind option_bind] in Hf.
    rewrite Z.eqb_refl. apply Forall_app in Hw as [_ Hw].
    by apply (IH _ b1 n1 dd1 p1 ws2).
Qed.
End trip.

Lemma with_no_bits dd : input_bit_buffer dd = 0 -> input_bit_count dd = 0 -> with_bits 0 0 dd = dd.
Proof. destruct dd. cbn. by intros -> ->. Qed.

Lemma init_limits p0 p1 p2 mf md s : v42bis_init p0 p1 p2 mf md = Some s ->
  6 <= p2 <= V42BIS_MAX_STRING_SIZE /\ parm_p0 s = p0 /\ parm_n2 s = p1 /\ parm_n7 s = p2 /\
  compress s = compress_init mf /\ decompress s = decompress_init md.
Proof.
  unfold v42bis_init. destruct (_ || _); [done|]. destruct ((p2 <? 6) || (V42BIS_MAX_STRING_SIZE <? p2)) eqn:E; [done|].
  intros [= <-]. apply orb_false_iff in E as [H1%Z.ltb_ge H2%Z.ltb_ge]. done.
Qed.

Lemma bytes_concat l : bytes (concat l) -> Forall bytes l.
Proof.
  induction l as [|x l IH]; intros H; [constructor|]. cbn [concat] in H. apply Forall_app in H as [H1 H2]. constructor; [done|by apply IH].
Qed.

(** C4: for a link set up on both sides with the same dictionary of 512, 1024, 2048
    or 4096 codes and the same longest string, octets handed to a new compressor in
    calls of any sizes, and flushed once when all have been handed over, come out of
    a new decompressor octet for octet, whatever the pieces are in which it gets
    what the compressor sent.  In the modes "always" and "never" this is for any
    amount of data; in the dynamic mode, which [v42bis_init] sets, it is for at most
    2000 octets: more may bring the compressor back from transparent to compressed
    mode, and from there on the dictionaries may differ.  Within these conditions no
    call fails on either side. *)
Theorem v42bis_roundtrip (k n7 mode p0 p0' mf md mf' md' : Z) (ds : list (list Z)) (s r : v42bis_state_t) :
  9 <= k <= 12 -> v42bis_init p0 (2 ^ k) n7 mf md' = Some s -> p0 .& 2 <> 0 ->
  v42bis_init p0' (2 ^ k) n7 mf' md = Some r -> p0' .& 1 <> 0 ->
  Forall bytes ds -> concat ds <> [] -> (mode = V42BIS_COMPRESSION_MODE_DYNAMIC -> zlen (concat ds) <= 2000) ->
  exists s', (s1 ← compress_calls (v42bis_compression_control s mode) ds; v42bis_compress_flush s1) = Some s' /\
    forall bufs, concat bufs = concat (frames (compress s')) ->
    exists r', decompress_calls r bufs = Some r' /\ concat (data (decompress (v42bis_decompress_flush r'))) = concat ds.
Proof.
  intros Hk Is Hp Ir Hq Hb Hne Hm. destruct (init_limits _ _ _ _ _ _ Is) as (Hn7 & S1 & S2 & S3 & S4 & S5).
  destruct (init_limits _ _ _ _ _ _ Ir) as (_ & R1 & R2 & R3 & R4 & R5).
  destruct (compress_calls_spec k n7 Hk Hn7 mode mf md ds [] (v42bis_compression_control s mode)) as (s1 & -> & (_ & _ & _ & U)); [|done|done|].
  { split; [change (parm_p0 s .& 2 <> 0); by rewrite S1|]. split; [done|]. split; [done|]. left. split; [done|].
    unfold v42bis_compression_control. by rewrite S4. }
  cbn [app mbind option_bind] in *. destruct U as [[E _]|(_ & ws & dd & Hl & Hw & Fd & Fo & C)]; [by destruct Hne|].
  destruct (v42_flush_spec k n7 Hk Hn7 (concat ds) (compress s1) dd ws Fo Hl Hw)
    as (ss' & ws' & dd' & pad & E1 & W & El & Hpad & Bs & Fd' & G & Cs).
  unfold v42bis_compress_flush. rewrite E1. cbn [mbind option_bind]. eexists. split; [reflexivity|].
  change (compress (s1 <| compress := ss' |>)) with ss'. intros bufs Eb.
  destruct (decompress_calls_spec k n7 Hk dd' pad bufs r 0 0 (decompress_init md) [] (ws ++ ws')) as (r' & b' & n' & Er & (_ & _ & _ & Ed)).
  - split; [by rewrite R1|]. split; [done|]. split; [done|]. rewrite R5. symmetry. by apply with_no_bits.
  - apply on_top_nil.
  - lia.
  - apply bytes_concat. by rewrite Eb.
  - done.
  - by rewrite Eb.
  - done.
  - by rewrite feed_app, Fd.
  - done.
  - done.
  - exists r'. split; [done|]. unfold v42bis_decompress_flush. change (decompress (r' <| decompress := ?d |>)) with d. rewrite Ed.
    rewrite <- G. destruct (hand_over_got n7 dd') as [<- _]. unfold got, hand_over.
    change (dec_output (with_bits b' n' dd')) with (dec_output dd'). destruct (dec_output dd') as [|y l] eqn:E; [by rewrite E, app_nil_r|].
    by rewrite app_nil_r.
Qed.

Definition example_data : list (list Z) := [[1; 2; 3; 1; 2; 3]; []; [1; 2; 3; 0; 0; 0; 0; 0; 255]; repeat 7 30].

Lemma concat_singles {A} (l : list A) : concat (map (fun x => [x]) l) = l.
Proof. induction l as [|x l IH]; [done|]. cbn [map concat app]. by rewrite IH. Qed.

Lemma v42bis_roundtrip_witness :
  match v42bis_init 3 512 6 5 300, v42bis_init 1 512 6 300 256 with
  | Some s, Some r =>
      exists s' r', (s1 ← compress_calls (v42bis_compression_control s V42BIS_COMPRESSION_MODE_ALWAYS) example_data; v42bis_compress_flush s1) = Some s' /\
        decompress_calls r (map (fun x => [x]) (concat (frames (compress s')))) = Some r' /\
        concat (data (decompress (v42bis_decompress_flush r'))) = concat example_data
  | _, _ => False
  end.
Proof.
  destruct (v42bis_init 3 512 6 5 300) as [s|] eqn:Es; [|discriminate]. destruct (v42bis_init 1 512 6 300 256) as [r|] eqn:Er; [|discriminate].
  destruct (v42bis_roundtrip 9 6 V42BIS_COMPRESSION_MODE_ALWAYS 3 1 5 256 300 300 example_data s r) as (s' & E & F).
  - lia.
  - exact Es.
  - discriminate.
  - exact Er.
  - discriminate.
  - by_decide.
  - discriminate.
  - discriminate.
  - exists s'. destruct (F (map (fun x => [x]) (concat (frames (compress s')))) (concat_singles _)) as (r' & E' & G).
    exists r'. split; [exact E|split; [exact E'|exact G]].
Defined.
