(* ===== verification/V42bisSafe.v ===== *)
(** * The V.42bis compressor is safe

    With a dictionary of a power of two, whatever is compressed before the flush, and
    however the mode is changed in between, the dictionary stays well-formed, and
    neither [v42bis_compress] nor [v42bis_compression_control] leaves an array, shifts
    too far or loops for ever. *)
From stdpp Require Import gmap.
From S2P Require Import Prelude BitOps HdlcFrame V42bis V42bisDict V42bisNodes V42bisTx V42bisLink V42bisTrip.

Inductive comp_call :=
| Compress (buf : list Z)
| Control (mode : Z).

Definition comp_step (s : v42bis_state_t) (c : comp_call) : option v42bis_state_t :=
  match c with
  | Compress buf => v42bis_compress s buf
  | Control mode => Some (v42bis_compression_control s mode)
  end.

Fixpoint comp_run (s : v42bis_state_t) (cs : list comp_call) : option v42bis_state_t :=
  match cs with
  | [] => Some s
  | c :: cs => s ← comp_step s c; comp_run s cs
  end.

Definition call_ok (c : comp_call) : Prop := match c with Compress buf => bytes buf | Control _ => True end.

#[export] Instance call_ok_dec c : Decision (call_ok c).
Proof. destruct c; cbn; apply _. Defined.

Definition with_mode (m c : Z) (ss : v42bis_compress_state_t) : v42bis_compress_state_t :=
  ss <| compression_mode := m |> <| change_transparency := c |>.

Lemma with_mode_again m c m' c' ss : with_mode m c (with_mode m' c' ss) = with_mode m c ss.
Proof. done. Qed.

Lemma with_mode_same ss : with_mode (compression_mode ss) (change_transparency ss) ss = ss.
Proof. by destruct ss. Qed.

Section safe.
Context (k n7 : Z).

Abbreviation n2 := (2 ^ k).

Hypothesis Hk : 9 <= k <= 12.
Hypothesis Hn7 : 6 <= n7 <= V42BIS_MAX_STRING_SIZE.

(** A compressor as [v42bis_init] leaves it, but for the mode. *)
Definition fresh (ss : v42bis_compress_state_t) : Prop :=
  exists mf m c, ss = with_mode m c (compress_init mf).

(** Between calls: nothing compressed yet, or a dictionary and a string in it. *)
Definition well_formed (s : v42bis_state_t) : Prop :=
  parm_p0 s .& 2 <> 0 /\ parm_n2 s = n2 /\ parm_n7 s = n7 /\
  (fresh (compress s) \/ comp_first (compress s) = false /\ able k n7 (compress s)).

Lemma fresh_able ss o : fresh ss -> is_byte o -> comp_first ss = true /\ comp_transparent ss = false /\
  comp_first (started ss o) = false /\ able k n7 (started ss o).
Proof.
  intros (mf & m & c & ->) Ho. split; [done|]. split; [done|]. split; [done|]. exists ∅, [o]. split.
  - split; [|split; [change (9 <= 9 <= k); lia|done]| |by apply new_table|done].
    + exists []. split; [exists []; split; [apply on_top_nil|done]|done|constructor|done|].
      change ((if mf <? 1024 then mf else 1024) <= 1024). destruct (Z.ltb_spec mf 1024); lia.
    + by apply new_represents.
  - split; [by apply root_spells|]. split; [change (o + 3 < 512); unfold is_byte in Ho; lia|by right].
Qed.

Lemma compress_well_formed s buf : well_formed s -> bytes buf -> exists s', v42bis_compress s buf = Some s' /\ well_formed s'.
Proof.
  intros (P1 & P2 & P3 & F) Hb. unfold v42bis_compress. rewrite (proj2 (Z.eqb_neq _ _)) by done. rewrite P2, P3.
  assert (forall ss, comp_first ss = false -> able k n7 ss -> forall l, bytes l ->
    exists s', (ss ← compress_octets n2 n7 ss l; Some (s <| compress := ss |>)) = Some s' /\ well_formed s') as K.
  { intros ss F1 A l Bl. destruct (compress_octets_able k n7 Hk (size_limits k n7 Hk Hn7) l ss A Bl) as (ss' & -> & A' & F').
    cbn [mbind option_bind]. eexists. split; [reflexivity|]. split; [exact P1|]. split; [exact P2|]. split; [exact P3|].
    right. split; [by rewrite <- F1|exact A']. }
  destruct F as [F|[F A]].
  - destruct buf as [|o buf].
    { cbn [mbind option_bind compress_octets]. eexists. split; [reflexivity|]. split_and!; try done. by left. }
    apply Forall_cons_1 in Hb as [Ho Hb]. destruct (fresh_able (compress s) o F Ho) as (F1 & F2 & F3 & A). rewrite F1.
    change (comp_transparent (compress s <| string_code := ?c |>)) with (comp_transparent (compress s)). rewrite F2.
    cbn [mbind option_bind]. exact (K (started (compress s) o) F3 A buf Hb).
  - destruct buf as [|o buf]; [|rewrite F]; cbn [mbind option_bind]; by apply K.
Qed.

Lemma control_well_formed s mode : well_formed s -> well_formed (v42bis_compression_control s mode).
Proof.
  intros (P1 & P2 & P3 & F). split; [exact P1|]. split; [exact P2|]. split; [exact P3|].
  assert (exists c, compress (v42bis_compression_control s mode) = with_mode mode c (compress s)) as (c & ->).
  { unfold v42bis_compression_control. destruct (mode =? V42BIS_COMPRESSION_MODE_ALWAYS); [by exists (-1)|].
    destruct (mode =? V42BIS_COMPRESSION_MODE_NEVER); [by exists 1|]. exists (change_transparency (compress s)).
    destruct s as [? [] ? ? ? ?]. done. }
  destruct F as [(mf & m & c0 & ->)|[F (T & t & O & M)]]; [left; exists mf, mode, c; apply with_mode_again|right; split; [exact F|]].
  exists T, t. split; [|exact M]. apply (comp_ok_same k n7 T (compress s)); try done; [|apply O].
  by apply (says_on (compress s) []), same_line_says; [apply O|].
Qed.

Lemma run_well_formed cs : forall s, well_formed s -> Forall call_ok cs -> exists s', comp_run s cs = Some s' /\ well_formed s'.
Proof.
  induction cs as [|c cs IH]; intros s W Hc; [by exists s|]. apply Forall_cons_1 in Hc as [H1 Hc]. cbn [comp_run].
  assert (exists s1, comp_step s c = Some s1 /\ well_formed s1) as (s1 & -> & W1); [|cbn [mbind option_bind]; by apply IH].
  destruct c as [buf|mode]; [by apply compress_well_formed|]. eexists. split; [reflexivity|]. by apply control_well_formed.
Qed.
End safe.

(** C13: the state of the compressor between calls - nothing compressed yet, or an
    array of nodes that represents a tree of strings, with the string being matched
    in it, the size of the code words within bounds and the bit buffer with less
    than an octet - is kept by any sequence of [v42bis_compress], with any octets in calls of any
    sizes, and [v42bis_compression_control], with any mode at any time, from
    [v42bis_init] on with a dictionary of 512, 1024, 2048 or 4096 codes; and each of
    these calls returns.  [v42bis_compress_flush] is not among them, it leaves a
    negative count of bits, and neither are dictionaries of other sizes, with which
    the compressor sends codes that no dictionary has. *)
Theorem v42bis_compress_well_formed (k p0 n7 mf md : Z) (s : v42bis_state_t) (cs : list comp_call) :
  9 <= k <= 12 -> v42bis_init p0 (2 ^ k) n7 mf md = Some s -> p0 .& 2 <> 0 -> Forall call_ok cs ->
  exists s', comp_run s cs = Some s' /\ well_formed k n7 s'.
Proof.
  intros Hk Is Hp Hc. destruct (init_limits _ _ _ _ _ _ Is) as (Hn7 & S1 & S2 & S3 & S4 & _).
  apply run_well_formed; [done|done| |done]. split; [by rewrite S1|]. split; [done|]. split; [done|]. left.
  exists mf, V42BIS_COMPRESSION_MODE_DYNAMIC, 0. rewrite S4. symmetry. apply (with_mode_same (compress_init mf)).
Qed.

Lemma v42bis_compress_well_formed_witness :
  match v42bis_init 2 1024 20 100 100 with
  | Some s => exists s', comp_run s [Compress [1; 2; 3; 1; 2]; Control 2; Compress [3; 0; 0]; Control 1; Compress (repeat 9 40)] = Some s' /\
                         well_formed 10 20 s'
  | None => False
  end.
Proof.
  destruct (v42bis_init 2 1024 20 100 100) as [s|] eqn:Es; [|discriminate].
  apply (v42bis_compress_well_formed 10 2 20 100 100 s).
  - lia.
  - exact Es.
  - discriminate.
  - by_decide.
Defined.

(** ** Outside the conditions of the round trip *)

(** The octets of a list of bits. *)
Fixpoint pack_octets (n : nat) (l : list bool) : list Z :=
  match n with
  | O => []
  | S n => of_lsb (rev (take 8 (l ++ repeat false 8))) :: pack_octets n (drop 8 l)
  end.

(** Code words of nine bits. *)
Definition code_octets (codes : list Z) : list Z :=
  let l := flat_map (msb_bits 9) codes in pack_octets ((length l + 7) / 8) l.

(** All the entries of a dictionary of 512, each a string of two octets; then the
    code of the entry that is recovered next, an octet, and that code again. *)
Definition hostile_codes : list Z :=
  map (fun i => 3 + (if i mod 2 =? 0 then i / 2 else 128 + i / 2)) (seqZ 0 254) ++ [260; 3; 260].

(** The entry whose code is used while it is recovered becomes its own parent:
    looking for its string the decompressor leaves the array. *)
Example v42bis_decompress_leaves_the_array :
  match v42bis_init 1 512 6 1000 1000 with
  | Some s => v42bis_decompress s (code_octets hostile_codes)
  | None => Some (0, {| parm_p0 := 0; compress := compress_init 0; decompress := decompress_init 0; parm_n1 := 0; parm_n2 := 0; parm_n7 := 0 |})
  end = None.
Proof. vm_compute. reflexivity. Qed.

(** With a dictionary of 600 codes, code words of ten bits and no entry for the
    next octet, the search gives 600, which is taken for an entry: the compressor
    goes on from a code that has no string. *)
Definition pairs : list Z := map (fun i => if i mod 2 =? 0 then i / 2 else 128 + i / 2) (seqZ 0 256).

Example v42bis_compress_unknown_code :
  (s ← v42bis_init 2 600 6 1000 1000; s ← v42bis_compress s (pairs ++ [0; 0]); Some (string_code (compress s))) = Some 600.
Proof. vm_compute. reflexivity. Qed.
