(* ===== verification/T4Tables.v ===== *)
(** * The tables of T.4 (src/spandsp-0.0.6/src/t4_tx.c, t4_t6_decode_states.h, faxfont.h)

    The code words of the encoder, the tables in which the decoder looks up the
    bits ahead, and the letters of the header line. *)
From S2P Require Import Prelude.

(** ** Code words

    The bits of a code word, the first one lowest, and the length of the run. *)
Record t4_run_table_entry_t := C {
  code_length : Z;
  code : Z;
  code_run_length : Z;
}.

Definition t4_white_codes : list t4_run_table_entry_t :=
  [ C 8 0xAC 0; C 6 0x38 1; C 4 0xE 2; C 4 0x1 3; C 4 0xD 4; C 4 0x3 5;
    C 4 0x7 6; C 4 0xF 7; C 5 0x19 8; C 5 0x5 9; C 5 0x1C 10; C 5 0x2 11;
    C 6 0x4 12; C 6 0x30 13; C 6 0xB 14; C 6 0x2B 15; C 6 0x15 16; C 6 0x35 17;
    C 7 0x72 18; C 7 0x18 19; C 7 0x8 20; C 7 0x74 21; C 7 0x60 22; C 7 0x10 23;
    C 7 0xA 24; C 7 0x6A 25; C 7 0x64 26; C 7 0x12 27; C 7 0xC 28; C 8 0x40 29;
    C 8 0xC0 30; C 8 0x58 31; C 8 0xD8 32; C 8 0x48 33; C 8 0xC8 34; C 8 0x28 35;
    C 8 0xA8 36; C 8 0x68 37; C 8 0xE8 38; C 8 0x14 39; C 8 0x94 40; C 8 0x54 41;
    C 8 0xD4 42; C 8 0x34 43; C 8 0xB4 44; C 8 0x20 45; C 8 0xA0 46; C 8 0x50 47;
    C 8 0xD0 48; C 8 0x4A 49; C 8 0xCA 50; C 8 0x2A 51; C 8 0xAA 52; C 8 0x24 53;
    C 8 0xA4 54; C 8 0x1A 55; C 8 0x9A 56; C 8 0x5A 57; C 8 0xDA 58; C 8 0x52 59;
    C 8 0xD2 60; C 8 0x4C 61; C 8 0xCC 62; C 8 0x2C 63; C 5 0x1B 64; C 5 0x9 128;
    C 6 0x3A 192; C 7 0x76 256; C 8 0x6C 320; C 8 0xEC 384; C 8 0x26 448; C 8 0xA6 512;
    C 8 0x16 576; C 8 0xE6 640; C 9 0x66 704; C 9 0x166 768; C 9 0x96 832; C 9 0x196 896;
    C 9 0x56 960; C 9 0x156 1024; C 9 0xD6 1088; C 9 0x1D6 1152; C 9 0x36 1216; C 9 0x136 1280;
    C 9 0xB6 1344; C 9 0x1B6 1408; C 9 0x32 1472; C 9 0x132 1536; C 9 0xB2 1600; C 6 0x6 1664;
    C 9 0x1B2 1728; C 11 0x80 1792; C 11 0x180 1856; C 11 0x580 1920; C 12 0x480 1984; C 12 0xC80 2048;
    C 12 0x280 2112; C 12 0xA80 2176; C 12 0x680 2240; C 12 0xE80 2304; C 12 0x380 2368; C 12 0xB80 2432;
    C 12 0x780 2496; C 12 0xF80 2560 ].

Definition t4_black_codes : list t4_run_table_entry_t :=
  [ C 10 0x3B0 0; C 3 0x2 1; C 2 0x3 2; C 2 0x1 3; C 3 0x6 4; C 4 0xC 5;
    C 4 0x4 6; C 5 0x18 7; C 6 0x28 8; C 6 0x8 9; C 7 0x10 10; C 7 0x50 11;
    C 7 0x70 12; C 8 0x20 13; C 8 0xE0 14; C 9 0x30 15; C 10 0x3A0 16; C 10 0x60 17;
    C 10 0x40 18; C 11 0x730 19; C 11 0xB0 20; C 11 0x1B0 21; C 11 0x760 22; C 11 0xA0 23;
    C 11 0x740 24; C 11 0xC0 25; C 12 0x530 26; C 12 0xD30 27; C 12 0x330 28; C 12 0xB30 29;
    C 12 0x160 30; C 12 0x960 31; C 12 0x560 32; C 12 0xD60 33; C 12 0x4B0 34; C 12 0xCB0 35;
    C 12 0x2B0 36; C 12 0xAB0 37; C 12 0x6B0 38; C 12 0xEB0 39; C 12 0x360 40; C 12 0xB60 41;
    C 12 0x5B0 42; C 12 0xDB0 43; C 12 0x2A0 44; C 12 0xAA0 45; C 12 0x6A0 46; C 12 0xEA0 47;
    C 12 0x260 48; C 12 0xA60 49; C 12 0x4A0 50; C 12 0xCA0 51; C 12 0x240 52; C 12 0xEC0 53;
    C 12 0x1C0 54; C 12 0xE40 55; C 12 0x140 56; C 12 0x1A0 57; C 12 0x9A0 58; C 12 0xD40 59;
    C 12 0x340 60; C 12 0x5A0 61; C 12 0x660 62; C 12 0xE60 63; C 10 0x3C0 64; C 12 0x130 128;
    C 12 0x930 192; C 12 0xDA0 256; C 12 0xCC0 320; C 12 0x2C0 384; C 12 0xAC0 448; C 13 0x6C0 512;
    C 13 0x16C0 576; C 13 0xA40 640; C 13 0x1A40 704; C 13 0x640 768; C 13 0x1640 832; C 13 0x9C0 896;
    C 13 0x19C0 960; C 13 0x5C0 1024; C 13 0x15C0 1088; C 13 0xDC0 1152; C 13 0x1DC0 1216; C 13 0x940 1280;
    C 13 0x1940 1344; C 13 0x540 1408; C 13 0x1540 1472; C 13 0xB40 1536; C 13 0x1B40 1600; C 13 0x4C0 1664;
    C 13 0x14C0 1728; C 11 0x80 1792; C 11 0x180 1856; C 11 0x580 1920; C 12 0x480 1984; C 12 0xC80 2048;
    C 12 0x280 2112; C 12 0xA80 2176; C 12 0x680 2240; C 12 0xE80 2304; C 12 0x380 2368; C 12 0xB80 2432;
    C 12 0x780 2496; C 12 0xF80 2560 ].

(** The modes of a two-dimensional row: VR3, VR2, VR1, V0, VL1, VL2, VL3,
    horizontal and pass. *)
Definition codes : list t4_run_table_entry_t :=
  [ C 7 0x60 0; C 6 0x30 0; C 3 0x6 0; C 1 0x1 0; C 3 0x2 0; C 6 0x10 0;
    C 7 0x20 0; C 3 0x4 0; C 4 0x8 0 ].

(** ** Decoding

    The entry for the bits ahead says what code word they begin with. *)
Inductive t4_decode_state :=
  | S_Null | S_Pass | S_Horiz | S_Vert | S_Ext | S_TermW | S_TermB
  | S_MakeUpW | S_MakeUpB | S_MakeUp | S_EOL.

#[export] Instance t4_decode_state_eq_dec : EqDecision t4_decode_state.
Proof. solve_decision. Defined.

Record t4_table_entry_t := E {
  state : t4_decode_state;
  width : Z;
  param : Z;
}.

Definition t4_2d_table : list t4_table_entry_t :=
  [ E S_Null 1 0; E S_Vert 1 0; E S_Vert 3 (-1); E S_Vert 1 0; E S_Horiz 3 0; E S_Vert 1 0;
    E S_Vert 3 1; E S_Vert 1 0; E S_Pass 4 0; E S_Vert 1 0; E S_Vert 3 (-1); E S_Vert 1 0;
    E S_Horiz 3 0; E S_Vert 1 0; E S_Vert 3 1; E S_Vert 1 0; E S_Vert 6 (-2); E S_Vert 1 0;
    E S_Vert 3 (-1); E S_Vert 1 0; E S_Horiz 3 0; E S_Vert 1 0; E S_Vert 3 1; E S_Vert 1 0;
    E S_Pass 4 0; E S_Vert 1 0; E S_Vert 3 (-1); E S_Vert 1 0; E S_Horiz 3 0; E S_Vert 1 0;
    E S_Vert 3 1; E S_Vert 1 0; E S_Vert 7 (-3); E S_Vert 1 0; E S_Vert 3 (-1); E S_Vert 1 0;
    E S_Horiz 3 0; E S_Vert 1 0; E S_Vert 3 1; E S_Vert 1 0; E S_Pass 4 0; E S_Vert 1 0;
    E S_Vert 3 (-1); E S_Vert 1 0; E S_Horiz 3 0; E S_Vert 1 0; E S_Vert 3 1; E S_Vert 1 0;
    E S_Vert 6 2; E S_Vert 1 0; E S_Vert 3 (-1); E S_Vert 1 0; E S_Horiz 3 0; E S_Vert 1 0;
    E S_Vert 3 1; E S_Vert 1 0; E S_Pass 4 0; E S_Vert 1 0; E S_Vert 3 (-1); E S_Vert 1 0;
    E S_Horiz 3 0; E S_Vert 1 0; E S_Vert 3 1; E S_Vert 1 0; E S_Ext 7 0; E S_Vert 1 0;
    E S_Vert 3 (-1); E S_Vert 1 0; E S_Horiz 3 0; E S_Vert 1 0; E S_Vert 3 1; E S_Vert 1 0;
    E S_Pass 4 0; E S_Vert 1 0; E S_Vert 3 (-1); E S_Vert 1 0; E S_Horiz 3 0; E S_Vert 1 0;
    E S_Vert 3 1; E S_Vert 1 0; E S_Vert 6 (-2); E S_Vert 1 0; E S_Vert 3 (-1); E S_Vert 1 0;
    E S_Horiz 3 0; E S_Vert 1 0; E S_Vert 3 1; E S_Vert 1 0; E S_Pass 4 0; E S_Vert 1 0;
    E S_Vert 3 (-1); E S_Vert 1 0; E S_Horiz 3 0; E S_Vert 1 0; E S_Vert 3 1; E S_Vert 1 0;
    E S_Vert 7 3; E S_Vert 1 0; E S_Vert 3 (-1); E S_Vert 1 0; E S_Horiz 3 0; E S_Vert 1 0;
    E S_Vert 3 1; E S_Vert 1 0; E S_Pass 4 0; E S_Vert 1 0; E S_Vert 3 (-1); E S_Vert 1 0;
    E S_Horiz 3 0; E S_Vert 1 0; E S_Vert 3 1; E S_Vert 1 0; E S_Vert 6 2; E S_Vert 1 0;
    E S_Vert 3 (-1); E S_Vert 1 0; E S_Horiz 3 0; E S_Vert 1 0; E S_Vert 3 1; E S_Vert 1 0;
    E S_Pass 4 0; E S_Vert 1 0; E S_Vert 3 (-1); E S_Vert 1 0; E S_Horiz 3 0; E S_Vert 1 0;
    E S_Vert 3 1; E S_Vert 1 0 ].

Definition t4_1d_white_table : list t4_table_entry_t :=
  [ E S_Null 1 0; E S_TermW 4 3; E S_TermW 5 11; E S_TermW 4 5; E S_TermW 6 12; E S_TermW 5 9;
    E S_MakeUpW 6 1664; E S_TermW 4 6; E S_TermW 7 20; E S_MakeUpW 5 128; E S_TermW 7 24; E S_TermW 6 14;
    E S_TermW 7 28; E S_TermW 4 4; E S_TermW 4 2; E S_TermW 4 7; E S_TermW 7 23; E S_TermW 4 3;
    E S_TermW 7 27; E S_TermW 4 5; E S_TermW 8 39; E S_TermW 6 16; E S_MakeUpW 8 576; E S_TermW 4 6;
    E S_TermW 7 19; E S_TermW 5 8; E S_TermW 8 55; E S_MakeUpW 5 64; E S_TermW 5 10; E S_TermW 4 4;
    E S_TermW 4 2; E S_TermW 4 7; E S_TermW 8 45; E S_TermW 4 3; E S_TermW 5 11; E S_TermW 4 5;
    E S_TermW 8 53; E S_TermW 5 9; E S_MakeUpW 8 448; E S_TermW 4 6; E S_TermW 8 35; E S_MakeUpW 5 128;
    E S_TermW 8 51; E S_TermW 6 15; E S_TermW 8 63; E S_TermW 4 4; E S_TermW 4 2; E S_TermW 4 7;
    E S_TermW 6 13; E S_TermW 4 3; E S_MakeUpW 9 1472; E S_TermW 4 5; E S_TermW 8 43; E S_TermW 6 17;
    E S_MakeUpW 9 1216; E S_TermW 4 6; E S_TermW 6 1; E S_TermW 5 8; E S_MakeUpW 6 192; E S_MakeUpW 5 64;
    E S_TermW 5 10; E S_TermW 4 4; E S_TermW 4 2; E S_TermW 4 7; E S_TermW 8 29; E S_TermW 4 3;
    E S_TermW 5 11; E S_TermW 4 5; E S_TermW 6 12; E S_TermW 5 9; E S_MakeUpW 6 1664; E S_TermW 4 6;
    E S_TermW 8 33; E S_MakeUpW 5 128; E S_TermW 8 49; E S_TermW 6 14; E S_TermW 8 61; E S_TermW 4 4;
    E S_TermW 4 2; E S_TermW 4 7; E S_TermW 8 47; E S_TermW 4 3; E S_TermW 8 59; E S_TermW 4 5;
    E S_TermW 8 41; E S_TermW 6 16; E S_MakeUpW 9 960; E S_TermW 4 6; E S_TermW 8 31; E S_TermW 5 8;
    E S_TermW 8 57; E S_MakeUpW 5 64; E S_TermW 5 10; E S_TermW 4 4; E S_TermW 4 2; E S_TermW 4 7;
    E S_TermW 7 22; E S_TermW 4 3; E S_TermW 5 11; E S_TermW 4 5; E S_TermW 7 26; E S_TermW 5 9;
    E S_MakeUpW 9 704; E S_TermW 4 6; E S_TermW 8 37; E S_MakeUpW 5 128; E S_TermW 7 25; E S_TermW 6 15;
    E S_MakeUpW 8 320; E S_TermW 4 4; E S_TermW 4 2; E S_TermW 4 7; E S_TermW 6 13; E S_TermW 4 3;
    E S_TermW 7 18; E S_TermW 4 5; E S_TermW 7 21; E S_TermW 6 17; E S_MakeUpW 7 256; E S_TermW 4 6;
    E S_TermW 6 1; E S_TermW 5 8; E S_MakeUpW 6 192; E S_MakeUpW 5 64; E S_TermW 5 10; E S_TermW 4 4;
    E S_TermW 4 2; E S_TermW 4 7; E S_MakeUp 11 1792; E S_TermW 4 3; E S_TermW 5 11; E S_TermW 4 5;
    E S_TermW 6 12; E S_TermW 5 9; E S_MakeUpW 6 1664; E S_TermW 4 6; E S_TermW 7 20; E S_MakeUpW 5 128;
    E S_TermW 7 24; E S_TermW 6 14; E S_TermW 7 28; E S_TermW 4 4; E S_TermW 4 2; E S_TermW 4 7;
    E S_TermW 7 23; E S_TermW 4 3; E S_TermW 7 27; E S_TermW 4 5; E S_TermW 8 40; E S_TermW 6 16;
    E S_MakeUpW 9 832; E S_TermW 4 6; E S_TermW 7 19; E S_TermW 5 8; E S_TermW 8 56; E S_MakeUpW 5 64;
    E S_TermW 5 10; E S_TermW 4 4; E S_TermW 4 2; E S_TermW 4 7; E S_TermW 8 46; E S_TermW 4 3;
    E S_TermW 5 11; E S_TermW 4 5; E S_TermW 8 54; E S_TermW 5 9; E S_MakeUpW 8 512; E S_TermW 4 6;
    E S_TermW 8 36; E S_MakeUpW 5 128; E S_TermW 8 52; E S_TermW 6 15; E S_TermW 8 0; E S_TermW 4 4;
    E S_TermW 4 2; E S_TermW 4 7; E S_TermW 6 13; E S_TermW 4 3; E S_MakeUpW 9 1600; E S_TermW 4 5;
    E S_TermW 8 44; E S_TermW 6 17; E S_MakeUpW 9 1344; E S_TermW 4 6; E S_TermW 6 1; E S_TermW 5 8;
    E S_MakeUpW 6 192; E S_MakeUpW 5 64; E S_TermW 5 10; E S_TermW 4 4; E S_TermW 4 2; E S_TermW 4 7;
    E S_TermW 8 30; E S_TermW 4 3; E S_TermW 5 11; E S_TermW 4 5; E S_TermW 6 12; E S_TermW 5 9;
    E S_MakeUpW 6 1664; E S_TermW 4 6; E S_TermW 8 34; E S_MakeUpW 5 128; E S_TermW 8 50; E S_TermW 6 14;
    E S_TermW 8 62; E S_TermW 4 4; E S_TermW 4 2; E S_TermW 4 7; E S_TermW 8 48; E S_TermW 4 3;
    E S_TermW 8 60; E S_TermW 4 5; E S_TermW 8 42; E S_TermW 6 16; E S_MakeUpW 9 1088; E S_TermW 4 6;
    E S_TermW 8 32; E S_TermW 5 8; E S_TermW 8 58; E S_MakeUpW 5 64; E S_TermW 5 10; E S_TermW 4 4;
    E S_TermW 4 2; E S_TermW 4 7; E S_TermW 7 22; E S_TermW 4 3; E S_TermW 5 11; E S_TermW 4 5;
    E S_TermW 7 26; E S_TermW 5 9; E S_MakeUpW 8 640; E S_TermW 4 6; E S_TermW 8 38; E S_MakeUpW 5 128;
    E S_TermW 7 25; E S_TermW 6 15; E S_MakeUpW 8 384; E S_TermW 4 4; E S_TermW 4 2; E S_TermW 4 7;
    E S_TermW 6 13; E S_TermW 4 3; E S_TermW 7 18; E S_TermW 4 5; E S_TermW 7 21; E S_TermW 6 17;
    E S_MakeUpW 7 256; E S_TermW 4 6; E S_TermW 6 1; E S_TermW 5 8; E S_MakeUpW 6 192; E S_MakeUpW 5 64;
    E S_TermW 5 10; E S_TermW 4 4; E S_TermW 4 2; E S_TermW 4 7; E S_Null 1 0; E S_TermW 4 3;
    E S_TermW 5 11; E S_TermW 4 5; E S_TermW 6 12; E S_TermW 5 9; E S_MakeUpW 6 1664; E S_TermW 4 6;
    E S_TermW 7 20; E S_MakeUpW 5 128; E S_TermW 7 24; E S_TermW 6 14; E S_TermW 7 28; E S_TermW 4 4;
    E S_TermW 4 2; E S_TermW 4 7; E S_TermW 7 23; E S_TermW 4 3; E S_TermW 7 27; E S_TermW 4 5;
    E S_TermW 8 39; E S_TermW 6 16; E S_MakeUpW 8 576; E S_TermW 4 6; E S_TermW 7 19; E S_TermW 5 8;
    E S_TermW 8 55; E S_MakeUpW 5 64; E S_TermW 5 10; E S_TermW 4 4; E S_TermW 4 2; E S_TermW 4 7;
    E S_TermW 8 45; E S_TermW 4 3; E S_TermW 5 11; E S_TermW 4 5; E S_TermW 8 53; E S_TermW 5 9;
    E S_MakeUpW 8 448; E S_TermW 4 6; E S_TermW 8 35; E S_MakeUpW 5 128; E S_TermW 8 51; E S_TermW 6 15;
    E S_TermW 8 63; E S_TermW 4 4; E S_TermW 4 2; E S_TermW 4 7; E S_TermW 6 13; E S_TermW 4 3;
    E S_MakeUpW 9 1536; E S_TermW 4 5; E S_TermW 8 43; E S_TermW 6 17; E S_MakeUpW 9 1280; E S_TermW 4 6;
    E S_TermW 6 1; E S_TermW 5 8; E S_MakeUpW 6 192; E S_MakeUpW 5 64; E S_TermW 5 10; E S_TermW 4 4;
    E S_TermW 4 2; E S_TermW 4 7; E S_TermW 8 29; E S_TermW 4 3; E S_TermW 5 11; E S_TermW 4 5;
    E S_TermW 6 12; E S_TermW 5 9; E S_MakeUpW 6 1664; E S_TermW 4 6; E S_TermW 8 33; E S_MakeUpW 5 128;
    E S_TermW 8 49; E S_TermW 6 14; E S_TermW 8 61; E S_TermW 4 4; E S_TermW 4 2; E S_TermW 4 7;
    E S_TermW 8 47; E S_TermW 4 3; E S_TermW 8 59; E S_TermW 4 5; E S_TermW 8 41; E S_TermW 6 16;
    E S_MakeUpW 9 1024; E S_TermW 4 6; E S_TermW 8 31; E S_TermW 5 8; E S_TermW 8 57; E S_MakeUpW 5 64;
    E S_TermW 5 10; E S_TermW 4 4; E S_TermW 4 2; E S_TermW 4 7; E S_TermW 7 22; E S_TermW 4 3;
    E S_TermW 5 11; E S_TermW 4 5; E S_TermW 7 26; E S_TermW 5 9; E S_MakeUpW 9 768; E S_TermW 4 6;
    E S_TermW 8 37; E S_MakeUpW 5 128; E S_TermW 7 25; E S_TermW 6 15; E S_MakeUpW 8 320; E S_TermW 4 4;
    E S_TermW 4 2; E S_TermW 4 7; E S_TermW 6 13; E S_TermW 4 3; E S_TermW 7 18; E S_TermW 4 5;
    E S_TermW 7 21; E S_TermW 6 17; E S_MakeUpW 7 256; E S_TermW 4 6; E S_TermW 6 1; E S_TermW 5 8;
    E S_MakeUpW 6 192; E S_MakeUpW 5 64; E S_TermW 5 10; E S_TermW 4 4; E S_TermW 4 2; E S_TermW 4 7;
    E S_MakeUp 11 1856; E S_TermW 4 3; E S_TermW 5 11; E S_TermW 4 5; E S_TermW 6 12; E S_TermW 5 9;
    E S_MakeUpW 6 1664; E S_TermW 4 6; E S_TermW 7 20; E S_MakeUpW 5 128; E S_TermW 7 24; E S_TermW 6 14;
    E S_TermW 7 28; E S_TermW 4 4; E S_TermW 4 2; E S_TermW 4 7; E S_TermW 7 23; E S_TermW 4 3;
    E S_TermW 7 27; E S_TermW 4 5; E S_TermW 8 40; E S_TermW 6 16; E S_MakeUpW 9 896; E S_TermW 4 6;
    E S_TermW 7 19; E S_TermW 5 8; E S_TermW 8 56; E S_MakeUpW 5 64; E S_TermW 5 10; E S_TermW 4 4;
    E S_TermW 4 2; E S_TermW 4 7; E S_TermW 8 46; E S_TermW 4 3; E S_TermW 5 11; E S_TermW 4 5;
    E S_TermW 8 54; E S_TermW 5 9; E S_MakeUpW 8 512; E S_TermW 4 6; E S_TermW 8 36; E S_MakeUpW 5 128;
    E S_TermW 8 52; E S_TermW 6 15; E S_TermW 8 0; E S_TermW 4 4; E S_TermW 4 2; E S_TermW 4 7;
    E S_TermW 6 13; E S_TermW 4 3; E S_MakeUpW 9 1728; E S_TermW 4 5; E S_TermW 8 44; E S_TermW 6 17;
    E S_MakeUpW 9 1408; E S_TermW 4 6; E S_TermW 6 1; E S_TermW 5 8; E S_MakeUpW 6 192; E S_MakeUpW 5 64;
    E S_TermW 5 10; E S_TermW 4 4; E S_TermW 4 2; E S_TermW 4 7; E S_TermW 8 30; E S_TermW 4 3;
    E S_TermW 5 11; E S_TermW 4 5; E S_TermW 6 12; E S_TermW 5 9; E S_MakeUpW 6 1664; E S_TermW 4 6;
    E S_TermW 8 34; E S_MakeUpW 5 128; E S_TermW 8 50; E S_TermW 6 14; E S_TermW 8 62; E S_TermW 4 4;
    E S_TermW 4 2; E S_TermW 4 7; E S_TermW 8 48; E S_TermW 4 3; E S_TermW 8 60; E S_TermW 4 5;
    E S_TermW 8 42; E S_TermW 6 16; E S_MakeUpW 9 1152; E S_TermW 4 6; E S_TermW 8 32; E S_TermW 5 8;
    E S_TermW 8 58; E S_MakeUpW 5 64; E S_TermW 5 10; E S_TermW 4 4; E S_TermW 4 2; E S_TermW 4 7;
    E S_TermW 7 22; E S_TermW 4 3; E S_TermW 5 11; E S_TermW 4 5; E S_TermW 7 26; E S_TermW 5 9;
    E S_MakeUpW 8 640; E S_TermW 4 6; E S_TermW 8 38; E S_MakeUpW 5 128; E S_TermW 7 25; E S_TermW 6 15;
    E S_MakeUpW 8 384; E S_TermW 4 4; E S_TermW 4 2; E S_TermW 4 7; E S_TermW 6 13; E S_TermW 4 3;
    E S_TermW 7 18; E S_TermW 4 5; E S_TermW 7 21; E S_TermW 6 17; E S_MakeUpW 7 256; E S_TermW 4 6;
    E S_TermW 6 1; E S_TermW 5 8; E S_MakeUpW 6 192; E S_MakeUpW 5 64; E S_TermW 5 10; E S_TermW 4 4;
    E S_TermW 4 2; E S_TermW 4 7; E S_Null 1 0; E S_TermW 4 3; E S_TermW 5 11; E S_TermW 4 5;
    E S_TermW 6 12; E S_TermW 5 9; E S_MakeUpW 6 1664; E S_TermW 4 6; E S_TermW 7 20; E S_MakeUpW 5 128;
    E S_TermW 7 24; E S_TermW 6 14; E S_TermW 7 28; E S_TermW 4 4; E S_TermW 4 2; E S_TermW 4 7;
    E S_TermW 7 23; E S_TermW 4 3; E S_TermW 7 27; E S_TermW 4 5; E S_TermW 8 39; E S_TermW 6 16;
    E S_MakeUpW 8 576; E S_TermW 4 6; E S_TermW 7 19; E S_TermW 5 8; E S_TermW 8 55; E S_MakeUpW 5 64;
    E S_TermW 5 10; E S_TermW 4 4; E S_TermW 4 2; E S_TermW 4 7; E S_TermW 8 45; E S_TermW 4 3;
    E S_TermW 5 11; E S_TermW 4 5; E S_TermW 8 53; E S_TermW 5 9; E S_MakeUpW 8 448; E S_TermW 4 6;
    E S_TermW 8 35; E S_MakeUpW 5 128; E S_TermW 8 51; E S_TermW 6 15; E S_TermW 8 63; E S_TermW 4 4;
    E S_TermW 4 2; E S_TermW 4 7; E S_TermW 6 13; E S_TermW 4 3; E S_MakeUpW 9 1472; E S_TermW 4 5;
    E S_TermW 8 43; E S_TermW 6 17; E S_MakeUpW 9 1216; E S_TermW 4 6; E S_TermW 6 1; E S_TermW 5 8;
    E S_MakeUpW 6 192; E S_MakeUpW 5 64; E S_TermW 5 10; E S_TermW 4 4; E S_TermW 4 2; E S_TermW 4 7;
    E S_TermW 8 29; E S_TermW 4 3; E S_TermW 5 11; E S_TermW 4 5; E S_TermW 6 12; E S_TermW 5 9;
    E S_MakeUpW 6 1664; E S_TermW 4 6; E S_TermW 8 33; E S_MakeUpW 5 128; E S_TermW 8 49; E S_TermW 6 14;
    E S_TermW 8 61; E S_TermW 4 4; E S_TermW 4 2; E S_TermW 4 7; E S_TermW 8 47; E S_TermW 4 3;
    E S_TermW 8 59; E S_TermW 4 5; E S_TermW 8 41; E S_TermW 6 16; E S_MakeUpW 9 960; E S_TermW 4 6;
    E S_TermW 8 31; E S_TermW 5 8; E S_TermW 8 57; E S_MakeUpW 5 64; E S_TermW 5 10; E S_TermW 4 4;
    E S_TermW 4 2; E S_TermW 4 7; E S_TermW 7 22; E S_TermW 4 3; E S_TermW 5 11; E S_TermW 4 5;
    E S_TermW 7 26; E S_TermW 5 9; E S_MakeUpW 9 704; E S_TermW 4 6; E S_TermW 8 37; E S_MakeUpW 5 128;
    E S_TermW 7 25; E S_TermW 6 15; E S_MakeUpW 8 320; E S_TermW 4 4; E S_TermW 4 2; E S_TermW 4 7;
    E S_TermW 6 13; E S_TermW 4 3; E S_TermW 7 18; E S_TermW 4 5; E S_TermW 7 21; E S_TermW 6 17;
    E S_MakeUpW 7 256; E S_TermW 4 6; E S_TermW 6 1; E S_TermW 5 8; E S_MakeUpW 6 192; E S_MakeUpW 5 64;
    E S_TermW 5 10; E S_TermW 4 4; E S_TermW 4 2; E S_TermW 4 7; E S_MakeUp 12 2112; E S_TermW 4 3;
    E S_TermW 5 11; E S_TermW 4 5; E S_TermW 6 12; E S_TermW 5 9; E S_MakeUpW 6 1664; E S_TermW 4 6;
    E S_TermW 7 20; E S_MakeUpW 5 128; E S_TermW 7 24; E S_TermW 6 14; E S_TermW 7 28; E S_TermW 4 4;
    E S_TermW 4 2; E S_TermW 4 7; E S_TermW 7 23; E S_TermW 4 3; E S_TermW 7 27; E S_TermW 4 5;
    E S_TermW 8 40; E S_TermW 6 16; E S_MakeUpW 9 832; E S_TermW 4 6; E S_TermW 7 19; E S_TermW 5 8;
    E S_TermW 8 56; E S_MakeUpW 5 64; E S_TermW 5 10; E S_TermW 4 4; E S_TermW 4 2; E S_TermW 4 7;
    E S_TermW 8 46; E S_TermW 4 3; E S_TermW 5 11; E S_TermW 4 5; E S_TermW 8 54; E S_TermW 5 9;
    E S_MakeUpW 8 512; E S_TermW 4 6; E S_TermW 8 36; E S_MakeUpW 5 128; E S_TermW 8 52; E S_TermW 6 15;
    E S_TermW 8 0; E S_TermW 4 4; E S_TermW 4 2; E S_TermW 4 7; E S_TermW 6 13; E S_TermW 4 3;
    E S_MakeUpW 9 1600; E S_TermW 4 5; E S_TermW 8 44; E S_TermW 6 17; E S_MakeUpW 9 1344; E S_TermW 4 6;
    E S_TermW 6 1; E S_TermW 5 8; E S_MakeUpW 6 192; E S_MakeUpW 5 64; E S_TermW 5 10; E S_TermW 4 4;
    E S_TermW 4 2; E S_TermW 4 7; E S_TermW 8 30; E S_TermW 4 3; E S_TermW 5 11; E S_TermW 4 5;
    E S_TermW 6 12; E S_TermW 5 9; E S_MakeUpW 6 1664; E S_TermW 4 6; E S_TermW 8 34; E S_MakeUpW 5 128;
    E S_TermW 8 50; E S_TermW 6 14; E S_TermW 8 62; E S_TermW 4 4; E S_TermW 4 2; E S_TermW 4 7;
    E S_TermW 8 48; E S_TermW 4 3; E S_TermW 8 60; E S_TermW 4 5; E S_TermW 8 42; E S_TermW 6 16;
    E S_MakeUpW 9 1088; E S_TermW 4 6; E S_TermW 8 32; E S_TermW 5 8; E S_TermW 8 58; E S_MakeUpW 5 64;
    E S_TermW 5 10; E S_TermW 4 4; E S_TermW 4 2; E S_TermW 4 7; E S_TermW 7 22; E S_TermW 4 3;
    E S_TermW 5 11; E S_TermW 4 5; E S_TermW 7 26; E S_TermW 5 9; E S_MakeUpW 8 640; E S_TermW 4 6;
    E S_TermW 8 38; E S_MakeUpW 5 128; E S_TermW 7 25; E S_TermW 6 15; E S_MakeUpW 8 384; E S_TermW 4 4;
    E S_TermW 4 2; E S_TermW 4 7; E S_TermW 6 13; E S_TermW 4 3; E S_TermW 7 18; E S_TermW 4 5;
    E S_TermW 7 21; E S_TermW 6 17; E S_MakeUpW 7 256; E S_TermW 4 6; E S_TermW 6 1; E S_TermW 5 8;
    E S_MakeUpW 6 192; E S_MakeUpW 5 64; E S_TermW 5 10; E S_TermW 4 4; E S_TermW 4 2; E S_TermW 4 7;
    E S_Null 1 0; E S_TermW 4 3; E S_TermW 5 11; E S_TermW 4 5; E S_TermW 6 12; E S_TermW 5 9;
    E S_MakeUpW 6 1664; E S_TermW 4 6; E S_TermW 7 20; E S_MakeUpW 5 128; E S_TermW 7 24; E S_TermW 6 14;
    E S_TermW 7 28; E S_TermW 4 4; E S_TermW 4 2; E S_TermW 4 7; E S_TermW 7 23; E S_TermW 4 3;
    E S_TermW 7 27; E S_TermW 4 5; E S_TermW 8 39; E S_TermW 6 16; E S_MakeUpW 8 576; E S_TermW 4 6;
    E S_TermW 7 19; E S_TermW 5 8; E S_TermW 8 55; E S_MakeUpW 5 64; E S_TermW 5 10; E S_TermW 4 4;
    E S_TermW 4 2; E S_TermW 4 7; E S_TermW 8 45; E S_TermW 4 3; E S_TermW 5 11; E S_TermW 4 5;
    E S_TermW 8 53; E S_TermW 5 9; E S_MakeUpW 8 448; E S_TermW 4 6; E S_TermW 8 35; E S_MakeUpW 5 128;
    E S_TermW 8 51; E S_TermW 6 15; E S_TermW 8 63; E S_TermW 4 4; E S_TermW 4 2; E S_TermW 4 7;
    E S_TermW 6 13; E S_TermW 4 3; E S_MakeUpW 9 1536; E S_TermW 4 5; E S_TermW 8 43; E S_TermW 6 17;
    E S_MakeUpW 9 1280; E S_TermW 4 6; E S_TermW 6 1; E S_TermW 5 8; E S_MakeUpW 6 192; E S_MakeUpW 5 64;
    E S_TermW 5 10; E S_TermW 4 4; E S_TermW 4 2; E S_TermW 4 7; E S_TermW 8 29; E S_TermW 4 3;
    E S_TermW 5 11; E S_TermW 4 5; E S_TermW 6 12; E S_TermW 5 9; E S_MakeUpW 6 1664; E S_TermW 4 6;
    E S_TermW 8 33; E S_MakeUpW 5 128; E S_TermW 8 49; E S_TermW 6 14; E S_TermW 8 61; E S_TermW 4 4;
    E S_TermW 4 2; E S_TermW 4 7; E S_TermW 8 47; E S_TermW 4 3; E S_TermW 8 59; E S_TermW 4 5;
    E S_TermW 8 41; E S_TermW 6 16; E S_MakeUpW 9 1024; E S_TermW 4 6; E S_TermW 8 31; E S_TermW 5 8;
    E S_TermW 8 57; E S_MakeUpW 5 64; E S_TermW 5 10; E S_TermW 4 4; E S_TermW 4 2; E S_TermW 4 7;
    E S_TermW 7 22; E S_TermW 4 3; E S_TermW 5 11; E S_TermW 4 5; E S_TermW 7 26; E S_TermW 5 9;
    E S_MakeUpW 9 768; E S_TermW 4 6; E S_TermW 8 37; E S_MakeUpW 5 128; E S_TermW 7 25; E S_TermW 6 15;
    E S_MakeUpW 8 320; E S_TermW 4 4; E S_TermW 4 2; E S_TermW 4 7; E S_TermW 6 13; E S_TermW 4 3;
    E S_TermW 7 18; E S_TermW 4 5; E S_TermW 7 21; E S_TermW 6 17; E S_MakeUpW 7 256; E S_TermW 4 6;
    E S_TermW 6 1; E S_TermW 5 8; E S_MakeUpW 6 192; E S_MakeUpW 5 64; E S_TermW 5 10; E S_TermW 4 4;
    E S_TermW 4 2; E S_TermW 4 7; E S_MakeUp 12 2368; E S_TermW 4 3; E S_TermW 5 11; E S_TermW 4 5;
    E S_TermW 6 12; E S_TermW 5 9; E S_MakeUpW 6 1664; E S_TermW 4 6; E S_TermW 7 20; E S_MakeUpW 5 128;
    E S_TermW 7 24; E S_TermW 6 14; E S_TermW 7 28; E S_TermW 4 4; E S_TermW 4 2; E S_TermW 4 7;
    E S_TermW 7 23; E S_TermW 4 3; E S_TermW 7 27; E S_TermW 4 5; E S_TermW 8 40; E S_TermW 6 16;
    E S_MakeUpW 9 896; E S_TermW 4 6; E S_TermW 7 19; E S_TermW 5 8; E S_TermW 8 56; E S_MakeUpW 5 64;
    E S_TermW 5 10; E S_TermW 4 4; E S_TermW 4 2; E S_TermW 4 7; E S_TermW 8 46; E S_TermW 4 3;
    E S_TermW 5 11; E S_TermW 4 5; E S_TermW 8 54; E S_TermW 5 9; E S_MakeUpW 8 512; E S_TermW 4 6;
    E S_TermW 8 36; E S_MakeUpW 5 128; E S_TermW 8 52; E S_TermW 6 15; E S_TermW 8 0; E S_TermW 4 4;
    E S_TermW 4 2; E S_TermW 4 7; E S_TermW 6 13; E S_TermW 4 3; E S_MakeUpW 9 1728; E S_TermW 4 5;
    E S_TermW 8 44; E S_TermW 6 17; E S_MakeUpW 9 1408; E S_TermW 4 6; E S_TermW 6 1; E S_TermW 5 8;
    E S_MakeUpW 6 192; E S_MakeUpW 5 64; E S_TermW 5 10; E S_TermW 4 4; E S_TermW 4 2; E S_TermW 4 7;
    E S_TermW 8 30; E S_TermW 4 3; E S_TermW 5 11; E S_TermW 4 5; E S_TermW 6 12; E S_TermW 5 9;
    E S_MakeUpW 6 1664; E S_TermW 4 6; E S_TermW 8 34; E S_MakeUpW 5 128; E S_TermW 8 50; E S_TermW 6 14;
    E S_TermW 8 62; E S_TermW 4 4; E S_TermW 4 2; E S_TermW 4 7; E S_TermW 8 48; E S_TermW 4 3;
    E S_TermW 8 60; E S_TermW 4 5; E S_TermW 8 42; E S_TermW 6 16; E S_MakeUpW 9 1152; E S_TermW 4 6;
    E S_TermW 8 32; E S_TermW 5 8; E S_TermW 8 58; E S_MakeUpW 5 64; E S_TermW 5 10; E S_TermW 4 4;
    E S_TermW 4 2; E S_TermW 4 7; E S_TermW 7 22; E S_TermW 4 3; E S_TermW 5 11; E S_TermW 4 5;
    E S_TermW 7 26; E S_TermW 5 9; E S_MakeUpW 8 640; E S_TermW 4 6; E S_TermW 8 38; E S_MakeUpW 5 128;
    E S_TermW 7 25; E S_TermW 6 15; E S_MakeUpW 8 384; E S_TermW 4 4; E S_TermW 4 2; E S_TermW 4 7;
    E S_TermW 6 13; E S_TermW 4 3; E S_TermW 7 18; E S_TermW 4 5; E S_TermW 7 21; E S_TermW 6 17;
    E S_MakeUpW 7 256; E S_TermW 4 6; E S_TermW 6 1; E S_TermW 5 8; E S_MakeUpW 6 192; E S_MakeUpW 5 64;
    E S_TermW 5 10; E S_TermW 4 4; E S_TermW 4 2; E S_TermW 4 7; E S_Null 1 0; E S_TermW 4 3;
    E S_TermW 5 11; E S_TermW 4 5; E S_TermW 6 12; E S_TermW 5 9; E S_MakeUpW 6 1664; E S_TermW 4 6;
    E S_TermW 7 20; E S_MakeUpW 5 128; E S_TermW 7 24; E S_TermW 6 14; E S_TermW 7 28; E S_TermW 4 4;
    E S_TermW 4 2; E S_TermW 4 7; E S_TermW 7 23; E S_TermW 4 3; E S_TermW 7 27; E S_TermW 4 5;
    E S_TermW 8 39; E S_TermW 6 16; E S_MakeUpW 8 576; E S_TermW 4 6; E S_TermW 7 19; E S_TermW 5 8;
    E S_TermW 8 55; E S_MakeUpW 5 64; E S_TermW 5 10; E S_TermW 4 4; E S_TermW 4 2; E S_TermW 4 7;
    E S_TermW 8 45; E S_TermW 4 3; E S_TermW 5 11; E S_TermW 4 5; E S_TermW 8 53; E S_TermW 5 9;
    E S_MakeUpW 8 448; E S_TermW 4 6; E S_TermW 8 35; E S_MakeUpW 5 128; E S_TermW 8 51; E S_TermW 6 15;
    E S_TermW 8 63; E S_TermW 4 4; E S_TermW 4 2; E S_TermW 4 7; E S_TermW 6 13; E S_TermW 4 3;
    E S_MakeUpW 9 1472; E S_TermW 4 5; E S_TermW 8 43; E S_TermW 6 17; E S_MakeUpW 9 1216; E S_TermW 4 6;
    E S_TermW 6 1; E S_TermW 5 8; E S_MakeUpW 6 192; E S_MakeUpW 5 64; E S_TermW 5 10; E S_TermW 4 4;
    E S_TermW 4 2; E S_TermW 4 7; E S_TermW 8 29; E S_TermW 4 3; E S_TermW 5 11; E S_TermW 4 5;
    E S_TermW 6 12; E S_TermW 5 9; E S_MakeUpW 6 1664; E S_TermW 4 6; E S_TermW 8 33; E S_MakeUpW 5 128;
    E S_TermW 8 49; E S_TermW 6 14; E S_TermW 8 61; E S_TermW 4 4; E S_TermW 4 2; E S_TermW 4 7;
    E S_TermW 8 47; E S_TermW 4 3; E S_TermW 8 59; E S_TermW 4 5; E S_TermW 8 41; E S_TermW 6 16;
    E S_MakeUpW 9 960; E S_TermW 4 6; E S_TermW 8 31; E S_TermW 5 8; E S_TermW 8 57; E S_MakeUpW 5 64;
    E S_TermW 5 10; E S_TermW 4 4; E S_TermW 4 2; E S_TermW 4 7; E S_TermW 7 22; E S_TermW 4 3;
    E S_TermW 5 11; E S_TermW 4 5; E S_TermW 7 26; E S_TermW 5 9; E S_MakeUpW 9 704; E S_TermW 4 6;
    E S_TermW 8 37; E S_MakeUpW 5 128; E S_TermW 7 25; E S_TermW 6 15; E S_MakeUpW 8 320; E S_TermW 4 4;
    E S_TermW 4 2; E S_TermW 4 7; E S_TermW 6 13; E S_TermW 4 3; E S_TermW 7 18; E S_TermW 4 5;
    E S_TermW 7 21; E S_TermW 6 17; E S_MakeUpW 7 256; E S_TermW 4 6; E S_TermW 6 1; E S_TermW 5 8;
    E S_MakeUpW 6 192; E S_MakeUpW 5 64; E S_TermW 5 10; E S_TermW 4 4; E S_TermW 4 2; E S_TermW 4 7;
    E S_MakeUp 12 1984; E S_TermW 4 3; E S_TermW 5 11; E S_TermW 4 5; E S_TermW 6 12; E S_TermW 5 9;
    E S_MakeUpW 6 1664; E S_TermW 4 6; E S_TermW 7 20; E S_MakeUpW 5 128; E S_TermW 7 24; E S_TermW 6 14;
    E S_TermW 7 28; E S_TermW 4 4; E S_TermW 4 2; E S_TermW 4 7; E S_TermW 7 23; E S_TermW 4 3;
    E S_TermW 7 27; E S_TermW 4 5; E S_TermW 8 40; E S_TermW 6 16; E S_MakeUpW 9 832; E S_TermW 4 6;
    E S_TermW 7 19; E S_TermW 5 8; E S_TermW 8 56; E S_MakeUpW 5 64; E S_TermW 5 10; E S_TermW 4 4;
    E S_TermW 4 2; E S_TermW 4 7; E S_TermW 8 46; E S_TermW 4 3; E S_TermW 5 11; E S_TermW 4 5;
    E S_TermW 8 54; E S_TermW 5 9; E S_MakeUpW 8 512; E S_TermW 4 6; E S_TermW 8 36; E S_MakeUpW 5 128;
    E S_TermW 8 52; E S_TermW 6 15; E S_TermW 8 0; E S_TermW 4 4; E S_TermW 4 2; E S_TermW 4 7;
    E S_TermW 6 13; E S_TermW 4 3; E S_MakeUpW 9 1600; E S_TermW 4 5; E S_TermW 8 44; E S_TermW 6 17;
    E S_MakeUpW 9 1344; E S_TermW 4 6; E S_TermW 6 1; E S_TermW 5 8; E S_MakeUpW 6 192; E S_MakeUpW 5 64;
    E S_TermW 5 10; E S_TermW 4 4; E S_TermW 4 2; E S_TermW 4 7; E S_TermW 8 30; E S_TermW 4 3;
    E S_TermW 5 11; E S_TermW 4 5; E S_TermW 6 12; E S_TermW 5 9; E S_MakeUpW 6 1664; E S_TermW 4 6;
    E S_TermW 8 34; E S_MakeUpW 5 128; E S_TermW 8 50; E S_TermW 6 14; E S_TermW 8 62; E S_TermW 4 4;
    E S_TermW 4 2; E S_TermW 4 7; E S_TermW 8 48; E S_TermW 4 3; E S_TermW 8 60; E S_TermW 4 5;
    E S_TermW 8 42; E S_TermW 6 16; E S_MakeUpW 9 1088; E S_TermW 4 6; E S_TermW 8 32; E S_TermW 5 8;
    E S_TermW 8 58; E S_MakeUpW 5 64; E S_TermW 5 10; E S_TermW 4 4; E S_TermW 4 2; E S_TermW 4 7;
    E S_TermW 7 22; E S_TermW 4 3; E S_TermW 5 11; E S_TermW 4 5; E S_TermW 7 26; E S_TermW 5 9;
    E S_MakeUpW 8 640; E S_TermW 4 6; E S_TermW 8 38; E S_MakeUpW 5 128; E S_TermW 7 25; E S_TermW 6 15;
    E S_MakeUpW 8 384; E S_TermW 4 4; E S_TermW 4 2; E S_TermW 4 7; E S_TermW 6 13; E S_TermW 4 3;
    E S_TermW 7 18; E S_TermW 4 5; E S_TermW 7 21; E S_TermW 6 17; E S_MakeUpW 7 256; E S_TermW 4 6;
    E S_TermW 6 1; E S_TermW 5 8; E S_MakeUpW 6 192; E S_MakeUpW 5 64; E S_TermW 5 10; E S_TermW 4 4;
    E S_TermW 4 2; E S_TermW 4 7; E S_Null 1 0; E S_TermW 4 3; E S_TermW 5 11; E S_TermW 4 5;
    E S_TermW 6 12; E S_TermW 5 9; E S_MakeUpW 6 1664; E S_TermW 4 6; E S_TermW 7 20; E S_MakeUpW 5 128;
    E S_TermW 7 24; E S_TermW 6 14; E S_TermW 7 28; E S_TermW 4 4; E S_TermW 4 2; E S_TermW 4 7;
    E S_TermW 7 23; E S_TermW 4 3; E S_TermW 7 27; E S_TermW 4 5; E S_TermW 8 39; E S_TermW 6 16;
    E S_MakeUpW 8 576; E S_TermW 4 6; E S_TermW 7 19; E S_TermW 5 8; E S_TermW 8 55; E S_MakeUpW 5 64;
    E S_TermW 5 10; E S_TermW 4 4; E S_TermW 4 2; E S_TermW 4 7; E S_TermW 8 45; E S_TermW 4 3;
    E S_TermW 5 11; E S_TermW 4 5; E S_TermW 8 53; E S_TermW 5 9; E S_MakeUpW 8 448; E S_TermW 4 6;
    E S_TermW 8 35; E S_MakeUpW 5 128; E S_TermW 8 51; E S_TermW 6 15; E S_TermW 8 63; E S_TermW 4 4;
    E S_TermW 4 2; E S_TermW 4 7; E S_TermW 6 13; E S_TermW 4 3; E S_MakeUpW 9 1536; E S_TermW 4 5;
    E S_TermW 8 43; E S_TermW 6 17; E S_MakeUpW 9 1280; E S_TermW 4 6; E S_TermW 6 1; E S_TermW 5 8;
    E S_MakeUpW 6 192; E S_MakeUpW 5 64; E S_TermW 5 10; E S_TermW 4 4; E S_TermW 4 2; E S_TermW 4 7;
    E S_TermW 8 29; E S_TermW 4 3; E S_TermW 5 11; E S_TermW 4 5; E S_TermW 6 12; E S_TermW 5 9;
    E S_MakeUpW 6 1664; E S_TermW 4 6; E S_TermW 8 33; E S_MakeUpW 5 128; E S_TermW 8 49; E S_TermW 6 14;
    E S_TermW 8 61; E S_TermW 4 4; E S_TermW 4 2; E S_TermW 4 7; E S_TermW 8 47; E S_TermW 4 3;
    E S_TermW 8 59; E S_TermW 4 5; E S_TermW 8 41; E S_TermW 6 16; E S_MakeUpW 9 1024; E S_TermW 4 6;
    E S_TermW 8 31; E S_TermW 5 8; E S_TermW 8 57; E S_MakeUpW 5 64; E S_TermW 5 10; E S_TermW 4 4;
    E S_TermW 4 2; E S_TermW 4 7; E S_TermW 7 22; E S_TermW 4 3; E S_TermW 5 11; E S_TermW 4 5;
    E S_TermW 7 26; E S_TermW 5 9; E S_MakeUpW 9 768; E S_TermW 4 6; E S_TermW 8 37; E S_MakeUpW 5 128;
    E S_TermW 7 25; E S_TermW 6 15; E S_MakeUpW 8 320; E S_TermW 4 4; E S_TermW 4 2; E S_TermW 4 7;
    E S_TermW 6 13; E S_TermW 4 3; E S_TermW 7 18; E S_TermW 4 5; E S_TermW 7 21; E S_TermW 6 17;
    E S_MakeUpW 7 256; E S_TermW 4 6; E S_TermW 6 1; E S_TermW 5 8; E S_MakeUpW 6 192; E S_MakeUpW 5 64;
    E S_TermW 5 10; E S_TermW 4 4; E S_TermW 4 2; E S_TermW 4 7; E S_MakeUp 11 1920; E S_TermW 4 3;
    E S_TermW 5 11; E S_TermW 4 5; E S_TermW 6 12; E S_TermW 5 9; E S_MakeUpW 6 1664; E S_TermW 4 6;
    E S_TermW 7 20; E S_MakeUpW 5 128; E S_TermW 7 24; E S_TermW 6 14; E S_TermW 7 28; E S_TermW 4 4;
    E S_TermW 4 2; E S_TermW 4 7; E S_TermW 7 23; E S_TermW 4 3; E S_TermW 7 27; E S_TermW 4 5;
    E S_TermW 8 40; E S_TermW 6 16; E S_MakeUpW 9 896; E S_TermW 4 6; E S_TermW 7 19; E S_TermW 5 8;
    E S_TermW 8 56; E S_MakeUpW 5 64; E S_TermW 5 10; E S_TermW 4 4; E S_TermW 4 2; E S_TermW 4 7;
    E S_TermW 8 46; E S_TermW 4 3; E S_TermW 5 11; E S_TermW 4 5; E S_TermW 8 54; E S_TermW 5 9;
    E S_MakeUpW 8 512; E S_TermW 4 6; E S_TermW 8 36; E S_MakeUpW 5 128; E S_TermW 8 52; E S_TermW 6 15;
    E S_TermW 8 0; E S_TermW 4 4; E S_TermW 4 2; E S_TermW 4 7; E S_TermW 6 13; E S_TermW 4 3;
    E S_MakeUpW 9 1728; E S_TermW 4 5; E S_TermW 8 44; E S_TermW 6 17; E S_MakeUpW 9 1408; E S_TermW 4 6;
    E S_TermW 6 1; E S_TermW 5 8; E S_MakeUpW 6 192; E S_MakeUpW 5 64; E S_TermW 5 10; E S_TermW 4 4;
    E S_TermW 4 2; E S_TermW 4 7; E S_TermW 8 30; E S_TermW 4 3; E S_TermW 5 11; E S_TermW 4 5;
    E S_TermW 6 12; E S_TermW 5 9; E S_MakeUpW 6 1664; E S_TermW 4 6; E S_TermW 8 34; E S_MakeUpW 5 128;
    E S_TermW 8 50; E S_TermW 6 14; E S_TermW 8 62; E S_TermW 4 4; E S_TermW 4 2; E S_TermW 4 7;
    E S_TermW 8 48; E S_TermW 4 3; E S_TermW 8 60; E S_TermW 4 5; E S_TermW 8 42; E S_TermW 6 16;
    E S_MakeUpW 9 1152; E S_TermW 4 6; E S_TermW 8 32; E S_TermW 5 8; E S_TermW 8 58; E S_MakeUpW 5 64;
    E S_TermW 5 10; E S_TermW 4 4; E S_TermW 4 2; E S_TermW 4 7; E S_TermW 7 22; E S_TermW 4 3;
    E S_TermW 5 11; E S_TermW 4 5; E S_TermW 7 26; E S_TermW 5 9; E S_MakeUpW 8 640; E S_TermW 4 6;
    E S_TermW 8 38; E S_MakeUpW 5 128; E S_TermW 7 25; E S_TermW 6 15; E S_MakeUpW 8 384; E S_TermW 4 4;
    E S_TermW 4 2; E S_TermW 4 7; E S_TermW 6 13; E S_TermW 4 3; E S_TermW 7 18; E S_TermW 4 5;
    E S_TermW 7 21; E S_TermW 6 17; E S_MakeUpW 7 256; E S_TermW 4 6; E S_TermW 6 1; E S_TermW 5 8;
    E S_MakeUpW 6 192; E S_MakeUpW 5 64; E S_TermW 5 10; E S_TermW 4 4; E S_TermW 4 2; E S_TermW 4 7;
    E S_Null 1 0; E S_TermW 4 3; E S_TermW 5 11; E S_TermW 4 5; E S_TermW 6 12; E S_TermW 5 9;
    E S_MakeUpW 6 1664; E S_TermW 4 6; E S_TermW 7 20; E S_MakeUpW 5 128; E S_TermW 7 24; E S_TermW 6 14;
    E S_TermW 7 28; E S_TermW 4 4; E S_TermW 4 2; E S_TermW 4 7; E S_TermW 7 23; E S_TermW 4 3;
    E S_TermW 7 27; E S_TermW 4 5; E S_TermW 8 39; E S_TermW 6 16; E S_MakeUpW 8 576; E S_TermW 4 6;
    E S_TermW 7 19; E S_TermW 5 8; E S_TermW 8 55; E S_MakeUpW 5 64; E S_TermW 5 10; E S_TermW 4 4;
    E S_TermW 4 2; E S_TermW 4 7; E S_TermW 8 45; E S_TermW 4 3; E S_TermW 5 11; E S_TermW 4 5;
    E S_TermW 8 53; E S_TermW 5 9; E S_MakeUpW 8 448; E S_TermW 4 6; E S_TermW 8 35; E S_MakeUpW 5 128;
    E S_TermW 8 51; E S_TermW 6 15; E S_TermW 8 63; E S_TermW 4 4; E S_TermW 4 2; E S_TermW 4 7;
    E S_TermW 6 13; E S_TermW 4 3; E S_MakeUpW 9 1472; E S_TermW 4 5; E S_TermW 8 43; E S_TermW 6 17;
    E S_MakeUpW 9 1216; E S_TermW 4 6; E S_TermW 6 1; E S_TermW 5 8; E S_MakeUpW 6 192; E S_MakeUpW 5 64;
    E S_TermW 5 10; E S_TermW 4 4; E S_TermW 4 2; E S_TermW 4 7; E S_TermW 8 29; E S_TermW 4 3;
    E S_TermW 5 11; E S_TermW 4 5; E S_TermW 6 12; E S_TermW 5 9; E S_MakeUpW 6 1664; E S_TermW 4 6;
    E S_TermW 8 33; E S_MakeUpW 5 128; E S_TermW 8 49; E S_TermW 6 14; E S_TermW 8 61; E S_TermW 4 4;
    E S_TermW 4 2; E S_TermW 4 7; E S_TermW 8 47; E S_TermW 4 3; E S_TermW 8 59; E S_TermW 4 5;
    E S_TermW 8 41; E S_TermW 6 16; E S_MakeUpW 9 960; E S_TermW 4 6; E S_TermW 8 31; E S_TermW 5 8;
    E S_TermW 8 57; E S_MakeUpW 5 64; E S_TermW 5 10; E S_TermW 4 4; E S_TermW 4 2; E S_TermW 4 7;
    E S_TermW 7 22; E S_TermW 4 3; E S_TermW 5 11; E S_TermW 4 5; E S_TermW 7 26; E S_TermW 5 9;
    E S_MakeUpW 9 704; E S_TermW 4 6; E S_TermW 8 37; E S_MakeUpW 5 128; E S_TermW 7 25; E S_TermW 6 15;
    E S_MakeUpW 8 320; E S_TermW 4 4; E S_TermW 4 2; E S_TermW 4 7; E S_TermW 6 13; E S_TermW 4 3;
    E S_TermW 7 18; E S_TermW 4 5; E S_TermW 7 21; E S_TermW 6 17; E S_MakeUpW 7 256; E S_TermW 4 6;
    E S_TermW 6 1; E S_TermW 5 8; E S_MakeUpW 6 192; E S_MakeUpW 5 64; E S_TermW 5 10; E S_TermW 4 4;
    E S_TermW 4 2; E S_TermW 4 7; E S_MakeUp 12 2240; E S_TermW 4 3; E S_TermW 5 11; E S_TermW 4 5;
    E S_TermW 6 12; E S_TermW 5 9; E S_MakeUpW 6 1664; E S_TermW 4 6; E S_TermW 7 20; E S_MakeUpW 5 128;
    E S_TermW 7 24; E S_TermW 6 14; E S_TermW 7 28; E S_TermW 4 4; E S_TermW 4 2; E S_TermW 4 7;
    E S_TermW 7 23; E S_TermW 4 3; E S_TermW 7 27; E S_TermW 4 5; E S_TermW 8 40; E S_TermW 6 16;
    E S_MakeUpW 9 832; E S_TermW 4 6; E S_TermW 7 19; E S_TermW 5 8; E S_TermW 8 56; E S_MakeUpW 5 64;
    E S_TermW 5 10; E S_TermW 4 4; E S_TermW 4 2; E S_TermW 4 7; E S_TermW 8 46; E S_TermW 4 3;
    E S_TermW 5 11; E S_TermW 4 5; E S_TermW 8 54; E S_TermW 5 9; E S_MakeUpW 8 512; E S_TermW 4 6;
    E S_TermW 8 36; E S_MakeUpW 5 128; E S_TermW 8 52; E S_TermW 6 15; E S_TermW 8 0; E S_TermW 4 4;
    E S_TermW 4 2; E S_TermW 4 7; E S_TermW 6 13; E S_TermW 4 3; E S_MakeUpW 9 1600; E S_TermW 4 5;
    E S_TermW 8 44; E S_TermW 6 17; E S_MakeUpW 9 1344; E S_TermW 4 6; E S_TermW 6 1; E S_TermW 5 8;
    E S_MakeUpW 6 192; E S_MakeUpW 5 64; E S_TermW 5 10; E S_TermW 4 4; E S_TermW 4 2; E S_TermW 4 7;
    E S_TermW 8 30; E S_TermW 4 3; E S_TermW 5 11; E S_TermW 4 5; E S_TermW 6 12; E S_TermW 5 9;
    E S_MakeUpW 6 1664; E S_TermW 4 6; E S_TermW 8 34; E S_MakeUpW 5 128; E S_TermW 8 50; E S_TermW 6 14;
    E S_TermW 8 62; E S_TermW 4 4; E S_TermW 4 2; E S_TermW 4 7; E S_TermW 8 48; E S_TermW 4 3;
    E S_TermW 8 60; E S_TermW 4 5; E S_TermW 8 42; E S_TermW 6 16; E S_MakeUpW 9 1088; E S_TermW 4 6;
    E S_TermW 8 32; E S_TermW 5 8; E S_TermW 8 58; E S_MakeUpW 5 64; E S_TermW 5 10; E S_TermW 4 4;
    E S_TermW 4 2; E S_TermW 4 7; E S_TermW 7 22; E S_TermW 4 3; E S_TermW 5 11; E S_TermW 4 5;
    E S_TermW 7 26; E S_TermW 5 9; E S_MakeUpW 8 640; E S_TermW 4 6; E S_TermW 8 38; E S_MakeUpW 5 128;
    E S_TermW 7 25; E S_TermW 6 15; E S_MakeUpW 8 384; E S_TermW 4 4; E S_TermW 4 2; E S_TermW 4 7;
    E S_TermW 6 13; E S_TermW 4 3; E S_TermW 7 18; E S_TermW 4 5; E S_TermW 7 21; E S_TermW 6 17;
    E S_MakeUpW 7 256; E S_TermW 4 6; E S_TermW 6 1; E S_TermW 5 8; E S_MakeUpW 6 192; E S_MakeUpW 5 64;
    E S_TermW 5 10; E S_TermW 4 4; E S_TermW 4 2; E S_TermW 4 7; E S_Null 1 0; E S_TermW 4 3;
    E S_TermW 5 11; E S_TermW 4 5; E S_TermW 6 12; E S_TermW 5 9; E S_MakeUpW 6 1664; E S_TermW 4 6;
    E S_TermW 7 20; E S_MakeUpW 5 128; E S_TermW 7 24; E S_TermW 6 14; E S_TermW 7 28; E S_TermW 4 4;
    E S_TermW 4 2; E S_TermW 4 7; E S_TermW 7 23; E S_TermW 4 3; E S_TermW 7 27; E S_TermW 4 5;
    E S_TermW 8 39; E S_TermW 6 16; E S_MakeUpW 8 576; E S_TermW 4 6; E S_TermW 7 19; E S_TermW 5 8;
    E S_TermW 8 55; E S_MakeUpW 5 64; E S_TermW 5 10; E S_TermW 4 4; E S_TermW 4 2; E S_TermW 4 7;
    E S_TermW 8 45; E S_TermW 4 3; E S_TermW 5 11; E S_TermW 4 5; E S_TermW 8 53; E S_TermW 5 9;
    E S_MakeUpW 8 448; E S_TermW 4 6; E S_TermW 8 35; E S_MakeUpW 5 128; E S_TermW 8 51; E S_TermW 6 15;
    E S_TermW 8 63; E S_TermW 4 4; E S_TermW 4 2; E S_TermW 4 7; E S_TermW 6 13; E S_TermW 4 3;
    E S_MakeUpW 9 1536; E S_TermW 4 5; E S_TermW 8 43; E S_TermW 6 17; E S_MakeUpW 9 1280; E S_TermW 4 6;
    E S_TermW 6 1; E S_TermW 5 8; E S_MakeUpW 6 192; E S_MakeUpW 5 64; E S_TermW 5 10; E S_TermW 4 4;
    E S_TermW 4 2; E S_TermW 4 7; E S_TermW 8 29; E S_TermW 4 3; E S_TermW 5 11; E S_TermW 4 5;
    E S_TermW 6 12; E S_TermW 5 9; E S_MakeUpW 6 1664; E S_TermW 4 6; E S_TermW 8 33; E S_MakeUpW 5 128;
    E S_TermW 8 49; E S_TermW 6 14; E S_TermW 8 61; E S_TermW 4 4; E S_TermW 4 2; E S_TermW 4 7;
    E S_TermW 8 47; E S_TermW 4 3; E S_TermW 8 59; E S_TermW 4 5; E S_TermW 8 41; E S_TermW 6 16;
    E S_MakeUpW 9 1024; E S_TermW 4 6; E S_TermW 8 31; E S_TermW 5 8; E S_TermW 8 57; E S_MakeUpW 5 64;
    E S_TermW 5 10; E S_TermW 4 4; E S_TermW 4 2; E S_TermW 4 7; E S_TermW 7 22; E S_TermW 4 3;
    E S_TermW 5 11; E S_TermW 4 5; E S_TermW 7 26; E S_TermW 5 9; E S_MakeUpW 9 768; E S_TermW 4 6;
    E S_TermW 8 37; E S_MakeUpW 5 128; E S_TermW 7 25; E S_TermW 6 15; E S_MakeUpW 8 320; E S_TermW 4 4;
    E S_TermW 4 2; E S_TermW 4 7; E S_TermW 6 13; E S_TermW 4 3; E S_TermW 7 18; E S_TermW 4 5;
    E S_TermW 7 21; E S_TermW 6 17; E S_MakeUpW 7 256; E S_TermW 4 6; E S_TermW 6 1; E S_TermW 5 8;
    E S_MakeUpW 6 192; E S_MakeUpW 5 64; E S_TermW 5 10; E S_TermW 4 4; E S_TermW 4 2; E S_TermW 4 7;
    E S_MakeUp 12 2496; E S_TermW 4 3; E S_TermW 5 11; E S_TermW 4 5; E S_TermW 6 12; E S_TermW 5 9;
    E S_MakeUpW 6 1664; E S_TermW 4 6; E S_TermW 7 20; E S_MakeUpW 5 128; E S_TermW 7 24; E S_TermW 6 14;
    E S_TermW 7 28; E S_TermW 4 4; E S_TermW 4 2; E S_TermW 4 7; E S_TermW 7 23; E S_TermW 4 3;
    E S_TermW 7 27; E S_TermW 4 5; E S_TermW 8 40; E S_TermW 6 16; E S_MakeUpW 9 896; E S_TermW 4 6;
    E S_TermW 7 19; E S_TermW 5 8; E S_TermW 8 56; E S_MakeUpW 5 64; E S_TermW 5 10; E S_TermW 4 4;
    E S_TermW 4 2; E S_TermW 4 7; E S_TermW 8 46; E S_TermW 4 3; E S_TermW 5 11; E S_TermW 4 5;
    E S_TermW 8 54; E S_TermW 5 9; E S_MakeUpW 8 512; E S_TermW 4 6; E S_TermW 8 36; E S_MakeUpW 5 128;
    E S_TermW 8 52; E S_TermW 6 15; E S_TermW 8 0; E S_TermW 4 4; E S_TermW 4 2; E S_TermW 4 7;
    E S_TermW 6 13; E S_TermW 4 3; E S_MakeUpW 9 1728; E S_TermW 4 5; E S_TermW 8 44; E S_TermW 6 17;
    E S_MakeUpW 9 1408; E S_TermW 4 6; E S_TermW 6 1; E S_TermW 5 8; E S_MakeUpW 6 192; E S_MakeUpW 5 64;
    E S_TermW 5 10; E S_TermW 4 4; E S_TermW 4 2; E S_TermW 4 7; E S_TermW 8 30; E S_TermW 4 3;
    E S_TermW 5 11; E S_TermW 4 5; E S_TermW 6 12; E S_TermW 5 9; E S_MakeUpW 6 1664; E S_TermW 4 6;
    E S_TermW 8 34; E S_MakeUpW 5 128; E S_TermW 8 50; E S_TermW 6 14; E S_TermW 8 62; E S_TermW 4 4;
    E S_TermW 4 2; E S_TermW 4 7; E S_TermW 8 48; E S_TermW 4 3; E S_TermW 8 60; E S_TermW 4 5;
    E S_TermW 8 42; E S_TermW 6 16; E S_MakeUpW 9 1152; E S_TermW 4 6; E S_TermW 8 32; E S_TermW 5 8;
    E S_TermW 8 58; E S_MakeUpW 5 64; E S_TermW 5 10; E S_TermW 4 4; E S_TermW 4 2; E S_TermW 4 7;
    E S_TermW 7 22; E S_TermW 4 3; E S_TermW 5 11; E S_TermW 4 5; E S_TermW 7 26; E S_TermW 5 9;
    E S_MakeUpW 8 640; E S_TermW 4 6; E S_TermW 8 38; E S_MakeUpW 5 128; E S_TermW 7 25; E S_TermW 6 15;
    E S_MakeUpW 8 384; E S_TermW 4 4; E S_TermW 4 2; E S_TermW 4 7; E S_TermW 6 13; E S_TermW 4 3;
    E S_TermW 7 18; E S_TermW 4 5; E S_TermW 7 21; E S_TermW 6 17; E S_MakeUpW 7 256; E S_TermW 4 6;
    E S_TermW 6 1; E S_TermW 5 8; E S_MakeUpW 6 192; E S_MakeUpW 5 64; E S_TermW 5 10; E S_TermW 4 4;
    E S_TermW 4 2; E S_TermW 4 7; E S_EOL 12 0; E S_TermW 4 3; E S_TermW 5 11; E S_TermW 4 5;
    E S_TermW 6 12; E S_TermW 5 9; E S_MakeUpW 6 1664; E S_TermW 4 6; E S_TermW 7 20; E S_MakeUpW 5 128;
    E S_TermW 7 24; E S_TermW 6 14; E S_TermW 7 28; E S_TermW 4 4; E S_TermW 4 2; E S_TermW 4 7;
    E S_TermW 7 23; E S_TermW 4 3; E S_TermW 7 27; E S_TermW 4 5; E S_TermW 8 39; E S_TermW 6 16;
    E S_MakeUpW 8 576; E S_TermW 4 6; E S_TermW 7 19; E S_TermW 5 8; E S_TermW 8 55; E S_MakeUpW 5 64;
    E S_TermW 5 10; E S_TermW 4 4; E S_TermW 4 2; E S_TermW 4 7; E S_TermW 8 45; E S_TermW 4 3;
    E S_TermW 5 11; E S_TermW 4 5; E S_TermW 8 53; E S_TermW 5 9; E S_MakeUpW 8 448; E S_TermW 4 6;
    E S_TermW 8 35; E S_MakeUpW 5 128; E S_TermW 8 51; E S_TermW 6 15; E S_TermW 8 63; E S_TermW 4 4;
    E S_TermW 4 2; E S_TermW 4 7; E S_TermW 6 13; E S_TermW 4 3; E S_MakeUpW 9 1472; E S_TermW 4 5;
    E S_TermW 8 43; E S_TermW 6 17; E S_MakeUpW 9 1216; E S_TermW 4 6; E S_TermW 6 1; E S_TermW 5 8;
    E S_MakeUpW 6 192; E S_MakeUpW 5 64; E S_TermW 5 10; E S_TermW 4 4; E S_TermW 4 2; E S_TermW 4 7;
    E S_TermW 8 29; E S_TermW 4 3; E S_TermW 5 11; E S_TermW 4 5; E S_TermW 6 12; E S_TermW 5 9;
    E S_MakeUpW 6 1664; E S_TermW 4 6; E S_TermW 8 33; E S_MakeUpW 5 128; E S_TermW 8 49; E S_TermW 6 14;
    E S_TermW 8 61; E S_TermW 4 4; E S_TermW 4 2; E S_TermW 4 7; E S_TermW 8 47; E S_TermW 4 3;
    E S_TermW 8 59; E S_TermW 4 5; E S_TermW 8 41; E S_TermW 6 16; E S_MakeUpW 9 960; E S_TermW 4 6;
    E S_TermW 8 31; E S_TermW 5 8; E S_TermW 8 57; E S_MakeUpW 5 64; E S_TermW 5 10; E S_TermW 4 4;
    E S_TermW 4 2; E S_TermW 4 7; E S_TermW 7 22; E S_TermW 4 3; E S_TermW 5 11; E S_TermW 4 5;
    E S_TermW 7 26; E S_TermW 5 9; E S_MakeUpW 9 704; E S_TermW 4 6; E S_TermW 8 37; E S_MakeUpW 5 128;
    E S_TermW 7 25; E S_TermW 6 15; E S_MakeUpW 8 320; E S_TermW 4 4; E S_TermW 4 2; E S_TermW 4 7;
    E S_TermW 6 13; E S_TermW 4 3; E S_TermW 7 18; E S_TermW 4 5; E S_TermW 7 21; E S_TermW 6 17;
    E S_MakeUpW 7 256; E S_TermW 4 6; E S_TermW 6 1; E S_TermW 5 8; E S_MakeUpW 6 192; E S_MakeUpW 5 64;
    E S_TermW 5 10; E S_TermW 4 4; E S_TermW 4 2; E S_TermW 4 7; E S_MakeUp 11 1792; E S_TermW 4 3;
    E S_TermW 5 11; E S_TermW 4 5; E S_TermW 6 12; E S_TermW 5 9; E S_MakeUpW 6 1664; E S_TermW 4 6;
    E S_TermW 7 20; E S_MakeUpW 5 128; E S_TermW 7 24; E S_TermW 6 14; E S_TermW 7 28; E S_TermW 4 4;
    E S_TermW 4 2; E S_TermW 4 7; E S_TermW 7 23; E S_TermW 4 3; E S_TermW 7 27; E S_TermW 4 5;
    E S_TermW 8 40; E S_TermW 6 16; E S_MakeUpW 9 832; E S_TermW 4 6; E S_TermW 7 19; E S_TermW 5 8;
    E S_TermW 8 56; E S_MakeUpW 5 64; E S_TermW 5 10; E S_TermW 4 4; E S_TermW 4 2; E S_TermW 4 7;
    E S_TermW 8 46; E S_TermW 4 3; E S_TermW 5 11; E S_TermW 4 5; E S_TermW 8 54; E S_TermW 5 9;
    E S_MakeUpW 8 512; E S_TermW 4 6; E S_TermW 8 36; E S_MakeUpW 5 128; E S_TermW 8 52; E S_TermW 6 15;
    E S_TermW 8 0; E S_TermW 4 4; E S_TermW 4 2; E S_TermW 4 7; E S_TermW 6 13; E S_TermW 4 3;
    E S_MakeUpW 9 1600; E S_TermW 4 5; E S_TermW 8 44; E S_TermW 6 17; E S_MakeUpW 9 1344; E S_TermW 4 6;
    E S_TermW 6 1; E S_TermW 5 8; E S_MakeUpW 6 192; E S_MakeUpW 5 64; E S_TermW 5 10; E S_TermW 4 4;
    E S_TermW 4 2; E S_TermW 4 7; E S_TermW 8 30; E S_TermW 4 3; E S_TermW 5 11; E S_TermW 4 5;
    E S_TermW 6 12; E S_TermW 5 9; E S_MakeUpW 6 1664; E S_TermW 4 6; E S_TermW 8 34; E S_MakeUpW 5 128;
    E S_TermW 8 50; E S_TermW 6 14; E S_TermW 8 62; E S_TermW 4 4; E S_TermW 4 2; E S_TermW 4 7;
    E S_TermW 8 48; E S_TermW 4 3; E S_TermW 8 60; E S_TermW 4 5; E S_TermW 8 42; E S_TermW 6 16;
    E S_MakeUpW 9 1088; E S_TermW 4 6; E S_TermW 8 32; E S_TermW 5 8; E S_TermW 8 58; E S_MakeUpW 5 64;
    E S_TermW 5 10; E S_TermW 4 4; E S_TermW 4 2; E S_TermW 4 7; E S_TermW 7 22; E S_TermW 4 3;
    E S_TermW 5 11; E S_TermW 4 5; E S_TermW 7 26; E S_TermW 5 9; E S_MakeUpW 8 640; E S_TermW 4 6;
    E S_TermW 8 38; E S_MakeUpW 5 128; E S_TermW 7 25; E S_TermW 6 15; E S_MakeUpW 8 384; E S_TermW 4 4;
    E S_TermW 4 2; E S_TermW 4 7; E S_TermW 6 13; E S_TermW 4 3; E S_TermW 7 18; E S_TermW 4 5;
    E S_TermW 7 21; E S_TermW 6 17; E S_MakeUpW 7 256; E S_TermW 4 6; E S_TermW 6 1; E S_TermW 5 8;
    E S_MakeUpW 6 192; E S_MakeUpW 5 64; E S_TermW 5 10; E S_TermW 4 4; E S_TermW 4 2; E S_TermW 4 7;
    E S_Null 1 0; E S_TermW 4 3; E S_TermW 5 11; E S_TermW 4 5; E S_TermW 6 12; E S_TermW 5 9;
    E S_MakeUpW 6 1664; E S_TermW 4 6; E S_TermW 7 20; E S_MakeUpW 5 128; E S_TermW 7 24; E S_TermW 6 14;
    E S_TermW 7 28; E S_TermW 4 4; E S_TermW 4 2; E S_TermW 4 7; E S_TermW 7 23; E S_TermW 4 3;
    E S_TermW 7 27; E S_TermW 4 5; E S_TermW 8 39; E S_TermW 6 16; E S_MakeUpW 8 576; E S_TermW 4 6;
    E S_TermW 7 19; E S_TermW 5 8; E S_TermW 8 55; E S_MakeUpW 5 64; E S_TermW 5 10; E S_TermW 4 4;
    E S_TermW 4 2; E S_TermW 4 7; E S_TermW 8 45; E S_TermW 4 3; E S_TermW 5 11; E S_TermW 4 5;
    E S_TermW 8 53; E S_TermW 5 9; E S_MakeUpW 8 448; E S_TermW 4 6; E S_TermW 8 35; E S_MakeUpW 5 128;
    E S_TermW 8 51; E S_TermW 6 15; E S_TermW 8 63; E S_TermW 4 4; E S_TermW 4 2; E S_TermW 4 7;
    E S_TermW 6 13; E S_TermW 4 3; E S_MakeUpW 9 1536; E S_TermW 4 5; E S_TermW 8 43; E S_TermW 6 17;
    E S_MakeUpW 9 1280; E S_TermW 4 6; E S_TermW 6 1; E S_TermW 5 8; E S_MakeUpW 6 192; E S_MakeUpW 5 64;
    E S_TermW 5 10; E S_TermW 4 4; E S_TermW 4 2; E S_TermW 4 7; E S_TermW 8 29; E S_TermW 4 3;
    E S_TermW 5 11; E S_TermW 4 5; E S_TermW 6 12; E S_TermW 5 9; E S_MakeUpW 6 1664; E S_TermW 4 6;
    E S_TermW 8 33; E S_MakeUpW 5 128; E S_TermW 8 49; E S_TermW 6 14; E S_TermW 8 61; E S_TermW 4 4;
    E S_TermW 4 2; E S_TermW 4 7; E S_TermW 8 47; E S_TermW 4 3; E S_TermW 8 59; E S_TermW 4 5;
    E S_TermW 8 41; E S_TermW 6 16; E S_MakeUpW 9 1024; E S_TermW 4 6; E S_TermW 8 31; E S_TermW 5 8;
    E S_TermW 8 57; E S_MakeUpW 5 64; E S_TermW 5 10; E S_TermW 4 4; E S_TermW 4 2; E S_TermW 4 7;
    E S_TermW 7 22; E S_TermW 4 3; E S_TermW 5 11; E S_TermW 4 5; E S_TermW 7 26; E S_TermW 5 9;
    E S_MakeUpW 9 768; E S_TermW 4 6; E S_TermW 8 37; E S_MakeUpW 5 128; E S_TermW 7 25; E S_TermW 6 15;
    E S_MakeUpW 8 320; E S_TermW 4 4; E S_TermW 4 2; E S_TermW 4 7; E S_TermW 6 13; E S_TermW 4 3;
    E S_TermW 7 18; E S_TermW 4 5; E S_TermW 7 21; E S_TermW 6 17; E S_MakeUpW 7 256; E S_TermW 4 6;
    E S_TermW 6 1; E S_TermW 5 8; E S_MakeUpW 6 192; E S_MakeUpW 5 64; E S_TermW 5 10; E S_TermW 4 4;
    E S_TermW 4 2; E S_TermW 4 7; E S_MakeUp 11 1856; E S_TermW 4 3; E S_TermW 5 11; E S_TermW 4 5;
    E S_TermW 6 12; E S_TermW 5 9; E S_MakeUpW 6 1664; E S_TermW 4 6; E S_TermW 7 20; E S_MakeUpW 5 128;
    E S_TermW 7 24; E S_TermW 6 14; E S_TermW 7 28; E S_TermW 4 4; E S_TermW 4 2; E S_TermW 4 7;
    E S_TermW 7 23; E S_TermW 4 3; E S_TermW 7 27; E S_TermW 4 5; E S_TermW 8 40; E S_TermW 6 16;
    E S_MakeUpW 9 896; E S_TermW 4 6; E S_TermW 7 19; E S_TermW 5 8; E S_TermW 8 56; E S_MakeUpW 5 64;
    E S_TermW 5 10; E S_TermW 4 4; E S_TermW 4 2; E S_TermW 4 7; E S_TermW 8 46; E S_TermW 4 3;
    E S_TermW 5 11; E S_TermW 4 5; E S_TermW 8 54; E S_TermW 5 9; E S_MakeUpW 8 512; E S_TermW 4 6;
    E S_TermW 8 36; E S_MakeUpW 5 128; E S_TermW 8 52; E S_TermW 6 15; E S_TermW 8 0; E S_TermW 4 4;
    E S_TermW 4 2; E S_TermW 4 7; E S_TermW 6 13; E S_TermW 4 3; E S_MakeUpW 9 1728; E S_TermW 4 5;
    E S_TermW 8 44; E S_TermW 6 17; E S_MakeUpW 9 1408; E S_TermW 4 6; E S_TermW 6 1; E S_TermW 5 8;
    E S_MakeUpW 6 192; E S_MakeUpW 5 64; E S_TermW 5 10; E S_TermW 4 4; E S_TermW 4 2; E S_TermW 4 7;
    E S_TermW 8 30; E S_TermW 4 3; E S_TermW 5 11; E S_TermW 4 5; E S_TermW 6 12; E S_TermW 5 9;
    E S_MakeUpW 6 1664; E S_TermW 4 6; E S_TermW 8 34; E S_MakeUpW 5 128; E S_TermW 8 50; E S_TermW 6 14;
    E S_TermW 8 62; E S_TermW 4 4; E S_TermW 4 2; E S_TermW 4 7; E S_TermW 8 48; E S_TermW 4 3;
    E S_TermW 8 60; E S_TermW 4 5; E S_TermW 8 42; E S_TermW 6 16; E S_MakeUpW 9 1152; E S_TermW 4 6;
    E S_TermW 8 32; E S_TermW 5 8; E S_TermW 8 58; E S_MakeUpW 5 64; E S_TermW 5 10; E S_TermW 4 4;
    E S_TermW 4 2; E S_TermW 4 7; E S_TermW 7 22; E S_TermW 4 3; E S_TermW 5 11; E S_TermW 4 5;
    E S_TermW 7 26; E S_TermW 5 9; E S_MakeUpW 8 640; E S_TermW 4 6; E S_TermW 8 38; E S_MakeUpW 5 128;
    E S_TermW 7 25; E S_TermW 6 15; E S_MakeUpW 8 384; E S_TermW 4 4; E S_TermW 4 2; E S_TermW 4 7;
    E S_TermW 6 13; E S_TermW 4 3; E S_TermW 7 18; E S_TermW 4 5; E S_TermW 7 21; E S_TermW 6 17;
    E S_MakeUpW 7 256; E S_TermW 4 6; E S_TermW 6 1; E S_TermW 5 8; E S_MakeUpW 6 192; E S_MakeUpW 5 64;
    E S_TermW 5 10; E S_TermW 4 4; E S_TermW 4 2; E S_TermW 4 7; E S_Null 1 0; E S_TermW 4 3;
    E S_TermW 5 11; E S_TermW 4 5; E S_TermW 6 12; E S_TermW 5 9; E S_MakeUpW 6 1664; E S_TermW 4 6;
    E S_TermW 7 20; E S_MakeUpW 5 128; E S_TermW 7 24; E S_TermW 6 14; E S_TermW 7 28; E S_TermW 4 4;
    E S_TermW 4 2; E S_TermW 4 7; E S_TermW 7 23; E S_TermW 4 3; E S_TermW 7 27; E S_TermW 4 5;
    E S_TermW 8 39; E S_TermW 6 16; E S_MakeUpW 8 576; E S_TermW 4 6; E S_TermW 7 19; E S_TermW 5 8;
    E S_TermW 8 55; E S_MakeUpW 5 64; E S_TermW 5 10; E S_TermW 4 4; E S_TermW 4 2; E S_TermW 4 7;
    E S_TermW 8 45; E S_TermW 4 3; E S_TermW 5 11; E S_TermW 4 5; E S_TermW 8 53; E S_TermW 5 9;
    E S_MakeUpW 8 448; E S_TermW 4 6; E S_TermW 8 35; E S_MakeUpW 5 128; E S_TermW 8 51; E S_TermW 6 15;
    E S_TermW 8 63; E S_TermW 4 4; E S_TermW 4 2; E S_TermW 4 7; E S_TermW 6 13; E S_TermW 4 3;
    E S_MakeUpW 9 1472; E S_TermW 4 5; E S_TermW 8 43; E S_TermW 6 17; E S_MakeUpW 9 1216; E S_TermW 4 6;
    E S_TermW 6 1; E S_TermW 5 8; E S_MakeUpW 6 192; E S_MakeUpW 5 64; E S_TermW 5 10; E S_TermW 4 4;
    E S_TermW 4 2; E S_TermW 4 7; E S_TermW 8 29; E S_TermW 4 3; E S_TermW 5 11; E S_TermW 4 5;
    E S_TermW 6 12; E S_TermW 5 9; E S_MakeUpW 6 1664; E S_TermW 4 6; E S_TermW 8 33; E S_MakeUpW 5 128;
    E S_TermW 8 49; E S_TermW 6 14; E S_TermW 8 61; E S_TermW 4 4; E S_TermW 4 2; E S_TermW 4 7;
    E S_TermW 8 47; E S_TermW 4 3; E S_TermW 8 59; E S_TermW 4 5; E S_TermW 8 41; E S_TermW 6 16;
    E S_MakeUpW 9 960; E S_TermW 4 6; E S_TermW 8 31; E S_TermW 5 8; E S_TermW 8 57; E S_MakeUpW 5 64;
    E S_TermW 5 10; E S_TermW 4 4; E S_TermW 4 2; E S_TermW 4 7; E S_TermW 7 22; E S_TermW 4 3;
    E S_TermW 5 11; E S_TermW 4 5; E S_TermW 7 26; E S_TermW 5 9; E S_MakeUpW 9 704; E S_TermW 4 6;
    E S_TermW 8 37; E S_MakeUpW 5 128; E S_TermW 7 25; E S_TermW 6 15; E S_MakeUpW 8 320; E S_TermW 4 4;
    E S_TermW 4 2; E S_TermW 4 7; E S_TermW 6 13; E S_TermW 4 3; E S_TermW 7 18; E S_TermW 4 5;
    E S_TermW 7 21; E S_TermW 6 17; E S_MakeUpW 7 256; E S_TermW 4 6; E S_TermW 6 1; E S_TermW 5 8;
    E S_MakeUpW 6 192; E S_MakeUpW 5 64; E S_TermW 5 10; E S_TermW 4 4; E S_TermW 4 2; E S_TermW 4 7;
    E S_MakeUp 12 2176; E S_TermW 4 3; E S_TermW 5 11; E S_TermW 4 5; E S_TermW 6 12; E S_TermW 5 9;
    E S_MakeUpW 6 1664; E S_TermW 4 6; E S_TermW 7 20; E S_MakeUpW 5 128; E S_TermW 7 24; E S_TermW 6 14;
    E S_TermW 7 28; E S_TermW 4 4; E S_TermW 4 2; E S_TermW 4 7; E S_TermW 7 23; E S_TermW 4 3;
    E S_TermW 7 27; E S_TermW 4 5; E S_TermW 8 40; E S_TermW 6 16; E S_MakeUpW 9 832; E S_TermW 4 6;
    E S_TermW 7 19; E S_TermW 5 8; E S_TermW 8 56; E S_MakeUpW 5 64; E S_TermW 5 10; E S_TermW 4 4;
    E S_TermW 4 2; E S_TermW 4 7; E S_TermW 8 46; E S_TermW 4 3; E S_TermW 5 11; E S_TermW 4 5;
    E S_TermW 8 54; E S_TermW 5 9; E S_MakeUpW 8 512; E S_TermW 4 6; E S_TermW 8 36; E S_MakeUpW 5 128;
    E S_TermW 8 52; E S_TermW 6 15; E S_TermW 8 0; E S_TermW 4 4; E S_TermW 4 2; E S_TermW 4 7;
    E S_TermW 6 13; E S_TermW 4 3; E S_MakeUpW 9 1600; E S_TermW 4 5; E S_TermW 8 44; E S_TermW 6 17;
    E S_MakeUpW 9 1344; E S_TermW 4 6; E S_TermW 6 1; E S_TermW 5 8; E S_MakeUpW 6 192; E S_MakeUpW 5 64;
    E S_TermW 5 10; E S_TermW 4 4; E S_TermW 4 2; E S_TermW 4 7; E S_TermW 8 30; E S_TermW 4 3;
    E S_TermW 5 11; E S_TermW 4 5; E S_TermW 6 12; E S_TermW 5 9; E S_MakeUpW 6 1664; E S_TermW 4 6;
    E S_TermW 8 34; E S_MakeUpW 5 128; E S_TermW 8 50; E S_TermW 6 14; E S_TermW 8 62; E S_TermW 4 4;
    E S_TermW 4 2; E S_TermW 4 7; E S_TermW 8 48; E S_TermW 4 3; E S_TermW 8 60; E S_TermW 4 5;
    E S_TermW 8 42; E S_TermW 6 16; E S_MakeUpW 9 1088; E S_TermW 4 6; E S_TermW 8 32; E S_TermW 5 8;
    E S_TermW 8 58; E S_MakeUpW 5 64; E S_TermW 5 10; E S_TermW 4 4; E S_TermW 4 2; E S_TermW 4 7;
    E S_TermW 7 22; E S_TermW 4 3; E S_TermW 5 11; E S_TermW 4 5; E S_TermW 7 26; E S_TermW 5 9;
    E S_MakeUpW 8 640; E S_TermW 4 6; E S_TermW 8 38; E S_MakeUpW 5 128; E S_TermW 7 25; E S_TermW 6 15;
    E S_MakeUpW 8 384; E S_TermW 4 4; E S_TermW 4 2; E S_TermW 4 7; E S_TermW 6 13; E S_TermW 4 3;
    E S_TermW 7 18; E S_TermW 4 5; E S_TermW 7 21; E S_TermW 6 17; E S_MakeUpW 7 256; E S_TermW 4 6;
    E S_TermW 6 1; E S_TermW 5 8; E S_MakeUpW 6 192; E S_MakeUpW 5 64; E S_TermW 5 10; E S_TermW 4 4;
    E S_TermW 4 2; E S_TermW 4 7; E S_Null 1 0; E S_TermW 4 3; E S_TermW 5 11; E S_TermW 4 5;
    E S_TermW 6 12; E S_TermW 5 9; E S_MakeUpW 6 1664; E S_TermW 4 6; E S_TermW 7 20; E S_MakeUpW 5 128;
    E S_TermW 7 24; E S_TermW 6 14; E S_TermW 7 28; E S_TermW 4 4; E S_TermW 4 2; E S_TermW 4 7;
    E S_TermW 7 23; E S_TermW 4 3; E S_TermW 7 27; E S_TermW 4 5; E S_TermW 8 39; E S_TermW 6 16;
    E S_MakeUpW 8 576; E S_TermW 4 6; E S_TermW 7 19; E S_TermW 5 8; E S_TermW 8 55; E S_MakeUpW 5 64;
    E S_TermW 5 10; E S_TermW 4 4; E S_TermW 4 2; E S_TermW 4 7; E S_TermW 8 45; E S_TermW 4 3;
    E S_TermW 5 11; E S_TermW 4 5; E S_TermW 8 53; E S_TermW 5 9; E S_MakeUpW 8 448; E S_TermW 4 6;
    E S_TermW 8 35; E S_MakeUpW 5 128; E S_TermW 8 51; E S_TermW 6 15; E S_TermW 8 63; E S_TermW 4 4;
    E S_TermW 4 2; E S_TermW 4 7; E S_TermW 6 13; E S_TermW 4 3; E S_MakeUpW 9 1536; E S_TermW 4 5;
    E S_TermW 8 43; E S_TermW 6 17; E S_MakeUpW 9 1280; E S_TermW 4 6; E S_TermW 6 1; E S_TermW 5 8;
    E S_MakeUpW 6 192; E S_MakeUpW 5 64; E S_TermW 5 10; E S_TermW 4 4; E S_TermW 4 2; E S_TermW 4 7;
    E S_TermW 8 29; E S_TermW 4 3; E S_TermW 5 11; E S_TermW 4 5; E S_TermW 6 12; E S_TermW 5 9;
    E S_MakeUpW 6 1664; E S_TermW 4 6; E S_TermW 8 33; E S_MakeUpW 5 128; E S_TermW 8 49; E S_TermW 6 14;
    E S_TermW 8 61; E S_TermW 4 4; E S_TermW 4 2; E S_TermW 4 7; E S_TermW 8 47; E S_TermW 4 3;
    E S_TermW 8 59; E S_TermW 4 5; E S_TermW 8 41; E S_TermW 6 16; E S_MakeUpW 9 1024; E S_TermW 4 6;
    E S_TermW 8 31; E S_TermW 5 8; E S_TermW 8 57; E S_MakeUpW 5 64; E S_TermW 5 10; E S_TermW 4 4;
    E S_TermW 4 2; E S_TermW 4 7; E S_TermW 7 22; E S_TermW 4 3; E S_TermW 5 11; E S_TermW 4 5;
    E S_TermW 7 26; E S_TermW 5 9; E S_MakeUpW 9 768; E S_TermW 4 6; E S_TermW 8 37; E S_MakeUpW 5 128;
    E S_TermW 7 25; E S_TermW 6 15; E S_MakeUpW 8 320; E S_TermW 4 4; E S_TermW 4 2; E S_TermW 4 7;
    E S_TermW 6 13; E S_TermW 4 3; E S_TermW 7 18; E S_TermW 4 5; E S_TermW 7 21; E S_TermW 6 17;
    E S_MakeUpW 7 256; E S_TermW 4 6; E S_TermW 6 1; E S_TermW 5 8; E S_MakeUpW 6 192; E S_MakeUpW 5 64;
    E S_TermW 5 10; E S_TermW 4 4; E S_TermW 4 2; E S_TermW 4 7; E S_MakeUp 12 2432; E S_TermW 4 3;
    E S_TermW 5 11; E S_TermW 4 5; E S_TermW 6 12; E S_TermW 5 9; E S_MakeUpW 6 1664; E S_TermW 4 6;
    E S_TermW 7 20; E S_MakeUpW 5 128; E S_TermW 7 24; E S_TermW 6 14; E S_TermW 7 28; E S_TermW 4 4;
    E S_TermW 4 2; E S_TermW 4 7; E S_TermW 7 23; E S_TermW 4 3; E S_TermW 7 27; E S_TermW 4 5;
    E S_TermW 8 40; E S_TermW 6 16; E S_MakeUpW 9 896; E S_TermW 4 6; E S_TermW 7 19; E S_TermW 5 8;
    E S_TermW 8 56; E S_MakeUpW 5 64; E S_TermW 5 10; E S_TermW 4 4; E S_TermW 4 2; E S_TermW 4 7;
    E S_TermW 8 46; E S_TermW 4 3; E S_TermW 5 11; E S_TermW 4 5; E S_TermW 8 54; E S_TermW 5 9;
    E S_MakeUpW 8 512; E S_TermW 4 6; E S_TermW 8 36; E S_MakeUpW 5 128; E S_TermW 8 52; E S_TermW 6 15;
    E S_TermW 8 0; E S_TermW 4 4; E S_TermW 4 2; E S_TermW 4 7; E S_TermW 6 13; E S_TermW 4 3;
    E S_MakeUpW 9 1728; E S_TermW 4 5; E S_TermW 8 44; E S_TermW 6 17; E S_MakeUpW 9 1408; E S_TermW 4 6;
    E S_TermW 6 1; E S_TermW 5 8; E S_MakeUpW 6 192; E S_MakeUpW 5 64; E S_TermW 5 10; E S_TermW 4 4;
    E S_TermW 4 2; E S_TermW 4 7; E S_TermW 8 30; E S_TermW 4 3; E S_TermW 5 11; E S_TermW 4 5;
    E S_TermW 6 12; E S_TermW 5 9; E S_MakeUpW 6 1664; E S_TermW 4 6; E S_TermW 8 34; E S_MakeUpW 5 128;
    E S_TermW 8 50; E S_TermW 6 14; E S_TermW 8 62; E S_TermW 4 4; E S_TermW 4 2; E S_TermW 4 7;
    E S_TermW 8 48; E S_TermW 4 3; E S_TermW 8 60; E S_TermW 4 5; E S_TermW 8 42; E S_TermW 6 16;
    E S_MakeUpW 9 1152; E S_TermW 4 6; E S_TermW 8 32; E S_TermW 5 8; E S_TermW 8 58; E S_MakeUpW 5 64;
    E S_TermW 5 10; E S_TermW 4 4; E S_TermW 4 2; E S_TermW 4 7; E S_TermW 7 22; E S_TermW 4 3;
    E S_TermW 5 11; E S_TermW 4 5; E S_TermW 7 26; E S_TermW 5 9; E S_MakeUpW 8 640; E S_TermW 4 6;
    E S_TermW 8 38; E S_MakeUpW 5 128; E S_TermW 7 25; E S_TermW 6 15; E S_MakeUpW 8 384; E S_TermW 4 4;
    E S_TermW 4 2; E S_TermW 4 7; E S_TermW 6 13; E S_TermW 4 3; E S_TermW 7 18; E S_TermW 4 5;
    E S_TermW 7 21; E S_TermW 6 17; E S_MakeUpW 7 256; E S_TermW 4 6; E S_TermW 6 1; E S_TermW 5 8;
    E S_MakeUpW 6 192; E S_MakeUpW 5 64; E S_TermW 5 10; E S_TermW 4 4; E S_TermW 4 2; E S_TermW 4 7;
    E S_Null 1 0; E S_TermW 4 3; E S_TermW 5 11; E S_TermW 4 5; E S_TermW 6 12; E S_TermW 5 9;
    E S_MakeUpW 6 1664; E S_TermW 4 6; E S_TermW 7 20; E S_MakeUpW 5 128; E S_TermW 7 24; E S_TermW 6 14;
    E S_TermW 7 28; E S_TermW 4 4; E S_TermW 4 2; E S_TermW 4 7; E S_TermW 7 23; E S_TermW 4 3;
    E S_TermW 7 27; E S_TermW 4 5; E S_TermW 8 39; E S_TermW 6 16; E S_MakeUpW 8 576; E S_TermW 4 6;
    E S_TermW 7 19; E S_TermW 5 8; E S_TermW 8 55; E S_MakeUpW 5 64; E S_TermW 5 10; E S_TermW 4 4;
    E S_TermW 4 2; E S_TermW 4 7; E S_TermW 8 45; E S_TermW 4 3; E S_TermW 5 11; E S_TermW 4 5;
    E S_TermW 8 53; E S_TermW 5 9; E S_MakeUpW 8 448; E S_TermW 4 6; E S_TermW 8 35; E S_MakeUpW 5 128;
    E S_TermW 8 51; E S_TermW 6 15; E S_TermW 8 63; E S_TermW 4 4; E S_TermW 4 2; E S_TermW 4 7;
    E S_TermW 6 13; E S_TermW 4 3; E S_MakeUpW 9 1472; E S_TermW 4 5; E S_TermW 8 43; E S_TermW 6 17;
    E S_MakeUpW 9 1216; E S_TermW 4 6; E S_TermW 6 1; E S_TermW 5 8; E S_MakeUpW 6 192; E S_MakeUpW 5 64;
    E S_TermW 5 10; E S_TermW 4 4; E S_TermW 4 2; E S_TermW 4 7; E S_TermW 8 29; E S_TermW 4 3;
    E S_TermW 5 11; E S_TermW 4 5; E S_TermW 6 12; E S_TermW 5 9; E S_MakeUpW 6 1664; E S_TermW 4 6;
    E S_TermW 8 33; E S_MakeUpW 5 128; E S_TermW 8 49; E S_TermW 6 14; E S_TermW 8 61; E S_TermW 4 4;
    E S_TermW 4 2; E S_TermW 4 7; E S_TermW 8 47; E S_TermW 4 3; E S_TermW 8 59; E S_TermW 4 5;
    E S_TermW 8 41; E S_TermW 6 16; E S_MakeUpW 9 960; E S_TermW 4 6; E S_TermW 8 31; E S_TermW 5 8;
    E S_TermW 8 57; E S_MakeUpW 5 64; E S_TermW 5 10; E S_TermW 4 4; E S_TermW 4 2; E S_TermW 4 7;
    E S_TermW 7 22; E S_TermW 4 3; E S_TermW 5 11; E S_TermW 4 5; E S_TermW 7 26; E S_TermW 5 9;
    E S_MakeUpW 9 704; E S_TermW 4 6; E S_TermW 8 37; E S_MakeUpW 5 128; E S_TermW 7 25; E S_TermW 6 15;
    E S_MakeUpW 8 320; E S_TermW 4 4; E S_TermW 4 2; E S_TermW 4 7; E S_TermW 6 13; E S_TermW 4 3;
    E S_TermW 7 18; E S_TermW 4 5; E S_TermW 7 21; E S_TermW 6 17; E S_MakeUpW 7 256; E S_TermW 4 6;
    E S_TermW 6 1; E S_TermW 5 8; E S_MakeUpW 6 192; E S_MakeUpW 5 64; E S_TermW 5 10; E S_TermW 4 4;
    E S_TermW 4 2; E S_TermW 4 7; E S_MakeUp 12 2048; E S_TermW 4 3; E S_TermW 5 11; E S_TermW 4 5;
    E S_TermW 6 12; E S_TermW 5 9; E S_MakeUpW 6 1664; E S_TermW 4 6; E S_TermW 7 20; E S_MakeUpW 5 128;
    E S_TermW 7 24; E S_TermW 6 14; E S_TermW 7 28; E S_TermW 4 4; E S_TermW 4 2; E S_TermW 4 7;
    E S_TermW 7 23; E S_TermW 4 3; E S_TermW 7 27; E S_TermW 4 5; E S_TermW 8 40; E S_TermW 6 16;
    E S_MakeUpW 9 832; E S_TermW 4 6; E S_TermW 7 19; E S_TermW 5 8; E S_TermW 8 56; E S_MakeUpW 5 64;
    E S_TermW 5 10; E S_TermW 4 4; E S_TermW 4 2; E S_TermW 4 7; E S_TermW 8 46; E S_TermW 4 3;
    E S_TermW 5 11; E S_TermW 4 5; E S_TermW 8 54; E S_TermW 5 9; E S_MakeUpW 8 512; E S_TermW 4 6;
    E S_TermW 8 36; E S_MakeUpW 5 128; E S_TermW 8 52; E S_TermW 6 15; E S_TermW 8 0; E S_TermW 4 4;
    E S_TermW 4 2; E S_TermW 4 7; E S_TermW 6 13; E S_TermW 4 3; E S_MakeUpW 9 1600; E S_TermW 4 5;
    E S_TermW 8 44; E S_TermW 6 17; E S_MakeUpW 9 1344; E S_TermW 4 6; E S_TermW 6 1; E S_TermW 5 8;
    E S_MakeUpW 6 192; E S_MakeUpW 5 64; E S_TermW 5 10; E S_TermW 4 4; E S_TermW 4 2; E S_TermW 4 7;
    E S_TermW 8 30; E S_TermW 4 3; E S_TermW 5 11; E S_TermW 4 5; E S_TermW 6 12; E S_TermW 5 9;
    E S_MakeUpW 6 1664; E S_TermW 4 6; E S_TermW 8 34; E S_MakeUpW 5 128; E S_TermW 8 50; E S_TermW 6 14;
    E S_TermW 8 62; E S_TermW 4 4; E S_TermW 4 2; E S_TermW 4 7; E S_TermW 8 48; E S_TermW 4 3;
    E S_TermW 8 60; E S_TermW 4 5; E S_TermW 8 42; E S_TermW 6 16; E S_MakeUpW 9 1088; E S_TermW 4 6;
    E S_TermW 8 32; E S_TermW 5 8; E S_TermW 8 58; E S_MakeUpW 5 64; E S_TermW 5 10; E S_TermW 4 4;
    E S_TermW 4 2; E S_TermW 4 7; E S_TermW 7 22; E S_TermW 4 3; E S_TermW 5 11; E S_TermW 4 5;
    E S_TermW 7 26; E S_TermW 5 9; E S_MakeUpW 8 640; E S_TermW 4 6; E S_TermW 8 38; E S_MakeUpW 5 128;
    E S_TermW 7 25; E S_TermW 6 15; E S_MakeUpW 8 384; E S_TermW 4 4; E S_TermW 4 2; E S_TermW 4 7;
    E S_TermW 6 13; E S_TermW 4 3; E S_TermW 7 18; E S_TermW 4 5; E S_TermW 7 21; E S_TermW 6 17;
    E S_MakeUpW 7 256; E S_TermW 4 6; E S_TermW 6 1; E S_TermW 5 8; E S_MakeUpW 6 192; E S_MakeUpW 5 64;
    E S_TermW 5 10; E S_TermW 4 4; E S_TermW 4 2; E S_TermW 4 7; E S_Null 1 0; E S_TermW 4 3;
    E S_TermW 5 11; E S_TermW 4 5; E S_TermW 6 12; E S_TermW 5 9; E S_MakeUpW 6 1664; E S_TermW 4 6;
    E S_TermW 7 20; E S_MakeUpW 5 128; E S_TermW 7 24; E S_TermW 6 14; E S_TermW 7 28; E S_TermW 4 4;
    E S_TermW 4 2; E S_TermW 4 7; E S_TermW 7 23; E S_TermW 4 3; E S_TermW 7 27; E S_TermW 4 5;
    E S_TermW 8 39; E S_TermW 6 16; E S_MakeUpW 8 576; E S_TermW 4 6; E S_TermW 7 19; E S_TermW 5 8;
    E S_TermW 8 55; E S_MakeUpW 5 64; E S_TermW 5 10; E S_TermW 4 4; E S_TermW 4 2; E S_TermW 4 7;
    E S_TermW 8 45; E S_TermW 4 3; E S_TermW 5 11; E S_TermW 4 5; E S_TermW 8 53; E S_TermW 5 9;
    E S_MakeUpW 8 448; E S_TermW 4 6; E S_TermW 8 35; E S_MakeUpW 5 128; E S_TermW 8 51; E S_TermW 6 15;
    E S_TermW 8 63; E S_TermW 4 4; E S_TermW 4 2; E S_TermW 4 7; E S_TermW 6 13; E S_TermW 4 3;
    E S_MakeUpW 9 1536; E S_TermW 4 5; E S_TermW 8 43; E S_TermW 6 17; E S_MakeUpW 9 1280; E S_TermW 4 6;
    E S_TermW 6 1; E S_TermW 5 8; E S_MakeUpW 6 192; E S_MakeUpW 5 64; E S_TermW 5 10; E S_TermW 4 4;
    E S_TermW 4 2; E S_TermW 4 7; E S_TermW 8 29; E S_TermW 4 3; E S_TermW 5 11; E S_TermW 4 5;
    E S_TermW 6 12; E S_TermW 5 9; E S_MakeUpW 6 1664; E S_TermW 4 6; E S_TermW 8 33; E S_MakeUpW 5 128;
    E S_TermW 8 49; E S_TermW 6 14; E S_TermW 8 61; E S_TermW 4 4; E S_TermW 4 2; E S_TermW 4 7;
    E S_TermW 8 47; E S_TermW 4 3; E S_TermW 8 59; E S_TermW 4 5; E S_TermW 8 41; E S_TermW 6 16;
    E S_MakeUpW 9 1024; E S_TermW 4 6; E S_TermW 8 31; E S_TermW 5 8; E S_TermW 8 57; E S_MakeUpW 5 64;
    E S_TermW 5 10; E S_TermW 4 4; E S_TermW 4 2; E S_TermW 4 7; E S_TermW 7 22; E S_TermW 4 3;
    E S_TermW 5 11; E S_TermW 4 5; E S_TermW 7 26; E S_TermW 5 9; E S_MakeUpW 9 768; E S_TermW 4 6;
    E S_TermW 8 37; E S_MakeUpW 5 128; E S_TermW 7 25; E S_TermW 6 15; E S_MakeUpW 8 320; E S_TermW 4 4;
    E S_TermW 4 2; E S_TermW 4 7; E S_TermW 6 13; E S_TermW 4 3; E S_TermW 7 18; E S_TermW 4 5;
    E S_TermW 7 21; E S_TermW 6 17; E S_MakeUpW 7 256; E S_TermW 4 6; E S_TermW 6 1; E S_TermW 5 8;
    E S_MakeUpW 6 192; E S_MakeUpW 5 64; E S_TermW 5 10; E S_TermW 4 4; E S_TermW 4 2; E S_TermW 4 7;
    E S_MakeUp 11 1920; E S_TermW 4 3; E S_TermW 5 11; E S_TermW 4 5; E S_TermW 6 12; E S_TermW 5 9;
    E S_MakeUpW 6 1664; E S_TermW 4 6; E S_TermW 7 20; E S_MakeUpW 5 128; E S_TermW 7 24; E S_TermW 6 14;
    E S_TermW 7 28; E S_TermW 4 4; E S_TermW 4 2; E S_TermW 4 7; E S_TermW 7 23; E S_TermW 4 3;
    E S_TermW 7 27; E S_TermW 4 5; E S_TermW 8 40; E S_TermW 6 16; E S_MakeUpW 9 896; E S_TermW 4 6;
    E S_TermW 7 19; E S_TermW 5 8; E S_TermW 8 56; E S_MakeUpW 5 64; E S_TermW 5 10; E S_TermW 4 4;
    E S_TermW 4 2; E S_TermW 4 7; E S_TermW 8 46; E S_TermW 4 3; E S_TermW 5 11; E S_TermW 4 5;
    E S_TermW 8 54; E S_TermW 5 9; E S_MakeUpW 8 512; E S_TermW 4 6; E S_TermW 8 36; E S_MakeUpW 5 128;
    E S_TermW 8 52; E S_TermW 6 15; E S_TermW 8 0; E S_TermW 4 4; E S_TermW 4 2; E S_TermW 4 7;
    E S_TermW 6 13; E S_TermW 4 3; E S_MakeUpW 9 1728; E S_TermW 4 5; E S_TermW 8 44; E S_TermW 6 17;
    E S_MakeUpW 9 1408; E S_TermW 4 6; E S_TermW 6 1; E S_TermW 5 8; E S_MakeUpW 6 192; E S_MakeUpW 5 64;
    E S_TermW 5 10; E S_TermW 4 4; E S_TermW 4 2; E S_TermW 4 7; E S_TermW 8 30; E S_TermW 4 3;
    E S_TermW 5 11; E S_TermW 4 5; E S_TermW 6 12; E S_TermW 5 9; E S_MakeUpW 6 1664; E S_TermW 4 6;
    E S_TermW 8 34; E S_MakeUpW 5 128; E S_TermW 8 50; E S_TermW 6 14; E S_TermW 8 62; E S_TermW 4 4;
    E S_TermW 4 2; E S_TermW 4 7; E S_TermW 8 48; E S_TermW 4 3; E S_TermW 8 60; E S_TermW 4 5;
    E S_TermW 8 42; E S_TermW 6 16; E S_MakeUpW 9 1152; E S_TermW 4 6; E S_TermW 8 32; E S_TermW 5 8;
    E S_TermW 8 58; E S_MakeUpW 5 64; E S_TermW 5 10; E S_TermW 4 4; E S_TermW 4 2; E S_TermW 4 7;
    E S_TermW 7 22; E S_TermW 4 3; E S_TermW 5 11; E S_TermW 4 5; E S_TermW 7 26; E S_TermW 5 9;
    E S_MakeUpW 8 640; E S_TermW 4 6; E S_TermW 8 38; E S_MakeUpW 5 128; E S_TermW 7 25; E S_TermW 6 15;
    E S_MakeUpW 8 384; E S_TermW 4 4; E S_TermW 4 2; E S_TermW 4 7; E S_TermW 6 13; E S_TermW 4 3;
    E S_TermW 7 18; E S_TermW 4 5; E S_TermW 7 21; E S_TermW 6 17; E S_MakeUpW 7 256; E S_TermW 4 6;
    E S_TermW 6 1; E S_TermW 5 8; E S_MakeUpW 6 192; E S_MakeUpW 5 64; E S_TermW 5 10; E S_TermW 4 4;
    E S_TermW 4 2; E S_TermW 4 7; E S_Null 1 0; E S_TermW 4 3; E S_TermW 5 11; E S_TermW 4 5;
    E S_TermW 6 12; E S_TermW 5 9; E S_MakeUpW 6 1664; E S_TermW 4 6; E S_TermW 7 20; E S_MakeUpW 5 128;
    E S_TermW 7 24; E S_TermW 6 14; E S_TermW 7 28; E S_TermW 4 4; E S_TermW 4 2; E S_TermW 4 7;
    E S_TermW 7 23; E S_TermW 4 3; E S_TermW 7 27; E S_TermW 4 5; E S_TermW 8 39; E S_TermW 6 16;
    E S_MakeUpW 8 576; E S_TermW 4 6; E S_TermW 7 19; E S_TermW 5 8; E S_TermW 8 55; E S_MakeUpW 5 64;
    E S_TermW 5 10; E S_TermW 4 4; E S_TermW 4 2; E S_TermW 4 7; E S_TermW 8 45; E S_TermW 4 3;
    E S_TermW 5 11; E S_TermW 4 5; E S_TermW 8 53; E S_TermW 5 9; E S_MakeUpW 8 448; E S_TermW 4 6;
    E S_TermW 8 35; E S_MakeUpW 5 128; E S_TermW 8 51; E S_TermW 6 15; E S_TermW 8 63; E S_TermW 4 4;
    E S_TermW 4 2; E S_TermW 4 7; E S_TermW 6 13; E S_TermW 4 3; E S_MakeUpW 9 1472; E S_TermW 4 5;
    E S_TermW 8 43; E S_TermW 6 17; E S_MakeUpW 9 1216; E S_TermW 4 6; E S_TermW 6 1; E S_TermW 5 8;
    E S_MakeUpW 6 192; E S_MakeUpW 5 64; E S_TermW 5 10; E S_TermW 4 4; E S_TermW 4 2; E S_TermW 4 7;
    E S_TermW 8 29; E S_TermW 4 3; E S_TermW 5 11; E S_TermW 4 5; E S_TermW 6 12; E S_TermW 5 9;
    E S_MakeUpW 6 1664; E S_TermW 4 6; E S_TermW 8 33; E S_MakeUpW 5 128; E S_TermW 8 49; E S_TermW 6 14;
    E S_TermW 8 61; E S_TermW 4 4; E S_TermW 4 2; E S_TermW 4 7; E S_TermW 8 47; E S_TermW 4 3;
    E S_TermW 8 59; E S_TermW 4 5; E S_TermW 8 41; E S_TermW 6 16; E S_MakeUpW 9 960; E S_TermW 4 6;
    E S_TermW 8 31; E S_TermW 5 8; E S_TermW 8 57; E S_MakeUpW 5 64; E S_TermW 5 10; E S_TermW 4 4;
    E S_TermW 4 2; E S_TermW 4 7; E S_TermW 7 22; E S_TermW 4 3; E S_TermW 5 11; E S_TermW 4 5;
    E S_TermW 7 26; E S_TermW 5 9; E S_MakeUpW 9 704; E S_TermW 4 6; E S_TermW 8 37; E S_MakeUpW 5 128;
    E S_TermW 7 25; E S_TermW 6 15; E S_MakeUpW 8 320; E S_TermW 4 4; E S_TermW 4 2; E S_TermW 4 7;
    E S_TermW 6 13; E S_TermW 4 3; E S_TermW 7 18; E S_TermW 4 5; E S_TermW 7 21; E S_TermW 6 17;
    E S_MakeUpW 7 256; E S_TermW 4 6; E S_TermW 6 1; E S_TermW 5 8; E S_MakeUpW 6 192; E S_MakeUpW 5 64;
    E S_TermW 5 10; E S_TermW 4 4; E S_TermW 4 2; E S_TermW 4 7; E S_MakeUp 12 2304; E S_TermW 4 3;
    E S_TermW 5 11; E S_TermW 4 5; E S_TermW 6 12; E S_TermW 5 9; E S_MakeUpW 6 1664; E S_TermW 4 6;
    E S_TermW 7 20; E S_MakeUpW 5 128; E S_TermW 7 24; E S_TermW 6 14; E S_TermW 7 28; E S_TermW 4 4;
    E S_TermW 4 2; E S_TermW 4 7; E S_TermW 7 23; E S_TermW 4 3; E S_TermW 7 27; E S_TermW 4 5;
    E S_TermW 8 40; E S_TermW 6 16; E S_MakeUpW 9 832; E S_TermW 4 6; E S_TermW 7 19; E S_TermW 5 8;
    E S_TermW 8 56; E S_MakeUpW 5 64; E S_TermW 5 10; E S_TermW 4 4; E S_TermW 4 2; E S_TermW 4 7;
    E S_TermW 8 46; E S_TermW 4 3; E S_TermW 5 11; E S_TermW 4 5; E S_TermW 8 54; E S_TermW 5 9;
    E S_MakeUpW 8 512; E S_TermW 4 6; E S_TermW 8 36; E S_MakeUpW 5 128; E S_TermW 8 52; E S_TermW 6 15;
    E S_TermW 8 0; E S_TermW 4 4; E S_TermW 4 2; E S_TermW 4 7; E S_TermW 6 13; E S_TermW 4 3;
    E S_MakeUpW 9 1600; E S_TermW 4 5; E S_TermW 8 44; E S_TermW 6 17; E S_MakeUpW 9 1344; E S_TermW 4 6;
    E S_TermW 6 1; E S_TermW 5 8; E S_MakeUpW 6 192; E S_MakeUpW 5 64; E S_TermW 5 10; E S_TermW 4 4;
    E S_TermW 4 2; E S_TermW 4 7; E S_TermW 8 30; E S_TermW 4 3; E S_TermW 5 11; E S_TermW 4 5;
    E S_TermW 6 12; E S_TermW 5 9; E S_MakeUpW 6 1664; E S_TermW 4 6; E S_TermW 8 34; E S_MakeUpW 5 128;
    E S_TermW 8 50; E S_TermW 6 14; E S_TermW 8 62; E S_TermW 4 4; E S_TermW 4 2; E S_TermW 4 7;
    E S_TermW 8 48; E S_TermW 4 3; E S_TermW 8 60; E S_TermW 4 5; E S_TermW 8 42; E S_TermW 6 16;
    E S_MakeUpW 9 1088; E S_TermW 4 6; E S_TermW 8 32; E S_TermW 5 8; E S_TermW 8 58; E S_MakeUpW 5 64;
    E S_TermW 5 10; E S_TermW 4 4; E S_TermW 4 2; E S_TermW 4 7; E S_TermW 7 22; E S_TermW 4 3;
    E S_TermW 5 11; E S_TermW 4 5; E S_TermW 7 26; E S_TermW 5 9; E S_MakeUpW 8 640; E S_TermW 4 6;
    E S_TermW 8 38; E S_MakeUpW 5 128; E S_TermW 7 25; E S_TermW 6 15; E S_MakeUpW 8 384; E S_TermW 4 4;
    E S_TermW 4 2; E S_TermW 4 7; E S_TermW 6 13; E S_TermW 4 3; E S_TermW 7 18; E S_TermW 4 5;
    E S_TermW 7 21; E S_TermW 6 17; E S_MakeUpW 7 256; E S_TermW 4 6; E S_TermW 6 1; E S_TermW 5 8;
    E S_MakeUpW 6 192; E S_MakeUpW 5 64; E S_TermW 5 10; E S_TermW 4 4; E S_TermW 4 2; E S_TermW 4 7;
    E S_Null 1 0; E S_TermW 4 3; E S_TermW 5 11; E S_TermW 4 5; E S_TermW 6 12; E S_TermW 5 9;
    E S_MakeUpW 6 1664; E S_TermW 4 6; E S_TermW 7 20; E S_MakeUpW 5 128; E S_TermW 7 24; E S_TermW 6 14;
    E S_TermW 7 28; E S_TermW 4 4; E S_TermW 4 2; E S_TermW 4 7; E S_TermW 7 23; E S_TermW 4 3;
    E S_TermW 7 27; E S_TermW 4 5; E S_TermW 8 39; E S_TermW 6 16; E S_MakeUpW 8 576; E S_TermW 4 6;
    E S_TermW 7 19; E S_TermW 5 8; E S_TermW 8 55; E S_MakeUpW 5 64; E S_TermW 5 10; E S_TermW 4 4;
    E S_TermW 4 2; E S_TermW 4 7; E S_TermW 8 45; E S_TermW 4 3; E S_TermW 5 11; E S_TermW 4 5;
    E S_TermW 8 53; E S_TermW 5 9; E S_MakeUpW 8 448; E S_TermW 4 6; E S_TermW 8 35; E S_MakeUpW 5 128;
    E S_TermW 8 51; E S_TermW 6 15; E S_TermW 8 63; E S_TermW 4 4; E S_TermW 4 2; E S_TermW 4 7;
    E S_TermW 6 13; E S_TermW 4 3; E S_MakeUpW 9 1536; E S_TermW 4 5; E S_TermW 8 43; E S_TermW 6 17;
    E S_MakeUpW 9 1280; E S_TermW 4 6; E S_TermW 6 1; E S_TermW 5 8; E S_MakeUpW 6 192; E S_MakeUpW 5 64;
    E S_TermW 5 10; E S_TermW 4 4; E S_TermW 4 2; E S_TermW 4 7; E S_TermW 8 29; E S_TermW 4 3;
    E S_TermW 5 11; E S_TermW 4 5; E S_TermW 6 12; E S_TermW 5 9; E S_MakeUpW 6 1664; E S_TermW 4 6;
    E S_TermW 8 33; E S_MakeUpW 5 128; E S_TermW 8 49; E S_TermW 6 14; E S_TermW 8 61; E S_TermW 4 4;
    E S_TermW 4 2; E S_TermW 4 7; E S_TermW 8 47; E S_TermW 4 3; E S_TermW 8 59; E S_TermW 4 5;
    E S_TermW 8 41; E S_TermW 6 16; E S_MakeUpW 9 1024; E S_TermW 4 6; E S_TermW 8 31; E S_TermW 5 8;
    E S_TermW 8 57; E S_MakeUpW 5 64; E S_TermW 5 10; E S_TermW 4 4; E S_TermW 4 2; E S_TermW 4 7;
    E S_TermW 7 22; E S_TermW 4 3; E S_TermW 5 11; E S_TermW 4 5; E S_TermW 7 26; E S_TermW 5 9;
    E S_MakeUpW 9 768; E S_TermW 4 6; E S_TermW 8 37; E S_MakeUpW 5 128; E S_TermW 7 25; E S_TermW 6 15;
    E S_MakeUpW 8 320; E S_TermW 4 4; E S_TermW 4 2; E S_TermW 4 7; E S_TermW 6 13; E S_TermW 4 3;
    E S_TermW 7 18; E S_TermW 4 5; E S_TermW 7 21; E S_TermW 6 17; E S_MakeUpW 7 256; E S_TermW 4 6;
    E S_TermW 6 1; E S_TermW 5 8; E S_MakeUpW 6 192; E S_MakeUpW 5 64; E S_TermW 5 10; E S_TermW 4 4;
    E S_TermW 4 2; E S_TermW 4 7; E S_MakeUp 12 2560; E S_TermW 4 3; E S_TermW 5 11; E S_TermW 4 5;
    E S_TermW 6 12; E S_TermW 5 9; E S_MakeUpW 6 1664; E S_TermW 4 6; E S_TermW 7 20; E S_MakeUpW 5 128;
    E S_TermW 7 24; E S_TermW 6 14; E S_TermW 7 28; E S_TermW 4 4; E S_TermW 4 2; E S_TermW 4 7;
    E S_TermW 7 23; E S_TermW 4 3; E S_TermW 7 27; E S_TermW 4 5; E S_TermW 8 40; E S_TermW 6 16;
    E S_MakeUpW 9 896; E S_TermW 4 6; E S_TermW 7 19; E S_TermW 5 8; E S_TermW 8 56; E S_MakeUpW 5 64;
    E S_TermW 5 10; E S_TermW 4 4; E S_TermW 4 2; E S_TermW 4 7; E S_TermW 8 46; E S_TermW 4 3;
    E S_TermW 5 11; E S_TermW 4 5; E S_TermW 8 54; E S_TermW 5 9; E S_MakeUpW 8 512; E S_TermW 4 6;
    E S_TermW 8 36; E S_MakeUpW 5 128; E S_TermW 8 52; E S_TermW 6 15; E S_TermW 8 0; E S_TermW 4 4;
    E S_TermW 4 2; E S_TermW 4 7; E S_TermW 6 13; E S_TermW 4 3; E S_MakeUpW 9 1728; E S_TermW 4 5;
    E S_TermW 8 44; E S_TermW 6 17; E S_MakeUpW 9 1408; E S_TermW 4 6; E S_TermW 6 1; E S_TermW 5 8;
    E S_MakeUpW 6 192; E S_MakeUpW 5 64; E S_TermW 5 10; E S_TermW 4 4; E S_TermW 4 2; E S_TermW 4 7;
    E S_TermW 8 30; E S_TermW 4 3; E S_TermW 5 11; E S_TermW 4 5; E S_TermW 6 12; E S_TermW 5 9;
    E S_MakeUpW 6 1664; E S_TermW 4 6; E S_TermW 8 34; E S_MakeUpW 5 128; E S_TermW 8 50; E S_TermW 6 14;
    E S_TermW 8 62; E S_TermW 4 4; E S_TermW 4 2; E S_TermW 4 7; E S_TermW 8 48; E S_TermW 4 3;
    E S_TermW 8 60; E S_TermW 4 5; E S_TermW 8 42; E S_TermW 6 16; E S_MakeUpW 9 1152; E S_TermW 4 6;
    E S_TermW 8 32; E S_TermW 5 8; E S_TermW 8 58; E S_MakeUpW 5 64; E S_TermW 5 10; E S_TermW 4 4;
    E S_TermW 4 2; E S_TermW 4 7; E S_TermW 7 22; E S_TermW 4 3; E S_TermW 5 11; E S_TermW 4 5;
    E S_TermW 7 26; E S_TermW 5 9; E S_MakeUpW 8 640; E S_TermW 4 6; E S_TermW 8 38; E S_MakeUpW 5 128;
    E S_TermW 7 25; E S_TermW 6 15; E S_MakeUpW 8 384; E S_TermW 4 4; E S_TermW 4 2; E S_TermW 4 7;
    E S_TermW 6 13; E S_TermW 4 3; E S_TermW 7 18; E S_TermW 4 5; E S_TermW 7 21; E S_TermW 6 17;
    E S_MakeUpW 7 256; E S_TermW 4 6; E S_TermW 6 1; E S_TermW 5 8; E S_MakeUpW 6 192; E S_MakeUpW 5 64;
    E S_TermW 5 10; E S_TermW 4 4; E S_TermW 4 2; E S_TermW 4 7 ].

Definition t4_1d_black_table : list t4_table_entry_t :=
  [ E S_Null 1 0; E S_TermB 2 3; E S_TermB 3 1; E S_TermB 2 2; E S_TermB 4 6; E S_TermB 2 3;
    E S_TermB 3 4; E S_TermB 2 2; E S_TermB 6 9; E S_TermB 2 3; E S_TermB 3 1; E S_TermB 2 2;
    E S_TermB 4 5; E S_TermB 2 3; E S_TermB 3 4; E S_TermB 2 2; E S_TermB 7 10; E S_TermB 2 3;
    E S_TermB 3 1; E S_TermB 2 2; E S_TermB 4 6; E S_TermB 2 3; E S_TermB 3 4; E S_TermB 2 2;
    E S_TermB 5 7; E S_TermB 2 3; E S_TermB 3 1; E S_TermB 2 2; E S_TermB 4 5; E S_TermB 2 3;
    E S_TermB 3 4; E S_TermB 2 2; E S_TermB 8 13; E S_TermB 2 3; E S_TermB 3 1; E S_TermB 2 2;
    E S_TermB 4 6; E S_TermB 2 3; E S_TermB 3 4; E S_TermB 2 2; E S_TermB 6 8; E S_TermB 2 3;
    E S_TermB 3 1; E S_TermB 2 2; E S_TermB 4 5; E S_TermB 2 3; E S_TermB 3 4; E S_TermB 2 2;
    E S_TermB 9 15; E S_TermB 2 3; E S_TermB 3 1; E S_TermB 2 2; E S_TermB 4 6; E S_TermB 2 3;
    E S_TermB 3 4; E S_TermB 2 2; E S_TermB 5 7; E S_TermB 2 3; E S_TermB 3 1; E S_TermB 2 2;
    E S_TermB 4 5; E S_TermB 2 3; E S_TermB 3 4; E S_TermB 2 2; E S_TermB 10 18; E S_TermB 2 3;
    E S_TermB 3 1; E S_TermB 2 2; E S_TermB 4 6; E S_TermB 2 3; E S_TermB 3 4; E S_TermB 2 2;
    E S_TermB 6 9; E S_TermB 2 3; E S_TermB 3 1; E S_TermB 2 2; E S_TermB 4 5; E S_TermB 2 3;
    E S_TermB 3 4; E S_TermB 2 2; E S_TermB 7 11; E S_TermB 2 3; E S_TermB 3 1; E S_TermB 2 2;
    E S_TermB 4 6; E S_TermB 2 3; E S_TermB 3 4; E S_TermB 2 2; E S_TermB 5 7; E S_TermB 2 3;
    E S_TermB 3 1; E S_TermB 2 2; E S_TermB 4 5; E S_TermB 2 3; E S_TermB 3 4; E S_TermB 2 2;
    E S_TermB 10 17; E S_TermB 2 3; E S_TermB 3 1; E S_TermB 2 2; E S_TermB 4 6; E S_TermB 2 3;
    E S_TermB 3 4; E S_TermB 2 2; E S_TermB 6 8; E S_TermB 2 3; E S_TermB 3 1; E S_TermB 2 2;
    E S_TermB 4 5; E S_TermB 2 3; E S_TermB 3 4; E S_TermB 2 2; E S_TermB 7 12; E S_TermB 2 3;
    E S_TermB 3 1; E S_TermB 2 2; E S_TermB 4 6; E S_TermB 2 3; E S_TermB 3 4; E S_TermB 2 2;
    E S_TermB 5 7; E S_TermB 2 3; E S_TermB 3 1; E S_TermB 2 2; E S_TermB 4 5; E S_TermB 2 3;
    E S_TermB 3 4; E S_TermB 2 2; E S_MakeUp 11 1792; E S_TermB 2 3; E S_TermB 3 1; E S_TermB 2 2;
    E S_TermB 4 6; E S_TermB 2 3; E S_TermB 3 4; E S_TermB 2 2; E S_TermB 6 9; E S_TermB 2 3;
    E S_TermB 3 1; E S_TermB 2 2; E S_TermB 4 5; E S_TermB 2 3; E S_TermB 3 4; E S_TermB 2 2;
    E S_TermB 7 10; E S_TermB 2 3; E S_TermB 3 1; E S_TermB 2 2; E S_TermB 4 6; E S_TermB 2 3;
    E S_TermB 3 4; E S_TermB 2 2; E S_TermB 5 7; E S_TermB 2 3; E S_TermB 3 1; E S_TermB 2 2;
    E S_TermB 4 5; E S_TermB 2 3; E S_TermB 3 4; E S_TermB 2 2; E S_TermB 11 23; E S_TermB 2 3;
    E S_TermB 3 1; E S_TermB 2 2; E S_TermB 4 6; E S_TermB 2 3; E S_TermB 3 4; E S_TermB 2 2;
    E S_TermB 6 8; E S_TermB 2 3; E S_TermB 3 1; E S_TermB 2 2; E S_TermB 4 5; E S_TermB 2 3;
    E S_TermB 3 4; E S_TermB 2 2; E S_TermB 11 20; E S_TermB 2 3; E S_TermB 3 1; E S_TermB 2 2;
    E S_TermB 4 6; E S_TermB 2 3; E S_TermB 3 4; E S_TermB 2 2; E S_TermB 5 7; E S_TermB 2 3;
    E S_TermB 3 1; E S_TermB 2 2; E S_TermB 4 5; E S_TermB 2 3; E S_TermB 3 4; E S_TermB 2 2;
    E S_TermB 11 25; E S_TermB 2 3; E S_TermB 3 1; E S_TermB 2 2; E S_TermB 4 6; E S_TermB 2 3;
    E S_TermB 3 4; E S_TermB 2 2; E S_TermB 6 9; E S_TermB 2 3; E S_TermB 3 1; E S_TermB 2 2;
    E S_TermB 4 5; E S_TermB 2 3; E S_TermB 3 4; E S_TermB 2 2; E S_TermB 7 11; E S_TermB 2 3;
    E S_TermB 3 1; E S_TermB 2 2; E S_TermB 4 6; E S_TermB 2 3; E S_TermB 3 4; E S_TermB 2 2;
    E S_TermB 5 7; E S_TermB 2 3; E S_TermB 3 1; E S_TermB 2 2; E S_TermB 4 5; E S_TermB 2 3;
    E S_TermB 3 4; E S_TermB 2 2; E S_TermB 8 14; E S_TermB 2 3; E S_TermB 3 1; E S_TermB 2 2;
    E S_TermB 4 6; E S_TermB 2 3; E S_TermB 3 4; E S_TermB 2 2; E S_TermB 6 8; E S_TermB 2 3;
    E S_TermB 3 1; E S_TermB 2 2; E S_TermB 4 5; E S_TermB 2 3; E S_TermB 3 4; E S_TermB 2 2;
    E S_TermB 7 12; E S_TermB 2 3; E S_TermB 3 1; E S_TermB 2 2; E S_TermB 4 6; E S_TermB 2 3;
    E S_TermB 3 4; E S_TermB 2 2; E S_TermB 5 7; E S_TermB 2 3; E S_TermB 3 1; E S_TermB 2 2;
    E S_TermB 4 5; E S_TermB 2 3; E S_TermB 3 4; E S_TermB 2 2; E S_Null 1 0; E S_TermB 2 3;
    E S_TermB 3 1; E S_TermB 2 2; E S_TermB 4 6; E S_TermB 2 3; E S_TermB 3 4; E S_TermB 2 2;
    E S_TermB 6 9; E S_TermB 2 3; E S_TermB 3 1; E S_TermB 2 2; E S_TermB 4 5; E S_TermB 2 3;
    E S_TermB 3 4; E S_TermB 2 2; E S_TermB 7 10; E S_TermB 2 3; E S_TermB 3 1; E S_TermB 2 2;
    E S_TermB 4 6; E S_TermB 2 3; E S_TermB 3 4; E S_TermB 2 2; E S_TermB 5 7; E S_TermB 2 3;
    E S_TermB 3 1; E S_TermB 2 2; E S_TermB 4 5; E S_TermB 2 3; E S_TermB 3 4; E S_TermB 2 2;
    E S_TermB 8 13; E S_TermB 2 3; E S_TermB 3 1; E S_TermB 2 2; E S_TermB 4 6; E S_TermB 2 3;
    E S_TermB 3 4; E S_TermB 2 2; E S_TermB 6 8; E S_TermB 2 3; E S_TermB 3 1; E S_TermB 2 2;
    E S_TermB 4 5; E S_TermB 2 3; E S_TermB 3 4; E S_TermB 2 2; E S_MakeUpB 12 128; E S_TermB 2 3;
    E S_TermB 3 1; E S_TermB 2 2; E S_TermB 4 6; E S_TermB 2 3; E S_TermB 3 4; E S_TermB 2 2;
    E S_TermB 5 7; E S_TermB 2 3; E S_TermB 3 1; E S_TermB 2 2; E S_TermB 4 5; E S_TermB 2 3;
    E S_TermB 3 4; E S_TermB 2 2; E S_TermB 12 56; E S_TermB 2 3; E S_TermB 3 1; E S_TermB 2 2;
    E S_TermB 4 6; E S_TermB 2 3; E S_TermB 3 4; E S_TermB 2 2; E S_TermB 6 9; E S_TermB 2 3;
    E S_TermB 3 1; E S_TermB 2 2; E S_TermB 4 5; E S_TermB 2 3; E S_TermB 3 4; E S_TermB 2 2;
    E S_TermB 7 11; E S_TermB 2 3; E S_TermB 3 1; E S_TermB 2 2; E S_TermB 4 6; E S_TermB 2 3;
    E S_TermB 3 4; E S_TermB 2 2; E S_TermB 5 7; E S_TermB 2 3; E S_TermB 3 1; E S_TermB 2 2;
    E S_TermB 4 5; E S_TermB 2 3; E S_TermB 3 4; E S_TermB 2 2; E S_TermB 12 30; E S_TermB 2 3;
    E S_TermB 3 1; E S_TermB 2 2; E S_TermB 4 6; E S_TermB 2 3; E S_TermB 3 4; E S_TermB 2 2;
    E S_TermB 6 8; E S_TermB 2 3; E S_TermB 3 1; E S_TermB 2 2; E S_TermB 4 5; E S_TermB 2 3;
    E S_TermB 3 4; E S_TermB 2 2; E S_TermB 7 12; E S_TermB 2 3; E S_TermB 3 1; E S_TermB 2 2;
    E S_TermB 4 6; E S_TermB 2 3; E S_TermB 3 4; E S_TermB 2 2; E S_TermB 5 7; E S_TermB 2 3;
    E S_TermB 3 1; E S_TermB 2 2; E S_TermB 4 5; E S_TermB 2 3; E S_TermB 3 4; E S_TermB 2 2;
    E S_MakeUp 11 1856; E S_TermB 2 3; E S_TermB 3 1; E S_TermB 2 2; E S_TermB 4 6; E S_TermB 2 3;
    E S_TermB 3 4; E S_TermB 2 2; E S_TermB 6 9; E S_TermB 2 3; E S_TermB 3 1; E S_TermB 2 2;
    E S_TermB 4 5; E S_TermB 2 3; E S_TermB 3 4; E S_TermB 2 2; E S_TermB 7 10; E S_TermB 2 3;
    E S_TermB 3 1; E S_TermB 2 2; E S_TermB 4 6; E S_TermB 2 3; E S_TermB 3 4; E S_TermB 2 2;
    E S_TermB 5 7; E S_TermB 2 3; E S_TermB 3 1; E S_TermB 2 2; E S_TermB 4 5; E S_TermB 2 3;
    E S_TermB 3 4; E S_TermB 2 2; E S_TermB 12 57; E S_TermB 2 3; E S_TermB 3 1; E S_TermB 2 2;
    E S_TermB 4 6; E S_TermB 2 3; E S_TermB 3 4; E S_TermB 2 2; E S_TermB 6 8; E S_TermB 2 3;
    E S_TermB 3 1; E S_TermB 2 2; E S_TermB 4 5; E S_TermB 2 3; E S_TermB 3 4; E S_TermB 2 2;
    E S_TermB 11 21; E S_TermB 2 3; E S_TermB 3 1; E S_TermB 2 2; E S_TermB 4 6; E S_TermB 2 3;
    E S_TermB 3 4; E S_TermB 2 2; E S_TermB 5 7; E S_TermB 2 3; E S_TermB 3 1; E S_TermB 2 2;
    E S_TermB 4 5; E S_TermB 2 3; E S_TermB 3 4; E S_TermB 2 2; E S_TermB 12 54; E S_TermB 2 3;
    E S_TermB 3 1; E S_TermB 2 2; E S_TermB 4 6; E S_TermB 2 3; E S_TermB 3 4; E S_TermB 2 2;
    E S_TermB 6 9; E S_TermB 2 3; E S_TermB 3 1; E S_TermB 2 2; E S_TermB 4 5; E S_TermB 2 3;
    E S_TermB 3 4; E S_TermB 2 2; E S_TermB 7 11; E S_TermB 2 3; E S_TermB 3 1; E S_TermB 2 2;
    E S_TermB 4 6; E S_TermB 2 3; E S_TermB 3 4; E S_TermB 2 2; E S_TermB 5 7; E S_TermB 2 3;
    E S_TermB 3 1; E S_TermB 2 2; E S_TermB 4 5; E S_TermB 2 3; E S_TermB 3 4; E S_TermB 2 2;
    E S_TermB 8 14; E S_TermB 2 3; E S_TermB 3 1; E S_TermB 2 2; E S_TermB 4 6; E S_TermB 2 3;
    E S_TermB 3 4; E S_TermB 2 2; E S_TermB 6 8; E S_TermB 2 3; E S_TermB 3 1; E S_TermB 2 2;
    E S_TermB 4 5; E S_TermB 2 3; E S_TermB 3 4; E S_TermB 2 2; E S_TermB 7 12; E S_TermB 2 3;
    E S_TermB 3 1; E S_TermB 2 2; E S_TermB 4 6; E S_TermB 2 3; E S_TermB 3 4; E S_TermB 2 2;
    E S_TermB 5 7; E S_TermB 2 3; E S_TermB 3 1; E S_TermB 2 2; E S_TermB 4 5; E S_TermB 2 3;
    E S_TermB 3 4; E S_TermB 2 2; E S_Null 1 0; E S_TermB 2 3; E S_TermB 3 1; E S_TermB 2 2;
    E S_TermB 4 6; E S_TermB 2 3; E S_TermB 3 4; E S_TermB 2 2; E S_TermB 6 9; E S_TermB 2 3;
    E S_TermB 3 1; E S_TermB 2 2; E S_TermB 4 5; E S_TermB 2 3; E S_TermB 3 4; E S_TermB 2 2;
    E S_TermB 7 10; E S_TermB 2 3; E S_TermB 3 1; E S_TermB 2 2; E S_TermB 4 6; E S_TermB 2 3;
    E S_TermB 3 4; E S_TermB 2 2; E S_TermB 5 7; E S_TermB 2 3; E S_TermB 3 1; E S_TermB 2 2;
    E S_TermB 4 5; E S_TermB 2 3; E S_TermB 3 4; E S_TermB 2 2; E S_TermB 8 13; E S_TermB 2 3;
    E S_TermB 3 1; E S_TermB 2 2; E S_TermB 4 6; E S_TermB 2 3; E S_TermB 3 4; E S_TermB 2 2;
    E S_TermB 6 8; E S_TermB 2 3; E S_TermB 3 1; E S_TermB 2 2; E S_TermB 4 5; E S_TermB 2 3;
    E S_TermB 3 4; E S_TermB 2 2; E S_TermB 9 15; E S_TermB 2 3; E S_TermB 3 1; E S_TermB 2 2;
    E S_TermB 4 6; E S_TermB 2 3; E S_TermB 3 4; E S_TermB 2 2; E S_TermB 5 7; E S_TermB 2 3;
    E S_TermB 3 1; E S_TermB 2 2; E S_TermB 4 5; E S_TermB 2 3; E S_TermB 3 4; E S_TermB 2 2;
    E S_TermB 12 52; E S_TermB 2 3; E S_TermB 3 1; E S_TermB 2 2; E S_TermB 4 6; E S_TermB 2 3;
    E S_TermB 3 4; E S_TermB 2 2; E S_TermB 6 9; E S_TermB 2 3; E S_TermB 3 1; E S_TermB 2 2;
    E S_TermB 4 5; E S_TermB 2 3; E S_TermB 3 4; E S_TermB 2 2; E S_TermB 7 11; E S_TermB 2 3;
    E S_TermB 3 1; E S_TermB 2 2; E S_TermB 4 6; E S_TermB 2 3; E S_TermB 3 4; E S_TermB 2 2;
    E S_TermB 5 7; E S_TermB 2 3; E S_TermB 3 1; E S_TermB 2 2; E S_TermB 4 5; E S_TermB 2 3;
    E S_TermB 3 4; E S_TermB 2 2; E S_TermB 12 48; E S_TermB 2 3; E S_TermB 3 1; E S_TermB 2 2;
    E S_TermB 4 6; E S_TermB 2 3; E S_TermB 3 4; E S_TermB 2 2; E S_TermB 6 8; E S_TermB 2 3;
    E S_TermB 3 1; E S_TermB 2 2; E S_TermB 4 5; E S_TermB 2 3; E S_TermB 3 4; E S_TermB 2 2;
    E S_TermB 7 12; E S_TermB 2 3; E S_TermB 3 1; E S_TermB 2 2; E S_TermB 4 6; E S_TermB 2 3;
    E S_TermB 3 4; E S_TermB 2 2; E S_TermB 5 7; E S_TermB 2 3; E S_TermB 3 1; E S_TermB 2 2;
    E S_TermB 4 5; E S_TermB 2 3; E S_TermB 3 4; E S_TermB 2 2; E S_MakeUp 12 2112; E S_TermB 2 3;
    E S_TermB 3 1; E S_TermB 2 2; E S_TermB 4 6; E S_TermB 2 3; E S_TermB 3 4; E S_TermB 2 2;
    E S_TermB 6 9; E S_TermB 2 3; E S_TermB 3 1; E S_TermB 2 2; E S_TermB 4 5; E S_TermB 2 3;
    E S_TermB 3 4; E S_TermB 2 2; E S_TermB 7 10; E S_TermB 2 3; E S_TermB 3 1; E S_TermB 2 2;
    E S_TermB 4 6; E S_TermB 2 3; E S_TermB 3 4; E S_TermB 2 2; E S_TermB 5 7; E S_TermB 2 3;
    E S_TermB 3 1; E S_TermB 2 2; E S_TermB 4 5; E S_TermB 2 3; E S_TermB 3 4; E S_TermB 2 2;
    E S_TermB 12 44; E S_TermB 2 3; E S_TermB 3 1; E S_TermB 2 2; E S_TermB 4 6; E S_TermB 2 3;
    E S_TermB 3 4; E S_TermB 2 2; E S_TermB 6 8; E S_TermB 2 3; E S_TermB 3 1; E S_TermB 2 2;
    E S_TermB 4 5; E S_TermB 2 3; E S_TermB 3 4; E S_TermB 2 2; E S_TermB 12 36; E S_TermB 2 3;
    E S_TermB 3 1; E S_TermB 2 2; E S_TermB 4 6; E S_TermB 2 3; E S_TermB 3 4; E S_TermB 2 2;
    E S_TermB 5 7; E S_TermB 2 3; E S_TermB 3 1; E S_TermB 2 2; E S_TermB 4 5; E S_TermB 2 3;
    E S_TermB 3 4; E S_TermB 2 2; E S_MakeUpB 12 384; E S_TermB 2 3; E S_TermB 3 1; E S_TermB 2 2;
    E S_TermB 4 6; E S_TermB 2 3; E S_TermB 3 4; E S_TermB 2 2; E S_TermB 6 9; E S_TermB 2 3;
    E S_TermB 3 1; E S_TermB 2 2; E S_TermB 4 5; E S_TermB 2 3; E S_TermB 3 4; E S_TermB 2 2;
    E S_TermB 7 11; E S_TermB 2 3; E S_TermB 3 1; E S_TermB 2 2; E S_TermB 4 6; E S_TermB 2 3;
    E S_TermB 3 4; E S_TermB 2 2; E S_TermB 5 7; E S_TermB 2 3; E S_TermB 3 1; E S_TermB 2 2;
    E S_TermB 4 5; E S_TermB 2 3; E S_TermB 3 4; E S_TermB 2 2; E S_TermB 8 14; E S_TermB 2 3;
    E S_TermB 3 1; E S_TermB 2 2; E S_TermB 4 6; E S_TermB 2 3; E S_TermB 3 4; E S_TermB 2 2;
    E S_TermB 6 8; E S_TermB 2 3; E S_TermB 3 1; E S_TermB 2 2; E S_TermB 4 5; E S_TermB 2 3;
    E S_TermB 3 4; E S_TermB 2 2; E S_TermB 7 12; E S_TermB 2 3; E S_TermB 3 1; E S_TermB 2 2;
    E S_TermB 4 6; E S_TermB 2 3; E S_TermB 3 4; E S_TermB 2 2; E S_TermB 5 7; E S_TermB 2 3;
    E S_TermB 3 1; E S_TermB 2 2; E S_TermB 4 5; E S_TermB 2 3; E S_TermB 3 4; E S_TermB 2 2;
    E S_Null 1 0; E S_TermB 2 3; E S_TermB 3 1; E S_TermB 2 2; E S_TermB 4 6; E S_TermB 2 3;
    E S_TermB 3 4; E S_TermB 2 2; E S_TermB 6 9; E S_TermB 2 3; E S_TermB 3 1; E S_TermB 2 2;
    E S_TermB 4 5; E S_TermB 2 3; E S_TermB 3 4; E S_TermB 2 2; E S_TermB 7 10; E S_TermB 2 3;
    E S_TermB 3 1; E S_TermB 2 2; E S_TermB 4 6; E S_TermB 2 3; E S_TermB 3 4; E S_TermB 2 2;
    E S_TermB 5 7; E S_TermB 2 3; E S_TermB 3 1; E S_TermB 2 2; E S_TermB 4 5; E S_TermB 2 3;
    E S_TermB 3 4; E S_TermB 2 2; E S_TermB 8 13; E S_TermB 2 3; E S_TermB 3 1; E S_TermB 2 2;
    E S_TermB 4 6; E S_TermB 2 3; E S_TermB 3 4; E S_TermB 2 2; E S_TermB 6 8; E S_TermB 2 3;
    E S_TermB 3 1; E S_TermB 2 2; E S_TermB 4 5; E S_TermB 2 3; E S_TermB 3 4; E S_TermB 2 2;
    E S_TermB 12 28; E S_TermB 2 3; E S_TermB 3 1; E S_TermB 2 2; E S_TermB 4 6; E S_TermB 2 3;
    E S_TermB 3 4; E S_TermB 2 2; E S_TermB 5 7; E S_TermB 2 3; E S_TermB 3 1; E S_TermB 2 2;
    E S_TermB 4 5; E S_TermB 2 3; E S_TermB 3 4; E S_TermB 2 2; E S_TermB 12 60; E S_TermB 2 3;
    E S_TermB 3 1; E S_TermB 2 2; E S_TermB 4 6; E S_TermB 2 3; E S_TermB 3 4; E S_TermB 2 2;
    E S_TermB 6 9; E S_TermB 2 3; E S_TermB 3 1; E S_TermB 2 2; E S_TermB 4 5; E S_TermB 2 3;
    E S_TermB 3 4; E S_TermB 2 2; E S_TermB 7 11; E S_TermB 2 3; E S_TermB 3 1; E S_TermB 2 2;
    E S_TermB 4 6; E S_TermB 2 3; E S_TermB 3 4; E S_TermB 2 2; E S_TermB 5 7; E S_TermB 2 3;
    E S_TermB 3 1; E S_TermB 2 2; E S_TermB 4 5; E S_TermB 2 3; E S_TermB 3 4; E S_TermB 2 2;
    E S_TermB 12 40; E S_TermB 2 3; E S_TermB 3 1; E S_TermB 2 2; E S_TermB 4 6; E S_TermB 2 3;
    E S_TermB 3 4; E S_TermB 2 2; E S_TermB 6 8; E S_TermB 2 3; E S_TermB 3 1; E S_TermB 2 2;
    E S_TermB 4 5; E S_TermB 2 3; E S_TermB 3 4; E S_TermB 2 2; E S_TermB 7 12; E S_TermB 2 3;
    E S_TermB 3 1; E S_TermB 2 2; E S_TermB 4 6; E S_TermB 2 3; E S_TermB 3 4; E S_TermB 2 2;
    E S_TermB 5 7; E S_TermB 2 3; E S_TermB 3 1; E S_TermB 2 2; E S_TermB 4 5; E S_TermB 2 3;
    E S_TermB 3 4; E S_TermB 2 2; E S_MakeUp 12 2368; E S_TermB 2 3; E S_TermB 3 1; E S_TermB 2 2;
    E S_TermB 4 6; E S_TermB 2 3; E S_TermB 3 4; E S_TermB 2 2; E S_TermB 6 9; E S_TermB 2 3;
    E S_TermB 3 1; E S_TermB 2 2; E S_TermB 4 5; E S_TermB 2 3; E S_TermB 3 4; E S_TermB 2 2;
    E S_TermB 7 10; E S_TermB 2 3; E S_TermB 3 1; E S_TermB 2 2; E S_TermB 4 6; E S_TermB 2 3;
    E S_TermB 3 4; E S_TermB 2 2; E S_TermB 5 7; E S_TermB 2 3; E S_TermB 3 1; E S_TermB 2 2;
    E S_TermB 4 5; E S_TermB 2 3; E S_TermB 3 4; E S_TermB 2 2; E S_TermB 10 16; E S_TermB 2 3;
    E S_TermB 3 1; E S_TermB 2 2; E S_TermB 4 6; E S_TermB 2 3; E S_TermB 3 4; E S_TermB 2 2;
    E S_TermB 6 8; E S_TermB 2 3; E S_TermB 3 1; E S_TermB 2 2; E S_TermB 4 5; E S_TermB 2 3;
    E S_TermB 3 4; E S_TermB 2 2; E S_TermB 10 0; E S_TermB 2 3; E S_TermB 3 1; E S_TermB 2 2;
    E S_TermB 4 6; E S_TermB 2 3; E S_TermB 3 4; E S_TermB 2 2; E S_TermB 5 7; E S_TermB 2 3;
    E S_TermB 3 1; E S_TermB 2 2; E S_TermB 4 5; E S_TermB 2 3; E S_TermB 3 4; E S_TermB 2 2;
    E S_MakeUpB 10 64; E S_TermB 2 3; E S_TermB 3 1; E S_TermB 2 2; E S_TermB 4 6; E S_TermB 2 3;
    E S_TermB 3 4; E S_TermB 2 2; E S_TermB 6 9; E S_TermB 2 3; E S_TermB 3 1; E S_TermB 2 2;
    E S_TermB 4 5; E S_TermB 2 3; E S_TermB 3 4; E S_TermB 2 2; E S_TermB 7 11; E S_TermB 2 3;
    E S_TermB 3 1; E S_TermB 2 2; E S_TermB 4 6; E S_TermB 2 3; E S_TermB 3 4; E S_TermB 2 2;
    E S_TermB 5 7; E S_TermB 2 3; E S_TermB 3 1; E S_TermB 2 2; E S_TermB 4 5; E S_TermB 2 3;
    E S_TermB 3 4; E S_TermB 2 2; E S_TermB 8 14; E S_TermB 2 3; E S_TermB 3 1; E S_TermB 2 2;
    E S_TermB 4 6; E S_TermB 2 3; E S_TermB 3 4; E S_TermB 2 2; E S_TermB 6 8; E S_TermB 2 3;
    E S_TermB 3 1; E S_TermB 2 2; E S_TermB 4 5; E S_TermB 2 3; E S_TermB 3 4; E S_TermB 2 2;
    E S_TermB 7 12; E S_TermB 2 3; E S_TermB 3 1; E S_TermB 2 2; E S_TermB 4 6; E S_TermB 2 3;
    E S_TermB 3 4; E S_TermB 2 2; E S_TermB 5 7; E S_TermB 2 3; E S_TermB 3 1; E S_TermB 2 2;
    E S_TermB 4 5; E S_TermB 2 3; E S_TermB 3 4; E S_TermB 2 2; E S_Null 1 0; E S_TermB 2 3;
    E S_TermB 3 1; E S_TermB 2 2; E S_TermB 4 6; E S_TermB 2 3; E S_TermB 3 4; E S_TermB 2 2;
    E S_TermB 6 9; E S_TermB 2 3; E S_TermB 3 1; E S_TermB 2 2; E S_TermB 4 5; E S_TermB 2 3;
    E S_TermB 3 4; E S_TermB 2 2; E S_TermB 7 10; E S_TermB 2 3; E S_TermB 3 1; E S_TermB 2 2;
    E S_TermB 4 6; E S_TermB 2 3; E S_TermB 3 4; E S_TermB 2 2; E S_TermB 5 7; E S_TermB 2 3;
    E S_TermB 3 1; E S_TermB 2 2; E S_TermB 4 5; E S_TermB 2 3; E S_TermB 3 4; E S_TermB 2 2;
    E S_TermB 8 13; E S_TermB 2 3; E S_TermB 3 1; E S_TermB 2 2; E S_TermB 4 6; E S_TermB 2 3;
    E S_TermB 3 4; E S_TermB 2 2; E S_TermB 6 8; E S_TermB 2 3; E S_TermB 3 1; E S_TermB 2 2;
    E S_TermB 4 5; E S_TermB 2 3; E S_TermB 3 4; E S_TermB 2 2; E S_TermB 9 15; E S_TermB 2 3;
    E S_TermB 3 1; E S_TermB 2 2; E S_TermB 4 6; E S_TermB 2 3; E S_TermB 3 4; E S_TermB 2 2;
    E S_TermB 5 7; E S_TermB 2 3; E S_TermB 3 1; E S_TermB 2 2; E S_TermB 4 5; E S_TermB 2 3;
    E S_TermB 3 4; E S_TermB 2 2; E S_TermB 10 18; E S_TermB 2 3; E S_TermB 3 1; E S_TermB 2 2;
    E S_TermB 4 6; E S_TermB 2 3; E S_TermB 3 4; E S_TermB 2 2; E S_TermB 6 9; E S_TermB 2 3;
    E S_TermB 3 1; E S_TermB 2 2; E S_TermB 4 5; E S_TermB 2 3; E S_TermB 3 4; E S_TermB 2 2;
    E S_TermB 7 11; E S_TermB 2 3; E S_TermB 3 1; E S_TermB 2 2; E S_TermB 4 6; E S_TermB 2 3;
    E S_TermB 3 4; E S_TermB 2 2; E S_TermB 5 7; E S_TermB 2 3; E S_TermB 3 1; E S_TermB 2 2;
    E S_TermB 4 5; E S_TermB 2 3; E S_TermB 3 4; E S_TermB 2 2; E S_TermB 10 17; E S_TermB 2 3;
    E S_TermB 3 1; E S_TermB 2 2; E S_TermB 4 6; E S_TermB 2 3; E S_TermB 3 4; E S_TermB 2 2;
    E S_TermB 6 8; E S_TermB 2 3; E S_TermB 3 1; E S_TermB 2 2; E S_TermB 4 5; E S_TermB 2 3;
    E S_TermB 3 4; E S_TermB 2 2; E S_TermB 7 12; E S_TermB 2 3; E S_TermB 3 1; E S_TermB 2 2;
    E S_TermB 4 6; E S_TermB 2 3; E S_TermB 3 4; E S_TermB 2 2; E S_TermB 5 7; E S_TermB 2 3;
    E S_TermB 3 1; E S_TermB 2 2; E S_TermB 4 5; E S_TermB 2 3; E S_TermB 3 4; E S_TermB 2 2;
    E S_MakeUp 12 1984; E S_TermB 2 3; E S_TermB 3 1; E S_TermB 2 2; E S_TermB 4 6; E S_TermB 2 3;
    E S_TermB 3 4; E S_TermB 2 2; E S_TermB 6 9; E S_TermB 2 3; E S_TermB 3 1; E S_TermB 2 2;
    E S_TermB 4 5; E S_TermB 2 3; E S_TermB 3 4; E S_TermB 2 2; E S_TermB 7 10; E S_TermB 2 3;
    E S_TermB 3 1; E S_TermB 2 2; E S_TermB 4 6; E S_TermB 2 3; E S_TermB 3 4; E S_TermB 2 2;
    E S_TermB 5 7; E S_TermB 2 3; E S_TermB 3 1; E S_TermB 2 2; E S_TermB 4 5; E S_TermB 2 3;
    E S_TermB 3 4; E S_TermB 2 2; E S_TermB 12 50; E S_TermB 2 3; E S_TermB 3 1; E S_TermB 2 2;
    E S_TermB 4 6; E S_TermB 2 3; E S_TermB 3 4; E S_TermB 2 2; E S_TermB 6 8; E S_TermB 2 3;
    E S_TermB 3 1; E S_TermB 2 2; E S_TermB 4 5; E S_TermB 2 3; E S_TermB 3 4; E S_TermB 2 2;
    E S_TermB 12 34; E S_TermB 2 3; E S_TermB 3 1; E S_TermB 2 2; E S_TermB 4 6; E S_TermB 2 3;
    E S_TermB 3 4; E S_TermB 2 2; E S_TermB 5 7; E S_TermB 2 3; E S_TermB 3 1; E S_TermB 2 2;
    E S_TermB 4 5; E S_TermB 2 3; E S_TermB 3 4; E S_TermB 2 2; E S_MakeUpB 13 1664; E S_TermB 2 3;
    E S_TermB 3 1; E S_TermB 2 2; E S_TermB 4 6; E S_TermB 2 3; E S_TermB 3 4; E S_TermB 2 2;
    E S_TermB 6 9; E S_TermB 2 3; E S_TermB 3 1; E S_TermB 2 2; E S_TermB 4 5; E S_TermB 2 3;
    E S_TermB 3 4; E S_TermB 2 2; E S_TermB 7 11; E S_TermB 2 3; E S_TermB 3 1; E S_TermB 2 2;
    E S_TermB 4 6; E S_TermB 2 3; E S_TermB 3 4; E S_TermB 2 2; E S_TermB 5 7; E S_TermB 2 3;
    E S_TermB 3 1; E S_TermB 2 2; E S_TermB 4 5; E S_TermB 2 3; E S_TermB 3 4; E S_TermB 2 2;
    E S_TermB 8 14; E S_TermB 2 3; E S_TermB 3 1; E S_TermB 2 2; E S_TermB 4 6; E S_TermB 2 3;
    E S_TermB 3 4; E S_TermB 2 2; E S_TermB 6 8; E S_TermB 2 3; E S_TermB 3 1; E S_TermB 2 2;
    E S_TermB 4 5; E S_TermB 2 3; E S_TermB 3 4; E S_TermB 2 2; E S_TermB 7 12; E S_TermB 2 3;
    E S_TermB 3 1; E S_TermB 2 2; E S_TermB 4 6; E S_TermB 2 3; E S_TermB 3 4; E S_TermB 2 2;
    E S_TermB 5 7; E S_TermB 2 3; E S_TermB 3 1; E S_TermB 2 2; E S_TermB 4 5; E S_TermB 2 3;
    E S_TermB 3 4; E S_TermB 2 2; E S_Null 1 0; E S_TermB 2 3; E S_TermB 3 1; E S_TermB 2 2;
    E S_TermB 4 6; E S_TermB 2 3; E S_TermB 3 4; E S_TermB 2 2; E S_TermB 6 9; E S_TermB 2 3;
    E S_TermB 3 1; E S_TermB 2 2; E S_TermB 4 5; E S_TermB 2 3; E S_TermB 3 4; E S_TermB 2 2;
    E S_TermB 7 10; E S_TermB 2 3; E S_TermB 3 1; E S_TermB 2 2; E S_TermB 4 6; E S_TermB 2 3;
    E S_TermB 3 4; E S_TermB 2 2; E S_TermB 5 7; E S_TermB 2 3; E S_TermB 3 1; E S_TermB 2 2;
    E S_TermB 4 5; E S_TermB 2 3; E S_TermB 3 4; E S_TermB 2 2; E S_TermB 8 13; E S_TermB 2 3;
    E S_TermB 3 1; E S_TermB 2 2; E S_TermB 4 6; E S_TermB 2 3; E S_TermB 3 4; E S_TermB 2 2;
    E S_TermB 6 8; E S_TermB 2 3; E S_TermB 3 1; E S_TermB 2 2; E S_TermB 4 5; E S_TermB 2 3;
    E S_TermB 3 4; E S_TermB 2 2; E S_TermB 12 26; E S_TermB 2 3; E S_TermB 3 1; E S_TermB 2 2;
    E S_TermB 4 6; E S_TermB 2 3; E S_TermB 3 4; E S_TermB 2 2; E S_TermB 5 7; E S_TermB 2 3;
    E S_TermB 3 1; E S_TermB 2 2; E S_TermB 4 5; E S_TermB 2 3; E S_TermB 3 4; E S_TermB 2 2;
    E S_MakeUpB 13 1408; E S_TermB 2 3; E S_TermB 3 1; E S_TermB 2 2; E S_TermB 4 6; E S_TermB 2 3;
    E S_TermB 3 4; E S_TermB 2 2; E S_TermB 6 9; E S_TermB 2 3; E S_TermB 3 1; E S_TermB 2 2;
    E S_TermB 4 5; E S_TermB 2 3; E S_TermB 3 4; E S_TermB 2 2; E S_TermB 7 11; E S_TermB 2 3;
    E S_TermB 3 1; E S_TermB 2 2; E S_TermB 4 6; E S_TermB 2 3; E S_TermB 3 4; E S_TermB 2 2;
    E S_TermB 5 7; E S_TermB 2 3; E S_TermB 3 1; E S_TermB 2 2; E S_TermB 4 5; E S_TermB 2 3;
    E S_TermB 3 4; E S_TermB 2 2; E S_TermB 12 32; E S_TermB 2 3; E S_TermB 3 1; E S_TermB 2 2;
    E S_TermB 4 6; E S_TermB 2 3; E S_TermB 3 4; E S_TermB 2 2; E S_TermB 6 8; E S_TermB 2 3;
    E S_TermB 3 1; E S_TermB 2 2; E S_TermB 4 5; E S_TermB 2 3; E S_TermB 3 4; E S_TermB 2 2;
    E S_TermB 7 12; E S_TermB 2 3; E S_TermB 3 1; E S_TermB 2 2; E S_TermB 4 6; E S_TermB 2 3;
    E S_TermB 3 4; E S_TermB 2 2; E S_TermB 5 7; E S_TermB 2 3; E S_TermB 3 1; E S_TermB 2 2;
    E S_TermB 4 5; E S_TermB 2 3; E S_TermB 3 4; E S_TermB 2 2; E S_MakeUp 11 1920; E S_TermB 2 3;
    E S_TermB 3 1; E S_TermB 2 2; E S_TermB 4 6; E S_TermB 2 3; E S_TermB 3 4; E S_TermB 2 2;
    E S_TermB 6 9; E S_TermB 2 3; E S_TermB 3 1; E S_TermB 2 2; E S_TermB 4 5; E S_TermB 2 3;
    E S_TermB 3 4; E S_TermB 2 2; E S_TermB 7 10; E S_TermB 2 3; E S_TermB 3 1; E S_TermB 2 2;
    E S_TermB 4 6; E S_TermB 2 3; E S_TermB 3 4; E S_TermB 2 2; E S_TermB 5 7; E S_TermB 2 3;
    E S_TermB 3 1; E S_TermB 2 2; E S_TermB 4 5; E S_TermB 2 3; E S_TermB 3 4; E S_TermB 2 2;
    E S_TermB 12 61; E S_TermB 2 3; E S_TermB 3 1; E S_TermB 2 2; E S_TermB 4 6; E S_TermB 2 3;
    E S_TermB 3 4; E S_TermB 2 2; E S_TermB 6 8; E S_TermB 2 3; E S_TermB 3 1; E S_TermB 2 2;
    E S_TermB 4 5; E S_TermB 2 3; E S_TermB 3 4; E S_TermB 2 2; E S_TermB 12 42; E S_TermB 2 3;
    E S_TermB 3 1; E S_TermB 2 2; E S_TermB 4 6; E S_TermB 2 3; E S_TermB 3 4; E S_TermB 2 2;
    E S_TermB 5 7; E S_TermB 2 3; E S_TermB 3 1; E S_TermB 2 2; E S_TermB 4 5; E S_TermB 2 3;
    E S_TermB 3 4; E S_TermB 2 2; E S_MakeUpB 13 1024; E S_TermB 2 3; E S_TermB 3 1; E S_TermB 2 2;
    E S_TermB 4 6; E S_TermB 2 3; E S_TermB 3 4; E S_TermB 2 2; E S_TermB 6 9; E S_TermB 2 3;
    E S_TermB 3 1; E S_TermB 2 2; E S_TermB 4 5; E S_TermB 2 3; E S_TermB 3 4; E S_TermB 2 2;
    E S_TermB 7 11; E S_TermB 2 3; E S_TermB 3 1; E S_TermB 2 2; E S_TermB 4 6; E S_TermB 2 3;
    E S_TermB 3 4; E S_TermB 2 2; E S_TermB 5 7; E S_TermB 2 3; E S_TermB 3 1; E S_TermB 2 2;
    E S_TermB 4 5; E S_TermB 2 3; E S_TermB 3 4; E S_TermB 2 2; E S_TermB 8 14; E S_TermB 2 3;
    E S_TermB 3 1; E S_TermB 2 2; E S_TermB 4 6; E S_TermB 2 3; E S_TermB 3 4; E S_TermB 2 2;
    E S_TermB 6 8; E S_TermB 2 3; E S_TermB 3 1; E S_TermB 2 2; E S_TermB 4 5; E S_TermB 2 3;
    E S_TermB 3 4; E S_TermB 2 2; E S_TermB 7 12; E S_TermB 2 3; E S_TermB 3 1; E S_TermB 2 2;
    E S_TermB 4 6; E S_TermB 2 3; E S_TermB 3 4; E S_TermB 2 2; E S_TermB 5 7; E S_TermB 2 3;
    E S_TermB 3 1; E S_TermB 2 2; E S_TermB 4 5; E S_TermB 2 3; E S_TermB 3 4; E S_TermB 2 2;
    E S_Null 1 0; E S_TermB 2 3; E S_TermB 3 1; E S_TermB 2 2; E S_TermB 4 6; E S_TermB 2 3;
    E S_TermB 3 4; E S_TermB 2 2; E S_TermB 6 9; E S_TermB 2 3; E S_TermB 3 1; E S_TermB 2 2;
    E S_TermB 4 5; E S_TermB 2 3; E S_TermB 3 4; E S_TermB 2 2; E S_TermB 7 10; E S_TermB 2 3;
    E S_TermB 3 1; E S_TermB 2 2; E S_TermB 4 6; E S_TermB 2 3; E S_TermB 3 4; E S_TermB 2 2;
    E S_TermB 5 7; E S_TermB 2 3; E S_TermB 3 1; E S_TermB 2 2; E S_TermB 4 5; E S_TermB 2 3;
    E S_TermB 3 4; E S_TermB 2 2; E S_TermB 8 13; E S_TermB 2 3; E S_TermB 3 1; E S_TermB 2 2;
    E S_TermB 4 6; E S_TermB 2 3; E S_TermB 3 4; E S_TermB 2 2; E S_TermB 6 8; E S_TermB 2 3;
    E S_TermB 3 1; E S_TermB 2 2; E S_TermB 4 5; E S_TermB 2 3; E S_TermB 3 4; E S_TermB 2 2;
    E S_TermB 9 15; E S_TermB 2 3; E S_TermB 3 1; E S_TermB 2 2; E S_TermB 4 6; E S_TermB 2 3;
    E S_TermB 3 4; E S_TermB 2 2; E S_TermB 5 7; E S_TermB 2 3; E S_TermB 3 1; E S_TermB 2 2;
    E S_TermB 4 5; E S_TermB 2 3; E S_TermB 3 4; E S_TermB 2 2; E S_MakeUpB 13 768; E S_TermB 2 3;
    E S_TermB 3 1; E S_TermB 2 2; E S_TermB 4 6; E S_TermB 2 3; E S_TermB 3 4; E S_TermB 2 2;
    E S_TermB 6 9; E S_TermB 2 3; E S_TermB 3 1; E S_TermB 2 2; E S_TermB 4 5; E S_TermB 2 3;
    E S_TermB 3 4; E S_TermB 2 2; E S_TermB 7 11; E S_TermB 2 3; E S_TermB 3 1; E S_TermB 2 2;
    E S_TermB 4 6; E S_TermB 2 3; E S_TermB 3 4; E S_TermB 2 2; E S_TermB 5 7; E S_TermB 2 3;
    E S_TermB 3 1; E S_TermB 2 2; E S_TermB 4 5; E S_TermB 2 3; E S_TermB 3 4; E S_TermB 2 2;
    E S_TermB 12 62; E S_TermB 2 3; E S_TermB 3 1; E S_TermB 2 2; E S_TermB 4 6; E S_TermB 2 3;
    E S_TermB 3 4; E S_TermB 2 2; E S_TermB 6 8; E S_TermB 2 3; E S_TermB 3 1; E S_TermB 2 2;
    E S_TermB 4 5; E S_TermB 2 3; E S_TermB 3 4; E S_TermB 2 2; E S_TermB 7 12; E S_TermB 2 3;
    E S_TermB 3 1; E S_TermB 2 2; E S_TermB 4 6; E S_TermB 2 3; E S_TermB 3 4; E S_TermB 2 2;
    E S_TermB 5 7; E S_TermB 2 3; E S_TermB 3 1; E S_TermB 2 2; E S_TermB 4 5; E S_TermB 2 3;
    E S_TermB 3 4; E S_TermB 2 2; E S_MakeUp 12 2240; E S_TermB 2 3; E S_TermB 3 1; E S_TermB 2 2;
    E S_TermB 4 6; E S_TermB 2 3; E S_TermB 3 4; E S_TermB 2 2; E S_TermB 6 9; E S_TermB 2 3;
    E S_TermB 3 1; E S_TermB 2 2; E S_TermB 4 5; E S_TermB 2 3; E S_TermB 3 4; E S_TermB 2 2;
    E S_TermB 7 10; E S_TermB 2 3; E S_TermB 3 1; E S_TermB 2 2; E S_TermB 4 6; E S_TermB 2 3;
    E S_TermB 3 4; E S_TermB 2 2; E S_TermB 5 7; E S_TermB 2 3; E S_TermB 3 1; E S_TermB 2 2;
    E S_TermB 4 5; E S_TermB 2 3; E S_TermB 3 4; E S_TermB 2 2; E S_TermB 12 46; E S_TermB 2 3;
    E S_TermB 3 1; E S_TermB 2 2; E S_TermB 4 6; E S_TermB 2 3; E S_TermB 3 4; E S_TermB 2 2;
    E S_TermB 6 8; E S_TermB 2 3; E S_TermB 3 1; E S_TermB 2 2; E S_TermB 4 5; E S_TermB 2 3;
    E S_TermB 3 4; E S_TermB 2 2; E S_TermB 12 38; E S_TermB 2 3; E S_TermB 3 1; E S_TermB 2 2;
    E S_TermB 4 6; E S_TermB 2 3; E S_TermB 3 4; E S_TermB 2 2; E S_TermB 5 7; E S_TermB 2 3;
    E S_TermB 3 1; E S_TermB 2 2; E S_TermB 4 5; E S_TermB 2 3; E S_TermB 3 4; E S_TermB 2 2;
    E S_MakeUpB 13 512; E S_TermB 2 3; E S_TermB 3 1; E S_TermB 2 2; E S_TermB 4 6; E S_TermB 2 3;
    E S_TermB 3 4; E S_TermB 2 2; E S_TermB 6 9; E S_TermB 2 3; E S_TermB 3 1; E S_TermB 2 2;
    E S_TermB 4 5; E S_TermB 2 3; E S_TermB 3 4; E S_TermB 2 2; E S_TermB 7 11; E S_TermB 2 3;
    E S_TermB 3 1; E S_TermB 2 2; E S_TermB 4 6; E S_TermB 2 3; E S_TermB 3 4; E S_TermB 2 2;
    E S_TermB 5 7; E S_TermB 2 3; E S_TermB 3 1; E S_TermB 2 2; E S_TermB 4 5; E S_TermB 2 3;
    E S_TermB 3 4; E S_TermB 2 2; E S_TermB 8 14; E S_TermB 2 3; E S_TermB 3 1; E S_TermB 2 2;
    E S_TermB 4 6; E S_TermB 2 3; E S_TermB 3 4; E S_TermB 2 2; E S_TermB 6 8; E S_TermB 2 3;
    E S_TermB 3 1; E S_TermB 2 2; E S_TermB 4 5; E S_TermB 2 3; E S_TermB 3 4; E S_TermB 2 2;
    E S_TermB 7 12; E S_TermB 2 3; E S_TermB 3 1; E S_TermB 2 2; E S_TermB 4 6; E S_TermB 2 3;
    E S_TermB 3 4; E S_TermB 2 2; E S_TermB 5 7; E S_TermB 2 3; E S_TermB 3 1; E S_TermB 2 2;
    E S_TermB 4 5; E S_TermB 2 3; E S_TermB 3 4; E S_TermB 2 2; E S_Null 1 0; E S_TermB 2 3;
    E S_TermB 3 1; E S_TermB 2 2; E S_TermB 4 6; E S_TermB 2 3; E S_TermB 3 4; E S_TermB 2 2;
    E S_TermB 6 9; E S_TermB 2 3; E S_TermB 3 1; E S_TermB 2 2; E S_TermB 4 5; E S_TermB 2 3;
    E S_TermB 3 4; E S_TermB 2 2; E S_TermB 7 10; E S_TermB 2 3; E S_TermB 3 1; E S_TermB 2 2;
    E S_TermB 4 6; E S_TermB 2 3; E S_TermB 3 4; E S_TermB 2 2; E S_TermB 5 7; E S_TermB 2 3;
    E S_TermB 3 1; E S_TermB 2 2; E S_TermB 4 5; E S_TermB 2 3; E S_TermB 3 4; E S_TermB 2 2;
    E S_TermB 8 13; E S_TermB 2 3; E S_TermB 3 1; E S_TermB 2 2; E S_TermB 4 6; E S_TermB 2 3;
    E S_TermB 3 4; E S_TermB 2 2; E S_TermB 6 8; E S_TermB 2 3; E S_TermB 3 1; E S_TermB 2 2;
    E S_TermB 4 5; E S_TermB 2 3; E S_TermB 3 4; E S_TermB 2 2; E S_TermB 11 19; E S_TermB 2 3;
    E S_TermB 3 1; E S_TermB 2 2; E S_TermB 4 6; E S_TermB 2 3; E S_TermB 3 4; E S_TermB 2 2;
    E S_TermB 5 7; E S_TermB 2 3; E S_TermB 3 1; E S_TermB 2 2; E S_TermB 4 5; E S_TermB 2 3;
    E S_TermB 3 4; E S_TermB 2 2; E S_TermB 11 24; E S_TermB 2 3; E S_TermB 3 1; E S_TermB 2 2;
    E S_TermB 4 6; E S_TermB 2 3; E S_TermB 3 4; E S_TermB 2 2; E S_TermB 6 9; E S_TermB 2 3;
    E S_TermB 3 1; E S_TermB 2 2; E S_TermB 4 5; E S_TermB 2 3; E S_TermB 3 4; E S_TermB 2 2;
    E S_TermB 7 11; E S_TermB 2 3; E S_TermB 3 1; E S_TermB 2 2; E S_TermB 4 6; E S_TermB 2 3;
    E S_TermB 3 4; E S_TermB 2 2; E S_TermB 5 7; E S_TermB 2 3; E S_TermB 3 1; E S_TermB 2 2;
    E S_TermB 4 5; E S_TermB 2 3; E S_TermB 3 4; E S_TermB 2 2; E S_TermB 11 22; E S_TermB 2 3;
    E S_TermB 3 1; E S_TermB 2 2; E S_TermB 4 6; E S_TermB 2 3; E S_TermB 3 4; E S_TermB 2 2;
    E S_TermB 6 8; E S_TermB 2 3; E S_TermB 3 1; E S_TermB 2 2; E S_TermB 4 5; E S_TermB 2 3;
    E S_TermB 3 4; E S_TermB 2 2; E S_TermB 7 12; E S_TermB 2 3; E S_TermB 3 1; E S_TermB 2 2;
    E S_TermB 4 6; E S_TermB 2 3; E S_TermB 3 4; E S_TermB 2 2; E S_TermB 5 7; E S_TermB 2 3;
    E S_TermB 3 1; E S_TermB 2 2; E S_TermB 4 5; E S_TermB 2 3; E S_TermB 3 4; E S_TermB 2 2;
    E S_MakeUp 12 2496; E S_TermB 2 3; E S_TermB 3 1; E S_TermB 2 2; E S_TermB 4 6; E S_TermB 2 3;
    E S_TermB 3 4; E S_TermB 2 2; E S_TermB 6 9; E S_TermB 2 3; E S_TermB 3 1; E S_TermB 2 2;
    E S_TermB 4 5; E S_TermB 2 3; E S_TermB 3 4; E S_TermB 2 2; E S_TermB 7 10; E S_TermB 2 3;
    E S_TermB 3 1; E S_TermB 2 2; E S_TermB 4 6; E S_TermB 2 3; E S_TermB 3 4; E S_TermB 2 2;
    E S_TermB 5 7; E S_TermB 2 3; E S_TermB 3 1; E S_TermB 2 2; E S_TermB 4 5; E S_TermB 2 3;
    E S_TermB 3 4; E S_TermB 2 2; E S_TermB 10 16; E S_TermB 2 3; E S_TermB 3 1; E S_TermB 2 2;
    E S_TermB 4 6; E S_TermB 2 3; E S_TermB 3 4; E S_TermB 2 2; E S_TermB 6 8; E S_TermB 2 3;
    E S_TermB 3 1; E S_TermB 2 2; E S_TermB 4 5; E S_TermB 2 3; E S_TermB 3 4; E S_TermB 2 2;
    E S_TermB 10 0; E S_TermB 2 3; E S_TermB 3 1; E S_TermB 2 2; E S_TermB 4 6; E S_TermB 2 3;
    E S_TermB 3 4; E S_TermB 2 2; E S_TermB 5 7; E S_TermB 2 3; E S_TermB 3 1; E S_TermB 2 2;
    E S_TermB 4 5; E S_TermB 2 3; E S_TermB 3 4; E S_TermB 2 2; E S_MakeUpB 10 64; E S_TermB 2 3;
    E S_TermB 3 1; E S_TermB 2 2; E S_TermB 4 6; E S_TermB 2 3; E S_TermB 3 4; E S_TermB 2 2;
    E S_TermB 6 9; E S_TermB 2 3; E S_TermB 3 1; E S_TermB 2 2; E S_TermB 4 5; E S_TermB 2 3;
    E S_TermB 3 4; E S_TermB 2 2; E S_TermB 7 11; E S_TermB 2 3; E S_TermB 3 1; E S_TermB 2 2;
    E S_TermB 4 6; E S_TermB 2 3; E S_TermB 3 4; E S_TermB 2 2; E S_TermB 5 7; E S_TermB 2 3;
    E S_TermB 3 1; E S_TermB 2 2; E S_TermB 4 5; E S_TermB 2 3; E S_TermB 3 4; E S_TermB 2 2;
    E S_TermB 8 14; E S_TermB 2 3; E S_TermB 3 1; E S_TermB 2 2; E S_TermB 4 6; E S_TermB 2 3;
    E S_TermB 3 4; E S_TermB 2 2; E S_TermB 6 8; E S_TermB 2 3; E S_TermB 3 1; E S_TermB 2 2;
    E S_TermB 4 5; E S_TermB 2 3; E S_TermB 3 4; E S_TermB 2 2; E S_TermB 7 12; E S_TermB 2 3;
    E S_TermB 3 1; E S_TermB 2 2; E S_TermB 4 6; E S_TermB 2 3; E S_TermB 3 4; E S_TermB 2 2;
    E S_TermB 5 7; E S_TermB 2 3; E S_TermB 3 1; E S_TermB 2 2; E S_TermB 4 5; E S_TermB 2 3;
    E S_TermB 3 4; E S_TermB 2 2; E S_EOL 12 0; E S_TermB 2 3; E S_TermB 3 1; E S_TermB 2 2;
    E S_TermB 4 6; E S_TermB 2 3; E S_TermB 3 4; E S_TermB 2 2; E S_TermB 6 9; E S_TermB 2 3;
    E S_TermB 3 1; E S_TermB 2 2; E S_TermB 4 5; E S_TermB 2 3; E S_TermB 3 4; E S_TermB 2 2;
    E S_TermB 7 10; E S_TermB 2 3; E S_TermB 3 1; E S_TermB 2 2; E S_TermB 4 6; E S_TermB 2 3;
    E S_TermB 3 4; E S_TermB 2 2; E S_TermB 5 7; E S_TermB 2 3; E S_TermB 3 1; E S_TermB 2 2;
    E S_TermB 4 5; E S_TermB 2 3; E S_TermB 3 4; E S_TermB 2 2; E S_TermB 8 13; E S_TermB 2 3;
    E S_TermB 3 1; E S_TermB 2 2; E S_TermB 4 6; E S_TermB 2 3; E S_TermB 3 4; E S_TermB 2 2;
    E S_TermB 6 8; E S_TermB 2 3; E S_TermB 3 1; E S_TermB 2 2; E S_TermB 4 5; E S_TermB 2 3;
    E S_TermB 3 4; E S_TermB 2 2; E S_TermB 9 15; E S_TermB 2 3; E S_TermB 3 1; E S_TermB 2 2;
    E S_TermB 4 6; E S_TermB 2 3; E S_TermB 3 4; E S_TermB 2 2; E S_TermB 5 7; E S_TermB 2 3;
    E S_TermB 3 1; E S_TermB 2 2; E S_TermB 4 5; E S_TermB 2 3; E S_TermB 3 4; E S_TermB 2 2;
    E S_TermB 10 18; E S_TermB 2 3; E S_TermB 3 1; E S_TermB 2 2; E S_TermB 4 6; E S_TermB 2 3;
    E S_TermB 3 4; E S_TermB 2 2; E S_TermB 6 9; E S_TermB 2 3; E S_TermB 3 1; E S_TermB 2 2;
    E S_TermB 4 5; E S_TermB 2 3; E S_TermB 3 4; E S_TermB 2 2; E S_TermB 7 11; E S_TermB 2 3;
    E S_TermB 3 1; E S_TermB 2 2; E S_TermB 4 6; E S_TermB 2 3; E S_TermB 3 4; E S_TermB 2 2;
    E S_TermB 5 7; E S_TermB 2 3; E S_TermB 3 1; E S_TermB 2 2; E S_TermB 4 5; E S_TermB 2 3;
    E S_TermB 3 4; E S_TermB 2 2; E S_TermB 10 17; E S_TermB 2 3; E S_TermB 3 1; E S_TermB 2 2;
    E S_TermB 4 6; E S_TermB 2 3; E S_TermB 3 4; E S_TermB 2 2; E S_TermB 6 8; E S_TermB 2 3;
    E S_TermB 3 1; E S_TermB 2 2; E S_TermB 4 5; E S_TermB 2 3; E S_TermB 3 4; E S_TermB 2 2;
    E S_TermB 7 12; E S_TermB 2 3; E S_TermB 3 1; E S_TermB 2 2; E S_TermB 4 6; E S_TermB 2 3;
    E S_TermB 3 4; E S_TermB 2 2; E S_TermB 5 7; E S_TermB 2 3; E S_TermB 3 1; E S_TermB 2 2;
    E S_TermB 4 5; E S_TermB 2 3; E S_TermB 3 4; E S_TermB 2 2; E S_MakeUp 11 1792; E S_TermB 2 3;
    E S_TermB 3 1; E S_TermB 2 2; E S_TermB 4 6; E S_TermB 2 3; E S_TermB 3 4; E S_TermB 2 2;
    E S_TermB 6 9; E S_TermB 2 3; E S_TermB 3 1; E S_TermB 2 2; E S_TermB 4 5; E S_TermB 2 3;
    E S_TermB 3 4; E S_TermB 2 2; E S_TermB 7 10; E S_TermB 2 3; E S_TermB 3 1; E S_TermB 2 2;
    E S_TermB 4 6; E S_TermB 2 3; E S_TermB 3 4; E S_TermB 2 2; E S_TermB 5 7; E S_TermB 2 3;
    E S_TermB 3 1; E S_TermB 2 2; E S_TermB 4 5; E S_TermB 2 3; E S_TermB 3 4; E S_TermB 2 2;
    E S_TermB 11 23; E S_TermB 2 3; E S_TermB 3 1; E S_TermB 2 2; E S_TermB 4 6; E S_TermB 2 3;
    E S_TermB 3 4; E S_TermB 2 2; E S_TermB 6 8; E S_TermB 2 3; E S_TermB 3 1; E S_TermB 2 2;
    E S_TermB 4 5; E S_TermB 2 3; E S_TermB 3 4; E S_TermB 2 2; E S_TermB 11 20; E S_TermB 2 3;
    E S_TermB 3 1; E S_TermB 2 2; E S_TermB 4 6; E S_TermB 2 3; E S_TermB 3 4; E S_TermB 2 2;
    E S_TermB 5 7; E S_TermB 2 3; E S_TermB 3 1; E S_TermB 2 2; E S_TermB 4 5; E S_TermB 2 3;
    E S_TermB 3 4; E S_TermB 2 2; E S_TermB 11 25; E S_TermB 2 3; E S_TermB 3 1; E S_TermB 2 2;
    E S_TermB 4 6; E S_TermB 2 3; E S_TermB 3 4; E S_TermB 2 2; E S_TermB 6 9; E S_TermB 2 3;
    E S_TermB 3 1; E S_TermB 2 2; E S_TermB 4 5; E S_TermB 2 3; E S_TermB 3 4; E S_TermB 2 2;
    E S_TermB 7 11; E S_TermB 2 3; E S_TermB 3 1; E S_TermB 2 2; E S_TermB 4 6; E S_TermB 2 3;
    E S_TermB 3 4; E S_TermB 2 2; E S_TermB 5 7; E S_TermB 2 3; E S_TermB 3 1; E S_TermB 2 2;
    E S_TermB 4 5; E S_TermB 2 3; E S_TermB 3 4; E S_TermB 2 2; E S_TermB 8 14; E S_TermB 2 3;
    E S_TermB 3 1; E S_TermB 2 2; E S_TermB 4 6; E S_TermB 2 3; E S_TermB 3 4; E S_TermB 2 2;
    E S_TermB 6 8; E S_TermB 2 3; E S_TermB 3 1; E S_TermB 2 2; E S_TermB 4 5; E S_TermB 2 3;
    E S_TermB 3 4; E S_TermB 2 2; E S_TermB 7 12; E S_TermB 2 3; E S_TermB 3 1; E S_TermB 2 2;
    E S_TermB 4 6; E S_TermB 2 3; E S_TermB 3 4; E S_TermB 2 2; E S_TermB 5 7; E S_TermB 2 3;
    E S_TermB 3 1; E S_TermB 2 2; E S_TermB 4 5; E S_TermB 2 3; E S_TermB 3 4; E S_TermB 2 2;
    E S_Null 1 0; E S_TermB 2 3; E S_TermB 3 1; E S_TermB 2 2; E S_TermB 4 6; E S_TermB 2 3;
    E S_TermB 3 4; E S_TermB 2 2; E S_TermB 6 9; E S_TermB 2 3; E S_TermB 3 1; E S_TermB 2 2;
    E S_TermB 4 5; E S_TermB 2 3; E S_TermB 3 4; E S_TermB 2 2; E S_TermB 7 10; E S_TermB 2 3;
    E S_TermB 3 1; E S_TermB 2 2; E S_TermB 4 6; E S_TermB 2 3; E S_TermB 3 4; E S_TermB 2 2;
    E S_TermB 5 7; E S_TermB 2 3; E S_TermB 3 1; E S_TermB 2 2; E S_TermB 4 5; E S_TermB 2 3;
    E S_TermB 3 4; E S_TermB 2 2; E S_TermB 8 13; E S_TermB 2 3; E S_TermB 3 1; E S_TermB 2 2;
    E S_TermB 4 6; E S_TermB 2 3; E S_TermB 3 4; E S_TermB 2 2; E S_TermB 6 8; E S_TermB 2 3;
    E S_TermB 3 1; E S_TermB 2 2; E S_TermB 4 5; E S_TermB 2 3; E S_TermB 3 4; E S_TermB 2 2;
    E S_MakeUpB 12 192; E S_TermB 2 3; E S_TermB 3 1; E S_TermB 2 2; E S_TermB 4 6; E S_TermB 2 3;
    E S_TermB 3 4; E S_TermB 2 2; E S_TermB 5 7; E S_TermB 2 3; E S_TermB 3 1; E S_TermB 2 2;
    E S_TermB 4 5; E S_TermB 2 3; E S_TermB 3 4; E S_TermB 2 2; E S_MakeUpB 13 1280; E S_TermB 2 3;
    E S_TermB 3 1; E S_TermB 2 2; E S_TermB 4 6; E S_TermB 2 3; E S_TermB 3 4; E S_TermB 2 2;
    E S_TermB 6 9; E S_TermB 2 3; E S_TermB 3 1; E S_TermB 2 2; E S_TermB 4 5; E S_TermB 2 3;
    E S_TermB 3 4; E S_TermB 2 2; E S_TermB 7 11; E S_TermB 2 3; E S_TermB 3 1; E S_TermB 2 2;
    E S_TermB 4 6; E S_TermB 2 3; E S_TermB 3 4; E S_TermB 2 2; E S_TermB 5 7; E S_TermB 2 3;
    E S_TermB 3 1; E S_TermB 2 2; E S_TermB 4 5; E S_TermB 2 3; E S_TermB 3 4; E S_TermB 2 2;
    E S_TermB 12 31; E S_TermB 2 3; E S_TermB 3 1; E S_TermB 2 2; E S_TermB 4 6; E S_TermB 2 3;
    E S_TermB 3 4; E S_TermB 2 2; E S_TermB 6 8; E S_TermB 2 3; E S_TermB 3 1; E S_TermB 2 2;
    E S_TermB 4 5; E S_TermB 2 3; E S_TermB 3 4; E S_TermB 2 2; E S_TermB 7 12; E S_TermB 2 3;
    E S_TermB 3 1; E S_TermB 2 2; E S_TermB 4 6; E S_TermB 2 3; E S_TermB 3 4; E S_TermB 2 2;
    E S_TermB 5 7; E S_TermB 2 3; E S_TermB 3 1; E S_TermB 2 2; E S_TermB 4 5; E S_TermB 2 3;
    E S_TermB 3 4; E S_TermB 2 2; E S_MakeUp 11 1856; E S_TermB 2 3; E S_TermB 3 1; E S_TermB 2 2;
    E S_TermB 4 6; E S_TermB 2 3; E S_TermB 3 4; E S_TermB 2 2; E S_TermB 6 9; E S_TermB 2 3;
    E S_TermB 3 1; E S_TermB 2 2; E S_TermB 4 5; E S_TermB 2 3; E S_TermB 3 4; E S_TermB 2 2;
    E S_TermB 7 10; E S_TermB 2 3; E S_TermB 3 1; E S_TermB 2 2; E S_TermB 4 6; E S_TermB 2 3;
    E S_TermB 3 4; E S_TermB 2 2; E S_TermB 5 7; E S_TermB 2 3; E S_TermB 3 1; E S_TermB 2 2;
    E S_TermB 4 5; E S_TermB 2 3; E S_TermB 3 4; E S_TermB 2 2; E S_TermB 12 58; E S_TermB 2 3;
    E S_TermB 3 1; E S_TermB 2 2; E S_TermB 4 6; E S_TermB 2 3; E S_TermB 3 4; E S_TermB 2 2;
    E S_TermB 6 8; E S_TermB 2 3; E S_TermB 3 1; E S_TermB 2 2; E S_TermB 4 5; E S_TermB 2 3;
    E S_TermB 3 4; E S_TermB 2 2; E S_TermB 11 21; E S_TermB 2 3; E S_TermB 3 1; E S_TermB 2 2;
    E S_TermB 4 6; E S_TermB 2 3; E S_TermB 3 4; E S_TermB 2 2; E S_TermB 5 7; E S_TermB 2 3;
    E S_TermB 3 1; E S_TermB 2 2; E S_TermB 4 5; E S_TermB 2 3; E S_TermB 3 4; E S_TermB 2 2;
    E S_MakeUpB 13 896; E S_TermB 2 3; E S_TermB 3 1; E S_TermB 2 2; E S_TermB 4 6; E S_TermB 2 3;
    E S_TermB 3 4; E S_TermB 2 2; E S_TermB 6 9; E S_TermB 2 3; E S_TermB 3 1; E S_TermB 2 2;
    E S_TermB 4 5; E S_TermB 2 3; E S_TermB 3 4; E S_TermB 2 2; E S_TermB 7 11; E S_TermB 2 3;
    E S_TermB 3 1; E S_TermB 2 2; E S_TermB 4 6; E S_TermB 2 3; E S_TermB 3 4; E S_TermB 2 2;
    E S_TermB 5 7; E S_TermB 2 3; E S_TermB 3 1; E S_TermB 2 2; E S_TermB 4 5; E S_TermB 2 3;
    E S_TermB 3 4; E S_TermB 2 2; E S_TermB 8 14; E S_TermB 2 3; E S_TermB 3 1; E S_TermB 2 2;
    E S_TermB 4 6; E S_TermB 2 3; E S_TermB 3 4; E S_TermB 2 2; E S_TermB 6 8; E S_TermB 2 3;
    E S_TermB 3 1; E S_TermB 2 2; E S_TermB 4 5; E S_TermB 2 3; E S_TermB 3 4; E S_TermB 2 2;
    E S_TermB 7 12; E S_TermB 2 3; E S_TermB 3 1; E S_TermB 2 2; E S_TermB 4 6; E S_TermB 2 3;
    E S_TermB 3 4; E S_TermB 2 2; E S_TermB 5 7; E S_TermB 2 3; E S_TermB 3 1; E S_TermB 2 2;
    E S_TermB 4 5; E S_TermB 2 3; E S_TermB 3 4; E S_TermB 2 2; E S_Null 1 0; E S_TermB 2 3;
    E S_TermB 3 1; E S_TermB 2 2; E S_TermB 4 6; E S_TermB 2 3; E S_TermB 3 4; E S_TermB 2 2;
    E S_TermB 6 9; E S_TermB 2 3; E S_TermB 3 1; E S_TermB 2 2; E S_TermB 4 5; E S_TermB 2 3;
    E S_TermB 3 4; E S_TermB 2 2; E S_TermB 7 10; E S_TermB 2 3; E S_TermB 3 1; E S_TermB 2 2;
    E S_TermB 4 6; E S_TermB 2 3; E S_TermB 3 4; E S_TermB 2 2; E S_TermB 5 7; E S_TermB 2 3;
    E S_TermB 3 1; E S_TermB 2 2; E S_TermB 4 5; E S_TermB 2 3; E S_TermB 3 4; E S_TermB 2 2;
    E S_TermB 8 13; E S_TermB 2 3; E S_TermB 3 1; E S_TermB 2 2; E S_TermB 4 6; E S_TermB 2 3;
    E S_TermB 3 4; E S_TermB 2 2; E S_TermB 6 8; E S_TermB 2 3; E S_TermB 3 1; E S_TermB 2 2;
    E S_TermB 4 5; E S_TermB 2 3; E S_TermB 3 4; E S_TermB 2 2; E S_TermB 9 15; E S_TermB 2 3;
    E S_TermB 3 1; E S_TermB 2 2; E S_TermB 4 6; E S_TermB 2 3; E S_TermB 3 4; E S_TermB 2 2;
    E S_TermB 5 7; E S_TermB 2 3; E S_TermB 3 1; E S_TermB 2 2; E S_TermB 4 5; E S_TermB 2 3;
    E S_TermB 3 4; E S_TermB 2 2; E S_MakeUpB 13 640; E S_TermB 2 3; E S_TermB 3 1; E S_TermB 2 2;
    E S_TermB 4 6; E S_TermB 2 3; E S_TermB 3 4; E S_TermB 2 2; E S_TermB 6 9; E S_TermB 2 3;
    E S_TermB 3 1; E S_TermB 2 2; E S_TermB 4 5; E S_TermB 2 3; E S_TermB 3 4; E S_TermB 2 2;
    E S_TermB 7 11; E S_TermB 2 3; E S_TermB 3 1; E S_TermB 2 2; E S_TermB 4 6; E S_TermB 2 3;
    E S_TermB 3 4; E S_TermB 2 2; E S_TermB 5 7; E S_TermB 2 3; E S_TermB 3 1; E S_TermB 2 2;
    E S_TermB 4 5; E S_TermB 2 3; E S_TermB 3 4; E S_TermB 2 2; E S_TermB 12 49; E S_TermB 2 3;
    E S_TermB 3 1; E S_TermB 2 2; E S_TermB 4 6; E S_TermB 2 3; E S_TermB 3 4; E S_TermB 2 2;
    E S_TermB 6 8; E S_TermB 2 3; E S_TermB 3 1; E S_TermB 2 2; E S_TermB 4 5; E S_TermB 2 3;
    E S_TermB 3 4; E S_TermB 2 2; E S_TermB 7 12; E S_TermB 2 3; E S_TermB 3 1; E S_TermB 2 2;
    E S_TermB 4 6; E S_TermB 2 3; E S_TermB 3 4; E S_TermB 2 2; E S_TermB 5 7; E S_TermB 2 3;
    E S_TermB 3 1; E S_TermB 2 2; E S_TermB 4 5; E S_TermB 2 3; E S_TermB 3 4; E S_TermB 2 2;
    E S_MakeUp 12 2176; E S_TermB 2 3; E S_TermB 3 1; E S_TermB 2 2; E S_TermB 4 6; E S_TermB 2 3;
    E S_TermB 3 4; E S_TermB 2 2; E S_TermB 6 9; E S_TermB 2 3; E S_TermB 3 1; E S_TermB 2 2;
    E S_TermB 4 5; E S_TermB 2 3; E S_TermB 3 4; E S_TermB 2 2; E S_TermB 7 10; E S_TermB 2 3;
    E S_TermB 3 1; E S_TermB 2 2; E S_TermB 4 6; E S_TermB 2 3; E S_TermB 3 4; E S_TermB 2 2;
    E S_TermB 5 7; E S_TermB 2 3; E S_TermB 3 1; E S_TermB 2 2; E S_TermB 4 5; E S_TermB 2 3;
    E S_TermB 3 4; E S_TermB 2 2; E S_TermB 12 45; E S_TermB 2 3; E S_TermB 3 1; E S_TermB 2 2;
    E S_TermB 4 6; E S_TermB 2 3; E S_TermB 3 4; E S_TermB 2 2; E S_TermB 6 8; E S_TermB 2 3;
    E S_TermB 3 1; E S_TermB 2 2; E S_TermB 4 5; E S_TermB 2 3; E S_TermB 3 4; E S_TermB 2 2;
    E S_TermB 12 37; E S_TermB 2 3; E S_TermB 3 1; E S_TermB 2 2; E S_TermB 4 6; E S_TermB 2 3;
    E S_TermB 3 4; E S_TermB 2 2; E S_TermB 5 7; E S_TermB 2 3; E S_TermB 3 1; E S_TermB 2 2;
    E S_TermB 4 5; E S_TermB 2 3; E S_TermB 3 4; E S_TermB 2 2; E S_MakeUpB 12 448; E S_TermB 2 3;
    E S_TermB 3 1; E S_TermB 2 2; E S_TermB 4 6; E S_TermB 2 3; E S_TermB 3 4; E S_TermB 2 2;
    E S_TermB 6 9; E S_TermB 2 3; E S_TermB 3 1; E S_TermB 2 2; E S_TermB 4 5; E S_TermB 2 3;
    E S_TermB 3 4; E S_TermB 2 2; E S_TermB 7 11; E S_TermB 2 3; E S_TermB 3 1; E S_TermB 2 2;
    E S_TermB 4 6; E S_TermB 2 3; E S_TermB 3 4; E S_TermB 2 2; E S_TermB 5 7; E S_TermB 2 3;
    E S_TermB 3 1; E S_TermB 2 2; E S_TermB 4 5; E S_TermB 2 3; E S_TermB 3 4; E S_TermB 2 2;
    E S_TermB 8 14; E S_TermB 2 3; E S_TermB 3 1; E S_TermB 2 2; E S_TermB 4 6; E S_TermB 2 3;
    E S_TermB 3 4; E S_TermB 2 2; E S_TermB 6 8; E S_TermB 2 3; E S_TermB 3 1; E S_TermB 2 2;
    E S_TermB 4 5; E S_TermB 2 3; E S_TermB 3 4; E S_TermB 2 2; E S_TermB 7 12; E S_TermB 2 3;
    E S_TermB 3 1; E S_TermB 2 2; E S_TermB 4 6; E S_TermB 2 3; E S_TermB 3 4; E S_TermB 2 2;
    E S_TermB 5 7; E S_TermB 2 3; E S_TermB 3 1; E S_TermB 2 2; E S_TermB 4 5; E S_TermB 2 3;
    E S_TermB 3 4; E S_TermB 2 2; E S_Null 1 0; E S_TermB 2 3; E S_TermB 3 1; E S_TermB 2 2;
    E S_TermB 4 6; E S_TermB 2 3; E S_TermB 3 4; E S_TermB 2 2; E S_TermB 6 9; E S_TermB 2 3;
    E S_TermB 3 1; E S_TermB 2 2; E S_TermB 4 5; E S_TermB 2 3; E S_TermB 3 4; E S_TermB 2 2;
    E S_TermB 7 10; E S_TermB 2 3; E S_TermB 3 1; E S_TermB 2 2; E S_TermB 4 6; E S_TermB 2 3;
    E S_TermB 3 4; E S_TermB 2 2; E S_TermB 5 7; E S_TermB 2 3; E S_TermB 3 1; E S_TermB 2 2;
    E S_TermB 4 5; E S_TermB 2 3; E S_TermB 3 4; E S_TermB 2 2; E S_TermB 8 13; E S_TermB 2 3;
    E S_TermB 3 1; E S_TermB 2 2; E S_TermB 4 6; E S_TermB 2 3; E S_TermB 3 4; E S_TermB 2 2;
    E S_TermB 6 8; E S_TermB 2 3; E S_TermB 3 1; E S_TermB 2 2; E S_TermB 4 5; E S_TermB 2 3;
    E S_TermB 3 4; E S_TermB 2 2; E S_TermB 12 29; E S_TermB 2 3; E S_TermB 3 1; E S_TermB 2 2;
    E S_TermB 4 6; E S_TermB 2 3; E S_TermB 3 4; E S_TermB 2 2; E S_TermB 5 7; E S_TermB 2 3;
    E S_TermB 3 1; E S_TermB 2 2; E S_TermB 4 5; E S_TermB 2 3; E S_TermB 3 4; E S_TermB 2 2;
    E S_MakeUpB 13 1536; E S_TermB 2 3; E S_TermB 3 1; E S_TermB 2 2; E S_TermB 4 6; E S_TermB 2 3;
    E S_TermB 3 4; E S_TermB 2 2; E S_TermB 6 9; E S_TermB 2 3; E S_TermB 3 1; E S_TermB 2 2;
    E S_TermB 4 5; E S_TermB 2 3; E S_TermB 3 4; E S_TermB 2 2; E S_TermB 7 11; E S_TermB 2 3;
    E S_TermB 3 1; E S_TermB 2 2; E S_TermB 4 6; E S_TermB 2 3; E S_TermB 3 4; E S_TermB 2 2;
    E S_TermB 5 7; E S_TermB 2 3; E S_TermB 3 1; E S_TermB 2 2; E S_TermB 4 5; E S_TermB 2 3;
    E S_TermB 3 4; E S_TermB 2 2; E S_TermB 12 41; E S_TermB 2 3; E S_TermB 3 1; E S_TermB 2 2;
    E S_TermB 4 6; E S_TermB 2 3; E S_TermB 3 4; E S_TermB 2 2; E S_TermB 6 8; E S_TermB 2 3;
    E S_TermB 3 1; E S_TermB 2 2; E S_TermB 4 5; E S_TermB 2 3; E S_TermB 3 4; E S_TermB 2 2;
    E S_TermB 7 12; E S_TermB 2 3; E S_TermB 3 1; E S_TermB 2 2; E S_TermB 4 6; E S_TermB 2 3;
    E S_TermB 3 4; E S_TermB 2 2; E S_TermB 5 7; E S_TermB 2 3; E S_TermB 3 1; E S_TermB 2 2;
    E S_TermB 4 5; E S_TermB 2 3; E S_TermB 3 4; E S_TermB 2 2; E S_MakeUp 12 2432; E S_TermB 2 3;
    E S_TermB 3 1; E S_TermB 2 2; E S_TermB 4 6; E S_TermB 2 3; E S_TermB 3 4; E S_TermB 2 2;
    E S_TermB 6 9; E S_TermB 2 3; E S_TermB 3 1; E S_TermB 2 2; E S_TermB 4 5; E S_TermB 2 3;
    E S_TermB 3 4; E S_TermB 2 2; E S_TermB 7 10; E S_TermB 2 3; E S_TermB 3 1; E S_TermB 2 2;
    E S_TermB 4 6; E S_TermB 2 3; E S_TermB 3 4; E S_TermB 2 2; E S_TermB 5 7; E S_TermB 2 3;
    E S_TermB 3 1; E S_TermB 2 2; E S_TermB 4 5; E S_TermB 2 3; E S_TermB 3 4; E S_TermB 2 2;
    E S_TermB 10 16; E S_TermB 2 3; E S_TermB 3 1; E S_TermB 2 2; E S_TermB 4 6; E S_TermB 2 3;
    E S_TermB 3 4; E S_TermB 2 2; E S_TermB 6 8; E S_TermB 2 3; E S_TermB 3 1; E S_TermB 2 2;
    E S_TermB 4 5; E S_TermB 2 3; E S_TermB 3 4; E S_TermB 2 2; E S_TermB 10 0; E S_TermB 2 3;
    E S_TermB 3 1; E S_TermB 2 2; E S_TermB 4 6; E S_TermB 2 3; E S_TermB 3 4; E S_TermB 2 2;
    E S_TermB 5 7; E S_TermB 2 3; E S_TermB 3 1; E S_TermB 2 2; E S_TermB 4 5; E S_TermB 2 3;
    E S_TermB 3 4; E S_TermB 2 2; E S_MakeUpB 10 64; E S_TermB 2 3; E S_TermB 3 1; E S_TermB 2 2;
    E S_TermB 4 6; E S_TermB 2 3; E S_TermB 3 4; E S_TermB 2 2; E S_TermB 6 9; E S_TermB 2 3;
    E S_TermB 3 1; E S_TermB 2 2; E S_TermB 4 5; E S_TermB 2 3; E S_TermB 3 4; E S_TermB 2 2;
    E S_TermB 7 11; E S_TermB 2 3; E S_TermB 3 1; E S_TermB 2 2; E S_TermB 4 6; E S_TermB 2 3;
    E S_TermB 3 4; E S_TermB 2 2; E S_TermB 5 7; E S_TermB 2 3; E S_TermB 3 1; E S_TermB 2 2;
    E S_TermB 4 5; E S_TermB 2 3; E S_TermB 3 4; E S_TermB 2 2; E S_TermB 8 14; E S_TermB 2 3;
    E S_TermB 3 1; E S_TermB 2 2; E S_TermB 4 6; E S_TermB 2 3; E S_TermB 3 4; E S_TermB 2 2;
    E S_TermB 6 8; E S_TermB 2 3; E S_TermB 3 1; E S_TermB 2 2; E S_TermB 4 5; E S_TermB 2 3;
    E S_TermB 3 4; E S_TermB 2 2; E S_TermB 7 12; E S_TermB 2 3; E S_TermB 3 1; E S_TermB 2 2;
    E S_TermB 4 6; E S_TermB 2 3; E S_TermB 3 4; E S_TermB 2 2; E S_TermB 5 7; E S_TermB 2 3;
    E S_TermB 3 1; E S_TermB 2 2; E S_TermB 4 5; E S_TermB 2 3; E S_TermB 3 4; E S_TermB 2 2;
    E S_Null 1 0; E S_TermB 2 3; E S_TermB 3 1; E S_TermB 2 2; E S_TermB 4 6; E S_TermB 2 3;
    E S_TermB 3 4; E S_TermB 2 2; E S_TermB 6 9; E S_TermB 2 3; E S_TermB 3 1; E S_TermB 2 2;
    E S_TermB 4 5; E S_TermB 2 3; E S_TermB 3 4; E S_TermB 2 2; E S_TermB 7 10; E S_TermB 2 3;
    E S_TermB 3 1; E S_TermB 2 2; E S_TermB 4 6; E S_TermB 2 3; E S_TermB 3 4; E S_TermB 2 2;
    E S_TermB 5 7; E S_TermB 2 3; E S_TermB 3 1; E S_TermB 2 2; E S_TermB 4 5; E S_TermB 2 3;
    E S_TermB 3 4; E S_TermB 2 2; E S_TermB 8 13; E S_TermB 2 3; E S_TermB 3 1; E S_TermB 2 2;
    E S_TermB 4 6; E S_TermB 2 3; E S_TermB 3 4; E S_TermB 2 2; E S_TermB 6 8; E S_TermB 2 3;
    E S_TermB 3 1; E S_TermB 2 2; E S_TermB 4 5; E S_TermB 2 3; E S_TermB 3 4; E S_TermB 2 2;
    E S_TermB 9 15; E S_TermB 2 3; E S_TermB 3 1; E S_TermB 2 2; E S_TermB 4 6; E S_TermB 2 3;
    E S_TermB 3 4; E S_TermB 2 2; E S_TermB 5 7; E S_TermB 2 3; E S_TermB 3 1; E S_TermB 2 2;
    E S_TermB 4 5; E S_TermB 2 3; E S_TermB 3 4; E S_TermB 2 2; E S_TermB 10 18; E S_TermB 2 3;
    E S_TermB 3 1; E S_TermB 2 2; E S_TermB 4 6; E S_TermB 2 3; E S_TermB 3 4; E S_TermB 2 2;
    E S_TermB 6 9; E S_TermB 2 3; E S_TermB 3 1; E S_TermB 2 2; E S_TermB 4 5; E S_TermB 2 3;
    E S_TermB 3 4; E S_TermB 2 2; E S_TermB 7 11; E S_TermB 2 3; E S_TermB 3 1; E S_TermB 2 2;
    E S_TermB 4 6; E S_TermB 2 3; E S_TermB 3 4; E S_TermB 2 2; E S_TermB 5 7; E S_TermB 2 3;
    E S_TermB 3 1; E S_TermB 2 2; E S_TermB 4 5; E S_TermB 2 3; E S_TermB 3 4; E S_TermB 2 2;
    E S_TermB 10 17; E S_TermB 2 3; E S_TermB 3 1; E S_TermB 2 2; E S_TermB 4 6; E S_TermB 2 3;
    E S_TermB 3 4; E S_TermB 2 2; E S_TermB 6 8; E S_TermB 2 3; E S_TermB 3 1; E S_TermB 2 2;
    E S_TermB 4 5; E S_TermB 2 3; E S_TermB 3 4; E S_TermB 2 2; E S_TermB 7 12; E S_TermB 2 3;
    E S_TermB 3 1; E S_TermB 2 2; E S_TermB 4 6; E S_TermB 2 3; E S_TermB 3 4; E S_TermB 2 2;
    E S_TermB 5 7; E S_TermB 2 3; E S_TermB 3 1; E S_TermB 2 2; E S_TermB 4 5; E S_TermB 2 3;
    E S_TermB 3 4; E S_TermB 2 2; E S_MakeUp 12 2048; E S_TermB 2 3; E S_TermB 3 1; E S_TermB 2 2;
    E S_TermB 4 6; E S_TermB 2 3; E S_TermB 3 4; E S_TermB 2 2; E S_TermB 6 9; E S_TermB 2 3;
    E S_TermB 3 1; E S_TermB 2 2; E S_TermB 4 5; E S_TermB 2 3; E S_TermB 3 4; E S_TermB 2 2;
    E S_TermB 7 10; E S_TermB 2 3; E S_TermB 3 1; E S_TermB 2 2; E S_TermB 4 6; E S_TermB 2 3;
    E S_TermB 3 4; E S_TermB 2 2; E S_TermB 5 7; E S_TermB 2 3; E S_TermB 3 1; E S_TermB 2 2;
    E S_TermB 4 5; E S_TermB 2 3; E S_TermB 3 4; E S_TermB 2 2; E S_TermB 12 51; E S_TermB 2 3;
    E S_TermB 3 1; E S_TermB 2 2; E S_TermB 4 6; E S_TermB 2 3; E S_TermB 3 4; E S_TermB 2 2;
    E S_TermB 6 8; E S_TermB 2 3; E S_TermB 3 1; E S_TermB 2 2; E S_TermB 4 5; E S_TermB 2 3;
    E S_TermB 3 4; E S_TermB 2 2; E S_TermB 12 35; E S_TermB 2 3; E S_TermB 3 1; E S_TermB 2 2;
    E S_TermB 4 6; E S_TermB 2 3; E S_TermB 3 4; E S_TermB 2 2; E S_TermB 5 7; E S_TermB 2 3;
    E S_TermB 3 1; E S_TermB 2 2; E S_TermB 4 5; E S_TermB 2 3; E S_TermB 3 4; E S_TermB 2 2;
    E S_MakeUpB 12 320; E S_TermB 2 3; E S_TermB 3 1; E S_TermB 2 2; E S_TermB 4 6; E S_TermB 2 3;
    E S_TermB 3 4; E S_TermB 2 2; E S_TermB 6 9; E S_TermB 2 3; E S_TermB 3 1; E S_TermB 2 2;
    E S_TermB 4 5; E S_TermB 2 3; E S_TermB 3 4; E S_TermB 2 2; E S_TermB 7 11; E S_TermB 2 3;
    E S_TermB 3 1; E S_TermB 2 2; E S_TermB 4 6; E S_TermB 2 3; E S_TermB 3 4; E S_TermB 2 2;
    E S_TermB 5 7; E S_TermB 2 3; E S_TermB 3 1; E S_TermB 2 2; E S_TermB 4 5; E S_TermB 2 3;
    E S_TermB 3 4; E S_TermB 2 2; E S_TermB 8 14; E S_TermB 2 3; E S_TermB 3 1; E S_TermB 2 2;
    E S_TermB 4 6; E S_TermB 2 3; E S_TermB 3 4; E S_TermB 2 2; E S_TermB 6 8; E S_TermB 2 3;
    E S_TermB 3 1; E S_TermB 2 2; E S_TermB 4 5; E S_TermB 2 3; E S_TermB 3 4; E S_TermB 2 2;
    E S_TermB 7 12; E S_TermB 2 3; E S_TermB 3 1; E S_TermB 2 2; E S_TermB 4 6; E S_TermB 2 3;
    E S_TermB 3 4; E S_TermB 2 2; E S_TermB 5 7; E S_TermB 2 3; E S_TermB 3 1; E S_TermB 2 2;
    E S_TermB 4 5; E S_TermB 2 3; E S_TermB 3 4; E S_TermB 2 2; E S_Null 1 0; E S_TermB 2 3;
    E S_TermB 3 1; E S_TermB 2 2; E S_TermB 4 6; E S_TermB 2 3; E S_TermB 3 4; E S_TermB 2 2;
    E S_TermB 6 9; E S_TermB 2 3; E S_TermB 3 1; E S_TermB 2 2; E S_TermB 4 5; E S_TermB 2 3;
    E S_TermB 3 4; E S_TermB 2 2; E S_TermB 7 10; E S_TermB 2 3; E S_TermB 3 1; E S_TermB 2 2;
    E S_TermB 4 6; E S_TermB 2 3; E S_TermB 3 4; E S_TermB 2 2; E S_TermB 5 7; E S_TermB 2 3;
    E S_TermB 3 1; E S_TermB 2 2; E S_TermB 4 5; E S_TermB 2 3; E S_TermB 3 4; E S_TermB 2 2;
    E S_TermB 8 13; E S_TermB 2 3; E S_TermB 3 1; E S_TermB 2 2; E S_TermB 4 6; E S_TermB 2 3;
    E S_TermB 3 4; E S_TermB 2 2; E S_TermB 6 8; E S_TermB 2 3; E S_TermB 3 1; E S_TermB 2 2;
    E S_TermB 4 5; E S_TermB 2 3; E S_TermB 3 4; E S_TermB 2 2; E S_TermB 12 27; E S_TermB 2 3;
    E S_TermB 3 1; E S_TermB 2 2; E S_TermB 4 6; E S_TermB 2 3; E S_TermB 3 4; E S_TermB 2 2;
    E S_TermB 5 7; E S_TermB 2 3; E S_TermB 3 1; E S_TermB 2 2; E S_TermB 4 5; E S_TermB 2 3;
    E S_TermB 3 4; E S_TermB 2 2; E S_TermB 12 59; E S_TermB 2 3; E S_TermB 3 1; E S_TermB 2 2;
    E S_TermB 4 6; E S_TermB 2 3; E S_TermB 3 4; E S_TermB 2 2; E S_TermB 6 9; E S_TermB 2 3;
    E S_TermB 3 1; E S_TermB 2 2; E S_TermB 4 5; E S_TermB 2 3; E S_TermB 3 4; E S_TermB 2 2;
    E S_TermB 7 11; E S_TermB 2 3; E S_TermB 3 1; E S_TermB 2 2; E S_TermB 4 6; E S_TermB 2 3;
    E S_TermB 3 4; E S_TermB 2 2; E S_TermB 5 7; E S_TermB 2 3; E S_TermB 3 1; E S_TermB 2 2;
    E S_TermB 4 5; E S_TermB 2 3; E S_TermB 3 4; E S_TermB 2 2; E S_TermB 12 33; E S_TermB 2 3;
    E S_TermB 3 1; E S_TermB 2 2; E S_TermB 4 6; E S_TermB 2 3; E S_TermB 3 4; E S_TermB 2 2;
    E S_TermB 6 8; E S_TermB 2 3; E S_TermB 3 1; E S_TermB 2 2; E S_TermB 4 5; E S_TermB 2 3;
    E S_TermB 3 4; E S_TermB 2 2; E S_TermB 7 12; E S_TermB 2 3; E S_TermB 3 1; E S_TermB 2 2;
    E S_TermB 4 6; E S_TermB 2 3; E S_TermB 3 4; E S_TermB 2 2; E S_TermB 5 7; E S_TermB 2 3;
    E S_TermB 3 1; E S_TermB 2 2; E S_TermB 4 5; E S_TermB 2 3; E S_TermB 3 4; E S_TermB 2 2;
    E S_MakeUp 11 1920; E S_TermB 2 3; E S_TermB 3 1; E S_TermB 2 2; E S_TermB 4 6; E S_TermB 2 3;
    E S_TermB 3 4; E S_TermB 2 2; E S_TermB 6 9; E S_TermB 2 3; E S_TermB 3 1; E S_TermB 2 2;
    E S_TermB 4 5; E S_TermB 2 3; E S_TermB 3 4; E S_TermB 2 2; E S_TermB 7 10; E S_TermB 2 3;
    E S_TermB 3 1; E S_TermB 2 2; E S_TermB 4 6; E S_TermB 2 3; E S_TermB 3 4; E S_TermB 2 2;
    E S_TermB 5 7; E S_TermB 2 3; E S_TermB 3 1; E S_TermB 2 2; E S_TermB 4 5; E S_TermB 2 3;
    E S_TermB 3 4; E S_TermB 2 2; E S_MakeUpB 12 256; E S_TermB 2 3; E S_TermB 3 1; E S_TermB 2 2;
    E S_TermB 4 6; E S_TermB 2 3; E S_TermB 3 4; E S_TermB 2 2; E S_TermB 6 8; E S_TermB 2 3;
    E S_TermB 3 1; E S_TermB 2 2; E S_TermB 4 5; E S_TermB 2 3; E S_TermB 3 4; E S_TermB 2 2;
    E S_TermB 12 43; E S_TermB 2 3; E S_TermB 3 1; E S_TermB 2 2; E S_TermB 4 6; E S_TermB 2 3;
    E S_TermB 3 4; E S_TermB 2 2; E S_TermB 5 7; E S_TermB 2 3; E S_TermB 3 1; E S_TermB 2 2;
    E S_TermB 4 5; E S_TermB 2 3; E S_TermB 3 4; E S_TermB 2 2; E S_MakeUpB 13 1152; E S_TermB 2 3;
    E S_TermB 3 1; E S_TermB 2 2; E S_TermB 4 6; E S_TermB 2 3; E S_TermB 3 4; E S_TermB 2 2;
    E S_TermB 6 9; E S_TermB 2 3; E S_TermB 3 1; E S_TermB 2 2; E S_TermB 4 5; E S_TermB 2 3;
    E S_TermB 3 4; E S_TermB 2 2; E S_TermB 7 11; E S_TermB 2 3; E S_TermB 3 1; E S_TermB 2 2;
    E S_TermB 4 6; E S_TermB 2 3; E S_TermB 3 4; E S_TermB 2 2; E S_TermB 5 7; E S_TermB 2 3;
    E S_TermB 3 1; E S_TermB 2 2; E S_TermB 4 5; E S_TermB 2 3; E S_TermB 3 4; E S_TermB 2 2;
    E S_TermB 8 14; E S_TermB 2 3; E S_TermB 3 1; E S_TermB 2 2; E S_TermB 4 6; E S_TermB 2 3;
    E S_TermB 3 4; E S_TermB 2 2; E S_TermB 6 8; E S_TermB 2 3; E S_TermB 3 1; E S_TermB 2 2;
    E S_TermB 4 5; E S_TermB 2 3; E S_TermB 3 4; E S_TermB 2 2; E S_TermB 7 12; E S_TermB 2 3;
    E S_TermB 3 1; E S_TermB 2 2; E S_TermB 4 6; E S_TermB 2 3; E S_TermB 3 4; E S_TermB 2 2;
    E S_TermB 5 7; E S_TermB 2 3; E S_TermB 3 1; E S_TermB 2 2; E S_TermB 4 5; E S_TermB 2 3;
    E S_TermB 3 4; E S_TermB 2 2; E S_Null 1 0; E S_TermB 2 3; E S_TermB 3 1; E S_TermB 2 2;
    E S_TermB 4 6; E S_TermB 2 3; E S_TermB 3 4; E S_TermB 2 2; E S_TermB 6 9; E S_TermB 2 3;
    E S_TermB 3 1; E S_TermB 2 2; E S_TermB 4 5; E S_TermB 2 3; E S_TermB 3 4; E S_TermB 2 2;
    E S_TermB 7 10; E S_TermB 2 3; E S_TermB 3 1; E S_TermB 2 2; E S_TermB 4 6; E S_TermB 2 3;
    E S_TermB 3 4; E S_TermB 2 2; E S_TermB 5 7; E S_TermB 2 3; E S_TermB 3 1; E S_TermB 2 2;
    E S_TermB 4 5; E S_TermB 2 3; E S_TermB 3 4; E S_TermB 2 2; E S_TermB 8 13; E S_TermB 2 3;
    E S_TermB 3 1; E S_TermB 2 2; E S_TermB 4 6; E S_TermB 2 3; E S_TermB 3 4; E S_TermB 2 2;
    E S_TermB 6 8; E S_TermB 2 3; E S_TermB 3 1; E S_TermB 2 2; E S_TermB 4 5; E S_TermB 2 3;
    E S_TermB 3 4; E S_TermB 2 2; E S_TermB 9 15; E S_TermB 2 3; E S_TermB 3 1; E S_TermB 2 2;
    E S_TermB 4 6; E S_TermB 2 3; E S_TermB 3 4; E S_TermB 2 2; E S_TermB 5 7; E S_TermB 2 3;
    E S_TermB 3 1; E S_TermB 2 2; E S_TermB 4 5; E S_TermB 2 3; E S_TermB 3 4; E S_TermB 2 2;
    E S_TermB 12 55; E S_TermB 2 3; E S_TermB 3 1; E S_TermB 2 2; E S_TermB 4 6; E S_TermB 2 3;
    E S_TermB 3 4; E S_TermB 2 2; E S_TermB 6 9; E S_TermB 2 3; E S_TermB 3 1; E S_TermB 2 2;
    E S_TermB 4 5; E S_TermB 2 3; E S_TermB 3 4; E S_TermB 2 2; E S_TermB 7 11; E S_TermB 2 3;
    E S_TermB 3 1; E S_TermB 2 2; E S_TermB 4 6; E S_TermB 2 3; E S_TermB 3 4; E S_TermB 2 2;
    E S_TermB 5 7; E S_TermB 2 3; E S_TermB 3 1; E S_TermB 2 2; E S_TermB 4 5; E S_TermB 2 3;
    E S_TermB 3 4; E S_TermB 2 2; E S_TermB 12 63; E S_TermB 2 3; E S_TermB 3 1; E S_TermB 2 2;
    E S_TermB 4 6; E S_TermB 2 3; E S_TermB 3 4; E S_TermB 2 2; E S_TermB 6 8; E S_TermB 2 3;
    E S_TermB 3 1; E S_TermB 2 2; E S_TermB 4 5; E S_TermB 2 3; E S_TermB 3 4; E S_TermB 2 2;
    E S_TermB 7 12; E S_TermB 2 3; E S_TermB 3 1; E S_TermB 2 2; E S_TermB 4 6; E S_TermB 2 3;
    E S_TermB 3 4; E S_TermB 2 2; E S_TermB 5 7; E S_TermB 2 3; E S_TermB 3 1; E S_TermB 2 2;
    E S_TermB 4 5; E S_TermB 2 3; E S_TermB 3 4; E S_TermB 2 2; E S_MakeUp 12 2304; E S_TermB 2 3;
    E S_TermB 3 1; E S_TermB 2 2; E S_TermB 4 6; E S_TermB 2 3; E S_TermB 3 4; E S_TermB 2 2;
    E S_TermB 6 9; E S_TermB 2 3; E S_TermB 3 1; E S_TermB 2 2; E S_TermB 4 5; E S_TermB 2 3;
    E S_TermB 3 4; E S_TermB 2 2; E S_TermB 7 10; E S_TermB 2 3; E S_TermB 3 1; E S_TermB 2 2;
    E S_TermB 4 6; E S_TermB 2 3; E S_TermB 3 4; E S_TermB 2 2; E S_TermB 5 7; E S_TermB 2 3;
    E S_TermB 3 1; E S_TermB 2 2; E S_TermB 4 5; E S_TermB 2 3; E S_TermB 3 4; E S_TermB 2 2;
    E S_TermB 12 47; E S_TermB 2 3; E S_TermB 3 1; E S_TermB 2 2; E S_TermB 4 6; E S_TermB 2 3;
    E S_TermB 3 4; E S_TermB 2 2; E S_TermB 6 8; E S_TermB 2 3; E S_TermB 3 1; E S_TermB 2 2;
    E S_TermB 4 5; E S_TermB 2 3; E S_TermB 3 4; E S_TermB 2 2; E S_TermB 12 39; E S_TermB 2 3;
    E S_TermB 3 1; E S_TermB 2 2; E S_TermB 4 6; E S_TermB 2 3; E S_TermB 3 4; E S_TermB 2 2;
    E S_TermB 5 7; E S_TermB 2 3; E S_TermB 3 1; E S_TermB 2 2; E S_TermB 4 5; E S_TermB 2 3;
    E S_TermB 3 4; E S_TermB 2 2; E S_TermB 12 53; E S_TermB 2 3; E S_TermB 3 1; E S_TermB 2 2;
    E S_TermB 4 6; E S_TermB 2 3; E S_TermB 3 4; E S_TermB 2 2; E S_TermB 6 9; E S_TermB 2 3;
    E S_TermB 3 1; E S_TermB 2 2; E S_TermB 4 5; E S_TermB 2 3; E S_TermB 3 4; E S_TermB 2 2;
    E S_TermB 7 11; E S_TermB 2 3; E S_TermB 3 1; E S_TermB 2 2; E S_TermB 4 6; E S_TermB 2 3;
    E S_TermB 3 4; E S_TermB 2 2; E S_TermB 5 7; E S_TermB 2 3; E S_TermB 3 1; E S_TermB 2 2;
    E S_TermB 4 5; E S_TermB 2 3; E S_TermB 3 4; E S_TermB 2 2; E S_TermB 8 14; E S_TermB 2 3;
    E S_TermB 3 1; E S_TermB 2 2; E S_TermB 4 6; E S_TermB 2 3; E S_TermB 3 4; E S_TermB 2 2;
    E S_TermB 6 8; E S_TermB 2 3; E S_TermB 3 1; E S_TermB 2 2; E S_TermB 4 5; E S_TermB 2 3;
    E S_TermB 3 4; E S_TermB 2 2; E S_TermB 7 12; E S_TermB 2 3; E S_TermB 3 1; E S_TermB 2 2;
    E S_TermB 4 6; E S_TermB 2 3; E S_TermB 3 4; E S_TermB 2 2; E S_TermB 5 7; E S_TermB 2 3;
    E S_TermB 3 1; E S_TermB 2 2; E S_TermB 4 5; E S_TermB 2 3; E S_TermB 3 4; E S_TermB 2 2;
    E S_Null 1 0; E S_TermB 2 3; E S_TermB 3 1; E S_TermB 2 2; E S_TermB 4 6; E S_TermB 2 3;
    E S_TermB 3 4; E S_TermB 2 2; E S_TermB 6 9; E S_TermB 2 3; E S_TermB 3 1; E S_TermB 2 2;
    E S_TermB 4 5; E S_TermB 2 3; E S_TermB 3 4; E S_TermB 2 2; E S_TermB 7 10; E S_TermB 2 3;
    E S_TermB 3 1; E S_TermB 2 2; E S_TermB 4 6; E S_TermB 2 3; E S_TermB 3 4; E S_TermB 2 2;
    E S_TermB 5 7; E S_TermB 2 3; E S_TermB 3 1; E S_TermB 2 2; E S_TermB 4 5; E S_TermB 2 3;
    E S_TermB 3 4; E S_TermB 2 2; E S_TermB 8 13; E S_TermB 2 3; E S_TermB 3 1; E S_TermB 2 2;
    E S_TermB 4 6; E S_TermB 2 3; E S_TermB 3 4; E S_TermB 2 2; E S_TermB 6 8; E S_TermB 2 3;
    E S_TermB 3 1; E S_TermB 2 2; E S_TermB 4 5; E S_TermB 2 3; E S_TermB 3 4; E S_TermB 2 2;
    E S_TermB 11 19; E S_TermB 2 3; E S_TermB 3 1; E S_TermB 2 2; E S_TermB 4 6; E S_TermB 2 3;
    E S_TermB 3 4; E S_TermB 2 2; E S_TermB 5 7; E S_TermB 2 3; E S_TermB 3 1; E S_TermB 2 2;
    E S_TermB 4 5; E S_TermB 2 3; E S_TermB 3 4; E S_TermB 2 2; E S_TermB 11 24; E S_TermB 2 3;
    E S_TermB 3 1; E S_TermB 2 2; E S_TermB 4 6; E S_TermB 2 3; E S_TermB 3 4; E S_TermB 2 2;
    E S_TermB 6 9; E S_TermB 2 3; E S_TermB 3 1; E S_TermB 2 2; E S_TermB 4 5; E S_TermB 2 3;
    E S_TermB 3 4; E S_TermB 2 2; E S_TermB 7 11; E S_TermB 2 3; E S_TermB 3 1; E S_TermB 2 2;
    E S_TermB 4 6; E S_TermB 2 3; E S_TermB 3 4; E S_TermB 2 2; E S_TermB 5 7; E S_TermB 2 3;
    E S_TermB 3 1; E S_TermB 2 2; E S_TermB 4 5; E S_TermB 2 3; E S_TermB 3 4; E S_TermB 2 2;
    E S_TermB 11 22; E S_TermB 2 3; E S_TermB 3 1; E S_TermB 2 2; E S_TermB 4 6; E S_TermB 2 3;
    E S_TermB 3 4; E S_TermB 2 2; E S_TermB 6 8; E S_TermB 2 3; E S_TermB 3 1; E S_TermB 2 2;
    E S_TermB 4 5; E S_TermB 2 3; E S_TermB 3 4; E S_TermB 2 2; E S_TermB 7 12; E S_TermB 2 3;
    E S_TermB 3 1; E S_TermB 2 2; E S_TermB 4 6; E S_TermB 2 3; E S_TermB 3 4; E S_TermB 2 2;
    E S_TermB 5 7; E S_TermB 2 3; E S_TermB 3 1; E S_TermB 2 2; E S_TermB 4 5; E S_TermB 2 3;
    E S_TermB 3 4; E S_TermB 2 2; E S_MakeUp 12 2560; E S_TermB 2 3; E S_TermB 3 1; E S_TermB 2 2;
    E S_TermB 4 6; E S_TermB 2 3; E S_TermB 3 4; E S_TermB 2 2; E S_TermB 6 9; E S_TermB 2 3;
    E S_TermB 3 1; E S_TermB 2 2; E S_TermB 4 5; E S_TermB 2 3; E S_TermB 3 4; E S_TermB 2 2;
    E S_TermB 7 10; E S_TermB 2 3; E S_TermB 3 1; E S_TermB 2 2; E S_TermB 4 6; E S_TermB 2 3;
    E S_TermB 3 4; E S_TermB 2 2; E S_TermB 5 7; E S_TermB 2 3; E S_TermB 3 1; E S_TermB 2 2;
    E S_TermB 4 5; E S_TermB 2 3; E S_TermB 3 4; E S_TermB 2 2; E S_TermB 10 16; E S_TermB 2 3;
    E S_TermB 3 1; E S_TermB 2 2; E S_TermB 4 6; E S_TermB 2 3; E S_TermB 3 4; E S_TermB 2 2;
    E S_TermB 6 8; E S_TermB 2 3; E S_TermB 3 1; E S_TermB 2 2; E S_TermB 4 5; E S_TermB 2 3;
    E S_TermB 3 4; E S_TermB 2 2; E S_TermB 10 0; E S_TermB 2 3; E S_TermB 3 1; E S_TermB 2 2;
    E S_TermB 4 6; E S_TermB 2 3; E S_TermB 3 4; E S_TermB 2 2; E S_TermB 5 7; E S_TermB 2 3;
    E S_TermB 3 1; E S_TermB 2 2; E S_TermB 4 5; E S_TermB 2 3; E S_TermB 3 4; E S_TermB 2 2;
    E S_MakeUpB 10 64; E S_TermB 2 3; E S_TermB 3 1; E S_TermB 2 2; E S_TermB 4 6; E S_TermB 2 3;
    E S_TermB 3 4; E S_TermB 2 2; E S_TermB 6 9; E S_TermB 2 3; E S_TermB 3 1; E S_TermB 2 2;
    E S_TermB 4 5; E S_TermB 2 3; E S_TermB 3 4; E S_TermB 2 2; E S_TermB 7 11; E S_TermB 2 3;
    E S_TermB 3 1; E S_TermB 2 2; E S_TermB 4 6; E S_TermB 2 3; E S_TermB 3 4; E S_TermB 2 2;
    E S_TermB 5 7; E S_TermB 2 3; E S_TermB 3 1; E S_TermB 2 2; E S_TermB 4 5; E S_TermB 2 3;
    E S_TermB 3 4; E S_TermB 2 2; E S_TermB 8 14; E S_TermB 2 3; E S_TermB 3 1; E S_TermB 2 2;
    E S_TermB 4 6; E S_TermB 2 3; E S_TermB 3 4; E S_TermB 2 2; E S_TermB 6 8; E S_TermB 2 3;
    E S_TermB 3 1; E S_TermB 2 2; E S_TermB 4 5; E S_TermB 2 3; E S_TermB 3 4; E S_TermB 2 2;
    E S_TermB 7 12; E S_TermB 2 3; E S_TermB 3 1; E S_TermB 2 2; E S_TermB 4 6; E S_TermB 2 3;
    E S_TermB 3 4; E S_TermB 2 2; E S_TermB 5 7; E S_TermB 2 3; E S_TermB 3 1; E S_TermB 2 2;
    E S_TermB 4 5; E S_TermB 2 3; E S_TermB 3 4; E S_TermB 2 2; E S_Null 1 0; E S_TermB 2 3;
    E S_TermB 3 1; E S_TermB 2 2; E S_TermB 4 6; E S_TermB 2 3; E S_TermB 3 4; E S_TermB 2 2;
    E S_TermB 6 9; E S_TermB 2 3; E S_TermB 3 1; E S_TermB 2 2; E S_TermB 4 5; E S_TermB 2 3;
    E S_TermB 3 4; E S_TermB 2 2; E S_TermB 7 10; E S_TermB 2 3; E S_TermB 3 1; E S_TermB 2 2;
    E S_TermB 4 6; E S_TermB 2 3; E S_TermB 3 4; E S_TermB 2 2; E S_TermB 5 7; E S_TermB 2 3;
    E S_TermB 3 1; E S_TermB 2 2; E S_TermB 4 5; E S_TermB 2 3; E S_TermB 3 4; E S_TermB 2 2;
    E S_TermB 8 13; E S_TermB 2 3; E S_TermB 3 1; E S_TermB 2 2; E S_TermB 4 6; E S_TermB 2 3;
    E S_TermB 3 4; E S_TermB 2 2; E S_TermB 6 8; E S_TermB 2 3; E S_TermB 3 1; E S_TermB 2 2;
    E S_TermB 4 5; E S_TermB 2 3; E S_TermB 3 4; E S_TermB 2 2; E S_TermB 9 15; E S_TermB 2 3;
    E S_TermB 3 1; E S_TermB 2 2; E S_TermB 4 6; E S_TermB 2 3; E S_TermB 3 4; E S_TermB 2 2;
    E S_TermB 5 7; E S_TermB 2 3; E S_TermB 3 1; E S_TermB 2 2; E S_TermB 4 5; E S_TermB 2 3;
    E S_TermB 3 4; E S_TermB 2 2; E S_TermB 10 18; E S_TermB 2 3; E S_TermB 3 1; E S_TermB 2 2;
    E S_TermB 4 6; E S_TermB 2 3; E S_TermB 3 4; E S_TermB 2 2; E S_TermB 6 9; E S_TermB 2 3;
    E S_TermB 3 1; E S_TermB 2 2; E S_TermB 4 5; E S_TermB 2 3; E S_TermB 3 4; E S_TermB 2 2;
    E S_TermB 7 11; E S_TermB 2 3; E S_TermB 3 1; E S_TermB 2 2; E S_TermB 4 6; E S_TermB 2 3;
    E S_TermB 3 4; E S_TermB 2 2; E S_TermB 5 7; E S_TermB 2 3; E S_TermB 3 1; E S_TermB 2 2;
    E S_TermB 4 5; E S_TermB 2 3; E S_TermB 3 4; E S_TermB 2 2; E S_TermB 10 17; E S_TermB 2 3;
    E S_TermB 3 1; E S_TermB 2 2; E S_TermB 4 6; E S_TermB 2 3; E S_TermB 3 4; E S_TermB 2 2;
    E S_TermB 6 8; E S_TermB 2 3; E S_TermB 3 1; E S_TermB 2 2; E S_TermB 4 5; E S_TermB 2 3;
    E S_TermB 3 4; E S_TermB 2 2; E S_TermB 7 12; E S_TermB 2 3; E S_TermB 3 1; E S_TermB 2 2;
    E S_TermB 4 6; E S_TermB 2 3; E S_TermB 3 4; E S_TermB 2 2; E S_TermB 5 7; E S_TermB 2 3;
    E S_TermB 3 1; E S_TermB 2 2; E S_TermB 4 5; E S_TermB 2 3; E S_TermB 3 4; E S_TermB 2 2;
    E S_MakeUp 11 1792; E S_TermB 2 3; E S_TermB 3 1; E S_TermB 2 2; E S_TermB 4 6; E S_TermB 2 3;
    E S_TermB 3 4; E S_TermB 2 2; E S_TermB 6 9; E S_TermB 2 3; E S_TermB 3 1; E S_TermB 2 2;
    E S_TermB 4 5; E S_TermB 2 3; E S_TermB 3 4; E S_TermB 2 2; E S_TermB 7 10; E S_TermB 2 3;
    E S_TermB 3 1; E S_TermB 2 2; E S_TermB 4 6; E S_TermB 2 3; E S_TermB 3 4; E S_TermB 2 2;
    E S_TermB 5 7; E S_TermB 2 3; E S_TermB 3 1; E S_TermB 2 2; E S_TermB 4 5; E S_TermB 2 3;
    E S_TermB 3 4; E S_TermB 2 2; E S_TermB 11 23; E S_TermB 2 3; E S_TermB 3 1; E S_TermB 2 2;
    E S_TermB 4 6; E S_TermB 2 3; E S_TermB 3 4; E S_TermB 2 2; E S_TermB 6 8; E S_TermB 2 3;
    E S_TermB 3 1; E S_TermB 2 2; E S_TermB 4 5; E S_TermB 2 3; E S_TermB 3 4; E S_TermB 2 2;
    E S_TermB 11 20; E S_TermB 2 3; E S_TermB 3 1; E S_TermB 2 2; E S_TermB 4 6; E S_TermB 2 3;
    E S_TermB 3 4; E S_TermB 2 2; E S_TermB 5 7; E S_TermB 2 3; E S_TermB 3 1; E S_TermB 2 2;
    E S_TermB 4 5; E S_TermB 2 3; E S_TermB 3 4; E S_TermB 2 2; E S_TermB 11 25; E S_TermB 2 3;
    E S_TermB 3 1; E S_TermB 2 2; E S_TermB 4 6; E S_TermB 2 3; E S_TermB 3 4; E S_TermB 2 2;
    E S_TermB 6 9; E S_TermB 2 3; E S_TermB 3 1; E S_TermB 2 2; E S_TermB 4 5; E S_TermB 2 3;
    E S_TermB 3 4; E S_TermB 2 2; E S_TermB 7 11; E S_TermB 2 3; E S_TermB 3 1; E S_TermB 2 2;
    E S_TermB 4 6; E S_TermB 2 3; E S_TermB 3 4; E S_TermB 2 2; E S_TermB 5 7; E S_TermB 2 3;
    E S_TermB 3 1; E S_TermB 2 2; E S_TermB 4 5; E S_TermB 2 3; E S_TermB 3 4; E S_TermB 2 2;
    E S_TermB 8 14; E S_TermB 2 3; E S_TermB 3 1; E S_TermB 2 2; E S_TermB 4 6; E S_TermB 2 3;
    E S_TermB 3 4; E S_TermB 2 2; E S_TermB 6 8; E S_TermB 2 3; E S_TermB 3 1; E S_TermB 2 2;
    E S_TermB 4 5; E S_TermB 2 3; E S_TermB 3 4; E S_TermB 2 2; E S_TermB 7 12; E S_TermB 2 3;
    E S_TermB 3 1; E S_TermB 2 2; E S_TermB 4 6; E S_TermB 2 3; E S_TermB 3 4; E S_TermB 2 2;
    E S_TermB 5 7; E S_TermB 2 3; E S_TermB 3 1; E S_TermB 2 2; E S_TermB 4 5; E S_TermB 2 3;
    E S_TermB 3 4; E S_TermB 2 2; E S_Null 1 0; E S_TermB 2 3; E S_TermB 3 1; E S_TermB 2 2;
    E S_TermB 4 6; E S_TermB 2 3; E S_TermB 3 4; E S_TermB 2 2; E S_TermB 6 9; E S_TermB 2 3;
    E S_TermB 3 1; E S_TermB 2 2; E S_TermB 4 5; E S_TermB 2 3; E S_TermB 3 4; E S_TermB 2 2;
    E S_TermB 7 10; E S_TermB 2 3; E S_TermB 3 1; E S_TermB 2 2; E S_TermB 4 6; E S_TermB 2 3;
    E S_TermB 3 4; E S_TermB 2 2; E S_TermB 5 7; E S_TermB 2 3; E S_TermB 3 1; E S_TermB 2 2;
    E S_TermB 4 5; E S_TermB 2 3; E S_TermB 3 4; E S_TermB 2 2; E S_TermB 8 13; E S_TermB 2 3;
    E S_TermB 3 1; E S_TermB 2 2; E S_TermB 4 6; E S_TermB 2 3; E S_TermB 3 4; E S_TermB 2 2;
    E S_TermB 6 8; E S_TermB 2 3; E S_TermB 3 1; E S_TermB 2 2; E S_TermB 4 5; E S_TermB 2 3;
    E S_TermB 3 4; E S_TermB 2 2; E S_MakeUpB 12 128; E S_TermB 2 3; E S_TermB 3 1; E S_TermB 2 2;
    E S_TermB 4 6; E S_TermB 2 3; E S_TermB 3 4; E S_TermB 2 2; E S_TermB 5 7; E S_TermB 2 3;
    E S_TermB 3 1; E S_TermB 2 2; E S_TermB 4 5; E S_TermB 2 3; E S_TermB 3 4; E S_TermB 2 2;
    E S_TermB 12 56; E S_TermB 2 3; E S_TermB 3 1; E S_TermB 2 2; E S_TermB 4 6; E S_TermB 2 3;
    E S_TermB 3 4; E S_TermB 2 2; E S_TermB 6 9; E S_TermB 2 3; E S_TermB 3 1; E S_TermB 2 2;
    E S_TermB 4 5; E S_TermB 2 3; E S_TermB 3 4; E S_TermB 2 2; E S_TermB 7 11; E S_TermB 2 3;
    E S_TermB 3 1; E S_TermB 2 2; E S_TermB 4 6; E S_TermB 2 3; E S_TermB 3 4; E S_TermB 2 2;
    E S_TermB 5 7; E S_TermB 2 3; E S_TermB 3 1; E S_TermB 2 2; E S_TermB 4 5; E S_TermB 2 3;
    E S_TermB 3 4; E S_TermB 2 2; E S_TermB 12 30; E S_TermB 2 3; E S_TermB 3 1; E S_TermB 2 2;
    E S_TermB 4 6; E S_TermB 2 3; E S_TermB 3 4; E S_TermB 2 2; E S_TermB 6 8; E S_TermB 2 3;
    E S_TermB 3 1; E S_TermB 2 2; E S_TermB 4 5; E S_TermB 2 3; E S_TermB 3 4; E S_TermB 2 2;
    E S_TermB 7 12; E S_TermB 2 3; E S_TermB 3 1; E S_TermB 2 2; E S_TermB 4 6; E S_TermB 2 3;
    E S_TermB 3 4; E S_TermB 2 2; E S_TermB 5 7; E S_TermB 2 3; E S_TermB 3 1; E S_TermB 2 2;
    E S_TermB 4 5; E S_TermB 2 3; E S_TermB 3 4; E S_TermB 2 2; E S_MakeUp 11 1856; E S_TermB 2 3;
    E S_TermB 3 1; E S_TermB 2 2; E S_TermB 4 6; E S_TermB 2 3; E S_TermB 3 4; E S_TermB 2 2;
    E S_TermB 6 9; E S_TermB 2 3; E S_TermB 3 1; E S_TermB 2 2; E S_TermB 4 5; E S_TermB 2 3;
    E S_TermB 3 4; E S_TermB 2 2; E S_TermB 7 10; E S_TermB 2 3; E S_TermB 3 1; E S_TermB 2 2;
    E S_TermB 4 6; E S_TermB 2 3; E S_TermB 3 4; E S_TermB 2 2; E S_TermB 5 7; E S_TermB 2 3;
    E S_TermB 3 1; E S_TermB 2 2; E S_TermB 4 5; E S_TermB 2 3; E S_TermB 3 4; E S_TermB 2 2;
    E S_TermB 12 57; E S_TermB 2 3; E S_TermB 3 1; E S_TermB 2 2; E S_TermB 4 6; E S_TermB 2 3;
    E S_TermB 3 4; E S_TermB 2 2; E S_TermB 6 8; E S_TermB 2 3; E S_TermB 3 1; E S_TermB 2 2;
    E S_TermB 4 5; E S_TermB 2 3; E S_TermB 3 4; E S_TermB 2 2; E S_TermB 11 21; E S_TermB 2 3;
    E S_TermB 3 1; E S_TermB 2 2; E S_TermB 4 6; E S_TermB 2 3; E S_TermB 3 4; E S_TermB 2 2;
    E S_TermB 5 7; E S_TermB 2 3; E S_TermB 3 1; E S_TermB 2 2; E S_TermB 4 5; E S_TermB 2 3;
    E S_TermB 3 4; E S_TermB 2 2; E S_TermB 12 54; E S_TermB 2 3; E S_TermB 3 1; E S_TermB 2 2;
    E S_TermB 4 6; E S_TermB 2 3; E S_TermB 3 4; E S_TermB 2 2; E S_TermB 6 9; E S_TermB 2 3;
    E S_TermB 3 1; E S_TermB 2 2; E S_TermB 4 5; E S_TermB 2 3; E S_TermB 3 4; E S_TermB 2 2;
    E S_TermB 7 11; E S_TermB 2 3; E S_TermB 3 1; E S_TermB 2 2; E S_TermB 4 6; E S_TermB 2 3;
    E S_TermB 3 4; E S_TermB 2 2; E S_TermB 5 7; E S_TermB 2 3; E S_TermB 3 1; E S_TermB 2 2;
    E S_TermB 4 5; E S_TermB 2 3; E S_TermB 3 4; E S_TermB 2 2; E S_TermB 8 14; E S_TermB 2 3;
    E S_TermB 3 1; E S_TermB 2 2; E S_TermB 4 6; E S_TermB 2 3; E S_TermB 3 4; E S_TermB 2 2;
    E S_TermB 6 8; E S_TermB 2 3; E S_TermB 3 1; E S_TermB 2 2; E S_TermB 4 5; E S_TermB 2 3;
    E S_TermB 3 4; E S_TermB 2 2; E S_TermB 7 12; E S_TermB 2 3; E S_TermB 3 1; E S_TermB 2 2;
    E S_TermB 4 6; E S_TermB 2 3; E S_TermB 3 4; E S_TermB 2 2; E S_TermB 5 7; E S_TermB 2 3;
    E S_TermB 3 1; E S_TermB 2 2; E S_TermB 4 5; E S_TermB 2 3; E S_TermB 3 4; E S_TermB 2 2;
    E S_Null 1 0; E S_TermB 2 3; E S_TermB 3 1; E S_TermB 2 2; E S_TermB 4 6; E S_TermB 2 3;
    E S_TermB 3 4; E S_TermB 2 2; E S_TermB 6 9; E S_TermB 2 3; E S_TermB 3 1; E S_TermB 2 2;
    E S_TermB 4 5; E S_TermB 2 3; E S_TermB 3 4; E S_TermB 2 2; E S_TermB 7 10; E S_TermB 2 3;
    E S_TermB 3 1; E S_TermB 2 2; E S_TermB 4 6; E S_TermB 2 3; E S_TermB 3 4; E S_TermB 2 2;
    E S_TermB 5 7; E S_TermB 2 3; E S_TermB 3 1; E S_TermB 2 2; E S_TermB 4 5; E S_TermB 2 3;
    E S_TermB 3 4; E S_TermB 2 2; E S_TermB 8 13; E S_TermB 2 3; E S_TermB 3 1; E S_TermB 2 2;
    E S_TermB 4 6; E S_TermB 2 3; E S_TermB 3 4; E S_TermB 2 2; E S_TermB 6 8; E S_TermB 2 3;
    E S_TermB 3 1; E S_TermB 2 2; E S_TermB 4 5; E S_TermB 2 3; E S_TermB 3 4; E S_TermB 2 2;
    E S_TermB 9 15; E S_TermB 2 3; E S_TermB 3 1; E S_TermB 2 2; E S_TermB 4 6; E S_TermB 2 3;
    E S_TermB 3 4; E S_TermB 2 2; E S_TermB 5 7; E S_TermB 2 3; E S_TermB 3 1; E S_TermB 2 2;
    E S_TermB 4 5; E S_TermB 2 3; E S_TermB 3 4; E S_TermB 2 2; E S_TermB 12 52; E S_TermB 2 3;
    E S_TermB 3 1; E S_TermB 2 2; E S_TermB 4 6; E S_TermB 2 3; E S_TermB 3 4; E S_TermB 2 2;
    E S_TermB 6 9; E S_TermB 2 3; E S_TermB 3 1; E S_TermB 2 2; E S_TermB 4 5; E S_TermB 2 3;
    E S_TermB 3 4; E S_TermB 2 2; E S_TermB 7 11; E S_TermB 2 3; E S_TermB 3 1; E S_TermB 2 2;
    E S_TermB 4 6; E S_TermB 2 3; E S_TermB 3 4; E S_TermB 2 2; E S_TermB 5 7; E S_TermB 2 3;
    E S_TermB 3 1; E S_TermB 2 2; E S_TermB 4 5; E S_TermB 2 3; E S_TermB 3 4; E S_TermB 2 2;
    E S_TermB 12 48; E S_TermB 2 3; E S_TermB 3 1; E S_TermB 2 2; E S_TermB 4 6; E S_TermB 2 3;
    E S_TermB 3 4; E S_TermB 2 2; E S_TermB 6 8; E S_TermB 2 3; E S_TermB 3 1; E S_TermB 2 2;
    E S_TermB 4 5; E S_TermB 2 3; E S_TermB 3 4; E S_TermB 2 2; E S_TermB 7 12; E S_TermB 2 3;
    E S_TermB 3 1; E S_TermB 2 2; E S_TermB 4 6; E S_TermB 2 3; E S_TermB 3 4; E S_TermB 2 2;
    E S_TermB 5 7; E S_TermB 2 3; E S_TermB 3 1; E S_TermB 2 2; E S_TermB 4 5; E S_TermB 2 3;
    E S_TermB 3 4; E S_TermB 2 2; E S_MakeUp 12 2112; E S_TermB 2 3; E S_TermB 3 1; E S_TermB 2 2;
    E S_TermB 4 6; E S_TermB 2 3; E S_TermB 3 4; E S_TermB 2 2; E S_TermB 6 9; E S_TermB 2 3;
    E S_TermB 3 1; E S_TermB 2 2; E S_TermB 4 5; E S_TermB 2 3; E S_TermB 3 4; E S_TermB 2 2;
    E S_TermB 7 10; E S_TermB 2 3; E S_TermB 3 1; E S_TermB 2 2; E S_TermB 4 6; E S_TermB 2 3;
    E S_TermB 3 4; E S_TermB 2 2; E S_TermB 5 7; E S_TermB 2 3; E S_TermB 3 1; E S_TermB 2 2;
    E S_TermB 4 5; E S_TermB 2 3; E S_TermB 3 4; E S_TermB 2 2; E S_TermB 12 44; E S_TermB 2 3;
    E S_TermB 3 1; E S_TermB 2 2; E S_TermB 4 6; E S_TermB 2 3; E S_TermB 3 4; E S_TermB 2 2;
    E S_TermB 6 8; E S_TermB 2 3; E S_TermB 3 1; E S_TermB 2 2; E S_TermB 4 5; E S_TermB 2 3;
    E S_TermB 3 4; E S_TermB 2 2; E S_TermB 12 36; E S_TermB 2 3; E S_TermB 3 1; E S_TermB 2 2;
    E S_TermB 4 6; E S_TermB 2 3; E S_TermB 3 4; E S_TermB 2 2; E S_TermB 5 7; E S_TermB 2 3;
    E S_TermB 3 1; E S_TermB 2 2; E S_TermB 4 5; E S_TermB 2 3; E S_TermB 3 4; E S_TermB 2 2;
    E S_MakeUpB 12 384; E S_TermB 2 3; E S_TermB 3 1; E S_TermB 2 2; E S_TermB 4 6; E S_TermB 2 3;
    E S_TermB 3 4; E S_TermB 2 2; E S_TermB 6 9; E S_TermB 2 3; E S_TermB 3 1; E S_TermB 2 2;
    E S_TermB 4 5; E S_TermB 2 3; E S_TermB 3 4; E S_TermB 2 2; E S_TermB 7 11; E S_TermB 2 3;
    E S_TermB 3 1; E S_TermB 2 2; E S_TermB 4 6; E S_TermB 2 3; E S_TermB 3 4; E S_TermB 2 2;
    E S_TermB 5 7; E S_TermB 2 3; E S_TermB 3 1; E S_TermB 2 2; E S_TermB 4 5; E S_TermB 2 3;
    E S_TermB 3 4; E S_TermB 2 2; E S_TermB 8 14; E S_TermB 2 3; E S_TermB 3 1; E S_TermB 2 2;
    E S_TermB 4 6; E S_TermB 2 3; E S_TermB 3 4; E S_TermB 2 2; E S_TermB 6 8; E S_TermB 2 3;
    E S_TermB 3 1; E S_TermB 2 2; E S_TermB 4 5; E S_TermB 2 3; E S_TermB 3 4; E S_TermB 2 2;
    E S_TermB 7 12; E S_TermB 2 3; E S_TermB 3 1; E S_TermB 2 2; E S_TermB 4 6; E S_TermB 2 3;
    E S_TermB 3 4; E S_TermB 2 2; E S_TermB 5 7; E S_TermB 2 3; E S_TermB 3 1; E S_TermB 2 2;
    E S_TermB 4 5; E S_TermB 2 3; E S_TermB 3 4; E S_TermB 2 2; E S_Null 1 0; E S_TermB 2 3;
    E S_TermB 3 1; E S_TermB 2 2; E S_TermB 4 6; E S_TermB 2 3; E S_TermB 3 4; E S_TermB 2 2;
    E S_TermB 6 9; E S_TermB 2 3; E S_TermB 3 1; E S_TermB 2 2; E S_TermB 4 5; E S_TermB 2 3;
    E S_TermB 3 4; E S_TermB 2 2; E S_TermB 7 10; E S_TermB 2 3; E S_TermB 3 1; E S_TermB 2 2;
    E S_TermB 4 6; E S_TermB 2 3; E S_TermB 3 4; E S_TermB 2 2; E S_TermB 5 7; E S_TermB 2 3;
    E S_TermB 3 1; E S_TermB 2 2; E S_TermB 4 5; E S_TermB 2 3; E S_TermB 3 4; E S_TermB 2 2;
    E S_TermB 8 13; E S_TermB 2 3; E S_TermB 3 1; E S_TermB 2 2; E S_TermB 4 6; E S_TermB 2 3;
    E S_TermB 3 4; E S_TermB 2 2; E S_TermB 6 8; E S_TermB 2 3; E S_TermB 3 1; E S_TermB 2 2;
    E S_TermB 4 5; E S_TermB 2 3; E S_TermB 3 4; E S_TermB 2 2; E S_TermB 12 28; E S_TermB 2 3;
    E S_TermB 3 1; E S_TermB 2 2; E S_TermB 4 6; E S_TermB 2 3; E S_TermB 3 4; E S_TermB 2 2;
    E S_TermB 5 7; E S_TermB 2 3; E S_TermB 3 1; E S_TermB 2 2; E S_TermB 4 5; E S_TermB 2 3;
    E S_TermB 3 4; E S_TermB 2 2; E S_TermB 12 60; E S_TermB 2 3; E S_TermB 3 1; E S_TermB 2 2;
    E S_TermB 4 6; E S_TermB 2 3; E S_TermB 3 4; E S_TermB 2 2; E S_TermB 6 9; E S_TermB 2 3;
    E S_TermB 3 1; E S_TermB 2 2; E S_TermB 4 5; E S_TermB 2 3; E S_TermB 3 4; E S_TermB 2 2;
    E S_TermB 7 11; E S_TermB 2 3; E S_TermB 3 1; E S_TermB 2 2; E S_TermB 4 6; E S_TermB 2 3;
    E S_TermB 3 4; E S_TermB 2 2; E S_TermB 5 7; E S_TermB 2 3; E S_TermB 3 1; E S_TermB 2 2;
    E S_TermB 4 5; E S_TermB 2 3; E S_TermB 3 4; E S_TermB 2 2; E S_TermB 12 40; E S_TermB 2 3;
    E S_TermB 3 1; E S_TermB 2 2; E S_TermB 4 6; E S_TermB 2 3; E S_TermB 3 4; E S_TermB 2 2;
    E S_TermB 6 8; E S_TermB 2 3; E S_TermB 3 1; E S_TermB 2 2; E S_TermB 4 5; E S_TermB 2 3;
    E S_TermB 3 4; E S_TermB 2 2; E S_TermB 7 12; E S_TermB 2 3; E S_TermB 3 1; E S_TermB 2 2;
    E S_TermB 4 6; E S_TermB 2 3; E S_TermB 3 4; E S_TermB 2 2; E S_TermB 5 7; E S_TermB 2 3;
    E S_TermB 3 1; E S_TermB 2 2; E S_TermB 4 5; E S_TermB 2 3; E S_TermB 3 4; E S_TermB 2 2;
    E S_MakeUp 12 2368; E S_TermB 2 3; E S_TermB 3 1; E S_TermB 2 2; E S_TermB 4 6; E S_TermB 2 3;
    E S_TermB 3 4; E S_TermB 2 2; E S_TermB 6 9; E S_TermB 2 3; E S_TermB 3 1; E S_TermB 2 2;
    E S_TermB 4 5; E S_TermB 2 3; E S_TermB 3 4; E S_TermB 2 2; E S_TermB 7 10; E S_TermB 2 3;
    E S_TermB 3 1; E S_TermB 2 2; E S_TermB 4 6; E S_TermB 2 3; E S_TermB 3 4; E S_TermB 2 2;
    E S_TermB 5 7; E S_TermB 2 3; E S_TermB 3 1; E S_TermB 2 2; E S_TermB 4 5; E S_TermB 2 3;
    E S_TermB 3 4; E S_TermB 2 2; E S_TermB 10 16; E S_TermB 2 3; E S_TermB 3 1; E S_TermB 2 2;
    E S_TermB 4 6; E S_TermB 2 3; E S_TermB 3 4; E S_TermB 2 2; E S_TermB 6 8; E S_TermB 2 3;
    E S_TermB 3 1; E S_TermB 2 2; E S_TermB 4 5; E S_TermB 2 3; E S_TermB 3 4; E S_TermB 2 2;
    E S_TermB 10 0; E S_TermB 2 3; E S_TermB 3 1; E S_TermB 2 2; E S_TermB 4 6; E S_TermB 2 3;
    E S_TermB 3 4; E S_TermB 2 2; E S_TermB 5 7; E S_TermB 2 3; E S_TermB 3 1; E S_TermB 2 2;
    E S_TermB 4 5; E S_TermB 2 3; E S_TermB 3 4; E S_TermB 2 2; E S_MakeUpB 10 64; E S_TermB 2 3;
    E S_TermB 3 1; E S_TermB 2 2; E S_TermB 4 6; E S_TermB 2 3; E S_TermB 3 4; E S_TermB 2 2;
    E S_TermB 6 9; E S_TermB 2 3; E S_TermB 3 1; E S_TermB 2 2; E S_TermB 4 5; E S_TermB 2 3;
    E S_TermB 3 4; E S_TermB 2 2; E S_TermB 7 11; E S_TermB 2 3; E S_TermB 3 1; E S_TermB 2 2;
    E S_TermB 4 6; E S_TermB 2 3; E S_TermB 3 4; E S_TermB 2 2; E S_TermB 5 7; E S_TermB 2 3;
    E S_TermB 3 1; E S_TermB 2 2; E S_TermB 4 5; E S_TermB 2 3; E S_TermB 3 4; E S_TermB 2 2;
    E S_TermB 8 14; E S_TermB 2 3; E S_TermB 3 1; E S_TermB 2 2; E S_TermB 4 6; E S_TermB 2 3;
    E S_TermB 3 4; E S_TermB 2 2; E S_TermB 6 8; E S_TermB 2 3; E S_TermB 3 1; E S_TermB 2 2;
    E S_TermB 4 5; E S_TermB 2 3; E S_TermB 3 4; E S_TermB 2 2; E S_TermB 7 12; E S_TermB 2 3;
    E S_TermB 3 1; E S_TermB 2 2; E S_TermB 4 6; E S_TermB 2 3; E S_TermB 3 4; E S_TermB 2 2;
    E S_TermB 5 7; E S_TermB 2 3; E S_TermB 3 1; E S_TermB 2 2; E S_TermB 4 5; E S_TermB 2 3;
    E S_TermB 3 4; E S_TermB 2 2; E S_Null 1 0; E S_TermB 2 3; E S_TermB 3 1; E S_TermB 2 2;
    E S_TermB 4 6; E S_TermB 2 3; E S_TermB 3 4; E S_TermB 2 2; E S_TermB 6 9; E S_TermB 2 3;
    E S_TermB 3 1; E S_TermB 2 2; E S_TermB 4 5; E S_TermB 2 3; E S_TermB 3 4; E S_TermB 2 2;
    E S_TermB 7 10; E S_TermB 2 3; E S_TermB 3 1; E S_TermB 2 2; E S_TermB 4 6; E S_TermB 2 3;
    E S_TermB 3 4; E S_TermB 2 2; E S_TermB 5 7; E S_TermB 2 3; E S_TermB 3 1; E S_TermB 2 2;
    E S_TermB 4 5; E S_TermB 2 3; E S_TermB 3 4; E S_TermB 2 2; E S_TermB 8 13; E S_TermB 2 3;
    E S_TermB 3 1; E S_TermB 2 2; E S_TermB 4 6; E S_TermB 2 3; E S_TermB 3 4; E S_TermB 2 2;
    E S_TermB 6 8; E S_TermB 2 3; E S_TermB 3 1; E S_TermB 2 2; E S_TermB 4 5; E S_TermB 2 3;
    E S_TermB 3 4; E S_TermB 2 2; E S_TermB 9 15; E S_TermB 2 3; E S_TermB 3 1; E S_TermB 2 2;
    E S_TermB 4 6; E S_TermB 2 3; E S_TermB 3 4; E S_TermB 2 2; E S_TermB 5 7; E S_TermB 2 3;
    E S_TermB 3 1; E S_TermB 2 2; E S_TermB 4 5; E S_TermB 2 3; E S_TermB 3 4; E S_TermB 2 2;
    E S_TermB 10 18; E S_TermB 2 3; E S_TermB 3 1; E S_TermB 2 2; E S_TermB 4 6; E S_TermB 2 3;
    E S_TermB 3 4; E S_TermB 2 2; E S_TermB 6 9; E S_TermB 2 3; E S_TermB 3 1; E S_TermB 2 2;
    E S_TermB 4 5; E S_TermB 2 3; E S_TermB 3 4; E S_TermB 2 2; E S_TermB 7 11; E S_TermB 2 3;
    E S_TermB 3 1; E S_TermB 2 2; E S_TermB 4 6; E S_TermB 2 3; E S_TermB 3 4; E S_TermB 2 2;
    E S_TermB 5 7; E S_TermB 2 3; E S_TermB 3 1; E S_TermB 2 2; E S_TermB 4 5; E S_TermB 2 3;
    E S_TermB 3 4; E S_TermB 2 2; E S_TermB 10 17; E S_TermB 2 3; E S_TermB 3 1; E S_TermB 2 2;
    E S_TermB 4 6; E S_TermB 2 3; E S_TermB 3 4; E S_TermB 2 2; E S_TermB 6 8; E S_TermB 2 3;
    E S_TermB 3 1; E S_TermB 2 2; E S_TermB 4 5; E S_TermB 2 3; E S_TermB 3 4; E S_TermB 2 2;
    E S_TermB 7 12; E S_TermB 2 3; E S_TermB 3 1; E S_TermB 2 2; E S_TermB 4 6; E S_TermB 2 3;
    E S_TermB 3 4; E S_TermB 2 2; E S_TermB 5 7; E S_TermB 2 3; E S_TermB 3 1; E S_TermB 2 2;
    E S_TermB 4 5; E S_TermB 2 3; E S_TermB 3 4; E S_TermB 2 2; E S_MakeUp 12 1984; E S_TermB 2 3;
    E S_TermB 3 1; E S_TermB 2 2; E S_TermB 4 6; E S_TermB 2 3; E S_TermB 3 4; E S_TermB 2 2;
    E S_TermB 6 9; E S_TermB 2 3; E S_TermB 3 1; E S_TermB 2 2; E S_TermB 4 5; E S_TermB 2 3;
    E S_TermB 3 4; E S_TermB 2 2; E S_TermB 7 10; E S_TermB 2 3; E S_TermB 3 1; E S_TermB 2 2;
    E S_TermB 4 6; E S_TermB 2 3; E S_TermB 3 4; E S_TermB 2 2; E S_TermB 5 7; E S_TermB 2 3;
    E S_TermB 3 1; E S_TermB 2 2; E S_TermB 4 5; E S_TermB 2 3; E S_TermB 3 4; E S_TermB 2 2;
    E S_TermB 12 50; E S_TermB 2 3; E S_TermB 3 1; E S_TermB 2 2; E S_TermB 4 6; E S_TermB 2 3;
    E S_TermB 3 4; E S_TermB 2 2; E S_TermB 6 8; E S_TermB 2 3; E S_TermB 3 1; E S_TermB 2 2;
    E S_TermB 4 5; E S_TermB 2 3; E S_TermB 3 4; E S_TermB 2 2; E S_TermB 12 34; E S_TermB 2 3;
    E S_TermB 3 1; E S_TermB 2 2; E S_TermB 4 6; E S_TermB 2 3; E S_TermB 3 4; E S_TermB 2 2;
    E S_TermB 5 7; E S_TermB 2 3; E S_TermB 3 1; E S_TermB 2 2; E S_TermB 4 5; E S_TermB 2 3;
    E S_TermB 3 4; E S_TermB 2 2; E S_MakeUpB 13 1728; E S_TermB 2 3; E S_TermB 3 1; E S_TermB 2 2;
    E S_TermB 4 6; E S_TermB 2 3; E S_TermB 3 4; E S_TermB 2 2; E S_TermB 6 9; E S_TermB 2 3;
    E S_TermB 3 1; E S_TermB 2 2; E S_TermB 4 5; E S_TermB 2 3; E S_TermB 3 4; E S_TermB 2 2;
    E S_TermB 7 11; E S_TermB 2 3; E S_TermB 3 1; E S_TermB 2 2; E S_TermB 4 6; E S_TermB 2 3;
    E S_TermB 3 4; E S_TermB 2 2; E S_TermB 5 7; E S_TermB 2 3; E S_TermB 3 1; E S_TermB 2 2;
    E S_TermB 4 5; E S_TermB 2 3; E S_TermB 3 4; E S_TermB 2 2; E S_TermB 8 14; E S_TermB 2 3;
    E S_TermB 3 1; E S_TermB 2 2; E S_TermB 4 6; E S_TermB 2 3; E S_TermB 3 4; E S_TermB 2 2;
    E S_TermB 6 8; E S_TermB 2 3; E S_TermB 3 1; E S_TermB 2 2; E S_TermB 4 5; E S_TermB 2 3;
    E S_TermB 3 4; E S_TermB 2 2; E S_TermB 7 12; E S_TermB 2 3; E S_TermB 3 1; E S_TermB 2 2;
    E S_TermB 4 6; E S_TermB 2 3; E S_TermB 3 4; E S_TermB 2 2; E S_TermB 5 7; E S_TermB 2 3;
    E S_TermB 3 1; E S_TermB 2 2; E S_TermB 4 5; E S_TermB 2 3; E S_TermB 3 4; E S_TermB 2 2;
    E S_Null 1 0; E S_TermB 2 3; E S_TermB 3 1; E S_TermB 2 2; E S_TermB 4 6; E S_TermB 2 3;
    E S_TermB 3 4; E S_TermB 2 2; E S_TermB 6 9; E S_TermB 2 3; E S_TermB 3 1; E S_TermB 2 2;
    E S_TermB 4 5; E S_TermB 2 3; E S_TermB 3 4; E S_TermB 2 2; E S_TermB 7 10; E S_TermB 2 3;
    E S_TermB 3 1; E S_TermB 2 2; E S_TermB 4 6; E S_TermB 2 3; E S_TermB 3 4; E S_TermB 2 2;
    E S_TermB 5 7; E S_TermB 2 3; E S_TermB 3 1; E S_TermB 2 2; E S_TermB 4 5; E S_TermB 2 3;
    E S_TermB 3 4; E S_TermB 2 2; E S_TermB 8 13; E S_TermB 2 3; E S_TermB 3 1; E S_TermB 2 2;
    E S_TermB 4 6; E S_TermB 2 3; E S_TermB 3 4; E S_TermB 2 2; E S_TermB 6 8; E S_TermB 2 3;
    E S_TermB 3 1; E S_TermB 2 2; E S_TermB 4 5; E S_TermB 2 3; E S_TermB 3 4; E S_TermB 2 2;
    E S_TermB 12 26; E S_TermB 2 3; E S_TermB 3 1; E S_TermB 2 2; E S_TermB 4 6; E S_TermB 2 3;
    E S_TermB 3 4; E S_TermB 2 2; E S_TermB 5 7; E S_TermB 2 3; E S_TermB 3 1; E S_TermB 2 2;
    E S_TermB 4 5; E S_TermB 2 3; E S_TermB 3 4; E S_TermB 2 2; E S_MakeUpB 13 1472; E S_TermB 2 3;
    E S_TermB 3 1; E S_TermB 2 2; E S_TermB 4 6; E S_TermB 2 3; E S_TermB 3 4; E S_TermB 2 2;
    E S_TermB 6 9; E S_TermB 2 3; E S_TermB 3 1; E S_TermB 2 2; E S_TermB 4 5; E S_TermB 2 3;
    E S_TermB 3 4; E S_TermB 2 2; E S_TermB 7 11; E S_TermB 2 3; E S_TermB 3 1; E S_TermB 2 2;
    E S_TermB 4 6; E S_TermB 2 3; E S_TermB 3 4; E S_TermB 2 2; E S_TermB 5 7; E S_TermB 2 3;
    E S_TermB 3 1; E S_TermB 2 2; E S_TermB 4 5; E S_TermB 2 3; E S_TermB 3 4; E S_TermB 2 2;
    E S_TermB 12 32; E S_TermB 2 3; E S_TermB 3 1; E S_TermB 2 2; E S_TermB 4 6; E S_TermB 2 3;
    E S_TermB 3 4; E S_TermB 2 2; E S_TermB 6 8; E S_TermB 2 3; E S_TermB 3 1; E S_TermB 2 2;
    E S_TermB 4 5; E S_TermB 2 3; E S_TermB 3 4; E S_TermB 2 2; E S_TermB 7 12; E S_TermB 2 3;
    E S_TermB 3 1; E S_TermB 2 2; E S_TermB 4 6; E S_TermB 2 3; E S_TermB 3 4; E S_TermB 2 2;
    E S_TermB 5 7; E S_TermB 2 3; E S_TermB 3 1; E S_TermB 2 2; E S_TermB 4 5; E S_TermB 2 3;
    E S_TermB 3 4; E S_TermB 2 2; E S_MakeUp 11 1920; E S_TermB 2 3; E S_TermB 3 1; E S_TermB 2 2;
    E S_TermB 4 6; E S_TermB 2 3; E S_TermB 3 4; E S_TermB 2 2; E S_TermB 6 9; E S_TermB 2 3;
    E S_TermB 3 1; E S_TermB 2 2; E S_TermB 4 5; E S_TermB 2 3; E S_TermB 3 4; E S_TermB 2 2;
    E S_TermB 7 10; E S_TermB 2 3; E S_TermB 3 1; E S_TermB 2 2; E S_TermB 4 6; E S_TermB 2 3;
    E S_TermB 3 4; E S_TermB 2 2; E S_TermB 5 7; E S_TermB 2 3; E S_TermB 3 1; E S_TermB 2 2;
    E S_TermB 4 5; E S_TermB 2 3; E S_TermB 3 4; E S_TermB 2 2; E S_TermB 12 61; E S_TermB 2 3;
    E S_TermB 3 1; E S_TermB 2 2; E S_TermB 4 6; E S_TermB 2 3; E S_TermB 3 4; E S_TermB 2 2;
    E S_TermB 6 8; E S_TermB 2 3; E S_TermB 3 1; E S_TermB 2 2; E S_TermB 4 5; E S_TermB 2 3;
    E S_TermB 3 4; E S_TermB 2 2; E S_TermB 12 42; E S_TermB 2 3; E S_TermB 3 1; E S_TermB 2 2;
    E S_TermB 4 6; E S_TermB 2 3; E S_TermB 3 4; E S_TermB 2 2; E S_TermB 5 7; E S_TermB 2 3;
    E S_TermB 3 1; E S_TermB 2 2; E S_TermB 4 5; E S_TermB 2 3; E S_TermB 3 4; E S_TermB 2 2;
    E S_MakeUpB 13 1088; E S_TermB 2 3; E S_TermB 3 1; E S_TermB 2 2; E S_TermB 4 6; E S_TermB 2 3;
    E S_TermB 3 4; E S_TermB 2 2; E S_TermB 6 9; E S_TermB 2 3; E S_TermB 3 1; E S_TermB 2 2;
    E S_TermB 4 5; E S_TermB 2 3; E S_TermB 3 4; E S_TermB 2 2; E S_TermB 7 11; E S_TermB 2 3;
    E S_TermB 3 1; E S_TermB 2 2; E S_TermB 4 6; E S_TermB 2 3; E S_TermB 3 4; E S_TermB 2 2;
    E S_TermB 5 7; E S_TermB 2 3; E S_TermB 3 1; E S_TermB 2 2; E S_TermB 4 5; E S_TermB 2 3;
    E S_TermB 3 4; E S_TermB 2 2; E S_TermB 8 14; E S_TermB 2 3; E S_TermB 3 1; E S_TermB 2 2;
    E S_TermB 4 6; E S_TermB 2 3; E S_TermB 3 4; E S_TermB 2 2; E S_TermB 6 8; E S_TermB 2 3;
    E S_TermB 3 1; E S_TermB 2 2; E S_TermB 4 5; E S_TermB 2 3; E S_TermB 3 4; E S_TermB 2 2;
    E S_TermB 7 12; E S_TermB 2 3; E S_TermB 3 1; E S_TermB 2 2; E S_TermB 4 6; E S_TermB 2 3;
    E S_TermB 3 4; E S_TermB 2 2; E S_TermB 5 7; E S_TermB 2 3; E S_TermB 3 1; E S_TermB 2 2;
    E S_TermB 4 5; E S_TermB 2 3; E S_TermB 3 4; E S_TermB 2 2; E S_Null 1 0; E S_TermB 2 3;
    E S_TermB 3 1; E S_TermB 2 2; E S_TermB 4 6; E S_TermB 2 3; E S_TermB 3 4; E S_TermB 2 2;
    E S_TermB 6 9; E S_TermB 2 3; E S_TermB 3 1; E S_TermB 2 2; E S_TermB 4 5; E S_TermB 2 3;
    E S_TermB 3 4; E S_TermB 2 2; E S_TermB 7 10; E S_TermB 2 3; E S_TermB 3 1; E S_TermB 2 2;
    E S_TermB 4 6; E S_TermB 2 3; E S_TermB 3 4; E S_TermB 2 2; E S_TermB 5 7; E S_TermB 2 3;
    E S_TermB 3 1; E S_TermB 2 2; E S_TermB 4 5; E S_TermB 2 3; E S_TermB 3 4; E S_TermB 2 2;
    E S_TermB 8 13; E S_TermB 2 3; E S_TermB 3 1; E S_TermB 2 2; E S_TermB 4 6; E S_TermB 2 3;
    E S_TermB 3 4; E S_TermB 2 2; E S_TermB 6 8; E S_TermB 2 3; E S_TermB 3 1; E S_TermB 2 2;
    E S_TermB 4 5; E S_TermB 2 3; E S_TermB 3 4; E S_TermB 2 2; E S_TermB 9 15; E S_TermB 2 3;
    E S_TermB 3 1; E S_TermB 2 2; E S_TermB 4 6; E S_TermB 2 3; E S_TermB 3 4; E S_TermB 2 2;
    E S_TermB 5 7; E S_TermB 2 3; E S_TermB 3 1; E S_TermB 2 2; E S_TermB 4 5; E S_TermB 2 3;
    E S_TermB 3 4; E S_TermB 2 2; E S_MakeUpB 13 832; E S_TermB 2 3; E S_TermB 3 1; E S_TermB 2 2;
    E S_TermB 4 6; E S_TermB 2 3; E S_TermB 3 4; E S_TermB 2 2; E S_TermB 6 9; E S_TermB 2 3;
    E S_TermB 3 1; E S_TermB 2 2; E S_TermB 4 5; E S_TermB 2 3; E S_TermB 3 4; E S_TermB 2 2;
    E S_TermB 7 11; E S_TermB 2 3; E S_TermB 3 1; E S_TermB 2 2; E S_TermB 4 6; E S_TermB 2 3;
    E S_TermB 3 4; E S_TermB 2 2; E S_TermB 5 7; E S_TermB 2 3; E S_TermB 3 1; E S_TermB 2 2;
    E S_TermB 4 5; E S_TermB 2 3; E S_TermB 3 4; E S_TermB 2 2; E S_TermB 12 62; E S_TermB 2 3;
    E S_TermB 3 1; E S_TermB 2 2; E S_TermB 4 6; E S_TermB 2 3; E S_TermB 3 4; E S_TermB 2 2;
    E S_TermB 6 8; E S_TermB 2 3; E S_TermB 3 1; E S_TermB 2 2; E S_TermB 4 5; E S_TermB 2 3;
    E S_TermB 3 4; E S_TermB 2 2; E S_TermB 7 12; E S_TermB 2 3; E S_TermB 3 1; E S_TermB 2 2;
    E S_TermB 4 6; E S_TermB 2 3; E S_TermB 3 4; E S_TermB 2 2; E S_TermB 5 7; E S_TermB 2 3;
    E S_TermB 3 1; E S_TermB 2 2; E S_TermB 4 5; E S_TermB 2 3; E S_TermB 3 4; E S_TermB 2 2;
    E S_MakeUp 12 2240; E S_TermB 2 3; E S_TermB 3 1; E S_TermB 2 2; E S_TermB 4 6; E S_TermB 2 3;
    E S_TermB 3 4; E S_TermB 2 2; E S_TermB 6 9; E S_TermB 2 3; E S_TermB 3 1; E S_TermB 2 2;
    E S_TermB 4 5; E S_TermB 2 3; E S_TermB 3 4; E S_TermB 2 2; E S_TermB 7 10; E S_TermB 2 3;
    E S_TermB 3 1; E S_TermB 2 2; E S_TermB 4 6; E S_TermB 2 3; E S_TermB 3 4; E S_TermB 2 2;
    E S_TermB 5 7; E S_TermB 2 3; E S_TermB 3 1; E S_TermB 2 2; E S_TermB 4 5; E S_TermB 2 3;
    E S_TermB 3 4; E S_TermB 2 2; E S_TermB 12 46; E S_TermB 2 3; E S_TermB 3 1; E S_TermB 2 2;
    E S_TermB 4 6; E S_TermB 2 3; E S_TermB 3 4; E S_TermB 2 2; E S_TermB 6 8; E S_TermB 2 3;
    E S_TermB 3 1; E S_TermB 2 2; E S_TermB 4 5; E S_TermB 2 3; E S_TermB 3 4; E S_TermB 2 2;
    E S_TermB 12 38; E S_TermB 2 3; E S_TermB 3 1; E S_TermB 2 2; E S_TermB 4 6; E S_TermB 2 3;
    E S_TermB 3 4; E S_TermB 2 2; E S_TermB 5 7; E S_TermB 2 3; E S_TermB 3 1; E S_TermB 2 2;
    E S_TermB 4 5; E S_TermB 2 3; E S_TermB 3 4; E S_TermB 2 2; E S_MakeUpB 13 576; E S_TermB 2 3;
    E S_TermB 3 1; E S_TermB 2 2; E S_TermB 4 6; E S_TermB 2 3; E S_TermB 3 4; E S_TermB 2 2;
    E S_TermB 6 9; E S_TermB 2 3; E S_TermB 3 1; E S_TermB 2 2; E S_TermB 4 5; E S_TermB 2 3;
    E S_TermB 3 4; E S_TermB 2 2; E S_TermB 7 11; E S_TermB 2 3; E S_TermB 3 1; E S_TermB 2 2;
    E S_TermB 4 6; E S_TermB 2 3; E S_TermB 3 4; E S_TermB 2 2; E S_TermB 5 7; E S_TermB 2 3;
    E S_TermB 3 1; E S_TermB 2 2; E S_TermB 4 5; E S_TermB 2 3; E S_TermB 3 4; E S_TermB 2 2;
    E S_TermB 8 14; E S_TermB 2 3; E S_TermB 3 1; E S_TermB 2 2; E S_TermB 4 6; E S_TermB 2 3;
    E S_TermB 3 4; E S_TermB 2 2; E S_TermB 6 8; E S_TermB 2 3; E S_TermB 3 1; E S_TermB 2 2;
    E S_TermB 4 5; E S_TermB 2 3; E S_TermB 3 4; E S_TermB 2 2; E S_TermB 7 12; E S_TermB 2 3;
    E S_TermB 3 1; E S_TermB 2 2; E S_TermB 4 6; E S_TermB 2 3; E S_TermB 3 4; E S_TermB 2 2;
    E S_TermB 5 7; E S_TermB 2 3; E S_TermB 3 1; E S_TermB 2 2; E S_TermB 4 5; E S_TermB 2 3;
    E S_TermB 3 4; E S_TermB 2 2; E S_Null 1 0; E S_TermB 2 3; E S_TermB 3 1; E S_TermB 2 2;
    E S_TermB 4 6; E S_TermB 2 3; E S_TermB 3 4; E S_TermB 2 2; E S_TermB 6 9; E S_TermB 2 3;
    E S_TermB 3 1; E S_TermB 2 2; E S_TermB 4 5; E S_TermB 2 3; E S_TermB 3 4; E S_TermB 2 2;
    E S_TermB 7 10; E S_TermB 2 3; E S_TermB 3 1; E S_TermB 2 2; E S_TermB 4 6; E S_TermB 2 3;
    E S_TermB 3 4; E S_TermB 2 2; E S_TermB 5 7; E S_TermB 2 3; E S_TermB 3 1; E S_TermB 2 2;
    E S_TermB 4 5; E S_TermB 2 3; E S_TermB 3 4; E S_TermB 2 2; E S_TermB 8 13; E S_TermB 2 3;
    E S_TermB 3 1; E S_TermB 2 2; E S_TermB 4 6; E S_TermB 2 3; E S_TermB 3 4; E S_TermB 2 2;
    E S_TermB 6 8; E S_TermB 2 3; E S_TermB 3 1; E S_TermB 2 2; E S_TermB 4 5; E S_TermB 2 3;
    E S_TermB 3 4; E S_TermB 2 2; E S_TermB 11 19; E S_TermB 2 3; E S_TermB 3 1; E S_TermB 2 2;
    E S_TermB 4 6; E S_TermB 2 3; E S_TermB 3 4; E S_TermB 2 2; E S_TermB 5 7; E S_TermB 2 3;
    E S_TermB 3 1; E S_TermB 2 2; E S_TermB 4 5; E S_TermB 2 3; E S_TermB 3 4; E S_TermB 2 2;
    E S_TermB 11 24; E S_TermB 2 3; E S_TermB 3 1; E S_TermB 2 2; E S_TermB 4 6; E S_TermB 2 3;
    E S_TermB 3 4; E S_TermB 2 2; E S_TermB 6 9; E S_TermB 2 3; E S_TermB 3 1; E S_TermB 2 2;
    E S_TermB 4 5; E S_TermB 2 3; E S_TermB 3 4; E S_TermB 2 2; E S_TermB 7 11; E S_TermB 2 3;
    E S_TermB 3 1; E S_TermB 2 2; E S_TermB 4 6; E S_TermB 2 3; E S_TermB 3 4; E S_TermB 2 2;
    E S_TermB 5 7; E S_TermB 2 3; E S_TermB 3 1; E S_TermB 2 2; E S_TermB 4 5; E S_TermB 2 3;
    E S_TermB 3 4; E S_TermB 2 2; E S_TermB 11 22; E S_TermB 2 3; E S_TermB 3 1; E S_TermB 2 2;
    E S_TermB 4 6; E S_TermB 2 3; E S_TermB 3 4; E S_TermB 2 2; E S_TermB 6 8; E S_TermB 2 3;
    E S_TermB 3 1; E S_TermB 2 2; E S_TermB 4 5; E S_TermB 2 3; E S_TermB 3 4; E S_TermB 2 2;
    E S_TermB 7 12; E S_TermB 2 3; E S_TermB 3 1; E S_TermB 2 2; E S_TermB 4 6; E S_TermB 2 3;
    E S_TermB 3 4; E S_TermB 2 2; E S_TermB 5 7; E S_TermB 2 3; E S_TermB 3 1; E S_TermB 2 2;
    E S_TermB 4 5; E S_TermB 2 3; E S_TermB 3 4; E S_TermB 2 2; E S_MakeUp 12 2496; E S_TermB 2 3;
    E S_TermB 3 1; E S_TermB 2 2; E S_TermB 4 6; E S_TermB 2 3; E S_TermB 3 4; E S_TermB 2 2;
    E S_TermB 6 9; E S_TermB 2 3; E S_TermB 3 1; E S_TermB 2 2; E S_TermB 4 5; E S_TermB 2 3;
    E S_TermB 3 4; E S_TermB 2 2; E S_TermB 7 10; E S_TermB 2 3; E S_TermB 3 1; E S_TermB 2 2;
    E S_TermB 4 6; E S_TermB 2 3; E S_TermB 3 4; E S_TermB 2 2; E S_TermB 5 7; E S_TermB 2 3;
    E S_TermB 3 1; E S_TermB 2 2; E S_TermB 4 5; E S_TermB 2 3; E S_TermB 3 4; E S_TermB 2 2;
    E S_TermB 10 16; E S_TermB 2 3; E S_TermB 3 1; E S_TermB 2 2; E S_TermB 4 6; E S_TermB 2 3;
    E S_TermB 3 4; E S_TermB 2 2; E S_TermB 6 8; E S_TermB 2 3; E S_TermB 3 1; E S_TermB 2 2;
    E S_TermB 4 5; E S_TermB 2 3; E S_TermB 3 4; E S_TermB 2 2; E S_TermB 10 0; E S_TermB 2 3;
    E S_TermB 3 1; E S_TermB 2 2; E S_TermB 4 6; E S_TermB 2 3; E S_TermB 3 4; E S_TermB 2 2;
    E S_TermB 5 7; E S_TermB 2 3; E S_TermB 3 1; E S_TermB 2 2; E S_TermB 4 5; E S_TermB 2 3;
    E S_TermB 3 4; E S_TermB 2 2; E S_MakeUpB 10 64; E S_TermB 2 3; E S_TermB 3 1; E S_TermB 2 2;
    E S_TermB 4 6; E S_TermB 2 3; E S_TermB 3 4; E S_TermB 2 2; E S_TermB 6 9; E S_TermB 2 3;
    E S_TermB 3 1; E S_TermB 2 2; E S_TermB 4 5; E S_TermB 2 3; E S_TermB 3 4; E S_TermB 2 2;
    E S_TermB 7 11; E S_TermB 2 3; E S_TermB 3 1; E S_TermB 2 2; E S_TermB 4 6; E S_TermB 2 3;
    E S_TermB 3 4; E S_TermB 2 2; E S_TermB 5 7; E S_TermB 2 3; E S_TermB 3 1; E S_TermB 2 2;
    E S_TermB 4 5; E S_TermB 2 3; E S_TermB 3 4; E S_TermB 2 2; E S_TermB 8 14; E S_TermB 2 3;
    E S_TermB 3 1; E S_TermB 2 2; E S_TermB 4 6; E S_TermB 2 3; E S_TermB 3 4; E S_TermB 2 2;
    E S_TermB 6 8; E S_TermB 2 3; E S_TermB 3 1; E S_TermB 2 2; E S_TermB 4 5; E S_TermB 2 3;
    E S_TermB 3 4; E S_TermB 2 2; E S_TermB 7 12; E S_TermB 2 3; E S_TermB 3 1; E S_TermB 2 2;
    E S_TermB 4 6; E S_TermB 2 3; E S_TermB 3 4; E S_TermB 2 2; E S_TermB 5 7; E S_TermB 2 3;
    E S_TermB 3 1; E S_TermB 2 2; E S_TermB 4 5; E S_TermB 2 3; E S_TermB 3 4; E S_TermB 2 2;
    E S_EOL 12 0; E S_TermB 2 3; E S_TermB 3 1; E S_TermB 2 2; E S_TermB 4 6; E S_TermB 2 3;
    E S_TermB 3 4; E S_TermB 2 2; E S_TermB 6 9; E S_TermB 2 3; E S_TermB 3 1; E S_TermB 2 2;
    E S_TermB 4 5; E S_TermB 2 3; E S_TermB 3 4; E S_TermB 2 2; E S_TermB 7 10; E S_TermB 2 3;
    E S_TermB 3 1; E S_TermB 2 2; E S_TermB 4 6; E S_TermB 2 3; E S_TermB 3 4; E S_TermB 2 2;
    E S_TermB 5 7; E S_TermB 2 3; E S_TermB 3 1; E S_TermB 2 2; E S_TermB 4 5; E S_TermB 2 3;
    E S_TermB 3 4; E S_TermB 2 2; E S_TermB 8 13; E S_TermB 2 3; E S_TermB 3 1; E S_TermB 2 2;
    E S_TermB 4 6; E S_TermB 2 3; E S_TermB 3 4; E S_TermB 2 2; E S_TermB 6 8; E S_TermB 2 3;
    E S_TermB 3 1; E S_TermB 2 2; E S_TermB 4 5; E S_TermB 2 3; E S_TermB 3 4; E S_TermB 2 2;
    E S_TermB 9 15; E S_TermB 2 3; E S_TermB 3 1; E S_TermB 2 2; E S_TermB 4 6; E S_TermB 2 3;
    E S_TermB 3 4; E S_TermB 2 2; E S_TermB 5 7; E S_TermB 2 3; E S_TermB 3 1; E S_TermB 2 2;
    E S_TermB 4 5; E S_TermB 2 3; E S_TermB 3 4; E S_TermB 2 2; E S_TermB 10 18; E S_TermB 2 3;
    E S_TermB 3 1; E S_TermB 2 2; E S_TermB 4 6; E S_TermB 2 3; E S_TermB 3 4; E S_TermB 2 2;
    E S_TermB 6 9; E S_TermB 2 3; E S_TermB 3 1; E S_TermB 2 2; E S_TermB 4 5; E S_TermB 2 3;
    E S_TermB 3 4; E S_TermB 2 2; E S_TermB 7 11; E S_TermB 2 3; E S_TermB 3 1; E S_TermB 2 2;
    E S_TermB 4 6; E S_TermB 2 3; E S_TermB 3 4; E S_TermB 2 2; E S_TermB 5 7; E S_TermB 2 3;
    E S_TermB 3 1; E S_TermB 2 2; E S_TermB 4 5; E S_TermB 2 3; E S_TermB 3 4; E S_TermB 2 2;
    E S_TermB 10 17; E S_TermB 2 3; E S_TermB 3 1; E S_TermB 2 2; E S_TermB 4 6; E S_TermB 2 3;
    E S_TermB 3 4; E S_TermB 2 2; E S_TermB 6 8; E S_TermB 2 3; E S_TermB 3 1; E S_TermB 2 2;
    E S_TermB 4 5; E S_TermB 2 3; E S_TermB 3 4; E S_TermB 2 2; E S_TermB 7 12; E S_TermB 2 3;
    E S_TermB 3 1; E S_TermB 2 2; E S_TermB 4 6; E S_TermB 2 3; E S_TermB 3 4; E S_TermB 2 2;
    E S_TermB 5 7; E S_TermB 2 3; E S_TermB 3 1; E S_TermB 2 2; E S_TermB 4 5; E S_TermB 2 3;
    E S_TermB 3 4; E S_TermB 2 2; E S_MakeUp 11 1792; E S_TermB 2 3; E S_TermB 3 1; E S_TermB 2 2;
    E S_TermB 4 6; E S_TermB 2 3; E S_TermB 3 4; E S_TermB 2 2; E S_TermB 6 9; E S_TermB 2 3;
    E S_TermB 3 1; E S_TermB 2 2; E S_TermB 4 5; E S_TermB 2 3; E S_TermB 3 4; E S_TermB 2 2;
    E S_TermB 7 10; E S_TermB 2 3; E S_TermB 3 1; E S_TermB 2 2; E S_TermB 4 6; E S_TermB 2 3;
    E S_TermB 3 4; E S_TermB 2 2; E S_TermB 5 7; E S_TermB 2 3; E S_TermB 3 1; E S_TermB 2 2;
    E S_TermB 4 5; E S_TermB 2 3; E S_TermB 3 4; E S_TermB 2 2; E S_TermB 11 23; E S_TermB 2 3;
    E S_TermB 3 1; E S_TermB 2 2; E S_TermB 4 6; E S_TermB 2 3; E S_TermB 3 4; E S_TermB 2 2;
    E S_TermB 6 8; E S_TermB 2 3; E S_TermB 3 1; E S_TermB 2 2; E S_TermB 4 5; E S_TermB 2 3;
    E S_TermB 3 4; E S_TermB 2 2; E S_TermB 11 20; E S_TermB 2 3; E S_TermB 3 1; E S_TermB 2 2;
    E S_TermB 4 6; E S_TermB 2 3; E S_TermB 3 4; E S_TermB 2 2; E S_TermB 5 7; E S_TermB 2 3;
    E S_TermB 3 1; E S_TermB 2 2; E S_TermB 4 5; E S_TermB 2 3; E S_TermB 3 4; E S_TermB 2 2;
    E S_TermB 11 25; E S_TermB 2 3; E S_TermB 3 1; E S_TermB 2 2; E S_TermB 4 6; E S_TermB 2 3;
    E S_TermB 3 4; E S_TermB 2 2; E S_TermB 6 9; E S_TermB 2 3; E S_TermB 3 1; E S_TermB 2 2;
    E S_TermB 4 5; E S_TermB 2 3; E S_TermB 3 4; E S_TermB 2 2; E S_TermB 7 11; E S_TermB 2 3;
    E S_TermB 3 1; E S_TermB 2 2; E S_TermB 4 6; E S_TermB 2 3; E S_TermB 3 4; E S_TermB 2 2;
    E S_TermB 5 7; E S_TermB 2 3; E S_TermB 3 1; E S_TermB 2 2; E S_TermB 4 5; E S_TermB 2 3;
    E S_TermB 3 4; E S_TermB 2 2; E S_TermB 8 14; E S_TermB 2 3; E S_TermB 3 1; E S_TermB 2 2;
    E S_TermB 4 6; E S_TermB 2 3; E S_TermB 3 4; E S_TermB 2 2; E S_TermB 6 8; E S_TermB 2 3;
    E S_TermB 3 1; E S_TermB 2 2; E S_TermB 4 5; E S_TermB 2 3; E S_TermB 3 4; E S_TermB 2 2;
    E S_TermB 7 12; E S_TermB 2 3; E S_TermB 3 1; E S_TermB 2 2; E S_TermB 4 6; E S_TermB 2 3;
    E S_TermB 3 4; E S_TermB 2 2; E S_TermB 5 7; E S_TermB 2 3; E S_TermB 3 1; E S_TermB 2 2;
    E S_TermB 4 5; E S_TermB 2 3; E S_TermB 3 4; E S_TermB 2 2; E S_Null 1 0; E S_TermB 2 3;
    E S_TermB 3 1; E S_TermB 2 2; E S_TermB 4 6; E S_TermB 2 3; E S_TermB 3 4; E S_TermB 2 2;
    E S_TermB 6 9; E S_TermB 2 3; E S_TermB 3 1; E S_TermB 2 2; E S_TermB 4 5; E S_TermB 2 3;
    E S_TermB 3 4; E S_TermB 2 2; E S_TermB 7 10; E S_TermB 2 3; E S_TermB 3 1; E S_TermB 2 2;
    E S_TermB 4 6; E S_TermB 2 3; E S_TermB 3 4; E S_TermB 2 2; E S_TermB 5 7; E S_TermB 2 3;
    E S_TermB 3 1; E S_TermB 2 2; E S_TermB 4 5; E S_TermB 2 3; E S_TermB 3 4; E S_TermB 2 2;
    E S_TermB 8 13; E S_TermB 2 3; E S_TermB 3 1; E S_TermB 2 2; E S_TermB 4 6; E S_TermB 2 3;
    E S_TermB 3 4; E S_TermB 2 2; E S_TermB 6 8; E S_TermB 2 3; E S_TermB 3 1; E S_TermB 2 2;
    E S_TermB 4 5; E S_TermB 2 3; E S_TermB 3 4; E S_TermB 2 2; E S_MakeUpB 12 192; E S_TermB 2 3;
    E S_TermB 3 1; E S_TermB 2 2; E S_TermB 4 6; E S_TermB 2 3; E S_TermB 3 4; E S_TermB 2 2;
    E S_TermB 5 7; E S_TermB 2 3; E S_TermB 3 1; E S_TermB 2 2; E S_TermB 4 5; E S_TermB 2 3;
    E S_TermB 3 4; E S_TermB 2 2; E S_MakeUpB 13 1344; E S_TermB 2 3; E S_TermB 3 1; E S_TermB 2 2;
    E S_TermB 4 6; E S_TermB 2 3; E S_TermB 3 4; E S_TermB 2 2; E S_TermB 6 9; E S_TermB 2 3;
    E S_TermB 3 1; E S_TermB 2 2; E S_TermB 4 5; E S_TermB 2 3; E S_TermB 3 4; E S_TermB 2 2;
    E S_TermB 7 11; E S_TermB 2 3; E S_TermB 3 1; E S_TermB 2 2; E S_TermB 4 6; E S_TermB 2 3;
    E S_TermB 3 4; E S_TermB 2 2; E S_TermB 5 7; E S_TermB 2 3; E S_TermB 3 1; E S_TermB 2 2;
    E S_TermB 4 5; E S_TermB 2 3; E S_TermB 3 4; E S_TermB 2 2; E S_TermB 12 31; E S_TermB 2 3;
    E S_TermB 3 1; E S_TermB 2 2; E S_TermB 4 6; E S_TermB 2 3; E S_TermB 3 4; E S_TermB 2 2;
    E S_TermB 6 8; E S_TermB 2 3; E S_TermB 3 1; E S_TermB 2 2; E S_TermB 4 5; E S_TermB 2 3;
    E S_TermB 3 4; E S_TermB 2 2; E S_TermB 7 12; E S_TermB 2 3; E S_TermB 3 1; E S_TermB 2 2;
    E S_TermB 4 6; E S_TermB 2 3; E S_TermB 3 4; E S_TermB 2 2; E S_TermB 5 7; E S_TermB 2 3;
    E S_TermB 3 1; E S_TermB 2 2; E S_TermB 4 5; E S_TermB 2 3; E S_TermB 3 4; E S_TermB 2 2;
    E S_MakeUp 11 1856; E S_TermB 2 3; E S_TermB 3 1; E S_TermB 2 2; E S_TermB 4 6; E S_TermB 2 3;
    E S_TermB 3 4; E S_TermB 2 2; E S_TermB 6 9; E S_TermB 2 3; E S_TermB 3 1; E S_TermB 2 2;
    E S_TermB 4 5; E S_TermB 2 3; E S_TermB 3 4; E S_TermB 2 2; E S_TermB 7 10; E S_TermB 2 3;
    E S_TermB 3 1; E S_TermB 2 2; E S_TermB 4 6; E S_TermB 2 3; E S_TermB 3 4; E S_TermB 2 2;
    E S_TermB 5 7; E S_TermB 2 3; E S_TermB 3 1; E S_TermB 2 2; E S_TermB 4 5; E S_TermB 2 3;
    E S_TermB 3 4; E S_TermB 2 2; E S_TermB 12 58; E S_TermB 2 3; E S_TermB 3 1; E S_TermB 2 2;
    E S_TermB 4 6; E S_TermB 2 3; E S_TermB 3 4; E S_TermB 2 2; E S_TermB 6 8; E S_TermB 2 3;
    E S_TermB 3 1; E S_TermB 2 2; E S_TermB 4 5; E S_TermB 2 3; E S_TermB 3 4; E S_TermB 2 2;
    E S_TermB 11 21; E S_TermB 2 3; E S_TermB 3 1; E S_TermB 2 2; E S_TermB 4 6; E S_TermB 2 3;
    E S_TermB 3 4; E S_TermB 2 2; E S_TermB 5 7; E S_TermB 2 3; E S_TermB 3 1; E S_TermB 2 2;
    E S_TermB 4 5; E S_TermB 2 3; E S_TermB 3 4; E S_TermB 2 2; E S_MakeUpB 13 960; E S_TermB 2 3;
    E S_TermB 3 1; E S_TermB 2 2; E S_TermB 4 6; E S_TermB 2 3; E S_TermB 3 4; E S_TermB 2 2;
    E S_TermB 6 9; E S_TermB 2 3; E S_TermB 3 1; E S_TermB 2 2; E S_TermB 4 5; E S_TermB 2 3;
    E S_TermB 3 4; E S_TermB 2 2; E S_TermB 7 11; E S_TermB 2 3; E S_TermB 3 1; E S_TermB 2 2;
    E S_TermB 4 6; E S_TermB 2 3; E S_TermB 3 4; E S_TermB 2 2; E S_TermB 5 7; E S_TermB 2 3;
    E S_TermB 3 1; E S_TermB 2 2; E S_TermB 4 5; E S_TermB 2 3; E S_TermB 3 4; E S_TermB 2 2;
    E S_TermB 8 14; E S_TermB 2 3; E S_TermB 3 1; E S_TermB 2 2; E S_TermB 4 6; E S_TermB 2 3;
    E S_TermB 3 4; E S_TermB 2 2; E S_TermB 6 8; E S_TermB 2 3; E S_TermB 3 1; E S_TermB 2 2;
    E S_TermB 4 5; E S_TermB 2 3; E S_TermB 3 4; E S_TermB 2 2; E S_TermB 7 12; E S_TermB 2 3;
    E S_TermB 3 1; E S_TermB 2 2; E S_TermB 4 6; E S_TermB 2 3; E S_TermB 3 4; E S_TermB 2 2;
    E S_TermB 5 7; E S_TermB 2 3; E S_TermB 3 1; E S_TermB 2 2; E S_TermB 4 5; E S_TermB 2 3;
    E S_TermB 3 4; E S_TermB 2 2; E S_Null 1 0; E S_TermB 2 3; E S_TermB 3 1; E S_TermB 2 2;
    E S_TermB 4 6; E S_TermB 2 3; E S_TermB 3 4; E S_TermB 2 2; E S_TermB 6 9; E S_TermB 2 3;
    E S_TermB 3 1; E S_TermB 2 2; E S_TermB 4 5; E S_TermB 2 3; E S_TermB 3 4; E S_TermB 2 2;
    E S_TermB 7 10; E S_TermB 2 3; E S_TermB 3 1; E S_TermB 2 2; E S_TermB 4 6; E S_TermB 2 3;
    E S_TermB 3 4; E S_TermB 2 2; E S_TermB 5 7; E S_TermB 2 3; E S_TermB 3 1; E S_TermB 2 2;
    E S_TermB 4 5; E S_TermB 2 3; E S_TermB 3 4; E S_TermB 2 2; E S_TermB 8 13; E S_TermB 2 3;
    E S_TermB 3 1; E S_TermB 2 2; E S_TermB 4 6; E S_TermB 2 3; E S_TermB 3 4; E S_TermB 2 2;
    E S_TermB 6 8; E S_TermB 2 3; E S_TermB 3 1; E S_TermB 2 2; E S_TermB 4 5; E S_TermB 2 3;
    E S_TermB 3 4; E S_TermB 2 2; E S_TermB 9 15; E S_TermB 2 3; E S_TermB 3 1; E S_TermB 2 2;
    E S_TermB 4 6; E S_TermB 2 3; E S_TermB 3 4; E S_TermB 2 2; E S_TermB 5 7; E S_TermB 2 3;
    E S_TermB 3 1; E S_TermB 2 2; E S_TermB 4 5; E S_TermB 2 3; E S_TermB 3 4; E S_TermB 2 2;
    E S_MakeUpB 13 704; E S_TermB 2 3; E S_TermB 3 1; E S_TermB 2 2; E S_TermB 4 6; E S_TermB 2 3;
    E S_TermB 3 4; E S_TermB 2 2; E S_TermB 6 9; E S_TermB 2 3; E S_TermB 3 1; E S_TermB 2 2;
    E S_TermB 4 5; E S_TermB 2 3; E S_TermB 3 4; E S_TermB 2 2; E S_TermB 7 11; E S_TermB 2 3;
    E S_TermB 3 1; E S_TermB 2 2; E S_TermB 4 6; E S_TermB 2 3; E S_TermB 3 4; E S_TermB 2 2;
    E S_TermB 5 7; E S_TermB 2 3; E S_TermB 3 1; E S_TermB 2 2; E S_TermB 4 5; E S_TermB 2 3;
    E S_TermB 3 4; E S_TermB 2 2; E S_TermB 12 49; E S_TermB 2 3; E S_TermB 3 1; E S_TermB 2 2;
    E S_TermB 4 6; E S_TermB 2 3; E S_TermB 3 4; E S_TermB 2 2; E S_TermB 6 8; E S_TermB 2 3;
    E S_TermB 3 1; E S_TermB 2 2; E S_TermB 4 5; E S_TermB 2 3; E S_TermB 3 4; E S_TermB 2 2;
    E S_TermB 7 12; E S_TermB 2 3; E S_TermB 3 1; E S_TermB 2 2; E S_TermB 4 6; E S_TermB 2 3;
    E S_TermB 3 4; E S_TermB 2 2; E S_TermB 5 7; E S_TermB 2 3; E S_TermB 3 1; E S_TermB 2 2;
    E S_TermB 4 5; E S_TermB 2 3; E S_TermB 3 4; E S_TermB 2 2; E S_MakeUp 12 2176; E S_TermB 2 3;
    E S_TermB 3 1; E S_TermB 2 2; E S_TermB 4 6; E S_TermB 2 3; E S_TermB 3 4; E S_TermB 2 2;
    E S_TermB 6 9; E S_TermB 2 3; E S_TermB 3 1; E S_TermB 2 2; E S_TermB 4 5; E S_TermB 2 3;
    E S_TermB 3 4; E S_TermB 2 2; E S_TermB 7 10; E S_TermB 2 3; E S_TermB 3 1; E S_TermB 2 2;
    E S_TermB 4 6; E S_TermB 2 3; E S_TermB 3 4; E S_TermB 2 2; E S_TermB 5 7; E S_TermB 2 3;
    E S_TermB 3 1; E S_TermB 2 2; E S_TermB 4 5; E S_TermB 2 3; E S_TermB 3 4; E S_TermB 2 2;
    E S_TermB 12 45; E S_TermB 2 3; E S_TermB 3 1; E S_TermB 2 2; E S_TermB 4 6; E S_TermB 2 3;
    E S_TermB 3 4; E S_TermB 2 2; E S_TermB 6 8; E S_TermB 2 3; E S_TermB 3 1; E S_TermB 2 2;
    E S_TermB 4 5; E S_TermB 2 3; E S_TermB 3 4; E S_TermB 2 2; E S_TermB 12 37; E S_TermB 2 3;
    E S_TermB 3 1; E S_TermB 2 2; E S_TermB 4 6; E S_TermB 2 3; E S_TermB 3 4; E S_TermB 2 2;
    E S_TermB 5 7; E S_TermB 2 3; E S_TermB 3 1; E S_TermB 2 2; E S_TermB 4 5; E S_TermB 2 3;
    E S_TermB 3 4; E S_TermB 2 2; E S_MakeUpB 12 448; E S_TermB 2 3; E S_TermB 3 1; E S_TermB 2 2;
    E S_TermB 4 6; E S_TermB 2 3; E S_TermB 3 4; E S_TermB 2 2; E S_TermB 6 9; E S_TermB 2 3;
    E S_TermB 3 1; E S_TermB 2 2; E S_TermB 4 5; E S_TermB 2 3; E S_TermB 3 4; E S_TermB 2 2;
    E S_TermB 7 11; E S_TermB 2 3; E S_TermB 3 1; E S_TermB 2 2; E S_TermB 4 6; E S_TermB 2 3;
    E S_TermB 3 4; E S_TermB 2 2; E S_TermB 5 7; E S_TermB 2 3; E S_TermB 3 1; E S_TermB 2 2;
    E S_TermB 4 5; E S_TermB 2 3; E S_TermB 3 4; E S_TermB 2 2; E S_TermB 8 14; E S_TermB 2 3;
    E S_TermB 3 1; E S_TermB 2 2; E S_TermB 4 6; E S_TermB 2 3; E S_TermB 3 4; E S_TermB 2 2;
    E S_TermB 6 8; E S_TermB 2 3; E S_TermB 3 1; E S_TermB 2 2; E S_TermB 4 5; E S_TermB 2 3;
    E S_TermB 3 4; E S_TermB 2 2; E S_TermB 7 12; E S_TermB 2 3; E S_TermB 3 1; E S_TermB 2 2;
    E S_TermB 4 6; E S_TermB 2 3; E S_TermB 3 4; E S_TermB 2 2; E S_TermB 5 7; E S_TermB 2 3;
    E S_TermB 3 1; E S_TermB 2 2; E S_TermB 4 5; E S_TermB 2 3; E S_TermB 3 4; E S_TermB 2 2;
    E S_Null 1 0; E S_TermB 2 3; E S_TermB 3 1; E S_TermB 2 2; E S_TermB 4 6; E S_TermB 2 3;
    E S_TermB 3 4; E S_TermB 2 2; E S_TermB 6 9; E S_TermB 2 3; E S_TermB 3 1; E S_TermB 2 2;
    E S_TermB 4 5; E S_TermB 2 3; E S_TermB 3 4; E S_TermB 2 2; E S_TermB 7 10; E S_TermB 2 3;
    E S_TermB 3 1; E S_TermB 2 2; E S_TermB 4 6; E S_TermB 2 3; E S_TermB 3 4; E S_TermB 2 2;
    E S_TermB 5 7; E S_TermB 2 3; E S_TermB 3 1; E S_TermB 2 2; E S_TermB 4 5; E S_TermB 2 3;
    E S_TermB 3 4; E S_TermB 2 2; E S_TermB 8 13; E S_TermB 2 3; E S_TermB 3 1; E S_TermB 2 2;
    E S_TermB 4 6; E S_TermB 2 3; E S_TermB 3 4; E S_TermB 2 2; E S_TermB 6 8; E S_TermB 2 3;
    E S_TermB 3 1; E S_TermB 2 2; E S_TermB 4 5; E S_TermB 2 3; E S_TermB 3 4; E S_TermB 2 2;
    E S_TermB 12 29; E S_TermB 2 3; E S_TermB 3 1; E S_TermB 2 2; E S_TermB 4 6; E S_TermB 2 3;
    E S_TermB 3 4; E S_TermB 2 2; E S_TermB 5 7; E S_TermB 2 3; E S_TermB 3 1; E S_TermB 2 2;
    E S_TermB 4 5; E S_TermB 2 3; E S_TermB 3 4; E S_TermB 2 2; E S_MakeUpB 13 1600; E S_TermB 2 3;
    E S_TermB 3 1; E S_TermB 2 2; E S_TermB 4 6; E S_TermB 2 3; E S_TermB 3 4; E S_TermB 2 2;
    E S_TermB 6 9; E S_TermB 2 3; E S_TermB 3 1; E S_TermB 2 2; E S_TermB 4 5; E S_TermB 2 3;
    E S_TermB 3 4; E S_TermB 2 2; E S_TermB 7 11; E S_TermB 2 3; E S_TermB 3 1; E S_TermB 2 2;
    E S_TermB 4 6; E S_TermB 2 3; E S_TermB 3 4; E S_TermB 2 2; E S_TermB 5 7; E S_TermB 2 3;
    E S_TermB 3 1; E S_TermB 2 2; E S_TermB 4 5; E S_TermB 2 3; E S_TermB 3 4; E S_TermB 2 2;
    E S_TermB 12 41; E S_TermB 2 3; E S_TermB 3 1; E S_TermB 2 2; E S_TermB 4 6; E S_TermB 2 3;
    E S_TermB 3 4; E S_TermB 2 2; E S_TermB 6 8; E S_TermB 2 3; E S_TermB 3 1; E S_TermB 2 2;
    E S_TermB 4 5; E S_TermB 2 3; E S_TermB 3 4; E S_TermB 2 2; E S_TermB 7 12; E S_TermB 2 3;
    E S_TermB 3 1; E S_TermB 2 2; E S_TermB 4 6; E S_TermB 2 3; E S_TermB 3 4; E S_TermB 2 2;
    E S_TermB 5 7; E S_TermB 2 3; E S_TermB 3 1; E S_TermB 2 2; E S_TermB 4 5; E S_TermB 2 3;
    E S_TermB 3 4; E S_TermB 2 2; E S_MakeUp 12 2432; E S_TermB 2 3; E S_TermB 3 1; E S_TermB 2 2;
    E S_TermB 4 6; E S_TermB 2 3; E S_TermB 3 4; E S_TermB 2 2; E S_TermB 6 9; E S_TermB 2 3;
    E S_TermB 3 1; E S_TermB 2 2; E S_TermB 4 5; E S_TermB 2 3; E S_TermB 3 4; E S_TermB 2 2;
    E S_TermB 7 10; E S_TermB 2 3; E S_TermB 3 1; E S_TermB 2 2; E S_TermB 4 6; E S_TermB 2 3;
    E S_TermB 3 4; E S_TermB 2 2; E S_TermB 5 7; E S_TermB 2 3; E S_TermB 3 1; E S_TermB 2 2;
    E S_TermB 4 5; E S_TermB 2 3; E S_TermB 3 4; E S_TermB 2 2; E S_TermB 10 16; E S_TermB 2 3;
    E S_TermB 3 1; E S_TermB 2 2; E S_TermB 4 6; E S_TermB 2 3; E S_TermB 3 4; E S_TermB 2 2;
    E S_TermB 6 8; E S_TermB 2 3; E S_TermB 3 1; E S_TermB 2 2; E S_TermB 4 5; E S_TermB 2 3;
    E S_TermB 3 4; E S_TermB 2 2; E S_TermB 10 0; E S_TermB 2 3; E S_TermB 3 1; E S_TermB 2 2;
    E S_TermB 4 6; E S_TermB 2 3; E S_TermB 3 4; E S_TermB 2 2; E S_TermB 5 7; E S_TermB 2 3;
    E S_TermB 3 1; E S_TermB 2 2; E S_TermB 4 5; E S_TermB 2 3; E S_TermB 3 4; E S_TermB 2 2;
    E S_MakeUpB 10 64; E S_TermB 2 3; E S_TermB 3 1; E S_TermB 2 2; E S_TermB 4 6; E S_TermB 2 3;
    E S_TermB 3 4; E S_TermB 2 2; E S_TermB 6 9; E S_TermB 2 3; E S_TermB 3 1; E S_TermB 2 2;
    E S_TermB 4 5; E S_TermB 2 3; E S_TermB 3 4; E S_TermB 2 2; E S_TermB 7 11; E S_TermB 2 3;
    E S_TermB 3 1; E S_TermB 2 2; E S_TermB 4 6; E S_TermB 2 3; E S_TermB 3 4; E S_TermB 2 2;
    E S_TermB 5 7; E S_TermB 2 3; E S_TermB 3 1; E S_TermB 2 2; E S_TermB 4 5; E S_TermB 2 3;
    E S_TermB 3 4; E S_TermB 2 2; E S_TermB 8 14; E S_TermB 2 3; E S_TermB 3 1; E S_TermB 2 2;
    E S_TermB 4 6; E S_TermB 2 3; E S_TermB 3 4; E S_TermB 2 2; E S_TermB 6 8; E S_TermB 2 3;
    E S_TermB 3 1; E S_TermB 2 2; E S_TermB 4 5; E S_TermB 2 3; E S_TermB 3 4; E S_TermB 2 2;
    E S_TermB 7 12; E S_TermB 2 3; E S_TermB 3 1; E S_TermB 2 2; E S_TermB 4 6; E S_TermB 2 3;
    E S_TermB 3 4; E S_TermB 2 2; E S_TermB 5 7; E S_TermB 2 3; E S_TermB 3 1; E S_TermB 2 2;
    E S_TermB 4 5; E S_TermB 2 3; E S_TermB 3 4; E S_TermB 2 2; E S_Null 1 0; E S_TermB 2 3;
    E S_TermB 3 1; E S_TermB 2 2; E S_TermB 4 6; E S_TermB 2 3; E S_TermB 3 4; E S_TermB 2 2;
    E S_TermB 6 9; E S_TermB 2 3; E S_TermB 3 1; E S_TermB 2 2; E S_TermB 4 5; E S_TermB 2 3;
    E S_TermB 3 4; E S_TermB 2 2; E S_TermB 7 10; E S_TermB 2 3; E S_TermB 3 1; E S_TermB 2 2;
    E S_TermB 4 6; E S_TermB 2 3; E S_TermB 3 4; E S_TermB 2 2; E S_TermB 5 7; E S_TermB 2 3;
    E S_TermB 3 1; E S_TermB 2 2; E S_TermB 4 5; E S_TermB 2 3; E S_TermB 3 4; E S_TermB 2 2;
    E S_TermB 8 13; E S_TermB 2 3; E S_TermB 3 1; E S_TermB 2 2; E S_TermB 4 6; E S_TermB 2 3;
    E S_TermB 3 4; E S_TermB 2 2; E S_TermB 6 8; E S_TermB 2 3; E S_TermB 3 1; E S_TermB 2 2;
    E S_TermB 4 5; E S_TermB 2 3; E S_TermB 3 4; E S_TermB 2 2; E S_TermB 9 15; E S_TermB 2 3;
    E S_TermB 3 1; E S_TermB 2 2; E S_TermB 4 6; E S_TermB 2 3; E S_TermB 3 4; E S_TermB 2 2;
    E S_TermB 5 7; E S_TermB 2 3; E S_TermB 3 1; E S_TermB 2 2; E S_TermB 4 5; E S_TermB 2 3;
    E S_TermB 3 4; E S_TermB 2 2; E S_TermB 10 18; E S_TermB 2 3; E S_TermB 3 1; E S_TermB 2 2;
    E S_TermB 4 6; E S_TermB 2 3; E S_TermB 3 4; E S_TermB 2 2; E S_TermB 6 9; E S_TermB 2 3;
    E S_TermB 3 1; E S_TermB 2 2; E S_TermB 4 5; E S_TermB 2 3; E S_TermB 3 4; E S_TermB 2 2;
    E S_TermB 7 11; E S_TermB 2 3; E S_TermB 3 1; E S_TermB 2 2; E S_TermB 4 6; E S_TermB 2 3;
    E S_TermB 3 4; E S_TermB 2 2; E S_TermB 5 7; E S_TermB 2 3; E S_TermB 3 1; E S_TermB 2 2;
    E S_TermB 4 5; E S_TermB 2 3; E S_TermB 3 4; E S_TermB 2 2; E S_TermB 10 17; E S_TermB 2 3;
    E S_TermB 3 1; E S_TermB 2 2; E S_TermB 4 6; E S_TermB 2 3; E S_TermB 3 4; E S_TermB 2 2;
    E S_TermB 6 8; E S_TermB 2 3; E S_TermB 3 1; E S_TermB 2 2; E S_TermB 4 5; E S_TermB 2 3;
    E S_TermB 3 4; E S_TermB 2 2; E S_TermB 7 12; E S_TermB 2 3; E S_TermB 3 1; E S_TermB 2 2;
    E S_TermB 4 6; E S_TermB 2 3; E S_TermB 3 4; E S_TermB 2 2; E S_TermB 5 7; E S_TermB 2 3;
    E S_TermB 3 1; E S_TermB 2 2; E S_TermB 4 5; E S_TermB 2 3; E S_TermB 3 4; E S_TermB 2 2;
    E S_MakeUp 12 2048; E S_TermB 2 3; E S_TermB 3 1; E S_TermB 2 2; E S_TermB 4 6; E S_TermB 2 3;
    E S_TermB 3 4; E S_TermB 2 2; E S_TermB 6 9; E S_TermB 2 3; E S_TermB 3 1; E S_TermB 2 2;
    E S_TermB 4 5; E S_TermB 2 3; E S_TermB 3 4; E S_TermB 2 2; E S_TermB 7 10; E S_TermB 2 3;
    E S_TermB 3 1; E S_TermB 2 2; E S_TermB 4 6; E S_TermB 2 3; E S_TermB 3 4; E S_TermB 2 2;
    E S_TermB 5 7; E S_TermB 2 3; E S_TermB 3 1; E S_TermB 2 2; E S_TermB 4 5; E S_TermB 2 3;
    E S_TermB 3 4; E S_TermB 2 2; E S_TermB 12 51; E S_TermB 2 3; E S_TermB 3 1; E S_TermB 2 2;
    E S_TermB 4 6; E S_TermB 2 3; E S_TermB 3 4; E S_TermB 2 2; E S_TermB 6 8; E S_TermB 2 3;
    E S_TermB 3 1; E S_TermB 2 2; E S_TermB 4 5; E S_TermB 2 3; E S_TermB 3 4; E S_TermB 2 2;
    E S_TermB 12 35; E S_TermB 2 3; E S_TermB 3 1; E S_TermB 2 2; E S_TermB 4 6; E S_TermB 2 3;
    E S_TermB 3 4; E S_TermB 2 2; E S_TermB 5 7; E S_TermB 2 3; E S_TermB 3 1; E S_TermB 2 2;
    E S_TermB 4 5; E S_TermB 2 3; E S_TermB 3 4; E S_TermB 2 2; E S_MakeUpB 12 320; E S_TermB 2 3;
    E S_TermB 3 1; E S_TermB 2 2; E S_TermB 4 6; E S_TermB 2 3; E S_TermB 3 4; E S_TermB 2 2;
    E S_TermB 6 9; E S_TermB 2 3; E S_TermB 3 1; E S_TermB 2 2; E S_TermB 4 5; E S_TermB 2 3;
    E S_TermB 3 4; E S_TermB 2 2; E S_TermB 7 11; E S_TermB 2 3; E S_TermB 3 1; E S_TermB 2 2;
    E S_TermB 4 6; E S_TermB 2 3; E S_TermB 3 4; E S_TermB 2 2; E S_TermB 5 7; E S_TermB 2 3;
    E S_TermB 3 1; E S_TermB 2 2; E S_TermB 4 5; E S_TermB 2 3; E S_TermB 3 4; E S_TermB 2 2;
    E S_TermB 8 14; E S_TermB 2 3; E S_TermB 3 1; E S_TermB 2 2; E S_TermB 4 6; E S_TermB 2 3;
    E S_TermB 3 4; E S_TermB 2 2; E S_TermB 6 8; E S_TermB 2 3; E S_TermB 3 1; E S_TermB 2 2;
    E S_TermB 4 5; E S_TermB 2 3; E S_TermB 3 4; E S_TermB 2 2; E S_TermB 7 12; E S_TermB 2 3;
    E S_TermB 3 1; E S_TermB 2 2; E S_TermB 4 6; E S_TermB 2 3; E S_TermB 3 4; E S_TermB 2 2;
    E S_TermB 5 7; E S_TermB 2 3; E S_TermB 3 1; E S_TermB 2 2; E S_TermB 4 5; E S_TermB 2 3;
    E S_TermB 3 4; E S_TermB 2 2; E S_Null 1 0; E S_TermB 2 3; E S_TermB 3 1; E S_TermB 2 2;
    E S_TermB 4 6; E S_TermB 2 3; E S_TermB 3 4; E S_TermB 2 2; E S_TermB 6 9; E S_TermB 2 3;
    E S_TermB 3 1; E S_TermB 2 2; E S_TermB 4 5; E S_TermB 2 3; E S_TermB 3 4; E S_TermB 2 2;
    E S_TermB 7 10; E S_TermB 2 3; E S_TermB 3 1; E S_TermB 2 2; E S_TermB 4 6; E S_TermB 2 3;
    E S_TermB 3 4; E S_TermB 2 2; E S_TermB 5 7; E S_TermB 2 3; E S_TermB 3 1; E S_TermB 2 2;
    E S_TermB 4 5; E S_TermB 2 3; E S_TermB 3 4; E S_TermB 2 2; E S_TermB 8 13; E S_TermB 2 3;
    E S_TermB 3 1; E S_TermB 2 2; E S_TermB 4 6; E S_TermB 2 3; E S_TermB 3 4; E S_TermB 2 2;
    E S_TermB 6 8; E S_TermB 2 3; E S_TermB 3 1; E S_TermB 2 2; E S_TermB 4 5; E S_TermB 2 3;
    E S_TermB 3 4; E S_TermB 2 2; E S_TermB 12 27; E S_TermB 2 3; E S_TermB 3 1; E S_TermB 2 2;
    E S_TermB 4 6; E S_TermB 2 3; E S_TermB 3 4; E S_TermB 2 2; E S_TermB 5 7; E S_TermB 2 3;
    E S_TermB 3 1; E S_TermB 2 2; E S_TermB 4 5; E S_TermB 2 3; E S_TermB 3 4; E S_TermB 2 2;
    E S_TermB 12 59; E S_TermB 2 3; E S_TermB 3 1; E S_TermB 2 2; E S_TermB 4 6; E S_TermB 2 3;
    E S_TermB 3 4; E S_TermB 2 2; E S_TermB 6 9; E S_TermB 2 3; E S_TermB 3 1; E S_TermB 2 2;
    E S_TermB 4 5; E S_TermB 2 3; E S_TermB 3 4; E S_TermB 2 2; E S_TermB 7 11; E S_TermB 2 3;
    E S_TermB 3 1; E S_TermB 2 2; E S_TermB 4 6; E S_TermB 2 3; E S_TermB 3 4; E S_TermB 2 2;
    E S_TermB 5 7; E S_TermB 2 3; E S_TermB 3 1; E S_TermB 2 2; E S_TermB 4 5; E S_TermB 2 3;
    E S_TermB 3 4; E S_TermB 2 2; E S_TermB 12 33; E S_TermB 2 3; E S_TermB 3 1; E S_TermB 2 2;
    E S_TermB 4 6; E S_TermB 2 3; E S_TermB 3 4; E S_TermB 2 2; E S_TermB 6 8; E S_TermB 2 3;
    E S_TermB 3 1; E S_TermB 2 2; E S_TermB 4 5; E S_TermB 2 3; E S_TermB 3 4; E S_TermB 2 2;
    E S_TermB 7 12; E S_TermB 2 3; E S_TermB 3 1; E S_TermB 2 2; E S_TermB 4 6; E S_TermB 2 3;
    E S_TermB 3 4; E S_TermB 2 2; E S_TermB 5 7; E S_TermB 2 3; E S_TermB 3 1; E S_TermB 2 2;
    E S_TermB 4 5; E S_TermB 2 3; E S_TermB 3 4; E S_TermB 2 2; E S_MakeUp 11 1920; E S_TermB 2 3;
    E S_TermB 3 1; E S_TermB 2 2; E S_TermB 4 6; E S_TermB 2 3; E S_TermB 3 4; E S_TermB 2 2;
    E S_TermB 6 9; E S_TermB 2 3; E S_TermB 3 1; E S_TermB 2 2; E S_TermB 4 5; E S_TermB 2 3;
    E S_TermB 3 4; E S_TermB 2 2; E S_TermB 7 10; E S_TermB 2 3; E S_TermB 3 1; E S_TermB 2 2;
    E S_TermB 4 6; E S_TermB 2 3; E S_TermB 3 4; E S_TermB 2 2; E S_TermB 5 7; E S_TermB 2 3;
    E S_TermB 3 1; E S_TermB 2 2; E S_TermB 4 5; E S_TermB 2 3; E S_TermB 3 4; E S_TermB 2 2;
    E S_MakeUpB 12 256; E S_TermB 2 3; E S_TermB 3 1; E S_TermB 2 2; E S_TermB 4 6; E S_TermB 2 3;
    E S_TermB 3 4; E S_TermB 2 2; E S_TermB 6 8; E S_TermB 2 3; E S_TermB 3 1; E S_TermB 2 2;
    E S_TermB 4 5; E S_TermB 2 3; E S_TermB 3 4; E S_TermB 2 2; E S_TermB 12 43; E S_TermB 2 3;
    E S_TermB 3 1; E S_TermB 2 2; E S_TermB 4 6; E S_TermB 2 3; E S_TermB 3 4; E S_TermB 2 2;
    E S_TermB 5 7; E S_TermB 2 3; E S_TermB 3 1; E S_TermB 2 2; E S_TermB 4 5; E S_TermB 2 3;
    E S_TermB 3 4; E S_TermB 2 2; E S_MakeUpB 13 1216; E S_TermB 2 3; E S_TermB 3 1; E S_TermB 2 2;
    E S_TermB 4 6; E S_TermB 2 3; E S_TermB 3 4; E S_TermB 2 2; E S_TermB 6 9; E S_TermB 2 3;
    E S_TermB 3 1; E S_TermB 2 2; E S_TermB 4 5; E S_TermB 2 3; E S_TermB 3 4; E S_TermB 2 2;
    E S_TermB 7 11; E S_TermB 2 3; E S_TermB 3 1; E S_TermB 2 2; E S_TermB 4 6; E S_TermB 2 3;
    E S_TermB 3 4; E S_TermB 2 2; E S_TermB 5 7; E S_TermB 2 3; E S_TermB 3 1; E S_TermB 2 2;
    E S_TermB 4 5; E S_TermB 2 3; E S_TermB 3 4; E S_TermB 2 2; E S_TermB 8 14; E S_TermB 2 3;
    E S_TermB 3 1; E S_TermB 2 2; E S_TermB 4 6; E S_TermB 2 3; E S_TermB 3 4; E S_TermB 2 2;
    E S_TermB 6 8; E S_TermB 2 3; E S_TermB 3 1; E S_TermB 2 2; E S_TermB 4 5; E S_TermB 2 3;
    E S_TermB 3 4; E S_TermB 2 2; E S_TermB 7 12; E S_TermB 2 3; E S_TermB 3 1; E S_TermB 2 2;
    E S_TermB 4 6; E S_TermB 2 3; E S_TermB 3 4; E S_TermB 2 2; E S_TermB 5 7; E S_TermB 2 3;
    E S_TermB 3 1; E S_TermB 2 2; E S_TermB 4 5; E S_TermB 2 3; E S_TermB 3 4; E S_TermB 2 2;
    E S_Null 1 0; E S_TermB 2 3; E S_TermB 3 1; E S_TermB 2 2; E S_TermB 4 6; E S_TermB 2 3;
    E S_TermB 3 4; E S_TermB 2 2; E S_TermB 6 9; E S_TermB 2 3; E S_TermB 3 1; E S_TermB 2 2;
    E S_TermB 4 5; E S_TermB 2 3; E S_TermB 3 4; E S_TermB 2 2; E S_TermB 7 10; E S_TermB 2 3;
    E S_TermB 3 1; E S_TermB 2 2; E S_TermB 4 6; E S_TermB 2 3; E S_TermB 3 4; E S_TermB 2 2;
    E S_TermB 5 7; E S_TermB 2 3; E S_TermB 3 1; E S_TermB 2 2; E S_TermB 4 5; E S_TermB 2 3;
    E S_TermB 3 4; E S_TermB 2 2; E S_TermB 8 13; E S_TermB 2 3; E S_TermB 3 1; E S_TermB 2 2;
    E S_TermB 4 6; E S_TermB 2 3; E S_TermB 3 4; E S_TermB 2 2; E S_TermB 6 8; E S_TermB 2 3;
    E S_TermB 3 1; E S_TermB 2 2; E S_TermB 4 5; E S_TermB 2 3; E S_TermB 3 4; E S_TermB 2 2;
    E S_TermB 9 15; E S_TermB 2 3; E S_TermB 3 1; E S_TermB 2 2; E S_TermB 4 6; E S_TermB 2 3;
    E S_TermB 3 4; E S_TermB 2 2; E S_TermB 5 7; E S_TermB 2 3; E S_TermB 3 1; E S_TermB 2 2;
    E S_TermB 4 5; E S_TermB 2 3; E S_TermB 3 4; E S_TermB 2 2; E S_TermB 12 55; E S_TermB 2 3;
    E S_TermB 3 1; E S_TermB 2 2; E S_TermB 4 6; E S_TermB 2 3; E S_TermB 3 4; E S_TermB 2 2;
    E S_TermB 6 9; E S_TermB 2 3; E S_TermB 3 1; E S_TermB 2 2; E S_TermB 4 5; E S_TermB 2 3;
    E S_TermB 3 4; E S_TermB 2 2; E S_TermB 7 11; E S_TermB 2 3; E S_TermB 3 1; E S_TermB 2 2;
    E S_TermB 4 6; E S_TermB 2 3; E S_TermB 3 4; E S_TermB 2 2; E S_TermB 5 7; E S_TermB 2 3;
    E S_TermB 3 1; E S_TermB 2 2; E S_TermB 4 5; E S_TermB 2 3; E S_TermB 3 4; E S_TermB 2 2;
    E S_TermB 12 63; E S_TermB 2 3; E S_TermB 3 1; E S_TermB 2 2; E S_TermB 4 6; E S_TermB 2 3;
    E S_TermB 3 4; E S_TermB 2 2; E S_TermB 6 8; E S_TermB 2 3; E S_TermB 3 1; E S_TermB 2 2;
    E S_TermB 4 5; E S_TermB 2 3; E S_TermB 3 4; E S_TermB 2 2; E S_TermB 7 12; E S_TermB 2 3;
    E S_TermB 3 1; E S_TermB 2 2; E S_TermB 4 6; E S_TermB 2 3; E S_TermB 3 4; E S_TermB 2 2;
    E S_TermB 5 7; E S_TermB 2 3; E S_TermB 3 1; E S_TermB 2 2; E S_TermB 4 5; E S_TermB 2 3;
    E S_TermB 3 4; E S_TermB 2 2; E S_MakeUp 12 2304; E S_TermB 2 3; E S_TermB 3 1; E S_TermB 2 2;
    E S_TermB 4 6; E S_TermB 2 3; E S_TermB 3 4; E S_TermB 2 2; E S_TermB 6 9; E S_TermB 2 3;
    E S_TermB 3 1; E S_TermB 2 2; E S_TermB 4 5; E S_TermB 2 3; E S_TermB 3 4; E S_TermB 2 2;
    E S_TermB 7 10; E S_TermB 2 3; E S_TermB 3 1; E S_TermB 2 2; E S_TermB 4 6; E S_TermB 2 3;
    E S_TermB 3 4; E S_TermB 2 2; E S_TermB 5 7; E S_TermB 2 3; E S_TermB 3 1; E S_TermB 2 2;
    E S_TermB 4 5; E S_TermB 2 3; E S_TermB 3 4; E S_TermB 2 2; E S_TermB 12 47; E S_TermB 2 3;
    E S_TermB 3 1; E S_TermB 2 2; E S_TermB 4 6; E S_TermB 2 3; E S_TermB 3 4; E S_TermB 2 2;
    E S_TermB 6 8; E S_TermB 2 3; E S_TermB 3 1; E S_TermB 2 2; E S_TermB 4 5; E S_TermB 2 3;
    E S_TermB 3 4; E S_TermB 2 2; E S_TermB 12 39; E S_TermB 2 3; E S_TermB 3 1; E S_TermB 2 2;
    E S_TermB 4 6; E S_TermB 2 3; E S_TermB 3 4; E S_TermB 2 2; E S_TermB 5 7; E S_TermB 2 3;
    E S_TermB 3 1; E S_TermB 2 2; E S_TermB 4 5; E S_TermB 2 3; E S_TermB 3 4; E S_TermB 2 2;
    E S_TermB 12 53; E S_TermB 2 3; E S_TermB 3 1; E S_TermB 2 2; E S_TermB 4 6; E S_TermB 2 3;
    E S_TermB 3 4; E S_TermB 2 2; E S_TermB 6 9; E S_TermB 2 3; E S_TermB 3 1; E S_TermB 2 2;
    E S_TermB 4 5; E S_TermB 2 3; E S_TermB 3 4; E S_TermB 2 2; E S_TermB 7 11; E S_TermB 2 3;
    E S_TermB 3 1; E S_TermB 2 2; E S_TermB 4 6; E S_TermB 2 3; E S_TermB 3 4; E S_TermB 2 2;
    E S_TermB 5 7; E S_TermB 2 3; E S_TermB 3 1; E S_TermB 2 2; E S_TermB 4 5; E S_TermB 2 3;
    E S_TermB 3 4; E S_TermB 2 2; E S_TermB 8 14; E S_TermB 2 3; E S_TermB 3 1; E S_TermB 2 2;
    E S_TermB 4 6; E S_TermB 2 3; E S_TermB 3 4; E S_TermB 2 2; E S_TermB 6 8; E S_TermB 2 3;
    E S_TermB 3 1; E S_TermB 2 2; E S_TermB 4 5; E S_TermB 2 3; E S_TermB 3 4; E S_TermB 2 2;
    E S_TermB 7 12; E S_TermB 2 3; E S_TermB 3 1; E S_TermB 2 2; E S_TermB 4 6; E S_TermB 2 3;
    E S_TermB 3 4; E S_TermB 2 2; E S_TermB 5 7; E S_TermB 2 3; E S_TermB 3 1; E S_TermB 2 2;
    E S_TermB 4 5; E S_TermB 2 3; E S_TermB 3 4; E S_TermB 2 2; E S_Null 1 0; E S_TermB 2 3;
    E S_TermB 3 1; E S_TermB 2 2; E S_TermB 4 6; E S_TermB 2 3; E S_TermB 3 4; E S_TermB 2 2;
    E S_TermB 6 9; E S_TermB 2 3; E S_TermB 3 1; E S_TermB 2 2; E S_TermB 4 5; E S_TermB 2 3;
    E S_TermB 3 4; E S_TermB 2 2; E S_TermB 7 10; E S_TermB 2 3; E S_TermB 3 1; E S_TermB 2 2;
    E S_TermB 4 6; E S_TermB 2 3; E S_TermB 3 4; E S_TermB 2 2; E S_TermB 5 7; E S_TermB 2 3;
    E S_TermB 3 1; E S_TermB 2 2; E S_TermB 4 5; E S_TermB 2 3; E S_TermB 3 4; E S_TermB 2 2;
    E S_TermB 8 13; E S_TermB 2 3; E S_TermB 3 1; E S_TermB 2 2; E S_TermB 4 6; E S_TermB 2 3;
    E S_TermB 3 4; E S_TermB 2 2; E S_TermB 6 8; E S_TermB 2 3; E S_TermB 3 1; E S_TermB 2 2;
    E S_TermB 4 5; E S_TermB 2 3; E S_TermB 3 4; E S_TermB 2 2; E S_TermB 11 19; E S_TermB 2 3;
    E S_TermB 3 1; E S_TermB 2 2; E S_TermB 4 6; E S_TermB 2 3; E S_TermB 3 4; E S_TermB 2 2;
    E S_TermB 5 7; E S_TermB 2 3; E S_TermB 3 1; E S_TermB 2 2; E S_TermB 4 5; E S_TermB 2 3;
    E S_TermB 3 4; E S_TermB 2 2; E S_TermB 11 24; E S_TermB 2 3; E S_TermB 3 1; E S_TermB 2 2;
    E S_TermB 4 6; E S_TermB 2 3; E S_TermB 3 4; E S_TermB 2 2; E S_TermB 6 9; E S_TermB 2 3;
    E S_TermB 3 1; E S_TermB 2 2; E S_TermB 4 5; E S_TermB 2 3; E S_TermB 3 4; E S_TermB 2 2;
    E S_TermB 7 11; E S_TermB 2 3; E S_TermB 3 1; E S_TermB 2 2; E S_TermB 4 6; E S_TermB 2 3;
    E S_TermB 3 4; E S_TermB 2 2; E S_TermB 5 7; E S_TermB 2 3; E S_TermB 3 1; E S_TermB 2 2;
    E S_TermB 4 5; E S_TermB 2 3; E S_TermB 3 4; E S_TermB 2 2; E S_TermB 11 22; E S_TermB 2 3;
    E S_TermB 3 1; E S_TermB 2 2; E S_TermB 4 6; E S_TermB 2 3; E S_TermB 3 4; E S_TermB 2 2;
    E S_TermB 6 8; E S_TermB 2 3; E S_TermB 3 1; E S_TermB 2 2; E S_TermB 4 5; E S_TermB 2 3;
    E S_TermB 3 4; E S_TermB 2 2; E S_TermB 7 12; E S_TermB 2 3; E S_TermB 3 1; E S_TermB 2 2;
    E S_TermB 4 6; E S_TermB 2 3; E S_TermB 3 4; E S_TermB 2 2; E S_TermB 5 7; E S_TermB 2 3;
    E S_TermB 3 1; E S_TermB 2 2; E S_TermB 4 5; E S_TermB 2 3; E S_TermB 3 4; E S_TermB 2 2;
    E S_MakeUp 12 2560; E S_TermB 2 3; E S_TermB 3 1; E S_TermB 2 2; E S_TermB 4 6; E S_TermB 2 3;
    E S_TermB 3 4; E S_TermB 2 2; E S_TermB 6 9; E S_TermB 2 3; E S_TermB 3 1; E S_TermB 2 2;
    E S_TermB 4 5; E S_TermB 2 3; E S_TermB 3 4; E S_TermB 2 2; E S_TermB 7 10; E S_TermB 2 3;
    E S_TermB 3 1; E S_TermB 2 2; E S_TermB 4 6; E S_TermB 2 3; E S_TermB 3 4; E S_TermB 2 2;
    E S_TermB 5 7; E S_TermB 2 3; E S_TermB 3 1; E S_TermB 2 2; E S_TermB 4 5; E S_TermB 2 3;
    E S_TermB 3 4; E S_TermB 2 2; E S_TermB 10 16; E S_TermB 2 3; E S_TermB 3 1; E S_TermB 2 2;
    E S_TermB 4 6; E S_TermB 2 3; E S_TermB 3 4; E S_TermB 2 2; E S_TermB 6 8; E S_TermB 2 3;
    E S_TermB 3 1; E S_TermB 2 2; E S_TermB 4 5; E S_TermB 2 3; E S_TermB 3 4; E S_TermB 2 2;
    E S_TermB 10 0; E S_TermB 2 3; E S_TermB 3 1; E S_TermB 2 2; E S_TermB 4 6; E S_TermB 2 3;
    E S_TermB 3 4; E S_TermB 2 2; E S_TermB 5 7; E S_TermB 2 3; E S_TermB 3 1; E S_TermB 2 2;
    E S_TermB 4 5; E S_TermB 2 3; E S_TermB 3 4; E S_TermB 2 2; E S_MakeUpB 10 64; E S_TermB 2 3;
    E S_TermB 3 1; E S_TermB 2 2; E S_TermB 4 6; E S_TermB 2 3; E S_TermB 3 4; E S_TermB 2 2;
    E S_TermB 6 9; E S_TermB 2 3; E S_TermB 3 1; E S_TermB 2 2; E S_TermB 4 5; E S_TermB 2 3;
    E S_TermB 3 4; E S_TermB 2 2; E S_TermB 7 11; E S_TermB 2 3; E S_TermB 3 1; E S_TermB 2 2;
    E S_TermB 4 6; E S_TermB 2 3; E S_TermB 3 4; E S_TermB 2 2; E S_TermB 5 7; E S_TermB 2 3;
    E S_TermB 3 1; E S_TermB 2 2; E S_TermB 4 5; E S_TermB 2 3; E S_TermB 3 4; E S_TermB 2 2;
    E S_TermB 8 14; E S_TermB 2 3; E S_TermB 3 1; E S_TermB 2 2; E S_TermB 4 6; E S_TermB 2 3;
    E S_TermB 3 4; E S_TermB 2 2; E S_TermB 6 8; E S_TermB 2 3; E S_TermB 3 1; E S_TermB 2 2;
    E S_TermB 4 5; E S_TermB 2 3; E S_TermB 3 4; E S_TermB 2 2; E S_TermB 7 12; E S_TermB 2 3;
    E S_TermB 3 1; E S_TermB 2 2; E S_TermB 4 6; E S_TermB 2 3; E S_TermB 3 4; E S_TermB 2 2;
    E S_TermB 5 7; E S_TermB 2 3; E S_TermB 3 1; E S_TermB 2 2; E S_TermB 4 5; E S_TermB 2 3;
    E S_TermB 3 4; E S_TermB 2 2 ].

(** ** The header line

    Sixteen rows of sixteen pixels for each character. *)
Definition header_font : list (list Z) :=
  [ [0x0; 0x0; 0x0; 0x0; 0x0; 0x0; 0x0; 0x0; 0x0; 0x0; 0x0; 0x0; 0x0; 0x0; 0x0; 0x0];
    [0x0; 0x0; 0x3FFC; 0xC003; 0xCC33; 0xC003; 0xC003; 0xCFF3; 0xC3C3; 0xC003; 0xC003; 0x3FFC; 0x0; 0x0; 0x0; 0x0];
    [0x0; 0x0; 0x3FFC; 0xFFFF; 0xF3CF; 0xFFFF; 0xFFFF; 0xF00F; 0xFC3F; 0xFFFF; 0xFFFF; 0x3FFC; 0x0; 0x0; 0x0; 0x0];
    [0x0; 0x0; 0x0; 0x0; 0x1E78; 0x7FFE; 0x7FFE; 0x7FFE; 0x7FFE; 0x1FF8; 0x7E0; 0x180; 0x0; 0x0; 0x0; 0x0];
    [0x0; 0x0; 0x0; 0x0; 0x180; 0x7E0; 0x1FF8; 0x7FFE; 0x1FF8; 0x7E0; 0x180; 0x0; 0x0; 0x0; 0x0; 0x0];
    [0x0; 0x0; 0x0; 0x3C0; 0xFF0; 0xFF0; 0x7C3E; 0x7C3E; 0x7C3E; 0x63C6; 0x3C0; 0xFF0; 0x0; 0x0; 0x0; 0x0];
    [0x0; 0x0; 0x0; 0x180; 0x7E0; 0x1FF8; 0x7FFE; 0x7FFE; 0x1FF8; 0x180; 0x180; 0x7E0; 0x0; 0x0; 0x0; 0x0];
    [0x0; 0x0; 0x0; 0x0; 0x0; 0x0; 0x3C0; 0xFF0; 0xFF0; 0x3C0; 0x0; 0x0; 0x0; 0x0; 0x0; 0x0];
    [0xFFFF; 0xFFFF; 0xFFFF; 0xFFFF; 0xFFFF; 0xFFFF; 0xFC3F; 0xF00F; 0xF00F; 0xFC3F; 0xFFFF; 0xFFFF; 0xFFFF; 0xFFFF; 0xFFFF; 0xFFFF];
    [0x0; 0x0; 0x0; 0x0; 0x0; 0xFF0; 0x3C3C; 0x300C; 0x300C; 0x3C3C; 0xFF0; 0x0; 0x0; 0x0; 0x0; 0x0];
    [0xFFFF; 0xFFFF; 0xFFFF; 0xFFFF; 0xFFFF; 0xF00F; 0xC3C3; 0xCFF3; 0xCFF3; 0xC3C3; 0xF00F; 0xFFFF; 0xFFFF; 0xFFFF; 0xFFFF; 0xFFFF];
    [0x0; 0x0; 0x1FE; 0x7E; 0x1F6; 0x786; 0x1FE0; 0x3870; 0x3870; 0x3870; 0x3870; 0x1FE0; 0x0; 0x0; 0x0; 0x0];
    [0x0; 0x0; 0xFF0; 0x3C3C; 0x3C3C; 0x3C3C; 0x3C3C; 0xFF0; 0x3C0; 0x3FFC; 0x3C0; 0x3C0; 0x0; 0x0; 0x0; 0x0];
    [0x0; 0x0; 0xFFE; 0xF0E; 0xFFE; 0xE00; 0xE00; 0xE00; 0xE00; 0x3E00; 0x7E00; 0x3C00; 0x0; 0x0; 0x0; 0x0];
    [0x0; 0x0; 0x1FFE; 0x1C0E; 0x1FFE; 0x1C0E; 0x1C0E; 0x1C0E; 0x1C0E; 0x1C1E; 0x3C3E; 0x7C1C; 0x3800; 0x0; 0x0; 0x0];
    [0x0; 0x0; 0x0; 0x4002; 0x23C4; 0x13C8; 0xE70; 0x781E; 0xE70; 0x13C8; 0x23C4; 0x4002; 0x0; 0x0; 0x0; 0x0];
    [0x0; 0x3000; 0x3C00; 0x3F00; 0x3FC0; 0x3FF0; 0x3FF8; 0x3FF0; 0x3FC0; 0x3F00; 0x3C00; 0x3000; 0x0; 0x0; 0x0; 0x0];
    [0x0; 0xC; 0x3C; 0xFC; 0x3FC; 0xFFC; 0x1FFC; 0xFFC; 0x3FC; 0xFC; 0x3C; 0xC; 0x0; 0x0; 0x0; 0x0];
    [0x0; 0x180; 0x3C0; 0xFF0; 0x3FFC; 0x3C0; 0x3C0; 0x3C0; 0x3C0; 0x3FFC; 0xFF0; 0x3C0; 0x180; 0x0; 0x0; 0x0];
    [0x0; 0x0; 0x3C3C; 0x3C3C; 0x3C3C; 0x3C3C; 0x3C3C; 0x3C3C; 0x3C3C; 0x0; 0x3C3C; 0x3C3C; 0x0; 0x0; 0x0; 0x0];
    [0x0; 0x0; 0x3FFE; 0x71CE; 0x71CE; 0x71CE; 0x3FCE; 0x1CE; 0x1CE; 0x1CE; 0x1CE; 0x1CE; 0x0; 0x0; 0x0; 0x0];
    [0x0; 0x3FF0; 0x7038; 0x3C18; 0xFC0; 0x3CF0; 0x7038; 0x7038; 0x7038; 0x3CF0; 0xFC0; 0x60F0; 0x7038; 0x3FF0; 0x0; 0x0];
    [0x0; 0x0; 0x0; 0x0; 0x0; 0x0; 0x0; 0x0; 0x3FFC; 0x3FFC; 0x3FFC; 0x3FFC; 0x0; 0x0; 0x0; 0x0];
    [0x0; 0x180; 0x3C0; 0xFF0; 0x3FFC; 0x3C0; 0x3C0; 0x3C0; 0x3C0; 0x3FFC; 0xFF0; 0x3C0; 0x180; 0x3FFC; 0x0; 0x0];
    [0x0; 0x0; 0x180; 0x3C0; 0xFF0; 0x3FFC; 0x3C0; 0x3C0; 0x3C0; 0x3C0; 0x3C0; 0x3C0; 0x3C0; 0x0; 0x0; 0x0];
    [0x0; 0x0; 0x3C0; 0x3C0; 0x3C0; 0x3C0; 0x3C0; 0x3C0; 0x3C0; 0x3FFC; 0xFF0; 0x3C0; 0x180; 0x0; 0x0; 0x0];
    [0x0; 0x0; 0x0; 0x40; 0x60; 0x70; 0x78; 0x3FFC; 0x78; 0x70; 0x60; 0x40; 0x0; 0x0; 0x0; 0x0];
    [0x0; 0x0; 0x0; 0x200; 0x600; 0xE00; 0x1E00; 0x3FFC; 0x1E00; 0xE00; 0x600; 0x200; 0x0; 0x0; 0x0; 0x0];
    [0x0; 0x0; 0x0; 0x0; 0x0; 0x3800; 0x3800; 0x3800; 0x3800; 0x3FFE; 0x0; 0x0; 0x0; 0x0; 0x0; 0x0];
    [0x0; 0x0; 0x0; 0x0; 0x420; 0xC30; 0x1C38; 0x3FFC; 0x1C38; 0xC30; 0x420; 0x0; 0x0; 0x0; 0x0; 0x0];
    [0x0; 0x0; 0x0; 0x0; 0x180; 0x7E0; 0x7E0; 0x1FF8; 0x1FF8; 0x7FFE; 0x7FFE; 0x0; 0x0; 0x0; 0x0; 0x0];
    [0x0; 0x0; 0x0; 0x0; 0xFFFC; 0xFFFC; 0x3FF0; 0x3FF0; 0xFC0; 0xFC0; 0x300; 0x0; 0x0; 0x0; 0x0; 0x0];
    [0x0; 0x0; 0x0; 0x0; 0x0; 0x0; 0x0; 0x0; 0x0; 0x0; 0x0; 0x0; 0x0; 0x0; 0x0; 0x0];
    [0x0; 0x0; 0x3C0; 0x7E0; 0x7E0; 0x7E0; 0x3C0; 0x3C0; 0x3C0; 0x0; 0x3C0; 0x3C0; 0x0; 0x0; 0x0; 0x0];
    [0x0; 0x3C3C; 0x3C3C; 0x3C3C; 0xC30; 0x0; 0x0; 0x0; 0x0; 0x0; 0x0; 0x0; 0x0; 0x0; 0x0; 0x0];
    [0x0; 0x0; 0x0; 0x1C38; 0x1C38; 0x7FFE; 0x1C38; 0x1C38; 0x1C38; 0x7FFE; 0x1C38; 0x1C38; 0x0; 0x0; 0x0; 0x0];
    [0x0; 0x1E0; 0x1E0; 0x1FF8; 0x781E; 0x7806; 0x7800; 0x1FF8; 0x1E; 0x601E; 0x781E; 0x1FF8; 0x1E0; 0x1E0; 0x0; 0x0];
    [0x0; 0x0; 0x0; 0x0; 0x7806; 0x781E; 0x78; 0x1E0; 0x780; 0x1E00; 0x781E; 0x601E; 0x0; 0x0; 0x0; 0x0];
    [0x0; 0x0; 0x7E0; 0x1E78; 0x1E78; 0x7E0; 0x1F9E; 0x79F8; 0x7878; 0x7878; 0x7878; 0x1F9E; 0x0; 0x0; 0x0; 0x0];
    [0x0; 0xF00; 0xF00; 0xF00; 0x3C00; 0x0; 0x0; 0x0; 0x0; 0x0; 0x0; 0x0; 0x0; 0x0; 0x0; 0x0];
    [0x0; 0x0; 0xF0; 0x3C0; 0xF00; 0xF00; 0xF00; 0xF00; 0xF00; 0xF00; 0x3C0; 0xF0; 0x0; 0x0; 0x0; 0x0];
    [0x0; 0x0; 0xF00; 0x3C0; 0xF0; 0xF0; 0xF0; 0xF0; 0xF0; 0xF0; 0x3C0; 0xF00; 0x0; 0x0; 0x0; 0x0];
    [0x0; 0x0; 0x0; 0x0; 0x0; 0x3C3C; 0xFF0; 0x7FFE; 0xFF0; 0x3C3C; 0x0; 0x0; 0x0; 0x0; 0x0; 0x0];
    [0x0; 0x0; 0x0; 0x0; 0x0; 0x3C0; 0x3C0; 0x3FFC; 0x3C0; 0x3C0; 0x0; 0x0; 0x0; 0x0; 0x0; 0x0];
    [0x0; 0x0; 0x0; 0x0; 0x0; 0x0; 0x0; 0x0; 0x0; 0x3C0; 0x3C0; 0x3C0; 0xF00; 0x0; 0x0; 0x0];
    [0x0; 0x0; 0x0; 0x0; 0x0; 0x0; 0x0; 0x3FFC; 0x0; 0x0; 0x0; 0x0; 0x0; 0x0; 0x0; 0x0];
    [0x0; 0x0; 0x0; 0x0; 0x0; 0x0; 0x0; 0x0; 0x0; 0x0; 0x3C0; 0x3C0; 0x0; 0x0; 0x0; 0x0];
    [0x0; 0x0; 0x0; 0x0; 0x6; 0x1E; 0x78; 0x1E0; 0x780; 0x1E00; 0x7800; 0x6000; 0x0; 0x0; 0x0; 0x0];
    [0x0; 0x0; 0x1FF8; 0x781E; 0x781E; 0x787E; 0x799E; 0x799E; 0x7E1E; 0x781E; 0x781E; 0x1FF8; 0x0; 0x0; 0x0; 0x0];
    [0x0; 0x0; 0x3C0; 0xFC0; 0x3FC0; 0x3C0; 0x3C0; 0x3C0; 0x3C0; 0x3C0; 0x3C0; 0x3FFC; 0x0; 0x0; 0x0; 0x0];
    [0x0; 0x0; 0x1FF8; 0x781E; 0x1E; 0x78; 0x1E0; 0x780; 0x1E00; 0x7800; 0x781E; 0x7FFE; 0x0; 0x0; 0x0; 0x0];
    [0x0; 0x0; 0x1FF8; 0x781E; 0x1E; 0x1E; 0x7F8; 0x1E; 0x1E; 0x1E; 0x781E; 0x1FF8; 0x0; 0x0; 0x0; 0x0];
    [0x0; 0x0; 0x78; 0x1F8; 0x7F8; 0x1E78; 0x7878; 0x7FFE; 0x78; 0x78; 0x78; 0x1FE; 0x0; 0x0; 0x0; 0x0];
    [0x0; 0x0; 0x7FFE; 0x7800; 0x7800; 0x7800; 0x7FF8; 0x7E; 0x1E; 0x1E; 0x781E; 0x1FF8; 0x0; 0x0; 0x0; 0x0];
    [0x0; 0x0; 0x7E0; 0x1E00; 0x7800; 0x7800; 0x7FF8; 0x781E; 0x781E; 0x781E; 0x781E; 0x1FF8; 0x0; 0x0; 0x0; 0x0];
    [0x0; 0x0; 0x7FFE; 0x781E; 0x1E; 0x1E; 0x78; 0x1E0; 0x780; 0x780; 0x780; 0x780; 0x0; 0x0; 0x0; 0x0];
    [0x0; 0x0; 0x1FF8; 0x781E; 0x781E; 0x781E; 0x1FF8; 0x781E; 0x781E; 0x781E; 0x781E; 0x1FF8; 0x0; 0x0; 0x0; 0x0];
    [0x0; 0x0; 0x1FF8; 0x781E; 0x781E; 0x781E; 0x1FFE; 0x1E; 0x1E; 0x1E; 0x78; 0x1FE0; 0x0; 0x0; 0x0; 0x0];
    [0x0; 0x0; 0x0; 0x0; 0x3C0; 0x3C0; 0x0; 0x0; 0x0; 0x3C0; 0x3C0; 0x0; 0x0; 0x0; 0x0; 0x0];
    [0x0; 0x0; 0x0; 0x0; 0x3C0; 0x3C0; 0x0; 0x0; 0x0; 0x3C0; 0x3C0; 0xF00; 0x0; 0x0; 0x0; 0x0];
    [0x0; 0x0; 0x0; 0x3C; 0xF0; 0x3C0; 0xF00; 0x3C00; 0xF00; 0x3C0; 0xF0; 0x3C; 0x0; 0x0; 0x0; 0x0];
    [0x0; 0x0; 0x0; 0x0; 0x0; 0x0; 0x3FFC; 0x0; 0x0; 0x3FFC; 0x0; 0x0; 0x0; 0x0; 0x0; 0x0];
    [0x0; 0x0; 0x0; 0x3C00; 0xF00; 0x3C0; 0xF0; 0x3C; 0xF0; 0x3C0; 0xF00; 0x3C00; 0x0; 0x0; 0x0; 0x0];
    [0x0; 0x0; 0x1FF8; 0x781E; 0x781E; 0x78; 0x1E0; 0x1E0; 0x1E0; 0x0; 0x1E0; 0x1E0; 0x0; 0x0; 0x0; 0x0];
    [0x0; 0x0; 0x0; 0x1FF8; 0x781E; 0x781E; 0x79FE; 0x79FE; 0x79FE; 0x79F8; 0x7800; 0x1FF8; 0x0; 0x0; 0x0; 0x0];
    [0x0; 0x0; 0x180; 0x7E0; 0x1E78; 0x781E; 0x781E; 0x7FFE; 0x781E; 0x781E; 0x781E; 0x781E; 0x0; 0x0; 0x0; 0x0];
    [0x0; 0x0; 0x7FF8; 0x1E1E; 0x1E1E; 0x1E1E; 0x1FF8; 0x1E1E; 0x1E1E; 0x1E1E; 0x1E1E; 0x7FF8; 0x0; 0x0; 0x0; 0x0];
    [0x0; 0x0; 0x7F8; 0x1E1E; 0x7806; 0x7800; 0x7800; 0x7800; 0x7800; 0x7806; 0x1E1E; 0x7F8; 0x0; 0x0; 0x0; 0x0];
    [0x0; 0x0; 0x7FE0; 0x1E78; 0x1E1E; 0x1E1E; 0x1E1E; 0x1E1E; 0x1E1E; 0x1E1E; 0x1E78; 0x7FE0; 0x0; 0x0; 0x0; 0x0];
    [0x0; 0x0; 0x7FFE; 0x1E1E; 0x1E06; 0x1E60; 0x1FE0; 0x1E60; 0x1E00; 0x1E06; 0x1E1E; 0x7FFE; 0x0; 0x0; 0x0; 0x0];
    [0x0; 0x0; 0x7FFE; 0x1E1E; 0x1E06; 0x1E60; 0x1FE0; 0x1E60; 0x1E00; 0x1E00; 0x1E00; 0x7F80; 0x0; 0x0; 0x0; 0x0];
    [0x0; 0x0; 0x7F8; 0x1E1E; 0x7806; 0x7800; 0x7800; 0x79FE; 0x781E; 0x781E; 0x1E1E; 0x7E6; 0x0; 0x0; 0x0; 0x0];
    [0x0; 0x0; 0x781E; 0x781E; 0x781E; 0x781E; 0x7FFE; 0x781E; 0x781E; 0x781E; 0x781E; 0x781E; 0x0; 0x0; 0x0; 0x0];
    [0x0; 0x0; 0x7F8; 0x1E0; 0x1E0; 0x1E0; 0x1E0; 0x1E0; 0x1E0; 0x1E0; 0x1E0; 0x7F8; 0x0; 0x0; 0x0; 0x0];
    [0x0; 0x0; 0x1FE; 0x78; 0x78; 0x78; 0x78; 0x78; 0x7878; 0x7878; 0x7878; 0x1FE0; 0x0; 0x0; 0x0; 0x0];
    [0x0; 0x0; 0x7E1E; 0x1E1E; 0x1E78; 0x1E78; 0x1FE0; 0x1FE0; 0x1E78; 0x1E1E; 0x1E1E; 0x7E1E; 0x0; 0x0; 0x0; 0x0];
    [0x0; 0x0; 0x7F80; 0x1E00; 0x1E00; 0x1E00; 0x1E00; 0x1E00; 0x1E00; 0x1E06; 0x1E1E; 0x7FFE; 0x0; 0x0; 0x0; 0x0];
    [0x0; 0x0; 0x781E; 0x7E7E; 0x7FFE; 0x7FFE; 0x799E; 0x781E; 0x781E; 0x781E; 0x781E; 0x781E; 0x0; 0x0; 0x0; 0x0];
    [0x0; 0x0; 0x781E; 0x7E1E; 0x7F9E; 0x7FFE; 0x79FE; 0x787E; 0x781E; 0x781E; 0x781E; 0x781E; 0x0; 0x0; 0x0; 0x0];
    [0x0; 0x0; 0x7E0; 0x1E78; 0x781E; 0x781E; 0x781E; 0x781E; 0x781E; 0x781E; 0x1E78; 0x7E0; 0x0; 0x0; 0x0; 0x0];
    [0x0; 0x0; 0x7FF8; 0x1E1E; 0x1E1E; 0x1E1E; 0x1FF8; 0x1E00; 0x1E00; 0x1E00; 0x1E00; 0x7F80; 0x0; 0x0; 0x0; 0x0];
    [0x0; 0x0; 0x1FF8; 0x781E; 0x781E; 0x781E; 0x781E; 0x781E; 0x781E; 0x799E; 0x79FE; 0x1FF8; 0x78; 0x7E; 0x0; 0x0];
    [0x0; 0x0; 0x7FF8; 0x1E1E; 0x1E1E; 0x1E1E; 0x1FF8; 0x1E78; 0x1E1E; 0x1E1E; 0x1E1E; 0x7E1E; 0x0; 0x0; 0x0; 0x0];
    [0x0; 0x0; 0x1FF8; 0x781E; 0x781E; 0x1E00; 0x7E0; 0x78; 0x1E; 0x781E; 0x781E; 0x1FF8; 0x0; 0x0; 0x0; 0x0];
    [0x0; 0x0; 0x1FFE; 0x1FFE; 0x19E6; 0x1E0; 0x1E0; 0x1E0; 0x1E0; 0x1E0; 0x1E0; 0x7F8; 0x0; 0x0; 0x0; 0x0];
    [0x0; 0x0; 0x781E; 0x781E; 0x781E; 0x781E; 0x781E; 0x781E; 0x781E; 0x781E; 0x781E; 0x1FF8; 0x0; 0x0; 0x0; 0x0];
    [0x0; 0x0; 0x781E; 0x781E; 0x781E; 0x781E; 0x781E; 0x781E; 0x781E; 0x1E78; 0x7E0; 0x180; 0x0; 0x0; 0x0; 0x0];
    [0x0; 0x0; 0x781E; 0x781E; 0x781E; 0x781E; 0x781E; 0x799E; 0x799E; 0x7FFE; 0x1E78; 0x1E78; 0x0; 0x0; 0x0; 0x0];
    [0x0; 0x0; 0x781E; 0x781E; 0x1E78; 0x1E78; 0x7E0; 0x7E0; 0x1E78; 0x1E78; 0x781E; 0x781E; 0x0; 0x0; 0x0; 0x0];
    [0x0; 0x0; 0x3C3C; 0x3C3C; 0x3C3C; 0x3C3C; 0xFF0; 0x3C0; 0x3C0; 0x3C0; 0x3C0; 0xFF0; 0x0; 0x0; 0x0; 0x0];
    [0x0; 0x0; 0x7FFE; 0x781E; 0x601E; 0x78; 0x1E0; 0x780; 0x1E00; 0x7806; 0x781E; 0x7FFE; 0x0; 0x0; 0x0; 0x0];
    [0x0; 0x0; 0xFF0; 0xF00; 0xF00; 0xF00; 0xF00; 0xF00; 0xF00; 0xF00; 0xF00; 0xFF0; 0x0; 0x0; 0x0; 0x0];
    [0x0; 0x0; 0x0; 0x6000; 0x7800; 0x7E00; 0x1F80; 0x7E0; 0x1F8; 0x7E; 0x1E; 0x6; 0x0; 0x0; 0x0; 0x0];
    [0x0; 0x0; 0xFF0; 0xF0; 0xF0; 0xF0; 0xF0; 0xF0; 0xF0; 0xF0; 0xF0; 0xFF0; 0x0; 0x0; 0x0; 0x0];
    [0x180; 0x7E0; 0x1E78; 0x781E; 0x0; 0x0; 0x0; 0x0; 0x0; 0x0; 0x0; 0x0; 0x0; 0x0; 0x0; 0x0];
    [0x0; 0x0; 0x0; 0x0; 0x0; 0x0; 0x0; 0x0; 0x0; 0x0; 0x0; 0x0; 0x0; 0xFFFF; 0x0; 0x0];
    [0xF00; 0xF00; 0x3C0; 0x0; 0x0; 0x0; 0x0; 0x0; 0x0; 0x0; 0x0; 0x0; 0x0; 0x0; 0x0; 0x0];
    [0x0; 0x0; 0x0; 0x0; 0x0; 0x1FE0; 0x78; 0x1FF8; 0x7878; 0x7878; 0x7878; 0x1F9E; 0x0; 0x0; 0x0; 0x0];
    [0x0; 0x0; 0x7E00; 0x1E00; 0x1E00; 0x1FE0; 0x1E78; 0x1E1E; 0x1E1E; 0x1E1E; 0x1E1E; 0x79F8; 0x0; 0x0; 0x0; 0x0];
    [0x0; 0x0; 0x0; 0x0; 0x0; 0x1FF8; 0x781E; 0x7800; 0x7800; 0x7800; 0x781E; 0x1FF8; 0x0; 0x0; 0x0; 0x0];
    [0x0; 0x0; 0x1F8; 0x78; 0x78; 0x7F8; 0x1E78; 0x7878; 0x7878; 0x7878; 0x7878; 0x1F9E; 0x0; 0x0; 0x0; 0x0];
    [0x0; 0x0; 0x0; 0x0; 0x0; 0x1FF8; 0x781E; 0x7FFE; 0x7800; 0x7800; 0x781E; 0x1FF8; 0x0; 0x0; 0x0; 0x0];
    [0x0; 0x0; 0x7E0; 0x1E78; 0x1E18; 0x1E00; 0x7F80; 0x1E00; 0x1E00; 0x1E00; 0x1E00; 0x7F80; 0x0; 0x0; 0x0; 0x0];
    [0x0; 0x0; 0x0; 0x0; 0x0; 0x1F9E; 0x7878; 0x7878; 0x7878; 0x7878; 0x7878; 0x1FF8; 0x78; 0x7878; 0x1FE0; 0x0];
    [0x0; 0x0; 0x7E00; 0x1E00; 0x1E00; 0x1E78; 0x1F9E; 0x1E1E; 0x1E1E; 0x1E1E; 0x1E1E; 0x7E1E; 0x0; 0x0; 0x0; 0x0];
    [0x0; 0x0; 0x1E0; 0x1E0; 0x0; 0x7E0; 0x1E0; 0x1E0; 0x1E0; 0x1E0; 0x1E0; 0x7F8; 0x0; 0x0; 0x0; 0x0];
    [0x0; 0x0; 0x1E; 0x1E; 0x0; 0x7E; 0x1E; 0x1E; 0x1E; 0x1E; 0x1E; 0x1E; 0x1E1E; 0x1E1E; 0x7F8; 0x0];
    [0x0; 0x0; 0x7E00; 0x1E00; 0x1E00; 0x1E1E; 0x1E78; 0x1FE0; 0x1FE0; 0x1E78; 0x1E1E; 0x7E1E; 0x0; 0x0; 0x0; 0x0];
    [0x0; 0x0; 0x7E0; 0x1E0; 0x1E0; 0x1E0; 0x1E0; 0x1E0; 0x1E0; 0x1E0; 0x1E0; 0x7F8; 0x0; 0x0; 0x0; 0x0];
    [0x0; 0x0; 0x0; 0x0; 0x0; 0x7E78; 0x7FFE; 0x799E; 0x799E; 0x799E; 0x799E; 0x799E; 0x0; 0x0; 0x0; 0x0];
    [0x0; 0x0; 0x0; 0x0; 0x0; 0x79F8; 0x1E1E; 0x1E1E; 0x1E1E; 0x1E1E; 0x1E1E; 0x1E1E; 0x0; 0x0; 0x0; 0x0];
    [0x0; 0x0; 0x0; 0x0; 0x0; 0x1FF8; 0x781E; 0x781E; 0x781E; 0x781E; 0x781E; 0x1FF8; 0x0; 0x0; 0x0; 0x0];
    [0x0; 0x0; 0x0; 0x0; 0x0; 0x79F8; 0x1E1E; 0x1E1E; 0x1E1E; 0x1E1E; 0x1E1E; 0x1FF8; 0x1E00; 0x1E00; 0x7F80; 0x0];
    [0x0; 0x0; 0x0; 0x0; 0x0; 0x1F9E; 0x7878; 0x7878; 0x7878; 0x7878; 0x7878; 0x1FF8; 0x78; 0x78; 0x1FE; 0x0];
    [0x0; 0x0; 0x0; 0x0; 0x0; 0x79F8; 0x1F9E; 0x1E06; 0x1E00; 0x1E00; 0x1E00; 0x7F80; 0x0; 0x0; 0x0; 0x0];
    [0x0; 0x0; 0x0; 0x0; 0x0; 0x1FF8; 0x781E; 0x1E00; 0x7E0; 0x78; 0x781E; 0x1FF8; 0x0; 0x0; 0x0; 0x0];
    [0x0; 0x0; 0x180; 0x780; 0x780; 0x7FF8; 0x780; 0x780; 0x780; 0x780; 0x79E; 0x1F8; 0x0; 0x0; 0x0; 0x0];
    [0x0; 0x0; 0x0; 0x0; 0x0; 0x7878; 0x7878; 0x7878; 0x7878; 0x7878; 0x7878; 0x1F9E; 0x0; 0x0; 0x0; 0x0];
    [0x0; 0x0; 0x0; 0x0; 0x0; 0x1E1E; 0x1E1E; 0x1E1E; 0x1E1E; 0x1E1E; 0x7F8; 0x1E0; 0x0; 0x0; 0x0; 0x0];
    [0x0; 0x0; 0x0; 0x0; 0x0; 0x781E; 0x781E; 0x781E; 0x799E; 0x799E; 0x7FFE; 0x1E78; 0x0; 0x0; 0x0; 0x0];
    [0x0; 0x0; 0x0; 0x0; 0x0; 0x781E; 0x1E78; 0x7E0; 0x7E0; 0x7E0; 0x1E78; 0x781E; 0x0; 0x0; 0x0; 0x0];
    [0x0; 0x0; 0x0; 0x0; 0x0; 0x781E; 0x781E; 0x781E; 0x781E; 0x781E; 0x781E; 0x1FFE; 0x1E; 0x78; 0x7FE0; 0x0];
    [0x0; 0x0; 0x0; 0x0; 0x0; 0x7FFE; 0x7878; 0x1E0; 0x780; 0x1E00; 0x781E; 0x7FFE; 0x0; 0x0; 0x0; 0x0];
    [0x0; 0x0; 0xFC; 0x3C0; 0x3C0; 0x3C0; 0xF00; 0x3C0; 0x3C0; 0x3C0; 0x3C0; 0xFC; 0x0; 0x0; 0x0; 0x0];
    [0x0; 0x3C0; 0x3C0; 0x3C0; 0x3C0; 0x3C0; 0x3C0; 0x0; 0x0; 0x3C0; 0x3C0; 0x3C0; 0x3C0; 0x3C0; 0x3C0; 0x0];
    [0x0; 0x0; 0x3F00; 0x3C0; 0x3C0; 0x3C0; 0xF0; 0x3C0; 0x3C0; 0x3C0; 0x3C0; 0x3F00; 0x0; 0x0; 0x0; 0x0];
    [0x0; 0x0; 0x1F9E; 0x79F8; 0x0; 0x0; 0x0; 0x0; 0x0; 0x0; 0x0; 0x0; 0x0; 0x0; 0x0; 0x0];
    [0x0; 0x0; 0x0; 0x0; 0x180; 0x7E0; 0x1E78; 0x781E; 0x781E; 0x781E; 0x7FFE; 0x0; 0x0; 0x0; 0x0; 0x0];
    [0x0; 0x0; 0x7F8; 0x1E1E; 0x7806; 0x7800; 0x7800; 0x7800; 0x7806; 0x1E1E; 0x7F8; 0x78; 0x1E; 0x1FF8; 0x0; 0x0];
    [0x0; 0x0; 0x7878; 0x7878; 0x0; 0x7878; 0x7878; 0x7878; 0x7878; 0x7878; 0x7878; 0x1F9E; 0x0; 0x0; 0x0; 0x0];
    [0x0; 0x78; 0x1E0; 0x780; 0x0; 0x1FF8; 0x781E; 0x7FFE; 0x7800; 0x7800; 0x781E; 0x1FF8; 0x0; 0x0; 0x0; 0x0];
    [0x0; 0x180; 0x7E0; 0x1E78; 0x0; 0x1FE0; 0x78; 0x1FF8; 0x7878; 0x7878; 0x7878; 0x1F9E; 0x0; 0x0; 0x0; 0x0];
    [0x0; 0x0; 0x7878; 0x7878; 0x0; 0x1FE0; 0x78; 0x1FF8; 0x7878; 0x7878; 0x7878; 0x1F9E; 0x0; 0x0; 0x0; 0x0];
    [0x0; 0x1E00; 0x780; 0x1E0; 0x0; 0x1FE0; 0x78; 0x1FF8; 0x7878; 0x7878; 0x7878; 0x1F9E; 0x0; 0x0; 0x0; 0x0];
    [0x0; 0x7E0; 0x1E78; 0x7E0; 0x0; 0x1FE0; 0x78; 0x1FF8; 0x7878; 0x7878; 0x7878; 0x1F9E; 0x0; 0x0; 0x0; 0x0];
    [0x0; 0x0; 0x0; 0x0; 0xFF0; 0x3C3C; 0x3C00; 0x3C00; 0x3C3C; 0xFF0; 0xF0; 0x3C; 0xFF0; 0x0; 0x0; 0x0];
    [0x0; 0x180; 0x7E0; 0x1E78; 0x0; 0x1FF8; 0x781E; 0x7FFE; 0x7800; 0x7800; 0x781E; 0x1FF8; 0x0; 0x0; 0x0; 0x0];
    [0x0; 0x0; 0x781E; 0x781E; 0x0; 0x1FF8; 0x781E; 0x7FFE; 0x7800; 0x7800; 0x781E; 0x1FF8; 0x0; 0x0; 0x0; 0x0];
    [0x0; 0x1E00; 0x780; 0x1E0; 0x0; 0x1FF8; 0x781E; 0x7FFE; 0x7800; 0x7800; 0x781E; 0x1FF8; 0x0; 0x0; 0x0; 0x0];
    [0x0; 0x0; 0x3C3C; 0x3C3C; 0x0; 0xFC0; 0x3C0; 0x3C0; 0x3C0; 0x3C0; 0x3C0; 0xFF0; 0x0; 0x0; 0x0; 0x0];
    [0x0; 0x3C0; 0xFF0; 0x3C3C; 0x0; 0xFC0; 0x3C0; 0x3C0; 0x3C0; 0x3C0; 0x3C0; 0xFF0; 0x0; 0x0; 0x0; 0x0];
    [0x0; 0x3C00; 0xF00; 0x3C0; 0x0; 0xFC0; 0x3C0; 0x3C0; 0x3C0; 0x3C0; 0x3C0; 0xFF0; 0x0; 0x0; 0x0; 0x0];
    [0x0; 0x781E; 0x781E; 0x180; 0x7E0; 0x1E78; 0x781E; 0x781E; 0x7FFE; 0x781E; 0x781E; 0x781E; 0x0; 0x0; 0x0; 0x0];
    [0x7E0; 0x1E78; 0x7E0; 0x0; 0x7E0; 0x1E78; 0x781E; 0x781E; 0x7FFE; 0x781E; 0x781E; 0x781E; 0x0; 0x0; 0x0; 0x0];
    [0x1E0; 0x780; 0x1E00; 0x0; 0x7FFE; 0x1E1E; 0x1E00; 0x1FF8; 0x1E00; 0x1E00; 0x1E1E; 0x7FFE; 0x0; 0x0; 0x0; 0x0];
    [0x0; 0x0; 0x0; 0x0; 0x0; 0x7878; 0x1F9E; 0x79E; 0x1FFE; 0x79E0; 0x79E0; 0x1E7E; 0x0; 0x0; 0x0; 0x0];
    [0x0; 0x0; 0x7FE; 0x1E78; 0x7878; 0x7878; 0x7FFE; 0x7878; 0x7878; 0x7878; 0x7878; 0x787E; 0x0; 0x0; 0x0; 0x0];
    [0x0; 0x180; 0x7E0; 0x1E78; 0x0; 0x1FF8; 0x781E; 0x781E; 0x781E; 0x781E; 0x781E; 0x1FF8; 0x0; 0x0; 0x0; 0x0];
    [0x0; 0x0; 0x781E; 0x781E; 0x0; 0x1FF8; 0x781E; 0x781E; 0x781E; 0x781E; 0x781E; 0x1FF8; 0x0; 0x0; 0x0; 0x0];
    [0x0; 0x1E00; 0x780; 0x1E0; 0x0; 0x1FF8; 0x781E; 0x781E; 0x781E; 0x781E; 0x781E; 0x1FF8; 0x0; 0x0; 0x0; 0x0];
    [0x0; 0x780; 0x1FE0; 0x7878; 0x0; 0x7878; 0x7878; 0x7878; 0x7878; 0x7878; 0x7878; 0x1F9E; 0x0; 0x0; 0x0; 0x0];
    [0x0; 0x1E00; 0x780; 0x1E0; 0x0; 0x7878; 0x7878; 0x7878; 0x7878; 0x7878; 0x7878; 0x1F9E; 0x0; 0x0; 0x0; 0x0];
    [0x0; 0x0; 0x781E; 0x781E; 0x0; 0x781E; 0x781E; 0x781E; 0x781E; 0x781E; 0x781E; 0x1FFE; 0x1E; 0x78; 0x1FE0; 0x0];
    [0x0; 0x781E; 0x781E; 0x0; 0x7E0; 0x1E78; 0x781E; 0x781E; 0x781E; 0x781E; 0x1E78; 0x7E0; 0x0; 0x0; 0x0; 0x0];
    [0x0; 0x781E; 0x781E; 0x0; 0x781E; 0x781E; 0x781E; 0x781E; 0x781E; 0x781E; 0x781E; 0x1FF8; 0x0; 0x0; 0x0; 0x0];
    [0x0; 0x3C0; 0x3C0; 0xFF0; 0x3C3C; 0x3C00; 0x3C00; 0x3C00; 0x3C3C; 0xFF0; 0x3C0; 0x3C0; 0x0; 0x0; 0x0; 0x0];
    [0x0; 0x7E0; 0x1E78; 0x1E18; 0x1E00; 0x7F80; 0x1E00; 0x1E00; 0x1E00; 0x1E00; 0x7E1E; 0x7FF8; 0x0; 0x0; 0x0; 0x0];
    [0x0; 0x0; 0x3C3C; 0x3C3C; 0xFF0; 0x3C0; 0x3FFC; 0x3C0; 0x3FFC; 0x3C0; 0x3C0; 0x3C0; 0x0; 0x0; 0x0; 0x0];
    [0x0; 0x7FE0; 0x7878; 0x7878; 0x7FE0; 0x7818; 0x7878; 0x79FE; 0x7878; 0x7878; 0x7878; 0x781E; 0x0; 0x0; 0x0; 0x0];
    [0x0; 0xFC; 0x3CF; 0x3C0; 0x3C0; 0x3C0; 0x3FFC; 0x3C0; 0x3C0; 0x3C0; 0x3C0; 0x3C0; 0xF3C0; 0x3F00; 0x0; 0x0];
    [0x0; 0x1E0; 0x780; 0x1E00; 0x0; 0x1FE0; 0x78; 0x1FF8; 0x7878; 0x7878; 0x7878; 0x1F9E; 0x0; 0x0; 0x0; 0x0];
    [0x0; 0xF0; 0x3C0; 0xF00; 0x0; 0xFC0; 0x3C0; 0x3C0; 0x3C0; 0x3C0; 0x3C0; 0xFF0; 0x0; 0x0; 0x0; 0x0];
    [0x0; 0x1E0; 0x780; 0x1E00; 0x0; 0x1FF8; 0x781E; 0x781E; 0x781E; 0x781E; 0x781E; 0x1FF8; 0x0; 0x0; 0x0; 0x0];
    [0x0; 0x1E0; 0x780; 0x1E00; 0x0; 0x7878; 0x7878; 0x7878; 0x7878; 0x7878; 0x7878; 0x1F9E; 0x0; 0x0; 0x0; 0x0];
    [0x0; 0x0; 0x1F9E; 0x79F8; 0x0; 0x79F8; 0x1E1E; 0x1E1E; 0x1E1E; 0x1E1E; 0x1E1E; 0x1E1E; 0x0; 0x0; 0x0; 0x0];
    [0x1F9E; 0x79F8; 0x0; 0x781E; 0x7E1E; 0x7F9E; 0x7FFE; 0x79FE; 0x787E; 0x781E; 0x781E; 0x781E; 0x0; 0x0; 0x0; 0x0];
    [0x0; 0xFF0; 0x3CF0; 0x3CF0; 0xFFC; 0x0; 0x3FFC; 0x0; 0x0; 0x0; 0x0; 0x0; 0x0; 0x0; 0x0; 0x0];
    [0x0; 0x7E0; 0x1E78; 0x1E78; 0x7E0; 0x0; 0x1FF8; 0x0; 0x0; 0x0; 0x0; 0x0; 0x0; 0x0; 0x0; 0x0];
    [0x0; 0x0; 0x780; 0x780; 0x0; 0x780; 0x780; 0x1E00; 0x7800; 0x781E; 0x781E; 0x1FF8; 0x0; 0x0; 0x0; 0x0];
    [0x0; 0x0; 0x0; 0x0; 0x0; 0x0; 0xFFFC; 0xF000; 0xF000; 0xF000; 0xF000; 0x0; 0x0; 0x0; 0x0; 0x0];
    [0x0; 0x0; 0x0; 0x0; 0x0; 0x0; 0xFFFC; 0x3C; 0x3C; 0x3C; 0x3C; 0x0; 0x0; 0x0; 0x0; 0x0];
    [0x0; 0x7000; 0x7000; 0x700C; 0x703C; 0x70F0; 0x3C0; 0xF00; 0x3C00; 0xF0FC; 0xC30E; 0x3C; 0xF0; 0x3FE; 0x0; 0x0];
    [0x0; 0x7000; 0x7000; 0x700C; 0x703C; 0x70F0; 0x3C0; 0xF00; 0x3C3C; 0xF0FC; 0xC38C; 0x7FE; 0x3C; 0xFE; 0x0; 0x0];
    [0x0; 0x0; 0x3C0; 0x3C0; 0x0; 0x3C0; 0x3C0; 0x3C0; 0x7E0; 0x7E0; 0x7E0; 0x3C0; 0x0; 0x0; 0x0; 0x0];
    [0x0; 0x0; 0x0; 0x0; 0x0; 0xE0E; 0x3C3C; 0x7070; 0x3C3C; 0xE0E; 0x0; 0x0; 0x0; 0x0; 0x0; 0x0];
    [0x0; 0x0; 0x0; 0x0; 0x0; 0x7070; 0x3C3C; 0xE0E; 0x3C3C; 0x7070; 0x0; 0x0; 0x0; 0x0; 0x0; 0x0];
    [0x303; 0x3030; 0x303; 0x3030; 0x303; 0x3030; 0x303; 0x3030; 0x303; 0x3030; 0x303; 0x3030; 0x303; 0x3030; 0x303; 0x3030];
    [0xAAAA; 0x5555; 0xAAAA; 0x5555; 0xAAAA; 0x5555; 0xAAAA; 0x5555; 0xAAAA; 0x5555; 0xAAAA; 0x5555; 0xAAAA; 0x5555; 0xAAAA; 0x5555];
    [0xF3F3; 0x3F3F; 0xF3F3; 0x3F3F; 0xF3F3; 0x3F3F; 0xF3F3; 0x3F3F; 0xF3F3; 0x3F3F; 0xF3F3; 0x3F3F; 0xF3F3; 0x3F3F; 0xF3F3; 0x3F3F];
    [0x3C0; 0x3C0; 0x3C0; 0x3C0; 0x3C0; 0x3C0; 0x3C0; 0x3C0; 0x3C0; 0x3C0; 0x3C0; 0x3C0; 0x3C0; 0x3C0; 0x3C0; 0x3C0];
    [0x3C0; 0x3C0; 0x3C0; 0x3C0; 0x3C0; 0x3C0; 0x3C0; 0xFFC0; 0x3C0; 0x3C0; 0x3C0; 0x3C0; 0x3C0; 0x3C0; 0x3C0; 0x3C0];
    [0x3C0; 0x3C0; 0x3C0; 0x3C0; 0x3C0; 0xFFC0; 0x3C0; 0xFFC0; 0x3C0; 0x3C0; 0x3C0; 0x3C0; 0x3C0; 0x3C0; 0x3C0; 0x3C0];
    [0xF3C; 0xF3C; 0xF3C; 0xF3C; 0xF3C; 0xF3C; 0xF3C; 0xFF3C; 0xF3C; 0xF3C; 0xF3C; 0xF3C; 0xF3C; 0xF3C; 0xF3C; 0xF3C];
    [0x0; 0x0; 0x0; 0x0; 0x0; 0x0; 0x0; 0xFFFC; 0xF3C; 0xF3C; 0xF3C; 0xF3C; 0xF3C; 0xF3C; 0xF3C; 0xF3C];
    [0x0; 0x0; 0x0; 0x0; 0x0; 0xFFC0; 0x3C0; 0xFFC0; 0x3C0; 0x3C0; 0x3C0; 0x3C0; 0x3C0; 0x3C0; 0x3C0; 0x3C0];
    [0xF3C; 0xF3C; 0xF3C; 0xF3C; 0xF3C; 0xFF3C; 0x3C; 0xFF3C; 0xF3C; 0xF3C; 0xF3C; 0xF3C; 0xF3C; 0xF3C; 0xF3C; 0xF3C];
    [0xF3C; 0xF3C; 0xF3C; 0xF3C; 0xF3C; 0xF3C; 0xF3C; 0xF3C; 0xF3C; 0xF3C; 0xF3C; 0xF3C; 0xF3C; 0xF3C; 0xF3C; 0xF3C];
    [0x0; 0x0; 0x0; 0x0; 0x0; 0xFFFC; 0x3C; 0xFF3C; 0xF3C; 0xF3C; 0xF3C; 0xF3C; 0xF3C; 0xF3C; 0xF3C; 0xF3C];
    [0xF3C; 0xF3C; 0xF3C; 0xF3C; 0xF3C; 0xFF3C; 0x3C; 0xFFFC; 0x0; 0x0; 0x0; 0x0; 0x0; 0x0; 0x0; 0x0];
    [0xF3C; 0xF3C; 0xF3C; 0xF3C; 0xF3C; 0xF3C; 0xF3C; 0xFFFC; 0x0; 0x0; 0x0; 0x0; 0x0; 0x0; 0x0; 0x0];
    [0x3C0; 0x3C0; 0x3C0; 0x3C0; 0x3C0; 0xFFC0; 0x3C0; 0xFFC0; 0x0; 0x0; 0x0; 0x0; 0x0; 0x0; 0x0; 0x0];
    [0x0; 0x0; 0x0; 0x0; 0x0; 0x0; 0x0; 0xFFC0; 0x3C0; 0x3C0; 0x3C0; 0x3C0; 0x3C0; 0x3C0; 0x3C0; 0x3C0];
    [0x3C0; 0x3C0; 0x3C0; 0x3C0; 0x3C0; 0x3C0; 0x3C0; 0x3FF; 0x0; 0x0; 0x0; 0x0; 0x0; 0x0; 0x0; 0x0];
    [0x3C0; 0x3C0; 0x3C0; 0x3C0; 0x3C0; 0x3C0; 0x3C0; 0xFFFF; 0x0; 0x0; 0x0; 0x0; 0x0; 0x0; 0x0; 0x0];
    [0x0; 0x0; 0x0; 0x0; 0x0; 0x0; 0x0; 0xFFFF; 0x3C0; 0x3C0; 0x3C0; 0x3C0; 0x3C0; 0x3C0; 0x3C0; 0x3C0];
    [0x3C0; 0x3C0; 0x3C0; 0x3C0; 0x3C0; 0x3C0; 0x3C0; 0x3FF; 0x3C0; 0x3C0; 0x3C0; 0x3C0; 0x3C0; 0x3C0; 0x3C0; 0x3C0];
    [0x0; 0x0; 0x0; 0x0; 0x0; 0x0; 0x0; 0xFFFF; 0x0; 0x0; 0x0; 0x0; 0x0; 0x0; 0x0; 0x0];
    [0x3C0; 0x3C0; 0x3C0; 0x3C0; 0x3C0; 0x3C0; 0x3C0; 0xFFFF; 0x3C0; 0x3C0; 0x3C0; 0x3C0; 0x3C0; 0x3C0; 0x3C0; 0x3C0];
    [0x3C0; 0x3C0; 0x3C0; 0x3C0; 0x3C0; 0x3FF; 0x3C0; 0x3FF; 0x3C0; 0x3C0; 0x3C0; 0x3C0; 0x3C0; 0x3C0; 0x3C0; 0x3C0];
    [0xF3C; 0xF3C; 0xF3C; 0xF3C; 0xF3C; 0xF3C; 0xF3C; 0xF3F; 0xF3C; 0xF3C; 0xF3C; 0xF3C; 0xF3C; 0xF3C; 0xF3C; 0xF3C];
    [0xF3C; 0xF3C; 0xF3C; 0xF3C; 0xF3C; 0xF3F; 0xF00; 0xFFF; 0x0; 0x0; 0x0; 0x0; 0x0; 0x0; 0x0; 0x0];
    [0x0; 0x0; 0x0; 0x0; 0x0; 0xFFF; 0xF00; 0xF3F; 0xF3C; 0xF3C; 0xF3C; 0xF3C; 0xF3C; 0xF3C; 0xF3C; 0xF3C];
    [0xF3C; 0xF3C; 0xF3C; 0xF3C; 0xF3C; 0xFF3F; 0x0; 0xFFFF; 0x0; 0x0; 0x0; 0x0; 0x0; 0x0; 0x0; 0x0];
    [0x0; 0x0; 0x0; 0x0; 0x0; 0xFFFF; 0x0; 0xFF3F; 0xF3C; 0xF3C; 0xF3C; 0xF3C; 0xF3C; 0xF3C; 0xF3C; 0xF3C];
    [0xF3C; 0xF3C; 0xF3C; 0xF3C; 0xF3C; 0xF3F; 0xF00; 0xF3F; 0xF3C; 0xF3C; 0xF3C; 0xF3C; 0xF3C; 0xF3C; 0xF3C; 0xF3C];
    [0x0; 0x0; 0x0; 0x0; 0x0; 0xFFFF; 0x0; 0xFFFF; 0x0; 0x0; 0x0; 0x0; 0x0; 0x0; 0x0; 0x0];
    [0xF3C; 0xF3C; 0xF3C; 0xF3C; 0xF3C; 0xFF3F; 0x0; 0xFF3F; 0xF3C; 0xF3C; 0xF3C; 0xF3C; 0xF3C; 0xF3C; 0xF3C; 0xF3C];
    [0x3C0; 0x3C0; 0x3C0; 0x3C0; 0x3C0; 0xFFFF; 0x0; 0xFFFF; 0x0; 0x0; 0x0; 0x0; 0x0; 0x0; 0x0; 0x0];
    [0xF3C; 0xF3C; 0xF3C; 0xF3C; 0xF3C; 0xF3C; 0xF3C; 0xFFFF; 0x0; 0x0; 0x0; 0x0; 0x0; 0x0; 0x0; 0x0];
    [0x0; 0x0; 0x0; 0x0; 0x0; 0xFFFF; 0x0; 0xFFFF; 0x3C0; 0x3C0; 0x3C0; 0x3C0; 0x3C0; 0x3C0; 0x3C0; 0x3C0];
    [0x0; 0x0; 0x0; 0x0; 0x0; 0x0; 0x0; 0xFFFF; 0xF3C; 0xF3C; 0xF3C; 0xF3C; 0xF3C; 0xF3C; 0xF3C; 0xF3C];
    [0xF3C; 0xF3C; 0xF3C; 0xF3C; 0xF3C; 0xF3C; 0xF3C; 0xFFF; 0x0; 0x0; 0x0; 0x0; 0x0; 0x0; 0x0; 0x0];
    [0x3C0; 0x3C0; 0x3C0; 0x3C0; 0x3C0; 0x3FF; 0x3C0; 0x3FF; 0x0; 0x0; 0x0; 0x0; 0x0; 0x0; 0x0; 0x0];
    [0x0; 0x0; 0x0; 0x0; 0x0; 0x3FF; 0x3C0; 0x3FF; 0x3C0; 0x3C0; 0x3C0; 0x3C0; 0x3C0; 0x3C0; 0x3C0; 0x3C0];
    [0x0; 0x0; 0x0; 0x0; 0x0; 0x0; 0x0; 0xFFF; 0xF3C; 0xF3C; 0xF3C; 0xF3C; 0xF3C; 0xF3C; 0xF3C; 0xF3C];
    [0xF3C; 0xF3C; 0xF3C; 0xF3C; 0xF3C; 0xF3C; 0xF3C; 0xFFFF; 0xF3C; 0xF3C; 0xF3C; 0xF3C; 0xF3C; 0xF3C; 0xF3C; 0xF3C];
    [0x3C0; 0x3C0; 0x3C0; 0x3C0; 0x3C0; 0xFFFF; 0x3C0; 0xFFFF; 0x3C0; 0x3C0; 0x3C0; 0x3C0; 0x3C0; 0x3C0; 0x3C0; 0x3C0];
    [0x3C0; 0x3C0; 0x3C0; 0x3C0; 0x3C0; 0x3C0; 0x3C0; 0xFFC0; 0x0; 0x0; 0x0; 0x0; 0x0; 0x0; 0x0; 0x0];
    [0x0; 0x0; 0x0; 0x0; 0x0; 0x0; 0x0; 0x3FF; 0x3C0; 0x3C0; 0x3C0; 0x3C0; 0x3C0; 0x3C0; 0x3C0; 0x3C0];
    [0xFFFF; 0xFFFF; 0xFFFF; 0xFFFF; 0xFFFF; 0xFFFF; 0xFFFF; 0xFFFF; 0xFFFF; 0xFFFF; 0xFFFF; 0xFFFF; 0xFFFF; 0xFFFF; 0xFFFF; 0xFFFF];
    [0x0; 0x0; 0x0; 0x0; 0x0; 0x0; 0x0; 0xFFFF; 0xFFFF; 0xFFFF; 0xFFFF; 0xFFFF; 0xFFFF; 0xFFFF; 0xFFFF; 0xFFFF];
    [0xFF00; 0xFF00; 0xFF00; 0xFF00; 0xFF00; 0xFF00; 0xFF00; 0xFF00; 0xFF00; 0xFF00; 0xFF00; 0xFF00; 0xFF00; 0xFF00; 0xFF00; 0xFF00];
    [0xFF; 0xFF; 0xFF; 0xFF; 0xFF; 0xFF; 0xFF; 0xFF; 0xFF; 0xFF; 0xFF; 0xFF; 0xFF; 0xFF; 0xFF; 0xFF];
    [0xFFFF; 0xFFFF; 0xFFFF; 0xFFFF; 0xFFFF; 0xFFFF; 0xFFFF; 0x0; 0x0; 0x0; 0x0; 0x0; 0x0; 0x0; 0x0; 0x0];
    [0x0; 0x0; 0x0; 0x0; 0x0; 0x1F9E; 0x79F8; 0x79E0; 0x79E0; 0x79E0; 0x79F8; 0x1F9E; 0x0; 0x0; 0x0; 0x0];
    [0x0; 0x0; 0x0; 0x0; 0x0; 0x7FF8; 0x781E; 0x7FF8; 0x781E; 0x781E; 0x7FF8; 0x7800; 0x7800; 0x7800; 0x0; 0x0];
    [0x0; 0x0; 0x7FFE; 0x781E; 0x781E; 0x7800; 0x7800; 0x7800; 0x7800; 0x7800; 0x7800; 0x7800; 0x0; 0x0; 0x0; 0x0];
    [0x0; 0x0; 0x0; 0x0; 0x7FFE; 0x7FFE; 0x1E78; 0x1E78; 0x1E78; 0x1E78; 0x1E78; 0x1E78; 0x0; 0x0; 0x0; 0x0];
    [0x0; 0x0; 0x0; 0x7FFE; 0x781E; 0x1E00; 0x780; 0x1E0; 0x780; 0x1E00; 0x781E; 0x7FFE; 0x0; 0x0; 0x0; 0x0];
    [0x0; 0x0; 0x0; 0x0; 0x0; 0x1FFE; 0x79E0; 0x79E0; 0x79E0; 0x79E0; 0x79E0; 0x1F80; 0x0; 0x0; 0x0; 0x0];
    [0x0; 0x0; 0x0; 0x0; 0x1E1E; 0x1E1E; 0x1E1E; 0x1E1E; 0x1E1E; 0x1FF8; 0x1E00; 0x1E00; 0x7800; 0x0; 0x0; 0x0];
    [0x0; 0x0; 0x0; 0x0; 0x1F9E; 0x79F8; 0x1E0; 0x1E0; 0x1E0; 0x1E0; 0x1E0; 0x1E0; 0x0; 0x0; 0x0; 0x0];
    [0x0; 0x0; 0x0; 0x3FFC; 0x3C0; 0xFF0; 0x3C3C; 0x3C3C; 0x3C3C; 0xFF0; 0x3C0; 0x3FFC; 0x0; 0x0; 0x0; 0x0];
    [0x0; 0x0; 0x0; 0x7E0; 0x1E78; 0x781E; 0x781E; 0x7FFE; 0x781E; 0x781E; 0x1E78; 0x7E0; 0x0; 0x0; 0x0; 0x0];
    [0x0; 0x0; 0x7E0; 0x1E78; 0x781E; 0x781E; 0x781E; 0x1E78; 0x1E78; 0x1E78; 0x1E78; 0x7E7E; 0x0; 0x0; 0x0; 0x0];
    [0x0; 0x0; 0x3FC; 0xF00; 0x3C0; 0xF0; 0xFFC; 0x3C3C; 0x3C3C; 0x3C3C; 0x3C3C; 0xFF0; 0x0; 0x0; 0x0; 0x0];
    [0x0; 0x0; 0x0; 0x0; 0x0; 0x3E7C; 0x73CE; 0x73CE; 0x73CE; 0x3E7C; 0x0; 0x0; 0x0; 0x0; 0x0; 0x0];
    [0x0; 0x0; 0x0; 0xF; 0x3C; 0x3FFC; 0xF0FF; 0xF3CF; 0xFF0F; 0x3FFC; 0x3C00; 0xF000; 0x0; 0x0; 0x0; 0x0];
    [0x0; 0x0; 0x3F0; 0xF00; 0x1C00; 0x1C00; 0x1FF0; 0x1C00; 0x1C00; 0x1C00; 0xF00; 0x3F0; 0x0; 0x0; 0x0; 0x0];
    [0x0; 0x0; 0x0; 0x1FF8; 0x781E; 0x781E; 0x781E; 0x781E; 0x781E; 0x781E; 0x781E; 0x781E; 0x0; 0x0; 0x0; 0x0];
    [0x0; 0x0; 0x0; 0x0; 0x7FFE; 0x0; 0x0; 0x7FFE; 0x0; 0x0; 0x7FFE; 0x0; 0x0; 0x0; 0x0; 0x0];
    [0x0; 0x0; 0x0; 0x0; 0x3C0; 0x3C0; 0x3FFC; 0x3C0; 0x3C0; 0x0; 0x0; 0x3FFC; 0x0; 0x0; 0x0; 0x0];
    [0x0; 0x0; 0x0; 0xF00; 0x3C0; 0xF0; 0x38; 0xF0; 0x3C0; 0xF00; 0x0; 0xFF8; 0x0; 0x0; 0x0; 0x0];
    [0x0; 0x0; 0x0; 0xF0; 0x3C0; 0xF00; 0x1C00; 0xF00; 0x3C0; 0xF0; 0x0; 0x1FF0; 0x0; 0x0; 0x0; 0x0];
    [0x0; 0x0; 0xFC; 0x3CF; 0x3CF; 0x3C0; 0x3C0; 0x3C0; 0x3C0; 0x3C0; 0x3C0; 0x3C0; 0x3C0; 0x3C0; 0x3C0; 0x3C0];
    [0x3C0; 0x3C0; 0x3C0; 0x3C0; 0x3C0; 0x3C0; 0x3C0; 0x3C0; 0xF3C0; 0xF3C0; 0xF3C0; 0x3F00; 0x0; 0x0; 0x0; 0x0];
    [0x0; 0x0; 0x0; 0x0; 0x3C0; 0x3C0; 0x0; 0x3FFC; 0x0; 0x3C0; 0x3C0; 0x0; 0x0; 0x0; 0x0; 0x0];
    [0x0; 0x0; 0x0; 0x0; 0x0; 0x1F9E; 0x79F8; 0x0; 0x1F9E; 0x79F8; 0x0; 0x0; 0x0; 0x0; 0x0; 0x0];
    [0x0; 0x7E0; 0x1E78; 0x1E78; 0x7E0; 0x0; 0x0; 0x0; 0x0; 0x0; 0x0; 0x0; 0x0; 0x0; 0x0; 0x0];
    [0x0; 0x0; 0x0; 0x0; 0x0; 0x0; 0x0; 0x3C0; 0x3C0; 0x0; 0x0; 0x0; 0x0; 0x0; 0x0; 0x0];
    [0x0; 0x0; 0x0; 0x0; 0x0; 0x0; 0x0; 0x0; 0x3C0; 0x0; 0x0; 0x0; 0x0; 0x0; 0x0; 0x0];
    [0x0; 0xFF; 0xF0; 0xF0; 0xF0; 0xF0; 0xF0; 0x70F0; 0x38F0; 0x1CF0; 0xFF0; 0x3F0; 0x0; 0x0; 0x0; 0x0];
    [0x0; 0x79E0; 0x1E78; 0x1E78; 0x1E78; 0x1E78; 0x1E78; 0x0; 0x0; 0x0; 0x0; 0x0; 0x0; 0x0; 0x0; 0x0];
    [0x0; 0x1F80; 0x61E0; 0x780; 0x1E00; 0x7860; 0x7FE0; 0x0; 0x0; 0x0; 0x0; 0x0; 0x0; 0x0; 0x0; 0x0];
    [0x0; 0x0; 0x0; 0x0; 0x1FF8; 0x1FF8; 0x1FF8; 0x1FF8; 0x1FF8; 0x1FF8; 0x1FF8; 0x0; 0x0; 0x0; 0x0; 0x0];
    [0x0; 0x0; 0x0; 0x0; 0x0; 0x0; 0x0; 0x0; 0x0; 0x0; 0x0; 0x0; 0x0; 0x0; 0x0; 0x0] ].
