(* ===== verification/T4Base.v ===== *)
(** * Common ground of the T.4 encoder and decoder (src/spandsp-0.0.6/src/spandsp/t4_rx.h)

    The codings of an image, the resolutions, and arrays with their bounds. *)
From S2P Require Import Prelude.

(** ** Codings *)
Definition T4_COMPRESSION_ITU_T4_1D : Z := 1.
Definition T4_COMPRESSION_ITU_T4_2D : Z := 2.
Definition T4_COMPRESSION_ITU_T6 : Z := 3.

(** ** Resolutions, in pixels per metre, and the width of a page of A4 *)
Definition T4_X_RESOLUTION_R8 : Z := 8031.
Definition T4_Y_RESOLUTION_FINE : Z := 7700.
Definition T4_Y_RESOLUTION_300 : Z := 11811.
Definition T4_Y_RESOLUTION_SUPERFINE : Z := 15400.
Definition T4_Y_RESOLUTION_600 : Z := 23622.
Definition T4_Y_RESOLUTION_800 : Z := 31496.
Definition T4_Y_RESOLUTION_1200 : Z := 47244.
Definition T4_WIDTH_R8_A4 : Z := 1728.

Definition INT_MAX : Z := 0x7FFFFFFF.

(** ** Arrays

    An access outside an array is [None]. *)
Definition at_index {A} (a : list A) (i : Z) : option A := if i <? 0 then None else a !! Z.to_nat i.
Definition set_index {A} (a : list A) (i : Z) (v : A) : option (list A) :=
  if (0 <=? i) && (i <? zlen a) then Some (<[Z.to_nat i := v]> a) else None.

Lemma at_index_Some {A} (a : list A) i x : 0 <= i -> a !! Z.to_nat i = Some x -> at_index a i = Some x.
Proof. intros Hi E. unfold at_index. by rewrite (proj2 (Z.ltb_ge _ _)) by lia. Qed.

Lemma set_index_Some {A} (a : list A) i v : 0 <= i < zlen a -> set_index a i v = Some (<[Z.to_nat i := v]> a).
Proof. intros Hi. unfold set_index. by rewrite (proj2 (Z.leb_le _ _)), (proj2 (Z.ltb_lt _ _)) by lia. Qed.

(** A small number, case by case. *)
Lemma in_upto n i : 0 <= i < Z.of_nat n -> In i (map Z.of_nat (seq 0 n)).
Proof.
  intros Hi. apply in_map_iff. exists (Z.to_nat i). split; [lia|]. apply in_seq. lia.
Qed.

Ltac small_cases n i :=
  let H := fresh in
  pose proof (in_upto n i ltac:(lia)) as H; cbn [seq map Z.of_nat Pos.of_succ_nat Pos.succ In] in H;
  repeat destruct H as [<-|H]; [..|destruct H].
