(* ===== verification/T4Tx.v ===== *)
(** * The T.4 encoder (src/spandsp-0.0.6/src/t4_tx.c)

    Pages of black and white rows into the codings of T.4 (one- and
    two-dimensional) and T.6.  The structure [t4_state_t] serves encoders and
    decoders; here are the fields of an encoder, those of the encoded image in
    [out].  The rows of a page come from the row handler (a page from a TIFF file
    is read by libtiff).  Memory is taken not to run out; [None] stands for an
    access outside an array. *)
From S2P Require Import Prelude BitOps T4Tables T4Base.

Definition EOLS_TO_END_T4_TX_PAGE : nat := 6.
Definition EOLS_TO_END_T6_TX_PAGE : nat := 2.
Definition SIG_STATUS_END_OF_DATA : Z := -7.

(** ** The state *)

(** The encoded image: its octets (the first [image_size] of [image_buffer]), the
    size of the buffer, the bits that do not yet fill an octet, and the counts of
    bits per row. *)
Record t4_out_t := {
  image_buffer : list Z;
  image_buffer_size : Z;
  tx_bitstream : Z;
  tx_bits : Z;
  row_bits : Z;
  min_row_bits : Z;
  max_row_bits : Z;
}.

#[export] Instance eta_out : Eta t4_out_t := fun o =>
  Build_t4_out_t (image_buffer o) (image_buffer_size o) (tx_bitstream o) (tx_bits o) (row_bits o)
    (min_row_bits o) (max_row_bits o).

Record t4_tx_state_t := {
  line_encoding : Z;
  line_image_size : Z;
  bytes_per_row : Z;
  out : t4_out_t;
  current_page : Z;
  y_resolution : Z;
  image_width : Z;
  image_length : Z;
  row : Z;
  row_is_2d : bool;
  cur_runs : list Z;
  ref_runs : list Z;
  row_buf : list Z;
  tiff_file : bool;
  start_page : Z;
  stop_page : Z;
  min_bits_per_row : Z;
  max_rows_to_next_1d_row : Z;
  header_info : bool;
  rows_to_next_1d_row : Z;
  ref_steps : Z;
  bit_pos : Z;
  bit_ptr : Z;
}.

#[export] Instance eta_tx : Eta t4_tx_state_t := fun s =>
  Build_t4_tx_state_t (line_encoding s) (line_image_size s) (bytes_per_row s) (out s) (current_page s)
    (y_resolution s) (image_width s) (image_length s) (row s) (row_is_2d s) (cur_runs s) (ref_runs s)
    (row_buf s) (tiff_file s) (start_page s) (stop_page s) (min_bits_per_row s) (max_rows_to_next_1d_row s)
    (header_info s) (rows_to_next_1d_row s) (ref_steps s) (bit_pos s) (bit_ptr s).

Definition update_row_bit_info (o : t4_out_t) : t4_out_t :=
  let o := if max_row_bits o <? row_bits o then o <| max_row_bits := row_bits o |> else o in
  let o := if row_bits o <? min_row_bits o then o <| min_row_bits := row_bits o |> else o in
  o <| row_bits := 0 |>.

(** ** Run lengths

    The positions at which the colour of a row changes, and its end.  [find_changes]
    is the loop over what remains of one word: [rem] bits on top of [x], of which
    the first has the colour [flip]. *)
Fixpoint find_changes (fuel : nat) (mask x flip rem pos : Z) (list : list Z) : option (Z * Z * Z * Datatypes.list Z) :=
  let frag := 31 - top_bit (x .^ flip) in
  if rem <=? frag then Some (flip, rem, pos, list)
  else
    match fuel with
    | O => None
    | S fuel =>
        let pos := pos + frag in
        find_changes fuel mask (u32 (x .<< frag)) (flip .^ mask) (rem - frag) pos (list ++ [pos])
    end.

(** One word of [n] octets, those at [i]; [span] is where the current run begins. *)
Definition word_changes (n : Z) (mask x flip i span pos : Z) (list : list Z) : option (Z * Z * Z * Datatypes.list Z) :=
  let frag := 31 - top_bit (x .^ flip) in
  let pos := pos + ((i .<< 3) - span + frag) in
  '(flip, rem, pos, list) ← find_changes 32 mask (u32 (x .<< frag)) (flip .^ mask) (8 * n - frag) pos (list ++ [pos]);
  Some (flip, (i .<< 3) + 8 * n - rem, pos, list).

Definition be_word (b0 b1 b2 b3 : Z) : Z := (b0 .<< 24) .| (b1 .<< 16) .| (b2 .<< 8) .| b3.

(** Whole words first, compared in the order of the octets in memory. *)
Fixpoint changes_in_words (fuel : nat) (row : list Z) (i limit flip span pos : Z) (list : Datatypes.list Z)
    : option (Z * Z * Z * Z * Datatypes.list Z) :=
  if limit <=? i then Some (i, flip, span, pos, list)
  else
    match fuel with
    | O => None
    | S fuel =>
        b0 ← at_index row i; b1 ← at_index row (i + 1); b2 ← at_index row (i + 2); b3 ← at_index row (i + 3);
        if le_combine [b0; b1; b2; b3] =? flip
        then changes_in_words fuel row (i + 4) limit flip span pos list
        else
          '(flip, span, pos, list) ← word_changes 4 0xFFFFFFFF (be_word b0 b1 b2 b3) flip i span pos list;
          changes_in_words fuel row (i + 4) limit flip span pos list
    end.

Fixpoint changes_in_octets (fuel : nat) (row : list Z) (i limit flip span pos : Z) (list : Datatypes.list Z)
    : option (Z * Z * Z * Z * Datatypes.list Z) :=
  if limit <=? i then Some (i, flip, span, pos, list)
  else
    match fuel with
    | O => None
    | S fuel =>
        b ← at_index row i;
        let x := b .<< 24 in
        if x =? flip then changes_in_octets fuel row (i + 1) limit flip span pos list
        else
          '(flip, span, pos, list) ← word_changes 1 0xFF000000 x flip i span pos list;
          changes_in_octets fuel row (i + 1) limit flip span pos list
    end.

(** The octet of which only [rem] bits belong to the row. *)
Fixpoint changes_in_rest (fuel : nat) (x flip rem span pos : Z) (list : list Z) : option (Datatypes.list Z) :=
  match fuel with
  | O => None
  | S fuel =>
      let frag := 31 - top_bit (x .^ flip) in
      let frag := if rem <? frag then rem else frag in
      let pos := pos + (span + frag) in
      let list := list ++ [pos] in
      if 0 <? rem - frag
      then changes_in_rest fuel (u32 (x .<< frag)) (flip .^ 0xFF000000) (rem - frag) 0 pos list
      else Some list
  end.

(** The entries that it writes; it returns how many they are. *)
Definition row_to_run_lengths (row : list Z) (width : Z) : option (list Z) :=
  let limit := (width .>> 3) .& Z.lnot 3 in
  '(i, flip, span, pos, list) ← changes_in_words (length row) row 0 limit 0 0 0 [];
  let limit := width .>> 3 in
  let flip := flip .& 0xFF000000 in
  '(i, flip, span, pos, list) ← changes_in_octets (length row) row i limit flip span pos list;
  let span := (i .<< 3) - span in
  let rem := width .& 7 in
  if rem =? 0 then
    Some (if span =? 0 then list else list ++ [pos + span])
  else
    x ← at_index row i;
    changes_in_rest 9 (u32 (x .<< 24)) flip rem span pos list.

(** Into an array of runs; what lies behind stays. *)
Definition write_runs (buf list : list Z) : option (Datatypes.list Z) :=
  if zlen list <=? zlen buf then Some (list ++ drop (length list) buf) else None.

(** ** Bits out *)

Fixpoint put_octets (fuel : nat) (o : t4_out_t) : option t4_out_t :=
  if tx_bits o <? 8 then Some o
  else
    match fuel with
    | O => None
    | S fuel =>
        if image_buffer_size o <=? zlen (image_buffer o) then None
        else
          put_octets fuel (o <| image_buffer := image_buffer o ++ [tx_bitstream o .& 0xFF] |>
                             <| tx_bitstream := tx_bitstream o .>> 8 |>
                             <| tx_bits := tx_bits o - 8 |>)
    end.

Definition put_encoded_bits (bytes_per_row bits length : Z) (o : t4_out_t) : option t4_out_t :=
  let o := o <| tx_bitstream := tx_bitstream o .| u32 (bits .<< tx_bits o) |>
             <| tx_bits := tx_bits o + length |>
             <| row_bits := row_bits o + length |> in
  let o := if image_buffer_size o <=? zlen (image_buffer o) + (tx_bits o + 7) / 8
           then o <| image_buffer_size := image_buffer_size o + 100 * bytes_per_row |> else o in
  put_octets (Z.to_nat (tx_bits o)) o.

Definition put_code (bytes_per_row : Z) (te : t4_run_table_entry_t) (o : t4_out_t) : option t4_out_t :=
  put_encoded_bits bytes_per_row (code te) (code_length te) o.

Fixpoint put_long_span (fuel : nat) (bytes_per_row span : Z) (te : t4_run_table_entry_t) (o : t4_out_t)
    : option (Z * t4_out_t) :=
  if span <? 2560 + 64 then Some (span, o)
  else
    match fuel with
    | O => None
    | S fuel => o ← put_code bytes_per_row te o; put_long_span fuel bytes_per_row (span - code_run_length te) te o
    end.

Definition put_1d_span (bytes_per_row span : Z) (tab : list t4_run_table_entry_t) (o : t4_out_t) : option t4_out_t :=
  te ← at_index tab (63 + (2560 .>> 6));
  '(span, o) ← put_long_span (Z.to_nat span) bytes_per_row span te o;
  '(span, o) ← (if 64 <=? span then
                  te ← at_index tab (63 + (span .>> 6));
                  o ← put_code bytes_per_row te o;
                  Some (span - code_run_length te, o)
                else Some (span, o));
  te ← at_index tab span;
  put_code bytes_per_row te o.

(** The colour of a pixel. *)
Definition pixel_is_black (x : list Z) (bit : Z) : option bool :=
  b ← at_index x (bit .>> 3); Some (negb ((b .<< (bit .& 7)) .& 0x80 =? 0)).

Definition put (s : t4_tx_state_t) (bits length : Z) : option t4_tx_state_t :=
  o ← put_encoded_bits (bytes_per_row s) bits length (out s); Some (s <| out := o |>).

Definition encode_eol (s : t4_tx_state_t) : option t4_tx_state_t :=
  let '(code, length) :=
    if line_encoding s =? T4_COMPRESSION_ITU_T4_2D
    then (0x0800 .| (Z.b2z (negb (row_is_2d s)) .<< 12), 13) else (0x800, 12) in
  if negb (row_bits (out s) =? 0) then
    s ← (if negb (line_encoding s =? T4_COMPRESSION_ITU_T6) && (row_bits (out s) + length <? min_bits_per_row s)
         then put s 0 (min_bits_per_row s - (row_bits (out s) + length)) else Some s);
    s ← put s code length;
    Some (s <| out := update_row_bit_info (out s) |>)
  else
    s ← put s code length;
    Some (s <| out := out s <| row_bits := 0 |> |>).

(** ** Rows *)

(** Back in steps of two to the last change at or before [a0], then forward one step. *)
Fixpoint back_to (fuel : nat) (runs : list Z) (a0 b_cursor : Z) : option Z :=
  if b_cursor <? 0 then Some (b_cursor + 2)
  else
    match fuel with
    | O => None
    | S fuel =>
        r ← at_index runs b_cursor;
        if r <=? a0 then Some (b_cursor + 2) else back_to fuel runs a0 (b_cursor - 2)
    end.

Fixpoint forward_to (fuel : nat) (runs : list Z) (a0 ref_steps b_cursor : Z) : option Z :=
  if ref_steps <=? b_cursor then Some (ref_steps - 1)
  else
    match fuel with
    | O => None
    | S fuel =>
        r ← at_index runs b_cursor;
        if a0 <? r then Some b_cursor else forward_to fuel runs a0 ref_steps (b_cursor + 2)
    end.

(** The position in the reference row for the colour at [a0]. *)
Definition hunt (runs : list Z) (a0 ref_steps b_cursor : Z) (black : bool) : option Z :=
  let b_cursor := if black then b_cursor .| 1 else b_cursor .& Z.lnot 1 in
  r ← at_index runs b_cursor;
  if a0 <? r then back_to (length runs) runs a0 b_cursor
  else forward_to (length runs) runs a0 ref_steps b_cursor.

(** What follows a mode: the end of the row, or its next change. *)
Record enc_2d_t := { enc_a0 : Z; enc_a1 : Z; enc_b1 : Z; a_cursor : Z; b_cursor : Z }.

Definition next_b1 (s : t4_tx_state_t) (a0 a1 a_cursor b_cursor : Z) : option enc_2d_t :=
  black ← pixel_is_black (row_buf s) a0;
  b_cursor ← hunt (ref_runs s) a0 (ref_steps s) b_cursor black;
  b1 ← at_index (ref_runs s) b_cursor;
  Some {| enc_a0 := a0; enc_a1 := a1; enc_b1 := b1; a_cursor := a_cursor; b_cursor := b_cursor |}.

Definition next_a1 (s : t4_tx_state_t) (cur_steps a0 a_cursor b_cursor : Z) : option (option enc_2d_t) :=
  if image_width s <=? a0 then Some None
  else
    let a_cursor := if cur_steps <=? a_cursor then cur_steps - 1 else a_cursor in
    a1 ← at_index (cur_runs s) a_cursor;
    e ← next_b1 s a0 a1 a_cursor b_cursor;
    Some (Some e).

Definition encode_mode (s : t4_tx_state_t) (cur_steps : Z) (e : enc_2d_t) (o : t4_out_t)
    : option (option enc_2d_t * t4_out_t) :=
  let bpr := bytes_per_row s in
  let a0 := enc_a0 e in let a1 := enc_a1 e in
  b2 ← at_index (ref_runs s) (b_cursor e + 1);
  if a1 <=? b2 then
    let diff := enc_b1 e - a1 in
    if Z.abs diff <=? 3 then
      te ← at_index codes (diff + 3);
      o ← put_code bpr te o;
      n ← next_a1 s cur_steps a1 (a_cursor e + 1) (b_cursor e);
      Some (n, o)
    else
      a2 ← at_index (cur_runs s) (a_cursor e + 1);
      te ← at_index codes 7;
      o ← put_code bpr te o;
      white ← (if a0 + a1 =? 0 then Some true
               else black ← pixel_is_black (row_buf s) a0; Some (negb black));
      o ← put_1d_span bpr (a1 - a0) (if white : bool then t4_white_codes else t4_black_codes) o;
      o ← put_1d_span bpr (a2 - a1) (if white : bool then t4_black_codes else t4_white_codes) o;
      n ← next_a1 s cur_steps a2 (a_cursor e + 2) (b_cursor e);
      Some (n, o)
  else
    te ← at_index codes 8;
    o ← put_code bpr te o;
    if image_width s <=? b2 then Some (None, o)
    else
      n ← next_b1 s b2 a1 (a_cursor e) (b_cursor e);
      Some (Some n, o).

Fixpoint encode_modes (fuel : nat) (s : t4_tx_state_t) (cur_steps : Z) (e : enc_2d_t) (o : t4_out_t) : option t4_out_t :=
  match fuel with
  | O => None
  | S fuel =>
      '(n, o) ← encode_mode s cur_steps e o;
      match n with
      | None => Some o
      | Some e => encode_modes fuel s cur_steps e o
      end
  end.

(** The last entry three times more. *)
Definition stretch (runs : list Z) (steps : Z) : option (list Z) :=
  last ← at_index runs (steps - 1);
  runs ← set_index runs (steps + 2) last;
  runs ← set_index runs (steps + 1) last;
  set_index runs steps last.

Definition encode_2d_row (s : t4_tx_state_t) : option t4_tx_state_t :=
  list ← row_to_run_lengths (row_buf s) (image_width s);
  let cur_steps := zlen list in
  runs ← write_runs (cur_runs s) list;
  runs ← stretch runs cur_steps;
  let s := s <| cur_runs := runs |> in
  a1 ← at_index (cur_runs s) 0;
  b1 ← at_index (ref_runs s) 0;
  o ← encode_modes (Z.to_nat (image_width s) + 2) s cur_steps
        {| enc_a0 := 0; enc_a1 := a1; enc_b1 := b1; a_cursor := 0; b_cursor := 0 |} (out s);
  Some (s <| out := o |> <| ref_steps := cur_steps |>
          <| cur_runs := ref_runs s |> <| ref_runs := cur_runs s |>).

Fixpoint put_spans (bytes_per_row : Z) (black : bool) (last : Z) (runs : list Z) (o : t4_out_t) : option t4_out_t :=
  match runs with
  | [] => Some o
  | r :: runs =>
      o ← put_1d_span bytes_per_row (r - last) (if black then t4_black_codes else t4_white_codes) o;
      put_spans bytes_per_row (negb black) r runs o
  end.

Definition encode_1d_row (s : t4_tx_state_t) : option t4_tx_state_t :=
  list ← row_to_run_lengths (row_buf s) (image_width s);
  runs ← write_runs (ref_runs s) list;
  let s := s <| ref_steps := zlen list |> in
  first ← at_index runs 0;
  o ← put_1d_span (bytes_per_row s) first t4_white_codes (out s);
  o ← put_spans (bytes_per_row s) true first (drop 1 list) o;
  runs ← stretch runs (ref_steps s);
  Some (s <| ref_runs := runs |> <| out := o |>).

Definition encode_row (s : t4_tx_state_t) : option t4_tx_state_t :=
  s ← (if line_encoding s =? T4_COMPRESSION_ITU_T6 then
         let s := if negb (row_bits (out s) =? 0) then s <| out := update_row_bit_info (out s) |> else s in
         encode_2d_row s
       else if line_encoding s =? T4_COMPRESSION_ITU_T4_2D then
         s ← encode_eol s;
         s ← (if row_is_2d s
              then s ← encode_2d_row s; Some (s <| rows_to_next_1d_row := rows_to_next_1d_row s - 1 |>)
              else s ← encode_1d_row s; Some (s <| row_is_2d := true |>));
         Some (if rows_to_next_1d_row s <=? 0
               then s <| row_is_2d := false |> <| rows_to_next_1d_row := max_rows_to_next_1d_row s - 1 |>
               else s)
       else
         s ← encode_eol s; encode_1d_row s);
  Some (s <| row := row s + 1 |>).

(** ** The header line *)

(** A row of the letters of [text], up to a zero, and white. *)
Fixpoint header_octets (text : list Z) (font_row : nat) (row_bufptr bytes_per_row : Z) : list Z :=
  match text with
  | t :: text =>
      if negb (t =? 0) && (row_bufptr <=? bytes_per_row - 2) then
        let pattern := aget (nth (Z.to_nat t) header_font []) (Z.of_nat font_row) in
        u8 (pattern .>> 8) :: (pattern .& 0xFF) :: header_octets text font_row (row_bufptr + 2) bytes_per_row
      else replicate (Z.to_nat (bytes_per_row - row_bufptr)) 0
  | [] => replicate (Z.to_nat (bytes_per_row - row_bufptr)) 0
  end.

Fixpoint encode_repeats (n : nat) (s : t4_tx_state_t) : option t4_tx_state_t :=
  match n with
  | O => Some s
  | S n => s ← encode_row s; encode_repeats n s
  end.

Definition header_repeats (s : t4_tx_state_t) : nat :=
  if y_resolution s =? T4_Y_RESOLUTION_1200 then 12
  else if y_resolution s =? T4_Y_RESOLUTION_800 then 8
  else if y_resolution s =? T4_Y_RESOLUTION_600 then 6
  else if y_resolution s =? T4_Y_RESOLUTION_SUPERFINE then 4
  else if y_resolution s =? T4_Y_RESOLUTION_300 then 3
  else if y_resolution s =? T4_Y_RESOLUTION_FINE then 2
  else 1.

Fixpoint put_header_rows (rows : list nat) (text : list Z) (repeats : nat) (s : t4_tx_state_t) : option t4_tx_state_t :=
  match rows with
  | [] => Some s
  | r :: rows =>
      let s := s <| row_buf := header_octets text r 0 (bytes_per_row s) |> in
      s ← encode_repeats repeats s;
      put_header_rows rows text repeats s
  end.

(** [text] is what [make_header] prints, with the time of day. *)
Definition t4_tx_put_fax_header (text : list Z) (s : t4_tx_state_t) : option t4_tx_state_t :=
  put_header_rows (seq 0 16) text (header_repeats s) s.

(** ** Pages *)

(** What [get_tiff_directory_info] finds in the file when it is opened is given:
    the width of the page, its resolution, and the rows between one-dimensional
    ones.  The arrays are as [malloc] leaves them. *)
Definition t4_tx_init (width y_res max_rows first_page last_page : Z) (runs runs' buf : list Z) : option t4_tx_state_t :=
  ref ← set_index runs' 0 width; ref ← set_index ref 1 width;
  ref ← set_index ref 2 width; ref ← set_index ref 3 width;
  let first_page := if 0 <=? first_page then first_page else 0 in
  Some {|
    line_encoding := 0; line_image_size := 0; bytes_per_row := (width + 7) / 8;
    out := {| image_buffer := []; image_buffer_size := 0; tx_bitstream := 0; tx_bits := 0; row_bits := 0;
              min_row_bits := 0; max_row_bits := 0 |};
    current_page := first_page; y_resolution := y_res; image_width := width; image_length := 0; row := 0;
    row_is_2d := false; cur_runs := runs; ref_runs := ref; row_buf := buf; tiff_file := true;
    start_page := first_page; stop_page := if 0 <=? last_page then last_page else INT_MAX;
    min_bits_per_row := 0; max_rows_to_next_1d_row := max_rows; header_info := false;
    rows_to_next_1d_row := max_rows - 1; ref_steps := 1; bit_pos := 0; bit_ptr := 0 |}.

Definition t4_tx_set_tx_encoding (s : t4_tx_state_t) (encoding : Z) : t4_tx_state_t :=
  s <| line_encoding := encoding |> <| rows_to_next_1d_row := max_rows_to_next_1d_row s - 1 |> <| row_is_2d := false |>.
Definition t4_tx_set_min_row_bits (s : t4_tx_state_t) (bits : Z) : t4_tx_state_t := s <| min_bits_per_row := bits |>.
Definition t4_tx_set_header_info (s : t4_tx_state_t) (info : list Z) : t4_tx_state_t :=
  s <| header_info := match info with [] => false | c :: _ => negb (c =? 0) end |>.

Fixpoint put_eols (n : nat) (s : t4_tx_state_t) : option t4_tx_state_t :=
  match n with
  | O => Some s
  | S n => s ← encode_eol s; put_eols n s
  end.

(** The beginning of a page; its width is that of the page before, as with a row
    handler. *)
Definition begin_page (s : t4_tx_state_t) : option t4_tx_state_t :=
  let s := s <| out := out s <| image_buffer := [] |> <| tx_bitstream := 0 |> <| tx_bits := 0 |> |>
             <| row_is_2d := (line_encoding s =? T4_COMPRESSION_ITU_T6) |>
             <| rows_to_next_1d_row := max_rows_to_next_1d_row s - 1 |> in
  ref ← set_index (ref_runs s) 0 (image_width s); ref ← set_index ref 1 (image_width s);
  ref ← set_index ref 2 (image_width s); ref ← set_index ref 3 (image_width s);
  Some (s <| ref_runs := ref |> <| ref_steps := 1 |>
          <| out := out s <| row_bits := 0 |> <| min_row_bits := INT_MAX |> <| max_row_bits := 0 |> |>).

Definition end_of_page (s : t4_tx_state_t) : option t4_tx_state_t :=
  s ← (if line_encoding s =? T4_COMPRESSION_ITU_T6 then put_eols EOLS_TO_END_T6_TX_PAGE s
       else put_eols EOLS_TO_END_T4_TX_PAGE (s <| row_is_2d := false |>));
  s ← put s 0xFF 7;
  Some (s <| bit_pos := 7 |> <| bit_ptr := 0 |> <| line_image_size := zlen (image_buffer (out s)) * 8 |>).

Section page.
Context {U : Type} (row_read_handler : U -> list Z -> Z -> U * list Z * Z).

(** The rows that the handler gives, at most [fuel] of them; their number. *)
Fixpoint read_rows (fuel : nat) (u : U) (count : Z) (s : t4_tx_state_t) : option (U * Z * t4_tx_state_t) :=
  match fuel with
  | O => None
  | S fuel =>
      let '(u, buf, len) := row_read_handler u (row_buf s) (bytes_per_row s) in
      let s := s <| row_buf := buf |> in
      if len <=? 0 then Some (u, count, s)
      else s ← encode_row s; read_rows fuel u (count + 1) s
  end.

(** The result is that of the C function, 0 or -1, and the state. *)
Definition t4_tx_start_page (fuel : nat) (text : list Z) (u : U) (s : t4_tx_state_t) : option (Z * U * t4_tx_state_t) :=
  if stop_page s <? current_page s then Some (-1, u, s)
  else if negb (tiff_file s) then Some (-1, u, s)
  else
    s ← begin_page s;
    s ← (if header_info s then t4_tx_put_fax_header text s else Some s);
    '(u, rows, s) ← read_rows fuel u 0 s;
    s ← end_of_page (s <| image_length := rows |>);
    Some (0, u, s).
End page.

Definition t4_tx_next_page_has_different_format (s : t4_tx_state_t) : Z :=
  if stop_page s <=? current_page s then -1 else 0.

Definition t4_tx_restart_page (s : t4_tx_state_t) : t4_tx_state_t := s <| bit_pos := 7 |> <| bit_ptr := 0 |>.
Definition t4_tx_end_page (s : t4_tx_state_t) : t4_tx_state_t := s <| current_page := current_page s + 1 |>.

(** ** The encoded page *)

Definition t4_tx_get_bit (s : t4_tx_state_t) : option (Z * t4_tx_state_t) :=
  if zlen (image_buffer (out s)) <=? bit_ptr s then Some (SIG_STATUS_END_OF_DATA, s)
  else
    b ← at_index (image_buffer (out s)) (bit_ptr s);
    let s' := s <| bit_pos := bit_pos s - 1 |> in
    Some ((b .>> (7 - bit_pos s)) .& 1,
          if bit_pos s' <? 0 then s' <| bit_pos := 7 |> <| bit_ptr := bit_ptr s + 1 |> else s').

Definition t4_tx_get_byte (s : t4_tx_state_t) : option (Z * t4_tx_state_t) :=
  if zlen (image_buffer (out s)) <=? bit_ptr s then Some (0x100, s)
  else b ← at_index (image_buffer (out s)) (bit_ptr s); Some (b, s <| bit_ptr := bit_ptr s + 1 |>).

Definition t4_tx_get_chunk (s : t4_tx_state_t) (max_len : Z) : list Z * t4_tx_state_t :=
  let size := zlen (image_buffer (out s)) in
  if size <=? bit_ptr s then ([], s)
  else
    let max_len := if size <? bit_ptr s + max_len then size - bit_ptr s else max_len in
    (slice (image_buffer (out s)) (bit_ptr s) max_len, s <| bit_ptr := bit_ptr s + max_len |>).

Definition t4_tx_check_bit (s : t4_tx_state_t) : option Z :=
  if zlen (image_buffer (out s)) <=? bit_ptr s then Some SIG_STATUS_END_OF_DATA
  else b ← at_index (image_buffer (out s)) (bit_ptr s); Some ((b .>> bit_pos s) .& 1).
