(* ===== verification/T4Rx.v ===== *)
(** * The T.4 decoder (src/spandsp-0.0.6/src/t4_rx.c)

    The bits of a page, as they come in, into its rows.  The structure
    [t4_state_t] serves encoders and decoders; here are the fields of a decoder:
    the buffer of bits, the row being decoded ([dec]) and the image.  Memory is
    taken not to run out; [None] stands for an access outside an array. *)
From S2P Require Import Prelude BitOps T4Tables T4Base.

Definition EOLS_TO_END_ANY_RX_PAGE : Z := 6.
Definition EOLS_TO_END_T4_RX_PAGE : Z := 5.
Definition EOLS_TO_END_T6_RX_PAGE : Z := 2.

(** ** The state *)

(** The decoded image: its octets (the first [image_size] of [image_buffer]), the
    size of the buffer, the pixels that do not yet fill an octet, and the counts
    of rows. *)
Record t4_image_t := {
  image_buffer : list Z;
  image_buffer_size : Z;
  tx_bitstream : Z;
  tx_bits : Z;
  image_length : Z;
  last_row_starts_at : Z;
  curr_bad_row_run : Z;
  longest_bad_row_run : Z;
  bad_rows : Z;
}.

#[export] Instance eta_image : Eta t4_image_t := fun m =>
  Build_t4_image_t (image_buffer m) (image_buffer_size m) (tx_bitstream m) (tx_bits m) (image_length m)
    (last_row_starts_at m) (curr_bad_row_run m) (longest_bad_row_run m) (bad_rows m).

Record t4_dec_t := {
  line_encoding : Z;
  bytes_per_row : Z;
  image_width : Z;
  row_is_2d : bool;
  row_len : Z;
  cur_runs : list Z;
  ref_runs : list Z;
  row_bits : Z;
  min_row_bits : Z;
  max_row_bits : Z;
  rx_skip_bits : Z;
  consecutive_eols : Z;
  a0 : Z;
  b1 : Z;
  run_length : Z;
  black_white : Z;
  its_black : bool;
  a_cursor : Z;
  b_cursor : Z;
  image : t4_image_t;
}.

#[export] Instance eta_dec : Eta t4_dec_t := fun d =>
  Build_t4_dec_t (line_encoding d) (bytes_per_row d) (image_width d) (row_is_2d d) (row_len d) (cur_runs d)
    (ref_runs d) (row_bits d) (min_row_bits d) (max_row_bits d) (rx_skip_bits d) (consecutive_eols d) (a0 d)
    (b1 d) (run_length d) (black_white d) (its_black d) (a_cursor d) (b_cursor d) (image d).

Record t4_rx_state_t := {
  rx_bitstream : Z;
  rx_bits : Z;
  line_image_size : Z;
  current_page : Z;
  tiff_file : bool;
  dec : t4_dec_t;
}.

#[export] Instance eta_rx : Eta t4_rx_state_t := fun s =>
  Build_t4_rx_state_t (rx_bitstream s) (rx_bits s) (line_image_size s) (current_page s) (tiff_file s) (dec s).

Definition update_row_bit_info (d : t4_dec_t) : t4_dec_t :=
  let d := if max_row_bits d <? row_bits d then d <| max_row_bits := row_bits d |> else d in
  let d := if row_bits d <? min_row_bits d then d <| min_row_bits := row_bits d |> else d in
  d <| row_bits := 0 |>.

(** ** Rows *)

Definition add_run_to_row (d : t4_dec_t) : option t4_dec_t :=
  d ← (if 0 <=? run_length d then
         let d := d <| row_len := row_len d + run_length d |> in
         if row_len d <=? image_width d then
           runs ← set_index (cur_runs d) (a_cursor d) (run_length d);
           Some (d <| cur_runs := runs |> <| a_cursor := a_cursor d + 1 |>)
         else Some d
       else Some d);
  Some (d <| run_length := 0 |>).

Definition msbmask : list Z := [0x00; 0x01; 0x03; 0x07; 0x0f; 0x1f; 0x3f; 0x7f; 0xff].

Definition put_octet (m : t4_image_t) : option t4_image_t :=
  if image_buffer_size m <=? zlen (image_buffer m) then None
  else Some (m <| image_buffer := image_buffer m ++ [u8 (tx_bitstream m)] |>).

(** The octets that a run of [i] pixels more fills. *)
Fixpoint fill_octets (fuel : nat) (i fudge : Z) (m : t4_image_t) : option (Z * t4_image_t) :=
  if i <? 8 then Some (i, m)
  else
    match fuel with
    | O => None
    | S fuel =>
        m ← put_octet (m <| tx_bits := 8 |>);
        fill_octets fuel (i - 8) fudge (m <| tx_bitstream := fudge |>)
    end.

Definition put_run (i fudge : Z) (m : t4_image_t) : option t4_image_t :=
  '(i, m) ← (if tx_bits m <=? i then
               mask ← at_index msbmask (tx_bits m);
               let n := i + (8 - tx_bits m) in
               let m := m <| tx_bitstream := u32 (tx_bitstream m .<< tx_bits m) .| (mask .& fudge) |> in
               fill_octets (Z.to_nat n) n fudge m
             else Some (i, m));
  mask ← at_index msbmask i;
  Some (m <| tx_bitstream := u32 (tx_bitstream m .<< i) .| (mask .& fudge) |> <| tx_bits := tx_bits m - i |>).

Fixpoint put_runs (runs : list Z) (fudge : Z) (m : t4_image_t) : option t4_image_t :=
  match runs with
  | [] => Some m
  | i :: runs => m ← put_run i fudge m; put_runs runs (fudge .^ 0xFF) m
  end.

(** The first [a_cursor] runs, and the sum of those up to the width of the image. *)
Definition runs_so_far (d : t4_dec_t) : list Z := take (Z.to_nat (a_cursor d)) (cur_runs d).
Fixpoint sum_runs (width : Z) (runs : list Z) (fudge : Z) : Z :=
  match runs with
  | i :: runs => if fudge <? width then sum_runs width runs (fudge + i) else fudge
  | [] => fudge
  end.

(** After a good row, the run of bad ones is over. *)
Definition end_bad_rows (m : t4_image_t) : t4_image_t :=
  if curr_bad_row_run m =? 0 then m
  else
    let m := if longest_bad_row_run m <? curr_bad_row_run m
             then m <| longest_bad_row_run := curr_bad_row_run m |> else m in
    m <| curr_bad_row_run := 0 |>.

Definition put_good_row (d : t4_dec_t) : option t4_dec_t :=
  m ← put_runs (runs_so_far d) 0 (end_bad_rows (image d));
  Some (d <| image := m <| image_length := image_length m + 1 |> |>).

Definition pad_runs (d : t4_dec_t) : option t4_dec_t :=
  let fudge := sum_runs (image_width d) (runs_so_far d) 0 in
  if fudge <? image_width d then
    if Z.odd (a_cursor d) then
      runs ← set_index (cur_runs d) (a_cursor d) 1;
      let d := d <| cur_runs := runs |> <| a_cursor := a_cursor d + 1 |> in
      let fudge := fudge + 1 in
      if fudge <? image_width d then
        runs ← set_index (cur_runs d) (a_cursor d) (image_width d - fudge);
        Some (d <| cur_runs := runs |> <| a_cursor := a_cursor d + 1 |>)
      else Some d
    else
      runs ← set_index (cur_runs d) (a_cursor d) (image_width d - fudge);
      Some (d <| cur_runs := runs |> <| a_cursor := a_cursor d + 1 |>)
  else
    i ← at_index (cur_runs d) (a_cursor d);
    runs ← set_index (cur_runs d) (a_cursor d) (u32 (i + (image_width d - fudge)));
    Some (d <| cur_runs := runs |>).

(** The row before once more. *)
Definition copy_row (bytes_per_row : Z) (m : t4_image_t) : option t4_image_t :=
  if zlen (image_buffer m) =? last_row_starts_at m then Some m
  else if zlen (image_buffer m) <? last_row_starts_at m + bytes_per_row then None
  else if image_buffer_size m <? zlen (image_buffer m) + bytes_per_row then None
  else Some (m <| image_buffer := image_buffer m ++ slice (image_buffer m) (last_row_starts_at m) bytes_per_row |>
               <| image_length := image_length m + 1 |>).

Definition put_bad_row (d : t4_dec_t) : option t4_dec_t :=
  d ← pad_runs d;
  m ← copy_row (bytes_per_row d) (image d);
  Some (d <| image := m <| bad_rows := bad_rows m + 1 |> <| curr_bad_row_run := curr_bad_row_run m + 1 |> |>).

Definition more_room (bytes_per_row : Z) (m : t4_image_t) : t4_image_t :=
  if image_buffer_size m <=? zlen (image_buffer m) + bytes_per_row
  then m <| image_buffer_size := image_buffer_size m + 100 * bytes_per_row |> else m.

Definition put_decoded_row (d : t4_dec_t) : option t4_dec_t :=
  d ← (if run_length d =? 0 then Some d else add_run_to_row d);
  let row_starts_at := zlen (image_buffer (image d)) in
  let d := d <| image := more_room (bytes_per_row d) (image d) |> in
  d ← (if row_len d =? image_width d then put_good_row d else put_bad_row d);
  runs ← set_index (cur_runs d) (a_cursor d) 0;
  runs ← set_index runs (a_cursor d + 1) 0;
  first ← at_index runs 0;
  Some (d <| image := image d <| last_row_starts_at := row_starts_at |> |>
          <| cur_runs := ref_runs d |> <| ref_runs := runs |>
          <| b_cursor := 1 |> <| a_cursor := 0 |> <| b1 := first |> <| a0 := 0 |> <| run_length := 0 |>).

(** ** Code words *)

(** What one step of the decoder does to the bits and whether the page has ended.
    [drop] is the number of bits to remove now; the bits of a code word behind its
    first one are removed step by step. *)
Definition drop_bits (d : t4_dec_t) (bits : Z) : t4_dec_t :=
  d <| row_bits := row_bits d + bits |> <| rx_skip_bits := rx_skip_bits d + (bits - 1) |>.
Definition force_drop (d : t4_dec_t) (bits : Z) : t4_dec_t :=
  d <| row_bits := row_bits d + bits |> <| rx_skip_bits := 0 |>.

Definition start_row (d : t4_dec_t) : t4_dec_t :=
  d <| its_black := false |> <| black_white := 0 |> <| run_length := 0 |> <| row_len := 0 |>.

(** The end of a page, after enough EOLs with nothing in between. *)
Definition count_eol (d : t4_dec_t) : t4_dec_t * bool :=
  let d := d <| consecutive_eols := consecutive_eols d + 1 |> in
  let enough := if line_encoding d =? T4_COMPRESSION_ITU_T6 then EOLS_TO_END_T6_RX_PAGE else EOLS_TO_END_T4_RX_PAGE in
  if enough <=? consecutive_eols d
  then (d <| consecutive_eols := EOLS_TO_END_ANY_RX_PAGE |>, true) else (d, false).

Definition end_row_at_eol (d : t4_dec_t) : option t4_dec_t :=
  d ← (if 0 <? run_length d then add_run_to_row d else Some d);
  d ← put_decoded_row (d <| consecutive_eols := 0 |>);
  Some (update_row_bit_info d).

Definition eol_width (d : t4_dec_t) : Z := if line_encoding d =? T4_COMPRESSION_ITU_T4_2D then 13 else 12.

(** An EOL is ahead.  The result is the state, and the bits to drop or [None] when
    the page has ended. *)
Definition scan_eol (bits : Z) (d : t4_dec_t) : option (t4_dec_t * option Z) :=
  '(d, ended) ← (if row_len d =? 0 then Some (count_eol d)
                 else d ← end_row_at_eol d; Some (d, false));
  if ended : bool then Some (d, None)
  else
    let d := if line_encoding d =? T4_COMPRESSION_ITU_T4_2D
             then d <| row_is_2d := (bits .& 0x1000 =? 0) |> else d in
    Some (start_row (force_drop d (eol_width d)), Some (eol_width d)).

(** The first change of the reference row to the right of [a0], in steps of two. *)
Fixpoint past_a0 (fuel : nat) (d : t4_dec_t) : option t4_dec_t :=
  if a0 d <? b1 d then Some d
  else
    match fuel with
    | O => None
    | S fuel =>
        r ← at_index (ref_runs d) (b_cursor d);
        r' ← at_index (ref_runs d) (b_cursor d + 1);
        past_a0 fuel (d <| b1 := b1 d + (r + r') |> <| b_cursor := b_cursor d + 2 |>)
    end.

Definition vertical_mode (param : Z) (d : t4_dec_t) : option t4_dec_t :=
  let d := d <| run_length := run_length d + (b1 d - a0 d + param) |> <| a0 := b1 d + param |> in
  d ← add_run_to_row d;
  if 0 <=? param then
    r ← at_index (ref_runs d) (b_cursor d);
    Some (d <| b1 := b1 d + r |> <| b_cursor := b_cursor d + 1 |>)
  else if b_cursor d =? 0 then Some d
  else
    r ← at_index (ref_runs d) (b_cursor d - 1);
    Some (d <| b1 := b1 d - r |> <| b_cursor := b_cursor d - 1 |>).

Definition pass_mode (d : t4_dec_t) : option t4_dec_t :=
  r ← at_index (ref_runs d) (b_cursor d);
  let d := d <| b1 := b1 d + r |> in
  let d := d <| run_length := run_length d + (b1 d - a0 d) |> <| a0 := b1 d |> in
  r ← at_index (ref_runs d) (b_cursor d + 1);
  Some (d <| b1 := b1 d + r |> <| b_cursor := b_cursor d + 2 |>).

Definition horizontal_mode (d : t4_dec_t) : t4_dec_t :=
  d <| its_black := Z.odd (a_cursor d) |> <| black_white := 2 |>.

Definition scan_mode (bits : Z) (d : t4_dec_t) : option (t4_dec_t * Z) :=
  te ← at_index t4_2d_table (bits .& 0x7F);
  d ← (if a_cursor d =? 0 then Some d else past_a0 (length (ref_runs d)) d);
  d ← match state te with
      | S_Horiz => Some (horizontal_mode d)
      | S_Vert => vertical_mode (param te) d
      | S_Pass => pass_mode d
      | _ => Some d
      end;
  Some (d, width te).

(** A run of the row, all or a part of it. *)
Definition make_up (n : Z) (d : t4_dec_t) : t4_dec_t :=
  d <| run_length := run_length d + n |> <| a0 := a0 d + n |>.

Definition terminate (black : bool) (n : Z) (d : t4_dec_t) : option t4_dec_t :=
  let d := d <| its_black := negb black |> in
  d ← (if row_len d <? image_width d then add_run_to_row (make_up n d) else Some d);
  Some (if black_white d =? 0 then d else d <| black_white := black_white d - 1 |>).

Definition scan_run (bits : Z) (d : t4_dec_t) : option (t4_dec_t * Z) :=
  let black := its_black d in
  te ← (if black then at_index t4_1d_black_table (bits .& 0x1FFF) else at_index t4_1d_white_table (bits .& 0xFFF));
  d ← match state te, black with
      | S_MakeUpB, true | S_MakeUp, _ | S_MakeUpW, false => Some (make_up (param te) d)
      | S_TermB, true | S_TermW, false => terminate black (param te) d
      | _, _ => Some (d <| black_white := 0 |>)
      end;
  Some (d, width te).

(** T.6 has no EOL: a row ends when it is as long as the image is wide. *)
Definition scan_end (d : t4_dec_t) : option t4_dec_t :=
  let d := if image_width d <=? a0 d then d <| a0 := image_width d - 1 |> else d in
  if (line_encoding d =? T4_COMPRESSION_ITU_T6) && (black_white d =? 0) && (image_width d <=? row_len d) then
    d ← (if 0 <? run_length d then add_run_to_row d else Some d);
    d ← put_decoded_row (update_row_bit_info d);
    Some (start_row d)
  else Some d.

Definition scan_code (bits : Z) (d : t4_dec_t) : option t4_dec_t :=
  if row_is_2d d && (black_white d =? 0) then
    if image_width d <=? row_len d then
      te ← at_index t4_2d_table (bits .& 0x7F);
      Some (drop_bits d (width te))
    else
      '(d, w) ← scan_mode bits d;
      scan_end (drop_bits d w)
  else
    '(d, w) ← scan_run bits d;
    scan_end (drop_bits d w).

(** One step, with the bits ahead: the state, and the bits to drop, or [None] at
    the end of the page. *)
Definition scan (bits : Z) (d : t4_dec_t) : option (t4_dec_t * option Z) :=
  if bits .& 0x0FFF =? 0x0800 then scan_eol bits d
  else if negb (rx_skip_bits d =? 0) then Some (d <| rx_skip_bits := rx_skip_bits d - 1 |>, Some 1)
  else d ← scan_code bits d; Some (d, Some 1).

(** ** Bits in *)

(** The first EOL of a page, which anything may precede.  The bits that are left,
    and how many. *)
Fixpoint find_first_eol (fuel : nat) (bitstream bits : Z) : option (Z * Z * bool) :=
  if bitstream .& 0xFFF =? 0x800 then Some (bitstream, bits, true)
  else
    let bitstream := bitstream .>> 1 in
    let bits := bits - 1 in
    if bits <? 13 then Some (bitstream, bits, false)
    else
      match fuel with
      | O => None
      | S fuel => find_first_eol fuel bitstream bits
      end.

Definition drop_rx (n : Z) (s : t4_rx_state_t) : t4_rx_state_t :=
  s <| rx_bits := rx_bits s - n |> <| rx_bitstream := rx_bitstream s .>> n |>.

Definition first_eol (s : t4_rx_state_t) : t4_rx_state_t :=
  let d := dec s <| consecutive_eols := 0 |> in
  if line_encoding d =? T4_COMPRESSION_ITU_T4_1D
  then drop_rx 12 (s <| dec := force_drop (d <| row_is_2d := false |>) 12 |>)
  else drop_rx 13 (s <| dec := force_drop (d <| row_is_2d := (rx_bitstream s .& 0x1000 =? 0) |>) 13 |>).

(** The result is whether the page has ended. *)
Fixpoint scan_all (fuel : nat) (s : t4_rx_state_t) : option (bool * t4_rx_state_t) :=
  if rx_bits s <? 13 then Some (false, s)
  else
    match fuel with
    | O => None
    | S fuel =>
        '(d, n) ← scan (rx_bitstream s) (dec s);
        let s := s <| dec := d |> in
        match n with
        | None => Some (true, s)
        | Some n => scan_all fuel (drop_rx n s)
        end
    end.

Definition rx_put_bits (s : t4_rx_state_t) (bit_string quantity : Z) : option (bool * t4_rx_state_t) :=
  let s := s <| line_image_size := line_image_size s + quantity |>
             <| rx_bitstream := rx_bitstream s .| u32 (bit_string .<< rx_bits s) |>
             <| rx_bits := rx_bits s + quantity |> in
  let fuel := Z.to_nat (rx_bits s) in
  if rx_bits s <? 13 then Some (false, s)
  else if EOLS_TO_END_ANY_RX_PAGE <=? consecutive_eols (dec s) then Some (true, s)
  else if consecutive_eols (dec s) <? 0 then
    '(bitstream, bits, found) ← find_first_eol fuel (rx_bitstream s) (rx_bits s);
    let s := s <| rx_bitstream := bitstream |> <| rx_bits := bits |> in
    if found : bool then scan_all fuel (first_eol s) else Some (false, s)
  else scan_all fuel s.

Definition t4_rx_put_bit (s : t4_rx_state_t) (bit : Z) : option (bool * t4_rx_state_t) := rx_put_bits s (bit .& 1) 1.
Definition t4_rx_put_byte (s : t4_rx_state_t) (byte : Z) : option (bool * t4_rx_state_t) :=
  rx_put_bits s (byte .& 0xFF) 8.

Fixpoint t4_rx_put_chunk (s : t4_rx_state_t) (buf : list Z) : option (bool * t4_rx_state_t) :=
  match buf with
  | [] => Some (false, s)
  | byte :: buf =>
      '(ended, s) ← rx_put_bits s (byte .& 0xFF) 8;
      if ended : bool then Some (true, s) else t4_rx_put_chunk s buf
  end.

(** ** Pages *)

Definition t4_rx_init : t4_rx_state_t :=
  {| rx_bitstream := 0; rx_bits := 0; line_image_size := 0; current_page := 0; tiff_file := true;
     dec := {|
       line_encoding := 0; bytes_per_row := 0; image_width := T4_WIDTH_R8_A4; row_is_2d := false; row_len := 0;
       cur_runs := []; ref_runs := []; row_bits := 0; min_row_bits := 0; max_row_bits := 0; rx_skip_bits := 0;
       consecutive_eols := 0; a0 := 0; b1 := 0; run_length := 0; black_white := 0; its_black := false;
       a_cursor := 0; b_cursor := 0;
       image := {| image_buffer := []; image_buffer_size := 0; tx_bitstream := 0; tx_bits := 0; image_length := 0;
                   last_row_starts_at := 0; curr_bad_row_run := 0; longest_bad_row_run := 0; bad_rows := 0 |} |} |}.

Definition t4_rx_set_rx_encoding (s : t4_rx_state_t) (encoding : Z) : t4_rx_state_t :=
  s <| dec := dec s <| line_encoding := encoding |> |>.
Definition t4_rx_set_image_width (s : t4_rx_state_t) (width : Z) : t4_rx_state_t :=
  s <| dec := dec s <| image_width := width |> |>.

(** The arrays of runs are cleared over the space that the width asks for; where
    only the octets per row stay the same, they keep their size. *)
Definition cleared (old : list Z) (same : bool) (space : Z) : option (list Z) :=
  if same then
    if space <=? zlen old then Some (replicate (Z.to_nat space) 0 ++ drop (Z.to_nat space) old) else None
  else Some (replicate (Z.to_nat space) 0).

(** The result is that of the C function. *)
Definition t4_rx_start_page (s : t4_rx_state_t) : option (Z * t4_rx_state_t) :=
  if negb (tiff_file s) then Some (-1, s)
  else
    let d := dec s in
    let bpr := (image_width d + 7) / 8 in
    let space := image_width d + 4 in
    let w := image_width d in
    let t6 := line_encoding d =? T4_COMPRESSION_ITU_T6 in
    cur ← cleared (cur_runs d) (bpr =? bytes_per_row d) space;
    ref ← cleared (ref_runs d) (bpr =? bytes_per_row d) space;
    ref ← set_index ref 0 w; ref ← set_index ref 1 w; ref ← set_index ref 2 w; ref ← set_index ref 3 w;
    Some (0, s <| rx_bitstream := 0 |> <| rx_bits := 0 |> <| line_image_size := 0 |>
      <| dec := {|
           line_encoding := line_encoding d; bytes_per_row := bpr; image_width := w; row_is_2d := t6; row_len := 0;
           cur_runs := cur; ref_runs := ref; row_bits := 0; min_row_bits := INT_MAX; max_row_bits := 0;
           rx_skip_bits := 0; consecutive_eols := if t6 then 0 else -1; a0 := 0; b1 := w; run_length := 0;
           black_white := 0; its_black := false; a_cursor := 0; b_cursor := 1;
           image := {| image_buffer := []; image_buffer_size := image_buffer_size (image d); tx_bitstream := 0;
                       tx_bits := 8; image_length := 0; last_row_starts_at := 0; curr_bad_row_run := 0;
                       longest_bad_row_run := 0; bad_rows := 0 |} |} |>).

(** Thirteen zeros behind the last codes of a T.6 page. *)
Fixpoint put_zeros (n : nat) (s : t4_rx_state_t) : option t4_rx_state_t :=
  match n with
  | O => Some s
  | S n => '(_, s) ← t4_rx_put_bit s 0; put_zeros n s
  end.

Section page.
Context {U : Type} (row_write_handler : U -> list Z -> U * Z).

(** The rows of the image to the handler, as long as it takes them. *)
Fixpoint write_rows (n : nat) (row bytes_per_row : Z) (image : list Z) (u : U) : option U :=
  match n with
  | O => Some u
  | S n =>
      if zlen image <? (row + 1) * bytes_per_row then None
      else
        let '(u, r) := row_write_handler u (slice image (row * bytes_per_row) bytes_per_row) in
        if r <? 0 then Some u else write_rows n (row + 1) bytes_per_row image u
  end.

(** A call of the handler with no octets ends the image. *)
Definition t4_rx_end_page (u : U) (s : t4_rx_state_t) : option (Z * U * t4_rx_state_t) :=
  s ← (if line_encoding (dec s) =? T4_COMPRESSION_ITU_T6 then put_zeros 13 s else Some s);
  let d := dec s in
  let m := end_bad_rows (image d) in
  let s := s <| dec := d <| image := m |> |> in
  if zlen (image_buffer m) =? 0 then Some (-1, u, s)
  else
    u ← write_rows (Z.to_nat (image_length m)) 0 (bytes_per_row d) (image_buffer m) u;
    let '(u, _) := row_write_handler u [] in
    Some (0, u, s <| rx_bits := 0 |> <| rx_bitstream := 0 |>
                  <| dec := d <| rx_skip_bits := 0 |> <| consecutive_eols := EOLS_TO_END_ANY_RX_PAGE |>
                              <| image := m <| image_buffer := [] |> |> |>).
End page.
