(* ===== verification/T4Spec.v ===== *)
(** * Rows, runs and line images of T.4

    What the encoder (T4Tx) and the decoder (T4Rx) are specified against: the runs
    of a row of pixels, the code words of runs and of two-dimensional modes, and
    the EOL.  Nothing here is code of the library; it is the format of T.4 and
    T.6. *)
From Stdlib Require Import Sorted.
From S2P Require Import Prelude T4Tables.

(** ** Pixels and runs

    A row begins with white, which may have no pixels; [ends] are the positions
    where the runs end. *)
Definition pixels (row : list Z) : list bool := concat (map (msb_bits 8) row).

(** The changes of colour from position [p] on, where the colour is [c]. *)
Fixpoint changes (c : bool) (p : Z) (l : list bool) : list Z :=
  match l with
  | [] => []
  | b :: l => if eqb b c then changes c (p + 1) l else p :: changes b (p + 1) l
  end.

Definition run_ends (l : list bool) : list Z := changes false 0 l ++ [zlen l].

(** The runs between the ends. *)
Fixpoint lengths (last : Z) (l : list Z) : list Z :=
  match l with
  | [] => []
  | e :: l => (e - last) :: lengths e l
  end.

Fixpoint paint (c : bool) (runs : list Z) : list bool :=
  match runs with
  | [] => []
  | r :: runs => repeat c (Z.to_nat r) ++ paint (negb c) runs
  end.

(** The colour at the end. *)
Fixpoint last_colour (c : bool) (l : list bool) : bool :=
  match l with
  | [] => c
  | b :: l => last_colour b l
  end.

Lemma length_pixels row : length (pixels row) = (8 * length row)%nat.
Proof. induction row as [|b row IH]; [done|]. cbn [pixels map concat]. rewrite length_app, length_msb_bits. unfold pixels in IH. rewrite IH. simpl. lia. Qed.

Lemma pixels_app r r' : pixels (r ++ r') = pixels r ++ pixels r'.
Proof. unfold pixels. by rewrite map_app, concat_app. Qed.

Lemma last_colour_app c l l' : last_colour c (l ++ l') = last_colour (last_colour c l) l'.
Proof.
  revert c. induction l as [|b l IH]; intros c; [done|]. cbn [app last_colour]. apply IH.
Qed.

Lemma changes_app c p l l' : changes c p (l ++ l') = changes c p l ++ changes (last_colour c l) (p + zlen l) l'.
Proof.
  revert c p. induction l as [|b l IH]; intros c p; cbn [app changes].
  - cbn [app length]. by rewrite Z.add_0_r.
  - rewrite !IH. cbn [length last_colour]. replace (p + 1 + zlen l) with (p + Z.of_nat (S (length l))) by lia.
    destruct (eqb b c) eqn:E; [|done]. by apply eqb_prop in E as ->.
Qed.

Lemma changes_repeat c p n : changes c p (repeat c n) = [].
Proof. revert p. induction n as [|n IH]; intros p; [done|]. cbn [repeat changes]. by rewrite eqb_reflx. Qed.

Lemma last_colour_repeat c n : last_colour c (repeat c n) = c.
Proof. induction n; [done|]. exact IHn. Qed.

(** ** Code words

    A run is a number of make-up codes, multiples of 64, and a terminating code. *)
Definition word_of (te : t4_run_table_entry_t) : list bool := lsb_bits (Z.to_nat (code_length te)) (code te).

Definition pieces (r : Z) : list Z :=
  let k := Z.to_nat ((r - 64) / 2560) in
  let r' := r - 2560 * Z.of_nat k in
  replicate k 2560 ++ (if 64 <=? r' then [64 * (r' / 64)] else []) ++ [r' mod 64].

Definition run_codes (black : bool) : list t4_run_table_entry_t := if black then t4_black_codes else t4_white_codes.

(** The entry of a piece. *)
Definition entry_of (black : bool) (n : Z) : t4_run_table_entry_t :=
  nth (Z.to_nat (if n <? 64 then n else 63 + n / 64)) (run_codes black) (C 0 0 0).

Definition run_words (black : bool) (r : Z) : list (list bool) := map (fun n => word_of (entry_of black n)) (pieces r).

(** A row in one dimension, from its runs. *)
Fixpoint row_words (black : bool) (runs : list Z) : list (list bool) :=
  match runs with
  | [] => []
  | r :: runs => run_words black r ++ row_words (negb black) runs
  end.

(** ** Modes

    The modes of a two-dimensional row. *)
Inductive mode := Vertical (d : Z) | Horizontal (r r' : Z) | Pass.

Definition mode_word (i : Z) : list bool := word_of (nth (Z.to_nat i) codes (C 0 0 0)).

(** [black] is the colour at the mode; [d] is how far the change is to the left of
    that of the reference row. *)
Definition mode_words (black : bool) (m : mode) : list (list bool) :=
  match m with
  | Vertical d => [mode_word (d + 3)]
  | Horizontal r r' => mode_word 7 :: run_words black r ++ run_words (negb black) r'
  | Pass => [mode_word 8]
  end.

(** ** Ends of lines *)
Definition eol : list bool := repeat false 11 ++ [true].

(** ** Ends of runs as a function

    Behind its end, a row has no more changes: they are all at its width. *)
Definition end_at (w : Z) (ends : list Z) (i : Z) : Z := if i <? zlen ends then aget ends i else w.

Record ends_ok (w : Z) (ends : list Z) : Prop := {
  ends_pos : 0 < w;
  ends_some : 0 < zlen ends;
  ends_last : aget ends (zlen ends - 1) = w;
  ends_first : 0 <= aget ends 0;
  ends_mono : forall i j, 0 <= i < j -> j < zlen ends -> aget ends i < aget ends j;
}.

Lemma end_at_le w ends i j : ends_ok w ends -> 0 <= i <= j -> end_at w ends i <= end_at w ends j.
Proof.
  intros [_ H1 H2 _ H3] Hij. unfold end_at. destruct (Z.ltb_spec i (zlen ends)), (Z.ltb_spec j (zlen ends)); try lia.
  - destruct (decide (i = j)) as [->|]; [lia|]. apply Z.lt_le_incl, H3; lia.
  - destruct (decide (i = zlen ends - 1)) as [->|]; [lia|]. rewrite <- H2. apply Z.lt_le_incl, H3; lia.
Qed.

Lemma end_at_lt w ends i : ends_ok w ends -> 0 <= i -> end_at w ends i < w -> end_at w ends i < end_at w ends (i + 1).
Proof.
  intros [_ H1 H2 _ H3] Hi. unfold end_at. destruct (Z.ltb_spec i (zlen ends)), (Z.ltb_spec (i + 1) (zlen ends)); try lia.
  intros _. apply H3; lia.
Qed.

Lemma end_at_range w ends i : ends_ok w ends -> 0 <= i -> 0 <= end_at w ends i <= w.
Proof.
  intros Hok Hi. split.
  - transitivity (end_at w ends 0); [|apply end_at_le; done || lia].
    unfold end_at. rewrite (proj2 (Z.ltb_lt _ _)) by apply Hok. apply Hok.
  - destruct (Z_lt_le_dec i (zlen ends)).
    + rewrite <- (ends_last _ _ Hok) at 2. transitivity (end_at w ends (zlen ends - 1)).
      * apply end_at_le; [done|lia].
      * unfold end_at. rewrite (proj2 (Z.ltb_lt _ _)) by lia. lia.
    + unfold end_at. rewrite (proj2 (Z.ltb_ge _ _)) by lia. lia.
Qed.

(** The row goes on exactly before its last run. *)
Lemma end_at_inside w ends i : ends_ok w ends -> 0 <= i -> end_at w ends i < w <-> i < zlen ends - 1.
Proof.
  intros Hok Hi. split; intros H.
  - destruct (Z_lt_le_dec i (zlen ends - 1)); [done|].
    pose proof (end_at_le w ends (zlen ends - 1) i Hok ltac:(pose proof (ends_some _ _ Hok); lia)) as Hle.
    unfold end_at in Hle at 1. rewrite (proj2 (Z.ltb_lt _ _)), (ends_last _ _ Hok) in Hle by lia. lia.
  - destruct Hok as [_ H1 H2 _ H3]. unfold end_at. rewrite (proj2 (Z.ltb_lt _ _)) by lia. rewrite <- H2. apply H3; lia.
Qed.

(** ** Two-dimensional coding

    The changes [a] of a row are coded against those, [b], of the row before it.
    [a0] is how far the row is coded (-1 before its first pixel), [i] the number of
    runs that are complete; of the changes of the reference row to the right of
    [a0], and of the same kind as the next one, [j] is the first. *)
Definition first_right (b : Z -> Z) (a0 i j : Z) : Prop :=
  0 <= j /\ Z.even (j - i) = true /\ a0 < b j /\ forall k, 0 <= k < j -> Z.even (j - k) = true -> b k <= a0.

Inductive coding (a b : Z -> Z) (w : Z) : Z -> Z -> list mode -> Prop :=
  | coded_end i : coding a b w w i []
  | coded_vertical a0 i j ms :
      a0 < w -> first_right b a0 i j -> a i <= b (j + 1) -> Z.abs (b j - a i) <= 3 ->
      coding a b w (a i) (i + 1) ms -> coding a b w a0 i (Vertical (b j - a i) :: ms)
  | coded_horizontal a0 i j ms :
      a0 < w -> first_right b a0 i j -> a i <= b (j + 1) -> 3 < Z.abs (b j - a i) ->
      coding a b w (a (i + 1)) (i + 2) ms ->
      coding a b w a0 i (Horizontal (a i - Z.max 0 a0) (a (i + 1) - a i) :: ms)
  | coded_pass a0 i j ms :
      a0 < w -> first_right b a0 i j -> b (j + 1) < a i ->
      coding a b w (b (j + 1)) i ms -> coding a b w a0 i (Pass :: ms).

(** The words of the modes, from run [i] on. *)
Fixpoint modes_words (i : Z) (ms : list mode) : list (list bool) :=
  match ms with
  | [] => []
  | m :: ms =>
      mode_words (Z.odd i) m ++
      modes_words (match m with Vertical _ => i + 1 | Horizontal _ _ => i + 2 | Pass => i end) ms
  end.

(** ** The ends of the runs of a row of pixels *)

Lemma changes_from c p l : Forall (fun x => p <= x) (changes c p l ++ [p + zlen l]).
Proof.
  revert c p. induction l as [|b l IH]; intros c p; cbn [changes app].
  - constructor; [lia|constructor].
  - cbn [length]. replace (p + Z.of_nat (S (length l))) with (p + 1 + zlen l) by lia.
    assert (forall c', Forall (fun x => p <= x) (changes c' (p + 1) l ++ [p + 1 + zlen l])) as H.
    { intros c'. apply (list.Forall_impl _ _ _ (IH c' (p + 1))). intros x Hx. cbn in Hx. lia. }
    destruct (eqb b c); [apply H|]. cbn [app]. constructor; [lia|apply H].
Qed.

Lemma changes_sorted c p l : StronglySorted Z.lt (changes c p l ++ [p + zlen l]).
Proof.
  revert c p. induction l as [|b l IH]; intros c p; cbn [changes app]; [repeat constructor|].
  cbn [length]. replace (p + Z.of_nat (S (length l))) with (p + 1 + zlen l) by lia.
  destruct (eqb b c); [apply IH|]. cbn [app]. constructor; [apply IH|].
  apply (list.Forall_impl _ _ _ (changes_from b (p + 1) l)). intros x Hx. cbn in Hx. lia.
Qed.

Lemma sorted_aget l i j : StronglySorted Z.lt l -> 0 <= i < j -> j < zlen l -> aget l i < aget l j.
Proof.
  intros Hs. revert i j. induction Hs as [|x l Hs IH Hx]; intros i j Hi Hj; [cbn in Hj; lia|]. cbn [length] in Hj.
  unfold aget. replace (Z.to_nat j) with (S (Z.to_nat (j - 1))) by lia. cbn [nth].
  destruct (decide (i = 0)) as [->|].
  - cbn [Z.to_nat nth]. rewrite list.Forall_forall in Hx. apply Hx. apply list_elem_of_In, nth_In. lia.
  - replace (Z.to_nat i) with (S (Z.to_nat (i - 1))) by lia. cbn [nth]. apply (IH (i - 1) (j - 1)); lia.
Qed.

Lemma run_ends_ok l : l <> [] -> ends_ok (zlen l) (run_ends l).
Proof.
  intros Hl. assert (0 < zlen l) as Hpos by (destruct l; [done|cbn [length]; lia]). unfold run_ends. split.
  - done.
  - rewrite length_app. cbn [length]. lia.
  - rewrite length_app. unfold aget. cbn [length]. rewrite nth_lookup, lookup_app_r by lia.
    by replace (Z.to_nat _ - _)%nat with O by lia.
  - pose proof (changes_from false 0 l) as H. rewrite Z.add_0_l in H.
    destruct (changes false 0 l) as [|x chs]; [apply Z.lt_le_incl; exact Hpos|]. exact (proj1 (Forall_cons_1 _ _ _ H)).
  - intros i j Hi Hj. apply sorted_aget; [|done|done]. apply (changes_sorted false 0 l).
Qed.

(** The colour of a pixel is that of its run. *)
Lemma colour_of_run c q l p i e : q <= p -> (changes c q l ++ [q + zlen l]) !! i = Some e -> p < e ->
  (forall k e', i = S k -> (changes c q l ++ [q + zlen l]) !! k = Some e' -> e' <= p) ->
  nth (Z.to_nat (p - q)) l false = xorb c (Nat.odd i).
Proof.
  revert c q i. induction l as [|b l IH]; intros c q i Hq Hi Hp Hprev.
  { cbn in Hi. destruct i as [|[|i]]; cbn in Hi; [|done|done]. injection Hi as <-. lia. }
  cbn [changes length] in Hi, Hprev. replace (q + Z.of_nat (S (length l))) with (q + 1 + zlen l) in Hi, Hprev by lia.
  pose proof (fun c' k e' => Forall_lookup_1 _ _ k e' (changes_from c' (q + 1) l)) as Hfrom. cbv beta in Hfrom.
  destruct (decide (p = q)) as [->|Hne].
  - rewrite Z.sub_diag. cbn [Z.to_nat nth]. destruct (eqb b c) eqn:E.
    + apply eqb_prop in E as ->. destruct i as [|k]; [by destruct c|].
      destruct (lookup_lt_is_Some_2 (changes c (q + 1) l ++ [q + 1 + zlen l]) k) as [e' E']; [apply lookup_lt_Some in Hi; lia|].
      specialize (Hprev k e' eq_refl E'). apply Hfrom in E'. lia.
    + cbn [app] in Hi, Hprev. destruct i as [|[|k]]; cbn [lookup] in Hi; [injection Hi as <-; lia|by destruct b, c|].
      destruct (lookup_lt_is_Some_2 (changes b (q + 1) l ++ [q + 1 + zlen l]) k) as [e' E']; [apply lookup_lt_Some in Hi; cbn in Hi; lia|].
      specialize (Hprev (S k) e' eq_refl E'). apply Hfrom in E'. lia.
  - replace (Z.to_nat (p - q)) with (S (Z.to_nat (p - (q + 1)))) by lia. cbn [nth]. destruct (eqb b c) eqn:E.
    + apply eqb_prop in E as ->. apply IH; [lia|done|done|done].
    + cbn [app] in Hi, Hprev. destruct i as [|i]; cbn [lookup] in Hi; [injection Hi as <-; lia|].
      rewrite (IH b (q + 1) i); [|lia|done|done|].
      * rewrite Nat.odd_succ, <- Nat.negb_odd. destruct b, c, (Nat.odd i); done.
      * intros k e' -> E'. apply (Hprev (S k) e' eq_refl E').
Qed.

Lemma odd_of_nat n : Z.odd (Z.of_nat n) = Nat.odd n.
Proof.
  induction n as [|n IH]; [done|].
  by rewrite Nat2Z.inj_succ, Z.odd_succ, Nat.odd_succ, <- Z.negb_odd, <- Nat.negb_odd, IH.
Qed.

Lemma pixel_colour l p i : l <> [] -> 0 <= i -> 0 <= p < end_at (zlen l) (run_ends l) i ->
  (i = 0 \/ end_at (zlen l) (run_ends l) (i - 1) <= p) -> nth (Z.to_nat p) l false = Z.odd i.
Proof.
  intros Hl Hi Hp Hprev. pose proof (run_ends_ok l Hl) as Hok.
  assert (i < zlen (run_ends l)) as Hlt.
  { destruct (Z_lt_le_dec i (zlen (run_ends l))); [done|]. exfalso.
    pose proof (end_at_range _ _ i Hok Hi). destruct Hprev as [->|Hprev]; [pose proof (ends_some _ _ Hok); lia|].
    destruct (end_at_inside _ _ (i - 1) Hok ltac:(pose proof (ends_some _ _ Hok) as Hes; lia)) as [Hin _]. lia. }
  assert (forall k : nat, Z.of_nat k < zlen (run_ends l) ->
    (changes false 0 l ++ [0 + zlen l]) !! k = Some (end_at (zlen l) (run_ends l) (Z.of_nat k))) as Hat.
  { intros k Hk. unfold end_at. rewrite (proj2 (Z.ltb_lt _ _)) by done. unfold aget. rewrite Nat2Z.id, nth_lookup.
    change (changes false 0 l ++ [0 + zlen l]) with (run_ends l).
    destruct (lookup_lt_is_Some_2 (run_ends l) k ltac:(lia)) as [x ->]. done. }
  pose proof (colour_of_run false 0 l p (Z.to_nat i) _ ltac:(lia) (Hat (Z.to_nat i) ltac:(lia))) as H.
  rewrite Z2Nat.id in H by lia. rewrite Z.sub_0_r in H. rewrite H.
  - cbn [xorb]. rewrite <- odd_of_nat. by rewrite Z2Nat.id by lia.
  - lia.
  - intros k e' Ei E'. rewrite Hat in E' by lia. injection E' as <-. destruct Hprev as [->|Hprev]; [done|].
    replace (i - 1) with (Z.of_nat k) in Hprev by lia. done.
Qed.

(** ** Rows of a page

    In T.4 a row follows an EOL, before which there may be fill, and which, where
    there are both kinds of rows, is followed by a bit that says whether the row is
    one-dimensional.  T.6 has only two-dimensional rows and nothing between
    them. *)
Section page_format.
Context (enc w : Z).

Definition tag (one : bool) : list bool := if enc =? 2 then [one] else [].
Definition row_start (two : bool) (l : list bool) : Prop :=
  if enc =? 3 then two = true /\ l = []
  else (enc <> 2 -> two = false) /\ exists k, l = repeat false k ++ eol ++ tag (negb two).

(** The row before, if any, is the reference of a two-dimensional row. *)
Definition row_code (two : bool) (refs : option (list Z)) (px : list bool) (ws : list (list bool)) : Prop :=
  if two
  then exists r ms, refs = Some r /\ coding (end_at w (run_ends px)) (end_at w r) w (-1) 0 ms /\ ws = modes_words 0 ms
  else ws = row_words false (lengths 0 (run_ends px)).

(** The rows [pxs] behind one whose runs end at [refs]. *)
Inductive coded_rows : option (list Z) -> list (list bool) -> list bool -> option (list Z) -> Prop :=
  | coded_nil refs : coded_rows refs [] [] refs
  | coded_cons refs px pxs two start ws rest refs' :
      zlen px = w -> row_start two start -> row_code two refs px ws ->
      coded_rows (Some (run_ends px)) pxs rest refs' ->
      coded_rows refs (px :: pxs) (start ++ concat ws ++ rest) refs'.

(** The end of a page: six EOLs, or two in T.6. *)
Definition page_end (l : list bool) : Prop :=
  if enc =? 3 then l = eol ++ eol
  else exists k, l = repeat false k ++ concat (replicate 6 (eol ++ tag true)).

Lemma coded_rows_app refs pxs l refs' pxs' l' refs'' :
  coded_rows refs pxs l refs' -> coded_rows refs' pxs' l' refs'' -> coded_rows refs (pxs ++ pxs') (l ++ l') refs''.
Proof.
  induction 1 as [|refs px pxs two start ws rest refs' Hpx Hs Hc _ IH]; intros H'; [done|].
  cbn [app]. rewrite <- !app_assoc. econstructor; eauto.
Qed.
End page_format.
