(* ===== verification/T4Changes.v ===== *)
(** * The runs of a row (src/spandsp-0.0.6/src/t4_tx.c, [row_to_run_lengths])

    Word by word and octet by octet, the encoder finds the ends of the runs. *)
From S2P Require Import Prelude BitOps V42bisTx T4Tables T4Base T4Tx T4Spec.

(** The word of one colour. *)
Definition all_of (mask : Z) (c : bool) : Z := if c then mask else 0.

(** A mask whose top [n] bits are ones. *)
Definition top_mask (mask n : Z) : Prop :=
  0 <= mask < 2 ^ 32 /\ forall i, 0 <= i < n -> Z.testbit mask (31 - i) = true.

Lemma flip_all mask c : all_of mask c .^ mask = all_of mask (negb c).
Proof. destruct c; simpl; [apply Z.lxor_nilpotent|apply Z.lxor_0_l]. Qed.

(** The first bit of another colour. *)
Lemma first_change mask n x c l : on_top x n l -> top_mask mask n ->
  let frag := 31 - top_bit (x .^ all_of mask c) in
  (n <= frag /\ l = repeat c (length l)) \/
  (0 <= frag < n /\ exists r, l = repeat c (Z.to_nat frag) ++ negb c :: r).
Proof.
  intros [Hx Hl Hn Hb] [Hm Hmb] frag.
  assert (0 <= x .^ all_of mask c < 2 ^ 32) as Hy by (apply lxor_range; [lia|done|destruct c; simpl; lia]).
  assert (forall i, 0 <= i < n -> Z.testbit (x .^ all_of mask c) (31 - i) = xorb (nth (Z.to_nat i) l false) c) as Hbits.
  { intros i Hi. bit_specs. rewrite Hb by lia. f_equal. destruct c; simpl; [apply Hmb; lia|apply Z.bits_0]. }
  assert (forall k, 0 <= k < frag -> k < n -> nth (Z.to_nat k) l false = c) as Hbefore.
  { intros k Hk Hkn. specialize (Hbits k ltac:(lia)). subst frag. rewrite top_bit_spec in Hk by done.
    assert (Z.testbit (x .^ all_of mask c) (31 - k) = false) as Hf.
    { destruct (Z.eqb_spec (x .^ all_of mask c) 0) as [E|E]; [rewrite E; apply Z.bits_0|].
      apply Z.bits_above_log2; lia. }
    rewrite Hf in Hbits. by destruct (nth (Z.to_nat k) l false), c. }
  assert (0 <= frag) as Hfrag.
  { subst frag. rewrite top_bit_spec by done. destruct (Z.eqb_spec (x .^ all_of mask c) 0); [lia|].
    assert (Z.log2 (x .^ all_of mask c) < 32) by (apply Z.log2_lt_pow2; lia). lia. }
  destruct (Z_lt_le_dec frag n) as [Hlt|Hge].
  - right. split; [done|]. exists (drop (S (Z.to_nat frag)) l).
    assert (nth (Z.to_nat frag) l false = negb c) as Hat.
    { specialize (Hbits frag ltac:(lia)). subst frag. rewrite top_bit_spec in Hbits, Hlt, Hfrag |- * by done.
      destruct (Z.eqb_spec (x .^ all_of mask c) 0) as [E|E]; [lia|].
      replace (31 - (31 - Z.log2 (x .^ all_of mask c))) with (Z.log2 (x .^ all_of mask c)) in Hbits by lia.
      rewrite Z.bit_log2 in Hbits by lia. by destruct (nth _ l false), c. }
    apply (nth_ext _ _ false false).
    + rewrite length_app, repeat_length. cbn [length]. rewrite length_drop. lia.
    + intros k Hk. destruct (decide (k < Z.to_nat frag)%nat) as [Hkf|Hkf].
      * rewrite app_nth1 by (rewrite repeat_length; lia). rewrite nth_repeat_lt by done.
        rewrite <- (Nat2Z.id k). apply Hbefore; lia.
      * rewrite app_nth2 by (rewrite repeat_length; lia). rewrite repeat_length.
        destruct (decide (k = Z.to_nat frag)) as [->|]; [by rewrite Nat.sub_diag|].
        replace (k - Z.to_nat frag)%nat with (S (k - Z.to_nat frag - 1)) by lia. cbn [nth].
        rewrite (nth_lookup (drop _ _)), lookup_drop, <- nth_lookup. f_equal. lia.
  - left. split; [done|]. apply (nth_ext _ _ false false); [by rewrite repeat_length|].
    intros k Hk. rewrite nth_repeat_lt by done. rewrite <- (Nat2Z.id k). apply Hbefore; lia.
Qed.

(** Where the run begins that is open at the end. *)
Definition open_from (pos : Z) (chs : list Z) : Z := List.last chs pos.

Lemma open_from_app pos l l' : open_from pos (l ++ l') = open_from (open_from pos l) l'.
Proof.
  unfold open_from. induction l' as [|x l' IH] using rev_ind; [by rewrite app_nil_r|].
  by rewrite app_assoc, !last_last.
Qed.

Lemma changes_flip c p f r : 0 <= f ->
  changes c p (repeat c (Z.to_nat f) ++ negb c :: r) = (p + f) :: changes (negb c) (p + f) (negb c :: r).
Proof.
  intros Hf. rewrite changes_app, changes_repeat, last_colour_repeat, repeat_length, Z2Nat.id by done.
  cbn [app changes]. by destruct c.
Qed.

Lemma last_colour_flip c f r : last_colour c (repeat c (Z.to_nat f) ++ negb c :: r) = last_colour (negb c) (negb c :: r).
Proof. by rewrite last_colour_app, last_colour_repeat. Qed.

Lemma top_mask_less mask n m : top_mask mask n -> m <= n -> top_mask mask m.
Proof. intros [H1 H2] Hm. split; [done|]. intros i Hi. apply H2. lia. Qed.

Lemma on_top_flip x n c f r : on_top x n (repeat c (Z.to_nat f) ++ r) -> 0 <= f ->
  on_top (u32 (x .<< f)) (n - f) r.
Proof. intros H Hf. apply on_top_drop in H. rewrite repeat_length, Z2Nat.id in H by done. exact H. Qed.

Lemma find_changes_spec fuel mask n x c l pos list : on_top x n (c :: l) -> top_mask mask n -> n <= Z.of_nat fuel ->
  let chs := changes c pos (c :: l) in
  find_changes fuel mask x (all_of mask c) n pos list =
    Some (all_of mask (last_colour c (c :: l)), pos + n - open_from pos chs, open_from pos chs, list ++ chs).
Proof.
  revert n x c l pos list. induction fuel as [|fuel IH]; intros n x c l pos list Ht Hm Hn chs;
    pose proof (top_length _ _ _ Ht) as Hlen; cbn [length] in Hlen; [lia|].
  cbn [find_changes]. destruct (first_change mask n x c (c :: l) Ht Hm) as [[Hf E]|[Hf [r E]]].
  - rewrite (proj2 (Z.leb_le _ _)) by done. subst chs. rewrite E, changes_repeat, last_colour_repeat.
    unfold open_from. cbn [List.last]. rewrite app_nil_r. do 5 f_equal. lia.
  - rewrite (proj2 (Z.leb_gt _ _)) by lia. set (f := 31 - _) in *.
    assert (1 <= f) as Hf1.
    { destruct (decide (f = 0)) as [E0|]; [|lia]. rewrite E0 in E. injection E as E _. by destruct c. }
    rewrite flip_all. rewrite E in Ht. apply on_top_flip in Ht; [|lia].
    rewrite (IH _ _ _ r _ _ Ht) by (lia || (eapply top_mask_less; [done|lia])).
    subst chs. rewrite E, changes_flip, last_colour_flip by lia.
    change (pos + f :: changes (negb c) (pos + f) (negb c :: r))
      with ([pos + f] ++ changes (negb c) (pos + f) (negb c :: r)).
    rewrite open_from_app. change (open_from pos [pos + f]) with (pos + f).
    rewrite (app_assoc list). replace (pos + f + (n - f)) with (pos + n) by lia. done.
Qed.

(** A word in which the colour changes. *)
Lemma word_changes_spec n mask x c i pos l list : on_top x (8 * n) l -> top_mask mask (8 * n) -> 0 < n <= 4 ->
  l <> repeat c (length l) -> 0 <= i ->
  let chs := changes c (8 * i) l in
  word_changes n mask x (all_of mask c) i pos pos list =
    Some (all_of mask (last_colour c l), open_from pos chs, open_from pos chs, list ++ chs).
Proof.
  intros Ht Hm Hn Hne Hi chs. unfold word_changes.
  destruct (first_change mask (8 * n) x c l Ht Hm) as [[Hf E]|[Hf [r E]]]; [done|].
  set (f := 31 - _) in *. rewrite E in Ht. apply on_top_flip in Ht; [|lia].
  rewrite Z.shiftl_mul_pow2 by lia. replace (i * 2 ^ 3) with (8 * i) by lia.
  replace (pos + (8 * i - pos + f)) with (8 * i + f) by lia. rewrite flip_all.
  rewrite (find_changes_spec 32 _ _ _ _ _ _ _ Ht) by (lia || (eapply top_mask_less; [done|lia])).
  cbn [mbind option_bind]. subst chs. rewrite E, changes_flip, last_colour_flip by lia.
  set (chs := changes _ _ _). change ((8 * i + f) :: chs) with ([8 * i + f] ++ chs).
  rewrite open_from_app. change (open_from pos [8 * i + f]) with (8 * i + f).
  rewrite <- app_assoc. do 4 f_equal. lia.
Qed.

(** ** Octets and words *)

Lemma octet_top b : is_byte b -> on_top (b .<< 24) 8 (msb_bits 8 b).
Proof.
  intros Hb. pose proof (on_top_put 0 0 [] 8 b on_top_nil ltac:(lia) ltac:(lia) Hb) as H.
  cbn [app] in H. rewrite Z.lor_0_l, wrap_id in H; [exact H|].
  rewrite Z.shiftl_mul_pow2 by lia. unfold is_byte in Hb. lia.
Qed.

Lemma shifted_octet b k : is_byte b -> 0 <= k <= 24 -> u32 (b .<< k) = b .<< k.
Proof.
  intros Hb Hk. apply wrap_id. rewrite Z.shiftl_mul_pow2 by lia. unfold is_byte in Hb.
  assert (0 < 2 ^ k <= 2 ^ 24) by (split; [apply Z.pow_pos_nonneg; lia|apply Z.pow_le_mono_r; lia]). nia.
Qed.

Lemma be_word_top b0 b1 b2 b3 : bytes [b0; b1; b2; b3] -> on_top (be_word b0 b1 b2 b3) 32 (pixels [b0; b1; b2; b3]).
Proof.
  intros (H0 & H1 & H2 & H3)%bytes4_inv. unfold be_word.
  pose proof (octet_top b0 H0) as H.
  apply (on_top_put _ _ _ 8 b1) in H; [|lia..|exact H1]. apply (on_top_put _ _ _ 8 b2) in H; [|lia..|exact H2].
  apply (on_top_put _ _ _ 8 b3) in H; [|lia..|exact H3].
  rewrite !shifted_octet in H by (done || lia). rewrite Z.shiftl_0_r in H.
  replace (pixels [b0; b1; b2; b3]) with (((msb_bits 8 b0 ++ msb_bits 8 b1) ++ msb_bits 8 b2) ++ msb_bits 8 b3); [exact H|].
  unfold pixels. cbn [map concat]. by rewrite app_nil_r, !app_assoc.
Qed.

Lemma octet_one_colour b c : is_byte b -> msb_bits 8 b = repeat c 8 <-> b = all_of 0xFF c.
Proof.
  intros Hb. split.
  - intros E. apply Z.bits_inj'. intros i Hi. destruct (Z_lt_le_dec i 8) as [H|H].
    + replace i with (Z.of_nat 8 - 1 - Z.of_nat (Z.to_nat (7 - i))) at 1 by lia.
      rewrite <- nth_msb, E by lia. rewrite nth_repeat_lt by lia. destruct c; simpl; [|by rewrite Z.bits_0].
      symmetry. change 255 with (Z.ones 8). apply Z.ones_spec_low. lia.
    + rewrite (testbit_high 8 b) by done. destruct c; simpl; [|by rewrite Z.bits_0].
      symmetry. apply (testbit_high 8); [lia|done].
  - intros ->. by destruct c.
Qed.

Lemma octet_word_one_colour b c : is_byte b -> b .<< 24 = all_of 0xFF000000 c <-> msb_bits 8 b = repeat c 8.
Proof.
  intros Hb. rewrite octet_one_colour by done. rewrite Z.shiftl_mul_pow2 by lia.
  destruct c; simpl; lia.
Qed.

Lemma word_one_colour b0 b1 b2 b3 c : bytes [b0; b1; b2; b3] ->
  le_combine [b0; b1; b2; b3] = all_of 0xFFFFFFFF c <-> pixels [b0; b1; b2; b3] = repeat c 32.
Proof.
  intros Hb. rewrite le_combine4 by done. apply bytes4_inv in Hb as (H0 & H1 & H2 & H3).
  assert (pixels [b0; b1; b2; b3] = repeat c 32 <-> b0 = all_of 255 c /\ b1 = all_of 255 c /\ b2 = all_of 255 c /\ b3 = all_of 255 c) as ->.
  { rewrite <- !octet_one_colour by done. split.
    - unfold pixels. cbn [map concat]. rewrite app_nil_r. intros E.
      change (repeat c 32) with (repeat c 8 ++ repeat c 8 ++ repeat c 8 ++ repeat c 8) in E.
      apply app_inj_1 in E as [? E]; [|done]. apply app_inj_1 in E as [? E]; [|done].
      apply app_inj_1 in E as [? E]; done.
    - intros (E0 & E1 & E2 & E3). unfold pixels. cbn [map concat]. by rewrite E0, E1, E2, E3. }
  unfold is_byte in *. destruct c; simpl; lia.
Qed.

(** ** The loops *)

(** After the pixels [l]. *)
Definition found (mask : Z) (l : list bool) (flip span pos : Z) (list : list Z) : Prop :=
  flip = all_of mask (last_colour false l) /\ list = changes false 0 l /\ pos = open_from 0 list /\ span = pos.

Lemma found_same mask l c n flip span pos list : found mask l flip span pos list -> flip = all_of mask c ->
  mask <> 0 -> found mask (l ++ repeat c n) flip span pos list.
Proof.
  intros (E1 & -> & -> & ->) E Hm.
  assert (last_colour false l = c) as Ec by (destruct (last_colour false l), c; simpl in *; congruence).
  split_and!; [|by rewrite changes_app, Ec, changes_repeat, app_nil_r|done|done].
  by rewrite last_colour_app, Ec, last_colour_repeat, <- Ec.
Qed.

Lemma found_more mask l l' flip span pos list i : found mask l flip span pos list -> zlen l = 8 * i ->
  let chs := changes (last_colour false l) (8 * i) l' in
  found mask (l ++ l') (all_of mask (last_colour (last_colour false l) l')) (open_from pos chs) (open_from pos chs) (list ++ chs).
Proof.
  intros (-> & -> & -> & ->) Hl chs. split_and!.
  - by rewrite last_colour_app.
  - by rewrite changes_app, Hl.
  - by rewrite open_from_app.
  - done.
Qed.

Lemma at_take {A} (row : list A) (i : nat) : (i < length row)%nat ->
  exists x, at_index row (Z.of_nat i) = Some x /\ take (S i) row = take i row ++ [x].
Proof.
  intros Hi. destruct (lookup_lt_is_Some_2 row i Hi) as [x E]. exists x. split.
  - apply at_index_Some; [lia|]. by rewrite Nat2Z.id.
  - by apply take_S_r.
Qed.

Lemma pixels_take_S row i x : take (S i) row = take i row ++ [x] ->
  pixels (take (S i) row) = pixels (take i row) ++ msb_bits 8 x.
Proof. intros ->. rewrite pixels_app. by f_equal. Qed.

Lemma zlen_pixels_take row i : (i <= length row)%nat -> zlen (pixels (take i row)) = 8 * Z.of_nat i.
Proof. intros H. rewrite length_pixels, length_take. lia. Qed.

Lemma top_mask_word : top_mask 0xFFFFFFFF 32.
Proof. split; [lia|]. intros i Hi. change 0xFFFFFFFF with (Z.ones 32). apply Z.ones_spec_low. lia. Qed.

Lemma top_mask_octet : top_mask 0xFF000000 8.
Proof.
  split; [lia|]. intros i Hi. change 0xFF000000 with (Z.ones 8 .<< 24). rewrite Z.shiftl_spec by lia.
  apply Z.ones_spec_low. lia.
Qed.

Lemma changes_in_octets_spec fuel row i limit flip span pos list :
  bytes row -> (limit <= length row)%nat -> (i <= limit)%nat -> (limit - i <= fuel)%nat ->
  found 0xFF000000 (pixels (take i row)) flip span pos list ->
  exists flip' span' pos' list',
    changes_in_octets fuel row (Z.of_nat i) (Z.of_nat limit) flip span pos list =
      Some (Z.of_nat limit, flip', span', pos', list') /\
    found 0xFF000000 (pixels (take limit row)) flip' span' pos' list'.
Proof.
  intros Hb Hl. revert i flip span pos list.
  induction fuel as [|fuel IH]; intros i flip span pos list Hi Hf Hfound; cbn [changes_in_octets].
  { rewrite (proj2 (Z.leb_le _ _)) by lia. replace i with limit in * by lia. by exists flip, span, pos, list. }
  destruct (Z.leb_spec (Z.of_nat limit) (Z.of_nat i)).
  { replace i with limit in * by lia. by exists flip, span, pos, list. }
  destruct (at_take row i ltac:(lia)) as (b & Eb & ET). rewrite Eb. cbn [mbind option_bind].
  assert (is_byte b) as Hbb.
  { unfold at_index in Eb. rewrite (proj2 (Z.ltb_ge _ _)) in Eb by lia. by eapply Forall_lookup_1 in Eb. }
  apply pixels_take_S in ET. pose proof Hfound as (Ef & _ & _ & Esp).
  replace (Z.of_nat i + 1) with (Z.of_nat (S i)) by lia. destruct (Z.eqb_spec (b .<< 24) flip) as [E|E].
  - apply IH; [lia|lia|]. rewrite ET, Ef in *.
    apply octet_word_one_colour in E; [|done]. rewrite E. by eapply found_same.
  - rewrite Ef, octet_word_one_colour in E by done. rewrite Ef, Esp.
    rewrite (word_changes_spec 1 _ _ _ _ _ (msb_bits 8 b)).
    + cbn [mbind option_bind]. apply IH; [lia|lia|]. rewrite ET. eapply found_more; [done|].
      apply zlen_pixels_take. lia.
    + by apply octet_top.
    + apply top_mask_octet.
    + lia.
    + by rewrite length_msb_bits.
    + lia.
Qed.

Lemma changes_in_words_spec fuel row i limit flip span pos list :
  bytes row -> (4 * limit <= length row)%nat -> (i <= limit)%nat -> (limit - i <= fuel)%nat ->
  found 0xFFFFFFFF (pixels (take (4 * i) row)) flip span pos list ->
  exists flip' span' pos' list',
    changes_in_words fuel row (Z.of_nat (4 * i)) (Z.of_nat (4 * limit)) flip span pos list =
      Some (Z.of_nat (4 * limit), flip', span', pos', list') /\
    found 0xFFFFFFFF (pixels (take (4 * limit) row)) flip' span' pos' list'.
Proof.
  intros Hb Hl. revert i flip span pos list.
  induction fuel as [|fuel IH]; intros i flip span pos list Hi Hf Hfound; cbn [changes_in_words].
  { rewrite (proj2 (Z.leb_le _ _)) by lia. replace i with limit in * by lia. by exists flip, span, pos, list. }
  destruct (Z.leb_spec (Z.of_nat (4 * limit)) (Z.of_nat (4 * i))).
  { replace i with limit in * by lia. by exists flip, span, pos, list. }
  destruct (at_take row (4 * i) ltac:(lia)) as (b0 & E0 & T0).
  destruct (at_take row (4 * i + 1) ltac:(lia)) as (b1 & E1 & T1).
  destruct (at_take row (4 * i + 2) ltac:(lia)) as (b2 & E2 & T2).
  destruct (at_take row (4 * i + 3) ltac:(lia)) as (b3 & E3 & T3).
  rewrite E0. replace (Z.of_nat (4 * i) + 1) with (Z.of_nat (4 * i + 1)) by lia.
  replace (Z.of_nat (4 * i) + 2) with (Z.of_nat (4 * i + 2)) by lia.
  replace (Z.of_nat (4 * i) + 3) with (Z.of_nat (4 * i + 3)) by lia.
  replace (Z.of_nat (4 * i) + 4) with (Z.of_nat (4 * S i)) by lia.
  rewrite E1, E2, E3. cbn [mbind option_bind].
  assert (take (4 * S i) row = take (4 * i) row ++ [b0; b1; b2; b3]) as ET.
  { replace (4 * S i)%nat with (S (4 * i + 3)) by lia. rewrite T3.
    replace (4 * i + 3)%nat with (S (4 * i + 2)) by lia. rewrite T2.
    replace (4 * i + 2)%nat with (S (4 * i + 1)) by lia. rewrite T1.
    replace (4 * i + 1)%nat with (S (4 * i)) by lia. rewrite T0. by rewrite <- !app_assoc. }
  assert (bytes [b0; b1; b2; b3]) as Hbs.
  { apply (Forall_app is_byte (take (4 * i) row)). rewrite <- ET. by apply Forall_take. }
  pose proof Hfound as (Ef & _ & _ & Esp). destruct (Z.eqb_spec (le_combine [b0; b1; b2; b3]) flip) as [E|E].
  - apply IH; [lia|lia|]. rewrite Ef in *. apply word_one_colour in E; [|done].
    rewrite ET, pixels_app, E. by eapply found_same.
  - rewrite Ef, word_one_colour in E by done. rewrite Ef, Esp.
    rewrite (word_changes_spec 4 _ _ _ _ _ (pixels [b0; b1; b2; b3])).
    + cbn [mbind option_bind]. apply IH; [lia|lia|]. rewrite ET, pixels_app. eapply found_more; [done|].
      apply zlen_pixels_take. lia.
    + by apply be_word_top.
    + apply top_mask_word.
    + lia.
    + by rewrite length_pixels.
    + lia.
Qed.

(** ** The octet that the row does not fill *)

Lemma take_repeat_cons (c : bool) n k r : (k <= n)%nat -> take k (repeat c n ++ r) = repeat c k.
Proof.
  intros H. rewrite take_app_le by (by rewrite repeat_length). revert n H.
  induction k as [|k IH]; intros [|n] H; try done; try lia. cbn. f_equal. apply IH. lia.
Qed.

Lemma changes_in_rest_spec fuel m x c l rem span pos list : on_top x m l -> m <= 8 -> 0 < rem <= m ->
  (rem < Z.of_nat fuel \/ (rem <= Z.of_nat fuel /\ exists r, l = c :: r)) ->
  changes_in_rest fuel x (all_of 0xFF000000 c) rem span pos list =
    Some (list ++ changes c (pos + span) (take (Z.to_nat rem) l) ++ [pos + span + rem]).
Proof.
  revert m x c l rem span pos list. induction fuel as [|fuel IH]; intros m x c l rem span pos list Ht Hm Hr Hfuel; [lia|].
  cbn [changes_in_rest]. assert (top_mask 0xFF000000 m) as HM by (eapply top_mask_less; [apply top_mask_octet|done]).
  pose proof (top_length _ _ _ Ht) as Hlen.
  pose proof (first_change _ m x c l Ht HM) as Hc. cbv zeta in Hc. set (f := 31 - _) in *.
  destruct (Z.ltb_spec rem f) as [Hf|Hf]; [|destruct (decide (f = rem)) as [->|]].
  1, 2: rewrite Z.sub_diag; cbn [Z.ltb]; change (0 <? 0) with false; cbv iota;
    assert (take (Z.to_nat rem) l = repeat c (Z.to_nat rem)) as ->
      by (destruct Hc as [[_ ->]|[_ [r ->]]];
          [rewrite <- (app_nil_r (repeat c (length l))); apply take_repeat_cons; lia|apply take_repeat_cons; lia]);
    rewrite changes_repeat, Z.add_assoc; done.
  rewrite (proj2 (Z.ltb_lt _ _)) by lia.
  destruct Hc as [[? _]|[Hf0 [r E]]]; [lia|]. change 4278190080 with 0xFF000000. rewrite flip_all.
  assert (f <> 0 \/ rem < Z.of_nat (S fuel)) as Hf1.
  { destruct Hfuel as [?|[_ [r' E']]]; [by right|]. left. intros E0. rewrite E0, E' in E. injection E as E _. by destruct c. }
  rewrite E in Ht. apply on_top_flip in Ht; [|lia].
  rewrite (IH _ _ _ _ _ _ _ _ Ht) by (lia || (right; split; [lia|eauto])).
  rewrite E. rewrite take_app_ge by (rewrite repeat_length; lia). rewrite repeat_length.
  replace (Z.to_nat rem - Z.to_nat f)%nat with (Z.to_nat (rem - f)) by lia.
  replace (take (Z.to_nat (rem - f)) (negb c :: r)) with (negb c :: take (Z.to_nat (rem - f) - 1) r).
  2: { replace (Z.to_nat (rem - f)) with (S (Z.to_nat (rem - f) - 1)) at 2 by lia. done. }
  rewrite changes_flip by lia. rewrite <- (app_assoc list). cbn [app]. rewrite Z.add_assoc, Z.add_0_r.
  replace (pos + span + f + (rem - f)) with (pos + span + rem) by lia. done.
Qed.

Lemma changes_before c p l : Forall (fun x => p <= x < p + zlen l) (changes c p l).
Proof.
  revert c p. induction l as [|b l IH]; intros c p; cbn [changes]; [constructor|].
  assert (Forall (fun x => p <= x < p + zlen (b :: l)) (changes b (p + 1) l)).
  { apply (list.Forall_impl _ _ _ (IH b (p + 1))). cbn [length]. intros x Hx. cbn in Hx. lia. }
  destruct (eqb b c) eqn:E; [apply eqb_prop in E as ->; done|].
  constructor; [cbn [length]; lia|done].
Qed.

Lemma open_before l : l <> [] -> 0 <= open_from 0 (changes false 0 l) < zlen l.
Proof.
  intros Hl. assert (0 < zlen l) by (destruct l; [done|cbn [length]; lia]).
  unfold open_from. pose proof (changes_before false 0 l) as H1.
  induction (changes false 0 l) as [|x chs _] using rev_ind; [cbn [List.last]; lia|].
  rewrite last_last. apply Forall_app in H1 as [_ H1]. inversion H1. lia.
Qed.

(** ** The whole row *)

(** The octets in whole words. *)
Lemma word_limit w : 0 <= w -> (w .>> 3) .& Z.lnot 3 = Z.of_nat (4 * Z.to_nat (w / 32)).
Proof.
  intros Hw. transitivity ((w .>> 3 .>> 2) .<< 2).
  - apply Z.bits_inj'. intros i Hi. bit_specs. destruct (Z.leb_spec 2 i).
    + change 3 with (Z.ones 2) at 2. rewrite Z.ones_spec_high by lia. bit_specs.
      rewrite andb_true_r. cbn [andb]. f_equal. lia.
    + change 3 with (Z.ones 2) at 2. rewrite Z.ones_spec_low by lia. by rewrite andb_false_r.
  - rewrite Z.shiftl_mul_pow2, !Z.shiftr_div_pow2 by lia. change (2 ^ 3) with 8. change (2 ^ 2) with 4.
    rewrite Z.div_div by lia. change (8 * 4) with 32. pose proof (Z.div_pos w 32 ltac:(lia) ltac:(lia)). lia.
Qed.

(** The encoder's list of a row is that of the ends of its runs. *)
Lemma row_to_run_lengths_spec row w : bytes row -> 0 < w <= 8 * zlen row ->
  row_to_run_lengths row w = Some (run_ends (take (Z.to_nat w) (pixels row))).
Proof.
  intros Hb Hw. unfold row_to_run_lengths.
  assert (w .>> 3 = w / 8) as E3 by (rewrite Z.shiftr_div_pow2 by lia; done).
  pose proof (word_limit w ltac:(lia)) as E32.
  assert (w .& 7 = w mod 8) as E7 by (change 7 with (Z.ones 3); by rewrite Z.land_ones).
  rewrite E32, E7, E3.
  pose proof (Z.div_mod w 8 ltac:(lia)) as Hdm. pose proof (Z.mod_pos_bound w 8 ltac:(lia)) as Hmod.
  pose proof (Z.div_pos w 32 ltac:(lia) ltac:(lia)) as Hp. pose proof (Z.div_pos w 8 ltac:(lia) ltac:(lia)) as Hp8.
  pose proof (Z.mul_div_le w 32 ltac:(lia)) as H32.
  destruct (changes_in_words_spec (length row) row 0 (Z.to_nat (w / 32)) 0 0 0 [])
    as (fl & sp & po & li & E & F); [done|lia|lia|lia|by split_and!|].
  change (Z.of_nat (4 * 0)) with 0 in E. rewrite E. cbn [mbind option_bind]. clear E.
  assert (found 0xFF000000 (pixels (take (4 * Z.to_nat (w / 32)) row)) (fl .& 0xFF000000) sp po li) as F'.
  { destruct F as (-> & ?). split; [by destruct (last_colour false _)|done]. }
  replace (w / 8) with (Z.of_nat (Z.to_nat (w / 8))) by lia.
  destruct (changes_in_octets_spec (length row) row (4 * Z.to_nat (w / 32)) (Z.to_nat (w / 8)) _ _ _ _ Hb
    ltac:(lia) ltac:(lia) ltac:(lia) F') as (fl' & sp' & po' & li' & E & F''). rewrite E. cbn [mbind option_bind].
  clear E F F' fl sp po li. destruct F'' as (-> & -> & -> & ->).
  rewrite Z.shiftl_mul_pow2 by lia. change (2 ^ 3) with 8.
  pose proof (zlen_pixels_take row (Z.to_nat (w / 8)) ltac:(lia)) as Hlen. set (l := pixels _) in *.
  assert (pixels row = l ++ pixels (drop (Z.to_nat (w / 8)) row)) as Erow by (subst l; by rewrite <- pixels_app, take_drop).
  unfold run_ends. rewrite length_take, length_pixels, Nat.min_l by lia. rewrite (Z2Nat.id w) by lia.
  destruct (Z.eqb_spec (w mod 8) 0) as [E0|E0].
  - assert (l <> []) as Hne by (intros El; rewrite El in Hlen; cbn in Hlen; lia).
    pose proof (open_before l Hne). rewrite (proj2 (Z.eqb_neq _ _)) by lia.
    rewrite Erow. rewrite take_app_le, take_ge by lia. do 3 f_equal. lia.
  - destruct (at_take row (Z.to_nat (w / 8)) ltac:(lia)) as (b & Eb & ET). rewrite Eb. cbn [mbind option_bind].
    assert (is_byte b) as Hbb.
    { assert (bytes (take (Z.to_nat (w / 8)) row ++ [b])) as H by (rewrite <- ET; by apply Forall_take).
      apply Forall_app in H as [_ H]. by inversion H. }
    rewrite shifted_octet by (done || lia).
    rewrite (changes_in_rest_spec 9 8 _ _ (msb_bits 8 b)) by (by apply octet_top || lia).
    assert (pixels row = l ++ msb_bits 8 b ++ pixels (drop (S (Z.to_nat (w / 8))) row)) as Erow'.
    { subst l. rewrite app_assoc, <- (pixels_take_S _ _ _ ET), <- pixels_app. by rewrite take_drop. }
    rewrite Erow', take_app_ge by lia. rewrite take_app_le by (rewrite length_msb_bits; lia).
    rewrite changes_app, Hlen, app_assoc. replace (Z.to_nat w - length l)%nat with (Z.to_nat (w mod 8)) by lia.
    do 4 f_equal; lia.
Qed.
