(* ===== verification/T4Out.v ===== *)
(** * What the T.4 encoder puts out (src/spandsp-0.0.6/src/t4_tx.c)

    The encoded image is a sequence of bits, octet by octet, least significant bit
    first; each operation appends its words. *)
From S2P Require Import Prelude T4Tables T4Base T4Tx T4Spec.

(** ** The bits of the image *)

Definition line_bits (image : list Z) : list bool := concat (map (lsb_bits 8) image).

(** The encoded image holds the bits [l], and has room. *)
Record outs (o : t4_out_t) (l : list bool) : Prop := {
  outs_bits : line_bits (image_buffer o) ++ lsb_bits (Z.to_nat (tx_bits o)) (tx_bitstream o) = l;
  outs_bytes : bytes (image_buffer o);
  outs_few : 0 <= tx_bits o < 8;
  outs_low : 0 <= tx_bitstream o < 2 ^ tx_bits o;
  outs_room : zlen (image_buffer o) <= image_buffer_size o;
  outs_row : 0 <= row_bits o;
}.

Lemma page_line_app a b : line_bits (a ++ b) = line_bits a ++ line_bits b.
Proof. unfold line_bits. by rewrite map_app, concat_app. Qed.

Lemma length_page_line a : length (line_bits a) = (8 * length a)%nat.
Proof.
  induction a as [|b a IH]; [done|]. unfold line_bits in *. cbn [map concat].
  rewrite length_app, length_lsb_bits, IH. simpl. lia.
Qed.

Lemma line_bits_split n x : line_bits (le_split n x) = lsb_bits (8 * n) x.
Proof.
  revert x. induction n as [|n IH]; intros x; [done|]. cbn [le_split]. unfold line_bits in *. cbn [map concat].
  rewrite IH. replace (8 * S n)%nat with (8 + 8 * n)%nat by lia. rewrite lsb_bits_app. f_equal.
  apply lsb_bits_ext. intros i Hi. bit_specs. by rewrite (proj2 (Z.ltb_lt _ _)) by lia.
Qed.

(** The octets that are full. *)
Lemma put_octets_spec fuel o : 0 <= tx_bits o -> 0 <= tx_bitstream o -> tx_bits o <= Z.of_nat fuel ->
  zlen (image_buffer o) + tx_bits o / 8 <= image_buffer_size o ->
  exists o', put_octets fuel o = Some o' /\
    image_buffer o' = image_buffer o ++ le_split (Z.to_nat (tx_bits o / 8)) (tx_bitstream o) /\
    tx_bits o' = tx_bits o mod 8 /\ tx_bitstream o' = tx_bitstream o .>> (8 * (tx_bits o / 8)) /\
    image_buffer_size o' = image_buffer_size o /\ row_bits o' = row_bits o.
Proof.
  revert o. induction fuel as [|fuel IH]; intros o Ht Hs Hf Hroom; cbn [put_octets].
  all: destruct (Z.ltb_spec (tx_bits o) 8).
  1, 3: exists o; rewrite Z.div_small, Z.mod_small by lia; cbn [Z.to_nat le_split];
    rewrite app_nil_r, Z.shiftr_0_r; done.
  - lia.
  - assert (tx_bits o / 8 = Z.succ ((tx_bits o - 8) / 8)) as Ed.
    { replace (tx_bits o) with (tx_bits o - 8 + 1 * 8) at 1 by lia. rewrite Z.div_add by lia. lia. }
    assert (0 <= (tx_bits o - 8) / 8) as Hd by (apply Z.div_pos; lia).
    rewrite (proj2 (Z.leb_gt _ _)) by lia.
    edestruct (IH (o <| image_buffer := image_buffer o ++ [tx_bitstream o .& 0xFF] |>
                     <| tx_bitstream := tx_bitstream o .>> 8 |> <| tx_bits := tx_bits o - 8 |>))
      as (o' & -> & E1 & E2 & E3 & E4 & E5); cbn in *.
    + lia.
    + by apply Z.shiftr_nonneg.
    + lia.
    + rewrite length_app. cbn [length]. lia.
    + exists o'. split_and!; [done| | | |done|done].
      * rewrite E1, Ed, Z2Nat.inj_succ by done. cbn [le_split]. by rewrite <- app_assoc, land_255.
      * rewrite E2. replace (tx_bits o) with (tx_bits o - 8 + 1 * 8) at 2 by lia. by rewrite Z_mod_plus_full.
      * rewrite E3, Z.shiftr_shiftr by lia. f_equal. lia.
Qed.

(** Bits behind others. *)
Lemma lsb_bits_behind t n x bits : 0 <= x < 2 ^ Z.of_nat t ->
  lsb_bits t x ++ lsb_bits n bits = lsb_bits (t + n) (x .| (bits .<< Z.of_nat t)).
Proof.
  intros Hx. rewrite lsb_bits_app. f_equal; apply lsb_bits_ext; intros i Hi; bit_specs.
  - rewrite (proj2 (Z.leb_gt _ _)) by lia. by rewrite orb_false_r.
  - rewrite (testbit_high (Z.of_nat t) x) by lia. rewrite (proj2 (Z.leb_le _ _)) by lia. cbn [orb andb]. f_equal. lia.
Qed.

Lemma put_encoded_bits_spec bpr bits n o l : outs o l -> 0 <= n -> 0 <= bits < 2 ^ n -> bits < 2 ^ 24 ->
  n + 14 <= 800 * bpr ->
  exists o', put_encoded_bits bpr bits n o = Some o' /\ outs o' (l ++ lsb_bits (Z.to_nat n) bits) /\
    row_bits o' = row_bits o + n.
Proof.
  intros [H1 H2 H3 H4 H5 H6] Hn Hb Hb24 Hroom. unfold put_encoded_bits. cbv zeta.
  assert (u32 (bits .<< tx_bits o) = bits .<< tx_bits o) as ->.
  { apply wrap_id. rewrite Z.shiftl_mul_pow2 by lia.
    assert (0 < 2 ^ tx_bits o <= 2 ^ 7) by (split; [apply Z.pow_pos_nonneg; lia|apply Z.pow_le_mono_r; lia]). nia. }
  match goal with |- context [put_octets _ ?x] => set (o2 := x) end.
  assert (tx_bits o2 = tx_bits o + n /\ tx_bitstream o2 = tx_bitstream o .| (bits .<< tx_bits o) /\
    image_buffer o2 = image_buffer o /\ row_bits o2 = row_bits o + n /\
    zlen (image_buffer o) + (tx_bits o + n) / 8 <= image_buffer_size o2) as (E1 & E2 & E3 & E4 & E5).
  { subst o2. cbn.
    assert ((tx_bits o + n) / 8 <= (tx_bits o + n + 7) / 8) by (apply Z.div_le_mono; lia).
    assert ((tx_bits o + n + 7) / 8 <= 100 * bpr) by (apply Z.div_le_upper_bound; lia).
    destruct (Z.leb_spec (image_buffer_size o) (zlen (image_buffer o) + (tx_bits o + n + 7) / 8)); cbn; split_and!; try done; lia. }
  clearbody o2.
  assert (0 <= tx_bitstream o .| (bits .<< tx_bits o) < 2 ^ (tx_bits o + n)) as Hs.
  { rewrite lor_shiftl_add by lia. rewrite Z.pow_add_r by lia. nia. }
  edestruct (put_octets_spec (Z.to_nat (tx_bits o2)) o2) as (o' & -> & F1 & F2 & F3 & F4 & F5).
  1-4: rewrite ?E1, ?E2, ?E3; lia.
  exists o'. split; [done|]. rewrite E1, E2, E3 in *.
  pose proof (Z.mod_pos_bound (tx_bits o + n) 8 ltac:(lia)). pose proof (Z.div_mod (tx_bits o + n) 8 ltac:(lia)).
  assert (0 <= (tx_bits o + n) / 8) by (apply Z.div_pos; lia).
  split; [split|lia].
  - rewrite F1, page_line_app, line_bits_split, F2, F3, <- app_assoc, <- H1, <- app_assoc. f_equal.
    rewrite (lsb_bits_behind (Z.to_nat (tx_bits o)) (Z.to_nat n)) by (rewrite Z2Nat.id by lia; done).
    rewrite Z2Nat.id by lia.
    replace (8 * ((tx_bits o + n) / 8)) with (Z.of_nat (8 * Z.to_nat ((tx_bits o + n) / 8))) by lia.
    rewrite <- lsb_bits_app. f_equal. lia.
  - rewrite F1. apply Forall_app_2; [done|apply bytes_le_split].
  - lia.
  - rewrite F2, F3. apply shiftr_small; [lia| |lia]. rewrite Z.add_comm, <- Z.div_mod by lia. done.
  - rewrite F1, F4, length_app, length_le_split. lia.
  - lia.
Qed.

(** ** Code words *)

(** A code word has its bits, and no more than thirteen. *)
Definition code_ok (te : t4_run_table_entry_t) : bool :=
  (1 <=? code_length te) && (code_length te <=? 13) && (0 <=? code te) && (code te <? 2 ^ code_length te).

Lemma run_codes_ok black : forallb code_ok (run_codes black) = true /\ length (run_codes black) = 104%nat.
Proof. destruct black; split; vm_compute; done. Qed.

Lemma codes_ok : forallb code_ok codes = true /\ length codes = 9%nat.
Proof. split; vm_compute; done. Qed.

(** The entry for a run is where it is expected. *)
Definition indexed (tab : list t4_run_table_entry_t) : bool :=
  forallb (fun i => code_run_length (nth i tab (C 0 0 0)) =? if (i <? 64)%nat then Z.of_nat i else 64 * (Z.of_nat i - 63)) (seq 0 104).

Lemma run_codes_indexed black : indexed (run_codes black) = true.
Proof. destruct black; vm_compute; done. Qed.

Lemma code_run_length_at black i : 0 <= i < 104 ->
  code_run_length (nth (Z.to_nat i) (run_codes black) (C 0 0 0)) = if i <? 64 then i else 64 * (i - 63).
Proof.
  intros Hi. pose proof (run_codes_indexed black) as H. unfold indexed in H. rewrite forallb_forall in H.
  specialize (H (Z.to_nat i)). rewrite in_seq in H. specialize (H ltac:(lia)). apply Z.eqb_eq in H. rewrite H.
  destruct (Nat.ltb_spec (Z.to_nat i) 64), (Z.ltb_spec i 64); lia.
Qed.

Lemma at_nth {A} (l : list A) i d : 0 <= i < zlen l -> at_index l i = Some (nth (Z.to_nat i) l d).
Proof.
  intros Hi. apply at_index_Some; [lia|]. destruct (lookup_lt_is_Some_2 l (Z.to_nat i) ltac:(lia)) as [x E].
  by rewrite nth_lookup, E.
Qed.

Lemma nth_ok tab i : forallb code_ok tab = true -> 0 <= i < zlen tab -> code_ok (nth (Z.to_nat i) tab (C 0 0 0)) = true.
Proof. intros H Hi. rewrite forallb_forall in H. apply H, nth_In. lia. Qed.

Section codes_out.
Context (bpr : Z) (Hbpr : 1 <= bpr).

Lemma put_code_spec te o l : code_ok te = true -> outs o l ->
  exists o', put_code bpr te o = Some o' /\ outs o' (l ++ word_of te).
Proof.
  unfold code_ok. intros Hok Ho. rewrite !andb_true_iff, !Z.leb_le, Z.ltb_lt in Hok. destruct Hok as [[[H1 H2] H3] H4].
  assert (2 ^ code_length te <= 2 ^ 13) by (apply Z.pow_le_mono_r; lia).
  destruct (put_encoded_bits_spec bpr (code te) (code_length te) o l Ho) as (o' & E & Ho' & _); [lia..|].
  by exists o'.
Qed.

Lemma put_mode_spec i o l : 0 <= i < 9 -> outs o l ->
  exists te o', at_index codes i = Some te /\ put_code bpr te o = Some o' /\ outs o' (l ++ mode_word i).
Proof.
  intros Hi Ho. destruct codes_ok as [Hok Hlen]. exists (nth (Z.to_nat i) codes (C 0 0 0)).
  destruct (put_code_spec (nth (Z.to_nat i) codes (C 0 0 0)) o l) as (o' & E & Ho'); [apply nth_ok; [done|lia]|done|].
  exists o'. split_and!; [apply at_nth; lia|done|exact Ho'].
Qed.

Lemma put_long_span_spec black fuel span o l : 0 <= span <= Z.of_nat fuel -> outs o l ->
  let k := Z.to_nat ((span - 64) / 2560) in
  exists o', put_long_span fuel bpr span (entry_of black 2560) o = Some (span - 2560 * Z.of_nat k, o') /\
    outs o' (l ++ concat (replicate k (word_of (entry_of black 2560)))).
Proof.
  assert (code_ok (entry_of black 2560) = true /\ code_run_length (entry_of black 2560) = 2560) as [Hok Hrun]
    by (destruct black; split; vm_compute; done).
  revert span o l. induction fuel as [|fuel IH]; intros span o l Hf Ho k; cbn [put_long_span].
  all: destruct (Z.ltb_spec span (2560 + 64)) as [Hs|Hs]; [|try lia].
  1, 2: assert (k = O) as -> by (subst k; assert ((span - 64) / 2560 < 1) by (apply Z.div_lt_upper_bound; lia); lia);
    exists o; split; [do 2 f_equal; lia|]; cbn [replicate concat]; by rewrite app_nil_r.
  destruct (put_code_spec _ _ _ Hok Ho) as (o1 & -> & Ho1). cbn [mbind option_bind]. rewrite Hrun.
  destruct (IH (span - 2560) o1 _ ltac:(lia) Ho1) as (o' & E & Ho').
  assert ((span - 64) / 2560 = (span - 2560 - 64) / 2560 + 1) as Ek.
  { replace (span - 64) with (span - 2560 - 64 + 1 * 2560) by lia. by rewrite Z.div_add by lia. }
  assert (0 <= (span - 2560 - 64) / 2560) by (apply Z.div_pos; lia).
  exists o'. subst k. rewrite Ek. split.
  - rewrite E. do 2 f_equal. lia.
  - rewrite Z2Nat.inj_add by lia. change (Z.to_nat 1) with 1%nat. rewrite Nat.add_comm. cbn [Nat.add replicate concat].
    rewrite app_assoc. exact Ho'.
Qed.

(** The codes of a run. *)
Lemma put_1d_span_spec black r o l : 0 <= r -> outs o l ->
  exists o', put_1d_span bpr r (run_codes black) o = Some o' /\ outs o' (l ++ concat (run_words black r)).
Proof.
  intros Hr Ho. destruct (run_codes_ok black) as [Hok Hlen]. unfold put_1d_span.
  change (63 + (2560 .>> 6)) with 103. rewrite (at_nth _ 103 (C 0 0 0)) by lia. cbn [mbind option_bind].
  destruct (put_long_span_spec black (Z.to_nat r) r o l ltac:(lia) Ho) as (o1 & E1 & Ho1).
  change (nth (Z.to_nat 103) (run_codes black) (C 0 0 0)) with (entry_of black 2560). rewrite E1.
  cbn [mbind option_bind]. unfold run_words, pieces. set (k := Z.to_nat ((r - 64) / 2560)) in *.
  set (r' := r - 2560 * Z.of_nat k).
  assert (0 <= r' < 2624) as Hr'.
  { subst r' k. pose proof (Z.div_mod (r - 64) 2560 ltac:(lia)). pose proof (Z.mod_pos_bound (r - 64) 2560 ltac:(lia)).
    destruct (Z_lt_le_dec r 64).
    - assert ((r - 64) / 2560 < 0) by (apply Z.div_lt_upper_bound; lia). lia.
    - assert (0 <= (r - 64) / 2560) by (apply Z.div_pos; lia). lia. }
  pose proof (Z.mod_pos_bound r' 64 ltac:(lia)). pose proof (Z.div_mod r' 64 ltac:(lia)).
  assert (r' / 64 < 41) by (apply Z.div_lt_upper_bound; lia).
  assert (forall o2 l2, outs o2 l2 -> exists o', (te ← at_index (run_codes black) (r' mod 64); put_code bpr te o2) = Some o' /\
    outs o' (l2 ++ word_of (entry_of black (r' mod 64)))) as Hterm.
  { intros o2 l2 Ho2. rewrite (at_nth _ _ (C 0 0 0)) by lia. cbn [mbind option_bind].
    unfold entry_of. rewrite (proj2 (Z.ltb_lt _ _)) by lia. apply put_code_spec; [|done]. apply nth_ok; [done|lia]. }
  rewrite !map_app, !concat_app, app_assoc.
  rewrite (fmap_replicate (fun n => word_of (entry_of black n)) k 2560 : map _ _ = _). destruct (Z.leb_spec 64 r') as [H64|H64].
  - rewrite (at_nth _ _ (C 0 0 0)) by (rewrite Z.shiftr_div_pow2 by lia; change (2 ^ 6) with 64; lia).
    rewrite Z.shiftr_div_pow2 by lia. change (2 ^ 6) with 64. cbn [mbind option_bind].
    set (te := nth _ _ _).
    assert (te = entry_of black (64 * (r' / 64))) as Ete.
    { unfold entry_of. rewrite (proj2 (Z.ltb_ge _ _)) by lia. rewrite (Z.mul_comm 64 (r' / 64)), Z.div_mul by lia. done. }
    destruct (put_code_spec te o1 _ ltac:(apply nth_ok; [done|lia]) Ho1) as (o2 & E2 & Ho2). rewrite E2.
    cbn [mbind option_bind]. subst te. rewrite code_run_length_at by lia. rewrite (proj2 (Z.ltb_ge _ _)) by lia.
    replace (r' - 64 * (63 + r' / 64 - 63)) with (r' mod 64) by lia. destruct (Hterm _ _ Ho2) as (o' & E3 & Ho').
    exists o'. split; [exact E3|]. rewrite Ete in Ho'. cbn [map concat]. rewrite !app_nil_r, app_assoc. exact Ho'.
  - cbn [mbind option_bind]. rewrite <- (Z.mod_small r' 64) by lia. destruct (Hterm _ _ Ho1) as (o' & E3 & Ho').
    exists o'. split; [exact E3|]. rewrite (Z.mod_small r' 64) in Ho' |- * by lia. cbn [map concat app].
    rewrite ?app_nil_r. rewrite (Z.mod_small r' 64) by lia. exact Ho'.
Qed.
End codes_out.
