(* ===== verification/T4Modes.v ===== *)
(** * Encoding a row in two dimensions (src/spandsp-0.0.6/src/t4_tx.c, [encode_2d_row])

    The encoder finds, for each mode, the change of the reference row that T.4
    asks for; what it puts out is the coding of the row. *)
From S2P Require Import Prelude T4Tables T4Base T4Tx T4Spec T4Out.

(** ** The reference row *)

(** The runs of a row in their array: its ends, three times its width, the rest. *)
Definition stretched (w : Z) (ends : list Z) (runs : list Z) : Prop :=
  exists rest, runs = ends ++ [w; w; w] ++ rest.

Lemma stretched_at w ends runs i : stretched w ends runs -> 0 <= i <= zlen ends + 2 ->
  at_index runs i = Some (end_at w ends i).
Proof.
  intros [rest ->] Hi. rewrite (at_nth _ _ 0) by (rewrite !length_app; cbn [length]; lia). f_equal. unfold end_at, aget.
  destruct (Z.ltb_spec i (zlen ends)).
  - by rewrite app_nth1 by lia.
  - rewrite app_nth2 by lia. remember (Z.to_nat i - length ends)%nat as k. destruct k as [|[|[|k]]]; [done..|lia].
Qed.

Lemma end_at_last w ends i : ends_ok w ends -> zlen ends - 1 <= i -> end_at w ends i = w.
Proof.
  intros Hok Hi. unfold end_at. destruct (Z.ltb_spec i (zlen ends)); [|done].
  replace i with (zlen ends - 1) by lia. apply Hok.
Qed.

(** The index of the kind of [i] next to [c]. *)
Lemma same_kind c i : 0 <= c ->
  let c1 := if Z.odd i then c .| 1 else c .& Z.lnot 1 in
  0 <= c1 <= c + 1 /\ Z.even (c1 - i) = true.
Proof.
  intros Hc. pose proof (Z.div_mod c 2 ltac:(lia)) as Hd. pose proof (Zmod_odd c) as Hm.
  assert (c .& Z.lnot 1 = 2 * (c / 2)) as E1.
  { rewrite <- Z.ldiff_land. change 1 with (Z.ones 1). rewrite Z.ldiff_ones_r by lia.
    rewrite Z.shiftl_mul_pow2, Z.shiftr_div_pow2 by lia. change (2 ^ 1) with 2. lia. }
  assert (c .| 1 = 2 * (c / 2) + 1) as E2.
  { pose proof (lor_shiftl_add 1 1 (c / 2) ltac:(lia) ltac:(lia)) as E. change (2 ^ 1) with 2 in E.
    transitivity (1 .| ((c / 2) .<< 1)); [|lia]. clear E. change (c / 2) with (c / 2 ^ 1).
    rewrite <- (Z.shiftr_div_pow2 c 1) by lia. apply Z.bits_inj'. intros k Hk. bit_specs.
    destruct (decide (k = 0)) as [->|]; [by rewrite orb_true_r|].
    rewrite (proj2 (Z.leb_le _ _)) by lia. rewrite (Z.shiftr_spec c) by lia. cbn [andb].
    replace (k - 1 + 1) with k by lia. apply orb_comm. }
  assert (0 <= c / 2) by (apply Z.div_pos; lia).
  destruct (Z.odd i) eqn:Hi; cbv zeta; rewrite ?E1, ?E2.
  - split; [destruct (Z.odd c); lia|]. rewrite Z.even_sub, Z.even_add, Z.even_mul. cbn. by rewrite <- Z.negb_odd, Hi.
  - split; [destruct (Z.odd c); lia|]. rewrite Z.even_sub, Z.even_mul. cbn. by rewrite <- Z.negb_odd, Hi.
Qed.

Section hunt.
Context (w : Z) (ends runs : list Z) (Hok : ends_ok w ends) (Hs : stretched w ends runs).
Local Abbreviation b := (end_at w ends).

Lemma runs_long : zlen ends + 3 <= zlen runs.
Proof. destruct Hs as [rest ->]. rewrite !length_app. cbn [length]. lia. Qed.

(** No change of the kind of [k] at or before [c] is to the right of [a0]. *)
Lemma none_before a0 c k : 0 <= k <= c -> b c <= a0 -> b k <= a0.
Proof. intros Hk Hc. etransitivity; [|exact Hc]. apply end_at_le; [done|lia]. Qed.

Lemma even_step k j : Z.even (j - k) = true -> k < j -> k <= j - 2.
Proof.
  intros He Hk. destruct (decide (k = j - 1)) as [->|]; [|lia]. by replace (j - (j - 1)) with 1 in He by lia.
Qed.

Lemma back_to_spec fuel a0 c i : -2 <= c <= zlen ends + 2 -> c + 2 <= 2 * Z.of_nat fuel -> Z.even (c - i) = true -> a0 < b (c + 2) -> 
  exists j, back_to fuel runs a0 c = Some j /\ first_right b a0 i j /\ j <= c + 2.
Proof.
  revert c. induction fuel as [|fuel IH]; intros c Hc Hf He Hr; cbn [back_to].
  all: destruct (Z.ltb_spec c 0) as [Hneg|Hneg]; [|try lia].
  1, 2: exists (c + 2); split; [done|split; [|lia]]; split_and!; [lia| |done|];
    [replace (c + 2 - i) with (c - i + 2) by lia; by rewrite Z.even_add, He|intros k Hk Hek; apply even_step in Hek; lia].
  rewrite (stretched_at w ends) by (done || lia). cbn [mbind option_bind].
  destruct (Z.leb_spec (b c) a0) as [Hle|Hgt].
  - exists (c + 2). split; [done|split; [|lia]]. split_and!; [lia| |done|].
    + replace (c + 2 - i) with (c - i + 2) by lia. by rewrite Z.even_add, He.
    + intros k Hk Hek. apply (none_before a0 c); [|done]. apply even_step in Hek; lia.
  - destruct (IH (c - 2)) as (j & E & Hj & Hjc); [lia|lia| | |].
    + replace (c - 2 - i) with (c - i - 2) by lia. by rewrite Z.even_sub, He.
    + by replace (c - 2 + 2) with c by lia.
    + exists j. split_and!; [done|done|lia].
Qed.

Lemma forward_to_spec fuel a0 c i : 0 <= c -> a0 < w ->
  zlen ends - c < 2 * Z.of_nat fuel -> Z.even (c - i) = true ->
  (forall k, 0 <= k < c -> Z.even (c - k) = true -> b k <= a0) -> c <= zlen ends ->
  exists j j', forward_to fuel runs a0 (zlen ends) c = Some j' /\ first_right b a0 i j /\
    b j' = b j /\ b (j' + 1) = b (j + 1) /\ 0 <= j' < zlen ends.
Proof.
  intros Hc Ha. pose proof (ends_some _ _ Hok) as Hsome.
  revert c Hc. induction fuel as [|fuel IH]; intros c Hc Hf He Hn Hce; cbn [forward_to].
  all: destruct (Z.leb_spec (zlen ends) c) as [Hend|Hin]; [|try lia].
  1, 2: exists c, (zlen ends - 1); assert (c = zlen ends) as -> by lia;
    rewrite !(end_at_last w ends) by (done || lia);
    split_and!; [done| |done|done|lia|lia]; split_and!; [lia|done|rewrite end_at_last; done || lia|done].
  rewrite (stretched_at w ends) by (done || lia). cbn [mbind option_bind].
  destruct (Z.ltb_spec a0 (b c)) as [Hlt|Hge].
  - exists c, c. split_and!; [done| |done|done|lia|lia]. by split_and!.
  - assert (c < zlen ends - 1) as Hc1 by (apply (end_at_inside w ends); [done|lia|lia]).
    apply IH; [lia|lia| | |lia].
    + replace (c + 2 - i) with (c - i + 2) by lia. by rewrite Z.even_add, He.
    + intros k Hk Hek. apply (none_before a0 c); [|done]. apply even_step in Hek; lia.
Qed.

Lemma first_right_inside a0 i j : first_right b a0 i j -> a0 < w -> j <= zlen ends.
Proof.
  intros (H1 & _ & _ & H2) Ha. pose proof (ends_some _ _ Hok).
  destruct (Z_le_gt_dec j (zlen ends)) as [|Hgt]; [done|]. exfalso.
  specialize (H2 (j - 2) ltac:(lia)). replace (j - (j - 2)) with 2 in H2 by lia. specialize (H2 eq_refl).
  rewrite end_at_last in H2 by (done || lia). lia.
Qed.

(** The search finds the change that the coding asks for. *)
Lemma hunt_spec a0 c i : 0 <= a0 < w -> 0 <= c <= zlen ends ->
  exists j j', hunt runs a0 (zlen ends) c (Z.odd i) = Some j' /\ first_right b a0 i j /\
    b j' = b j /\ b (j' + 1) = b (j + 1) /\ 0 <= j' <= zlen ends.
Proof.
  intros Ha Hc. pose proof runs_long. unfold hunt. set (c1 := if Z.odd i then _ else _).
  assert (0 <= c1 <= c + 1 /\ Z.even (c1 - i) = true) as [Hc1 He] by (apply same_kind; lia).
  rewrite (stretched_at w ends) by (done || lia). cbn [mbind option_bind].
  destruct (Z.ltb_spec a0 (b c1)) as [Hlt|Hge].
  - assert (a0 < b (c1 + 2)) as Hlt2 by (eapply Z.lt_le_trans; [exact Hlt|apply end_at_le; [done|lia]]).
    destruct (back_to_spec (length runs) a0 c1 i) as (j & E & Hj & _); [lia|lia|done|done|].
    exists j, j. pose proof (first_right_inside a0 i j Hj ltac:(lia)). split_and!; try done. apply Hj.
  - assert (c1 < zlen ends - 1) as Hin by (apply (end_at_inside w ends); [done|lia|lia]).
    destruct (forward_to_spec (length runs) a0 c1 i) as (j & j' & E & Hj & E1 & E2 & Hj');
      [lia|lia|lia|done| |lia|].
    + intros k Hk _. apply (none_before a0 c1); [lia|done].
    + exists j, j'. split_and!; try done; lia.
Qed.
End hunt.

(** ** Pixels *)

Lemma pixel_is_black_spec row p : bytes row -> 0 <= p < 8 * zlen row ->
  pixel_is_black row p = Some (nth (Z.to_nat p) (pixels row) false).
Proof.
  intros Hb Hp. unfold pixel_is_black. rewrite Z.shiftr_div_pow2 by lia. change (2 ^ 3) with 8.
  pose proof (Z.div_pos p 8 ltac:(lia) ltac:(lia)). pose proof (Z.div_mod p 8 ltac:(lia)).
  pose proof (Z.mod_pos_bound p 8 ltac:(lia)).
  assert (p / 8 < zlen row) by (apply Z.div_lt_upper_bound; lia).
  rewrite (at_nth _ _ 0) by lia. cbn [mbind option_bind]. f_equal.
  set (k := Z.to_nat (p / 8)). set (x := nth k row 0).
  assert (pixels row = pixels (take k row) ++ msb_bits 8 x ++ pixels (drop (S k) row)) as ->.
  { assert (row !! k = Some x) as E by (destruct (lookup_lt_is_Some_2 row k ltac:(lia)) as [y E]; subst x; by rewrite nth_lookup, E).
    rewrite <- (take_drop_middle row k x E) at 1. rewrite !pixels_app. f_equal. }
  rewrite app_nth2 by (rewrite length_pixels, length_take; lia). rewrite length_pixels, length_take.
  rewrite app_nth1 by (rewrite length_msb_bits; lia). rewrite nth_msb by lia.
  change (p .& 7) with (p .& Z.ones 3). rewrite Z.land_ones by lia. change (2 ^ 3) with 8.
  change 0x80 with (2 ^ 7). rewrite land_pow2_eqb, negb_involutive by lia. rewrite Z.shiftl_spec by lia. f_equal. lia.
Qed.

(** ** Modes *)

Section modes.
Context (s : t4_tx_state_t) (w : Z) (refs : list Z).
Context (Hw : image_width s = w) (Hpos : 0 < w) (Hrow : bytes (row_buf s)) (Hlen : w <= 8 * zlen (row_buf s)).
Context (Hbpr : 1 <= bytes_per_row s) (Hrefs : ends_ok w refs) (Hsteps : ref_steps s = zlen refs).
Local Abbreviation px := (take (Z.to_nat w) (pixels (row_buf s))).
Local Abbreviation ends := (run_ends px).
Context (Hcur : stretched w ends (cur_runs s)) (Href : stretched w refs (ref_runs s)).
Local Abbreviation a := (end_at w ends).
Local Abbreviation b := (end_at w refs).

Lemma length_px : zlen px = w.
Proof. rewrite length_take, length_pixels. lia. Qed.

Lemma px_ok : px <> [] /\ ends_ok w ends.
Proof.
  assert (px <> []) as H by (intros E; pose proof length_px as L; rewrite E in L; cbn in L; lia).
  split; [done|]. rewrite <- length_px at 1. by apply run_ends_ok.
Qed.

(** The colour of the run [i] at the position [p]. *)
Lemma black_at p i : 0 <= i -> 0 <= p < a i -> (i = 0 \/ a (i - 1) <= p) ->
  pixel_is_black (row_buf s) p = Some (Z.odd i).
Proof.
  intros Hi Hp Hprev. destruct px_ok as [Hne Hok]. pose proof (end_at_range _ _ i Hok Hi).
  rewrite pixel_is_black_spec by (done || lia). f_equal.
  rewrite <- (pixel_colour px p i) by (rewrite ?length_px; done).
  rewrite !nth_lookup. by rewrite lookup_take_lt by lia.
Qed.

Record enc_at (e : enc_2d_t) (a0 i : Z) : Prop := {
  at_i : 0 <= i;
  at_a0 : -1 <= a0 < w;
  at_before : a0 < a i;
  at_run : i = 0 \/ (1 <= i /\ 0 <= a0 /\ a (i - 1) <= a0);
  at_enc_a0 : enc_a0 e = Z.max 0 a0;
  at_enc_a1 : enc_a1 e = a i;
  at_cursor : a_cursor e = i;
  at_ref : exists j, first_right b a0 i j /\ enc_b1 e = b j /\ b (b_cursor e + 1) = b (j + 1) /\ 0 <= b_cursor e <= zlen refs;
}.

Lemma next_b1_spec a0 i c : 0 <= i -> 0 <= a0 < w -> a0 < a i -> (i = 0 \/ a (i - 1) <= a0) -> 0 <= c <= zlen refs ->
  exists e, next_b1 s a0 (a i) i c = Some e /\ enc_at e a0 i.
Proof.
  intros Hi Ha Hlt Hprev Hc. unfold next_b1. rewrite (black_at a0 i) by (done || lia). cbn [mbind option_bind].
  destruct (hunt_spec w refs (ref_runs s) Hrefs Href a0 c i Ha Hc) as (j & j' & E & Hj & E1 & E2 & Hj').
  rewrite Hsteps, E. cbn [mbind option_bind]. rewrite (stretched_at w refs (ref_runs s)) by (done || lia). cbn [mbind option_bind].
  eexists. split; [done|]. split; cbn; try done; try lia. exists j. split_and!; try done; lia.
Qed.

(** What follows a run that ends at [a0]: nothing, or the next mode. *)
Definition follows (n : option enc_2d_t) (a0 i : Z) : Prop :=
  match n with None => a0 = w | Some e => enc_at e a0 i end.

Lemma next_a1_spec i c : 1 <= i -> 0 <= c <= zlen refs ->
  exists n, next_a1 s (zlen ends) (a (i - 1)) i c = Some n /\ follows n (a (i - 1)) i.
Proof.
  intros Hi Hc. destruct px_ok as [_ Hok]. unfold next_a1. rewrite Hw.
  pose proof (end_at_range _ _ (i - 1) Hok ltac:(lia)) as Hr. destruct (Z.leb_spec w (a (i - 1))) as [Hend|Hin].
  - exists None. split; [done|]. cbn. lia.
  - pose proof (proj1 (end_at_inside _ _ (i - 1) Hok ltac:(lia)) Hin).
    rewrite (proj2 (Z.leb_gt (zlen ends) i)) by lia. rewrite (stretched_at w ends (cur_runs s)) by (done || lia).
    cbn [mbind option_bind]. pose proof (end_at_lt _ _ (i - 1) Hok ltac:(lia) Hin) as Hlt.
    replace (i - 1 + 1) with i in Hlt by lia.
    destruct (next_b1_spec (a (i - 1)) i c) as (e & E & He); [lia|lia|done|right; lia|done|].
    rewrite E. by exists (Some e).
Qed.

(** One mode: its words, and the coding of what it covers. *)
Definition one_mode (m : mode) (a0 i : Z) (n : option enc_2d_t) : Prop :=
  exists a0' i', a0 < a0' /\ follows n a0' i' /\
    i' = (match m with Vertical _ => i + 1 | Horizontal _ _ => i + 2 | Pass => i end) /\
    forall ms, coding a b w a0' i' ms -> coding a b w a0 i (m :: ms).

Lemma horizontal_colour e a0 i : enc_at e a0 i ->
  (if enc_a0 e + enc_a1 e =? 0 then Some true
   else black ← pixel_is_black (row_buf s) (enc_a0 e); Some (negb black)) = Some (negb (Z.odd i)).
Proof.
  intros [Hi Ha Hlt Hrun -> -> _ _]. destruct px_ok as [_ Hok].
  pose proof (end_at_range _ _ i Hok Hi). destruct (Z.eqb_spec (Z.max 0 a0 + a i) 0) as [E|E].
  - destruct Hrun as [->|[Hi1 [Ha0 _]]]; [done|lia].
  - rewrite (black_at _ i); [done|done|lia|]. destruct Hrun as [->|[Hi1 [Ha0 Hp]]]; [by left|right; lia].
Qed.

Lemma encode_mode_spec e a0 i o l : enc_at e a0 i -> outs o l ->
  exists n m o', encode_mode s (zlen ends) e o = Some (n, o') /\
    outs o' (l ++ concat (mode_words (Z.odd i) m)) /\ one_mode m a0 i n.
Proof.
  intros He Ho. pose proof He as [Hi Ha Hlt Hrun Ea0 Ea1 Ei (j & Hj & Eb1 & Eb2 & Hb)].
  destruct px_ok as [_ Hok]. pose proof (runs_long w refs _ Href). pose proof (runs_long w ends _ Hcur).
  pose proof (horizontal_colour e a0 i He) as Hcol.
  unfold encode_mode. cbv zeta. rewrite (stretched_at w refs (ref_runs s)) by (done || lia). cbn [mbind option_bind].
  rewrite Ei, Ea1, Eb1, Eb2 in *.
  pose proof (end_at_range _ _ i Hok Hi) as Hri. pose proof (end_at_le _ _ i (i + 1) Hok ltac:(lia)) as Hle.
  destruct (Z.leb_spec (a i) (b (j + 1))) as [Hnp|Hp].
  - destruct (Z.leb_spec (Z.abs (b j - a i)) 3) as [Hv|Hh].
    + destruct (put_mode_spec _ Hbpr (b j - a i + 3) o l ltac:(lia) Ho) as (te & o' & -> & E & Ho'). cbn [mbind option_bind].
      rewrite E. cbn [mbind option_bind].
      destruct (next_a1_spec (i + 1) (b_cursor e) ltac:(lia) Hb) as (n & En & Hn).
      replace (i + 1 - 1) with i in * by lia. rewrite En. exists n, (Vertical (b j - a i)), o'.
      cbn [mode_words concat]. rewrite app_nil_r. split_and!; [done|done|]. exists (a i), (i + 1).
      split_and!; [done|done|done|]. intros ms Hms. apply (coded_vertical _ _ _ _ _ j); try done. lia.
    + assert (i < zlen ends) as Hin.
      { pose proof (ends_some _ _ Hok). destruct Hrun as [->|[Hi1 [Ha0 Hp]]]; [lia|].
        pose proof (proj1 (end_at_inside _ _ (i - 1) Hok ltac:(lia)) ltac:(lia)). lia. }
      rewrite (stretched_at w ends (cur_runs s)) by (done || lia). cbn [mbind option_bind].
      destruct (put_mode_spec _ Hbpr 7 o l ltac:(lia) Ho) as (te & o1 & -> & E1 & Ho1). cbn [mbind option_bind].
      rewrite E1. cbn [mbind option_bind]. rewrite Hcol. cbn [mbind option_bind].
      replace (if negb (Z.odd i) then t4_white_codes else t4_black_codes) with (run_codes (Z.odd i)) by by destruct (Z.odd i).
      replace (if negb (Z.odd i) then t4_black_codes else t4_white_codes) with (run_codes (negb (Z.odd i))) by by destruct (Z.odd i).
      destruct (put_1d_span_spec _ Hbpr (Z.odd i) (a i - enc_a0 e) o1 _ ltac:(lia) Ho1) as (o2 & -> & Ho2). cbn [mbind option_bind].
      destruct (put_1d_span_spec _ Hbpr (negb (Z.odd i)) (a (i + 1) - a i) o2 _ ltac:(lia) Ho2) as (o3 & -> & Ho3). cbn [mbind option_bind].
      destruct (next_a1_spec (i + 2) (b_cursor e) ltac:(lia) Hb) as (n & En & Hn).
      replace (i + 2 - 1) with (i + 1) in * by lia. rewrite En.
      exists n, (Horizontal (a i - enc_a0 e) (a (i + 1) - a i)), o3. cbn [mode_words concat].
      rewrite concat_app, !app_assoc. split_and!; [done|done|]. exists (a (i + 1)), (i + 2). split_and!; [lia|done|done|].
      intros ms Hms. rewrite Ea0. apply (coded_horizontal _ _ _ _ _ j); try done. lia.
  - destruct (put_mode_spec _ Hbpr 8 o l ltac:(lia) Ho) as (te & o' & -> & E & Ho'). cbn [mbind option_bind].
    rewrite E. cbn [mbind option_bind]. rewrite Hw. rewrite (proj2 (Z.leb_gt w _)) by lia.
    assert (a0 < b (j + 1)) as Hgt.
    { destruct Hj as (Hj0 & _ & Hj1 & _). eapply Z.lt_le_trans; [exact Hj1|apply end_at_le; [done|lia]]. }
    pose proof (end_at_range _ _ (j + 1) Hrefs ltac:(destruct Hj; lia)).
    destruct (next_b1_spec (b (j + 1)) i (b_cursor e)) as (e' & E' & He'); [done|lia|done| |done|].
    { destruct Hrun as [->|[Hi1 [Ha0 Hpr]]]; [by left|right; lia]. }
    rewrite E'. exists (Some e'), Pass, o'. cbn [mode_words concat mbind option_bind]. rewrite app_nil_r.
    split_and!; [done|done|]. exists (b (j + 1)), i. split_and!; [done|done|done|].
    intros ms Hms. apply (coded_pass _ _ _ _ _ j); try done. lia.
Qed.

(** The whole row. *)
Lemma encode_modes_spec fuel e a0 i o l : enc_at e a0 i -> outs o l -> w - a0 <= Z.of_nat fuel ->
  exists ms o', encode_modes fuel s (zlen ends) e o = Some o' /\ coding a b w a0 i ms /\
    outs o' (l ++ concat (modes_words i ms)).
Proof.
  revert e a0 i o l. induction fuel as [|fuel IH]; intros e a0 i o l He Ho Hf.
  { pose proof (at_a0 _ _ _ He). lia. }
  cbn [encode_modes]. destruct (encode_mode_spec e a0 i o l He Ho) as (n & m & o1 & -> & Ho1 & a0' & i' & Hlt & Hn & Ei & Hc).
  cbn [mbind option_bind]. destruct n as [e'|].
  - destruct (IH e' a0' i' o1 _ Hn Ho1 ltac:(lia)) as (ms & o' & E & Hms & Ho'). exists (m :: ms), o'.
    split_and!; [done|by apply Hc|]. cbn [modes_words]. rewrite <- Ei, concat_app, app_assoc. exact Ho'.
  - cbn in Hn. subst a0'. exists [m], o1. split_and!; [done|apply Hc; constructor|].
    cbn [modes_words]. rewrite app_nil_r. exact Ho1.
Qed.
End modes.
