(* ===== verification/T4Rows.v ===== *)
(** * The rows of a page, encoded (src/spandsp-0.0.6/src/t4_tx.c)

    Row by row, what the encoder puts out has the form of T.4 or T.6. *)
From Stdlib Require Import Sorted.
From S2P Require Import Prelude T4Tables T4Base T4Tx T4Spec T4Out T4Changes T4Modes.

(** ** The array of runs *)

Lemma write_runs_spec buf list : zlen list <= zlen buf ->
  write_runs buf list = Some (list ++ drop (length list) buf).
Proof. intros H. unfold write_runs. by rewrite (proj2 (Z.leb_le _ _)) by done. Qed.

Lemma set_at {A} (a b : list A) x v : set_index (a ++ x :: b) (zlen a) v = Some (a ++ v :: b).
Proof.
  rewrite set_index_Some by (rewrite length_app; cbn [length]; lia). f_equal.
  rewrite Nat2Z.id. by rewrite insert_app_r_alt, Nat.sub_diag by lia.
Qed.

Lemma stretch_spec w ends buf : ends_ok w ends -> zlen ends + 3 <= zlen buf ->
  exists runs, stretch (ends ++ drop (length ends) buf) (zlen ends) = Some runs /\ stretched w ends runs /\
    length runs = length buf.
Proof.
  intros Hok Hlen. pose proof (ends_some _ _ Hok).
  assert (length (drop (length ends) buf) = length buf - length ends)%nat as Hd by apply length_drop.
  destruct (drop (length ends) buf) as [|x [|y [|z rest]]] eqn:E; cbn [length] in Hd; try lia.
  exists (ends ++ [w; w; w] ++ rest). split_and!.
  - unfold stretch. rewrite (at_nth _ _ 0) by (rewrite length_app; lia). cbn [mbind option_bind].
    rewrite app_nth1 by lia. pose proof (ends_last _ _ Hok) as Hl. unfold aget in Hl. rewrite Hl.
    replace (ends ++ x :: y :: z :: rest) with ((ends ++ [x; y]) ++ z :: rest) by by rewrite <- app_assoc.
    replace (zlen ends + 2) with (zlen (ends ++ [x; y])) by (rewrite length_app; cbn [length]; lia).
    rewrite set_at. cbn [mbind option_bind].
    replace ((ends ++ [x; y]) ++ w :: rest) with ((ends ++ [x]) ++ y :: w :: rest) by by rewrite <- !app_assoc.
    replace (zlen ends + 1) with (zlen (ends ++ [x])) by (rewrite length_app; cbn [length]; lia).
    rewrite set_at. cbn [mbind option_bind]. rewrite <- app_assoc. cbn [app]. by rewrite set_at.
  - by exists rest.
  - rewrite !length_app. cbn [length]. lia.
Qed.

Lemma length_changes c p l : (length (changes c p l) <= length l)%nat.
Proof.
  revert c p. induction l as [|b l IH]; intros c p; cbn [changes length]; [lia|].
  destruct (eqb b c); cbn [length]; [specialize (IH c (p + 1))|specialize (IH b (p + 1))]; lia.
Qed.

Lemma length_run_ends l : zlen (run_ends l) <= zlen l + 1.
Proof. unfold run_ends. rewrite length_app. pose proof (length_changes false 0 l). cbn [length]. lia. Qed.

(** ** Rows *)

Section rows.
Context (enc w bpr : Z).

(** The state between rows: the ends of the runs of the last row, and the bits so
    far. *)
Record enc_ok (s : t4_tx_state_t) (refs : list Z) (l : list bool) : Prop := {
  ok_enc : line_encoding s = enc;
  ok_width : image_width s = w;
  ok_bpr : bytes_per_row s = bpr;
  ok_pos : 0 < w <= 8 * bpr;
  ok_min : min_bits_per_row s <= 700 * bpr;
  ok_cur : zlen (cur_runs s) = w + 4;
  ok_ref : zlen (ref_runs s) = w + 4;
  ok_refs : ends_ok w refs;
  ok_steps : ref_steps s = zlen refs;
  ok_stretched : stretched w refs (ref_runs s);
  ok_outs : outs (out s) l;
}.

(** The row in [row_buf]. *)
Definition row_pixels (row : list Z) : list bool := take (Z.to_nat w) (pixels row).
Definition row_ok (row : list Z) : Prop := bytes row /\ zlen row = bpr.

Lemma row_pixels_ok row : row_ok row -> 0 < w <= 8 * bpr ->
  row_to_run_lengths row w = Some (run_ends (row_pixels row)) /\ zlen (row_pixels row) = w /\
  ends_ok w (run_ends (row_pixels row)).
Proof.
  intros [Hb Hl] Hw. assert (zlen (row_pixels row) = w) as Hlen.
  { unfold row_pixels. rewrite length_take, length_pixels. lia. }
  split_and!; [apply row_to_run_lengths_spec; [done|lia]|done|].
  rewrite <- Hlen at 1. apply run_ends_ok. intros E. rewrite E in Hlen. cbn in Hlen. lia.
Qed.

(** What a row leaves as it was. *)
Record same_page (s s' : t4_tx_state_t) : Prop := {
  same_buf : row_buf s' = row_buf s;
  same_page_no : current_page s' = current_page s;
  same_header : header_info s' = header_info s;
  same_max : max_rows_to_next_1d_row s' = max_rows_to_next_1d_row s;
  same_res : y_resolution s' = y_resolution s;
  same_bpr : bytes_per_row s' = bytes_per_row s;
}.

Lemma same_page_refl s : same_page s s.
Proof. done. Qed.
Lemma same_page_trans s1 s2 s3 : same_page s1 s2 -> same_page s2 s3 -> same_page s1 s3.
Proof. intros [] []. split; congruence. Qed.

Lemma encode_2d_row_spec s refs l : enc_ok s refs l -> row_ok (row_buf s) ->
  exists s' ws, encode_2d_row s = Some s' /\ row_code w true (Some refs) (row_pixels (row_buf s)) ws /\
    enc_ok s' (run_ends (row_pixels (row_buf s))) (l ++ concat ws) /\ same_page s s' /\
    row_is_2d s' = row_is_2d s.
Proof.
  intros [H1 H2 H3 H4 H5 H6 H7 H8 H9 H10 H11] Hrow.
  destruct (row_pixels_ok _ Hrow H4) as (E & Hlen & Hok). unfold encode_2d_row. rewrite H2, E. cbn [mbind option_bind].
  pose proof (length_run_ends (row_pixels (row_buf s))) as Hle.
  rewrite write_runs_spec by lia. cbn [mbind option_bind].
  destruct (stretch_spec w _ (cur_runs s) Hok ltac:(lia)) as (runs & -> & Hs & Hl). cbn [mbind option_bind].
  change (cur_runs (s <| cur_runs := runs |>)) with runs. change (ref_runs (s <| cur_runs := runs |>)) with (ref_runs s).
  pose proof (ends_some _ _ H8). pose proof (ends_some _ _ Hok).
  rewrite (stretched_at w _ _ _ Hs), (stretched_at w _ _ _ H10) by lia. cbn [mbind option_bind].
  destruct (encode_modes_spec (s <| cur_runs := runs |>) w refs) with
    (fuel := (Z.to_nat w + 2)%nat) (a0 := -1) (i := 0) (o := out s) (l := l)
    (e := {| enc_a0 := 0; enc_a1 := end_at w (run_ends (row_pixels (row_buf s))) 0; enc_b1 := end_at w refs 0;
             a_cursor := 0; b_cursor := 0 |}) as (ms & o' & Eo & Hms & Ho').
  all: try done.
  - lia.
  - apply Hrow.
  - destruct Hrow. cbn. lia.
  - cbn. lia.
  - pose proof (end_at_range w _ 0 H8 ltac:(lia)). pose proof (end_at_range w _ 0 Hok ltac:(lia)) as [Ha0 _].
    split; cbn [enc_a0 enc_a1 enc_b1 a_cursor b_cursor]; [lia|lia|exact (Z.lt_le_trans (-1) 0 _ eq_refl Ha0)|by left|done|done|done|].
    exists 0. split_and!; [|done|done|lia|lia]. split_and!; [done|done|lia|lia].
  - lia.
  - change (image_width (s <| cur_runs := runs |>)) with (image_width s). rewrite H2.
    match goal with |- context [encode_modes ?f ?s1 ?n ?e ?o] =>
      replace (encode_modes f s1 n e o) with (Some o') by (symmetry; exact Eo) end.
    eexists _, _. cbn [mbind option_bind]. split_and!; [done|by exists refs, ms| |done|done].
    split; cbn; try done; lia.
Qed.

Lemma lengths_nonneg last l : StronglySorted Z.lt l -> Forall (fun x => last <= x) l ->
  Forall (fun r => 0 <= r) (lengths last l).
Proof.
  intros Hs. revert last. induction Hs as [|x l Hs IH Hx]; intros last Hl; cbn [lengths]; [constructor|].
  constructor; [pose proof (Forall_inv Hl); cbn in *; lia|]. apply IH.
  apply (list.Forall_impl _ _ _ Hx). intros y Hy. cbn in Hy. lia.
Qed.

Lemma run_lengths_nonneg l : Forall (fun r => 0 <= r) (lengths 0 (run_ends l)).
Proof. apply lengths_nonneg; [apply (changes_sorted false 0 l)|apply (changes_from false 0 l)]. Qed.

Lemma put_spans_spec black last runs o l : 1 <= bpr -> Forall (fun r => 0 <= r) (lengths last runs) -> outs o l ->
  exists o', put_spans bpr black last runs o = Some o' /\ outs o' (l ++ concat (row_words black (lengths last runs))).
Proof.
  intros Hb. revert black last o l. induction runs as [|r runs IH]; intros black last o l Hr Ho; cbn [put_spans lengths row_words].
  - exists o. cbn. by rewrite app_nil_r.
  - cbn [lengths] in Hr. apply Forall_cons_1 in Hr as [Hr0 Hr].
    destruct (put_1d_span_spec bpr Hb black _ o l Hr0 Ho) as (o1 & E & Ho1).
    change (if black then t4_black_codes else t4_white_codes) with (run_codes black). rewrite E. cbn [mbind option_bind].
    destruct (IH (negb black) r o1 _ Hr Ho1) as (o' & -> & Ho'). exists o'. split; [done|].
    by rewrite concat_app, app_assoc.
Qed.

Lemma encode_1d_row_spec o s refs l : enc_ok s refs l -> row_ok (row_buf s) ->
  exists s' ws, encode_1d_row s = Some s' /\ row_code w false o (row_pixels (row_buf s)) ws /\
    enc_ok s' (run_ends (row_pixels (row_buf s))) (l ++ concat ws) /\ same_page s s' /\
    row_is_2d s' = row_is_2d s.
Proof.
  intros [H1 H2 H3 H4 H5 H6 H7 H8 H9 H10 H11] Hrow.
  destruct (row_pixels_ok _ Hrow H4) as (E & Hlen & Hok). unfold encode_1d_row. rewrite H2, E. cbn [mbind option_bind].
  pose proof (length_run_ends (row_pixels (row_buf s))) as Hle. pose proof (ends_some _ _ Hok).
  rewrite write_runs_spec by lia. cbn [mbind option_bind].
  destruct (stretch_spec w _ (ref_runs s) Hok ltac:(lia)) as (runs & Es & Hs & Hl).
  pose proof (put_spans_spec false 0 (run_ends (row_pixels (row_buf s))) (out s) l ltac:(lia) (run_lengths_nonneg _) H11) as Hp.
  destruct (run_ends (row_pixels (row_buf s))) as [|first ends] eqn:Er; [cbn in *; lia|].
  cbn [put_spans] in Hp. rewrite Z.sub_0_r in Hp. change (bytes_per_row (s <| ref_steps := _ |>)) with (bytes_per_row s).
  change (out (s <| ref_steps := zlen (first :: ends) |>)) with (out s).
  change (ref_steps (s <| ref_steps := zlen (first :: ends) |>)) with (zlen (first :: ends)).
  rewrite H3. cbn [app]. change (at_index (first :: _) 0) with (Some first). cbn [mbind option_bind].
  destruct Hp as (o' & Ep & Ho'). cbn [negb] in Ep.
  destruct (put_1d_span bpr first t4_white_codes (out s)) as [o1|]; [|done]. cbn [mbind option_bind] in Ep |- *.
  change (drop 1 (first :: ends)) with ends. rewrite Ep. cbn [mbind option_bind]. cbn [app] in Es. rewrite Es.
  cbn [mbind option_bind]. eexists _, _. split_and!; [done|unfold row_code; rewrite Er; done| |done|done].
  split; cbn; try done; lia.
Qed.

(** ** Ends of lines *)

Lemma put_eq s bits n l : outs (out s) l -> bytes_per_row s = bpr -> 0 <= n -> 0 <= bits < 2 ^ n -> bits < 2 ^ 24 ->
  n + 14 <= 800 * bpr ->
  exists o', put s bits n = Some (s <| out := o' |>) /\ outs o' (l ++ lsb_bits (Z.to_nat n) bits) /\
    row_bits o' = row_bits (out s) + n.
Proof.
  intros Ho Hb Hn Hbits H24 Hr. unfold put. rewrite Hb.
  destruct (put_encoded_bits_spec bpr bits n (out s) l Ho) as (o' & -> & Ho' & Er); [done..|]. by exists o'.
Qed.

Lemma lsb_bits_0 n : lsb_bits n 0 = repeat false n.
Proof. induction n as [|n IH]; [done|]. cbn [lsb_bits repeat]. by rewrite <- IH. Qed.

Lemma outs_new_row o l : outs o l -> outs (update_row_bit_info o) l /\ outs (o <| row_bits := 0 |>) l.
Proof.
  intros [H1 H2 H3 H4 H5 H6]. unfold update_row_bit_info.
  destruct (max_row_bits o <? row_bits o), (_ <? _); split_and!; try done; by split.
Qed.

Lemma row_bits_new o : row_bits (update_row_bit_info o) = 0.
Proof. done. Qed.

(** The code of an EOL, and its length. *)
Definition eol_code (s : t4_tx_state_t) : Z * Z :=
  if line_encoding s =? T4_COMPRESSION_ITU_T4_2D then (0x0800 .| (Z.b2z (negb (row_is_2d s)) .<< 12), 13) else (0x800, 12).

Lemma eol_code_spec s : line_encoding s = enc ->
  exists code n, eol_code s = (code, n) /\ 12 <= n <= 13 /\ 0 <= code < 2 ^ n /\
    lsb_bits (Z.to_nat n) code = eol ++ tag enc (negb (row_is_2d s)).
Proof.
  intros <-. unfold eol_code, tag. change T4_COMPRESSION_ITU_T4_2D with 2.
  destruct (line_encoding s =? 2), (row_is_2d s); eexists _, _; (split; [reflexivity|split; [lia|split; [vm_compute; done|done]]]).
Qed.

Lemma put_eol_spec s l : line_encoding s = enc -> outs (out s) l -> bytes_per_row s = bpr -> 1 <= bpr ->
  exists o', put s (fst (eol_code s)) (snd (eol_code s)) = Some (s <| out := o' |>) /\
    outs o' (l ++ eol ++ tag enc (negb (row_is_2d s))).
Proof.
  intros He Ho Hb Hb1. destruct (eol_code_spec s He) as (code & n & -> & Hn & Hc & <-). cbn [fst snd].
  assert (2 ^ n <= 2 ^ 13) by (apply Z.pow_le_mono_r; lia).
  destruct (put_eq s code n l Ho Hb) as (o' & E & Ho' & _); [lia..|]. by exists o'.
Qed.

Lemma encode_eol_spec s l : line_encoding s = enc -> outs (out s) l -> bytes_per_row s = bpr -> 1 <= bpr ->
  min_bits_per_row s <= 700 * bpr ->
  exists o' k, encode_eol s = Some (s <| out := o' |>) /\
    outs o' (l ++ repeat false k ++ eol ++ tag enc (negb (row_is_2d s))) /\ row_bits o' = 0 /\
    (row_bits (out s) = 0 \/ enc = 3 -> k = O).
Proof.
  intros He Ho Hb Hb1 Hmin. unfold encode_eol.
  change (if line_encoding s =? T4_COMPRESSION_ITU_T4_2D then (0x0800 .| (Z.b2z (negb (row_is_2d s)) .<< 12), 13) else (0x800, 12))
    with (eol_code s).
  destruct (eol_code_spec s He) as (code & n & Ec & Hn & _). rewrite Ec.
  assert (forall s1 l1, eol_code s1 = eol_code s -> line_encoding s1 = enc -> row_is_2d s1 = row_is_2d s -> outs (out s1) l1 ->
    bytes_per_row s1 = bpr -> exists o', put s1 code n = Some (s1 <| out := o' |>) /\
      outs o' (l1 ++ eol ++ tag enc (negb (row_is_2d s)))) as Heol.
  { intros s1 l1 E1 E2 E3 Ho1 E4. destruct (put_eol_spec s1 l1 E2 Ho1 E4 Hb1) as (o' & E & Ho').
    rewrite E1, Ec in E. rewrite E3 in Ho'. by exists o'. }
  destruct (Z.eqb_spec (row_bits (out s)) 0) as [E0|E0]; cbn [negb].
  - destruct (Heol s l) as (o1 & -> & Ho1); [done..|]. cbn [mbind option_bind].
    exists (o1 <| row_bits := 0 |>), O. split_and!; [done|exact (proj2 (outs_new_row _ _ Ho1))|done|done].
  - change T4_COMPRESSION_ITU_T6 with 3. rewrite He. pose proof (outs_row _ _ Ho).
    destruct (Z.eqb_spec enc 3) as [E3|E3]; cbn [negb andb]; [|destruct (Z.ltb_spec (row_bits (out s) + n) (min_bits_per_row s))].
    1, 3: cbn [mbind option_bind]; destruct (Heol s l) as (o1 & -> & Ho1); [done..|]; cbn [mbind option_bind];
      exists (update_row_bit_info o1), O; split_and!; [done|exact (proj1 (outs_new_row _ _ Ho1))|apply row_bits_new|done].
    destruct (put_eq s 0 (min_bits_per_row s - (row_bits (out s) + n)) l Ho Hb) as (o1 & -> & Ho1 & _); [lia|split; [lia|apply Z.pow_pos_nonneg; lia]|lia|lia|].
    cbn [mbind option_bind]. rewrite lsb_bits_0 in Ho1.
    edestruct (Heol (s <| out := o1 |>)) as (o2 & -> & Ho2); [reflexivity|exact He|reflexivity|cbn; exact Ho1|exact Hb|]. cbn [mbind option_bind].
    exists (update_row_bit_info o2), (Z.to_nat (min_bits_per_row s - (row_bits (out s) + n))).
    rewrite <- app_assoc in Ho2. split_and!; [done|exact (proj1 (outs_new_row _ _ Ho2))|apply row_bits_new|intros [?|?]; lia].
Qed.

(** ** Rows behind what comes before them *)

Lemma enc_ok_out s refs l o' l' : enc_ok s refs l -> outs o' l' -> enc_ok (s <| out := o' |>) refs l'.
Proof. intros [] Ho. by split. Qed.

Definition known : Prop := enc = 1 \/ enc = 2 \/ enc = 3.

(** A row that begins with an EOL. *)
Lemma row_after_eol (f : t4_tx_state_t -> option t4_tx_state_t) two s refs o l :
  (forall s l, enc_ok s refs l -> row_ok (row_buf s) ->
    exists s' ws, f s = Some s' /\ row_code w two o (row_pixels (row_buf s)) ws /\
      enc_ok s' (run_ends (row_pixels (row_buf s))) (l ++ concat ws) /\ same_page s s' /\ row_is_2d s' = row_is_2d s) ->
  enc <> 3 -> (enc = 2 -> row_is_2d s = two) -> (enc <> 2 -> two = false) -> enc_ok s refs l -> row_ok (row_buf s) ->
  exists s1 s' start ws, encode_eol s = Some s1 /\ f s1 = Some s' /\ row_is_2d s1 = row_is_2d s /\
    row_start enc two start /\ row_code w two o (row_pixels (row_buf s)) ws /\
    enc_ok s' (run_ends (row_pixels (row_buf s))) (l ++ start ++ concat ws) /\ same_page s s'.
Proof.
  intros Hf H3 H2d H1d Hok Hrow. pose proof (ok_pos _ _ _ Hok).
  destruct (encode_eol_spec s l (ok_enc _ _ _ Hok) (ok_outs _ _ _ Hok) (ok_bpr _ _ _ Hok) ltac:(lia) (ok_min _ _ _ Hok))
    as (o1 & k & -> & Ho1 & _).
  destruct (Hf (s <| out := o1 |>) _ (enc_ok_out _ _ _ _ _ Hok Ho1) Hrow) as (s' & ws & E & Hc & Hok' & Hsame & _).
  assert (tag enc (negb (row_is_2d s)) = tag enc (negb two)) as Et.
  { unfold tag. destruct (Z.eqb_spec enc 2) as [E2|]; [by rewrite H2d|done]. }
  rewrite Et in Hok'. eexists (s <| out := o1 |>), s', _, ws. split_and!; [done|done|done| |done| |].
  - unfold row_start. rewrite (proj2 (Z.eqb_neq _ _)) by done. split; [done|]. by exists k.
  - rewrite <- (app_assoc l) in Hok'. exact Hok'.
  - by destruct Hsame.
Qed.

(** The reference row is the row before; the first row of a page has one in T.6
    only, a white one. *)
Definition reference (s : t4_tx_state_t) (refs : list Z) (o : option (list Z)) : Prop :=
  match o with Some r => r = refs | None => enc <> 3 /\ row_is_2d s = false end.

Lemma encode_row_spec s refs o l : known -> enc_ok s refs l -> reference s refs o -> row_ok (row_buf s) ->
  exists s' two start ws, encode_row s = Some s' /\ row_start enc two start /\
    row_code w two o (row_pixels (row_buf s)) ws /\
    enc_ok s' (run_ends (row_pixels (row_buf s))) (l ++ start ++ concat ws) /\ same_page s s'.
Proof.
  intros Hk Hok Hor Hrow. unfold encode_row. rewrite (ok_enc _ _ _ Hok).
  change T4_COMPRESSION_ITU_T6 with 3. change T4_COMPRESSION_ITU_T4_2D with 2.
  destruct (Z.eqb_spec enc 3) as [E3|E3]; [|destruct (Z.eqb_spec enc 2) as [E2|E2]].
  - assert (o = Some refs) as -> by (destruct o as [r|]; [cbn in Hor; congruence|by destruct Hor]).
    set (s1 := if negb _ then _ else _).
    assert (enc_ok s1 refs l /\ same_page s s1 /\ row_buf s1 = row_buf s) as (Hok1 & Hsame1 & Eb).
    { subst s1. destruct (negb _); [|done]. split_and!; [|done|done].
      apply enc_ok_out with l; [done|]. exact (proj1 (outs_new_row _ _ (ok_outs _ _ _ Hok))). }
    rewrite <- Eb in Hrow |- *. destruct (encode_2d_row_spec s1 refs l Hok1 Hrow) as (s' & ws & -> & Hc & Hok' & Hs & _).
    cbn [mbind option_bind]. eexists _, true, [], ws. split_and!; [done| |done| |].
    + unfold row_start. by rewrite (proj2 (Z.eqb_eq _ _)).
    + cbn [app]. by destruct Hok'.
    + apply (same_page_trans _ s1); [done|]. by destruct Hs.
  - destruct (row_is_2d s) eqn:E2d.
    + assert (o = Some refs) as -> by (destruct o as [r|]; [cbn in Hor; congruence|destruct Hor; congruence]).
      destruct (row_after_eol encode_2d_row true s refs (Some refs) l) as (s1 & s' & start & ws & -> & E & E2d' & Hst & Hc & Hok' & Hs);
        [intros; by apply encode_2d_row_spec|done|done|done|done|done|].
      cbn [mbind option_bind]. rewrite E2d', E2d, E. cbn [mbind option_bind].
      match goal with |- context [if ?c then _ else _] => destruct c end;
        eexists _, true, start, ws; split_and!; [done|done|done|by destruct Hok'|by destruct Hs|
          done|done|done|by destruct Hok'|by destruct Hs].
    + destruct (row_after_eol encode_1d_row false s refs o l) as (s1 & s' & start & ws & -> & E & E2d' & Hst & Hc & Hok' & Hs);
        [intros; by apply (encode_1d_row_spec o _ refs)|done|done|done|done|done|].
      cbn [mbind option_bind]. rewrite E2d', E2d, E. cbn [mbind option_bind].
      match goal with |- context [if ?c then _ else _] => destruct c end;
        eexists _, false, start, ws; split_and!; [done|done|done|by destruct Hok'|by destruct Hs|
          done|done|done|by destruct Hok'|by destruct Hs].
  - destruct (row_after_eol encode_1d_row false s refs o l) as (s1 & s' & start & ws & -> & E & _ & Hst & Hc & Hok' & Hs);
      [intros; by apply (encode_1d_row_spec o _ refs)|done|done|done|done|done|].
    cbn [mbind option_bind]. rewrite E. cbn [mbind option_bind].
    eexists _, false, start, ws. split_and!; [done|done|done|by destruct Hok'|by destruct Hs].
Qed.
End rows.
