(* ===== verification/T4Page.v ===== *)
(** * A page, encoded (src/spandsp-0.0.6/src/t4_tx.c, [t4_tx_start_page])

    The header, the rows that the handler gives and the end of the page: what the
    encoder holds then has the form of T.4 or T.6. *)
From S2P Require Import Prelude T4Tables T4Base T4Tx T4Spec T4Out T4Modes T4Rows.

(** ** The last octet, filled with ones *)

Lemma lsb_ones t n x : 0 <= x < 2 ^ Z.of_nat t -> (t + n <= 32)%nat -> 
  lsb_bits (t + n) (x .| (Z.ones (Z.of_nat n) .<< Z.of_nat t)) = lsb_bits t x ++ repeat true n.
Proof.
  intros Hx Hn. rewrite <- lsb_bits_behind by done. f_equal. apply (nth_ext _ _ false false).
  - by rewrite length_lsb_bits, repeat_length.
  - intros k Hk. rewrite length_lsb_bits in Hk. rewrite lookup_lsb_bits, nth_repeat_lt by done.
    apply Z.ones_spec_low. lia.
Qed.

Lemma last_octet bpr o l : outs o l -> 1 <= bpr ->
  exists o' f, put_encoded_bits bpr 0xFF 7 o = Some o' /\ (f < 8)%nat /\ bytes (image_buffer o') /\
    line_bits (image_buffer o') = l ++ repeat true f.
Proof.
  intros [H1 H2 H3 H4 H5 H6] Hb. unfold put_encoded_bits. cbv zeta.
  assert (u32 (0xFF .<< tx_bits o) = 0xFF .<< tx_bits o) as ->.
  { apply wrap_id. rewrite Z.shiftl_mul_pow2 by lia.
    assert (0 < 2 ^ tx_bits o <= 2 ^ 7) by (split; [apply Z.pow_pos_nonneg; lia|apply Z.pow_le_mono_r; lia]). nia. }
  match goal with |- context [put_octets _ ?x] => set (o2 := x) end.
  assert (tx_bits o2 = tx_bits o + 7 /\ tx_bitstream o2 = tx_bitstream o .| (0xFF .<< tx_bits o) /\
    image_buffer o2 = image_buffer o /\ zlen (image_buffer o) + (tx_bits o + 7) / 8 <= image_buffer_size o2) as (E1 & E2 & E3 & E5).
  { subst o2. cbn. assert ((tx_bits o + 7) / 8 < 2) by (apply Z.div_lt_upper_bound; lia).
    assert ((tx_bits o + 7) / 8 <= (tx_bits o + 7 + 7) / 8) by (apply Z.div_le_mono; lia).
    destruct (Z.leb_spec (image_buffer_size o) (zlen (image_buffer o) + (tx_bits o + 7 + 7) / 8)); cbn; split_and!; try done; lia. }
  clearbody o2.
  assert (0 <= tx_bitstream o2) by (rewrite E2; apply Z.lor_nonneg; split; [lia|apply Z.shiftl_nonneg; lia]).
  edestruct (put_octets_spec (Z.to_nat (tx_bits o2)) o2) as (o' & -> & F1 & _); rewrite ?E1, ?E3; [lia..|].
  rewrite E1, E2, E3 in F1. exists o'.
  destruct (decide (tx_bits o = 0)) as [E0|E0].
  - exists O. rewrite E0 in *. change (Z.to_nat ((0 + 7) / 8)) with O in F1. cbn [le_split] in F1. rewrite app_nil_r in F1.
    change (Z.to_nat 0) with O in H1. cbn [lsb_bits] in H1. rewrite app_nil_r in H1.
    rewrite F1. split_and!; [done|lia|done|]. cbn [repeat]. by rewrite app_nil_r.
  - assert ((tx_bits o + 7) / 8 = 1) as Ed by (replace (tx_bits o + 7) with (tx_bits o - 1 + 1 * 8) by lia; rewrite Z.div_add, Z.div_small; lia).
    rewrite Ed in F1. change (Z.to_nat 1) with 1%nat in F1. exists (8 - Z.to_nat (tx_bits o))%nat. split_and!; [done|lia| |].
    + rewrite F1. apply Forall_app_2; [done|apply bytes_le_split].
    + rewrite F1, page_line_app, line_bits_split, <- H1, <- app_assoc. f_equal.
      rewrite <- lsb_ones by (rewrite ?Z2Nat.id by lia; done || lia). change (8 * 1)%nat with 8%nat.
      replace (Z.to_nat (tx_bits o) + (8 - Z.to_nat (tx_bits o)))%nat with 8%nat by lia. rewrite Z2Nat.id by lia.
      apply lsb_bits_ext. intros i Hi. bit_specs. f_equal. destruct (Z.leb_spec (tx_bits o) i); [|done]. cbn [andb].
      change 255 with (Z.ones 8). rewrite testbit_ones by lia.
      rewrite !(proj2 (Z.ltb_lt _ _)) by lia. done.
Qed.

(** ** The header *)

Lemma header_octets_ok text r ptr bpr : 0 <= ptr <= bpr ->
  bytes (header_octets text r ptr bpr) /\ zlen (header_octets text r ptr bpr) = bpr - ptr.
Proof.
  assert (forall n, bytes (replicate n 0)) as Hz by (intros n; apply Forall_replicate; unfold is_byte; lia).
  revert ptr. induction text as [|t text IH]; intros ptr Hp; cbn [header_octets].
  { split; [apply Hz|rewrite length_replicate; lia]. }
  destruct (negb (t =? 0) && (ptr <=? bpr - 2)) eqn:E; [|split; [apply Hz|rewrite length_replicate; lia]].
  apply andb_prop in E as [_ E%Z.leb_le]. destruct (IH (ptr + 2) ltac:(lia)) as [Hb Hl]. split.
  - constructor; [apply is_byte_u8|constructor; [|done]]. rewrite land_255. apply is_byte_u8.
  - cbn [length]. lia.
Qed.

(** The rows of the header line. *)
Definition header_rows (text : list Z) (bpr : Z) (repeats : nat) (rs : list nat) : list (list Z) :=
  concat (map (fun r => replicate repeats (header_octets text r 0 bpr)) rs).

Section page.
Context (enc w bpr : Z) (Hknown : known enc).
Local Abbreviation ok := (enc_ok enc w bpr).
Local Abbreviation px := (row_pixels w).

(** A row further. *)
Lemma one_more s refs o l : ok s refs l -> reference enc s refs o -> row_ok bpr (row_buf s) ->
  exists s' bits, encode_row s = Some s' /\ ok s' (run_ends (px (row_buf s))) (l ++ bits) /\ same_page s s' /\
    forall pxs rest refs', coded_rows enc w (Some (run_ends (px (row_buf s)))) pxs rest refs' ->
      coded_rows enc w o (px (row_buf s) :: pxs) (bits ++ rest) refs'.
Proof.
  intros Hok Hor Hrow. destruct (encode_row_spec enc w bpr s refs o l Hknown Hok Hor Hrow) as (s' & two & start & ws & E & Hst & Hc & Hok' & Hs).
  exists s', (start ++ concat ws). split_and!; [done|done|done|]. intros pxs rest refs' Hr. rewrite <- app_assoc.
  apply coded_cons with two; try done. apply (row_pixels_ok w bpr); [done|apply (ok_pos _ _ _ _ _ _ Hok)].
Qed.

Lemma encode_repeats_spec n s refs o l : ok s refs l -> reference enc s refs o -> row_ok bpr (row_buf s) ->
  exists s' bits refs' o', encode_repeats n s = Some s' /\ ok s' refs' (l ++ bits) /\ reference enc s' refs' o' /\
    same_page s s' /\ coded_rows enc w o (map px (replicate n (row_buf s))) bits o'.
Proof.
  revert s refs o l. induction n as [|n IH]; intros s refs o l Hok Hor Hrow; cbn [encode_repeats].
  { exists s, [], refs, o. rewrite app_nil_r. split_and!; [done|done|done|done|constructor]. }
  destruct (one_more s refs o l Hok Hor Hrow) as (s1 & bits1 & -> & Hok1 & Hs1 & Hc1). cbn [mbind option_bind].
  rewrite <- (same_buf _ _ Hs1) in Hrow. destruct (IH s1 _ (Some _) _ Hok1 eq_refl Hrow) as (s' & bits & refs' & o' & E & Hok' & Hor' & Hs' & Hc').
  rewrite (same_buf _ _ Hs1) in Hc'. exists s', (bits1 ++ bits), refs', o'. rewrite app_assoc. split_and!; try done.
  - by apply (same_page_trans _ s1).
  - cbn [replicate map]. by apply Hc1.
Qed.

(** What does not change on a page. *)
Definition same_settings (s s' : t4_tx_state_t) : Prop :=
  current_page s' = current_page s /\ header_info s' = header_info s /\ y_resolution s' = y_resolution s.

Lemma put_header_rows_spec rs text n s refs o l : ok s refs l -> reference enc s refs o ->
  exists s' bits refs' o', put_header_rows rs text n s = Some s' /\ ok s' refs' (l ++ bits) /\ reference enc s' refs' o' /\
    same_settings s s' /\ coded_rows enc w o (map px (header_rows text bpr n rs)) bits o'.
Proof.
  revert s refs o l. induction rs as [|r rs IH]; intros s refs o l Hok Hor; cbn [put_header_rows].
  { exists s, [], refs, o. rewrite app_nil_r. split_and!; [done|done|done|done|constructor]. }
  pose proof (ok_pos _ _ _ _ _ _ Hok) as Hpos. rewrite (ok_bpr _ _ _ _ _ _ Hok).
  destruct (header_octets_ok text r 0 bpr ltac:(lia)) as [Hb Hl].
  assert (ok (s <| row_buf := header_octets text r 0 bpr |>) refs l) as Hok1 by (destruct Hok; by split).
  assert (reference enc (s <| row_buf := header_octets text r 0 bpr |>) refs o) as Hor1 by by destruct o.
  destruct (encode_repeats_spec n _ _ _ _ Hok1 Hor1) as (s1 & bits1 & refs1 & o1 & -> & Hok2 & Hor2 & Hs1 & Hc1).
  { split; [done|]. cbn. lia. }
  cbn [mbind option_bind]. destruct (IH s1 _ _ _ Hok2 Hor2) as (s' & bits & refs' & o' & E & Hok' & Hor' & Hs' & Hc').
  exists s', (bits1 ++ bits), refs', o'. rewrite app_assoc. split_and!; [done|done|done| |].
  - destruct Hs1, Hs' as (? & ? & ?). cbn in *. split_and!; congruence.
  - unfold header_rows. cbn [map concat]. rewrite map_app. by eapply coded_rows_app.
Qed.

(** ** The rows of the handler *)
Section handler.
Context {U : Type} (h : U -> list Z -> Z -> U * list Z * Z).

(** From [u] on, with [buf] in the buffer, the handler gives the rows, then nothing. *)
Inductive gives : U -> list Z -> list (list Z) -> U -> Prop :=
  | gives_end u buf u' buf' n : h u buf bpr = (u', buf', n) -> n <= 0 -> gives u buf [] u'
  | gives_row u buf u1 r n rows u' : h u buf bpr = (u1, r, n) -> 0 < n -> row_ok bpr r ->
      gives u1 r rows u' -> gives u buf (r :: rows) u'.

Lemma read_rows_spec fuel u rows u' count s refs o l : ok s refs l -> reference enc s refs o ->
  gives u (row_buf s) rows u' -> (length rows < fuel)%nat ->
  exists s' bits refs' o', read_rows h fuel u count s = Some (u', count + zlen rows, s') /\ ok s' refs' (l ++ bits) /\
    same_settings s s' /\ coded_rows enc w o (map px rows) bits o'.
Proof.
  revert u rows count s refs o l. induction fuel as [|fuel IH]; intros u rows count s refs o l Hok Hor Hg Hf; [lia|].
  cbn [read_rows]. rewrite (ok_bpr _ _ _ _ _ _ Hok). inversion Hg as [? ? ? buf' n E Hn|? ? u1 r n rows' ? E Hn Hr Hg']; subst.
  - rewrite E. rewrite (proj2 (Z.leb_le _ _)) by done. exists (s <| row_buf := buf' |>), [], refs, o.
    rewrite app_nil_r, Z.add_0_r. split_and!; [done|destruct Hok; by split|done|constructor].
  - rewrite E. rewrite (proj2 (Z.leb_gt _ _)) by done.
    assert (ok (s <| row_buf := r |>) refs l) as Hok1 by (destruct Hok; by split).
    assert (reference enc (s <| row_buf := r |>) refs o) as Hor1 by by destruct o.
    destruct (one_more _ _ _ _ Hok1 Hor1 Hr) as (s1 & bits1 & -> & Hok2 & Hs1 & Hc1). cbn [mbind option_bind].
    change (row_buf (s <| row_buf := r |>)) with r in *. cbn [length] in Hf.
    assert (row_buf s1 = r) as Er by (destruct Hs1; done). rewrite <- Er in Hg'.
    destruct (IH u1 rows' (count + 1) s1 _ (Some _) _ Hok2 eq_refl Hg' ltac:(lia)) as (s' & bits & refs' & o' & -> & Hok' & Hs' & Hc').
    exists s', (bits1 ++ bits), refs', o'. rewrite app_assoc. split_and!; [|done| |].
    + do 3 f_equal. cbn [length]. lia.
    + destruct Hs1, Hs' as (? & ? & ?). cbn in *. split_and!; congruence.
    + cbn [map]. by apply Hc1.
Qed.
End handler.

(** ** The end of the page *)
Lemma put_eols_spec n s refs l : ok s refs l -> row_bits (out s) = 0 ->
  exists s', put_eols n s = Some s' /\ ok s' refs (l ++ concat (replicate n (eol ++ tag enc (negb (row_is_2d s))))) /\
    same_settings s s'.
Proof.
  revert s l. induction n as [|n IH]; intros s l Hok H0; cbn [put_eols].
  { exists s. cbn. by rewrite app_nil_r. }
  pose proof (ok_pos _ _ _ _ _ _ Hok).
  destruct (encode_eol_spec enc bpr s l (ok_enc _ _ _ _ _ _ Hok) (ok_outs _ _ _ _ _ _ Hok) (ok_bpr _ _ _ _ _ _ Hok) ltac:(lia)
    (ok_min _ _ _ _ _ _ Hok)) as (o1 & k & -> & Ho1 & E0 & Hk). rewrite Hk in Ho1 by by left. cbn [mbind option_bind].
  destruct (IH (s <| out := o1 |>) _ (enc_ok_out _ _ _ _ _ _ _ _ Hok Ho1) E0) as (s' & E & Hok' & Hs').
  exists s'. split_and!; [done| |done]. cbn [replicate concat]. rewrite app_assoc. exact Hok'.
Qed.

Lemma first_eols_spec n s refs l : ok s refs l -> (row_is_2d s = false \/ enc <> 2) ->
  exists s1 k, put_eols (S n) s = Some s1 /\
    ok s1 refs (l ++ (repeat false k ++ concat (replicate (S n) (eol ++ tag enc true)))) /\
    same_settings s s1 /\ (enc = 3 -> k = O).
Proof.
  intros Hok H2d. pose proof (ok_pos _ _ _ _ _ _ Hok). cbn [put_eols].
  assert (tag enc (negb (row_is_2d s)) = tag enc true) as Et.
  { unfold tag. destruct H2d as [->|]; [done|]. by rewrite (proj2 (Z.eqb_neq _ _)). }
  destruct (encode_eol_spec enc bpr s l (ok_enc _ _ _ _ _ _ Hok) (ok_outs _ _ _ _ _ _ Hok) (ok_bpr _ _ _ _ _ _ Hok)
    ltac:(lia) (ok_min _ _ _ _ _ _ Hok)) as (o1 & k & -> & Ho1 & E0 & Hk). cbn [mbind option_bind]. rewrite Et in Ho1.
  destruct (put_eols_spec n (s <| out := o1 |>) refs _ (enc_ok_out _ _ _ _ _ _ _ _ Hok Ho1) E0) as (s' & E & Hok' & Hs').
  exists s', k. change (row_is_2d (s <| out := o1 |>)) with (row_is_2d s) in Hok'. rewrite Et in Hok'.
  split_and!; [done| |exact Hs'|auto]. cbn [replicate concat].
  replace (l ++ repeat false k ++ (eol ++ tag enc true) ++ concat (replicate n (eol ++ tag enc true)))
    with ((l ++ repeat false k ++ eol ++ tag enc true) ++ concat (replicate n (eol ++ tag enc true)))
    by by rewrite <- !app_assoc.
  exact Hok'.
Qed.

Lemma end_of_page_spec s refs l : ok s refs l ->
  exists s' e f, end_of_page s = Some s' /\ page_end enc e /\ (f < 8)%nat /\ bytes (image_buffer (out s')) /\
    line_bits (image_buffer (out s')) = l ++ e ++ repeat true f /\ bit_ptr s' = 0 /\ bit_pos s' = 7 /\
    line_image_size s' = 8 * zlen (image_buffer (out s')) /\ same_settings s s'.
Proof.
  intros Hok. pose proof (ok_pos _ _ _ _ _ _ Hok). unfold end_of_page. rewrite (ok_enc _ _ _ _ _ _ Hok).
  change T4_COMPRESSION_ITU_T6 with 3.
  assert (exists s1 k, (if enc =? 3 then put_eols EOLS_TO_END_T6_TX_PAGE s
      else put_eols EOLS_TO_END_T4_TX_PAGE (s <| row_is_2d := false |>)) = Some s1 /\
    ok s1 refs (l ++ (repeat false k ++ concat (replicate (if enc =? 3 then 2 else 6) (eol ++ tag enc true)))) /\
    same_settings s s1 /\ (enc = 3 -> k = O)) as (s1 & k & -> & Hok1 & Hs1 & Hk).
  { destruct (Z.eqb_spec enc 3); [apply (first_eols_spec 1 s); [done|right; lia]|].
    destruct (first_eols_spec 5 (s <| row_is_2d := false |>) refs l) as (s1 & k & E1 & H1 & H2 & H3);
      [destruct Hok; by split|by left|]. by exists s1, k. }
  cbn [mbind option_bind]. unfold put. rewrite (ok_bpr _ _ _ _ _ _ Hok1).
  destruct (last_octet bpr (out s1) _ (ok_outs _ _ _ _ _ _ Hok1) ltac:(lia)) as (o' & f & -> & Hf & Hb & El).
  cbn [mbind option_bind]. rewrite <- (app_assoc l) in El.
  eexists _, _, f. split_and!; [done| |done|done|exact El|done|done|cbn; lia|done].
  unfold page_end. destruct (Z.eqb_spec enc 3) as [->|]; [|by exists k].
  rewrite Hk by done. cbn [repeat app replicate concat]. unfold tag. cbn. done.
Qed.

(** ** The whole page *)

(** An encoder that is set up for pages of this width. *)
Record page_ready (s : t4_tx_state_t) : Prop := {
  ready_enc : line_encoding s = enc;
  ready_width : image_width s = w;
  ready_bpr : bytes_per_row s = bpr;
  ready_pos : 0 < w <= 8 * bpr;
  ready_min : min_bits_per_row s <= 700 * bpr;
  ready_cur : zlen (cur_runs s) = w + 4;
  ready_ref : zlen (ref_runs s) = w + 4;
  ready_size : 0 <= image_buffer_size (out s);
  ready_page : current_page s <= stop_page s;
  ready_file : tiff_file s = true;
}.

Lemma white_ok : 0 < w -> ends_ok w [w].
Proof. intros Hw. split; [done|done|done|change (0 <= w); lia|intros i j Hi Hj; cbn in Hj; lia]. Qed.

Lemma set_four ref : zlen ref = w + 4 -> 0 < w ->
  exists runs, (ref ← set_index ref 0 w; ref ← set_index ref 1 w; ref ← set_index ref 2 w; set_index ref 3 w) = Some runs /\
    stretched w [w] runs /\ zlen runs = w + 4.
Proof.
  intros Hl Hw. destruct ref as [|a [|b [|c [|d rest]]]]; cbn [length] in Hl; try lia.
  exists (w :: w :: w :: w :: rest). split_and!; [|by exists rest|cbn [length]; lia].
  do 4 (rewrite set_index_Some by (rewrite ?length_insert; cbn [length]; lia); cbn [mbind option_bind]). done.
Qed.

(** The reference of the first row. *)
Definition first_reference : option (list Z) := if enc =? 3 then Some [w] else None.

Lemma begin_page_spec s : page_ready s ->
  exists s', begin_page s = Some s' /\ ok s' [w] [] /\ reference enc s' [w] first_reference /\ same_settings s s'.
Proof.
  intros [H1 H2 H3 H4 H5 H6 H7 H8 _ _]. unfold begin_page.
  destruct (set_four (ref_runs s) H7 ltac:(lia)) as (runs & E & Hs & Hl).
  cbv zeta. change (ref_runs (s <| out := _ |> <| row_is_2d := _ |> <| rows_to_next_1d_row := _ |>)) with (ref_runs s).
  change (image_width (s <| out := _ |> <| row_is_2d := _ |> <| rows_to_next_1d_row := _ |>)) with (image_width s).
  rewrite H2. revert E. destruct (set_index (ref_runs s) 0 w) as [r0|]; [|done]. cbn [mbind option_bind].
  destruct (set_index r0 1 w) as [r1|]; [|done]. cbn [mbind option_bind].
  destruct (set_index r1 2 w) as [r2|]; [|done]. cbn [mbind option_bind]. intros ->. cbn [mbind option_bind].
  eexists. split_and!; [done| | |done].
  - split; cbn; try done; try lia. apply white_ok. lia.
  - unfold first_reference, reference. cbn. rewrite H1. destruct (Z.eqb_spec enc 3) as [|Hne]; [done|]. split; [done|]. by apply Z.eqb_neq.
Qed.

(** The rows of the header line and those of the handler. *)
Definition page_rows (s : t4_tx_state_t) (text : list Z) (rows : list (list Z)) : list (list Z) :=
  (if header_info s then header_rows text bpr (header_repeats s) (seq 0 16) else []) ++ rows.

Lemma start_page_spec {U} (h : U -> list Z -> Z -> U * list Z * Z) fuel text u rows u' s :
  page_ready s -> (forall buf, gives h u buf rows u') -> (length rows < fuel)%nat ->
  exists s' bits o' e f, t4_tx_start_page h fuel text u s = Some (0, u', s') /\
    coded_rows enc w first_reference (map px (page_rows s text rows)) bits o' /\ page_end enc e /\ (f < 8)%nat /\
    bytes (image_buffer (out s')) /\ line_bits (image_buffer (out s')) = bits ++ e ++ repeat true f /\
    bit_ptr s' = 0 /\ bit_pos s' = 7.
Proof.
  intros Hr Hg Hf. unfold t4_tx_start_page. pose proof (ready_page _ Hr). rewrite (proj2 (Z.ltb_ge _ _)) by done.
  rewrite (ready_file _ Hr). cbn [negb]. destruct (begin_page_spec s Hr) as (s1 & -> & Hok1 & Hor1 & Hs1). cbn [mbind option_bind].
  destruct Hs1 as (_ & Eh & Ey).
  assert (exists s2 bits2 refs2 o2, (if header_info s1 then t4_tx_put_fax_header text s1 else Some s1) = Some s2 /\
    ok s2 refs2 bits2 /\ reference enc s2 refs2 o2 /\
    coded_rows enc w first_reference (map px (page_rows s text [])) bits2 o2) as (s2 & bits2 & refs2 & o2 & -> & Hok2 & Hor2 & Hc2).
  { unfold page_rows. rewrite <- Eh, app_nil_r. destruct (header_info s1); [|exists s1, [], [w], first_reference; split_and!; [done|done|done|constructor]].
    unfold t4_tx_put_fax_header. destruct (put_header_rows_spec (seq 0 16) text (header_repeats s1) s1 [w] _ [] Hok1 Hor1)
      as (s2 & bits & refs2 & o2 & E & Hok & Hor & _ & Hc). exists s2, bits, refs2, o2. split_and!; [done|done|done|].
    unfold header_repeats in *. by rewrite <- Ey. }
  cbn [mbind option_bind]. destruct (read_rows_spec h fuel u rows u' 0 s2 refs2 o2 bits2 Hok2 Hor2 (Hg _) Hf) as (s3 & bits3 & refs3 & o3 & -> & Hok3 & _ & Hc3).
  cbn [mbind option_bind].
  destruct (end_of_page_spec (s3 <| image_length := 0 + zlen rows |>) refs3 (bits2 ++ bits3)) as (s' & e & f & -> & He & Hff & Hb & El & Ep & Eq & _);
    [destruct Hok3; by split|].
  cbn [mbind option_bind]. exists s', (bits2 ++ bits3), o3, e, f. split_and!; try done.
  replace (page_rows s text rows) with (page_rows s text [] ++ rows) by (unfold page_rows; by rewrite app_nil_r).
  rewrite map_app. by eapply coded_rows_app.
Qed.
End page.
