(* ===== verification/T4Words.v ===== *)
(** * Code words ahead (src/spandsp-0.0.6/src/t4_rx.c, t4_t6_decode_states.h)

    The decoder has the next bits in a word.  Where they begin with a code word,
    its tables say so; and no EOL begins inside a row. *)
From S2P Require Import Prelude T4Tables T4Base T4Spec T4Out.

(** ** The bits ahead *)

Lemma of_lsb_app a b : of_lsb (a ++ b) = of_lsb a + 2 ^ zlen a * of_lsb b.
Proof.
  induction a as [|x a IH]; [cbn [app length of_lsb]; change (Z.of_nat 0) with 0; lia|].
  cbn [app of_lsb length]. rewrite IH, Nat2Z.inj_succ, Z.pow_succ_r by lia. lia.
Qed.

Lemma of_lsb_drop n l : of_lsb l .>> Z.of_nat n = of_lsb (drop n l).
Proof.
  apply Z.bits_inj'. intros i Hi. rewrite Z.shiftr_spec, !testbit_of_lsb by lia.
  rewrite !nth_lookup, lookup_drop. f_equal. f_equal. lia.
Qed.

(** The low bits are the first ones. *)
Lemma of_lsb_low n l : (n <= length l)%nat -> of_lsb l .& Z.ones (Z.of_nat n) = of_lsb (take n l).
Proof.
  intros Hn. apply Z.bits_inj'. intros i Hi. bit_specs. rewrite !testbit_of_lsb by lia.
  rewrite (proj2 (Z.leb_le _ _)) by lia. cbn [andb]. rewrite !nth_lookup.
  destruct (Z.ltb_spec i (Z.of_nat n)).
  - rewrite lookup_take_lt by lia. apply andb_true_r.
  - rewrite lookup_take_ge by lia. apply andb_false_r.
Qed.

Lemma of_word te : code_ok te = true -> of_lsb (word_of te) = code te /\ zlen (word_of te) = code_length te.
Proof.
  unfold code_ok, word_of. rewrite !andb_true_iff, !Z.leb_le, Z.ltb_lt. intros [[[H1 H2] H3] H4].
  rewrite of_lsb_bits, length_lsb_bits, Z2Nat.id by lia. split; [by apply wrap_id|done].
Qed.

(** ** Tables *)

Definition entry_eqb (e : t4_table_entry_t) (s : t4_decode_state) (w p : Z) : bool :=
  bool_decide (state e = s) && (width e =? w) && (param e =? p).

Lemma entry_eqb_eq e s w p : entry_eqb e s w p = true -> e = E s w p.
Proof.
  unfold entry_eqb. rewrite !andb_true_iff, bool_decide_eq_true, !Z.eqb_eq. destruct e. cbn. by intros [[-> ->] ->].
Qed.

(** What the table of the decoder has for a code word of the encoder. *)
Definition table_ok (bits : nat) (table : list t4_table_entry_t)
    (expected : list (t4_run_table_entry_t * t4_decode_state * Z)) : bool :=
  forallb (fun '(i, e) =>
    forallb (fun '(te, s, p) =>
      negb (i .& Z.ones (code_length te) =? code te) || entry_eqb e s (code_length te) p) expected)
    (combine (map Z.of_nat (seq 0 (2 ^ bits))) table).

Lemma table_lookup bits table expected te s p rest :
  table_ok bits table expected = true -> length table = (2 ^ bits)%nat -> code_ok te = true ->
  In (te, s, p) expected -> code_length te <= Z.of_nat bits -> (bits <= length (word_of te ++ rest))%nat ->
  at_index table (of_lsb (word_of te ++ rest) .& Z.ones (Z.of_nat bits)) = Some (E s (code_length te) p).
Proof.
  intros Hok Hl Hte Hin Hbits Hlen. destruct (of_word te Hte) as [Ew Elen].
  set (i := of_lsb _ .& _).
  assert (0 <= i < Z.of_nat (2 ^ bits)) as Hi.
  { subst i. rewrite Z.land_ones by lia. rewrite Nat2Z.inj_pow. change (Z.of_nat 2) with 2. apply Z.mod_pos_bound, Z.pow_pos_nonneg; lia. }
  rewrite (at_nth _ _ (E S_Null 0 0)) by lia. f_equal. apply entry_eqb_eq.
  unfold table_ok in Hok. rewrite forallb_forall in Hok.
  specialize (Hok (i, nth (Z.to_nat i) table (E S_Null 0 0))). cbv beta iota in Hok.
  assert (In (i, nth (Z.to_nat i) table (E S_Null 0 0)) (combine (map Z.of_nat (seq 0 (2 ^ bits))) table)) as Hc.
  { replace (i, nth (Z.to_nat i) table (E S_Null 0 0))
      with (nth (Z.to_nat i) (combine (map Z.of_nat (seq 0 (2 ^ bits))) table) (Z.of_nat 0, E S_Null 0 0)).
    - apply nth_In. rewrite length_combine, length_map, length_seq. lia.
    - rewrite combine_nth by (rewrite length_map, length_seq; done). f_equal.
      rewrite map_nth, seq_nth by lia. lia. }
  specialize (Hok Hc). rewrite forallb_forall in Hok. specialize (Hok _ Hin). cbv beta iota in Hok.
  apply orb_prop in Hok as [Hok|Hok]; [exfalso|exact Hok]. apply negb_true_iff, Z.eqb_neq in Hok. apply Hok.
  subst i. rewrite <- Z.land_assoc, !Z.land_ones, <- Z.land_ones by lia.
  assert (0 <= code_length te) by lia.
  replace (Z.ones (Z.of_nat bits) .& Z.ones (code_length te)) with (Z.ones (code_length te)).
  - rewrite <- Elen, of_lsb_low by (rewrite length_app; lia). by rewrite take_app_length.
  - symmetry. apply Z.bits_inj'. intros k Hk. bit_specs. destruct (Z.ltb_spec k (code_length te)); [|by rewrite !andb_false_r].
    rewrite (proj2 (Z.ltb_lt _ _)) by lia. by rewrite !andb_true_r, andb_diag.
Qed.

(** The runs of a colour: terminating codes up to 63, make-up codes of the colour
    up to 1728, and common ones. *)
Definition run_state (black : bool) (n : Z) : t4_decode_state :=
  if n <? 64 then (if black then S_TermB else S_TermW)
  else if n <=? 1728 then (if black then S_MakeUpB else S_MakeUpW) else S_MakeUp.

Definition expected_runs (black : bool) : list (t4_run_table_entry_t * t4_decode_state * Z) :=
  map (fun te => (te, run_state black (code_run_length te), code_run_length te)) (run_codes black).

Definition run_table (black : bool) : list t4_table_entry_t := if black then t4_1d_black_table else t4_1d_white_table.
Definition run_bits (black : bool) : nat := if black then 13 else 12.

Lemma run_table_ok black : table_ok (run_bits black) (run_table black) (expected_runs black) = true.
Proof. destruct black; vm_compute; reflexivity. Qed.

Lemma length_run_table black : length (run_table black) = (2 ^ run_bits black)%nat.
Proof. destruct black; vm_compute; reflexivity. Qed.

Lemma run_codes_short black : forallb (fun te => code_length te <=? Z.of_nat (run_bits black)) (run_codes black) = true.
Proof. destruct black; vm_compute; reflexivity. Qed.

(** The runs that have a code word of their own. *)
Definition piece_ok (n : Z) : Prop := 0 <= n < 64 \/ (64 <= n <= 2560 /\ n mod 64 = 0).

Lemma entry_of_in black n : piece_ok n ->
  In (entry_of black n) (run_codes black) /\ code_run_length (entry_of black n) = n.
Proof.
  intros Hn. destruct (run_codes_ok black) as [_ Hl]. unfold entry_of.
  pose proof (Z.div_mod n 64 ltac:(lia)). destruct Hn as [Hn|[Hn Hm]].
  - rewrite (proj2 (Z.ltb_lt n 64)) by lia. split; [apply nth_In; lia|].
    rewrite code_run_length_at by lia. by rewrite (proj2 (Z.ltb_lt n 64)) by lia.
  - rewrite (proj2 (Z.ltb_ge n 64)) by lia. split; [apply nth_In; lia|].
    rewrite code_run_length_at by lia. rewrite (proj2 (Z.ltb_ge _ _)) by lia. lia.
Qed.

Lemma run_lookup black n rest : piece_ok n ->
  (run_bits black <= length (word_of (entry_of black n) ++ rest))%nat ->
  at_index (run_table black) (of_lsb (word_of (entry_of black n) ++ rest) .& Z.ones (Z.of_nat (run_bits black))) =
    Some (E (run_state black n) (code_length (entry_of black n)) n).
Proof.
  intros Hn Hl. destruct (entry_of_in black n Hn) as [Hin Hrun]. destruct (run_codes_ok black) as [Hok _].
  pose proof (run_codes_short black) as Hs. rewrite forallb_forall in Hok, Hs.
  apply (table_lookup _ _ (expected_runs black)); [apply run_table_ok|apply length_run_table|by apply Hok| |by apply Z.leb_le, Hs|done].
  unfold expected_runs. apply in_map_iff. exists (entry_of black n). by rewrite Hrun.
Qed.

(** The modes. *)
Definition expected_modes : list (t4_run_table_entry_t * t4_decode_state * Z) :=
  combine (combine codes [S_Vert; S_Vert; S_Vert; S_Vert; S_Vert; S_Vert; S_Vert; S_Horiz; S_Pass])
    [3; 2; 1; 0; -1; -2; -3; 0; 0].

Lemma mode_table_ok : table_ok 7 t4_2d_table expected_modes = true.
Proof. vm_compute. reflexivity. Qed.

Lemma mode_lookup i rest : 0 <= i < 9 -> (7 <= length (mode_word i ++ rest))%nat ->
  at_index t4_2d_table (of_lsb (mode_word i ++ rest) .& 0x7F) =
    Some (E (if i <? 7 then S_Vert else if i =? 7 then S_Horiz else S_Pass) (zlen (mode_word i)) (if i <? 7 then 3 - i else 0)).
Proof.
  intros Hi Hl. unfold mode_word in *. set (te := nth (Z.to_nat i) codes (C 0 0 0)) in *.
  set (s := if _ <? _ then _ else _). set (p := if _ <? _ then _ else _).
  assert (code_ok te = true /\ code_length te <= 7 /\ In (te, s, p) expected_modes) as (Hok & Hshort & Hin).
  { subst te s p. clear Hl. small_cases 9%nat i;
      (split; [vm_compute; reflexivity|split; [vm_compute; discriminate|vm_compute; tauto]]). }
  destruct (of_word te Hok) as [_ ->]. change 0x7F with (Z.ones (Z.of_nat 7)).
  apply (table_lookup 7 _ expected_modes); [apply mode_table_ok|reflexivity|done|done|done|done].
Qed.

(** ** No EOL in a row *)

(** An EOL is eleven zeros and a one. *)
Definition at_eol (l : list bool) : bool := of_lsb l .& 0x0FFF =? 0x0800.

Lemma at_eol_nth l : at_eol l = true -> (forall k, (k < 11)%nat -> nth k l false = false) /\ nth 11 l false = true.
Proof.
  unfold at_eol. rewrite Z.eqb_eq. intros H.
  assert (forall k, (k < 12)%nat -> nth k l false = Z.testbit 0x800 (Z.of_nat k)) as Hk.
  { intros k Hk. rewrite <- H, Z.land_spec, testbit_of_lsb by lia. rewrite Nat2Z.id.
    change 0xFFF with (Z.ones 12). rewrite Z.ones_spec_low by lia. by rewrite andb_true_r. }
  split; [|by rewrite Hk by lia]. intros k Hk'. rewrite Hk by lia. change 0x800 with (2 ^ 11).
  apply Z.pow2_bits_false. lia.
Qed.

Lemma at_eol_eol rest : at_eol (eol ++ rest) = true.
Proof.
  unfold at_eol, eol. change 0xFFF with (Z.ones (Z.of_nat 12)).
  rewrite of_lsb_low by (rewrite !length_app, repeat_length; cbn [length]; lia). reflexivity.
Qed.

(** A code word begins with at most seven zeros, and from any of its bits on there
    is a one within eleven bits, or at most three zeros up to its end. *)
Definition first_one (l : list bool) (n : nat) : bool := existsb id (take n l).
Definition good (l : list bool) : bool :=
  first_one l 8 && forallb (fun j => first_one (drop j l) 11 || ((length l - j <=? 3)%nat && negb (existsb id (drop j l)))) (seq 0 (length l)).

(** What may follow a code word: another one, or zeros. *)
Definition opening (l : list bool) : Prop :=
  (exists k, (k <= 7)%nat /\ nth k l false = true) \/ (forall k, (k < 11)%nat -> nth k l false = false).

Lemma first_one_spec l n : first_one l n = true <-> exists k, (k < n)%nat /\ nth k l false = true.
Proof.
  unfold first_one. rewrite existsb_exists. split.
  - intros (x & Hx & E). cbn in E. subst x. apply (In_nth _ _ false) in Hx as (k & Hk & E).
    rewrite length_take in Hk. exists k. split; [lia|]. rewrite nth_lookup in E |- *. by rewrite lookup_take_lt in E by lia.
  - intros (k & Hk & E). exists true. split; [|done]. rewrite <- E.
    assert (k < length l)%nat by (destruct (decide (k < length l)%nat); [done|rewrite nth_overflow in E by lia; done]).
    replace (nth k l false) with (nth k (take n l) false) by (rewrite !nth_lookup, lookup_take_lt by lia; done).
    apply nth_In. rewrite length_take. lia.
Qed.

Lemma good_opening w rest : good w = true -> opening (w ++ rest).
Proof.
  unfold good. intros [H _]%andb_prop. left. apply first_one_spec in H as (k & Hk & E). exists k. split; [lia|].
  assert (k < length w)%nat by (destruct (decide (k < length w)%nat); [done|rewrite nth_overflow in E by lia; done]).
  by rewrite app_nth1.
Qed.

Lemma words_opening ws rest : Forall (fun w => good w = true) ws -> opening rest -> opening (concat ws ++ rest).
Proof. intros H Hr. destruct H as [|w ws Hw _]; [done|]. cbn [concat]. rewrite <- app_assoc. by apply good_opening. Qed.

Lemma no_eol_in_word w rest j : good w = true -> opening rest -> (j < length w)%nat -> at_eol (drop j w ++ rest) = false.
Proof.
  intros Hg Hr Hj. destruct (at_eol (drop j w ++ rest)) eqn:E; [exfalso|done]. apply at_eol_nth in E as [E0 E1].
  unfold good in Hg. apply andb_prop in Hg as [_ Hg]. rewrite forallb_forall in Hg.
  specialize (Hg j). rewrite in_seq in Hg. specialize (Hg ltac:(lia)). apply orb_prop in Hg as [Hg|Hg].
  - apply first_one_spec in Hg as (k & Hk & Ek).
    assert (k < length (drop j w))%nat by (destruct (decide (k < length (drop j w))%nat); [done|rewrite nth_overflow in Ek by lia; done]).
    specialize (E0 k Hk). rewrite app_nth1 in E0 by done. congruence.
  - apply andb_prop in Hg as [Hs _]. apply Nat.leb_le in Hs.
    assert (length (drop j w) <= 3 /\ 1 <= length (drop j w))%nat as Hd by (rewrite length_drop; lia).
    rewrite app_nth2 in E1 by lia. destruct Hr as [(k & Hk & Ek)|Hr].
    + specialize (E0 (length (drop j w) + k)%nat ltac:(lia)). rewrite app_nth2_plus in E0. congruence.
    + rewrite Hr in E1 by lia. done.
Qed.

Lemma run_words_good black n : piece_ok n -> good (word_of (entry_of black n)) = true.
Proof.
  intros Hn. destruct (entry_of_in black n Hn) as [Hin _].
  assert (forallb (fun te => good (word_of te)) (run_codes black) = true) as H by (destruct black; vm_compute; reflexivity).
  rewrite forallb_forall in H. by apply H.
Qed.

Lemma mode_word_good i : 0 <= i < 9 -> good (mode_word i) = true.
Proof.
  intros Hi. small_cases 9%nat i; vm_compute; reflexivity.
Qed.
