(* ===== verification/T4Line.v ===== *)
(** * The decoder on a line of bits (src/spandsp-0.0.6/src/t4_rx.c, [rx_put_bits])

    The decoder takes a step when it has thirteen bits, and only looks at those;
    how the bits come in, by ones or in octets, makes no difference to where it
    gets. *)
From S2P Require Import Prelude T4Tables T4Base T4Rx T4Spec T4Out T4Words.

(** ** Steps *)

(** The state after the first EOL of a page. *)
Definition begin_image (bits : Z) (d : t4_dec_t) : t4_dec_t :=
  let d := d <| consecutive_eols := 0 |> in
  if line_encoding d =? T4_COMPRESSION_ITU_T4_1D then force_drop (d <| row_is_2d := false |>) 12
  else force_drop (d <| row_is_2d := (bits .& 0x1000 =? 0) |>) 13.

Definition begin_width (d : t4_dec_t) : Z := if line_encoding d =? T4_COMPRESSION_ITU_T4_1D then 12 else 13.

(** A step, also while the first EOL has not come. *)
Definition any_scan (bits : Z) (d : t4_dec_t) : option (t4_dec_t * option Z) :=
  if consecutive_eols d <? 0 then
    Some (if bits .& 0xFFF =? 0x800 then (begin_image bits d, Some (begin_width d)) else (d, Some 1))
  else scan bits d.

(** From [d] with the bits [l], to the end of the page or until there are too few
    bits. *)
Inductive runs : t4_dec_t -> list bool -> bool -> t4_dec_t -> list bool -> Prop :=
  | runs_short d l : (length l < 13)%nat -> runs d l false d l
  | runs_end d l d' : (13 <= length l)%nat -> any_scan (of_lsb l) d = Some (d', None) -> runs d l true d' l
  | runs_step d l d1 n b d' l' : (13 <= length l)%nat -> any_scan (of_lsb l) d = Some (d1, Some n) ->
      runs d1 (drop (Z.to_nat n) l) b d' l' -> runs d l b d' l'.

Lemma any_scan_drops bits d d' n : any_scan bits d = Some (d', Some n) -> 1 <= n <= 13.
Proof.
  unfold any_scan, scan, scan_eol, begin_width. destruct (consecutive_eols d <? 0).
  { destruct (_ =? _); intros [= <- <-]; [destruct (_ =? _); lia|lia]. }
  destruct (_ =? _).
  - destruct (if row_len d =? 0 then _ else _) as [[d1 b]|]; [|done]. cbn [mbind option_bind].
    destruct b; [done|]. intros [= <- <-]. unfold eol_width. destruct (_ =? _); lia.
  - destruct (negb _); [intros [= <- <-]; lia|]. destruct (scan_code bits d); [|done]. intros [= <- <-]. lia.
Qed.

(** A step looks at thirteen bits. *)
Lemma any_scan_local l m d : (13 <= length l)%nat -> any_scan (of_lsb (l ++ m)) d = any_scan (of_lsb l) d.
Proof.
  intros Hl. assert (forall mask, 0 <= mask < 2 ^ 13 -> of_lsb (l ++ m) .& mask = of_lsb l .& mask) as Hm.
  { intros mask Hmask. apply Z.bits_inj'. intros i Hi. rewrite !Z.land_spec.
    destruct (Z_lt_le_dec i 13) as [H|H]; [|by rewrite (testbit_high 13 mask), !andb_false_r].
    f_equal. rewrite !testbit_of_lsb by lia. by rewrite app_nth1 by lia. }
  unfold any_scan, scan, scan_eol, scan_code, scan_mode, scan_run, begin_image. by rewrite !Hm by lia.
Qed.

Lemma runs_split d l m b d' l' : runs d (l ++ m) b d' l' ->
  (exists l1, b = true /\ runs d l true d' l1) \/ (exists d1 l1, runs d l false d1 l1 /\ runs d1 (l1 ++ m) b d' l').
Proof.
  intros H. remember (l ++ m) as x eqn:Ex. revert l Ex.
  induction H as [d x Hx|d x d' Hx E|d x d1 n b d' l' Hx E H IH]; intros l ->.
  - right. exists d, l. rewrite length_app in Hx. split; constructor; rewrite ?length_app; lia.
  - destruct (decide (length l < 13)%nat).
    + right. exists d, l. split; [by constructor|by constructor].
    + left. exists l. split; [done|]. apply runs_end; [lia|]. by rewrite any_scan_local in E by lia.
  - destruct (decide (length l < 13)%nat).
    + right. exists d, l. split; [by constructor|by eapply runs_step].
    + pose proof (any_scan_drops _ _ _ _ E) as Hn. rewrite any_scan_local in E by lia.
      destruct (IH (drop (Z.to_nat n) l)) as [(l1 & -> & H1)|(d2 & l1 & H1 & H2)]; [by rewrite drop_app_le by lia| |].
      * left. exists l1. split; [done|]. eapply runs_step; [lia|done|done].
      * right. exists d2, l1. split; [|done]. eapply runs_step; [lia|done|done].
Qed.

(** ** The buffer of bits *)

Definition holds (s : t4_rx_state_t) (l : list bool) : Prop := rx_bits s = zlen l /\ rx_bitstream s = of_lsb l.

Lemma drop_rx_holds s l n : holds s l -> 0 <= n <= zlen l -> holds (drop_rx n s) (drop (Z.to_nat n) l).
Proof.
  intros [E1 E2] Hn. split; cbn.
  - rewrite length_drop. lia.
  - rewrite E2. rewrite <- of_lsb_drop. by rewrite Z2Nat.id by lia.
Qed.

Lemma scan_not_first bits d d' r : scan bits d = Some (d', r) -> 0 <= consecutive_eols d -> any_scan bits d = Some (d', r).
Proof. intros E Hc. unfold any_scan. by rewrite (proj2 (Z.ltb_ge _ _)). Qed.

(** ** The count of EOLs is kept by all but EOLs *)

Ltac step_keeps :=
  repeat match goal with
  | H : (match ?x with Some _ => _ | None => _ end) = Some _ |- _ => let E := fresh "E" in destruct x eqn:E; [|discriminate H]
  | H : (if ?x then _ else _) = Some _ |- _ => let E := fresh "E" in destruct x eqn:E
  | H : Some _ = Some _ |- _ => injection H as H; subst
  | H : None = Some _ |- _ => discriminate H
  end.

Lemma add_run_keeps d d' : add_run_to_row d = Some d' -> consecutive_eols d' = consecutive_eols d.
Proof. unfold add_run_to_row, mbind, option_bind. intros H. step_keeps; reflexivity. Qed.

Lemma pad_runs_keeps d d' : pad_runs d = Some d' -> consecutive_eols d' = consecutive_eols d.
Proof. unfold pad_runs, mbind, option_bind. cbv zeta. intros H. step_keeps; reflexivity. Qed.

Lemma put_row_keeps d d' : put_decoded_row d = Some d' -> consecutive_eols d' = consecutive_eols d.
Proof.
  unfold put_decoded_row, put_good_row, put_bad_row, mbind, option_bind. cbv zeta. intros H. step_keeps;
    repeat match goal with
    | E : add_run_to_row _ = Some _ |- _ => apply add_run_keeps in E
    | E : pad_runs _ = Some _ |- _ => apply pad_runs_keeps in E
    end; cbn in *; congruence.
Qed.

Lemma past_a0_keeps fuel d d' : past_a0 fuel d = Some d' -> consecutive_eols d' = consecutive_eols d.
Proof.
  revert d. induction fuel as [|fuel IH]; intros d; cbn [past_a0]; unfold mbind, option_bind; intros H; step_keeps; try done.
  by apply IH in H.
Qed.

Lemma start_row_keeps d : consecutive_eols (start_row d) = consecutive_eols d.
Proof. reflexivity. Qed.

Lemma scan_end_keeps d d' : scan_end d = Some d' -> consecutive_eols d' = consecutive_eols d.
Proof.
  unfold scan_end. set (d1 := if image_width d <=? a0 d then _ else _).
  assert (consecutive_eols d1 = consecutive_eols d) as <- by (subst d1; by destruct (_ <=? _)). clearbody d1.
  unfold mbind, option_bind. intros H. step_keeps; try done; rewrite start_row_keeps;
    repeat match goal with
    | E : add_run_to_row _ = Some _ |- _ => apply add_run_keeps in E
    | E : put_decoded_row _ = Some _ |- _ => apply put_row_keeps in E
    end.
  all: match goal with E : consecutive_eols ?x = _ |- consecutive_eols ?x = _ => rewrite E end.
  all: unfold update_row_bit_info; repeat case_match; cbn in *; congruence.
Qed.

Lemma scan_mode_keeps bits d d' w : scan_mode bits d = Some (d', w) -> consecutive_eols d' = consecutive_eols d.
Proof.
  unfold scan_mode, mbind, option_bind. intros H. destruct (at_index _ _) as [te|]; [|done].
  destruct (if a_cursor d =? 0 then Some d else _) as [d1|] eqn:E1; [|done].
  assert (consecutive_eols d1 = consecutive_eols d) as <-
    by (destruct (a_cursor d =? 0); [by injection E1 as ->|by apply past_a0_keeps in E1]).
  destruct (state te); unfold vertical_mode, pass_mode, mbind, option_bind in H; cbv zeta in H; step_keeps; try reflexivity;
    match goal with E : add_run_to_row _ = Some _ |- _ => apply add_run_keeps in E end; cbn in *; congruence.
Qed.

Lemma scan_run_keeps bits d d' w : scan_run bits d = Some (d', w) -> consecutive_eols d' = consecutive_eols d.
Proof.
  unfold scan_run, mbind, option_bind. cbv zeta. intros H.
  destruct (if its_black d then _ else _) as [te|]; [|done].
  destruct (state te), (its_black d); unfold terminate, mbind, option_bind in H; cbv zeta in H; step_keeps; try reflexivity;
    try (match goal with E : add_run_to_row _ = Some _ |- _ => apply add_run_keeps in E end);
    destruct (_ =? 0); cbn in *; congruence.
Qed.

(** A step keeps the count, clears it, or counts an EOL. *)
Lemma scan_eols bits d d' r : scan bits d = Some (d', r) ->
  match r with
  | Some _ => consecutive_eols d' = consecutive_eols d \/ consecutive_eols d' = 0 \/
      (consecutive_eols d' = consecutive_eols d + 1 /\ consecutive_eols d' < 6)
  | None => consecutive_eols d' = 6
  end.
Proof.
  unfold scan. intros H. destruct (_ =? _).
  - unfold scan_eol, end_row_at_eol, count_eol, mbind, option_bind in H. cbv zeta in H.
    destruct (row_len d =? 0).
    + match type of H with context [?a <=? ?b] => set (enough := a) in H;
        assert (enough <= 5) as He by (subst enough; destruct (_ =? _); done) end.
      destruct (Z.leb_spec enough (consecutive_eols (d <| consecutive_eols := consecutive_eols d + 1 |>))) as [|Hlt];
        injection H as <- <-; [done|]. right. right. cbn in Hlt.
      destruct (_ =? T4_COMPRESSION_ITU_T4_2D); cbn; lia.
    + destruct (if 0 <? run_length d then _ else _) as [d1|] eqn:E1; [|done].
      destruct (put_decoded_row _) as [d2|] eqn:E2; [|done]. apply put_row_keeps in E2. injection H as <- <-.
      right. left. change (consecutive_eols (d1 <| consecutive_eols := 0 |>)) with 0 in E2.
      rewrite start_row_keeps. transitivity (consecutive_eols (update_row_bit_info d2)).
      * by destruct (_ =? T4_COMPRESSION_ITU_T4_2D).
      * rewrite <- E2. unfold update_row_bit_info. cbv zeta. repeat case_match; reflexivity.
  - destruct (negb _); [injection H as <- <-; by left|].
    destruct (scan_code bits d) as [d1|] eqn:E; [|done]. injection H as <- <-. left.
    unfold scan_code, mbind, option_bind in E. destruct (_ && _); [destruct (_ <=? _)|].
    + step_keeps. done.
    + destruct (scan_mode bits d) as [[d2 w]|] eqn:E2; [|done]. apply scan_end_keeps in E. apply scan_mode_keeps in E2.
      cbn in E. congruence.
    + destruct (scan_run bits d) as [[d2 w]|] eqn:E2; [|done]. apply scan_end_keeps in E. apply scan_run_keeps in E2.
      cbn in E. congruence.
Qed.

Lemma scan_keeps bits d d' r : scan bits d = Some (d', r) -> 0 <= consecutive_eols d -> 0 <= consecutive_eols d'.
Proof. intros H Hc. apply scan_eols in H. destruct r; lia. Qed.

Lemma runs_eols d l d' l' : runs d l false d' l' -> consecutive_eols d < 6 -> consecutive_eols d' < 6.
Proof.
  intros H. remember false as b eqn:Eb. revert Eb. induction H as [| |d l d1 n b d' l' Hl E H IH]; intros Eb Hc; [done|done|].
  apply IH; [done|]. unfold any_scan in E. destruct (Z.ltb_spec (consecutive_eols d) 0).
  - destruct (_ =? _); injection E as <- _; [|done]. unfold begin_image. destruct (_ =? _); cbn; lia.
  - apply scan_eols in E. lia.
Qed.

(** ** Putting bits *)

(** The members that no step changes. *)
Definition same_context (s s' : t4_rx_state_t) : Prop :=
  current_page s' = current_page s /\ tiff_file s' = tiff_file s /\ line_image_size s' = line_image_size s.

Lemma scan_all_runs d l b d' l' : runs d l b d' l' -> forall fuel s, dec s = d -> holds s l ->
  0 <= consecutive_eols d -> (length l <= fuel)%nat ->
  exists s', scan_all fuel s = Some (b, s') /\ holds s' l' /\ dec s' = d' /\ same_context s s'.
Proof.
  induction 1 as [d l Hl|d l d' Hl E|d l d1 n b d' l' Hl E H IH]; intros fuel s Hd Hs Hc Hf; pose proof Hs as [E1 E2].
  - exists s. split; [|done]. destruct fuel; cbn [scan_all]; by rewrite (proj2 (Z.ltb_lt _ _)) by lia.
  - destruct fuel as [|fuel]; [lia|]. cbn [scan_all]. rewrite (proj2 (Z.ltb_ge _ _)) by lia.
    unfold any_scan in E. rewrite (proj2 (Z.ltb_ge _ _)) in E by done. rewrite E2, Hd, E. cbn [mbind option_bind].
    eexists. split; [done|]. split; [|done]. by split; cbn.
  - destruct fuel as [|fuel]; [lia|]. cbn [scan_all]. rewrite (proj2 (Z.ltb_ge _ _)) by lia.
    pose proof (any_scan_drops _ _ _ _ E) as Hn.
    unfold any_scan in E. rewrite (proj2 (Z.ltb_ge _ _)) in E by done. rewrite E2, Hd, E. cbn [mbind option_bind].
    destruct (IH fuel (drop_rx n (s <| dec := d1 |>))) as (s' & E' & Hs' & Hd' & Hx); [done| | | |].
    + apply drop_rx_holds; [by split|lia].
    + by eapply scan_keeps.
    + rewrite length_drop. lia.
    + by exists s'.
Qed.

(** Until the first EOL the state does not change. *)
Lemma find_first_eol_runs d l b d' l' : runs d l b d' l' -> consecutive_eols d < 0 -> (13 <= length l)%nat ->
  forall fuel, (length l <= fuel)%nat ->
  (exists l1, find_first_eol fuel (of_lsb l) (zlen l) = Some (of_lsb l1, zlen l1, true) /\ (13 <= length l1 <= length l)%nat /\
     runs (begin_image (of_lsb l1) d) (drop (Z.to_nat (begin_width d)) l1) b d' l') \/
  (find_first_eol fuel (of_lsb l) (zlen l) = Some (of_lsb l', zlen l', false) /\ b = false /\ d' = d).
Proof.
  intros H. induction H as [d l Hl|d l d' Hl E|d l d1 n b d' l' Hl E H IH]; intros Hc Hl' fuel Hf; [lia| |].
  { unfold any_scan in E. rewrite (proj2 (Z.ltb_lt _ _)) in E by done. by destruct (_ =? _). }
  unfold any_scan in E. rewrite (proj2 (Z.ltb_lt _ _)) in E by done.
  assert (forall f, find_first_eol f (of_lsb l) (zlen l) =
    if of_lsb l .& 0xFFF =? 0x800 then Some (of_lsb l, zlen l, true)
    else if zlen (drop 1 l) <? 13 then Some (of_lsb (drop 1 l), zlen (drop 1 l), false)
    else match f with O => None | S f => find_first_eol f (of_lsb (drop 1 l)) (zlen (drop 1 l)) end) as Ef.
  { intros f. change 1%nat with (Z.to_nat 1). rewrite <- of_lsb_drop. rewrite length_drop.
    replace (Z.of_nat (length l - Z.to_nat 1)) with (zlen l - 1) by lia. by destruct f. }
  destruct (of_lsb l .& 0xFFF =? 0x800) eqn:Eeol.
  - injection E as <- <-. left. exists l. rewrite Ef. split_and!; [done|lia|lia|done].
  - injection E as <- <-. rewrite Ef. change (Z.to_nat 1) with 1%nat in *.
    destruct (Z.ltb_spec (zlen (drop 1 l)) 13) as [Hs|Hs].
    + right. inversion H; subst; [done|lia|lia].
    + destruct fuel as [|fuel]; [lia|].
      destruct (IH Hc ltac:(lia) fuel ltac:(rewrite length_drop; lia)) as [(l1 & E1 & Hl1 & H1)|H1].
      * left. exists l1. split_and!; [done|lia|rewrite length_drop in Hl1; lia|done].
      * by right.
Qed.

(** Bits behind those in the buffer. *)
Lemma put_bits_runs s l bits b d' l' : holds s l -> zlen l + zlen bits <= 32 -> consecutive_eols (dec s) < 6 ->
  runs (dec s) (l ++ bits) b d' l' ->
  exists s', rx_put_bits s (of_lsb bits) (zlen bits) = Some (b, s') /\ holds s' l' /\ dec s' = d' /\
    current_page s' = current_page s /\ tiff_file s' = tiff_file s.
Proof.
  intros [E1 E2] Hlen Hc H. unfold rx_put_bits.
  set (s1 := s <| line_image_size := line_image_size s + zlen bits |>
               <| rx_bitstream := rx_bitstream s .| u32 (of_lsb bits .<< rx_bits s) |>
               <| rx_bits := rx_bits s + zlen bits |>).
  assert (holds s1 (l ++ bits) /\ dec s1 = dec s /\ current_page s1 = current_page s /\ tiff_file s1 = tiff_file s)
    as ([F1 F2] & Hd & Hp & Ht).
  { split_and!; try done. split; cbn.
    - rewrite length_app. lia.
    - rewrite E1, E2, of_lsb_app. pose proof (of_lsb_range bits) as Hb. pose proof (of_lsb_range l).
      rewrite wrap_id.
      + rewrite lor_shiftl_add by lia. lia.
      + rewrite Z.shiftl_mul_pow2 by lia. assert (2 ^ zlen bits * 2 ^ zlen l <= 2 ^ 32) as Hp.
        { rewrite <- Z.pow_add_r by lia. apply Z.pow_le_mono_r; lia. }
        assert (0 < 2 ^ zlen l) by (apply Z.pow_pos_nonneg; lia). nia. }
  clearbody s1. cbv zeta. rewrite F1, F2, Hd. destruct (Z.ltb_spec (zlen (l ++ bits)) 13) as [Hs|Hs].
  { inversion H; subst; [|lia|lia]. exists s1. by split_and!. }
  change EOLS_TO_END_ANY_RX_PAGE with 6. rewrite (proj2 (Z.leb_gt _ _)) by lia.
  destruct (Z.ltb_spec (consecutive_eols (dec s)) 0) as [Hneg|Hpos].
  - destruct (find_first_eol_runs _ _ _ _ _ H Hneg ltac:(lia) (Z.to_nat (zlen (l ++ bits))) ltac:(lia))
      as [(l1 & -> & Hl1 & Hr)|(-> & -> & ->)]; cbn [mbind option_bind].
    + match goal with |- context [scan_all _ ?x] => set (s2 := x) end.
      destruct (scan_all_runs _ _ _ _ _ Hr (Z.to_nat (zlen (l ++ bits))) s2) as (s' & E & Hs' & Hd' & Hx & Hy & _).
      * subst s2. unfold first_eol, begin_image. cbn [dec update]. rewrite <- Hd. cbn.
        destruct (line_encoding (dec s1) =? T4_COMPRESSION_ITU_T4_1D); reflexivity.
      * subst s2. unfold first_eol, begin_width. rewrite <- Hd. cbn.
        destruct (line_encoding (dec s1) =? T4_COMPRESSION_ITU_T4_1D); cbn;
          match goal with |- holds (drop_rx ?n ?x) _ => apply (drop_rx_holds x l1 n); [by split|lia] end.
      * unfold begin_image. destruct (_ =? _); cbn; lia.
      * rewrite length_drop. lia.
      * exists s'. split_and!; [done|done|done| |]; subst s2; unfold first_eol in *; cbn in *;
          destruct (line_encoding (dec s1) =? T4_COMPRESSION_ITU_T4_1D); cbn in *; congruence.
    + eexists. split; [done|]. split_and!; [by split|exact Hd|done|done].
  - destruct (scan_all_runs _ _ _ _ _ H (Z.to_nat (zlen (l ++ bits))) s1 Hd ltac:(by split) Hpos ltac:(lia))
      as (s' & E & Hs' & Hd' & Hx & Hy & _). exists s'. split_and!; try done; congruence.
Qed.

(** Octets, as long as the page has not ended. *)
Lemma put_chunk_runs buf s l b d' l' : bytes buf -> holds s l -> (length l < 13)%nat -> consecutive_eols (dec s) < 6 ->
  runs (dec s) (l ++ line_bits buf) b d' l' ->
  exists s', t4_rx_put_chunk s buf = Some (b, s') /\ dec s' = d' /\ (b = false -> holds s' l') /\
    current_page s' = current_page s /\ tiff_file s' = tiff_file s.
Proof.
  intros Hb. revert s l. induction Hb as [|byte buf Hbyte Hb IH]; intros s l Hs Hl Hc H; cbn [t4_rx_put_chunk].
  - unfold line_bits in H. cbn [map concat] in H. rewrite app_nil_r in H. inversion H; subst; [|lia|lia].
    exists s. by split_and!.
  - change (line_bits (byte :: buf)) with (lsb_bits 8 byte ++ line_bits buf) in H. rewrite app_assoc in H.
    assert (byte .& 0xFF = of_lsb (lsb_bits 8 byte)) as ->.
    { rewrite of_lsb_byte by done. rewrite land_255. by apply wrap_id. }
    change 8 with (zlen (lsb_bits 8 byte)).
    assert (zlen l + zlen (lsb_bits 8 byte) <= 32) as Hlen by (rewrite length_lsb_bits; lia).
    destruct (runs_split _ _ _ _ _ _ H) as [(l1 & -> & H1)|(d1 & l1 & H1 & H2)].
    + destruct (put_bits_runs s l _ _ _ _ Hs Hlen Hc H1) as (s' & -> & Hs' & Hd' & Hp & Ht). cbn [mbind option_bind].
      exists s'. by split_and!.
    + destruct (put_bits_runs s l _ _ _ _ Hs Hlen Hc H1) as (s1 & -> & Hs1 & Hd1 & Hp & Ht). cbn [mbind option_bind].
      assert (length l1 < 13)%nat as Hl1 by (clear -H1; remember false as b; induction H1; [done|done|auto]).
      rewrite <- Hd1 in H2. destruct (IH s1 l1 Hs1 Hl1) as (s' & E & Hd' & Hs' & Hp' & Ht'); [|done|].
      * rewrite Hd1. by eapply runs_eols.
      * exists s'. split_and!; try done; congruence.
Qed.
