(* ===== verification/T4Pixels.v ===== *)
(** * From runs to pixels (src/spandsp-0.0.6/src/t4_rx.c, [put_decoded_row])

    The runs of a good row are painted into the image, octet by octet. *)
From S2P Require Import Prelude T4Tables T4Base T4Rx T4Spec T4Out T4Words T4Line.

#[local] Arguments pixels : simpl never.
#[local] Arguments msb_bits : simpl never.

(** The octet of one colour. *)
Definition ink (c : bool) : Z := if c then 0xFF else 0.

Lemma ink_flip c : ink c .^ 0xFF = ink (negb c).
Proof. by destruct c. Qed.

Lemma msbmask_at i : 0 <= i <= 8 -> at_index msbmask i = Some (Z.ones i).
Proof.
  intros Hi. by small_cases 9%nat i.
Qed.

Lemma testbit_ink c k : 0 <= k < 8 -> Z.testbit (ink c) k = c.
Proof.
  intros Hk. destruct c; [|apply Z.bits_0]. change (ink true) with (Z.ones 8). apply Z.ones_spec_low. lia.
Qed.

(** More pixels of one colour below others. *)
Lemma msb_join p i x c : (p + i <= 8)%nat ->
  msb_bits (p + i) (u32 (x .<< Z.of_nat i) .| (Z.ones (Z.of_nat i) .& ink c)) = msb_bits p x ++ repeat c i.
Proof.
  intros Hp. rewrite msb_bits_app. f_equal.
  - apply msb_bits_ext. intros k Hk. bit_specs. rewrite (proj2 (Z.ltb_lt (k + _) 32)) by lia.
    rewrite (proj2 (Z.leb_le _ _)) by lia. rewrite (proj2 (Z.ltb_ge _ _)) by lia. cbn [andb].
    rewrite andb_false_r. cbn [andb]. rewrite orb_false_r. f_equal. lia.
  - apply (nth_ext _ _ false false); [by rewrite length_msb_bits, repeat_length|].
    intros k Hk. rewrite length_msb_bits in Hk. rewrite nth_msb, nth_repeat_lt by done. bit_specs.
    rewrite (proj2 (Z.leb_gt _ _)) by lia. rewrite (proj2 (Z.leb_le 0 _)) by lia.
    rewrite (proj2 (Z.ltb_lt (_ - _ - _) (Z.of_nat i))) by lia. cbn [andb]. rewrite andb_false_r. cbn [orb].
    apply testbit_ink. lia.
Qed.

Lemma msb_ink c n : (n <= 8)%nat -> msb_bits n (ink c) = repeat c n.
Proof.
  intros Hn. apply (nth_ext _ _ false false); [by rewrite length_msb_bits, repeat_length|].
  intros k Hk. rewrite length_msb_bits in Hk. rewrite nth_msb, nth_repeat_lt by done. apply testbit_ink. lia.
Qed.

Lemma pixels_octet x : pixels [u8 x] = msb_bits 8 x.
Proof.
  unfold pixels. cbn [map concat]. rewrite app_nil_r. apply msb_bits_ext. intros i Hi. bit_specs.
  by rewrite (proj2 (Z.ltb_lt _ _)) by lia.
Qed.

(** ** The image while a row is painted *)

(** The image holds the pixels [l]. *)
Record paints (m : t4_image_t) (l : list bool) : Prop := {
  paints_bits : pixels (image_buffer m) ++ msb_bits (Z.to_nat (8 - tx_bits m)) (tx_bitstream m) = l;
  paints_bytes : bytes (image_buffer m);
  paints_free : 0 < tx_bits m <= 8;
}.

(** What painting leaves as it was. *)
Definition same_counts (m m' : t4_image_t) : Prop :=
  image_buffer_size m' = image_buffer_size m /\ image_length m' = image_length m /\
  last_row_starts_at m' = last_row_starts_at m /\ curr_bad_row_run m' = curr_bad_row_run m /\
  longest_bad_row_run m' = longest_bad_row_run m /\ bad_rows m' = bad_rows m.

Lemma fill_octets_spec fuel n c m : 0 <= n <= Z.of_nat fuel -> bytes (image_buffer m) ->
  zlen (image_buffer m) + n / 8 <= image_buffer_size m ->
  exists m', fill_octets fuel n (ink c) m = Some (n mod 8, m') /\ bytes (image_buffer m') /\
    zlen (image_buffer m') = zlen (image_buffer m) + n / 8 /\ same_counts m m' /\
    (if n <? 8 then m' = m
     else tx_bits m' = 8 /\ tx_bitstream m' = ink c /\
       pixels (image_buffer m') = pixels (image_buffer m) ++ msb_bits 8 (tx_bitstream m) ++ repeat c (Z.to_nat (8 * (n / 8) - 8))).
Proof.
  revert n m. induction fuel as [|fuel IH]; intros n m Hn Hb Hr; cbn [fill_octets].
  all: destruct (Z.ltb_spec n 8) as [Hs|Hs]; [|try lia].
  1, 2: exists m; rewrite Z.mod_small, Z.div_small by lia; split_and!; try done; lia.
  assert (n / 8 = (n - 8) / 8 + 1) as Ed by (replace n with (n - 8 + 1 * 8) at 1 by lia; by rewrite Z.div_add by lia).
  assert (n mod 8 = (n - 8) mod 8) as Em by (replace n with (n - 8 + 1 * 8) at 1 by lia; by rewrite Z_mod_plus_full).
  assert (0 <= (n - 8) / 8) as Hp by (apply Z.div_pos; lia).
  unfold put_octet. cbn [image_buffer_size image_buffer tx_bitstream update].
  change (image_buffer (m <| tx_bits := 8 |>)) with (image_buffer m).
  change (image_buffer_size (m <| tx_bits := 8 |>)) with (image_buffer_size m).
  rewrite (proj2 (Z.leb_gt _ _)) by lia. cbn [mbind option_bind].
  match goal with |- context [fill_octets fuel (n - 8) _ ?x] => set (m1 := x) end.
  assert (image_buffer m1 = image_buffer m ++ [u8 (tx_bitstream m)] /\ tx_bits m1 = 8 /\ tx_bitstream m1 = ink c /\
    same_counts m m1) as (E1 & E2 & E3 & E4) by done.
  clearbody m1. destruct (IH (n - 8) m1) as (m' & -> & Hb' & Hl' & Hc' & Hx); [lia| | |].
  { rewrite E1. apply Forall_app_2; [done|]. constructor; [apply is_byte_u8|constructor]. }
  { rewrite E1, length_app. cbn [length]. destruct E4 as [-> _]. lia. }
  rewrite E1, length_app in Hl'. cbn [length] in Hl'. exists m'. rewrite <- Em.
  assert (same_counts m m') as Hcc by (destruct E4 as (?&?&?&?&?&?), Hc' as (?&?&?&?&?&?); repeat split; congruence).
  assert (tx_bits m' = 8 /\ tx_bitstream m' = ink c /\
    pixels (image_buffer m') = pixels (image_buffer m) ++ msb_bits 8 (tx_bitstream m) ++ repeat c (Z.to_nat (8 * (n / 8) - 8))) as Hf.
  { destruct (Z.ltb_spec (n - 8) 8) as [Hs2|Hs2].
    - subst m'. assert (n / 8 = 1) as -> by (rewrite Ed, Z.div_small; lia). change (Z.to_nat (8 * 1 - 8)) with O. cbn [repeat].
      split_and!; [done|done|]. by rewrite E1, pixels_app, pixels_octet, app_nil_r.
    - destruct Hx as (Hx1 & Hx2 & Hx3). split_and!; [done|done|]. rewrite Hx3, E1, E3, pixels_app, pixels_octet, msb_ink by lia.
      rewrite <- !app_assoc. do 2 f_equal. change (repeat c 8) with (repeat c 8). rewrite <- repeat_app. f_equal.
      assert (1 <= (n - 8) / 8) by (apply Z.div_le_lower_bound; lia). lia. }
  destruct Hf as (? & ? & ?). split_and!; try done; lia.
Qed.

Lemma paints_length m l : paints m l -> zlen l = 8 * zlen (image_buffer m) + (8 - tx_bits m).
Proof. intros [<- _ H]. rewrite length_app, length_pixels, length_msb_bits. lia. Qed.

(** One run. *)
Lemma paint_run_spec i c m l : paints m l -> 0 <= i -> zlen l + i <= 8 * image_buffer_size m ->
  exists m', put_run i (ink c) m = Some m' /\ paints m' (l ++ repeat c (Z.to_nat i)) /\ same_counts m m'.
Proof.
  intros Hp Hi Hroom. pose proof (paints_length _ _ Hp) as Hlen. destruct Hp as [Hl Hb Hf]. unfold put_run.
  destruct (Z.leb_spec (tx_bits m) i) as [Hle|Hgt].
  - rewrite msbmask_at by lia. cbn [mbind option_bind]. set (n := i + (8 - tx_bits m)).
    match goal with |- context [fill_octets _ n _ ?x] => set (m1 := x) end.
    assert (image_buffer m1 = image_buffer m /\ same_counts m m1 /\
      tx_bitstream m1 = u32 (tx_bitstream m .<< tx_bits m) .| (Z.ones (tx_bits m) .& ink c)) as (E1 & Ec1 & E2) by done.
    clearbody m1. pose proof (Z.div_mod n 8 ltac:(lia)) as Hdm. pose proof (Z.mod_pos_bound n 8 ltac:(lia)).
    destruct (fill_octets_spec (Z.to_nat n) n c m1) as (m2 & -> & Hb2 & Hl2 & Hc2 & Hx); [lia|by rewrite E1| |].
    { rewrite E1. destruct Ec1 as [-> _]. lia. }
    rewrite (proj2 (Z.ltb_ge _ _)) in Hx by lia. destruct Hx as (Ht2 & Hs2 & Hx). cbn [mbind option_bind].
    rewrite msbmask_at by lia. cbn [mbind option_bind]. eexists. split; [done|]. split; [|destruct Ec1 as (?&?&?&?&?&?), Hc2 as (?&?&?&?&?&?); repeat split; cbn; congruence].
    split; cbn; [|done|lia]. rewrite Hx, E1, E2, <- Hl, Ht2, Hs2.
    replace (Z.to_nat (8 - (8 - n mod 8))) with (0 + Z.to_nat (n mod 8))%nat by lia.
    replace (ink c .<< (n mod 8)) with (ink c .<< Z.of_nat (Z.to_nat (n mod 8))) by (f_equal; lia).
    replace (Z.ones (n mod 8)) with (Z.ones (Z.of_nat (Z.to_nat (n mod 8)))) by (f_equal; lia).
    rewrite msb_join by lia. change (msb_bits 0 (ink c)) with (@nil bool). rewrite app_nil_l.
    replace 8%nat with (Z.to_nat (8 - tx_bits m) + Z.to_nat (tx_bits m))%nat at 1 by lia.
    replace (tx_bitstream m .<< tx_bits m) with (tx_bitstream m .<< Z.of_nat (Z.to_nat (tx_bits m))) by (f_equal; lia).
    replace (Z.ones (tx_bits m)) with (Z.ones (Z.of_nat (Z.to_nat (tx_bits m)))) by (f_equal; lia).
    rewrite msb_join by lia. rewrite <- !app_assoc. do 2 f_equal. rewrite <- !repeat_app. f_equal.
    assert (1 <= n / 8) by (apply Z.div_le_lower_bound; lia). lia.
  - cbn [mbind option_bind]. rewrite msbmask_at by lia. cbn [mbind option_bind].
    eexists. split; [done|]. split; [|by repeat split]. split; cbn; [|done|lia].
    rewrite <- Hl, <- app_assoc. f_equal.
    replace (Z.to_nat (8 - (tx_bits m - i))) with (Z.to_nat (8 - tx_bits m) + Z.to_nat i)%nat by lia.
    replace (tx_bitstream m .<< i) with (tx_bitstream m .<< Z.of_nat (Z.to_nat i)) by (f_equal; lia).
    replace (Z.ones i) with (Z.ones (Z.of_nat (Z.to_nat i))) by (f_equal; lia).
    apply msb_join. lia.
Qed.

Lemma paint_runs_spec runs c m l : paints m l -> Forall (fun r => 0 <= r) runs ->
  zlen l + zlen (paint c runs) <= 8 * image_buffer_size m ->
  exists m', put_runs runs (ink c) m = Some m' /\ paints m' (l ++ paint c runs) /\ same_counts m m'.
Proof.
  revert c m l. induction runs as [|r runs IH]; intros c m l Hp Hr Hroom; cbn [put_runs paint] in *.
  - exists m. rewrite app_nil_r. split_and!; [done|done|by repeat split].
  - apply Forall_cons_1 in Hr as [Hr0 Hr]. rewrite length_app, repeat_length in Hroom.
    destruct (paint_run_spec r c m l Hp Hr0 ltac:(lia)) as (m1 & -> & Hp1 & Hc1). cbn [mbind option_bind]. rewrite ink_flip.
    destruct (IH (negb c) m1 _ Hp1 Hr) as (m' & -> & Hp' & Hc').
    { rewrite length_app, repeat_length. destruct Hc1 as [-> _]. lia. }
    exists m'. rewrite app_assoc. split_and!; [done|done|].
    destruct Hc1 as (?&?&?&?&?&?), Hc' as (?&?&?&?&?&?); repeat split; congruence.
Qed.

(** ** The runs of a row are the row *)
Lemma paint_lengths c p l : paint c (lengths p (changes c p l ++ [p + zlen l])) = l.
Proof.
  assert (forall q, q <= p -> paint c (lengths q (changes c p l ++ [p + zlen l])) = repeat c (Z.to_nat (p - q)) ++ l) as H.
  { revert c p. induction l as [|b l IH]; intros c p q Hq; cbn [changes].
    - cbn [app lengths paint length]. rewrite Z.add_0_r, !app_nil_r. done.
    - cbn [length]. replace (p + Z.of_nat (S (length l))) with (p + 1 + zlen l) by lia.
      destruct (eqb b c) eqn:E.
      + apply eqb_prop in E as ->. rewrite IH by lia. replace (Z.to_nat (p + 1 - q)) with (Z.to_nat (p - q) + 1)%nat by lia.
        rewrite repeat_app, <- app_assoc. done.
      + cbn [app lengths paint]. f_equal. assert (negb c = b) as -> by by destruct b, c.
        rewrite IH by lia. replace (Z.to_nat (p + 1 - p)) with 1%nat by lia. done. }
  rewrite H by lia. by rewrite Z.sub_diag.
Qed.

Lemma paint_run_ends l : paint false (lengths 0 (run_ends l)) = l.
Proof. apply (paint_lengths false 0 l). Qed.

(** ** Reading a row *)

(** With the bits [l] the decoder gets from [d] to [d'], if [rest] follows. *)
Definition reads (rest : list bool) (d : t4_dec_t) (l : list bool) (d' : t4_dec_t) : Prop :=
  forall b df lf, runs d' rest b df lf -> runs d (l ++ rest) b df lf.

Lemma reads_nil rest d : reads rest d [] d.
Proof. by intros b df lf H. Qed.

Lemma reads_app rest d l d1 l' d' : reads (l' ++ rest) d l d1 -> reads rest d1 l' d' -> reads rest d (l ++ l') d'.
Proof. intros H H' b df lf Hr. rewrite <- app_assoc. apply H, H', Hr. Qed.

Lemma step_reads rest d l d' : 0 <= consecutive_eols d -> (13 <= length (l ++ rest))%nat ->
  scan (of_lsb (l ++ rest)) d = Some (d', Some (zlen l)) -> reads rest d l d'.
Proof.
  intros Hc Hl E b df lf H. eapply runs_step; [done|by apply scan_not_first|].
  by rewrite Nat2Z.id, drop_app_length.
Qed.

(** The bits of a code word behind the first one. *)
Lemma skip_reads rest l d : 0 <= consecutive_eols d -> (12 <= length rest)%nat -> rx_skip_bits d = zlen l ->
  (forall j, (j < length l)%nat -> at_eol (drop j l ++ rest) = false) -> reads rest d l (d <| rx_skip_bits := 0 |>).
Proof.
  revert d. induction l as [|x l IH]; intros d Hc Hr Hs He.
  - change (zlen (@nil bool)) with 0 in Hs. destruct d. cbn in Hs. subst. apply reads_nil.
  - apply (reads_app rest d [x] (d <| rx_skip_bits := rx_skip_bits d - 1 |>) l).
    + apply step_reads; [done|rewrite length_app; cbn [length]; rewrite length_app; lia|].
      specialize (He O ltac:(cbn [length]; lia)). unfold at_eol in He. unfold scan. rewrite drop_0 in He.
      cbn [app] in He |- *. rewrite He. rewrite (proj2 (Z.eqb_neq _ _)) by (cbn [length] in Hs; lia). done.
    + change (d <| rx_skip_bits := 0 |>) with (d <| rx_skip_bits := rx_skip_bits d - 1 |> <| rx_skip_bits := 0 |>).
      apply (IH (d <| rx_skip_bits := rx_skip_bits d - 1 |>)); [done|done|cbn [length] in Hs; cbn; lia|].
      intros j Hj. apply (He (S j)). cbn [length]. lia.
Qed.

(** A code word. *)
Lemma word_reads rest l d d' : 0 <= consecutive_eols d -> 0 <= consecutive_eols d' -> (12 <= length rest)%nat ->
  good l = true -> opening rest -> rx_skip_bits d = 0 -> scan_code (of_lsb (l ++ rest)) d = Some d' ->
  rx_skip_bits d' = zlen l - 1 -> reads rest d l (d' <| rx_skip_bits := 0 |>).
Proof.
  intros Hc Hc' Hr Hg Ho Hs E Hs'. pose proof (fun j => no_eol_in_word l rest j Hg Ho) as He.
  destruct l as [|x l]; [done|]. cbn [length] in Hs', He.
  apply (reads_app rest d [x] d' l).
  - apply step_reads; [done|rewrite length_app; cbn [length]; rewrite length_app; lia|].
    specialize (He O ltac:(lia)). unfold at_eol in He. rewrite drop_0 in He. unfold scan.
    cbn [app] in *. rewrite He, Hs. cbn [Z.eqb negb]. rewrite E. done.
  - apply skip_reads; [done|done|lia|]. intros j Hj. apply (He (S j)). lia.
Qed.

(** ** The row in part

    [before b k] is where run [k] begins if run [i] ends at [b i]. *)
Definition before (b : Z -> Z) (k : Z) : Z := if k <=? 0 then 0 else b (k - 1).

Lemma before_S b k : 0 <= k -> before b (k + 1) = b k.
Proof. intros H. unfold before. rewrite (proj2 (Z.leb_gt _ _)) by lia. f_equal. lia. Qed.

Lemma lengths_at p ends i : 0 <= i < zlen ends ->
  lengths p ends !! Z.to_nat i = Some (aget ends i - (if i =? 0 then p else aget ends (i - 1))).
Proof.
  revert p i. induction ends as [|e ends IH]; intros p i Hi; cbn [length] in Hi; [lia|]. cbn [lengths].
  destruct (Z.eqb_spec i 0) as [->|Hne]; [done|]. replace (Z.to_nat i) with (S (Z.to_nat (i - 1))) by lia. cbn [lookup].
  change (lengths e ends !! Z.to_nat (i - 1) = Some (aget (e :: ends) i - aget (e :: ends) (i - 1))).
  rewrite IH by lia. unfold aget. replace (Z.to_nat i) with (S (Z.to_nat (i - 1))) by lia. cbn [nth]. do 2 f_equal.
  destruct (Z.eqb_spec (i - 1) 0) as [E|E]; [by rewrite E|].
  by replace (Z.to_nat (i - 1)) with (S (Z.to_nat (i - 1 - 1))) by lia.
Qed.

Lemma length_lengths p ends : length (lengths p ends) = length ends.
Proof. revert p. induction ends as [|e ends IH]; intros p; [done|]. cbn [lengths length]. by rewrite IH. Qed.

Lemma run_at w ends i : 0 <= i < zlen ends ->
  lengths 0 ends !! Z.to_nat i = Some (end_at w ends i - before (end_at w ends) i).
Proof.
  intros Hi. rewrite lengths_at by done. unfold before, end_at. rewrite (proj2 (Z.ltb_lt i _)) by lia. do 2 f_equal.
  destruct (Z.eqb_spec i 0) as [->|]; [done|]. rewrite (proj2 (Z.leb_gt _ _)) by lia. by rewrite (proj2 (Z.ltb_lt _ _)) by lia.
Qed.

(** There are not more runs than pixels, but for the first. *)
Lemma ends_count w ends : ends_ok w ends -> zlen ends <= w + 1.
Proof.
  intros Hok. assert (forall i, (i < length ends)%nat -> Z.of_nat i <= aget ends (Z.of_nat i)) as H.
  { induction i as [|i IH]; intros Hi; [apply (ends_first _ _ Hok)|].
    pose proof (ends_mono _ _ Hok (Z.of_nat i) (Z.of_nat (S i)) ltac:(lia) ltac:(lia)). specialize (IH ltac:(lia)). lia. }
  pose proof (ends_some _ _ Hok). specialize (H (length ends - 1)%nat ltac:(lia)).
  replace (Z.of_nat (length ends - 1)) with (zlen ends - 1) in H by lia. rewrite (ends_last _ _ Hok) in H. lia.
Qed.
