(* ===== verification/T4Row.v ===== *)
(** * The row being decoded (src/spandsp-0.0.6/src/t4_rx.c, [add_run_to_row], [put_decoded_row])

    The runs of a row as far as they are decoded, and the row that is put in the
    image when they are complete. *)
From S2P Require Import Prelude T4Tables T4Base T4Rx T4Spec T4Out T4Words T4Line T4Pixels.

(** What does not change within a row that begins at [d]. *)
Definition same_row (d d' : t4_dec_t) : Prop :=
  line_encoding d' = line_encoding d /\ bytes_per_row d' = bytes_per_row d /\ image_width d' = image_width d /\
  row_is_2d d' = row_is_2d d /\ ref_runs d' = ref_runs d /\ image d' = image d /\
  consecutive_eols d' = 0 /\ length (cur_runs d') = length (cur_runs d).

(** The variables of the modes. *)
Definition same_mode (d d' : t4_dec_t) : Prop :=
  b1 d' = b1 d /\ b_cursor d' = b_cursor d /\ black_white d' = black_white d /\ its_black d' = its_black d /\
  rx_skip_bits d' = rx_skip_bits d.

(** A row begins. *)
Record row_begins (d : t4_dec_t) : Prop := {
  begins_cursor : a_cursor d = 0;
  begins_length : row_len d = 0;
  begins_run : run_length d = 0;
  begins_a0 : a0 d = 0;
  begins_b : b_cursor d = 1 /\ at_index (ref_runs d) 0 = Some (b1 d);
  begins_colour : its_black d = false /\ black_white d = 0;
  begins_skip : rx_skip_bits d = 0;
  begins_eols : consecutive_eols d = 0;
}.

(** Width of the image and room for the runs. *)
Record room (w : Z) (d : t4_dec_t) : Prop := {
  room_width : image_width d = w;
  room_cur : w + 4 <= zlen (cur_runs d);
  room_ref : w + 4 <= zlen (ref_runs d);
}.

(** The image has the pixels [l] of [n] good rows. *)
Record page_at (d : t4_dec_t) (l : list bool) (n : Z) : Prop := {
  page_paints : paints (image d) l;
  page_length : zlen l = n * image_width d;
  page_count : image_length (image d) = n;
  page_good : bad_rows (image d) = 0 /\ curr_bad_row_run (image d) = 0;
  page_room : zlen (image_buffer (image d)) <= image_buffer_size (image d);
  page_width : image_width d = 8 * bytes_per_row d;
}.

Section row.
Context (w : Z) (ends : list Z) (Hok : ends_ok w ends).
Local Abbreviation a := (end_at w ends).
Local Abbreviation N := (zlen ends).
Local Abbreviation R := (lengths 0 ends).

(** The first [i] runs of the row that began at [d0] are complete. *)
Record row_at (d0 d : t4_dec_t) (i : Z) : Prop := {
  at_row : same_row d0 d;
  at_range : 0 <= i <= N;
  at_cursor : a_cursor d = i;
  at_runs : runs_so_far d = take (Z.to_nat i) R;
  at_length : row_len d = before a i;
  at_pending : 0 <= run_length d;
  at_a0 : row_len d + run_length d < w -> a0 d = row_len d + run_length d;
}.

Lemma before_le i : 0 <= i -> before a i <= a i.
Proof.
  intros Hi. unfold before. destruct (Z.leb_spec i 0); [by apply end_at_range|]. apply end_at_le; [done|lia].
Qed.

Lemma before_N : before a N = w.
Proof.
  pose proof (ends_some _ _ Hok). unfold before. rewrite (proj2 (Z.leb_gt _ _)) by lia. unfold end_at.
  rewrite (proj2 (Z.ltb_lt _ _)) by lia. apply (ends_last _ _ Hok).
Qed.

Lemma before_lt i : 0 <= i < N -> before a i < w.
Proof.
  intros Hi. unfold before. destruct (Z.leb_spec i 0); [apply (ends_pos _ _ Hok)|].
  apply (end_at_inside w ends (i - 1) Hok); lia.
Qed.

Lemma row_starts d : room w d -> row_begins d -> row_at d d 0.
Proof.
  intros [Hw Hc _] [H1 H2 H3 H4 _ _ _ H5]. split.
  - unfold same_row. by split_and!.
  - lia.
  - done.
  - unfold runs_so_far. by rewrite H1.
  - done.
  - lia.
  - intros _. lia.
Qed.

Lemma runs_nonneg : Forall (fun r => 0 <= r) R.
Proof.
  apply Forall_lookup_2. intros i r E. pose proof (lookup_lt_Some _ _ _ E) as Hi. rewrite length_lengths in Hi.
  replace i with (Z.to_nat (Z.of_nat i)) in E by lia. rewrite (run_at w) in E by lia. injection E as <-.
  pose proof (before_le (Z.of_nat i) ltac:(lia)). lia.
Qed.

(** The next run is complete. *)
Lemma add_run_at d0 d i : room w d0 -> row_at d0 d i -> i < N -> before a i + run_length d = a i ->
  exists d', add_run_to_row d = Some d' /\ row_at d0 d' (i + 1) /\ run_length d' = 0 /\ same_mode d d'.
Proof.
  intros [Hw Hc _] [Hf Hr Hcur Hruns Hlen Hp Ha] Hi E. destruct Hf as (H1 & H2 & H3 & H4 & H5 & H6 & H7 & H8).
  pose proof (ends_count _ _ Hok). pose proof (end_at_range _ _ i Hok (proj1 Hr)).
  unfold add_run_to_row. rewrite (proj2 (Z.leb_le _ _)) by done. cbv zeta.
  change (row_len (d <| row_len := _ |>)) with (row_len d + run_length d).
  change (image_width (d <| row_len := _ |>)) with (image_width d).
  rewrite (proj2 (Z.leb_le _ _)) by lia. change (cur_runs (d <| row_len := _ |>)) with (cur_runs d).
  change (a_cursor (d <| row_len := _ |>)) with (a_cursor d).
  change (run_length (d <| row_len := _ |>)) with (run_length d).
  rewrite set_index_Some by lia. cbn [mbind option_bind]. eexists. split; [done|]. split; [|split; [done|by repeat split]].
  split; cbn.
  - unfold same_row. cbn. split_and!; try done. rewrite <- H8. apply length_insert.
  - lia.
  - lia.
  - unfold runs_so_far in *. cbn. rewrite Hcur in *. replace (Z.to_nat (i + 1)) with (S (Z.to_nat i)) by lia.
    rewrite !(take_S_r _ _ (run_length d)).
    + f_equal. rewrite take_insert_ge by lia. done.
    + rewrite run_at with (w := w) by lia. f_equal. lia.
    + apply list_lookup_insert_eq. lia.
  - rewrite before_S by lia. lia.
  - lia.
  - rewrite Z.add_0_r. exact Ha.
Qed.

(** ** The row is complete *)

(** The runs of the row, as the reference of the next one. *)
Definition row_runs (rr : list Z) : Prop := exists stale, rr = R ++ 0 :: 0 :: stale.

(** The next row. *)
Record next_row (d0 d d' : t4_dec_t) (l : list bool) (n : Z) : Prop := {
  next_room : room w d';
  next_runs : row_runs (ref_runs d');
  next_page : page_at d' (l ++ paint false R) (n + 1);
  next_cursor : a_cursor d' = 0;
  next_b : b_cursor d' = 1 /\ at_index (ref_runs d') 0 = Some (b1 d');
  next_a : a0 d' = 0 /\ run_length d' = 0;
  next_same : line_encoding d' = line_encoding d /\ row_is_2d d' = row_is_2d d /\
              rx_skip_bits d' = rx_skip_bits d /\ consecutive_eols d' = 0;
}.

Lemma two_zeros d : runs_so_far d = R -> a_cursor d = N -> w + 4 <= zlen (cur_runs d) ->
  exists stale, (runs ← set_index (cur_runs d) (a_cursor d) 0; set_index runs (a_cursor d + 1) 0) = Some (R ++ 0 :: 0 :: stale) /\
    zlen (R ++ 0 :: 0 :: stale) = zlen (cur_runs d).
Proof.
  unfold runs_so_far. intros HR Hcur Hl. rewrite Hcur in *. pose proof (ends_count _ _ Hok).
  pose proof (take_drop (Z.to_nat N) (cur_runs d)) as E. rewrite HR in E.
  destruct (drop (Z.to_nat N) (cur_runs d)) as [|x [|y stale]] eqn:Ed;
    [apply (f_equal length) in Ed; rewrite length_drop in Ed; cbn in Ed; lia..|].
  exists stale. rewrite <- E. pose proof (length_lengths 0 ends) as HN. rewrite !set_index_Some by (rewrite ?length_insert, length_app; cbn [length]; lia).
  cbn [mbind option_bind]. rewrite set_index_Some by (rewrite ?length_insert, length_app; cbn [length]; lia).
  rewrite insert_app_r_alt by lia. replace (Z.to_nat N - length R)%nat with O by lia. cbn [insert list_insert].
  rewrite insert_app_r_alt by lia. replace (Z.to_nat (N + 1) - length R)%nat with 1%nat by lia.
  split; [done|]. by rewrite !length_app.
Qed.

Lemma more_room_spec bpr m : 0 < bpr -> zlen (image_buffer m) <= image_buffer_size m ->
  image_buffer (more_room bpr m) = image_buffer m /\ zlen (image_buffer m) + bpr <= image_buffer_size (more_room bpr m) /\
  tx_bits (more_room bpr m) = tx_bits m /\ tx_bitstream (more_room bpr m) = tx_bitstream m /\
  image_length (more_room bpr m) = image_length m /\ bad_rows (more_room bpr m) = bad_rows m /\
  curr_bad_row_run (more_room bpr m) = curr_bad_row_run m.
Proof. intros Hb Hm. unfold more_room. destruct (Z.leb_spec (image_buffer_size m) (zlen (image_buffer m) + bpr)); cbn; split_and!; done || lia. Qed.

Lemma good_row d0 d l n : room w d0 -> page_at d0 l n -> row_at d0 d N -> zlen (paint false R) = w ->
  exists m, put_good_row (d <| image := more_room (bytes_per_row d) (image d) |>) = Some (d <| image := m |>) /\
    page_at (d <| image := m |>) (l ++ paint false R) (n + 1).
Proof.
  intros [Hw _ _] [P1 P2 P3 [P4 P5] P6 P7] [(H1 & H2 & H3 & H4 & H5 & H6 & H7 & H8) _ _ Hruns _ _ _] HR.
  pose proof (ends_pos _ _ Hok). rewrite H2, H6. pose proof (paints_length _ _ P1) as Hl.
  destruct (more_room_spec (bytes_per_row d0) (image d0) ltac:(lia) P6) as (E1 & E2 & E3 & E4 & E5 & E6 & E7).
  set (m1 := more_room _ _) in *. clearbody m1. unfold put_good_row. change (image (d <| image := m1 |>)) with m1.
  unfold end_bad_rows. rewrite E7, P5. cbn [Z.eqb].
  change (runs_so_far (d <| image := m1 |>)) with (runs_so_far d). rewrite Hruns.
  rewrite take_ge by (rewrite length_lengths; lia).
  destruct (paint_runs_spec R false m1 l) as (m2 & E & Hp & Hc); [|exact runs_nonneg| |].
  { destruct P1 as [Q1 Q2 Q3]. split; [by rewrite E1, E3, E4|by rewrite E1|by rewrite E3]. }
  { pose proof (paints_free _ _ P1). lia. }
  change (ink false) with 0 in E. rewrite E. cbn [mbind option_bind].
  exists (m2 <| image_length := image_length m2 + 1 |>). split; [done|]. destruct Hc as (C1 & C2 & C3 & C4 & C5 & C6).
  pose proof (paints_length _ _ Hp) as Hl2. rewrite length_app in Hl2. pose proof (paints_free _ _ Hp). pose proof (paints_free _ _ P1).
  split; cbn.
  - by destruct Hp; split.
  - rewrite length_app. lia.
  - lia.
  - by rewrite C4, C6, E6, E7.
  - lia.
  - lia.
Qed.

Lemma put_row_spec d0 d l n : room w d0 -> page_at d0 l n -> row_at d0 d N -> run_length d = 0 ->
  zlen (paint false R) = w ->
  exists d', put_decoded_row d = Some d' /\ next_row d0 d d' l n.
Proof.
  intros Hroom Hpage Hat Hrun HR. destruct (good_row _ _ _ _ Hroom Hpage Hat HR) as (m & E & Hp).
  destruct Hat as [(H1 & H2 & H3 & H4 & H5 & H6 & H7 & H8) Hr Hcur Hruns Hlen _ _], Hroom as [Hw Hc Hrf].
  rewrite take_ge in Hruns by (rewrite length_lengths; lia).
  destruct (two_zeros d Hruns Hcur ltac:(lia)) as (stale & Ez & Hlz). pose proof (ends_some _ _ Hok).
  unfold put_decoded_row. rewrite Hrun. cbn [Z.eqb mbind option_bind]. cbv zeta.
  change (row_len (d <| image := _ |>)) with (row_len d). change (image_width (d <| image := _ |>)) with (image_width d).
  rewrite Hlen, before_N, H3, Hw, Z.eqb_refl, E. cbn [mbind option_bind].
  change (cur_runs (d <| image := m |>)) with (cur_runs d). change (a_cursor (d <| image := m |>)) with (a_cursor d).
  revert Ez. destruct (set_index (cur_runs d) (a_cursor d) 0) as [r1|]; [|done]. cbn [mbind option_bind]. intros ->.
  cbn [mbind option_bind]. pose proof (length_lengths 0 ends). destruct R as [|r0 rs] eqn:ER; [cbn in *; lia|].
  cbn [app]. change (at_index (r0 :: rs ++ 0 :: 0 :: stale) 0) with (Some r0). cbn [mbind option_bind].
  eexists. split; [done|]. split.
  - split; cbn; [congruence|rewrite H5; lia|]. cbn [app length] in Hlz. cbn [length]. lia.
  - exists stale. cbn. by rewrite ER.
  - rewrite ER. destruct Hp as [P1 P2 P3 [P4 P5] P6 P7]. split; cbn in *; try done. by destruct P1; split.
  - done.
  - done.
  - done.
  - by split_and!.
Qed.
End row.
