(* ===== verification/T4Codes.v ===== *)
(** * Code words of runs (src/spandsp-0.0.6/src/t4_rx.c, [rx_put_bits])

    The decoder with the code words of a run. *)
From S2P Require Import Prelude T4Tables T4Base T4Rx T4Spec T4Out T4Words T4Line T4Pixels T4Row.

(** ** The pieces of a run *)

Definition make_ups (r : Z) : list Z :=
  let k := Z.to_nat ((r - 64) / 2560) in
  let r' := r - 2560 * Z.of_nat k in
  replicate k 2560 ++ (if 64 <=? r' then [64 * (r' / 64)] else []).

Definition total (l : list Z) : Z := fold_right Z.add 0 l.

Lemma total_app l l' : total (l ++ l') = total l + total l'.
Proof. unfold total. induction l as [|x l IH]; [done|]. cbn [app fold_right]. lia. Qed.

Lemma total_replicate k x : total (replicate k x) = Z.of_nat k * x.
Proof. induction k as [|k IH]; [done|]. cbn [replicate total fold_right] in *. unfold total in IH. rewrite IH. lia. Qed.

Lemma pieces_split r : 0 <= r ->
  pieces r = make_ups r ++ [r mod 64] /\ total (make_ups r) + r mod 64 = r /\
  Forall (fun n => 64 <= n /\ piece_ok n) (make_ups r).
Proof.
  intros Hr. unfold pieces, make_ups. set (k := Z.to_nat ((r - 64) / 2560)). set (r' := r - 2560 * Z.of_nat k).
  assert (0 <= r' < 2560 + 64) as Hr'.
  { subst r' k. pose proof (Z.div_mod (r - 64) 2560 ltac:(lia)). pose proof (Z.mod_pos_bound (r - 64) 2560 ltac:(lia)).
    destruct (Z_lt_le_dec ((r - 64) / 2560) 0); lia. }
  pose proof (Z.div_mod r' 64 ltac:(lia)). pose proof (Z.mod_pos_bound r' 64 ltac:(lia)).
  assert (r mod 64 = r' mod 64) as ->.
  { subst r'. replace r with (r - 2560 * Z.of_nat k + (40 * Z.of_nat k) * 64) at 1 by lia. by rewrite Z_mod_plus_full. }
  split_and!.
  - by rewrite <- app_assoc.
  - rewrite total_app, total_replicate. destruct (Z.leb_spec 64 r'); cbn [total fold_right]; subst r'; [lia|].
    rewrite Z.mod_small in * by lia. lia.
  - apply Forall_app_2.
    + apply Forall_replicate. split; [lia|]. right. split; [lia|done].
    + destruct (Z.leb_spec 64 r'); [|constructor]. constructor; [|constructor].
      assert (1 <= r' / 64 < 41) by (split; [apply Z.div_le_lower_bound|apply Z.div_lt_upper_bound]; lia).
      split; [lia|]. right. split; [lia|]. rewrite Z.mul_comm. apply Z_mod_mult.
Qed.

(** ** Rows in part and their ends *)

Definition clip (d : t4_dec_t) : t4_dec_t := if image_width d <=? a0 d then d <| a0 := image_width d - 1 |> else d.

(** The fields of a row that stay. *)
Ltac row_fields := split; [unfold same_row; by split_and!|done..].

(** The next row begins. *)
Record row_begun (w : Z) (ends : list Z) (d0 d : t4_dec_t) (l : list bool) (n : Z) : Prop := {
  begun_room : room w d;
  begun_runs : row_runs ends (ref_runs d);
  begun_page : page_at d (l ++ paint false (lengths 0 ends)) (n + 1);
  begun_begins : row_begins d;
  begun_same : line_encoding d = line_encoding d0 /\ row_is_2d d = row_is_2d d0;
}.

Lemma next_row_begun w ends d0 d d' l n : next_row w ends d0 d d' l n -> same_row d0 d ->
  row_begun w ends d0 (start_row d' <| rx_skip_bits := 0 |>) l n.
Proof.
  intros [[R1 R2 R3] H2 [P1 P2 P3 P4 P5 P6] H4 H5 [H6 H6'] (H7 & H8 & H9 & H10)] (F1 & F2 & F3 & F4 & F5).
  split; cbn; [by split|done|by split| |split; congruence]. by split.
Qed.

Section codes.
Context (w : Z) (ends : list Z) (Hok : ends_ok w ends) (d0 : t4_dec_t) (l : list bool) (n : Z).
Context (Hroom : room w d0) (Hpage : page_at d0 l n) (Hpaint : zlen (paint false (lengths 0 ends)) = w).
Local Abbreviation a := (end_at w ends).
Local Abbreviation N := (zlen ends).
Local Abbreviation at_run d i := (row_at w ends d0 d i).

(** All runs of the row are read: in T.6 the next row has begun, in T.4 it will
    with an EOL. *)
Definition row_over (d : t4_dec_t) : Prop :=
  if line_encoding d0 =? 3 then row_begun w ends d0 d l n
  else at_run d N /\ run_length d = 0 /\ black_white d = 0 /\ rx_skip_bits d = 0.

(** [i] runs are read, perhaps all of them. *)
Definition settled (d1 : t4_dec_t) (i bw : Z) (black : bool) (d : t4_dec_t) : Prop :=
  if (i =? N) && (bw =? 0) then row_over d
  else at_run d i /\ run_length d = 0 /\ rx_skip_bits d = 0 /\ black_white d = bw /\ its_black d = black /\
       b1 d = b1 d1 /\ b_cursor d = b_cursor d1.

Lemma row_at_clip d i : at_run d i -> at_run (clip d) i.
Proof.
  intros [(H1 & H2 & H3 & H4 & H5 & H6 & H7 & H8) Hr Hc Hruns Hl Hp Ha]. unfold clip. destruct (Z.leb_spec (image_width d) (a0 d)); [|row_fields].
  destruct Hroom as [Hw _ _]. split; [unfold same_row; by split_and!|done..|]. cbn. intros Hlt. specialize (Ha Hlt). lia.
Qed.

Lemma row_at_dropped d i k : at_run d i -> at_run (drop_bits d k) i.
Proof. intros [(H1 & H2 & H3 & H4 & H5 & H6 & H7 & H8) Hr Hc Hruns Hl Hp Ha]. row_fields. Qed.

Lemma row_at_unskipped d i : at_run d i -> at_run (d <| rx_skip_bits := 0 |>) i.
Proof. intros [(H1 & H2 & H3 & H4 & H5 & H6 & H7 & H8) Hr Hc Hruns Hl Hp Ha]. row_fields. Qed.

Lemma row_at_info d i : at_run d i -> at_run (update_row_bit_info d) i.
Proof.
  intros [(H1 & H2 & H3 & H4 & H5 & H6 & H7 & H8) Hr Hc Hruns Hl Hp Ha]. unfold update_row_bit_info.
  destruct (max_row_bits d <? row_bits d).
  all: match goal with |- context [if ?b then _ else _] => destruct b end; row_fields.
Qed.

Lemma info_skip d : rx_skip_bits (update_row_bit_info d) = rx_skip_bits d /\ run_length (update_row_bit_info d) = run_length d.
Proof.
  unfold update_row_bit_info. destruct (max_row_bits d <? row_bits d).
  all: match goal with |- context [if ?b then _ else _] => destruct b end; done.
Qed.

Lemma clip_same d : same_mode d (clip d) /\ run_length (clip d) = run_length d /\ row_len (clip d) = row_len d.
Proof. unfold clip. destruct (_ <=? _); by repeat split. Qed.

(** The row goes on. *)
Lemma scan_end_on d i : at_run d i -> black_white d <> 0 \/ i < N -> scan_end d = Some (clip d).
Proof.
  intros Hat Hon. pose proof (clip_same d) as [(_ & _ & E & _) [_ El]].
  destruct Hat as [(_ & _ & H3 & _) Hr _ _ Hl _ _]. unfold scan_end. fold (clip d). cbv zeta.
  rewrite E, El. assert (image_width (clip d) = w) as ->.
  { unfold clip. destruct Hroom as [Hw _ _]. destruct (_ <=? _); cbn; congruence. }
  destruct Hon as [Hne|Hlt]; [by rewrite (proj2 (Z.eqb_neq _ _) Hne), andb_false_r|].
  rewrite Hl. pose proof (before_lt w ends Hok i ltac:(lia)). rewrite (proj2 (Z.leb_gt _ _)) by lia. by rewrite andb_false_r.
Qed.

(** The row ends. *)
Lemma scan_end_over d : at_run d N -> run_length d = 0 -> black_white d = 0 ->
  exists d', scan_end d = Some d' /\ rx_skip_bits d' = rx_skip_bits d /\ 0 <= consecutive_eols d' /\
    row_over (d' <| rx_skip_bits := 0 |>).
Proof.
  intros Hat Hrun Hbw. pose proof (row_at_clip _ _ Hat) as Hat'. destruct (clip_same d) as [(_ & _ & E & _ & Es) [Er El]].
  unfold scan_end. fold (clip d). cbv zeta. rewrite E, Hbw. rewrite (at_length _ _ _ _ _ Hat'), before_N by done.
  destruct (at_row _ _ _ _ _ Hat') as (F1 & _ & F3 & _ & _ & _ & F7 & _). rewrite F3, (room_width _ _ Hroom), Z.leb_refl.
  rewrite F1, andb_true_r. unfold row_over. change T4_COMPRESSION_ITU_T6 with 3. destruct (line_encoding d0 =? 3) eqn:E6; cbn [andb Z.eqb].
  - rewrite Er, Hrun. cbn [Z.ltb Z.compare mbind option_bind].
    destruct (info_skip (clip d)) as [Is Ir]. pose proof (row_at_info _ _ Hat') as Hai.
    destruct (put_row_spec w ends Hok d0 (update_row_bit_info (clip d)) l n Hroom Hpage Hai ltac:(congruence) Hpaint) as (d' & -> & Hn).
    cbn [mbind option_bind]. exists (start_row d'). destruct (next_same _ _ _ _ _ _ _ Hn) as (_ & _ & N3 & N4).
    split_and!; [done|cbn; congruence|cbn; lia|]. eapply next_row_begun; [exact Hn|apply Hai].
  - exists (clip d). split_and!; [done|exact Es|lia|by apply row_at_unskipped|cbn; congruence..].
Qed.

(** ** The words of a run *)
Local Abbreviation word black k := (word_of (entry_of black k)).

Lemma word_length black k : piece_ok k -> code_length (entry_of black k) = zlen (word black k).
Proof.
  intros Hk. destruct (entry_of_in black k Hk) as [Hin _], (run_codes_ok black) as [H _].
  rewrite forallb_forall in H. by destruct (of_word _ (H _ Hin)).
Qed.

Lemma scan_run_word black k rest d : its_black d = black -> piece_ok k -> (13 <= length (word black k ++ rest))%nat ->
  scan_run (of_lsb (word black k ++ rest)) d =
    (d ← (if k <? 64 then terminate black k d else Some (make_up k d)); Some (d, zlen (word black k))).
Proof.
  intros Hb Hk Hlen. pose proof (run_lookup black k rest Hk) as Hl. pose proof (word_length black k Hk) as Hw.
  unfold scan_run. rewrite Hb. cbv zeta. destruct black; cbn [run_table run_bits] in Hl.
  - change (Z.ones (Z.of_nat 13)) with 0x1FFF in Hl. rewrite Hl by lia. cbn [mbind option_bind state param width].
    rewrite Hw. unfold run_state. destruct (k <? 64); [by destruct (terminate true k d)|]. by destruct (k <=? 1728).
  - change (Z.ones (Z.of_nat 12)) with 0xFFF in Hl. rewrite Hl by lia. cbn [mbind option_bind state param width].
    rewrite Hw. unfold run_state. destruct (k <? 64); [by destruct (terminate false k d)|]. by destruct (k <=? 1728).
Qed.

(** A word of a run, which leaves the decoder in [d1] before the row is checked
    for its end. *)
Lemma run_word_reads black k rest d d1 d2 : its_black d = black -> piece_ok k -> opening rest -> (12 <= length rest)%nat ->
  row_is_2d d && (black_white d =? 0) = false -> rx_skip_bits d = 0 -> consecutive_eols d = 0 ->
  (if k <? 64 then terminate black k d else Some (make_up k d)) = Some d1 -> rx_skip_bits d1 = 0 ->
  scan_end (drop_bits d1 (zlen (word black k))) = Some d2 -> rx_skip_bits d2 = zlen (word black k) - 1 ->
  0 <= consecutive_eols d2 ->
  reads rest d (word black k) (d2 <| rx_skip_bits := 0 |>).
Proof.
  intros Hb Hk Ho Hr Hm Hs Hc E1 Hs1 E2 Hs2 Hc2. pose proof (run_words_good black k Hk) as Hg.
  assert (1 <= length (word black k))%nat by (destruct (word black k); [done|cbn [length]; lia]).
  apply word_reads; [lia|done|done|done|done|done| |done].
  unfold scan_code. rewrite Hm, (scan_run_word black) by (done || rewrite length_app; lia).
  rewrite E1. exact E2.
Qed.

Lemma row_at_make_up d i k : at_run d i -> 0 <= k -> at_run (make_up k d) i.
Proof.
  intros [(H1 & H2 & H3 & H4 & H5 & H6 & H7 & H8) Hr Hc Hruns Hl Hp Ha] Hk. split; [unfold same_row; by split_and!|done..|cbn; lia|].
  cbn. lia.
Qed.

Lemma make_up_reads black k rest d i : at_run d i -> i < N -> 64 <= k -> piece_ok k -> its_black d = black ->
  opening rest -> (12 <= length rest)%nat -> row_is_2d d && (black_white d =? 0) = false -> rx_skip_bits d = 0 ->
  exists d', reads rest d (word black k) d' /\ at_run d' i /\ run_length d' = run_length d + k /\ same_mode d d'.
Proof.
  intros Hat Hi H64 Hk Hb Ho Hr Hm Hs. set (d1 := drop_bits (make_up k d) (zlen (word black k))).
  assert (at_run d1 i) as Hat1 by (apply row_at_dropped, row_at_make_up; [done|lia]).
  pose proof (scan_end_on d1 i Hat1 (or_intror Hi)) as Ee. destruct (clip_same d1) as [(S1 & S2 & S3 & S4 & S5) [Sr _]].
  exists (clip d1 <| rx_skip_bits := 0 |>). split.
  - apply (run_word_reads black k rest d (make_up k d) (clip d1)); try done; [by destruct (at_row _ _ _ _ _ Hat) as (_ & _ & _ & _ & _ & _ & E & _)|
      by rewrite (proj2 (Z.ltb_ge _ _)) by lia|rewrite S5; subst d1; cbn; lia|].
    destruct (at_row _ _ _ _ _ (row_at_clip _ _ Hat1)) as (_ & _ & _ & _ & _ & _ & -> & _). lia.
  - split_and!; [by apply row_at_unskipped, row_at_clip|exact Sr|].
    unfold same_mode. cbn. by rewrite S1, S2, S3, S4.
Qed.

Lemma make_ups_reads black ks rest d i : Forall (fun k => 64 <= k /\ piece_ok k) ks -> at_run d i -> i < N ->
  its_black d = black -> opening rest -> (12 <= length rest)%nat -> row_is_2d d && (black_white d =? 0) = false ->
  rx_skip_bits d = 0 ->
  exists d', reads rest d (concat (map (fun k => word black k) ks)) d' /\ at_run d' i /\
    run_length d' = run_length d + total ks /\ same_mode d d'.
Proof.
  intros Hks. revert d. induction Hks as [|k ks [H64 Hk] Hks IH]; intros d Hat Hi Hb Ho Hr Hm Hs.
  - exists d. split_and!; [apply reads_nil|done|cbn; lia|by repeat split].
  - cbn [map concat]. set (tl := concat _) in *.
    destruct (make_up_reads black k (tl ++ rest) d i Hat Hi H64 Hk Hb) as (d1 & E1 & Hat1 & Hr1 & Hm1); [|rewrite length_app; lia|done|done|].
    { apply words_opening; [|done]. rewrite Forall_map. apply (list.Forall_impl _ _ _ Hks). intros x [_ Hx]. by apply run_words_good. }
    destruct Hm1 as (M1 & M2 & M3 & M4 & M5).
    assert (row_is_2d d1 = row_is_2d d) as M6 by (destruct (at_row _ _ _ _ _ Hat), (at_row _ _ _ _ _ Hat1); intuition congruence).
    destruct (IH d1 Hat1 Hi) as (d' & E & Hat' & Hr' & (M1' & M2' & M3' & M4' & M5')); [congruence|done|done|congruence|congruence|].
    exists d'. split_and!; [by eapply reads_app|done|cbn [total fold_right]; fold (total ks); lia|]. unfold same_mode. split_and!; congruence.
Qed.

(** [r] pixels complete run [i]; behind the last run there may be an empty one. *)
Definition completes (d : t4_dec_t) (i r i' : Z) : Prop :=
  (i < N /\ before a i + run_length d + r = a i /\ i' = i + 1) \/ (i = N /\ r = 0 /\ run_length d = 0 /\ i' = N).

Definition count_down (bw : Z) : Z := if bw =? 0 then 0 else bw - 1.

Lemma row_at_black d i c : at_run d i -> at_run (d <| its_black := c |>) i.
Proof. intros [(H1 & H2 & H3 & H4 & H5 & H6 & H7 & H8) Hr Hc Hruns Hl Hp Ha]. row_fields. Qed.

Lemma row_at_white d i c : at_run d i -> at_run (d <| black_white := c |>) i.
Proof. intros [(H1 & H2 & H3 & H4 & H5 & H6 & H7 & H8) Hr Hc Hruns Hl Hp Ha]. row_fields. Qed.

Lemma terminate_at black d i k i' : at_run d i -> 0 <= k -> completes d i k i' ->
  exists d1, terminate black k d = Some d1 /\ at_run d1 i' /\ run_length d1 = 0 /\ its_black d1 = negb black /\
    black_white d1 = count_down (black_white d) /\ b1 d1 = b1 d /\ b_cursor d1 = b_cursor d /\ rx_skip_bits d1 = rx_skip_bits d.
Proof.
  intros Hat Hk Hc. unfold terminate. cbv zeta. pose proof (row_at_black d i (negb black) Hat) as Hatb.
  set (d1 := d <| its_black := negb black |>) in *.
  assert (exists d2, (if row_len d1 <? image_width d1 then add_run_to_row (make_up k d1) else Some d1) = Some d2 /\
    at_run d2 i' /\ run_length d2 = 0 /\ same_mode d1 d2) as (d2 & -> & Hat2 & Hr2 & (M1 & M2 & M3 & M4 & M5)).
  { destruct (at_row _ _ _ _ _ Hatb) as (_ & _ & F3 & _). rewrite F3, (room_width _ _ Hroom), (at_length _ _ _ _ _ Hatb).
    destruct Hc as [(Hi & E & ->)|(-> & -> & E & ->)].
    - rewrite (proj2 (Z.ltb_lt _ _)) by (apply before_lt; [done|]; pose proof (at_range _ _ _ _ _ Hat); lia).
      destruct (add_run_at w ends Hok d0 (make_up k d1) i) as (d2 & E2 & H2 & H3 & H4); [done|by apply row_at_make_up|done|cbn; lia|].
      exists d2. by split_and!.
    - rewrite before_N, Z.ltb_irrefl by done. exists d1. split_and!; [done|done|done|by repeat split]. }
  cbn [mbind option_bind]. unfold count_down. change (black_white d) with (black_white d1). rewrite <- M3.
  destruct (black_white d2 =? 0) eqn:Eb.
  - exists d2. apply Z.eqb_eq in Eb. by split_and!.
  - exists (d2 <| black_white := black_white d2 - 1 |>). split_and!; try done. by apply row_at_white.
Qed.

Lemma terminate_reads black k rest d i i' : at_run d i -> 0 <= k < 64 -> completes d i k i' -> its_black d = black ->
  opening rest -> (12 <= length rest)%nat -> row_is_2d d && (black_white d =? 0) = false -> rx_skip_bits d = 0 ->
  exists d', reads rest d (word black k) d' /\ settled d i' (count_down (black_white d)) (negb black) d'.
Proof.
  intros Hat Hk Hc Hb Ho Hr Hm Hs. assert (piece_ok k) as Hpk by (left; lia).
  destruct (terminate_at black d i k i' Hat ltac:(lia) Hc) as (d1 & E1 & Hat1 & R1 & B1 & W1 & C1 & C2 & S1).
  pose proof (row_at_dropped d1 i' (zlen (word black k)) Hat1) as Hat2. set (d2 := drop_bits d1 _) in *.
  destruct (at_row _ _ _ _ _ Hat) as (_ & _ & _ & _ & _ & _ & Hc0 & _).
  assert (rx_skip_bits d2 = zlen (word black k) - 1) as S2 by (subst d2; cbn; lia).
  unfold settled. destruct ((i' =? N) && (count_down (black_white d) =? 0)) eqn:E.
  - apply andb_prop in E as [->%Z.eqb_eq Ew%Z.eqb_eq].
    destruct (scan_end_over d2 Hat2 R1) as (d3 & E3 & S3 & C3 & Hover); [subst d2; cbn; congruence|].
    exists (d3 <| rx_skip_bits := 0 |>). split; [|done].
    apply (run_word_reads black k rest d d1 d3); try done; [by rewrite (proj2 (Z.ltb_lt _ _)) by lia|congruence|congruence].
  - assert (black_white d2 <> 0 \/ i' < N) as Hon.
    { change (black_white d2) with (black_white d1). rewrite W1. pose proof (at_range _ _ _ _ _ Hat1).
      destruct (Z.eqb_spec i' N), (Z.eqb_spec (count_down (black_white d)) 0); [done|by left|right; lia|by left]. }
    pose proof (scan_end_on d2 i' Hat2 Hon) as E3. destruct (clip_same d2) as [(Q1 & Q2 & Q3 & Q4 & Q5) [Q6 _]].
    pose proof (row_at_clip _ _ Hat2) as Hat3. exists (clip d2 <| rx_skip_bits := 0 |>). split.
    + apply (run_word_reads black k rest d d1 (clip d2)); try done; [by rewrite (proj2 (Z.ltb_lt _ _)) by lia|congruence|congruence|].
      destruct (at_row _ _ _ _ _ Hat3) as (_ & _ & _ & _ & _ & _ & -> & _). lia.
    + split_and!; [by apply row_at_unskipped|cbn; by rewrite Q6|done|cbn; by rewrite Q3|cbn; by rewrite Q4|cbn; by rewrite Q1|cbn; by rewrite Q2].
Qed.

(** A run. *)
Lemma run_reads black r rest d i i' : at_run d i -> 0 <= r -> completes d i r i' -> its_black d = black ->
  opening rest -> (12 <= length rest)%nat -> row_is_2d d && (black_white d =? 0) = false -> rx_skip_bits d = 0 ->
  exists d', reads rest d (concat (run_words black r)) d' /\ settled d i' (count_down (black_white d)) (negb black) d'.
Proof.
  intros Hat Hr Hc Hb Ho Hlen Hm Hs. destruct (pieces_split r Hr) as (Ep & Et & Hms).
  pose proof (Z.mod_pos_bound r 64 ltac:(lia)) as Hmod. unfold run_words. rewrite Ep, map_app, concat_app.
  cbn [map concat]. rewrite app_nil_r.
  assert (exists d1, reads (word black (r mod 64) ++ rest) d (concat (map (fun k => word black k) (make_ups r))) d1 /\
    at_run d1 i /\ run_length d1 = run_length d + total (make_ups r) /\ same_mode d d1)
    as (d1 & E1 & Hat1 & R1 & (M1 & M2 & M3 & M4 & M5)).
  { destruct Hc as [(Hi & _)|(-> & -> & _)].
    - apply make_ups_reads; try done; [apply good_opening, run_words_good; left; lia|rewrite length_app; lia].
    - exists d. change (make_ups 0) with (@nil Z). split_and!; [apply reads_nil|done|cbn; lia|by repeat split]. }
  assert (row_is_2d d1 = row_is_2d d) as M6 by (destruct (at_row _ _ _ _ _ Hat), (at_row _ _ _ _ _ Hat1); intuition congruence).
  destruct (terminate_reads black (r mod 64) rest d1 i i' Hat1 Hmod) as (d' & E2 & Hset); [|congruence|done|done|congruence|congruence|].
  { destruct Hc as [(Hi & E & ->)|(-> & -> & E & ->)]; [left; split_and!; lia|right].
    rewrite R1. change (make_ups 0) with (@nil Z). cbn [total fold_right]. split_and!; [done|done|lia|done]. }
  exists d'. split; [by eapply reads_app|]. unfold settled in *. rewrite M3 in Hset. destruct (_ && _); [done|]. by rewrite <- M1, <- M2.
Qed.
End codes.
