(* ===== verification/T4TwoD.v ===== *)
(** * Two-dimensional rows (src/spandsp-0.0.6/src/t4_rx.c, [rx_put_bits])

    The decoder with the modes of a row.  It keeps the position of a change of the
    reference row, [b1], and moves it with the runs of that row. *)
From S2P Require Import Prelude T4Tables T4Base T4Rx T4Spec T4Out T4Words T4Line T4Pixels T4Row T4Codes.

Lemma run_words_all_good black r : 0 <= r -> Forall (fun x => good x = true) (run_words black r).
Proof.
  intros Hr. destruct (pieces_split r Hr) as (E & _ & Hms). pose proof (Z.mod_pos_bound r 64 ltac:(lia)).
  unfold run_words. rewrite E, map_app. apply Forall_app_2.
  - rewrite Forall_map. apply (list.Forall_impl _ _ _ Hms). intros k [_ Hk]. by apply run_words_good.
  - constructor; [|constructor]. apply run_words_good. left. lia.
Qed.

Lemma row_words_good black runs : Forall (fun r => 0 <= r) runs -> Forall (fun x => good x = true) (row_words black runs).
Proof.
  intros H. revert black. induction H as [|r runs Hr H IH]; intros black; [constructor|].
  apply Forall_app_2; [by apply run_words_all_good|apply IH].
Qed.

Section one_dimension.
Context (w : Z) (ends : list Z) (Hok : ends_ok w ends) (d0 : t4_dec_t) (l : list bool) (n : Z).
Context (Hroom : room w d0) (Hpage : page_at d0 l n) (Hpaint : zlen (paint false (lengths 0 ends)) = w).
Local Abbreviation R := (lengths 0 ends).

Lemma one_run_on i : 0 <= i < zlen ends ->
  drop (Z.to_nat i) R = (end_at w ends i - before (end_at w ends) i) :: drop (Z.to_nat (i + 1)) R.
Proof.
  intros Hi. rewrite (drop_S R _ _ (run_at w ends i Hi)). do 2 f_equal. lia.
Qed.

Lemma runs_read rest m : forall d i, row_at w ends d0 d i -> i + Z.of_nat m = zlen ends -> 0 < Z.of_nat m ->
  run_length d = 0 -> its_black d = Z.odd i -> row_is_2d d0 = false -> black_white d = 0 -> rx_skip_bits d = 0 ->
  opening rest -> (12 <= length rest)%nat ->
  exists d', reads rest d (concat (row_words (Z.odd i) (drop (Z.to_nat i) R))) d' /\ row_over w ends d0 l n d'.
Proof.
  induction m as [|m IH]; intros d i Hat Hi Hm Hr Hb H2 Hbw Hs Ho Hlen; [lia|].
  pose proof (at_range _ _ _ _ _ Hat) as Hrange. rewrite one_run_on by lia. cbn [row_words]. rewrite concat_app.
  pose proof (runs_nonneg w ends Hok) as Hnn. pose proof (before_le w ends Hok i ltac:(lia)).
  set (tl := row_words (negb (Z.odd i)) (drop (Z.to_nat (i + 1)) R)).
  assert (Forall (fun x => good x = true) tl) as Hgood by (apply row_words_good, list.Forall_drop; exact Hnn).
  assert (row_is_2d d = false) as H2' by (destruct (at_row _ _ _ _ _ Hat); intuition congruence).
  destruct (run_reads w ends Hok d0 l n Hroom Hpage Hpaint (Z.odd i) (end_at w ends i - before (end_at w ends) i)
    (concat tl ++ rest) d i (i + 1)) as (d1 & E1 & Hset); try done; [lia|left; split_and!; lia|by apply words_opening|
    rewrite length_app; lia|by rewrite H2'|].
  unfold settled in Hset. rewrite Hbw in Hset. change (count_down 0) with 0 in Hset. rewrite Z.eqb_refl, andb_true_r in Hset.
  destruct (Z.eqb_spec (i + 1) (zlen ends)) as [Ee|Hne].
  - exists d1. split; [|done]. assert (tl = []) as Et.
    { subst tl. rewrite drop_ge by (rewrite length_lengths; lia). done. }
    rewrite Et in *. cbn [concat]. rewrite app_nil_r. exact E1.
  - destruct Hset as (Hat1 & R1 & S1 & W1 & B1 & _).
    assert (negb (Z.odd i) = Z.odd (i + 1)) as Eodd by (rewrite Z.add_1_r, Z.odd_succ; by rewrite <- Z.negb_odd).
    subst tl. rewrite Eodd in *.
    destruct (IH d1 (i + 1) Hat1 ltac:(lia) ltac:(lia) R1 B1 H2 W1 S1 Ho Hlen) as (d' & E2 & Hover).
    exists d'. split; [|done]. by eapply reads_app.
Qed.
End one_dimension.

(** ** Rows of two dimensions *)

(** The runs [rr] end at [b]; those up to the width, and two more, are in the
    array. *)
Record reference_runs (w : Z) (b : Z -> Z) (last : Z) (rr : list Z) : Prop := {
  ref_last : 0 <= last /\ w <= b last;
  ref_first : 0 <= b 0;
  ref_mono : forall k, 0 <= k -> b k <= b (k + 1);
  ref_strict : forall k, 0 <= k -> b k < w -> b k < b (k + 1);
  ref_at : forall k, 0 <= k <= last + 2 -> at_index rr k = Some (b k - before b k);
}.

(** Every word of a mode is one that no EOL is in. *)
Lemma modes_good w ends b A i ms : ends_ok w ends -> (forall k, 0 <= k -> 0 <= b k) ->
  coding (end_at w ends) b w A i ms -> -1 <= A <= end_at w ends i -> 0 <= i ->
  Forall (fun x => good x = true) (modes_words i ms).
Proof.
  intros Hok Hb. induction 1 as [i|A i j ms HA Hf Hle Habs Hc IH|A i j ms HA Hf Hle Habs Hc IH|A i j ms HA Hf Hle Hc IH];
    intros Hai Hi; cbn [modes_words].
  - constructor.
  - pose proof (end_at_le w ends i (i + 1) Hok ltac:(lia)). pose proof (end_at_range w ends i Hok Hi).
    constructor; [apply mode_word_good; lia|]. apply IH; lia.
  - pose proof (end_at_le w ends i (i + 1) Hok ltac:(lia)). pose proof (end_at_le w ends (i + 1) (i + 2) Hok ltac:(lia)).
    pose proof (end_at_range w ends i Hok Hi). cbn [mode_words app]. constructor; [by apply mode_word_good|].
    apply Forall_app_2; [apply Forall_app_2; apply run_words_all_good; lia|]. apply IH; lia.
  - constructor; [by apply mode_word_good|]. specialize (Hb (j + 1) ltac:(destruct Hf; lia)). apply IH; lia.
Qed.

Section two_dimensions.
Context (w : Z) (ends : list Z) (Hok : ends_ok w ends) (d0 : t4_dec_t) (l : list bool) (n : Z).
Context (Hroom : room w d0) (Hpage : page_at d0 l n) (Hpaint : zlen (paint false (lengths 0 ends)) = w).
Context (b : Z -> Z) (last : Z) (Href : reference_runs w b last (ref_runs d0)) (Htwo : row_is_2d d0 = true).
Local Abbreviation a := (end_at w ends).
Local Abbreviation N := (zlen ends).

Lemma ref_le i j : 0 <= i <= j -> b i <= b j.
Proof.
  intros Hij. replace j with (i + Z.of_nat (Z.to_nat (j - i))) by lia. induction (Z.to_nat (j - i)) as [|m IH].
  - by rewrite Z.add_0_r.
  - pose proof (ref_mono _ _ _ _ Href (i + Z.of_nat m) ltac:(lia)) as H.
    replace (i + Z.of_nat m + 1) with (i + Z.of_nat (S m)) in H by lia. lia.
Qed.

Lemma ref_nonneg k : 0 <= k -> 0 <= b k.
Proof. intros Hk. pose proof (ref_first _ _ _ _ Href). pose proof (ref_le 0 k ltac:(lia)). lia. Qed.

Lemma first_right_le A i j : A < w -> first_right b A i j -> j <= last + 1.
Proof.
  intros HA (Hj & He & Hr & Hb). destruct (Z_lt_le_dec (last + 1) j) as [Hlt|]; [exfalso|done].
  destruct (ref_last _ _ _ _ Href) as [Hl Hw]. pose proof (ref_le last (j - 2) ltac:(lia)).
  specialize (Hb (j - 2) ltac:(lia)). replace (j - (j - 2)) with 2 in Hb by lia. specialize (Hb eq_refl). lia.
Qed.

(** The row is coded up to [A], where run [i] is not complete. *)
Record in_mode (d : t4_dec_t) (A i : Z) : Prop := {
  mode_row : row_at w ends d0 d i;
  mode_word_next : black_white d = 0 /\ rx_skip_bits d = 0;
  mode_pos : row_len d + run_length d = Z.max 0 A;
  mode_range : -1 <= A < a i /\ A < w;
  mode_b : 0 <= b_cursor d /\ b1 d = before b (b_cursor d);
  mode_even : Z.even (b_cursor d - 1 - i) = true;
  mode_below : forall k, 0 <= k < b_cursor d - 1 -> Z.even (k - i) = true -> b k <= A;
  mode_first : if i =? 0 then 1 <= b_cursor d /\ A < b1 d else 0 <= A;
}.

Lemma mode_more d A i : in_mode d A i -> 0 <= i < N.
Proof.
  intros [Hat _ Hp [H1 H2] _ _ _ _]. pose proof (at_range _ _ _ _ _ Hat) as Hr. split; [lia|].
  destruct (Z_lt_le_dec i N); [done|exfalso]. assert (i = N) as -> by lia.
  pose proof (at_length _ _ _ _ _ Hat) as Hl. rewrite before_N in Hl by done. pose proof (at_pending _ _ _ _ _ Hat).
  pose proof (ends_pos _ _ Hok). lia.
Qed.

Lemma mode_a0 d A i : in_mode d A i -> a0 d = Z.max 0 A.
Proof.
  intros [Hat _ Hp [_ H2] _ _ _ _]. rewrite <- Hp. apply (at_a0 _ _ _ _ _ Hat). pose proof (ends_pos _ _ Hok). lia.
Qed.

(** The change of the reference row is moved to the right of [A]. *)
Lemma past_a0_spec fuel d A i j : in_mode d A i -> i <> 0 -> first_right b A i j ->
  j + 1 - b_cursor d <= 2 * Z.of_nat fuel ->
  past_a0 fuel d = Some (d <| b1 := b j |> <| b_cursor := j + 1 |>).
Proof.
  intros Hm Hi (Hj & He & Hr & Hb). destruct (ref_last _ _ _ _ Href) as [Hlast _].
  pose proof (first_right_le A i j ltac:(apply (mode_range _ _ _ Hm)) ltac:(by split_and!)) as Hjl.
  pose proof (mode_a0 _ _ _ Hm) as Ha. pose proof (mode_first _ _ _ Hm) as HA. rewrite (proj2 (Z.eqb_neq _ _) Hi) in HA.
  pose proof (mode_b _ _ _ Hm) as Hc. pose proof (mode_even _ _ _ Hm) as Hev. pose proof (mode_below _ _ _ Hm) as Hbel.
  destruct (at_row _ _ _ _ _ (mode_row _ _ _ Hm)) as (_ & _ & _ & _ & Hrr & _). clear Hm.
  rewrite Z.max_r in Ha by lia. assert (b_cursor d <= j + 1) as Hcj.
  { destruct (Z_lt_le_dec (j + 1) (b_cursor d)); [|done]. specialize (Hbel j ltac:(lia) He). lia. }
  clear Hbel. revert d Ha Hc Hev Hrr Hcj. induction fuel as [|fuel IH]; intros d Ha [Hc Eb] Hev Hrr Hcj Hf; cbn [past_a0].
  - assert (b_cursor d = j + 1) as Ec by lia. rewrite Eb, Ec, before_S, Ha by done. rewrite (proj2 (Z.ltb_lt _ _)) by lia.
    f_equal. rewrite Ec, before_S in Eb by done. destruct d; cbn in *. by subst.
  - destruct (Z.eq_dec (b_cursor d) (j + 1)) as [Ec|Hne].
    + rewrite Eb, Ec, before_S, Ha by done. rewrite (proj2 (Z.ltb_lt _ _)) by lia.
      f_equal. rewrite Ec, before_S in Eb by done. destruct d; cbn in *. by subst.
    + assert (b_cursor d + 2 <= j + 1) as Hc2.
      { destruct (Z.eq_dec (b_cursor d) j) as [E|]; [|lia]. replace (b_cursor d - 1 - i) with (Z.pred (j - i)) in Hev by lia.
        rewrite Z.even_pred, <- Z.negb_even, He in Hev. done. }
      assert (b1 d <= A) as Hle.
      { rewrite Eb. unfold before. destruct (Z.leb_spec (b_cursor d) 0); [lia|]. apply Hb; [lia|].
        replace (j - (b_cursor d - 1)) with (j - i - (b_cursor d - 1 - i)) by lia. by rewrite Z.even_sub, He, Hev. }
      rewrite Ha, (proj2 (Z.ltb_ge _ _)), Hrr by lia. rewrite !(ref_at _ _ _ _ Href) by lia. cbn [mbind option_bind].
      rewrite (IH (d <| b1 := _ |> <| b_cursor := _ |>)); [done|done| |cbn|done|cbn; lia|cbn; lia].
      * cbn. split; [lia|]. replace (b_cursor d + 2) with (b_cursor d + 1 + 1) by lia. rewrite !before_S, Eb by lia. lia.
      * replace (b_cursor d + 2 - 1 - i) with (b_cursor d - 1 - i + 2) by lia. by rewrite Z.even_add, Hev.
Qed.

Lemma seek d A i j : in_mode d A i -> first_right b A i j ->
  exists d1, (if a_cursor d =? 0 then Some d else past_a0 (length (ref_runs d)) d) = Some d1 /\
    in_mode d1 A i /\ b_cursor d1 = j + 1 /\ b1 d1 = b j.
Proof.
  intros Hm Hf. rewrite (at_cursor _ _ _ _ _ (mode_row _ _ _ Hm)). destruct (Z.eqb_spec i 0) as [->|Hi].
  - exists d. split; [done|]. split; [done|]. pose proof (mode_first _ _ _ Hm) as [Hc HA]. destruct (mode_b _ _ _ Hm) as [_ Eb].
    destruct Hf as (Hj & He & Hr & Hb). pose proof (mode_even _ _ _ Hm) as Hev. pose proof (mode_below _ _ _ Hm) as Hbel.
    assert (b1 d = b (b_cursor d - 1)) as Eb' by (rewrite Eb; unfold before; by rewrite (proj2 (Z.leb_gt _ _)) by lia).
    assert (b_cursor d = j + 1) as Ec.
    { destruct (Z.lt_trichotomy (b_cursor d - 1) j) as [Hlt|[|Hgt]]; [|lia|].
      - specialize (Hb (b_cursor d - 1) ltac:(lia)). rewrite Z.sub_0_r in *. replace (j - (b_cursor d - 1)) with (j - 0 - (b_cursor d - 1)) in Hb by lia.
        rewrite Z.even_sub, Z.sub_0_r, He, Hev in Hb. specialize (Hb eq_refl). lia.
      - specialize (Hbel j ltac:(lia) He). lia. }
    split; [done|]. by rewrite Eb', Ec, Z.add_simpl_r.
  - exists (d <| b1 := b j |> <| b_cursor := j + 1 |>). split; [|split; [|done]].
    + apply (past_a0_spec _ _ A i); try done. pose proof (first_right_le A i j ltac:(apply (mode_range _ _ _ Hm)) Hf).
      pose proof (ref_at _ _ _ _ Href last ltac:(destruct (ref_last _ _ _ _ Href); lia)) as E.
      unfold at_index in E. destruct (last <? 0); [done|]. apply lookup_lt_Some in E.
      destruct (at_row _ _ _ _ _ (mode_row _ _ _ Hm)) as (_ & _ & _ & _ & -> & _). destruct (mode_b _ _ _ Hm). lia.
    + destruct Hf as (Hj & He & Hr & Hb). destruct Hm as [Hat Hw Hp Hrg Hb1 Hev Hbel Hfst].
      destruct Hat as [(H1 & H2 & H3 & H4 & H5 & H6 & H7 & H8) Hrg' Hcur Hruns Hlen Hpend Ha0].
      split; [row_fields|cbn; try done..].
      * split; [lia|]. by rewrite before_S.
      * by replace (j + 1 - 1 - i) with (j - i) by lia.
      * intros k Hk Hek. apply Hb; [lia|]. replace (j - k) with (j - i - (k - i)) by lia. by rewrite Z.even_sub, He, Hek.
      * destruct (i =? 0); [lia|done].
Qed.

(** ** The modes *)

Definition do_mode (k : Z) (d : t4_dec_t) : option t4_dec_t :=
  if k <? 7 then vertical_mode (3 - k) d else if k =? 7 then Some (horizontal_mode d) else pass_mode d.

(** The word of a mode, which leaves the decoder in [d2] before the row is checked
    for its end. *)
Lemma mode_word_reads k rest d A i d1 d2 d3 : 0 <= k < 9 -> in_mode d A i -> opening rest -> (12 <= length rest)%nat ->
  (if a_cursor d =? 0 then Some d else past_a0 (length (ref_runs d)) d) = Some d1 -> do_mode k d1 = Some d2 ->
  scan_end (drop_bits d2 (zlen (mode_word k))) = Some d3 ->
  rx_skip_bits d3 = zlen (mode_word k) - 1 -> 0 <= consecutive_eols d3 ->
  reads rest d (mode_word k) (d3 <| rx_skip_bits := 0 |>).
Proof.
  intros Hk Hm Ho Hr E1 E2 E3 Hs Hc. pose proof (mode_word_good k Hk) as Hg. pose proof (mode_more _ _ _ Hm) as Hi.
  destruct (at_row _ _ _ _ _ (mode_row _ _ _ Hm)) as (_ & _ & Hw & H2 & _ & _ & Hc0 & _).
  destruct (mode_word_next _ _ _ Hm) as [Hbw Hs0]. pose proof (before_lt w ends Hok i Hi).
  pose proof (at_length _ _ _ _ _ (mode_row _ _ _ Hm)) as Hl.
  assert (1 <= length (mode_word k))%nat by (destruct (mode_word k); [done|cbn [length]; lia]).
  apply word_reads; [lia|done|done|done|done|done| |done]. unfold scan_code.
  rewrite H2, Htwo, Hbw. cbn [Z.eqb andb]. rewrite Hw, (room_width _ _ Hroom), Hl, (proj2 (Z.leb_gt _ _)) by done.
  unfold scan_mode. rewrite mode_lookup by (done || rewrite length_app; lia). cbn [mbind option_bind state param width].
  rewrite E1. cbn [mbind option_bind]. unfold do_mode in E2.
  destruct (k <? 7); [by rewrite E2|]. destruct (k =? 7); [by injection E2 as ->|]. by rewrite E2.
Qed.

(** After a mode the row is coded up to [A]. *)
Definition after_mode (d : t4_dec_t) (A i : Z) : Prop :=
  if A <? w then in_mode d A i else row_over w ends d0 l n d.

Lemma parity_S i j : Z.even (j - i) = true -> Z.even (j + 1 - (i + 1)) = true.
Proof. by replace (j + 1 - (i + 1)) with (j - i) by lia. Qed.

Lemma vertical_at d A i j : in_mode d A i -> first_right b A i j -> b_cursor d = j + 1 -> b1 d = b j ->
  exists d', vertical_mode (a i - b j) d = Some d' /\ row_at w ends d0 d' (i + 1) /\ run_length d' = 0 /\
    black_white d' = 0 /\ rx_skip_bits d' = 0 /\
    0 <= b_cursor d' /\ b1 d' = before b (b_cursor d') /\
    b_cursor d' = (if 0 <=? a i - b j then j + 2 else j).
Proof.
  intros Hm Hf Ec Eb. pose proof (mode_more _ _ _ Hm) as Hi. pose proof (mode_a0 _ _ _ Hm) as Ha.
  pose proof (mode_range _ _ _ Hm) as [HA HAw]. pose proof (first_right_le A i j HAw Hf) as Hjl. destruct Hf as (Hj & _).
  pose proof (mode_row _ _ _ Hm) as [(H1 & H2 & H3 & H4 & H5 & H6 & H7 & H8) Hr Hcur Hruns Hlen Hp Ha0].
  pose proof (mode_pos _ _ _ Hm) as Hpos. destruct (mode_word_next _ _ _ Hm) as [Hbw Hs].
  pose proof (before_le w ends Hok i ltac:(lia)) as Hble. unfold vertical_mode. cbv zeta.
  match goal with |- context [add_run_to_row ?x] => set (d1 := x) end.
  assert (row_at w ends d0 d1 i) as Hat1.
  { subst d1. split; [unfold same_row; by split_and!|done..| |]; cbn; rewrite Eb; lia. }
  destruct (add_run_at w ends Hok d0 d1 i Hroom Hat1) as (d2 & -> & Hat2 & Hr2 & (M1 & M2 & M3 & M4 & M5)); [lia|subst d1; cbn; lia|].
  cbn [mbind option_bind]. assert (b1 d2 = b j) as Eb2 by (by rewrite M1). assert (b_cursor d2 = j + 1) as Ec2 by (by rewrite M2).
  assert (black_white d2 = 0 /\ rx_skip_bits d2 = 0) as [Hbw2 Hs2] by (rewrite M3, M5; done). clear M1 M2 M3 M4 M5.
  destruct (at_row _ _ _ _ _ Hat2) as (_ & _ & _ & _ & Hrr & _).
  assert (forall y z, row_at w ends d0 (d2 <| b1 := y |> <| b_cursor := z |>) (i + 1)) as Hmove.
  { intros y z. destruct Hat2 as [(? & ? & ? & ? & ? & ? & ? & ?) ? ? ? ? ? ?]. row_fields. }
  rewrite Hrr, Ec2, Eb2. destruct (Z.leb_spec 0 (a i - b j)) as [Hpl|Hng].
  - rewrite (ref_at _ _ _ _ Href) by lia. rewrite before_S by done. cbn [mbind option_bind]. eexists. split; [done|].
    split_and!; try done; cbn; try lia. replace (j + 1 + 1) with (j + 1 + 1) by lia. rewrite before_S by lia. lia.
  - rewrite (proj2 (Z.eqb_neq (j + 1) 0)), Z.add_simpl_r by lia. rewrite (ref_at _ _ _ _ Href) by lia. cbn [mbind option_bind].
    eexists. split; [done|]. split_and!; try done; cbn; lia.
Qed.

Lemma next_end i : 0 <= i < N -> (a i <? w) = (i + 1 <? N).
Proof.
  intros Hi. pose proof (end_at_inside w ends i Hok ltac:(lia)) as H. pose proof (end_at_range w ends i Hok ltac:(lia)).
  destruct (Z.ltb_spec (a i) w), (Z.ltb_spec (i + 1) N); [done|lia|lia|done].
Qed.

Lemma eols_row d i : row_at w ends d0 d i -> 0 <= consecutive_eols d.
Proof. intros Hat. destruct (at_row _ _ _ _ _ Hat) as (_ & _ & _ & _ & _ & _ & -> & _). lia. Qed.

(** The state behind a vertical mode within the row. *)
Lemma vertical_next d d' A i j : in_mode d A i -> first_right b A i j -> i + 1 < N ->
  row_at w ends d0 d' (i + 1) -> run_length d' = 0 -> black_white d' = 0 -> rx_skip_bits d' = 0 ->
  0 <= b_cursor d' -> b1 d' = before b (b_cursor d') -> b_cursor d' = (if 0 <=? a i - b j then j + 2 else j) ->
  in_mode d' (a i) (i + 1).
Proof.
  intros Hm (Hj & He & Hfr & Hbel) Hlt Hat Hr Hbw Hs Hc Hb Ec. pose proof (mode_more _ _ _ Hm) as Hi.
  pose proof (mode_range _ _ _ Hm) as [HA HAw]. pose proof (end_at_range w ends i Hok ltac:(lia)) as Hrange.
  assert (a i < w) as Hin by (apply Z.ltb_lt; rewrite next_end by done; by apply Z.ltb_lt).
  pose proof (end_at_lt w ends i Hok ltac:(lia) Hin) as Hup.
  split; [done|done| |lia|done|..].
  - rewrite (at_length _ _ _ _ _ Hat), before_S, Hr by lia. lia.
  - rewrite Ec. destruct (0 <=? a i - b j).
    + by replace (j + 2 - 1 - (i + 1)) with (j - i) by lia.
    + replace (j - 1 - (i + 1)) with (j - i - 2) by lia. by rewrite Z.even_sub, He.
  - rewrite Ec. intros q Hq Hqe. assert (Z.even (j + 1 - q) = true) as Hje.
    { replace (j + 1 - q) with (j - i - (q - (i + 1))) by lia. by rewrite Z.even_sub, He, Hqe. }
    destruct (Z.leb_spec 0 (a i - b j)) as [Hp|Hp]; [pose proof (ref_le q j); lia|].
    destruct (Z.eq_dec q (j - 2)) as [->|Hq2]; [replace (j + 1 - (j - 2)) with 3 in Hje by lia; done|].
    destruct (Z.eq_dec q (j - 3 + 2)) as [->|Hq3]; [lia|]. pose proof (ref_le q (j - 2)).
    specialize (Hbel (j - 2) ltac:(lia)). replace (j - (j - 2)) with 2 in Hbel by lia. specialize (Hbel eq_refl). lia.
  - rewrite (proj2 (Z.eqb_neq _ _)) by lia. lia.
Qed.

Lemma vertical_reads rest d A i j : in_mode d A i -> first_right b A i j -> Z.abs (b j - a i) <= 3 ->
  opening rest -> (12 <= length rest)%nat ->
  exists d', reads rest d (mode_word (b j - a i + 3)) d' /\ after_mode d' (a i) (i + 1).
Proof.
  intros Hm Hf Habs Ho Hr. destruct (seek d A i j Hm Hf) as (d1 & E1 & Hm1 & Ec & Eb).
  pose proof (mode_more _ _ _ Hm) as Hi.
  destruct (vertical_at d1 A i j Hm1 Hf Ec Eb) as (d2 & E2 & Hat & Hr2 & Hbw & Hs & Hc & Hb & Ec2).
  set (k := b j - a i + 3). assert (0 <= k < 9) as Hk by lia. assert (do_mode k d1 = Some d2) as Edo.
  { unfold do_mode. subst k. rewrite (proj2 (Z.ltb_lt _ _)) by lia. rewrite <- E2. f_equal. lia. }
  set (d3 := drop_bits d2 (zlen (mode_word k))). pose proof (row_at_dropped w ends d0 d2 (i + 1) (zlen (mode_word k)) Hat) as Hat3.
  fold d3 in Hat3. assert (rx_skip_bits d3 = zlen (mode_word k) - 1) as Hs3 by (subst d3; cbn; lia).
  unfold after_mode. rewrite next_end by done. destruct (Z.ltb_spec (i + 1) N) as [Hlt|Hge].
  - pose proof (scan_end_on w ends Hok d0 Hroom d3 (i + 1) Hat3 (or_intror Hlt)) as E3.
    destruct (clip_same d3) as [(Q1 & Q2 & Q3 & Q4 & Q5) [Q6 Q7]]. pose proof (row_at_clip w ends d0 Hroom _ _ Hat3) as Hat4.
    exists (clip d3 <| rx_skip_bits := 0 |>). split.
    + apply (mode_word_reads k rest d A i d1 d2 (clip d3)); try done; [congruence|by eapply eols_row].
    + apply (vertical_next d _ A i j); try done; [by apply row_at_unskipped|cbn..].
      * by rewrite Q6.
      * by rewrite Q3.
      * by rewrite Q2.
      * by rewrite Q1, Q2.
      * by rewrite Q2.
  - assert (i + 1 = N) as Ei by lia. rewrite Ei in Hat3.
    destruct (scan_end_over w ends Hok d0 l n Hroom Hpage Hpaint d3 Hat3 Hr2 Hbw) as (d4 & E4 & S4 & C4 & Hover).
    exists (d4 <| rx_skip_bits := 0 |>). split; [|done].
    apply (mode_word_reads k rest d A i d1 d2 d4); try done. congruence.
Qed.

(** The word of horizontal mode. *)
Lemma horizontal_word rest d A i j : in_mode d A i -> first_right b A i j -> opening rest -> (12 <= length rest)%nat ->
  exists d', reads rest d (mode_word 7) d' /\ row_at w ends d0 d' i /\ before a i + run_length d' = Z.max 0 A /\
    rx_skip_bits d' = 0 /\ black_white d' = 2 /\ its_black d' = Z.odd i /\ b_cursor d' = j + 1 /\ b1 d' = b j.
Proof.
  intros Hm Hf Ho Hr. destruct (seek d A i j Hm Hf) as (d1 & E1 & Hm1 & Ec & Eb).
  destruct (mode_word_next _ _ _ Hm1) as [Hbw Hs]. pose proof (mode_pos _ _ _ Hm1) as Hp.
  pose proof (at_length _ _ _ _ _ (mode_row _ _ _ Hm1)) as Hl. pose proof (at_cursor _ _ _ _ _ (mode_row _ _ _ Hm1)) as Hcur.
  set (d3 := drop_bits (horizontal_mode d1) (zlen (mode_word 7))).
  assert (row_at w ends d0 d3 i) as Hat3 by (apply row_at_dropped, row_at_white, row_at_black, Hm1).
  assert (black_white d3 = 2 /\ its_black d3 = Z.odd i) as [W3 B3] by (split; [done|]; cbn; by rewrite Hcur).
  pose proof (scan_end_on w ends Hok d0 Hroom d3 i Hat3) as E3. rewrite W3 in E3. specialize (E3 ltac:(by left)).
  destruct (clip_same d3) as [(Q1 & Q2 & Q3 & Q4 & Q5) [Q6 Q7]]. pose proof (row_at_clip w ends d0 Hroom _ _ Hat3) as Hat4.
  exists (clip d3 <| rx_skip_bits := 0 |>). split.
  - apply (mode_word_reads 7 rest d A i d1 (horizontal_mode d1) (clip d3)); try done; [|by eapply eols_row].
    rewrite Q5. subst d3. cbn [drop_bits]. change (rx_skip_bits d1 + (zlen (mode_word 7) - 1) = zlen (mode_word 7) - 1). lia.
  - split; [by apply row_at_unskipped|]. cbn. rewrite Q6, Q3, Q4, Q1, Q2, B3.
    split_and!; [|done|done|done|exact Ec|exact Eb]. change (run_length d3) with (run_length d1). lia.
Qed.

Lemma horizontal_reads rest d A i j : in_mode d A i -> first_right b A i j -> opening rest -> (12 <= length rest)%nat ->
  exists d', reads rest d (concat (mode_words (Z.odd i) (Horizontal (a i - Z.max 0 A) (a (i + 1) - a i)))) d' /\
    after_mode d' (a (i + 1)) (i + 2).
Proof.
  intros Hm Hf Ho Hr. pose proof (mode_more _ _ _ Hm) as Hi. pose proof (mode_range _ _ _ Hm) as [HA HAw].
  pose proof (end_at_range w ends i Hok ltac:(lia)) as Hri. pose proof (end_at_le w ends i (i + 1) Hok ltac:(lia)) as Hle.
  set (w1 := run_words (Z.odd i) (a i - Z.max 0 A)). set (w2 := run_words (negb (Z.odd i)) (a (i + 1) - a i)).
  assert (Forall (fun x => good x = true) w1 /\ Forall (fun x => good x = true) w2) as [G1 G2]
    by (split; apply run_words_all_good; lia).
  cbn [mode_words concat]. fold w1 w2. rewrite concat_app.
  destruct (horizontal_word (concat w1 ++ concat w2 ++ rest) d A i j Hm Hf) as (d1 & E1 & Hat1 & P1 & S1 & W1 & B1 & C1 & D1);
    [by apply words_opening, words_opening|rewrite !length_app; lia|].
  destruct (run_reads w ends Hok d0 l n Hroom Hpage Hpaint (Z.odd i) (a i - Z.max 0 A) (concat w2 ++ rest) d1 i (i + 1) Hat1)
    as (d2 & E2 & Hset); [lia|left; split_and!; lia|done|by apply words_opening|rewrite length_app; lia|by rewrite W1, andb_false_r|done|].
  unfold settled in Hset. rewrite W1, andb_false_r in Hset. destruct Hset as (Hat2 & R2 & S2 & W2 & B2 & C2 & D2).
  set (i' := Z.min (i + 2) N).
  assert (completes w ends d2 (i + 1) (a (i + 1) - a i) i') as Hcomp.
  { unfold completes. subst i'. destruct (Z_lt_le_dec (i + 1) N).
    - left. rewrite before_S by lia. split_and!; lia.
    - right. assert (i + 1 = N) as E by lia. assert (a i = w) as ->.
      { pose proof (next_end i Hi) as H. rewrite E, Z.ltb_irrefl in H. apply Z.ltb_ge in H. lia. }
      assert (a (i + 1) = w) as -> by (unfold end_at; rewrite E, Z.ltb_irrefl; done). split_and!; lia. }
  destruct (run_reads w ends Hok d0 l n Hroom Hpage Hpaint (negb (Z.odd i)) (a (i + 1) - a i) rest d2 (i + 1) i' Hat2)
    as (d3 & E3 & Hset); [lia|done|done|done|done|by rewrite W2, andb_false_r|done|].
  exists d3. split; [eapply reads_app; [rewrite <- app_assoc; exact E1|eapply reads_app; [exact E2|exact E3]]|].
  unfold settled in Hset. rewrite W2 in Hset. change (count_down 1 =? 0) with true in Hset. rewrite andb_true_r in Hset.
  unfold after_mode. assert ((a (i + 1) <? w) = negb (i' =? N)) as ->.
  { subst i'. destruct (Z_lt_le_dec (i + 1) N).
    - rewrite next_end by lia. destruct (Z.ltb_spec (i + 1 + 1) N), (Z.eqb_spec (Z.min (i + 2) N) N); try done; lia.
    - replace (Z.min (i + 2) N) with N by lia. rewrite Z.eqb_refl. unfold end_at. rewrite (proj2 (Z.ltb_ge (i + 1) N)) by lia. apply Z.ltb_irrefl. }
  destruct (Z.eqb_spec i' N) as [|Hne]; [done|]. cbn [negb]. destruct Hset as (Hat3 & R3 & S3 & W3 & _ & C3 & D3).
  assert (i' = i + 2 /\ i + 2 < N) as [Ei Hlt] by lia. rewrite Ei in Hat3. destruct Hf as (Hj & He & Hfr & Hbel).
  assert (a (i + 1) < a (i + 2)) as Hup.
  { replace (i + 2) with (i + 1 + 1) by lia. apply end_at_lt; [done|lia|]. apply Z.ltb_lt. rewrite next_end by lia. apply Z.ltb_lt. lia. }
  pose proof (end_at_range w ends (i + 2) Hok ltac:(lia)). split; [done|done| |lia|..].
  - rewrite (at_length _ _ _ _ _ Hat3). replace (i + 2) with (i + 1 + 1) by lia. rewrite before_S, R3 by lia. lia.
  - rewrite D3, D2, C1, C3, C2, D1, before_S by done. split; [lia|done].
  - rewrite D3, D2, C1. replace (j + 1 - 1 - (i + 2)) with (j - i - 2) by lia. by rewrite Z.even_sub, He.
  - rewrite D3, D2, C1. intros q Hq Hqe. specialize (Hbel q ltac:(lia)).
    replace (j - q) with (j - i - (q - (i + 2) + 2)) in Hbel by lia. rewrite (Z.even_sub (j - i)), He, Z.even_add, Hqe in Hbel.
    specialize (Hbel eq_refl). lia.
  - rewrite (proj2 (Z.eqb_neq _ _)) by lia. lia.
Qed.

Lemma pass_reads rest d A i j : in_mode d A i -> first_right b A i j -> b (j + 1) < a i ->
  opening rest -> (12 <= length rest)%nat ->
  exists d', reads rest d (mode_word 8) d' /\ in_mode d' (b (j + 1)) i.
Proof.
  intros Hm Hf Hpass Ho Hr. destruct (seek d A i j Hm Hf) as (d1 & E1 & Hm1 & Ec & Eb).
  pose proof (mode_more _ _ _ Hm) as Hi. pose proof (mode_range _ _ _ Hm) as [HA HAw].
  pose proof (end_at_range w ends i Hok ltac:(lia)) as Hri. pose proof (mode_a0 _ _ _ Hm1) as Ha.
  pose proof (mode_pos _ _ _ Hm1) as Hpos. destruct (mode_word_next _ _ _ Hm1) as [Hbw Hs].
  pose proof (first_right_le A i j HAw Hf) as Hjl. destruct Hf as (Hj & He & Hfr & Hbel).
  destruct (ref_last _ _ _ _ Href) as [Hlast Hblast]. pose proof (ref_first _ _ _ _ Href) as Hb0.
  pose proof (ref_le 0 j ltac:(lia)). pose proof (ref_mono _ _ _ _ Href j Hj). pose proof (ref_strict _ _ _ _ Href (j + 1) ltac:(lia) ltac:(lia)) as Hup.
  assert (j + 1 < last) as Hjl2.
  { destruct (Z_lt_le_dec (j + 1) last); [done|]. pose proof (ref_le last (j + 1) ltac:(lia)). lia. }
  assert (pass_mode d1 = Some (d1 <| b1 := b (j + 1 + 1) |> <| run_length := b (j + 1) - row_len d1 |> <| a0 := b (j + 1) |>
    <| b_cursor := j + 1 + 2 |>)) as E2.
  { destruct (at_row _ _ _ _ _ (mode_row _ _ _ Hm1)) as (_ & _ & _ & _ & Hrr & _). unfold pass_mode. rewrite Hrr, Ec.
    rewrite (ref_at _ _ _ _ Href) by lia. rewrite before_S by done. cbn [mbind option_bind]. cbv zeta.
    change (ref_runs (d1 <| b1 := _ |> <| run_length := _ |> <| a0 := _ |>)) with (ref_runs d1).
    change (b_cursor (d1 <| b1 := _ |> <| run_length := _ |> <| a0 := _ |>)) with (b_cursor d1).
    rewrite Hrr, Ec, (ref_at _ _ _ _ Href) by lia. rewrite before_S by lia. cbn [mbind option_bind].
    set (r1 := b (j + 1) - b j) in *. set (r2 := b (j + 1 + 1) - b (j + 1)) in *.
    transitivity (Some (d1 <| b1 := b1 d1 + r1 + r2 |> <| run_length := run_length d1 + (b1 d1 + r1 - a0 d1) |>
      <| a0 := b1 d1 + r1 |> <| b_cursor := j + 1 + 2 |>)); [reflexivity|].
    replace (b1 d1 + r1) with (b (j + 1)) by lia. replace (b (j + 1) + r2) with (b (j + 1 + 1)) by lia.
    replace (run_length d1 + (b (j + 1) - a0 d1)) with (b (j + 1) - row_len d1) by lia. done. }
  match type of E2 with _ = Some ?x => set (d2 := x) in * end. set (d3 := drop_bits d2 (zlen (mode_word 8))).
  assert (row_at w ends d0 d3 i) as Hat3.
  { subst d3 d2. apply row_at_dropped. destruct (mode_row _ _ _ Hm1) as [(? & ? & ? & ? & ? & ? & ? & ?) ? ? ? ? Hpp ?].
    split; [unfold same_row; by split_and!|done..|cbn; lia|cbn; lia]. }
  pose proof (scan_end_on w ends Hok d0 Hroom d3 i Hat3 (or_intror (proj2 Hi))) as E3.
  destruct (clip_same d3) as [(Q1 & Q2 & Q3 & Q4 & Q5) [Q6 Q7]]. pose proof (row_at_clip w ends d0 Hroom _ _ Hat3) as Hat4.
  exists (clip d3 <| rx_skip_bits := 0 |>). split.
  - apply (mode_word_reads 8 rest d A i d1 d2 (clip d3)); try done; [|by eapply eols_row].
    rewrite Q5. change (rx_skip_bits d1 + (zlen (mode_word 8) - 1) = zlen (mode_word 8) - 1). lia.
  - assert (b_cursor d3 = j + 1 + 2 /\ b1 d3 = b (j + 1 + 1) /\ black_white d3 = 0 /\ row_len d3 + run_length d3 = b (j + 1)) as (F1 & F2 & F3 & F4).
    { split_and!; [done|done|done|]. change (row_len d1 + (b (j + 1) - row_len d1) = b (j + 1)). lia. }
    split; [by apply row_at_unskipped|cbn..|].
    + by rewrite Q3.
    + rewrite Q6, Q7. lia.
    + lia.
    + rewrite Q1, Q2, F1, F2. replace (j + 1 + 2) with (j + 1 + 1 + 1) by lia. rewrite before_S by lia. split; [lia|done].
    + rewrite Q2, F1. replace (j + 1 + 2 - 1 - i) with (j - i + 2) by lia. by rewrite Z.even_add, He.
    + rewrite Q2, F1. intros q Hq Hqe. destruct (Z.eq_dec q (j + 1)) as [->|]; [lia|]. pose proof (ref_le q j ltac:(lia)). lia.
    + cbn. rewrite Q1, Q2, F1, F2. destruct (i =? 0); lia.
Qed.

(** The modes of a row, up to its end. *)
Theorem modes_read A i ms : coding a b w A i ms -> forall rest d, in_mode d A i ->
  opening rest -> (12 <= length rest)%nat ->
  exists d', reads rest d (concat (modes_words i ms)) d' /\ row_over w ends d0 l n d'.
Proof.
  induction 1 as [i|A i j ms HA Hf Hle Habs Hc IH|A i j ms HA Hf Hle Habs Hc IH|A i j ms HA Hf Hle Hc IH]; intros rest d Hm Ho Hr;
    [pose proof (mode_range _ _ _ Hm); lia|..]; pose proof (mode_more _ _ _ Hm) as Hi;
    pose proof (mode_range _ _ _ Hm) as [Hrange _]; pose proof (end_at_range w ends i Hok ltac:(lia)) as Hri;
    cbn [modes_words]; rewrite concat_app; set (tl := concat (modes_words _ ms)) in *.
  - pose proof (end_at_le w ends i (i + 1) Hok ltac:(lia)).
    assert (opening (tl ++ rest)) as Hot by (apply words_opening; [|done]; eapply modes_good; [exact Hok|exact ref_nonneg|exact Hc|lia..]).
    destruct (vertical_reads (tl ++ rest) d A i j Hm Hf Habs Hot) as (d1 & E1 & Hafter); [rewrite length_app; lia|].
    cbn [mode_words concat]. rewrite app_nil_r. unfold after_mode in Hafter. destruct (Z.ltb_spec (a i) w).
    + destruct (IH rest d1 Hafter Ho Hr) as (d' & E & Hover). exists d'. split; [by eapply reads_app|done].
    + assert (tl = []) as Et by (inversion Hc; subst; [done|lia..]). rewrite Et in *. rewrite app_nil_r. by exists d1.
  - pose proof (end_at_le w ends (i + 1) (i + 2) Hok ltac:(lia)). pose proof (end_at_range w ends (i + 1) Hok ltac:(lia)).
    assert (opening (tl ++ rest)) as Hot by (apply words_opening; [|done]; eapply modes_good; [exact Hok|exact ref_nonneg|exact Hc|lia..]).
    destruct (horizontal_reads (tl ++ rest) d A i j Hm Hf Hot) as (d1 & E1 & Hafter); [rewrite length_app; lia|].
    unfold after_mode in Hafter. destruct (Z.ltb_spec (a (i + 1)) w).
    + destruct (IH rest d1 Hafter Ho Hr) as (d' & E & Hover). exists d'. split; [by eapply reads_app|done].
    + assert (tl = []) as Et by (inversion Hc; subst; [done|lia..]). rewrite Et in *. rewrite app_nil_r. by exists d1.
  - assert (opening (tl ++ rest)) as Hot.
    { apply words_opening; [|done]. pose proof (ref_nonneg (j + 1) ltac:(destruct Hf; lia)). eapply modes_good; [exact Hok|exact ref_nonneg|exact Hc|lia..]. }
    destruct (pass_reads (tl ++ rest) d A i j Hm Hf Hle Hot) as (d1 & E1 & Hm1); [rewrite length_app; lia|].
    destruct (IH rest d1 Hm1 Ho Hr) as (d' & E & Hover). exists d'. split; [|done]. cbn [mode_words concat]. rewrite app_nil_r. by eapply reads_app.
Qed.
End two_dimensions.
