(* ===== verification/T4Lines.v ===== *)
(** * From row to row (src/spandsp-0.0.6/src/t4_rx.c, [rx_put_bits])

    In T.6 a row follows at once; in T.4 the decoder waits for an EOL, before which
    there may be fill. *)
From S2P Require Import Prelude T4Tables T4Base T4Rx T4Spec T4Out T4Words T4Line T4Pixels T4Row T4Codes T4TwoD.

(** The runs of a row are those of the reference of the next. *)
Lemma row_reference w ends rr : ends_ok w ends -> row_runs ends rr -> reference_runs w (end_at w ends) (zlen ends - 1) rr.
Proof.
  intros Hok [stale ->]. pose proof (ends_some _ _ Hok) as Hs. pose proof (length_lengths 0 ends) as Hl. split.
  - split; [lia|]. unfold end_at. rewrite (proj2 (Z.ltb_lt _ _)) by lia. by rewrite (ends_last _ _ Hok).
  - apply (end_at_range w); [done|lia].
  - intros k Hk. apply end_at_le; [done|lia].
  - intros k Hk Hlt. by apply end_at_lt.
  - intros k Hk. apply at_index_Some; [lia|]. destruct (Z_lt_le_dec k (zlen ends)) as [Hlt|Hge].
    + rewrite lookup_app_l by lia. apply run_at; lia.
    + rewrite lookup_app_r by lia.
      assert (end_at w ends k - before (end_at w ends) k = 0) as ->.
      { unfold before. rewrite (proj2 (Z.leb_gt _ _)) by lia. unfold end_at at 1. rewrite (proj2 (Z.ltb_ge _ _)) by lia.
        pose proof (end_at_range w ends (k - 1) Hok ltac:(lia)). pose proof (end_at_inside w ends (k - 1) Hok ltac:(lia)). lia. }
      assert (k = zlen ends \/ k = zlen ends + 1) as [-> | ->] by lia.
      * by replace (Z.to_nat (zlen ends) - length (lengths 0 ends))%nat with O by lia.
      * by replace (Z.to_nat (zlen ends + 1) - length (lengths 0 ends))%nat with 1%nat by lia.
Qed.

Section pages.
Context (enc w : Z).

(** A row begins behind [n] rows with the pixels [l]. *)
Record rx_ready (d : t4_dec_t) (l : list bool) (n : Z) : Prop := {
  rx_room : room w d;
  rx_page : page_at d l n;
  rx_row : row_begins d;
  rx_enc : line_encoding d = enc;
}.

(** The reference of a two-dimensional row of the pixels [px], as the decoder has
    it. *)
Definition for_reference (d : t4_dec_t) (refs : option (list Z)) (px : list bool) : Prop :=
  forall r ms, refs = Some r -> coding (end_at w (run_ends px)) (end_at w r) w (-1) 0 ms ->
  exists b last, reference_runs w b last (ref_runs d) /\ coding (end_at w (run_ends px)) b w (-1) 0 ms.

Lemma mode_begins d px b last l n : zlen px = w -> 0 < w -> rx_ready d l n -> reference_runs w b last (ref_runs d) ->
  in_mode w (run_ends px) d b d (-1) 0.
Proof.
  intros Hpx Hw [Hroom Hpage Hrow Henc] Href. assert (px <> []) as Hne by (destruct px; [cbn in Hpx; lia|done]).
  pose proof (run_ends_ok px Hne) as Hok. rewrite Hpx in Hok. pose proof (end_at_range w (run_ends px) 0 Hok ltac:(lia)).
  pose proof (row_starts w (run_ends px) d Hroom Hrow) as Hat.
  destruct Hrow as [H1 H2 H3 H4 [H5 H5'] [H6 H6'] H7 H8]. pose proof (ref_at _ _ _ _ Href 0) as E0.
  destruct (ref_last _ _ _ _ Href). rewrite H5' in E0. specialize (E0 ltac:(lia)). injection E0 as Eb.
  change (before b 0) with 0 in Eb. pose proof (ref_first _ _ _ _ Href).
  split; try done; try lia.
  - rewrite H5. change (before b 1) with (b 0). lia.
  - by rewrite H5.
  - cbn. lia.
Qed.

(** The codes of a row. *)
Lemma row_codes_read d l n two refs px ws rest : rx_ready d l n -> 0 < w -> zlen px = w -> row_code w two refs px ws ->
  row_is_2d d = two -> for_reference d refs px -> opening rest -> (12 <= length rest)%nat ->
  exists d', reads rest d (concat ws) d' /\ row_over w (run_ends px) d l n d'.
Proof.
  intros Hready Hw Hpx Hcode Htwo Href Ho Hr. assert (px <> []) as Hne by (destruct px; [cbn in Hpx; lia|done]).
  pose proof (run_ends_ok px Hne) as Hok. rewrite Hpx in Hok.
  assert (zlen (paint false (lengths 0 (run_ends px))) = w) as Hpaint by by rewrite paint_run_ends.
  pose proof Hready as [Hroom Hpage Hrow Henc]. unfold row_code in Hcode. destruct two.
  - destruct Hcode as (r & ms & -> & Hc & ->). destruct (Href r ms eq_refl Hc) as (b & last & Hb & Hc').
    pose proof (mode_begins d px b last l n Hpx Hw Hready Hb) as Hm.
    by apply (modes_read w (run_ends px) Hok d l n Hroom Hpage Hpaint b last Hb Htwo (-1) 0 ms).
  - subst ws. pose proof (ends_some _ _ Hok). pose proof (row_starts w (run_ends px) d Hroom Hrow) as Hat.
    destruct Hrow as [H1 H2 H3 H4 H5 [H6 H6'] H7 H8].
    apply (runs_read w (run_ends px) Hok d l n Hroom Hpage Hpaint rest (length (run_ends px)) d 0); try done; lia.
Qed.

(** What a line of rows begins with. *)
Lemma row_code_good two refs px ws : 0 < w -> zlen px = w -> (forall r, refs = Some r -> ends_ok w r) ->
  row_code w two refs px ws -> Forall (fun x => good x = true) ws.
Proof.
  intros Hw Hpx Hrefs Hcode. assert (px <> []) as Hne by (destruct px; [cbn in Hpx; lia|done]).
  pose proof (run_ends_ok px Hne) as Hok. rewrite Hpx in Hok. unfold row_code in Hcode. destruct two.
  - destruct Hcode as (r & ms & -> & Hc & ->). specialize (Hrefs r eq_refl). pose proof (end_at_range w (run_ends px) 0 Hok ltac:(lia)).
    eapply modes_good; [exact Hok| |exact Hc|lia|lia]. intros k Hk. by apply end_at_range.
  - subst ws. apply row_words_good. by apply (runs_nonneg w).
Qed.

Lemma zeros_open k rest : opening (repeat false (k + 11) ++ rest).
Proof. right. intros i Hi. rewrite app_nth1 by (rewrite repeat_length; lia). by rewrite nth_repeat_lt by lia. Qed.

Lemma start_open two start rest : enc <> 3 -> row_start enc two start -> opening (start ++ rest).
Proof.
  intros H3 Hs. unfold row_start in Hs. rewrite (proj2 (Z.eqb_neq _ _) H3) in Hs. destruct Hs as (_ & k & ->).
  unfold eol. rewrite <- !app_assoc, app_assoc, <- repeat_app. apply zeros_open.
Qed.

Lemma rows_open refs pxs bits refs' rest : 0 < w -> (forall r, refs = Some r -> ends_ok w r) ->
  coded_rows enc w refs pxs bits refs' -> opening rest -> opening (bits ++ rest).
Proof.
  intros Hw Hrefs Hc Ho. revert Hrefs. induction Hc as [refs|refs px pxs two start ws bits refs' Hpx Hs Hcode Hc IH]; intros Hrefs; [done|].
  rewrite <- !app_assoc. destruct (Z.eq_dec enc 3) as [->|H3]; [|by apply (start_open two)].
  unfold row_start in Hs. cbn [Z.eqb Pos.eqb] in Hs. destruct Hs as [_ ->]. cbn [app]. apply words_opening; [by eapply row_code_good|].
  apply IH. intros r [= <-]. rewrite <- Hpx. apply run_ends_ok. destruct px; [cbn in Hpx; lia|done].
Qed.
End pages.

(** ** The lines of a page *)

(** Twelve zeros, which are no code word. *)
Definition zeros (l : list bool) : Prop := (13 <= length l)%nat /\ take 12 l = repeat false 12.

Lemma zeros_eol k rest : zeros (repeat false (S k) ++ eol ++ rest).
Proof.
  replace (repeat false (S k) ++ eol ++ rest) with (repeat false 12 ++ repeat false k ++ true :: rest).
  - split; [rewrite !length_app, !repeat_length; cbn [length]; lia|]. by rewrite take_app_length' by by rewrite repeat_length.
  - unfold eol. rewrite <- !app_assoc. cbn [app]. rewrite !app_assoc, <- !repeat_app. do 2 f_equal. lia.
Qed.

Lemma zeros_low l n : zeros l -> (n <= 12)%nat -> of_lsb l .& Z.ones (Z.of_nat n) = 0.
Proof.
  intros [Hl Ht] Hn. rewrite of_lsb_low by lia. replace n with (Nat.min n 12) by lia. rewrite <- take_take, Ht.
  assert (forall k, of_lsb (repeat false k) = 0) as Hz by (induction k as [|k IH]; [done|]; cbn [repeat of_lsb]; by rewrite IH).
  do 13 (destruct n as [|n]; [done|]). lia.
Qed.

Lemma zeros_at_eol l : zeros l -> at_eol l = false.
Proof.
  intros Hz. unfold at_eol. change 0x0FFF with (Z.ones (Z.of_nat 12)). by rewrite zeros_low by (done || lia).
Qed.

Lemma zeros_13 l : zeros l -> of_lsb l .& 0x1FFF = 0 \/ of_lsb l .& 0x1FFF = 0x1000.
Proof.
  intros [Hl Ht]. change 0x1FFF with (Z.ones (Z.of_nat 13)). rewrite of_lsb_low by lia.
  assert (exists x, take 13 l = repeat false 12 ++ [x]) as [x ->].
  { rewrite <- Ht. destruct (lookup_lt_is_Some_2 l 12 ltac:(lia)) as [x Ex]. exists x. by apply take_S_r. }
  destruct x; [by right|by left].
Qed.

(** A row that is complete, in T.4. *)
Definition complete (w : Z) (ends : list Z) (d0 d : t4_dec_t) : Prop :=
  row_at w ends d0 d (zlen ends) /\ run_length d = 0 /\ black_white d = 0 /\ rx_skip_bits d = 0.

Lemma zeros_no_code bits l d : bits = of_lsb l -> zeros l -> black_white d = 0 ->
  image_width d <= row_len d -> line_encoding d <> 3 ->
  scan_code bits d = Some (if row_is_2d d then drop_bits d 1 else clip (drop_bits (d <| black_white := 0 |>) 1)).
Proof.
  intros -> Hz Hbw Hl H3. unfold scan_code. rewrite Hbw. cbn [Z.eqb andb]. rewrite (proj2 (Z.leb_le _ _) Hl).
  destruct (row_is_2d d); cbn [andb].
  - change 0x7F with (Z.ones (Z.of_nat 7)). rewrite zeros_low by (done || lia). reflexivity.
  - assert (forall d', line_encoding d' = line_encoding d -> scan_end d' = Some (clip d')) as He.
    { intros d' E. unfold scan_end. fold (clip d'). cbv zeta. assert (line_encoding (clip d') = line_encoding d) as ->.
      { unfold clip. by destruct (_ <=? _). }
      change T4_COMPRESSION_ITU_T6 with 3. by rewrite (proj2 (Z.eqb_neq _ _) H3). }
    assert (scan_run (of_lsb l) d = Some (d <| black_white := 0 |>, 1)) as ->; [|by apply He].
    unfold scan_run. destruct (its_black d).
    + by destruct (zeros_13 l Hz) as [-> | ->].
    + change 0xFFF with (Z.ones (Z.of_nat 12)). by rewrite zeros_low by (done || lia).
Qed.

Section lines.
Context (enc w : Z) (H3 : enc <> 3) (Hw : 0 < w).

(** A zero of fill. *)
Lemma complete_zero ends d0 d rest : ends_ok w ends -> room w d0 -> line_encoding d0 = enc -> complete w ends d0 d ->
  zeros (false :: rest) -> exists d', reads rest d [false] d' /\ complete w ends d0 d'.
Proof.
  intros Hok Hroom Henc (Hat & Hr & Hbw & Hs) Hz. pose proof (eols_row w ends d0 d _ Hat) as Hc.
  destruct (at_row _ _ _ _ _ Hat) as (F1 & _ & F3 & _). pose proof (at_length _ _ _ _ _ Hat) as Hl. rewrite before_N in Hl by done.
  pose proof (zeros_no_code _ _ d eq_refl Hz Hbw) as E. rewrite F1, F3, (room_width _ _ Hroom), Hl, Henc in E. specialize (E ltac:(lia) H3).
  assert (forall d', scan_code (of_lsb (false :: rest)) d = Some d' -> reads rest d [false] d') as Hstep.
  { intros d' E'. apply step_reads; [done|apply Hz|]. unfold scan. pose proof (zeros_at_eol _ Hz) as Hn. unfold at_eol in Hn.
    cbn [app]. rewrite Hn, Hs. cbn [Z.eqb negb]. by rewrite E'. }
  eexists. split; [apply Hstep, E|]. destruct (row_is_2d d).
  - split; [by apply row_at_dropped|]. split_and!; [done|done|cbn; lia].
  - destruct (clip_same (drop_bits (d <| black_white := 0 |>) 1)) as [(_ & _ & E1 & _ & E2) [E3 _]].
    split; [by apply row_at_clip, row_at_dropped, row_at_white|]. rewrite E1, E2, E3. cbn. split_and!; [done|done|lia].
Qed.

(** The decoder waits for the EOL of a row, the first one or another. *)
Inductive awaits (d : t4_dec_t) : list bool -> Z -> option (list Z) -> Prop :=
  | awaits_first : room w d -> page_at d [] 0 -> row_begins (d <| consecutive_eols := 0 |>) -> consecutive_eols d < 0 ->
      line_encoding d = enc -> awaits d [] 0 None
  | awaits_next d0 px l n : zlen px = w -> room w d0 -> page_at d0 l n -> line_encoding d0 = enc ->
      (enc <> 2 -> row_is_2d d0 = false) -> complete w (run_ends px) d0 d -> awaits d (l ++ px) (n + 1) (Some (run_ends px)).

Lemma any_step_reads rest d l d' : (13 <= length (l ++ rest))%nat ->
  any_scan (of_lsb (l ++ rest)) d = Some (d', Some (zlen l)) -> reads rest d l d'.
Proof. intros Hl E b df lf H. eapply runs_step; [done|done|]. by rewrite Nat2Z.id, drop_app_length. Qed.

Lemma px_ends px : zlen px = w -> ends_ok w (run_ends px).
Proof. intros <-. apply run_ends_ok. destruct px; [cbn in Hw; lia|done]. Qed.

Lemma fill_reads k rest d l n refs : awaits d l n refs ->
  exists d', reads (eol ++ rest) d (repeat false k) d' /\ awaits d' l n refs.
Proof.
  revert d. induction k as [|k IH]; intros d Ha; [exists d; split; [apply reads_nil|done]|].
  pose proof (zeros_eol k rest) as Hz. cbn [repeat app] in Hz. change (repeat false (S k)) with ([false] ++ repeat false k).
  assert (exists d1, reads (repeat false k ++ eol ++ rest) d [false] d1 /\ awaits d1 l n refs) as (d1 & E1 & Ha1).
  { destruct Ha as [Hroom Hpage Hrow Hc Henc|d0 px l n Hpx Hroom Hpage Henc H1 Hcomp].
    - exists d. split; [|by constructor]. apply any_step_reads; [apply Hz|]. unfold any_scan. rewrite (proj2 (Z.ltb_lt _ _)) by done.
      pose proof (zeros_at_eol _ Hz) as Hn. unfold at_eol in Hn. cbn [app]. by rewrite Hn.
    - destruct (complete_zero (run_ends px) d0 d _ (px_ends px Hpx) Hroom Henc Hcomp Hz) as (d1 & E1 & Hcomp1).
      exists d1. split; [done|]. by apply awaits_next with d0. }
  destruct (IH d1 Ha1) as (d' & E & Ha'). exists d'. split; [by eapply reads_app|done].
Qed.

Lemma tag_bit x rest : (of_lsb (eol ++ x :: rest) .& 0x1000 =? 0) = negb x.
Proof.
  change 0x1000 with (2 ^ 12). rewrite land_pow2_eqb by lia. f_equal. rewrite testbit_of_lsb by lia. done.
Qed.

(** A row ends with an EOL. *)
Lemma eol_complete ends d0 d l n bits : ends_ok w ends -> room w d0 -> page_at d0 l n -> line_encoding d0 = enc ->
  zlen (paint false (lengths 0 ends)) = w -> complete w ends d0 d ->
  exists d', scan_eol bits d = Some (d', Some (if enc =? 2 then 13 else 12)) /\
    rx_ready enc w d' (l ++ paint false (lengths 0 ends)) (n + 1) /\ row_runs ends (ref_runs d') /\
    row_is_2d d' = (if enc =? 2 then bits .& 0x1000 =? 0 else row_is_2d d0).
Proof.
  intros Hok Hroom Hpage Henc Hpaint (Hat & Hr & Hbw & Hs). pose proof (at_length _ _ _ _ _ Hat) as Hl. rewrite before_N in Hl by done.
  destruct (at_row _ _ _ _ _ Hat) as (F1 & F2 & F3 & F4 & F5 & F6 & F7 & F8).
  assert (row_at w ends d0 (d <| consecutive_eols := 0 |>) (zlen ends)) as Hat0.
  { destruct Hat as [_ ? ? ? ? ? ?]. split; [unfold same_row; by split_and!|done..]. }
  destruct (put_row_spec w ends Hok d0 _ l n Hroom Hpage Hat0 Hr Hpaint) as (d1 & E1 & Hnext).
  unfold scan_eol. rewrite Hl, (proj2 (Z.eqb_neq w 0)) by lia. unfold end_row_at_eol. rewrite Hr. cbn [Z.ltb Z.compare mbind option_bind].
  rewrite E1. cbn [mbind option_bind]. destruct Hnext as [[R1 R2 R3] Hruns [P1 P2 P3 P4 P5 P6] Hcur Hb [Ha Hrl] (N1 & N2 & N3 & N4)].
  cbn in N1, N2, N3. set (d2 := update_row_bit_info d1).
  assert (same_row d1 d2 /\ cur_runs d2 = cur_runs d1 /\ a_cursor d2 = a_cursor d1 /\ b_cursor d2 = b_cursor d1 /\ b1 d2 = b1 d1 /\ a0 d2 = a0 d1)
    as ((G1 & G2 & G3 & G4 & G5 & G6 & G7 & _) & G8 & G9 & G10 & G11 & G12).
  { subst d2. unfold update_row_bit_info, same_row. destruct (max_row_bits d1 <? row_bits d1).
    all: match goal with |- context [if ?b then _ else _] => destruct b end; by split_and!. }
  clearbody d2. change T4_COMPRESSION_ITU_T4_2D with 2. unfold eol_width. change T4_COMPRESSION_ITU_T4_2D with 2.
  rewrite G1, N1, F1, Henc.
  assert (line_encoding (if enc =? 2 then d2 <| row_is_2d := (bits .& 0x1000 =? 0) |> else d2) = enc) as -> by (destruct (enc =? 2); cbn; congruence).
  eexists. split; [reflexivity|].
  assert (forall z b, let d3 := start_row (force_drop (d2 <| row_is_2d := b |>) z) in
    rx_ready enc w d3 (l ++ paint false (lengths 0 ends)) (n + 1) /\ row_runs ends (ref_runs d3)) as Hgo.
  { intros z b. split; [split|]; cbn.
    - split; cbn; [congruence|rewrite G8; done|rewrite G5; done].
    - split; cbn; rewrite ?G6, ?G3, ?G2; done.
    - split; cbn; rewrite ?G9, ?G10, ?G5, ?G11, ?G12; try done.
    - congruence.
    - by rewrite G5. }
  destruct (Z.eqb_spec enc 2) as [->|Hne].
  - destruct (Hgo 13 (bits .& 0x1000 =? 0)) as [Hg1 Hg2]. split_and!; [exact Hg1|exact Hg2|done].
  - destruct (Hgo 12 (row_is_2d d2)) as [Hg1 Hg2]. cbn. rewrite G4, N2, F4. split_and!; [|exact Hg2|done].
    destruct Hg1 as [? [? ? ? ? ? ?] [? ? ? ? ? ? ? ?] ?]. split; done.
Qed.
End lines.
