(* ===== verification/T4PageRx.v ===== *)
(** * A page, decoded (src/spandsp-0.0.6/src/t4_rx.c, [rx_put_bits])

    From the first bit of a page to its end. *)
From S2P Require Import Prelude T4Tables T4Base T4Rx T4Spec T4Out T4Words T4Line T4Pixels T4Row T4Codes T4TwoD.
From S2P Require Import T4Lines.

Section t4.
Context (enc w : Z) (Henc : enc = 1 \/ enc = 2) (Hw : 0 < w).

Lemma paint_px px : zlen px = w -> zlen (paint false (lengths 0 (run_ends px))) = w.
Proof. by rewrite paint_run_ends. Qed.

Lemma begin_reads d two bits : room w d -> page_at d [] 0 -> row_begins (d <| consecutive_eols := 0 |>) ->
  line_encoding d = enc -> (enc <> 2 -> two = false) -> (enc = 2 -> (bits .& 0x1000 =? 0) = two) ->
  rx_ready enc w (begin_image bits d) [] 0 /\ row_is_2d (begin_image bits d) = two.
Proof.
  intros [R1 R2 R3] [P1 P2 P3 P4 P5 P6] [B1 B2 B3 B4 B5 B6 B7 B8] He H1 H2. unfold begin_image. cbv zeta.
  change (line_encoding (d <| consecutive_eols := 0 |>)) with (line_encoding d). change T4_COMPRESSION_ITU_T4_1D with 1.
  rewrite He. destruct Henc as [-> | ->]; cbn [Z.eqb Pos.eqb].
  - split; [split; [by split|by split|by split|done]|]. by rewrite H1.
  - split; [split; [by split|by split|by split|done]|]. by apply H2.
Qed.

(** The EOL that begins a row. *)
Lemma start_reads two start rest d l n refs : awaits enc w d l n refs -> row_start enc two start -> (12 <= length rest)%nat ->
  exists d', reads rest d start d' /\ rx_ready enc w d' l n /\ row_is_2d d' = two /\
    (forall r, refs = Some r -> row_runs r (ref_runs d')).
Proof.
  intros Ha Hs Hr. assert (enc <> 3) as H3 by lia. unfold row_start in Hs. rewrite (proj2 (Z.eqb_neq _ _) H3) in Hs.
  destruct Hs as (H1 & k & ->). destruct (fill_reads enc w H3 Hw k (tag enc (negb two) ++ rest) d l n refs Ha) as (d1 & E1 & Ha1).
  assert (exists d', reads rest d1 (eol ++ tag enc (negb two)) d' /\ rx_ready enc w d' l n /\ row_is_2d d' = two /\
    (forall r, refs = Some r -> row_runs r (ref_runs d'))) as (d' & E & H).
  2: { exists d'. split; [|done]. apply (reads_app rest d (repeat false k) d1); [|done]. by rewrite <- app_assoc. }
  assert (zlen (eol ++ tag enc (negb two)) = if enc =? 2 then 13 else 12) as Hlen by (destruct Henc as [-> | ->]; done).
  assert (13 <= length ((eol ++ tag enc (negb two)) ++ rest))%nat as Hl13 by (rewrite length_app; destruct Henc as [-> | ->]; cbn [Z.eqb Pos.eqb] in Hlen; lia).
  pose proof (at_eol_eol (tag enc (negb two) ++ rest)) as Hat. unfold at_eol in Hat.
  assert (enc = 2 -> (of_lsb (eol ++ tag enc (negb two) ++ rest) .& 0x1000 =? 0) = two) as Htag.
  { intros ->. cbn [tag Z.eqb Pos.eqb app]. by rewrite tag_bit, negb_involutive. }
  clear E1. destruct Ha1 as [Hroom Hpage Hrow Hc He|d0 px l n Hpx Hroom Hpage He H0 Hcomp].
  - exists (begin_image (of_lsb (eol ++ tag enc (negb two) ++ rest)) d1).
    destruct (begin_reads d1 two (of_lsb (eol ++ tag enc (negb two) ++ rest)) Hroom Hpage Hrow He H1 Htag) as [Hg H2].
    split; [|by split_and!]. apply any_step_reads; [done|]. unfold any_scan. rewrite (proj2 (Z.ltb_lt _ _)) by done.
    rewrite <- app_assoc, Hat, Hlen. unfold begin_width. rewrite He. by destruct Henc as [-> | ->].
  - destruct (eol_complete enc w H3 Hw (run_ends px) d0 d1 l n (of_lsb (eol ++ tag enc (negb two) ++ rest))
      (px_ends w Hw px Hpx) Hroom Hpage He (paint_px px Hpx) Hcomp) as (d' & E & Hg & Hruns & H2).
    exists d'. rewrite paint_run_ends in Hg. split; [|split; [done|split]].
    + destruct Hcomp as (Hat1 & _). pose proof (eols_row _ _ _ _ _ Hat1). apply step_reads; [done|done|]. unfold scan.
      rewrite <- app_assoc, Hat, E. by rewrite Hlen.
    + destruct Henc as [-> | ->]; cbn [Z.eqb Pos.eqb] in H2; [|by rewrite H2, Htag]. by rewrite H2, H0, H1.
    + by intros r [= <-].
Qed.

(** Rows. *)
Lemma rows_read refs pxs bits refs' : coded_rows enc w refs pxs bits refs' -> forall d l n rest,
  awaits enc w d l n refs -> opening rest -> (12 <= length rest)%nat ->
  exists d', reads rest d bits d' /\ awaits enc w d' (l ++ concat pxs) (n + zlen pxs) refs'.
Proof.
  induction 1 as [refs|refs px pxs two start ws bits refs' Hpx Hs Hcode Hc IH]; intros d l n rest Ha Ho Hr.
  - exists d. rewrite app_nil_r, Z.add_0_r. split; [apply reads_nil|done].
  - destruct (start_reads two start (concat ws ++ bits ++ rest) d l n refs Ha Hs) as (d1 & E1 & Hg & H2 & Hrefs);
      [rewrite !length_app; lia|].
    assert (for_reference w d1 refs px) as Href.
    { intros r ms -> Hcod. specialize (Hrefs r eq_refl). inversion Ha; subst.
      eexists _, _. split; [|exact Hcod]. eapply row_reference; [|exact Hrefs]. by apply px_ends. }
    assert (opening (bits ++ rest)) as Hob.
    { apply (rows_open enc w (Some (run_ends px)) pxs bits refs'); [done|intros r [= <-]; by apply px_ends|done|done]. }
    destruct (row_codes_read enc w d1 l n two refs px ws (bits ++ rest) Hg Hw Hpx Hcode H2 Href Hob) as (d2 & E2 & Hover);
      [rewrite length_app; lia|].
    assert (awaits enc w d2 (l ++ px) (n + 1) (Some (run_ends px))) as Ha2.
    { unfold row_over in Hover. rewrite (rx_enc _ _ _ _ _ Hg) in Hover. rewrite (proj2 (Z.eqb_neq enc 3)) in Hover by lia.
      apply (awaits_next enc w d2 d1 px l n); try done; try apply Hg. intros Hne. rewrite H2.
      unfold row_start in Hs. rewrite (proj2 (Z.eqb_neq enc 3)) in Hs by lia. by apply Hs. }
    destruct (IH d2 (l ++ px) (n + 1) rest Ha2 Ho Hr) as (d' & E3 & Ha').
    exists d'. cbn [concat length]. rewrite (app_assoc l px). replace (n + Z.of_nat (S (length pxs))) with (n + 1 + zlen pxs) by lia.
     split; [|done]. eapply reads_app; [rewrite <- app_assoc; exact E1|]. eapply reads_app; [exact E2|exact E3].
Qed.
End t4.

(** ** The end of a page *)
Section page_end.
Context (enc w : Z) (Henc : enc = 1 \/ enc = 2 \/ enc = 3).

(** [c] EOLs have followed the last row. *)
Record idle (d : t4_dec_t) (l : list bool) (n c : Z) : Prop := {
  idle_page : page_at d l n;
  idle_row : row_len d = 0;
  idle_eols : consecutive_eols d = c;
  idle_enc : line_encoding d = enc;
}.

Definition limit : Z := if enc =? 3 then 2 else 5.

Lemma ready_idle d l n : rx_ready enc w d l n -> idle d l n 0.
Proof. intros [_ Hp [_ H1 _ _ _ _ _ H2] He]. by split. Qed.

Lemma count_idle d l n c : idle d l n c ->
  count_eol d = if limit <=? c + 1 then (d <| consecutive_eols := c + 1 |> <| consecutive_eols := 6 |>, true)
                else (d <| consecutive_eols := c + 1 |>, false).
Proof.
  intros [_ _ Hc He]. unfold count_eol, limit. rewrite Hc. cbv zeta.
  change (line_encoding (d <| consecutive_eols := c + 1 |>)) with (line_encoding d). rewrite He.
  change T4_COMPRESSION_ITU_T6 with 3. destruct (enc =? 3); reflexivity.
Qed.

Lemma eol_scan rest d : scan (of_lsb (eol ++ rest)) d = scan_eol (of_lsb (eol ++ rest)) d.
Proof. unfold scan. pose proof (at_eol_eol rest) as H. unfold at_eol in H. by rewrite H. Qed.

Lemma eol_idle rest d l n c : idle d l n c -> 0 <= c -> c + 1 < limit -> (1 <= length rest)%nat ->
  exists d', reads rest d (eol ++ tag enc true) d' /\ idle d' l n (c + 1).
Proof.
  intros Hi Hc Hl Hr. pose proof (count_idle _ _ _ _ Hi) as Ec. rewrite (proj2 (Z.leb_gt _ _) Hl) in Ec.
  destruct Hi as [Hp Hrow Hcount He]. set (bits := of_lsb (eol ++ tag enc true ++ rest)).
  set (d1 := d <| consecutive_eols := c + 1 |>) in *.
  set (d2 := if line_encoding d1 =? T4_COMPRESSION_ITU_T4_2D then d1 <| row_is_2d := (bits .& 0x1000 =? 0) |> else d1).
  exists (start_row (force_drop d2 (eol_width d2))). assert (line_encoding d2 = enc) as He2 by (subst d2; by destruct (_ =? _)).
  assert (zlen (eol ++ tag enc true) = eol_width d2) as Hlen.
  { unfold eol_width. rewrite He2. change T4_COMPRESSION_ITU_T4_2D with 2. by destruct Henc as [-> |[-> | ->]]. }
  split.
  - apply step_reads; [lia| |].
    { rewrite !length_app. assert (length eol = 12%nat) as -> by done. lia. }
    rewrite <- app_assoc, eol_scan. fold bits. unfold scan_eol. rewrite Hrow. cbn [Z.eqb]. rewrite Ec. cbn [mbind option_bind].
    fold d2. by rewrite Hlen.
  - destruct Hp as [P1 P2 P3 P4 P5 P6].
    assert (image d2 = image d /\ image_width d2 = image_width d /\ bytes_per_row d2 = bytes_per_row d /\ consecutive_eols d2 = c + 1)
      as (G1 & G2 & G3 & G4) by (subst d2; by destruct (_ =? _)).
    split; [|done|done|done]. split; cbn; rewrite ?G1, ?G2, ?G3; done.
Qed.

(** The last EOL is only looked at with a bit behind it. *)
Lemma last_eol d l n f : idle d l n (limit - 1) ->
  let tl := eol ++ tag enc true ++ repeat true f in
  (runs d tl true (d <| consecutive_eols := limit |> <| consecutive_eols := 6 |>) tl) \/ (runs d tl false d tl /\ (length tl < 13)%nat).
Proof.
  intros Hi tl. assert (2 <= limit) as Hl2 by (unfold limit; destruct (enc =? 3); lia).
  destruct (decide (length tl < 13)%nat) as [Hs|Hl]; [right; split; [by constructor|done]|left].
  apply runs_end; [lia|]. apply scan_not_first; [|rewrite (idle_eols _ _ _ _ Hi); lia].
  unfold tl. rewrite eol_scan. unfold scan_eol. rewrite (idle_row _ _ _ _ Hi). cbn [Z.eqb].
  rewrite (count_idle _ _ _ _ Hi). replace (limit - 1 + 1) with limit by lia. by rewrite Z.leb_refl.
Qed.
End page_end.

(** A page of T.4. *)
Lemma t4_page_runs enc w d pxs bits refs' e f : enc = 1 \/ enc = 2 -> 0 < w -> awaits enc w d [] 0 None ->
  coded_rows enc w None pxs bits refs' -> page_end enc e ->
  exists b df lf, runs d (bits ++ e ++ repeat true f) b df lf /\ page_at df (concat pxs) (zlen pxs) /\ line_encoding df = enc.
Proof.
  intros Henc Hw Ha Hc He. unfold page_end in He. rewrite (proj2 (Z.eqb_neq enc 3)) in He by lia. destruct He as (k & ->).
  cbn [replicate concat]. rewrite app_nil_r, <- (app_assoc (repeat false k)).
  set (x := eol ++ tag enc true) in *. assert (12 <= length x)%nat as Hx by (unfold x; rewrite length_app; assert (length eol = 12%nat) as -> by done; lia).
  assert (row_start enc false (repeat false k ++ x)) as Hs.
  { unfold row_start. rewrite (proj2 (Z.eqb_neq enc 3)) by lia. split; [done|]. by exists k. }
  set (more := (x ++ x ++ x ++ x ++ x) ++ repeat true f).
  assert (opening ((repeat false k ++ x) ++ more)) as Ho by (apply (start_open enc false); [lia|done]).
  assert (12 <= length more)%nat as Hm by (unfold more; rewrite !length_app; lia).
  destruct (rows_read enc w Henc Hw None pxs bits refs' Hc d [] 0 ((repeat false k ++ x) ++ more) Ha Ho) as (d1 & E1 & Ha1);
    [rewrite length_app; lia|].
  destruct (start_reads enc w Henc Hw false (repeat false k ++ x) more d1 _ _ _ Ha1 Hs Hm) as (d2 & E2 & Hg & _).
  apply ready_idle in Hg. rewrite Z.add_0_l in Hg. cbn [app] in Hg. assert (enc = 1 \/ enc = 2 \/ enc = 3) as H123 by lia.
  assert (limit enc = 5) as Hlim by (unfold limit; by rewrite (proj2 (Z.eqb_neq enc 3)) by lia).
  destruct (eol_idle enc H123 ((x ++ x ++ x ++ x) ++ repeat true f) d2 _ _ 0 Hg) as (d3 & E3 & Hg3); [lia|lia|rewrite !length_app; lia|].
  destruct (eol_idle enc H123 ((x ++ x ++ x) ++ repeat true f) d3 _ _ 1 Hg3) as (d4 & E4 & Hg4); [lia|lia|rewrite !length_app; lia|].
  destruct (eol_idle enc H123 ((x ++ x) ++ repeat true f) d4 _ _ 2 Hg4) as (d5 & E5 & Hg5); [lia|lia|rewrite !length_app; lia|].
  destruct (eol_idle enc H123 (x ++ repeat true f) d5 _ _ 3 Hg5) as (d6 & E6 & Hg6); [lia|lia|rewrite !length_app; lia|].
  assert (forall b df lf, runs d6 (x ++ repeat true f) b df lf -> runs d (bits ++ (repeat false k ++ x ++ x ++ x ++ x ++ x ++ x) ++ repeat true f) b df lf) as Hgo.
  { intros b df lf H. apply E6 in H. fold x in H. rewrite app_assoc in H. apply E5 in H. fold x in H. rewrite app_assoc in H.
    apply E4 in H. fold x in H. rewrite app_assoc in H. apply E3 in H. fold x in H. rewrite app_assoc in H.
    apply E2, E1 in H. unfold more in H. rewrite <- !app_assoc in H. by rewrite <- !app_assoc. }
  rewrite <- !app_assoc. rewrite <- !app_assoc in Hgo.
  assert (idle enc d6 (concat pxs) (zlen pxs) (limit enc - 1)) as Hg6' by (rewrite Hlim; exact Hg6).
  destruct (last_eol enc d6 _ _ f Hg6') as [H|[H _]]; rewrite app_assoc in H; apply Hgo in H; eexists _, _, _; (split; [exact H|]).
  - destruct Hg6 as [[P1 P2 P3 P4 P5 P6] _ _ He]. by split; [split|].
  - split; apply Hg6.
Qed.

(** ** T.6 *)

(** The first row is coded against a white one, of which the decoder has runs that
    are as long as the row each.  In the last three pixels this makes a
    difference. *)
Definition first_row_ok (px : list bool) : Prop := Forall (fun e => e <= zlen px - 4 \/ e = zlen px) (run_ends px).

Lemma first_row_coding w a A i ms : (forall k, 0 <= k -> 0 <= a k /\ (a k <= w - 4 \/ a k = w)) -> 0 <= i -> Z.even i = true -> -1 <= A -> 0 < w ->
  coding a (end_at w [w]) w A i ms -> coding a (fun k => (k + 1) * w) w A i ms.
Proof.
  intros Ha Hi He HA Hw H. assert (forall k, end_at w [w] k = w) as Hb.
  { intros k. unfold end_at. destruct (Z.ltb_spec k (zlen [w])); [|done]. cbn [length] in *. unfold aget.
    destruct (Z.to_nat k) as [|m] eqn:E; [done|]. lia. }
  induction H as [i|A i j ms HAw Hf Hle Habs Hc IH|A i j ms HAw Hf Hle Habs Hc IH|A i j ms HAw Hf Hle Hc IH].
  - constructor.
  - assert (j = 0) as ->.
    { destruct Hf as (Hj & Hev & _ & Hbel). destruct (Z.eq_dec j 0); [done|exfalso]. specialize (Hbel 0 ltac:(lia)). rewrite Hb in Hbel.
      replace (j - 0) with (j - i + i) in Hbel by lia. rewrite Z.even_add, Hev, He in Hbel. specialize (Hbel eq_refl). lia. }
    rewrite Hb in *. assert (a i = w) as E by (destruct (Ha i Hi); lia). rewrite E in *.
    replace (w - w) with ((fun k => (k + 1) * w) 0 - a i) by (rewrite E; lia).
    apply (coded_vertical a (fun k => (k + 1) * w)); [done| |lia|rewrite E; lia|rewrite E; inversion Hc; subst; [constructor|lia..]].
    split_and!; [lia|destruct Hf as (_ & Hev & _); done|lia|intros k Hk; lia].
  - assert (first_right (fun k => (k + 1) * w) A i 0) as Hf0.
    { split_and!; [lia|by rewrite Z.sub_0_l, Z.even_opp|lia|intros k Hk; lia]. }
    rewrite Hb in Habs. apply (coded_horizontal _ _ _ _ _ 0); [done|done| | |].
    + destruct (Ha i Hi); lia.
    + lia.
    + apply IH; [lia|by rewrite Z.even_add, He|]. destruct (Ha (i + 1) ltac:(lia)). lia.
  - exfalso. rewrite Hb in Hle. destruct (Ha i Hi); lia.
Qed.

Lemma end_at_in w ends k (P : Z -> Prop) : 0 <= k -> Forall P ends -> P w -> P (end_at w ends k).
Proof.
  intros Hk H Hw. unfold end_at. destruct (Z.ltb_spec k (zlen ends)); [|done]. unfold aget.
  rewrite list.Forall_forall in H. apply H, list_elem_of_In, nth_In. lia.
Qed.

Lemma first_reference_ok w d px rr : 0 < w -> zlen px = w -> first_row_ok px -> ref_runs d = w :: w :: w :: w :: rr ->
  for_reference w d (Some [w]) px.
Proof.
  intros Hw Hpx Hf Hrr r ms [= <-] Hc. assert (ends_ok w (run_ends px)) as Hok by by apply px_ends.
  exists (fun k => (k + 1) * w), 0. split; [split; cbv beta; [lia|lia|intros k Hk; lia|intros k Hk Hlt; lia|]|].
  - intros k Hk. rewrite Hrr. assert (before (fun k => (k + 1) * w) k = k * w) as ->.
    { unfold before. destruct (Z.leb_spec k 0); [assert (k = 0) as -> by lia; lia|lia]. }
    replace ((k + 1) * w - k * w) with w by lia. by assert (k = 0 \/ k = 1 \/ k = 2) as [-> |[-> | ->]] by lia.
  - apply first_row_coding; try done; try lia. intros k Hk. split; [by apply end_at_range|].
    apply (end_at_in w (run_ends px) k (fun e => e <= w - 4 \/ e = w)); [done| |by right]. unfold first_row_ok in Hf. by rewrite Hpx in Hf.
Qed.

(** The rows of T.6. *)
Lemma t6_rows_read w refs pxs bits refs' : 0 < w -> coded_rows 3 w refs pxs bits refs' -> forall d l n rest,
  rx_ready 3 w d l n -> row_is_2d d = true -> (forall r, refs = Some r -> ends_ok w r) ->
  match pxs with [] => True | px :: _ => for_reference w d refs px end -> opening rest -> (12 <= length rest)%nat ->
  exists d', reads rest d bits d' /\ rx_ready 3 w d' (l ++ concat pxs) (n + zlen pxs).
Proof.
  intros Hw. induction 1 as [refs|refs px pxs two start ws bits refs' Hpx Hs Hcode Hc IH]; intros d l n rest Hg H2 Hrefs Href Ho Hr.
  - exists d. rewrite app_nil_r, Z.add_0_r. split; [apply reads_nil|done].
  - destruct Hs as [-> ->]. cbn [app].
    assert (forall r, Some (run_ends px) = Some r -> ends_ok w r) as Hrefs' by (intros r [= <-]; by apply px_ends).
    assert (opening (bits ++ rest)) as Hob by by apply (rows_open 3 w (Some (run_ends px)) pxs bits refs').
    destruct (row_codes_read 3 w d l n true refs px ws (bits ++ rest) Hg Hw Hpx Hcode H2 Href Hob) as (d1 & E1 & Hover);
      [rewrite length_app; lia|].
    unfold row_over in Hover. rewrite (rx_enc _ _ _ _ _ Hg) in Hover. cbn [Z.eqb Pos.eqb] in Hover.
    destruct Hover as [R1 R2 R3 R4 [R5 R6]]. rewrite paint_run_ends in R3.
    assert (rx_ready 3 w d1 (l ++ px) (n + 1)) as Hg1 by (split; try done; rewrite R5; apply Hg).
    destruct (IH d1 (l ++ px) (n + 1) rest Hg1 ltac:(congruence) Hrefs') as (d' & E2 & Hg'); [|done|done|].
    { destruct pxs as [|px' pxs]; [done|]. intros r ms [= <-] Hcod. eexists _, _. split; [|exact Hcod].
      apply row_reference; [by apply px_ends|done]. }
    exists d'. cbn [concat length]. rewrite (app_assoc l px). replace (n + Z.of_nat (S (length pxs))) with (n + 1 + zlen pxs) by lia.
    split; [|done]. by eapply reads_app.
Qed.

(** A page of T.6; the second EOL may be left for its end. *)
Lemma t6_page_runs w d pxs bits refs' e f rr : 0 < w -> rx_ready 3 w d [] 0 -> row_is_2d d = true ->
  ref_runs d = w :: w :: w :: w :: rr -> match pxs with [] => True | px :: _ => first_row_ok px end ->
  coded_rows 3 w (Some [w]) pxs bits refs' -> page_end 3 e ->
  exists b df lf, runs d (bits ++ e ++ repeat true f) b df lf /\ page_at df (concat pxs) (zlen pxs) /\ line_encoding df = 3 /\
    if b : bool then consecutive_eols df = 6 else idle 3 df (concat pxs) (zlen pxs) 1 /\ lf = eol.
Proof.
  intros Hw Hg H2 Hrr Hf Hc He. assert (e = eol ++ eol) as -> by exact He.
  assert (ends_ok w [w]) as Hwhite by (split; [done|done|done|change (0 <= w); lia|intros i j Hi Hj; cbn in Hj; lia]).
  assert (opening ((eol ++ eol) ++ repeat true f)) as Ho.
  { unfold eol at 1. rewrite <- !app_assoc. apply (zeros_open 0). }
  destruct (t6_rows_read w (Some [w]) pxs bits refs' Hw Hc d [] 0 ((eol ++ eol) ++ repeat true f) Hg H2) as (d1 & E1 & Hg1).
  { by intros r [= <-]. }
  { destruct pxs as [|px pxs]; [done|]. apply (first_reference_ok w d px rr); try done. by inversion Hc. }
  { done. }
  { rewrite !length_app. assert (length eol = 12%nat) as -> by done. lia. }
  apply ready_idle in Hg1. cbn [app] in Hg1. rewrite Z.add_0_l in Hg1.
  assert (3 = 1 \/ 3 = 2 \/ 3 = 3) as H123 by lia.
  destruct (eol_idle 3 H123 (eol ++ repeat true f) d1 _ _ 0 Hg1) as (d2 & E2 & Hg2); [lia|done|rewrite length_app; assert (length eol = 12%nat) as -> by done; lia|].
  change (tag 3 true) with (@nil bool) in E2. rewrite app_nil_r in E2.
  destruct (last_eol 3 d2 _ _ f Hg2) as [H|[H Hshort]]; change (tag 3 true) with (@nil bool) in *; cbn [app] in H.
  - apply E2 in H. rewrite app_assoc in H. apply E1 in H. eexists true, _, _. split; [exact H|].
    destruct Hg2 as [[P1 P2 P3 P4 P5 P6] _ _ He2]. by split; [split|].
  - apply E2 in H. rewrite app_assoc in H. apply E1 in H. eexists false, d2, _. split; [exact H|].
    split; [apply Hg2|split; [apply Hg2|split; [exact Hg2|]]].
    cbn [app] in Hshort. destruct f; [|rewrite length_app in Hshort; cbn in Hshort; lia]. apply app_nil_r.
Qed.

(** ** The image *)

(** ** Octets *)

Lemma page_bits_inj x y : is_byte x -> is_byte y -> msb_bits 8 x = msb_bits 8 y -> x = y.
Proof.
  unfold is_byte. intros Hx Hy E. apply Z.bits_inj'. intros i Hi. destruct (Z_lt_le_dec i 8) as [H|H].
  - apply (f_equal (fun l => nth (7 - Z.to_nat i) l false)) in E. rewrite !nth_msb in E by lia.
    by replace (Z.of_nat 8 - 1 - Z.of_nat (7 - Z.to_nat i)) with i in E by lia.
  - by rewrite !(testbit_high 8) by lia.
Qed.

Lemma pixels_inj a b : bytes a -> bytes b -> pixels a = pixels b -> a = b.
Proof.
  intros Ha. revert b. induction Ha as [|x a Hx Ha IH]; intros b Hb E.
  - destruct b as [|y b]; [done|]. apply (f_equal length) in E. rewrite !length_pixels in E. cbn in E. lia.
  - destruct Hb as [|y b Hy Hb]; [apply (f_equal length) in E; rewrite !length_pixels in E; cbn in E; lia|].
    unfold pixels in E. cbn [map concat] in E. apply app_inj_1 in E as [E1 E2]; [|by rewrite !length_msb_bits].
    f_equal; [by apply page_bits_inj|by apply IH].
Qed.

Lemma pixels_concat rows : pixels (concat rows) = concat (map pixels rows).
Proof. induction rows as [|r rows IH]; [done|]. cbn [map concat]. by rewrite pixels_app, IH. Qed.

Lemma length_rows rows bpr : Forall (fun r => bytes r /\ zlen r = bpr) rows ->
  zlen (concat (map pixels rows)) = zlen rows * (8 * bpr).
Proof.
  induction 1 as [|r rows [_ Hr] _ IH]; [done|]. cbn [map concat length]. rewrite length_app, length_pixels. lia.
Qed.

(** An image of whole rows. *)
Lemma image_rows d rows bpr : page_at d (concat (map pixels rows)) (zlen rows) -> image_width d = 8 * bpr ->
  Forall (fun r => bytes r /\ zlen r = bpr) rows -> image_buffer (image d) = concat rows.
Proof.
  intros [[P1 P2 P3] Q _ _ _ _] Hw Hrows. rewrite Hw in Q.
  assert (bytes (concat rows)) as Hb by (apply Forall_concat, (list.Forall_impl _ _ _ Hrows); by intros r [H _]).
  apply pixels_inj; [done|done|]. rewrite pixels_concat, <- P1.
  assert (zlen (concat (map pixels rows)) = 8 * zlen (image_buffer (image d)) + (8 - tx_bits (image d))) as E.
  { rewrite <- P1, length_app, length_pixels, length_msb_bits. lia. }
  assert (tx_bits (image d) = 8) as -> by lia. by rewrite app_nil_r.
Qed.

(** ** The beginning *)

Record reader_ready (enc w : Z) (s : t4_rx_state_t) : Prop := {
  reader_enc : line_encoding (dec s) = enc;
  reader_width : image_width (dec s) = w;
  reader_file : tiff_file s = true;
  reader_size : 0 <= image_buffer_size (image (dec s));
  reader_runs : bytes_per_row (dec s) = (w + 7) / 8 -> w + 4 <= zlen (cur_runs (dec s)) /\ w + 4 <= zlen (ref_runs (dec s));
}.

Lemma cleared_spec old same space : 4 <= space -> (same = true -> space <= zlen old) ->
  exists rr, cleared old same space = Some (0 :: 0 :: 0 :: 0 :: rr) /\ space <= zlen (0 :: 0 :: 0 :: 0 :: rr).
Proof.
  intros Hs Ho. unfold cleared. replace (Z.to_nat space) with (4 + (Z.to_nat space - 4))%nat by lia.
  destruct same.
  - rewrite (proj2 (Z.leb_le _ _)) by auto. cbn [replicate app Nat.add]. eexists. split; [done|].
    specialize (Ho eq_refl). cbn [length]. rewrite length_app, length_replicate, length_drop. lia.
  - cbn [replicate Nat.add]. eexists. split; [done|]. cbn [length]. rewrite length_replicate. lia.
Qed.

(** What a page is decoded from. *)
Definition page_begun (enc w : Z) (s : t4_rx_state_t) : Prop :=
  holds s [] /\ consecutive_eols (dec s) < 6 /\
  if enc =? 3 then rx_ready 3 w (dec s) [] 0 /\ row_is_2d (dec s) = true /\
    exists rr, ref_runs (dec s) = w :: w :: w :: w :: rr
  else awaits enc w (dec s) [] 0 None.

Lemma start_page_begins enc w bpr s : 0 < bpr -> w = 8 * bpr -> reader_ready enc w s ->
  exists s', t4_rx_start_page s = Some (0, s') /\ page_begun enc w s'.
Proof.
  intros Hbpr Hw [H1 H2 H3 H4 H5]. unfold t4_rx_start_page. rewrite H3. cbn [negb]. cbv zeta. rewrite H1, H2.
  change T4_COMPRESSION_ITU_T6 with 3.
  assert ((w + 7) / 8 = bpr) as Eb by (subst w; symmetry; apply (Z.div_unique _ _ _ 7); lia).
  destruct (cleared_spec (cur_runs (dec s)) ((w + 7) / 8 =? bytes_per_row (dec s)) (w + 4)) as (cur & -> & Hcur);
    [lia|intros E%Z.eqb_eq; by apply H5|]. cbn [mbind option_bind].
  destruct (cleared_spec (ref_runs (dec s)) ((w + 7) / 8 =? bytes_per_row (dec s)) (w + 4)) as (rr & -> & Hrr);
    [lia|intros E%Z.eqb_eq; by apply H5|]. cbn [mbind option_bind].
  do 4 (rewrite set_index_Some by (rewrite ?length_insert; cbn [length]; lia); cbn [mbind option_bind]).
  cbn [insert list_insert Z.to_nat Pos.to_nat Pos.iter_op Nat.add]. eexists. split; [done|]. rewrite Eb.
  split; [by split|]. split; [cbn; destruct (enc =? 3); lia|].
  destruct (Z.eqb_spec enc 3) as [->|Hne]; cbn [dec].
  - split; [|split; [done|by exists rr]]. split; [by split| |by split|done].
    split; cbn; try done; try lia.
  - constructor; [by split| |by split|cbn; lia|done]. split; cbn; try done; try lia.
Qed.

(** ** The end *)

(** The thirteen zeros after the end of a page change nothing in the decoder. *)
Lemma put_zeros_ended m s : 6 <= consecutive_eols (dec s) -> exists s', put_zeros m s = Some s' /\ dec s' = dec s.
Proof.
  revert s. induction m as [|m IH]; intros s Hc; cbn [put_zeros]; [by exists s|].
  unfold t4_rx_put_bit, rx_put_bits. cbv zeta. set (s1 := s <| line_image_size := _ |> <| rx_bitstream := _ |> <| rx_bits := _ |>).
  change (dec s1) with (dec s). change EOLS_TO_END_ANY_RX_PAGE with 6. rewrite (proj2 (Z.leb_le _ _)) by done.
  destruct (IH s1 Hc) as (s' & E & Ed). destruct (rx_bits s1 <? 13); cbn [mbind option_bind]; by exists s'.
Qed.

(** The second EOL of T.6, when no bit was behind it. *)
Lemma put_zeros_eol s l n : idle 3 (dec s) l n 1 -> holds s eol ->
  exists s', put_zeros 13 s = Some s' /\ image (dec s') = image (dec s) /\ bytes_per_row (dec s') = bytes_per_row (dec s).
Proof.
  intros Hi Hh. set (d' := dec s <| consecutive_eols := limit 3 |> <| consecutive_eols := 6 |>).
  assert (runs (dec s) (eol ++ [false]) true d' (eol ++ [false])) as Hr.
  { apply runs_end; [cbn; lia|]. apply scan_not_first; [|rewrite (idle_eols _ _ _ _ _ Hi); lia].
    rewrite eol_scan. unfold scan_eol. rewrite (idle_row _ _ _ _ _ Hi). cbn [Z.eqb]. rewrite (count_idle _ _ _ _ _ Hi). reflexivity. }
  destruct (put_bits_runs s eol [false] true d' (eol ++ [false]) Hh) as (s1 & E & _ & Ed & _); [cbn; lia|rewrite (idle_eols _ _ _ _ _ Hi); lia|done|].
  change (t4_rx_put_bit s 0 = Some (true, s1)) in E. change (put_zeros 13 s) with ('(_, s) ← t4_rx_put_bit s 0; put_zeros 12 s). rewrite E.
  cbn [mbind option_bind]. destruct (put_zeros_ended 12 s1) as (s' & E' & Ed'); [rewrite Ed; cbn; lia|].
  exists s'. rewrite Ed', Ed. by split.
Qed.

(** The rows handed over, one after the other. *)
Definition deliver {U} (h : U -> list Z -> U * Z) (u : U) (rows : list (list Z)) : U := fold_left (fun u r => (h u r).1) rows u.

Lemma write_rows_spec {U} (h : U -> list Z -> U * Z) rows bpr : (forall u r, 0 <= (h u r).2) -> 0 <= bpr ->
  Forall (fun r => bytes r /\ zlen r = bpr) rows -> forall pre i u, zlen pre = i * bpr ->
  write_rows h (length rows) i bpr (pre ++ concat rows) u = Some (deliver h u rows).
Proof.
  intros Hh Hb. induction 1 as [|r rows [_ Hr] _ IH]; intros pre i u Hp; cbn [length write_rows concat]; [done|].
  rewrite (proj2 (Z.ltb_ge _ _)) by (rewrite !length_app; lia).
  assert (slice (pre ++ r ++ concat rows) (i * bpr) bpr = r) as ->.
  { rewrite <- Hp, <- Hr. apply slice_mid. }
  pose proof (Hh u r). destruct (h u r) as [u' x] eqn:E. cbn [snd] in *. rewrite (proj2 (Z.ltb_ge _ _)) by done.
  rewrite app_assoc, IH by (rewrite length_app; lia). unfold deliver. cbn [fold_left]. by rewrite E.
Qed.

Lemma end_page_delivers {U} (h : U -> list Z -> U * Z) u s rows bpr : (forall u r, 0 <= (h u r).2) -> rows <> [] -> 0 < bpr ->
  page_at (dec s) (concat (map pixels rows)) (zlen rows) -> image_width (dec s) = 8 * bpr ->
  Forall (fun r => bytes r /\ zlen r = bpr) rows ->
  (line_encoding (dec s) = 3 -> consecutive_eols (dec s) = 6 \/ (exists l n, idle 3 (dec s) l n 1) /\ holds s eol) ->
  exists s', t4_rx_end_page h u s = Some (0, (h (deliver h u rows) []).1, s') /\
    image_length (image (dec s')) = zlen rows /\ bad_rows (image (dec s')) = 0.
Proof.
  intros Hh Hne Hb Hp Hw Hrows H6. pose proof (image_rows _ _ _ Hp Hw Hrows) as Hbuf.
  destruct Hp as [_ _ Hcount [Hbad Hrun] _ Hwidth]. unfold t4_rx_end_page.
  assert (exists s1, (if line_encoding (dec s) =? T4_COMPRESSION_ITU_T6 then put_zeros 13 s else Some s) = Some s1 /\
    image (dec s1) = image (dec s) /\ bytes_per_row (dec s1) = bytes_per_row (dec s)) as (s1 & -> & Ei & Eb).
  { change T4_COMPRESSION_ITU_T6 with 3. destruct (Z.eqb_spec (line_encoding (dec s)) 3) as [E3|]; [|by exists s].
    destruct (H6 E3) as [H|[(l & n & H) Hh6]].
    - destruct (put_zeros_ended 13 s) as (s1 & -> & Ed); [lia|]. exists s1. by rewrite Ed.
    - by apply put_zeros_eol with l n. }
  cbn [mbind option_bind]. unfold end_bad_rows. rewrite Ei, Hrun. cbn [Z.eqb]. cbv zeta. rewrite Hbuf, Hcount, Eb.
  assert (0 < zlen (concat rows)).
  { destruct Hrows as [|r rows [_ Hr] _]; [done|]. cbn [concat]. rewrite length_app. lia. }
  rewrite (proj2 (Z.eqb_neq _ _)), Nat2Z.id by lia. replace (bytes_per_row (dec s)) with bpr by lia.
  rewrite <- (app_nil_l (concat rows)), (write_rows_spec h rows bpr Hh ltac:(lia) Hrows [] 0 u) by done.
  cbn [mbind option_bind app]. destruct (h (deliver h u rows) []) as [u' x] eqn:E. eexists. split; [done|]. by split.
Qed.

(** ** A page *)

(** A line of bits that has the form of a page is decoded to its rows. *)
Lemma page_decoded {U} enc w bpr (h : U -> list Z -> U * Z) u s rows bits refs' e f buf :
  enc = 1 \/ enc = 2 \/ enc = 3 -> 0 < bpr -> w = 8 * bpr -> page_begun enc w s ->
  rows <> [] -> Forall (fun r => bytes r /\ zlen r = bpr) rows ->
  (enc = 3 -> match rows with [] => True | r :: _ => first_row_ok (pixels r) end) ->
  coded_rows enc w (if enc =? 3 then Some [w] else None) (map pixels rows) bits refs' -> page_end enc e ->
  bytes buf -> line_bits buf = bits ++ e ++ repeat true f -> (forall u r, 0 <= (h u r).2) ->
  exists ended s1 s2, t4_rx_put_chunk s buf = Some (ended, s1) /\
    t4_rx_end_page h u s1 = Some (0, (h (deliver h u rows) []).1, s2) /\
    image_length (image (dec s2)) = zlen rows /\ bad_rows (image (dec s2)) = 0.
Proof.
  intros Henc Hb Hw (Hh & Hc6 & Hs) Hne Hrows Hfirst Hc He Hbuf Hline Hh0.
  assert (forall df, page_at df (concat (map pixels rows)) (zlen rows) -> image_width df = w) as Hwidth.
  { intros df Hp. pose proof (page_length _ _ _ Hp) as E. rewrite (length_rows rows bpr Hrows) in E.
    assert (0 < zlen rows) by (destruct rows; [done|cbn [length]; lia]). subst w. by apply Z.mul_cancel_l in E; [|lia]. }
  assert (exists b df lf, runs (dec s) (bits ++ e ++ repeat true f) b df lf /\ page_at df (concat (map pixels rows)) (zlen rows) /\
    (line_encoding df = 3 -> if b : bool then consecutive_eols df = 6
      else idle 3 df (concat (map pixels rows)) (zlen rows) 1 /\ lf = eol)) as (b & df & lf & Hr & Hp & H6).
  { replace (zlen rows) with (zlen (map pixels rows)) by by rewrite length_map. clear Hwidth.
    destruct (Z.eqb_spec enc 3) as [->|H3].
    - destruct Hs as (Hg & H2 & rr & Hrr). destruct (t6_page_runs w (dec s) (map pixels rows) bits refs' e f rr) as (b & df & lf & Hr & Hp & E & H6);
        try done; [lia|by destruct rows; [|apply Hfirst]|].
      exists b, df, lf. by split_and!.
    - destruct (t4_page_runs enc w (dec s) (map pixels rows) bits refs' e f) as (b & df & lf & Hr & Hp & E); try done; [lia|lia|].
      exists b, df, lf. split_and!; [done|done|lia]. }
  destruct (put_chunk_runs buf s [] b df lf Hbuf Hh) as (s1 & E1 & Ed & Hh1 & _); [cbn; lia|done|by rewrite Hline|].
  destruct (end_page_delivers h u s1 rows bpr Hh0 Hne Hb) as (s2 & E2 & H2); [by rewrite Ed|rewrite Ed, (Hwidth df Hp); lia|done| |].
  { rewrite Ed. intros H. specialize (H6 H). destruct b; [by left|right]. destruct H6 as [Hi ->]. split; [by eexists _, _|by apply Hh1]. }
  by exists b, s1, s2.
Qed.
