(* ===== verification/T4Trip.v ===== *)
(** * A page, encoded and decoded (src/spandsp-0.0.6/src/t4_tx.c, t4_rx.c)

    What the encoder makes of the rows of a page the decoder turns back into these
    rows, in each of the three codings. *)
From S2P Require Import Prelude T4Tables T4Base T4Spec T4Changes T4Out T4Rows T4Page T4Lines T4PageRx.
From S2P Require T4Tx T4Rx.

(** The octets that the encoder holds, in pieces. *)
Fixpoint get_chunks (s : T4Tx.t4_tx_state_t) (lens : list Z) : list Z :=
  match lens with
  | [] => []
  | n :: lens => let '(buf, s) := T4Tx.t4_tx_get_chunk s n in buf ++ get_chunks s lens
  end.

Definition sum (l : list Z) : Z := fold_right Z.add 0 l.

Lemma get_chunks_spec lens s : Forall (fun n => 0 <= n) lens -> 0 <= T4Tx.bit_ptr s ->
  get_chunks s lens = slice (T4Tx.image_buffer (T4Tx.out s)) (T4Tx.bit_ptr s) (sum lens).
Proof.
  intros Hl. revert s. induction Hl as [|n lens Hn Hl IH]; intros s Hp; cbn [get_chunks sum fold_right]; [done|].
  assert (0 <= sum lens) as Hs by (clear IH; induction Hl; cbn [sum fold_right] in *; [lia|unfold sum in *; lia]).
  unfold T4Tx.t4_tx_get_chunk. cbv zeta. set (buf := T4Tx.image_buffer (T4Tx.out s)).
  fold (sum lens). unfold slice. destruct (Z.leb_spec (zlen buf) (T4Tx.bit_ptr s)) as [Hle|Hgt].
  - cbn [app]. rewrite IH by done. unfold slice. fold buf. rewrite !drop_ge by lia. by rewrite !take_nil.
  - rewrite IH by (cbn; destruct (_ <? _); lia). unfold slice. cbn. fold buf.
    destruct (Z.ltb_spec (zlen buf) (T4Tx.bit_ptr s + n)) as [H|H].
    + rewrite (drop_ge buf (Z.to_nat (T4Tx.bit_ptr s + _))) by lia. rewrite take_nil, app_nil_r.
      rewrite !take_ge by (rewrite length_drop; lia). done.
    + replace (Z.to_nat (T4Tx.bit_ptr s + n)) with (Z.to_nat (T4Tx.bit_ptr s) + Z.to_nat n)%nat by lia.
      rewrite <- drop_drop. replace (Z.to_nat (n + sum lens)) with (Z.to_nat n + Z.to_nat (sum lens))%nat by lia.
      generalize (drop (Z.to_nat (T4Tx.bit_ptr s)) buf). intros l. apply take_take_drop.
Qed.

(** ** Rows with their octets full *)

Lemma full_row_pixels w bpr rows : w = 8 * bpr -> Forall (row_ok bpr) rows -> map (row_pixels w) rows = map pixels rows.
Proof.
  intros -> H. induction H as [|r rows [_ Hr] _ IH]; [done|]. cbn [map]. rewrite IH. f_equal. unfold row_pixels.
  apply take_ge. rewrite length_pixels. lia.
Qed.

Lemma gives_rows {U} bpr (h : U -> list Z -> Z -> U * list Z * Z) u buf rows u' : gives bpr h u buf rows u' -> Forall (row_ok bpr) rows.
Proof. induction 1; by constructor. Qed.

Lemma page_rows_ok bpr s text rows : 0 <= bpr -> Forall (row_ok bpr) rows -> Forall (row_ok bpr) (page_rows bpr s text rows).
Proof.
  intros Hb Hr. unfold page_rows. apply Forall_app_2; [|done]. destruct (T4Tx.header_info s); [|constructor].
  unfold header_rows. apply Forall_concat. rewrite Forall_map. apply list.Forall_forall. intros r _. apply Forall_replicate.
  destruct (header_octets_ok text r 0 bpr ltac:(lia)). split; [done|lia].
Qed.

(** An encoder and a decoder, set up for pages of the same kind. *)
Record paired (enc bpr : Z) (tx : T4Tx.t4_tx_state_t) (rx : T4Rx.t4_rx_state_t) : Prop := {
  paired_enc : known enc;
  paired_bpr : 0 < bpr;
  paired_tx : page_ready enc (8 * bpr) bpr tx;
  paired_rx : reader_ready enc (8 * bpr) rx;
}.

(** The first row of T.6 must not change its colour in its last three pixels. *)
Definition first_row_fits (enc : Z) (rows : list (list Z)) : Prop :=
  enc = 3 -> match rows with [] => True | r :: _ => first_row_ok (pixels r) end.

(** C5: a page is transmitted faithfully.  The encoder is given the rows of a page
    by its handler, puts the line of the header before them and encodes them in one
    of the three codings; its octets are taken in chunks of any sizes and put into
    the decoder, which then hands its own handler exactly these rows, in order and
    octet for octet, then the end of the image, and has counted no bad row.  In T.6
    the first row must not change its colour within its last three pixels. *)
Theorem t4_roundtrip {U V} (h : U -> list Z -> Z -> U * list Z * Z) (k : V -> list Z -> V * Z) enc bpr tx rx fuel text u rows u' v :
  paired enc bpr tx rx -> (forall buf, gives bpr h u buf rows u') -> (length rows < fuel)%nat ->
  page_rows bpr tx text rows <> [] -> first_row_fits enc (page_rows bpr tx text rows) -> (forall v r, 0 <= (k v r).2) ->
  exists tx' rx', T4Tx.t4_tx_start_page h fuel text u tx = Some (0, u', tx') /\ T4Rx.t4_rx_start_page rx = Some (0, rx') /\
    forall lens, Forall (fun n => 0 <= n) lens -> zlen (T4Tx.image_buffer (T4Tx.out tx')) <= sum lens ->
    exists ended rx1 rx2, T4Rx.t4_rx_put_chunk rx' (get_chunks tx' lens) = Some (ended, rx1) /\
      T4Rx.t4_rx_end_page k v rx1 = Some (0, (k (deliver k v (page_rows bpr tx text rows)) []).1, rx2) /\
      T4Rx.image_length (T4Rx.image (T4Rx.dec rx2)) = zlen (page_rows bpr tx text rows) /\
      T4Rx.bad_rows (T4Rx.image (T4Rx.dec rx2)) = 0.
Proof.
  intros [Henc Hb Htx Hrx] Hg Hf Hne Hfirst Hk.
  destruct (start_page_spec enc (8 * bpr) bpr Henc h fuel text u rows u' tx Htx Hg Hf)
    as (tx' & bits & o' & e & f & E & Hc & He & _ & Hbytes & Hline & Hptr & _).
  destruct (start_page_begins enc (8 * bpr) bpr rx Hb eq_refl Hrx) as (rx' & Er & Hbegun).
  exists tx', rx'. split; [done|]. split; [done|]. intros lens Hl Hsum.
  assert (Forall (row_ok bpr) (page_rows bpr tx text rows)) as Hrows.
  { apply page_rows_ok; [lia|]. by apply (gives_rows bpr h u [] rows u'). }
  rewrite get_chunks_spec by (done || lia). unfold slice. rewrite Hptr, take_ge by (change (Z.to_nat 0) with O; rewrite drop_0; lia).
  change (Z.to_nat 0) with O. rewrite drop_0. unfold first_reference in Hc. rewrite (full_row_pixels (8 * bpr) bpr) in Hc by done.
  apply (page_decoded enc (8 * bpr) bpr k v rx' _ bits o' e f); done.
Qed.


(** Three rows of 24 pixels in the two-dimensional coding of T.4, with every
    fourth row in one dimension, and fill up to 100 bits per row. *)
Definition demo_rows : list (list Z) := [[0xF0; 0x0F; 0x01]; [0x0F; 0x3C; 0xFE]; [0xE7; 0x3C; 0xFE]].
Definition demo_read (u : list (list Z)) (buf : list Z) (len : Z) : list (list Z) * list Z * Z :=
  match u with [] => ([], buf, 0) | r :: u => (u, r, len) end.
Definition demo_write (v : list (list Z)) (r : list Z) : list (list Z) * Z := (v ++ [r], 0).
Definition demo_tx (enc min_bits : Z) : option T4Tx.t4_tx_state_t :=
  s ← T4Tx.t4_tx_init 24 7700 4 (-1) (-1) (replicate 28 0) (replicate 28 0) (replicate 3 0);
  Some (T4Tx.t4_tx_set_min_row_bits (T4Tx.t4_tx_set_tx_encoding s enc) min_bits).
Definition demo_rx (enc : Z) : T4Rx.t4_rx_state_t :=
  T4Rx.t4_rx_set_image_width (T4Rx.t4_rx_set_rx_encoding T4Rx.t4_rx_init enc) 24.

Lemma demo_gives buf rows : Forall (row_ok 3) rows -> gives 3 demo_read rows buf rows [].
Proof.
  intros H. revert buf. induction H as [|r rows Hr _ IH]; intros buf.
  - by apply gives_end with buf 0.
  - by apply gives_row with rows 3.
Qed.

Lemma t4_roundtrip_witness : exists tx, demo_tx 2 100 = Some tx /\
  exists tx' rx', T4Tx.t4_tx_start_page demo_read 10 [] demo_rows tx = Some (0, [], tx') /\ T4Rx.t4_rx_start_page (demo_rx 2) = Some (0, rx') /\
    forall lens, Forall (fun n => 0 <= n) lens -> zlen (T4Tx.image_buffer (T4Tx.out tx')) <= sum lens ->
    exists ended rx1 rx2, T4Rx.t4_rx_put_chunk rx' (get_chunks tx' lens) = Some (ended, rx1) /\
      T4Rx.t4_rx_end_page demo_write [] rx1 = Some (0, demo_rows ++ [[]], rx2) /\
      T4Rx.image_length (T4Rx.image (T4Rx.dec rx2)) = 3 /\ T4Rx.bad_rows (T4Rx.image (T4Rx.dec rx2)) = 0.
Proof.
  eexists. split; [reflexivity|].
  refine (t4_roundtrip demo_read demo_write 2 3 _ (demo_rx 2) 10 [] demo_rows demo_rows [] [] _ _ _ _ _ _).
  - split; [by right; left|lia| |].
    + split; try reflexivity; first [lia|by vm_compute].
    + split; try reflexivity. cbn. intros E. discriminate E.
  - intros buf. apply demo_gives. repeat apply Forall_cons_2; try apply Forall_nil_2.
    all: split; [|reflexivity]; repeat apply Forall_cons_2; try apply Forall_nil_2; unfold is_byte; lia.
  - cbn. lia.
  - discriminate.
  - intros E. discriminate E.
  - intros v r. cbn. lia.
Defined.

(** ** Outside the conditions of the round trip *)

(** The page of [rows], encoded. *)
Definition demo_page (enc width : Z) (rows : list (list Z)) : option T4Tx.t4_tx_state_t :=
  let runs := replicate (Z.to_nat (width + 4)) 0 in
  tx ← T4Tx.t4_tx_init width 7700 4 (-1) (-1) runs runs (replicate 3 0);
  '(_, _, tx) ← T4Tx.t4_tx_start_page demo_read 10 [] rows (T4Tx.t4_tx_set_tx_encoding tx enc);
  Some tx.

(** What the decoder makes of it: the rows, and how many were bad. *)
Definition demo_trip (enc width : Z) (rows : list (list Z)) : option (list (list Z) * Z) :=
  tx ← demo_page enc width rows;
  '(_, rx) ← T4Rx.t4_rx_start_page (T4Rx.t4_rx_set_image_width (T4Rx.t4_rx_set_rx_encoding T4Rx.t4_rx_init enc) width);
  '(_, rx) ← T4Rx.t4_rx_put_chunk rx (T4Tx.image_buffer (T4Tx.out tx));
  '(_, v, rx) ← T4Rx.t4_rx_end_page demo_write [] rx;
  Some (v, T4Rx.bad_rows (T4Rx.image (T4Rx.dec rx))).

(** In T.6 a first row whose last pixel alone is black is lost, and the next one
    comes through; as a second row it does no harm. *)
Example t6_first_row_lost :
  demo_trip 3 24 [[0; 0; 1]; [0xFF; 0; 0x0F]; [0; 0; 0]] = Some ([[0xFF; 0; 0x0F]; [0; 0; 0]; []], 1) /\
  demo_trip 3 24 [[0; 0; 0xF0]; [0; 0; 1]; [0; 0; 0]] = Some ([[0; 0; 0xF0]; [0; 0; 1]; [0; 0; 0]; []], 0).
Proof. split; vm_compute; reflexivity. Qed.

(** Rows are decoded one right behind the other, so that with 20 pixels they do not
    begin at octets: two rows of three octets each are five octets of image. *)
Example odd_width_runs_together :
  (tx ← demo_page 1 20 [[0xFF; 0xFF; 0xF0]; [0; 0; 0]];
   '(_, rx) ← T4Rx.t4_rx_start_page (T4Rx.t4_rx_set_image_width (T4Rx.t4_rx_set_rx_encoding T4Rx.t4_rx_init 1) 20);
   '(_, rx) ← T4Rx.t4_rx_put_chunk rx (T4Tx.image_buffer (T4Tx.out tx));
   Some (T4Rx.image_buffer (T4Rx.image (T4Rx.dec rx)), T4Rx.image_length (T4Rx.image (T4Rx.dec rx)))) =
  Some ([0xFF; 0xFF; 0xF0; 0; 0], 2).
Proof. vm_compute. reflexivity. Qed.

(** [t4_tx_check_bit] does not look at the bit that [t4_tx_get_bit] gives. *)
Example check_bit_order :
  (tx ← demo_page 3 24 [[0; 0; 0]]; b ← T4Tx.t4_tx_check_bit tx; '(b', _) ← T4Tx.t4_tx_get_bit tx; Some (b, b')) = Some (0, 1).
Proof. vm_compute. reflexivity. Qed.

(** Bit by bit. *)
Fixpoint put_line (l : list bool) (s : T4Rx.t4_rx_state_t) : option T4Rx.t4_rx_state_t :=
  match l with
  | [] => Some s
  | b :: l => '(_, s) ← T4Rx.t4_rx_put_bit s (Z.b2z b); put_line l s
  end.

(** White and black runs of no pixels, [n] of each. *)
Definition empty_runs (n : nat) : list bool :=
  eol ++ concat (replicate n (word_of (entry_of false 0) ++ word_of (entry_of true 0))) ++ repeat false 13.

(** The number of runs in a row is not bounded: runs of no pixels make the decoder
    write behind the array, which has four runs more than the row has pixels. *)
Example empty_runs_overflow :
  is_Some ('(_, rx) ← T4Rx.t4_rx_start_page (demo_rx 1); put_line (empty_runs 14) rx) /\
  ('(_, rx) ← T4Rx.t4_rx_start_page (demo_rx 1); put_line (empty_runs 15) rx) = None.
Proof. split; vm_compute; [by eexists|reflexivity]. Qed.
