(* ===== verification/T4Format.v ===== *)
(** * The two halves of T.4 and the format between them (src/spandsp-0.0.6/src/t4_tx.c, t4_rx.c)

    The encoder refines the format of T4Spec, and the decoder takes the pages of that
    format, whoever has encoded them, on the conditions that its theorem states. *)
From S2P Require Import Prelude T4Tables T4Base T4Spec T4Changes T4Out T4Rows T4Page T4PageRx T4Trip.
From S2P Require T4Tx T4Rx.

(** C32: [row_to_run_lengths] finds the runs of a row in words of 32 bits, octets and
    a last part of an octet, by the highest bit that differs; what it gives are the
    positions at which the colour of the pixels changes, in order, and the width,
    for any row and any width that the row has the pixels for. *)
Theorem row_to_run_lengths_changes row w : bytes row -> 0 < w <= 8 * zlen row ->
  T4Tx.row_to_run_lengths row w = Some (run_ends (take (Z.to_nat w) (pixels row))).
Proof. exact (row_to_run_lengths_spec row w). Qed.

Lemma row_to_run_lengths_changes_witness :
  T4Tx.row_to_run_lengths [0xFF; 0x0F; 0; 0; 0x81; 0xF0] 45 = Some [0; 8; 12; 16; 32; 33; 39; 44; 45].
Proof.
  refine (eq_trans (row_to_run_lengths_changes [0xFF; 0x0F; 0; 0; 0x81; 0xF0] 45 _ _) _).
  - repeat apply Forall_cons_2; try apply Forall_nil_2; unfold is_byte; lia.
  - cbn. lia.
  - vm_compute. reflexivity.
Defined.

(** C12: the encoder refines the format: for an encoder that is set up for pages of
    [w] pixels and a handler that gives rows of [bpr] octets, [t4_tx_start_page]
    succeeds, and the bits it then holds are those of the rows of the header and of
    the handler as T.4 and T.6 have them ([coded_rows]: EOLs, tags, fill, runs of the
    rows, modes of the changes against the row before), then the end of the page and
    less than eight ones, from the first octet on. *)
Theorem t4_page_format {U} enc w bpr (h : U -> list Z -> Z -> U * list Z * Z) fuel text u rows u' s :
  known enc -> page_ready enc w bpr s -> (forall buf, gives bpr h u buf rows u') -> (length rows < fuel)%nat ->
  exists s' bits refs' e f, T4Tx.t4_tx_start_page h fuel text u s = Some (0, u', s') /\
    coded_rows enc w (first_reference enc w) (map (row_pixels w) (page_rows bpr s text rows)) bits refs' /\
    page_end enc e /\ (f < 8)%nat /\ line_bits (T4Tx.image_buffer (T4Tx.out s')) = bits ++ e ++ repeat true f /\
    T4Tx.bit_ptr s' = 0 /\ T4Tx.bit_pos s' = 7.
Proof.
  intros Hk Hs Hg Hf. destruct (start_page_spec enc w bpr Hk h fuel text u rows u' s Hs Hg Hf)
    as (s' & bits & refs' & e & f & E & Hc & He & Hff & _ & Hl & Hp & Hb).
  by exists s', bits, refs', e, f.
Qed.

Lemma demo_rows_ok : Forall (row_ok 3) demo_rows.
Proof.
  repeat apply Forall_cons_2; try apply Forall_nil_2.
  all: split; [|reflexivity]; repeat apply Forall_cons_2; try apply Forall_nil_2; unfold is_byte; lia.
Qed.

Lemma t4_page_format_witness : exists s, demo_tx 1 50 = Some s /\
  exists s' bits refs' e f, T4Tx.t4_tx_start_page demo_read 10 [] demo_rows s = Some (0, [], s') /\
    coded_rows 1 24 None (map (row_pixels 24) demo_rows) bits refs' /\
    page_end 1 e /\ (f < 8)%nat /\ line_bits (T4Tx.image_buffer (T4Tx.out s')) = bits ++ e ++ repeat true f /\
    T4Tx.bit_ptr s' = 0 /\ T4Tx.bit_pos s' = 7.
Proof.
  eexists. split; [reflexivity|].
  refine (t4_page_format 1 24 3 demo_read 10 [] demo_rows demo_rows [] _ _ _ _ _).
  - by left.
  - split; try reflexivity; first [lia|by vm_compute].
  - intros buf. apply demo_gives, demo_rows_ok.
  - cbn. lia.
Defined.

(** C11: a page of one row at least, of a width of full octets, that is coded in one of
    the three codings by the format of T4Spec - by this encoder or another - is
    decoded, on these conditions: behind the end of the page the octets hold only
    ones, and in T.6 the first row does not change its colour within its last three
    pixels (such a page is in the format too, and its first row is lost:
    T4Trip.t6_first_row_lost).  With a receiver that is set up for that coding and
    width, and the octets put in one chunk, [t4_rx_start_page], [t4_rx_put_chunk] and
    [t4_rx_end_page] succeed, and the handler gets exactly the rows, then the end of
    the image; no row is counted as bad. *)
Theorem t4_page_decoded {V} enc bpr (k : V -> list Z -> V * Z) v s rows bits refs' e f buf :
  known enc -> 0 < bpr -> reader_ready enc (8 * bpr) s -> rows <> [] -> Forall (row_ok bpr) rows -> first_row_fits enc rows ->
  coded_rows enc (8 * bpr) (first_reference enc (8 * bpr)) (map pixels rows) bits refs' -> page_end enc e ->
  bytes buf -> line_bits buf = bits ++ e ++ repeat true f -> (forall v r, 0 <= (k v r).2) ->
  exists s0 ended s1 s2, T4Rx.t4_rx_start_page s = Some (0, s0) /\ T4Rx.t4_rx_put_chunk s0 buf = Some (ended, s1) /\
    T4Rx.t4_rx_end_page k v s1 = Some (0, (k (deliver k v rows) []).1, s2) /\
    T4Rx.image_length (T4Rx.image (T4Rx.dec s2)) = zlen rows /\ T4Rx.bad_rows (T4Rx.image (T4Rx.dec s2)) = 0.
Proof.
  intros Hk Hb Hs Hne Hrows Hfirst Hc He Hbuf Hl Hk0. destruct (start_page_begins enc (8 * bpr) bpr s Hb eq_refl Hs) as (s0 & E0 & Hbegun).
  exists s0. destruct (page_decoded enc (8 * bpr) bpr k v s0 rows bits refs' e f buf) as (ended & s1 & s2 & E); try done.
  by exists ended, s1, s2.
Qed.

(** A page of T.6 written by hand: a row whose left half is white, its right half
    black, in horizontal mode and a vertical one, and a row like it. *)
Definition hand_bits : list bool :=
  concat (modes_words 0 [Horizontal 8 8] ++ modes_words 0 [Vertical 0; Vertical 0]).
Definition hand_page : list Z := Eval vm_compute in
  map of_lsb (let l := hand_bits ++ eol ++ eol in map (fun i => take 8 (drop (8 * i) l ++ repeat true 8)) (seq 0 ((length l + 7) / 8))).

Lemma hand_coded : exists refs', coded_rows 3 16 (Some [16]) (map pixels [[0; 0xFF]; [0; 0xFF]]) hand_bits refs'.
Proof.
  eexists. unfold hand_bits. rewrite concat_app. change (map pixels _) with [pixels [0; 0xFF]; pixels [0; 0xFF]].
  rewrite <- (app_nil_r (concat (modes_words 0 [Vertical 0; Vertical 0]))).
  set (A := end_at 16 (run_ends (pixels [0; 0xFF]))).
  assert (coding A (end_at 16 [16]) 16 (-1) 0 [Horizontal 8 8]) as H1.
  { change [Horizontal 8 8] with [Horizontal (A 0 - Z.max 0 (-1)) (A (0 + 1) - A 0)].
    apply (coded_horizontal A (end_at 16 [16]) 16 (-1) 0 0 []); [lia| |by vm_compute|by vm_compute|exact (coded_end A _ 16 2)].
    split; [lia|]. split; [done|]. split; [by vm_compute|]. intros k Hk. lia. }
  assert (coding A A 16 (-1) 0 [Vertical 0; Vertical 0]) as H2.
  { change [Vertical 0; Vertical 0] with [Vertical (A 0 - A 0); Vertical (A 1 - A 1)].
    apply (coded_vertical A A 16 (-1) 0 0 [Vertical (A 1 - A 1)]); [lia| |by vm_compute|by vm_compute|].
    { split; [lia|]. split; [done|]. split; [by vm_compute|]. intros k Hk. lia. }
    apply (coded_vertical A A 16 (A 0) 1 1 []); [by vm_compute| |by vm_compute|by vm_compute|exact (coded_end A A 16 2)].
    split; [lia|]. split; [done|]. split; [by vm_compute|]. intros k Hk Hev. assert (k = 0) as -> by lia. done. }
  apply (coded_cons 3 16 (Some [16]) (pixels [0; 0xFF]) _ true []); [done|done|by exists [16], [Horizontal 8 8]|].
  apply (coded_cons 3 16 _ (pixels [0; 0xFF]) [] true []); [done|done| |apply coded_nil].
  by exists (run_ends (pixels [0; 0xFF])), [Vertical 0; Vertical 0].
Qed.

Lemma t4_page_decoded_witness : exists s0 ended s1 s2,
  T4Rx.t4_rx_start_page (T4Rx.t4_rx_set_image_width (T4Rx.t4_rx_set_rx_encoding T4Rx.t4_rx_init 3) 16) = Some (0, s0) /\
  T4Rx.t4_rx_put_chunk s0 hand_page = Some (ended, s1) /\
  T4Rx.t4_rx_end_page demo_write [] s1 = Some (0, [[0; 0xFF]; [0; 0xFF]; []], s2) /\
  T4Rx.image_length (T4Rx.image (T4Rx.dec s2)) = 2 /\ T4Rx.bad_rows (T4Rx.image (T4Rx.dec s2)) = 0.
Proof.
  destruct hand_coded as [refs' Hc].
  refine (t4_page_decoded 3 2 demo_write [] _ [[0; 0xFF]; [0; 0xFF]] hand_bits refs' (eol ++ eol) 0 hand_page _ _ _ _ _ _ Hc _ _ _ _).
  - by right; right.
  - lia.
  - split; try reflexivity. cbn. intros E. discriminate E.
  - discriminate.
  - repeat apply Forall_cons_2; try apply Forall_nil_2.
    all: split; [|reflexivity]; repeat apply Forall_cons_2; try apply Forall_nil_2; unfold is_byte; lia.
  - intros _. unfold first_row_ok. change (run_ends (pixels [0; 0xFF])) with [8; 16]. change (zlen (pixels [0; 0xFF])) with 16.
    repeat (apply Forall_cons_2; [lia|]). apply Forall_nil_2.
  - reflexivity.
  - repeat apply Forall_cons_2; try apply Forall_nil_2; unfold is_byte; lia.
  - vm_compute. reflexivity.
  - intros v r. cbn. lia.
Defined.
