(* ===== verification/Profile.v ===== *)
(** * The modem's registers (class Profile of src/t38modem/pmodeme.cxx)

    The S-registers, which hold the options of the AT commands, and the modem
    class.  The 60 octets are the standard registers (40), the extended ones (10)
    and those of the voice class (10).  [S_after] is the octet of the object that
    follows the array: the assignment of profiles runs over it. *)
From Stdlib Require Import Ascii String.
From S2P Require Import Prelude EngineBase.

(** ** Texts *)

(** A string of the source as the octets it is. *)
Definition str (s : string) : list Z := map (fun a => Z.of_N (N_of_ascii a)) (list_ascii_of_string s).
Arguments str _%_string_scope.

(** ** Definitions *)

Definition PROFILE_SIZE_STD : Z := 40.
Definition PROFILE_SIZE_EXT : Z := 10.
Definition PROFILE_SIZE_VOICE : Z := 10.
Definition PROFILE_SIZE : Z := PROFILE_SIZE_STD + PROFILE_SIZE_EXT + PROFILE_SIZE_VOICE.
Definition MinRegStd : Z := 0.
Definition MaxRegStd : Z := MinRegStd + PROFILE_SIZE_STD - 1.
Definition MinRegExt : Z := MaxRegStd + 1.
Definition MaxRegExt : Z := MinRegExt + PROFILE_SIZE_EXT - 1.
Definition MinRegVoice : Z := MaxRegExt + 1.
Definition MaxRegVoice : Z := MinRegVoice + PROFILE_SIZE_VOICE - 1.
Definition MaxBit : Z := 7.

Record Profile := {
  S_ : list Z;
  S_after : Z;
  ModemClassName : list Z;
  ModemClassId : ModemClass;
}.

#[export] Instance eta_profile : Eta Profile := fun p =>
  Build_Profile (S_ p) (S_after p) (ModemClassName p) (ModemClassId p).

Definition ChkR (r : Z) : bool := r <? PROFILE_SIZE.
Definition ChkB (b : Z) : bool := b <=? MaxBit.
Definition ChkRB (r b : Z) : bool := ChkR r && ChkB b.
Definition ChkRBB (r bl bh : Z) : bool := ChkR r && ChkB bl && ChkB bh && (bl <=? bh).
Definition MaskB (b : Z) : Z := aget [0x01; 0x02; 0x04; 0x08; 0x10; 0x20; 0x40; 0x80] b.
Definition MaskBB (bl bh : Z) : Z :=
  u8 (aget [0x01; 0x03; 0x07; 0x0F; 0x1F; 0x3F; 0x7F; 0xFF] (bh - bl) .<< bl).

(** The operations return whether they are done, with the profile or the value. *)
Definition SetBit (p : Profile) (r b : Z) (val : bool) : bool * Profile :=
  if negb (ChkRB r b) then (false, p)
  else
    let msk := MaskB b in
    let s := aget (S_ p) r in
    (true, p <| S_ := aset (S_ p) r (if val then s .| msk else s .& u8 (Z.lnot msk)) |>).

Definition GetBit (p : Profile) (r b : Z) : bool * bool :=
  if negb (ChkRB r b) then (false, false)
  else (true, negb (aget (S_ p) r .& MaskB b =? 0)).

Definition SetReg (p : Profile) (r val : Z) : bool * Profile :=
  if negb (ChkR r) then (false, p) else (true, p <| S_ := aset (S_ p) r val |>).

Definition GetReg (p : Profile) (r : Z) : bool * Z :=
  if negb (ChkR r) then (false, 0) else (true, aget (S_ p) r).

Definition SetBits (p : Profile) (r bl bh val : Z) : bool * Profile :=
  if negb (ChkRBB r bl bh) then (false, p)
  else
    let msk := MaskBB bl bh in
    let p := p <| S_ := aset (S_ p) r (aget (S_ p) r .& u8 (Z.lnot msk)) |> in
    (true, p <| S_ := aset (S_ p) r (aget (S_ p) r .& ((val .<< bl) .& msk)) |>).

Definition GetBits (p : Profile) (r bl bh : Z) : bool * Z :=
  if negb (ChkRBB r bl bh) then (false, 0)
  else (true, u8 ((aget (S_ p) r .& MaskBB bl bh) .>> bl)).

(** [DeclareRegisterByte] and [DeclareRegisterBit]: the registers with names, by
    their numbers. *)
Definition set_reg (r : Z) (p : Profile) (val : Z) : Profile := (SetReg p r (u8 val)).2.
Definition get_reg (r : Z) (p : Profile) : Z := (GetReg p r).2.
Definition set_bit (r b : Z) (p : Profile) (val : bool) : Profile := (SetBit p r b val).2.
Definition get_bit (r b : Z) (p : Profile) : bool := (GetBit p r b).2.

Definition rAutoAnswer : Z := 0.
Definition rRingCount : Z := 1.
Definition rS7 : Z := 7.
Definition rDialTimeComma : Z := 8.
Definition rDialTimeDTMF : Z := 11.
Definition rIfcByDCE : Z := MinRegExt + 0.
Definition rIfcByDTE : Z := MinRegExt + 1.
Definition rClearMode : Z := MinRegExt + 2.
Definition rDelayFrmConnect : Z := MinRegExt + 3.
Definition rDidMode : Z := MinRegExt + 4.
Definition rCidMode : Z := MinRegExt + 5.
Definition rVtd : Z := MinRegVoice + 0.
Definition rVcml : Z := MinRegVoice + 1.
Definition rVsds : Z := MinRegVoice + 2.
Definition rVsdi : Z := MinRegVoice + 3.
Definition rVgrInterval : Z := MinRegVoice + 4.
Definition rVgtInterval : Z := MinRegVoice + 5.
Definition rVraInterval : Z := MinRegVoice + 6.
Definition rVrnInterval : Z := MinRegVoice + 7.
Definition rCidNameFmt : Z := MinRegVoice + 8.
Definition rCidNmbrFmt : Z := MinRegVoice + 9.

Definition Echo : Profile -> bool := get_bit 23 0.
Definition asciiResultCodes : Profile -> bool := get_bit 23 6.
Definition noResultCodes : Profile -> bool := get_bit 23 7.

Definition set_Flo (p : Profile) (val : Z) : Profile := set_reg rIfcByDCE (set_reg rIfcByDTE p val) val.
Definition Flo (p : Profile) : Z :=
  if get_reg rIfcByDTE p =? get_reg rIfcByDCE p then get_reg rIfcByDTE p else 255.

Definition set_ModemClass (p : Profile) (c : list Z) : Profile :=
  p <| ModemClassName := c |>
    <| ModemClassId := if bool_decide (c = str "1") then mcFax
                       else if bool_decide (c = str "8") then mcAudio
                       else mcUndefined |>.

(** The constructor; [after] is what the memory holds after the array. *)
Definition Profile_new (after : Z) : Profile :=
  let p := {| S_ := repeat 0 (Z.to_nat PROFILE_SIZE); S_after := after;
              ModemClassName := []; ModemClassId := mcUndefined |} in
  let p := set_reg rS7 p 60 in
  let p := set_reg rDialTimeComma p 2 in
  let p := set_reg rDialTimeDTMF p 70 in
  let p := set_bit 23 0 p true in
  let p := set_reg rVraInterval p 50 in
  let p := set_reg rVrnInterval p 10 in
  let p := set_reg rVsds p 128 in
  let p := set_reg rVsdi p 50 in
  let p := set_reg rVcml p 132 in
  let p := set_reg rVtd p 100 in
  let p := set_bit 23 6 p true in
  let p := set_bit 23 7 p false in
  set_ModemClass p (str "1").

(** One turn of the loops of the assignments: [S[r] = p.S[r]], where the index
    [PROFILE_SIZE] is the octet after the array. *)
Definition copy_octet (p q : Profile) (r : Z) : Profile :=
  if r =? PROFILE_SIZE then q <| S_after := S_after p |>
  else q <| S_ := aset (S_ q) r (aget (S_ p) r) |>.

Fixpoint copy_octets (p q : Profile) (r : Z) (n : nat) : Profile :=
  match n with
  | O => q
  | S n => copy_octets p (copy_octet p q r) (r + 1) n
  end.

(** [operator=]: the loop runs while [r <= PROFILE_SIZE]. *)
Definition assign (q p : Profile) : Profile :=
  set_ModemClass (copy_octets p q 0 (Z.to_nat (PROFILE_SIZE + 1))) (ModemClassName p).

Definition SetVoiceProfile (q p : Profile) : Profile :=
  copy_octets p q MinRegVoice (Z.to_nat (MaxRegVoice - MinRegVoice + 1)).

(** ** Laws *)

(** The profiles the modem has: 60 octets. *)
Definition profile_ok (p : Profile) : Prop := zlen (S_ p) = PROFILE_SIZE /\ bytes (S_ p).

Lemma profile_new_ok after : profile_ok (Profile_new after).
Proof. split; [done|]. cbn. repeat (constructor; [unfold is_byte; vm_compute; intuition discriminate|]). constructor. Qed.

Lemma set_get_reg p r r' v : profile_ok p -> 0 <= r < PROFILE_SIZE -> 0 <= r' -> is_byte v ->
  get_reg r' (set_reg r p v) = if bool_decide (r' = r) then v else get_reg r' p.
Proof.
  intros [Hl Hb] Hr Hr' Hv. unfold get_reg, set_reg, GetReg, SetReg, ChkR.
  rewrite (proj2 (Z.ltb_lt r PROFILE_SIZE)) by lia. simpl.
  destruct (Z.ltb_spec r' PROFILE_SIZE); simpl.
  - rewrite aget_aset by lia. rewrite wrap_id by (unfold is_byte in Hv; lia).
    case_bool_decide as E; destruct (Z.eqb_spec r r'); try done; congruence.
  - case_bool_decide; [lia|done].
Qed.

(** What sets registers leaves the class as it is. *)
Definition keeps_class (f : Profile -> Profile) : Prop := forall p, ModemClassId (f p) = ModemClassId p.

Lemma SetReg_class r v : keeps_class (fun p => (SetReg p r v).2).
Proof. intros p. unfold SetReg. by destruct (negb (ChkR r)). Qed.
Lemma SetBit_class r b v : keeps_class (fun p => (SetBit p r b v).2).
Proof. intros p. unfold SetBit. by destruct (negb (ChkRB r b)). Qed.
Lemma SetBits_class r bl bh v : keeps_class (fun p => (SetBits p r bl bh v).2).
Proof. intros p. unfold SetBits. by destruct (negb (ChkRBB r bl bh)). Qed.
Lemma set_reg_class r v : keeps_class (fun p => set_reg r p v).
Proof. intros p. apply SetReg_class. Qed.
Lemma set_bit_class r b v : keeps_class (fun p => set_bit r b p v).
Proof. intros p. apply SetBit_class. Qed.
Lemma set_reg2_class r r' v v' : keeps_class (fun p => set_reg r (set_reg r' p v') v).
Proof. intros p. by rewrite !set_reg_class. Qed.

Lemma copy_octets_class p r n : keeps_class (fun q => copy_octets p q r n).
Proof.
  intros q. revert q r. induction n as [|n IH]; intros q r; [done|]. simpl. rewrite IH.
  unfold copy_octet. by destruct (r =? PROFILE_SIZE).
Qed.

Create HintDb profile.
#[export] Hint Resolve SetReg_class SetBit_class SetBits_class set_reg_class set_bit_class set_reg2_class
  copy_octets_class : profile.
