(* ===== verification/AtText.v ===== *)
(** * The text of AT commands (src/t38modem/pmodeme.cxx)

    A command line is a string with a terminator that is read through a pointer
    that only moves forward.  The [cursor] is that pointer: what is before it
    (last character first), what is ahead up to the terminator, and whether it has
    moved past the terminator; reading it there is out of bounds.  With the
    parser of numbers and the texts the answers are printed with. *)
From Stdlib Require Import Ascii String.
From S2P Require Import Prelude Profile.

(** ** Definitions *)

Record cursor := { bef : list Z; aft : list Z; past : bool }.

#[export] Instance eta_cursor : Eta cursor := fun c => Build_cursor (bef c) (aft c) (past c).

Definition cursor_at (text : list Z) : cursor := {| bef := []; aft := text; past := false |}.

(** [*p], the terminator at the end of the text; [None]: out of bounds. *)
Definition deref (c : cursor) : option Z := if past c then None else Some (hd 0 (aft c)).

(** [*(p - k)] *)
Definition deref_back (c : cursor) (k : nat) : option Z := if past c then None else bef c !! pred k.

(** [p++] *)
Definition step (c : cursor) : cursor :=
  match aft c with
  | x :: aft => {| bef := x :: bef c; aft := aft; past := past c |}
  | [] => {| bef := 0 :: bef c; aft := []; past := true |}
  end.

(** [p--] *)
Definition step_back (c : cursor) : cursor :=
  match bef c with
  | x :: bef => if past c then {| bef := bef; aft := []; past := false |}
                else {| bef := bef; aft := x :: aft c; past := false |}
  | [] => c
  end.

(** Characters. *)
Definition chr (a : ascii) : Z := Z.of_N (N_of_ascii a).
Arguments chr _%_char_scope.

Definition isdigit (c : Z) : bool := (48 <=? c) && (c <=? 57).
Definition toupper (c : Z) : Z := if (97 <=? c) && (c <=? 122) then c - 32 else c.
Definition ToUpper : list Z -> list Z := map toupper.

(** [strncmp (p, s, strlen (s)) == 0] for a text [s] without a terminator in it. *)
Fixpoint has_prefix (s l : list Z) : bool :=
  match s, l with
  | [], _ => true
  | x :: s, y :: l => (x =? y) && has_prefix s l
  | _ :: _, [] => false
  end.

Definition strncmp0 (c : cursor) (s : list Z) : option bool :=
  if past c then None else Some (has_prefix s (aft c)).

(** A string up to its terminator. *)
Fixpoint c_string (l : list Z) : list Z :=
  match l with
  | [] => []
  | x :: l => if x =? 0 then [] else x :: c_string l
  end.

(** [ParseNum]: the loop on the digits, with what it has of the number (an [int])
    and how many there were. *)
Fixpoint num_loop (l bef : list Z) (num len : Z) : Z * Z * cursor :=
  match l with
  | d :: l' =>
      if isdigit d then num_loop l' (d :: bef) (swrap 32 (num * 10 + (d - 48))) (len + 1)
      else (num, len, {| bef := bef; aft := l; past := false |})
  | [] => (num, len, {| bef := bef; aft := []; past := false |})
  end.

Definition ParseNum (c : cursor) (minDigits maxDigits maxNum defNum : Z) : option (Z * cursor) :=
  if past c then None
  else
    let '(num, len, c) := num_loop (aft c) (bef c) 0 0 in
    Some (if (len <? minDigits) || (maxDigits <? len) || (maxNum <? num) then -1
          else if len =? 0 then defNum
          else num, c).

(** [sprintf] of unsigned numbers: ["%u"] and ["%3.3u"]. *)
Fixpoint print_digits (fuel : nat) (n : Z) : list Z :=
  match fuel with
  | O => []
  | S fuel => if n <? 10 then [48 + n] else print_digits fuel (n / 10) ++ [48 + n mod 10]
  end.
Definition print_u (n : Z) : list Z := print_digits 10 n.
Definition print_u3 (n : Z) : list Z :=
  let d := print_u n in repeat 48 (3 - length d) ++ d.

Definition CRLF : list Z := [13; 10].

(** ["..."] in an answer. *)
Definition quoted (s : list Z) : list Z := 34 :: s ++ [34].

(** ** The value of digits *)

Definition digits (l : list Z) : Prop := Forall (fun d => isdigit d = true) l.

Fixpoint value_from (num : Z) (l : list Z) : Z :=
  match l with
  | [] => num
  | d :: l => value_from (num * 10 + (d - 48)) l
  end.
Definition value : list Z -> Z := value_from 0.

Definition no_digit (l : list Z) : Prop := match l with d :: _ => isdigit d = false | [] => True end.

Lemma isdigit_range d : isdigit d = true <-> 48 <= d <= 57.
Proof. unfold isdigit. rewrite andb_true_iff, !Z.leb_le. done. Qed.

Lemma value_from_bound l num : digits l -> 0 <= num ->
  num * 10 ^ zlen l <= value_from num l < (num + 1) * 10 ^ zlen l.
Proof.
  intros Hl. revert num. induction Hl as [|d l Hd _ IH]; intros num Hnum; cbn [value_from length].
  - lia.
  - apply isdigit_range in Hd. specialize (IH (num * 10 + (d - 48))).
    rewrite Nat2Z.inj_succ, Z.pow_succ_r by lia.
    assert (0 < 10 ^ zlen l) by lia. nia.
Qed.

Lemma num_loop_run l rest b num len : digits l -> no_digit rest ->
  exists n, num_loop (l ++ rest) b num len =
    (n, len + zlen l, {| bef := rev l ++ b; aft := rest; past := false |}) /\
    (0 <= num -> (num + 1) * 10 ^ zlen l <= 2 ^ 31 -> n = value_from num l).
Proof.
  intros Hl Hr. revert b num len. induction Hl as [|d l Hd Hl IH]; intros b num len; simpl.
  - exists num. split; [|done]. destruct rest as [|x rest]; simpl in *;
      [|rewrite Hr]; do 2 f_equal; lia.
  - rewrite Hd. destruct (IH (d :: b) (swrap 32 (num * 10 + (d - 48))) (len + 1)) as (n & -> & Hn).
    exists n. split; [rewrite <- app_assoc; simpl; do 2 f_equal; lia|].
    intros H0 Hb. apply isdigit_range in Hd.
    rewrite Nat2Z.inj_succ, Z.pow_succ_r in Hb by lia.
    assert (0 < 10 ^ zlen l) by lia.
    assert (swrap 32 (num * 10 + (d - 48)) = num * 10 + (d - 48)) as E
      by (apply swrap_id; [done|]; nia).
    rewrite E in Hn. apply Hn; [lia|nia].
Qed.

(** What [ParseNum] returns of a text that begins with the digits [l]: the
    overflow of the [int] does not show, a number that overflows has too many
    digits. *)
Lemma parse_num_spec b l rest minDigits maxDigits maxNum defNum :
  digits l -> no_digit rest -> maxDigits <= 9 ->
  ParseNum {| bef := b; aft := l ++ rest; past := false |} minDigits maxDigits maxNum defNum =
  Some (if (zlen l <? minDigits) || (maxDigits <? zlen l) || (maxNum <? value l) then -1
        else if zlen l =? 0 then defNum else value l,
        {| bef := rev l ++ b; aft := rest; past := false |}).
Proof.
  intros Hl Hr Hmax. unfold ParseNum. simpl.
  destruct (num_loop_run l rest b 0 0 Hl Hr) as (n & -> & Hn). rewrite Z.add_0_l.
  do 2 f_equal. destruct (zlen l <? minDigits); [done|]. simpl.
  destruct (Z.ltb_spec maxDigits (zlen l)); [done|]. simpl.
  rewrite Hn; [done|lia|].
  assert (10 ^ zlen l <= 10 ^ 9) by (apply Z.pow_le_mono_r; lia). lia.
Qed.
