(* ===== verification/G711.v ===== *)
(** * G.711 companding (src/t38modem/g711.c)

    The A-law and mu-law octets of the modem's voice class and the 16-bit linear
    samples of its audio engine.  The functions of the source take and return
    [int]s: an octet arrives as the [signed char] it is, so with its top bit
    extended. *)
From S2P Require Import Prelude.

(** ** Definitions *)

Definition SIGN_BIT : Z := 0x80.
Definition QUANT_MASK : Z := 0xf.
Definition SEG_SHIFT : Z := 4.
Definition SEG_MASK : Z := 0x70.
Definition BIAS : Z := 0x84.
Definition CLIP : Z := 8159.

Definition seg_aend : list Z := [0x1F; 0x3F; 0x7F; 0xFF; 0x1FF; 0x3FF; 0x7FF; 0xFFF].
Definition seg_uend : list Z := [0x3F; 0x7F; 0xFF; 0x1FF; 0x3FF; 0x7FF; 0xFFF; 0x1FFF].

(** The loop on the table: how many entries are below [val]. *)
Fixpoint search (val : Z) (table : list Z) : Z :=
  match table with
  | [] => 0
  | t :: table => if val <=? t then 0 else 1 + search val table
  end.

Definition linear2alaw (pcm_val : Z) : Z :=
  let pcm_val := pcm_val .>> 3 in
  let '(mask, pcm_val) := if 0 <=? pcm_val then (0xD5, pcm_val) else (0x55, - pcm_val - 1) in
  let seg := search pcm_val seg_aend in
  if 8 <=? seg then 0x7F .^ mask
  else
    let aval := seg .<< SEG_SHIFT in
    let aval := if seg <? 2 then aval .| ((pcm_val .>> 1) .& QUANT_MASK)
                else aval .| ((pcm_val .>> seg) .& QUANT_MASK) in
    aval .^ mask.

Definition alaw2linear (a_val : Z) : Z :=
  let a_val := a_val .^ 0x55 in
  let t := (a_val .& QUANT_MASK) .<< 4 in
  let seg := (a_val .& SEG_MASK) .>> SEG_SHIFT in
  let t := if seg =? 0 then t + 8
           else if seg =? 1 then t + 0x108
           else (t + 0x108) .<< (seg - 1) in
  if a_val .& SIGN_BIT =? 0 then - t else t.

Definition linear2ulaw (pcm_val : Z) : Z :=
  let pcm_val := pcm_val .>> 2 in
  let '(mask, pcm_val) := if pcm_val <? 0 then (0x7F, - pcm_val) else (0xFF, pcm_val) in
  let pcm_val := if CLIP <? pcm_val then CLIP else pcm_val in
  let pcm_val := pcm_val + (BIAS .>> 2) in
  let seg := search pcm_val seg_uend in
  if 8 <=? seg then 0x7F .^ mask
  else ((seg .<< 4) .| ((pcm_val .>> (seg + 1)) .& 0xF)) .^ mask.

Definition ulaw2linear (u_val : Z) : Z :=
  let u_val := Z.lnot u_val in
  let t := ((u_val .& QUANT_MASK) .<< 3) + BIAS in
  let t := t .<< ((u_val .& SEG_MASK) .>> SEG_SHIFT) in
  if u_val .& SIGN_BIT =? 0 then t - BIAS else BIAS - t.

(** ** Exhaustive checks over the samples *)

Fixpoint all_from (n : nat) (x : Z) (P : Z -> bool) : bool :=
  match n with
  | O => true
  | S n => P x && all_from n (x + 1) P
  end.

Lemma all_from_spec n x P : all_from n x P = true ->
  forall y, x <= y < x + Z.of_nat n -> P y = true.
Proof.
  revert x. induction n as [|n IH]; intros x H y Hy; [lia|].
  simpl in H. apply andb_true_iff in H as [Hx H].
  destruct (decide (y = x)) as [->|]; [done|]. apply (IH (x + 1)); [done|lia].
Qed.

(** [by_samples P x]: [P x = true] for a 16-bit sample [x], by evaluation. *)
Ltac by_samples P x :=
  let H := fresh in
  assert (all_from (Z.to_nat 65536) (-32768) P = true) as H by (vm_compute; reflexivity);
  apply (all_from_spec _ _ _ H x).

Definition sample (x : Z) : Prop := -32768 <= x < 32768.

(** ** Octets *)

(** Every A-law octet is the code of the sample it decodes to. *)
Lemma alaw_octets a : is_byte a -> linear2alaw (alaw2linear a) = a.
Proof.
  intros Ha. apply Z.eqb_eq. revert Ha. unfold is_byte.
  by_evaluation 256%nat (fun a => linear2alaw (alaw2linear a) =? a) a.
Qed.

(** Every mu-law octet but the negative zero is the code of the sample it
    decodes to. *)
Lemma ulaw_octets u : is_byte u -> linear2ulaw (ulaw2linear u) = if u =? 0x7F then 0xFF else u.
Proof.
  intros Hu. apply Z.eqb_eq. revert Hu. unfold is_byte.
  by_evaluation 256%nat (fun u => linear2ulaw (ulaw2linear u) =? if u =? 0x7F then 0xFF else u) u.
Qed.

(** The decoders take the octet as the [signed char] it arrives in: the bits
    above the low eight do not count. *)
Lemma alaw2linear_signed a : is_byte a -> alaw2linear (swrap 8 a) = alaw2linear a.
Proof.
  intros Ha. apply Z.eqb_eq. revert Ha. unfold is_byte.
  by_evaluation 256%nat (fun a => alaw2linear (swrap 8 a) =? alaw2linear a) a.
Qed.

Lemma ulaw2linear_signed u : is_byte u -> ulaw2linear (swrap 8 u) = ulaw2linear u.
Proof.
  intros Hu. apply Z.eqb_eq. revert Hu. unfold is_byte.
  by_evaluation 256%nat (fun u => ulaw2linear (swrap 8 u) =? ulaw2linear u) u.
Qed.

(** ** Samples *)

Definition alaw_sample (x : Z) : Z := alaw2linear (linear2alaw x).
Definition ulaw_sample (x : Z) : Z := ulaw2linear (linear2ulaw x).

Definition codes_ok (x : Z) : bool :=
  (0 <=? linear2alaw x) && (linear2alaw x <? 256) &&
  (0 <=? linear2ulaw x) && (linear2ulaw x <? 256).

Definition quantized (x : Z) : bool :=
  (32 * Z.abs (alaw_sample x - x) <=? Z.max 256 (Z.abs x)) &&
  ((32635 <? Z.abs x) || (32 * Z.abs (ulaw_sample x - x) <=? Z.abs x + 231)).

Definition ascending (x : Z) : bool :=
  (alaw_sample (x - 1) <=? alaw_sample x) && (ulaw_sample (x - 1) <=? ulaw_sample x).

Lemma codes_are_octets x : sample x -> is_byte (linear2alaw x) /\ is_byte (linear2ulaw x).
Proof.
  intros Hx. assert (codes_ok x = true) as H by (revert Hx; unfold sample; by_samples codes_ok x).
  unfold codes_ok in H. rewrite !andb_true_iff, !Z.leb_le, !Z.ltb_lt in H.
  unfold is_byte. tauto.
Qed.

Lemma samples_ascend x y : sample x -> sample y -> x <= y ->
  alaw_sample x <= alaw_sample y /\ ulaw_sample x <= ulaw_sample y.
Proof.
  intros Hx Hy Hxy.
  assert (forall n z, z = x + Z.of_nat n -> sample z ->
            alaw_sample x <= alaw_sample z /\ ulaw_sample x <= ulaw_sample z) as Hn.
  { induction n as [|n IH]; intros z -> Hz; [rewrite Z.add_0_r; lia|].
    destruct (IH _ eq_refl) as [IHa IHu]; [unfold sample in *; lia|].
    assert (ascending (x + Z.of_nat (S n)) = true) as H
      by (unfold sample in *; revert Hz; by_samples ascending (x + Z.of_nat (S n))).
    unfold ascending in H. rewrite andb_true_iff, !Z.leb_le in H.
    replace (x + Z.of_nat (S n) - 1) with (x + Z.of_nat n) in H by lia. lia. }
  apply (Hn (Z.to_nat (y - x))); [lia|done].
Qed.

(** C33: companding keeps a sample: for every 16-bit sample A-law decodes its code
    within a thirty-second of its magnitude (within 8 for the small ones), mu-law
    within a thirty-second of the magnitude plus 231 below its clipping level;
    the codes are octets, and a larger sample is never decoded smaller. *)
Theorem companding_error x y : sample x -> sample y -> x <= y ->
  is_byte (linear2alaw x) /\ is_byte (linear2ulaw x) /\
  32 * Z.abs (alaw2linear (linear2alaw x) - x) <= Z.max 256 (Z.abs x) /\
  (Z.abs x <= 32635 -> 32 * Z.abs (ulaw2linear (linear2ulaw x) - x) <= Z.abs x + 231) /\
  alaw2linear (linear2alaw x) <= alaw2linear (linear2alaw y) /\
  ulaw2linear (linear2ulaw x) <= ulaw2linear (linear2ulaw y).
Proof.
  intros Hx Hy Hxy.
  assert (quantized x = true) as H by (clear Hxy; revert Hx; unfold sample; by_samples quantized x).
  unfold quantized in H. rewrite andb_true_iff, orb_true_iff, !Z.leb_le, Z.ltb_lt in H.
  destruct (codes_are_octets x Hx), (samples_ascend x y Hx Hy Hxy).
  unfold alaw_sample, ulaw_sample in *.
  split_and!; try done; [apply H|intros; destruct H as [_ [|]]; [lia|done]].
Qed.

Lemma companding_error_witness :
  alaw2linear (linear2alaw (-1000)) = -1008 /\ ulaw2linear (linear2ulaw (-1000)) = -988 /\
  alaw2linear (linear2alaw (-1000)) <= alaw2linear (linear2alaw 20000).
Proof.
  split; [reflexivity|split; [reflexivity|]].
  apply (companding_error (-1000) 20000); unfold sample; lia.
Defined.
