(* ===== verification/ModemBase.v ===== *)
(** * The modem's body: its state and its handlers (class ModemEngineBody)

    A handler is a program over the state of the body that calls what it does not
    own: the engines, the endpoint, the clock, the timers' thread.  [prog] is the
    tree of its calls; a call carries the state in which it is made and resumes
    with an answer and the state it finds.  While the mutex is released (the calls
    that [releases] names: another thread may hold it then) any other handler may
    have run, and the state that is found may be another one; during the others
    it is the one that was left.  [Acquire] is the point where a handler takes the
    mutex.

    A loop that only its environment ends asks for the number of its turns
    ([Turns]) and runs out, [Spin], when it has not ended by then: a number that is
    large enough is among the answers of every run that ends.

    At the end: the runs of one handler by itself, and an environment for examples. *)
From Stdlib Require Import Ascii String.
From stdpp Require Import strings gmap.
From S2P Require Import Prelude DataStream Dle EngineBase PmHdlc Profile AtText.

(** ** Data *)

(** The messages between the modem and its endpoint; an absent entry reads as the
    empty text. *)
Abbreviation request := (gmap string (list Z)).
Definition req_get (r : request) (k : string) : list Z := default [] (r !! k).
Arguments req_get _ _%_string_scope.
Definition req_set (k : string) (v : list Z) (r : request) : request := <[k := v]> r.
Arguments req_set _%_string_scope _ _.

Inductive mce := mceAudio | mceT38.
#[export] Instance mce_eq_dec : EqDecision mce.
Proof. solve_decision. Defined.

(** An array indexed by the engines. *)
Record per (A : Type) := { at_audio : A; at_t38 : A }.
Arguments at_audio {A} _.
Arguments at_t38 {A} _.
Arguments Build_per {A} _ _.

Definition pget {A} (e : mce) (p : per A) : A :=
  match e with mceAudio => at_audio p | mceT38 => at_t38 p end.
Definition pset {A} (e : mce) (v : A) (p : per A) : per A :=
  match e with
  | mceAudio => {| at_audio := v; at_t38 := at_t38 p |}
  | mceT38 => {| at_audio := at_audio p; at_t38 := v |}
  end.
Definition pall {A} (v : A) : per A := {| at_audio := v; at_t38 := v |}.

Inductive CallState :=
  | cstCleared | cstDialing | cstAlerted | cstCalled | cstAnswering | cstEstablished | cstReleasing.
#[export] Instance CallState_eq_dec : EqDecision CallState.
Proof. solve_decision. Defined.

Inductive State :=
  | stCommand | stDial | stConnectWait | stConnectHandle | stReqModeAckWait | stReqModeAckHandle
  | stSend | stSendBufEmptyHandle | stSendAckWait | stSendAckHandle
  | stRecvBegWait | stRecvBegHandle | stRecv.
#[export] Instance State_eq_dec : EqDecision State.
Proof. solve_decision. Defined.

(** The sub-states of [stConnectHandle]; a sub-state is an [int]. *)
Definition chConnected : Z := 0.
Definition chWaitAudioEngine : Z := 1.
Definition chAudioEngineAttached : Z := 2.
Definition chWaitPlayTone : Z := 3.
Definition chTonePlayed : Z := 4.
Definition chConnectionEstablishDelay : Z := 5.
Definition chConnectionEstablished : Z := 6.

Inductive CallDirection := cdUndefined | cdOutgoing | cdIncoming.
#[export] Instance CallDirection_eq_dec : EqDecision CallDirection.
Proof. solve_decision. Defined.

(** [Timeout]: whether the timer is stopped (0), runs (1) or has expired (2), and
    the period it runs with (0: it does not). *)
Record Timeout := { t_state : Z; continuous : bool; t_period : Z }.
#[export] Instance eta_timeout : Eta Timeout := fun t =>
  Build_Timeout (t_state t) (continuous t) (t_period t).

Definition Timeout_new (c : bool) : Timeout := {| t_state := 0; continuous := c; t_period := 0 |}.

Definition OnTimeout (t : Timeout) : Timeout := if t_state t =? 1 then t <| t_state := 2 |> else t.

Definition timeout_start (t : Timeout) (period : Z) : Timeout :=
  let t := t <| t_state := 1 |> <| t_period := period |> in
  if continuous t then OnTimeout t else t.

Definition timeout_stop (t : Timeout) : Timeout := t <| t_state := 0 |> <| t_period := 0 |>.

Definition timeout_get (t : Timeout) : bool * Timeout :=
  if t_state t =? 2 then (true, t <| t_state := if continuous t then 1 else 0 |>) else (false, t).

Inductive timer := timerRing | timerBusy | timeout.
#[export] Instance timer_eq_dec : EqDecision timer.
Proof. solve_decision. Defined.

(** What is put on a tone generator (PDTMFEncoder): [Generate (op, f1, f2, ms)] and
    [AddTone (digit, ms)]; its samples are the library's. *)
Inductive tone :=
  | Generate (op f1 f2 ms : Z)
  | AddTone (digit ms : Z).
#[export] Instance tone_eq_dec : EqDecision tone.
Proof. solve_decision. Defined.

Record modem := {
  activeEngines : per bool;
  currentClassEngine : option mce;
  enableFakeIn : per bool;
  enableFakeOut : per bool;
  tRing : Timeout;
  tBusy : Timeout;
  tTimeout : Timeout;
  lastOnHookActivity : Z;
  seqno : Z;
  forceFaxMode : bool;
  connectionEstablished : bool;
  off_hook : bool;
  lockReleasingState : Z;
  callDirection : CallDirection;
  callState : CallState;
  callSubState : Z;
  state : State;
  subState : Z;
  param : Z;
  params : request;
  cmd : list Z;
  cmdRest : list Z;
  dataType : DataType;
  sendOnIdle : DataType;
  pPlayTone : option (list tone);
  dleData : DLEData;
  dataCount : Z;
  moreFrames : bool;
  fcs : Z;
  P : Profile;
  callTime : Z;
  CallToken : list Z;
  SrcNum : list Z;
  SrcName : list Z;
  DstNum : list Z;
}.

#[export] Instance eta_modem : Eta modem := fun m => Build_modem
  (activeEngines m) (currentClassEngine m) (enableFakeIn m) (enableFakeOut m)
  (tRing m) (tBusy m) (tTimeout m) (lastOnHookActivity m) (seqno m) (forceFaxMode m)
  (connectionEstablished m) (off_hook m) (lockReleasingState m) (callDirection m)
  (callState m) (callSubState m) (state m) (subState m) (param m) (params m) (cmd m)
  (cmdRest m) (dataType m) (sendOnIdle m) (pPlayTone m) (dleData m) (dataCount m)
  (moreFrames m) (fcs m) (P m) (callTime m) (CallToken m) (SrcNum m) (SrcName m) (DstNum m).

(** The constructor leaves [callSubState], [subState], [param], [dataCount] and
    [moreFrames] as the memory has them. *)
Definition modem_new (callSubState0 subState0 param0 dataCount0 after now : Z) (moreFrames0 : bool) : modem := {|
  activeEngines := pall false; currentClassEngine := None;
  enableFakeIn := pall false; enableFakeOut := pall false;
  tRing := Timeout_new true; tBusy := Timeout_new true; tTimeout := Timeout_new false;
  lastOnHookActivity := now; seqno := 0; forceFaxMode := false; connectionEstablished := false;
  off_hook := false; lockReleasingState := 0; callDirection := cdUndefined;
  callState := cstCleared; callSubState := callSubState0; state := stCommand;
  subState := subState0; param := param0; params := ∅; cmd := []; cmdRest := [];
  dataType := dtNone; sendOnIdle := dtNone; pPlayTone := None; dleData := DLEData_new;
  dataCount := dataCount0; moreFrames := moreFrames0; fcs := FCS_new; P := Profile_new after;
  callTime := now; CallToken := []; SrcNum := []; SrcName := []; DstNum := [];
|}.

(** ** Handlers *)

(** What happens when an engine is made and tried to be attached. *)
Inductive attach_result := attached | cannot_attach | cannot_lock.

Inductive call :=
  (* the mutex is taken, is not held, or is released for a while *)
  | Acquire
  | Unlocked
  | Endpoint (req : request) (extra : Z)
  | Sleep (ms : Z)
  | EnableFake (e : mce) (enable_in enable_out : bool)
  (* engines *)
  | NewEngine (e : mce)
  | AddReference (e : mce)
  | DelPointer (e : mce)
  | TryDetach (e : mce)
  | EngineModemClass (e : mce) (c : ModemClass)
  | EngineResetModemState (e : mce)
  | EngineSendOnIdle (e : mce) (dt : DataType)
  | EngineRecvOnIdle (e : mce) (dt : DataType)
  | EngineSendStart (e : mce) (dt : DataType) (prm : Z)
  | EngineSend (e : mce) (data : list Z)
  | EngineSendSamples (e : mce) (samples : list Z)
  | EngineSendTones (e : mce) (tones : list tone)
  | EngineSendStop (e : mce) (more : bool) (callbackParam : Z)
  | EngineRecvWait (e : mce) (dt : DataType) (prm callbackParam : Z)
  | EngineRecvStart (e : mce) (callbackParam : Z)
  | EngineRecv (e : mce) (count : Z)
  | EngineRecvStop (e : mce)
  | EngineRecvDiag (e : mce)
  | EngineRecvUserInput (e : mce)
  | EngineSendingNotCompleted (e : mce)
  | EngineIsOpenOut (e : mce)
  | EngineIsOutBufFull (e : mce)
  (* the rest *)
  | TimerExpired (t : timer)
  | ToneAccepted (t : tone)
  | ToneSize (tones : list tone)
  | TraceState
  | SignalDataReady
  | FromInPtyQ
  | ToPtyQ (data : list Z)
  | Stopped
  | WaitDataReady
  | Now
  | TimeText (time : Z) (format : list Z)
  | ModemToken
  | Turns.

(** The answers: whether a call succeeded; the result and [done] of [RecvWait]; the
    count and the data of [Recv]; an octet of user input. *)
Definition answer (c : call) : Type :=
  match c with
  | Endpoint _ _ => request
  | NewEngine _ => attach_result
  | TryDetach _ | EngineSendStart _ _ _ | EngineSendStop _ _ _ | EngineRecvStart _ _
  | EngineSendingNotCompleted _ | EngineIsOpenOut _ | EngineIsOutBufFull _
  | TimerExpired _ | ToneAccepted _ | Stopped => bool
  | EngineRecvWait _ _ _ _ => bool * bool
  | EngineRecv _ _ => Z * list Z
  | EngineRecvDiag _ | ToneSize _ | Now => Z
  | EngineRecvUserInput _ => option Z
  | FromInPtyQ => option (list Z)
  | TimeText _ _ | ModemToken => list Z
  | Turns => nat
  | _ => unit
  end.

(** The calls at which the mutex is not held. *)
Definition releases (c : call) : bool :=
  match c with
  | Acquire | Unlocked | Endpoint _ _ | Sleep _ | EnableFake _ _ _ | WaitDataReady => true
  | _ => false
  end.

(** [Fault]: the handler has read out of bounds, or a loop that its data bound has not
    ended. *)
Inductive prog (A : Type) :=
  | Done (a : A) (s : modem)
  | Fault
  | Spin
  | Vis (c : call) (s : modem) (k : answer c -> modem -> prog A).
Arguments Done {A} a s.
Arguments Fault {A}.
Arguments Spin {A}.
Arguments Vis {A} c s k.

Fixpoint bind_prog {A B} (p : prog A) (f : A -> modem -> prog B) : prog B :=
  match p with
  | Done a s => f a s
  | Fault => Fault
  | Spin => Spin
  | Vis c s k => Vis c s (fun x s => bind_prog (k x s) f)
  end.

Definition M (A : Type) : Type := modem -> prog A.
#[export] Instance M_ret : MRet M := fun A a s => Done a s.
#[export] Instance M_bind : MBind M := fun A B f m s => bind_prog (m s) f.

(** [let* x := m in k]: the binding with the handler before its continuation. *)
Definition bind_first `{MBind T} {A B} (m : T A) (f : A -> T B) : T B := mbind f m.
Notation "'let*' x ':=' m 'in' k" := (bind_first m (fun x => k))
  (at level 10, x binder, m at level 100, k at level 200,
   format "'let*'  x  ':='  m  'in' '//' k").

Definition getM : M modem := fun s => Done s s.
Definition modify (f : modem -> modem) : M unit := fun s => Done tt (f s).
Definition ask (c : call) : M (answer c) := fun s => Vis c s (fun x s => Done x s).
Definition fault {A} : M A := fun _ => Fault.
Definition spin {A} : M A := fun _ => Spin.
Definition whenM (b : bool) (m : M unit) : M unit := if b then m else mret tt.

Definition gets {A} (f : modem -> A) : M A := fun s => Done (f s) s.

(** A loop: [inl] to go on, [inr] to leave it. *)
Fixpoint turns {A B} (n : nat) (body : A -> M (A + B)) (a : A) : M B :=
  match n with
  | O => spin
  | S n => let* r := body a in match r with inl a => turns n body a | inr b => mret b end
  end.
Definition loop {A B} (body : A -> M (A + B)) (a : A) : M B :=
  let* n := ask Turns in turns n body a.

(** ** Runs *)

(** The environment of a run: the answer to each call, and what the other threads
    make of the state while the mutex is released; both know the calls there have
    been, the last one first. *)
Record env := {
  reply : list call -> forall c : call, modem -> answer c;
  others : list call -> call -> modem -> modem;
}.

(** The outcome of a run against an environment. *)
Inductive outcome (A : Type) :=
  | Returned (a : A) (s : modem)
  | Faulted
  | Spun.
Arguments Returned {A} a s.
Arguments Faulted {A}.
Arguments Spun {A}.

Definition resume (E : env) (h : list call) (c : call) (s : modem) : modem :=
  if releases c then others E h c s else s.

Fixpoint run {A} (E : env) (h : list call) (p : prog A) : outcome A * list call :=
  match p with
  | Done a s => (Returned a s, h)
  | Fault => (Faulted, h)
  | Spin => (Spun, h)
  | Vis c s k => run E (c :: h) (k (reply E h c s) (resume E h c s))
  end.

(** ** Members *)

Definition tget (t : timer) (s : modem) : Timeout :=
  match t with timerRing => tRing s | timerBusy => tBusy s | timeout => tTimeout s end.
Definition tset (t : timer) (x : Timeout) (s : modem) : modem :=
  match t with
  | timerRing => s <| tRing := x |>
  | timerBusy => s <| tBusy := x |>
  | timeout => s <| tTimeout := x |>
  end.

(** The operations of a timer hold a mutex of its own.  It expires on a thread of
    its own, which the reader of the timer may find it has done. *)
Definition timer_start (t : timer) (period : Z) : M unit :=
  modify (fun s => tset t (timeout_start (tget t s) period) s).
Definition timer_stop (t : timer) : M unit :=
  modify (fun s => tset t (timeout_stop (tget t s)) s).
Definition timer_get (t : timer) : M bool :=
  let* fired := ask (TimerExpired t) in
  let* s := getM in
  let x := if fired then OnTimeout (tget t s) else tget t s in
  let '(b, x) := timeout_get x in
  modify (tset t x) ;;
  mret b.

Definition signal : M unit := ask SignalDataReady.

(** [PWaitAndSignal mutexWait (Mutex)] around a handler. *)
Definition locked {A} (m : M A) : M A := ask Acquire ;; m.

(** [TRACE_STATE]: the hook, the state of the call and the state of the modem go
    to the log. *)
Definition trace_state : M unit := ask TraceState.

Definition SetCallState (newState : CallState) : M unit :=
  let* s := getM in
  whenM (negb (bool_decide (callState s = newState)) || negb (callSubState s =? 0))
    (modify (fun s => s <| callState := newState |> <| callSubState := 0 |>) ;; trace_state).

Definition SetCallSubState (newSubState : Z) : M unit :=
  let* s := getM in
  whenM (negb (callSubState s =? newSubState))
    (modify (fun s => s <| callSubState := newSubState |>) ;; trace_state).

Definition SetState_sub (newState : State) (newSubState : Z) : M unit :=
  let* s := getM in
  whenM (negb (bool_decide (state s = newState)) || negb (subState s =? newSubState))
    (modify (fun s => s <| state := newState |> <| subState := newSubState |>) ;; trace_state).
Definition SetState (newState : State) : M unit := SetState_sub newState 0.

Definition SetSubState (newSubState : Z) : M unit :=
  let* s := getM in
  whenM (negb (subState s =? newSubState))
    (modify (fun s => s <| subState := newSubState |>) ;; trace_state).

Definition OffHook : M bool :=
  let* h := gets off_hook in
  if negb h then modify (fun s => s <| off_hook := true |>) ;; trace_state ;; mret true
  else mret false.

(** [seq = ++seq & cbpUserDataMask] *)
Definition NextSeq : M Z :=
  modify (fun s => s <| seqno := (seqno s + 1) .& cbpUserDataMask |>) ;; gets seqno.

Definition EstablishmentTimeout (s : modem) : Z :=
  let s7 := get_reg rS7 (P s) in
  (if negb (s7 =? 0) then s7 else get_reg rS7 (Profile_new 0)) * 1000.

Definition ResetDleData : M unit := modify (fun s =>
  s <| dleData := Clean_dle (dleData s) |> <| dataCount := 0 |> <| moreFrames := false |>).

Definition SetBitRevDleData : M bool :=
  let* c := gets (fun s => ModemClassId (P s)) in
  match c with
  | mcAudio => modify (fun s => s <| dleData := BitRev (dleData s) false |>) ;; mret true
  | mcFax => modify (fun s => s <| dleData := BitRev (dleData s) true |>) ;; mret true
  | mcUndefined => mret false
  end.

Definition active (e : mce) (s : modem) : bool := pget e (activeEngines s).

(** For both engines, the audio engine first. *)
Definition for_engines (f : mce -> M unit) : M unit := f mceAudio ;; f mceT38.

(** The pointer to an engine, [None] for a null one. *)
Definition engine_ptr (e : mce) (s : modem) : option mce := if active e s then Some e else None.

Definition OnChangeModemClass : M unit :=
  for_engines (fun e =>
    let* a := gets (active e) in let* c := gets (fun s => ModemClassId (P s)) in
    whenM a (ask (EngineModemClass e c))) ;;
  modify (fun s => s <| currentClassEngine :=
    match ModemClassId (P s) with
    | mcAudio => engine_ptr mceAudio s
    | mcFax => engine_ptr mceT38 s
    | mcUndefined => None
    end |>).

Definition SendOnIdle (dt : DataType) : M unit :=
  let* i := gets sendOnIdle in
  if bool_decide (i = dt) then mret tt
  else
    modify (fun s => s <| sendOnIdle := dt |>) ;;
    for_engines (fun e => let* a := gets (active e) in whenM a (ask (EngineSendOnIdle e dt))).

(** ** Runs of one handler by itself *)

(** ** Runs alone *)

(** The others leave the state as it is. *)
Definition alone (E : env) : Prop := forall h c s, others E h c s = s.

(** The result and the state, whatever is answered. *)
Definition gives {A} (p : prog A) (a : A) (s : modem) : Prop :=
  forall E h, alone E -> exists h', run E h p = (Returned a s, h').

Lemma gives_done {A} (a : A) s : gives (Done a s) a s.
Proof. intros E h _. by exists h. Qed.

Lemma gives_call {A} c s (k : answer c -> modem -> prog A) b s' :
  (forall x, gives (k x s) b s') -> gives (Vis c s k) b s'.
Proof.
  intros H E h HE. simpl. unfold resume.
  replace (if releases c then others E h c s else s) with s by (destruct (releases c); by rewrite ?HE).
  by apply H.
Qed.

Lemma gives_bind {A B} (p : prog A) (f : A -> modem -> prog B) a s b s' :
  gives p a s -> gives (f a s) b s' -> gives (bind_prog p f) b s'.
Proof.
  intros Hp Hf E h HE. destruct (Hp E h HE) as [h1 E1].
  assert (run E h (bind_prog p f) = run E h1 (f a s)) as ->; [|by apply Hf].
  clear Hp. revert h E1. induction p as [a' s1| | |c s1 k IH]; intros h E1; simpl in *; try done.
  - by injection E1 as -> -> ->.
  - apply IH, E1.
Qed.

Lemma run_bind {A B} E h (p : prog A) (f : A -> modem -> prog B) :
  run E h (bind_prog p f) =
    match run E h p with
    | (Returned a s, h) => run E h (f a s)
    | (Faulted, h) => (Faulted, h)
    | (Spun, h) => (Spun, h)
    end.
Proof. revert h. by induction p as [a s| | |c s k IH]; intros h; simpl. Qed.

(** The environment of the examples: nobody else runs, the endpoint confirms, the
    engines do what they are asked, nothing is received. *)
Definition quiet : env := {|
  reply _ c _ :=
    match c return answer c with
    | Endpoint _ _ => req_set "response" (str "confirm") ∅
    | NewEngine _ => attached
    | TryDetach _ | EngineSendStart _ _ _ | EngineSendStop _ _ _ | EngineRecvStart _ _
    | EngineIsOpenOut _ | ToneAccepted _ | Stopped => true
    | EngineSendingNotCompleted _ | EngineIsOutBufFull _ | TimerExpired _ => false
    | EngineRecvWait _ _ _ _ => (true, true)
    | EngineRecv _ _ => (0, [])
    | EngineRecvDiag _ | ToneSize _ | Now => 0
    | EngineRecvUserInput _ => None
    | FromInPtyQ => None
    | TimeText _ _ | ModemToken => []
    | Turns => 100%nat
    | _ => tt
    end;
  others _ _ s := s |}.

Lemma quiet_alone : alone quiet.
Proof. done. Qed.

(** A modem that has just been made. *)
Definition no_modem : modem := modem_new 0 0 0 0 0 0 false.
