(* ===== verification/ModemCalls.v ===== *)
(** * Calls and the hook (src/t38modem/pmodeme.cxx)

    The handlers of the modem's body that move a call from one state to another:
    the requests of the endpoint, the answer and the hook of the modem's user,
    attaching and detaching the engines, and the engines' callback.  Each is the
    handler as the code has it, with every release of the mutex. *)
From Stdlib Require Import Ascii String.
From stdpp Require Import strings gmap.
From S2P Require Import Prelude EngineBase Profile AtText ModemBase.

(** ** Engines *)

(** The tail of [_AttachEngine], with the engine attached. *)
Definition engine_attached (e : mce) : M unit :=
  let* c := gets (fun s => ModemClassId (P s)) in
  let* i := gets sendOnIdle in
  ask (EngineModemClass e c) ;;
  ask (EngineSendOnIdle e i) ;;
  match e with
  | mceT38 =>
      whenM (bool_decide (c = mcFax)) (modify (fun s =>
        s <| currentClassEngine := engine_ptr mceT38 s |>)) ;;
      let* st := gets state in
      whenM (bool_decide (st = stReqModeAckWait))
        (SetState stReqModeAckHandle ;; timer_stop timeout ;; signal)
  | mceAudio =>
      whenM (bool_decide (c = mcAudio)) (modify (fun s =>
        s <| currentClassEngine := engine_ptr mceAudio s |>)) ;;
      let* s := getM in
      whenM (bool_decide (state s = stConnectHandle) && (subState s =? chWaitAudioEngine))
        (SetSubState chAudioEngineAttached ;; timer_stop timeout ;; signal)
  end.

Definition set_active (e : mce) (v : bool) : M unit :=
  modify (fun s => s <| activeEngines := pset e v (activeEngines s) |>).

Definition AttachEngine (e : mce) : M unit :=
  let* a := gets (active e) in
  if negb a then
    let* r := ask (NewEngine e) in
    match r with
    | attached => set_active e true ;; engine_attached e
    | cannot_attach | cannot_lock => mret tt
    end
  else engine_attached e.

(** Returns whether there is an engine. *)
Definition NewPtrEngine (e : mce) : M bool := locked (
  AttachEngine e ;;
  let* a := gets (active e) in
  whenM a (ask (AddReference e)) ;;
  mret a).

(** One turn of the loop that waits for the engine's callback to end. *)
Definition detach_turn (e : mce) (_ : unit) : M (unit + bool) :=
  let* ok := ask (TryDetach e) in
  if (ok : bool) then set_active e false ;; mret (inr true)
  else
    ask (Sleep 20) ;;
    let* a := gets (active e) in
    if negb a then mret (inr false) else mret (inl tt).

(** [true]: detached. *)
Definition detach_loop (e : mce) : M bool := loop (detach_turn e) tt.

Definition DetachEngine (e : mce) : M unit :=
  let* a := gets (active e) in
  if negb a then mret tt
  else
    let* token := gets CallToken in
    let* busy := (if negb (bool_decide (token = []))
                  then ask (EngineSendingNotCompleted e) : M bool else mret false) in
    whenM busy (ask (Sleep 100)) ;;
    let* a := gets (active e) in
    if busy && negb a then mret tt
    else
      let* detached := detach_loop e in
      if negb detached then mret tt
      else
        let* c := gets (fun s => ModemClassId (P s)) in
        whenM (bool_decide (c = match e with mceT38 => mcFax | mceAudio => mcAudio end))
          (modify (fun s => s <| currentClassEngine := None |>) ;; signal).

(** ** Clearing *)

Definition send_clearcall : M unit :=
  let* token := ask ModemToken in
  let* s := getM in
  let request := req_set "calltoken" (CallToken s)
                   (req_set "command" (str "clearcall") (req_set "modemtoken" token ∅)) in
  modify (fun s => s <| CallToken := [] |>) ;;
  ask (Endpoint request 1) ;;
  mret tt.

(** The branch of a call that was not being released yet. *)
Definition begin_release : M unit :=
  SetCallState cstReleasing ;;
  timer_stop timerRing ;;
  modify (fun s => s <| connectionEstablished := false |> <| pPlayTone := None |>) ;;
  let* h := gets off_hook in
  whenM h (
    timer_start timerBusy 1000 ;;
    let* a := gets (active mceAudio) in
    whenM (negb a) (AttachEngine mceAudio) ;;
    modify (fun s => s <| enableFakeIn := pall true |> <| enableFakeOut := pall true |>) ;;
    let* a := gets (active mceAudio) in
    whenM a (ask (EngineRecvOnIdle mceAudio dtBusy))).

Definition ClearCall : M unit :=
  let* c := gets callState in
  if bool_decide (c = cstCleared) then mret tt
  else
    modify (fun s => s <| lockReleasingState := lockReleasingState s + 1 |>) ;;
    let* c := gets callState in
    whenM (negb (bool_decide (c = cstReleasing))) begin_release ;;
    let* token := gets CallToken in
    whenM (negb (bool_decide (token = []))) send_clearcall ;;
    modify (fun s => s <| lockReleasingState := lockReleasingState s - 1 |>) ;;
    let* s := getM in
    whenM ((lockReleasingState s =? 0) && negb (off_hook s)) (SetCallState cstCleared) ;;
    signal.

(** The branch of a line that is off-hook: the members, and then the engines. *)
Definition go_on_hook (s : modem) : modem :=
  let s := s <| enableFakeIn := pall false |> <| enableFakeOut := pall false |> in
  let s := tset timerBusy (timeout_stop (tget timerBusy s)) s in
  let s := tset timeout (timeout_stop (tget timeout s)) s in
  s <| off_hook := false |> <| callDirection := cdUndefined |>
    <| forceFaxMode := false |> <| state := stCommand |> <| subState := 0 |>.

Definition detach_all : M unit :=
  DetachEngine mceT38 ;;
  DetachEngine mceAudio ;;
  trace_state.

Definition hang_up : M unit := modify go_on_hook ;; detach_all.

Definition OnHook : M unit :=
  let* now := ask Now in
  modify (fun s => s <| lastOnHookActivity := now |>) ;;
  let* h := gets off_hook in
  whenM h hang_up ;;
  ClearCall.

Definition OnParentStop : M unit := locked OnHook.

(** The destructor. *)
Definition destroy : M unit := locked (
  OnHook ;;
  timer_stop timeout ;;
  timer_stop timerRing ;;
  timer_stop timerBusy).

(** ** Requests of the endpoint *)

Definition confirm (r : request) : request := req_set "response" (str "confirm") r.

(** The call a request is about is the modem's, or the modem has none yet. *)
Definition same_token (s : modem) (r : request) : bool :=
  bool_decide (CallToken s = []) || bool_decide (CallToken s = req_get r "calltoken").

Definition request_call (r : request) : M request := locked (
  let* s := getM in
  if negb (bool_decide (callState s = cstCleared)) then mret r
  else if off_hook s then mret r
  else
    SetCallState cstCalled ;;
    modify (fun s => s <| CallToken := req_get r "calltoken" |> <| SrcNum := req_get r "srcnum" |>
      <| SrcName := req_get r "srcname" |> <| DstNum := req_get r "dstnum" |>) ;;
    let* now := ask Now in
    modify (fun s => s <| callTime := now |> <| P := set_reg rRingCount (P s) 0 |>) ;;
    timer_start timerRing 5000 ;;
    mret (confirm r)).

(** The ringback tone of the voice class while it waits for the connection. *)
Definition ring_back : M unit :=
  SetState_sub stConnectHandle chConnected ;;
  timer_start timerRing 5000 ;;
  let* a := gets (active mceAudio) in
  whenM (negb a) (AttachEngine mceAudio) ;;
  modify (fun s => s <| enableFakeIn := pset mceAudio true (enableFakeIn s) |>
    <| enableFakeOut := pset mceAudio true (enableFakeOut s) |>) ;;
  let* a := gets (active mceAudio) in
  whenM a (ask (EngineRecvOnIdle mceAudio dtRing)) ;;
  signal.

Definition request_alerting (r : request) : M request := locked (
  let* s := getM in
  if negb (bool_decide (callState s = cstDialing)) then mret r
  else if negb (off_hook s) then mret r
  else if same_token s r then
    SetCallState cstAlerted ;;
    let* s := getM in
    if bool_decide (state s = stConnectWait) && bool_decide (pPlayTone s = None) &&
       bool_decide (ModemClassId (P s) = mcAudio)
    then ring_back ;; mret (confirm r)
    else mret r
  else mret r).

Definition request_established (r : request) : M request := locked (
  let* s := getM in
  if negb (bool_decide (callState s = cstDialing)) && negb (bool_decide (callState s = cstAlerted)) &&
     negb (bool_decide (callState s = cstAnswering))
  then mret r
  else if negb (off_hook s) then mret r
  else if same_token s r then
    timer_stop timerRing ;;
    let* a := gets (active mceAudio) in
    whenM a (ask (EngineRecvOnIdle mceAudio dtNone)) ;;
    SetCallState cstEstablished ;;
    let* st := gets state in
    if bool_decide (st = stConnectWait)
    then SetState_sub stConnectHandle chConnected ;; signal ;; mret (confirm r)
    else mret r
  else mret r).

Definition request_clearcall (r : request) : M request := locked (
  let* s := getM in
  if bool_decide (callState s = cstCleared) || bool_decide (callState s = cstReleasing) then mret r
  else if same_token s r then
    modify (fun s => s <| CallToken := [] |>) ;;
    (if bool_decide (callState s = cstDialing) && bool_decide (state s = stConnectWait) &&
        bool_decide (req_get r "trynextcommand" = str "dial")
     then
       SetCallState cstCleared ;;
       SetState stDial ;;
       modify (fun s => s <| params :=
         delete "trynextcommand"%string (delete "calltoken"%string (delete "command"%string r)) |>) ;;
       signal
     else ClearCall) ;;
    mret (confirm r)
  else mret r).

(** The body returns [TRUE] always; the answer is in the request. *)
Definition Request (r : request) : M request :=
  let command := req_get r "command" in
  let r := req_set "response" (str "reject") r in
  if bool_decide (command = str "call") then request_call r
  else if bool_decide (command = str "alerting") then request_alerting r
  else if bool_decide (command = str "established") then request_established r
  else if bool_decide (command = str "clearcall") then request_clearcall r
  else mret r.

(** ** Callbacks *)

Definition OnEngineCallback (extra : Z) : M unit :=
  (if extra =? cbpOutBufEmpty then locked (
     let* st := gets state in
     whenM (bool_decide (st = stSend)) (SetState stSendBufEmptyHandle))
   else if (extra =? cbpReset) || (extra =? cbpOutBufNoFull) || (extra =? cbpUpdateState) ||
           (extra =? cbpUserInput) then mret tt
   else locked (
     let* s := getM in
     whenM (extra =? seqno s)
       match state s with
       | stSendAckWait => SetState stSendAckHandle ;; timer_stop timeout
       | stRecvBegWait => SetState stRecvBegHandle ;; timer_stop timeout
       | stConnectHandle =>
           whenM (subState s =? chWaitPlayTone) (SetSubState chTonePlayed ;; timer_stop timeout)
       | _ => mret tt
       end)) ;;
  signal.

Definition OnTimerCallback : M unit := signal.

(** ** Answering *)

Definition ask_answer : M bool :=
  SetCallState cstAnswering ;;
  SetState stConnectWait ;;
  let* t := gets EstablishmentTimeout in
  timer_start timeout t ;;
  let* token := ask ModemToken in
  let* call := gets CallToken in
  let request := req_set "calltoken" call
                   (req_set "command" (str "answer") (req_set "modemtoken" token ∅)) in
  let* r := ask (Endpoint request 2) in
  mret (bool_decide (req_get r "response" = str "confirm")).

Definition Answer : M bool :=
  OffHook ;;
  timer_stop timerRing ;;
  modify (fun s => s <| forceFaxMode := true |>) ;;
  let* s := getM in
  if negb (connectionEstablished s) then
    let* ok := (if bool_decide (callState s = cstCalled) then ask_answer else mret false) in
    if negb ok then OnHook ;; mret false else mret true
  else
    timer_stop timeout ;;
    SetState_sub stConnectHandle chConnectionEstablished ;;
    signal ;;
    mret true.

(** The line can take a call: on-hook, idle, for more than five seconds. *)
Definition IsReady : M bool := locked (
  let* s := getM in
  let* now := ask Now in
  mret (bool_decide (state s = stCommand) && negb (off_hook s) &&
        bool_decide (callState s = cstCleared) && (5 * 1000 <? now - lastOnHookActivity s))).

Definition isOutBufFull : M bool := locked (
  let* e := gets currentClassEngine in
  match e with Some e => ask (EngineIsOutBufFull e) : M bool | None => mret false end).
