(* ===== verification/AtBase.v ===== *)
(** * Handling a command line: the monad of the AT commands (src/t38modem/pmodeme.cxx)

    [HandleCmdRest] keeps the pointer into the command line, the text of the answer
    and three flags in local variables and hands them to its parts by reference;
    [cmdline] is those variables, and [C] a handler over them. *)
From Stdlib Require Import Ascii String.
From stdpp Require Import strings gmap.
From S2P Require Import Prelude EngineBase Dle Profile AtText ModemBase ModemCalls.

(** ** The monad *)

Record cmdline := { cur : cursor; resp : list Z; err : bool; ok : bool; crlf : bool }.
#[export] Instance eta_cmdline : Eta cmdline := fun c =>
  Build_cmdline (cur c) (resp c) (err c) (ok c) (crlf c).

Definition C (A : Type) : Type := cmdline -> M (A * cmdline).
#[export] Instance C_ret : MRet C := fun A a l => mret (a, l).
#[export] Instance C_bind : MBind C := fun A B f m l => mbind (fun '(a, l) => f a l) (m l).

Definition lift {A} (m : M A) : C A := fun l => let* a := m in mret (a, l).
Definition local : C cmdline := fun l => mret (l, l).
Definition set_local (f : cmdline -> cmdline) : C unit := fun l => mret (tt, f l).
Definition whenC (b : bool) (m : C unit) : C unit := if b then m else mret tt.
Definition getC {A} (f : modem -> A) : C A := lift (gets f).

(** [*pCmd] *)
Definition peek : C Z := fun l =>
  match deref (cur l) with Some c => mret (c, l) | None => fault end.

(** [pCmd++] *)
Definition advance : C unit := set_local (fun l => l <| cur := step (cur l) |>).

(** [*pCmd++] *)
Definition next : C Z := let* c := peek in advance ;; mret c.

(** [*( *ppCmd - k)] *)
Definition look_back (k : nat) : C Z := fun l =>
  match deref_back (cur l) k with Some c => mret (c, l) | None => fault end.

Definition num (minDigits maxDigits maxNum defNum : Z) : C Z := fun l =>
  match ParseNum (cur l) minDigits maxDigits maxNum defNum with
  | Some (n, c) => mret (n, l <| cur := c |>)
  | None => fault
  end.

(** [strncmp (pCmd, s, n) == 0], and then [pCmd += n]. *)
Definition eat (s : list Z) : C bool := fun l =>
  match strncmp0 (cur l) s with
  | Some true => mret (true, l <| cur := Nat.iter (length s) step (cur l) |>)
  | Some false => mret (false, l)
  | None => fault
  end.

Definition fail : C unit := set_local (fun l => l <| err := true |>).
Definition no_ok : C unit := set_local (fun l => l <| ok := false |>).
Definition put (text : list Z) : C unit := set_local (fun l => l <| resp := resp l ++ text |>).

(** [resp += ...; crlf = TRUE;] *)
Definition say (text : list Z) : C unit := put text ;; set_local (fun l => l <| crlf := true |>).

(** ** Result codes *)

Definition result_code (v0 v1 : list Z) (s : modem) : list Z :=
  if asciiResultCodes (P s) then v1 else v0.
Definition text_code (n s : list Z) : modem -> list Z := result_code (n ++ [13]) (s ++ CRLF).

Definition RC_PREF : modem -> list Z := result_code [] CRLF.
Definition RC_OK : modem -> list Z := text_code (str "0") (str "OK").
Definition RC_CONNECT : modem -> list Z := text_code (str "1") (str "CONNECT").
Definition RC_RING : modem -> list Z := text_code (str "2") (str "RING").
Definition RC_NO_CARRIER : modem -> list Z := text_code (str "3") (str "NO CARRIER").
Definition RC_ERROR : modem -> list Z := text_code (str "4") (str "ERROR").
Definition RC_BUSY : modem -> list Z := text_code (str "7") (str "BUSY").
Definition RC_FCERROR : modem -> list Z := text_code (str "+F4") (str "+FCERROR").

(** The answer of a part that has a text of its own: a separator before it. *)
Definition put_result (text : list Z) : C unit :=
  if bool_decide (text = []) then mret tt
  else
    let* l := local in
    (if crlf l then put CRLF ;; set_local (fun l => l <| crlf := false |>)
     else let* p := getC RC_PREF in put p) ;;
    put text.

(** ** Sending and receiving *)

(** Run a part on the engine of the modem's class, if there is one. *)
Definition with_engine {A} (none : M A) (f : mce -> M A) : M A :=
  let* e := gets currentClassEngine in
  match e with Some e => f e | None => none end.

Definition SendSilence (ms : Z) : M bool :=
  let* c := gets (fun s => ModemClassId (P s)) in
  let* sent := (if bool_decide (c = mcFax) then
      with_engine (mret false) (fun e =>
        modify (fun s => s <| dataType := dtSilence |>) ;;
        SetState stSend ;;
        let* started := ask (EngineSendStart e dtSilence ms) in
        if (started : bool) then
          SetState stSendAckWait ;;
          let* q := NextSeq in
          ask (EngineSendStop e false q) : M bool
        else mret false)
    else mret false) in
  if (sent : bool) then mret true else SetState stCommand ;; mret false.

(** Returns the answer, [None] when the engine does not start. *)
Definition SendStart_ (dt : DataType) (br : Z) : M (option (list Z)) :=
  modify (fun s => s <| dataType := dt |>) ;;
  ResetDleData ;;
  SetBitRevDleData ;;
  SetState stSend ;;
  let* started := with_engine (mret false) (fun e => ask (EngineSendStart e dt br) : M bool) in
  if negb started then SetState stCommand ;; mret None
  else let* r := gets RC_CONNECT in mret (Some r).

Definition SendStart (dt : DataType) (br : Z) : M (option (list Z)) := locked (SendStart_ dt br).

Definition RecvStart (dt : DataType) (br : Z) : M bool := locked (
  modify (fun s => s <| dataType := dt |>) ;;
  SetBitRevDleData ;;
  SetState stRecvBegWait ;;
  timer_start timeout 60000 ;;
  let* r := with_engine (mret (false, false)) (fun e =>
    let* q := NextSeq in ask (EngineRecvWait e dt br q) : M (bool * bool)) in
  let '(waits, done_) := (r : bool * bool) in
  if negb waits then SetState stCommand ;; timer_stop timeout ;; mret false
  else
    whenM done_ (SetState stRecvBegHandle ;; timer_stop timeout ;; signal) ;;
    mret true).
