(* ===== verification/AtClass.v ===== *)
(** * The commands of the fax and voice classes (src/t38modem/pmodeme.cxx)

    [HandleClass1Cmd]: +FTS, +FRS, +FTM, +FRM, +FTH and +FRH; [HandleClass8Cmd]:
    +VTS, +VTX and +VRX. *)
From Stdlib Require Import Ascii String.
From stdpp Require Import strings gmap.
From S2P Require Import Prelude EngineBase Dle Profile AtText ModemBase ModemCalls AtBase.

(** ** Class 1 *)

(** [= '?']: the values a command takes. *)
Definition ask_values (text : list Z) : C bool := advance ;; say text ;; mret true.

Definition frs_wait (dms : Z) : M bool :=
  timer_start timeout 60000 ;;
  modify (fun s => s <| dataType := dtSilence |> <| param := dms * 10 |>) ;;
  SetState stRecvBegWait ;;
  let* r := with_engine (mret (false, false)) (fun e =>
    let* q := NextSeq in ask (EngineRecvWait e dtSilence 0 q) : M (bool * bool)) in
  let '(waits, done_) := (r : bool * bool) in
  if waits then
    if negb done_ then mret true
    else
      timer_stop timeout ;;
      let* p := gets param in
      SendSilence p
  else
    timer_stop timeout ;;
    SetState stCommand ;;
    mret false.

(** +FTS and +FRS: a silence to send or to wait for, in tens of milliseconds. *)
Definition silence_cmd (T : bool) : C bool :=
  let* c := next in
  if c =? chr "=" then
    let* c := peek in
    if c =? chr "?" then ask_values (CRLF ++ str "0-255")
    else
      let* cl := getC (fun s => ModemClassId (P s)) in
      if negb (bool_decide (cl = mcFax)) then mret false
      else
        let* dms := num 1 3 255 0 in
        if dms <? 0 then mret false
        else
          no_ok ;;
          lift (locked (if T then SendSilence (dms * 10) else frs_wait dms))
  else mret false.

(** The modulations that can be asked for; 3 is for HDLC only. *)
Definition modulations : list Z := [24; 48; 72; 73; 74; 96; 97; 98; 121; 122; 145; 146].
Definition is_modulation (dt : DataType) (br : Z) : bool :=
  (br =? 3) && negb (bool_decide (dt = dtRaw)) || bool_decide (br ∈ modulations).

(** Start to send or to receive; the end of both commands. *)
Definition start_cmd (T : bool) (dt : DataType) (br : Z) : C bool :=
  let* r := (if T then lift (SendStart dt br)
             else let* b := lift (RecvStart dt br) in mret (if b : bool then Some [] else None)) in
  match r with
  | Some text => put_result text ;; mret true
  | None => lift (ask (Sleep 100)) ;; mret false
  end.

Definition modulation_cmd (T : bool) (dt : DataType) : C bool :=
  let* c := next in
  if c =? chr "=" then
    let* c := peek in
    if c =? chr "?" then
      ask_values (CRLF ++ if bool_decide (dt = dtRaw) then str "24,48,72,73,74,96,97,98,121,122,145,146"
                          else str "3")
    else
      let* cl := getC (fun s => ModemClassId (P s)) in
      if negb (bool_decide (cl = mcFax)) then mret false
      else
        let* br := num 1 3 255 0 in
        if is_modulation dt br then no_ok ;; start_cmd T dt br else mret false
  else mret false.

(** The direction of a command is the letter before the last one it has. *)
Definition direction : C (option bool) :=
  let* d := look_back 2 in
  mret (if d =? chr "T" then Some true else if d =? chr "R" then Some false else None).

Definition HandleClass1Cmd : C bool :=
  let* T := direction in
  match T with
  | None => mret false
  | Some T =>
      let* d := look_back 1 in
      if d =? chr "S" then silence_cmd T
      else if d =? chr "M" then modulation_cmd T dtRaw
      else if d =? chr "H" then modulation_cmd T dtHdlc
      else mret false
  end.

(** ** Class 8 *)

Definition TONE_FREQUENCY_MIN : Z := 30.
Definition TONE_FREQUENCY_MAX : Z := 8000 / 4.
Definition TONE_DMS_MAX : Z := 500.

(** An element of +VTS puts tones on the list, or fails. *)
Definition generate (tones : list tone) (t : tone) : C (option (list tone)) :=
  let* accepted := lift (ask (ToneAccepted t)) in
  mret (if accepted : bool then Some (tones ++ [t]) else None).

(** [,ms] in an element; [None]: a wrong number. *)
Definition element_time (dms : Z) : C Z :=
  let* c := peek in
  if c =? chr "," then advance ;; num 0 5 TONE_DMS_MAX dms else mret dms.

(** [[f1,f2,dms]] *)
Definition dual_tone (tones : list tone) (dms : Z) : C (option (list tone)) :=
  advance ;;
  let* f1 := num 0 5 TONE_FREQUENCY_MAX 0 in
  if negb (f1 =? 0) && (f1 <? TONE_FREQUENCY_MIN) then mret None
  else
    let* c := peek in
    let* r := (if c =? chr "," then
        advance ;;
        let* f2 := num 0 5 TONE_FREQUENCY_MAX 0 in
        if negb (f2 =? 0) && (f2 <? TONE_FREQUENCY_MIN) then mret None
        else
          let* dms := element_time dms in
          mret (if dms <? 0 then None else Some (f2, dms))
      else mret (Some (0, dms))) in
    match r with
    | None => mret None
    | Some (f2, dms) =>
        let* c := peek in
        if negb (c =? chr "]") then mret None
        else
          let* r := (if dms =? 0 then mret (Some tones)
            else generate tones
              (if negb (f1 =? 0) && negb (f2 =? 0) then Generate (chr "+") f1 f2 (dms * 10)
               else if negb (f1 =? 0) then Generate (chr "-") f1 f2 (dms * 10)
               else if negb (f2 =? 0) then Generate (chr "-") f2 0 (dms * 10)
               else Generate (chr " ") f1 f2 (dms * 10))) in
          match r with
          | None => mret None
          | Some tones => advance ;; mret (Some tones)
          end
    end.

Definition is_dtmf_key (c : Z) : bool :=
  isdigit c || ((chr "A" <=? c) && (c <=? chr "C")) || (c =? chr "*") || (c =? chr "#").

(** [{d,dms}] *)
Definition timed_digit (tones : list tone) (dms : Z) : C (option (list tone)) :=
  advance ;;
  let* dtmf := peek in
  let* dtmf := (if is_dtmf_key dtmf then advance ;; mret dtmf else mret (chr " ")) in
  let* dms := element_time dms in
  if dms <? 0 then mret None
  else
    let* c := peek in
    if negb (c =? chr "}") then mret None
    else
      let* r := (if dms =? 0 then mret (Some tones)
        else if dtmf =? chr " " then generate tones (Generate (chr " ") 0 0 (dms * 10))
        else mret (Some (tones ++ [AddTone dtmf (dms * 10)]))) in
      match r with
      | None => mret None
      | Some tones => advance ;; mret (Some tones)
      end.

Definition is_plain_key (c : Z) : bool :=
  isdigit c || ((chr "A" <=? c) && (c <=? chr "D")) || (c =? chr "*") || (c =? chr "#").

(** One turn of the loop on the elements: to go on with the tones, or the end. *)
Definition vts_element (tones : list tone) : C (list tone + option (list tone)) :=
  let* dms := getC (fun s => get_reg rVtd (P s)) in
  let* c := peek in
  let* r := (if c =? chr "[" then dual_tone tones dms
    else if c =? chr "{" then timed_digit tones dms
    else if is_plain_key c then advance ;; mret (Some (tones ++ [AddTone c (dms * 10)]))
    else if c =? chr "," then generate tones (Generate (chr " ") 0 0 (dms * 10))
    else mret (Some tones)) in
  match r with
  | None => mret (inr None)
  | Some tones =>
      let* c := peek in
      if c =? chr "," then advance ;; mret (inl tones) else mret (inr (Some tones))
  end.

(** A loop over the command line: every turn takes a character at least, so that its
    turns are as many as there are characters at most. *)
Fixpoint text_turns {A B} (n : nat) (body : A -> C (A + B)) (a : A) : C B :=
  match n with
  | O => lift fault
  | S n => let* r := body a in match r with inl a => text_turns n body a | inr b => mret b end
  end.
Definition text_loop {A B} (body : A -> C (A + B)) (a : A) : C B :=
  let* l := local in text_turns (S (length (aft (cur l)))) body a.

Definition play (tones : list tone) : M bool := locked (
  modify (fun s => s <| dataType := dtRaw |> <| moreFrames := false |>) ;;
  SetState stSend ;;
  with_engine (SetState stCommand ;; mret false) (fun e =>
    let* started := ask (EngineSendStart e dtRaw 0) in
    if (started : bool) then
      let* n := ask (ToneSize tones) in
      whenM (negb (n =? 0)) (ask (EngineSendTones e tones)) ;;
      SetState stSendAckWait ;;
      let* q := NextSeq in
      let* stopped := ask (EngineSendStop e false q) in
      if (stopped : bool) then mret true else SetState stCommand ;; mret false
    else SetState stCommand ;; mret false)).

Definition vts_cmd : C bool :=
  let* c := next in
  if c =? chr "=" then
    let* c := peek in
    if c =? chr "?" then
      ask_values (CRLF ++ str "(0,30-2000),(0,30-2000),(0-500)")
    else
      let* cl := getC (fun s => ModemClassId (P s)) in
      if negb (bool_decide (cl = mcAudio)) then mret false
      else
        no_ok ;;
        let* r := text_loop vts_element [] in
        match r with
        | None => mret false
        | Some tones => lift (play tones)
        end
  else mret false.

Definition HandleClass8Cmd : C bool :=
  let* T := direction in
  match T with
  | None => mret false
  | Some T =>
      let* d := look_back 1 in
      if d =? chr "S" then vts_cmd
      else if d =? chr "X" then
        let* cl := getC (fun s => ModemClassId (P s)) in
        if bool_decide (cl = mcAudio) then no_ok ;; start_cmd T dtRaw 0 else mret false
      else mret false
  end.
