(* ===== verification/AtDial.v ===== *)
(** * Dialling (the D command of src/t38modem/pmodeme.cxx)

    The dial string holds the number, the tones to play when the call is connected
    (after [@]), the name of the local party (after [L]) and the mode of the fax
    ([F], [V]); what is kept of it is the last part. *)
From Stdlib Require Import Ascii String.
From stdpp Require Import strings gmap.
From S2P Require Import Prelude Dle EngineBase Profile AtText ModemBase ModemCalls AtBase.

(** ** Definitions *)

(** The variables of the loop on the dial string. *)
Record dial := {
  number : list Z;
  numTone : list Z;
  addNumTone : bool;
  LocalPartyName : list Z;
  in_local : bool;
  setForceFaxMode : bool;
  setCallDirection : CallDirection;
  dial_err : bool;
}.
#[export] Instance eta_dial : Eta dial := fun d =>
  Build_dial (number d) (numTone d) (addNumTone d) (LocalPartyName d) (in_local d)
    (setForceFaxMode d) (setCallDirection d) (dial_err d).

Definition dial_start (online : bool) : dial := {|
  number := []; numTone := []; addNumTone := online; LocalPartyName := []; in_local := false;
  setForceFaxMode := false; setCallDirection := cdOutgoing; dial_err := false |}.

Definition dial_add (d : dial) (ch : Z) : dial :=
  if negb (addNumTone d) then d <| number := number d ++ [ch] |>
  else d <| numTone := numTone d ++ [ch] |>.

(** The switch on a character that is not [;]; [online]: the modem has a call. *)
Definition dial_char (online : bool) (d : dial) (ch : Z) : dial :=
  if isdigit ch || (ch =? chr "*") || (ch =? chr "#") then
    if in_local d then
      if online then d <| dial_err := true |>
      else d <| LocalPartyName := LocalPartyName d ++ [ch] |>
    else dial_add d ch
  else if ch =? chr "+" then
    if in_local d || addNumTone d || negb (bool_decide (number d = [])) then d else dial_add d ch
  else if (ch =? chr "A") || (ch =? chr "B") || (ch =? chr "C") then
    if in_local d then d else dial_add d ch
  else if ch =? chr "D" then
    if in_local d then d <| in_local := false |> else dial_add d ch
  else if ch =? chr "," then
    if negb (addNumTone d) then d else dial_add d ch
  else if ch =? chr "F" then d <| setForceFaxMode := true |>
  else if ch =? chr "V" then d <| setForceFaxMode := false |>
  else if ch =? chr "L" then d <| LocalPartyName := [] |> <| in_local := true |>
  else if (ch =? chr "T") || (ch =? chr "P") then d <| in_local := false |>
  else if ch =? chr "@" then d <| in_local := false |> <| addNumTone := true |> <| numTone := [] |>
  else d.

(** The loop; with the cursor where it ends, and the rest of the command line when a
    semicolon has ended it. *)
Fixpoint dial_loop (online : bool) (l bef : list Z) (d : dial) : dial * cursor * option (list Z) :=
  match l with
  | [] => (d, {| bef := bef; aft := []; past := false |}, None)
  | ch :: l' =>
      if ch =? 0 then (d, {| bef := bef; aft := l; past := false |}, None)
      else if ch =? chr ";" then
        (d <| setCallDirection := cdUndefined |>, {| bef := ch :: bef; aft := l'; past := false |}, Some l')
      else
        let d := dial_char online d ch in
        if dial_err d then (d, {| bef := ch :: bef; aft := l'; past := false |}, None)
        else dial_loop online l' (ch :: bef) d
  end.

Definition scan_dial (online : bool) : C (dial * option (list Z)) := fun l =>
  if past (cur l) then fault
  else
    let '(d, c, rest) := dial_loop online (aft (cur l)) (bef (cur l)) (dial_start online) in
    mret (d, rest, l <| cur := c |>).

(** The tones of a dial string: a pause for a comma, a digit and as long a pause for
    the others. *)
Definition tones_of (p : Profile) (numTone : list Z) : list tone :=
  concat (map (fun ch =>
    if ch =? chr "," then [Generate (chr " ") 0 0 (get_reg rDialTimeComma p * 1000)]
    else
      let ms := get_reg rDialTimeDTMF p in
      [AddTone ch ms; Generate (chr " ") 0 0 ms]) numTone).

Definition add_play_tone (numTone : list Z) (playTone : list tone) : M unit :=
  if bool_decide (numTone = []) then mret tt
  else modify (fun s => s <| pPlayTone := Some (default [] (pPlayTone s) ++ playTone) |>).

(** With a call there already: play the tones on it, or drop it. *)
Definition dial_online (d : dial) (playTone : list tone) : C unit :=
  let* est := getC connectionEstablished in
  if est : bool then
    lift (
      modify (fun s => s <| callDirection := setCallDirection d |>
        <| forceFaxMode := forceFaxMode s || setForceFaxMode d |>) ;;
      SetState_sub stConnectHandle chConnected ;;
      signal ;;
      add_play_tone (numTone d) playTone)
  else
    lift OnHook ;;
    let* l := local in
    (if crlf l then put CRLF ;; set_local (fun l => l <| crlf := false |>)
     else let* p := getC RC_PREF in put p) ;;
    let* busy := getC RC_BUSY in
    put busy.

Definition dial_new (d : dial) (playTone : list tone) : M unit :=
  modify (fun s => s <| callDirection := setCallDirection d |> <| forceFaxMode := setForceFaxMode d |>) ;;
  timer_stop timerRing ;;
  SetState stDial ;;
  add_play_tone (numTone d) playTone ;;
  let* t := gets EstablishmentTimeout in
  timer_start timeout t ;;
  modify (fun s => s <| params := req_set "localpartyname" (LocalPartyName d)
                                    (req_set "number" (number d) ∅) |>) ;;
  signal.

Definition cmd_D : C unit :=
  no_ok ;;
  lift (ask Acquire) ;;
  let* wasOnHook := lift OffHook in
  let* token := getC CallToken in
  let online := negb (bool_decide (token = [])) in
  whenC (negb online) (lift (modify (fun s => s <| pPlayTone := None |>))) ;;
  let* r := scan_dial online in
  let '(d, rest) := (r : dial * option (list Z)) in
  match rest with
  | Some rest => lift (modify (fun s => s <| cmdRest := rest |>))
  | None => mret tt
  end ;;
  if negb (dial_err d) then
    let* playTone := getC (fun s => tones_of (P s) (numTone d)) in
    if online then dial_online d playTone else lift (dial_new d playTone)
  else
    fail ;;
    whenC wasOnHook (lift OnHook).

(** ** What a dial string means *)

(** The characters of a number, for the tones as well. *)
Definition dial_digit (c : Z) : bool := isdigit c || (c =? chr "*") || (c =? chr "#").
Definition dial_digits (l : list Z) : Prop := Forall (fun c => dial_digit c = true) l.

(** Characters that neither end the string nor fail. *)
Definition passes (online : bool) (c : Z) (d : dial) : Prop :=
  c <> 0 /\ c <> chr ";" /\ dial_err (dial_char online d c) = false.

Lemma dial_loop_char online c l b d : passes online c d ->
  dial_loop online (c :: l) b d = dial_loop online l (c :: b) (dial_char online d c).
Proof.
  intros (H0 & Hs & He). simpl. rewrite (proj2 (Z.eqb_neq c 0) H0), (proj2 (Z.eqb_neq c (chr ";")) Hs), He.
  done.
Qed.

(** A run of digits goes where the mode of the string says. *)
Definition put_digits (d : dial) (l : list Z) : dial :=
  if in_local d then d <| LocalPartyName := LocalPartyName d ++ l |>
  else if addNumTone d then d <| numTone := numTone d ++ l |>
  else d <| number := number d ++ l |>.

Lemma put_digits_nil d : put_digits d [] = d.
Proof. unfold put_digits. destruct d as [? ? [] ? [] ? ? ?]; cbn; by rewrite app_nil_r. Qed.

Lemma dial_digit_char d c : dial_digit c = true -> dial_char false d c = put_digits d [c].
Proof.
  intros H. unfold dial_char. unfold dial_digit in H. rewrite H. unfold put_digits, dial_add.
  by destruct (in_local d), (addNumTone d).
Qed.

Lemma put_digits_cons d c l : put_digits (put_digits d [c]) l = put_digits d (c :: l).
Proof.
  unfold put_digits. destruct d as [? ? [] ? [] ? ? ?]; cbn; by rewrite <- app_assoc.
Qed.

Lemma dial_loop_digits b l rest d : dial_digits l -> dial_err d = false ->
  dial_loop false (l ++ rest) b d = dial_loop false rest (rev l ++ b) (put_digits d l).
Proof.
  intros Hl. revert b d. induction Hl as [|c l Hc _ IH]; intros b d Hd.
  - by rewrite put_digits_nil.
  - assert (dial_err (put_digits d [c]) = false) as Hd'.
    { rewrite <- Hd. unfold put_digits. destruct d as [? ? [] ? [] ? ? ?]; done. }
    cbn [app]. rewrite dial_loop_char.
    + rewrite dial_digit_char by done. rewrite IH by done. rewrite put_digits_cons.
      simpl. by rewrite <- app_assoc.
    + split_and!; [| |by rewrite dial_digit_char]; intros ->; by vm_compute in Hc.
Qed.

(** C25: a dial string [aLbLcDd@e@f;rest] of a modem without a call: the number is [a]
    and [d], the local party the text of the last [L], up to the [D], the tones those
    after the last [@], and the semicolon leaves the rest of the line and the
    direction of the call open. *)
Theorem dial_string_parts a b c d e f rest :
  Forall dial_digits [a; b; c; d; e; f] ->
  exists text, dial_loop false
    (a ++ chr "L" :: b ++ chr "L" :: c ++ chr "D" :: d ++ chr "@" :: e ++ chr "@" :: f ++ chr ";" :: rest)
    [] (dial_start false) =
  ({| number := a ++ d; numTone := f; addNumTone := true; LocalPartyName := c; in_local := false;
      setForceFaxMode := false; setCallDirection := cdUndefined; dial_err := false |},
   {| bef := text; aft := rest; past := false |}, Some rest).
Proof.
  rewrite !list.Forall_cons. intros (? & ? & ? & ? & ? & ? & _).
  do 5 (rewrite dial_loop_digits by done;
    rewrite dial_loop_char by (split_and!; [vm_compute; discriminate..|reflexivity])).
  rewrite dial_loop_digits by done. by eexists.
Qed.

Lemma dial_string_parts_witness : exists text, dial_loop false (str "000L9L123D4444@77@5;H") [] (dial_start false) =
  ({| number := str "0004444"; numTone := str "5"; addNumTone := true; LocalPartyName := str "123";
      in_local := false; setForceFaxMode := false; setCallDirection := cdUndefined; dial_err := false |},
   {| bef := text; aft := str "H"; past := false |}, Some (str "H")).
Proof.
  apply (dial_string_parts (str "000") (str "9") (str "123") (str "4444") (str "77") (str "5") (str "H")).
  by repeat constructor.
Defined.
