(* ===== verification/AtCmd.v ===== *)
(** * The AT commands (HandleCmd and HandleCmdRest of src/t38modem/pmodeme.cxx)

    One definition per command, with the switches that lead to it; the pointer is
    after the letters that name the command where its definition begins. *)
From Stdlib Require Import Ascii String.
From stdpp Require Import strings gmap.
From S2P Require Import Prelude Dle EngineBase Profile AtText ModemBase ModemCalls AtBase AtClass AtDial.

(** ** What the commands share *)

Definition Manufacturer : list Z := str "Vyacheslav Frolov".
Definition Model : list Z := str "T38FAX".
Definition Revision : list Z := str "2.0.0".

(** Change the profile, or the modem, with the mutex held. *)
Definition with_profile (f : Profile -> Profile) : C unit :=
  lift (locked (modify (fun s => s <| P := f (P s) |>))).

(** [= '?'], [=] and a setting, or [?]: the shape of most commands. *)
Definition option_cmd (values : list Z) (set : C unit) (query : C unit) : C unit :=
  let* c := next in
  if c =? chr "=" then
    let* c := peek in
    if c =? chr "?" then advance ;; say (CRLF ++ values) else set
  else if c =? chr "?" then query
  else fail.

Definition say_reg (r : Z) : C unit :=
  let* v := getC (fun s => get_reg r (P s)) in say (CRLF ++ print_u v).

(** An option that is an octet, or one of the first numbers. *)
Definition set_octet (r : Z) : C unit :=
  let* val := num 1 3 255 0 in
  if 0 <=? val then with_profile (fun p => set_reg r p val) else fail.
Definition octet_cmd (r : Z) : C unit := option_cmd (str "(0-255)") (set_octet r) (say_reg r).

Definition set_small (n r : Z) : C unit :=
  let* val := num 1 3 255 0 in
  if (0 <=? val) && (val <=? n) then with_profile (fun p => set_reg r p val) else fail.
Definition small_cmd (values : list Z) (n r : Z) : C unit :=
  option_cmd values (set_small n r) (say_reg r).

(** [\r\n] and a text after [?]. *)
Definition say_cmd (text : list Z) : C unit :=
  let* c := next in
  if c =? chr "?" then say (CRLF ++ text) else fail.

(** [ToSBit]: a register bit. *)
Definition ToSBit (b : Z) : C unit :=
  lift (ask Acquire) ;;
  let* val := num 0 1 1 0 in
  if val =? 0 then lift (modify (fun s => s <| P := set_bit 23 b (P s) false |>))
  else if val =? 1 then lift (modify (fun s => s <| P := set_bit 23 b (P s) true |>))
  else fail.

(** A number that is read and has no effect. *)
Definition ignored (maxDigits maxNum : Z) : C unit :=
  let* val := num 0 maxDigits maxNum 0 in
  if 0 <=? val then mret tt else fail.

(** The modem class, a change of which the engines are told. *)
Definition change_class (c : list Z) : M unit :=
  modify (fun s => s <| P := set_ModemClass (P s) c |>) ;;
  OnChangeModemClass.

(** A profile of the program's, which are all new. *)
Definition load_profile : M unit :=
  modify (fun s => s <| P := assign (P s) (Profile_new 0) |>) ;;
  OnChangeModemClass ;;
  let* h := gets off_hook in
  whenM h OnHook.

(** ** Commands of one letter *)

Definition answer_cmd (d : CallDirection) : C unit :=
  no_ok ;;
  let* done_ := lift (locked (modify (fun s => s <| callDirection := d |>) ;; Answer)) in
  if done_ : bool then mret tt else fail.

Definition cmd_A : C unit := answer_cmd cdIncoming.
Definition cmd_B : C unit := ignored 1 255.

Definition hook_on : M unit :=
  let* s := getM in
  whenM (off_hook s || negb (get_reg rClearMode (P s) =? 0)) OnHook.

Definition cmd_H : C unit :=
  let* val := num 0 1 0 0 in
  if 0 <=? val then lift (locked (change_class (str "1") ;; hook_on)) else fail.

Definition cmd_I : C unit :=
  let* val := num 0 1 255 0 in
  if val =? 0 then say (CRLF ++ Model)
  else if val =? 3 then say (CRLF ++ Manufacturer)
  else if val =? 8 then let* n := getC SrcNum in say (CRLF ++ str "NMBR = " ++ n)
  else if val =? 9 then let* n := getC DstNum in say (CRLF ++ str "NDID = " ++ n)
  else if val <? 0 then fail else mret tt.

Definition cmd_S_bit (r : Z) : C unit :=
  let* b := num 1 1 7 0 in
  if b <? 0 then fail
  else
    let* c := next in
    if c =? chr "=" then
      let* val := num 1 1 1 0 in
      if val <? 0 then fail
      else
        let* done_ := getC (fun s => (SetBit (P s) r b (negb (val =? 0))).1) in
        lift (modify (fun s => s <| P := (SetBit (P s) r b (negb (val =? 0))).2 |>)) ;;
        if done_ : bool then mret tt else fail
    else if c =? chr "?" then
      let* s := getC P in
      let '(done_, val) := GetBit s r b in
      if done_ then say (CRLF ++ print_u (if val : bool then 1 else 0)) else fail
    else fail.

Definition cmd_S : C unit :=
  let* r := num 1 3 255 0 in
  if r <? 0 then fail
  else
    let* c := next in
    if c =? chr "=" then
      let* val := num 1 3 255 0 in
      lift (ask Acquire) ;;
      if val <? 0 then fail
      else
        let* done_ := getC (fun s => (SetReg (P s) r (u8 val)).1) in
        lift (modify (fun s => s <| P := (SetReg (P s) r (u8 val)).2 |>)) ;;
        if done_ : bool then mret tt else fail
    else if c =? chr "?" then
      lift (ask Acquire) ;;
      let* s := getC P in
      let '(done_, val) := GetReg s r in
      if done_ then say (CRLF ++ print_u3 val) else fail
    else if c =? chr "." then cmd_S_bit r
    else fail.

Definition cmd_X : C unit :=
  let* val := num 0 1 255 0 in
  if 3 <=? val then mret tt else fail.

Definition cmd_Z : C unit :=
  let* val := num 0 1 0 0 in
  if 0 <=? val then lift (locked load_profile) else fail.

(** ** Fax commands *)

Definition cmd_FAA : C unit :=
  option_cmd (str "0")
    (let* val := num 1 3 255 0 in if val =? 0 then mret tt else fail)
    (say (CRLF ++ str "0")).

Definition cmd_FCLASS : C unit :=
  option_cmd (str "1,8")
    (let* val := num 1 3 255 0 in
     if val =? 0 then lift (locked (change_class (str "0")))
     else if val =? 1 then lift (locked (change_class (str "1")))
     else if val =? 8 then lift (locked (change_class (str "8")))
     else fail)
    (let* c := getC (fun s => ModemClassName (P s)) in say (CRLF ++ c)).

Definition cmd_FLO : C unit :=
  option_cmd (str "0-2")
    (let* val := num 1 3 255 0 in
     if (0 <=? val) && (val <=? 2) then with_profile (fun p => set_Flo p (u8 val)) else fail)
    (let* v := getC (fun s => Flo (P s)) in say (CRLF ++ print_u v)).

Definition cmd_FM : C unit :=
  let* c := next in
  if c =? chr "D" then
    let* c := next in if c =? chr "L" then say_cmd Model else fail
  else if c =? chr "F" then
    let* c := next in if c =? chr "R" then say_cmd Manufacturer else fail
  else if c =? chr "I" then say_cmd Manufacturer
  else if c =? chr "M" then say_cmd Model
  else if c =? chr "R" then say_cmd Revision
  else fail.

Definition is_class1 (c : Z) : bool := (c =? chr "M") || (c =? chr "H") || (c =? chr "S").

Definition class_cmd (handle : C bool) : C unit :=
  let* done_ := handle in if done_ : bool then mret tt else fail.

Definition cmd_FR : C unit :=
  let* c := peek in
  if is_class1 c then advance ;; class_cmd HandleClass1Cmd
  else
    let* rev := eat (str "EV") in
    if rev : bool then say_cmd Revision else fail.

Definition cmd_FT : C unit :=
  let* c := peek in
  if is_class1 c then advance ;; class_cmd HandleClass1Cmd else fail.

Definition cmd_F : C unit :=
  let* c := next in
  if c =? chr "A" then
    let* c := peek in if c =? chr "A" then advance ;; cmd_FAA else fail
  else if c =? chr "C" then
    let* b := eat (str "LASS") in if b : bool then cmd_FCLASS else fail
  else if c =? chr "L" then
    let* c := next in if c =? chr "O" then cmd_FLO else fail
  else if c =? chr "M" then cmd_FM
  else if c =? chr "R" then cmd_FR
  else if c =? chr "T" then cmd_FT
  else fail.

(** ** Interface commands *)

Definition set_IFC : C unit :=
  let* dte := num 1 1 2 0 in
  if dte <? 0 then fail
  else
    let* c := peek in
    let* dce := (if c =? chr "," then advance ;; num 1 3 255 0
                 else getC (fun s => get_reg rIfcByDCE (P s))) in
    if dce <? 0 then fail
    else with_profile (fun p => set_reg rIfcByDCE (set_reg rIfcByDTE p dte) dce).

Definition cmd_IFC : C unit :=
  option_cmd (str "+IFC:(0-2),(0-2)") set_IFC
    (let* p := getC P in
     say (CRLF ++ str "+IFC:" ++ print_u (get_reg rIfcByDTE p) ++ str "," ++ print_u (get_reg rIfcByDCE p))).

Definition cmd_I_ifc : C unit :=
  let* c := next in
  if c =? chr "F" then
    let* c := next in if c =? chr "C" then cmd_IFC else fail
  else fail.

(** ** Voice commands *)

Definition cmd_VCID : C unit := small_cmd (str "(0,1)") 1 rCidMode.

Definition cmd_VEM : C unit :=
  option_cmd (str "(0)")
    (let* val := num 1 3 255 0 in if val =? 0 then mret tt else fail)
    (say (CRLF ++ str "0")).

Definition cmd_VGR : C unit := octet_cmd rVgrInterval.
Definition cmd_VGT : C unit := octet_cmd rVgtInterval.

Definition cmd_VG : C unit :=
  let* c := next in
  if c =? chr "R" then cmd_VGR else if c =? chr "T" then cmd_VGT else fail.

Definition cmd_VIP : C unit :=
  let* c := peek in
  let load := lift (locked (modify (fun s => s <| P := SetVoiceProfile (P s) (Profile_new 0) |>))) in
  if c =? chr "=" then
    advance ;;
    let* c := peek in
    if c =? chr "?" then advance ;; say (CRLF ++ str "(0-0)")
    else
      let* val := num 1 3 255 0 in
      if (val <? 0) || (0 <? val) then fail else load
  else load.

Definition cmd_VIT : C unit :=
  option_cmd (str "(0)")
    (let* val := num 1 3 255 0 in if val <? 0 then fail else mret tt)
    (say (CRLF ++ str "0")).

Definition cmd_VI : C unit :=
  let* c := next in
  if c =? chr "P" then cmd_VIP else if c =? chr "T" then cmd_VIT else fail.

(** Lines of an answer. *)
Fixpoint join_lines (l : list (list Z)) : list Z :=
  match l with
  | [] => []
  | [x] => x
  | x :: l => x ++ CRLF ++ join_lines l
  end.

Definition vls_line (n name : list Z) : list Z :=
  n ++ str "," ++ quoted name ++ str ",00000000,00000000,00000000".

Definition cmd_VLS : C unit :=
  option_cmd (join_lines [vls_line (str "0") []; vls_line (str "1") (str "T");
                          vls_line (str "5") (str "ST"); vls_line (str "7") (str "MST")])
    (let* val := num 1 3 255 0 in
     if val =? 0 then lift (locked hook_on)
     else if (val =? 1) || (val =? 5) || (val =? 7) then answer_cmd cdUndefined
     else fail)
    (let* h := getC off_hook in say (CRLF ++ str (if h : bool then "1" else "0"))).

Definition cmd_VR : C unit :=
  let* c := next in
  if c =? chr "A" then octet_cmd rVraInterval
  else if c =? chr "N" then octet_cmd rVrnInterval
  else if c =? chr "X" then class_cmd HandleClass8Cmd
  else fail.

Definition cmd_VSD : C unit :=
  option_cmd (str "(0-255),(0-255)")
    (let* sds := num 1 3 255 0 in
     let* c := (if sds <? 0 then mret 0 else peek) in
     if (sds <? 0) || negb (c =? chr ",") then fail
     else
       advance ;;
       let* sdi := num 1 3 255 0 in
       if sdi <? 0 then fail else with_profile (fun p => set_reg rVsdi (set_reg rVsds p sds) sdi))
    (let* p := getC P in say (CRLF ++ print_u (get_reg rVsds p) ++ str "," ++ print_u (get_reg rVsdi p))).

Definition codec_line (n name rest : list Z) : list Z := n ++ str "," ++ quoted name ++ rest.
Definition pcm_line (n name : list Z) : list Z := codec_line n name (str ",8,0,(8000),(0),(0)").
Definition codecs : list (list Z) :=
  [pcm_line (str "0") (str "SIGNED PCM"); pcm_line (str "1") (str "UNSIGNED PCM");
   pcm_line (str "4") (str "G.711U"); pcm_line (str "5") (str "G.711A");
   pcm_line (str "128") (str "8-BIT LINEAR");
   codec_line (str "129") (str "ADPCM (NOT IMPLEMENTED)") (str ",0,0,(0),(0),(0)");
   pcm_line (str "130") (str "UNSIGNED PCM"); pcm_line (str "131") (str "G.711 ULAW");
   pcm_line (str "132") (str "G.711 ALAW")].

(** [,<scs>] and [,<sel>]: zeros, in this order; [false]: something else. *)
Fixpoint zeros (n : nat) : C bool :=
  match n with
  | O => mret true
  | S n =>
      let* c := peek in
      if c =? chr "," then
        advance ;;
        let* val := num 1 3 255 0 in
        if val =? 0 then zeros n else mret false
      else mret true
  end.

Definition set_VSM : C unit :=
  let* cml := num 1 3 255 0 in
  if negb (bool_decide (cml ∈ [0; 1; 4; 5; 128; 130; 131; 132])) then fail
  else
    let* c := peek in
    let* rest := (if c =? chr "," then
        advance ;;
        let* vsr := num 4 4 8000 0 in
        if negb (vsr =? 8000) then mret false else zeros 2
      else mret true) in
    if rest : bool then with_profile (fun p => set_reg rVcml p cml) else fail.

Definition cmd_VSM : C unit :=
  option_cmd (join_lines codecs) set_VSM
    (let* v := getC (fun s => get_reg rVcml (P s)) in say (CRLF ++ print_u v ++ str ",8000,0,0")).

Definition cmd_VS : C unit :=
  let* c := next in
  if c =? chr "D" then cmd_VSD else if c =? chr "M" then cmd_VSM else fail.

Definition cmd_VT : C unit :=
  let* c := next in
  if c =? chr "D" then octet_cmd rVtd
  else if (c =? chr "X") || (c =? chr "S") then class_cmd HandleClass8Cmd
  else fail.

Definition cmd_V : C unit :=
  let* c := next in
  if c =? chr "C" then
    let* b := eat (str "ID") in if b : bool then cmd_VCID else fail
  else if c =? chr "E" then
    let* c := next in if c =? chr "M" then cmd_VEM else fail
  else if c =? chr "G" then cmd_VG
  else if c =? chr "I" then cmd_VI
  else if c =? chr "L" then
    let* c := next in if c =? chr "S" then cmd_VLS else fail
  else if c =? chr "R" then cmd_VR
  else if c =? chr "S" then cmd_VS
  else if c =? chr "T" then cmd_VT
  else fail.

Definition cmd_plus : C unit :=
  let* c := next in
  if c =? chr "F" then cmd_F
  else if c =? chr "I" then cmd_I_ifc
  else if c =? chr "V" then cmd_V
  else fail.

(** ** Ampersand commands *)

Definition reset_cmd : C unit := lift (locked load_profile).

Definition cmd_ampersand : C unit :=
  let* c := next in
  if c =? chr "C" then ignored 1 1
  else if c =? chr "D" then ignored 1 3
  else if c =? chr "F" then reset_cmd
  else if c =? chr "H" then
    let* val := num 0 1 7 0 in
    if 0 <=? val then with_profile (fun p => (SetBits p 27 3 5 (u8 val)).2) else fail
  else fail.

(** ** Hash commands *)

(** The two registers of #CID: the caller's and the called number. *)
Definition set_ids (cid did : Z) : M unit :=
  modify (fun s => s <| P := set_reg rDidMode (set_reg rCidMode (P s) cid) did |>).

Definition cid_number (p : Profile) : Z :=
  if negb (get_reg rCidMode p =? 0) then (if negb (get_reg rDidMode p =? 0) then 10 else 1)
  else (if negb (get_reg rDidMode p =? 0) then 11 else 0).

Definition set_CID : C unit :=
  let* val := num 1 3 255 0 in
  lift (ask Acquire) ;;
  if val =? 0 then lift (set_ids 0 0)
  else if val =? 1 then lift (set_ids 1 0)
  else if val =? 10 then lift (set_ids 1 1)
  else if val =? 11 then lift (set_ids 0 1)
  else fail.

Definition cmd_CIDFMT : C unit :=
  let* c := next in
  if c =? chr "=" then
    let* p := getC P in
    let* name_format := num 0 1 3 (get_reg rCidNameFmt p) in
    if name_format <? 0 then fail
    else
      let* c := peek in
      let* nmbr_format := (if c =? chr "," then advance ;; num 0 1 3 (get_reg rCidNmbrFmt p)
                           else mret (get_reg rCidNmbrFmt p)) in
      if nmbr_format <? 0 then fail
      else with_profile (fun p => set_reg rCidNmbrFmt (set_reg rCidNameFmt p name_format) nmbr_format)
  else if c =? chr "?" then
    let* p := getC P in
    say (CRLF ++ print_u (get_reg rCidNameFmt p) ++ str "," ++ print_u (get_reg rCidNmbrFmt p))
  else fail.

Definition cmd_CID : C unit :=
  let* c := next in
  if c =? chr "=" then
    let* c := peek in
    if c =? chr "?" then advance ;; say (CRLF ++ str "(0,1,10,11)") else set_CID
  else if c =? chr "?" then
    let* p := getC P in say (CRLF ++ print_u (cid_number p))
  else if c =? chr "F" then
    let* b := eat (str "MT") in if b : bool then cmd_CIDFMT else fail
  else fail.

Definition cmd_DFRMC : C unit := octet_cmd rDelayFrmConnect.
Definition cmd_HCLR : C unit := small_cmd (str "(0,1)") 1 rClearMode.

Definition cmd_hash : C unit :=
  let* b := eat (str "CID") in
  if b : bool then cmd_CID
  else
    let* b := eat (str "DFRMC") in
    if b : bool then cmd_DFRMC
    else
      let* b := eat (str "HCLR") in
      if b : bool then cmd_HCLR else fail.

(** ** The command line *)

Definition command : C unit :=
  let* c := next in
  if (c =? chr " ") || (c =? chr ";") then mret tt
  else if c =? chr "A" then cmd_A
  else if c =? chr "B" then cmd_B
  else if c =? chr "D" then cmd_D
  else if c =? chr "E" then ToSBit 0
  else if c =? chr "H" then cmd_H
  else if c =? chr "I" then cmd_I
  else if (c =? chr "L") || (c =? chr "M") || (c =? chr "N") then ignored 1 255
  else if c =? chr "O" then fail
  else if c =? chr "Q" then ToSBit 7
  else if c =? chr "S" then cmd_S
  else if c =? chr "V" then ToSBit 6
  else if c =? chr "X" then cmd_X
  else if c =? chr "Z" then cmd_Z
  else if c =? chr "+" then cmd_plus
  else if c =? chr "&" then cmd_ampersand
  else if c =? chr "#" then cmd_hash
  else fail.

(** The loop: while the modem stays in the command state, nothing is wrong and there
    is a character left. *)
Definition commands : C unit :=
  text_loop (fun _ : unit =>
    lift (ask Unlocked) ;;
    let* st := getC state in
    let* l := local in
    if negb (bool_decide (st = stCommand)) || err l then mret (inr tt)
    else
      let* c := peek in
      if c =? 0 then mret (inr tt) else command ;; mret (inl tt)) tt.

(** The result code at the end of the line. *)
Definition line_result : C unit :=
  let* l := local in
  whenC (crlf l) (put CRLF) ;;
  let code rc :=
    (if negb (crlf l) then (let* p := getC RC_PREF in put p) else mret tt) ;;
    let* r := getC rc in put r in
  if err l then code RC_ERROR else if ok l then code RC_OK else mret tt.

Definition cmdline_of (text : list Z) (resp : list Z) : cmdline :=
  {| cur := cursor_at text; resp := resp; err := false; ok := true; crlf := false |}.

(** Returns the answer, [resp] with what the line adds to it. *)
Definition HandleCmdRest (resp0 : list Z) : M (list Z) :=
  let* text := gets cmdRest in
  modify (fun s => s <| cmdRest := [] |>) ;;
  let* r := (commands ;; line_result) (cmdline_of text resp0) in
  mret (resp r.2).

(** What follows the first ["AT"] or ["at"]. *)
Fixpoint after_at (l : list Z) : option (list Z) :=
  match l with
  | x :: (y :: rest) as l' =>
      if ((x =? chr "A") && (y =? chr "T")) || ((x =? chr "a") && (y =? chr "t")) then Some rest
      else after_at l'
  | _ => None
  end.

Definition HandleCmd (resp0 : list Z) : M (list Z) :=
  let* line := gets cmd in
  match after_at line with
  | None => modify (fun s => s <| cmd := [] |>) ;; mret resp0
  | Some rest =>
      modify (fun s => s <| cmdRest := ToUpper (c_string rest) |> <| cmd := [] |>) ;;
      HandleCmdRest resp0
  end.
