(* ===== verification/ModemData.v ===== *)
(** * Data from the modem's user (HandleData of src/t38modem/pmodeme.cxx)

    In the command state the octets are command lines, in [stSend] they are the data
    to send, shielded with DLE; any other state they reset. *)
From Stdlib Require Import Ascii String.
From stdpp Require Import strings gmap.
From S2P Require Import Prelude EngineBase DataStream Dle Profile AtText G711 ModemBase ModemCalls AtBase AtCmd.

(** ** Definitions *)

(** *** Commands *)

Definition echo (text : list Z) (bresp : list Z) : M (list Z) :=
  let* e := gets (fun s => Echo (P s)) in
  mret (if e : bool then bresp ++ text else bresp).

Definition add_to_cmd (text : list Z) : M unit :=
  modify (fun s => s <| cmd := cmd s ++ c_string text |>).

(** [memchr (l, '\r', length l)]: what is before the first and after it. *)
Fixpoint cut_line (l : list Z) : option (list Z * list Z) :=
  match l with
  | [] => None
  | x :: l =>
      if x =? 13 then Some ([], l)
      else match cut_line l with Some (line, rest) => Some (x :: line, rest) | None => None end
  end.

(** One turn of the loop on the lines. *)
Definition line_turn (buf bresp : list Z) : M (list Z * list Z) :=
  match cut_line buf with
  | None =>
      add_to_cmd buf ;;
      let* bresp := echo buf bresp in
      mret ([], bresp)
  | Some (line, rest) =>
      (if bool_decide (line = []) then mret tt else add_to_cmd line) ;;
      let* bresp := (if bool_decide (line = []) then mret bresp else echo line bresp) in
      let* bresp := echo [13] bresp in
      let* r := HandleCmd [] in
      mret (rest, bresp ++ r)
  end.

Fixpoint line_loop (n : nat) (buf bresp : list Z) : M (list Z * list Z) :=
  match n with
  | O => mret (buf, bresp)
  | S n =>
      ask Unlocked ;;
      let* st := gets state in
      if bool_decide (st = stCommand) && negb (bool_decide (buf = []))
      then
        let* r := line_turn buf bresp in
        let '(buf, bresp) := (r : list Z * list Z) in
        line_loop n buf bresp
      else mret (buf, bresp)
  end.

Definition data_command (buf bresp : list Z) : M (list Z * list Z) :=
  ask Unlocked ;;
  let* h := gets off_hook in
  whenM (negb h) (locked (let* now := ask Now in
                          modify (fun s => s <| lastOnHookActivity := now |>))) ;;
  line_loop (length buf) buf bresp.

(** *** Data to send *)

Definition schar (b : Z) : Z := swrap 8 b.

(** The samples of the voice class's octets; [None] for a format that has none. *)
Definition samples_of (vcml : Z) (octets : list Z) : option (list Z) :=
  if vcml =? 0 then Some (map (fun b => s16 (schar b * 256)) octets)
  else if bool_decide (vcml ∈ [1; 128; 130]) then
    Some (map (fun b => s16 (s16 (schar b) * 256 - 0x8000)) octets)
  else if bool_decide (vcml ∈ [4; 131]) then Some (map (fun b => s16 (ulaw2linear (schar b))) octets)
  else if bool_decide (vcml ∈ [5; 132]) then Some (map (fun b => s16 (alaw2linear (schar b))) octets)
  else None.

(** The second octet of an HDLC frame comes: does it say that more frames follow? *)
Definition more_frames (dt : DataType) (dataCount : Z) (buf : list Z) : bool :=
  bool_decide (dt = dtHdlc) && (dataCount <? 2) && (2 <=? dataCount + zlen buf) &&
  (aget buf (1 - dataCount) .& 0x08 =? 0).

(** Octets that have come out of the shield; returns how many the loop takes it for. *)
Definition send_octets (dt : DataType) (buf : list Z) : M Z :=
  modify (fun s => if more_frames dt (dataCount s) buf then s <| moreFrames := true |> else s) ;;
  modify (fun s => s <| dataCount := dataCount s + zlen buf |>) ;;
  let* c := gets (fun s => ModemClassId (P s)) in
  if bool_decide (c = mcAudio) then
    with_engine (mret (zlen buf)) (fun e =>
      let* vcml := gets (fun s => get_reg rVcml (P s)) in
      match samples_of vcml buf with
      | Some samples => ask (EngineSendSamples e samples) ;; mret (zlen buf)
      | None => ask (EngineSendSamples e []) ;; mret 0
      end)
  else if bool_decide (c = mcFax) then
    with_engine (mret (zlen buf)) (fun e => ask (EngineSend e buf) ;; mret (zlen buf))
  else mret (zlen buf).

(** The end of the data: stop the engine, or go on without it. *)
Definition stop_sending : M unit :=
  SetState stSendAckWait ;;
  let* stopped := with_engine (mret false) (fun e =>
    let* more := gets moreFrames in
    let* q := NextSeq in
    ask (EngineSendStop e more q) : M bool) in
  whenM (negb stopped) (SetState stSendAckHandle ;; timer_stop timeout ;; signal).

(** [dleData.GetData (Buf, sizeof (Buf))] *)
Definition take_data : M (Z * list Z) :=
  let* d := gets dleData in
  let '(count, buf, p) := pipe_get (stream d) 1024 in
  modify (fun s => s <| dleData := dleData s <| stream := p |> |>) ;;
  mret (count, buf).

Definition send_turn (dt : DataType) (_ : unit) : M (unit + unit) :=
  let* r := take_data in
  let '(count, buf) := (r : Z * list Z) in
  ask Acquire ;;
  let* count :=
    (if count =? -1 then stop_sending ;; mret (-1)
     else if count =? 0 then mret 0
     else send_octets dt buf) in
  mret (if count <=? 0 then inr tt else inl tt).

Definition data_send (buf : list Z) : M (list Z) :=
  let* d := gets dleData in
  let '(lendone, d) := PutDleData d buf in
  modify (fun s => s <| dleData := d |>) ;;
  ask Unlocked ;;
  let* dt := gets dataType in
  loop (send_turn dt) tt ;;
  mret (drop (Z.to_nat lendone) buf).

(** *** Data that resets *)

Definition reset_engine : M unit :=
  with_engine (mret tt) (fun e => ask (EngineResetModemState e)).

Definition data_reset_ack : M unit := locked (
  SetState stCommand ;;
  timer_stop timeout ;;
  reset_engine).

Definition data_reset (bresp : list Z) : M (list Z) := locked (
  timer_stop timeout ;;
  let* s := getM in
  let audio := bool_decide (ModemClassId (P s) = mcAudio) in
  let bresp := if bool_decide (state s = stRecv) && (negb (dataCount s =? 0) || audio)
               then bresp ++ [DLE; ETX] else bresp in
  SetState stCommand ;;
  let* pref := gets RC_PREF in
  let* e := gets currentClassEngine in
  if negb (bool_decide (e = None)) || audio then
    reset_engine ;;
    let* r := gets RC_OK in
    mret (bresp ++ pref ++ r)
  else
    OnHook ;;
    let* r := gets RC_NO_CARRIER in
    mret (bresp ++ pref ++ r)).

(** *** The handler *)

(** One turn of the loop on the octets, with what is left of them. *)
Definition data_turn (buf bresp : list Z) : M (list Z * list Z) :=
  ask Unlocked ;;
  let* st := gets state in
  match st with
  | stCommand => data_command buf bresp
  | stSend => let* rest := data_send buf in mret (rest, bresp)
  | stSendAckWait => data_reset_ack ;; mret (buf, bresp)
  | _ => let* bresp := data_reset bresp in mret (drop 1 buf, bresp)
  end.

(** Returns the response, [bresp] with what the octets add to it. *)
Definition HandleData (buf bresp : list Z) : M (list Z) :=
  loop (fun '(buf, bresp) =>
    if bool_decide (buf = []) then mret (inr bresp)
    else let* r := data_turn buf bresp in mret (inl r)) (buf, bresp).
