(* ===== verification/ModemCheck.v ===== *)
(** * The modem's turns (CheckState and CheckStatePost of src/t38modem/pmodeme.cxx)

    [CheckState] looks at the timers, the engines' user input and the state of the
    call, then does what the state of the modem calls for; it collects octets for
    the modem's user ([bresp]) and at most one result code ([resp]). *)
From Stdlib Require Import Ascii String.
From stdpp Require Import strings gmap.
From S2P Require Import Prelude DataStream Dle EngineBase PmHdlc Profile AtText G711 ModemBase ModemCalls.
From S2P Require Import AtBase AtClass AtDial AtCmd ModemData.

(** ** Timers *)

Definition is_audio (s : modem) : bool := bool_decide (ModemClassId (P s) = mcAudio).
Definition is_fax (s : modem) : bool := bool_decide (ModemClassId (P s) = mcFax).

Definition poll_busy (bresp : list Z) : M (list Z) :=
  let* fired := timer_get timerBusy in
  let* s := getM in
  mret (if fired && is_audio s then bresp ++ [DLE; chr "b"] else bresp).

Definition crlf_line (name text : list Z) : list Z := name ++ str " = " ++ text ++ CRLF.

(** The number and the name of the caller, in the formats of #CIDFMT. *)
Definition caller_number (s : modem) : list Z :=
  let f := get_reg rCidNmbrFmt (P s) in
  crlf_line (str "NMBR")
    (if f =? 1 then [] else if f =? 2 then DstNum s
     else if f =? 3 then DstNum s ++ str "#" ++ SrcNum s else SrcNum s).

Definition caller_name (s : modem) : list Z :=
  let f := get_reg rCidNameFmt (P s) in
  crlf_line (str "NAME")
    (if f =? 1 then [] else if f =? 2 then DstNum s
     else if f =? 3 then DstNum s ++ str " <- " ++ SrcName s else SrcName s).

(** What the first ring tells of the caller, and the second RING. *)
Definition caller_id : M (list Z) :=
  let* s := getM in
  let cid := negb (get_reg rCidMode (P s) =? 0) in
  let did := negb (get_reg rDidMode (P s) =? 0) in
  if cid || did then
    let* who := (if cid then
        let* date := ask (TimeText (callTime s) (str "MMdd")) in
        let* time := ask (TimeText (callTime s) (str "hhmm")) in
        mret (crlf_line (str "DATE") date ++ crlf_line (str "TIME") time ++
              caller_number s ++ caller_name s)
      else mret []) in
    mret (who ++ (if did then crlf_line (str "NDID") (DstNum s) else []) ++ RC_RING s)
  else mret [].

(** An incoming call rings: returns the result code. *)
Definition ring : M (list Z) :=
  let* rc := gets RC_RING in
  let* count := gets (fun s => get_reg rRingCount (P s)) in
  let* id := (if count =? 0 then caller_id else mret []) in
  let count := u8 (count + 1) in
  modify (fun s => s <| P := set_reg rRingCount (P s) count |>) ;;
  let* auto := gets (fun s => get_reg rAutoAnswer (P s)) in
  (if (0 <? auto) && (auto <=? count)
   then modify (fun s => s <| callDirection := cdIncoming |>) ;; Answer ;; mret tt
   else mret tt) ;;
  mret (rc ++ id).

Definition poll_ring (bresp : list Z) : M (list Z * list Z) :=
  let* fired := timer_get timerRing in
  let* s := getM in
  if negb fired then mret (bresp, [])
  else if off_hook s && bool_decide (pPlayTone s = None) && is_audio s then
    mret (bresp ++ [DLE; chr "r"], [])
  else if negb (off_hook s) && bool_decide (callState s = cstCalled) then
    let* resp := ring in mret (bresp, resp)
  else mret (bresp, []).

Definition no_carrier_on_hook : M (list Z) :=
  let* r := gets RC_NO_CARRIER in OnHook ;; mret r.

Definition poll_timeout (resp : list Z) : M (list Z) :=
  let* fired := timer_get timeout in
  let* s := getM in
  if negb fired then mret resp
  else
    match state s with
    | stReqModeAckWait | stRecvBegWait =>
        let* r := gets RC_NO_CARRIER in
        SetState stCommand ;;
        with_engine OnHook (fun e => ask (EngineResetModemState e)) ;;
        mret r
    | stConnectHandle =>
        if subState s =? chConnectionEstablishDelay
        then SetSubState chConnectionEstablished ;; mret resp
        else no_carrier_on_hook
    | stConnectWait => no_carrier_on_hook
    | _ => mret resp
    end.

(** ** User input *)

Definition dle_key (c : Z) : list Z :=
  if is_plain_key c then [DLE; chr "/"; DLE; c; DLE; chr "~"] else [DLE; c].

(** The keys an engine has received.  [skip] is the test
    [!P.ModemClassId () == EngineBase::mcAudio], which compares the negation. *)
Definition poll_input (e : mce) (bresp : list Z) : M (list Z) :=
  let* a := gets (active e) in
  if negb a then mret bresp
  else
    loop (fun bresp =>
      let* c := ask (EngineRecvUserInput e) in
      match (c : option Z) with
      | None => mret (inr bresp)
      | Some c =>
          let* s := getM in
          let skip := bool_decide (ModemClassId (P s) = mcUndefined) in
          mret (inl (if skip then bresp else bresp ++ dle_key c))
      end) bresp.

(** ** Releasing *)

(** The state of the modem is one of a call that is being set up. *)
Definition connecting (st : State) : bool :=
  match st with
  | stDial | stConnectWait | stConnectHandle | stReqModeAckWait | stReqModeAckHandle => true
  | _ => false
  end.

Definition poll_release (resp : list Z) : M (list Z) :=
  let* s := getM in
  if off_hook s && bool_decide (callState s = cstReleasing) && (callSubState s =? 0) then
    SetCallSubState 1 ;;
    if connecting (state s) then
      let* r := gets (if bool_decide (callDirection s = cdOutgoing) then RC_BUSY else RC_ERROR) in
      timer_stop timeout ;;
      OnHook ;;
      mret r
    else mret resp
  else mret resp.

(** ** The states of a connection *)

Definition on_dial : M (list Z) :=
  let* c := gets callState in
  let* confirmed := (if bool_decide (c = cstCleared) then
      SetCallState cstDialing ;;
      SetState stConnectWait ;;
      let* t := gets EstablishmentTimeout in
      timer_start timeout t ;;
      let* request := gets params in
      let* token := ask ModemToken in
      let request := req_set "command" (str "dial") (req_set "modemtoken" token request) in
      let* r := ask (Endpoint request 5) in
      if bool_decide (req_get r "response" = str "confirm")
      then modify (fun s => s <| CallToken := req_get r "calltoken" |>) ;; mret true
      else timer_stop timeout ;; mret false
    else mret false) in
  if confirmed : bool then mret []
  else OnHook ;; gets RC_BUSY.

(** The tones of the dial string go out. *)
Definition play_tone (tones : list tone) : M (list Z) :=
  let* a := gets (active mceAudio) in
  if negb a then SetSubState chWaitAudioEngine ;; mret []
  else
    let* open := ask (EngineIsOpenOut mceAudio) in
    if negb open then mret []
    else
      let* started := ask (EngineSendStart mceAudio dtRaw 0) in
      let* played := (if started : bool then
          let* n := ask (ToneSize tones) in
          whenM (negb (n =? 0)) (ask (EngineSendTones mceAudio tones)) ;;
          SetSubState chWaitPlayTone ;;
          let* q := NextSeq in
          let* stopped := ask (EngineSendStop mceAudio false q) in
          if (stopped : bool) then timer_start timeout 60000 ;; mret true
          else SetSubState chAudioEngineAttached ;; mret false
        else mret false) in
      let* resp := (if negb played then
          let* r := gets RC_ERROR in SetState stCommand ;; OnHook ;; mret r
        else mret []) in
      modify (fun s => s <| pPlayTone := None |>) ;;
      mret resp.

Definition request_mode : M (list Z) :=
  SetState stReqModeAckWait ;;
  let* s := getM in
  timer_start timeout (if forceFaxMode s then 10000 else 60000) ;;
  let* token := ask ModemToken in
  let request :=
    req_set "mode" (str (if forceFaxMode s then "fax" else "fax-no-force"))
      (req_set "calltoken" (CallToken s)
        (req_set "command" (str "requestmode") (req_set "modemtoken" token ∅))) in
  let* r := ask (Endpoint request 4) in
  let* force := gets forceFaxMode in
  if force && negb (bool_decide (req_get r "response" = str "confirm")) then
    SetState stCommand ;;
    timer_stop timeout ;;
    gets RC_NO_CARRIER
  else mret [].

Definition connection_established (bresp : list Z) : M (list Z * list Z) :=
  let* s := getM in
  whenM (bool_decide (callDirection s = cdOutgoing) && is_fax s) (SendOnIdle dtCng) ;;
  modify (fun s => s <| connectionEstablished := true |>
    <| enableFakeIn := pset mceAudio true (enableFakeIn s) |>
    <| enableFakeOut := pset mceAudio true (enableFakeOut s) |>) ;;
  if is_audio s || bool_decide (callDirection s = cdUndefined) then
    SetState stCommand ;;
    timer_stop timeout ;;
    let* r := HandleCmdRest [] in
    mret (bresp ++ r, [])
  else if active mceT38 s then
    SetState stReqModeAckHandle ;;
    timer_stop timeout ;;
    signal ;;
    mret (bresp, [])
  else let* resp := request_mode in mret (bresp, resp).

Definition tone_played (bresp : list Z) : M (list Z * list Z) :=
  let* s := getM in
  if negb (connectionEstablished s) && is_fax s then
    SetSubState chConnectionEstablishDelay ;;
    timer_start timeout 1000 ;;
    mret (bresp, [])
  else
    SetSubState chConnectionEstablished ;;
    connection_established bresp.

Definition audio_attached (bresp : list Z) : M (list Z * list Z) :=
  let* t := gets pPlayTone in
  match t with
  | Some tones => let* resp := play_tone tones in mret (bresp, resp)
  | None => SetSubState chTonePlayed ;; tone_played bresp
  end.

Definition on_connect (bresp : list Z) : M (list Z * list Z) :=
  let* s := getM in
  if subState s =? chConnected then
    if negb (active mceAudio s) then
      SetSubState chWaitAudioEngine ;;
      timer_start timeout 60000 ;;
      mret (bresp, [])
    else SetSubState chAudioEngineAttached ;; audio_attached bresp
  else if subState s =? chAudioEngineAttached then audio_attached bresp
  else if subState s =? chTonePlayed then tone_played bresp
  else if subState s =? chConnectionEstablished then connection_established bresp
  else mret (bresp, []).

(** ** The states of a fax or voice command *)

Definition on_req_mode_ack : M (list Z) :=
  let* d := gets callDirection in
  match d with
  | cdIncoming =>
      modify (fun s => s <| dataType := dtCed |>) ;;
      SetState stSend ;;
      let* a := gets (active mceT38) in
      let* started := (if a : bool then ask (EngineSendStart mceT38 dtCed 3000) : M bool else mret false) in
      if started : bool then
        SetState stSendAckWait ;;
        let* q := NextSeq in
        let* stopped := ask (EngineSendStop mceT38 false q) in
        if stopped : bool then mret []
        else let* r := gets RC_ERROR in SetState stCommand ;; mret r
      else let* r := gets RC_NO_CARRIER in SetState stCommand ;; mret r
  | cdOutgoing =>
      let* b := RecvStart dtHdlc 3 in
      if b : bool then mret [] else gets RC_ERROR
  | cdUndefined => let* r := gets RC_NO_CARRIER in SetState stCommand ;; mret r
  end.

Definition on_send_ack : M (list Z) :=
  let* s := getM in
  match dataType s with
  | dtCed =>
      let* r := SendStart_ dtHdlc 3 in
      match r with Some resp => mret resp | None => gets RC_ERROR end
  | dtSilence => let* r := gets RC_OK in SetState stCommand ;; mret r
  | dtHdlc | dtRaw =>
      let* r := (if moreFrames s then let* r := gets RC_CONNECT in SetState stSend ;; mret r
                 else let* r := gets RC_OK in SetState stCommand ;; mret r) in
      ResetDleData ;;
      mret r
  | _ => mret []
  end.

Definition fail_command : M (list Z) := let* r := gets RC_ERROR in SetState stCommand ;; mret r.

(** The engine receives: the result code, and the state of it. *)
Definition recv_begun (e : mce) : M (list Z) :=
  let* s := getM in
  match ModemClassId (P s) with
  | mcAudio => let* r := gets RC_CONNECT in SetState stRecv ;; signal ;; mret r
  | mcFax =>
      let* diag := ask (EngineRecvDiag e) in
      if diag .& diagDiffSig =? 0 then
        let* r := (if bool_decide (dataType s = dtRaw) then mret []
          else
            whenM (bool_decide (dataType s = dtHdlc)) (modify (fun s => s <| fcs := FCS_new |>)) ;;
            gets RC_CONNECT) in
        SetState stRecv ;;
        signal ;;
        mret r
      else
        ask (EngineRecvStop e) ;;
        let* r := gets RC_FCERROR in
        SetState stCommand ;;
        mret r
  | mcUndefined => fail_command
  end.

Definition on_recv_beg : M (list Z) :=
  SendOnIdle dtNone ;;
  let* dt := gets dataType in
  let* resp := (if bool_decide (dt = dtSilence) then
      let* p := gets param in
      let* b := SendSilence p in
      if b : bool then mret [] else gets RC_ERROR
    else
      with_engine fail_command (fun e =>
        let* q := NextSeq in
        let* b := ask (EngineRecvStart e q) in
        if b : bool then recv_begun e else fail_command)) in
  ResetDleData ;;
  mret resp.

(** ** Receiving *)

Definition on_stream (f : pipe -> pipe) : M unit :=
  modify (fun s => s <| dleData := dleData s <| stream := f (stream (dleData s)) |> |>).

Definition dle_put (octets : list Z) : M unit := on_stream (fun p => (pipe_put p octets).2).

(** The engine has no more: the check sequence, the diagnostics and the end. *)
Definition recv_eof (e : mce) : M unit :=
  let* s := getM in
  (if is_audio s then on_stream pipe_put_eof
   else
     let* diag := ask (EngineRecvDiag e) in
     whenM (bool_decide (dataType s = dtHdlc))
       (let w := fcs_word (fcs s) in
        let hi := u8 (w .>> 8) in
        dle_put [if negb (diag .& diagErrorMask =? 0) then u8 (hi + 1) else hi; u8 w]) ;;
     on_stream (fun p => pipe_put_eof (pipe_set_diag p diag))) ;;
  ask (EngineRecvStop e) ;;
  let* s := getM in
  whenM ((dataCount s =? 0) && is_fax s)
    (modify (fun s => s <| dleData := (GetDleData (dleData s) 1024).2 |>)).

(** The first octets of +FRM: the delay and CONNECT. *)
Definition raw_connect (bresp : list Z) : M (list Z) :=
  let* s := getM in
  if negb (dataCount s =? 0) then mret bresp
  else
    let dms := get_reg rDelayFrmConnect (P s) in
    whenM (negb (dms =? 0)) (ask (Sleep (dms * 10))) ;;
    let* pref := gets RC_PREF in
    let* r := gets RC_CONNECT in
    mret (bresp ++ pref ++ r).

Definition recv_fax (octets bresp : list Z) : M (Z * list Z) :=
  dle_put octets ;;
  let* dt := gets dataType in
  let* bresp := (match dt with
    | dtHdlc => modify (fun s => s <| fcs := build (fcs s) octets |>) ;; mret bresp
    | dtRaw => raw_connect bresp
    | _ => mret bresp
    end) in
  modify (fun s => s <| dataCount := dataCount s + zlen octets |>) ;;
  mret (zlen octets, bresp).

(** The 16-bit samples of the engine's octets, which are little-endian. *)
Fixpoint to_samples (l : list Z) : list Z :=
  match l with
  | lo :: hi :: l => s16 (lo + 256 * hi) :: to_samples l
  | _ => []
  end.

Definition octets_of (vcml : Z) (samples : list Z) : option (list Z) :=
  if vcml =? 0 then Some (map (fun x => u8 (Z.quot x 256)) samples)
  else if bool_decide (vcml ∈ [1; 128; 130]) then Some (map (fun x => u8 (Z.quot (x + 0x8000) 256)) samples)
  else if bool_decide (vcml ∈ [4; 131]) then Some (map (fun x => u8 (linear2ulaw x)) samples)
  else if bool_decide (vcml ∈ [5; 132]) then Some (map (fun x => u8 (linear2alaw x)) samples)
  else None.

Definition recv_voice (octets : list Z) : M Z :=
  let* vcml := gets (fun s => get_reg rVcml (P s)) in
  let out := default [] (octets_of vcml (to_samples octets)) in
  dle_put out ;;
  modify (fun s => s <| dataCount := dataCount s + zlen out |>) ;;
  mret (zlen out).

(** One turn of the loop on the engine's data: [inr] with the last count. *)
Definition recv_turn (bresp : list Z) : M (list Z + Z * list Z) :=
  let* e := gets currentClassEngine in
  match e with
  | None =>
      let* s := getM in
      whenM (negb (is_audio s)) (on_stream (fun p => pipe_set_diag p diagError)) ;;
      on_stream pipe_put_eof ;;
      mret (inr (-1, bresp))
  | Some e =>
      let* r := ask (EngineRecv e 1024) in
      let '(count, octets) := (r : Z * list Z) in
      if count =? -1 then recv_eof e ;; mret (inr (-1, bresp))
      else if count =? 0 then mret (inr (0, bresp))
      else
        let* s := getM in
        let* r := (if is_fax s then recv_fax octets bresp
                   else let* n := recv_voice octets in mret (n, bresp)) in
        let '(count, bresp) := (r : Z * list Z) in
        mret (if count <=? 0 then inr (count, bresp) else inl bresp)
  end.

(** The result code when the last octet is out. *)
Definition recv_result : M (list Z) :=
  let* s := getM in
  if is_audio s then gets RC_OK
  else if bool_decide (dataType s = dtHdlc) then
    let diag := p_diag (stream (dleData s)) in
    if diag =? 0 then gets RC_OK
    else if (dataCount s =? 0) && (diag .& diagErrorMask =? 0) then gets RC_NO_CARRIER
    else gets RC_ERROR
  else gets RC_NO_CARRIER.

Definition shield_turn (bresp : list Z) : M (list Z + list Z * list Z) :=
  let* d := gets dleData in
  let '(count, out, d) := GetDleData d 1024 in
  modify (fun s => s <| dleData := d |>) ;;
  if count =? -1 then
    SetState stCommand ;;
    let* r := recv_result in
    mret (inr (bresp, r))
  else if count =? 0 then mret (inr (bresp, []))
  else mret (inl (bresp ++ out)).

Definition on_recv (bresp : list Z) : M (list Z * list Z) :=
  let* r := loop recv_turn bresp in
  let '(count, bresp) := (r : Z * list Z) in
  let* s := getM in
  let bresp := if is_audio s && (count <? 0) then bresp ++ [DLE; chr "b"] else bresp in
  loop shield_turn bresp.

(** ** The handlers *)

(** The switch on the state; [resp] is kept when there is no other. *)
Definition state_turn (bresp resp : list Z) : M (list Z * list Z) :=
  let keep r := if bool_decide (r = []) then resp else r in
  let* st := gets state in
  match st with
  | stDial => let* r := on_dial in mret (bresp, keep r)
  | stSendBufEmptyHandle => stop_sending ;; mret (bresp, resp)
  | stConnectHandle => let* r := on_connect bresp in mret (r.1, keep r.2)
  | stReqModeAckHandle => let* r := on_req_mode_ack in mret (bresp, keep r)
  | stSendAckHandle => let* r := on_send_ack in mret (bresp, keep r)
  | stRecvBegHandle => let* r := on_recv_beg in mret (bresp, keep r)
  | stRecv => let* r := on_recv bresp in mret (r.1, keep r.2)
  | _ => mret (bresp, resp)
  end.

Definition CheckState (bresp : list Z) : M (list Z) := locked (
  let* line := gets cmd in
  let* r := (if bool_decide (line = []) then
      let* bresp := poll_busy bresp in poll_ring bresp
    else mret (bresp, [])) in
  let '(bresp, resp) := (r : list Z * list Z) in
  let* resp := poll_timeout resp in
  let* bresp := poll_input mceAudio bresp in
  let* bresp := poll_input mceT38 bresp in
  let* resp := poll_release resp in
  let* r := state_turn bresp resp in
  let '(bresp, resp) := (r : list Z * list Z) in
  if bool_decide (resp = []) then mret bresp
  else let* pref := gets RC_PREF in mret (bresp ++ pref ++ resp)).

(** Which of an engine's streams may run without its owner. *)
Definition fakes (e : mce) (s : modem) : bool * bool :=
  if bool_decide (currentClassEngine s = Some e) then
    match state s with
    | stSend | stSendBufEmptyHandle | stSendAckWait => (false, pget e (enableFakeOut s))
    | stRecvBegWait | stRecvBegHandle | stRecv => (pget e (enableFakeIn s), false)
    | _ => (false, false)
    end
  else (false, false).

Definition post_engine (e : mce) : M unit :=
  let* s := getM in
  whenM (active e s)
    (ask (AddReference e) ;;
     ask (EnableFake e (fakes e s).1 (fakes e s).2) ;;
     ask (DelPointer e)).

Definition CheckStatePost : M unit := locked (
  let* h := gets off_hook in
  whenM h (for_engines post_engine) ;;
  let* st := gets state in
  whenM (bool_decide (st = stCommand)) (SendOnIdle dtNone)).

(** ** The thread (ModemEngine::Main) *)

(** The data there is, while the engine's buffer has room; [true]: stopped. *)
Definition main_input (bresp : list Z) : M (bool * list Z) :=
  loop (fun bresp =>
    let* full := isOutBufFull in
    if full : bool then mret (inr (false, bresp))
    else
      let* buf := ask FromInPtyQ in
      match (buf : option (list Z)) with
      | None => mret (inr (false, bresp))
      | Some buf =>
          let* bresp := HandleData buf bresp in
          let* stop := ask Stopped in
          mret (if stop : bool then inr (true, bresp) else inl bresp)
      end) bresp.

(** One turn; [true]: stopped. *)
Definition main_turn : M bool :=
  let* stop := ask Stopped in
  if stop : bool then mret true
  else
    let* bresp := CheckState [] in
    let* stop := ask Stopped in
    if stop : bool then mret true
    else
      let* r := main_input bresp in
      let '(stop, bresp) := (r : bool * list Z) in
      let* stop := (if stop then mret true else ask Stopped : M bool) in
      if stop : bool then mret true
      else
        whenM (negb (bool_decide (bresp = []))) (ask (ToPtyQ bresp)) ;;
        let* stop := ask Stopped in
        if stop : bool then mret true
        else
          CheckStatePost ;;
          let* stop := ask Stopped in
          if stop : bool then mret true else ask WaitDataReady ;; mret false.

Definition Main : M unit :=
  loop (fun _ : unit => let* stop := main_turn in mret (if stop : bool then inr tt else inl tt)) tt ;;
  OnParentStop.
