(* ===== verification/ModemSpec.v ===== *)
(** * What the modem's calls promise (the table of enum CallState, src/t38modem/pmodeme.cxx)

    The comment at [CallState] is a table of the transitions of a call, by the
    command that is sent or received and by the state of the hook; [call_step] is
    that table.  [good] is what the shared state of the modem keeps at every point
    where the mutex is free, and [wp] is the proof rule for a handler among others:
    at such a point the state may be replaced by another good one. *)
From stdpp Require Import strings gmap.
From S2P Require Import Prelude EngineBase Profile AtText ModemBase ModemCheck.

(** ** The table *)

Abbreviation view := (bool * CallState)%type.
Definition view_of (s : modem) : view := (off_hook s, callState s).

(** A call that there is, and that is not being released. *)
Definition in_progress (c : CallState) : Prop := c <> cstCleared /\ c <> cstReleasing.

(** The transitions: the hook is the first component.  An on-hook line clears its call
    by way of [cstReleasing], while the endpoint is told. *)
Inductive call_step : view -> view -> Prop :=
  | step_none v : call_step v v
  | step_hook h c : call_step (h, c) (negb h, c)
  | sent_dial : call_step (true, cstCleared) (true, cstDialing)
  | sent_answer : call_step (true, cstCalled) (true, cstAnswering)
  | clear_off_hook c : in_progress c -> call_step (true, c) (true, cstReleasing)
  | clear_on_hook c : in_progress c -> call_step (false, c) (false, cstReleasing)
  | cleared_on_hook : call_step (false, cstReleasing) (false, cstCleared)
  | received_call : call_step (false, cstCleared) (false, cstCalled)
  | received_alerting : call_step (true, cstDialing) (true, cstAlerted)
  | received_established c : c = cstDialing \/ c = cstAlerted \/ c = cstAnswering ->
      call_step (true, c) (true, cstEstablished)
  | received_clear_next : call_step (true, cstDialing) (true, cstCleared).

(** ** The shared state *)

(** The engine that [currentClassEngine] points to. *)
Definition class_engine (s : modem) : option mce :=
  match ModemClassId (P s) with
  | mcAudio => engine_ptr mceAudio s
  | mcFax => engine_ptr mceT38 s
  | mcUndefined => None
  end.

(** [debts]: how many handlers are on the way to clear the call of a line that they
    have put on-hook. *)
Record good (debts : nat) (s : modem) : Prop := {
  good_lock : 0 <= lockReleasingState s;
  good_locked : 0 < lockReleasingState s -> callState s = cstReleasing;
  good_release : callState s = cstReleasing -> off_hook s = false ->
    0 < lockReleasingState s \/ (0 < debts)%nat;
  good_engine : currentClassEngine s = class_engine s;
  good_hook : connecting (state s) = true -> off_hook s = true;
}.

(** What [good] is about, besides the counters. *)
Definition same_core (s s' : modem) : Prop :=
  lockReleasingState s' = lockReleasingState s /\ callState s' = callState s /\
  off_hook s' = off_hook s /\ currentClassEngine s' = currentClassEngine s /\
  class_engine s' = class_engine s.

(** ** The rule *)

(** [others]: how many of the releases that are under way are other handlers';
    [debts]: the others' debts; [s0]: the state at the last call. *)
Fixpoint wp {A} (others : Z) (debts : nat) (s0 : modem) (p : prog A)
    (Q : Z -> nat -> modem -> A -> modem -> Prop) : Prop :=
  match p with
  | Done a s => Q others debts s0 a s
  | Fault => False
  | Spin => True
  | Vis c s k =>
      call_step (view_of s0) (view_of s) /\
      if releases c then
        exists own, good (debts + own) s /\ others <= lockReleasingState s /\
        forall x s' others' debts', good (debts' + own) s' -> 0 <= others' ->
          lockReleasingState s' - others' = lockReleasingState s - others ->
          wp others' debts' s' (k x s') Q
      else forall x, wp others debts s (k x s) Q
  end.

Lemma wp_mono {A} others debts s0 (p : prog A) (Q Q' : _ -> _ -> _ -> _ -> _ -> Prop) :
  wp others debts s0 p Q -> (forall o d s0 a s, Q o d s0 a s -> Q' o d s0 a s) ->
  wp others debts s0 p Q'.
Proof.
  intros H HQ. revert others debts s0 H.
  induction p as [a s| | |c s k IH]; intros others debts s0 H; simpl in *; auto.
  destruct H as [Hs H]. split; [done|]. destruct (releases c).
  - destruct H as (own & Hg & Hl & H). exists own. split_and!; auto.
  - intros x. by apply IH.
Qed.

(** A release of the handler's own counts as another's in a part of it. *)
Lemma wp_shift {A} others debts s0 (p : prog A) (Q : _ -> _ -> _ -> _ -> _ -> Prop) :
  0 <= others ->
  wp (others + 1) debts s0 p (fun o d s0 a s => 0 <= o - 1 -> Q (o - 1) d s0 a s) ->
  wp others debts s0 p Q.
Proof.
  revert others debts s0. induction p as [a s| | |c s k IH]; intros others debts s0 Ho H; simpl in *; auto.
  - replace (others + 1 - 1) with others in H by lia. auto.
  - destruct H as [Hs H]. split; [done|]. destruct (releases c).
    + destruct H as (own & Hg & Hl & H). exists own. split_and!; [done|lia|].
      intros x s' o' d' Hg' Ho' E. apply IH, H; [done|done|lia|lia].
    + intros x. by apply IH.
Qed.

Lemma wp_bind {A B} others debts s0 (p : prog A) (f : A -> modem -> prog B) Q :
  wp others debts s0 p (fun o d s0 a s => wp o d s0 (f a s) Q) ->
  wp others debts s0 (bind_prog p f) Q.
Proof.
  revert others debts s0. induction p as [a s| | |c s k IH]; intros others debts s0 H; simpl in *; auto.
  destruct H as [Hs H]. split; [done|]. destruct (releases c).
  - destruct H as (own & Hg & Hl & H). exists own. split_and!; auto.
  - intros x. by apply IH.
Qed.

(** The next call is made in the state as it is: what has changed since the last one
    is seen in it. *)
Definition calls_first {A} (s : modem) (p : prog A) : Prop := exists c k, p = Vis c s k.

Lemma wp_seen {A} o d s0 s (p : prog A) Q :
  calls_first s p -> call_step (view_of s0) (view_of s) -> wp o d s p Q -> wp o d s0 p Q.
Proof. intros (c & k & ->) Hs [_ H]. by split. Qed.

Lemma wp_getM {A} o d s0 (f : modem -> M A) s Q :
  wp o d s0 (f s s) Q -> wp o d s0 (bind_first getM f s) Q.
Proof. done. Qed.

Lemma wp_gets {A B} o d s0 (g : modem -> A) (f : A -> M B) s Q :
  wp o d s0 (f (g s) s) Q -> wp o d s0 (bind_first (gets g) f s) Q.
Proof. done. Qed.

Lemma wp_modify {A} o d s0 g (f : unit -> M A) s Q :
  wp o d s0 (f tt (g s)) Q -> wp o d s0 (mbind f (modify g) s) Q.
Proof. done. Qed.

Lemma wp_when o d s0 b m s (Q : _ -> _ -> _ -> _ -> _ -> Prop) :
  (b = true -> wp o d s0 (m s) Q) -> (b = false -> Q o d s0 tt s) -> wp o d s0 (whenM b m s) Q.
Proof. destruct b; simpl; auto. Qed.

(** ** Handlers that are safe anywhere *)

(** Between two parts of a handler: its last change of the call has been seen, and it
    owes [own] clearings. *)
Record clean (own : nat) (others : Z) (debts : nat) (s0 s : modem) : Prop := {
  clean_good : good (debts + own) s;
  clean_lock : lockReleasingState s = others;
  clean_view : view_of s = view_of s0;
}.

Definition safe {A} (m : M A) : Prop := forall own o d s0 s,
  clean own o d s0 s -> wp o d s0 (m s) (fun o d s0 _ s => clean own o d s0 s).

Lemma call_step_same s s' : view_of s' = view_of s -> call_step (view_of s) (view_of s').
Proof. intros ->. constructor. Qed.

Lemma safe_ret {A} (a : A) : safe (mret a).
Proof. by intros own o d s0 s H. Qed.

Lemma safe_bind {A B} (m : M A) (f : A -> M B) :
  safe m -> (forall a, safe (f a)) -> safe (mbind f m).
Proof.
  intros Hm Hf own o d s0 s H. apply wp_bind. eapply wp_mono; [by apply Hm|].
  intros o' d' s0' a s' H'. by apply Hf.
Qed.

Lemma safe_first {A B} (m : M A) (f : A -> M B) :
  safe m -> (forall a, safe (f a)) -> safe (bind_first m f).
Proof. apply safe_bind. Qed.

Lemma safe_ask c : safe (ask c).
Proof.
  intros own o d s0 s [Hg Hl Hv]. simpl. split; [by apply call_step_same|].
  destruct (releases c).
  - exists own. split_and!; [done|lia|].
    intros x s' o' d' Hg' Ho' E. split; [done|lia|done].
  - intros x. by split.
Qed.

Lemma safe_gets {A} (f : modem -> A) : safe (gets f).
Proof. by intros own o d s0 s H. Qed.

Lemma safe_getM : safe getM.
Proof. by intros own o d s0 s H. Qed.

Lemma safe_spin {A} : safe (@spin A).
Proof. by intros own o d s0 s H. Qed.

Lemma safe_when b m : safe m -> safe (whenM b m).
Proof. intros H. destruct b; [done|apply safe_ret]. Qed.

Lemma safe_locked {A} (m : M A) : safe m -> safe (locked m).
Proof. intros H. apply safe_bind; [apply safe_ask|done]. Qed.

Lemma good_same_core d s s' : good d s -> same_core s s' ->
  (connecting (state s') = true -> off_hook s = true) -> good d s'.
Proof.
  intros [Hl Hk Hr He Hh] (El & Ec & Eh & Ee & Eclass) Hst.
  split; rewrite ?El, ?Ec, ?Eh, ?Ee, ?Eclass; auto.
Qed.

Lemma good_debts d d' s : (d <= d')%nat -> good d s -> good d' s.
Proof.
  intros Hd [Hl Hk Hr He Hh]. split; auto. intros Hc Ho. destruct (Hr Hc Ho); [by left|right; lia].
Qed.

(** A change of the other members. *)
Lemma safe_modify f :
  (forall s, same_core s (f s)) -> (forall s, state (f s) = state s) -> safe (modify f).
Proof.
  intros Hc Hst own o d s0 s [Hg Hl Hv]. simpl. pose proof (Hc s) as (El & Ec & Eh & _).
  split.
  - eapply good_same_core; [done..|]. rewrite Hst. by apply Hg.
  - by rewrite El.
  - unfold view_of in *. by rewrite Ec, Eh.
Qed.

Lemma safe_turns {A B} (body : A -> M (A + B)) : (forall a, safe (body a)) ->
  forall n a, safe (turns n body a).
Proof.
  intros H n. induction n as [|n IH]; intros a; simpl; [apply safe_spin|].
  apply safe_first; [done|]. intros [a'|b]; [apply IH|apply safe_ret].
Qed.

Lemma safe_loop {A B} (body : A -> M (A + B)) a : (forall a, safe (body a)) -> safe (loop body a).
Proof. intros H. apply safe_first; [apply safe_ask|]. intros n. by apply safe_turns. Qed.

(** ** Handlers with a condition *)

(** [Inv] is what holds between the parts of a handler: [clean], or less while it
    keeps the mutex. *)
Definition hoare (Inv : nat -> Z -> nat -> modem -> modem -> Prop) {A} (Pre : modem -> Prop) (m : M A)
    (Post : A -> modem -> Prop) : Prop :=
  forall own o d s0 s, Inv own o d s0 s -> Pre s ->
    wp o d s0 (m s) (fun o d s0 a s => Inv own o d s0 s /\ Post a s).
Abbreviation triple := (hoare clean).

Section Hoare.
Context (Inv : nat -> Z -> nat -> modem -> modem -> Prop).

Lemma hoare_weaken {A} (Pre Pre' : modem -> Prop) (m : M A) (Post Post' : A -> modem -> Prop) :
  hoare Inv Pre m Post -> (forall s, Pre' s -> Pre s) -> (forall a s, Post a s -> Post' a s) ->
  hoare Inv Pre' m Post'.
Proof.
  intros H Hp Hq own o d s0 s Hc Hs. eapply wp_mono; [by apply H; auto|].
  intros ????? [? ?]. auto.
Qed.

Lemma hoare_bind {A B} Pre (m : M A) Mid (f : A -> M B) Post :
  hoare Inv Pre m Mid -> (forall a, hoare Inv (Mid a) (f a) Post) -> hoare Inv Pre (mbind f m) Post.
Proof.
  intros Hm Hf own o d s0 s Hc Hp. apply wp_bind. eapply wp_mono; [by apply Hm|].
  intros o' d' s0' a s' [Hc' Hm']. by apply Hf.
Qed.

Lemma hoare_first {A B} Pre (m : M A) Mid (f : A -> M B) Post :
  hoare Inv Pre m Mid -> (forall a, hoare Inv (Mid a) (f a) Post) -> hoare Inv Pre (bind_first m f) Post.
Proof. apply hoare_bind. Qed.

Lemma hoare_ret {A} (a : A) Pre (Post : A -> modem -> Prop) :
  (forall s, Pre s -> Post a s) -> hoare Inv Pre (mret a) Post.
Proof. intros H own o d s0 s Hc Hp. split; [done|auto]. Qed.

(** Reading the state: the rest is proved for the state that is read. *)
Lemma hoare_gets {A B} (g : modem -> A) (f : A -> M B) Pre Post :
  (forall s, Pre s -> hoare Inv (eq s) (f (g s)) Post) -> hoare Inv Pre (bind_first (gets g) f) Post.
Proof. intros H own o d s0 s Hc Hp. by apply (H s). Qed.

Lemma hoare_read {A} (f : modem -> M A) Pre Post :
  (forall s, Pre s -> hoare Inv (eq s) (f s) Post) -> hoare Inv Pre (bind_first getM f) Post.
Proof. intros H own o d s0 s Hc Hp. by apply (H s). Qed.

Lemma hoare_when b m (Pre : modem -> Prop) (Post : unit -> modem -> Prop) :
  (b = true -> hoare Inv Pre m Post) -> (b = false -> forall s, Pre s -> Post tt s) ->
  hoare Inv Pre (whenM b m) Post.
Proof. intros Ht Hf. destruct b; [auto|]. apply hoare_ret. auto. Qed.

Lemma hoare_turns {A B} (I : A -> modem -> Prop) (body : A -> M (A + B)) Post :
  (forall a, hoare Inv (I a) (body a) (fun r s => match r with inl a => I a s | inr b => Post b s end)) ->
  forall n a, hoare Inv (I a) (turns n body a) Post.
Proof.
  intros H n. induction n as [|n IH]; intros a; simpl; [by intros own o d s0 s _ _|].
  eapply hoare_first; [by apply H|]. intros [a'|b]; [apply IH|by apply hoare_ret].
Qed.

Lemma hoare_loop {A B} (I : A -> modem -> Prop) (body : A -> M (A + B)) Post a :
  hoare Inv (I a) (ask Turns) (fun _ => I a) ->
  (forall a, hoare Inv (I a) (body a) (fun r s => match r with inl a => I a s | inr b => Post b s end)) ->
  hoare Inv (I a) (loop body a) Post.
Proof. intros Ht H. apply (hoare_first _ _ (fun _ => I a)); [done|]. intros n. by apply hoare_turns. Qed.
End Hoare.

Lemma safe_triple {A} (m : M A) : safe m -> triple (fun _ => True) m (fun _ _ => True).
Proof.
  intros H own o d s0 s Hc _. eapply wp_mono; [by apply H|]. by intros.
Qed.

Lemma triple_safe {A} (m : M A) Post : triple (fun _ => True) m Post -> safe m.
Proof.
  intros H own o d s0 s Hc. eapply wp_mono; [by apply H|]. by intros ????? [? _].
Qed.

(** A safe handler under a condition that is not needed any more. *)
Lemma triple_any {A} Pre (m : M A) : safe m -> triple Pre m (fun _ _ => True).
Proof. intros H. eapply hoare_weaken; [by apply safe_triple|done|done]. Qed.

Lemma triple_ask c (Pre : modem -> Prop) : releases c = false -> triple Pre (ask c) (fun _ => Pre).
Proof.
  intros Hr own o d s0 s [Hg Hl Hv] Hp. simpl. split; [by apply call_step_same|].
  rewrite Hr. intros x. by split.
Qed.

Lemma triple_modify f (Pre Post : modem -> Prop) :
  (forall s, Pre s -> same_core s (f s) /\
     (connecting (state (f s)) = true -> connecting (state s) = true \/ off_hook s = true) /\ Post (f s)) ->
  triple Pre (modify f) (fun _ => Post).
Proof.
  intros H own o d s0 s [Hg Hl Hv] Hp. simpl. destruct (H s Hp) as (Hc & Hst & Hq).
  split; [|done]. pose proof Hc as (El & Ec & Eh & _). split.
  - eapply good_same_core; [done..|]. intros E. destruct (Hst E) as [|]; [by apply Hg|done].
  - by rewrite El.
  - unfold view_of in *. by rewrite Ec, Eh.
Qed.

(** ** The parts of all handlers *)

Ltac same_core_tac := intros ?; repeat split; reflexivity.

Lemma safe_trace : safe trace_state.
Proof. apply safe_ask. Qed.
Lemma safe_signal : safe signal.
Proof. apply safe_ask. Qed.

Lemma safe_timer_start t p : safe (timer_start t p).
Proof. apply safe_modify; destruct t; same_core_tac || done. Qed.
Lemma safe_timer_stop t : safe (timer_stop t).
Proof. apply safe_modify; destruct t; same_core_tac || done. Qed.

Lemma safe_timer_get t : safe (timer_get t).
Proof.
  apply safe_first; [apply safe_ask|]. intros fired. apply safe_first; [apply safe_getM|]. intros s.
  cbv zeta. destruct (timeout_get (if fired then OnTimeout (tget t s) else tget t s)) as [b x].
  apply safe_bind; [|intros; apply safe_ret].
  apply safe_modify; destruct t; same_core_tac || done.
Qed.

Lemma safe_SetState_sub st n : connecting st = false -> safe (SetState_sub st n).
Proof.
  intros Hst. apply safe_first; [apply safe_getM|]. intros s. apply safe_when.
  apply safe_bind; [|intros; apply safe_trace].
  apply (triple_safe _ (fun _ _ => True)), triple_modify. intros s' _. split; [by repeat split|].
  split; [|exact I]. cbn. by rewrite Hst.
Qed.

Lemma safe_SetState st : connecting st = false -> safe (SetState st).
Proof. apply safe_SetState_sub. Qed.

Lemma safe_SetSubState n : safe (SetSubState n).
Proof.
  apply safe_first; [apply safe_getM|]. intros s. apply safe_when.
  apply safe_bind; [|intros; apply safe_trace]. apply safe_modify; [same_core_tac|done].
Qed.

Lemma safe_SetCallSubState n : safe (SetCallSubState n).
Proof.
  apply safe_first; [apply safe_getM|]. intros s. apply safe_when.
  apply safe_bind; [|intros; apply safe_trace]. apply safe_modify; [same_core_tac|done].
Qed.

Lemma safe_NextSeq : safe NextSeq.
Proof. apply safe_bind; [apply safe_modify; [same_core_tac|done]|intros; apply safe_gets]. Qed.

Lemma safe_ResetDleData : safe ResetDleData.
Proof. apply safe_modify; [same_core_tac|done]. Qed.

Lemma safe_SetBitRevDleData : safe SetBitRevDleData.
Proof.
  apply safe_first; [apply safe_gets|]. intros [| |]; try apply safe_ret;
    (apply safe_bind; [apply safe_modify; [same_core_tac|done]|intros; apply safe_ret]).
Qed.

Lemma safe_for_engines f : (forall e, safe (f e)) -> safe (for_engines f).
Proof. intros H. by apply safe_bind. Qed.

Create HintDb safe.
#[export] Hint Resolve safe_ret safe_ask safe_gets safe_getM safe_spin safe_trace safe_signal
  safe_timer_start safe_timer_stop safe_timer_get safe_SetSubState safe_SetCallSubState safe_NextSeq
  safe_ResetDleData safe_SetBitRevDleData : safe.

(** [safe_tac]: the parts of a handler one by one, each branch of its tests. *)
Ltac safe_step :=
  match goal with
  | |- safe (ask ?c) => apply (safe_ask c)
  | |- safe (bind_first _ _) => apply safe_first; [|intros ?]
  | |- safe (mbind _ _) => apply safe_bind; [|intros ?]
  | |- safe (locked _) => apply safe_locked
  | |- safe (whenM _ _) => apply safe_when
  | |- safe (for_engines _) => apply safe_for_engines; intros ?
  | |- safe (loop _ _) => apply safe_loop; intros ?
  | |- safe (SetState _) => solve [apply safe_SetState; reflexivity]
  | |- safe (SetState_sub _ _) => solve [apply safe_SetState_sub; reflexivity]
  | |- safe (modify _) => solve [apply safe_modify; [same_core_tac|done]]
  | |- safe _ => solve [eauto with safe]
  | |- safe (match ?x with _ => _ end) => destruct x
  | |- safe (let _ := _ in _) => progress cbv zeta
  end.
Ltac safe_tac := repeat (safe_step || cbv beta).
