(* ===== verification/ModemSafe.v ===== *)
(** * The handlers of calls keep the table (src/t38modem/pmodeme.cxx)

    Attaching and detaching the engines, clearing, the hook, the requests of the
    endpoint and the answer, each against the rule of [ModemSpec]. *)
From stdpp Require Import strings gmap.
From S2P Require Import Prelude EngineBase Profile AtText ModemBase ModemCalls ModemCheck ModemSpec.

(** ** Engines *)

(** The state between two parts, but for [currentClassEngine]. *)
Record loose (own : nat) (o : Z) (d : nat) (s0 s : modem) : Prop := {
  loose_lock : lockReleasingState s = o;
  loose_nonneg : 0 <= lockReleasingState s;
  loose_locked : 0 < lockReleasingState s -> callState s = cstReleasing;
  loose_release : callState s = cstReleasing -> off_hook s = false -> 
    0 < lockReleasingState s \/ (0 < d + own)%nat;
  loose_hook : connecting (state s) = true -> off_hook s = true;
  loose_view : view_of s = view_of s0;
}.

Lemma clean_loose own o d s0 s : clean own o d s0 s <-> loose own o d s0 s /\ currentClassEngine s = class_engine s.
Proof.
  split.
  - intros [[] ? ?]. split; [split|]; done.
  - intros [[] ?]. split; [split|..]; done.
Qed.

(** A handler that may leave [currentClassEngine] behind: no release in it. *)
Abbreviation inside := (hoare loose).

(** The members that these handlers agree on. *)
Definition agrees (s : modem) : Prop := currentClassEngine s = class_engine s.

Lemma inside_triple {A} (m : M A) Pre Post :
  inside (fun s => Pre s /\ agrees s) m (fun a s => Post a s /\ agrees s) -> triple Pre m Post.
Proof.
  intros H own o d s0 s Hc Hp. apply clean_loose in Hc as [Hl Ha].
  eapply wp_mono; [by apply H|]. intros ????? [? [? ?]]. split; [by apply clean_loose|done].
Qed.

Lemma inside_is_safe {A} (m : M A) : inside agrees m (fun _ => agrees) -> safe m.
Proof.
  intros H. apply (triple_safe _ (fun _ _ => True)), inside_triple.
  eapply hoare_weaken; [by apply H|by intros s [_ ?]|done].
Qed.

Lemma inside_ask c (Pre : modem -> Prop) : releases c = false -> inside Pre (ask c) (fun _ => Pre).
Proof.
  intros Hr own o d s0 s Hl Hp. simpl. split; [by apply call_step_same, Hl|].
  rewrite Hr. intros x. split; [|done]. destruct Hl. by split.
Qed.

Lemma inside_modify f (Pre Post : modem -> Prop) :
  (forall s, Pre s -> lockReleasingState (f s) = lockReleasingState s /\ view_of (f s) = view_of s /\
     (connecting (state (f s)) = true -> connecting (state s) = true \/ off_hook s = true) /\ Post (f s)) ->
  inside Pre (modify f) (fun _ => Post).
Proof.
  intros H own o d s0 s [Hl Hn Hk Hr Hh Hv] Hp. simpl. destruct (H s Hp) as (El & Ev & Hst & Hq).
  assert (off_hook (f s) = off_hook s) as Eh by (unfold view_of in Ev; congruence).
  assert (callState (f s) = callState s) as Ec by (unfold view_of in Ev; congruence).
  split; [|done]. split; rewrite ?El, ?Eh, ?Ec; auto.
  - intros E. destruct (Hst E); auto.
  - congruence.
Qed.

Lemma triple_inside {A} (m : M A) Pre Post :
  triple Pre m Post -> inside (fun s => Pre s /\ agrees s) m (fun a s => Post a s /\ agrees s).
Proof.
  intros H own o d s0 s Hl [Hp Ha]. eapply wp_mono; [apply H; [by apply clean_loose|done]|].
  intros ????? [Hc ?]. apply clean_loose in Hc as [? ?]. done.
Qed.

Lemma inside_safe {A} (m : M A) : safe m -> inside agrees m (fun _ => agrees).
Proof.
  intros H. apply (hoare_weaken _ _ _ _ _ _ (triple_inside _ _ _ (safe_triple _ H))); [done|].
  by intros a s [_ ?].
Qed.

(** Entering a state of a connection: from another, or off-hook. *)
Lemma triple_SetState_sub st n Pre :
  (forall s, Pre s -> connecting (state s) = true \/ off_hook s = true) ->
  triple Pre (SetState_sub st n) (fun _ _ => True).
Proof.
  intros H. apply hoare_read. intros s Hs.
  apply hoare_when; [|done]. intros ?.
  apply (hoare_bind _ _ _ (fun _ _ => True)); [|intros; apply triple_any; auto with safe].
  apply triple_modify. intros s' <-. split; [by repeat split|]. split; [|done]. intros _. by apply H.
Qed.

Definition offhook (s : modem) : Prop := off_hook s = true.

Lemma offhook_SetState_sub st n : triple offhook (SetState_sub st n) (fun _ => offhook).
Proof.
  apply hoare_read. intros s Hs. apply hoare_when; [|by intros _ s' <-]. intros ?.
  eapply hoare_bind; [|intros; by apply triple_ask].
  apply triple_modify. intros s' <-. split; [by repeat split|]. split; [by right|done].
Qed.

Lemma offhook_modify f :
  (forall s, same_core s (f s)) -> triple offhook (modify f) (fun _ => offhook).
Proof.
  intros H. apply triple_modify. intros s Hs. pose proof (H s) as Hc. split; [done|].
  split; [by right|]. unfold offhook. by rewrite (proj1 (proj2 (proj2 Hc))).
Qed.

Lemma offhook_timer_start t p : triple offhook (timer_start t p) (fun _ => offhook).
Proof. apply offhook_modify. destruct t; same_core_tac. Qed.
Lemma offhook_timer_stop t : triple offhook (timer_stop t) (fun _ => offhook).
Proof. apply offhook_modify. destruct t; same_core_tac. Qed.
Lemma offhook_ask c : releases c = false -> triple offhook (ask c) (fun _ => offhook).
Proof. apply triple_ask. Qed.

Definition class_of (e : mce) : ModemClass := match e with mceT38 => mcFax | mceAudio => mcAudio end.

(** The engine is there, and the pointer is right or is about to be set. *)
Definition almost (e : mce) (s : modem) : Prop :=
  active e s = true /\ (ModemClassId (P s) = class_of e \/ agrees s).

Lemma set_pointer e s : almost e s ->
  inside (eq s) (whenM (bool_decide (ModemClassId (P s) = class_of e)) (modify (fun s =>
    s <| currentClassEngine := engine_ptr e s |>))) (fun _ => agrees).
Proof.
  intros [Ha Hc]. apply hoare_when.
  - intros E%bool_decide_eq_true. apply inside_modify. intros s' <-.
    split_and!; try done; [auto|]. unfold agrees, class_engine. cbn. rewrite E. by destruct e.
  - intros E%bool_decide_eq_false s' <-. by destruct Hc.
Qed.

Lemma engine_attached_agrees e : inside (almost e) (engine_attached e) (fun _ => agrees).
Proof.
  apply hoare_gets. intros s Hs. apply hoare_gets. intros s1 <-.
  eapply hoare_bind; [by apply inside_ask|]. intros ?.
  eapply hoare_bind; [by apply inside_ask|]. intros ?. destruct e.
  - eapply hoare_bind; [by apply (set_pointer mceAudio)|]. intros ?.
    apply inside_safe. safe_tac.
  - eapply hoare_bind; [by apply (set_pointer mceT38)|]. intros ?.
    eapply hoare_weaken;
      [apply (triple_inside _ (fun _ => True) (fun _ _ => True))|done|by intros _ s' [_ ?]].
    apply hoare_gets. intros s' _. apply hoare_when; [|done].
    intros E%bool_decide_eq_true.
    apply (hoare_bind _ _ _ (fun _ _ => True)).
    + apply triple_SetState_sub. intros s'' <-. left. by rewrite E.
    + intros _. apply safe_triple. safe_tac.
Qed.

Lemma class_engine_active s e b : agrees s -> ModemClassId (P s) <> class_of e ->
  agrees (s <| activeEngines := pset e b (activeEngines s) |>).
Proof. unfold agrees, class_engine, engine_ptr, active. cbn. intros -> H. destruct e, (ModemClassId (P s)); done. Qed.

Lemma safe_AttachEngine e : safe (AttachEngine e).
Proof.
  apply inside_is_safe, hoare_gets. intros s Hs. destruct (active e s) eqn:Ha; simpl.
  - eapply hoare_weaken; [by apply engine_attached_agrees| |done].
    intros s' <-. split; [done|by right].
  - apply (hoare_first _ _ _ (fun _ => eq s)); [by apply (inside_ask (NewEngine e))|].
    intros [| |]; try (by apply hoare_ret; intros s' <-).
    eapply hoare_bind; [|intros ?; apply engine_attached_agrees].
    apply inside_modify. intros s' <-. split_and!; try done; [auto|].
    split; [by destruct e|]. destruct (decide (ModemClassId (P s) = class_of e)); [by left|right].
    by apply class_engine_active.
Qed.
#[export] Hint Resolve safe_AttachEngine : safe.

Lemma safe_NewPtrEngine e : safe (NewPtrEngine e).
Proof. unfold NewPtrEngine. safe_tac. Qed.

(** Setting the modem class, or a profile with one, and telling the engines. *)
Lemma inside_OnChangeModemClass Pre : inside Pre OnChangeModemClass (fun _ => agrees).
Proof.
  assert (forall e, inside (fun _ => True) (let* a := gets (active e) in
    let* c := gets (fun s => ModemClassId (P s)) in whenM a (ask (EngineModemClass e c)))
    (fun _ _ => True)) as He.
  { intros e. apply hoare_gets. intros s _. apply hoare_gets. intros s' _.
    apply hoare_when; [|done]. intros _.
    eapply hoare_weaken; [by apply (inside_ask (EngineModemClass e _))|done|done]. }
  apply (hoare_bind _ _ _ (fun _ _ => True)).
  - eapply hoare_bind; [eapply hoare_weaken; [apply He|done|done]|]. intros ?. apply He.
  - intros _. apply inside_modify. intros s _. split_and!; try done. auto.
Qed.

(** A change of the profile that may change the class. *)
Definition profile_change (f : modem -> modem) : Prop :=
  forall s, lockReleasingState (f s) = lockReleasingState s /\ view_of (f s) = view_of s /\ state (f s) = state s.

Lemma safe_change f : profile_change f -> safe (modify f ;; OnChangeModemClass).
Proof.
  intros Hf. apply inside_is_safe. eapply hoare_bind; [|intros ?; apply inside_OnChangeModemClass].
  apply (inside_modify _ _ (fun _ => True)). intros s _. destruct (Hf s) as (? & ? & E).
  split_and!; try done. rewrite E. auto.
Qed.

Lemma safe_OnChangeModemClass : safe OnChangeModemClass.
Proof. apply inside_is_safe, inside_OnChangeModemClass. Qed.

Lemma safe_SendOnIdle dt : safe (SendOnIdle dt).
Proof. unfold SendOnIdle. safe_tac. Qed.
#[export] Hint Resolve safe_OnChangeModemClass safe_SendOnIdle : safe.


(** ** Detaching *)

(** The engine is gone, and the pointer is right unless it was that engine's. *)
Definition detached (e : mce) (s : modem) : Prop :=
  active e s = false /\ (ModemClassId (P s) <> class_of e -> agrees s).

Lemma inside_detach_loop e :
  inside agrees (detach_loop e) (fun b s => if b : bool then detached e s else agrees s).
Proof.
  apply (hoare_loop _ (fun _ => agrees)); [apply inside_safe, safe_ask|]. intros ?.
  apply (hoare_first _ _ _ (fun _ => agrees)); [apply (inside_safe (ask (TryDetach e))), safe_ask|].
  intros [|].
  - apply (hoare_bind _ _ _ (fun _ => detached e)); [|intros _; by apply hoare_ret].
    apply inside_modify. intros s Hs. split_and!; try done; [auto|]. split; [by destruct e|].
    intros Hc. by apply class_engine_active.
  - apply (hoare_bind _ _ _ (fun _ => agrees)); [apply inside_safe, safe_ask|]. intros ?.
    apply hoare_gets. intros s Hs. destruct (active e s); apply hoare_ret; by intros s' <-.
Qed.

Lemma inside_clear_pointer e :
  inside (detached e) (let* c := gets (fun s => ModemClassId (P s)) in
    whenM (bool_decide (c = match e with mceT38 => mcFax | mceAudio => mcAudio end))
      (modify (fun s => s <| currentClassEngine := None |>) ;; signal)) (fun _ => agrees).
Proof.
  apply hoare_gets. intros s [Ha Hc]. apply hoare_when.
  - intros E%bool_decide_eq_true. apply (hoare_bind _ _ _ (fun _ => agrees)).
    + apply inside_modify. intros s' <-. split_and!; try done; [auto|].
      unfold agrees, class_engine, engine_ptr. unfold active in *. cbn. rewrite E.
      destruct e; cbn in *; by rewrite Ha.
    + intros ?. apply inside_safe. auto with safe.
  - intros E%bool_decide_eq_false s' <-. apply Hc. by destruct e.
Qed.

Lemma safe_DetachEngine e : safe (DetachEngine e).
Proof.
  unfold DetachEngine. apply safe_first; [apply safe_gets|]. intros a.
  destruct (negb a); [apply safe_ret|].
  do 4 (apply safe_first || apply safe_bind; [safe_tac|intros ?]).
  destruct (_ && _); [apply safe_ret|]. apply inside_is_safe.
  eapply hoare_first; [apply inside_detach_loop|]. intros [|]; simpl.
  - apply inside_clear_pointer.
  - by apply hoare_ret.
Qed.
#[export] Hint Resolve safe_DetachEngine : safe.

(** ** Calls *)

(** A change of the call that is a step of the table, with the log telling of it. *)
Lemma triple_SetCallState c' (Pre : modem -> Prop) : c' <> cstReleasing ->
  (forall s, Pre s -> call_step (view_of s) (off_hook s, c') /\ callState s <> cstReleasing) ->
  triple Pre (SetCallState c') (fun _ s' => exists s, Pre s /\
    (s' = s \/ s' = s <| callState := c' |> <| callSubState := 0 |>) /\ callState s' = c').
Proof.
  intros Hc' H. apply hoare_read. intros s Hs. apply hoare_when.
  - intros _ own o d s0 s' [Hg Hl Hv] <-. destruct (H s Hs) as [Hstep Hc]. simpl.
    split; [rewrite <- Hv; exact Hstep|]. intros _. split; [|eauto 6].
    split; [|done|done]. destruct Hg as [? Hk ? ? ?]. split; try done. cbn. intros ?. by elim Hc; apply Hk.
  - intros E%orb_false_iff s' <-. destruct E as [E _]. apply negb_false_iff, bool_decide_eq_true in E.
    eauto 6.
Qed.

(** ** Clearing *)

Lemma safe_send_clearcall : safe send_clearcall.
Proof. unfold send_clearcall. safe_tac. Qed.

(** The rest of [begin_release], after the change of the call. *)
Definition release_rest : M unit :=
  timer_stop timerRing ;;
  modify (fun s => s <| connectionEstablished := false |> <| pPlayTone := None |>) ;;
  let* h := gets off_hook in
  whenM h (
    timer_start timerBusy 1000 ;;
    let* a := gets (active mceAudio) in
    whenM (negb a) (AttachEngine mceAudio) ;;
    modify (fun s => s <| enableFakeIn := pall true |> <| enableFakeOut := pall true |>) ;;
    let* a := gets (active mceAudio) in
    whenM a (ask (EngineRecvOnIdle mceAudio dtBusy))).

Lemma safe_release_rest : safe release_rest.
Proof. unfold release_rest. safe_tac. Qed.

Definition announce : M unit :=
  let* token := gets CallToken in
  whenM (negb (bool_decide (token = []))) send_clearcall.

Lemma safe_announce : safe announce.
Proof. unfold announce. pose proof safe_send_clearcall. safe_tac. Qed.

(** The end of [_ClearCall]. *)
Definition end_release : M unit :=
  modify (fun s => s <| lockReleasingState := lockReleasingState s - 1 |>) ;;
  let* s := getM in
  whenM ((lockReleasingState s =? 0) && negb (off_hook s)) (SetCallState cstCleared) ;;
  signal.

Lemma SetCallState_changes c s : callState s <> c ->
  SetCallState c s = Vis TraceState (s <| callState := c |> <| callSubState := 0 |>) (fun x s => Done x s).
Proof.
  intros H. unfold SetCallState, bind_first, mbind, M_bind. cbn.
  rewrite (bool_decide_eq_false_2 _ H). reflexivity.
Qed.

Lemma wp_end_release own o d s0 s : 0 <= o -> clean own (o + 1) d s0 s ->
  wp o d s0 (end_release s) (fun o d s0 _ s => clean 0 o d s0 s).
Proof.
  intros Ho [[Hl Hk Hr He Hh] El Ev]. assert (callState s = cstReleasing) as Ec by (apply Hk; lia).
  unfold end_release. apply wp_modify, wp_getM, wp_bind, wp_when; cbn;
    replace (lockReleasingState s - 1) with o by lia.
  - intros [->%Z.eqb_eq Eh%negb_true_iff]%andb_true_iff.
    rewrite SetCallState_changes by (cbn; by rewrite Ec). cbn. split.
    { rewrite <- Ev. unfold view_of. cbn. rewrite Ec, Eh. apply cleared_on_hook. }
    intros _. split; [by constructor|]. intros _. split; [|done|done].
    by split.
  - intros E. split; [apply call_step_same; by rewrite <- Ev|]. intros _. split; [|done|done].
    split; cbn; try done. intros _ Eh. left. rewrite Eh in E. destruct (Z.eqb_spec o 0); [done|lia].
Qed.

Lemma ClearCall_parts s : ClearCall s =
  (if bool_decide (callState s = cstCleared) then mret tt
   else
     modify (fun s => s <| lockReleasingState := lockReleasingState s + 1 |>) ;;
     whenM (negb (bool_decide (callState s = cstReleasing))) (SetCallState cstReleasing ;; release_rest) ;;
     announce ;;
     end_release) s.
Proof.
  unfold ClearCall, bind_first. cbv [mbind M_bind gets modify getM mret M_ret]. cbn [bind_prog].
  by destruct (bool_decide (callState s = cstCleared)).
Qed.

(** The state between two parts with a release of the handler's own under way. *)
Definition releasing (own : nat) (o : Z) (d : nat) (s0 s : modem) : Prop :=
  clean own (o + 1) d s0 s /\ 0 <= o.

Lemma wp_part {A} (m : M A) own o d s0 s : safe m -> releasing own o d s0 s ->
  wp o d s0 (m s) (fun o d s0 _ s => releasing own o d s0 s).
Proof.
  intros Hm [Hc Ho]. apply wp_shift; [done|]. eapply wp_mono; [by apply Hm|].
  intros o' d' s0' a s' H Ho'. split; [by replace (o' - 1 + 1) with o' by lia|done].
Qed.

Lemma wp_begin own o d s0 s : clean own o d s0 s -> callState s <> cstCleared ->
  wp o d s0 (whenM (negb (bool_decide (callState s = cstReleasing))) (SetCallState cstReleasing ;; release_rest)
               (s <| lockReleasingState := lockReleasingState s + 1 |>))
    (fun o d s0 _ s => releasing own o d s0 s).
Proof.
  intros [[Hl Hk Hr He Hh] El Ev] Hc. apply wp_when.
  - intros Hn%negb_true_iff%bool_decide_eq_false. apply wp_bind.
    rewrite SetCallState_changes by done. cbn. split.
    { rewrite <- Ev. unfold view_of. cbn. destruct (off_hook s); [apply clear_off_hook|apply clear_on_hook]; by split. }
    intros _. apply (wp_part release_rest); [apply safe_release_rest|].
    split; [|lia]. split; [|cbn; lia|done]. split; cbn; try done; [lia|]. intros _ _. left. lia.
  - intros E%negb_false_iff%bool_decide_eq_true. split; [|lia]. split; [|cbn; by rewrite El|done].
    split; cbn; try done; [lia|]. intros _ _. left. lia.
Qed.

(** [_ClearCall] leaves the call cleared, or a release under way that will; a handler
    that owed a clearing does not any more. *)
Lemma wp_ClearCall own o d s0 s : clean own o d s0 s ->
  wp o d s0 (ClearCall s) (fun o d s0 _ s => clean 0 o d s0 s).
Proof.
  intros Hc. rewrite ClearCall_parts. case_bool_decide as E.
  - destruct Hc as [[Hl Hk Hr He Hh] El Ev]. split; [|done|done]. split; try done. by rewrite E.
  - apply wp_modify, wp_bind.
    eapply wp_mono; [by apply (wp_begin own)|]. intros o1 d1 s1 [] s1' H1. apply wp_bind.
    eapply wp_mono; [by apply wp_part, H1; apply safe_announce|]. intros o2 d2 s2 [] s2' [H2 Ho2].
    by apply (wp_end_release own).
Qed.

Lemma clean_owes own o d s0 s : clean 0 o d s0 s -> clean own o d s0 s.
Proof. intros [Hg Hl Hv]. split; [|done|done]. eapply good_debts; [|done]. lia. Qed.

Lemma safe_ClearCall : safe ClearCall.
Proof.
  intros own o d s0 s Hc. eapply wp_mono; [by apply (wp_ClearCall own)|].
  intros ????? H. by apply clean_owes.
Qed.
#[export] Hint Resolve safe_ClearCall : safe.

(** ** The hook *)

Lemma safe_detach_all : safe detach_all.
Proof. unfold detach_all. safe_tac. Qed.

Lemma calls_first_bind {A B} s (p : prog A) (f : A -> modem -> prog B) :
  calls_first s p -> calls_first s (bind_prog p f).
Proof. intros (c & k & ->). by eexists _, _. Qed.

Lemma DetachEngine_calls e s : DetachEngine e s = Done tt s \/ calls_first s (DetachEngine e s).
Proof.
  unfold DetachEngine, bind_first. cbv [mbind M_bind gets]. cbn [bind_prog].
  destruct (active e s); [right|by left]. cbn [negb bind_prog].
  destruct (bool_decide (CallToken s = [])).
  - cbn [negb whenM andb]. cbv [mret M_ret]. cbn [bind_prog whenM andb]. cbv [mret M_ret].
    cbn [bind_prog andb]. apply calls_first_bind.
    by exists Turns, (fun n s => bind_prog (Done n s) (fun n => turns n (detach_turn e) tt)).
  - by eexists _, _.
Qed.

Lemma detach_all_calls s : calls_first s (detach_all s).
Proof.
  unfold detach_all. cbv [mbind M_bind].
  destruct (DetachEngine_calls mceT38 s) as [->|H]; [|by apply calls_first_bind]. cbn [bind_prog].
  destruct (DetachEngine_calls mceAudio s) as [->|H]; [|by apply calls_first_bind].
  by eexists _, _.
Qed.

(** Putting the line on-hook: a call that is being released is owed a clearing. *)
Lemma wp_hang_up own o d s0 s : clean own o d s0 s -> off_hook s = true ->
  wp o d s0 (hang_up s) (fun o d s0 _ s => clean (S own) o d s0 s).
Proof.
  intros [[Hl Hk Hr He Hh] El Ev] Ho.
  apply wp_modify.
  apply (wp_seen _ _ _ (go_on_hook s)); [apply detach_all_calls| |].
  - rewrite <- Ev. unfold view_of. cbn. rewrite Ho. apply (step_hook true).
  - apply safe_detach_all. split; [|done|done]. split; try done. cbn. intros _ _. right. lia.
Qed.

(** [OnHook] owes nothing at the end. *)
Lemma safe_OnHook : safe OnHook.
Proof.
  unfold OnHook. apply safe_first; [apply safe_ask|]. intros now.
  apply safe_bind; [apply safe_modify; [same_core_tac|done]|]. intros ?.
  intros own o d s0 s Hc. apply wp_gets, wp_bind, wp_when.
  - intros Ho. eapply wp_mono; [by apply (wp_hang_up own)|]. intros o1 d1 s1 [] s1' H1.
    eapply wp_mono; [by apply (wp_ClearCall (S own))|]. intros ????? H. by apply clean_owes.
  - intros _. by apply safe_ClearCall.
Qed.
#[export] Hint Resolve safe_OnHook : safe.

Lemma OffHook_spec : triple (fun _ => True) OffHook (fun _ => offhook).
Proof.
  apply hoare_gets. intros s _. destruct (off_hook s) eqn:Ho; simpl; [by apply hoare_ret; intros s' <-|].
  intros own o d s0 s' [Hg Hl Hv] <-. cbn. split.
  { rewrite <- Hv. unfold view_of. cbn. rewrite Ho. apply (step_hook false). }
  intros ?. split; [|done]. split; [|done|done]. destruct Hg. by split.
Qed.

(** ** Requests *)

(** After a condition has been used, a safe rest. *)
Ltac rest := solve [intros; apply triple_any; safe_tac].

(** [SetCallState] with the state known, and a safe rest. *)
Lemma set_call_then {A} c' s (f : unit -> M A) : c' <> cstReleasing -> callState s <> cstReleasing ->
  call_step (view_of s) (off_hook s, c') -> (forall x, safe (f x)) ->
  triple (eq s) (mbind f (SetCallState c')) (fun _ _ => True).
Proof.
  intros Hc' Hc Hs Hf. eapply hoare_bind; [|intros; apply triple_any; apply Hf].
  apply triple_SetCallState; [done|]. by intros s' <-.
Qed.

Lemma safe_request_call r : safe (request_call r).
Proof.
  apply safe_locked, (triple_safe _ (fun _ _ => True)), hoare_read. intros s _.
  case_bool_decide as Hc; simpl; [|rest]. destruct (off_hook s) eqn:Ho; [rest|].
  apply set_call_then; [done|by rewrite Hc|unfold view_of; rewrite Ho, Hc; constructor|].
  intros x. safe_tac.
Qed.

(** [SetCallState] with the line off-hook, which it stays. *)
Lemma set_call_offhook c' s : c' <> cstReleasing -> callState s <> cstReleasing ->
  call_step (view_of s) (off_hook s, c') -> offhook s ->
  triple (eq s) (SetCallState c') (fun _ => offhook).
Proof.
  intros Hc' Hc Hs Ho. eapply hoare_weaken; [apply (triple_SetCallState c' (eq s)); [done|by intros s' <-]|done|].
  intros _ s' (s1 & <- & [->| ->] & _); done.
Qed.

Lemma enter_connecting n : triple offhook (SetState_sub stConnectHandle n) (fun _ _ => True).
Proof. eapply hoare_weaken; [apply offhook_SetState_sub|done|done]. Qed.

Lemma ring_back_spec : triple offhook ring_back (fun _ _ => True).
Proof.
  unfold ring_back. eapply hoare_bind; [apply offhook_SetState_sub|]. rest.
Qed.

Lemma safe_request_alerting r : safe (request_alerting r).
Proof.
  apply safe_locked, (triple_safe _ (fun _ _ => True)), hoare_read. intros s _.
  case_bool_decide as Hc; simpl; [|rest]. destruct (off_hook s) eqn:Ho; simpl; [|rest].
  destruct (same_token s r); [|rest].
  eapply hoare_bind.
  { apply set_call_offhook; [done|by rewrite Hc|unfold view_of; rewrite Ho, Hc; constructor|done]. }
  intros ?. apply hoare_read. intros s' Hs'. destruct (_ && _ && _); [|rest].
  eapply hoare_bind; [|rest]. eapply hoare_weaken; [apply ring_back_spec|by intros ? <-|done].
Qed.

Lemma safe_request_established r : safe (request_established r).
Proof.
  apply safe_locked, (triple_safe _ (fun _ _ => True)), hoare_read. intros s _.
  destruct (negb (bool_decide (callState s = cstDialing)) && _ && _) eqn:Hc; [rest|].
  destruct (off_hook s) eqn:Ho; simpl; [|rest]. destruct (same_token s r); [|rest].
  assert (callState s = cstDialing \/ callState s = cstAlerted \/ callState s = cstAnswering) as Hcs.
  { rewrite !andb_false_iff, !negb_false_iff, !bool_decide_eq_true in Hc. tauto. }
  set (known s' := off_hook s' = true /\ callState s' = callState s).
  eapply (hoare_bind _ _ _ (fun _ => known)).
  { apply triple_modify. intros s' <-. split; [by repeat split|]. split; [by left|done]. }
  intros ?. apply hoare_gets. intros s1 [Ho1 Hc1].
  eapply (hoare_bind _ _ _ (fun _ => eq s1)).
  { apply hoare_when; [|done]. intros _. by apply triple_ask. }
  intros ?. eapply hoare_bind.
  { apply set_call_offhook; [done| |unfold view_of; rewrite Ho1, Hc1; by constructor|done].
    rewrite Hc1. by destruct Hcs as [->|[->| ->]]. }
  intros ?. apply hoare_gets. intros s2 Hs2.
  destruct (bool_decide (state s2 = stConnectWait)); [|rest].
  eapply hoare_bind; [|rest]. eapply hoare_weaken; [apply enter_connecting|by intros ? <-|done].
Qed.

Lemma clear_next_spec s r : callState s = cstDialing -> state s = stConnectWait -> off_hook s = true ->
  triple (eq s) (SetCallState cstCleared ;; SetState stDial ;;
    modify (fun s => s <| params :=
      delete "trynextcommand"%string (delete "calltoken"%string (delete "command"%string r)) |>) ;;
    signal) (fun _ _ => True).
Proof.
  intros Hc Hst Ho. eapply hoare_bind.
  { apply set_call_offhook; [done|by rewrite Hc|unfold view_of; rewrite Ho, Hc; constructor|done]. }
  intros ?. eapply hoare_bind; [apply offhook_SetState_sub|]. rest.
Qed.

(** Reading the state tells that the line is off-hook in the states of a connection. *)
Definition hooked (s : modem) : Prop := connecting (state s) = true -> off_hook s = true.

Lemma triple_read_hooked {A} (f : modem -> M A) Pre Post :
  (forall s, Pre s -> hooked s -> triple (eq s) (f s) Post) -> triple Pre (bind_first getM f) Post.
Proof. intros H own o d s0 s Hc Hp. apply (H s); [done|exact (good_hook _ _ (clean_good _ _ _ _ _ Hc))|done|done]. Qed.

Lemma safe_request_clearcall r : safe (request_clearcall r).
Proof.
  apply safe_locked, (triple_safe _ (fun _ _ => True)), triple_read_hooked. intros s _ Hh.
  destruct (_ || _); [rest|]. destruct (same_token s r); [|rest].
  destruct (bool_decide (callState s = cstDialing) && bool_decide (state s = stConnectWait) && _) eqn:E;
    [|rest].
  rewrite !andb_true_iff, !bool_decide_eq_true in E. destruct E as [[Hc Hst] _].
  apply (hoare_bind _ _ _ (fun _ => eq (s <| CallToken := [] |>))).
  { apply triple_modify. intros s' <-. split; [by repeat split|]. split; [by left|done]. }
  intros ?. eapply hoare_bind; [|rest].
  apply clear_next_spec; [done|done|]. apply Hh. by rewrite Hst.
Qed.

Lemma safe_Request r : safe (Request r).
Proof.
  unfold Request. pose proof safe_request_call. pose proof safe_request_alerting.
  pose proof safe_request_established. pose proof safe_request_clearcall.
  do 4 (case_bool_decide; [auto|]). apply safe_ret.
Qed.

(** ** Callbacks, and the answer *)

Lemma safe_OnEngineCallback extra : safe (OnEngineCallback extra).
Proof. unfold OnEngineCallback. safe_tac. Qed.

Lemma ask_answer_spec s : callState s = cstCalled -> offhook s ->
  triple (eq s) ask_answer (fun _ _ => True).
Proof.
  intros Hc Ho. eapply hoare_bind.
  { apply set_call_offhook; [done|by rewrite Hc|unfold view_of; rewrite Ho, Hc; constructor|done]. }
  intros ?. eapply hoare_bind; [apply offhook_SetState_sub|]. rest.
Qed.

Lemma safe_Answer : safe Answer.
Proof.
  apply (triple_safe _ (fun _ _ => True)). eapply hoare_bind; [apply OffHook_spec|]. intros ?.
  eapply hoare_bind; [apply offhook_timer_stop|]. intros ?.
  eapply hoare_bind; [apply offhook_modify; same_core_tac|]. intros ?.
  apply hoare_read. intros s Ho. destruct (connectionEstablished s); simpl.
  - eapply hoare_bind; [eapply hoare_weaken; [apply (offhook_timer_stop timeout)|by intros s' <-|done]|].
    intros ?. eapply hoare_bind; [apply enter_connecting|]. rest.
  - apply (hoare_first _ _ _ (fun _ _ => True)); [|rest]. case_bool_decide; [|rest].
    by apply ask_answer_spec.
Qed.
#[export] Hint Resolve safe_Request safe_OnEngineCallback safe_Answer : safe.

Lemma safe_IsReady : safe IsReady.
Proof. unfold IsReady. safe_tac. Qed.
Lemma safe_isOutBufFull : safe isOutBufFull.
Proof. unfold isOutBufFull. safe_tac. Qed.
#[export] Hint Resolve safe_IsReady safe_isOutBufFull : safe.
