(* ===== verification/AtSafe.v ===== *)
(** * Reading a command line stays in it (src/t38modem/pmodeme.cxx)

    Every AT command, on every text and among any other handlers, reads the command
    line only up to its terminator, ends, and keeps what [ModemSpec] promises; then
    the loop on the commands of a line. *)
From Stdlib Require Import Ascii String.
From stdpp Require Import strings gmap.
From S2P Require Import Prelude Dle EngineBase Profile AtText ModemBase ModemCalls AtBase AtClass AtDial AtCmd.
From S2P Require Import ModemCheck ModemSpec ModemSafe.

(** ** The rule *)

(** The cursor has only moved forward. *)
Definition forward (l l' : cmdline) : Prop :=
  (length (aft (cur l')) <= length (aft (cur l)))%nat /\ (length (bef (cur l)) <= length (bef (cur l')))%nat.

Lemma forward_refl l : forward l l.
Proof. by split. Qed.
Lemma forward_trans l1 l2 l3 : forward l1 l2 -> forward l2 l3 -> forward l1 l3.
Proof. unfold forward. lia. Qed.

Definition okC {A} (Pre : cmdline -> Prop) (m : C A) (Post : A -> cmdline -> Prop) : Prop :=
  forall l, Pre l -> triple (fun _ => True) (m l) (fun r _ => forward l r.2 /\ Post r.1 r.2).

(** In the text, [n] characters from its beginning at least. *)
Definition inb (n : nat) (l : cmdline) : Prop := past (cur l) = false /\ (n <= length (bef (cur l)))%nat.
Definition more (l : cmdline) : Prop := aft (cur l) <> [].

(** What [next] and [peek] tell with the character they return. *)
Definition after_next (c : Z) (n : nat) (l : cmdline) : Prop := c <> 0 -> inb n l.
Definition after_peek (c : Z) (n : nat) (l : cmdline) : Prop := inb n l /\ (c <> 0 -> more l).

(** The end of a command: in the text, or with an error that ends the line. *)
Definition fine {A} (_ : A) (l : cmdline) : Prop := inb 0 l \/ err l = true.

Lemma okC_weaken {A} (Pre Pre' : cmdline -> Prop) (m : C A) (Post Post' : A -> cmdline -> Prop) :
  okC Pre m Post -> (forall l, Pre' l -> Pre l) -> (forall a l, Post a l -> Post' a l) -> okC Pre' m Post'.
Proof.
  intros H Hp Hq l Hl. eapply hoare_weaken; [by apply H, Hp|done|].
  intros r s [? ?]. auto.
Qed.

Lemma okC_pre {A} (Pre Pre' : cmdline -> Prop) (m : C A) Post :
  (forall l, Pre' l -> Pre l) -> okC Pre m Post -> okC Pre' m Post.
Proof. intros Hp H. by eapply okC_weaken; [exact H|exact Hp|]. Qed.

Lemma okC_bind {A B} Pre (m : C A) Mid (f : A -> C B) Post :
  okC Pre m Mid -> (forall a, okC (Mid a) (f a) Post) -> okC Pre (mbind f m) Post.
Proof.
  intros Hm Hf l Hl own o d s0 s Hc _. apply wp_bind.
  eapply wp_mono; [by apply Hm|]. intros o1 d1 s1 [a l1] s1' [Hc1 [Hw1 Ha]].
  eapply wp_mono; [by apply Hf|]. intros o2 d2 s2 r s2' [Hc2 [Hw2 Hb]].
  split; [done|]. split; [by eapply forward_trans|done].
Qed.

Lemma okC_first {A B} Pre (m : C A) Mid (f : A -> C B) Post :
  okC Pre m Mid -> (forall a, okC (Mid a) (f a) Post) -> okC Pre (bind_first m f) Post.
Proof. apply okC_bind. Qed.

Lemma okC_ret {A} (a : A) Pre (Post : A -> cmdline -> Prop) :
  (forall l, Pre l -> Post a l) -> okC Pre (mret a) Post.
Proof. intros H l Hl. apply hoare_ret. intros s _. split; [apply forward_refl|auto]. Qed.

Lemma okC_lift {A} (m : M A) Pre : safe m -> okC Pre (lift m) (fun _ => Pre).
Proof.
  intros Hm l Hl. eapply hoare_first; [by apply safe_triple|].
  intros a. apply hoare_ret. intros s _. split; [apply forward_refl|done].
Qed.

Lemma okC_getC {A} (f : modem -> A) Pre : okC Pre (getC f) (fun _ => Pre).
Proof. apply okC_lift, safe_gets. Qed.

Lemma okC_local Pre : okC Pre local (fun l0 l => l0 = l /\ Pre l).
Proof. intros l Hl. apply hoare_ret. intros s _. split; [apply forward_refl|done]. Qed.

Lemma okC_set f (Pre Post : cmdline -> Prop) :
  (forall l, Pre l -> cur (f l) = cur l /\ Post (f l)) -> okC Pre (set_local f) (fun _ => Post).
Proof.
  intros H l Hl. apply hoare_ret. intros s _. destruct (H l Hl) as [E Hq].
  split; [unfold forward; simpl; by rewrite E|done].
Qed.

Lemma okC_when b m (Pre : cmdline -> Prop) : okC Pre m (fun _ => Pre) -> okC Pre (whenC b m) (fun _ => Pre).
Proof. intros H. destruct b; [done|]. by apply okC_ret. Qed.

(** ** The pointer *)

Lemma okC_peek n : okC (inb n) peek (fun c => after_peek c n).
Proof.
  intros l [Hp Hn]. unfold peek, deref. rewrite Hp. apply hoare_ret. intros s _.
  split; [apply forward_refl|]. split; [by split|]. unfold more. simpl.
  intros Hc E. by rewrite E in Hc.
Qed.

Lemma step_forward c : (length (aft (step c)) <= length (aft c))%nat /\ (length (bef (step c)) = S (length (bef c)))%nat.
Proof. unfold step. destruct c as [b [|x a] p]; simpl; lia. Qed.

Lemma okC_advance n : okC (fun l => inb n l /\ more l) advance (fun _ => inb (S n)).
Proof.
  intros l [[Hp Hn] Hm]. apply hoare_ret. intros s _. simpl.
  pose proof (step_forward (cur l)) as [Ha Hb]. split; [unfold forward; simpl; lia|].
  split; simpl; [|lia]. unfold step, more in *. by destruct (aft (cur l)).
Qed.

Lemma next_eq l s : past (cur l) = false ->
  next l s = Done (hd 0 (aft (cur l)), l <| cur := step (cur l) |>) s.
Proof.
  intros H. unfold next, bind_first, mbind, C_bind, peek, deref. rewrite H. reflexivity.
Qed.

(** What follows a character that is not the terminator is still in the text, and
    there is less of it. *)
Lemma okC_next_shorter n k :
  okC (fun l => inb n l /\ (length (aft (cur l)) <= k)%nat) next (fun c l => after_next c (S n) l /\
    (c <> 0 -> (length (aft (cur l)) < k)%nat)).
Proof.
  intros l [[Hp Hn] Hk] own o d s0 s Hc _. rewrite next_eq by done. cbn [wp]. split; [done|].
  pose proof (step_forward (cur l)) as [Ha Hb]. split; [unfold forward; cbn; lia|].
  cbn. unfold step in *. destruct (aft (cur l)) as [|x a] eqn:E; cbn in *; [by split|].
  split; [intros _; split; cbn; [done|lia]|intros _; lia].
Qed.

Lemma okC_next n : okC (inb n) next (fun c => after_next c (S n)).
Proof.
  intros l Hl. eapply hoare_weaken; [by apply (okC_next_shorter n (length (aft (cur l))))|done|].
  intros r s (? & ? & ?). done.
Qed.

Lemma okC_look_back n k : (0 < k <= n)%nat -> okC (inb n) (look_back k) (fun _ => inb n).
Proof.
  intros Hk l [Hp Hn]. unfold look_back, deref_back. rewrite Hp.
  destruct (lookup_lt_is_Some_2 (bef (cur l)) (pred k)) as [c ->]; [lia|].
  apply hoare_ret. intros s _. by split.
Qed.

Lemma num_loop_forward l b n k : forall n' k' c, num_loop l b n k = (n', k', c) ->
  past c = false /\ (length (aft c) <= length l)%nat /\ (length b <= length (bef c))%nat.
Proof.
  revert b n k. induction l as [|x l IH]; intros b n k n' k' c; simpl.
  - intros [= <- <- <-]. simpl. lia.
  - destruct (isdigit x).
    + intros E. apply IH in E as (? & ? & ?). simpl in *. split_and!; [done|lia|lia].
    + intros [= <- <- <-]. simpl. lia.
Qed.

Lemma okC_num n a b m d : okC (inb n) (num a b m d) (fun _ => inb n).
Proof.
  intros l [Hp Hn]. unfold num, ParseNum. rewrite Hp.
  destruct (num_loop _ _ _ _) as [[v k] c] eqn:E.
  apply num_loop_forward in E as (Hc & Ha & Hb).
  apply hoare_ret. intros s _. unfold forward, inb. simpl. split; [lia|split; [done|lia]].
Qed.

Lemma has_prefix_length s l : has_prefix s l = true -> (length s <= length l)%nat.
Proof.
  revert l. induction s as [|x s IH]; intros [|y l]; simpl; try done; try lia.
  intros [_ H]%andb_true_iff. apply IH in H. lia.
Qed.

Lemma iter_step k c : (k <= length (aft c))%nat -> past c = false ->
  past (Nat.iter k step c) = false /\ (length (aft (Nat.iter k step c)) + k = length (aft c))%nat /\
  (length (bef (Nat.iter k step c)) = k + length (bef c))%nat.
Proof.
  intros Hk Hp. induction k as [|k IH]; simpl; [split; [done|lia]|].
  destruct IH as (Hp' & Ha & Hb); [lia|]. unfold step.
  destruct (Nat.iter k _ c) as [b [|x a] p]; simpl in *; [lia|]. split_and!; [done|lia|lia].
Qed.

Lemma okC_eat n s : okC (inb n) (eat s) (fun _ => inb n).
Proof.
  intros l [Hp Hn]. unfold eat, strncmp0. rewrite Hp. destruct (has_prefix s (aft (cur l))) eqn:E.
  - apply has_prefix_length in E. destruct (iter_step _ _ E Hp) as (Hp' & Ha & Hb).
    apply hoare_ret. intros s' _. unfold forward, inb. simpl. split; [lia|split; [done|lia]].
  - apply hoare_ret. intros s' _. by split.
Qed.

Lemma okC_put text (Pre : cmdline -> Prop) :
  (forall l r, Pre l -> Pre (l <| resp := r |>)) -> okC Pre (put text) (fun _ => Pre).
Proof. intros H. apply okC_set. intros l Hl. split; [done|auto]. Qed.

Lemma okC_put_inb n text : okC (inb n) (put text) (fun _ => inb n).
Proof. apply okC_put. intros l r H. exact H. Qed.

Lemma okC_set_inb n f : (forall l, cur (f l) = cur l) -> okC (inb n) (set_local f) (fun _ => inb n).
Proof. intros H. apply okC_set. intros l Hl. split; [done|]. unfold inb. by rewrite H. Qed.

Lemma okC_say n text : okC (inb n) (say text) (fun _ => inb n).
Proof.
  eapply okC_bind; [apply okC_put_inb|]. intros []. by apply okC_set_inb.
Qed.

Lemma okC_no_ok n : okC (inb n) no_ok (fun _ => inb n).
Proof. by apply okC_set_inb. Qed.

Lemma okC_fail Pre : okC Pre fail fine.
Proof.
  eapply okC_weaken; [apply (okC_set _ Pre (fun l => err l = true)); by intros|done|].
  by intros a l; right.
Qed.

Lemma inb_fine {A} n (a : A) l : inb n l -> fine a l.
Proof. intros [? ?]. left. split; [done|lia]. Qed.

Lemma okC_done {A} n (m : C A) : okC (inb n) m (fun _ => inb n) -> okC (inb n) m fine.
Proof. intros H. eapply okC_weaken; [exact H|done|]. intros a l. apply inb_fine. Qed.

Lemma okC_fine_ret {A} n (a : A) : okC (inb n) (mret a) fine.
Proof. apply okC_ret. intros l. apply inb_fine. Qed.

(** ** Tests on a character *)

Lemma okC_if_next {A} (b : bool) c n (m1 m2 : C A) Post : (b = true -> c <> 0) ->
  okC (inb n) m1 Post -> okC (after_next c n) m2 Post -> okC (after_next c n) (if b then m1 else m2) Post.
Proof.
  intros Hb H1 H2. destruct b; [|done]. eapply okC_weaken; [exact H1| |done]. intros l Hl. by apply Hl, Hb.
Qed.

Lemma okC_if_peek {A} (b : bool) c n (m1 m2 : C A) Post : (b = true -> c <> 0) ->
  okC (fun l => inb n l /\ more l) m1 Post -> okC (after_peek c n) m2 Post ->
  okC (after_peek c n) (if b then m1 else m2) Post.
Proof.
  intros Hb H1 H2. destruct b; [|done]. eapply okC_weaken; [exact H1| |done].
  intros l [Hl Hm]. split; [done|]. by apply Hm, Hb.
Qed.

Lemma okC_drop_peek {A} c n (m : C A) Post : okC (inb n) m Post -> okC (after_peek c n) m Post.
Proof. intros H. eapply okC_weaken; [exact H|by intros l [? _]|done]. Qed.

Lemma okC_more {A} n (m : C A) Post : okC (inb n) m Post -> okC (fun l => inb n l /\ more l) m Post.
Proof. intros H. eapply okC_weaken; [exact H|by intros l [? _]|done]. Qed.

(** ** The parts on the engines *)

Lemma safe_with_engine {A} (none : M A) f : safe none -> (forall e, safe (f e)) -> safe (with_engine none f).
Proof. intros Hn Hf. apply safe_first; [apply safe_gets|]. intros [e|]; auto. Qed.

Ltac engine_tac := repeat (match goal with
  | |- safe (with_engine _ _) => apply safe_with_engine; [|intros ?]
  | |- safe (modify (fun s => s <| P := _ |>)) => solve [eauto with safe]
  end || safe_step || cbv beta).

Lemma safe_SendSilence ms : safe (SendSilence ms).
Proof. unfold SendSilence. engine_tac. Qed.
Lemma safe_SendStart_ dt br : safe (SendStart_ dt br).
Proof. unfold SendStart_. engine_tac. Qed.
Lemma safe_SendStart dt br : safe (SendStart dt br).
Proof. apply safe_locked, safe_SendStart_. Qed.
Lemma safe_RecvStart dt br : safe (RecvStart dt br).
Proof. unfold RecvStart. engine_tac. Qed.
#[export] Hint Resolve safe_SendSilence safe_SendStart_ safe_SendStart safe_RecvStart : safe.

Lemma safe_frs_wait dms : safe (frs_wait dms).
Proof. unfold frs_wait. engine_tac. Qed.
Lemma safe_play tones : safe (play tones).
Proof. unfold play. engine_tac. Qed.
(** A change of the registers. *)
Lemma safe_profile f : keeps_class f -> safe (modify (fun s => s <| P := f (P s) |>)).
Proof.
  intros Hf. apply safe_modify; [|done]. intros s. repeat split. unfold class_engine, engine_ptr, active. cbn.
  by rewrite Hf.
Qed.

Lemma safe_SetReg r v : safe (modify (fun s => s <| P := (SetReg (P s) r v).2 |>)).
Proof. apply (safe_profile (fun p => (SetReg p r v).2)). auto with profile. Qed.
Lemma safe_SetBit r b v : safe (modify (fun s => s <| P := (SetBit (P s) r b v).2 |>)).
Proof. apply (safe_profile (fun p => (SetBit p r b v).2)). auto with profile. Qed.
Lemma safe_set_bit r b v : safe (modify (fun s => s <| P := set_bit r b (P s) v |>)).
Proof. apply (safe_profile (fun p => set_bit r b p v)). auto with profile. Qed.
Lemma safe_set_ids c d : safe (set_ids c d).
Proof. apply (safe_profile (fun p => set_reg rDidMode (set_reg rCidMode p c) d)). auto with profile. Qed.
Lemma safe_SetVoiceProfile q : safe (modify (fun s => s <| P := SetVoiceProfile (P s) q |>)).
Proof. apply (safe_profile (fun p => SetVoiceProfile p q)). unfold SetVoiceProfile. auto with profile. Qed.
#[export] Hint Resolve safe_SetReg safe_SetBit safe_set_bit safe_set_ids safe_SetVoiceProfile : safe.

Lemma safe_change_class c : safe (change_class c).
Proof. by apply safe_change. Qed.
Lemma safe_load_profile : safe load_profile.
Proof.
  enough (safe ((modify (fun s => s <| P := assign (P s) (Profile_new 0) |>) ;; OnChangeModemClass) ;;
    let* h := gets off_hook in whenM h OnHook)) as H by exact H.
  apply safe_bind; [by apply safe_change|]. intros ?. safe_tac.
Qed.
Lemma safe_hook_on : safe hook_on.
Proof. unfold hook_on. safe_tac. Qed.
Lemma safe_add_play_tone a b : safe (add_play_tone a b).
Proof. unfold add_play_tone. safe_tac. Qed.
#[export] Hint Resolve safe_frs_wait safe_play safe_change_class safe_load_profile safe_hook_on
  safe_add_play_tone : safe.

(** ** The commands *)

(** The test is on the character, which is not the terminator then. *)
Ltac nonzero := let H := fresh in intros H ->; vm_compute in H; discriminate H.

Ltac line_step :=
  match goal with
  | |- okC _ fail fine => apply okC_fail
  | |- okC (fun l => inb _ l /\ more l) (mbind _ advance) _ => eapply okC_bind; [apply okC_advance|intros ?]
  | |- okC (fun l => inb _ l /\ more l) _ _ => apply okC_more
  | |- okC (inb _) (bind_first next _) _ => eapply okC_first; [apply okC_next|intros ?]
  | |- okC (inb _) (bind_first peek _) _ => eapply okC_first; [apply okC_peek|intros ?]
  | |- okC (inb _) (bind_first (num _ _ _ _) _) _ => eapply okC_first; [apply okC_num|intros ?]
  | |- okC (inb _) (bind_first (eat _) _) _ => eapply okC_first; [apply okC_eat|intros ?]
  | |- okC _ (bind_first (getC _) _) _ => eapply okC_first; [apply okC_getC|intros ?]
  | |- okC _ (bind_first (lift _) _) _ => eapply okC_first; [apply okC_lift; engine_tac|intros ?]
  | |- okC _ (mbind _ (lift _)) _ => eapply okC_bind; [apply okC_lift; engine_tac|intros ?]
  | |- okC (inb _) (mbind _ no_ok) _ => eapply okC_bind; [apply okC_no_ok|intros ?]
  | |- okC (inb _) (say _) fine => apply okC_done, okC_say
  | |- okC (inb _) (mbind _ (say _)) _ => eapply okC_bind; [apply okC_say|intros ?]
  | |- okC (inb _) (mret _) fine => apply okC_fine_ret
  | |- okC (inb _) (lift _) fine => apply okC_done, okC_lift; engine_tac
  | |- okC (after_next ?c _) (if _ then _ else _) _ => apply okC_if_next; [nonzero| |]
  | |- okC (after_peek ?c _) (if _ then _ else _) _ => apply okC_if_peek; [nonzero| |]
  | |- okC (after_peek _ _) _ _ => apply okC_drop_peek
  | |- okC (inb _) (if ?b then _ else _) _ => destruct b
  | |- okC (inb _) (let '(_, _) := ?x in _) _ => destruct x
  end.
Ltac line_tac := repeat (line_step || cbv beta).

Abbreviation fine_cmd n m := (okC (inb n) m (@fine unit)).

Lemma fine_with_profile n f : keeps_class f -> fine_cmd n (with_profile f).
Proof.
  intros Hf. apply okC_done, okC_lift, safe_locked. by apply safe_profile.
Qed.

(** *** Class commands *)

(** A handler that tells whether it is done: in the text, if so. *)
Definition okb (b : bool) (l : cmdline) : Prop := b = true -> inb 0 l.

Lemma okb_false Pre : okC Pre (mret false) okb.
Proof. by apply okC_ret. Qed.
Lemma inb_0 n l : inb n l -> inb 0 l.
Proof. intros [? ?]. split; [done|lia]. Qed.
Lemma okb_inb n (m : C bool) : okC (inb n) m (fun _ => inb n) -> okC (inb n) m okb.
Proof. intros H. eapply okC_weaken; [exact H|done|]. intros b l Hl _. exact (inb_0 _ _ Hl). Qed.
Lemma okb_ret n b : okC (inb n) (mret b) okb.
Proof. by apply okb_inb, okC_ret. Qed.
Lemma okb_lift n m : safe m -> okC (inb n) (lift m) okb.
Proof. intros H. by apply okb_inb, okC_lift. Qed.

Lemma fine_class_cmd n handle : okC (inb n) handle okb -> fine_cmd n (class_cmd handle).
Proof.
  intros H. eapply okC_first; [exact H|]. intros [|].
  - apply okC_ret. intros l Hl. left. by apply Hl.
  - apply okC_fail.
Qed.

Lemma okC_put_result n text : okC (inb n) (put_result text) (fun _ => inb n).
Proof.
  unfold put_result. destruct (bool_decide _); [by apply okC_ret|].
  eapply okC_first; [apply okC_local|]. intros l0. cbv beta.
  apply (okC_bind _ _ (fun _ => inb n)); [|intros ?; apply okC_put_inb].
  apply (okC_weaken (inb n) _ _ (fun _ => inb n)); [|by intros l [_ H]|done]. destruct (crlf l0).
  - eapply okC_bind; [apply okC_put_inb|]. intros ?. by apply okC_set_inb.
  - eapply okC_first; [apply okC_getC|]. intros ?. apply okC_put_inb.
Qed.

Lemma okC_start_cmd n T dt br : okC (inb n) (start_cmd T dt br) okb.
Proof.
  apply (okC_first _ _ (fun _ => inb n)).
  { destruct T; [apply okC_lift; auto with safe|].
    eapply okC_first; [apply okC_lift; auto with safe|]. intros ?. by apply okC_ret. }
  intros [text|]; [|eapply okC_bind; [apply okC_lift; auto with safe|intros ?; apply okb_ret]].
  eapply okC_bind; [apply okC_put_result|]. intros ?. apply okb_ret.
Qed.

Ltac class_step :=
  match goal with
  | |- okC _ (mret false) okb => apply okb_false
  | |- okC (inb _) (mret _) okb => apply okb_ret
  | |- okC (inb _) (lift _) okb => apply okb_lift; engine_tac
  | |- okC (fun l => inb _ l /\ more l) (ask_values _) okb => unfold ask_values
  | |- okC (inb _) (start_cmd _ _ _) okb => apply okC_start_cmd
  end.
Ltac class_tac := repeat (class_step || line_step || cbv beta).

Lemma okC_ask_values n text : okC (fun l => inb n l /\ more l) (ask_values text) okb.
Proof. unfold ask_values. class_tac. Qed.

Lemma okC_silence_cmd n T : okC (inb n) (silence_cmd T) okb.
Proof. unfold silence_cmd. class_tac. Qed.

Lemma okC_modulation_cmd n T dt : okC (inb n) (modulation_cmd T dt) okb.
Proof. unfold modulation_cmd. class_tac. Qed.

Lemma okC_direction n : (2 <= n)%nat -> okC (inb n) direction (fun _ => inb n).
Proof.
  intros Hn. eapply okC_first; [apply okC_look_back; lia|]. intros d. by apply okC_ret.
Qed.

Lemma okC_HandleClass1Cmd n : (2 <= n)%nat -> okC (inb n) HandleClass1Cmd okb.
Proof.
  intros Hn. eapply okC_first; [by apply okC_direction|]. intros [T|]; [|apply okb_false].
  eapply okC_first; [apply okC_look_back; lia|]. intros d.
  pose proof (okC_silence_cmd n T). pose proof (okC_modulation_cmd n T).
  repeat case_match; auto. apply okb_false.
Qed.

(** The elements of +VTS. *)
Definition okopt {A} (r : option A) (l : cmdline) : Prop := r <> None -> inb 0 l.

Lemma okopt_none {A} Pre : okC Pre (mret (@None A)) okopt.
Proof. by apply okC_ret. Qed.
Lemma okopt_inb {A} n (m : C (option A)) : okC (inb n) m (fun _ => inb n) -> okC (inb n) m okopt.
Proof. intros H. eapply okC_weaken; [exact H|done|]. intros b l Hl _. exact (inb_0 _ _ Hl). Qed.

Lemma okopt_some {A} (a : A) l : okopt (Some a) l -> inb 0 l.
Proof. intros H. by apply H. Qed.

Lemma okC_generate n tones t : okC (inb n) (generate tones t) (fun _ => inb n).
Proof. eapply okC_first; [apply okC_lift; auto with safe|]. intros ?. by apply okC_ret. Qed.

Lemma okC_element_time n dms : okC (inb n) (element_time dms) (fun _ => inb n).
Proof.
  eapply okC_first; [apply okC_peek|]. intros c. apply okC_if_peek; [nonzero| |].
  - eapply okC_bind; [apply okC_advance|]. intros ?. eapply okC_weaken; [apply (okC_num (S n))|done|].
    intros x l [? ?]. split; [done|lia].
  - apply okC_drop_peek. by apply okC_ret.
Qed.

(** The end of an element: its bracket, or a failure. *)
Lemma okC_element_end n (r : C (option (list tone))) :
  okC (fun l => inb n l /\ more l) r (fun _ l => inb n l /\ more l) ->
  okC (fun l => inb n l /\ more l) (let* r := r in
    match r with None => mret None | Some tones => advance ;; mret (Some tones) end) okopt.
Proof.
  intros H. eapply okC_first; [exact H|]. intros [tones|]; [|apply okopt_none].
  eapply okC_bind; [apply okC_advance|]. intros ?. by apply okopt_inb, okC_ret.
Qed.

Lemma okC_more_ret {A} n (a : A) : okC (fun l => inb n l /\ more l) (mret a) (fun _ l => inb n l /\ more l).
Proof. by apply okC_ret. Qed.

Lemma okC_more_generate n tones t :
  okC (fun l => inb n l /\ more l) (generate tones t) (fun _ l => inb n l /\ more l).
Proof. eapply okC_first; [apply okC_lift; auto with safe|]. intros ?. by apply okC_ret. Qed.

Lemma okC_dual_tone n tones dms : okC (fun l => inb n l /\ more l) (dual_tone tones dms) okopt.
Proof.
  eapply okC_bind; [apply okC_advance|]. intros ?.
  eapply okC_first; [apply okC_num|]. intros f1. destruct (_ && _); [apply okopt_none|].
  eapply okC_first; [apply okC_peek|]. intros c.
  apply (okC_first _ _ (fun r l => r <> None -> inb 0 l)).
  - apply okC_if_peek; [nonzero| |].
    + eapply okC_bind; [apply okC_advance|]. intros ?.
      eapply okC_first; [apply okC_num|]. intros f2. destruct (_ && _); [by apply okC_ret|].
      eapply okC_first; [apply okC_element_time|]. intros t. apply okC_ret. intros l Hl _. by eapply inb_0.
    + apply okC_drop_peek, okC_ret. intros l Hl _. by eapply inb_0.
  - intros [[f2 t]|]; [|apply okopt_none].
    eapply okC_weaken; [|by intros l Hl; exact (Hl ltac:(done))|done].
    eapply okC_first; [apply okC_peek|]. intros c'.
    destruct (Z.eqb_spec c' (chr "]")) as [->|]; simpl; [|apply okopt_none].
    eapply okC_weaken; [apply (okC_element_end 0)| |done].
    + destruct (t =? 0); [apply okC_more_ret|apply okC_more_generate].
    + intros l [Hl Hm]. split; [done|by apply Hm].
Qed.

Lemma okC_timed_digit n tones dms : okC (fun l => inb n l /\ more l) (timed_digit tones dms) okopt.
Proof.
  eapply okC_bind; [apply okC_advance|]. intros ?.
  eapply okC_first; [apply okC_peek|]. intros c.
  apply (okC_first _ _ (fun _ => inb 0)).
  - apply okC_if_peek; [nonzero| |].
    + eapply okC_bind; [apply okC_advance|]. intros ?. apply okC_ret. intros l Hl. by eapply inb_0.
    + apply okC_drop_peek, okC_ret. intros l Hl. by eapply inb_0.
  - intros d. eapply okC_first; [apply okC_element_time|]. intros t. destruct (t <? 0); [apply okopt_none|].
    eapply okC_first; [apply okC_peek|]. intros c'.
    destruct (Z.eqb_spec c' (chr "}")) as [->|]; simpl; [|apply okopt_none].
    eapply okC_weaken; [apply (okC_element_end 0)| |done].
    + destruct (t =? 0); [apply okC_more_ret|]. destruct (d =? chr " "); [apply okC_more_generate|apply okC_more_ret].
    + intros l [Hl Hm]. split; [done|by apply Hm].
Qed.

(** *** Loops on the text *)

Definition rest_le (k : nat) (l : cmdline) : Prop := (length (aft (cur l)) <= k)%nat.

Lemma okC_rest {A} k Pre (m : C A) Post : okC Pre m Post ->
  okC (fun l => Pre l /\ rest_le k l) m (fun a l => Post a l /\ rest_le k l).
Proof.
  intros H l [Hl Hk]. eapply hoare_weaken; [by apply H|done|].
  intros r s [[Hw Hf] Hp]. split; [by split|]. split; [done|]. unfold rest_le in *. lia.
Qed.

Lemma okC_advance_shorter n k :
  okC (fun l => (inb n l /\ more l) /\ rest_le k l) advance
    (fun _ l => inb (S n) l /\ (length (aft (cur l)) < k)%nat).
Proof.
  intros l [[[Hp Hn] Hm] Hk]. unfold rest_le, more in *. apply hoare_ret. intros s _.
  unfold forward, inb, step. cbn. destruct (aft (cur l)); [done|]. cbn in *. repeat split; try done; lia.
Qed.

Lemma okC_text_turns {A B} (I : A -> cmdline -> Prop) (body : A -> C (A + B)) Post :
  (forall a k, okC (fun l => I a l /\ rest_le k l) (body a) (fun r l =>
     match r with inl a => I a l /\ (length (aft (cur l)) < k)%nat | inr b => Post b l end)) ->
  forall n k a, (k < n)%nat -> okC (fun l => I a l /\ rest_le k l) (text_turns n body a) Post.
Proof.
  intros H n. induction n as [|n IH]; intros k a Hk; [lia|]. simpl.
  eapply okC_first; [apply H|]. intros [a'|b]; [|by apply okC_ret].
  destruct k as [|k]; [intros l [_ Hlt]; lia|].
  eapply okC_weaken; [apply (IH k); lia| |done].
  intros l [Hl Hlt]. split; [done|]. unfold rest_le. lia.
Qed.

Lemma okC_text_loop {A B} (I : A -> cmdline -> Prop) (body : A -> C (A + B)) Post a :
  (forall a k, okC (fun l => I a l /\ rest_le k l) (body a) (fun r l =>
     match r with inl a => I a l /\ (length (aft (cur l)) < k)%nat | inr b => Post b l end)) ->
  okC (I a) (text_loop body a) Post.
Proof.
  intros H l Hl. assert (length (aft (cur l)) < S (length (aft (cur l))))%nat as Hk by lia.
  exact (okC_text_turns I body Post H _ _ a Hk l (conj Hl (le_n _))).
Qed.

Lemma okC_vts_element tones k :
  okC (fun l => inb 0 l /\ rest_le k l) (vts_element tones) (fun r l =>
    match r with inl _ => inb 0 l /\ (length (aft (cur l)) < k)%nat | inr r => okopt r l end).
Proof.
  eapply okC_first; [apply okC_rest, okC_getC|]. intros dms.
  eapply okC_first; [apply okC_rest, okC_peek|]. intros c.
  apply (okC_first _ _ (fun r l => okopt r l /\ rest_le k l)).
  - apply okC_rest. apply okC_if_peek; [nonzero|apply okC_dual_tone|].
    apply okC_if_peek; [nonzero|apply okC_timed_digit|].
    apply okC_if_peek; [nonzero| |].
    + eapply okC_bind; [apply okC_advance|]. intros ?. by apply okopt_inb, okC_ret.
    + apply okC_drop_peek, okopt_inb. destruct (c =? chr ","); [apply okC_generate|by apply okC_ret].
  - intros [tones'|]; [|by apply okC_ret].
    apply (okC_pre (fun l => inb 0 l /\ rest_le k l)).
    { intros l [Hl Hk]. exact (conj (okopt_some _ _ Hl) Hk). }
    eapply okC_first; [apply okC_rest, okC_peek|]. intros c'.
    destruct (Z.eqb_spec c' (chr ",")) as [->|].
    + apply (okC_pre (fun l => (inb 0 l /\ more l) /\ rest_le k l)).
      { intros l [[Hl Hm] Hk]. split; [split; [done|by apply Hm]|done]. }
      eapply okC_bind; [apply okC_advance_shorter|]. intros ?. apply okC_ret.
      intros l [Hl Hk]. split; [by eapply inb_0|done].
    + apply okC_ret. intros l [[Hl _] _] _. done.
Qed.

Lemma okC_vts_cmd n : okC (inb n) vts_cmd okb.
Proof.
  eapply okC_first; [apply okC_next|]. intros c. apply okC_if_next; [nonzero| |apply okb_false].
  eapply okC_first; [apply okC_peek|]. intros c'. apply okC_if_peek; [nonzero|apply okC_ask_values|].
  apply okC_drop_peek. eapply okC_first; [apply okC_getC|]. intros cl. destruct (negb _); [apply okb_false|].
  eapply okC_bind; [apply okC_no_ok|]. intros ?.
  eapply okC_first.
  { eapply okC_weaken; [apply (okC_text_loop (fun _ => inb 0) _ okopt)| |done].
    - intros tones k. apply okC_vts_element.
    - intros l Hl. by eapply inb_0. }
  intros [tones|]; [|apply okb_false].
  eapply okC_weaken; [apply (okb_lift 0); auto with safe|intros l Hl; exact (okopt_some _ _ Hl)|done].
Qed.

Lemma okC_HandleClass8Cmd n : (2 <= n)%nat -> okC (inb n) HandleClass8Cmd okb.
Proof.
  intros Hn. eapply okC_first; [by apply okC_direction|]. intros [T|]; [|apply okb_false].
  eapply okC_first; [apply okC_look_back; lia|]. intros d.
  destruct (d =? chr "S"); [apply okC_vts_cmd|]. destruct (d =? chr "X"); [|apply okb_false].
  eapply okC_first; [apply okC_getC|]. intros cl. destruct (bool_decide _); [|apply okb_false].
  eapply okC_bind; [apply okC_no_ok|]. intros ?. apply okC_start_cmd.
Qed.

(** *** The other commands *)

Create HintDb fine.

Ltac fine_step :=
  match goal with
  | |- okC (inb _) _ fine => solve [eauto with fine]
  | |- okC (inb _) (with_profile _) fine => apply fine_with_profile; eauto with profile
  | |- okC (inb _) (class_cmd HandleClass1Cmd) fine => apply fine_class_cmd, okC_HandleClass1Cmd; lia
  | |- okC (inb _) (class_cmd HandleClass8Cmd) fine => apply fine_class_cmd, okC_HandleClass8Cmd; lia
  | |- okC (inb _) (let _ := _ in _) _ => progress cbv zeta
  | |- okC (fun l => inb _ l /\ more l) (let _ := _ in _) _ => progress cbv zeta
  end.
Ltac fine_tac := repeat (fine_step || line_step || cbv beta).

Lemma fine_option_cmd n values set query :
  (forall n, fine_cmd n set) -> (forall n, fine_cmd n query) -> fine_cmd n (option_cmd values set query).
Proof.
  intros Hs Hq. unfold option_cmd. line_tac; [apply Hs|apply Hq].
Qed.

Lemma fine_say_reg n r : fine_cmd n (say_reg r).
Proof. unfold say_reg. fine_tac. Qed.
Lemma fine_set_octet n r : fine_cmd n (set_octet r).
Proof. unfold set_octet. fine_tac. Qed.
Lemma fine_set_small n m r : fine_cmd n (set_small m r).
Proof. unfold set_small. fine_tac. Qed.
#[export] Hint Resolve fine_say_reg fine_set_octet fine_set_small fine_option_cmd : fine.

Lemma fine_octet_cmd n r : fine_cmd n (octet_cmd r).
Proof. apply fine_option_cmd; intros; [apply fine_set_octet|apply fine_say_reg]. Qed.
Lemma fine_small_cmd n v m r : fine_cmd n (small_cmd v m r).
Proof. apply fine_option_cmd; intros; [apply fine_set_small|apply fine_say_reg]. Qed.
Lemma fine_say_cmd n text : fine_cmd n (say_cmd text).
Proof. unfold say_cmd. fine_tac. Qed.
Lemma fine_ToSBit n b : fine_cmd n (ToSBit b).
Proof. unfold ToSBit. fine_tac. Qed.
Lemma fine_ignored n m k : fine_cmd n (ignored m k).
Proof. unfold ignored. fine_tac. Qed.

Lemma fine_answer_cmd n d : fine_cmd n (answer_cmd d).
Proof. unfold answer_cmd. fine_tac. Qed.
Lemma fine_cmd_H n : fine_cmd n cmd_H.
Proof. unfold cmd_H. fine_tac. Qed.
Lemma fine_cmd_I n : fine_cmd n cmd_I.
Proof. unfold cmd_I. fine_tac. Qed.
Lemma fine_cmd_S_bit n r : fine_cmd n (cmd_S_bit r).
Proof. unfold cmd_S_bit. fine_tac. Qed.
#[export] Hint Resolve fine_octet_cmd fine_small_cmd fine_say_cmd fine_ToSBit fine_ignored fine_answer_cmd
  fine_cmd_H fine_cmd_I fine_cmd_S_bit : fine.
Lemma fine_cmd_S n : fine_cmd n cmd_S.
Proof. unfold cmd_S. fine_tac. Qed.

Lemma fine_cmd_FAA n : fine_cmd n cmd_FAA.
Proof. apply fine_option_cmd; intros; fine_tac. Qed.
Lemma fine_cmd_FCLASS n : fine_cmd n cmd_FCLASS.
Proof. apply fine_option_cmd; intros; fine_tac. Qed.
Lemma fine_cmd_FLO n : fine_cmd n cmd_FLO.
Proof.
  apply fine_option_cmd; intros; fine_tac.
Qed.
Lemma fine_cmd_FM n : fine_cmd n cmd_FM.
Proof. unfold cmd_FM. fine_tac. Qed.
Lemma fine_cmd_FR n : (1 <= n)%nat -> fine_cmd n cmd_FR.
Proof. intros Hn. unfold cmd_FR. fine_tac. Qed.
Lemma fine_cmd_FT n : (1 <= n)%nat -> fine_cmd n cmd_FT.
Proof. intros Hn. unfold cmd_FT. fine_tac. Qed.
#[export] Hint Resolve fine_cmd_S fine_cmd_FAA fine_cmd_FCLASS fine_cmd_FLO fine_cmd_FM : fine.
#[export] Hint Extern 1 (okC _ cmd_FR _) => apply fine_cmd_FR; lia : fine.
#[export] Hint Extern 1 (okC _ cmd_FT _) => apply fine_cmd_FT; lia : fine.
Lemma fine_cmd_F n : fine_cmd n cmd_F.
Proof. unfold cmd_F. fine_tac. Qed.

Lemma fine_set_IFC n : fine_cmd n set_IFC.
Proof.
  unfold set_IFC. eapply okC_first; [apply okC_num|]. intros dte. destruct (dte <? 0); [apply okC_fail|].
  eapply okC_first; [apply okC_peek|]. intros c. apply (okC_first _ _ (fun _ => inb 0)); [|intros; fine_tac].
  apply okC_if_peek; [nonzero| |].
  - eapply okC_bind; [apply okC_advance|]. intros ?. eapply okC_weaken; [apply okC_num|done|].
    intros x l Hl. exact (inb_0 _ _ Hl).
  - apply okC_drop_peek. eapply okC_weaken; [apply okC_getC|done|]. intros x l Hl. exact (inb_0 _ _ Hl).
Qed.

Lemma fine_cmd_IFC n : fine_cmd n cmd_IFC.
Proof. apply fine_option_cmd; intros; [apply fine_set_IFC|fine_tac]. Qed.
#[export] Hint Resolve fine_cmd_F fine_cmd_IFC : fine.
Lemma fine_cmd_I_ifc n : fine_cmd n cmd_I_ifc.
Proof. unfold cmd_I_ifc. fine_tac. Qed.

Lemma fine_cmd_VEM n : fine_cmd n cmd_VEM.
Proof. apply fine_option_cmd; intros; fine_tac. Qed.
Lemma fine_cmd_VG n : fine_cmd n cmd_VG.
Proof. unfold cmd_VG, cmd_VGR, cmd_VGT. fine_tac. Qed.
Lemma fine_cmd_VIP n : fine_cmd n cmd_VIP.
Proof. unfold cmd_VIP. fine_tac. Qed.
Lemma fine_cmd_VIT n : fine_cmd n cmd_VIT.
Proof. apply fine_option_cmd; intros; fine_tac. Qed.
#[export] Hint Resolve fine_cmd_VIP fine_cmd_VIT : fine.
Lemma fine_cmd_VI n : fine_cmd n cmd_VI.
Proof. unfold cmd_VI. fine_tac. Qed.
Lemma fine_cmd_VLS n : fine_cmd n cmd_VLS.
Proof. apply fine_option_cmd; intros; fine_tac. Qed.
Lemma fine_cmd_VR n : (1 <= n)%nat -> fine_cmd n cmd_VR.
Proof. intros Hn. unfold cmd_VR. fine_tac. Qed.

Lemma fine_cmd_VSD n : fine_cmd n cmd_VSD.
Proof.
  apply fine_option_cmd; [intros m|intros; fine_tac].
  eapply okC_first; [apply okC_num|]. intros sds. destruct (sds <? 0) eqn:E.
  - apply (okC_first _ _ (fun _ => inb m)); [by apply okC_ret|]. intros c. apply okC_fail.
  - eapply okC_first; [apply okC_peek|]. intros c. simpl.
    destruct (Z.eqb_spec c (chr ",")) as [->|]; simpl; [|apply okC_fail].
    apply (okC_pre (fun l => inb m l /\ more l)); [intros l [Hl Hm]; split; [done|by apply Hm]|]. fine_tac.
Qed.

Lemma okC_zeros k : forall n, okC (inb n) (zeros k) (fun _ => inb 0).
Proof.
  induction k as [|k IH]; intros n; simpl; [apply okC_ret; intros l Hl; by eapply inb_0|].
  eapply okC_first; [apply okC_peek|]. intros c. apply okC_if_peek; [nonzero| |].
  - eapply okC_bind; [apply okC_advance|]. intros ?. eapply okC_first; [apply okC_num|]. intros v.
    destruct (v =? 0); [apply IH|]. apply okC_ret. intros l Hl. exact (inb_0 _ _ Hl).
  - apply okC_drop_peek, okC_ret. intros l Hl. exact (inb_0 _ _ Hl).
Qed.

Lemma fine_set_VSM n : fine_cmd n set_VSM.
Proof.
  eapply okC_first; [apply okC_num|]. intros cml. destruct (negb _); [apply okC_fail|].
  eapply okC_first; [apply okC_peek|]. intros c. apply (okC_first _ _ (fun _ => inb 0)); [|intros; fine_tac].
  apply okC_if_peek; [nonzero| |].
  - eapply okC_bind; [apply okC_advance|]. intros ?. eapply okC_first; [apply okC_num|]. intros v.
    destruct (negb _); [|apply okC_zeros]. apply okC_ret. intros l Hl. exact (inb_0 _ _ Hl).
  - apply okC_drop_peek, okC_ret. intros l Hl. exact (inb_0 _ _ Hl).
Qed.

Lemma fine_cmd_VSM n : fine_cmd n cmd_VSM.
Proof. apply fine_option_cmd; intros; [apply fine_set_VSM|fine_tac]. Qed.
#[export] Hint Resolve fine_cmd_VSD fine_cmd_VSM : fine.
Lemma fine_cmd_VS n : fine_cmd n cmd_VS.
Proof. unfold cmd_VS. fine_tac. Qed.
Lemma fine_cmd_VT n : (1 <= n)%nat -> fine_cmd n cmd_VT.
Proof. intros Hn. unfold cmd_VT. fine_tac. Qed.
#[export] Hint Resolve fine_cmd_VEM fine_cmd_VG fine_cmd_VI fine_cmd_VLS fine_cmd_VS : fine.
#[export] Hint Extern 1 (okC _ cmd_VR _) => apply fine_cmd_VR; lia : fine.
#[export] Hint Extern 1 (okC _ cmd_VT _) => apply fine_cmd_VT; lia : fine.
Lemma fine_cmd_V n : fine_cmd n cmd_V.
Proof. unfold cmd_V, cmd_VCID. fine_tac. Qed.
#[export] Hint Resolve fine_cmd_V fine_cmd_I_ifc : fine.
Lemma fine_cmd_plus n : fine_cmd n cmd_plus.
Proof. unfold cmd_plus. fine_tac. Qed.

Lemma fine_cmd_ampersand n : fine_cmd n cmd_ampersand.
Proof. unfold cmd_ampersand, reset_cmd. fine_tac. Qed.

Lemma fine_cmd_CIDFMT n : fine_cmd n cmd_CIDFMT.
Proof.
  eapply okC_first; [apply okC_next|]. intros c0. apply okC_if_next; [nonzero| |fine_tac].
  eapply okC_first; [apply okC_getC|]. intros p.
  eapply okC_first; [apply okC_num|]. intros name. destruct (name <? 0); [apply okC_fail|].
  eapply okC_first; [apply okC_peek|]. intros c. apply (okC_first _ _ (fun _ => inb 0)); [|intros; fine_tac].
  apply okC_if_peek; [nonzero| |].
  - eapply okC_bind; [apply okC_advance|]. intros ?. eapply okC_weaken; [apply okC_num|done|].
    intros x l Hl. exact (inb_0 _ _ Hl).
  - apply okC_drop_peek, okC_ret. intros l Hl. exact (inb_0 _ _ Hl).
Qed.

Lemma fine_set_CID n : fine_cmd n set_CID.
Proof. unfold set_CID. fine_tac. Qed.
#[export] Hint Resolve fine_cmd_CIDFMT fine_set_CID : fine.
Lemma fine_cmd_CID n : fine_cmd n cmd_CID.
Proof. unfold cmd_CID. fine_tac. Qed.
#[export] Hint Resolve fine_cmd_CID : fine.
Lemma fine_cmd_hash n : fine_cmd n cmd_hash.
Proof. unfold cmd_hash, cmd_DFRMC, cmd_HCLR. fine_tac. Qed.

(** *** Dialling *)

Lemma dial_loop_forward online l : forall b d d' c rest, dial_loop online l b d = (d', c, rest) ->
  past c = false /\ (length (aft c) <= length l)%nat /\ (length b <= length (bef c))%nat.
Proof.
  induction l as [|x l IH]; intros b d d' c rest; simpl.
  - intros [= <- <- <-]. simpl. lia.
  - destruct (x =? 0); [intros [= <- <- <-]; simpl; lia|].
    destruct (x =? chr ";"); [intros [= <- <- <-]; simpl; lia|].
    destruct (dial_err _); [intros [= <- <- <-]; simpl; lia|].
    intros E. apply IH in E as (? & ? & ?). simpl in *. split_and!; [done|lia|lia].
Qed.

(** [okC] with a condition on the state of the modem. *)
Definition okS {A} (Pre : cmdline -> Prop) (S : modem -> Prop) (m : C A) (Post : A -> cmdline -> Prop)
    (S' : A -> modem -> Prop) : Prop :=
  forall l, Pre l -> triple S (m l) (fun r s => (forward l r.2 /\ Post r.1 r.2) /\ S' r.1 s).

Lemma okS_bind {A B} Pre S (m : C A) Mid S1 (f : A -> C B) Post S2 :
  okS Pre S m Mid S1 -> (forall a, okS (Mid a) (S1 a) (f a) Post S2) -> okS Pre S (mbind f m) Post S2.
Proof.
  intros Hm Hf l Hl own o d s0 s Hc HS. apply wp_bind.
  eapply wp_mono; [by apply Hm|]. intros o1 d1 s1 [a l1] s1' [Hc1 [[Hw1 Ha] HS1]].
  eapply wp_mono; [by apply Hf|]. intros o2 d2 s2 r s2' [Hc2 [[Hw2 Hb] HS2]].
  split; [done|]. split; [|done]. split; [by eapply forward_trans|done].
Qed.

Lemma okS_any {A} Pre S (m : C A) Post : okC Pre m Post -> okS Pre S m Post (fun _ _ => True).
Proof.
  intros H l Hl. eapply hoare_weaken; [by apply H|done|]. intros r s [? ?]. done.
Qed.

Lemma okC_okS {A} Pre (m : C A) Post S : okS Pre (fun _ => True) m Post S -> okC Pre m Post.
Proof. intros H l Hl. eapply hoare_weaken; [by apply H|done|]. by intros r s [? _]. Qed.

Lemma okS_lift {A} Pre S (m : M A) S' : triple S m S' -> okS Pre S (lift m) (fun _ => Pre) S'.
Proof.
  intros Hm l Hl. eapply hoare_first; [exact Hm|].
  intros a. apply hoare_ret. intros s HS. split; [|done]. split; [apply forward_refl|done].
Qed.

Lemma okS_getC {A} Pre S (f : modem -> A) : okS Pre S (getC f) (fun _ => Pre) (fun _ => S).
Proof. apply okS_lift. intros own o d s0 s Hc HS. by split. Qed.

Lemma okS_when b m Pre S : okS Pre S m (fun _ => Pre) (fun _ => S) ->
  okS Pre S (whenC b m) (fun _ => Pre) (fun _ => S).
Proof.
  intros H. destruct b; [done|]. intros l Hl. apply hoare_ret. intros s HS. split; [|done].
  by split; [apply forward_refl|].
Qed.

Lemma okS_scan_dial n online S : okS (inb n) S (scan_dial online) (fun _ => inb n) (fun _ => S).
Proof.
  intros l [Hp Hn]. unfold scan_dial. rewrite Hp.
  destruct (dial_loop _ _ _ _) as [[d c] rest] eqn:E.
  apply dial_loop_forward in E as (Hc & Ha & Hb).
  apply hoare_ret. intros s HS. unfold forward, inb. simpl. repeat split; done || lia.
Qed.

Lemma fine_dial_online n d t : okS (inb n) offhook (dial_online d t) fine (fun _ _ => True).
Proof.
  eapply okS_bind; [apply okS_getC|]. intros [|]; cbv beta.
  - intros l Hl. eapply hoare_weaken; [apply (okS_lift (inb n) offhook _ (fun _ _ => True)); [|done]|done|].
    + eapply hoare_bind; [apply offhook_modify; same_core_tac|]. intros ?.
      eapply hoare_bind; [apply enter_connecting|]. intros ?. apply triple_any.
      engine_tac.
    + intros r s [[Hw Hi] _]. split; [|done]. split; [done|]. exact (inb_fine _ _ _ Hi).
  - apply okS_any. eapply okC_bind; [apply okC_lift; engine_tac|]. intros ?.
    eapply okC_first; [apply okC_local|]. intros l0. cbv beta.
    apply (okC_pre (inb n)); [by intros l [_ H]|].
    apply (okC_bind _ _ (fun _ => inb n)).
    + destruct (crlf l0); [eapply okC_bind; [apply okC_put_inb|intros ?; by apply okC_set_inb]|].
      eapply okC_first; [apply okC_getC|]. intros ?. apply okC_put_inb.
    + intros ?. eapply okC_first; [apply okC_getC|]. intros ?. apply okC_done, okC_put_inb.
Qed.

Lemma dial_new_spec d t : triple offhook (dial_new d t) (fun _ _ => True).
Proof.
  unfold dial_new. eapply hoare_bind; [apply offhook_modify; same_core_tac|]. intros ?.
  eapply hoare_bind; [apply offhook_timer_stop|]. intros ?.
  eapply hoare_bind; [apply offhook_SetState_sub|]. intros ?. apply triple_any. engine_tac.
Qed.

Lemma fine_cmd_D n : fine_cmd n cmd_D.
Proof.
  eapply okC_bind; [apply okC_no_ok|]. intros ?.
  eapply okC_bind; [apply okC_lift; auto with safe|]. intros ?.
  apply (okC_okS _ _ _ (fun _ _ => True)).
  eapply okS_bind; [apply okS_lift, OffHook_spec|]. intros was. cbv beta.
  eapply okS_bind; [apply okS_getC|]. intros token. cbv zeta beta.
  eapply okS_bind.
  { apply okS_when, okS_lift, offhook_modify. same_core_tac. }
  intros ?. eapply okS_bind; [apply okS_scan_dial|]. intros [d rest]. cbv beta.
  apply (okS_bind _ _ _ (fun _ => inb n) (fun _ => offhook)).
  { destruct rest; [apply okS_lift, offhook_modify; same_core_tac|].
    intros l Hl. apply hoare_ret. intros s HS. split; [|done]. by split; [apply forward_refl|]. }
  intros ?. destruct (negb (dial_err d)).
  - eapply okS_bind; [apply okS_getC|]. intros t. cbv beta. destruct (negb _).
    + apply fine_dial_online.
    + intros l Hl. eapply hoare_weaken; [by apply (okS_lift (inb n)), Hl; apply dial_new_spec|done|].
      intros r s [[Hw Hi] _]. split; [|done]. split; [done|]. exact (inb_fine _ _ _ Hi).
  - apply okS_any. apply (okC_bind _ _ (fun _ l => err l = true)).
    + unfold fail. apply okC_set. by intros l _.
    + intros ?. eapply okC_weaken; [apply okC_when, okC_lift; auto with safe| |]; [by intros l H; exact H|].
      intros ? l H. by right.
Qed.

(** ** Whole command lines *)

(** ** One command *)

Definition rest_lt (k : nat) (l : cmdline) : Prop := (length (aft (cur l)) < k)%nat.

Lemma okC_rest_lt {A} k Pre (m : C A) Post : okC Pre m Post ->
  okC (fun l => Pre l /\ rest_lt k l) m (fun a l => Post a l /\ rest_lt k l).
Proof.
  intros H. destruct k as [|k]; [intros l [_ Hk]; by apply Nat.nlt_0_r in Hk|].
  eapply okC_weaken; [apply (okC_rest k), H| |]; unfold rest_le, rest_lt; intros; intuition lia.
Qed.

(** What is there is read, and there is less of it. *)
Lemma okC_next_more n k :
  okC (fun l => (inb n l /\ more l) /\ rest_le k l) next (fun _ l => inb (S n) l /\ rest_lt k l).
Proof.
  intros l [[[Hp Hn] Hm] Hk] own o d s0 s Hc _. rewrite next_eq by done. cbn [wp]. split; [done|].
  pose proof (step_forward (cur l)) as [Ha Hb]. split; [unfold forward; cbn; lia|].
  unfold rest_le, rest_lt, more, inb in *. cbn. unfold step in *.
  destruct (aft (cur l)); [done|]. cbn in *. repeat split; lia || done.
Qed.

Lemma fine_cmd_A n : fine_cmd n cmd_A.
Proof. apply fine_answer_cmd. Qed.
Lemma fine_cmd_B n : fine_cmd n cmd_B.
Proof. apply fine_ignored. Qed.
Lemma fine_cmd_X n : fine_cmd n cmd_X.
Proof. unfold cmd_X. fine_tac. Qed.
Lemma fine_cmd_Z n : fine_cmd n cmd_Z.
Proof. unfold cmd_Z. fine_tac. Qed.
#[local] Hint Resolve fine_cmd_A fine_cmd_B fine_cmd_X fine_cmd_Z fine_cmd_plus fine_cmd_ampersand fine_cmd_hash fine_cmd_D : fine.
Ltac command_step :=
  match goal with
  | |- okC (inb _) (if ?b then _ else _) _ => destruct b
  | |- okC (inb _) (mret tt) _ => apply okC_fine_ret
  | |- okC (inb _) fail _ => apply okC_fail
  | |- okC (inb _) _ _ => solve [auto with fine]
  end.

Lemma fine_command k :
  okC (fun l => (inb 0 l /\ more l) /\ rest_le k l) command (fun r l => fine r l /\ rest_lt k l).
Proof.
  eapply okC_first; [apply okC_next_more|]. intros c. apply okC_rest_lt. repeat command_step.
Qed.

(** ** The line *)

Lemma fine_commands : okC (inb 0) commands fine.
Proof.
  apply (okC_pre (fun l => fine tt l)); [intros l; apply inb_fine|].
  apply (okC_text_loop (fun _ => fine tt)). intros [] k.
  eapply okC_bind; [apply okC_rest, okC_lift; auto with safe|]. intros ?. cbv beta.
  eapply okC_first; [apply okC_rest, okC_getC|]. intros st. cbv beta.
  eapply okC_first; [apply okC_local|]. intros l0. cbv beta.
  destruct (negb _) eqn:Est; simpl orb; [by apply okC_ret; intros l (_ & Hl & _)|].
  destruct (err l0) eqn:Ee; [by apply okC_ret; intros l (_ & Hl & _)|].
  apply (okC_pre (fun l => inb 0 l /\ rest_le k l)).
  { intros l (<- & [Hl|Hl] & Hk); [done|congruence]. }
  eapply okC_first; [apply okC_rest, okC_peek|]. intros c. cbv beta.
  destruct (Z.eqb_spec c 0) as [|Hc].
  - apply okC_ret. intros l [[Hl _] _]. by left.
  - eapply okC_bind; [eapply okC_pre; [|apply (fine_command k)]; intros l [[Hl Hm] Hk]; auto|].
    intros ?. by apply okC_ret.
Qed.

Lemma okC_line_result : okC (fun _ => True) line_result (fun _ _ => True).
Proof.
  assert (forall t, okC (fun _ => True) (put t) (fun _ _ => True)) as Hput by (intros; by apply okC_put).
  eapply okC_first; [apply okC_local|]. intros l0. cbv beta.
  apply (okC_pre (fun _ => True)); [done|].
  eapply okC_bind; [by apply okC_when|]. intros ?.
  assert (forall rc, okC (fun _ => True) ((if negb (crlf l0) then let* p := getC RC_PREF in put p else mret tt) ;;
    let* r := getC rc in put r) (fun _ _ => True)) as H.
  { intros rc. apply (okC_bind _ _ (fun _ _ => True)).
    - destruct (negb _); [eapply okC_first; [apply okC_getC|]; intros ?; apply Hput|by apply okC_ret].
    - intros ?. eapply okC_first; [apply okC_getC|]. intros ?. apply Hput. }
  cbv zeta. destruct (err l0); [apply H|]. destruct (ok l0); [apply H|by apply okC_ret].
Qed.

(** ** The handlers of a line *)

Lemma inb_start text resp : inb 0 (cmdline_of text resp).
Proof. split; [done|apply Nat.le_0_l]. Qed.

Lemma safe_HandleCmdRest resp : safe (HandleCmdRest resp).
Proof.
  apply safe_first; [auto with safe|]. intros text. apply safe_bind; [safe_tac|]. intros ?.
  apply safe_first; [|auto with safe]. eapply triple_safe.
  assert (okC (inb 0) (commands ;; line_result) (fun _ _ => True)) as H.
  { eapply okC_bind; [apply fine_commands|]. intros ?. eapply okC_pre; [|apply okC_line_result]. done. }
  apply H, inb_start.
Qed.
#[export] Hint Resolve safe_HandleCmdRest : safe.

Lemma safe_HandleCmd resp : safe (HandleCmd resp).
Proof. unfold HandleCmd. safe_tac. Qed.
#[export] Hint Resolve safe_HandleCmd : safe.
