(* ===== verification/ModemSystem.v ===== *)
(** * The threads of a modem (src/t38modem/pmodeme.cxx)

    First the handlers of the data and of the states of the modem, [HandleData],
    [CheckState], [CheckStatePost] and the thread's loop, against the rule of
    [ModemSpec]; then all of them together.

    The handlers of a modem's body run on the modem's thread, on the endpoint's and
    on the engines'.  [step] interleaves any number of them at the calls where the
    mutex is not held, with any answers to their calls. *)
From Stdlib Require Import Ascii String.
From stdpp Require Import strings gmap.
From S2P Require Import Prelude DataStream Dle EngineBase Profile AtText ModemBase ModemCalls AtBase AtClass.
From S2P Require Import AtDial AtCmd ModemData ModemCheck ModemSpec ModemSafe AtSafe.

(** ** Data *)

Lemma safe_echo text bresp : safe (echo text bresp).
Proof. unfold echo. safe_tac. Qed.
Lemma safe_add_to_cmd text : safe (add_to_cmd text).
Proof. unfold add_to_cmd. safe_tac. Qed.
#[export] Hint Resolve safe_echo safe_add_to_cmd : safe.

Lemma safe_line_turn buf bresp : safe (line_turn buf bresp).
Proof. unfold line_turn. safe_tac. Qed.
#[export] Hint Resolve safe_line_turn : safe.

Lemma safe_line_loop n : forall buf bresp, safe (line_loop n buf bresp).
Proof. induction n as [|n IH]; intros; simpl; safe_tac; auto. Qed.
#[export] Hint Resolve safe_line_loop : safe.

Lemma safe_data_command buf bresp : safe (data_command buf bresp).
Proof. unfold data_command. safe_tac. Qed.

Lemma safe_more_frames dt buf : safe (modify (fun s =>
  if more_frames dt (dataCount s) buf then s <| moreFrames := true |> else s)).
Proof. apply safe_modify; intros s; destruct (more_frames _ _ _); done || by repeat split. Qed.
#[export] Hint Resolve safe_data_command safe_more_frames : safe.

Lemma safe_send_octets dt buf : safe (send_octets dt buf).
Proof. unfold send_octets. engine_tac. Qed.
Lemma safe_stop_sending : safe stop_sending.
Proof. unfold stop_sending. engine_tac. Qed.
#[export] Hint Resolve safe_send_octets safe_stop_sending : safe.

Lemma safe_send_turn dt u : safe (send_turn dt u).
Proof.
  unfold send_turn, take_data. apply safe_first.
  - apply safe_first; [auto with safe|]. intros d. destruct (pipe_get _ _) as [[count buf] p]. safe_tac.
  - intros [count buf]. safe_tac.
Qed.
#[export] Hint Resolve safe_send_turn : safe.

Lemma safe_data_send buf : safe (data_send buf).
Proof.
  unfold data_send. apply safe_first; [auto with safe|]. intros d. destruct (PutDleData _ _). safe_tac.
Qed.

Lemma safe_reset_engine : safe reset_engine.
Proof. unfold reset_engine. engine_tac. Qed.
#[export] Hint Resolve safe_data_send safe_reset_engine : safe.
Lemma safe_data_reset_ack : safe data_reset_ack.
Proof. unfold data_reset_ack. safe_tac. Qed.
Lemma safe_data_reset bresp : safe (data_reset bresp).
Proof. unfold data_reset. safe_tac. Qed.
#[export] Hint Resolve safe_data_reset_ack safe_data_reset : safe.

Lemma safe_data_turn buf bresp : safe (data_turn buf bresp).
Proof. unfold data_turn. safe_tac. Qed.
#[export] Hint Resolve safe_data_turn : safe.

Lemma safe_HandleData buf bresp : safe (HandleData buf bresp).
Proof. apply safe_loop. intros [b r]. safe_tac. Qed.
#[export] Hint Resolve safe_HandleData : safe.

(** ** Polling *)

Lemma safe_poll_busy bresp : safe (poll_busy bresp).
Proof. unfold poll_busy. safe_tac. Qed.
Lemma safe_caller_id : safe caller_id.
Proof. unfold caller_id. safe_tac. Qed.
#[export] Hint Resolve safe_poll_busy safe_caller_id : safe.

Lemma safe_ring_count n : safe (modify (fun s => s <| P := set_reg rRingCount (P s) n |>)).
Proof. apply (safe_profile (fun p => set_reg rRingCount p n)). auto with profile. Qed.
#[export] Hint Resolve safe_ring_count : safe.

Lemma safe_ring : safe ring.
Proof. unfold ring. engine_tac. Qed.
#[export] Hint Resolve safe_ring : safe.
Lemma safe_poll_ring bresp : safe (poll_ring bresp).
Proof. unfold poll_ring. safe_tac. Qed.

Lemma safe_no_carrier_on_hook : safe no_carrier_on_hook.
Proof. unfold no_carrier_on_hook. safe_tac. Qed.
#[export] Hint Resolve safe_poll_ring safe_no_carrier_on_hook : safe.

Lemma safe_poll_timeout resp : safe (poll_timeout resp).
Proof. unfold poll_timeout. engine_tac. Qed.
Lemma safe_poll_input e bresp : safe (poll_input e bresp).
Proof. unfold poll_input. safe_tac. Qed.
Lemma safe_poll_release resp : safe (poll_release resp).
Proof. unfold poll_release. safe_tac. Qed.
#[export] Hint Resolve safe_poll_timeout safe_poll_input safe_poll_release : safe.

(** ** The states of a connection *)

Lemma offhook_SetSubState n : triple offhook (SetSubState n) (fun _ => offhook).
Proof.
  apply hoare_read. intros s Hs. apply hoare_when; [|by intros _ s' <-]. intros ?.
  eapply hoare_bind; [|intros; by apply triple_ask].
  apply triple_modify. intros s' <-. split; [by repeat split|]. split; [by left|done].
Qed.

Lemma offhook_SendOnIdle dt : triple offhook (SendOnIdle dt) (fun _ => offhook).
Proof.
  apply hoare_gets. intros s Hs. destruct (bool_decide _); [by apply hoare_ret; intros s' <-|].
  apply (hoare_weaken _ offhook _ _ (fun _ => offhook)); [|by intros s' <-|done].
  assert (forall e, triple offhook (let* a := gets (active e) in whenM a (ask (EngineSendOnIdle e dt)))
    (fun _ => offhook)) as He.
  { intros e. apply hoare_gets. intros s' Hs'. apply hoare_when; [|by intros _ s'' <-]. intros _.
    eapply hoare_weaken; [by apply (offhook_ask (EngineSendOnIdle e dt))|by intros s'' <-|done]. }
  eapply hoare_bind; [apply offhook_modify; same_core_tac|]. intros ?.
  eapply hoare_bind; [apply He|]. intros ?. apply He.
Qed.

Lemma offhook_read {A} (f : modem -> M A) Post :
  (forall s, triple offhook (f s) Post) -> triple offhook (bind_first getM f) Post.
Proof. intros H. apply hoare_read. intros s Hs. eapply hoare_weaken; [apply H|by intros s' <-|done]. Qed.

Lemma offhook_gets {A B} (g : modem -> A) (f : A -> M B) Post :
  (forall a, triple offhook (f a) Post) -> triple offhook (bind_first (gets g) f) Post.
Proof. intros H. apply hoare_gets. intros s Hs. eapply hoare_weaken; [apply H|by intros s' <-|done]. Qed.

(** [off_tac]: the parts of a handler one by one, with the line off-hook, until the
    rest is safe without it. *)
Ltac off_step :=
  match goal with
  | |- triple offhook (bind_first getM _) _ => apply offhook_read; intros ?
  | |- triple offhook (bind_first (gets _) _) _ => apply offhook_gets; intros ?
  | |- triple offhook (mbind _ (modify _)) _ =>
      eapply hoare_bind; [apply offhook_modify; same_core_tac|intros ?]
  | |- triple offhook (mbind _ (timer_start _ _)) _ => eapply hoare_bind; [apply offhook_timer_start|intros ?]
  | |- triple offhook (mbind _ (timer_stop _)) _ => eapply hoare_bind; [apply offhook_timer_stop|intros ?]
  | |- triple offhook (mbind _ (SetState_sub _ _)) _ => eapply hoare_bind; [apply offhook_SetState_sub|intros ?]
  | |- triple offhook (mbind _ (SetState _)) _ => eapply hoare_bind; [apply offhook_SetState_sub|intros ?]
  | |- triple offhook (mbind _ (SetSubState _)) _ => eapply hoare_bind; [apply offhook_SetSubState|intros ?]
  | |- triple offhook (mbind _ (whenM ?b (SendOnIdle _))) _ =>
      apply (hoare_bind _ _ _ (fun _ => offhook));
      [apply hoare_when; [intros _; apply offhook_SendOnIdle|done]|intros ?]
  | |- triple offhook (if ?b then _ else _) _ => destruct b
  | |- triple offhook (match ?x with _ => _ end) _ => destruct x
  | |- triple offhook _ _ => solve [apply triple_any; engine_tac]
  end.
Ltac off_tac := repeat (off_step || cbv beta).

Abbreviation off_safe m := (triple offhook m (fun _ _ => True)).

Lemma off_request_mode : off_safe request_mode.
Proof. unfold request_mode. off_tac. Qed.

Lemma off_connection_established bresp : off_safe (connection_established bresp).
Proof.
  unfold connection_established. off_tac. eapply hoare_first; [apply off_request_mode|]. rest.
Qed.

Lemma off_tone_played bresp : off_safe (tone_played bresp).
Proof. unfold tone_played. off_tac. apply off_connection_established. Qed.

Lemma safe_play_tone tones : safe (play_tone tones).
Proof. unfold play_tone. safe_tac. Qed.
#[export] Hint Resolve safe_play_tone : safe.

Lemma off_audio_attached bresp : off_safe (audio_attached bresp).
Proof. unfold audio_attached. off_tac. apply off_tone_played. Qed.

Lemma off_on_connect bresp : off_safe (on_connect bresp).
Proof.
  unfold on_connect. off_tac;
    apply off_audio_attached || apply off_tone_played || apply off_connection_established.
Qed.

Lemma off_on_dial : off_safe on_dial.
Proof.
  apply hoare_gets. intros s Hs. case_bool_decide as Hc; simpl.
  - eapply hoare_first; [|rest]. eapply hoare_bind.
    { apply set_call_offhook; [done|by rewrite Hc|unfold view_of; rewrite Hs, Hc; constructor|done]. }
    intros ?. off_tac.
  - apply (hoare_first _ _ _ (fun _ _ => True)); [by apply hoare_ret|]. rest.
Qed.

(** ** The states of a fax or voice command *)

Lemma safe_on_req_mode_ack : safe on_req_mode_ack.
Proof. unfold on_req_mode_ack. safe_tac. Qed.
Lemma safe_on_send_ack : safe on_send_ack.
Proof. unfold on_send_ack. safe_tac. Qed.
Lemma safe_fail_command : safe fail_command.
Proof. unfold fail_command. safe_tac. Qed.
#[export] Hint Resolve safe_on_req_mode_ack safe_on_send_ack safe_fail_command : safe.
Lemma safe_recv_begun e : safe (recv_begun e).
Proof. unfold recv_begun. safe_tac. Qed.
#[export] Hint Resolve safe_recv_begun : safe.
Lemma safe_on_recv_beg : safe on_recv_beg.
Proof. unfold on_recv_beg. engine_tac. Qed.

Lemma safe_on_stream f : safe (on_stream f).
Proof. unfold on_stream. safe_tac. Qed.
#[export] Hint Resolve safe_on_recv_beg safe_on_stream : safe.
Lemma safe_recv_eof e : safe (recv_eof e).
Proof. unfold recv_eof, dle_put. safe_tac. Qed.
Lemma safe_recv_fax octets bresp : safe (recv_fax octets bresp).
Proof. unfold recv_fax, dle_put, raw_connect. safe_tac. Qed.
Lemma safe_recv_voice octets : safe (recv_voice octets).
Proof. unfold recv_voice, dle_put. safe_tac. Qed.
#[export] Hint Resolve safe_recv_eof safe_recv_fax safe_recv_voice : safe.
Lemma safe_recv_turn bresp : safe (recv_turn bresp).
Proof. unfold recv_turn. safe_tac. Qed.

Lemma safe_shield_turn bresp : safe (shield_turn bresp).
Proof.
  unfold shield_turn, recv_result. apply safe_first; [auto with safe|]. intros d.
  destruct (GetDleData _ _) as [[count out] d']. safe_tac.
Qed.
#[export] Hint Resolve safe_recv_turn safe_shield_turn : safe.

Lemma safe_on_recv bresp : safe (on_recv bresp).
Proof. unfold on_recv. safe_tac. Qed.
#[export] Hint Resolve safe_on_recv : safe.

(** ** The handlers *)

Lemma gets_hooked {A B} (g : modem -> A) (f : A -> M B) Pre Post :
  (forall s, Pre s -> hooked s -> triple (eq s) (f (g s)) Post) -> triple Pre (bind_first (gets g) f) Post.
Proof. intros H own o d s0 s Hc Hp. apply (H s); [done|exact (good_hook _ _ (clean_good _ _ _ _ _ Hc))|done|done]. Qed.

Lemma safe_state_turn bresp resp : safe (state_turn bresp resp).
Proof.
  apply (triple_safe _ (fun _ _ => True)), gets_hooked. intros s _ Hh.
  assert (connecting (state s) = true -> forall A (m : M A), off_safe m -> triple (eq s) m (fun _ _ => True)) as Ho.
  { intros Hst A m Hm. apply (hoare_weaken _ offhook _ _ (fun _ _ => True)); [done| |done]. intros s' <-. by apply Hh. }
  destruct (state s) eqn:Es; try rest; (eapply hoare_first; [by apply Ho; auto using off_on_dial, off_on_connect|rest]).
Qed.
#[export] Hint Resolve safe_state_turn : safe.

Lemma safe_CheckState bresp : safe (CheckState bresp).
Proof. unfold CheckState. safe_tac. Qed.

Lemma safe_post_engine e : safe (post_engine e).
Proof. unfold post_engine. safe_tac. Qed.
#[export] Hint Resolve safe_CheckState safe_post_engine : safe.
Lemma safe_CheckStatePost : safe CheckStatePost.
Proof. unfold CheckStatePost. safe_tac. Qed.

Lemma safe_main_input bresp : safe (main_input bresp).
Proof. unfold main_input. safe_tac. Qed.
#[export] Hint Resolve safe_CheckStatePost safe_main_input : safe.
Lemma safe_main_turn : safe main_turn.
Proof. unfold main_turn. safe_tac. Qed.
#[export] Hint Resolve safe_main_turn : safe.

Lemma safe_Main : safe Main.
Proof. unfold Main, OnParentStop. safe_tac. Qed.
#[export] Hint Resolve safe_Main : safe.

(** ** The threads of a modem *)

(** ** The system *)

(** The handlers that the other objects call. *)
Inductive entry : Type :=
  | ERequest (r : request)
  | ENewPtrEngine (e : mce)
  | EParentStop
  | EDestroy
  | EEngineCallback (extra : Z)
  | ETimerCallback
  | EIsReady
  | EIsOutBufFull
  | EHandleData (buf bresp : list Z)
  | ECheckState (bresp : list Z)
  | ECheckStatePost
  | EMain.

Definition handler (h : entry) : M unit :=
  match h with
  | ERequest r => Request r ;; mret tt
  | ENewPtrEngine e => NewPtrEngine e ;; mret tt
  | EParentStop => OnParentStop
  | EDestroy => destroy
  | EEngineCallback extra => OnEngineCallback extra
  | ETimerCallback => OnTimerCallback
  | EIsReady => IsReady ;; mret tt
  | EIsOutBufFull => isOutBufFull ;; mret tt
  | EHandleData buf bresp => HandleData buf bresp ;; mret tt
  | ECheckState bresp => CheckState bresp ;; mret tt
  | ECheckStatePost => CheckStatePost
  | EMain => Main
  end.

(** The handler that runs, if one does, the handlers that wait, at a call that
    releases the mutex or at their beginning, and the state of the body as it was
    at the last call. *)
Record system := {
  running : option (prog unit);
  waiting : list (modem -> prog unit);
  body : modem;
}.

Inductive step : system -> system -> Prop :=
  | step_enter r w s h :
      step {| running := r; waiting := w; body := s |} {| running := r; waiting := handler h :: w; body := s |}
  | step_resume w1 t w2 s :
      step {| running := None; waiting := w1 ++ t :: w2; body := s |}
           {| running := Some (t s); waiting := w1 ++ w2; body := s |}
  | step_call c s k w s0 x : releases c = false ->
      step {| running := Some (Vis c s k); waiting := w; body := s0 |}
           {| running := Some (k x s); waiting := w; body := s |}
  | step_release c s k w s0 x : releases c = true ->
      step {| running := Some (Vis c s k); waiting := w; body := s0 |}
           {| running := None; waiting := k x :: w; body := s |}
  | step_done s w s0 :
      step {| running := Some (Done tt s); waiting := w; body := s0 |}
           {| running := None; waiting := w; body := s |}.

(** A body that has just been made, with no handler in it. *)
Inductive starts : system -> Prop :=
  | start_new css ss p dc after now mf : starts
      {| running := None; waiting := []; body := modem_new css ss p dc after now mf |}.

Definition reachable (c : system) : Prop := exists c0, starts c0 /\ rtc step c0 c.

(** ** The invariant *)

Lemma safe_handler h : safe (handler h).
Proof.
  destruct h; simpl; try (apply safe_bind; [|intros ?; apply safe_ret]);
    auto with safe; try exact safe_signal.
  - apply safe_NewPtrEngine.
  - unfold OnParentStop. safe_tac.
  - unfold destroy. safe_tac.
Qed.

(** What a handler keeps when it ends. *)
Definition ended (o : Z) (d : nat) (s0 : modem) (_ : unit) (s : modem) : Prop := clean 0 o d s0 s.

(** A handler that waits: what it owes and how many of the releases are its own. *)
Record claim := { owed : nat; held : Z }.

Definition waits (c : claim) (t : modem -> prog unit) : Prop :=
  0 <= held c /\
  forall s o d, good (d + owed c) s -> 0 <= o -> lockReleasingState s = o + held c -> wp o d s (t s) ended.

Definition owed_all (l : list claim) : nat := list_sum (map owed l).
Definition held_all (l : list claim) : Z := foldr Z.add 0 (map held l).

Definition consistent (c : system) : Prop :=
  exists claims, Forall2 waits claims (waiting c) /\
    match running c with
    | None => good (owed_all claims) (body c) /\ lockReleasingState (body c) = held_all claims
    | Some p => wp (held_all claims) (owed_all claims) (body c) p ended
    end.

Lemma owed_all_middle l1 c l2 : owed_all (l1 ++ c :: l2) = (owed_all (l1 ++ l2) + owed c)%nat.
Proof. unfold owed_all. rewrite !map_app. simpl. rewrite !list_sum_app. simpl. lia. Qed.

Lemma held_all_cons c l : held_all (c :: l) = held c + held_all l.
Proof. done. Qed.

Lemma held_all_middle l1 c l2 : held_all (l1 ++ c :: l2) = held_all (l1 ++ l2) + held c.
Proof. induction l1 as [|x l1 IH]; simpl; rewrite ?held_all_cons; lia. Qed.

Lemma held_all_nonneg claims w : Forall2 waits claims w -> 0 <= held_all claims.
Proof. induction 1 as [|c t claims w [Hc _] _ IH]; [done|]. rewrite held_all_cons. lia. Qed.

Definition no_claim : claim := {| owed := 0; held := 0 |}.

Lemma waits_handler h : waits no_claim (handler h).
Proof.
  split; [done|]. intros s o d Hg Ho E. apply (safe_handler h 0%nat). split; [done|cbn in E; lia|done].
Qed.

Lemma consistent_start c : starts c -> consistent c.
Proof.
  intros []. exists []. split; [constructor|]. split; [|done].
  split; try done.
Qed.

Lemma consistent_step c c' : step c c' -> consistent c -> consistent c'.
Proof.
  intros [r w s h|w1 t w2 s|x s k w s0 a Hx|x s k w s0 a Hx|s w s0] (claims & Hw & Hr); simpl in *.
  - exists (no_claim :: claims). split; [constructor; [apply waits_handler|done]|].
    exact Hr.
  - apply Forall2_app_inv_r in Hw as (l1 & l2' & H1 & H2 & ->).
    apply Forall2_cons_inv_r in H2 as (cl & l2 & [Hc Ht] & H2 & ->). destruct Hr as [Hg Hl].
    assert (Forall2 waits (l1 ++ l2) (w1 ++ w2)) as Hw by by apply Forall2_app.
    exists (l1 ++ l2). split; [done|]. simpl. apply Ht.
    + by rewrite <- owed_all_middle.
    + by eapply held_all_nonneg.
    + by rewrite <- held_all_middle.
  - exists claims. split; [done|]. simpl. rewrite Hx in Hr. by destruct Hr as [_ H].
  - rewrite Hx in Hr. destruct Hr as (_ & own & Hg & Hl & H).
    exists ({| owed := own; held := lockReleasingState s - held_all claims |} :: claims).
    simpl. split; [constructor; [split; simpl; [lia|]|done]|].
    + intros s' o d Hg' Ho E. apply H; [done|done|lia].
    + rewrite held_all_cons. simpl. split; [|lia].
      replace (owed_all _) with (owed_all claims + own)%nat; [done|]. unfold owed_all. simpl. lia.
  - destruct Hr as [Hg Hl _]. exists claims. split; [done|]. rewrite Nat.add_0_r in Hg. by split.
Qed.

Lemma reachable_consistent c : reachable c -> consistent c.
Proof.
  intros (c0 & H0 & Hc). apply consistent_start in H0.
  induction Hc as [|c1 c2 c3 Hs _ IH]; [done|]. by apply IH, (consistent_step c1).
Qed.

(** ** One handler after another *)

Lemma reachable_step c c' : reachable c -> step c c' -> reachable c'.
Proof. intros (c0 & H0 & Hc) Hs. exists c0. split; [done|]. by eapply rtc_r. Qed.

Lemma reachable_run E p : alone E -> forall h s0 s h',
  run E h p = (Returned tt s, h') -> reachable {| running := Some p; waiting := []; body := s0 |} ->
  reachable {| running := None; waiting := []; body := s |}.
Proof.
  intros HE. induction p as [[] s1| | |c s1 k IH]; intros h s0 s h' Hr Hc; simpl in Hr; try done.
  - injection Hr as -> ->. eapply reachable_step; [exact Hc|constructor].
  - unfold resume in Hr. destruct (releases c) eqn:Ec.
    + rewrite HE in Hr. eapply IH; [exact Hr|]. eapply reachable_step.
      * eapply reachable_step; [exact Hc|]. by apply (step_release c s1 k [] s0 (reply E h c s1)).
      * apply (step_resume [] _ []).
    + eapply IH; [exact Hr|]. eapply reachable_step; [exact Hc|]. by apply step_call.
Qed.

(** The handlers [l], each to its end before the next, in the quiet environment. *)
Fixpoint in_turn (l : list entry) (s : modem) : option modem :=
  match l with
  | [] => Some s
  | h :: l => match run quiet [] (handler h s) with (Returned _ s, _) => in_turn l s | _ => None end
  end.

Lemma reachable_begun h s : reachable {| running := None; waiting := []; body := s |} ->
  reachable {| running := Some (handler h s); waiting := []; body := s |}.
Proof.
  intros Hc. eapply reachable_step; [by eapply reachable_step; [exact Hc|apply (step_enter None [] s h)]|].
  apply (step_resume [] _ []).
Qed.

Lemma reachable_in_turn l s : in_turn l no_modem = Some s ->
  reachable {| running := None; waiting := []; body := s |}.
Proof.
  assert (reachable {| running := None; waiting := []; body := no_modem |}) as H
    by (eexists; split; [apply start_new|apply rtc_refl]).
  revert H. generalize no_modem. induction l as [|h l IH]; intros s0 H; simpl; [by intros [= <-]|].
  destruct (run quiet [] (handler h s0)) as [[[] s1| |] h1] eqn:E; try done.
  apply IH. by eapply reachable_run, reachable_begun; [apply quiet_alone|exact E|].
Qed.

(** The handler after its next call. *)
Definition next_call (r : prog unit * modem) : prog unit * modem :=
  match r.1 with Vis c s k => (k (reply quiet [] c s) s, s) | _ => r end.

Definition at_call (r : prog unit * modem) : system :=
  {| running := Some r.1; waiting := []; body := r.2 |}.

Lemma reachable_calls n r : reachable (at_call r) -> reachable (at_call (Nat.iter n next_call r)).
Proof.
  intros H. induction n as [|n IH]; [done|]. simpl. revert IH. destruct (Nat.iter n next_call r) as [p s0].
  intros Hc. unfold next_call, at_call in *. destruct p as [| | |c s k]; try done. simpl in *.
  destruct (releases c) eqn:Ec.
  - eapply reachable_step; [|apply (step_resume [] _ [])].
    eapply reachable_step; [exact Hc|]. by apply (step_release c s k [] s0 (reply quiet [] c s)).
  - eapply reachable_step; [exact Hc|]. by apply step_call.
Qed.

Definition keeps_mutex (p : prog unit) : bool := match p with Vis c _ _ => negb (releases c) | _ => false end.

Lemma step_next r : keeps_mutex r.1 = true -> step (at_call r) (at_call (next_call r)).
Proof.
  destruct r as [[| | |c s k] s0]; simpl; try done. intros H%negb_true_iff.
  unfold at_call, next_call. simpl. by apply step_call.
Qed.

(** A call comes, is answered by its user, is established, and is cleared. *)
Definition to_modem (command : list Z) : entry :=
  ERequest (req_set "command" command (req_set "calltoken" (str "c1") ∅)).
Definition a_call : list entry :=
  [to_modem (str "call"); EHandleData (str "ATA" ++ [13]) []; to_modem (str "established")].

(** ** The theorems *)

(** C2: in any interleaving of any handlers of a modem, with any answers of what they
    call, a change of the hook and of the state of the call that the log sees is one
    of the table at enum CallState, a line that has gone on-hook clearing its call by
    way of [cstReleasing]. *)
Theorem call_table c c' : reachable c -> step c c' -> call_step (view_of (body c)) (view_of (body c')).
Proof.
  intros Hc Hs. apply reachable_consistent in Hc as (claims & Hw & Hr).
  destruct Hs as [| |x s k w s0 a Hx|x s k w s0 a Hx|s w s0]; simpl in *; try apply step_none.
  - by destruct Hr.
  - by destruct Hr.
  - rewrite <- (clean_view _ _ _ _ _ Hr). apply step_none.
Qed.

(** The call of [a_call] is cleared by the other side. *)
Lemma call_table_witness : exists c c', reachable c /\ step c c' /\
  view_of (body c) = (true, cstEstablished) /\ view_of (body c') = (true, cstReleasing) /\
  call_step (view_of (body c)) (view_of (body c')).
Proof.
  set (s := default no_modem (in_turn a_call no_modem)).
  set (r := Nat.iter 1 next_call (handler (to_modem (str "clearcall")) s, s)).
  assert (reachable (at_call r)) as Hr.
  { apply reachable_calls, reachable_begun, (reachable_in_turn a_call). by vm_compute. }
  assert (step (at_call r) (at_call (next_call r))) as Hs by (apply step_next; by vm_compute).
  exists (at_call r), (at_call (next_call r)).
  repeat (split; [done || by vm_compute|]). exact (call_table _ _ Hr Hs).
Defined.

(** C6: no handler ever faults: whatever text the modem's user sends and however the
    handlers interleave, no AT command reads outside the command line, and the loops
    on its text end. *)
Theorem never_faults c : reachable c -> running c <> Some Fault.
Proof. intros Hc E. apply reachable_consistent in Hc as (claims & Hw & Hr). by rewrite E in Hr. Qed.

(** A line that runs into its terminator after a [+], and one of tones without an end. *)
Lemma never_faults_witness : exists p, reachable {| running := Some p; waiting := []; body := no_modem |} /\
  p = handler (EHandleData (str "AT+" ++ [13] ++ str "AT+VTS=[" ++ [13]) []) no_modem /\ p <> Fault.
Proof.
  set (h := EHandleData (str "AT+" ++ [13] ++ str "AT+VTS=[" ++ [13]) []).
  assert (reachable {| running := Some (handler h no_modem); waiting := []; body := no_modem |}) as Hr
    by by apply reachable_begun, (reachable_in_turn []).
  exists (handler h no_modem). split; [exact Hr|]. split; [done|].
  intros E. apply (never_faults _ Hr). exact (f_equal Some E).
Defined.

(** C9: whenever the mutex is free, the engine of the modem's class is the engine that
    the class has, if it is attached, and the line is off-hook in the states of a
    connection; with no handler in the body, no release of a call is under way and an
    on-hook line has no call that is being released. *)
Theorem free_body c : reachable c -> running c = None ->
  currentClassEngine (body c) = class_engine (body c) /\
  (connecting (state (body c)) = true -> off_hook (body c) = true) /\
  (waiting c = [] -> lockReleasingState (body c) = 0 /\
    (callState (body c) = cstReleasing -> off_hook (body c) = true)).
Proof.
  intros Hc E. apply reachable_consistent in Hc as (claims & Hw & Hr). rewrite E in Hr.
  destruct Hr as [[? ? Hrel ? ?] Hl]. split_and!; [done|done|]. intros Ew. rewrite Ew in Hw.
  apply Forall2_nil_inv_r in Hw as ->. split; [done|]. intros Hcs.
  destruct (off_hook (body c)) eqn:Eh; [done|]. destruct (Hrel Hcs eq_refl) as [H|H]; rewrite ?Hl in H; cbn in H; lia.
Qed.

(** After the call of [a_call] has been cleared by the other side and hung up. *)
Lemma free_body_witness : exists s, in_turn (a_call ++ [to_modem (str "clearcall"); ECheckState []]) no_modem = Some s /\
  view_of s = (false, cstCleared) /\ lockReleasingState s = 0.
Proof.
  set (s := default no_modem (in_turn (a_call ++ [to_modem (str "clearcall"); ECheckState []]) no_modem)).
  assert (in_turn (a_call ++ [to_modem (str "clearcall"); ECheckState []]) no_modem = Some s) as Es by by vm_compute.
  exists s. split; [exact Es|]. split; [by vm_compute|].
  destruct (free_body _ (reachable_in_turn _ _ Es) eq_refl) as (_ & _ & H). by apply H.
Defined.
