(* ===== verification/AtRegs.v ===== *)
(** * Setting and reading an S-register (src/t38modem/pmodeme.cxx)

    A command line on a modem with no other handler in it: what the commands [Sr=v]
    and [Sr?] do, from the text of the line to the text of the answer. *)
From Stdlib Require Import Ascii String.
From stdpp Require Import strings gmap.
From S2P Require Import Prelude Dle EngineBase Profile AtText ModemBase ModemCalls AtBase AtClass AtDial AtCmd.
From S2P Require Import ModemSpec AtSafe.

(** ** Parts of a line *)

(** A part of a command line: the variables and the state it leaves. *)
Definition does {A} (m : C A) (l : cmdline) (s : modem) (a : A) (l' : cmdline) (s' : modem) : Prop :=
  gives (m l s) (a, l') s'.

Lemma does_bind {A B} (m : C A) (f : A -> C B) l s a l1 s1 b l2 s2 :
  does m l s a l1 s1 -> does (f a) l1 s1 b l2 s2 -> does (mbind f m) l s b l2 s2.
Proof. intros Hm Hf. by eapply gives_bind. Qed.

Lemma does_first {A B} (m : C A) (f : A -> C B) l s a l1 s1 b l2 s2 :
  does m l s a l1 s1 -> does (f a) l1 s1 b l2 s2 -> does (bind_first m f) l s b l2 s2.
Proof. apply does_bind. Qed.

Lemma does_ret {A} (a : A) l s : does (mret a) l s a l s.
Proof. apply gives_done. Qed.
Lemma does_local l s : does local l s l l s.
Proof. apply gives_done. Qed.
Lemma does_set f l s : does (set_local f) l s tt (f l) s.
Proof. apply gives_done. Qed.
Lemma does_getC {A} (f : modem -> A) l s : does (getC f) l s (f s) l s.
Proof. apply gives_done. Qed.
Lemma does_modify f l s : does (lift (modify f)) l s tt l (f s).
Proof. apply gives_done. Qed.
Lemma does_acquire l s : does (lift (ask Acquire)) l s tt l s.
Proof. apply gives_call. intros []. apply gives_done. Qed.
Lemma does_unlocked l s : does (lift (ask Unlocked)) l s tt l s.
Proof. apply gives_call. intros []. apply gives_done. Qed.

(** The line with its pointer at a text. *)
Definition at_ (l : cmdline) (b t : list Z) : cmdline := l <| cur := {| bef := b; aft := t; past := false |} |>.

Lemma does_next x l b t s : does next (at_ l b (x :: t)) s x (at_ l (x :: b) t) s.
Proof. apply gives_done. Qed.
Lemma does_peek x l b t s : does peek (at_ l b (x :: t)) s x (at_ l b (x :: t)) s.
Proof. apply gives_done. Qed.
Lemma does_peek_end l b s : does peek (at_ l b []) s 0 (at_ l b []) s.
Proof. apply gives_done. Qed.

(** ** The two commands *)

(** The numbers of [Sr=v], as the user writes them. *)
Definition octet_text (t : list Z) : Prop := digits t /\ 1 <= zlen t <= 3 /\ value t <= 255.

Lemma does_octet t rest l b s : octet_text t -> no_digit rest ->
  does (num 1 3 255 0) (at_ l b (t ++ rest)) s (value t) (at_ l (rev t ++ b) rest) s.
Proof.
  intros (Hd & Hl & Hv) Hr. unfold does, num. simpl.
  rewrite parse_num_spec by done.
  rewrite (proj2 (Z.ltb_ge (zlen t) 1)), (proj2 (Z.ltb_ge 3 (zlen t))), (proj2 (Z.ltb_ge 255 (value t))),
    (proj2 (Z.eqb_neq (zlen t) 0)) by lia. apply gives_done.
Qed.

Lemma value_nonneg t : digits t -> 0 <= value t.
Proof. intros Hd. pose proof (value_from_bound t 0 Hd ltac:(lia)). unfold value. lia. Qed.

Lemma octet_range t : octet_text t -> 0 <= value t <= 255.
Proof. intros (Hd & _ & Hv). by pose proof (value_nonneg t Hd). Qed.

Lemma does_set_register r v rest l b s :
  octet_text r -> octet_text v -> no_digit rest -> value r < PROFILE_SIZE ->
  exists b', does command (at_ l b (chr "S" :: r ++ chr "=" :: v ++ rest)) s tt (at_ l b' rest)
    (s <| P := set_reg (value r) (P s) (value v) |>).
Proof.
  intros Hr Hv Hrest Hn. pose proof (octet_range r Hr). pose proof (octet_range v Hv).
  eexists. eapply does_first; [apply does_next|]. eapply does_first; [by apply does_octet|].
  rewrite (proj2 (Z.ltb_ge (value r) 0)) by lia.
  eapply does_first; [apply does_next|]. cbn [Z.eqb]. eapply does_first; [by apply does_octet|].
  eapply does_bind; [apply does_acquire|]. rewrite (proj2 (Z.ltb_ge (value v) 0)) by lia.
  eapply does_first; [apply does_getC|]. eapply does_bind; [apply does_modify|].
  replace (SetReg (P s) (value r) (u8 (value v))).1 with true
    by (unfold SetReg, ChkR; by rewrite (proj2 (Z.ltb_lt _ _) Hn)).
  apply gives_done.
Qed.

Definition said (text : list Z) (l : cmdline) : cmdline := l <| resp := resp l ++ text |> <| crlf := true |>.

Lemma does_read_register r rest l b s : octet_text r -> value r < PROFILE_SIZE ->
  exists b', does command (at_ l b (chr "S" :: r ++ chr "?" :: rest)) s tt
    (at_ (said (CRLF ++ print_u3 (get_reg (value r) (P s))) l) b' rest) s.
Proof.
  intros Hr Hn. pose proof (octet_range r Hr).
  eexists. eapply does_first; [apply does_next|]. eapply does_first; [by apply does_octet|].
  rewrite (proj2 (Z.ltb_ge (value r) 0)) by lia.
  eapply does_first; [apply does_next|]. cbn [Z.eqb].
  eapply does_bind; [apply does_acquire|]. eapply does_first; [apply does_getC|].
  unfold get_reg, GetReg, ChkR. rewrite (proj2 (Z.ltb_lt _ _) Hn). apply gives_done.
Qed.

(** ** The loop *)

(** The body of [commands]. *)
Definition one_command (_ : unit) : C (unit + unit) :=
  lift (ask Unlocked) ;;
  let* st := getC state in
  let* l := local in
  if negb (bool_decide (st = stCommand)) || err l then mret (inr tt)
  else
    let* c := peek in
    if c =? 0 then mret (inr tt) else command ;; mret (inl tt).

Lemma does_one_command x l b t s l' s' : state s = stCommand -> err l = false -> x <> 0 ->
  does command (at_ l b (x :: t)) s tt l' s' -> does (one_command tt) (at_ l b (x :: t)) s (inl tt) l' s'.
Proof.
  intros Hs He Hx Hc. eapply does_bind; [apply does_unlocked|].
  eapply does_first; [apply does_getC|]. eapply does_first; [apply does_local|].
  rewrite (bool_decide_eq_true_2 _ Hs). cbn [negb orb]. replace (err _) with false by done.
  eapply does_first; [apply does_peek|]. rewrite (proj2 (Z.eqb_neq x 0) Hx).
  eapply does_bind; [exact Hc|]. apply does_ret.
Qed.

Lemma does_no_command l b s : state s = stCommand -> err l = false ->
  does (one_command tt) (at_ l b []) s (inr tt) (at_ l b []) s.
Proof.
  intros Hs He. eapply does_bind; [apply does_unlocked|].
  eapply does_first; [apply does_getC|]. eapply does_first; [apply does_local|].
  rewrite (bool_decide_eq_true_2 _ Hs). cbn [negb orb]. replace (err _) with false by done.
  eapply does_first; [apply does_peek_end|]. apply does_ret.
Qed.

Lemma does_turn {A B} n (body : A -> C (A + B)) a a' l s l1 s1 r l2 s2 :
  does (body a) l s (inl a') l1 s1 -> does (text_turns n body a') l1 s1 r l2 s2 ->
  does (text_turns (S n) body a) l s r l2 s2.
Proof. intros H1 H2. by eapply does_first; [exact H1|]. Qed.

Lemma does_last_turn {A B} n (body : A -> C (A + B)) a l s r l2 s2 :
  does (body a) l s (inr r) l2 s2 -> does (text_turns (S n) body a) l s r l2 s2.
Proof. intros H1. eapply does_first; [exact H1|]. apply does_ret. Qed.

Lemma does_line_result l s : err l = false -> ok l = true -> crlf l = true ->
  does line_result l s tt (l <| resp := (resp l ++ CRLF) ++ RC_OK s |>) s.
Proof.
  intros He Ho Hc. eapply does_first; [apply does_local|]. rewrite Hc, He, Ho.
  eapply does_bind; [apply does_set|]. apply gives_done.
Qed.

(** The line [Sr=vSr?] and what follows: two turns of the loop and its end. *)
Lemma does_set_then_read r v s :
  octet_text r -> octet_text v -> value r < PROFILE_SIZE -> profile_ok (P s) -> state s = stCommand ->
  let text := chr "S" :: r ++ chr "=" :: v ++ chr "S" :: r ++ [chr "?"] in
  let s' := s <| P := set_reg (value r) (P s) (value v) |> in
  exists b, does commands (at_ (cmdline_of [] []) [] text) s tt
    (at_ (said (CRLF ++ print_u3 (value v)) (cmdline_of [] [])) b []) s'.
Proof.
  intros Hr Hv Hn Hp Hst text s'. pose proof (octet_range r Hr). pose proof (octet_range v Hv).
  destruct (does_set_register r v (chr "S" :: r ++ [chr "?"]) (cmdline_of [] []) [] s) as [b1 H1]; [done..|].
  destruct (does_read_register r [] (cmdline_of [] []) b1 s') as [b2 H2]; [done..|].
  replace (get_reg (value r) (P s')) with (value v) in H2.
  2:{ unfold s'. cbn. rewrite set_get_reg by (done || lia || (unfold is_byte; lia)).
      by rewrite bool_decide_eq_true_2. }
  exists b2. eapply does_first; [apply does_local|].
  assert (exists k, length text = S (S k)) as [k Ek].
  { unfold text. simpl. rewrite !length_app. simpl. rewrite !length_app. eexists. rewrite Nat.add_comm. simpl. done. }
  cbn [cur at_ aft]. change (aft _) with text. rewrite Ek.
  eapply does_turn; [by apply (does_one_command _ _ _ _ _ _ _ Hst); [..|exact H1]|].
  eapply does_turn; [by apply does_one_command; [..|exact H2]|].
  apply does_last_turn. by apply does_no_command.
Qed.

(** All octets, as they are printed. *)
Lemma print_u3_octet v : 0 <= v <= 255 -> octet_text (print_u3 v) /\ value (print_u3 v) = v.
Proof.
  intros Hv. assert (forallb (fun n => let t := print_u3 (Z.of_nat n) in
    forallb isdigit t && (zlen t =? 3) && (value t =? Z.of_nat n)) (seq 0 256) = true) as H by by vm_compute.
  rewrite forallb_forall in H. specialize (H (Z.to_nat v)). rewrite in_seq in H.
  specialize (H ltac:(lia)). cbv zeta in H. rewrite Z2Nat.id in H by lia.
  rewrite !andb_true_iff, !Z.eqb_eq, forallb_forall, <- Forall_forall in H.
  destruct H as [[Hd Hl] Hval]. split; [split; [done|lia]|done].
Qed.

(** C21: after [Sr=v] the register [r] is [v], and [Sr?] on the same line answers [v] in
    three digits, which would set it to [v] again, and OK: for every register and every octet, written with one to three
    digits, in every state of a modem that waits for commands. *)
Theorem set_then_read_register r v s :
  octet_text r -> octet_text v -> value r < PROFILE_SIZE -> profile_ok (P s) -> state s = stCommand ->
  cmdRest s = chr "S" :: r ++ chr "=" :: v ++ chr "S" :: r ++ [chr "?"] ->
  let s' := s <| cmdRest := [] |> <| P := set_reg (value r) (P s) (value v) |> in
  gives (HandleCmdRest [] s) (CRLF ++ print_u3 (value v) ++ CRLF ++ RC_OK s') s' /\
  octet_text (print_u3 (value v)) /\ value (print_u3 (value v)) = value v.
Proof.
  intros Hr Hv Hn Hp Hst Htext s'. split; [|by apply print_u3_octet, octet_range].
  destruct (does_set_then_read r v (s <| cmdRest := [] |>)) as [b H]; [done..|].
  eapply gives_bind; [apply gives_done|]. eapply gives_bind; [apply gives_done|]. rewrite Htext.
  eapply gives_bind.
  - eapply (does_bind commands); [exact H|]. by apply does_line_result.
  - cbn. rewrite <- !app_assoc. apply gives_done.
Qed.

(** S7 of a new modem set to 90. *)
Lemma set_then_read_register_witness :
  let s := no_modem <| cmdRest := str "S7=90S7?" |> in
  let s' := no_modem <| P := set_reg 7 (P no_modem) 90 |> in
  gives (HandleCmdRest [] s) (CRLF ++ str "090" ++ CRLF ++ str "OK" ++ CRLF) s' /\
  octet_text (str "090") /\ value (str "090") = 90.
Proof.
  intros s s'. apply (set_then_read_register (str "7") (str "90") s); try done.
  - by repeat constructor.
  - split; [by repeat constructor|by vm_compute].
  - apply profile_new_ok.
Defined.
