(* ===== verification/DataSend.v ===== *)
(** * Sending the user's data (HandleData of src/t38modem/pmodeme.cxx)

    What the engine of the fax class is given of the octets that the modem's user
    sends in [stSend]: the octets with the DLE shielding taken off, in their order. *)
From Stdlib Require Import Ascii String.
From stdpp Require Import strings gmap.
From S2P Require Import Prelude DataStream Dle EngineBase Profile AtText ModemBase ModemCalls AtBase AtClass.
From S2P Require Import AtDial AtCmd ModemData.

(** ** Runs with their calls *)

(** What the engines have been given, in order; the last call of [h] is its first. *)
Fixpoint sent (h : list call) : list Z :=
  match h with
  | [] => []
  | EngineSend _ octets :: h => sent h ++ octets
  | _ :: h => sent h
  end.

(** Whether an engine has been told to stop. *)
Definition is_stop (c : call) : bool := match c with EngineSendStop _ _ _ => true | _ => false end.
Definition stops (h : list call) : nat := length (List.filter is_stop h).

(** ** One turn *)

Definition fax_ready (e : mce) (s : modem) : Prop :=
  state s = stSend /\ ModemClassId (P s) = mcFax /\ currentClassEngine s = Some e.

(** The octets that wait to be sent. *)
Definition pending (s : modem) : list Z := p_octets (stream (dleData s)).
Definition at_end (s : modem) : bool := p_eof (stream (dleData s)).

Lemma pipe_get_octets p : p_octets p <> [] -> pipe_get p 1024 =
  (zlen (take 1024 (p_octets p)), take 1024 (p_octets p), p <| p_octets := drop 1024 (p_octets p) |>).
Proof. unfold pipe_get. by destruct (p_octets p). Qed.

Lemma pipe_get_none p : p_octets p = [] -> pipe_get p 1024 = (if p_eof p then -1 else 0, [], p).
Proof. unfold pipe_get. by intros ->. Qed.

Lemma take_data_eq s : take_data s = 
  let '(count, buf, p) := pipe_get (stream (dleData s)) 1024 in
  Done (count, buf) (s <| dleData := dleData s <| stream := p |> |>).
Proof. unfold take_data, bind_first, mbind, M_bind. simpl. by destruct (pipe_get _ _) as [[count buf] p]. Qed.

(** The engine has the octets; the counter and the mark of more frames change. *)
Lemma run_send_octets E h dt buf e s : fax_ready e s -> exists s',
  run E h (send_octets dt buf s) = (Returned (zlen buf) s', EngineSend e buf :: h) /\
  fax_ready e s' /\ dleData s' = dleData s.
Proof.
  intros (Hst & Hc & He). unfold send_octets, with_engine, bind_first, mbind, M_bind.
  set (s1 := if more_frames dt (dataCount s) buf then s <| moreFrames := true |> else s).
  assert (fax_ready e s1 /\ dleData s1 = dleData s) as [(Hst1 & Hc1 & He1) Hd]
    by (unfold s1; by destruct (more_frames _ _ _)).
  simpl. fold s1. rewrite Hc1. simpl. rewrite He1. simpl. eexists. split; [done|]. by repeat split.
Qed.

(** A turn with octets. *)
Lemma run_send_turn E h dt s e : alone E -> fax_ready e s -> pending s <> [] ->
  exists s', run E h (send_turn dt tt s) =
    (Returned (inl tt) s', EngineSend e (take 1024 (pending s)) :: Acquire :: h) /\
    fax_ready e s' /\ dleData s' = dleData s <| stream := stream (dleData s) <| p_octets := drop 1024 (pending s) |> |>.
Proof.
  intros HE Hf Hp. unfold send_turn, bind_first, mbind, M_bind.
  rewrite run_bind, take_data_eq, pipe_get_octets by done. cbn [run].
  set (chunk := take 1024 (p_octets (stream (dleData s)))).
  assert (zlen chunk <> -1 /\ 0 < zlen chunk) as [H1 H2].
  { unfold chunk, pending in *. destruct (p_octets _); [done|]. simpl. lia. }
  cbn beta iota. unfold ask. cbn [bind_prog run]. unfold resume. cbn [releases]. rewrite HE.
  rewrite (proj2 (Z.eqb_neq _ _) H1), (proj2 (Z.eqb_neq (zlen chunk) 0)) by lia.
  rewrite run_bind.
  set (s1 := s <| dleData := _ |>).
  destruct (run_send_octets E (Acquire :: h) dt chunk e s1) as (s2 & -> & Hf2 & Hd2); [done|].
  rewrite (proj2 (Z.leb_gt (zlen chunk) 0)) by lia. exists s2. split; [done|]. split; [done|]. by rewrite Hd2.
Qed.

Lemma same_stream s : s <| dleData := dleData s <| stream := stream (dleData s) |> |> = s.
Proof. destruct s as []. cbn. by destruct dleData. Qed.

Lemma pipe_none_eof s : pending s = [] -> pipe_get (stream (dleData s)) 1024 =
  (if at_end s then -1 else 0, [], stream (dleData s)).
Proof. apply pipe_get_none. Qed.

(** The last turn, with the end of the data or without. *)
Lemma run_idle_turn E h dt s : alone E -> pending s = [] -> at_end s = false ->
  run E h (send_turn dt tt s) = (Returned (inr tt) s, Acquire :: h).
Proof.
  intros HE Hp He. unfold send_turn, bind_first, mbind, M_bind.
  rewrite run_bind, take_data_eq, pipe_none_eof, He by done. cbn. unfold resume. cbn. by rewrite HE, same_stream.
Qed.

Lemma run_SetState E h st s : state s <> st ->
  run E h (SetState st s) = (Returned tt (s <| state := st |> <| subState := 0 |>), TraceState :: h).
Proof.
  intros H. unfold SetState, SetState_sub, bind_first, mbind, M_bind. rewrite run_bind. cbn [run getM].
  rewrite (bool_decide_eq_false_2 _ H). simpl.
  by destruct (reply E h TraceState _).
Qed.

(** The engine is told to stop, once, and the state is left. *)
Lemma run_stop_sending E h e s : fax_ready e s ->
  exists h' s', run E h (stop_sending s) = (Returned tt s', h') /\
    sent h' = sent h /\ stops h' = S (stops h) /\ state s' <> stSend.
Proof.
  intros (Hst & Hc & He). unfold stop_sending, with_engine, bind_first, mbind, M_bind.
  rewrite run_bind, (run_SetState _ _ stSendAckWait) by (by rewrite Hst; intros [=]).
  rewrite run_bind. set (s1 := s <| state := stSendAckWait |> <| subState := 0 |>).
  rewrite run_bind. cbn [run gets]. change (currentClassEngine s1) with (currentClassEngine s). rewrite He.
  rewrite run_bind. cbn [run gets]. rewrite run_bind.
  set (s2 := s1 <| seqno := (seqno s1 + 1) .& cbpUserDataMask |>).
  change (run E (TraceState :: h) (NextSeq s1)) with (@Returned Z (seqno s2) s2, TraceState :: h).
  cbn [run ask]. set (c := EngineSendStop e _ _). change (resume E (TraceState :: h) c s2) with s2.
  destruct (reply E (TraceState :: h) c s2 : bool); simpl whenM.
  - do 2 eexists. split; [done|]. by repeat split.
  - simpl. destruct (reply E _ SignalDataReady _). do 2 eexists. split; [reflexivity|]. by repeat split.
Qed.

Lemma run_stop_turn E h dt s e : alone E -> fax_ready e s -> pending s = [] -> at_end s = true ->
  exists h' s', run E h (send_turn dt tt s) = (Returned (inr tt) s', h') /\
    sent h' = sent h /\ stops h' = S (stops h) /\ state s' <> stSend.
Proof.
  intros HE Hf Hp He. unfold send_turn, bind_first, mbind, M_bind.
  rewrite run_bind, take_data_eq, pipe_none_eof, He by done. cbn [run]. rewrite same_stream.
  cbn beta iota. unfold ask. cbn [bind_prog run]. unfold resume. cbn [releases]. rewrite HE.
  cbn [Z.eqb Pos.eqb]. rewrite run_bind. unfold mbind, M_bind. rewrite run_bind.
  destruct (run_stop_sending E (Acquire :: h) e s Hf) as (h' & s' & -> & Hs & Hn & Hst).
  exists h', s'. done.
Qed.

(** ** The loop *)

(** What has been sent, and in which state it has ended. *)
Lemma run_send_loop E dt e : alone E -> forall n h s, fax_ready e s -> (length (pending s) < n)%nat ->
  exists h' s', run E h (turns n (send_turn dt) tt s) = (Returned tt s', h') /\
    sent h' = sent h ++ pending s /\
    stops h' = ((if at_end s then 1 else 0) + stops h)%nat /\
    (if at_end s then state s' <> stSend else fax_ready e s' /\
       dleData s' = dleData s <| stream := stream (dleData s) <| p_octets := [] |> |>).
Proof.
  intros HE n. induction n as [|n IH]; intros h s Hf Hn; [lia|]. cbn [turns]. unfold bind_first, mbind, M_bind.
  rewrite run_bind. destruct (decide (pending s = [])) as [Hp|Hp].
  - destruct (at_end s) eqn:He.
    + destruct (run_stop_turn E h dt s e HE Hf Hp He) as (h' & s' & -> & Hs & Hc & Hst).
      exists h', s'. cbn. by rewrite Hs, Hp, app_nil_r.
    + rewrite (run_idle_turn E h dt s HE Hp He). exists (Acquire :: h), s. cbn. rewrite Hp, app_nil_r.
      split_and!; try done. rewrite <- (same_stream s) at 1. unfold pending in Hp. destruct (dleData s) as [st ? ? ?].
      destruct st as []. cbn in *. by subst.
  - destruct (run_send_turn E h dt s e HE Hf Hp) as (s1 & -> & Hf1 & Hd1).
    destruct (IH (EngineSend e (take 1024 (pending s)) :: Acquire :: h) s1 Hf1) as (h' & s' & -> & Hs & Hc & Hst).
    { unfold pending in *. rewrite Hd1. cbn. rewrite length_drop. destruct (p_octets _); [done|]. simpl in *. lia. }
    exists h', s'. split; [done|].
    assert (pending s1 = drop 1024 (pending s)) as Ep by (unfold pending; by rewrite Hd1).
    assert (at_end s1 = at_end s) as Ea by (unfold at_end; by rewrite Hd1).
    rewrite Ea in *. split_and!; [|done|].
    + rewrite Hs, Ep. cbn [sent]. by rewrite <- app_assoc, take_drop.
    + destruct (at_end s); [done|]. destruct Hst as [? ->]. split; [done|]. by rewrite Hd1.
Qed.

(** ** The data of a call *)

Lemma unshield_suffix q l : let '(out, _, e) := unshield q l in
  (length out <= length l)%nat /\ (forall r, e = Some r -> exists l1, l = l1 ++ r).
Proof.
  revert q. induction l as [|b l IH]; intros q; cbn [unshield]; [by split; [lia|]|].
  pose proof (IH true) as I1. pose proof (IH false) as I0.
  destruct (unshield true l) as [[o1 q1] e1], (unshield false l) as [[o0 q0] e0].
  destruct I1 as [L1 S1], I0 as [L0 S0].
  assert (forall e r, (forall r, e = Some r -> exists l1, l = l1 ++ r) -> e = Some r ->
    exists l1, b :: l = l1 ++ r) as Hcons.
  { intros e r He E. destruct (He r E) as [l1 ->]. by exists (b :: l1). }
  destruct q, (b =? DLE), (b =? ETX); cbn; (split; [lia|]); eauto;
    intros r [= <-]; by exists [b].
Qed.

Lemma PutDleData_unshield d buf : p_eof (stream d) = false ->
  (bitRev d = false \/ (length buf <= 1024)%nat) ->
  let '(out, q, e) := unshield (dle d) buf in
  PutDleData d buf = (zlen buf - zlen (default [] e), received d out q (match e with Some _ => true | None => false end)).
Proof.
  intros He Hr. unfold PutDleData, pipe_put. rewrite He. cbn [fst length Z.of_nat Z.ltb Z.compare].
  rewrite put_dle_loop_spec by done. destruct (unshield _ _) as [[out q] [r|]]; done.
Qed.

(** C14: the octets of the modem's user in [stSend], with a fax engine and no other
    handler: the engine gets them in their order with the shielding taken off and the
    bits in the order the class wants; without DLE ETX the state stays [stSend] and
    remembers a pending DLE; with it the engine is told to stop, once, the state is
    left, and what follows the end is returned for the next turn. *)
Theorem fax_data_sent E h e s buf :
  alone E -> fax_ready e s -> pending s = [] -> at_end s = false ->
  bitRev (dleData s) = false \/ (length buf <= 1024)%nat ->
  (forall h s, length buf < reply E h Turns s)%nat ->
  let '(out, q, etx) := unshield (dle (dleData s)) buf in
  exists h' s', run E h (data_send buf s) = (Returned (default [] etx) s', h') /\
    sent h' = sent h ++ map (rev_octet (bitRev (dleData s))) out /\
    match etx with
    | Some _ => stops h' = S (stops h) /\ state s' <> stSend
    | None => stops h' = stops h /\ fax_ready e s' /\ pending s' = [] /\ dle (dleData s') = q
    end.
Proof.
  intros HE Hf Hp He Hr Ht. pose proof (PutDleData_unshield (dleData s) buf He Hr) as Hput.
  pose proof (unshield_suffix (dle (dleData s)) buf) as Hsuf.
  destruct (unshield (dle (dleData s)) buf) as [[out q] etx]. destruct Hsuf as [Hl Hsuf].
  set (ended := match etx with Some _ => true | None => false end) in *.
  unfold data_send, bind_first, mbind, M_bind. rewrite run_bind. cbn [run AtText.step ModemBase.gets]. rewrite Hput.
  set (s1 := s <| dleData := received (dleData s) out q ended |>).
  rewrite run_bind. cbn [run modify]. fold s1. rewrite run_bind. cbn [run ask]. unfold resume at 1. cbn [releases].
  rewrite HE, run_bind. cbn [run ModemBase.gets]. rewrite run_bind. unfold loop, bind_first, mbind, M_bind.
  rewrite run_bind. cbn [run ask]. unfold resume at 1. cbn [releases]. set (n := reply E (Unlocked :: h) Turns s1).
  set (o := map (rev_octet (bitRev (dleData s))) out).
  assert (pending s1 = o /\ at_end s1 = ended) as [Ep Ee].
  { unfold pending, at_end, s1, received in *. cbn. destruct ended; cbn; by rewrite ?Hp, ?He. }
  destruct (run_send_loop E (dataType s1) e HE n (Turns :: Unlocked :: h) s1 Hf) as (h' & s' & -> & Hs & Hc & Hst).
  { rewrite Ep. unfold o. rewrite length_map. specialize (Ht (Unlocked :: h) s1). unfold n. lia. }
  exists h', s'. rewrite Ep in Hs. rewrite Ee in Hc, Hst. cbn [run]. split_and!.
  - assert (drop (Z.to_nat (zlen buf - zlen (default [] etx))) buf = default [] etx) as ->; [|done].
    destruct etx as [r|]; [|by rewrite drop_ge by (simpl; lia)].
    destruct (Hsuf r eq_refl) as [l1 ->]. cbn [default from_option]. unfold id.
    replace (Z.to_nat (zlen (l1 ++ r) - zlen r)) with (length l1) by (rewrite length_app; lia).
    apply drop_app_length.
  - exact Hs.
  - destruct etx; [by split|]. destruct Hst as [Hf' Hd]. split; [done|]. split; [done|].
    unfold pending. rewrite Hd. by split.
Qed.

Definition faxing : modem :=
  no_modem <| state := stSend |> <| dataType := dtHdlc |> <| P := P no_modem <| ModemClassId := mcFax |> |>
    <| currentClassEngine := Some mceT38 |> <| activeEngines := pset mceT38 true (pall false) |>.

(** A DLE within the data, the end of it, and a command that follows. *)
Lemma fax_data_sent_witness : exists h' s',
  run quiet [] (data_send [0x41; DLE; DLE; 0x42; DLE; ETX; 0x61; 0x74] faxing) = (Returned [0x61; 0x74] s', h') /\
  sent h' = [0x41; DLE; 0x42] /\ stops h' = 1%nat /\ state s' <> stSend.
Proof.
  apply (fax_data_sent quiet [] mceT38 faxing [0x41; DLE; DLE; 0x42; DLE; ETX; 0x61; 0x74]); try done.
  - by left.
  - intros h s. simpl. lia.
Defined.
